(* ===== verification/_CoqProject ===== *)
-Q . S2P
Prelude.v
PyInt.v
Text.v
Buffer.v
Pcie.v
Command.v
Crc.v
Verify.v
Shared.v
Ledger.v
Lifecycle.v
Intr.v
Poll.v
Cmdlog.v
Service.v
Traffic.v
Psd.v
PsdTest.v
Recorder.v
Archive.v
Signature.v
StubApi.v
DriverApi.v
Api.v
Completion.v
Controller.v
Subsystem.v
Namespace.v
IOWorker.v
Generator.v
Loop.v
Tally.v
Report.v
Worker.v
Zns.v
