(* ===== verification/Prelude.v ===== *)
(** * Pynvme: a test driver for NVMe devices, verified

    Pynvme is a Python module for testing NVMe solid-state drives: Cython
    classes (src/src/driver_wrap.pyx) over a C layer (src/src/driver.c) over
    SPDK, an interface file for editors (src/nvme.py), and Python libraries
    built on the classes (src/scripts/).  A script makes a [Pcie], on it a
    [Controller], on that [Qpair]s and [Namespace]s; it sends commands with
    data in [Buffer]s and calls [waitdone], which polls the C layer, which runs
    the callbacks.  This library models that program and proves what it relies
    on.  All paths start at src/, the root of the repository.

    ** Conventions

    A Python integer is a [Z]; where Cython or a C type converts it, the
    conversion is in the model ([to_uint], [wrap] of PyInt.v) and raises
    [OverflowError] or wraps as that conversion does.  A method that cannot
    change state is a function into [res], a value or an exception
    ([pyexc]); one that can is a computation in [M S], state passing that keeps
    the state an exception leaves behind.  Arguments of a method keep their
    names and order; a default is a separate argument given at the call, or
    [option] for [None].  What lies outside src/ is an argument of the
    definitions that use it: the allocator, the device, the clock, SPDK's
    return codes.  Hypotheses on such arguments state documented behaviour and
    every one is discharged in a witness by a concrete function.

    ** The files

    - Prelude.v (this file): exceptions, results, the state monad, [foreach],
      assertions, invariants as [preserves], outcomes as [wp], the class [Mmio] (32-bit registers
      that refuse unaligned addresses), and their lemmas and tactics.
    - PyInt.v: integers of both languages, little-endian bytes, [range],
      [slice.indices], masks and shifts as arithmetic.
    - Text.v: strings, printed numbers, and what tells names apart.
    - Buffer.v: [class Buffer] and [buffer_init].  The state is the record
      [buffer]; [buffer_wf] is its invariant.
    - Pcie.v: [class Pcie] and the driver's configuration word.  Configuration
      space is the class [PciConfig], other processes and sysfs the state
      [host].
    - Command.v: every admin command of [Controller] and I/O command of
      [Namespace], from Python arguments to the 16 dwords given to SPDK, with
      the data path of [ns_cmd_io] and its block stamps.
    - Crc.v, Verify.v: the checksum table of a namespace (src/src/driver.c): its
      lock bits, the hooks that SPDK calls when a request is submitted and when
      it completes, the update after writes and the check of reads; Verify.v
      composes them with the write and read of Command.v.
    - Cmdlog.v: the clock of the driver and the command log of a queue pair: the
      ring of entries, the links between requests and entries as addresses in a
      memory [mem], the copy of an entry that is overwritten while its command
      is outstanding, and the dump.
    - Service.v: the probe of a controller, the names of the commands, the
      latest command of a queue pair, and the methods of the RPC server, with the
      command log of Cmdlog.v as text.
    - Traffic.v: the thread of the RPC server beside the threads and processes
      that send: their accesses to the counters and to the lists of controllers
      and of queue pairs as schedules of small steps.
    - Shared.v: the memory the processes share: the configuration word, the
      token counter and the checksum table of each namespace, from
      [driver_init] to [driver_fini], as memory zones reserved and looked up by
      name through the class [Memzone].  The state holds every process's
      pointers, so that a dangling one is an error of the model.  Ledger.v says
      what the callers keep to, without the pointers, and that it is enough.
    - Lifecycle.v: the [Pcie], [Controller], [Qpair] and [Namespace] objects of
      a script and the handles of SPDK they hold, with [nvme_init] and
      [nvme_fini] of src/src/driver.c.  SPDK is the class [Spdk] with its laws
      [SpdkOk]; objects are positions in lists, as several share a [Pcie]; a
      handle that SPDK took back is an error to use.  Proofs use [wp].
    - Intr.v: src/src/intr_mgt.c, MSI-X and MSI over configuration space
      ([PciConfig] of Pcie.v), and the interrupts of the queues.
    - Poll.v: what polls the queues in src/src/driver.c:
      [nvme_wait_completion_admin] with the interrupt of Intr.v, and
      [qpair_wait_completion], which sends again what the lock bits of Crc.v
      held back.
    - Psd.v: src/scripts/psd.py, queues built by the test in its own memory:
      PRP lists, entries and queues are objects of a heap, because they alias.
    - PsdTest.v: the tests of that file that work on the queues themselves: bursts
      from one command object, rounds over a whole queue, PRP lists.
    - Recorder.v: src/scripts/trace/recorder.py, from the lines of the kernel's
      trace to its files, and the sequences that
      src/scripts/trace/test_replayer.py makes of them.
    - Archive.v: the recorder's program over Recorder.v: its window, the series of
      recordings, the archive each leaves, and the replay of an archive.
    - Signature.v, StubApi.v, DriverApi.v, Api.v: Python's call binding, the
      signatures of src/nvme.py and of the Cython classes as data, and the
      comparison of the two.
    - Completion.v: [cmd_cb], [aer_cmd_cb] and both [waitdone]s, over the
      module's global flags; the environment is a list of polls.
    - Controller.v: registers (an instance of [Mmio]), [_nvme_init], identify
      data, [mdts], [supports], [downfw], the timeout.  Every action on the
      device goes into a trace.
    - Subsystem.v: power control, shutdown notification and subsystem reset,
      over Controller.v and the host flows of Pcie.v, with a common trace.
    - Namespace.v: identify data, LBA formats and [format], over Controller.v.
    - IOWorker.v: the parameters of [Namespace.ioworker], their packing for the
      worker process, the error it ends with, the percentile search.
    - Generator.v: what an I/O worker sends (src/src/ioworker.c): the adjusted
      arguments, the lookup tables, the opcode, size and LBA of each command.
      Random numbers are arguments.
    - Loop.v: [ioworker_entry] with its completion callback: contexts, the list
      of waiting commands, statistics, end conditions and report.  A turn of the
      loop is given the readings of the clock and the completions of SPDK; the
      step relation [lstep] is the same program for the proofs, and
      [loop_steps] relates the two.
    - Tally.v: what the counters of the loop add up to in every state.
    - Report.v: [class _IOWorker]: the messages of the script's process and the
      worker's through their queue as the step relation [pstep], what the worker
      sends back, and [close], which fills the script's containers.  Composed
      with IOWorker.v, Generator.v and Loop.v.
    - Worker.v: the worker process, [_IOWorker._ioworker]: its arrays, the
      objects of Lifecycle.v it opens under the lock of the workers, the common
      start, and the [finally] clause.  Which local variables have a value is
      part of the state [proc].
    - Zns.v: [class Zone] of src/scripts/zns.py, over Command.v, Namespace.v
      and IOWorker.v.

    ** What the theorems show

    - Verify and Crc: a block that was written is accepted when it is read back
      and any other data is reported, a read keeps its status exactly when its
      blocks agree with the table, locks exclude overlapping commands; where
      the 16-bit counts and wrapping products of the code break this.
    - Cmdlog: the log is a map from outstanding requests to their submissions,
      however often the ring wraps, and loses no memory; the dump prints the
      latest commands.
    - Service: the RPC view of a command log shows the latest commands as the
      console does, and where their times differ; which device a probe gives; the
      traffic that is reported; names of logs never clash.
    - Traffic: which interleavings of the server and the senders report the
      traffic exactly, and which read freed memory; a request ends.
    - Shared and Ledger: whatever the interleaving, processes that keep to the
      ledger follow no dangling pointer and fail no assertion; tokens never
      repeat; a namespace that was formatted gets a clear table, and what a
      worker that is started after a format can do to it.
    - Lifecycle: a script that deletes its queue pairs before it resets or
      closes their controller never makes the driver follow a dangling pointer;
      what a reset leaves, and which controllers cannot be reset.
    - Intr: after the set-up the interrupts of the queues behave as one cell
      per vector; the C search for a capability agrees with Pcie.v's; when the
      set-up aborts.
    - Poll: no completion of the admin queue is lost between a poll and the
      interrupt, a request that was held back is sent once its blocks are free.
    - Generator and Loop: a worker that the Python side creates gets its tables
      without a failing assertion, with every entry as often as its ratio; in a
      region that is aligned, and with no negative step, its commands stay in the
      region, and a sequential worker covers it once and in order (examples show
      what happens elsewhere); the counters of the loop are right in every
      reachable state, the loop ends, with exactly as many commands as asked but
      for the last line of a long sequence, and its list of commands holds the
      latest; the one array that a completion can overrun.
    - Report: from the parameters of the script to the result of [close], the
      counts and percentiles the script gets are those of the commands that
      completed; starting and closing a worker blocks only when the worker's
      process dies without a report; what [close] does with every report that
      fits, and with one of less than a second.
    - Worker: however a worker ends, it gives back its memory, its objects and
      the lock, and reports once; when workers start together.
    - Completion: [waitdone] cannot be re-entered from a callback, waits for as
      many commands as asked not counting AER completions, releases its flag
      however it ends, returns after exactly the polls it needs, and ends with
      the alarm it armed when too little completes;
      [Qpair.waitdone] never overshoots; both callback conventions and their
      exceptions.
    - Command: the LBA, count and flag fields, the packed admin fields and the
      log page offset and size are read back from the entry at the positions of
      the specification; writes stamp each block with its LBA and a fresh
      token and touch nothing else; what does not fit raises before anything
      is sent.
    - Controller: the order of the start-up sequence, the bound on its waits,
      the chunks of a firmware download.
    - Subsystem: what a reset, a power-off and a shutdown notification have
      done when they end, however they end; the wait for the shutdown ends.
    - Psd: a chain of PRP lists denotes the concatenation of its buffers, and
      the recursive search is its lookup; queue entries land in their slot,
      completions decode; which queues cannot work.
    - PsdTest: what a burst leaves in the queue and in its objects, which is not
      the same; a test that leaves its queue's memory; a PRP list is the same for
      the script that searches it and the device that reads it.
    - Recorder and Archive: a recorded trace is read back as the commands of each
      queue; from the clicks and lines of a series of recordings to the
      sequences the replayer runs for each trace file, in order while each
      recording takes less than 50 minutes.
    - Zns: a writing worker finds all zones of a super zone open and empty, on a
      device that resets only usable zones and opens as many as it has room for.
    - Pcie: the capability walk terminates and finds the capability, field
      writes are read-modify-write of one byte, clean-up ends within its bound,
      a reset that cannot clean up touches nothing.
    - Buffer: the invariant of every reachable buffer, slice and DSM range round
      trips, the part a failing write keeps, the fill pattern, the dump.
    - Namespace and IOWorker: the format flow with its timeout, the sanity of a
      created worker, one pass of a sequential worker, the percentile search,
      the error report.
    - Api: which methods of the interface file and the driver accept the same
      calls, which documented keywords do not exist, and that the calls the
      scripts make bind.

    Theorems whose comment has no number are further results of the same
    kind: encodings of the other commands, the fill pattern, queue creation,
    percentiles.

    ** Fuel and bounds

    Recursion that is not structural takes fuel.  [dump] has as much as its
    size, and is total for it.  [cap_loop] has 257 steps, more than a list of
    distinct offsets in the 256 bytes of configuration space can take.
    [find_buffer_by_offset]'s fuel is the depth of nested PRP lists; Python's
    recursion limit is its counterpart, and the refinement theorem asks for the
    depth of the list.  [wait_csts] ends because time goes on: the fuel
    that is enough is one more than the first turn in which the clock is past
    the deadline, and a clock that gets past every point in time has such a turn,
    however often it is read before.  A polling loop's fuel is the number of
    polls the environment still has and the milliseconds of the alarm; after the
    last poll a turn without completions takes a millisecond, so with the alarm
    armed no run is cut short, and with the alarm off the loop runs for ever.  The loop of a worker takes a list of turns;
    [loop_terminates] bounds the steps it can take.  [waitdone] calls itself for each AER
    completion it took in place of a command; its fuel bounds that depth.

    ** Not modelled

    The start of SPDK and of the thread of the RPC server in src/src/driver.c,
    and its lists and logs interleaved with the other threads;
    the drawing of the recorder's and replayer's pictures and windows;
    tests, fixtures and build files, except the tests of src/scripts/psd.py named
    above: the others send commands and compare the answers of a device. *)
From Stdlib Require Import ZArith Lia.
From stdpp Require Import base list numbers option strings.

(** ** Python exceptions and C failures

    Every way the modelled code can stop other than returning: the Python
    exception classes it raises (its own ones included), a failing C [assert]
    (the driver is built with [--enable-debug], so it aborts the process), an
    access of the C code outside the object it owns, and running out of the
    fuel given to a recursive definition. *)
Inductive pyexc :=
  | AssertionError | AttributeError | IndexError | KeyError | TypeError | ValueError
  | OverflowError | StructError | UnicodeError | MemoryError | SystemError
  | TimeoutError | FileExistsError | RecursionError | UnboundLocalError | ZeroDivisionError
  | NvmeEnumerateError | NvmeDeletionError | NvmeShutdownStatusTimeoutError
  | QpairCreationError | QpairDeletionError
  | NamespaceCreationError | NamespaceDeletionError
  | CAbort | COutOfBounds | OutOfFuel.

#[export] Instance pyexc_eq_dec : EqDecision pyexc.
Proof. solve_decision. Defined.

(** ** Results: a value or an exception *)
Inductive res (A : Type) :=
  | Ok (a : A)
  | Err (e : pyexc).
Arguments Ok {A} a.
Arguments Err {A} e.

#[export] Instance res_eq_dec {A} `{EqDecision A} : EqDecision (res A).
Proof. solve_decision. Defined.

#[export] Instance res_ret : MRet res := fun _ a => Ok a.
#[export] Instance res_bind : MBind res := fun _ _ k r =>
  match r with Ok a => k a | Err e => Err e end.

Lemma res_mapM_ok {A B} (f : A -> res B) (g : A -> B) (l : list A) :
  Forall (fun x => f x = Ok (g x)) l -> mapM f l = Ok (g <$> l).
Proof.
  induction 1 as [|x l Hx Hl IH]; [done|]. simpl. by rewrite Hx, IH.
Qed.

Lemma res_mapM_inv {A B} (f : A -> res B) (l : list A) : forall k,
  mapM f l = Ok k -> Forall2 (fun x y => f x = Ok y) l k.
Proof.
  induction l as [|x l IH]; intros k; cbn [mapM]; [by intros [= <-]|].
  destruct (f x) as [y|] eqn:E; [cbn [mbind res_bind]|done].
  destruct (mapM f l) as [k'|]; [|done]. cbn [mbind res_bind]. intros [= <-]. by constructor; [|apply IH].
Qed.

Lemma res_mapM_Forall2 {A B} (f : A -> res B) l k : Forall2 (fun x y => f x = Ok y) l k -> mapM f l = Ok k.
Proof. induction 1 as [|x y l k Hx _ IH]; [done|]. cbn [mapM]. by rewrite Hx, IH. Qed.

Definition is_ok {A} (r : res A) : bool :=
  match r with Ok _ => true | Err _ => false end.

(** [assert c] of Python, as a result. *)
Definition check (b : bool) (e : pyexc) : res unit :=
  if b then Ok tt else Err e.

(** ** Stateful code: the state survives an exception *)
Definition M (S A : Type) : Type := S -> res A * S.

#[export] Instance M_ret {S} : MRet (M S) := fun _ a s => (Ok a, s).
#[export] Instance M_bind {S} : MBind (M S) := fun _ _ k m s =>
  match m s with
  | (Ok a, s') => k a s'
  | (Err e, s') => (Err e, s')
  end.

Definition raise {S A} (e : pyexc) : M S A := fun s => (Err e, s).
Definition lift {S A} (r : res A) : M S A := fun s => (r, s).
Definition get {S} : M S S := fun s => (Ok s, s).
Definition gets {S A} (f : S -> A) : M S A := fun s => (Ok (f s), s).
Definition put {S} (s : S) : M S unit := fun _ => (Ok tt, s).
Definition modify {S} (f : S -> S) : M S unit := fun s => (Ok tt, f s).
Definition py_assert {S} (b : bool) : M S unit :=
  if b then mret tt else raise AssertionError.

(** [for x in l: body], stopping at the first exception. *)
Fixpoint foreach {S A} (body : A -> M S unit) (l : list A) : M S unit :=
  match l with
  | [] => mret tt
  | x :: l' => body x ;; foreach body l'
  end.

(** [enumerate(l)] from a starting index. *)
Fixpoint enumerate_from {A} (i : Z) (l : list A) : list (Z * A) :=
  match l with
  | [] => []
  | x :: l' => (i, x) :: enumerate_from (i + 1)%Z l'
  end.
Abbreviation enumerate := (enumerate_from 0%Z).

(** ** Memory-mapped registers

    What a controller promises to the code that uses its doorbells: 32-bit
    registers by byte address, where an address that is not a multiple of 4 is
    refused before the device is touched. *)
Class Mmio (C : Type) := {
  mmio_get : Z -> M C Z;
  mmio_set : Z -> Z -> M C unit;
  mmio_get_unaligned : forall a s, (a mod 4 <> 0)%Z -> mmio_get a s = (Err AssertionError, s);
  mmio_set_unaligned : forall a v s, (a mod 4 <> 0)%Z -> mmio_set a v s = (Err AssertionError, s)
}.

(** ** Invariants of stateful code *)
Definition preserves {S A} (I : S -> Prop) (m : M S A) : Prop :=
  forall s, I s -> I (snd (m s)).

Create HintDb py_inv.

Section MonadLemmas.
Context {S : Type}.

Lemma run_bind_ok {A B} (m : M S A) (k : A -> M S B) s a s' :
  m s = (Ok a, s') -> (m ≫= k) s = k a s'.
Proof. intros H. unfold mbind, M_bind. by rewrite H. Qed.

Lemma run_bind_err {A B} (m : M S A) (k : A -> M S B) s e s' :
  m s = (Err e, s') -> (m ≫= k) s = (Err e, s').
Proof. intros H. unfold mbind, M_bind. by rewrite H. Qed.

Lemma run_bind_inv {A B} (m : M S A) (k : A -> M S B) s b s'' :
  (m ≫= k) s = (Ok b, s'') ->
  exists a s', m s = (Ok a, s') /\ k a s' = (Ok b, s'').
Proof.
  unfold mbind, M_bind. destruct (m s) as [[a|e] s'] eqn:E; [eauto|discriminate].
Qed.

Lemma bind_ret_l {A B} (a : A) (k : A -> M S B) s : (mret a ≫= k) s = k a s.
Proof. reflexivity. Qed.

Lemma py_assert_bind {A} b (k : M S A) s :
  (py_assert b ;; k) s = if b then k s else (Err AssertionError, s).
Proof. by destruct b. Qed.

Lemma bind_assoc {A B C} (m : M S A) (f : A -> M S B) (g : B -> M S C) s :
  ((m ≫= f) ≫= g) s = (m ≫= (fun a => f a ≫= g)) s.
Proof. unfold mbind, M_bind. by destruct (m s) as [[?|?] ?]. Qed.

Lemma foreach_app {A} (body : A -> M S unit) l1 l2 s :
  foreach body (l1 ++ l2) s = (foreach body l1 ;; foreach body l2) s.
Proof.
  revert s. induction l1 as [|x l1 IH]; intros s; [done|]. simpl.
  rewrite bind_assoc. unfold mbind, M_bind. destruct (body x s) as [[?|?] ?]; [|done].
  rewrite IH. done.
Qed.

Lemma foreach_ext {A} (f g : A -> M S unit) l s :
  (forall x, f x = g x) -> foreach f l s = foreach g l s.
Proof.
  intros H. revert s. induction l as [|x l IH]; intros s; [done|]. cbn [foreach].
  unfold mbind, M_bind. rewrite H. by destruct (g x s) as [[?|?] ?].
Qed.

Variable I : S -> Prop.

Lemma preserves_ret {A} (a : A) : preserves I (mret a).
Proof. by intros s H. Qed.
Lemma preserves_raise {A} e : preserves I (raise e : M S A).
Proof. by intros s H. Qed.
Lemma preserves_lift {A} (r : res A) : preserves I (lift r).
Proof. by intros s H. Qed.
Lemma preserves_gets {A} (f : S -> A) : preserves I (gets f).
Proof. by intros s H. Qed.
Lemma preserves_get : preserves I get.
Proof. by intros s H. Qed.
Lemma preserves_assert b : preserves I (py_assert b).
Proof. by intros s H; destruct b. Qed.
Lemma preserves_modify f : (forall s, I s -> I (f s)) -> preserves I (modify f).
Proof. intros Hf s H. by apply Hf. Qed.
Lemma preserves_bind {A B} (m : M S A) (k : A -> M S B) :
  preserves I m -> (forall a, preserves I (k a)) -> preserves I (m ≫= k).
Proof.
  intros Hm Hk s H. unfold mbind, M_bind. specialize (Hm s H).
  destruct (m s) as [[a|e] s']; [by apply Hk|done].
Qed.
Lemma preserves_if {A} (b : bool) (m1 m2 : M S A) :
  preserves I m1 -> preserves I m2 -> preserves I (if b then m1 else m2).
Proof. by destruct b. Qed.
Lemma preserves_foreach {A} (body : A -> M S unit) l :
  (forall x, preserves I (body x)) -> preserves I (foreach body l).
Proof.
  intros Hb. induction l as [|x l IH]; [apply preserves_ret|].
  simpl. by apply preserves_bind.
Qed.
Lemma preserves_mapM {A B} (f : A -> M S B) l :
  (forall x, preserves I (f x)) -> preserves I (mapM f l).
Proof.
  intros Hb. induction l as [|x l IH]; simpl; [apply preserves_ret|].
  apply preserves_bind; [done|]. intros y. apply preserves_bind; [done|].
  intros ys. apply preserves_ret.
Qed.
End MonadLemmas.

#[export] Hint Resolve preserves_ret preserves_raise preserves_lift preserves_gets
  preserves_get preserves_assert preserves_modify preserves_bind preserves_if
  preserves_foreach preserves_mapM : py_inv.

(** ** Outcomes of stateful code

    [wp m Q s]: run from [s], [m] ends with a result and a state that satisfy
    [Q].  The rules follow the code from its first step, so that a proof about
    a long method reads like the method. *)
Definition wp {S A} (m : M S A) (Q : res A -> S -> Prop) (s : S) : Prop := Q (fst (m s)) (snd (m s)).

Section Outcomes.
Context {S : Type}.

Lemma wp_run {A} (m : M S A) Q s r s' : m s = (r, s') -> Q r s' -> wp m Q s.
Proof. unfold wp. by intros ->. Qed.

Lemma wp_mono {A} (m : M S A) (Q Q' : res A -> S -> Prop) s :
  wp m Q s -> (forall r s', Q r s' -> Q' r s') -> wp m Q' s.
Proof. unfold wp. auto. Qed.

Lemma wp_bind {A B} (m : M S A) (k : A -> M S B) Q s :
  wp m (fun r s' => match r with Ok a => wp (k a) Q s' | Err e => Q (Err e) s' end) s -> wp (m ≫= k) Q s.
Proof. unfold wp, mbind, M_bind. by destruct (m s) as [[a|e] s']. Qed.

Lemma wp_ret {A} (a : A) (Q : res A -> S -> Prop) s : Q (Ok a) s -> wp (mret a) Q s.
Proof. done. Qed.
Lemma wp_raise {A} e (Q : res A -> S -> Prop) s : Q (Err e) s -> wp (raise e) Q s.
Proof. done. Qed.
Lemma wp_lift {A} (a : res A) (Q : res A -> S -> Prop) s : Q a s -> wp (lift a) Q s.
Proof. done. Qed.
Lemma wp_get (Q : res S -> S -> Prop) s : Q (Ok s) s -> wp get Q s.
Proof. done. Qed.
Lemma wp_modify (f : S -> S) (Q : res unit -> S -> Prop) s : Q (Ok tt) (f s) -> wp (modify f) Q s.
Proof. done. Qed.
Lemma wp_assert b (Q : res unit -> S -> Prop) s :
  (b = true -> Q (Ok tt) s) -> (b = false -> Q (Err AssertionError) s) -> wp (py_assert b) Q s.
Proof. unfold wp. destruct b; cbn; auto. Qed.
End Outcomes.

(** [Forall] over an explicit list, one goal per element. *)
Tactic Notation "each" tactic3(t) := repeat (apply List.Forall_cons; [t|]); apply List.Forall_nil.

Lemma nth_insert_other {A} (l : list A) i j x d :
  i <> j -> nth j (<[i := x]> l) d = nth j l d.
Proof.
  intros H. rewrite !nth_lookup. by rewrite list_lookup_insert_ne.
Qed.
