(* ===== verification/PyInt.v ===== *)
(** * PyInt: Python integers, C integers, byte strings and slices

    The parts of the Python and C languages every component uses: conversion
    of an unbounded Python integer to a C integer of a given width (Cython
    raises [OverflowError]), wrap-around of C arithmetic, [int.to_bytes] and
    [int.from_bytes] in little-endian order, [range] and [slice.indices], and
    the lemmas that turn mask-and-shift expressions into arithmetic. *)
From Stdlib Require Import ZArith Lia.
From stdpp Require Import base list numbers.
From S2P Require Import Prelude.
Local Open Scope Z_scope.

(** ** C integers *)

(** Value [v] of a [w]-bit unsigned C integer after wrap-around. *)
Definition wrap (w v : Z) : Z := v mod 2 ^ w.

(** Conversion of a Python integer to an unsigned C integer of [w] bits. *)
Definition to_uint (w v : Z) : res Z :=
  if (0 <=? v) && (v <? 2 ^ w) then Ok v else Err OverflowError.

(** ** Bytes *)
Definition is_byte (b : Z) : Prop := 0 <= b < 256.

(** [int.to_bytes(n, 'little')] without its range check, and
    [int.from_bytes(l, 'little')]. *)
Fixpoint le_bytes (n : nat) (z : Z) : list Z :=
  match n with
  | O => []
  | S n' => z mod 256 :: le_bytes n' (z / 256)
  end.

Fixpoint from_le (l : list Z) : Z :=
  match l with
  | [] => 0
  | b :: l' => b + 256 * from_le l'
  end.

Definition to_bytes (n : nat) (z : Z) : res (list Z) :=
  if (0 <=? z) && (z <? 256 ^ Z.of_nat n) then Ok (le_bytes n z) else Err OverflowError.

Lemma length_le_bytes n z : length (le_bytes n z) = n.
Proof. revert z. induction n; simpl; auto. Qed.

Lemma le_bytes_are_bytes n z : Forall is_byte (le_bytes n z).
Proof.
  revert z. induction n; simpl; constructor; auto.
  apply Z.mod_pos_bound. lia.
Qed.

Lemma from_le_bound l : Forall is_byte l -> 0 <= from_le l < 256 ^ Z.of_nat (length l).
Proof.
  induction 1 as [|b l Hb Hl IH]; cbn [from_le length]; [lia|].
  rewrite Nat2Z.inj_succ, Z.pow_succ_r by lia. unfold is_byte in Hb. lia.
Qed.

Lemma from_le_le_bytes n z : from_le (le_bytes n z) = z mod 256 ^ Z.of_nat n.
Proof.
  revert z. induction n as [|n IH]; intros z; cbn [from_le le_bytes].
  - by rewrite Z.mod_1_r.
  - rewrite IH, Nat2Z.inj_succ, Z.pow_succ_r by lia.
    rewrite Z.rem_mul_r; lia.
Qed.

Lemma from_le_le_bytes_small n z :
  0 <= z < 256 ^ Z.of_nat n -> from_le (le_bytes n z) = z.
Proof. intros H. rewrite from_le_le_bytes. by apply Z.mod_small. Qed.

Lemma le_bytes_from_le l : Forall is_byte l -> le_bytes (length l) (from_le l) = l.
Proof.
  induction 1 as [|b l Hb Hl IH]; [done|]. cbn [length from_le le_bytes].
  unfold is_byte in Hb.
  assert (Hm : (b + 256 * from_le l) mod 256 = b).
  { rewrite Z.mul_comm, Z.mod_add by lia. apply Z.mod_small. lia. }
  assert (Hd : (b + 256 * from_le l) / 256 = from_le l).
  { rewrite Z.mul_comm, Z.div_add by lia. rewrite Z.div_small; lia. }
  by rewrite Hm, Hd, IH.
Qed.

Lemma from_le_app l1 l2 :
  from_le (l1 ++ l2) = from_le l1 + 256 ^ Z.of_nat (length l1) * from_le l2.
Proof.
  induction l1 as [|b l1 IH]; [simpl; lia|]. cbn [app from_le length].
  rewrite IH, Nat2Z.inj_succ, Z.pow_succ_r by lia. lia.
Qed.

Lemma to_bytes_ok n z :
  0 <= z < 256 ^ Z.of_nat n -> to_bytes n z = Ok (le_bytes n z).
Proof.
  intros H. unfold to_bytes.
  rewrite (proj2 (Z.leb_le _ _)), (proj2 (Z.ltb_lt _ _)) by lia. done.
Qed.

Lemma to_bytes_inv n z l :
  to_bytes n z = Ok l -> 0 <= z < 256 ^ Z.of_nat n /\ l = le_bytes n z.
Proof.
  unfold to_bytes. destruct (0 <=? z) eqn:E1, (z <? _) eqn:E2; simpl; try discriminate.
  intros [= <-]. split; [lia|done].
Qed.

Lemma wrap_small w n : 0 <= n < 2 ^ w -> wrap w n = n.
Proof. apply Z.mod_small. Qed.

Lemma to_uint_ok w v : 0 <= v < 2 ^ w -> to_uint w v = Ok v.
Proof.
  intros H. unfold to_uint.
  rewrite (proj2 (Z.leb_le _ _)), (proj2 (Z.ltb_lt _ _)) by lia. done.
Qed.

Lemma to_uint_inv w v v' : to_uint w v = Ok v' -> v' = v /\ 0 <= v < 2 ^ w.
Proof.
  unfold to_uint. destruct (0 <=? v) eqn:E1, (v <? _) eqn:E2; simpl; try discriminate.
  intros [= <-]. split; [done|lia].
Qed.

Lemma to_uint_err w v : ~ (0 <= v < 2 ^ w) -> to_uint w v = Err OverflowError.
Proof.
  intros H. unfold to_uint.
  destruct (0 <=? v) eqn:E1, (v <? _) eqn:E2; simpl; [lia|done..].
Qed.

#[global] Arguments le_bytes : simpl never.
#[global] Opaque le_bytes.

(** ** Masks and shifts as arithmetic *)

Lemma land_mask x n : 0 <= n -> Z.land x (2 ^ n - 1) = x mod 2 ^ n.
Proof. intros H. rewrite <- Z.land_ones by lia. by rewrite Z.ones_equiv, Z.sub_1_r. Qed.

Lemma land_1 x : Z.land x 1 = x mod 2.
Proof. apply (land_mask x 1). lia. Qed.
Lemma land_3 x : Z.land x 3 = x mod 4.
Proof. apply (land_mask x 2). lia. Qed.
Lemma land_7 x : Z.land x 7 = x mod 8.
Proof. apply (land_mask x 3). lia. Qed.
Lemma land_15 x : Z.land x 15 = x mod 16.
Proof. apply (land_mask x 4). lia. Qed.
Lemma land_255 x : Z.land x 255 = x mod 256.
Proof. apply (land_mask x 8). lia. Qed.
Lemma land_65535 x : Z.land x 65535 = x mod 65536.
Proof. apply (land_mask x 16). lia. Qed.
Lemma land_u32 x : Z.land x 0xffffffff = x mod 4294967296.
Proof. apply (land_mask x 32). lia. Qed.
Lemma shiftr_div x n : 0 <= n -> Z.shiftr x n = x / 2 ^ n.
Proof. apply Z.shiftr_div_pow2. Qed.
Lemma shiftl_mul x n : 0 <= n -> Z.shiftl x n = x * 2 ^ n.
Proof. apply Z.shiftl_mul_pow2. Qed.

(** Two fields that do not overlap: [|] is [+]. *)
Lemma land_disjoint a b n :
  0 <= n -> 0 <= a < 2 ^ n -> Z.land a (b * 2 ^ n) = 0.
Proof.
  intros Hn Ha. rewrite <- Z.shiftl_mul_pow2 by lia.
  apply Z.bits_inj'. intros i Hi. rewrite Z.land_spec, Z.bits_0.
  destruct (Z.lt_ge_cases i n) as [Hlt|Hge].
  - rewrite (Z.shiftl_spec_low b n i) by lia. apply andb_false_r.
  - rewrite <- (Z.mod_small a (2 ^ n)) by lia.
    by rewrite Z.mod_pow2_bits_high by lia.
Qed.

Lemma lor_add a b n :
  0 <= n -> 0 <= a < 2 ^ n -> Z.lor a (b * 2 ^ n) = a + b * 2 ^ n.
Proof.
  intros Hn Ha. pose proof (land_disjoint a b n Hn Ha) as H.
  rewrite <- Z.lxor_lor by done. symmetry. by apply Z.add_nocarry_lxor.
Qed.

Lemma lor_add_r a b n :
  0 <= n -> 0 <= a < 2 ^ n -> Z.lor (b * 2 ^ n) a = b * 2 ^ n + a.
Proof. intros. rewrite Z.lor_comm, lor_add by lia. lia. Qed.

(** A mask that keeps [n] bits from bit [k] on. *)
Lemma land_field x k n :
  0 <= k -> 0 <= n -> Z.land x (Z.shiftl (Z.ones n) k) = (x / 2 ^ k) mod 2 ^ n * 2 ^ k.
Proof.
  intros Hk Hn. rewrite <- Z.land_ones, <- Z.shiftr_div_pow2, <- Z.shiftl_mul_pow2 by lia.
  apply Z.bits_inj'. intros i Hi. rewrite Z.land_spec.
  destruct (Z.lt_ge_cases i k).
  - rewrite !Z.shiftl_spec_low by lia. apply andb_false_r.
  - rewrite !Z.shiftl_spec, Z.land_spec, Z.shiftr_spec by lia. by rewrite Z.sub_add.
Qed.

Lemma land_252 x : Z.land x 252 = (x / 4) mod 64 * 4.
Proof. apply (land_field x 2 6); lia. Qed.

Create Rewrite HintDb bits.
#[export] Hint Rewrite land_1 land_3 land_7 land_15 land_255 land_65535 land_u32 land_252 : bits.
#[export] Hint Rewrite shiftr_div shiftl_mul using lia : bits.

(** Turn masks and shifts by constants into [mod], [/] and [*], evaluate the
    powers of two, and finish by linear arithmetic. *)
Ltac eval_pow :=
  repeat match goal with
  | |- context [2 ^ Zpos ?p] =>
      let v := eval vm_compute in (2 ^ Zpos p) in change (2 ^ Zpos p) with v
  | H : context [2 ^ Zpos ?p] |- _ =>
      let v := eval vm_compute in (2 ^ Zpos p) in change (2 ^ Zpos p) with v in H
  | |- context [256 ^ Z.of_nat ?n] =>
      let v := eval vm_compute in (256 ^ Z.of_nat n) in change (256 ^ Z.of_nat n) with v
  | H : context [256 ^ Z.of_nat ?n] |- _ =>
      let v := eval vm_compute in (256 ^ Z.of_nat n) in change (256 ^ Z.of_nat n) with v in H
  end.

Ltac divmod := Z.div_mod_to_equations; lia.
Ltac bits := autorewrite with bits in *; eval_pow; try divmod.

(** Decide the integer comparisons of the goal that the context settles. *)
Ltac zbool1 :=
  match goal with
  | |- context [?a <=? ?b] =>
      first [rewrite (proj2 (Z.leb_le a b)) by lia | rewrite (proj2 (Z.leb_gt a b)) by lia]
  | |- context [?a <? ?b] =>
      first [rewrite (proj2 (Z.ltb_lt a b)) by lia | rewrite (proj2 (Z.ltb_ge a b)) by lia]
  | |- context [?a =? ?b] =>
      first [rewrite (proj2 (Z.eqb_eq a b)) by lia | rewrite (proj2 (Z.eqb_neq a b)) by lia]
  end.
Ltac zbool := repeat (zbool1; cbn [andb orb negb]).

(** Turn the boolean comparisons of the hypotheses into arithmetic facts. *)
Ltac zbool_hyps :=
  repeat match goal with
  | H : (_ && _)%bool = true |- _ => apply andb_true_iff in H as [? ?]
  | H : (_ || _)%bool = false |- _ => apply orb_false_iff in H as [? ?]
  | H : negb _ = true |- _ => apply negb_true_iff in H
  | H : negb _ = false |- _ => apply negb_false_iff in H
  | H : (_ <=? _) = true |- _ => apply Z.leb_le in H
  | H : (_ <=? _) = false |- _ => apply Z.leb_gt in H
  | H : (_ <? _) = true |- _ => apply Z.ltb_lt in H
  | H : (_ <? _) = false |- _ => apply Z.ltb_ge in H
  | H : (_ =? _) = true |- _ => apply Z.eqb_eq in H
  | H : (_ =? _) = false |- _ => apply Z.eqb_neq in H
  end.

(** Symbolic execution of a monadic definition. *)
Ltac mrun := unfold mbind, M_bind, res_bind, mret, M_ret, res_ret, raise, lift, get, gets,
  put, modify, py_assert, check in *.

(** Reduce the matches that symbolic execution has decided. *)
Ltac mred := cbv beta iota zeta; cbn [fst snd].

(** ** Slices and ranges *)

(** [range(start, stop, step)] for a non-zero step. *)
Definition range_len (start stop step : Z) : Z :=
  if 0 <? step then Z.max 0 ((stop - start + step - 1) / step)
  else Z.max 0 ((start - stop - step - 1) / (- step)).

Definition py_range (start stop step : Z) : list Z :=
  (fun i => start + Z.of_nat i * step) <$> seq 0 (Z.to_nat (range_len start stop step)).

(** A [slice] object: each part is an integer or [None]. *)
Record slice := mk_slice { s_start : option Z; s_stop : option Z; s_step : option Z }.

(** [slice.indices(len)]: CPython's clamping of the three parts. *)
Definition slice_indices (sl : slice) (len : Z) : res (Z * Z * Z) :=
  let step := default 1 (s_step sl) in
  if step =? 0 then Err ValueError
  else
    let lower := if step <? 0 then -1 else 0 in
    let upper := if step <? 0 then len - 1 else len in
    let clamp v := if v <? 0 then Z.max (v + len) lower else Z.min v upper in
    let start := match s_start sl with
                 | None => if step <? 0 then upper else lower
                 | Some v => clamp v end in
    let stop := match s_stop sl with
                | None => if step <? 0 then lower else upper
                | Some v => clamp v end in
    Ok (start, stop, step).

(** [l[start:stop]] of a list for non-negative bounds. *)
Definition sub_list {A} (start len : Z) (l : list A) : list A :=
  take (Z.to_nat len) (drop (Z.to_nat start) l).

Lemma elem_of_py_range i start stop step :
  step <> 0 -> i ∈ py_range start stop step ->
  if 0 <? step then start <= i < stop else stop < i <= start.
Proof.
  intros Hs. unfold py_range, range_len. rewrite list_elem_of_fmap.
  intros (k & -> & Hk%elem_of_seq).
  destruct (Z.ltb_spec 0 step) as [Hp|Hn].
  - assert (0 < (stop - start + step - 1) / step) by lia.
    assert (Z.of_nat k < (stop - start + step - 1) / step) by lia.
    pose proof (Z.mul_div_le (stop - start + step - 1) step Hp). nia.
  - assert (Hm : 0 < - step) by lia.
    assert (Z.of_nat k < (start - stop - step - 1) / - step) by lia.
    pose proof (Z.mul_div_le (start - stop - step - 1) (- step) Hm). nia.
Qed.

Lemma slice_indices_in_bounds sl len start stop step i :
  0 <= len -> slice_indices sl len = Ok (start, stop, step) ->
  i ∈ py_range start stop step -> 0 <= i < len.
Proof.
  unfold slice_indices. intros Hlen H Hi.
  destruct (Z.eqb_spec (default 1 (s_step sl)) 0) as [|Hs]; [done|].
  injection H as <- <- <-.
  apply elem_of_py_range in Hi; [|done].
  destruct (Z.ltb_spec 0 (default 1 (s_step sl))),
    (Z.ltb_spec (default 1 (s_step sl)) 0); try lia;
    destruct (s_start sl) as [a|], (s_stop sl) as [b|];
    repeat match type of Hi with context [Z.ltb ?x 0] => destruct (Z.ltb_spec x 0) end; lia.
Qed.

Lemma py_range_step1 start n :
  py_range start (start + Z.of_nat n) 1 = (fun i => start + Z.of_nat i) <$> seq 0 n.
Proof.
  unfold py_range, range_len. simpl.
  replace (Z.to_nat (Z.max 0 ((start + Z.of_nat n - start + 1 - 1) / 1))) with n
    by (rewrite Z.div_1_r; lia).
  apply list_fmap_ext. intros. lia.
Qed.
