(* ===== verification/Text.v ===== *)
(** * Text: strings and printed numbers

    The conversions of [printf] and the lemmas on strings that the names of
    memory zones (Shared.v, Service.v), the trace files (Recorder.v) and the
    messages of the driver (Service.v) share. *)
From Stdlib Require Import ZArith Lia ZifyBool Ascii String.
From stdpp Require Import base list numbers option strings.
From S2P Require Import Prelude PyInt.
Local Open Scope Z_scope.

(** ** Numbers *)
Definition digit (d : Z) : ascii := ascii_of_nat (Z.to_nat (if d <? 10 then 48 + d else 87 + d)).

Fixpoint digits (fuel : nat) (base n : Z) : string :=
  match fuel with
  | O => ""
  | S fuel' =>
      if n <? base then String (digit n) ""
      else (digits fuel' base (n / base) +:+ String (digit (n mod base)) "")%string
  end.

(** [%d] of an [int] and [%lx]. *)
Definition print_d (n : Z) : string :=
  if n <? 0 then ("-" +:+ digits 10 10 (- n))%string else digits 10 10 n.
Definition print_lx (n : Z) : string := digits 16 16 n.

(** [s] with leading zeros, for [%06ld], [%03d] and [%08x]. *)
Fixpoint zero_chars (n : nat) : string := match n with O => "" | S n' => String "0" (zero_chars n') end.
Definition pad (width : nat) (s : string) : string := (zero_chars (width - String.length s) +:+ s)%string.

(** ** Strings *)
Fixpoint occurs_in (c : ascii) (s : string) : bool :=
  match s with
  | "" => false
  | String d s' => Ascii.eqb d c || occurs_in c s'
  end%string.

Lemma cons_app c s1 s2 : (String c s1 +:+ s2 = String c (s1 +:+ s2))%string.
Proof. reflexivity. Qed.
Lemma nil_app s : ("" +:+ s = s)%string.
Proof. reflexivity. Qed.

Lemma occurs_in_app c s1 s2 : occurs_in c (s1 +:+ s2) = occurs_in c s1 || occurs_in c s2.
Proof. induction s1 as [|d s1 IH]; [done|]. rewrite cons_app. cbn [occurs_in]. by rewrite IH, orb_assoc. Qed.

Lemma string_length_app s1 s2 : String.length (s1 +:+ s2) = (String.length s1 + String.length s2)%nat.
Proof. induction s1 as [|c s1 IH]; [done|]. rewrite cons_app. cbn. by f_equal. Qed.

(** The part before the first [c]. *)
Lemma split_first c s1 : forall s2 r1 r2, occurs_in c s1 = false -> occurs_in c s2 = false ->
  (s1 +:+ String c r1 = s2 +:+ String c r2)%string -> s1 = s2 /\ r1 = r2.
Proof.
  induction s1 as [|d s1 IH]; intros [|e s2] r1 r2 H1 H2; rewrite ?cons_app, ?nil_app; cbn in H1, H2; intros [=]; subst.
  - done.
  - by rewrite Ascii.eqb_refl in H2.
  - by rewrite Ascii.eqb_refl in H1.
  - apply orb_false_elim in H1 as [_ H1], H2 as [_ H2].
    destruct (IH s2 r1 r2) as [-> ->]; done.
Qed.

Lemma digit_cases d : 0 <= d < 16 -> exists k : nat, (k < 16)%nat /\ d = Z.of_nat k.
Proof. intros. exists (Z.to_nat d). lia. Qed.

Lemma digit_spec d : 0 <= d < 16 ->
  Ascii.eqb (digit d) "_" = false /\ Ascii.eqb (digit d) "-" = false.
Proof.
  intros (k & Hk & ->)%digit_cases.
  do 16 (destruct k as [|k]; [by vm_compute|]). lia.
Qed.

Lemma digit_inj d e : 0 <= d < 16 -> 0 <= e < 16 -> digit d = digit e -> d = e.
Proof.
  intros (k & Hk & ->)%digit_cases (m & Hm & ->)%digit_cases H. f_equal.
  assert (E : forallb (fun k => forallb (fun m =>
    negb (Ascii.eqb (digit (Z.of_nat k)) (digit (Z.of_nat m))) || Nat.eqb k m) (seq 0 16)) (seq 0 16) = true)
    by (by vm_compute).
  rewrite forallb_forall in E. specialize (E k ltac:(apply in_seq; lia)).
  rewrite forallb_forall in E. specialize (E m ltac:(apply in_seq; lia)).
  rewrite H, Ascii.eqb_refl in E. by apply Nat.eqb_eq.
Qed.

Lemma digits_chars c fuel base n : (c = "_" \/ c = "-")%char -> 2 <= base <= 16 -> 0 <= n ->
  occurs_in c (digits fuel base n) = false.
Proof.
  intros Hc Hb. revert n. induction fuel as [|fuel IH]; intros n Hn; cbn [digits]; [done|].
  assert (Hd : forall d, 0 <= d < base -> Ascii.eqb (digit d) c = false).
  { intros d Hd. destruct (digit_spec d ltac:(lia)) as [H1 H2]. by destruct Hc as [-> | ->]. }
  destruct (Z.ltb_spec n base) as [H|H].
  - cbn. rewrite Hd by lia. done.
  - rewrite occurs_in_app, IH by (apply Z.div_pos; lia). cbn.
    rewrite Hd by (apply Z.mod_pos_bound; lia). done.
Qed.

Lemma digits_length fuel base n : (String.length (digits fuel base n) <= fuel)%nat.
Proof.
  revert n. induction fuel as [|fuel IH]; intros n; cbn [digits]; [done|].
  destruct (n <? base); cbn; [lia|]. rewrite string_length_app. cbn. specialize (IH (n / base)). lia.
Qed.

Lemma app_last s1 s2 c d : (s1 +:+ String c "" = s2 +:+ String d "")%string -> s1 = s2 /\ c = d.
Proof.
  revert s2. induction s1 as [|x s1 IH]; intros [|y s2]; rewrite ?cons_app, ?nil_app; intros [=]; subst.
  - done.
  - by destruct s2.
  - by destruct s1.
  - destruct (IH s2) as [-> ->]; done.
Qed.

Lemma digits_nonempty fuel base n : digits (Datatypes.S fuel) base n <> ""%string.
Proof. cbn. destruct (n <? base); [done|]. by destruct (digits fuel base (n / base)). Qed.

Lemma digits_inj base : 2 <= base <= 16 -> forall fuel n m,
  0 <= n < base ^ Z.of_nat fuel -> 0 <= m < base ^ Z.of_nat fuel ->
  digits fuel base n = digits fuel base m -> n = m.
Proof.
  intros Hb. induction fuel as [|fuel IH]; intros n m Hn Hm He.
  { change (base ^ Z.of_nat 0) with 1 in *. lia. }
  rewrite Nat2Z.inj_succ, Z.pow_succ_r in Hn, Hm by lia. cbn [digits] in He.
  assert (Hq : forall k, 0 <= k < base * base ^ Z.of_nat fuel -> 0 <= k / base < base ^ Z.of_nat fuel).
  { intros k Hk. split; [apply Z.div_pos; lia|]. apply Z.div_lt_upper_bound; lia. }
  assert (Hlong : forall k e, base <= k < base * base ^ Z.of_nat fuel ->
            (digits fuel base (k / base) +:+ String e "" <> String (digit n) "")%string
            /\ (digits fuel base (k / base) +:+ String e "" <> String (digit m) "")%string).
  { intros k e Hk. destruct fuel as [|f]; [change (base ^ Z.of_nat 0) with 1 in Hk; lia|].
    pose proof (digits_nonempty f base (k / base)) as Hne.
    destruct (digits (Datatypes.S f) base (k / base)) as [|x s]; [done|].
    split; rewrite cons_app; intros [= _ E]; by destruct s. }
  destruct (Z.ltb_spec n base), (Z.ltb_spec m base).
  - injection He as He. apply digit_inj; [lia..|done].
  - destruct (Hlong m (digit (m mod base))) as [Hne _]; [lia|]. by destruct Hne.
  - destruct (Hlong n (digit (n mod base))) as [_ Hne]; [lia|]. by destruct Hne.
  - apply app_last in He as [He1 He2]. apply IH in He1; [|by apply Hq..].
    apply digit_inj in He2; [|split; [apply Z.mod_pos_bound; lia|pose proof (Z.mod_pos_bound n base); lia]
                             |split; [apply Z.mod_pos_bound; lia|pose proof (Z.mod_pos_bound m base); lia]].
    rewrite (Z.div_mod n base), (Z.div_mod m base) by lia. by rewrite He1, He2.
Qed.

Lemma print_d_inj n m : - 2 ^ 31 <= n < 2 ^ 31 -> - 2 ^ 31 <= m < 2 ^ 31 -> print_d n = print_d m -> n = m.
Proof.
  assert (Hp : 2 ^ 31 < 10 ^ Z.of_nat 10) by (by vm_compute).
  assert (Hminus : forall k s, 0 <= k -> digits 10 10 k <> ("-" +:+ s)%string).
  { intros k s Hk E. pose proof (digits_chars "-" 10 10 k ltac:(by right) ltac:(lia) Hk) as Ho.
    by rewrite E, occurs_in_app in Ho. }
  intros Hn Hm. unfold print_d. destruct (Z.ltb_spec n 0), (Z.ltb_spec m 0).
  - intros E%(inj (String.append "-")). apply digits_inj in E; lia.
  - intros E. symmetry in E. by apply Hminus in E.
  - intros E. by apply Hminus in E.
  - intros E. apply digits_inj in E; lia.
Qed.

Lemma print_d_chars n : occurs_in "_" (print_d n) = false.
Proof.
  unfold print_d. destruct (Z.ltb_spec n 0); [rewrite occurs_in_app; cbn [occurs_in]|];
    rewrite digits_chars by (auto || lia); done.
Qed.

Lemma print_d_length n : (String.length (print_d n) <= 11)%nat.
Proof.
  unfold print_d. destruct (n <? 0); rewrite ?string_length_app.
  - pose proof (digits_length 10 10 (- n)). cbn [String.length]. lia.
  - pose proof (digits_length 10 10 n). lia.
Qed.

Lemma substring_all n s : (String.length s <= n)%nat -> String.substring 0 n s = s.
Proof.
  revert n. induction s as [|c s IH]; intros [|n] Hl; cbn in *; [done..|lia|].
  by rewrite IH by lia.
Qed.

Lemma app_empty s : (s +:+ "" = s)%string.
Proof. induction s as [|c s IH]; [done|]. by rewrite cons_app, IH. Qed.

Lemma app_app s t u : ((s +:+ t) +:+ u = s +:+ (t +:+ u))%string.
Proof. induction s as [|c s IH]; [done|]. by rewrite !cons_app, IH. Qed.

Lemma app_snoc s c t : ((s +:+ String c "") +:+ t = s +:+ String c t)%string.
Proof. by rewrite app_app. Qed.

Lemma concat_cons s l : String.concat "" (s :: l) = (s +:+ String.concat "" l)%string.
Proof. destruct l; [by rewrite app_empty|done]. Qed.

Lemma concat_snoc l s : String.concat "" (l ++ [s]) = (String.concat "" l +:+ s)%string.
Proof. induction l as [|t l IH]; [done|]. by rewrite <- app_comm_cons, !concat_cons, IH, app_app. Qed.

Lemma app_cancel s t u : (s +:+ t = s +:+ u)%string -> t = u.
Proof. induction s as [|c s IH]; [done|]. rewrite !cons_app. intros [= H]. by apply IH. Qed.
