(* ===== verification/Buffer.v ===== *)
(** * Buffer: the DMA memory object of [src/src/driver_wrap.pyx]

    [class Buffer] with the C function [buffer_init] of [src/src/driver.c] that
    allocates and fills its memory.  The object's C attributes are the record
    [buffer]; a method is a computation in [M buffer], so a method that raises
    half way keeps the bytes it has written.  The allocator, the physical
    address translation and [/dev/urandom] are arguments. *)
From Stdlib Require Import ZArith Lia.
From stdpp Require Import base list numbers.
From S2P Require Import Prelude PyInt.
Local Open Scope Z_scope.

(** ** Data *)
Record buffer := mk_buffer {
  b_ptr : list Z;       (* the bytes at self.ptr *)
  b_size : Z;           (* self._size *)
  b_prp_size : Z;       (* self.prp_size *)
  b_name : list Z;      (* self.name, as character codes *)
  b_phys_addr : Z;      (* self.phys_addr *)
  b_offset : Z;         (* self.offset *)
  b_stray : list (Z * Z) (* bytes stored outside the memory, with their index, the last one last *)
}.

Definition with_ptr (p : list Z) (b : buffer) : buffer :=
  mk_buffer p (b_size b) (b_prp_size b) (b_name b) (b_phys_addr b) (b_offset b) (b_stray b).

Definition with_stray (l : list (Z * Z)) (b : buffer) : buffer :=
  mk_buffer (b_ptr b) (b_size b) (b_prp_size b) (b_name b) (b_phys_addr b) (b_offset b) l.

(** What a subscript can be: [isinstance] tells the three cases apart. *)
Inductive pyindex := IInt (i : Z) | ISlice (sl : slice) | IOther.

(** What a read gives back. *)
Inductive pyval := VInt (z : Z) | VBytes (l : list Z) | VStr (s : list Z).

(** The [type] argument of [data]. *)
Inductive pytype := TInt | TStr | TOther.

(** ** driver.c: buffer_init *)
Section BufferInit.
(** [spdk_dma_zmalloc] and [spdk_vtophys]: [None] when the allocation fails,
    otherwise the physical address of zeroed memory. *)
Variable dma_zmalloc : Z -> option Z.
(** The bytes [read(fd, buf, count)] gives from /dev/urandom. *)
Variable urandom : Z -> list Z.

Definition init_pattern (ptype pvalue : Z) : Z :=
  if ptype =? 0 then (if negb (pvalue =? 0) then 0xffffffff else 0)
  else if ptype =? 32 then pvalue
  else 0.

(** [for (uint32_t i=0; i<bytes/4; i++) ptr[i] = pattern]: the counter wraps
    before it reaches a bound of 2^32 or more, so the loop does not end. *)
Definition fill_pattern (bytes pattern : Z) (mem : list Z) : res (list Z) :=
  let n := bytes / 4 in
  if 2 ^ 32 <=? n then Err OutOfFuel
  else Ok (list_inserts 0 (concat (replicate (Z.to_nat n) (le_bytes 4 pattern))) mem).

Definition random_count (bytes pvalue : Z) : Z :=
  Z.min (wrap 32 (wrap 64 (bytes * pvalue) / 100)) bytes.

Definition buffer_init (bytes ptype pvalue : Z) : res (option (list Z * Z)) :=
  match dma_zmalloc bytes with
  | None => Ok None
  | Some phys =>
      let mem := replicate (Z.to_nat bytes) 0 in
      let pattern := init_pattern ptype pvalue in
      mem ← (if negb (pattern =? 0) then fill_pattern bytes pattern mem else Ok mem);
      if ptype =? 0xbeef then
        if pvalue <=? 100 then
          Ok (Some (list_inserts 0 (urandom (random_count bytes pvalue)) mem, phys))
        else Err CAbort
      else Ok (Some (mem, phys))
  end.

(** ** Buffer.__cinit__ *)
Definition c_string (s : list Z) : list Z :=
  take (default (length s) (fst <$> list_find (fun c => c = 0) s)) s.

Definition buffer_cinit (size : Z) (name : list Z) (pvalue ptype : Z) : res buffer :=
  check (0 <? size) AssertionError ;;
  check (forallb (fun c => c <? 128) name) UnicodeError ;;
  size' ← to_uint 64 size;
  ptype' ← to_uint 32 ptype;
  pvalue' ← to_uint 32 pvalue;
  r ← buffer_init size' ptype' pvalue';
  match r with
  | None => Err MemoryError
  | Some (mem, phys) => Ok (mk_buffer mem size' size' (c_string name) phys 0 [])
  end.
End BufferInit.

(** ** Properties of the object *)
Definition offset_get : M buffer Z := gets b_offset.
Definition offset_set (v : Z) : M buffer unit :=
  v' ← lift (to_uint 32 v);
  modify (fun b => mk_buffer (b_ptr b) (b_size b) (b_prp_size b) (b_name b) (b_phys_addr b) v' (b_stray b)).

Definition size_get : M buffer Z := gets b_prp_size.
Definition size_set (v : Z) : M buffer unit :=
  b ← get;
  py_assert (v <=? b_size b) ;;
  v' ← lift (to_uint 64 v);
  modify (fun b => mk_buffer (b_ptr b) (b_size b) v' (b_name b) (b_phys_addr b) (b_offset b) (b_stray b)).

(** [unsigned long] plus [unsigned int]: 64-bit C arithmetic. *)
Definition phys_addr (b : buffer) : Z := wrap 64 (b_phys_addr b + b_offset b).
Definition buffer_len (b : buffer) : Z := b_size b.

(** ** Subscripts *)

(** A byte at a negative index is not of this memory; its value is not known. *)
Definition getitem_int (i : Z) : M buffer Z :=
  b ← get;
  if b_size b <=? i then raise IndexError
  else if i <? 0 then raise COutOfBounds
  else match b_ptr b !! Z.to_nat i with
       | Some v => mret v
       | None => raise COutOfBounds
       end.

Definition getitem_slice (sl : slice) : M buffer (list Z) :=
  b ← get;
  r ← lift (slice_indices sl (buffer_len b));
  let '(start, stop, step) := r in
  mapM getitem_int (py_range start stop step).

Definition getitem (index : pyindex) : M buffer pyval :=
  match index with
  | ISlice sl => l ← getitem_slice sl; mret (VBytes l)
  | IInt i => v ← getitem_int i; mret (VInt v)
  | IOther => raise TypeError
  end.

(** The store of C, into the memory or beside it. *)
Definition poke (i v : Z) (b : buffer) : buffer :=
  if (0 <=? i) && (i <? Z.of_nat (length (b_ptr b))) then with_ptr (<[Z.to_nat i := v]> (b_ptr b)) b
  else with_stray (b_stray b ++ [(i, v)]) b.

(** [(<unsigned char*>self.ptr)[index] = value]: the value is converted to an
    [unsigned char] first; nothing checks that the index is not negative. *)
Definition setitem_int (i v : Z) : M buffer unit :=
  b ← get;
  if b_size b <=? i then raise IndexError
  else
    v' ← lift (to_uint 8 v);
    modify (poke i v').

(** The slice form uses [index.start] only: stop and step are ignored. *)
Definition setitem_slice (sl : slice) (value : list Z) : M buffer unit :=
  let start := default 0 (s_start sl) in
  foreach (fun '(i, d) => setitem_int (i + start) d) (enumerate value).

Inductive pyassign := AInt (v : Z) | ASeq (l : list Z).

Definition setitem (index : pyindex) (value : pyassign) : M buffer unit :=
  match index, value with
  | ISlice sl, ASeq l => setitem_slice sl l
  | ISlice _, AInt _ => raise TypeError          (* enumerate(int) *)
  | IInt i, AInt v => setitem_int i v
  | IInt i, ASeq _ =>
      b ← get; if b_size b <=? i then raise IndexError else raise TypeError
  | IOther, _ => raise TypeError
  end.

(** ** data *)

(** ASCII characters [str.rstrip()] removes. *)
Definition is_space (c : Z) : bool :=
  ((9 <=? c) && (c <=? 13)) || ((28 <=? c) && (c <=? 32)).

Fixpoint rstrip (s : list Z) : list Z :=
  match s with
  | [] => []
  | c :: s' => match rstrip s' with
               | [] => if is_space c then [] else [c]
               | t => c :: t
               end
  end.

Definition data (byte_end : Z) (byte_begin : option Z) (type : pytype) : M buffer pyval :=
  let byte_begin := default byte_end byte_begin in
  let sl := mk_slice (Some byte_begin) (Some (byte_end + 1)) None in
  match type with
  | TInt => l ← getitem_slice sl; mret (VInt (from_le l))
  | TStr => l ← getitem_slice sl;
            lift (check (forallb (fun c => c <? 128) l) UnicodeError) ;;
            mret (VStr (rstrip l))
  | TOther => raise AssertionError
  end.

(** [data] at its default type, for the code that does arithmetic on it. *)
Definition data_int (byte_end : Z) (byte_begin : option Z) : M buffer Z :=
  v ← data byte_end byte_begin TInt;
  match v with VInt z => mret z | _ => raise TypeError end.

(** ** set_dsm_range *)

(** [struct.pack("<LLQ", a, b, c)] *)
Definition pack_LLQ (a b c : Z) : res (list Z) :=
  if (0 <=? a) && (a <? 2 ^ 32) && (0 <=? b) && (b <? 2 ^ 32) && (0 <=? c) && (c <? 2 ^ 64)
  then Ok (le_bytes 4 a ++ le_bytes 4 b ++ le_bytes 8 c)
  else Err StructError.

Definition set_dsm_range (index lba lba_count attr : Z) : M buffer unit :=
  bytes ← lift (pack_LLQ attr lba_count lba);
  setitem (ISlice (mk_slice (Some (index * 16)) (Some ((index + 1) * 16)) None)) (ASeq bytes).

(** ** dump *)

(** The calls [d.log_buf_dump(self.name, self.ptr, length, base)] of the
    [while size] loop, as (length, base) pairs.  [length] is a [size_t] and
    the C function asserts that it is at most 4096. *)
Fixpoint dump_chunks (fuel : nat) (size base : Z) : res (list (Z * Z)) :=
  match fuel with
  | O => Err OutOfFuel
  | S fuel' =>
      if size =? 0 then Ok []
      else
        let length := Z.min size 4096 in
        length' ← to_uint 64 length;
        if length' <=? 4096 then
          rest ← dump_chunks fuel' (size - length) (base + length);
          Ok ((length', base) :: rest)
        else Err CAbort
  end.

Section Dump.
(** SPDK's [spdk_log_dump]: the text of some bytes under a header. *)
Variable spdk_log_dump : list Z -> list Z -> Z -> list Z.

Definition dump_fuel (size : Z) : nat := S (Z.to_nat size).

Definition dump (size : option Z) (b : buffer) : res (list Z) :=
  let output := b_name b ++ [10] in
  if b_size b =? 0 then Ok output
  else
    let size := match size with
                | None => b_size b
                | Some s => if b_size b <? s then b_size b else s
                end in
    chunks ← dump_chunks (dump_fuel size) size 0;
    Ok (output ++ concat ((fun '(len, base) =>
          spdk_log_dump (b_name b) (sub_list base len (b_ptr b)) base) <$> chunks)).
End Dump.

(** ** Invariant *)
Record buffer_wf (b : buffer) : Prop := {
  wf_len : Z.of_nat (length (b_ptr b)) = b_size b;
  wf_bytes : Forall is_byte (b_ptr b);
  wf_pos : 0 < b_size b < 2 ^ 64;
  wf_prp : 0 <= b_prp_size b <= b_size b;
  wf_offset : 0 <= b_offset b < 2 ^ 32
}.

Lemma buffer_wf_with_ptr p b :
  buffer_wf b -> length p = length (b_ptr b) -> Forall is_byte p -> buffer_wf (with_ptr p b).
Proof. intros [] Hl Hb. split; simpl; try done. by rewrite Hl. Qed.

Lemma is_byte_uint8 v v' : to_uint 8 v = Ok v' -> is_byte v'.
Proof. intros [-> H]%to_uint_inv. exact H. Qed.

Lemma Forall_insert_byte (l : list Z) i v :
  Forall is_byte l -> is_byte v -> Forall is_byte (<[i:=v]> l).
Proof. intros. by apply Forall_insert. Qed.

Lemma preserves_setitem_int i v : preserves buffer_wf (setitem_int i v).
Proof.
  intros b Hb. unfold setitem_int. simpl.
  unfold mbind, M_bind, get, lift, raise, modify.
  destruct (b_size b <=? i); [done|].
  destruct (to_uint 8 v) as [v'|] eqn:E; [|done].
  simpl. unfold poke. destruct (_ && _); [|by destruct Hb; split].
  apply buffer_wf_with_ptr; [done|by rewrite length_insert|].
  apply Forall_insert_byte; [apply Hb|eauto using is_byte_uint8].
Qed.
#[export] Hint Resolve preserves_setitem_int : py_inv.

Lemma preserves_setitem_slice sl value : preserves buffer_wf (setitem_slice sl value).
Proof. apply preserves_foreach. intros [j d]. apply preserves_setitem_int. Qed.
#[export] Hint Resolve preserves_setitem_slice : py_inv.

Lemma preserves_setitem index value : preserves buffer_wf (setitem index value).
Proof. destruct index, value; simpl; eauto with py_inv. Qed.
#[export] Hint Resolve preserves_setitem : py_inv.

Lemma preserves_set_dsm_range index lba n attr :
  preserves buffer_wf (set_dsm_range index lba n attr).
Proof. unfold set_dsm_range. eauto with py_inv. Qed.

Lemma preserves_offset_set v : preserves buffer_wf (offset_set v).
Proof.
  intros b Hb. unfold offset_set, mbind, M_bind, lift, modify.
  destruct (to_uint 32 v) as [v'|] eqn:E; [|done]. simpl.
  apply to_uint_inv in E as [-> ?]. by destruct Hb; split.
Qed.

Lemma preserves_size_set v : preserves buffer_wf (size_set v).
Proof.
  intros b Hb. unfold size_set, mbind, M_bind, get, lift, modify, py_assert.
  destruct (v <=? b_size b) eqn:Hv; [|done]. unfold mret, M_ret.
  destruct (to_uint 64 v) as [v'|] eqn:E; [|done]. simpl.
  apply to_uint_inv in E as [-> ?]. destruct Hb; split; simpl; try done. lia.
Qed.
#[export] Hint Resolve preserves_set_dsm_range preserves_offset_set preserves_size_set : py_inv.

(** ** Behaviour of the subscripts on a well-formed buffer *)
Section Subscripts.
Variable b : buffer.
Hypothesis Hwf : buffer_wf b.

Lemma getitem_int_ok i :
  0 <= i < b_size b ->
  exists v, b_ptr b !! Z.to_nat i = Some v /\ getitem_int i b = (Ok v, b).
Proof.
  intros Hi. destruct Hwf as [Hlen _ _ _ _].
  destruct (lookup_lt_is_Some_2 (b_ptr b) (Z.to_nat i)) as [v Hv]; [lia|].
  exists v. split; [done|]. unfold getitem_int, mbind, M_bind, get.
  rewrite (proj2 (Z.leb_gt _ _)), (proj2 (Z.ltb_ge _ _)), Hv by lia. done.
Qed.

Lemma getitem_int_index_error i : b_size b <= i -> getitem_int i b = (Err IndexError, b).
Proof.
  intros H. unfold getitem_int, mbind, M_bind, get. by rewrite (proj2 (Z.leb_le _ _)).
Qed.

Lemma setitem_int_ok i v :
  0 <= i < b_size b -> is_byte v ->
  setitem_int i v b = (Ok tt, with_ptr (<[Z.to_nat i := v]> (b_ptr b)) b).
Proof.
  intros Hi Hv. unfold setitem_int, mbind, M_bind, get, lift, modify.
  rewrite (proj2 (Z.leb_gt _ _)) by lia.
  rewrite to_uint_ok by (unfold is_byte in Hv; lia).
  destruct Hwf as [Hlen _ _ _ _]. unfold poke. by replace ((0 <=? i) && (i <? Z.of_nat (length (b_ptr b)))) with true by lia.
Qed.

Lemma setitem_int_index_error i v :
  b_size b <= i -> setitem_int i v b = (Err IndexError, b).
Proof.
  intros H. unfold setitem_int, mbind, M_bind, get. by rewrite (proj2 (Z.leb_le _ _)).
Qed.

Lemma mapM_getitem l :
  Forall (fun i => 0 <= i < b_size b) l ->
  mapM getitem_int l b = (Ok ((fun i => nth (Z.to_nat i) (b_ptr b) 0) <$> l), b).
Proof.
  induction 1 as [|i l Hi Hl IH]; [done|]. simpl.
  destruct (getitem_int_ok i Hi) as (v & Hv & Hr).
  rewrite (run_bind_ok _ _ _ _ _ Hr), (run_bind_ok _ _ _ _ _ IH). unfold mret, M_ret.
  by rewrite (nth_lookup_Some _ _ 0 v Hv).
Qed.

(** Reading a slice never reads outside the memory, whatever its parts. *)
Lemma getitem_slice_run sl start stop step :
  slice_indices sl (b_size b) = Ok (start, stop, step) ->
  getitem_slice sl b =
    (Ok ((fun i => nth (Z.to_nat i) (b_ptr b) 0) <$> py_range start stop step), b).
Proof.
  intros H. unfold getitem_slice, buffer_len, mbind, M_bind, get, lift. rewrite H.
  apply mapM_getitem. apply Forall_forall. intros i Hi.
  eapply slice_indices_in_bounds; [|done|by apply list_elem_of_In].
  destruct Hwf. lia.
Qed.
End Subscripts.

Lemma nth_range_sub_list (l : list Z) start n :
  (start + n <= length l)%nat ->
  (fun i => nth (Z.to_nat i) l 0) <$> ((fun i => Z.of_nat start + Z.of_nat i) <$> seq 0 n)
    = take n (drop start l).
Proof.
  intros H. apply list_eq. intros i. rewrite !list_lookup_fmap.
  destruct (decide (i < n)%nat) as [Hi|Hi].
  - rewrite lookup_seq_lt by done. simpl.
    rewrite lookup_take_lt, lookup_drop by done.
    replace (Z.to_nat (Z.of_nat start + Z.of_nat i)) with (start + i)%nat by lia.
    destruct (lookup_lt_is_Some_2 l (start + i)) as [v Hv]; [lia|].
    by rewrite Hv, (nth_lookup_Some _ _ 0 v Hv).
  - rewrite lookup_seq_ge by lia. simpl. by rewrite lookup_take_ge by lia.
Qed.

Lemma getitem_sub_list b start n :
  buffer_wf b -> 0 <= start -> 0 <= n -> start + n <= b_size b ->
  getitem_slice (mk_slice (Some start) (Some (start + n)) None) b
    = (Ok (sub_list start n (b_ptr b)), b).
Proof.
  intros Hwf Hs Hn Hsn. erewrite getitem_slice_run; [|done|].
  - unfold sub_list. rewrite <- (nth_range_sub_list (b_ptr b) (Z.to_nat start) (Z.to_nat n)).
    + rewrite Z2Nat.id by lia. rewrite <- py_range_step1, Z2Nat.id by lia. done.
    + destruct Hwf. lia.
  - unfold slice_indices. simpl.
    rewrite !(proj2 (Z.ltb_ge _ _)) by lia. by rewrite !Z.min_l by lia.
Qed.

(** The effect of a slice assignment: [list_inserts] drops what is past the
    end, and the first value that does not fit raises [IndexError] after the
    values before it were written. *)
Definition store_result (size start : Z) (value : list Z) : res unit :=
  match value with
  | [] => Ok tt
  | _ => if start + Z.of_nat (length value) <=? size then Ok tt else Err IndexError
  end.

Lemma store_result_cons size start v value :
  start < size -> store_result size (start + 1) value = store_result size start (v :: value).
Proof.
  intros H. unfold store_result. cbn [length]. destruct value as [|w value].
  - cbn [length]. by zbool.
  - by replace (start + 1 + Z.of_nat (length (w :: value)))
      with (start + Z.of_nat (S (length (w :: value)))) by lia.
Qed.

Lemma list_inserts_past_end (l k : list Z) i : (length l <= i)%nat -> list_inserts i k l = l.
Proof.
  revert i. induction k as [|x k IH]; intros i Hi; simpl; [done|].
  rewrite IH by lia. by apply list_insert_ge.
Qed.

Lemma Forall_inserts_byte (l k : list Z) i :
  Forall is_byte l -> Forall is_byte k -> Forall is_byte (list_inserts i k l).
Proof.
  intros Hl Hk. revert i. induction Hk; intros i; simpl; [done|].
  by apply Forall_insert_byte.
Qed.

Lemma with_ptr_wf_inserts b i k :
  buffer_wf b -> Forall is_byte k -> buffer_wf (with_ptr (list_inserts i k (b_ptr b)) b).
Proof.
  intros Hb Hk. apply buffer_wf_with_ptr; [done|apply length_inserts|].
  apply Forall_inserts_byte; [apply Hb|done].
Qed.

Lemma store_run b value start :
  buffer_wf b -> 0 <= start -> Forall is_byte value ->
  foreach (fun '(i, d) => setitem_int i d) (enumerate_from start value) b =
    (store_result (b_size b) start value,
     with_ptr (list_inserts (Z.to_nat start) value (b_ptr b)) b).
Proof.
  intros Hwf Hs Hv. revert b start Hwf Hs.
  induction Hv as [|v value Hv Hvs IH]; intros b start Hwf Hs; [by destruct b|].
  cbn [enumerate_from foreach list_inserts].
  destruct (decide (start < b_size b)) as [Hlt|Hge].
  - rewrite (run_bind_ok _ _ _ _ _ (setitem_int_ok b Hwf start v ltac:(lia) Hv)).
    rewrite IH; [|apply buffer_wf_with_ptr; [done|by rewrite length_insert|
      apply Forall_insert_byte; [apply Hwf|done]]|lia].
    f_equal; [exact (store_result_cons _ _ v value Hlt)|].
    unfold with_ptr. simpl. f_equal.
    replace (Z.to_nat (start + 1)) with (S (Z.to_nat start)) by lia.
    symmetry. apply list_insert_inserts_lt. lia.
  - rewrite (run_bind_err _ _ _ _ _ (setitem_int_index_error b start v ltac:(lia))).
    destruct Hwf as [Hlen _ _ _ _]. f_equal.
    + unfold store_result. cbn [length]. by rewrite (proj2 (Z.leb_gt _ _)) by lia.
    + rewrite list_inserts_past_end, list_insert_ge by lia. by destruct b.
Qed.

Lemma foreach_enumerate_shift (f : Z -> Z -> M buffer unit) start k value b :
  foreach (fun '(i, d) => f (i + start) d) (enumerate_from k value) b =
  foreach (fun '(i, d) => f i d) (enumerate_from (k + start) value) b.
Proof.
  revert k b. induction value as [|v value IH]; intros k b; [done|].
  cbn [enumerate_from foreach]. unfold mbind, M_bind.
  destruct (f (k + start) v b) as [[?|?] b']; [|done].
  rewrite IH. by replace (k + 1 + start) with (k + start + 1) by lia.
Qed.

Lemma setitem_slice_run sl value b :
  buffer_wf b -> 0 <= default 0 (s_start sl) -> Forall is_byte value ->
  setitem_slice sl value b =
    (store_result (b_size b) (default 0 (s_start sl)) value,
     with_ptr (list_inserts (Z.to_nat (default 0 (s_start sl))) value (b_ptr b)) b).
Proof. intros. unfold setitem_slice. rewrite foreach_enumerate_shift. by apply store_run. Qed.

Lemma sub_list_inserts (l k : list Z) i n :
  0 <= i -> i + n <= Z.of_nat (length l) -> n = Z.of_nat (length k) ->
  sub_list i n (list_inserts (Z.to_nat i) k l) = k.
Proof.
  intros Hi Hn ->. unfold sub_list. rewrite Nat2Z.id. apply list_eq. intros j.
  destruct (decide (j < length k)%nat) as [Hj|Hj].
  - rewrite lookup_take_lt, lookup_drop, list_lookup_inserts by lia. f_equal. lia.
  - rewrite lookup_take_ge, lookup_ge_None_2 by lia. done.
Qed.

(** [data] of an in-range field is the little-endian value of its bytes. *)
Lemma data_int_run b byte_end byte_begin :
  buffer_wf b -> 0 <= default byte_end byte_begin <= byte_end + 1 -> byte_end < b_size b ->
  data_int byte_end byte_begin b =
    (Ok (from_le (sub_list (default byte_end byte_begin)
                    (byte_end + 1 - default byte_end byte_begin) (b_ptr b))), b).
Proof.
  intros Hwf Hb He. unfold data_int, data.
  pose proof (getitem_sub_list b (default byte_end byte_begin)
    (byte_end + 1 - default byte_end byte_begin) Hwf ltac:(lia) ltac:(lia) ltac:(lia)) as H.
  replace (default byte_end byte_begin + (byte_end + 1 - default byte_end byte_begin))
    with (byte_end + 1) in H by lia.
  unfold mbind, M_bind. by rewrite H.
Qed.

(** ** Lemmas on buffer_init *)
Lemma concat_replicate_drop (l : list Z) n i :
  (i <= n)%nat ->
  drop (length l * i) (concat (replicate n l)) = concat (replicate (n - i) l).
Proof.
  revert n. induction i as [|i IH]; intros n Hi.
  - by rewrite Nat.mul_0_r, Nat.sub_0_r.
  - destruct n as [|n]; [lia|]. simpl.
    rewrite Nat.mul_succ_r, Nat.add_comm, <- drop_drop, drop_app_length. apply IH. lia.
Qed.

Lemma length_concat_replicate (l : list Z) n :
  length (concat (replicate n l)) = (n * length l)%nat.
Proof. induction n; simpl; rewrite ?length_app; lia. Qed.

Lemma Forall_concat_replicate n (l : list Z) :
  Forall is_byte l -> Forall is_byte (concat (replicate n l)).
Proof. intros H. induction n; simpl; [constructor|]. by apply Forall_app. Qed.

Lemma zeros_are_bytes n : Forall is_byte (replicate n 0).
Proof. apply Forall_replicate. unfold is_byte. lia. Qed.

Definition pattern_memory (bytes pattern : Z) : list Z :=
  concat (replicate (Z.to_nat (bytes / 4)) (le_bytes 4 pattern)) ++
  replicate (Z.to_nat (bytes mod 4)) 0.

Lemma pattern_memory_0 bytes : 0 <= bytes -> pattern_memory bytes 0 = replicate (Z.to_nat bytes) 0.
Proof.
  intros H. unfold pattern_memory.
  assert (Hc : forall n, concat (replicate n (le_bytes 4 0)) = replicate (4 * n) 0).
  { induction n as [|n IH]; [done|].
    replace (4 * S n)%nat with (4 + 4 * n)%nat by lia.
    cbn [replicate concat]. rewrite IH. change (le_bytes 4 0) with (replicate 4 0).
    by rewrite <- replicate_add. }
  rewrite Hc, <- replicate_add. f_equal.
  pose proof (Z.div_mod bytes 4 ltac:(lia)). pose proof (Z.mod_pos_bound bytes 4 ltac:(lia)).
  pose proof (Z.div_pos bytes 4 H ltac:(lia)). lia.
Qed.

Lemma fill_pattern_ok bytes pattern :
  0 <= bytes < 2 ^ 34 ->
  fill_pattern bytes pattern (replicate (Z.to_nat bytes) 0) = Ok (pattern_memory bytes pattern).
Proof.
  intros H. unfold fill_pattern. eval_pow.
  pose proof (Z.div_mod bytes 4 ltac:(lia)). pose proof (Z.mod_pos_bound bytes 4 ltac:(lia)).
  zbool. f_equal. unfold pattern_memory.
  replace (Z.to_nat bytes) with (4 * Z.to_nat (bytes / 4) + Z.to_nat (bytes mod 4))%nat by lia.
  rewrite replicate_add, list_inserts_0_r; [done|].
  rewrite length_concat_replicate, length_replicate, length_le_bytes. lia.
Qed.

Lemma pattern_memory_word bytes pattern i :
  0 <= bytes -> 0 <= i < bytes / 4 ->
  sub_list (4 * i) 4 (pattern_memory bytes pattern) = le_bytes 4 pattern.
Proof.
  intros Hb Hi. unfold sub_list, pattern_memory.
  replace (Z.to_nat (4 * i)) with (length (le_bytes 4 pattern) * Z.to_nat i)%nat
    by (rewrite length_le_bytes; lia).
  rewrite drop_app_le
    by (rewrite length_concat_replicate, length_le_bytes; nia).
  rewrite concat_replicate_drop by lia.
  destruct (Z.to_nat (bytes / 4) - Z.to_nat i)%nat as [|k] eqn:E; [lia|].
  reflexivity.
Qed.

Lemma length_pattern_memory bytes pattern :
  0 <= bytes -> Z.of_nat (length (pattern_memory bytes pattern)) = bytes.
Proof.
  intros H. unfold pattern_memory.
  rewrite length_app, length_concat_replicate, length_replicate, length_le_bytes.
  pose proof (Z.div_mod bytes 4 ltac:(lia)). pose proof (Z.mod_pos_bound bytes 4 ltac:(lia)).
  pose proof (Z.div_pos bytes 4 H ltac:(lia)). lia.
Qed.

Lemma pattern_memory_bytes bytes pattern : Forall is_byte (pattern_memory bytes pattern).
Proof.
  apply Forall_app. split; [|apply zeros_are_bytes].
  apply Forall_concat_replicate, le_bytes_are_bytes.
Qed.

Section InitLemmas.
Variable dma_zmalloc : Z -> option Z.
Variable urandom : Z -> list Z.
Hypothesis urandom_bytes : forall n, Forall is_byte (urandom n).

Lemma fill_pattern_shape bytes pattern mem mem' :
  fill_pattern bytes pattern mem = Ok mem' -> Forall is_byte mem ->
  length mem' = length mem /\ Forall is_byte mem'.
Proof.
  unfold fill_pattern. destruct (2 ^ 32 <=? bytes / 4); [done|].
  intros [= <-] Hm. split; [apply length_inserts|].
  apply Forall_inserts_byte; [done|apply Forall_concat_replicate, le_bytes_are_bytes].
Qed.

Lemma buffer_init_shape bytes ptype pvalue mem phys :
  buffer_init dma_zmalloc urandom bytes ptype pvalue = Ok (Some (mem, phys)) ->
  length mem = Z.to_nat bytes /\ Forall is_byte mem.
Proof.
  unfold buffer_init. destruct (dma_zmalloc bytes) as [p|]; [|done]. mrun.
  pose proof (zeros_are_bytes (Z.to_nat bytes)) as Hz.
  destruct (if negb (init_pattern ptype pvalue =? 0) then _ else _) as [m0|] eqn:E; [|done].
  assert (length m0 = Z.to_nat bytes /\ Forall is_byte m0) as [Hl Hb].
  { destruct (negb _).
    - apply fill_pattern_shape in E as [-> ?]; [|done]. by rewrite length_replicate.
    - injection E as <-. by rewrite length_replicate. }
  destruct (ptype =? 48879); [destruct (pvalue <=? 100); [|done]|]; intros [= <- <-].
  - rewrite length_inserts. auto using Forall_inserts_byte.
  - done.
Qed.

Lemma buffer_cinit_wf size name pvalue ptype b :
  buffer_cinit dma_zmalloc urandom size name pvalue ptype = Ok b -> buffer_wf b.
Proof.
  unfold buffer_cinit. mrun. destruct (0 <? size) eqn:Hs; [|done].
  destruct (forallb _ name); [|done].
  destruct (to_uint 64 size) as [s'|] eqn:E1; [|done].
  destruct (to_uint 32 ptype) as [pt|]; [|done]. destruct (to_uint 32 pvalue) as [pv|]; [|done].
  apply to_uint_inv in E1 as [-> Hr].
  destruct (buffer_init _ _ _ _ _) as [[[mem phys]|]|] eqn:E; [|done..].
  intros [= <-]. apply buffer_init_shape in E as [Hl Hb]. zbool_hyps.
  split; simpl; try done; lia.
Qed.

Lemma buffer_cinit_start size name pvalue ptype b :
  buffer_cinit dma_zmalloc urandom size name pvalue ptype = Ok b -> b_size b = size /\ b_stray b = [].
Proof.
  unfold buffer_cinit. mrun. destruct (0 <? size); [|done]. destruct (forallb _ name); [|done].
  destruct (to_uint 64 size) as [s'|] eqn:E1; [|done]. apply to_uint_inv in E1 as [-> _].
  destruct (to_uint 32 ptype); [|done]. destruct (to_uint 32 pvalue); [|done].
  destruct (buffer_init _ _ _ _ _) as [[[mem phys]|]|]; [|done..]. by intros [= <-].
Qed.
End InitLemmas.

(** ** Properties *)

(** The operations a script can apply to a Buffer object. *)
Inductive buffer_op :=
  | OpSetItem (index : pyindex) (value : pyassign)
  | OpSetDsm (index lba lba_count attr : Z)
  | OpSetOffset (v : Z)
  | OpSetSize (v : Z).

Definition run_op (op : buffer_op) : M buffer unit :=
  match op with
  | OpSetItem index value => setitem index value
  | OpSetDsm index lba n attr => set_dsm_range index lba n attr
  | OpSetOffset v => offset_set v
  | OpSetSize v => size_set v
  end.

(** The object after a list of operations, whether or not some of them raise. *)
Definition run_ops (ops : list buffer_op) (b : buffer) : buffer :=
  foldl (fun b op => snd (run_op op b)) b ops.

(** The assignment names no byte before the memory. *)
Definition not_negative (op : buffer_op) : Prop :=
  match op with
  | OpSetItem (IInt i) _ => 0 <= i
  | OpSetItem (ISlice sl) _ => 0 <= default 0 (s_start sl)
  | OpSetDsm index _ _ _ => 0 <= index
  | _ => True
  end.

(** What is stored beside the memory is before it, and only if [neg]. *)
Definition contained (neg : Prop) (size : Z) (b : buffer) : Prop :=
  buffer_wf b /\ b_size b = size /\ Forall (fun '(i, v) => neg /\ i < 0 /\ is_byte v) (b_stray b).

Lemma contained_setitem_int neg size i v : (i < 0 -> neg) -> preserves (contained neg size) (setitem_int i v).
Proof.
  intros Hi b (Hwf & Hs & Hst). pose proof (preserves_setitem_int i v b Hwf) as Hwf'. revert Hwf'.
  unfold setitem_int. mrun. destruct (Z.leb_spec (b_size b) i) as [|Hlt]; [done|].
  destruct (to_uint 8 v) as [v'|] eqn:E; [|done]. cbn. intros Hwf'. split; [done|]. revert Hwf'. unfold poke.
  destruct ((0 <=? i) && (i <? Z.of_nat (length (b_ptr b)))) eqn:Ein; [done|]. intros _. split; [done|].
  apply Forall_app. split; [done|]. constructor; [|constructor]. pose proof (wf_len _ Hwf).
  assert (i < 0) by lia. split_and!; [auto|done|eauto using is_byte_uint8].
Qed.

Lemma contained_setitem_slice neg size sl l :
  (default 0 (s_start sl) < 0 -> neg) -> preserves (contained neg size) (setitem_slice sl l).
Proof.
  intros Hs. unfold setitem_slice. cbv zeta. set (start := default 0 (s_start sl)) in *.
  assert (Hgen : forall k, 0 <= k -> preserves (contained neg size) (foreach (fun '(i, d) => setitem_int (i + start) d) (enumerate_from k l)));
    [|by apply Hgen].
  induction l as [|d l IH]; intros k Hk; [by intros b|]. cbn [enumerate_from foreach].
  apply preserves_bind; [apply contained_setitem_int; intros; apply Hs; lia|intros _; apply IH; lia].
Qed.

Lemma contained_run_op neg size op : neg \/ not_negative op -> preserves (contained neg size) (run_op op).
Proof.
  intros Hop. assert (Hset : forall ix v, neg \/ not_negative (OpSetItem ix v) -> preserves (contained neg size) (setitem ix v)).
  { intros [i|sl|] [v|l] Hn; cbn [setitem not_negative] in *; eauto with py_inv.
    - apply contained_setitem_int. intros. destruct Hn; [done|lia].
    - apply contained_setitem_slice. intros. destruct Hn; [done|lia]. }
  destruct op as [ix v|index lba n attr|v|v]; cbn [run_op].
  - by apply Hset.
  - unfold set_dsm_range. apply preserves_bind; [auto with py_inv|intros l]. apply Hset. cbn in *.
    destruct Hop; [by left|right; lia].
  - intros b (H1 & H2 & H3). pose proof (preserves_offset_set v b H1) as H1'. revert H1'. unfold offset_set.
    mrun. destruct (to_uint 32 v); done.
  - intros b (H1 & H2 & H3). pose proof (preserves_size_set v b H1) as H1'. revert H1'. unfold size_set, py_assert.
    mrun. destruct (v <=? b_size b); [|done]. mrun. destruct (to_uint 64 v); done.
Qed.

Lemma contained_run_ops neg size ops b : (neg \/ Forall not_negative ops) -> contained neg size b -> contained neg size (run_ops ops b).
Proof.
  revert b. induction ops as [|op ops IH]; intros b Ho Hb; [done|]. cbn [run_ops foldl]. apply IH.
  - destruct Ho as [|Ho]; [by left|]. right. by apply Forall_cons_1 in Ho as [_ ?].
  - apply (contained_run_op neg size op); [|done]. destruct Ho as [|Ho]; [by left|]. right. by apply Forall_cons_1 in Ho as [? _].
Qed.

(** C39. Every Buffer a script can reach is well formed: whatever [__cinit__]
    builds, and after any sequence of item and slice assignments, DSM ranges,
    [offset] and [size] assignments, raising or not, the memory keeps its
    allocated length and holds bytes only, the size shown to the device is at
    most the allocated one, and the offset fits its C type (nothing compares it
    with the size).  No assignment ever stores a byte at or past the end of the
    memory: it raises [IndexError] and changes nothing.  Bytes before the memory
    are stored only by an assignment that names a negative index, which is not
    checked. *)
Theorem buffer_reachable_wf dma_zmalloc urandom size name pvalue ptype b ops :
  (forall n, Forall is_byte (urandom n)) ->
  buffer_cinit dma_zmalloc urandom size name pvalue ptype = Ok b ->
  let b' := run_ops ops b in
  buffer_wf b' /\ b_size b' = size /\ length (b_ptr b') = Z.to_nat size
  /\ Forall (fun '(i, v) => i < 0 /\ is_byte v) (b_stray b')
  /\ (Forall not_negative ops -> b_stray b' = [])
  /\ forall i v, size <= i -> setitem (IInt i) (AInt v) b' = (Err IndexError, b').
Proof.
  intros Hr Hc b'. pose proof (buffer_cinit_wf _ _ Hr _ _ _ _ _ Hc) as Hwf.
  destruct (buffer_cinit_start _ _ _ _ _ _ _ Hc) as [Hs Hst].
  assert (Hin : forall neg, contained neg size b) by (intros neg; split; [done|]; split; [done|]; by rewrite Hst).
  destruct (contained_run_ops True size ops b (or_introl I) (Hin True)) as (H1 & H2 & H3). fold b' in H1, H2, H3.
  split; [done|]. split; [done|]. split; [pose proof (wf_len _ H1); lia|]. split; [|split].
  - revert H3. apply Forall_impl. by intros [i v] (_ & ? & ?).
  - intros Hn. destruct (contained_run_ops False size ops b (or_intror Hn) (Hin False)) as (_ & _ & H4). fold b' in H4.
    destruct (b_stray b') as [|[i v] l]; [done|]. by apply Forall_cons_1 in H4 as [(? & _) _].
  - intros i v Hi. apply setitem_int_index_error. lia.
Qed.

(** Slice assignment then slice read: assigning bytes that fit at a
    non-negative start stores exactly them, returns normally, changes no other
    byte, and reading the same range gives them back. *)
Theorem slice_write_read b start value :
  buffer_wf b -> 0 <= start -> start + Z.of_nat (length value) <= b_size b ->
  Forall is_byte value ->
  let sl := mk_slice (Some start) (Some (start + Z.of_nat (length value))) None in
  exists b', setitem (ISlice sl) (ASeq value) b = (Ok tt, b')
    /\ getitem (ISlice sl) b' = (Ok (VBytes value), b')
    /\ (forall i, 0 <= i < b_size b -> ~ (start <= i < start + Z.of_nat (length value)) ->
          getitem_int i b' = (fst (getitem_int i b), b')).
Proof.
  intros Hwf Hs Hfit Hv sl.
  exists (with_ptr (list_inserts (Z.to_nat start) value (b_ptr b)) b).
  pose proof (with_ptr_wf_inserts b (Z.to_nat start) value Hwf Hv) as Hwf'.
  destruct Hwf as [Hlen ? ? ? ?] eqn:Hw. split; [|split].
  - simpl. rewrite setitem_slice_run by done. f_equal. simpl. unfold store_result.
    destruct value; [done|]. by zbool.
  - pose proof (getitem_sub_list _ start (Z.of_nat (length value)) Hwf' Hs ltac:(lia) Hfit) as Hg.
    subst sl. simpl. rewrite (run_bind_ok _ _ _ _ _ Hg). simpl.
    by rewrite sub_list_inserts by lia.
  - intros i Hi Hout.
    destruct (getitem_int_ok b Hwf i Hi) as (v & Hv1 & ->).
    destruct (getitem_int_ok _ Hwf' i Hi) as (v' & Hv2 & ->). simpl in *. f_equal. f_equal.
    enough (Some v' = Some v) by congruence. rewrite <- Hv1, <- Hv2.
    destruct (decide (i < start)).
    + apply list_lookup_inserts_lt. lia.
    + apply list_lookup_inserts_ge. lia.
Qed.

(** An assignment that runs past the end raises [IndexError], and the
    values that did fit have been written: a failed slice assignment is not
    undone. *)
Theorem slice_write_overrun b start value :
  buffer_wf b -> 0 <= start -> b_size b < start + Z.of_nat (length value) ->
  start <= b_size b -> Forall is_byte value ->
  let b' := snd (setitem (ISlice (mk_slice (Some start) None None)) (ASeq value) b) in
  fst (setitem (ISlice (mk_slice (Some start) None None)) (ASeq value) b) = Err IndexError
  /\ sub_list start (b_size b - start) (b_ptr b') = take (Z.to_nat (b_size b - start)) value.
Proof.
  intros Hwf Hs Hover Hle Hv. simpl. rewrite setitem_slice_run by done. simpl. split.
  - unfold store_result. destruct value; simpl length in *; [lia|]. by zbool.
  - destruct Hwf as [Hlen _ _ _ _]. unfold sub_list. apply list_eq. intros i.
    destruct (decide (i < Z.to_nat (b_size b - start))%nat) as [Hi|Hi].
    + rewrite !lookup_take_lt, lookup_drop, list_lookup_inserts by lia. f_equal. lia.
    + rewrite !lookup_take_ge by lia. done.
Qed.

Lemma sub_list_inserts_part (l k : list Z) i off n :
  0 <= i -> 0 <= off -> off + n <= Z.of_nat (length k) ->
  i + Z.of_nat (length k) <= Z.of_nat (length l) ->
  sub_list (i + off) n (list_inserts (Z.to_nat i) k l) = sub_list off n k.
Proof.
  intros Hi Ho Hk Hl. unfold sub_list. apply list_eq. intros j.
  destruct (decide (j < Z.to_nat n)%nat) as [Hj|Hj].
  - rewrite !lookup_take_lt, !lookup_drop, list_lookup_inserts by lia. f_equal. lia.
  - by rewrite !lookup_take_ge by lia.
Qed.

Lemma sub_list_inserts_other (l k : list Z) i start n :
  0 <= i -> 0 <= start -> start + n <= i \/ i + Z.of_nat (length k) <= start ->
  sub_list start n (list_inserts (Z.to_nat i) k l) = sub_list start n l.
Proof.
  intros Hi Hs Hd. unfold sub_list. apply list_eq. intros j.
  destruct (decide (j < Z.to_nat n)%nat) as [Hj|Hj].
  - rewrite !lookup_take_lt, !lookup_drop by lia.
    destruct Hd; [apply list_lookup_inserts_lt|apply list_lookup_inserts_ge]; lia.
  - by rewrite !lookup_take_ge by lia.
Qed.

Definition dsm_bytes (attr n lba : Z) : list Z := le_bytes 4 attr ++ le_bytes 4 n ++ le_bytes 8 lba.

Lemma length_dsm_bytes attr n lba : length (dsm_bytes attr n lba) = 16%nat.
Proof. unfold dsm_bytes. by rewrite !length_app, !length_le_bytes. Qed.

Lemma dsm_bytes_are_bytes attr n lba : Forall is_byte (dsm_bytes attr n lba).
Proof. unfold dsm_bytes. rewrite !Forall_app. auto using le_bytes_are_bytes. Qed.

Lemma dsm_bytes_fields attr n lba :
  sub_list 0 4 (dsm_bytes attr n lba) = le_bytes 4 attr /\
  sub_list 4 4 (dsm_bytes attr n lba) = le_bytes 4 n /\
  sub_list 8 8 (dsm_bytes attr n lba) = le_bytes 8 lba.
Proof.
  unfold sub_list, dsm_bytes. split; [|split].
  - by rewrite drop_0, take_app_length' by (by rewrite length_le_bytes).
  - rewrite drop_app_length' by (by rewrite length_le_bytes).
    by rewrite take_app_length' by (by rewrite length_le_bytes).
  - rewrite (app_assoc (le_bytes 4 attr)), drop_app_length'
      by (by rewrite length_app, !length_le_bytes).
    rewrite take_ge; [done|by rewrite length_le_bytes].
Qed.

Lemma set_dsm_range_run b index lba n attr :
  buffer_wf b -> 0 <= index -> (index + 1) * 16 <= b_size b ->
  0 <= attr < 2 ^ 32 -> 0 <= n < 2 ^ 32 -> 0 <= lba < 2 ^ 64 ->
  set_dsm_range index lba n attr b =
    (Ok tt, with_ptr (list_inserts (Z.to_nat (index * 16)) (dsm_bytes attr n lba) (b_ptr b)) b).
Proof.
  intros Hwf Hi Hfit Ha Hn Hl. unfold set_dsm_range, pack_LLQ. zbool.
  rewrite (run_bind_ok _ _ b (dsm_bytes attr n lba) b) by done. cbn [setitem].
  rewrite setitem_slice_run; [|done|simpl; lia|apply dsm_bytes_are_bytes]. simpl. f_equal.
  unfold store_result. destruct (dsm_bytes attr n lba) as [|x l] eqn:E; [done|].
  rewrite <- E, length_dsm_bytes. by zbool.
Qed.

(** DSM ranges round-trip: in a buffer large enough for range [index],
    [set_dsm_range] stores the three fields where the NVMe format has them,
    so [data] reads back the attributes at bytes 0-3, the length at 4-7 and
    the starting LBA at 8-15 of that range, and every other range is kept. *)
Theorem set_dsm_range_roundtrip b index lba n attr :
  buffer_wf b -> 0 <= index -> (index + 1) * 16 <= b_size b ->
  0 <= attr < 2 ^ 32 -> 0 <= n < 2 ^ 32 -> 0 <= lba < 2 ^ 64 ->
  let '(r, b') := set_dsm_range index lba n attr b in
  r = Ok tt
  /\ fst (data_int (index * 16 + 3) (Some (index * 16)) b') = Ok attr
  /\ fst (data_int (index * 16 + 7) (Some (index * 16 + 4)) b') = Ok n
  /\ fst (data_int (index * 16 + 15) (Some (index * 16 + 8)) b') = Ok lba
  /\ (forall j, 0 <= j -> j <> index ->
        sub_list (j * 16) 16 (b_ptr b') = sub_list (j * 16) 16 (b_ptr b)).
Proof.
  intros Hwf Hi Hfit Ha Hn Hl. rewrite set_dsm_range_run by done.
  pose proof (with_ptr_wf_inserts b (Z.to_nat (index * 16)) _ Hwf
    (dsm_bytes_are_bytes attr n lba)) as Hwf'.
  assert (Hlen : index * 16 + Z.of_nat (length (dsm_bytes attr n lba)) <= Z.of_nat (length (b_ptr b))).
  { destruct Hwf as [-> _ _ _ _]. rewrite length_dsm_bytes. lia. }
  pose proof (dsm_bytes_fields attr n lba) as (F1 & F2 & F3).
  assert (Hf : forall off k, 0 <= off -> 0 <= k -> off + k <= 16 ->
    fst (data_int (index * 16 + off + k - 1) (Some (index * 16 + off))
      (with_ptr (list_inserts (Z.to_nat (index * 16)) (dsm_bytes attr n lba) (b_ptr b)) b))
    = Ok (from_le (sub_list off k (dsm_bytes attr n lba)))).
  { intros off k Ho Hk Hok. rewrite data_int_run; simpl; [|done|lia|lia].
    replace (index * 16 + off + k - 1 + 1 - (index * 16 + off)) with k by lia.
    rewrite sub_list_inserts_part by (rewrite ?length_dsm_bytes in *; lia). done. }
  split; [done|]. split; [|split; [|split]].
  - pose proof (Hf 0 4 ltac:(lia) ltac:(lia) ltac:(lia)) as H0.
    rewrite F1, from_le_le_bytes_small, Z.add_0_r in H0 by (eval_pow; lia).
    by replace (index * 16 + 3) with (index * 16 + 4 - 1) by lia.
  - pose proof (Hf 4 4 ltac:(lia) ltac:(lia) ltac:(lia)) as H0.
    rewrite F2, from_le_le_bytes_small in H0 by (eval_pow; lia).
    by replace (index * 16 + 7) with (index * 16 + 4 + 4 - 1) by lia.
  - pose proof (Hf 8 8 ltac:(lia) ltac:(lia) ltac:(lia)) as H0.
    rewrite F3, from_le_le_bytes_small in H0 by (eval_pow; lia).
    by replace (index * 16 + 15) with (index * 16 + 8 + 8 - 1) by lia.
  - intros j Hj Hne. simpl. apply sub_list_inserts_other; rewrite ?length_dsm_bytes; lia.
Qed.

(** The object [Buffer(size, name, ptype=32, pvalue=pvalue)]. *)
Lemma buffer_cinit_pattern dma_zmalloc urandom size name pvalue phys :
  dma_zmalloc size = Some phys -> 0 < size < 2 ^ 34 -> 0 <= pvalue < 2 ^ 32 ->
  forallb (fun c => c <? 128) name = true ->
  buffer_cinit dma_zmalloc urandom size name pvalue 32
  = Ok (mk_buffer (pattern_memory size pvalue) size size (c_string name) phys 0 []).
Proof.
  intros Hd Hs Hp Hn. unfold buffer_cinit, buffer_init, init_pattern. mrun. zbool. rewrite Hn.
  rewrite !to_uint_ok by (eval_pow; lia). rewrite Hd. cbn [Z.eqb Pos.eqb].
  destruct (pvalue =? 0) eqn:E; zbool_hyps; cbn [negb].
  - subst pvalue. cbn. by rewrite <- pattern_memory_0 by lia.
  - by rewrite fill_pattern_ok by lia.
Qed.

(** A pattern of four equal bytes fills the memory with that byte. *)
Lemma pattern_memory_byte bytes v :
  0 <= bytes -> bytes mod 4 = 0 -> is_byte v ->
  pattern_memory bytes (0x01010101 * v) = replicate (Z.to_nat bytes) v.
Proof.
  intros Hb Hm Hv. unfold pattern_memory. rewrite Hm, app_nil_r.
  assert (Hw : le_bytes 4 (0x01010101 * v) = replicate 4 v).
  { rewrite <- (le_bytes_from_le (replicate 4 v)) by by apply Forall_replicate.
    cbn [length replicate from_le]. f_equal. lia. }
  rewrite Hw. replace (Z.to_nat bytes) with (4 * Z.to_nat (bytes / 4))%nat by divmod.
  induction (Z.to_nat (bytes / 4)) as [|k IH]; [done|].
  replace (4 * S k)%nat with (4 + 4 * k)%nat by lia. rewrite replicate_add, <- IH. done.
Qed.

(** [Buffer(size, ptype=32, pvalue=p)] is the repetition of the 32-bit
    little-endian pattern over all its whole dwords, with the trailing bytes
    that do not make a dword left at zero. *)
Theorem pattern_fill_correct dma_zmalloc urandom size name pvalue phys i :
  dma_zmalloc size = Some phys -> 0 < size < 2 ^ 34 -> 0 <= pvalue < 2 ^ 32 ->
  forallb (fun c => c <? 128) name = true -> 0 <= i < size / 4 ->
  exists b, buffer_cinit dma_zmalloc urandom size name pvalue 32 = Ok b
    /\ b_size b = size
    /\ fst (data_int (4 * i + 3) (Some (4 * i)) b) = Ok pvalue
    /\ sub_list (4 * (size / 4)) (size mod 4) (b_ptr b) = replicate (Z.to_nat (size mod 4)) 0.
Proof.
  intros Hd Hs Hp Hn Hi.
  pose proof (Z.div_mod size 4 ltac:(lia)). pose proof (Z.mod_pos_bound size 4 ltac:(lia)).
  set (b := mk_buffer (pattern_memory size pvalue) size size (c_string name) phys 0 []).
  exists b. assert (Hwf : buffer_wf b).
  { split; simpl; [rewrite length_pattern_memory; lia|apply pattern_memory_bytes|
      eval_pow; lia..]. }
  split; [by apply buffer_cinit_pattern|split; [done|split]].
  - rewrite data_int_run; simpl; [|done|lia|lia].
    replace (4 * i + 3 + 1 - 4 * i) with 4 by lia.
    rewrite pattern_memory_word, from_le_le_bytes_small by (eval_pow; lia). done.
  - subst b. cbn [b_ptr]. unfold sub_list, pattern_memory.
    rewrite drop_app_length' by (rewrite length_concat_replicate, length_le_bytes; lia).
    rewrite take_ge; [done|rewrite length_replicate; lia].
Qed.

Lemma dump_chunks_total size base :
  0 <= size < 2 ^ 64 -> exists l, dump_chunks (dump_fuel size) size base = Ok l
    /\ Forall (fun '(len, _) => 0 < len <= 4096) l
    /\ (forall i, base <= i < base + size <->
          exists len b, (len, b) ∈ l /\ b <= i < b + len)
    /\ sum_list_with (fun '(len, _) => Z.to_nat len) l = Z.to_nat size.
Proof.
  unfold dump_fuel. intros Hs.
  assert (Hgen : forall fuel size base, 0 <= size < 2 ^ 64 -> (Z.to_nat size < fuel)%nat ->
    exists l, dump_chunks fuel size base = Ok l
    /\ Forall (fun '(len, _) => 0 < len <= 4096) l
    /\ (forall i, base <= i < base + size <-> exists len b, (len, b) ∈ l /\ b <= i < b + len)
    /\ sum_list_with (fun '(len, _) => Z.to_nat len) l = Z.to_nat size);
    [|apply Hgen; lia].
  clear. induction fuel as [|fuel IH]; intros size base Hs Hf; [lia|].
  cbn [dump_chunks]. destruct (Z.eqb_spec size 0) as [->|Hne].
  - exists []. split; [done|]. split; [constructor|]. split; [|done].
    intros i. split; [lia|]. intros (? & ? & []%not_elem_of_nil & _).
  - destruct (IH (size - Z.min size 4096) (base + Z.min size 4096)) as (l & Hl & Hf' & Hc & Hsum);
      [lia..|].
    exists ((Z.min size 4096, base) :: l). mrun. rewrite to_uint_ok by (eval_pow; lia).
    zbool. rewrite Hl. split; [done|]. split; [constructor; [lia|done]|]. split.
    + intros i. setoid_rewrite elem_of_cons. split.
      * intros Hi. destruct (decide (i < base + Z.min size 4096)).
        -- exists (Z.min size 4096), base. split; [by left|lia].
        -- destruct (proj1 (Hc i)) as (len & b & ? & ?); [lia|].
           exists len, b. split; [by right|lia].
      * intros (len & b & [[= -> ->]|Hin] & Hi); [lia|].
        specialize (proj2 (Hc i) (ex_intro _ len (ex_intro _ b (conj Hin Hi)))). lia.
    + simpl. rewrite Hsum. lia.
Qed.

(** [dump] always terminates on a non-negative size and prints every byte
    asked for exactly once: the calls to [log_buf_dump] have between 1 and
    4096 bytes (so the C assertion holds), cover [0, size) and nothing else,
    and their lengths add up to the size; a negative size raises
    [OverflowError]. *)
Theorem dump_covers size :
  (0 <= size < 2 ^ 64 -> exists l, dump_chunks (dump_fuel size) size 0 = Ok l
    /\ Forall (fun '(len, _) => 0 < len <= 4096) l
    /\ (forall i, 0 <= i < size <-> exists len base, (len, base) ∈ l /\ base <= i < base + len)
    /\ sum_list_with (fun '(len, _) => Z.to_nat len) l = Z.to_nat size)
  /\ (size < 0 -> dump_chunks (dump_fuel size) size 0 = Err OverflowError).
Proof.
  split; [by apply dump_chunks_total|].
  intros H. unfold dump_fuel. cbn [dump_chunks]. zbool. mrun.
  by rewrite to_uint_err by lia.
Qed.

(** ** Witnesses *)
Definition zero_urandom (n : Z) : list Z := replicate (Z.to_nat n) 0.

Lemma zero_urandom_bytes n : Forall is_byte (zero_urandom n).
Proof. apply zeros_are_bytes. Qed.

(** The examples of the class's doc string. *)
Definition example_buffer (size : Z) : buffer :=
  mk_buffer (replicate (Z.to_nat size) 0) size size [101; 120; 97; 109; 112; 108; 101] 0x2000 0 [].

Lemma example_buffer_wf size : 0 < size < 2 ^ 32 -> buffer_wf (example_buffer size).
Proof.
  intros H. split; simpl; [rewrite length_replicate; lia|apply zeros_are_bytes|..];
    eval_pow; lia.
Qed.

Example docstring_example :
  let b := run_ops [OpSetItem (IInt 0) (AInt 0x5a);
                    OpSetItem (ISlice (mk_slice (Some 1) (Some 3) None)) (ASeq [1; 2]);
                    OpSetItem (ISlice (mk_slice (Some 4) None None)) (ASeq [10; 11; 12; 13]);
                    OpSetItem (ISlice (mk_slice (Some 8) None None)) (ASeq [120; 121; 99])]
                   (example_buffer 16) in
  b_ptr b = [0x5a; 1; 2; 0; 0xa; 0xb; 0xc; 0xd; 0x78; 0x79; 0x63; 0; 0; 0; 0; 0]
  /\ fst (data_int 2 (Some 0) b) = Ok 0x02015a
  /\ fst (getitem (ISlice (mk_slice None (Some 8) (Some 2))) b) = Ok (VBytes [0x5a; 2; 0xa; 0xc]).
Proof. by vm_compute. Qed.

Example docstring_dsm_example :
  sub_list 16 16 (b_ptr (snd (set_dsm_range 1 0x1234567887654321 0xabcdef12 0 (example_buffer 64))))
  = [0; 0; 0; 0; 0x12; 0xef; 0xcd; 0xab; 0x21; 0x43; 0x65; 0x87; 0x78; 0x56; 0x34; 0x12].
Proof. by vm_compute. Qed.

(** [b[-1] = v] is not rejected: the byte goes before the memory. *)
Lemma setitem_negative b i v :
  buffer_wf b -> i < 0 -> is_byte v ->
  setitem (IInt i) (AInt v) b = (Ok tt, with_stray (b_stray b ++ [(i, v)]) b).
Proof.
  intros [_ _ Hp _ _] Hi Hv. unfold is_byte in Hv. simpl.
  unfold setitem_int. mrun. zbool. rewrite to_uint_ok by lia. unfold poke. by zbool.
Qed.

Lemma buffer_reachable_wf_witness :
  exists b, buffer_cinit (fun _ => Some 0x2000) zero_urandom 32 [98] 7 32 = Ok b
    /\ b_stray (run_ops [OpSetItem (IInt 40) (AInt 1); OpSetSize 16] b) = []
    /\ b_stray (run_ops [OpSetItem (IInt (-2)) (AInt 1)] b) = [(-2, 1)].
Proof.
  eexists. split; [vm_compute; reflexivity|]. split; [|vm_compute; reflexivity].
  eapply (buffer_reachable_wf (fun _ => Some 0x2000) zero_urandom 32 [98] 7 32);
    [apply zero_urandom_bytes|vm_compute; reflexivity|repeat constructor; cbn; lia].
Defined.

Lemma slice_write_read_witness :
  exists b', setitem (ISlice (mk_slice (Some 4) (Some 6) None)) (ASeq [9; 8]) (example_buffer 16)
    = (Ok tt, b').
Proof.
  destruct (slice_write_read (example_buffer 16) 4 [9; 8]) as (b' & H & _).
  - apply example_buffer_wf; vm_compute; auto.
  - lia.
  - vm_compute. discriminate.
  - repeat constructor; unfold is_byte; lia.
  - exists b'. exact H.
Defined.

Lemma slice_write_overrun_witness :
  fst (setitem (ISlice (mk_slice (Some 15) None None)) (ASeq [9; 8]) (example_buffer 16))
  = Err IndexError.
Proof.
  apply (slice_write_overrun (example_buffer 16) 15 [9; 8]).
  - apply example_buffer_wf; vm_compute; auto.
  - lia.
  - vm_compute. reflexivity.
  - vm_compute. discriminate.
  - repeat constructor; unfold is_byte; lia.
Defined.

Lemma set_dsm_range_roundtrip_witness :
  fst (set_dsm_range 255 0x1234567887654321 0xabcdef12 0 (example_buffer 4096)) = Ok tt.
Proof.
  pose proof (set_dsm_range_roundtrip (example_buffer 4096) 255 0x1234567887654321 0xabcdef12 0
    (example_buffer_wf 4096 ltac:(vm_compute; auto)) ltac:(lia) ltac:(vm_compute; discriminate)
    ltac:(vm_compute; split; congruence) ltac:(vm_compute; split; congruence)
    ltac:(vm_compute; split; congruence)) as H.
  destruct (set_dsm_range _ _ _ _ _) as [r b']. exact (proj1 H).
Defined.

Lemma pattern_fill_correct_witness :
  exists b, buffer_cinit (fun _ => Some 0x2000) zero_urandom 11 [98] 0xdeadbeef 32 = Ok b
    /\ fst (data_int 7 (Some 4) b) = Ok 0xdeadbeef.
Proof.
  destruct (pattern_fill_correct (fun _ => Some 0x2000) zero_urandom 11 [98] 0xdeadbeef 0x2000 1)
    as (b & H1 & _ & H2 & _); [reflexivity|vm_compute; auto|vm_compute; split; congruence|
      reflexivity|vm_compute; split; congruence|].
  exists b. split; [exact H1|exact H2].
Defined.

Lemma dump_covers_witness :
  dump_chunks (dump_fuel (-1)) (-1) 0 = Err OverflowError.
Proof. apply (dump_covers (-1)). lia. Defined.
