(* ===== verification/Pcie.v ===== *)
(** * Pcie: configuration space, driver configuration word and reset flows

    [class Pcie] of [src/src/driver_wrap.pyx] and the driver configuration word of
    [src/src/driver.c].  Configuration space is reached through the class
    [PciConfig], which stands for SPDK's byte accessors and the device behind
    them; the flows that touch sysfs and wait for other processes run in the
    state [host], which records every action in order. *)
From Stdlib Require Import ZArith Lia.
From stdpp Require Import base list numbers option strings.
From S2P Require Import Prelude PyInt.
Local Open Scope Z_scope.

(** ** Configuration space *)

(** [spdk_pci_device_cfg_read8] and [_write8] on a device of type [D]. *)
Class PciConfig (D : Type) := {
  cfg_read8 : D -> Z -> Z;
  cfg_write8 : D -> Z -> Z -> D
}.

(** Its law: a byte read is a byte. *)
Class PciConfigOk (D : Type) `{PciConfig D} : Prop := {
  cfg_read8_byte : forall (d : D) a, is_byte (cfg_read8 d a)
}.

Section Config.
Context {D : Type} `{PciConfig D}.

Definition cfg_getitem (index : Z) (d : D) : res Z :=
  i ← to_uint 32 index; Ok (cfg_read8 d i).

(** [[self[ii] for ii in range(index.stop)[index]]] *)
Definition cfg_getslice (sl : slice) (d : D) : res (list Z) :=
  match s_stop sl with
  | None => Err TypeError
  | Some stop =>
      r ← slice_indices sl (Z.max 0 stop);
      let '(start, stop, step) := r in
      mapM (fun i => cfg_getitem i d) (py_range start stop step)
  end.

Definition cfg_setitem (index value : Z) : M D unit :=
  v ← lift (to_uint 8 value);
  i ← lift (to_uint 32 index);
  modify (fun d => cfg_write8 d i v).

Definition register (offset byte_count : Z) (d : D) : res Z :=
  check (byte_count <=? 8) AssertionError ;;
  value ← cfg_getslice (mk_slice (Some offset) (Some (offset + byte_count)) None) d;
  Ok (from_le value).

(** The capability list: the loop of [cap_offset] with fuel. *)
Fixpoint cap_loop (fuel : nat) (next_offset cap_id : Z) (d : D) : res (option Z) :=
  match fuel with
  | O => Err OutOfFuel
  | S fuel' =>
      if next_offset =? 0 then Ok None
      else
        value ← register next_offset 2 d;
        let cid := value mod 256 in
        let cap_offset := next_offset in
        let next_offset := Z.shiftr value 8 in
        if cid =? cap_id then Ok (Some cap_offset)
        else cap_loop fuel' next_offset cap_id d
  end.

(** A list with no repetition has at most 255 entries. *)
Definition cap_fuel : nat := 257.

Definition cap_offset (cap_id : Z) (d : D) : res (option Z) :=
  next_offset ← register 0x34 1 d;
  cap_loop cap_fuel next_offset cap_id d.

(** [self.cap_offset(id) + n]: [None + n] is a [TypeError]. *)
Definition cap_register (cap_id n : Z) (d : D) : res Z :=
  o ← cap_offset cap_id d;
  match o with Some a => Ok (a + n) | None => Err TypeError end.

Definition aspm_get (d : D) : res Z :=
  linkctrl_addr ← cap_register 0x10 16 d;
  v ← register linkctrl_addr 2 d;
  Ok (Z.land v 0x3).

Definition aspm_set (control : Z) : M D unit :=
  py_assert ((control <? 4) && (0 <=? control)) ;;
  d ← get;
  linkctrl_addr ← lift (cap_register 0x10 16 d);
  linkctrl ← lift (register linkctrl_addr 2 d);
  cfg_setitem linkctrl_addr (Z.lor (Z.land linkctrl 0xfc) control).

Definition power_state_get (d : D) : res Z :=
  pmcsr_addr ← cap_register 1 4 d;
  v ← register pmcsr_addr 4 d;
  Ok (Z.land v 0x3).

Definition power_state_set (state : Z) : M D unit :=
  py_assert ((state <? 4) && (0 <=? state)) ;;
  d ← get;
  pmcsr_addr ← lift (cap_register 1 4 d);
  pmcsr ← lift (register pmcsr_addr 4 d);
  cfg_setitem pmcsr_addr (Z.lor (Z.land pmcsr 0xfc) state).

(** *** Lemmas *)
Definition cfg_bytes (d : D) (offset : Z) (n : nat) : list Z :=
  (fun i => cfg_read8 d (offset + Z.of_nat i)) <$> seq 0 n.

Lemma register_run d offset (n : nat) :
  0 <= offset -> (n <= 8)%nat -> offset + Z.of_nat n <= 2 ^ 32 ->
  register offset (Z.of_nat n) d = Ok (from_le (cfg_bytes d offset n)).
Proof.
  intros Ho Hn Hf. unfold register, check. zbool. unfold mbind, res_bind, cfg_getslice. simpl.
  unfold slice_indices. simpl. zbool. unfold mbind, res_bind.
  rewrite !Z.min_l by lia. rewrite py_range_step1.
  rewrite (res_mapM_ok _ (cfg_read8 d)).
  - unfold cfg_bytes. by rewrite <- list_fmap_compose.
  - apply Forall_forall. intros i Hi.
    apply list_elem_of_fmap in Hi as (k & -> & Hk%elem_of_seq).
    unfold cfg_getitem. rewrite to_uint_ok by (eval_pow; lia). done.
Qed.

Lemma register_1 d o : 0 <= o < 2 ^ 32 -> register o 1 d = Ok (cfg_read8 d o).
Proof.
  intros. change 1 with (Z.of_nat 1). rewrite register_run by lia. simpl.
  rewrite !Z.add_0_r. done.
Qed.

Lemma register_2 d o :
  0 <= o < 2 ^ 31 -> register o 2 d = Ok (cfg_read8 d o + 256 * cfg_read8 d (o + 1)).
Proof.
  intros. change 2 with (Z.of_nat 2) at 1. rewrite register_run by lia. simpl.
  rewrite !Z.add_0_r. done.
Qed.

Context `{!PciConfigOk D}.

(** What a capability entry says: its id and the offset of the next one. *)
Definition cap_id_at (d : D) (o : Z) : Z := cfg_read8 d o.
Definition cap_next_at (d : D) (o : Z) : Z := cfg_read8 d (o + 1).

Lemma cap_loop_step fuel o cap_id d :
  0 < o < 2 ^ 31 ->
  cap_loop (S fuel) o cap_id d =
    if cap_id_at d o =? cap_id then Ok (Some o) else cap_loop fuel (cap_next_at d o) cap_id d.
Proof.
  intros Ho. cbn [cap_loop]. zbool. rewrite register_2 by lia. unfold mbind, res_bind.
  pose proof (cfg_read8_byte d o) as H1. pose proof (cfg_read8_byte d (o + 1)) as H2.
  unfold is_byte in *. unfold cap_id_at, cap_next_at. bits.
  replace ((cfg_read8 d o + 256 * cfg_read8 d (o + 1)) mod 256) with (cfg_read8 d o) by divmod.
  by replace ((cfg_read8 d o + 256 * cfg_read8 d (o + 1)) / 256)
    with (cfg_read8 d (o + 1)) by divmod.
Qed.

(** The capability list of a device: from an offset, the entries up to the
    null pointer. *)
Inductive cap_chain (d : D) : Z -> list Z -> Prop :=
  | chain_end : cap_chain d 0 []
  | chain_next o l : 0 < o -> cap_chain d (cap_next_at d o) l -> cap_chain d o (o :: l).

Lemma cap_chain_length d o l : cap_chain d o l -> 0 <= o < 256 -> Forall (fun x => 0 < x < 256) l.
Proof.
  induction 1 as [|o l Ho Hc IH]; intros Hr; constructor; [lia|].
  apply IH. apply cfg_read8_byte.
Qed.

Lemma cap_loop_chain fuel d o l cap_id :
  cap_chain d o l -> 0 <= o < 256 -> (length l < fuel)%nat ->
  cap_loop fuel o cap_id d = Ok (snd <$> list_find (fun x => cap_id_at d x = cap_id) l).
Proof.
  intros Hc. revert fuel. induction Hc as [|o l Ho Hc IH]; intros fuel Hr Hf.
  - destruct fuel; [simpl in Hf; lia|]. done.
  - destruct fuel as [|fuel]; [simpl in Hf; lia|].
    rewrite cap_loop_step by lia. simpl. case_decide as Hd.
    + by rewrite (proj2 (Z.eqb_eq _ _)).
    + rewrite (proj2 (Z.eqb_neq _ _)) by done.
      rewrite IH; [|apply cfg_read8_byte|simpl in Hf; lia].
      by destruct (list_find _ l) as [[? ?]|].
Qed.

(** A chain never repeats an entry, since the rest of it depends on the
    offset alone; so 255 entries is the most it can have. *)
Lemma cap_chain_det d o l1 l2 : cap_chain d o l1 -> cap_chain d o l2 -> l1 = l2.
Proof.
  intros H1. revert l2. induction H1 as [|o l Ho Hc IH]; intros l2 H2.
  - by inversion H2; [|lia].
  - inversion H2; subst; [lia|]. f_equal. auto.
Qed.

Lemma cap_chain_suffix d o l x l' :
  cap_chain d o l -> x ∈ l -> cap_chain d x l' -> (length l' <= length l)%nat.
Proof.
  induction 1 as [|o l Ho Hc IH]; intros Hx Hx'; [by apply not_elem_of_nil in Hx|].
  apply elem_of_cons in Hx as [->|Hx]; simpl.
  - inversion Hx'; subst; [lia|].
    match goal with H : cap_chain _ (cap_next_at d o) ?a |- _ =>
      rewrite (cap_chain_det _ _ _ _ H Hc) end. simpl. lia.
  - specialize (IH Hx Hx'). lia.
Qed.

Lemma cap_chain_NoDup d o l : cap_chain d o l -> NoDup l.
Proof.
  induction 1 as [|o l Ho Hc IH]; constructor; [|done].
  intros Hin. pose proof (cap_chain_suffix d _ l o (o :: l) Hc Hin ltac:(by constructor)) as Hl.
  simpl in Hl. lia.
Qed.

Lemma cap_chain_bound d o l : cap_chain d o l -> 0 <= o < 256 -> (length l <= 255)%nat.
Proof.
  intros Hc Hr. pose proof (cap_chain_NoDup _ _ _ Hc) as Hn.
  pose proof (cap_chain_length _ _ _ Hc Hr) as Hf.
  transitivity (length (Z.of_nat <$> seq 1 255)); [|by rewrite length_fmap, length_seq].
  apply submseteq_length, NoDup_submseteq; [done|].
  intros x Hx. rewrite Forall_forall in Hf. specialize (Hf x Hx).
  apply list_elem_of_fmap. exists (Z.to_nat x). rewrite elem_of_seq. lia.
Qed.
End Config.

(** ** The driver configuration word (driver.c) and Pcie._config *)

(** [g_driver_crc32_memory_enough] and [*g_driver_config_ptr]. *)
Definition driver_config (memory_enough : bool) (cfg_word : Z) : Z :=
  if Z.testbit cfg_word 0 && negb memory_enough then Z.land cfg_word (Z.lnot 1) else cfg_word.

Definition config_word (verify ioworker_terminate : option bool) (c : Z) : Z :=
  let c := match verify with
           | Some false => Z.land c 0xfffffffffffffffe
           | Some true => Z.lor c 1
           | None => c
           end in
  match ioworker_terminate with
  | Some false => Z.land c 0xffffffffffffffef
  | Some true => Z.lor c 0x10
  | None => c
  end.

(** ** Host-side flows *)

(** What the flows do to the system, in order. *)
Inductive event :=
  | EConfig (word : Z)                   (* d.driver_config *)
  | EPoll (none_left : bool)             (* d.driver_no_secondary *)
  | EUnlockAll                           (* d.crc32_unlock_all *)
  | ESleepMs (ms : Z)                    (* time.sleep *)
  | ERmmod (module : string)
  | EEcho (value : list string) (path : list string)   (* echo value > path *)
  | ESetpci (bridge_control : Z)
  | ECallback (name : string)
  | EShell (cmd : string).

Record host := mk_host {
  h_config : Z;            (* the driver configuration word *)
  h_polls : nat;           (* calls of driver_no_secondary so far *)
  h_stats : nat;           (* calls of os.path.exists so far *)
  h_trace : list event     (* latest first *)
}.

Definition emit (e : event) : M host unit :=
  modify (fun h => mk_host (h_config h) (h_polls h) (h_stats h) (e :: h_trace h)).

Section Host.
(** The n-th answer of [d.driver_no_secondary] and of [os.path.exists], and
    whether the driver found memory for a crc table. *)
Variable no_secondary : nat -> bool.
Variable exists_file : nat -> bool.
Variable memory_enough : bool.
Variables bdf vdid : string.

Definition poll_no_secondary : M host bool :=
  h ← get;
  put (mk_host (h_config h) (S (h_polls h)) (h_stats h) (EPoll (no_secondary (h_polls h)) :: h_trace h)) ;;
  mret (no_secondary (h_polls h)).

Definition path_exists : M host bool :=
  h ← get;
  put (mk_host (h_config h) (h_polls h) (S (h_stats h)) (h_trace h)) ;;
  mret (exists_file (h_stats h)).

Definition config (verify ioworker_terminate : option bool) : M host Z :=
  h ← get;
  let w := driver_config memory_enough (config_word verify ioworker_terminate (h_config h)) in
  put (mk_host w (h_polls h) (h_stats h) (EConfig w :: h_trace h)) ;;
  mret w.

(** [retry = 100; while not no_secondary(): retry -= 1; ...]: the counter
    reaches zero, so the recursion is on it. *)
Fixpoint cleanup_wait (retry : nat) : M host unit :=
  b ← poll_no_secondary;
  if (b : bool) then mret tt
  else match retry with
       | O | S O => raise TimeoutError
       | S retry' => emit (ESleepMs 10) ;; cleanup_wait retry'
       end.

Definition driver_cleanup : M host unit :=
  b ← poll_no_secondary;
  if (b : bool) then mret tt
  else
    config None (Some true) ;;
    emit EUnlockAll ;;
    cleanup_wait 100 ;;
    config None (Some false) ;;
    mret tt.

Fixpoint exist_loop (rescan : bool) (retry : nat) : M host bool :=
  b ← path_exists;
  if (b : bool) then mret true
  else match retry with
       | O | S O => mret false
       | S retry' =>
           emit (ESleepMs 1) ;;
           (if rescan then emit (EEcho ["1"%string] ["/sys/bus/pci/rescan"%string]) else mret tt) ;;
           exist_loop rescan retry'
       end.

Definition exist (rescan : bool) : M host bool := exist_loop rescan 1000.

Definition rescan : M host unit :=
  emit (ERmmod "nvme"%string) ;;
  emit (ERmmod "nvme_core"%string) ;;
  emit (EEcho ["1"%string] ["/sys/bus/pci/rescan"%string]) ;;
  exist true ;;
  mret tt.

Definition dev_path (leaf : string) : list string := ["/sys/bus/pci/devices"; bdf; leaf]%string.
Definition drv_path (driver leaf : string) : list string :=
  ["/sys/bus/pci/drivers"; driver; leaf]%string.

(** [a and b]: the second test is not made when the first fails. *)
Definition both (m1 m2 : M host bool) : M host bool :=
  b ← m1; if (b : bool) then m2 else mret false.

Definition bind_driver (driver : option string) : M host unit :=
  b1 ← both (exist false) (exist false);
  (if (b1 : bool) then
     emit (EEcho [vdid] (dev_path "driver/remove_id"%string)) ;;
     emit (EEcho [bdf] (dev_path "driver/unbind"%string))
   else mret tt) ;;
  match driver with
  | None => mret tt
  | Some drv =>
      b2 ← both (exist false) (exist false);
      if (b2 : bool) then
        emit (EEcho [vdid] (drv_path drv "new_id"%string)) ;;
        emit (EEcho [bdf] (drv_path drv "bind"%string))
      else mret tt
  end.

Definition remove_device : M host unit := emit (EEcho ["1"%string] (dev_path "remove"%string)).

(** Function level reset. *)
Definition flr : M host bool :=
  emit (EEcho ["1"%string] (dev_path "reset"%string)) ;;
  driver_cleanup ;;
  bind_driver None ;;
  remove_device ;;
  rescan ;;
  bind_driver (Some "uio_pci_generic"%string) ;;
  mret true.

(** Hot reset; [bc] is the bridge control word [setpci] reads, [bridge_ok]
    the assertion that the upstream bridge exists. *)
Definition pcie_reset (bridge_ok : bool) (rst_fn : option string) (bc : Z) : M host bool :=
  py_assert bridge_ok ;;
  driver_cleanup ;;
  bind_driver None ;;
  remove_device ;;
  match rst_fn with
  | Some f => emit (ECallback f)
  | None =>
      emit (ESetpci (Z.lor bc 0x40)) ;;
      emit (ESleepMs 10) ;;
      emit (ESetpci bc) ;;
      emit (ESleepMs 500)
  end ;;
  rescan ;;
  bind_driver (Some "uio_pci_generic"%string) ;;
  mret true.
End Host.

(** ** Lemmas on the host flows *)

Lemma testbit_table (w : Z) (f : Z -> bool) (n : nat) :
  forallb (fun i => eqb (Z.testbit w (Z.of_nat i)) (f (Z.of_nat i))) (seq 0 n) = true ->
  forall i, 0 <= i < Z.of_nat n -> Z.testbit w i = f i.
Proof.
  intros H i Hi. rewrite forallb_forall in H.
  specialize (H (Z.to_nat i)). rewrite Z2Nat.id in H by lia.
  apply eqb_prop, H, in_seq. lia.
Qed.

Lemma config_word_terminate c t i :
  0 <= i < 64 -> Z.testbit (config_word None (Some t) c) i = if i =? 4 then t else Z.testbit c i.
Proof.
  intros Hi. unfold config_word. destruct t.
  - rewrite Z.lor_spec. rewrite (testbit_table 0x10 (fun i => i =? 4) 64) by (done || lia).
    destruct (i =? 4); [apply orb_true_r|apply orb_false_r].
  - rewrite Z.land_spec.
    rewrite (testbit_table 0xffffffffffffffef (fun i => negb (i =? 4)) 64) by (done || lia).
    destruct (i =? 4); simpl; [apply andb_false_r|apply andb_true_r].
Qed.

Lemma driver_config_testbit enough w i :
  0 <= i -> Z.testbit (driver_config enough w) i = Z.testbit w i && ((0 <? i) || enough).
Proof.
  intros Hi. unfold driver_config. destruct (Z.testbit w 0 && negb enough) eqn:E.
  - apply andb_true_iff in E as [E1 ->%negb_true_iff]. rewrite orb_false_r, Z.land_spec.
    f_equal. rewrite Z.lnot_spec by lia.
    destruct (Z.ltb_spec 0 i) as [H|H]; [|by replace i with 0 by lia].
    change 1 with (2 ^ 0). by rewrite Z.pow2_bits_false by lia.
  - apply andb_false_iff in E as [E|E%negb_false_iff]; subst; [|by rewrite orb_true_r, andb_true_r].
    destruct (Z.ltb_spec 0 i) as [H|H]; simpl; [by rewrite andb_true_r|].
    replace i with 0 by lia. by rewrite E.
Qed.

Section HostLemmas.
Variable no_secondary : nat -> bool.
Variable memory_enough : bool.

Lemma cleanup_wait_ok n retry h :
  (n < retry)%nat ->
  (forall i, (i < n)%nat -> no_secondary (h_polls h + i)%nat = false) ->
  no_secondary (h_polls h + n)%nat = true ->
  exists h', cleanup_wait no_secondary retry h = (Ok tt, h') /\ h_config h' = h_config h.
Proof.
  revert n h. induction retry as [|retry IH]; intros n h Hn Hf Ht; [lia|].
  cbn [cleanup_wait]. mrun. unfold poll_no_secondary. mrun.
  destruct n as [|n].
  - rewrite Nat.add_0_r in Ht. rewrite Ht. by eexists.
  - rewrite <- (Nat.add_0_r (h_polls h)), (Hf 0%nat), Nat.add_0_r by lia.
    destruct retry as [|retry]; [lia|]. unfold emit. mrun.
    destruct (IH n (mk_host (h_config h) (S (h_polls h)) (h_stats h) (ESleepMs 10 :: EPoll false :: h_trace h)))
      as (h' & Hh & Hc).
    + lia.
    + intros i Hi. cbn [h_polls]. specialize (Hf (S i) ltac:(lia)).
      by rewrite Nat.add_succ_r in Hf.
    + cbn [h_polls]. by rewrite Nat.add_succ_r in Ht.
    + exists h'. split; [exact Hh|exact Hc].
Qed.

Lemma cleanup_wait_timeout retry h :
  (0 < retry)%nat ->
  (forall i, (i < retry)%nat -> no_secondary (h_polls h + i)%nat = false) ->
  exists h', cleanup_wait no_secondary retry h = (Err TimeoutError, h')
    /\ h_config h' = h_config h /\ h_polls h' = (h_polls h + retry)%nat.
Proof.
  revert h. induction retry as [|retry IH]; intros h Hr Hf; [lia|].
  cbn [cleanup_wait]. mrun. unfold poll_no_secondary. mrun.
  rewrite <- (Nat.add_0_r (h_polls h)), (Hf 0%nat), Nat.add_0_r by lia.
  destruct retry as [|retry]; [eexists; split; [done|]; split; [done|simpl; lia]|].
  unfold emit. mrun.
  destruct (IH (mk_host (h_config h) (S (h_polls h)) (h_stats h) (ESleepMs 10 :: EPoll false :: h_trace h)))
    as (h' & Hh & Hc & Hp); [lia| |].
  - intros i Hi. cbn [h_polls]. specialize (Hf (S i) ltac:(lia)).
    by rewrite Nat.add_succ_r in Hf.
  - exists h'. split; [exact Hh|]. split; [exact Hc|]. cbn [h_polls] in Hp. lia.
Qed.

(** [_driver_cleanup] always returns within 101 polls of the secondary
    processes.  If none is left at the first poll it does nothing; if they
    are gone by one of the next 100 polls it returns with the terminate bit
    of the configuration word clear and every other bit but the verify bit
    as before; otherwise it raises [TimeoutError], and the terminate bit it
    had set is left set. *)
Theorem driver_cleanup_outcome h :
  (no_secondary (h_polls h) = true ->
     exists h', driver_cleanup no_secondary memory_enough h = (Ok tt, h') /\ h_config h' = h_config h
       /\ h_trace h' = EPoll true :: h_trace h)
  /\ (forall n, (n < 100)%nat ->
       (forall i, (i <= n)%nat -> no_secondary (h_polls h + i)%nat = false) ->
       no_secondary (h_polls h + S n)%nat = true ->
       exists h', driver_cleanup no_secondary memory_enough h = (Ok tt, h')
         /\ (forall i, 0 < i < 64 ->
               Z.testbit (h_config h') i = if i =? 4 then false else Z.testbit (h_config h) i))
  /\ ((forall i, (i <= 100)%nat -> no_secondary (h_polls h + i)%nat = false) ->
       exists h', driver_cleanup no_secondary memory_enough h = (Err TimeoutError, h')
         /\ Z.testbit (h_config h') 4 = true /\ h_polls h' = (h_polls h + 101)%nat).
Proof.
  unfold driver_cleanup. mrun. unfold poll_no_secondary. mrun. split; [|split].
  - intros H. rewrite H. by eexists.
  - intros n Hn Hf Ht.
    rewrite <- (Nat.add_0_r (h_polls h)), (Hf 0%nat), Nat.add_0_r by lia.
    unfold config, emit. mrun. cbn [h_config h_polls h_stats h_trace].
    match goal with |- context [cleanup_wait _ 100 ?s] =>
      destruct (cleanup_wait_ok n 100 s) as (h' & -> & Hc) end; [lia|..].
    { intros i Hi. cbn [h_polls]. specialize (Hf (S i) ltac:(lia)).
      by rewrite Nat.add_succ_r in Hf. }
    { cbn [h_polls]. by rewrite Nat.add_succ_r in Ht. }
    eexists. split; [reflexivity|]. intros i Hi. cbn [h_config] in *. rewrite Hc.
    rewrite driver_config_testbit, config_word_terminate, driver_config_testbit,
      config_word_terminate by lia.
    zbool. rewrite !andb_true_r. by destruct (i =? 4).
  - intros Hf. rewrite <- (Nat.add_0_r (h_polls h)), (Hf 0%nat), Nat.add_0_r by lia.
    unfold config, emit. mrun. cbn [h_config h_polls h_stats h_trace].
    match goal with |- context [cleanup_wait _ 100 ?s] =>
      destruct (cleanup_wait_timeout 100 s) as (h' & -> & Hc & Hp) end; [lia|..].
    { intros i Hi. cbn [h_polls]. specialize (Hf (S i) ltac:(lia)).
      by rewrite Nat.add_succ_r in Hf. }
    eexists. split; [reflexivity|]. cbn [h_config h_polls] in *. rewrite Hc, Hp.
    rewrite driver_config_testbit, config_word_terminate by lia. split; [done|lia].
Qed.
End HostLemmas.

(** ** Properties of the capability list and of the register fields *)
Section ConfigProps.
Context {D : Type} `{PciConfigOk D}.

Lemma cap_offset_spec_run (d : D) l cap_id :
  cap_chain d (cfg_read8 d 0x34) l ->
  cap_offset cap_id d = Ok (snd <$> list_find (fun x => cap_id_at d x = cap_id) l).
Proof.
  intros Hc. pose proof (cfg_read8_byte d 0x34) as Hr.
  unfold cap_offset. rewrite register_1 by lia. unfold mbind, res_bind.
  apply cap_loop_chain; [done|exact Hr|].
  pose proof (cap_chain_bound d _ l Hc Hr). unfold cap_fuel. lia.
Qed.

(** [cap_offset] terminates on every well-formed capability list and is
    a search in it: with [l] the entries of the list from the pointer at
    0x34 to the null one, it returns the first entry whose id is the one
    asked for, and [None] when there is none.  The fuel of the model, 257,
    is enough because such a list never repeats an entry. *)
Theorem cap_offset_spec (d : D) l cap_id :
  cap_chain d (cfg_read8 d 0x34) l ->
  cap_offset cap_id d = Ok (snd <$> list_find (fun x => cap_id_at d x = cap_id) l).
Proof. apply cap_offset_spec_run. Qed.

(** A malformed list that loops without the wanted id: no fuel is enough. *)
Lemma cap_loop_cycle (d : D) o cap_id fuel :
  0 < o < 2 ^ 31 -> cap_next_at d o = o -> cap_id_at d o <> cap_id ->
  cap_loop fuel o cap_id d = Err OutOfFuel.
Proof.
  intros Ho Hn Hi. induction fuel as [|fuel IH]; [done|].
  rewrite cap_loop_step by done. zbool. by rewrite Hn.
Qed.

(** Writing a byte that is not part of the capability list keeps the list. *)
Lemma cap_chain_write (d d' : D) (a o : Z) l :
  (forall a', a' <> a -> cfg_read8 d' a' = cfg_read8 d a') ->
  (forall x, x ∈ l -> x + 1 <> a) ->
  cap_chain d o l -> cap_chain d' o l.
Proof.
  intros Hw Hx Hc. induction Hc as [|o l Ho Hc IH]; constructor; [done|].
  unfold cap_next_at in *. rewrite Hw by (apply Hx; left).
  apply IH. intros x Hin. apply Hx. by right.
Qed.

Lemma list_find_ext_in (P Q : Z -> Prop) `{forall x, Decision (P x), forall x, Decision (Q x)} l :
  (forall x, x ∈ l -> P x <-> Q x) -> list_find P l = list_find Q l.
Proof.
  intros Hx. induction l as [|x l IH]; [done|]. simpl.
  rewrite IH by (intros; apply Hx; by right).
  destruct (Hx x ltac:(left)). do 2 case_decide; tauto.
Qed.

(** The two-bit field in the low bits of a register [n] bytes into a
    capability, as [aspm] and [power_state] set it. *)
Lemma field_write_run (d : D) cap_id n l o (len : nat) v :
  cap_chain d (cfg_read8 d 0x34) l ->
  snd <$> list_find (fun x => cap_id_at d x = cap_id) l = Some o ->
  0 <= n < 256 -> (0 < len <= 8)%nat -> 0 <= v < 4 ->
  cap_register cap_id n d = Ok (o + n) /\ 0 < o < 256
  /\ register (o + n) (Z.of_nat len) d = Ok (from_le (cfg_bytes d (o + n) len))
  /\ Z.lor (Z.land (from_le (cfg_bytes d (o + n) len)) 0xfc) v
       = cfg_read8 d (o + n) / 4 * 4 + v.
Proof.
  intros Hc Hf Hn Hl Hv.
  assert (Ho : 0 < o < 256).
  { pose proof (cap_chain_length d _ l Hc (cfg_read8_byte d 0x34)) as Hr.
    destruct (list_find _ l) as [[k x]|] eqn:E; [|done]. injection Hf as ->.
    apply list_find_Some in E as (E & _ & _). rewrite Forall_lookup in Hr. by apply (Hr k). }
  split; [|split; [done|split]].
  - unfold cap_register. rewrite (cap_offset_spec_run d l cap_id Hc). by rewrite Hf.
  - apply register_run; lia.
  - destruct len as [|len]; [lia|]. unfold cfg_bytes. cbn [seq fmap list_fmap from_le].
    rewrite Z.add_0_r. pose proof (cfg_read8_byte d (o + n)) as Hx. unfold is_byte in Hx.
    set (b0 := cfg_read8 d (o + n)) in *. set (rest := from_le _). clearbody b0 rest.
    rewrite land_252. replace ((b0 + 256 * rest) / 4 mod 64) with (b0 / 4) by divmod.
    apply (lor_add_r v (b0 / 4) 2); lia.
Qed.

(** Setting a two-bit control field is read-modify-write of one byte:
    on a device where that byte is plain read/write and is not a pointer of
    the capability list, [aspm = control] returns, [aspm] then reads
    [control] back, the other six bits of the byte are kept and no other
    byte of the configuration space changes; a control outside 0..3 is an
    [AssertionError] that writes nothing. *)
Theorem aspm_set_get (d : D) l o control :
  (forall v, is_byte v -> cfg_read8 (cfg_write8 d (o + 16) v) (o + 16) = v) ->
  (forall v a', a' <> o + 16 -> cfg_read8 (cfg_write8 d (o + 16) v) a' = cfg_read8 d a') ->
  cap_chain d (cfg_read8 d 0x34) l ->
  snd <$> list_find (fun x => cap_id_at d x = 0x10) l = Some o ->
  o + 16 <> 0x34 -> (forall x, x ∈ l -> x <> o + 16 /\ x + 1 <> o + 16) ->
  (0 <= control < 4 ->
     exists d', aspm_set control d = (Ok tt, d') /\ aspm_get d' = Ok control
       /\ cfg_read8 d' (o + 16) / 4 = cfg_read8 d (o + 16) / 4
       /\ (forall a', a' <> o + 16 -> cfg_read8 d' a' = cfg_read8 d a'))
  /\ (~ (0 <= control < 4) -> aspm_set control d = (Err AssertionError, d)).
Proof.
  intros Hrw Hother Hc Hf Hhead Hl. split; intros Hv.
  - pose proof (field_write_run d 0x10 16 l o 2 control Hc Hf ltac:(lia) ltac:(lia) Hv)
      as (Hreg & Ho & Hrd & Hval).
    pose proof (cfg_read8_byte d (o + 16)) as Hb0. unfold is_byte in Hb0.
    set (v := cfg_read8 d (o + 16) / 4 * 4 + control) in *.
    assert (Hvb : is_byte v) by (unfold is_byte, v; divmod).
    exists (cfg_write8 d (o + 16) v). split; [|split; [|split]].
    + unfold aspm_set. mrun. zbool. mrun. rewrite Hreg. change 2 with (Z.of_nat 2). rewrite Hrd, Hval.
      unfold cfg_setitem. mrun. rewrite to_uint_ok by done.
      rewrite to_uint_ok by (eval_pow; lia). done.
    + assert (Hc' : cap_chain (cfg_write8 d (o + 16) v) (cfg_read8 (cfg_write8 d (o + 16) v) 0x34) l).
      { rewrite Hother by lia. eapply cap_chain_write; [apply Hother|apply Hl|done]. }
      assert (Hf' : snd <$> list_find (fun x => cap_id_at (cfg_write8 d (o + 16) v) x = 0x10) l
        = Some o).
      { rewrite <- Hf. f_equal. apply list_find_ext_in. intros x Hx.
        unfold cap_id_at. rewrite Hother; [done|by apply Hl]. }
      pose proof (field_write_run _ 0x10 16 l o 2 0 Hc' Hf' ltac:(lia) ltac:(lia) ltac:(lia))
        as (Hreg' & _ & Hrd' & _).
      unfold aspm_get. rewrite Hreg'. change 2 with (Z.of_nat 2). unfold mbind, res_bind.
      rewrite Hrd'. unfold cfg_bytes. cbn [seq fmap list_fmap from_le].
      rewrite Z.add_0_r, Hrw by done. f_equal. rewrite land_3. unfold v. divmod.
    + rewrite Hrw by done. unfold v. divmod.
    + intros. by apply Hother.
  - unfold aspm_set. mrun. destruct (control <? 4) eqn:E1, (0 <=? control) eqn:E2; try done.
    zbool_hyps. lia.
Qed.
End ConfigProps.

(** ** Traces of the host flows *)

(** [m] only adds actions satisfying [P] to the trace, and its outcome
    satisfies [Q]. *)
Definition traces {A} (P : event -> Prop) (Q : res A -> Prop) (m : M host A) : Prop :=
  forall h r h', m h = (r, h') ->
    exists es, h_trace h' = es ++ h_trace h /\ Forall P es /\ Q r.

Definition is_Ok {A} (r : res A) : Prop := exists a, r = Ok a.

Create HintDb traces.

Lemma emit_bind {A} e (k : unit -> M host A) h :
  (emit e ≫= k) h = k tt (mk_host (h_config h) (h_polls h) (h_stats h) (e :: h_trace h)).
Proof. reflexivity. Qed.

Lemma traces_ret {A} P (a : A) : traces P is_Ok (mret a).
Proof. intros h r h' [= <- <-]. exists []. split; [done|]. split; [constructor|by eexists]. Qed.

Lemma traces_emit (P : event -> Prop) e : P e -> traces P is_Ok (emit e).
Proof.
  intros He h r h' [= <- <-]. exists [e]. split; [done|]. split; [by constructor|by eexists].
Qed.

Lemma traces_bind {A B} P Q (m : M host A) (k : A -> M host B) :
  traces P is_Ok m -> (forall a, traces P Q (k a)) -> traces P Q (m ≫= k).
Proof.
  intros Hm Hk h r h' H. unfold mbind, M_bind in H. destruct (m h) as [r1 h1] eqn:E.
  destruct (Hm _ _ _ E) as (es1 & H1 & F1 & [a ->]).
  destruct (Hk _ _ _ _ H) as (es2 & H2 & F2 & HQ).
  exists (es2 ++ es1). rewrite H2, H1, app_assoc. split; [done|]. split; [by apply Forall_app|done].
Qed.

Lemma traces_if {A} P Q (b : bool) (m1 m2 : M host A) :
  traces P Q m1 -> traces P Q m2 -> traces P Q (if b then m1 else m2).
Proof. by destruct b. Qed.

Lemma traces_exists P f : traces P is_Ok (path_exists f).
Proof. intros h r h' [= <- <-]. exists []. split; [done|]. split; [constructor|by eexists]. Qed.

Lemma traces_config (P : event -> Prop) enough v t :
  (forall w, P (EConfig w)) -> traces P is_Ok (config enough v t).
Proof.
  intros HP h r h' [= <- <-]. eexists [_]. split; [done|]. split; [|by eexists].
  constructor; [apply HP|constructor].
Qed.

#[export] Hint Resolve traces_ret traces_emit traces_bind traces_if traces_exists
  traces_config : traces.

Definition is_wait (e : event) : Prop :=
  match e with EConfig _ | EPoll _ | EUnlockAll | ESleepMs _ => True | _ => False end.

(** The workers have stopped: the last time that the driver was asked it found
    no other process, and since then the request to terminate was taken back at
    most. *)
Definition stopped (waits : list event) : Prop :=
  exists after before, waits = after ++ EPoll true :: before
    /\ Forall (fun e => exists w, e = EConfig w /\ Z.testbit w 4 = false) after.

(** Unless none was there, the workers were told to terminate and the locks they
    hold were taken from them, before anything else. *)
Definition told (waits : list event) : Prop :=
  waits = [EPoll true]
  \/ exists later w, waits = later ++ [EUnlockAll; EConfig w; EPoll false] /\ Z.testbit w 4 = true.

(** They have not: every one of [n] times some process was left. *)
Definition is_poll (e : event) : bool := match e with EPoll _ => true | _ => false end.
Definition never_stopped (n : nat) (waits : list event) : Prop :=
  Forall (fun e => e <> EPoll true) waits /\ length (List.filter is_poll waits) = n.

Definition ok_or_timeout {A} (r : res A) : Prop :=
  match r with Ok _ => True | Err e => e = TimeoutError end.

Lemma traces_weaken {A} P (Q Q' : res A -> Prop) m :
  (forall r, Q r -> Q' r) -> traces P Q m -> traces P Q' m.
Proof. intros HQ Hm h r h' H. destruct (Hm _ _ _ H) as (es & ? & ? & ?). eauto. Qed.

Lemma is_Ok_timeout {A} (r : res A) : is_Ok r -> ok_or_timeout r.
Proof. by intros [a ->]. Qed.

Lemma traces_bind_timeout {B} P (m : M host unit) (k : unit -> M host B) :
  traces P ok_or_timeout m -> (forall a, traces P ok_or_timeout (k a)) ->
  traces P ok_or_timeout (m ≫= k).
Proof.
  intros Hm Hk h r h' H. unfold mbind, M_bind in H. destruct (m h) as [[a|e] h1] eqn:E.
  - destruct (Hm _ _ _ E) as (es1 & H1 & F1 & _).
    destruct (Hk _ _ _ _ H) as (es2 & H2 & F2 & HQ).
    exists (es2 ++ es1). rewrite H2, H1, app_assoc. split; [done|]. split; [by apply Forall_app|done].
  - injection H as <- <-. destruct (Hm _ _ _ E) as (es1 & H1 & F1 & H2). by exists es1.
Qed.

Lemma poll_secondary_run f h :
  poll_no_secondary f h = (Ok (f (h_polls h)), mk_host (h_config h) (S (h_polls h)) (h_stats h) (EPoll (f (h_polls h)) :: h_trace h)).
Proof. done. Qed.

(** What waiting for the workers adds to the trace, latest action first. *)
Lemma cleanup_wait_run f retry : forall h r h', cleanup_wait f (S retry) h = (r, h') ->
  exists waits, h_trace h' = waits ++ h_trace h /\ Forall is_wait waits
    /\ match r with
       | Ok _ => exists before, waits = EPoll true :: before
       | Err e => e = TimeoutError /\ never_stopped (S retry) waits
       end.
Proof.
  induction retry as [|retry IH]; intros h r h' H; cbn [cleanup_wait] in H;
    rewrite (run_bind_ok _ _ _ _ _ (poll_secondary_run f h)) in H; destruct (f (h_polls h)).
  1, 3: injection H as <- <-; exists [EPoll true]; (split; [done|]); (split; [by constructor|by exists []]).
  - injection H as <- <-. exists [EPoll false]. split; [done|]. split; [by constructor|]. split; [done|].
    split; [by constructor|done].
  - rewrite emit_bind in H. destruct (IH _ _ _ H) as (waits & Ht & Hw & Hr). exists (waits ++ [ESleepMs 10; EPoll false]).
    split; [by rewrite Ht, <- app_assoc|]. split; [apply Forall_app; split; [done|by repeat constructor]|].
    destruct r as [[]|e]; [destruct Hr as [before ->]; by exists (before ++ [ESleepMs 10; EPoll false])|].
    destruct Hr as (-> & H1 & H2). split; [done|]. split; [apply Forall_app; split; [done|by repeat constructor]|].
    rewrite List.filter_app, length_app, H2. cbn. lia.
Qed.

Lemma config_run enough t h : exists w,
  config enough None (Some t) h = (Ok w, mk_host w (h_polls h) (h_stats h) (EConfig w :: h_trace h))
  /\ Z.testbit w 4 = t.
Proof.
  exists (driver_config enough (config_word None (Some t) (h_config h))). split.
  - unfold config, mbind, M_bind, get, put. reflexivity.
  - rewrite driver_config_testbit, config_word_terminate by lia. apply andb_true_r.
Qed.

Lemma driver_cleanup_run f enough h r h' : driver_cleanup f enough h = (r, h') ->
  exists waits, h_trace h' = waits ++ h_trace h /\ Forall is_wait waits /\ told waits
    /\ match r with Ok _ => stopped waits | Err e => e = TimeoutError /\ never_stopped 101 waits end.
Proof.
  intros H. unfold driver_cleanup in H. rewrite (run_bind_ok _ _ _ _ _ (poll_secondary_run f h)) in H.
  destruct (f (h_polls h)).
  { injection H as <- <-. exists [EPoll true]. split; [done|]. split; [by constructor|]. split; [by left|]. by exists [], []. }
  destruct (config_run enough true (mk_host (h_config h) (S (h_polls h)) (h_stats h) (EPoll false :: h_trace h))) as (w & Hc & Hbit).
  rewrite (run_bind_ok _ _ _ _ _ Hc), emit_bind in H. clear Hc. cbn [h_config h_polls h_stats h_trace] in H.
  match type of H with (_ ≫= _) ?x = _ => destruct (cleanup_wait f 100 x) as [[[]|e] h1] eqn:E end;
    destruct (cleanup_wait_run f 99 _ _ _ E) as (waits & Ht & Hw & Hr); cbn [h_trace] in Ht.
  - rewrite (run_bind_ok _ _ _ _ _ E) in H. destruct (config_run enough false h1) as (w2 & Hc2 & Hbit2).
    rewrite (run_bind_ok _ _ _ _ _ Hc2) in H. injection H as <- <-. destruct Hr as [before ->].
    exists (EConfig w2 :: (EPoll true :: before) ++ [EUnlockAll; EConfig w; EPoll false]). cbn [h_trace]. rewrite Ht.
    split; [cbn [app]; by rewrite <- app_assoc|]. split; [constructor; [done|]; apply Forall_app; split; [done|by repeat constructor]|].
    split; [right; by exists (EConfig w2 :: EPoll true :: before), w|].
    exists [EConfig w2], (before ++ [EUnlockAll; EConfig w; EPoll false]). split; [done|]. by repeat constructor; eexists.
  - rewrite (run_bind_err _ _ _ _ _ E) in H. injection H as <- <-. destruct Hr as (-> & H1 & H2).
    exists (waits ++ [EUnlockAll; EConfig w; EPoll false]). split; [by rewrite Ht, <- app_assoc|].
    split; [apply Forall_app; split; [done|by repeat constructor]|]. split; [right; by exists waits, w|]. split; [done|].
    split; [apply Forall_app; split; [done|by repeat constructor]|]. rewrite List.filter_app, length_app, H2. done.
Qed.

Definition any_event (e : event) : Prop := True.

Lemma exist_loop_traces f rescan retry : traces any_event is_Ok (exist_loop f rescan retry).
Proof.
  induction retry as [|[|retry] IH]; cbn [exist_loop];
    (apply traces_bind; [apply traces_exists|]; intros []; [apply traces_ret|]).
  - apply traces_ret.
  - apply traces_ret.
  - apply traces_bind; [by apply traces_emit|]. intros _.
    apply traces_bind; [|by intros _]. destruct rescan; [by apply traces_emit|apply traces_ret].
Qed.

Lemma both_traces (m1 m2 : M host bool) :
  traces any_event is_Ok m1 -> traces any_event is_Ok m2 -> traces any_event is_Ok (both m1 m2).
Proof. intros H1 H2. apply traces_bind; [done|]. intros []; [done|apply traces_ret]. Qed.

Lemma bind_driver_traces f bdf vdid drv : traces any_event is_Ok (bind_driver f bdf vdid drv).
Proof.
  assert (Hb : traces any_event is_Ok (both (exist f false) (exist f false)))
    by (apply both_traces; apply exist_loop_traces).
  assert (H2 : forall e1 e2, traces any_event is_Ok (emit e1 ;; emit e2)).
  { intros. apply traces_bind; [by apply traces_emit|]. intros _. by apply traces_emit. }
  unfold bind_driver. apply traces_bind; [exact Hb|]. intros b1.
  apply traces_bind; [destruct b1; [apply H2|apply traces_ret]|]. intros _.
  destruct drv as [drv|]; [|apply traces_ret].
  apply traces_bind; [exact Hb|]. intros []; [apply H2|apply traces_ret].
Qed.

Lemma rescan_traces f : traces any_event is_Ok (rescan f).
Proof.
  unfold rescan. do 3 (apply traces_bind; [by apply traces_emit|]; intros _).
  apply traces_bind; [apply exist_loop_traces|]. intros _. apply traces_ret.
Qed.

(** What the resets share: the workers are stopped, the device is unbound and
    removed, and [k] follows. *)
Lemma quiesce_traces {A} no_secondary exists_file enough bdf vdid (k : M host A) Q h r h' :
  traces any_event Q k -> (forall a, Q a -> is_Ok a) ->
  (driver_cleanup no_secondary enough ;; bind_driver exists_file bdf vdid None ;; remove_device bdf ;; k) h = (r, h') ->
  exists waits rest, h_trace h' = rest ++ waits ++ h_trace h /\ Forall is_wait waits /\ told waits
    /\ match r with
       | Ok _ => Q r /\ stopped waits /\ EEcho ["1"%string] (dev_path bdf "remove"%string) ∈ rest
       | Err e => e = TimeoutError /\ never_stopped 101 waits /\ rest = []
       end.
Proof.
  intros Hk HQ H. destruct (driver_cleanup no_secondary enough h) as [r1 h1] eqn:E1.
  destruct (driver_cleanup_run _ _ _ _ _ E1) as (waits & Hw & Fw & Tw & Qw).
  unfold mbind at 1, M_bind at 1 in H. rewrite E1 in H. destruct r1 as [[]|e].
  - unfold mbind at 1, M_bind at 1 in H.
    destruct (bind_driver exists_file bdf vdid None h1) as [r2 h2] eqn:E2.
    destruct (bind_driver_traces _ _ _ _ _ _ _ E2) as (es2 & H2 & _ & [[] ->]).
    unfold remove_device in H. rewrite emit_bind in H.
    destruct (Hk _ _ _ H) as (es3 & H3 & _ & Hr).
    exists waits, (es3 ++ EEcho ["1"%string] (dev_path bdf "remove"%string) :: es2).
    split; [|split; [done|split; [done|]]].
    + rewrite H3. cbn [h_trace]. rewrite H2, Hw. by rewrite <- app_assoc.
    + destruct (HQ _ Hr) as [a ->]. split; [done|]. split; [done|]. apply elem_of_app. right. left.
  - injection H as <- <-. destruct Qw. by exists waits, [].
Qed.

(** The device is found again and bound. *)
Lemma rebind_traces {A} exists_file bdf vdid drv (a : A) :
  traces any_event (fun r => r = Ok a) (rescan exists_file ;; bind_driver exists_file bdf vdid drv ;; mret a).
Proof.
  apply traces_bind; [apply rescan_traces|]. intros _.
  apply traces_bind; [apply bind_driver_traces|]. intros _ h r h' [= <- <-]. by exists [].
Qed.

(** A reset that cannot stop the secondary processes touches nothing:
    if [flr] raises, it raises [TimeoutError] and the only actions since the
    reset request are configuration writes, the unlock and the waits, so the
    device is neither unbound nor removed; and when [flr] returns it returns
    [True], the workers have stopped, and the removal is among its actions after all
    the waiting. *)
Theorem flr_ordering no_secondary exists_file enough bdf vdid h r h' :
  flr no_secondary exists_file enough bdf vdid h = (r, h') ->
  exists waits rest, h_trace h' = rest ++ waits ++
      EEcho ["1"%string] (dev_path bdf "reset"%string) :: h_trace h
    /\ Forall is_wait waits
    /\ match r with
       | Ok b => b = true /\ stopped waits /\ EEcho ["1"%string] (dev_path bdf "remove"%string) ∈ rest
       | Err e => e = TimeoutError /\ never_stopped 101 waits /\ rest = []
       end.
Proof.
  unfold flr. intros H. rewrite emit_bind in H.
  destruct (quiesce_traces _ _ _ _ _ _ (fun r => r = Ok true) _ _ _ (rebind_traces _ _ _ _ true)
    ltac:(by intros ? ->; exists true) H) as (waits & rest & Ht & Hw & _ & Hr).
  exists waits, rest. split; [done|]. split; [done|]. destruct r as [b|e]; [|done].
  destruct Hr as [[= ->] Hr]. done.
Qed.

(** ** Witnesses *)

(** A device whose configuration space is plain memory. *)
Record mem_device := mk_mem { mem_bytes : list Z }.

#[export] Instance mem_config : PciConfig mem_device := {
  cfg_read8 d a := nth (Z.to_nat a) (mem_bytes d) 0 mod 256;
  cfg_write8 d a v := mk_mem (<[Z.to_nat a := v]> (mem_bytes d))
}.

#[export] Instance mem_config_ok : PciConfigOk mem_device.
Proof. split. intros. apply Z.mod_pos_bound. lia. Qed.

(** Power management at 0x40, then PCI Express at 0x50. *)
Definition example_device : mem_device :=
  mk_mem (list_inserts 0x34 [0x40]
    (list_inserts 0x40 [1; 0x50]
      (list_inserts 0x50 [0x10; 0] (list_inserts 0x60 [0x42] (replicate 256 0))))).

Example example_aspm :
  aspm_get example_device = Ok 2
  /\ aspm_get (snd (aspm_set 1 example_device)) = Ok 1
  /\ cfg_read8 (snd (aspm_set 1 example_device)) 0x60 = 0x41
  /\ cap_offset 5 example_device = Ok None.
Proof. by vm_compute. Qed.

Lemma example_chain : cap_chain example_device (cfg_read8 example_device 0x34) [0x40; 0x50].
Proof.
  constructor; [by vm_compute|]. constructor; [by vm_compute|]. constructor.
Qed.

Lemma cap_offset_spec_witness : cap_offset 0x10 example_device = Ok (Some 0x50).
Proof. rewrite (cap_offset_spec example_device [0x40; 0x50] 0x10 example_chain). vm_compute. reflexivity. Defined.

Lemma driver_cleanup_outcome_witness :
  exists h', driver_cleanup (fun _ => false) true (mk_host 0 0 0 []) = (Err TimeoutError, h')
    /\ Z.testbit (h_config h') 4 = true.
Proof.
  destruct (driver_cleanup_outcome (fun _ => false) true (mk_host 0 0 0 [])) as (_ & _ & H).
  destruct (H (fun _ _ => eq_refl)) as (h' & H1 & H2 & _). exists h'. split; [exact H1|exact H2].
Defined.

Lemma aspm_set_get_witness :
  exists d', aspm_set 1 example_device = (Ok tt, d') /\ aspm_get d' = Ok 1.
Proof.
  destruct (aspm_set_get example_device [0x40; 0x50] 0x50 1) as [H _].
  - intros v Hv. simpl. rewrite Z.mod_small; [reflexivity|exact Hv].
  - intros v a' Ha. cbn [cfg_read8 cfg_write8 mem_config mem_bytes].
    rewrite nth_insert_other; [reflexivity|lia].
  - apply example_chain.
  - vm_compute. reflexivity.
  - lia.
  - intros x Hx. apply elem_of_cons in Hx as [->|Hx]; [lia|].
    apply list_elem_of_singleton in Hx as ->. lia.
  - destruct (H ltac:(lia)) as (d' & H1 & H2 & _). exists d'. split; [exact H1|exact H2].
Defined.

Lemma flr_ordering_witness :
  exists waits rest, h_trace (snd (flr (fun n => Nat.eqb n 1) (fun _ => true) true
      "01:00.0"%string "144d a80a"%string (mk_host 0 0 0 [])))
    = rest ++ waits ++ [EEcho ["1"%string] (dev_path "01:00.0"%string "reset"%string)].
Proof.
  destruct (flr_ordering (fun n => Nat.eqb n 1) (fun _ => true) true "01:00.0"%string
    "144d a80a"%string (mk_host 0 0 0 []) _ _ (surjective_pairing _)) as (w & r & H & _).
  exists w, r. exact H.
Defined.
