(* ===== verification/Command.v ===== *)
(** * Command: from Python call to submission queue entry

    The admin commands of [class Controller] and the I/O commands of
    [class Namespace] (src/src/driver_wrap.pyx) down to the entry the driver hands
    to SPDK ([nvme_send_cmd_raw] and [ns_cmd_io] of src/src/driver.c).  A command
    is a function of its Python arguments; Python integers are unbounded, and
    Cython converts each of them to the C type of the callee, raising
    [OverflowError] when it does not fit. *)
From Stdlib Require Import ZArith Lia.
From stdpp Require Import base list numbers option.
From S2P Require Import Prelude PyInt Buffer.
Local Open Scope Z_scope.

(** ** The entry given to SPDK *)
Record spdk_cmd := mk_cmd {
  cmd_io : bool;                   (* on an I/O queue pair, or the admin queue *)
  cmd_dwords : list Z;             (* the 16 dwords of struct spdk_nvme_cmd *)
  cmd_data : option (Z * Z)        (* offset of the data in the buffer, and length *)
}.

Definition dword (i : nat) (c : spdk_cmd) : Z := nth i (cmd_dwords c) 0.
Definition opc (c : spdk_cmd) : Z := Z.land (dword 0 c) 0xff.
Definition nsid (c : spdk_cmd) : Z := dword 1 c.
Definition cdw10 (c : spdk_cmd) : Z := dword 10 c.
Definition cdw11 (c : spdk_cmd) : Z := dword 11 c.
Definition cdw12 (c : spdk_cmd) : Z := dword 12 c.
Definition cdw13 (c : spdk_cmd) : Z := dword 13 c.

(** [memset(&cmd, 0, ...)] and the assignments of [nvme_send_cmd_raw]. *)
Definition nvme_send_cmd_raw (qpair : bool) (cdw0 nsid : Z) (data : option (Z * Z))
    (cdw10 cdw11 cdw12 cdw13 cdw14 cdw15 : Z) : spdk_cmd :=
  mk_cmd qpair [cdw0; nsid; 0; 0; 0; 0; 0; 0; 0; 0; cdw10; cdw11; cdw12; cdw13; cdw14; cdw15] data.

(** [ptr = buf.ptr + buf.offset; size = buf.size], or NULL and 0. *)
Definition buf_data (buf : option buffer) : option (Z * Z) :=
  match buf with None => None | Some b => Some (b_offset b, b_prp_size b) end.

Section Submit.
(** SPDK's return code for a command. *)
Variable submit : spdk_cmd -> Z.

Definition send_raw (qpair : bool) (buf : option buffer) (opcode nsid : Z)
    (cdw10 cdw11 cdw12 cdw13 cdw14 cdw15 : Z) : res spdk_cmd :=
  opcode ← to_uint 32 opcode;
  nsid ← to_uint 32 nsid;
  cdw10 ← to_uint 32 cdw10;
  cdw11 ← to_uint 32 cdw11;
  cdw12 ← to_uint 32 cdw12;
  cdw13 ← to_uint 32 cdw13;
  cdw14 ← to_uint 32 cdw14;
  cdw15 ← to_uint 32 cdw15;
  let cmd := nvme_send_cmd_raw qpair opcode nsid (buf_data buf) cdw10 cdw11 cdw12 cdw13 cdw14 cdw15 in
  check (submit cmd =? 0) AssertionError ;;
  Ok cmd.

Definition send_admin_raw := send_raw false.
Definition send_io_raw := send_raw true.

(** ** Admin commands *)

(** [len(buf)], when [buf] may be [None]. *)
Definition py_len (buf : option buffer) : res Z :=
  match buf with Some b => Ok (buffer_len b) | None => Err TypeError end.

(** [if size is None: size = len(buf)] *)
Definition size_or_len (size : option Z) (buf : option buffer) : res Z :=
  match size with Some s => Ok s | None => py_len buf end.

Definition abort (cid sqid : Z) : res spdk_cmd :=
  send_admin_raw None 0x8 0 (Z.shiftl cid 16 + sqid) 0 0 0 0 0.

Definition identify (buf : option buffer) (nsid cns cntid csi nvmsetid : Z) : res spdk_cmd :=
  n ← py_len buf;
  check (4096 <=? n) AssertionError ;;
  send_admin_raw buf 0x6 nsid (Z.lor (Z.shiftl cntid 16) cns)
    (Z.lor (Z.shiftl csi 24) nvmsetid) 0 0 0 0.

Definition getfeatures (fid sel : Z) (buf : option buffer) (cdw11 cdw12 cdw13 cdw14 cdw15 : Z)
    : res spdk_cmd :=
  send_admin_raw buf 0xA 1 (Z.shiftl sel 8 + fid) cdw11 cdw12 cdw13 cdw14 cdw15.

Definition setfeatures (fid sv : Z) (buf : option buffer) (cdw11 cdw12 cdw13 cdw14 cdw15 : Z)
    : res spdk_cmd :=
  send_admin_raw buf 0x9 0xffffffff (Z.shiftl sv 31 + fid) cdw11 cdw12 cdw13 cdw14 cdw15.

Definition getlogpage (lid : Z) (buf : option buffer) (size : option Z) (offset nsid : Z)
    : res spdk_cmd :=
  size ← size_or_len size buf;
  check (size mod 4 =? 0) AssertionError ;;
  check (offset mod 4 =? 0) AssertionError ;;
  let dwords := Z.shiftr size 2 - 1 in
  check (0 <=? dwords) AssertionError ;;
  check (dwords <? 0x100000000) AssertionError ;;
  check (0 <=? offset) AssertionError ;;
  check (offset <? 0x10000000000000000) AssertionError ;;
  send_admin_raw buf 0x2 nsid
    (Z.shiftl (Z.land dwords 0xffff) 16 + lid)
    (Z.land (Z.shiftr dwords 16) 0xffff)
    offset (Z.shiftr offset 32) 0 0.

Definition mi_send (opcode dword0 dword1 : Z) (buf : option buffer) (mtype : Z) : res spdk_cmd :=
  check ((mtype =? 1) || (mtype =? 4)) AssertionError ;;
  send_admin_raw buf 0x1d 0 (Z.lor (Z.shiftl mtype 11) 4) opcode dword0 dword1 0 0.

Definition mi_receive (opcode dword0 dword1 : Z) (buf : option buffer) (mtype : Z) : res spdk_cmd :=
  check ((mtype =? 1) || (mtype =? 4)) AssertionError ;;
  send_admin_raw buf 0x1e 0 (Z.lor (Z.shiftl mtype 11) 4) opcode dword0 dword1 0 0.

Definition format (lbaf ses nsid : Z) : res spdk_cmd :=
  check (ses <? 8) AssertionError ;;
  check (lbaf <? 16) AssertionError ;;
  send_admin_raw None 0x80 nsid (Z.shiftl ses 9 + lbaf) 0 0 0 0 0.

Definition sanitize (option pattern : Z) : res spdk_cmd :=
  send_admin_raw None 0x84 0 option pattern 0 0 0 0.

Definition dst (stc nsid : Z) : res spdk_cmd :=
  send_admin_raw None 0x14 nsid stc 0 0 0 0 0.

Definition fw_download (buf : option buffer) (offset : Z) (size : option Z) : res spdk_cmd :=
  size ← size_or_len size buf;
  send_admin_raw buf 0x11 0 (Z.shiftr size 2 - 1) (Z.shiftr offset 2) 0 0 0 0.

Definition fw_commit (slot action : Z) : res spdk_cmd :=
  check (slot <? 8) AssertionError ;;
  check (action <? 8) AssertionError ;;
  send_admin_raw None 0x10 0 (Z.shiftl action 3 + slot) 0 0 0 0 0.

Definition aer_cmd : res spdk_cmd := send_admin_raw None 0xc 0 0 0 0 0 0 0.

Definition security_receive (buf : option buffer) (spsp secp nssf : Z) (size : option Z)
    : res spdk_cmd :=
  check (spsp <? 64 * 1024) AssertionError ;;
  check (match buf with None => false | Some _ => true end) AssertionError ;;
  size ← size_or_len size buf;
  send_admin_raw buf 0x82 0 (Z.shiftl secp 24 + Z.shiftl spsp 8 + nssf) size 0 0 0 0.

Definition security_send (buf : option buffer) (spsp secp nssf : Z) (size : option Z)
    : res spdk_cmd :=
  check (spsp <? 64 * 1024) AssertionError ;;
  check (match buf with None => false | Some _ => true end) AssertionError ;;
  size ← size_or_len size buf;
  send_admin_raw buf 0x81 0 (Z.shiftl secp 24 + Z.shiftl spsp 8 + nssf) size 0 0 0 0.

Definition send_cmd (opcode : Z) (buf : option buffer)
    (nsid cdw10 cdw11 cdw12 cdw13 cdw14 cdw15 : Z) : res spdk_cmd :=
  send_admin_raw buf opcode nsid cdw10 cdw11 cdw12 cdw13 cdw14 cdw15.
End Submit.

(** ** Namespaces and the data path of ns_cmd_io *)

(** What the driver knows of a namespace, and the global write token
    ([*g_driver_io_token_ptr]). *)
Record namespace := mk_ns { ns_id : Z; ns_sector_size : Z }.

Definition store_u64 (pos v : Z) (mem : list Z) : res (list Z) :=
  if (0 <=? pos) && (pos + 8 <=? Z.of_nat (length mem))
  then Ok (list_inserts (Z.to_nat pos) (le_bytes 8 (wrap 64 v)) mem) else Err COutOfBounds.

Definition store_u32 (pos v : Z) (mem : list Z) : res (list Z) :=
  if (0 <=? pos) && (pos + 4 <=? Z.of_nat (length mem))
  then Ok (list_inserts (Z.to_nat pos) (le_bytes 4 (wrap 32 v)) mem) else Err COutOfBounds.

(** [buffer_fill_rawdata]: the first and last 64-bit words of every logical
    block get its LBA and its token; [n] blocks are left, from block [i]. *)
Fixpoint fill_blocks (n : nat) (i ptr lba token lba_size : Z) (mem : list Z) : res (list Z) :=
  match n with
  | O => Ok mem
  | S n' =>
      let block := ptr + wrap 32 (i * lba_size) in
      mem ← store_u64 block lba mem;
      mem ← store_u64 (block + 8 * (lba_size / 8 - 1)) (token + i) mem;
      fill_blocks n' (i + 1) ptr (wrap 64 (lba + 1)) token lba_size mem
  end.

(** The token is fetched and advanced by the number of blocks. *)
Definition buffer_fill_rawdata (ptr lba lba_count lba_size token : Z) (mem : list Z)
    : res (list Z * Z) :=
  mem ← fill_blocks (Z.to_nat lba_count) 0 ptr lba token lba_size mem;
  Ok (mem, wrap 64 (token + lba_count)).

(** [ns_cmd_io]: the arguments have their C types already; [mem] is the memory
    of the buffer [ptr] points into.  The result is the command, the memory
    and the token afterwards. *)
Definition ns_cmd_io (opcode : Z) (ns : namespace) (data : option (Z * Z)) (mem : list Z)
    (token lba lba_count io_flags dword13 dword14 dword15 : Z)
    : res (spdk_cmd * list Z * Z) :=
  let lba_size := ns_sector_size ns in
  match data with
  | None => Err CAbort                                   (* assert(buf != NULL) *)
  | Some (ptr, len) =>
      check (Z.land io_flags 0xffff =? 0) CAbort ;;
      check (wrap 32 (lba_count * lba_size) <=? len) CAbort ;;
      let len := Z.min len (wrap 32 (lba_count * lba_size)) in
      let cdw10 := wrap 32 lba in
      let cdw11 := Z.shiftr lba 32 in
      let cdw12 := Z.lor io_flags (wrap 32 (lba_count - 1)) in
      let data := if Z.land opcode 3 =? 0 then None else Some (ptr, len) in
      r ← (if opcode =? 9 then
             mem ← store_u32 (ptr + 4) lba_count mem;
             mem ← store_u64 (ptr + 8) lba mem;
             Ok (mem, token, Some (ptr, lba_size), 0, 4, 0)
           else if opcode =? 1 then
             r ← buffer_fill_rawdata ptr lba lba_count lba_size token mem;
             Ok (fst r, snd r, data, cdw10, cdw11, cdw12)
           else Ok (mem, token, data, cdw10, cdw11, cdw12));
      let '(mem, token, data, cdw10, cdw11, cdw12) := r in
      Ok (nvme_send_cmd_raw true opcode (ns_id ns) data cdw10 cdw11 cdw12 dword13 dword14 dword15,
          mem, token)
  end.

Section Io.
Variable submit : spdk_cmd -> Z.
Variable ns : namespace.

Definition buf_mem (buf : option buffer) : list Z :=
  match buf with None => [] | Some b => b_ptr b end.

(** [send_read_write]: the C argument types are those of its signature. *)
Definition send_read_write (opcode : Z) (buf : option buffer) (token lba lba_count io_flags
    dword13 dword14 dword15 : Z) : res (spdk_cmd * list Z * Z) :=
  opcode ← to_uint 8 opcode;
  lba ← to_uint 64 lba;
  lba_count ← to_uint 32 lba_count;
  io_flags ← to_uint 32 io_flags;
  dword13 ← to_uint 32 dword13;
  dword14 ← to_uint 32 dword14;
  dword15 ← to_uint 32 dword15;
  check (lba_count <=? 64 * 1024) AssertionError ;;
  r ← ns_cmd_io opcode ns (buf_data buf) (buf_mem buf) token lba lba_count
        (wrap 32 (Z.shiftl io_flags 16)) dword13 dword14 dword15;
  check (submit (fst (fst r)) =? 0) AssertionError ;;
  Ok r.

Definition need_buf (buf : option buffer) : res unit :=
  check (match buf with None => false | Some _ => true end) AssertionError.

Definition read (buf : option buffer) (token lba lba_count io_flags d13 d14 d15 : Z)
    : res (spdk_cmd * list Z * Z) :=
  need_buf buf ;; send_read_write 2 buf token lba lba_count io_flags d13 d14 d15.

Definition write (buf : option buffer) (token lba lba_count io_flags d13 d14 d15 : Z)
    : res (spdk_cmd * list Z * Z) :=
  need_buf buf ;; send_read_write 1 buf token lba lba_count io_flags d13 d14 d15.

Definition dsm (buf : option buffer) (range_count attribute : Z) : res spdk_cmd :=
  need_buf buf ;;
  n ← py_len buf;
  check (n <=? 4096) AssertionError ;;
  send_io_raw submit buf 9 (ns_id ns) (range_count - 1) attribute 0 0 0 0.

Definition lo32 (lba : Z) : Z := Z.land lba 0xffffffff.
Definition hi32 (lba : Z) : Z := Z.shiftr lba 32.

Definition verify (lba lba_count io_flags : Z) : res spdk_cmd :=
  send_io_raw submit None 0xc (ns_id ns) (lo32 lba) (hi32 lba)
    (Z.lor (lba_count - 1) (Z.shiftl io_flags 16)) 0 0 0.

Definition compare (buf : option buffer) (lba lba_count io_flags : Z) : res spdk_cmd :=
  need_buf buf ;;
  send_io_raw submit buf 5 (ns_id ns) (lo32 lba) (hi32 lba)
    (Z.lor (lba_count - 1) (Z.shiftl io_flags 16)) 0 0 0.

Definition flush : res spdk_cmd := send_io_raw submit None 0 (ns_id ns) 0 0 0 0 0 0.

Definition write_uncorrectable (lba lba_count : Z) : res spdk_cmd :=
  send_io_raw submit None 4 (ns_id ns) (lo32 lba) (hi32 lba) (lba_count - 1) 0 0 0.

Definition write_zeroes (lba lba_count io_flags : Z) : res spdk_cmd :=
  send_io_raw submit None 8 (ns_id ns) (lo32 lba) (hi32 lba)
    (Z.lor (lba_count - 1) (Z.shiftl io_flags 16)) 0 0 0.

Definition zns_mgmt_receive (buf : option buffer) (slba : Z) (dwords : option Z)
    (extended : bool) (state : Z) (partial : bool) : res spdk_cmd :=
  dwords ← (match dwords with
            | Some n => Ok n
            | None => n ← py_len buf; Ok (Z.shiftr n 2)
            end);
  check (0 <? dwords) AssertionError ;;
  send_io_raw submit buf 0x7a (ns_id ns) (lo32 slba) (hi32 slba) (dwords - 1)
    (Z.shiftl (Z.b2z partial) 16 + Z.shiftl state 8 + Z.b2z extended) 0 0.

Definition zns_mgmt_send (buf : option buffer) (slba action : Z) (all : bool) : res spdk_cmd :=
  send_io_raw submit buf 0x79 (ns_id ns) (lo32 slba) (hi32 slba) 0
    (Z.shiftl (Z.b2z all) 8 + action) 0 0.

Definition ns_send_cmd (opcode : Z) (buf : option buffer)
    (nsid cdw10 cdw11 cdw12 cdw13 cdw14 cdw15 : Z) : res spdk_cmd :=
  send_io_raw submit buf opcode nsid cdw10 cdw11 cdw12 cdw13 cdw14 cdw15.
End Io.

(** ** Lemmas *)
Lemma send_raw_ok submit qpair buf opcode n c10 c11 c12 c13 c14 c15 :
  let c := nvme_send_cmd_raw qpair opcode n (buf_data buf) c10 c11 c12 c13 c14 c15 in
  submit c = 0 ->
  Forall (fun v => 0 <= v < 2 ^ 32) [opcode; n; c10; c11; c12; c13; c14; c15] ->
  send_raw submit qpair buf opcode n c10 c11 c12 c13 c14 c15 = Ok c.
Proof.
  intros c Hs H. unfold send_raw. mrun.
  repeat match type of H with Forall _ (_ :: _) =>
    apply Forall_cons_1 in H as [?H H]; rewrite to_uint_ok by assumption end.
  fold c. by rewrite Hs.
Qed.

(** A value that no 32-bit field can hold makes the call raise before anything
    is sent. *)
Lemma send_raw_overflow submit qpair buf opcode n c10 c11 c12 c13 c14 c15 :
  ~ Forall (fun v => 0 <= v < 2 ^ 32) [opcode; n; c10; c11; c12; c13; c14; c15] ->
  send_raw submit qpair buf opcode n c10 c11 c12 c13 c14 c15 = Err OverflowError.
Proof.
  intros H. unfold send_raw. mrun.
  repeat match goal with |- context [to_uint 32 ?v] =>
    let E := fresh "E" in
    destruct (to_uint 32 v) eqn:E;
    [apply to_uint_inv in E as [-> ?]
    |revert E; unfold to_uint; destruct (_ && _); [done|by intros [= <-]]] end.
  exfalso. apply H. repeat constructor; lia.
Qed.

(** The dwords of a command that went through. *)
Lemma send_raw_fields submit qpair buf opcode n c10 c11 c12 c13 c14 c15 c :
  send_raw submit qpair buf opcode n c10 c11 c12 c13 c14 c15 = Ok c ->
  cmd_io c = qpair /\ dword 0 c = opcode /\ nsid c = n /\ cdw10 c = c10 /\ cdw11 c = c11
  /\ cdw12 c = c12 /\ cdw13 c = c13 /\ cmd_data c = buf_data buf.
Proof.
  unfold send_raw. mrun.
  repeat match goal with |- context [to_uint 32 ?v] =>
    let E := fresh "E" in
    destruct (to_uint 32 v) eqn:E; [apply to_uint_inv in E as [-> ?]|done] end.
  destruct (_ =? 0); [|done]. intros [= <-]. done.
Qed.

Lemma lo32_range lba : 0 <= lo32 lba < 2 ^ 32.
Proof. unfold lo32. rewrite land_u32. eval_pow. divmod. Qed.

Lemma hi32_range lba : 0 <= lba < 2 ^ 64 -> 0 <= hi32 lba < 2 ^ 32.
Proof. intros H. unfold hi32. bits. Qed.

Lemma lba_split lba : lo32 lba + 2 ^ 32 * hi32 lba = lba.
Proof. unfold lo32, hi32. bits. Qed.

Lemma nlb_flags count flags :
  1 <= count <= 65536 -> 0 <= flags < 65536 ->
  let w := Z.lor (count - 1) (Z.shiftl flags 16) in
  0 <= w < 2 ^ 32 /\ w mod 65536 + 1 = count /\ w / 65536 = flags.
Proof.
  intros Hc Hf. simpl. rewrite shiftl_mul by lia. rewrite lor_add by (eval_pow; lia).
  eval_pow. split; [lia|]. split; divmod.
Qed.

Create HintDb cmd_bits.
#[export] Hint Resolve lo32_range hi32_range : cmd_bits.

Ltac u32_all :=
  each (solve [assumption | eauto with cmd_bits | eval_pow; lia]).

(** What an I/O command that addresses a range of blocks must say. *)
Definition addresses (c : spdk_cmd) (op n lba count flags : Z) : Prop :=
  cmd_io c = true /\ opc c = op /\ nsid c = n
  /\ cdw10 c + 2 ^ 32 * cdw11 c = lba
  /\ cdw12 c mod 65536 + 1 = count /\ cdw12 c / 65536 = flags.

(** Range commands encode their arguments: for a 64-bit LBA, 1 to 65536
    blocks and 16-bit flags, [verify], [compare], [write_zeroes] and
    [write_uncorrectable] are submitted, and the entry holds the opcode, the
    namespace id, the LBA split over dwords 10 and 11, the zero-based block
    count in the low half of dword 12 and the flags in the high half. *)
Theorem range_commands_encode submit ns buf lba count flags :
  (forall c, submit c = 0) -> 0 <= ns_id ns < 2 ^ 32 ->
  0 <= lba < 2 ^ 64 -> 1 <= count <= 65536 -> 0 <= flags < 65536 ->
  (exists c, verify submit ns lba count flags = Ok c /\ addresses c 0xc (ns_id ns) lba count flags)
  /\ (exists c, compare submit ns (Some buf) lba count flags = Ok c
        /\ addresses c 5 (ns_id ns) lba count flags /\ cmd_data c = buf_data (Some buf))
  /\ (exists c, write_zeroes submit ns lba count flags = Ok c
        /\ addresses c 8 (ns_id ns) lba count flags)
  /\ (exists c, write_uncorrectable submit ns lba count = Ok c
        /\ addresses c 4 (ns_id ns) lba count 0).
Proof.
  intros Hs Hn Hl Hc Hf.
  pose proof (nlb_flags count flags Hc Hf) as (Hw & Hw1 & Hw2).
  pose proof (lba_split lba) as Hsplit.
  split; [|split; [|split]]; eexists;
    unfold verify, compare, write_zeroes, write_uncorrectable, need_buf, check, send_io_raw;
    unfold mbind, res_bind; (rewrite send_raw_ok; [|apply Hs|u32_all]);
    unfold addresses, nsid, cdw10, cdw11, cdw12; cbn [dword nth cmd_dwords nvme_send_cmd_raw];
    repeat split; try done.
  - unfold dword. cbn [nth cmd_dwords nvme_send_cmd_raw]. rewrite Z.mod_small; lia.
  - unfold dword. cbn [nth cmd_dwords nvme_send_cmd_raw]. apply Z.div_small. lia.
Qed.

(** ** The block stamps of a write *)
Lemma store_u64_run pos v mem :
  0 <= pos -> pos + 8 <= Z.of_nat (length mem) ->
  store_u64 pos v mem = Ok (list_inserts (Z.to_nat pos) (le_bytes 8 (wrap 64 v)) mem).
Proof. intros H1 H2. unfold store_u64. zbool. done. Qed.

Lemma read_u64_after pos v mem :
  0 <= pos -> pos + 8 <= Z.of_nat (length mem) ->
  from_le (sub_list pos 8 (list_inserts (Z.to_nat pos) (le_bytes 8 (wrap 64 v)) mem)) = wrap 64 v.
Proof.
  intros H1 H2. rewrite sub_list_inserts by (rewrite ?length_le_bytes; lia).
  apply from_le_le_bytes_small. unfold wrap. eval_pow. divmod.
Qed.

(** [p] is in the first or last word of one of the blocks [i], ..., [i+n-1]. *)
Definition in_stamp (ptr lba_size i n p : Z) : Prop :=
  exists k, i <= k < i + n
    /\ (ptr + k * lba_size <= p < ptr + k * lba_size + 8
        \/ ptr + (k + 1) * lba_size - 8 <= p < ptr + (k + 1) * lba_size).

(** Blocks [i], ..., [i+n-1] of the memory carry the LBA and the token. *)
Definition stamped (ptr lba_size i n lba token : Z) (mem : list Z) : Prop :=
  forall k, i <= k < i + n ->
    from_le (sub_list (ptr + k * lba_size) 8 mem) = wrap 64 (lba + (k - i))
    /\ from_le (sub_list (ptr + (k + 1) * lba_size - 8) 8 mem) = wrap 64 (token + k).

Definition stamp_block (block lba_size lba token : Z) (mem : list Z) : list Z :=
  list_inserts (Z.to_nat (block + lba_size - 8)) (le_bytes 8 (wrap 64 token))
    (list_inserts (Z.to_nat block) (le_bytes 8 (wrap 64 lba)) mem).

Lemma length_stamp_block block ls lba token mem :
  length (stamp_block block ls lba token mem) = length mem.
Proof. unfold stamp_block. by rewrite !length_inserts. Qed.

Lemma stamp_block_words block ls lba token mem :
  0 <= block -> 16 <= ls -> block + ls <= Z.of_nat (length mem) ->
  from_le (sub_list block 8 (stamp_block block ls lba token mem)) = wrap 64 lba
  /\ from_le (sub_list (block + ls - 8) 8 (stamp_block block ls lba token mem)) = wrap 64 token.
Proof.
  intros Hb Hs Hl. unfold stamp_block. split.
  - rewrite sub_list_inserts_other by (rewrite ?length_le_bytes; lia).
    apply read_u64_after; lia.
  - apply read_u64_after; rewrite ?length_inserts; lia.
Qed.

Lemma stamp_block_other block ls lba token mem start n :
  0 <= start -> 0 <= block -> 16 <= ls -> start + n <= block \/ block + ls <= start ->
  sub_list start n (stamp_block block ls lba token mem) = sub_list start n mem.
Proof.
  intros H0 H1 H2 H3. unfold stamp_block.
  rewrite !sub_list_inserts_other by (rewrite ?length_le_bytes; lia). done.
Qed.

Lemma stamp_block_lookup_other block ls lba token mem p :
  0 <= p -> 0 <= block -> 16 <= ls ->
  ~ (block <= p < block + 8 \/ block + ls - 8 <= p < block + ls) ->
  stamp_block block ls lba token mem !! Z.to_nat p = mem !! Z.to_nat p.
Proof.
  intros H0 H1 H2 H3. unfold stamp_block.
  destruct (Z.lt_ge_cases p (block + ls - 8));
    [rewrite list_lookup_inserts_lt by lia|rewrite list_lookup_inserts_ge by (rewrite length_le_bytes; lia)];
    (destruct (Z.lt_ge_cases p block);
    [rewrite list_lookup_inserts_lt by lia|rewrite list_lookup_inserts_ge by (rewrite length_le_bytes; lia)]);
    done.
Qed.

Lemma fill_blocks_step n i ptr lba token ls mem :
  0 <= ptr -> 0 <= i -> 16 <= ls -> ls mod 8 = 0 -> (i + 1) * ls < 2 ^ 32 ->
  ptr + (i + 1) * ls <= Z.of_nat (length mem) ->
  fill_blocks (S n) i ptr lba token ls mem =
  fill_blocks n (i + 1) ptr (wrap 64 (lba + 1)) token ls
    (stamp_block (ptr + i * ls) ls lba (token + i) mem).
Proof.
  intros Hp Hi Hs Hm Hw Hl. cbn [fill_blocks].
  assert (Hbl : wrap 32 (i * ls) = i * ls).
  { unfold wrap. apply Z.mod_small. nia. }
  rewrite Hbl. rewrite store_u64_run by nia. mrun.
  replace (ptr + i * ls + 8 * (ls / 8 - 1)) with (ptr + i * ls + ls - 8) by divmod.
  rewrite store_u64_run by (rewrite ?length_inserts; nia). done.
Qed.

Lemma fill_blocks_spec n : forall i ptr lba token ls mem,
  0 <= ptr -> 0 <= i -> 16 <= ls -> ls mod 8 = 0 -> (i + Z.of_nat n) * ls < 2 ^ 32 ->
  ptr + (i + Z.of_nat n) * ls <= Z.of_nat (length mem) ->
  exists mem', fill_blocks n i ptr lba token ls mem = Ok mem'
    /\ length mem' = length mem
    /\ stamped ptr ls i (Z.of_nat n) lba token mem'
    /\ (forall start m, 0 <= start -> start + m <= ptr + i * ls ->
          sub_list start m mem' = sub_list start m mem)
    /\ (forall p, 0 <= p -> ~ in_stamp ptr ls i (Z.of_nat n) p ->
          mem' !! Z.to_nat p = mem !! Z.to_nat p).
Proof.
  induction n as [|n IH]; intros i ptr lba token ls mem Hp Hi Hs Hm Hw Hl.
  { exists mem. unfold stamped. repeat split; try done; lia. }
  rewrite fill_blocks_step by nia.
  set (block := ptr + i * ls). set (mem1 := stamp_block block ls lba (token + i) mem).
  assert (Hlen : length mem1 = length mem) by apply length_stamp_block.
  destruct (IH (i + 1) ptr (wrap 64 (lba + 1)) token ls mem1)
    as (mem' & -> & Hl' & Hst & Hbelow & Hother); try nia.
  exists mem'. split; [done|]. split; [congruence|].
  assert (Hb : block + ls = ptr + (i + 1) * ls) by (unfold block; ring).
  destruct (stamp_block_words block ls lba (token + i) mem) as [Hw1 Hw2]; [unfold block; nia..|].
  split; [|split].
  - intros k Hk. destruct (decide (k = i)) as [->|Hne].
    + fold block. rewrite <- Hb, !Hbelow by (unfold block; nia).
      unfold mem1. rewrite Hw1, Hw2. split; [f_equal; lia|done].
    + destruct (Hst k) as [-> ->]; [lia|]. split; [|done].
      unfold wrap. eval_pow. divmod.
  - intros start m H0 H1. rewrite Hbelow by nia. apply stamp_block_other; unfold block in *; nia.
  - intros p H0 Hno. rewrite Hother; [|done|].
    + apply stamp_block_lookup_other; try done; [unfold block; nia|].
      intros Hin. apply Hno. exists i. rewrite <- Hb. split; [lia|done].
    + intros (k & Hk & Hin). apply Hno. exists k. split; [lia|done].
Qed.

Lemma lor_flags_count flags count :
  0 <= flags < 65536 -> 1 <= count <= 65536 ->
  Z.lor (wrap 32 (Z.shiftl flags 16)) (wrap 32 (count - 1)) = Z.lor (count - 1) (Z.shiftl flags 16).
Proof.
  intros Hf Hc. rewrite Z.lor_comm. unfold wrap.
  rewrite shiftl_mul by lia. rewrite !(Z.mod_small) by (eval_pow; lia). done.
Qed.

Lemma flags_low_zero flags :
  0 <= flags -> Z.land (wrap 32 (Z.shiftl flags 16)) 0xffff = 0.
Proof. intros H. unfold wrap. bits. Qed.

(** The arguments of a read or write that pass every check, as one bundle. *)
Record io_args_ok (ns : namespace) (b : buffer) (lba count flags d13 d14 d15 : Z) : Prop := {
  ia_wf : buffer_wf b;
  ia_nsid : 0 <= ns_id ns < 2 ^ 32;
  ia_sector : 16 <= ns_sector_size ns;
  ia_lba : 0 <= lba < 2 ^ 64;
  ia_count : 1 <= count <= 65536;
  ia_flags : 0 <= flags < 65536;
  ia_d13 : 0 <= d13 < 2 ^ 32;
  ia_d14 : 0 <= d14 < 2 ^ 32;
  ia_d15 : 0 <= d15 < 2 ^ 32;
  ia_fits : count * ns_sector_size ns <= b_prp_size b;
  ia_u32 : count * ns_sector_size ns < 2 ^ 32
}.

Lemma ns_cmd_io_read submit ns b token lba count flags d13 d14 d15 :
  (forall c, submit c = 0) -> io_args_ok ns b lba count flags d13 d14 d15 ->
  read submit ns (Some b) token lba count flags d13 d14 d15 =
  Ok (nvme_send_cmd_raw true 2 (ns_id ns) (Some (b_offset b, count * ns_sector_size ns))
        (wrap 32 lba) (hi32 lba) (Z.lor (count - 1) (Z.shiftl flags 16)) d13 d14 d15,
      b_ptr b, token).
Proof.
  intros Hs []. unfold read, send_read_write, need_buf. mrun.
  rewrite !to_uint_ok by (eval_pow; lia). zbool.
  unfold ns_cmd_io, buf_data. mrun. rewrite flags_low_zero by lia. zbool.
  assert (Hw : wrap 32 (count * ns_sector_size ns) = count * ns_sector_size ns)
    by (unfold wrap; apply Z.mod_small; nia).
  rewrite Hw. zbool. change (Z.land 2 3) with 2. zbool.
  rewrite lor_flags_count by done. rewrite Hs, Z.min_r by lia. done.
Qed.

(** The entry of [ns_cmd_io_read] addresses its blocks. *)
Lemma read_entry_addresses ns lba count flags d13 d14 d15 b :
  io_args_ok ns b lba count flags d13 d14 d15 ->
  addresses (nvme_send_cmd_raw true 2 (ns_id ns) (Some (b_offset b, count * ns_sector_size ns))
        (wrap 32 lba) (hi32 lba) (Z.lor (count - 1) (Z.shiftl flags 16)) d13 d14 d15)
    2 (ns_id ns) lba count flags.
Proof.
  intros []. destruct (nlb_flags count flags) as (_ & H1 & H2); [done..|].
  unfold addresses, cdw10, cdw11. repeat split; try done.
  unfold dword. cbn [nth cmd_dwords nvme_send_cmd_raw].
  rewrite <- (lba_split lba) at 3. f_equal. unfold lo32. by rewrite land_u32.
Qed.

(** C29. A read encodes its arguments: with arguments that fit their fields, the
    entry is a read of the namespace from [lba] for [count] blocks with the
    flags in the high half of dword 12, its data is exactly [count] sectors
    from the buffer's offset, and neither the buffer nor the token changes.
    With [lba_count = 0] the call is not rejected: the entry asks for 65536
    blocks with every flag set, and gives no room for their data. *)
Theorem read_encodes submit ns b token lba count flags d13 d14 d15 :
  (forall c, submit c = 0) -> io_args_ok ns b lba count flags d13 d14 d15 ->
  (exists c, read submit ns (Some b) token lba count flags d13 d14 d15 = Ok (c, b_ptr b, token)
     /\ addresses c 2 (ns_id ns) lba count flags
     /\ cmd_data c = Some (b_offset b, count * ns_sector_size ns) /\ cdw13 c = d13)
  /\ (exists c, read submit ns (Some b) token lba 0 flags d13 d14 d15 = Ok (c, b_ptr b, token)
     /\ addresses c 2 (ns_id ns) lba 65536 0xffff /\ cmd_data c = Some (b_offset b, 0)).
Proof.
  intros Hs Ha. split.
  - eexists. split; [by apply ns_cmd_io_read|]. split; [by apply (read_entry_addresses _ _ _ _ d13 d14 d15)|done].
  - destruct Ha. unfold read, send_read_write, need_buf. mrun.
    rewrite !to_uint_ok by (eval_pow; lia). zbool.
    unfold ns_cmd_io, buf_data. mrun. rewrite flags_low_zero by lia. zbool.
    change (wrap 32 (0 * ns_sector_size ns)) with 0. zbool.
    change (Z.land 2 3) with 2. zbool. change (wrap 32 (0 - 1)) with 0xffffffff.
    assert (Hall : Z.lor (wrap 32 (Z.shiftl flags 16)) 0xffffffff = 0xffffffff).
    { change 0xffffffff with (Z.ones 32). apply Z.lor_ones_low.
      - unfold wrap. eval_pow. divmod.
      - unfold wrap. destruct (Z.eq_dec (Z.shiftl flags 16 mod 2 ^ 32) 0) as [->|]; [done|].
        apply Z.log2_lt_pow2; eval_pow; divmod. }
    rewrite Hall, Hs, Z.min_r by lia. eexists. split; [done|].
    unfold addresses, cdw10, cdw11, cdw12, dword. cbn [nth cmd_dwords nvme_send_cmd_raw cmd_data].
    repeat split; try done. rewrite <- (lba_split lba) at 3. f_equal. unfold lo32.
    by rewrite land_u32.
Qed.

(** The effects of a write that fits. *)
Lemma write_run submit ns b token lba count flags d13 d14 d15 :
  (forall c, submit c = 0) -> io_args_ok ns b lba count flags d13 d14 d15 ->
  ns_sector_size ns mod 8 = 0 ->
  b_offset b + count * ns_sector_size ns <= Z.of_nat (length (b_ptr b)) ->
  exists c mem, write submit ns (Some b) token lba count flags d13 d14 d15
                = Ok (c, mem, wrap 64 (token + count))
    /\ addresses c 1 (ns_id ns) lba count flags
    /\ cmd_data c = Some (b_offset b, count * ns_sector_size ns)
    /\ length mem = length (b_ptr b)
    /\ stamped (b_offset b) (ns_sector_size ns) 0 count lba token mem
    /\ (forall p, 0 <= p -> ~ in_stamp (b_offset b) (ns_sector_size ns) 0 count p ->
          mem !! Z.to_nat p = b_ptr b !! Z.to_nat p).
Proof.
  intros Hs [Hwf] H8 Hroom.
  assert (Hn : Z.of_nat (Z.to_nat count) = count) by lia.
  destruct (fill_blocks_spec (Z.to_nat count) 0 (b_offset b) lba token (ns_sector_size ns) (b_ptr b))
    as (mem & Hfill & Hlen & Hst & _ & Hother); rewrite ?Hn; try lia; [apply Hwf|].
  rewrite Hn in Hst, Hother.
  unfold write, send_read_write, need_buf. mrun.
  rewrite !to_uint_ok by (eval_pow; lia). zbool.
  unfold ns_cmd_io, buf_data, buf_mem, buffer_fill_rawdata. mrun. rewrite flags_low_zero by lia. zbool.
  assert (Hw : wrap 32 (count * ns_sector_size ns) = count * ns_sector_size ns)
    by (unfold wrap; apply Z.mod_small; nia).
  rewrite Hw. zbool. change (Z.land 1 3) with 1. zbool. rewrite Hfill. cbn [fst snd].
  rewrite lor_flags_count by done. rewrite Hs, Z.min_r by lia. do 2 eexists. split; [done|].
  destruct (nlb_flags count flags) as (_ & H1 & H2); [done..|].
  unfold addresses, cdw10, cdw11, cdw12, dword. cbn [nth cmd_dwords nvme_send_cmd_raw cmd_data].
  repeat split; try done; [|apply Hst; done..].
  rewrite <- (lba_split lba) at 3. f_equal. unfold lo32. by rewrite land_u32.
Qed.

(** C30. A write stamps its blocks: with arguments that fit, a sector size that
    is a multiple of 8 and room for the data behind the buffer's offset, every
    one of the [count] blocks gets its own LBA in its first word and its own
    token in its last word, no other byte of the buffer changes, the token
    advances by the number of blocks, and the entry is a write of exactly these
    blocks. *)
Theorem write_stamps submit ns b token lba count flags d13 d14 d15 :
  (forall c, submit c = 0) -> io_args_ok ns b lba count flags d13 d14 d15 ->
  ns_sector_size ns mod 8 = 0 ->
  b_offset b + count * ns_sector_size ns <= Z.of_nat (length (b_ptr b)) ->
  exists c mem, write submit ns (Some b) token lba count flags d13 d14 d15
                = Ok (c, mem, wrap 64 (token + count))
    /\ addresses c 1 (ns_id ns) lba count flags
    /\ cmd_data c = Some (b_offset b, count * ns_sector_size ns)
    /\ length mem = length (b_ptr b)
    /\ stamped (b_offset b) (ns_sector_size ns) 0 count lba token mem
    /\ (forall p, 0 <= p -> ~ in_stamp (b_offset b) (ns_sector_size ns) 0 count p ->
          mem !! Z.to_nat p = b_ptr b !! Z.to_nat p).
Proof. apply write_run. Qed.

(** ** Log pages *)

(** Log pages are addressed as the specification asks: for a dword-aligned
    size and offset below 4 GiB the entry asks for exactly [size] bytes
    (NUMDL and NUMDU together, zero based) of page [lid] from [offset] on.
    An offset of 4 GiB or more passes every assertion of [getlogpage], but
    nothing is sent: dword 12 gets the whole offset and Cython raises
    [OverflowError]. *)
Theorem getlogpage_encodes submit lid b size offset nsid :
  (forall c, submit c = 0) -> 0 <= lid < 65536 -> 0 <= nsid < 2 ^ 32 ->
  4 <= size -> size mod 4 = 0 -> size <= 2 ^ 34 ->
  0 <= offset < 2 ^ 64 -> offset mod 4 = 0 ->
  (offset < 2 ^ 32 ->
   exists c, getlogpage submit lid b (Some size) offset nsid = Ok c
     /\ opc c = 2 /\ cmd_io c = false /\ Command.nsid c = nsid
     /\ cdw10 c mod 65536 = lid
     /\ (cdw10 c / 65536 + 65536 * cdw11 c + 1) * 4 = size
     /\ cdw12 c + 2 ^ 32 * cdw13 c = offset /\ cmd_data c = buf_data b)
  /\ (2 ^ 32 <= offset ->
      getlogpage submit lid b (Some size) offset nsid = Err OverflowError).
Proof.
  intros Hs Hlid Hn H4 Hm Hsz Ho Hom. unfold getlogpage, size_or_len. mrun.
  zbool. rewrite shiftr_div, (shiftl_mul _ 16), land_65535, land_65535, (shiftr_div _ 16),
    (shiftr_div _ 32) by lia.
  assert (Hd : 0 <= size / 2 ^ 2 - 1 < 0x100000000) by (eval_pow; divmod). zbool.
  split; intros Hlt.
  - eexists. unfold send_admin_raw. split.
    + apply send_raw_ok; [apply Hs|]. each (eval_pow; divmod).
    + unfold opc, Command.nsid, cdw10, cdw11, cdw12, cdw13, dword.
      cbn [nth cmd_dwords nvme_send_cmd_raw cmd_data cmd_io].
      repeat split; try done; eval_pow; divmod.
  - unfold send_admin_raw. apply send_raw_overflow. intros H.
    do 4 apply Forall_cons_1 in H as [_ H]. apply Forall_cons_1 in H as [H _]. lia.
Qed.

(** ** Fields of the other admin commands *)
Definition admin_entry (c : spdk_cmd) (op n d10 d11 : Z) (data : option (Z * Z)) : Prop :=
  cmd_io c = false /\ dword 0 c = op /\ nsid c = n /\ cdw10 c = d10 /\ cdw11 c = d11
  /\ cdw12 c = 0 /\ cdw13 c = 0 /\ cmd_data c = data.

Lemma send_admin_entry submit buf op n d10 d11 :
  (forall c, submit c = 0) -> Forall (fun v => 0 <= v < 2 ^ 32) [op; n; d10; d11] ->
  exists c, send_admin_raw submit buf op n d10 d11 0 0 0 0 = Ok c
    /\ admin_entry c op n d10 d11 (buf_data buf).
Proof.
  intros Hs H. do 4 apply Forall_cons_1 in H as [? H].
  exists (nvme_send_cmd_raw false op n (buf_data buf) d10 d11 0 0 0 0). split; [|done].
  unfold send_admin_raw. apply send_raw_ok; [apply Hs|].
  each (solve [done | eval_pow; lia]).
Qed.

(** One command of the list: its dwords fit, it is sent, its fields read back. *)
Ltac admin_case Hsend :=
  edestruct Hsend as (c & -> & Hc); [u32_all|];
  exists c; repeat match goal with |- ex _ => eexists end;
  repeat match goal with |- _ /\ _ => split end; [done|exact Hc|divmod..].

(** Packed admin fields do not overlap: for arguments within their fields,
    [abort], [identify], [format], [fw_commit] and [security_receive] are sent
    with dwords from which each argument is read back at the bit position the
    specification gives it; a [format] or [fw_commit] argument too large for
    its field is refused before anything is sent. *)
Theorem admin_fields_separate submit b n cid sqid cns cntid csi nvmset lbaf ses slot action spsp secp nssf size :
  (forall c, submit c = 0) -> 0 <= n < 2 ^ 32 -> 4096 <= b_size b ->
  0 <= cid < 2 ^ 16 -> 0 <= sqid < 2 ^ 16 -> 0 <= cns < 2 ^ 16 -> 0 <= cntid < 2 ^ 16 ->
  0 <= csi < 2 ^ 8 -> 0 <= nvmset < 2 ^ 16 ->
  0 <= lbaf -> 0 <= ses -> 0 <= slot -> 0 <= action ->
  0 <= spsp < 2 ^ 16 -> 0 <= secp < 2 ^ 8 -> 0 <= nssf < 2 ^ 8 -> 0 <= size < 2 ^ 32 ->
  (exists c w, abort submit cid sqid = Ok c /\ admin_entry c 0x8 0 w 0 None
     /\ w / 2 ^ 16 = cid /\ w mod 2 ^ 16 = sqid)
  /\ (exists c w w', identify submit (Some b) n cns cntid csi nvmset = Ok c
     /\ admin_entry c 0x6 n w w' (buf_data (Some b))
     /\ w / 2 ^ 16 = cntid /\ w mod 2 ^ 16 = cns /\ w' / 2 ^ 24 = csi /\ w' mod 2 ^ 24 = nvmset)
  /\ (if (ses <? 8) && (lbaf <? 16)
      then exists c w, format submit lbaf ses n = Ok c /\ admin_entry c 0x80 n w 0 None
           /\ w mod 2 ^ 4 = lbaf /\ w / 2 ^ 9 = ses /\ w / 2 ^ 4 mod 2 ^ 5 = 0
      else format submit lbaf ses n = Err AssertionError)
  /\ (if (slot <? 8) && (action <? 8)
      then exists c w, fw_commit submit slot action = Ok c /\ admin_entry c 0x10 0 w 0 None
           /\ w mod 2 ^ 3 = slot /\ w / 2 ^ 3 = action
      else fw_commit submit slot action = Err AssertionError)
  /\ (exists c w, security_receive submit (Some b) spsp secp nssf (Some size) = Ok c
     /\ admin_entry c 0x82 0 w size (buf_data (Some b))
     /\ w / 2 ^ 24 = secp /\ w / 2 ^ 8 mod 2 ^ 16 = spsp /\ w mod 2 ^ 8 = nssf).
Proof.
  intros Hs Hn Hb Hcid Hsq Hcns Hcnt Hcsi Hset Hl Hse Hsl Hac Hsp Hsec Hns Hsz.
  unfold abort, identify, format, fw_commit, security_receive, size_or_len, py_len, buffer_len.
  mrun. rewrite !shiftl_mul by lia. rewrite !lor_add_r by lia. zbool.
  assert (Hsend : forall buf op n d10 d11,
    Forall (fun v => 0 <= v < 2 ^ 32) [op; n; d10; d11] ->
    exists c, send_admin_raw submit buf op n d10 d11 0 0 0 0 = Ok c
      /\ admin_entry c op n d10 d11 (buf_data buf)) by (intros; by apply send_admin_entry).
  eval_pow. split; [|split; [|split; [|split]]].
  - admin_case Hsend.
  - admin_case Hsend.
  - destruct (ses <? 8) eqn:E1, (lbaf <? 16) eqn:E2; cbn [andb]; try done; zbool_hyps.
    admin_case Hsend.
  - destruct (slot <? 8) eqn:E1, (action <? 8) eqn:E2; cbn [andb]; try done; zbool_hyps.
    admin_case Hsend.
  - admin_case Hsend.
Qed.

(** ** Witnesses: the hypotheses hold for concrete calls *)
Definition example_ns : namespace := mk_ns 1 512.
Definition accept (_ : spdk_cmd) : Z := 0.

Lemma example_args_ok : io_args_ok example_ns (example_buffer 4096) 0x123456789 8 0x4000 0 0 0.
Proof. split; try (cbn; eval_pow; lia). by apply example_buffer_wf. Qed.

Lemma range_commands_encode_witness :
  exists c, verify accept example_ns 0x123456789 8 0 = Ok c
    /\ addresses c 0xc 1 0x123456789 8 0.
Proof.
  apply (range_commands_encode accept example_ns (example_buffer 4096) 0x123456789 8 0);
    [done|cbn; lia..].
Defined.

Definition example_buf : buffer := example_buffer 4096.

Lemma read_encodes_witness :
  exists c, read accept example_ns (Some example_buf) 5 0x123456789 8 0x4000 0 0 0
            = Ok (c, b_ptr example_buf, 5)
    /\ addresses c 2 (ns_id example_ns) 0x123456789 8 0x4000
    /\ cmd_data c = Some (b_offset example_buf, 8 * ns_sector_size example_ns) /\ cdw13 c = 0.
Proof. exact (proj1 (read_encodes accept example_ns example_buf 5 _ _ _ _ _ _
  (fun _ => eq_refl) example_args_ok)). Defined.

Lemma write_stamps_witness :
  exists c mem, write accept example_ns (Some example_buf) 5 0x123456789 8 0x4000 0 0 0
                = Ok (c, mem, wrap 64 (5 + 8))
    /\ addresses c 1 (ns_id example_ns) 0x123456789 8 0x4000
    /\ cmd_data c = Some (b_offset example_buf, 8 * ns_sector_size example_ns)
    /\ length mem = length (b_ptr example_buf)
    /\ stamped (b_offset example_buf) (ns_sector_size example_ns) 0 8 0x123456789 5 mem
    /\ (forall p, 0 <= p ->
          ~ in_stamp (b_offset example_buf) (ns_sector_size example_ns) 0 8 p ->
          mem !! Z.to_nat p = b_ptr example_buf !! Z.to_nat p).
Proof.
  refine (write_stamps accept example_ns example_buf 5 _ _ _ _ _ _
    (fun _ => eq_refl) example_args_ok eq_refl _).
  vm_compute. discriminate.
Defined.

Lemma getlogpage_encodes_witness :
  getlogpage accept 2 None (Some 512) (2 ^ 32) 0xffffffff = Err OverflowError.
Proof.
  apply (getlogpage_encodes accept 2 None 512 (2 ^ 32) 0xffffffff);
    first [done | by vm_compute | lia].
Defined.

Lemma admin_fields_separate_witness :
  exists c w, abort accept 7 1 = Ok c /\ admin_entry c 0x8 0 w 0 None
    /\ w / 2 ^ 16 = 7 /\ w mod 2 ^ 16 = 1.
Proof.
  apply (admin_fields_separate accept (example_buffer 4096) 1 7 1 1 0 0 0 0 0 0 0 0 0 0 0);
    first [done | cbn; lia].
Defined.
