(* ===== verification/Crc.v ===== *)
(** * Crc: inline data verification

    The CRC table of a namespace (src/src/driver.c): a 32-bit word for each
    logical block, whose low 31 bits are the checksum of the data last written
    (0: unmapped, 0x7fffffff: uncorrectable) and whose top bit locks the block
    while a command on it is outstanding.  Writes update the table when they
    complete, reads are verified against it, and a command that would overlap
    an outstanding one is held back.  The CRC-32C function is an argument. *)
From Stdlib Require Import ZArith Lia ZifyBool.
From stdpp Require Import base list numbers option gmap relations.
From S2P Require Import Prelude PyInt Buffer Command.
Local Open Scope Z_scope.

(** [crc_table_t], without the lock on its memory. *)
Record crc_table := mk_crc { ct_size : Z; ct_enabled : bool; ct_data : list Z }.

(** What the driver adds to a namespace of SPDK. *)
Record nstab := mk_nstab {
  nt_size : Z;                     (* ns->table_size, in bytes *)
  nt_crc : option crc_table;       (* ns->crc_table, or NULL *)
  nt_lba_size : Z                  (* the sector size *)
}.

Definition with_data (d : list Z) (ns : nstab) : nstab :=
  mk_nstab (nt_size ns)
    (match nt_crc ns with
     | Some t => Some (mk_crc (ct_size t) (ct_enabled t) d)
     | None => None
     end) (nt_lba_size ns).

Definition lock_bit : Z := 0x80000000.
Definition unmapped : Z := 0.
Definition uncorrectable : Z := 0x7fffffff.

(** Reading [n] bytes, little-endian. *)
Definition load (n pos : Z) (mem : list Z) : res Z :=
  if (0 <=? pos) && (pos + n <=? Z.of_nat (length mem)) then Ok (from_le (sub_list pos n mem))
  else Err COutOfBounds.

(** [for (i = 0; i < n; i++) data[start+i] = f(data[start+i])] *)
Fixpoint for_range (n : nat) (i start : Z) (f : Z -> Z) (d : list Z) : res (list Z) :=
  match n with
  | O => Ok d
  | S n' =>
      let j := Z.to_nat (wrap 64 (start + i)) in
      match d !! j with
      | Some v => for_range n' (i + 1) start f (<[j := f v]> d)
      | None => Err COutOfBounds
      end
  end.

Section Crc.
(** [spdk_crc32c_update(ptr, len, 0)] *)
Variable crc32c : list Z -> Z.

(** ** Checksums *)
Definition buffer_calc_csum (mem : list Z) : Z :=
  let crc := Z.shiftr (crc32c mem) 1 in
  let crc := if crc =? 0 then 1 else crc in
  if crc =? 0x7fffffff then 0x7ffffffe else crc.

(** Block [i] of a buffer. *)
Definition block (buf : list Z) (i lba_size : Z) : res (list Z) :=
  if (0 <=? i * lba_size) && (i * lba_size + lba_size <=? Z.of_nat (length buf))
  then Ok (sub_list (i * lba_size) lba_size buf) else Err COutOfBounds.

(** [for (uint64_t i=0, lba=lba_first; i<lba_count; i++, lba++)]: [n] blocks
    are left. *)
Fixpoint update_crc (n : nat) (i lba size lba_size : Z) (buf d : list Z) : res (list Z) :=
  match n with
  | O => Ok d
  | S n' =>
      if lba <? size / 4 then
        b ← block buf i lba_size;
        match d !! Z.to_nat lba with
        | Some _ => update_crc n' (i + 1) (wrap 64 (lba + 1)) size lba_size buf
                      (<[Z.to_nat lba := buffer_calc_csum b]> d)
        | None => Err COutOfBounds
        end
      else update_crc n' (i + 1) (wrap 64 (lba + 1)) size lba_size buf d
  end.

Definition buffer_update_crc (ns : nstab) (d buf : list Z) (lba lba_count : Z) : res (list Z) :=
  update_crc (Z.to_nat lba_count) 0 lba (nt_size ns) (nt_lba_size ns) buf d.

(** The first word of each block is its LBA, or the block is blank. *)
Fixpoint verify_lba (n : nat) (i lba lba_size : Z) (buf : list Z) : res Z :=
  match n with
  | O => Ok 0
  | S n' =>
      expected ← load 8 (i * lba_size) buf;
      if negb (expected =? lba) && negb (expected =? 0) && negb (expected =? 2 ^ 64 - 1)
      then Ok (-2) else verify_lba n' (i + 1) (wrap 64 (lba + 1)) lba_size buf
  end.

Definition buffer_verify_lba (buf : list Z) (lba lba_count lba_size : Z) : res Z :=
  verify_lba (Z.to_nat lba_count) 0 lba lba_size buf.

Fixpoint verify_data (n : nat) (i lba size lba_size : Z) (buf d : list Z) : res Z :=
  match n with
  | O => Ok 0
  | S n' =>
      let next := verify_data n' (i + 1) (wrap 64 (lba + 1)) size lba_size buf d in
      if lba <? size / 4 then
        match d !! Z.to_nat lba with
        | None => Err COutOfBounds
        | Some w =>
            let expected := Z.land 0x7fffffff w in
            if expected =? unmapped then next
            else if expected =? uncorrectable then Ok (-1)
            else
              b ← block buf i lba_size;
              if buffer_calc_csum b =? expected then next else Ok (-3)
        end
      else next
  end.

Definition buffer_verify_data (ns : nstab) (d buf : list Z) (lba lba_count : Z) : res Z :=
  verify_data (Z.to_nat lba_count) 0 lba (nt_size ns) (nt_lba_size ns) buf d.

(** ** The table *)
Definition crc32_clear (ns : nstab) (lba len : Z) (uncorr : bool) : res nstab :=
  let c := if uncorr then uncorrectable else unmapped in
  match nt_crc ns with
  | Some t =>
      let pos := wrap 64 (lba * 4) in
      if pos <? nt_size ns then
        check (negb (nt_size ns =? 0)) CAbort ;;
        let len := if nt_size ns <? wrap 64 (pos + len) then wrap 64 (nt_size ns - pos) else len in
        d ← for_range (Z.to_nat (len / 4)) 0 lba (fun _ => c) (ct_data t);
        Ok (with_data d ns)
      else Ok ns
  | None => Ok ns
  end.

(** The 16-byte ranges of a Dataset Management command: start and length. *)
Fixpoint dsm_ranges (n : nat) (i : Z) (mem : list Z) : res (list (Z * Z)) :=
  match n with
  | O => Ok []
  | S n' =>
      len ← load 4 (i * 16 + 4) mem;
      slba ← load 8 (i * 16 + 8) mem;
      l ← dsm_ranges n' (i + 1) mem;
      Ok ((slba, len) :: l)
  end.

Fixpoint clear_ranges (ns : nstab) (l : list (Z * Z)) : res nstab :=
  match l with
  | [] => Ok ns
  | (slba, len) :: l' => ns ← crc32_clear ns slba (len * 4) false; clear_ranges ns l'
  end.

Definition crc32_clear_ranges (ns : nstab) (buf : list Z) (count : Z) : res nstab :=
  l ← dsm_ranges (Z.to_nat count) 0 buf; clear_ranges ns l.

(** ** Locks *)
Definition crc32_set_lock_bits (ns : nstab) (slba nlb : Z) (lock : bool) : res nstab :=
  match nt_crc ns with
  | Some t =>
      if wrap 64 (slba * 4) <? nt_size ns then
        let nlb := if nt_size ns <? wrap 64 (wrap 64 (slba + nlb) * 4)
                   then wrap 64 (nt_size ns / 4 - slba) else nlb in
        d ← for_range (Z.to_nat nlb) 0 slba
              (fun w => if lock then Z.lor w lock_bit else Z.land w (Z.lnot lock_bit)) (ct_data t);
        Ok (with_data d ns)
      else Ok ns
  | None => Ok ns
  end.

(** [for (uint16_t i=0; i<nlb; i++) if (data[slba+i] & 0x80000000) return true] *)
Fixpoint any_locked (n : nat) (i slba : Z) (d : list Z) : res bool :=
  match n with
  | O => Ok false
  | S n' =>
      match d !! Z.to_nat (wrap 64 (slba + i)) with
      | Some w => if negb (Z.land w lock_bit =? 0) then Ok true else any_locked n' (i + 1) slba d
      | None => Err COutOfBounds
      end
  end.

(** The number of blocks is a [uint16_t] parameter. *)
Definition crc32_check_lock_bits (ns : nstab) (slba nlb : Z) : res bool :=
  let nlb := wrap 16 nlb in
  match nt_crc ns with
  | Some t =>
      if wrap 64 (slba * 4) <? nt_size ns then
        let nlb := if nt_size ns <? wrap 64 (wrap 64 (slba + nlb) * 4)
                   then wrap 16 (nt_size ns / 4 - slba) else nlb in
        any_locked (Z.to_nat nlb) 0 slba (ct_data t)
      else Ok false
  | None => Ok false
  end.

(** A request as the hooks see it: its queue, its command, and the memory its
    payload points to. *)
Record request := mk_request { rq_admin : bool; rq_cmd : spdk_cmd; rq_payload : list Z }.

Definition slba (c : spdk_cmd) : Z := cdw10 c + 2 ^ 32 * cdw11 c.
Definition nlb (c : spdk_cmd) : Z := Z.land (cdw12 c) 0xffff + 1.
Definition is_lba_cmd (o : Z) : bool :=
  (o =? 1) || (o =? 2) || (o =? 4) || (o =? 5) || (o =? 8).
Definition dsm_count (c : spdk_cmd) : Z := Z.land (cdw10 c) 0xff + 1.

(** [locked = check(range i); if (locked) break], over all ranges. *)
Fixpoint any_range_locked (ns : nstab) (l : list (Z * Z)) : res bool :=
  match l with
  | [] => Ok false
  | (slba, len) :: l' =>
      locked ← crc32_check_lock_bits ns slba len;
      if (locked : bool) then Ok true else any_range_locked ns l'
  end.

Fixpoint set_ranges (ns : nstab) (l : list (Z * Z)) (lock : bool) : res nstab :=
  match l with
  | [] => Ok ns
  | (slba, len) :: l' => ns ← crc32_set_lock_bits ns slba len lock; set_ranges ns l' lock
  end.

(** The ranges a request locks. *)
Definition lock_ranges (r : request) : res (list (Z * Z)) :=
  let o := opc (rq_cmd r) in
  if is_lba_cmd o then Ok [(slba (rq_cmd r), nlb (rq_cmd r))]
  else if o =? 9 then dsm_ranges (Z.to_nat (dsm_count (rq_cmd r))) 0 (rq_payload r)
  else Ok [].

(** [crc32_lock_lba]: true when the request may be sent. *)
Definition crc32_lock_lba (ns : option nstab) (r : request) : res (bool * option nstab) :=
  match ns with
  | Some ns =>
      if rq_admin r then Ok (true, Some ns)
      else if is_lba_cmd (opc (rq_cmd r)) then
        locked ← crc32_check_lock_bits ns (slba (rq_cmd r)) (nlb (rq_cmd r));
        if (locked : bool) then Ok (false, Some ns)
        else ns ← crc32_set_lock_bits ns (slba (rq_cmd r)) (nlb (rq_cmd r)) true;
             Ok (true, Some ns)
      else if opc (rq_cmd r) =? 9 then
        l ← dsm_ranges (Z.to_nat (dsm_count (rq_cmd r))) 0 (rq_payload r);
        locked ← any_range_locked ns l;
        if (locked : bool) then Ok (false, Some ns)
        else ns ← set_ranges ns l true; Ok (true, Some ns)
      else Ok (true, Some ns)
  | None => Ok (true, None)
  end.

Definition crc32_unlock_lba (ns : option nstab) (r : request) : res (option nstab) :=
  match ns with
  | Some ns =>
      if rq_admin r then Ok (Some ns)
      else l ← lock_ranges r; ns ← set_ranges ns l false; Ok (Some ns)
  | None => Ok None
  end.

(** [crc32_unlock_all] of one namespace. *)
Definition crc32_unlock_all (ns : nstab) : res nstab :=
  crc32_set_lock_bits ns 0 (nt_size ns / 4) false.

(** [while (data[slba] == 0x7fffffff) slba++]: nothing bounds the walk. *)
Fixpoint skip_uncorr (fuel : nat) (slba : Z) (d : list Z) : res Z :=
  match fuel with
  | O => Err OutOfFuel
  | S fuel' =>
      match d !! Z.to_nat slba with
      | Some w => if w =? uncorrectable then skip_uncorr fuel' (wrap 64 (slba + 1)) d else Ok slba
      | None => Err COutOfBounds
      end
  end.

Definition crc32_skip_uncorr (ns : nstab) (slba : Z) : res Z :=
  match nt_crc ns with
  | Some t => if wrap 64 (slba * 4) <? nt_size ns
              then skip_uncorr (S (length (ct_data t))) slba (ct_data t) else Ok slba
  | None => Ok slba
  end.

(** ** Completion: update and verify *)
Definition lba_count16 (c : spdk_cmd) : Z := wrap 16 (nlb c).

Definition cmdlog_update_crc_io (c : spdk_cmd) (ns : nstab) (buf : list Z) : res nstab :=
  match nt_crc ns with
  | None => Ok ns
  | Some t =>
      let lba := slba c in let n := lba_count16 c in
      if opc c =? 1 then d ← buffer_update_crc ns (ct_data t) buf lba n; Ok (with_data d ns)
      else if opc c =? 4 then crc32_clear ns lba (n * 4) true
      else if opc c =? 8 then crc32_clear ns lba (n * 4) false
      else if opc c =? 9 then crc32_clear_ranges ns buf (dsm_count c)
      else Ok ns
  end.

(** Sanitize clears every namespace. *)
Definition cmdlog_update_crc_admin (c : spdk_cmd) (nss : list nstab) : res (list nstab) :=
  if opc c =? 0x84 then mapM (fun ns => crc32_clear ns 0 (nt_size ns) false) nss else Ok nss.

Definition cmdlog_verify_crc (c : spdk_cmd) (ns : nstab) (buf : list Z) : res Z :=
  if opc c =? 2 then
    match nt_crc ns with
    | Some t =>
        if ct_enabled t then
          let lba := slba c in let n := lba_count16 c in
          ret ← buffer_verify_lba buf lba n (nt_lba_size ns);
          if ret =? 0 then buffer_verify_data ns (ct_data t) buf lba n
          else
            expected ← load 8 0 buf;
            ret ← buffer_verify_data ns (ct_data t) buf expected n;
            if ret =? 0 then Ok (-2) else Ok ret
        else Ok 0
    | None => Ok 0
    end
  else Ok 0.

(** The middle of [cmdlog_cmd_cpl], for an I/O command: the table afterwards,
    and the status code type and status code the script sees. *)
Definition complete_io (r : request) (buf : list Z) (ns : nstab) (sct sc : Z)
    : res (nstab * (Z * Z)) :=
  if ((sc =? 0) && (sct =? 0)) || (opc (rq_cmd r) =? 4) then
    ns ← cmdlog_update_crc_io (rq_cmd r) ns buf;
    ret ← cmdlog_verify_crc (rq_cmd r) ns buf;
    Ok (ns, if ret =? 0 then (sct, sc) else (0x07, 0x81))
  else Ok (ns, (sct, sc)).
End Crc.

(** ** Ranges of the table *)
Definition in_range (s n j : Z) : bool := (s <=? j) && (j <? s + n).
Definition in_ranges (l : list (Z * Z)) (j : Z) : bool :=
  existsb (fun e => in_range (fst e) (snd e) j) l.

(** [f] on the words from [s], [n] of them. *)
Definition map_range (s n : Z) (f : Z -> Z) (d : list Z) : list Z :=
  imap (fun j v => if in_range s n (Z.of_nat j) then f v else v) d.

Lemma map_range_lookup s n f d j :
  map_range s n f d !! j =
    (fun v => if in_range s n (Z.of_nat j) then f v else v) <$> d !! j.
Proof. unfold map_range. by rewrite list_lookup_imap. Qed.

Lemma map_range_length s n f d : length (map_range s n f d) = length d.
Proof. apply length_imap. Qed.

Lemma map_range_ext s n s' n' f d :
  (forall j, 0 <= j < Z.of_nat (length d) -> in_range s n j = in_range s' n' j) ->
  map_range s n f d = map_range s' n' f d.
Proof.
  intros H. apply list_eq. intros j. rewrite !map_range_lookup.
  destruct (d !! j) as [v|] eqn:E; [|done]. cbn. apply lookup_lt_Some in E.
  by rewrite H by lia.
Qed.

Lemma map_range_none s n f d :
  (forall j, 0 <= j < Z.of_nat (length d) -> in_range s n j = false) -> map_range s n f d = d.
Proof.
  intros H. apply list_eq. intros j. rewrite map_range_lookup.
  destruct (d !! j) as [v|] eqn:E; [|done]. cbn. apply lookup_lt_Some in E. by rewrite H by lia.
Qed.

Lemma for_range_run n : forall i s f d,
  0 <= s + i -> s + i + Z.of_nat n <= Z.of_nat (length d) -> Z.of_nat (length d) < 2 ^ 64 ->
  for_range n i s f d = Ok (map_range (s + i) (Z.of_nat n) f d).
Proof.
  induction n as [|n IH]; intros i s f d H0 Hn Hd; cbn [for_range].
  { f_equal. symmetry. apply map_range_none. intros j _. unfold in_range. lia. }
  unfold wrap. rewrite Z.mod_small by lia.
  destruct (d !! Z.to_nat (s + i)) as [v|] eqn:E; [|apply lookup_ge_None in E; lia].
  rewrite IH by (rewrite ?length_insert; lia). f_equal. apply list_eq. intros j.
  rewrite !map_range_lookup. destruct (decide (j = Z.to_nat (s + i))) as [->|Hj].
  - rewrite list_lookup_insert_eq by (apply lookup_lt_Some in E; lia). rewrite E. cbn.
    unfold in_range. by zbool.
  - rewrite list_lookup_insert_ne by done. destruct (d !! j) as [w|]; [|done]. cbn.
    replace (in_range (s + (i + 1)) (Z.of_nat n) (Z.of_nat j))
      with (in_range (s + i) (Z.of_nat (S n)) (Z.of_nat j)) by (unfold in_range; lia). done.
Qed.

(** ** Well-formed tables *)
Definition words (ns : nstab) : list Z :=
  match nt_crc ns with Some t => ct_data t | None => [] end.
Definition tracked (ns : nstab) : Z := Z.of_nat (length (words ns)).

(** The size is that of the words; SPDK gives no memory for 2^62 of them. *)
Record nstab_wf (ns : nstab) : Prop := {
  nw_size : nt_crc ns <> None -> nt_size ns = 4 * tracked ns;
  nw_bound : 4 * tracked ns < 2 ^ 64
}.

Lemma words_with_data d ns : nt_crc ns <> None -> words (with_data d ns) = d.
Proof. unfold words, with_data. by destruct (nt_crc ns). Qed.

Lemma with_data_words ns : with_data (words ns) ns = ns.
Proof. destruct ns as [s [[]|] l]; done. Qed.

Lemma with_data_wf d ns : nstab_wf ns -> length d = length (words ns) -> nstab_wf (with_data d ns).
Proof.
  intros [Hs Hb] Hl. unfold with_data. destruct ns as [s [t|] l]; cbn in *; [|done].
  split; unfold tracked, words in *; cbn in *; rewrite Hl; [intros _; by apply Hs|done].
Qed.

(** A range the arithmetic of the driver handles: it ends below 2^62. *)
Definition range_ok (e : Z * Z) : Prop := 0 <= fst e /\ 0 <= snd e /\ 4 * (fst e + snd e) < 2 ^ 64.

Lemma set_lock_bits_run ns s n lock :
  nstab_wf ns -> range_ok (s, n) ->
  crc32_set_lock_bits ns s n lock =
    Ok (with_data (map_range s n (fun w => if lock then Z.lor w lock_bit
                                           else Z.land w (Z.lnot lock_bit)) (words ns)) ns).
Proof.
  intros [Hs Hb] (H0 & Hn & Hlt). cbn [fst snd] in *. unfold crc32_set_lock_bits, tracked, words in *.
  destruct (nt_crc ns) as [t|] eqn:E; [|by destruct ns; cbn in *; subst].
  specialize (Hs ltac:(done)). unfold wrap. rewrite !Z.mod_small by (eval_pow; lia).
  rewrite (Z.mod_small (s + n)), (Z.mod_small ((s + n) * 4)) by (eval_pow; lia).
  replace (nt_size ns / 4) with (Z.of_nat (length (ct_data t))) by (rewrite Hs; divmod).
  destruct (Z.ltb_spec (s * 4) (nt_size ns)) as [Hlt'|Hge].
  - destruct (Z.ltb_spec (nt_size ns) ((s + n) * 4)).
    + rewrite Z.mod_small by (eval_pow; lia).
      rewrite for_range_run by lia. cbn [mbind res_bind]. do 2 f_equal. apply map_range_ext.
      intros j Hj. unfold in_range. lia.
    + rewrite for_range_run by lia. cbn [mbind res_bind]. do 2 f_equal. apply map_range_ext.
      intros j Hj. unfold in_range. lia.
  - rewrite map_range_none by (intros j Hj; unfold in_range; lia).
    destruct ns as [sz [t'|] l]; [|done]. cbn in E. injection E as ->. by destruct t.
Qed.

(** ** Lock bits *)
Definition locked (ns : nstab) (j : Z) : bool :=
  (0 <=? j) && match words ns !! Z.to_nat j with Some w => Z.testbit w 31 | None => false end.

Lemma locked_tracked ns j : locked ns j = true -> 0 <= j < tracked ns.
Proof.
  unfold locked, tracked. intros [Hj Hw]%andb_true_iff.
  destruct (words ns !! Z.to_nat j) eqn:E; [|done]. apply lookup_lt_Some in E. lia.
Qed.

Lemma land_lock_bit w : (Z.land w lock_bit =? 0) = negb (Z.testbit w 31).
Proof.
  assert (E : Z.land w lock_bit = if Z.testbit w 31 then lock_bit else 0).
  { change lock_bit with (2 ^ 31). apply Z.bits_inj'. intros k Hk.
    rewrite Z.land_spec, Z.pow2_bits_eqb by lia.
    destruct (Z.eqb_spec 31 k) as [<-|Hne].
    - rewrite andb_true_r. destruct (Z.testbit w 31) eqn:Ew; [by rewrite Z.pow2_bits_eqb|].
      by rewrite Z.bits_0.
    - rewrite andb_false_r. destruct (Z.testbit w 31).
      + rewrite Z.pow2_bits_eqb by lia. symmetry. lia.
      + by rewrite Z.bits_0. }
  rewrite E. by destruct (Z.testbit w 31).
Qed.

Lemma set_bit_31 (lock : bool) w :
  Z.testbit (if lock then Z.lor w lock_bit else Z.land w (Z.lnot lock_bit)) 31 = lock.
Proof.
  destruct lock; [rewrite Z.lor_spec; apply orb_true_r|].
  rewrite Z.land_spec, Z.lnot_spec by lia. apply andb_false_r.
Qed.

(** Locking or unlocking a range sets the bits of its tracked blocks. *)
Lemma set_lock_bits_spec ns s n lock :
  nstab_wf ns -> range_ok (s, n) ->
  exists ns', crc32_set_lock_bits ns s n lock = Ok ns' /\ nstab_wf ns' /\ tracked ns' = tracked ns
    /\ forall j, 0 <= j < tracked ns -> locked ns' j = if in_range s n j then lock else locked ns j.
Proof.
  intros Hwf Hr. eexists. split; [by apply set_lock_bits_run|].
  destruct (nt_crc ns) as [t|] eqn:E.
  - split; [apply with_data_wf; [done|apply map_range_length]|].
    unfold tracked, locked. rewrite words_with_data by (by rewrite E). rewrite map_range_length.
    split; [done|]. intros j Hj. zbool. rewrite map_range_lookup, Z2Nat.id by lia.
    destruct (words ns !! Z.to_nat j) as [w|] eqn:Ew; [|apply lookup_ge_None in Ew; lia].
    cbn. destruct (in_range s n j); [apply set_bit_31|done].
  - assert (Ew : forall d, with_data d ns = ns) by (intros d; unfold with_data; destruct ns; cbn in E; by subst).
    rewrite Ew. split; [done|]. split; [done|]. unfold tracked, words. rewrite E. cbn. lia.
Qed.

Lemma any_locked_spec n : forall i s d,
  0 <= s + i -> s + i + Z.of_nat n <= Z.of_nat (length d) -> Z.of_nat (length d) < 2 ^ 64 ->
  exists b, any_locked n i s d = Ok b
    /\ (b = true <-> exists j w, s + i <= j < s + i + Z.of_nat n
                              /\ d !! Z.to_nat j = Some w /\ Z.testbit w 31 = true).
Proof.
  induction n as [|n IH]; intros i s d H0 Hn Hd; cbn [any_locked].
  { exists false. split; [done|]. split; [done|]. intros (j & w & Hj & _). lia. }
  unfold wrap. rewrite Z.mod_small by lia.
  destruct (d !! Z.to_nat (s + i)) as [w|] eqn:E; [|apply lookup_ge_None in E; lia].
  rewrite land_lock_bit, negb_involutive. destruct (Z.testbit w 31) eqn:Ew.
  - exists true. split; [done|]. split; [intros _|done]. exists (s + i), w. split; [lia|done].
  - destruct (IH (i + 1) s d) as (b & Hb & Hiff); [lia..|]. exists b. split; [exact Hb|].
    rewrite Hiff. split; intros (j & w' & Hj & Hl & Hw); exists j, w'; split_and!; try done; try lia.
    destruct (decide (j = s + i)) as [->|]; [congruence|lia].
Qed.

(** The check sees exactly the locks of the range, when its length fits the
    16-bit parameter. *)
Lemma check_lock_bits_spec ns s n :
  nstab_wf ns -> range_ok (s, n) -> n < 65536 ->
  exists b, crc32_check_lock_bits ns s n = Ok b
    /\ (b = true <-> exists j, in_range s n j = true /\ locked ns j = true).
Proof.
  intros [Hs Hb] (H0 & Hn & Hlt) H16. cbn [fst snd] in *.
  unfold crc32_check_lock_bits, locked, tracked, words in *.
  destruct (nt_crc ns) as [t|] eqn:E.
  2: { exists false. split; [done|]. split; [done|]. intros (j & _ & H). by rewrite andb_false_r in H. }
  specialize (Hs ltac:(done)). unfold wrap. rewrite (Z.mod_small n) by (eval_pow; lia).
  rewrite (Z.mod_small (s * 4)), (Z.mod_small (s + n)), (Z.mod_small ((s + n) * 4)) by (eval_pow; lia).
  replace (nt_size ns / 4) with (Z.of_nat (length (ct_data t))) by (rewrite Hs; divmod).
  set (m := Z.min n (Z.of_nat (length (ct_data t)) - s)).
  destruct (Z.ltb_spec (s * 4) (nt_size ns)) as [Hl|Hge].
  - assert (Em : (if nt_size ns <? (s + n) * 4 then (Z.of_nat (length (ct_data t)) - s) mod 2 ^ 16 else n) = m).
    { unfold m. destruct (Z.ltb_spec (nt_size ns) ((s + n) * 4)); [|lia].
      rewrite Z.mod_small by (eval_pow; lia). lia. }
    rewrite Em. destruct (any_locked_spec (Z.to_nat m) 0 s (ct_data t)) as (b & Hbd & Hiff); [lia..|].
    exists b. split; [exact Hbd|]. rewrite Hiff. split.
    + intros (j & w & Hj & Hw & Ht). exists j. rewrite Hw. unfold in_range. lia.
    + intros (j & Hj & Hk). apply andb_true_iff in Hk as [Hk Hw].
      destruct (ct_data t !! Z.to_nat j) as [w|] eqn:Ew; [|done]. exists j, w.
      pose proof (lookup_lt_Some _ _ _ Ew). unfold in_range in Hj. split_and!; try done; lia.
  - exists false. split; [done|]. split; [done|]. intros (j & Hj & Hk).
    apply andb_true_iff in Hk as [Hk Hw]. destruct (ct_data t !! Z.to_nat j) eqn:Ew; [|done].
    apply lookup_lt_Some in Ew. unfold in_range in Hj. lia.
Qed.

(** ** Several ranges *)
Lemma set_ranges_spec l lock : forall ns,
  nstab_wf ns -> Forall range_ok l ->
  exists ns', set_ranges ns l lock = Ok ns' /\ nstab_wf ns' /\ tracked ns' = tracked ns
    /\ forall j, 0 <= j < tracked ns -> locked ns' j = if in_ranges l j then lock else locked ns j.
Proof.
  induction l as [|[s n] l IH]; intros ns Hwf Hl; cbn [set_ranges].
  { exists ns. by split_and!. }
  apply Forall_cons_1 in Hl as [Hr Hl].
  destruct (set_lock_bits_spec ns s n lock Hwf Hr) as (ns1 & -> & Hwf1 & Ht1 & Hk1).
  destruct (IH ns1 Hwf1 Hl) as (ns2 & Hs2 & Hwf2 & Ht2 & Hk2). exists ns2.
  split; [exact Hs2|]. split; [done|]. split; [congruence|]. intros j Hj.
  rewrite Hk2 by lia. unfold in_ranges. cbn [existsb fst snd].
  fold (in_ranges l j). rewrite Hk1 by done.
  destruct (in_ranges l j), (in_range s n j); done.
Qed.

Lemma any_range_locked_spec ns l :
  nstab_wf ns -> Forall (fun e => range_ok e /\ snd e < 65536) l ->
  exists b, any_range_locked ns l = Ok b
    /\ (b = true <-> exists j, in_ranges l j = true /\ locked ns j = true).
Proof.
  intros Hwf. induction l as [|[s n] l IH]; intros Hl; cbn [any_range_locked].
  { exists false. split; [done|]. split; [done|]. by intros (j & Hj & _). }
  apply Forall_cons_1 in Hl as [[Hr Hn] Hl].
  destruct (check_lock_bits_spec ns s n Hwf Hr Hn) as (b & -> & Hb). cbn [mbind res_bind].
  unfold in_ranges. cbn [existsb fst snd]. destruct b.
  - exists true. split; [done|]. split; [intros _|done]. destruct (proj1 Hb eq_refl) as (j & Hj & Hk).
    exists j. by rewrite Hj.
  - destruct (IH Hl) as (b & -> & Hiff). exists b. split; [done|]. rewrite Hiff.
    split; intros (j & Hj & Hk); exists j; (split; [|done]); fold (in_ranges l j) in *.
    + by rewrite Hj, orb_true_r.
    + apply orb_true_iff in Hj as [Hj|Hj]; [|done].
      assert (true = true) as Hx by done. exfalso. destruct Hb as [_ Hb].
      discriminate Hb. by exists j.
Qed.

(** ** What a completion changes *)

(** [ns'] differs from [ns] in the words of the ranges [l] only. *)
Record same_outside (l : list (Z * Z)) (ns ns' : nstab) : Prop := {
  so_wf : nstab_wf ns';
  so_tracked : tracked ns' = tracked ns;
  so_words : forall j, in_ranges l (Z.of_nat j) = false -> words ns' !! j = words ns !! j
}.

Lemma same_outside_refl l ns : nstab_wf ns -> same_outside l ns ns.
Proof. by split. Qed.

Lemma same_outside_locked l ns ns' j :
  same_outside l ns ns' -> 0 <= j -> in_ranges l j = false -> locked ns' j = locked ns j.
Proof.
  intros [_ _ Hw] H0 Hj. unfold locked. rewrite Hw by (by rewrite Z2Nat.id by lia). done.
Qed.

Lemma same_outside_data l ns d :
  nstab_wf ns -> nt_crc ns <> None -> length d = length (words ns) ->
  (forall j, in_ranges l (Z.of_nat j) = false -> d !! j = words ns !! j) ->
  same_outside l ns (with_data d ns).
Proof.
  intros Hwf Hne Hl Hw. split; [by apply with_data_wf| |].
  - unfold tracked. by rewrite words_with_data, Hl.
  - intros j Hj. rewrite words_with_data by done. by apply Hw.
Qed.

Lemma same_outside_trans l ns1 ns2 ns3 :
  same_outside l ns1 ns2 -> same_outside l ns2 ns3 -> same_outside l ns1 ns3.
Proof.
  intros [_ H2 H3] [G1 G2 G3]. split; [done|congruence|].
  intros j Hj. by rewrite G3, H3.
Qed.

Lemma same_outside_weaken l l' ns ns' :
  (forall j, in_ranges l j = true -> in_ranges l' j = true) ->
  same_outside l ns ns' -> same_outside l' ns ns'.
Proof.
  intros Hi [H1 H2 H3]. split; [done..|]. intros j Hj. apply H3.
  destruct (in_ranges l (Z.of_nat j)) eqn:E; [|done]. apply Hi in E. congruence.
Qed.

Lemma in_ranges_one s n j : in_ranges [(s, n)] j = in_range s n j.
Proof. unfold in_ranges. cbn. apply orb_false_r. Qed.

Lemma crc32_clear_run ns s n uncorr :
  nstab_wf ns -> range_ok (s, n) ->
  crc32_clear ns s (n * 4) uncorr =
    Ok (with_data (map_range s n (fun _ => if uncorr then uncorrectable else unmapped) (words ns)) ns).
Proof.
  intros [Hs Hb] (H0 & Hn & Hlt). cbn [fst snd] in *. unfold crc32_clear, tracked, words in *.
  destruct (nt_crc ns) as [t|] eqn:E; [|by destruct ns; cbn in *; subst].
  specialize (Hs ltac:(done)). unfold wrap. rewrite (Z.mod_small (s * 4)) by (eval_pow; lia).
  rewrite (Z.mod_small (s * 4 + n * 4)) by (eval_pow; lia).
  destruct (Z.ltb_spec (s * 4) (nt_size ns)) as [Hl|Hge].
  - rewrite (proj2 (Z.eqb_neq (nt_size ns) 0)) by lia. cbn [negb check mbind res_bind].
    destruct (Z.ltb_spec (nt_size ns) (s * 4 + n * 4)).
    + rewrite Z.mod_small by (eval_pow; lia).
      replace ((nt_size ns - s * 4) / 4) with (Z.of_nat (length (ct_data t)) - s) by (rewrite Hs; divmod).
      rewrite for_range_run by lia. cbn [mbind res_bind]. do 2 f_equal. apply map_range_ext.
      intros j Hj. unfold in_range. lia.
    + rewrite Z.div_mul by lia. rewrite for_range_run by lia. cbn [mbind res_bind]. do 2 f_equal.
      apply map_range_ext. intros j Hj. unfold in_range. lia.
  - rewrite map_range_none by (intros j Hj; unfold in_range; lia).
    destruct ns as [sz [t'|] l]; [|done]. cbn in E. injection E as ->. by destruct t.
Qed.

Lemma crc32_clear_outside ns ns' s n uncorr :
  nstab_wf ns -> range_ok (s, n) -> crc32_clear ns s (n * 4) uncorr = Ok ns' ->
  same_outside [(s, n)] ns ns'.
Proof.
  intros Hwf Hr. rewrite crc32_clear_run by done. intros [= <-].
  destruct (nt_crc ns) as [t|] eqn:E.
  - apply same_outside_data; [done|by rewrite E|apply map_range_length|].
    intros j Hj. rewrite map_range_lookup, <- in_ranges_one, Hj. by destruct (words ns !! j).
  - assert (Ew : forall d, with_data d ns = ns) by (intros d; unfold with_data; destruct ns; cbn in E; by subst).
    rewrite Ew. by apply same_outside_refl.
Qed.

Lemma clear_ranges_outside l : forall ns ns',
  nstab_wf ns -> Forall range_ok l -> clear_ranges ns l = Ok ns' -> same_outside l ns ns'.
Proof.
  induction l as [|[s n] l IH]; intros ns ns' Hwf Hl H; cbn [clear_ranges] in H.
  { injection H as <-. by apply same_outside_refl. }
  apply Forall_cons_1 in Hl as [Hr Hl].
  destruct (crc32_clear ns s (n * 4) false) as [ns1|] eqn:E; [|done].
  pose proof (crc32_clear_outside _ _ _ _ _ Hwf Hr E) as H1.
  eapply same_outside_trans.
  - eapply same_outside_weaken; [|exact H1]. intros j Hj. rewrite in_ranges_one in Hj.
    unfold in_ranges. cbn. by rewrite Hj.
  - eapply same_outside_weaken; [|apply (IH ns1 ns' (so_wf _ _ _ H1) Hl H)].
    intros j Hj. unfold in_ranges in *. cbn. by rewrite Hj, orb_true_r.
Qed.

Section Completion.
Variable crc32c : list Z -> Z.

Lemma update_crc_outside n : forall i lba size ls buf d d',
  0 <= lba -> lba + Z.of_nat n < 2 ^ 64 -> update_crc crc32c n i lba size ls buf d = Ok d' ->
  length d' = length d
  /\ forall j, in_range lba (Z.of_nat n) (Z.of_nat j) = false -> d' !! j = d !! j.
Proof.
  induction n as [|n IH]; intros i lba size ls buf d d' H0 Hlt H; cbn [update_crc] in H.
  { by injection H as <-. }
  assert (E : n = O \/ wrap 64 (lba + 1) = lba + 1).
  { destruct n; [by left|right]. unfold wrap. apply Z.mod_small. lia. }
  assert (Hrest : forall d1, update_crc crc32c n (i + 1) (wrap 64 (lba + 1)) size ls buf d1 = Ok d' ->
    length d' = length d1
    /\ forall j, in_range (lba + 1) (Z.of_nat n) (Z.of_nat j) = false -> d' !! j = d1 !! j).
  { intros d1 H1. destruct E as [->|E]; [cbn in H1; by injection H1 as <-|].
    rewrite E in H1. eapply IH; [lia|lia|exact H1]. }
  destruct (lba <? size / 4).
  - destruct (block buf i ls) as [b|]; [|done]. cbn [mbind res_bind] in H.
    destruct (d !! Z.to_nat lba); [|done]. destruct (Hrest _ H) as [Hl Hw].
    rewrite length_insert in Hl. split; [done|]. intros j Hj. unfold in_range in *.
    rewrite Hw by lia. apply list_lookup_insert_ne. lia.
  - destruct (Hrest _ H) as [Hl Hw]. split; [done|]. intros j Hj. apply Hw. unfold in_range in *. lia.
Qed.

Definition ranges_ok (r : request) (l : list (Z * Z)) : Prop :=
  lock_ranges r = Ok l /\ Forall (fun e => range_ok e /\ snd e < 65536) l.

Lemma lba_ranges_ok r l :
  is_lba_cmd (opc (rq_cmd r)) = true -> ranges_ok r l ->
  l = [(slba (rq_cmd r), nlb (rq_cmd r))] /\ range_ok (slba (rq_cmd r), nlb (rq_cmd r))
  /\ lba_count16 (rq_cmd r) = nlb (rq_cmd r).
Proof.
  intros Ho [Hl Hf]. unfold lock_ranges in Hl. rewrite Ho in Hl. injection Hl as <-.
  apply Forall_cons_1 in Hf as [[Hr Hn] _]. split; [done|]. split; [done|].
  unfold lba_count16, wrap. apply Z.mod_small. destruct Hr as (_ & Hn0 & _). cbn in *. lia.
Qed.

(** A completed request rewrites the words of its own blocks only.  The ranges
    of a DSM command are read from its payload, which the script must leave
    alone. *)
Lemma complete_io_outside r l buf ns sct sc ns' st :
  nstab_wf ns -> ranges_ok r l -> (opc (rq_cmd r) = 9 -> buf = rq_payload r) ->
  complete_io crc32c r buf ns sct sc = Ok (ns', st) -> same_outside l ns ns'.
Proof.
  intros Hwf Hl Hbuf H. unfold complete_io in H.
  destruct ((sc =? 0) && (sct =? 0) || (opc (rq_cmd r) =? 4)); [|injection H as <- _; by apply same_outside_refl].
  destruct (cmdlog_update_crc_io crc32c (rq_cmd r) ns buf) as [ns1|] eqn:E; [|done].
  cbn [mbind res_bind] in H.
  destruct (cmdlog_verify_crc crc32c (rq_cmd r) ns1 buf); [|done]. injection H as <- _.
  unfold cmdlog_update_crc_io in E.
  destruct (nt_crc ns) as [t|] eqn:En; [|injection E as <-; by apply same_outside_refl].
  assert (Hne : nt_crc ns <> None) by (by rewrite En).
  assert (Hlba : is_lba_cmd (opc (rq_cmd r)) = true ->
    l = [(slba (rq_cmd r), nlb (rq_cmd r))] /\ range_ok (slba (rq_cmd r), nlb (rq_cmd r))
    /\ lba_count16 (rq_cmd r) = nlb (rq_cmd r)) by (intros; by apply lba_ranges_ok).
  destruct (Z.eqb_spec (opc (rq_cmd r)) 1) as [Ho|_].
  { rewrite Ho in Hlba. destruct (Hlba eq_refl) as (-> & (H0 & Hn & Hlt) & Hc). cbn in H0, Hn, Hlt.
    unfold buffer_update_crc in E. rewrite Hc in E.
    destruct (update_crc _ _ _ _ _ _ _ _) as [d|] eqn:Eu; [|done]. injection E as <-.
    apply update_crc_outside in Eu as [Hd Hw]; [|lia|lia].
    apply same_outside_data; [done|done|by unfold words; rewrite En|].
    intros j Hj. rewrite in_ranges_one in Hj. unfold words. rewrite En. apply Hw.
    by rewrite Z2Nat.id by lia. }
  destruct (Z.eqb_spec (opc (rq_cmd r)) 4) as [Ho|_].
  { rewrite Ho in Hlba. destruct (Hlba eq_refl) as (-> & Hr & Hc). rewrite Hc in E.
    by eapply crc32_clear_outside. }
  destruct (Z.eqb_spec (opc (rq_cmd r)) 8) as [Ho|_].
  { rewrite Ho in Hlba. destruct (Hlba eq_refl) as (-> & Hr & Hc). rewrite Hc in E.
    by eapply crc32_clear_outside. }
  destruct (Z.eqb_spec (opc (rq_cmd r)) 9) as [Ho|_]; [|injection E as <-; by apply same_outside_refl].
  unfold crc32_clear_ranges in E. rewrite (Hbuf Ho) in E. destruct Hl as [Hl Hf].
  unfold lock_ranges in Hl. rewrite Ho in Hl. cbn in Hl. rewrite Hl in E. cbn [mbind res_bind] in E.
  eapply clear_ranges_outside; [done| |exact E]. eapply Forall_impl; [exact Hf|]. by intros ? [? _].
Qed.
End Completion.

(** ** Outstanding commands *)

(** The namespaces by id, and the requests SPDK has sent and not completed. *)
Record sys := mk_sys { s_nss : gmap Z nstab; s_out : gmap Z request }.

Definition ns_of (s : sys) (r : request) : option nstab := s_nss s !! Command.nsid (rq_cmd r).
Definition put_ns (r : request) (ns : option nstab) (nss : gmap Z nstab) : gmap Z nstab :=
  match ns with Some ns => <[Command.nsid (rq_cmd r) := ns]> nss | None => nss end.

Definition covered (r : request) : list (Z * Z) :=
  match lock_ranges r with Ok l => l | Err _ => [] end.

Definition request_ok (r : request) : Prop := rq_admin r = true \/ exists l, ranges_ok r l.

Section Steps.
Variable crc32c : list Z -> Z.

(** How SPDK uses the hooks: a request is sent if it gets its locks and held
    back otherwise; a completion updates and verifies, then unlocks.  Sanitize,
    which clears whole tables, is not among these steps. *)
Inductive step (s : sys) : sys -> Prop :=
  | step_send id r ns :
      s_out s !! id = None -> request_ok r ->
      crc32_lock_lba (ns_of s r) r = Ok (true, ns) ->
      step s (mk_sys (put_ns r ns (s_nss s)) (<[id := r]> (s_out s)))
  | step_hold r ns :
      request_ok r -> crc32_lock_lba (ns_of s r) r = Ok (false, ns) ->
      step s (mk_sys (put_ns r ns (s_nss s)) (s_out s))
  | step_complete id r buf sct sc ns ns1 st ns2 :
      s_out s !! id = Some r -> rq_admin r = false -> ns_of s r = Some ns ->
      (opc (rq_cmd r) = 9 -> buf = rq_payload r) ->
      complete_io crc32c r buf ns sct sc = Ok (ns1, st) ->
      crc32_unlock_lba (Some ns1) r = Ok ns2 ->
      step s (mk_sys (put_ns r ns2 (s_nss s)) (delete id (s_out s)))
  | step_complete_admin id r :
      s_out s !! id = Some r -> rq_admin r = true -> opc (rq_cmd r) <> 0x84 ->
      step s (mk_sys (s_nss s) (delete id (s_out s))).
End Steps.

(** Request [r] reads or writes block [j] of namespace [n]. *)
Definition touches (r : request) (n j : Z) : Prop :=
  rq_admin r = false /\ Command.nsid (rq_cmd r) = n /\ in_ranges (covered r) j = true.

#[export] Instance touches_dec r n j : Decision (touches r n j).
Proof. unfold touches. apply _. Defined.

Record inv (s : sys) : Prop := {
  i_wf : forall n ns, s_nss s !! n = Some ns -> nstab_wf ns;
  i_ok : forall id r, s_out s !! id = Some r -> request_ok r;
  i_locks : forall n ns j, s_nss s !! n = Some ns -> 0 <= j < tracked ns ->
    (locked ns j = true <-> exists id r, s_out s !! id = Some r /\ touches r n j);
  i_exclusive : forall n ns j id1 id2 r1 r2, s_nss s !! n = Some ns -> 0 <= j < tracked ns ->
    s_out s !! id1 = Some r1 -> s_out s !! id2 = Some r2 ->
    touches r1 n j -> touches r2 n j -> id1 = id2
}.

Lemma lock_lba_eq ns r l :
  rq_admin r = false -> ranges_ok r l ->
  crc32_lock_lba (Some ns) r =
    (locked ← any_range_locked ns l;
     if (locked : bool) then Ok (false, Some ns) else ns ← set_ranges ns l true; Ok (true, Some ns)).
Proof.
  intros Ha [Hl _]. unfold crc32_lock_lba, lock_ranges in *. rewrite Ha.
  destruct (is_lba_cmd (opc (rq_cmd r))).
  - injection Hl as <-. cbn [any_range_locked set_ranges].
    destruct (crc32_check_lock_bits ns (slba (rq_cmd r)) (nlb (rq_cmd r))) as [[]|]; [done| |done].
    cbn [mbind res_bind]. by destruct (crc32_set_lock_bits _ _ _ _).
  - destruct (opc (rq_cmd r) =? 9); [by rewrite Hl|]. by injection Hl as <-.
Qed.

(** Getting the locks: the request touches no block that is locked, and locks
    exactly its blocks. *)
Lemma lock_lba_spec ns r l b ns' :
  rq_admin r = false -> ranges_ok r l -> nstab_wf ns ->
  crc32_lock_lba (Some ns) r = Ok (b, ns') ->
  if (b : bool) then
    exists ns1, ns' = Some ns1 /\ nstab_wf ns1 /\ tracked ns1 = tracked ns
      /\ (forall j, in_ranges l j = true -> locked ns j = false)
      /\ forall j, 0 <= j < tracked ns -> locked ns1 j = if in_ranges l j then true else locked ns j
  else ns' = Some ns /\ exists j, in_ranges l j = true /\ locked ns j = true.
Proof.
  intros Ha Hl Hwf. rewrite (lock_lba_eq ns r l Ha Hl). destruct Hl as [_ Hf].
  destruct (any_range_locked_spec ns l Hwf Hf) as (b' & -> & Hb). cbn [mbind res_bind].
  destruct b'.
  - intros [= <- <-]. split; [done|]. by apply Hb.
  - destruct (set_ranges_spec l true ns Hwf) as (ns1 & -> & Hwf1 & Ht & Hk).
    { eapply Forall_impl; [exact Hf|]. by intros ? [? _]. }
    intros [= <- <-]. exists ns1. split_and!; try done.
    intros j Hj. destruct (locked ns j) eqn:E; [|done]. exfalso.
    assert (false = true) by (apply Hb; by exists j). done.
Qed.

Lemma unlock_lba_spec ns r l ns' :
  rq_admin r = false -> ranges_ok r l -> nstab_wf ns -> crc32_unlock_lba (Some ns) r = Ok ns' ->
  exists ns1, ns' = Some ns1 /\ nstab_wf ns1 /\ tracked ns1 = tracked ns
    /\ forall j, 0 <= j < tracked ns -> locked ns1 j = if in_ranges l j then false else locked ns j.
Proof.
  intros Ha [Hl Hf] Hwf. unfold crc32_unlock_lba. rewrite Ha, Hl. cbn [mbind res_bind].
  destruct (set_ranges_spec l false ns Hwf) as (ns1 & -> & Hwf1 & Ht & Hk).
  { eapply Forall_impl; [exact Hf|]. by intros ? [? _]. }
  intros [= <-]. by exists ns1.
Qed.

Lemma covered_ok r l : ranges_ok r l -> covered r = l.
Proof. intros [H _]. unfold covered. by rewrite H. Qed.

(** A request on another namespace, or on the admin queue, touches nothing. *)
Lemma put_ns_other r ns nss n :
  n <> Command.nsid (rq_cmd r) -> put_ns r ns nss !! n = nss !! n.
Proof. intros Hn. destruct ns; [|done]. by apply lookup_insert_ne. Qed.

Lemma inv_hold s r ns :
  inv s -> request_ok r -> crc32_lock_lba (ns_of s r) r = Ok (false, ns) ->
  put_ns r ns (s_nss s) = s_nss s.
Proof.
  intros Hi Hok H. unfold ns_of in H. destruct (s_nss s !! Command.nsid (rq_cmd r)) as [ns0|] eqn:E; [|done].
  destruct (rq_admin r) eqn:Ha; [cbn in H; by rewrite Ha in H|].
  destruct Hok as [|[l Hl]]; [congruence|].
  destruct (lock_lba_spec _ _ _ _ _ Ha Hl (i_wf _ Hi _ _ E) H) as [-> _].
  by apply insert_id.
Qed.

(** A table before and after a request got or gave back its locks. *)
Record locks_after (r : request) (n : Z) (lock : bool) (ns ns' : nstab) : Prop := {
  la_wf : nstab_wf ns';
  la_tracked : tracked ns' = tracked ns;
  la_mine : forall j, 0 <= j < tracked ns -> touches r n j -> locked ns' j = lock;
  la_others : forall j, 0 <= j < tracked ns -> ~ touches r n j -> locked ns' j = locked ns j
}.

Lemma touches_covered r l n j :
  rq_admin r = false -> ranges_ok r l ->
  (touches r n j <-> n = Command.nsid (rq_cmd r) /\ in_ranges l j = true).
Proof.
  intros Ha Hl. unfold touches. rewrite (covered_ok _ _ Hl). split.
  - by intros (_ & -> & H).
  - by intros (-> & H).
Qed.

Lemma locks_after_intro r l lock ns ns' :
  rq_admin r = false -> ranges_ok r l -> nstab_wf ns' -> tracked ns' = tracked ns ->
  (forall j, 0 <= j < tracked ns -> locked ns' j = if in_ranges l j then lock else locked ns j) ->
  locks_after r (Command.nsid (rq_cmd r)) lock ns ns'.
Proof.
  intros Ha Hl Hwf Ht Hk. split; [done|done| |]; intros j Hj;
    rewrite (touches_covered r l _ _ Ha Hl), Hk by done.
  - by intros [_ ->].
  - intros Hn. destruct (in_ranges l j); [|done]. exfalso. by apply Hn.
Qed.

Lemma locks_after_untouched r n lock ns :
  nstab_wf ns -> (forall j, ~ touches r n j) -> locks_after r n lock ns ns.
Proof. intros Hwf Hn. split; [done|done| |done]. intros j _ Ht. by apply Hn in Ht. Qed.

Lemma send_effect s r ns n ns' :
  inv s -> request_ok r -> crc32_lock_lba (ns_of s r) r = Ok (true, ns) ->
  put_ns r ns (s_nss s) !! n = Some ns' ->
  exists ns0, s_nss s !! n = Some ns0 /\ locks_after r n true ns0 ns'
    /\ forall j, touches r n j -> locked ns0 j = false.
Proof.
  intros Hi Hok H Hn. unfold ns_of in H.
  destruct (decide (n = Command.nsid (rq_cmd r))) as [->|Hne].
  2: { rewrite put_ns_other in Hn by done. exists ns'. split; [done|].
       assert (Hnt : forall j, ~ touches r n j) by (by intros j (_ & E & _)).
       split; [apply locks_after_untouched; [by apply (i_wf _ Hi _ _ Hn)|done]|]. intros j Hj. by apply Hnt in Hj. }
  destruct (s_nss s !! Command.nsid (rq_cmd r)) as [ns0|] eqn:E.
  2: { cbn in H. injection H as <-. cbn in Hn. congruence. }
  exists ns0. split; [done|]. pose proof (i_wf _ Hi _ _ E) as Hwf.
  destruct (rq_admin r) eqn:Ha.
  { cbn in H. rewrite Ha in H. injection H as <-. cbn in Hn. rewrite lookup_insert_eq in Hn.
    injection Hn as <-.
    assert (Hnt : forall n j, ~ touches r n j) by (intros n j (E' & _); congruence).
    split; [by apply locks_after_untouched|]. intros j Hj. by apply Hnt in Hj. }
  destruct Hok as [|[l Hl]]; [congruence|].
  destruct (lock_lba_spec _ _ _ _ _ Ha Hl Hwf H) as (ns1 & -> & Hwf1 & Ht & Hfree & Hk).
  cbn in Hn. rewrite lookup_insert_eq in Hn. injection Hn as <-.
  split; [by eapply locks_after_intro|]. intros j [_ Hj]%(touches_covered r l _ _ Ha Hl). by apply Hfree.
Qed.

Lemma inv_send s id r ns :
  inv s -> s_out s !! id = None -> request_ok r -> crc32_lock_lba (ns_of s r) r = Ok (true, ns) ->
  inv (mk_sys (put_ns r ns (s_nss s)) (<[id := r]> (s_out s))).
Proof.
  intros Hi Hid Hok Hl. pose proof (send_effect s r ns) as Heff.
  split; cbn [s_nss s_out].
  - intros n ns' Hn. destruct (Heff n ns' Hi Hok Hl Hn) as (ns0 & _ & [Hwf _ _ _] & _). done.
  - intros id' r' [[<- <-]|[_ Hr]]%lookup_insert_Some; [done|by apply (i_ok _ Hi _ _ Hr)].
  - intros n ns' j Hn Hj. destruct (Heff n ns' Hi Hok Hl Hn) as (ns0 & Hn0 & [_ Ht Hm Ho] & Hf).
    rewrite Ht in Hj. pose proof (i_locks _ Hi n ns0 j Hn0 Hj) as Hk.
    destruct (decide (touches r n j)) as [Htr|Hntr].
    + rewrite (Hm j Hj Htr). split; [|done]. intros _. exists id, r. by rewrite lookup_insert_eq.
    + rewrite (Ho j Hj Hntr), Hk. split; intros (id' & r' & Hr & Ht').
      * exists id', r'. split; [|done]. rewrite lookup_insert_ne; [done|]. intros <-. congruence.
      * apply lookup_insert_Some in Hr as [[<- <-]|[_ Hr]]; [done|]. by exists id', r'.
  - intros n ns' j id1 id2 r1 r2 Hn Hj H1 H2 Ht1 Ht2.
    destruct (Heff n ns' Hi Hok Hl Hn) as (ns0 & Hn0 & [_ Ht _ _] & Hf). rewrite Ht in Hj.
    assert (Hx : forall id' r', s_out s !! id' = Some r' -> touches r' n j -> ~ touches r n j).
    { intros id' r' Hr' Htr' Htr. assert (locked ns0 j = true); [|rewrite Hf in *; done].
      apply (i_locks _ Hi n ns0 j Hn0 Hj). by exists id', r'. }
    apply lookup_insert_Some in H1 as [[<- <-]|[_ H1]], H2 as [[<- <-]|[_ H2]]; [done| | |].
    + by destruct (Hx _ _ H2 Ht2).
    + by destruct (Hx _ _ H1 Ht1).
    + by apply (i_exclusive _ Hi n ns0 j id1 id2 r1 r2).
Qed.

(** Completing a request of the I/O queue releases its blocks. *)
Lemma complete_effect crc32c s id r buf sct sc ns ns1 st ns2 n ns' :
  inv s -> s_out s !! id = Some r -> rq_admin r = false -> ns_of s r = Some ns ->
  (opc (rq_cmd r) = 9 -> buf = rq_payload r) ->
  complete_io crc32c r buf ns sct sc = Ok (ns1, st) -> crc32_unlock_lba (Some ns1) r = Ok ns2 ->
  put_ns r ns2 (s_nss s) !! n = Some ns' ->
  exists ns0, s_nss s !! n = Some ns0 /\ locks_after r n false ns0 ns'.
Proof.
  intros Hi Hid Ha Hns Hbuf Hc Hu Hn. unfold ns_of in Hns. pose proof (i_wf _ Hi _ _ Hns) as Hwf.
  destruct (i_ok _ Hi _ _ Hid) as [|[l Hl]]; [congruence|].
  pose proof (complete_io_outside crc32c r l buf ns sct sc ns1 st Hwf Hl Hbuf Hc) as Hout.
  destruct (unlock_lba_spec ns1 r l ns2 Ha Hl (so_wf _ _ _ Hout) Hu) as (ns3 & -> & Hwf3 & Ht3 & Hk3).
  pose proof (so_tracked _ _ _ Hout) as Ht.
  destruct (decide (n = Command.nsid (rq_cmd r))) as [->|Hne].
  - cbn in Hn. rewrite lookup_insert_eq in Hn. injection Hn as <-. exists ns. split; [done|].
    apply (locks_after_intro r l); [done|done|done|congruence|].
    intros j Hj. rewrite Hk3 by lia. destruct (in_ranges l j) eqn:El; [done|].
    apply (same_outside_locked l); [done|lia|done].
  - rewrite put_ns_other in Hn by done. exists ns'. split; [done|].
    apply locks_after_untouched; [by apply (i_wf _ Hi _ _ Hn)|]. by intros j (_ & E & _).
Qed.

Lemma inv_release s id r nss' :
  inv s -> s_out s !! id = Some r ->
  (forall n ns', nss' !! n = Some ns' -> exists ns0, s_nss s !! n = Some ns0 /\ locks_after r n false ns0 ns') ->
  inv (mk_sys nss' (delete id (s_out s))).
Proof.
  intros Hi Hid Heff. split; cbn [s_nss s_out].
  - intros n ns' Hn. destruct (Heff n ns' Hn) as (ns0 & _ & [Hwf _ _ _]). done.
  - intros id' r' [_ Hr]%lookup_delete_Some. by apply (i_ok _ Hi _ _ Hr).
  - intros n ns' j Hn Hj. destruct (Heff n ns' Hn) as (ns0 & Hn0 & [_ Ht Hm Ho]). rewrite Ht in Hj.
    pose proof (i_locks _ Hi n ns0 j Hn0 Hj) as Hk.
    destruct (decide (touches r n j)) as [Htr|Hntr].
    + rewrite (Hm j Hj Htr). split; [done|]. intros (id' & r' & [Hne Hr]%lookup_delete_Some & Ht').
      destruct Hne. by apply (i_exclusive _ Hi n ns0 j id id' r r').
    + rewrite (Ho j Hj Hntr), Hk. split; intros (id' & r' & Hr & Ht').
      * exists id', r'. split; [|done]. apply lookup_delete_Some. split; [|done]. intros <-. congruence.
      * apply lookup_delete_Some in Hr as [_ Hr]. by exists id', r'.
  - intros n ns' j id1 id2 r1 r2 Hn Hj [_ H1]%lookup_delete_Some [_ H2]%lookup_delete_Some.
    destruct (Heff n ns' Hn) as (ns0 & Hn0 & [_ Ht _ _]). rewrite Ht in Hj.
    by apply (i_exclusive _ Hi n ns0 j id1 id2 r1 r2).
Qed.

Lemma inv_step crc32c s s' : step crc32c s s' -> inv s -> inv s'.
Proof.
  intros Hst Hi. destruct Hst as [id r ns Hid Hok Hl|r ns Hok Hl|id r buf sct sc ns ns1 st ns2 Hid Ha Hns Hb Hc Hu|id r Hid Ha _].
  - by apply inv_send.
  - rewrite (inv_hold s r ns Hi Hok Hl). by destruct s.
  - apply (inv_release s id r); [done|done|]. intros n ns' Hn. by eapply complete_effect.
  - apply (inv_release s id r); [done|done|]. intros n ns' Hn. exists ns'. split; [done|].
    apply locks_after_untouched; [by apply (i_wf _ Hi _ _ Hn)|]. intros j (E & _). congruence.
Qed.

(** No request outstanding, no block locked. *)
Record idle (s : sys) : Prop := {
  id_out : s_out s = ∅;
  id_wf : forall n ns, s_nss s !! n = Some ns -> nstab_wf ns;
  id_free : forall n ns j, s_nss s !! n = Some ns -> locked ns j = false
}.

Lemma inv_idle s : idle s -> inv s.
Proof.
  intros [Ho Hw Hf]. split; [done| | |]; rewrite Ho.
  - intros id r H. by rewrite lookup_empty in H.
  - intros n ns j Hn Hj. rewrite (Hf n ns j Hn). split; [done|]. intros (id & r & H & _).
    by rewrite lookup_empty in H.
  - intros n ns j id1 id2 r1 r2 Hn Hj H. by rewrite lookup_empty in H.
Qed.

Lemma inv_steps crc32c s s' : rtc (step crc32c) s s' -> inv s -> inv s'.
Proof. induction 1 as [|s s1 s' Hs _ IH]; [done|]. intros Hi. apply IH. by eapply inv_step. Qed.

(** A request is held back exactly when it touches a block of another one. *)
Lemma hold_iff s r l ns : inv s -> rq_admin r = false -> ranges_ok r l -> ns_of s r = Some ns ->
  exists b ns', crc32_lock_lba (Some ns) r = Ok (b, ns')
    /\ (b = false <-> exists j id r', 0 <= j < tracked ns /\ s_out s !! id = Some r'
          /\ touches r (Command.nsid (rq_cmd r)) j /\ touches r' (Command.nsid (rq_cmd r)) j).
Proof.
  intros Hi Ha Hl Hns. pose proof (i_wf _ Hi _ _ Hns) as Hwf. rewrite (lock_lba_eq _ _ _ Ha Hl).
  destruct (any_range_locked_spec ns l Hwf (proj2 Hl)) as (b & -> & Hb). cbn [mbind res_bind].
  assert (Hiff : b = true <-> exists j id r', 0 <= j < tracked ns /\ s_out s !! id = Some r'
             /\ touches r (Command.nsid (rq_cmd r)) j /\ touches r' (Command.nsid (rq_cmd r)) j).
  { rewrite Hb. split.
    - intros (j & Hj & Hk). pose proof (locked_tracked _ _ Hk) as Ht.
      apply (i_locks _ Hi _ _ _ Hns Ht) in Hk as (id & r' & Hr' & Ht').
      exists j, id, r'. split_and!; try done; [lia|lia|]. by apply (touches_covered r l).
    - intros (j & id & r' & Hj & Hr' & [_ Hin]%(touches_covered r l _ _ Ha Hl) & Ht').
      exists j. split; [done|]. apply (i_locks _ Hi _ _ _ Hns Hj). by exists id, r'. }
  destruct b.
  - exists false, (Some ns). split; [done|]. split; [intros _; by apply Hiff|done].
  - destruct (set_ranges_spec l true ns Hwf) as (ns1 & -> & _).
    { eapply Forall_impl; [exact (proj2 Hl)|]. by intros ? [? _]. }
    exists true, (Some ns1). split; [done|]. split; [done|]. intros Hx. by apply Hiff in Hx.
Qed.

(** C3. Commands on the same block never overlap: from a state with nothing
    outstanding and nothing locked, however requests are sent, held back and
    completed, no tracked block of a namespace is touched by two outstanding
    requests, a block is locked exactly while an outstanding request touches it,
    and a request is held back exactly when it touches a block of another one.
    A request must name fewer than 65536 blocks, in ranges that end below
    2^62. *)
Theorem lock_excludes crc32c s0 s :
  idle s0 -> rtc (step crc32c) s0 s ->
  (forall n ns j id1 id2 r1 r2, s_nss s !! n = Some ns -> 0 <= j < tracked ns ->
     s_out s !! id1 = Some r1 -> s_out s !! id2 = Some r2 ->
     touches r1 n j -> touches r2 n j -> id1 = id2)
  /\ (forall n ns j, s_nss s !! n = Some ns -> 0 <= j < tracked ns ->
     (locked ns j = true <-> exists id r, s_out s !! id = Some r /\ touches r n j))
  /\ (forall r l ns, rq_admin r = false -> ranges_ok r l -> ns_of s r = Some ns ->
     exists b ns', crc32_lock_lba (Some ns) r = Ok (b, ns')
       /\ (b = false <-> exists j id r', 0 <= j < tracked ns /\ s_out s !! id = Some r'
             /\ touches r (Command.nsid (rq_cmd r)) j /\ touches r' (Command.nsid (rq_cmd r)) j)).
Proof.
  intros H0 Hs. pose proof (inv_steps _ _ _ Hs (inv_idle _ H0)) as Hi.
  split; [apply (i_exclusive _ Hi)|]. split; [apply (i_locks _ Hi)|].
  intros r l ns. by apply hold_iff.
Qed.

(** Checking nothing finds nothing. *)
Lemma check_none ns s n : wrap 16 n = 0 -> 0 <= s ->
  4 * (s + 65536) < 2 ^ 64 -> crc32_check_lock_bits ns s n = Ok false.
Proof.
  intros Hn H0 Hs. unfold crc32_check_lock_bits. rewrite Hn.
  destruct (nt_crc ns) as [t|]; [|done]. rewrite Z.add_0_r.
  destruct (Z.ltb_spec (wrap 64 (s * 4)) (nt_size ns)); [|done].
  assert (Hs64 : wrap 64 s = s) by (unfold wrap; rewrite Z.mod_small by lia; done).
  rewrite Hs64. by rewrite (proj2 (Z.ltb_ge _ _)) by lia.
Qed.

(** Where the locks end.  A command of 65536 blocks is never held back,
    whatever is locked: the check takes its length as 16 bits, so it looks at
    none of the blocks; and when it completes neither the checksums of a write
    nor anything else of the table change.  An LBA from 2^62 up makes the
    check itself read outside the table, before the device sees the
    command. *)
Theorem lock_limits crc32c ns r :
  nstab_wf ns -> rq_admin r = false -> is_lba_cmd (opc (rq_cmd r)) = true ->
  (nlb (rq_cmd r) = 65536 -> range_ok (slba (rq_cmd r), nlb (rq_cmd r)) ->
     (exists ns', crc32_lock_lba (Some ns) r = Ok (true, Some ns'))
     /\ (opc (rq_cmd r) = 1 -> forall buf, complete_io crc32c r buf ns 0 0 = Ok (ns, (0, 0))))
  /\ (2 ^ 62 <= slba (rq_cmd r) < 2 ^ 62 + tracked ns -> nlb (rq_cmd r) = 1 ->
     crc32_lock_lba (Some ns) r = Err COutOfBounds).
Proof.
  intros Hwf Ha Ho. split.
  - intros Hn Hr. split.
    + unfold crc32_lock_lba. rewrite Ha, Ho, Hn. rewrite Hn in Hr.
      rewrite check_none; [|done|apply Hr|apply Hr]. cbn [mbind res_bind].
      destruct (set_lock_bits_spec ns _ _ true Hwf Hr) as (ns' & -> & _). by exists ns'.
    + intros Hw buf. unfold complete_io, cmdlog_update_crc_io, cmdlog_verify_crc, lba_count16.
      rewrite Hw, Hn. change (wrap 16 65536) with 0. cbn [Z.eqb andb orb].
      destruct ns as [sz [[s e d]|] ls]; done.
  - intros Hs Hn. unfold crc32_lock_lba. rewrite Ha, Ho, Hn.
    destruct Hwf as [Hsz Hb]. unfold crc32_check_lock_bits, tracked, words in *.
    destruct (nt_crc ns) as [t|]; [|cbn in Hs; lia]. specialize (Hsz ltac:(done)).
    change (wrap 16 1) with 1. set (s := slba (rq_cmd r)) in *.
    assert (E1 : wrap 64 (s * 4) = (s - 2 ^ 62) * 4) by (unfold wrap; eval_pow; divmod).
    assert (E2 : wrap 64 (wrap 64 (s + 1) * 4) = (s + 1 - 2 ^ 62) * 4) by (unfold wrap; eval_pow; divmod).
    rewrite E1, E2. zbool. cbn [any_locked]. change (Z.to_nat 1) with 1%nat.
    cbn [any_locked]. assert (E3 : ct_data t !! Z.to_nat (wrap 64 (s + 0)) = None).
    { apply lookup_ge_None. unfold wrap. rewrite Z.mod_small by (eval_pow; lia). lia. }
    by rewrite E3.
Qed.

(** ** Witnesses *)
Definition example_tab : nstab :=
  mk_nstab 64 (Some (mk_crc 64 true (replicate 16 0))) 512.
Definition example_request (op lba count : Z) : request :=
  mk_request false (nvme_send_cmd_raw true op 1 None lba 0 (count - 1) 0 0 0) [].
Definition example_sys : sys := mk_sys {[1 := example_tab]} ∅.

Lemma example_tab_wf : nstab_wf example_tab.
Proof. by split. Qed.

Lemma example_idle : idle example_sys.
Proof.
  split; [done| |]; intros n ns; cbn [s_nss example_sys].
  - intros [<- <-]%lookup_singleton_Some. apply example_tab_wf.
  - intros j [<- <-]%lookup_singleton_Some. unfold locked. cbn [words example_tab nt_crc ct_data].
    destruct (replicate 16 0 !! Z.to_nat j) as [w|] eqn:E; [|apply andb_false_r].
    apply lookup_replicate in E as [-> _]. apply andb_false_r.
Qed.

Lemma example_request_ok op lba count :
  is_lba_cmd (Z.land op 0xff) = true -> 0 <= lba < 2 ^ 32 -> 1 <= count < 65536 ->
  ranges_ok (example_request op lba count) [(lba, count)].
Proof.
  intros Ho Hl Hc. unfold ranges_ok, lock_ranges, example_request. cbn [rq_cmd].
  change (opc _) with (Z.land op 0xff). rewrite Ho.
  change (slba _) with (lba + 2 ^ 32 * 0).
  change (nlb _) with (Z.land (count - 1) 0xffff + 1). split.
  - do 3 f_equal; [lia|]. rewrite land_65535. divmod.
  - constructor; [|constructor]. unfold range_ok. cbn [fst snd]. eval_pow. lia.
Qed.

(** A write of blocks 0 to 3 is outstanding: a read of block 3 is held back. *)
Lemma lock_excludes_witness :
  exists s ns b ns', rtc (step (fun _ => 0)) example_sys s /\ s_nss s !! 1 = Some ns
    /\ locked ns 3 = true
    /\ crc32_lock_lba (Some ns) (example_request 2 3 1) = Ok (b, ns') /\ b = false.
Proof.
  set (r := example_request 1 0 4).
  destruct (crc32_lock_lba (Some example_tab) r) as [[b ns]|] eqn:E; [|by vm_compute in E].
  assert (Hs : step (fun _ => 0) example_sys (mk_sys (put_ns r ns {[1 := example_tab]}) {[7 := r]})).
  { apply (step_send _ example_sys 7 r ns); [done| |].
    - right. eexists. apply example_request_ok; [done|done|done].
    - assert (b = true) as -> by (vm_compute in E; by injection E). exact E. }
  vm_compute in E. injection E as <- <-. eexists _, _, _, _. split; [by apply rtc_once|].
  split; [apply lookup_insert_eq|].
  destruct (lock_excludes _ _ _ example_idle (rtc_once _ _ Hs)) as (_ & Hlock & Hheld).
  split; [by vm_compute|].
  destruct (Hheld (example_request 2 3 1) [(3, 1)] _ eq_refl (example_request_ok 2 3 1 eq_refl ltac:(lia) ltac:(lia))
    (lookup_insert_eq _ _ _)) as (b & ns' & Hb & Hiff).
  vm_compute in Hb |- *. injection Hb as <- <-. done.
Defined.

Lemma lock_limits_witness :
  crc32_lock_lba (Some example_tab)
    (mk_request false (nvme_send_cmd_raw true 2 1 None 3 (2 ^ 30) 0 0 0 0) []) = Err COutOfBounds
  /\ exists ns', crc32_lock_lba (Some example_tab) (mk_request false
       (nvme_send_cmd_raw true 1 1 None 0 0 65535 0 0 0) []) = Ok (true, Some ns').
Proof.
  split.
  - apply (lock_limits (fun _ => 0) example_tab (mk_request false
      (nvme_send_cmd_raw true 2 1 None 3 (2 ^ 30) 0 0 0 0) []) example_tab_wf eq_refl eq_refl).
    + split; [vm_compute; discriminate|vm_compute; reflexivity].
    + reflexivity.
  - apply (lock_limits (fun _ => 0) example_tab (mk_request false
      (nvme_send_cmd_raw true 1 1 None 0 0 65535 0 0 0) []) example_tab_wf eq_refl eq_refl).
    + reflexivity.
    + unfold range_ok. cbn. split_and!; by vm_compute.
Defined.
