(* ===== verification/Verify.v ===== *)
(** * Verify: what data verification accepts

    The specification of the completion path of Crc.v: the checksums a
    successful write leaves in the table, when a read is accepted, and the
    round trip of data through a write of Command.v and a read. *)
From Stdlib Require Import ZArith Lia ZifyBool.
From stdpp Require Import base list numbers option.
From S2P Require Import Prelude PyInt Buffer Command Crc.
Local Open Scope Z_scope.

Section Verify.
Variable crc32c : list Z -> Z.
Hypothesis crc32c_u32 : forall l, 0 <= crc32c l < 2 ^ 32.

Abbreviation csum := (buffer_calc_csum crc32c).

(** A checksum is neither of the two reserved words and leaves the lock bit
    clear. *)
Lemma csum_range l : 1 <= csum l <= 0x7ffffffe.
Proof.
  unfold buffer_calc_csum. pose proof (crc32c_u32 l) as H. rewrite shiftr_div by lia.
  change (2 ^ 1) with 2. assert (0 <= crc32c l / 2 < 2 ^ 31) by (revert H; eval_pow; intros; divmod).
  revert H0. eval_pow. intros. destruct (Z.eqb_spec (crc32c l / 2) 0); [done|].
  destruct (Z.eqb_spec (crc32c l / 2) 0x7fffffff); lia.
Qed.

Lemma land_31 w : Z.land 0x7fffffff w = w mod 2 ^ 31.
Proof. rewrite Z.land_comm. change 0x7fffffff with (2 ^ 31 - 1). by rewrite land_mask by lia. Qed.

Lemma csum_masked l : Z.land 0x7fffffff (csum l) = csum l.
Proof. pose proof (csum_range l). rewrite land_31. apply Z.mod_small. eval_pow. lia. Qed.

(** ** Blocks of a buffer *)
Definition block_at (buf : list Z) (i ls : Z) : list Z := sub_list (i * ls) ls buf.
Definition first_word (buf : list Z) (i ls : Z) : Z := from_le (sub_list (i * ls) 8 buf).

Lemma block_run buf i ls :
  0 <= i -> 0 <= ls -> (i + 1) * ls <= Z.of_nat (length buf) -> block buf i ls = Ok (block_at buf i ls).
Proof. intros Hi Hl Hb. unfold block. rewrite (proj2 (Z.leb_le _ _)), (proj2 (Z.leb_le _ _)) by nia. done. Qed.

Lemma first_word_run buf i ls :
  0 <= i -> 8 <= ls -> (i + 1) * ls <= Z.of_nat (length buf) ->
  load 8 (i * ls) buf = Ok (first_word buf i ls).
Proof. intros Hi Hl Hb. unfold load. rewrite (proj2 (Z.leb_le _ _)), (proj2 (Z.leb_le _ _)) by nia. done. Qed.

Lemma next_lba lba n : 0 <= lba -> lba + Z.of_nat (S (S n)) < 2 ^ 64 -> wrap 64 (lba + 1) = lba + 1.
Proof. intros. unfold wrap. apply Z.mod_small. lia. Qed.

(** ** Writes *)

(** Block [k] of the range gets the checksum of block [i+k] of the data. *)
Lemma update_crc_run n : forall i lba size ls buf d,
  0 <= i -> 0 <= lba -> lba + Z.of_nat n < 2 ^ 64 -> 0 <= ls ->
  (i + Z.of_nat n) * ls <= Z.of_nat (length buf) -> size / 4 = Z.of_nat (length d) ->
  exists d', update_crc crc32c n i lba size ls buf d = Ok d'
    /\ forall k, lba <= k < lba + Z.of_nat n -> k < Z.of_nat (length d) ->
         d' !! Z.to_nat k = Some (csum (block_at buf (i + (k - lba)) ls)).
Proof.
  induction n as [|n IH]; intros i lba size ls buf d Hi H0 Hlt Hls Hb Hsz; cbn [update_crc].
  { exists d. split; [done|]. lia. }
  assert (Hnext : forall d1, length d1 = length d ->
    exists d', update_crc crc32c n (i + 1) (wrap 64 (lba + 1)) size ls buf d1 = Ok d'
    /\ (forall k, lba + 1 <= k < lba + 1 + Z.of_nat n -> k < Z.of_nat (length d) ->
         d' !! Z.to_nat k = Some (csum (block_at buf (i + (k - lba)) ls)))
    /\ d' !! Z.to_nat lba = d1 !! Z.to_nat lba).
  { intros d1 Hd1. destruct n as [|n']; [exists d1; split_and!; [done|lia|done]|].
    rewrite (next_lba lba n') by lia.
    destruct (IH (i + 1) (lba + 1) size ls buf d1) as (d' & Hr & Hw); [lia..|nia|by rewrite Hd1|].
    exists d'. split; [done|]. split.
    - intros k Hk Hkd. rewrite Hw by lia. do 3 f_equal. lia.
    - apply update_crc_outside in Hr as [_ Ho]; [|lia|lia]. apply Ho. unfold in_range. lia. }
  rewrite Hsz. destruct (Z.ltb_spec lba (Z.of_nat (length d))) as [Hl|Hge].
  - rewrite block_run by nia. cbn [mbind res_bind].
    destruct (d !! Z.to_nat lba) eqn:E; [|apply lookup_ge_None in E; lia].
    destruct (Hnext (<[Z.to_nat lba := csum (block_at buf i ls)]> d)) as (d' & Hr & Hw & Hlba);
      [apply length_insert|].
    exists d'. split; [exact Hr|]. intros k Hk Hkd. destruct (decide (k = lba)) as [->|Hne]; [|apply Hw; lia].
    rewrite Hlba, list_lookup_insert_eq by lia. do 3 f_equal. lia.
  - destruct (Hnext d eq_refl) as (d' & Hr & Hw & _). exists d'. split; [exact Hr|].
    intros k Hk Hkd. apply Hw; lia.
Qed.

(** A command on [n] blocks from [lba] of a table, with data for all of them. *)
Record io_ok (op lba n : Z) (r : request) (buf : list Z) (ns : nstab) : Prop := {
  io_op : opc (rq_cmd r) = op;
  io_slba : slba (rq_cmd r) = lba;
  io_nlb : nlb (rq_cmd r) = n;
  io_range : range_ok (lba, n);
  io_count : 1 <= n < 65536;
  io_wf : nstab_wf ns;
  io_block : 8 <= nt_lba_size ns;
  io_buf : n * nt_lba_size ns <= Z.of_nat (length buf)
}.

Lemma io_count16 op lba n r buf ns : io_ok op lba n r buf ns -> lba_count16 (rq_cmd r) = n.
Proof. intros H. destruct H. unfold lba_count16, wrap. rewrite io_nlb0. apply Z.mod_small. eval_pow. lia. Qed.

Lemma table_size ns t : nstab_wf ns -> nt_crc ns = Some t -> nt_size ns / 4 = Z.of_nat (length (ct_data t)).
Proof.
  intros [Hs _] E. rewrite Hs by (by rewrite E). unfold tracked, words. rewrite E. divmod.
Qed.

(** The table after a successful write. *)
Lemma write_completes lba n r buf ns t :
  io_ok 1 lba n r buf ns -> nt_crc ns = Some t ->
  exists d, complete_io crc32c r buf ns 0 0 = Ok (with_data d ns, (0, 0))
    /\ length d = length (ct_data t)
    /\ (forall k, lba <= k < lba + n -> k < tracked ns ->
          d !! Z.to_nat k = Some (csum (block_at buf (k - lba) (nt_lba_size ns))))
    /\ (forall k, 0 <= k -> ~ (lba <= k < lba + n) -> d !! Z.to_nat k = ct_data t !! Z.to_nat k).
Proof.
  intros Hio Ht. pose proof (io_count16 _ _ _ _ _ _ Hio) as Hc.
  destruct Hio as [Ho Hs Hn (H0 & _ & Hlt) Hcnt Hwf Hblk Hbuf]. cbn [fst snd] in *.
  destruct (update_crc_run (Z.to_nat n) 0 lba (nt_size ns) (nt_lba_size ns) buf (ct_data t))
    as (d & Hd & Hw); [lia..| | |].
  { rewrite Z2Nat.id by lia. lia. }
  { by apply table_size. }
  exists d. unfold complete_io, cmdlog_update_crc_io, cmdlog_verify_crc. rewrite Ho, Ht, Hs, Hc.
  unfold buffer_update_crc. rewrite Hd. split; [done|].
  apply update_crc_outside in Hd as [Hlen Hother]; [|lia|lia]. split; [done|]. split.
  - intros k Hk Htr. rewrite Hw by (unfold tracked, words in Htr; rewrite Ht in Htr; lia). do 3 f_equal.
  - intros k Hk Hnk. apply Hother. unfold in_range. lia.
Qed.

(** A write that succeeds maps its blocks: every tracked block of the
    command gets the checksum of its data, a word between 1 and 0x7ffffffe,
    which is neither "unmapped" nor "uncorrectable" and not locked; every
    other word of the table stays as it was. *)
Theorem write_maps_blocks lba n r buf ns t :
  io_ok 1 lba n r buf ns -> nt_crc ns = Some t ->
  exists d, complete_io crc32c r buf ns 0 0 = Ok (with_data d ns, (0, 0))
    /\ (forall k, lba <= k < lba + n -> k < tracked ns -> exists w, d !! Z.to_nat k = Some w
          /\ w = csum (block_at buf (k - lba) (nt_lba_size ns)) /\ 1 <= w <= 0x7ffffffe)
    /\ (forall k, 0 <= k -> ~ (lba <= k < lba + n) -> d !! Z.to_nat k = ct_data t !! Z.to_nat k).
Proof.
  intros Hio Ht. destruct (write_completes _ _ _ _ _ _ Hio Ht) as (d & Hr & _ & Hw & Ho).
  exists d. split; [done|]. split; [|done]. intros k Hk Htr. eexists. split; [by apply Hw|].
  split; [done|]. apply csum_range.
Qed.

(** ** Reads *)

(** The first word is the LBA, zero, or all ones. *)
Definition lba_word_ok (w lba : Z) : Prop := w = lba \/ w = 0 \/ w = 2 ^ 64 - 1.

(** The word of the table agrees with the data. *)
Definition word_ok (w : Z) (b : list Z) : Prop :=
  w mod 2 ^ 31 = unmapped \/ (w mod 2 ^ 31 <> uncorrectable /\ w mod 2 ^ 31 = csum b).

Lemma verify_lba_run n : forall i lba ls buf,
  0 <= i -> 0 <= lba -> lba + Z.of_nat n < 2 ^ 64 -> 8 <= ls ->
  (i + Z.of_nat n) * ls <= Z.of_nat (length buf) ->
  exists ret, verify_lba n i lba ls buf = Ok ret
    /\ (ret = 0 <-> forall k, 0 <= k < Z.of_nat n -> lba_word_ok (first_word buf (i + k) ls) (lba + k)).
Proof.
  induction n as [|n IH]; intros i lba ls buf Hi H0 Hlt Hls Hb; cbn [verify_lba].
  { exists 0. split; [done|]. split; [lia|done]. }
  rewrite first_word_run by nia. cbn [mbind res_bind].
  destruct (negb _ && negb _ && negb _) eqn:E.
  - exists (-2). split; [done|]. split; [done|]. intros Hall. specialize (Hall 0 ltac:(lia)).
    unfold lba_word_ok in Hall. rewrite !Z.add_0_r in Hall. lia.
  - assert (Hk0 : lba_word_ok (first_word buf i ls) lba) by (unfold lba_word_ok; lia).
    destruct n as [|n'].
    { exists 0. split; [done|]. split; [|done]. intros _ k Hk. assert (k = 0) as -> by lia.
      by rewrite !Z.add_0_r. }
    rewrite (next_lba lba n') by lia.
    destruct (IH (i + 1) (lba + 1) ls buf) as (ret & Hr & Hiff); [lia..|nia|].
    exists ret. split; [exact Hr|]. rewrite Hiff. split; intros Hall k Hk.
    + destruct (decide (k = 0)) as [->|]; [by rewrite !Z.add_0_r|].
      specialize (Hall (k - 1) ltac:(lia)).
      by replace (i + 1 + (k - 1)) with (i + k) in Hall by lia; replace (lba + 1 + (k - 1)) with (lba + k) in Hall by lia.
    + specialize (Hall (k + 1) ltac:(lia)).
      by replace (i + 1 + k) with (i + (k + 1)) by lia; replace (lba + 1 + k) with (lba + (k + 1)) by lia.
Qed.

Lemma verify_data_total n : forall i lba size ls buf d,
  0 <= i -> 0 <= ls -> (i + Z.of_nat n) * ls <= Z.of_nat (length buf) ->
  0 <= lba < 2 ^ 64 -> size / 4 = Z.of_nat (length d) ->
  exists ret, verify_data crc32c n i lba size ls buf d = Ok ret.
Proof.
  induction n as [|n IH]; intros i lba size ls buf d Hi Hls Hb Hl Hsz; cbn [verify_data].
  { by exists 0. }
  destruct (IH (i + 1) (wrap 64 (lba + 1)) size ls buf d) as (ret & Hr);
    [lia|lia|nia|unfold wrap; apply Z.mod_pos_bound; lia|done|].
  rewrite Hr, Hsz. destruct (Z.ltb_spec lba (Z.of_nat (length d))) as [Hlt|]; [|by exists ret].
  destruct (d !! Z.to_nat lba) as [w|] eqn:E; [|apply lookup_ge_None in E; lia].
  rewrite block_run by nia. cbn [mbind res_bind].
  repeat match goal with |- context [if ?b then _ else _] => destruct b end; eauto.
Qed.

Lemma verify_data_run n : forall i lba size ls buf d,
  0 <= i -> 0 <= ls -> (i + Z.of_nat n) * ls <= Z.of_nat (length buf) ->
  0 <= lba -> lba + Z.of_nat n < 2 ^ 64 -> size / 4 = Z.of_nat (length d) ->
  exists ret, verify_data crc32c n i lba size ls buf d = Ok ret
    /\ (ret = 0 <-> forall k w, 0 <= k < Z.of_nat n -> d !! Z.to_nat (lba + k) = Some w ->
                     word_ok w (block_at buf (i + k) ls)).
Proof.
  induction n as [|n IH]; intros i lba size ls buf d Hi Hls Hb H0 Hlt Hsz; cbn [verify_data].
  { exists 0. split; [done|]. split; [lia|done]. }
  assert (Hnext : exists ret,
    verify_data crc32c n (i + 1) (wrap 64 (lba + 1)) size ls buf d = Ok ret
    /\ (ret = 0 <-> forall k w, 1 <= k < Z.of_nat (S n) -> d !! Z.to_nat (lba + k) = Some w ->
                     word_ok w (block_at buf (i + k) ls))).
  { destruct n as [|n']; [exists 0; split; [done|]; split; [lia|done]|].
    rewrite (next_lba lba n') by lia.
    destruct (IH (i + 1) (lba + 1) size ls buf d) as (ret & Hr & Hiff); [lia|lia|nia|lia|lia|done|].
    exists ret. split; [exact Hr|]. rewrite Hiff. split; intros Hall k w Hk Hd.
    - specialize (Hall (k - 1) w ltac:(lia)). replace (lba + 1 + (k - 1)) with (lba + k) in Hall by lia.
      replace (i + 1 + (k - 1)) with (i + k) in Hall by lia. by apply Hall.
    - replace (i + 1 + k) with (i + (k + 1)) by lia. apply Hall; [lia|].
      by replace (lba + (k + 1)) with (lba + 1 + k) by lia. }
  destruct Hnext as (ret & Hr & Hiff). rewrite Hr, Hsz.
  assert (Hsplit : forall b : Prop, (b <-> forall w, d !! Z.to_nat lba = Some w -> word_ok w (block_at buf i ls)) ->
    (ret = 0 /\ b <-> forall k w, 0 <= k < Z.of_nat (S n) -> d !! Z.to_nat (lba + k) = Some w ->
                     word_ok w (block_at buf (i + k) ls))).
  { intros b Hbw. rewrite Hiff, Hbw. split.
    - intros [Hall H1] k w Hk Hd. destruct (decide (k = 0)) as [->|]; [|apply Hall; [lia|done]].
      rewrite Z.add_0_r in *. by apply H1.
    - intros Hall. split; [intros k w Hk; apply Hall; lia|]. intros w Hd. specialize (Hall 0 w ltac:(lia)).
      rewrite !Z.add_0_r in Hall. by apply Hall. }
  destruct (Z.ltb_spec lba (Z.of_nat (length d))) as [Hl|Hge].
  2: { exists ret. split; [done|]. rewrite <- (Hsplit True); [tauto|]. split; [|done].
       intros _ w E. apply lookup_lt_Some in E. lia. }
  destruct (d !! Z.to_nat lba) as [w|] eqn:E; [|apply lookup_ge_None in E; lia].
  rewrite land_31, block_run by nia. cbn [mbind res_bind].
  assert (Hone : forall b : Prop, (b <-> word_ok w (block_at buf i ls)) ->
    (b <-> forall w', Some w = Some w' -> word_ok w' (block_at buf i ls))).
  { intros b ->. split; [by intros Hw w' [= <-]|]. intros Hall. by apply Hall. }
  unfold unmapped, uncorrectable. destruct (Z.eqb_spec (w mod 2 ^ 31) 0) as [E0|E0].
  { exists ret. split; [done|]. rewrite <- (Hsplit True); [tauto|]. apply Hone. split; [|done].
    intros _. by left. }
  destruct (Z.eqb_spec (w mod 2 ^ 31) 0x7fffffff) as [E1|E1].
  { exists (-1). split; [done|]. rewrite <- (Hsplit False); [lia|]. apply Hone.
    split; [done|]. intros [H|[H _]]; [by apply E0|by apply H]. }
  destruct (Z.eqb_spec (csum (block_at buf i ls)) (w mod 2 ^ 31)) as [E2|E2].
  - exists ret. split; [done|]. rewrite <- (Hsplit True); [tauto|]. apply Hone. split; [|done].
    intros _. by right.
  - exists (-3). split; [done|]. rewrite <- (Hsplit False); [lia|]. apply Hone.
    split; [done|]. intros [H|[_ H]]; [by apply E0|congruence].
Qed.

(** What makes a read acceptable: every block carries its LBA (or is blank) and
    agrees with the table. *)
Definition read_ok (lba n : Z) (buf : list Z) (ns : nstab) : Prop :=
  (forall k, 0 <= k < n -> lba_word_ok (first_word buf k (nt_lba_size ns)) (lba + k))
  /\ (forall k w, 0 <= k < n -> words ns !! Z.to_nat (lba + k) = Some w ->
        word_ok w (block_at buf k (nt_lba_size ns))).

Lemma read_completes lba n r buf ns t :
  io_ok 2 lba n r buf ns -> Forall is_byte buf -> nt_crc ns = Some t -> ct_enabled t = true ->
  exists st, complete_io crc32c r buf ns 0 0 = Ok (ns, st)
    /\ ((st = (0, 0) /\ read_ok lba n buf ns) \/ (st = (0x07, 0x81) /\ ~ read_ok lba n buf ns)).
Proof.
  intros Hio Hby Ht Hen. pose proof (io_count16 _ _ _ _ _ _ Hio) as Hc.
  destruct Hio as [Ho Hs Hn (H0 & _ & Hlt) Hcnt Hwf Hblk Hbuf]. cbn [fst snd] in *.
  pose proof (table_size ns t Hwf Ht) as Hsz. set (ls := nt_lba_size ns) in *.
  assert (Hn' : Z.of_nat (Z.to_nat n) = n) by lia.
  destruct (verify_lba_run (Z.to_nat n) 0 lba ls buf) as (r1 & Hr1 & Hi1); [lia|lia|lia|lia|nia|].
  destruct (verify_data_run (Z.to_nat n) 0 lba (nt_size ns) ls buf (ct_data t)) as (r2 & Hr2 & Hi2);
    [lia|lia|nia|lia|lia|done|].
  assert (Hw0 : 0 <= first_word buf 0 ls < 2 ^ 64).
  { unfold first_word. pose proof (from_le_bound (sub_list (0 * ls) 8 buf)) as Hb8.
    assert (Hl8 : length (sub_list (0 * ls) 8 buf) = 8%nat).
    { unfold sub_list. rewrite length_take, length_drop. nia. }
    rewrite Hl8 in Hb8. apply Hb8. unfold sub_list. by apply Forall_take, Forall_drop. }
  destruct (verify_data_total (Z.to_nat n) 0 (first_word buf 0 ls) (nt_size ns) ls buf (ct_data t))
    as (r3 & Hr3); [lia|lia|nia|done|done|].
  unfold complete_io, cmdlog_update_crc_io, cmdlog_verify_crc. rewrite Ho, Ht. cbn [Z.eqb Pos.eqb andb orb mbind res_bind].
  rewrite Ht, Hen, Hs, Hc. unfold buffer_verify_lba, buffer_verify_data. fold ls. rewrite Hr1.
  cbn [mbind res_bind].
  assert (Hiff : read_ok lba n buf ns <-> r1 = 0 /\ r2 = 0).
  { unfold read_ok, words. rewrite Ht, Hi1, Hi2, Hn'. fold ls. done. }
  destruct (Z.eqb_spec r1 0) as [E1|E1].
  - rewrite Hr2. cbn [mbind res_bind]. destruct (Z.eqb_spec r2 0) as [E2|E2];
      eexists; (split; [reflexivity|]); [left|right]; (split; [done|]); tauto.
  - assert (E0 : load 8 0 buf = Ok (first_word buf 0 ls)) by (apply (first_word_run buf 0 ls); nia).
    rewrite E0. cbn [mbind res_bind]. rewrite Hr3.
    cbn [mbind res_bind]. destruct (Z.eqb_spec r3 0) as [E3|E3]; cbn [mbind res_bind Z.eqb];
      [|rewrite (proj2 (Z.eqb_neq _ _) E3)];
      eexists; (split; [reflexivity|]); right; (split; [done|]); tauto.
Qed.
(** C2. A read is accepted exactly when it should be: with verification
    enabled, a successful read of data for all its blocks is reported as
    successful if and only if every block starts with its own LBA (or is blank:
    zeros or ones) and every tracked block that is mapped is not marked
    uncorrectable and has the checksum of the table; otherwise its status
    becomes the vendor-specific 07/81.  The table does not change. *)
Theorem read_accepted_iff lba n r buf ns t :
  io_ok 2 lba n r buf ns -> Forall is_byte buf -> nt_crc ns = Some t -> ct_enabled t = true ->
  exists st, complete_io crc32c r buf ns 0 0 = Ok (ns, st)
    /\ (st = (0, 0) <-> read_ok lba n buf ns) /\ (st <> (0, 0) -> st = (0x07, 0x81)).
Proof.
  intros Hio Hby Ht Hen. destruct (read_completes _ _ _ _ _ _ Hio Hby Ht Hen) as (st & Hr & Hst).
  exists st. split; [done|]. destruct Hst as [[-> Hok]|[-> Hno]]; split; try done.
Qed.

(** ** From write to read *)
Lemma first_word_block buf k ls :
  8 <= ls -> first_word buf k ls = from_le (take 8 (block_at buf k ls)).
Proof.
  intros Hls. unfold first_word, block_at, sub_list. rewrite take_take. do 2 f_equal. lia.
Qed.

Lemma addresses_io op n lba count flags c buf nt payload :
  addresses c op n lba count flags -> 0 <= op < 256 ->
  range_ok (lba, count) -> 1 <= count < 65536 -> nstab_wf nt -> 8 <= nt_lba_size nt ->
  count * nt_lba_size nt <= Z.of_nat (length buf) ->
  io_ok op lba count (mk_request false c payload) buf nt.
Proof.
  intros (_ & Ho & Hn & Hl & Hc & _) Hop Hr Hcnt Hwf Hb Hbuf. split; try done; cbn [rq_cmd].
  unfold nlb. rewrite land_65535. exact Hc.
Qed.

Lemma drop_sub_list (l : list Z) off i n :
  0 <= off -> 0 <= i -> sub_list i n (drop (Z.to_nat off) l) = sub_list (off + i) n l.
Proof. intros. unfold sub_list. rewrite drop_drop. do 2 f_equal. lia. Qed.

Lemma block_of_sub_list off n mem k ls :
  0 <= off -> 0 <= k -> 0 <= ls -> (k + 1) * ls <= n ->
  block_at (sub_list off n mem) k ls = sub_list (off + k * ls) ls mem.
Proof.
  intros Ho Hk Hl Hn. unfold block_at, sub_list.
  rewrite skipn_firstn_comm, take_take, drop_drop. f_equal; [nia|]. f_equal. nia.
Qed.

(** Reading the blocks of a write back, after the write has completed. *)
Lemma read_ok_after lba n ls off mem buf nt nt' token d t :
  nt_lba_size nt = ls -> 16 <= ls -> 0 <= off -> 0 <= lba -> lba + n < 2 ^ 64 ->
  nt_crc nt = Some t -> nt' = with_data d nt -> length d = length (ct_data t) ->
  (forall k, lba <= k < lba + n -> k < tracked nt ->
     d !! Z.to_nat k = Some (csum (block_at (drop (Z.to_nat off) mem) (k - lba) ls))) ->
  stamped off ls 0 n lba token mem ->
  (forall k, 0 <= k < n -> block_at buf k ls = sub_list (off + k * ls) ls mem) -> read_ok lba n buf nt'.
Proof.
  intros Hls H16 Hoff Hlba Hlt Ht -> Hlen Hd Hst Heq.
  assert (Hls' : nt_lba_size (with_data d nt) = ls) by (unfold with_data; by rewrite Ht).
  assert (Hblk : forall k, 0 <= k < n -> block_at buf k ls = block_at (drop (Z.to_nat off) mem) k ls).
  { intros k Hk. rewrite Heq by done. unfold block_at. rewrite drop_sub_list by nia. done. }
  split; intros k; rewrite Hls'.
  - intros Hk. left. rewrite first_word_block by lia. rewrite Heq by done.
    transitivity (from_le (sub_list (off + k * ls) 8 mem)).
    + unfold sub_list. rewrite take_take. do 2 f_equal. lia.
    + destruct (Hst k Hk) as [-> _]. unfold wrap. rewrite Z.sub_0_r. apply Z.mod_small. lia.
  - intros w Hk Hw. rewrite words_with_data in Hw by (by rewrite Ht). right.
    assert (lba + k < tracked nt).
    { apply lookup_lt_Some in Hw. unfold tracked, words. rewrite Ht. lia. }
    rewrite (Hd (lba + k)) in Hw by lia. injection Hw as <-. rewrite Hblk by done.
    replace (lba + k - lba) with k by lia. pose proof (csum_range (block_at (drop (Z.to_nat off) mem) k ls)) as Hr.
    rewrite Z.mod_small by (revert Hr; eval_pow; lia). unfold uncorrectable. split; [lia|done].
Qed.

(** The namespace of the driver and of Python agree, it has a checksum table
    with verification enabled, and the command stays below 65536 blocks and
    LBA 2^62. *)
Record verifying (ns : namespace) (nt : nstab) (lba count : Z) : Prop := {
  ve_wf : nstab_wf nt;
  ve_crc : option_map ct_enabled (nt_crc nt) = Some true;
  ve_sector : nt_lba_size nt = ns_sector_size ns;
  ve_words : ns_sector_size ns mod 8 = 0;
  ve_range : range_ok (lba, count);
  ve_count : count < 65536
}.

(** The data of a read that is compared with the table after the write. *)
Lemma read_not_ok lba n nt d t buf k w :
  nt_crc nt = Some t -> d !! Z.to_nat (lba + k) = Some w -> 0 <= k < n ->
  1 <= w <= 0x7ffffffe -> csum (block_at buf k (nt_lba_size nt)) <> w ->
  ~ read_ok lba n buf (with_data d nt).
Proof.
  intros Ht Hd Hk Hw Hne [_ Hok]. specialize (Hok k w Hk).
  rewrite words_with_data in Hok by (by rewrite Ht). unfold with_data in Hok. rewrite Ht in Hok.
  specialize (Hok Hd). unfold word_ok, unmapped in Hok. cbn [nt_lba_size] in Hok.
  rewrite Z.mod_small in Hok by (revert Hw; eval_pow; lia).
  destruct Hok as [->|[_ E]]; [lia|by rewrite E in Hne].
Qed.

(** C1. What is written is what is read: a write issued by
    [Namespace.write] that completes successfully, followed by a read of the
    same blocks issued by [Namespace.read]: if the device returns the data that
    was sent, the read keeps its successful status; if it returns a tracked
    block with another checksum, the status of the read becomes 07/81. *)
Theorem write_read_verifies submit ns nt b b' token token' lba count flags d13 d14 d15
    flags' e13 e14 e15 buf :
  (forall c, submit c = 0) ->
  io_args_ok ns b lba count flags d13 d14 d15 -> io_args_ok ns b' lba count flags' e13 e14 e15 ->
  verifying ns nt lba count ->
  b_offset b + count * ns_sector_size ns <= Z.of_nat (length (b_ptr b)) ->
  Forall is_byte buf -> Z.of_nat (length buf) = count * ns_sector_size ns ->
  exists c mem c' nt' st,
    write submit ns (Some b) token lba count flags d13 d14 d15 = Ok (c, mem, wrap 64 (token + count))
    /\ complete_io crc32c (mk_request false c []) (drop (Z.to_nat (b_offset b)) mem) nt 0 0
       = Ok (nt', (0, 0))
    /\ read submit ns (Some b') token' lba count flags' e13 e14 e15 = Ok (c', b_ptr b', token')
    /\ complete_io crc32c (mk_request false c' []) buf nt' 0 0 = Ok (nt', st)
    /\ (buf = sub_list (b_offset b) (count * ns_sector_size ns) mem -> st = (0, 0))
    /\ (forall k, 0 <= k < count -> lba + k < tracked nt ->
          csum (block_at buf k (ns_sector_size ns))
          <> csum (sub_list (b_offset b + k * ns_sector_size ns) (ns_sector_size ns) mem) ->
          st = (0x07, 0x81)).
Proof.
  intros Hs Ha Ha' [Hwf Hcrc Hls H8 Hr Hc] Hroom Hby Hlen.
  destruct (nt_crc nt) as [t|] eqn:Ht; [|done]. injection Hcrc as Hen.
  destruct (write_run submit ns b token lba count flags d13 d14 d15)
    as (c & mem & Hw & Hadr & _ & Hml & Hst & _); [done..|].
  pose proof (ns_cmd_io_read submit ns b' token' lba count flags' e13 e14 e15 Hs Ha') as Hrd.
  pose proof (read_entry_addresses ns lba count flags' e13 e14 e15 b' Ha') as Hadr'.
  destruct Ha as [Hbwf _ H16 Hlba Hcnt _ _ _ _ Hfit _]. destruct Hbwf as [? ?].
  assert (Hw1 : io_ok 1 lba count (mk_request false c []) (drop (Z.to_nat (b_offset b)) mem) nt).
  { apply (addresses_io 1 (ns_id ns) lba count flags); try done; [lia..|]. rewrite Hls, length_drop. lia. }
  destruct (write_completes _ _ _ _ _ _ Hw1 Ht) as (d & Hcw & Hdl & Hd & _). rewrite Hls in Hd.
  exists c, mem, (nvme_send_cmd_raw true 2 (ns_id ns) (Some (b_offset b', count * ns_sector_size ns))
        (wrap 32 lba) (hi32 lba) (Z.lor (count - 1) (Z.shiftl flags' 16)) e13 e14 e15), (with_data d nt).
  set (c' := nvme_send_cmd_raw _ _ _ _ _ _ _ _ _ _) in *.
  assert (Hls' : nt_lba_size (with_data d nt) = ns_sector_size ns) by (unfold with_data; by rewrite Ht).
  assert (Hw2 : io_ok 2 lba count (mk_request false c' []) buf (with_data d nt)).
  { apply (addresses_io 2 (ns_id ns) lba count flags'); try done; [lia| |rewrite Hls'; lia..].
    apply with_data_wf; [done|]. unfold words. by rewrite Ht, Hdl. }
  destruct (read_completes _ _ _ _ _ (mk_crc (ct_size t) true d) Hw2 Hby) as (st & Hrun & Hdec);
    [unfold with_data; by rewrite Ht, Hen|done|].
  exists st. do 4 (split; [done|]). split.
  - intros ->. destruct Hdec as [[-> _]|[_ Hno]]; [done|]. exfalso. apply Hno.
    eapply (read_ok_after lba count _ (b_offset b) mem); [exact Hls|(destruct Hr as (? & _ & Hlt); cbn [fst snd] in *; lia)..|exact Ht|done|exact Hdl| |exact Hst|].
    + intros k Hk Htr. by apply Hd.
    + intros k Hk. apply block_of_sub_list; [lia..|nia].
  - intros k Hk Htr Hne. destruct Hdec as [[_ Hok]|[-> _]]; [|done]. exfalso. revert Hok.
    eapply read_not_ok; [exact Ht| |exact Hk|apply csum_range|].
    + apply Hd; lia.
    + rewrite Hls. replace (lba + k - lba) with k by lia. unfold block_at at 2.
      by rewrite drop_sub_list by nia.
Qed.
End Verify.

(** ** Witnesses *)

(** A stand-in for the CRC of the library: the sum of the bytes. *)
Definition example_crc (l : list Z) : Z := wrap 32 (fold_right Z.add 0 l).

Lemma example_crc_u32 l : 0 <= example_crc l < 2 ^ 32.
Proof. unfold example_crc, wrap. apply Z.mod_pos_bound. lia. Qed.

Definition example_data : list Z := replicate 1024 0.

Lemma example_bytes : Forall is_byte example_data.
Proof. by apply Forall_replicate. Qed.

Lemma example_io_ok op :
  0 <= op < 256 -> io_ok op 3 2 (example_request op 3 2) example_data example_tab.
Proof.
  intros Ho. split; try done.
  unfold opc. change (dword 0 _) with op. change 0xff with (2 ^ 8 - 1).
  rewrite land_mask by lia. apply Z.mod_small. lia.
Qed.

Lemma write_maps_blocks_witness :
  exists d, complete_io example_crc (example_request 1 3 2) example_data example_tab 0 0
            = Ok (with_data d example_tab, (0, 0))
    /\ d !! 4%nat = Some (buffer_calc_csum example_crc (replicate 512 0)) /\ d !! 5%nat = Some 0.
Proof.
  destruct (write_maps_blocks example_crc example_crc_u32 3 2 (example_request 1 3 2) example_data
    example_tab _ (example_io_ok 1 ltac:(lia)) eq_refl) as (d & Hr & Hw & Ho).
  exists d. split; [exact Hr|]. split.
  - destruct (Hw 4) as (w & Hd & -> & _); [lia|vm_compute; reflexivity|exact Hd].
  - apply (Ho 5); lia.
Defined.

(** Blank blocks of an empty table are accepted, whatever was meant to be there. *)
Lemma read_accepted_iff_witness :
  complete_io example_crc (example_request 2 3 2) example_data example_tab 0 0
    = Ok (example_tab, (0, 0)) /\ read_ok example_crc 3 2 example_data example_tab.
Proof.
  destruct (read_accepted_iff example_crc 3 2 (example_request 2 3 2) example_data example_tab _
    (example_io_ok 2 ltac:(lia)) example_bytes eq_refl eq_refl)
    as (st & Hr & Hiff & _).
  assert (E : st = (0, 0)) by (vm_compute in Hr; by injection Hr as <-).
  split; [by rewrite <- E|by apply Hiff].
Defined.

Lemma example_rw_args : io_args_ok example_ns (example_buffer 4096) 3 2 0 0 0 0.
Proof. split; try (cbn; eval_pow; lia). by apply example_buffer_wf. Qed.

(** The blocks come back zeroed: the stamp is gone, and the read is failed. *)
Lemma write_read_verifies_witness :
  exists c mem c' nt' st,
    write accept example_ns (Some example_buf) 5 3 2 0 0 0 0 = Ok (c, mem, wrap 64 (5 + 2))
    /\ complete_io example_crc (mk_request false c []) (drop 0 mem) example_tab 0 0 = Ok (nt', (0, 0))
    /\ read accept example_ns (Some example_buf) 9 3 2 0 0 0 0 = Ok (c', b_ptr example_buf, 9)
    /\ complete_io example_crc (mk_request false c' []) example_data nt' 0 0 = Ok (nt', st)
    /\ st = (0x07, 0x81).
Proof.
  destruct (write_read_verifies example_crc example_crc_u32 accept example_ns example_tab
    example_buf example_buf 5 9 3 2 0 0 0 0 0 0 0 0 example_data) as
    (c & mem & c' & nt' & st & H1 & H2 & H3 & H4 & _ & H6);
    [done|apply example_rw_args..| | |apply example_bytes|done|].
  - by split.
  - vm_compute. discriminate.
  - exists c, mem, c', nt', st. do 4 (split; [done|]).
    apply (H6 0); [lia|vm_compute; reflexivity|].
    assert (E : write accept example_ns (Some example_buf) 5 3 2 0 0 0 0 = Ok (c, mem, wrap 64 (5 + 2)))
      by exact H1.
    vm_compute in E. injection E as _ <-. vm_compute. discriminate.
Defined.
