(* ===== verification/Shared.v ===== *)
(** * Shared: the memory shared by the processes of the driver

    The main process and its I/O workers share named memory zones
    (src/src/driver.c): the configuration word, the token that makes every
    written block different, and the checksum table of each namespace.  Process
    0 is the primary one; it reserves and frees zones, the others look them up.
    The namespaces of SPDK, with the pointers the driver adds, are shared too.
    SPDK's zones are the class [Memzone]; its namespace identification is an
    argument.  What is done with a table is in Crc.v. *)
From Stdlib Require Import ZArith Lia ZifyBool Ascii String.
From stdpp Require Import base list numbers option gmap strings.
From S2P Require Import Prelude PyInt Text Pcie Crc.
Local Open Scope Z_scope.

(** ** Named memory zones *)

(** [spdk_memzone_reserve], [_lookup] and [_free]; addresses are positive. *)
Class Memzone (Mz : Type) := {
  mz_reserve : string -> Z -> Mz -> option positive * Mz;
  mz_lookup : Mz -> string -> option positive;
  mz_free : string -> Mz -> Mz
}.

(** A name is reserved at most once, at an address no other zone has; there may
    not be enough memory. *)
Class MemzoneOk (Mz : Type) `{Memzone Mz} : Prop := {
  mz_reserve_some name size z p z' : mz_reserve name size z = (Some p, z') ->
    mz_lookup z name = None /\ (forall n, mz_lookup z n <> Some p)
    /\ forall n, mz_lookup z' n = if decide (n = name) then Some p else mz_lookup z n;
  mz_reserve_none name size z z' : mz_reserve name size z = (None, z') ->
    forall n, mz_lookup z' n = mz_lookup z n;
  mz_free_lookup name z n :
    mz_lookup (mz_free name z) n = if decide (n = name) then None else mz_lookup z n
}.

(** ** Names *)
Definition to_int32 (n : Z) : Z := if n <? 2 ^ 31 then n else n - 2 ^ 32.

(** [_ns_uname]: [snprintf] of 64 bytes. *)
Definition _ns_uname (traddr : string) (id uid : Z) : string :=
  String.substring 0 63
    ("ns_crc32_table_" +:+ traddr +:+ "_" +:+ print_d (to_int32 id) +:+ "_" +:+ print_lx uid)%string.

Definition DRIVER_IO_TOKEN_NAME : string := "driver_io_token".
Definition DRIVER_GLOBAL_CONFIG_NAME : string := "driver_global_config".

(** ** State *)

(** What a zone holds. *)
Inductive obj := OWord (w : Z) | OTable (t : crc_table).

(** A namespace of SPDK and what the driver adds to it. *)
Record nsinfo := mk_ns {
  ns_eui64 : Z; ns_sectors : Z; ns_lba_size : Z;
  ns_table_size : Z; ns_crc : option positive
}.

(** The static variables of a process. *)
Record proc := mk_proc { p_token : option positive; p_config : option positive; p_enough : bool }.
Definition new_proc : proc := mk_proc None None false.

Record sys (Mz : Type) := mk_sys {
  s_zones : Mz; s_objs : gmap positive obj; s_nss : gmap Z nsinfo; s_procs : gmap nat proc
}.
Arguments mk_sys {Mz} _ _ _ _.
Arguments s_zones {Mz} _.
Arguments s_objs {Mz} _.
Arguments s_nss {Mz} _.
Arguments s_procs {Mz} _.

Definition set_proc {Mz} (pid : nat) (p : proc) (s : sys Mz) : sys Mz :=
  mk_sys (s_zones s) (s_objs s) (s_nss s) (<[pid := p]> (s_procs s)).
Definition set_ns {Mz} (id : Z) (i : nsinfo) (s : sys Mz) : sys Mz :=
  mk_sys (s_zones s) (s_objs s) (<[id := i]> (s_nss s)) (s_procs s).
Definition set_obj {Mz} (p : positive) (o : obj) (s : sys Mz) : sys Mz :=
  mk_sys (s_zones s) (<[p := o]> (s_objs s)) (s_nss s) (s_procs s).
Definition proc_of {Mz} (s : sys Mz) (pid : nat) : proc := default new_proc (s_procs s !! pid).

Section Shared.
Context {Mz : Type} `{Memzone Mz}.
(** The address of the controller; what a reserved zone holds at first;
    [nvme_ns_construct], and [spdk_nvme_ctrlr_construct_namespaces] with its
    return code. *)
Variable traddr : string.
Variable fresh_word : Z.
Variable fresh_table : Z -> crc_table.
Variable construct : Z -> nsinfo -> nsinfo.
Variable construct_namespaces : gmap Z nsinfo -> Z * gmap Z nsinfo.

Abbreviation S := (sys Mz).

Definition primary (pid : nat) : bool := Nat.eqb pid 0.

(** *** Access *)
Definition get_proc (pid : nat) : M S proc := gets (fun s => proc_of s pid).
Definition put_proc (pid : nat) (p : proc) : M S unit := modify (set_proc pid p).
Definition get_ns (id : Z) : M S nsinfo :=
  s ← get; match s_nss s !! id with Some i => mret i | None => raise CAbort end.
Definition put_ns (id : Z) (i : nsinfo) : M S unit := modify (set_ns id i).
Definition put_obj (p : positive) (o : obj) : M S unit := modify (set_obj p o).

(** Following a pointer that is NULL or whose zone was freed kills the process. *)
Definition get_word (p : option positive) : M S Z :=
  s ← get;
  match p with
  | Some a => match s_objs s !! a with Some (OWord w) => mret w | _ => raise COutOfBounds end
  | None => raise COutOfBounds
  end.
Definition put_word (p : option positive) (w : Z) : M S unit :=
  get_word p ;; match p with Some a => put_obj a (OWord w) | None => raise COutOfBounds end.
Definition get_table (a : positive) : M S crc_table :=
  s ← get; match s_objs s !! a with Some (OTable t) => mret t | _ => raise COutOfBounds end.
Definition c_assert (b : bool) : M S unit := if b then mret tt else raise CAbort.

Definition reserve (name : string) (size : Z) (o : obj) : M S (option positive) :=
  s ← get;
  let '(p, z) := mz_reserve name size (s_zones s) in
  put (mk_sys z (match p with Some a => <[a := o]> (s_objs s) | None => s_objs s end)
         (s_nss s) (s_procs s)) ;;
  mret p.
Definition lookup_zone (name : string) : M S (option positive) := gets (fun s => mz_lookup (s_zones s) name).
Definition free_zone (name : string) : M S unit :=
  modify (fun s => mk_sys (mz_free name (s_zones s))
    (match mz_lookup (s_zones s) name with Some a => delete a (s_objs s) | None => s_objs s end)
    (s_nss s) (s_procs s)).

(** *** The words of the driver *)
Definition driver_init_token (pid : nat) : M S unit :=
  pr ← get_proc pid;
  p ← (if primary pid then
         c_assert (bool_decide (p_token pr = None)) ;;
         p ← reserve DRIVER_IO_TOKEN_NAME 8 (OWord fresh_word);
         put_word p 1 ;;
         mret p
       else lookup_zone DRIVER_IO_TOKEN_NAME);
  put_proc pid (mk_proc p (p_config pr) (p_enough pr)) ;;
  c_assert (bool_decide (p <> None)).

Definition driver_init_config (pid : nat) : M S unit :=
  pr ← get_proc pid;
  p ← (if primary pid then
         c_assert (bool_decide (p_config pr = None)) ;;
         p ← reserve DRIVER_GLOBAL_CONFIG_NAME 8 (OWord fresh_word);
         put_word p 0 ;;
         mret p
       else lookup_zone DRIVER_GLOBAL_CONFIG_NAME);
  put_proc pid (mk_proc (p_token pr) p (p_enough pr)) ;;
  c_assert (bool_decide (p <> None)).

(** [env] is the result of [spdk_env_init]. *)
Definition driver_init (pid : nat) (env : Z) : M S Z :=
  if env <? 0 then mret (-1) else driver_init_config pid ;; driver_init_token pid ;; mret 0.

Definition driver_fini (pid : nat) : M S unit :=
  (if primary pid then free_zone DRIVER_IO_TOKEN_NAME ;; free_zone DRIVER_GLOBAL_CONFIG_NAME
   else mret tt) ;;
  put_proc pid new_proc.

Definition driver_config_write (pid : nat) (cfg_word : Z) : M S Z :=
  pr ← get_proc pid;
  c_assert (bool_decide (p_config pr <> None)) ;;
  let w := driver_config (p_enough pr) cfg_word in
  put_word (p_config pr) w ;; mret w.

Definition driver_config_read (pid : nat) : M S Z := pr ← get_proc pid; get_word (p_config pr).

(** [__atomic_fetch_add] on the token, at the start of [buffer_fill_rawdata]. *)
Definition take_token (pid : nat) (lba_count : Z) : M S Z :=
  pr ← get_proc pid;
  w ← get_word (p_token pr);
  put_word (p_token pr) (wrap 64 (w + lba_count)) ;; mret w.

(** *** Namespaces *)
Definition uname (i : nsinfo) (id : Z) : string := _ns_uname traddr id (ns_eui64 i).

Definition with_table (size : Z) (p : option positive) (i : nsinfo) : nsinfo :=
  mk_ns (ns_eui64 i) (ns_sectors i) (ns_lba_size i) size p.

(** The header [crc_table_t] takes 16 bytes. *)
Definition ns_table_init (pid : nat) (id table_size : Z) : M S Z :=
  i ← get_ns id;
  crc_table ← (if primary pid then
                 c_assert (bool_decide (ns_crc i = None)) ;;
                 reserve (uname i id) (wrap 64 (table_size + 16)) (OTable (fresh_table table_size))
               else lookup_zone (uname i id));
  (match crc_table with
   | Some p =>
       t ← get_table p;
       put_obj p (OTable (mk_crc table_size (ct_enabled t) (ct_data t))) ;;
       pr ← get_proc pid;
       put_proc pid (mk_proc (p_token pr) (p_config pr) true) ;;
       put_ns id (with_table table_size (Some p) i)
   | None => put_ns id (with_table (ns_table_size i) None i)
   end) ;;
  mret 0.

Definition ns_table_fini (pid : nat) (id : Z) : M S unit :=
  if primary pid then
    i ← get_ns id;
    p ← lookup_zone (uname i id);
    (match p with Some _ => free_zone (uname i id) | None => mret tt end) ;;
    put_ns id (with_table (ns_table_size i) None i)
  else mret tt.

Definition ns_init (pid : nat) (nsid nlba_verify : Z) : M S unit :=
  c_assert (0 <? nsid) ;;
  i ← get_ns nsid;
  let nsze := if 0 <? nlba_verify then Z.min (ns_sectors i) nlba_verify else ns_sectors i in
  ns_table_init pid nsid (wrap 64 (4 * nsze)) ;; mret tt.

Definition ns_fini (pid : nat) (id : Z) : M S Z := ns_table_fini pid id ;; mret 0.

(** The namespace as the table's operations of Crc.v see it. *)
Definition nstab_of (i : nsinfo) (t : crc_table) : nstab :=
  mk_nstab (ns_table_size i) (Some t) (ns_lba_size i).

(** The same flag, and all words cleared. *)
Definition restore_table (id : Z) (enabled : bool) : M S unit :=
  i ← get_ns id;
  match ns_crc i with
  | None => raise CAbort
  | Some p =>
      t ← get_table p;
      put_obj p (OTable (mk_crc (ct_size t) enabled (ct_data t))) ;;
      ns ← lift (crc32_clear (nstab_of i (mk_crc (ct_size t) enabled (ct_data t)))
                   0 (ns_table_size i) false);
      match nt_crc ns with Some t => put_obj p (OTable t) | None => mret tt end
  end.

(** The table is freed and the namespace identified again. *)
Definition reidentify (pid : nat) (id : Z) : M S nsinfo :=
  ns_table_fini pid id ;;
  i ← get_ns id;
  put_ns id (construct id i) ;;
  get_ns id.

Definition ns_refresh (pid : nat) (id : Z) : M S Z :=
  i ← get_ns id;
  match ns_crc i with
  | None => mret 0
  | Some p =>
      c_assert (negb (ns_table_size i =? 0)) ;;
      t ← get_table p;
      let enabled := ct_enabled t in
      i ← reidentify pid id;
      ret ← ns_table_init pid id (ns_table_size i);
      (if ret =? 0 then restore_table id enabled else mret tt) ;;
      mret ret
  end.

Definition ns_verify_enable (id : Z) (enable : bool) : M S bool :=
  i ← get_ns id;
  match ns_crc i with
  | Some p =>
      t ← get_table p;
      put_obj p (OTable (mk_crc (ct_size t) enable (ct_data t))) ;; mret true
  | None => mret false
  end.

(** The loop of [nvme_set_ns] over the namespaces from [id], [n] of them. *)
Fixpoint set_ns_loop (n : nat) (id : Z) : M S unit :=
  match n with
  | O => mret tt
  | Datatypes.S n' =>
      i ← get_ns id;
      let i := construct id i in
      p ← lookup_zone (uname i id);
      (match p with
       | Some a => t ← get_table a; put_ns id (with_table (ct_size t) (Some a) i)
       | None => put_ns id i
       end) ;;
      set_ns_loop n' (id + 1)
  end.

Definition nvme_set_ns (nn : Z) : M S Z :=
  if nn =? 0 then mret (-1)
  else
    s ← get;
    let '(rc, nss) := construct_namespaces (s_nss s) in
    put (mk_sys (s_zones s) (s_objs s) nss (s_procs s)) ;;
    if rc =? 0 then set_ns_loop (Z.to_nat nn) 1 ;; mret rc else mret rc.

(** What the processes do, one operation at a time; a token that is taken is
    recorded with the number of blocks it is for. *)
Inductive op :=
  | OpInit (pid : nat) | OpExit (pid : nat)
  | OpConfig (pid : nat) (w : Z) | OpRead (pid : nat) | OpToken (pid : nat) (n : Z)
  | OpNsInit (pid : nat) (id nlba_verify : Z) | OpNsFini (pid : nat) (id : Z)
  | OpRefresh (pid : nat) (id : Z) | OpVerify (id : Z) (enable : bool) | OpSetNs (nn : Z).

Definition run_op (o : op) : M S (list (Z * Z)) :=
  match o with
  | OpInit pid => driver_init pid 0 ;; mret []
  | OpExit pid => driver_fini pid ;; mret []
  | OpConfig pid w => driver_config_write pid w ;; mret []
  | OpRead pid => driver_config_read pid ;; mret []
  | OpToken pid n => t ← take_token pid n; mret [(t, n)]
  | OpNsInit pid id nlba_verify => ns_init pid id nlba_verify ;; mret []
  | OpNsFini pid id => ns_fini pid id ;; mret []
  | OpRefresh pid id => ns_refresh pid id ;; mret []
  | OpVerify id enable => ns_verify_enable id enable ;; mret []
  | OpSetNs nn => nvme_set_ns nn ;; mret []
  end.

Fixpoint run_ops (l : list op) : M S (list (Z * Z)) :=
  match l with
  | [] => mret []
  | o :: l' => d ← run_op o; ds ← run_ops l'; mret (d ++ ds)
  end.
End Shared.

(** ** Names determine namespaces *)

Definition id_ok (id : Z) : Prop := 0 <= id < 2 ^ 32.

Lemma uname_full traddr id uid : (String.length traddr <= 19)%nat ->
  _ns_uname traddr id uid =
    ("ns_crc32_table_" +:+ traddr +:+ "_" +:+ print_d (to_int32 id) +:+ "_" +:+ print_lx uid)%string.
Proof.
  intros Ht. unfold _ns_uname. apply substring_all. rewrite !string_length_app.
  pose proof (print_d_length (to_int32 id)). pose proof (digits_length 16 16 uid). unfold print_lx.
  cbn [String.length]. lia.
Qed.

(** Two namespaces of a controller never share a name: nothing is cut off and
    the number ends before the last underscore. *)
Lemma uname_inj traddr id uid id' uid' : (String.length traddr <= 19)%nat -> id_ok id -> id_ok id' ->
  _ns_uname traddr id uid = _ns_uname traddr id' uid' -> id = id'.
Proof.
  intros Ht Hid Hid'. rewrite !uname_full by done.
  intros E%(inj (String.append _))%(inj (String.append _))%(inj (String.append _)).
  apply (split_first "_") in E as [E _]; [|apply print_d_chars..].
  unfold id_ok, to_int32 in *. apply print_d_inj in E;
    destruct (Z.ltb_spec id (2 ^ 31)), (Z.ltb_spec id' (2 ^ 31)); lia.
Qed.

Lemma uname_fresh traddr id uid :
  _ns_uname traddr id uid <> DRIVER_IO_TOKEN_NAME /\ _ns_uname traddr id uid <> DRIVER_GLOBAL_CONFIG_NAME.
Proof. done. Qed.

(** ** The invariant *)

(** A name says what its zone holds. *)
Definition holds (name : string) (o : obj) : Prop :=
  match o with
  | OWord _ => name = DRIVER_IO_TOKEN_NAME \/ name = DRIVER_GLOBAL_CONFIG_NAME
  | OTable t => (name <> DRIVER_IO_TOKEN_NAME /\ name <> DRIVER_GLOBAL_CONFIG_NAME)
      /\ ct_size t = 4 * Z.of_nat (length (ct_data t)) /\ ct_size t < 2 ^ 64
  end.

Definition same_kind (o o' : obj) : Prop :=
  match o, o' with
  | OWord _, OWord _ => True
  | OTable t, OTable t' => ct_size t' = ct_size t /\ length (ct_data t') = length (ct_data t)
  | _, _ => False
  end.

(** The size of the table in the zone with a name. *)
Definition size_of {Mz} `{Memzone Mz} (s : sys Mz) (name : string) : option Z :=
  match mz_lookup (s_zones s) name with
  | Some a => match s_objs s !! a with Some (OTable t) => Some (ct_size t) | _ => None end
  | None => None
  end.

(** No table is new or has another size. *)
Definition no_new_size {Mz} `{Memzone Mz} (s s' : sys Mz) : Prop :=
  forall n z, size_of s' n = Some z -> size_of s n = Some z.

#[export] Instance no_new_size_refl {Mz} `{Memzone Mz} : Reflexive (no_new_size (Mz := Mz)).
Proof. by intros s n z. Qed.
#[export] Instance no_new_size_trans {Mz} `{Memzone Mz} : Transitive (no_new_size (Mz := Mz)).
Proof. intros s1 s2 s3 H1 H2 n z Hz. by apply H1, H2. Qed.

Definition ns_ok (i : nsinfo) : Prop := 0 < ns_sectors i /\ 4 * ns_sectors i + 16 < 2 ^ 64.

Section Invariant.
Context {Mz : Type} `{MemzoneOk Mz}.
Variable traddr : string.
Context (traddr_short : (String.length traddr <= 19)%nat).

(** Every zone has an object of its kind, no two zones share an address, the
    table of a namespace is the zone with its name, and the pointers of the
    processes are the zones of the two words. *)
Record inv (s : sys Mz) : Prop := {
  v_objs : forall n a, mz_lookup (s_zones s) n = Some a ->
    exists o, s_objs s !! a = Some o /\ holds n o;
  v_inj : forall n m a, mz_lookup (s_zones s) n = Some a -> mz_lookup (s_zones s) m = Some a -> n = m;
  v_nss : forall id i, s_nss s !! id = Some i -> id_ok id /\ ns_ok i /\ forall a, ns_crc i = Some a ->
    mz_lookup (s_zones s) (uname traddr i id) = Some a
    /\ exists t, s_objs s !! a = Some (OTable t) /\ ct_size t = ns_table_size i;
  v_procs : forall pid pr, s_procs s !! pid = Some pr ->
    (forall a, p_token pr = Some a -> mz_lookup (s_zones s) DRIVER_IO_TOKEN_NAME = Some a)
    /\ (forall a, p_config pr = Some a -> mz_lookup (s_zones s) DRIVER_GLOBAL_CONFIG_NAME = Some a)
}.

Lemma inv_proc s pid : inv s -> let pr := proc_of s pid in
  (forall a, p_token pr = Some a -> mz_lookup (s_zones s) DRIVER_IO_TOKEN_NAME = Some a)
  /\ (forall a, p_config pr = Some a -> mz_lookup (s_zones s) DRIVER_GLOBAL_CONFIG_NAME = Some a).
Proof. intros Hi. unfold proc_of. destruct (s_procs s !! pid) as [pr|] eqn:E; cbn; [by eapply v_procs|done]. Qed.

Lemma word_at s n a : inv s -> n = DRIVER_IO_TOKEN_NAME \/ n = DRIVER_GLOBAL_CONFIG_NAME ->
  mz_lookup (s_zones s) n = Some a -> exists w, s_objs s !! a = Some (OWord w).
Proof.
  intros Hi Hn Ha. destruct (v_objs _ Hi _ _ Ha) as ([w|t] & Ho & Hh); [by exists w|].
  destruct Hh as [[H1 H2] _]. by destruct Hn.
Qed.

Lemma table_at s n a : inv s -> n <> DRIVER_IO_TOKEN_NAME -> n <> DRIVER_GLOBAL_CONFIG_NAME ->
  mz_lookup (s_zones s) n = Some a -> exists t, s_objs s !! a = Some (OTable t)
    /\ ct_size t = 4 * Z.of_nat (length (ct_data t)) /\ ct_size t < 2 ^ 64.
Proof.
  intros Hi Hn1 Hn2 Ha. destruct (v_objs _ Hi _ _ Ha) as ([w|t] & Ho & Hh).
  - by destruct Hh.
  - exists t. by destruct Hh.
Qed.

(** A step that changes one object within its kind. *)
Lemma inv_obj s a o o' : inv s -> s_objs s !! a = Some o -> same_kind o o' ->
  inv (set_obj a o' s).
Proof.
  intros Hi Ha Hk. split; cbn; [| |intros id i Hid|]; [|by apply v_inj| |by apply v_procs].
  - intros n b Hb. destruct (decide (b = a)) as [->|Hne].
    + rewrite lookup_insert_eq. exists o'. split; [done|]. destruct (v_objs _ Hi _ _ Hb) as (x & Hx & Hh).
      rewrite Ha in Hx. injection Hx as <-. destruct o, o'; cbn in *; try done. destruct Hk as [-> ->]. done.
    + rewrite lookup_insert_ne by done. by apply v_objs.
  - destruct (v_nss _ Hi _ _ Hid) as (H1 & H2 & H3). split; [done|]. split; [done|]. intros b Hb.
    destruct (H3 b Hb) as (H4 & t & Ht & Hs). split; [done|]. destruct (decide (b = a)) as [->|Hne].
    + rewrite lookup_insert_eq. rewrite Ha in Ht. injection Ht as ->. destruct o' as [|t']; [done|].
      exists t'. split; [done|]. destruct Hk. congruence.
    + rewrite lookup_insert_ne by done. eauto.
Qed.

Lemma size_of_set_obj s a o o' n : s_objs s !! a = Some o -> same_kind o o' ->
  size_of (set_obj a o' s) n = size_of s n.
Proof.
  intros Ha Hk. unfold size_of. cbn. destruct (mz_lookup (s_zones s) n) as [b|]; [|done].
  destruct (decide (b = a)) as [->|Hne]; [|by rewrite lookup_insert_ne].
  rewrite lookup_insert_eq, Ha. destruct o, o'; cbn in Hk; try done. by destruct Hk as [-> _].
Qed.

Lemma no_new_size_obj s a o o' : s_objs s !! a = Some o -> same_kind o o' -> no_new_size s (set_obj a o' s).
Proof. intros Ha Hk n z. by rewrite (size_of_set_obj s a o o'). Qed.

Lemma inv_put_proc s pid pr : inv s ->
  (forall a, p_token pr = Some a -> mz_lookup (s_zones s) DRIVER_IO_TOKEN_NAME = Some a) ->
  (forall a, p_config pr = Some a -> mz_lookup (s_zones s) DRIVER_GLOBAL_CONFIG_NAME = Some a) ->
  inv (set_proc pid pr s).
Proof.
  intros Hi H1 H2. split; cbn; [by apply v_objs|by apply v_inj|by apply v_nss|].
  intros k pr' [[<- <-]|[_ Hk]]%lookup_insert_Some; [done|]. by eapply v_procs.
Qed.

Lemma inv_put_ns s id i : inv s -> id_ok id -> ns_ok i ->
  (forall a, ns_crc i = Some a -> mz_lookup (s_zones s) (uname traddr i id) = Some a
     /\ exists t, s_objs s !! a = Some (OTable t) /\ ct_size t = ns_table_size i) ->
  inv (set_ns id i s).
Proof.
  intros Hi H1 H2 H3. split; cbn; [by apply v_objs|by apply v_inj| |by apply v_procs].
  intros k j [[<- <-]|[_ Hk]]%lookup_insert_Some; [done|]. by apply v_nss.
Qed.

Lemma inv_reserve s name size p z o : inv s -> mz_reserve name size (s_zones s) = (Some p, z) ->
  holds name o -> inv (mk_sys z (<[p := o]> (s_objs s)) (s_nss s) (s_procs s))
    /\ mz_lookup z name = Some p /\ forall n, n <> name -> mz_lookup z n = mz_lookup (s_zones s) n.
Proof.
  intros Hi Hr Hh. destruct (mz_reserve_some _ _ _ _ _ Hr) as (Hnew & Hp & Hz).
  assert (Hother : forall n a, mz_lookup (s_zones s) n = Some a -> mz_lookup z n = Some a /\ a <> p).
  { intros n a Ha. split; [|intros ->; by destruct (Hp n)]. rewrite Hz.
    destruct (decide (n = name)) as [->|]; [congruence|done]. }
  split; [|split; [rewrite Hz; by rewrite decide_True|intros n Hn; rewrite Hz; by rewrite decide_False]].
  split; cbn.
  - intros n a Ha. rewrite Hz in Ha. destruct (decide (n = name)) as [->|Hn].
    + injection Ha as <-. rewrite lookup_insert_eq. eauto.
    + rewrite lookup_insert_ne by (by intros <-; apply (Hp n)). by apply v_objs.
  - intros n m a. rewrite !Hz. destruct (decide (n = name)), (decide (m = name)); subst; try done.
    + intros [= <-] E. by apply Hp in E.
    + intros E [= <-]. by apply Hp in E.
    + by apply v_inj.
  - intros id i Hid. destruct (v_nss _ Hi _ _ Hid) as (H1 & H2 & H3). split; [done|]. split; [done|].
    intros a Ha. destruct (H3 a Ha) as (H4 & t & Ht & Hs). destruct (Hother _ _ H4) as [H5 H6].
    split; [done|]. exists t. by rewrite lookup_insert_ne.
  - intros pid pr Hpid. destruct (v_procs _ Hi _ _ Hpid) as [H1 H2].
    split; intros a Ha; [apply H1 in Ha|apply H2 in Ha]; by apply Hother in Ha as [? _].
Qed.

Lemma inv_zones s z : inv s -> (forall n, mz_lookup z n = mz_lookup (s_zones s) n) ->
  inv (mk_sys z (s_objs s) (s_nss s) (s_procs s)).
Proof.
  intros Hi Hz. split; cbn; intros *; rewrite ?Hz; [by apply v_objs|by apply v_inj| |by apply v_procs].
  intros Hid. destruct (v_nss _ Hi _ _ Hid) as (H1 & H2 & H3). split; [done|]. split; [done|].
  exact H3.
Qed.
End Invariant.

Ltac srun := repeat (progress (unfold get_ns, put_ns, get_proc, put_proc, put_obj, get_word, put_word,
  get_table, c_assert, reserve, lookup_zone, free_zone, modify, gets, get, put, lift, raise,
  mbind, M_bind, mret, M_ret; cbn)).

Section Runs.
Context {Mz : Type} `{MemzoneOk Mz}.
Variable traddr : string.
Context (traddr_short : (String.length traddr <= 19)%nat).
Variable fresh_word : Z.
Variable fresh_table : Z -> crc_table.
Context (fresh_length : forall n, 0 <= n -> Z.of_nat (length (ct_data (fresh_table n))) = n / 4).
Variable construct : Z -> nsinfo -> nsinfo.

Abbreviation inv := (inv traddr).
Abbreviation name_of := (uname traddr).

(** What the operations on namespaces leave alone: the two words and the
    pointers to them. *)
Record keeps (s s' : sys Mz) : Prop := {
  k_words : forall n a, n = DRIVER_IO_TOKEN_NAME \/ n = DRIVER_GLOBAL_CONFIG_NAME ->
    mz_lookup (s_zones s) n = Some a -> mz_lookup (s_zones s') n = Some a /\ s_objs s' !! a = s_objs s !! a;
  k_procs : forall pid, p_token (proc_of s' pid) = p_token (proc_of s pid)
    /\ p_config (proc_of s' pid) = p_config (proc_of s pid)
}.

#[local] Instance keeps_refl : Reflexive keeps.
Proof. intros s. by split. Qed.
#[local] Instance keeps_trans : Transitive keeps.
Proof.
  intros s1 s2 s3 [H1 H2] [H3 H4]. split.
  - intros n a Hn Ha. destruct (H1 n a Hn Ha) as [H5 <-]. by apply H3.
  - intros pid. by rewrite !(proj1 (H4 _)), !(proj2 (H4 _)).
Qed.

Lemma word_not_table i id n : n = DRIVER_IO_TOKEN_NAME \/ n = DRIVER_GLOBAL_CONFIG_NAME -> n <> name_of i id.
Proof.
  destruct (uname_fresh traddr id (ns_eui64 i)) as [H1 H2].
  intros [-> | ->]; apply not_eq_sym; [exact H1|exact H2].
Qed.

(** The primary process frees a table. *)
Lemma ns_table_fini_run (s : sys Mz) pid id i : inv s -> s_nss s !! id = Some i ->
  exists s', ns_table_fini traddr pid id s = (Ok tt, s') /\ inv s' /\ keeps s s'
    /\ (forall n z, size_of s' n = Some z -> size_of s n = Some z /\ (pid = O -> n <> name_of i id))
    /\ (pid <> O -> s' = s)
    /\ (pid = O -> s_nss s' = <[id := with_table (ns_table_size i) None i]> (s_nss s)
          /\ mz_lookup (s_zones s') (name_of i id) = None
          /\ (mz_lookup (s_zones s) (name_of i id) <> None -> s_zones s' = mz_free (name_of i id) (s_zones s))).
Proof.
  intros Hi Hid. unfold ns_table_fini, primary. destruct (Nat.eqb_spec pid 0) as [->|Hp];
    [|exists s; by split_and!]. destruct (v_nss _ _ Hi _ _ Hid) as (H1 & H2 & H3).
  assert (Hns : forall z o, (forall n, mz_lookup z n = if decide (n = name_of i id) then None else mz_lookup (s_zones s) n) ->
    (forall a, mz_lookup (s_zones s) (name_of i id) <> Some a -> o !! a = s_objs s !! a) ->
    inv (mk_sys z o (<[id := with_table (ns_table_size i) None i]> (s_nss s)) (s_procs s))).
  { intros z o Hz Ho. split; cbn.
    - intros n a. rewrite Hz. case_decide as Hn; [done|]. intros Ha. rewrite Ho; [by eapply v_objs|].
      intros Hc. by apply Hn, (v_inj _ _ Hi _ _ a).
    - intros n m a. rewrite !Hz. case_decide; [done|]. case_decide; [done|]. by eapply v_inj.
    - intros k j [[<- <-]|[Hk Hj]]%lookup_insert_Some; [by split_and!|].
      destruct (v_nss _ _ Hi _ _ Hj) as (H4 & H5 & H6). split; [done|]. split; [done|]. intros a Ha.
      destruct (H6 a Ha) as (H7 & H8). assert (Hu : name_of j k <> name_of i id).
      { intros E. by apply Hk, (uname_inj traddr id (ns_eui64 i) k (ns_eui64 j)). }
      rewrite Hz, decide_False by done. split; [done|]. rewrite Ho; [done|].
      intros Hc. by apply Hu, (v_inj _ _ Hi _ _ a).
    - intros k pr Hk. destruct (v_procs _ _ Hi _ _ Hk) as [H4 H5].
      split; intros a Ha; rewrite Hz, decide_False by (apply word_not_table; auto); auto. }
  srun. rewrite Hid. cbn. destruct (mz_lookup (s_zones s) (name_of i id)) as [p|] eqn:Ep; cbn.
  - eexists. split; [done|]. rewrite Ep. split_and!; try done; cbn.
    + apply Hns; [apply mz_free_lookup|]. intros a Ha. apply lookup_delete_ne. congruence.
    + split; [|done]. intros n a Hn Ha. cbn. rewrite mz_free_lookup, decide_False by (by apply word_not_table).
      split; [done|]. apply lookup_delete_ne. intros ->.
      by apply (word_not_table i id n Hn), (v_inj _ _ Hi _ _ a).
    + intros n z. unfold size_of. cbn. rewrite mz_free_lookup. case_decide as Hn; [done|].
      destruct (mz_lookup (s_zones s) n) as [b|]; [|done]. intros Hz. split; [|done].
      destruct (delete p (s_objs s) !! b) as [o|] eqn:Eo; [|done]. apply lookup_delete_Some in Eo as [_ ->]. exact Hz.
    + intros _. by rewrite mz_free_lookup, decide_True.
  - eexists. split; [done|]. split_and!; try done; cbn.
    + apply Hns; [|done]. intros n. by case_decide; subst.
    + intros n z Hz. split; [exact Hz|]. intros _ ->. unfold size_of in Hz. cbn in Hz. by rewrite Ep in Hz.
Qed.

(** What [ns_table_init] does once the zone [p] has its size. *)
Lemma link_table (s s1 : sys Mz) pid id i p t : inv s1 -> keeps s s1 -> id_ok id -> ns_ok i ->
  mz_lookup (s_zones s1) (name_of i id) = Some p -> s_objs s1 !! p = Some (OTable t) ->
  let s2 := set_ns id (with_table (ct_size t) (Some p) i)
              (set_proc pid (mk_proc (p_token (proc_of s1 pid)) (p_config (proc_of s1 pid)) true) s1) in
  inv s2 /\ keeps s s2.
Proof.
  intros Hi1 Hk Hid Hok Hp Ht s2. split.
  - apply inv_put_ns; [|done|done|].
    + apply inv_put_proc; [done|apply (inv_proc traddr s1 pid Hi1)..].
    + intros a [= <-]. split; [done|]. by exists t.
  - etrans; [exact Hk|]. split; cbn; [done|]. intros k. unfold s2, proc_of. cbn.
    destruct (decide (k = pid)) as [->|Hne]; [by rewrite lookup_insert_eq|by rewrite lookup_insert_ne].
Qed.

(** A table of [n] words is reserved or found, or there is none. *)
Lemma ns_table_init_run (s : sys Mz) pid id i n : inv s -> s_nss s !! id = Some i ->
  0 <= n -> 4 * n + 16 < 2 ^ 64 ->
  (pid = O -> ns_crc i = None) ->
  (pid <> O -> forall a t, mz_lookup (s_zones s) (name_of i id) = Some a -> s_objs s !! a = Some (OTable t) ->
     ct_size t = 4 * n) ->
  exists s' p, ns_table_init traddr fresh_table pid id (4 * n) s = (Ok 0, s') /\ inv s' /\ keeps s s'
    /\ (forall m z, size_of s' m = Some z -> size_of s m = Some z \/ (pid = O /\ m = name_of i id /\ z = 4 * n))
    /\ s_nss s' = <[id := with_table (match p with Some _ => 4 * n | None => ns_table_size i end) p i]> (s_nss s)
    /\ (pid <> O -> p = mz_lookup (s_zones s) (name_of i id))
    /\ (pid = O -> (p <> None <-> fst (mz_reserve (name_of i id) (wrap 64 (4 * n + 16)) (s_zones s)) <> None)).
Proof.
  intros Hi Hid Hn Hb Hprim Hsec. destruct (v_nss _ _ Hi _ _ Hid) as (H1 & H2 & H3).
  destruct (uname_fresh traddr id (ns_eui64 i)) as [Hf1 Hf2].
  unfold ns_table_init, primary. srun. rewrite Hid. cbn. destruct (Nat.eqb_spec pid 0) as [->|Hp].
  - rewrite (bool_decide_eq_true_2 _ (Hprim eq_refl)). cbn.
    destruct (mz_reserve (name_of i id) (wrap 64 (4 * n + 16)) (s_zones s)) as [[p|] z] eqn:Er; cbn.
    + set (t := mk_crc (4 * n) (ct_enabled (fresh_table (4 * n))) (ct_data (fresh_table (4 * n)))).
      assert (Hh : holds (name_of i id) (OTable t)).
      { cbn. rewrite fresh_length by lia. split; [done|]. split; [|lia]. rewrite (Z.mul_comm 4 n), Z.div_mul by lia. lia. }
      destruct (inv_reserve traddr s _ _ p z (OTable t) Hi Er Hh) as (Hi1 & Hp & Hz).
      rewrite lookup_insert_eq. cbn. unfold set_obj. cbn. rewrite insert_insert_eq.
      destruct (link_table s (mk_sys z (<[p := OTable t]> (s_objs s)) (s_nss s) (s_procs s)) 0 id i p t) as [Hi2 Hk2]; try done.
      * split; cbn; [|done]. intros m a Hm Ha. rewrite Hz by (by apply word_not_table). split; [done|].
        apply lookup_insert_ne. intros <-. by destruct (mz_reserve_some _ _ _ _ _ Er) as (_ & Hn' & _); destruct (Hn' m).
      * cbn. by rewrite lookup_insert_eq.
      * eexists _, (Some p). split; [done|]. split; [exact Hi2|]. split; [exact Hk2|]. split; [|by split_and!].
        intros m x. unfold size_of. cbn. destruct (decide (m = name_of i id)) as [->|Hm].
        { rewrite Hp, lookup_insert_eq. intros [= <-]. by right. }
        rewrite Hz by done. destruct (mz_lookup (s_zones s) m) as [a|] eqn:Ea; [|done]. rewrite lookup_insert_ne; [by left|].
        intros <-. destruct (mz_reserve_some _ _ _ _ _ Er) as (_ & Hn' & _). by destruct (Hn' m).
    + eexists _, None. split; [done|]. split_and!; try done; cbn.
      2: { split; [|done]. intros m a Hm Ha. cbn. by rewrite (mz_reserve_none _ _ _ _ Er). }
      2: { intros m x. unfold size_of. cbn. rewrite (mz_reserve_none _ _ _ _ Er). by left. }
      * apply inv_put_ns; try done. apply inv_zones; [done|]. by eapply mz_reserve_none.
  - destruct (mz_lookup (s_zones s) (name_of i id)) as [p|] eqn:Ep; cbn.
    + destruct (table_at traddr s _ p Hi Hf1 Hf2 Ep) as (t & Ht & Hs1 & Hs2). pose proof (Hsec Hp p t eq_refl Ht) as Hs.
      rewrite Ht. cbn.
      destruct (link_table s (set_obj p (OTable (mk_crc (4 * n) (ct_enabled t) (ct_data t))) s) pid id i p
                  (mk_crc (4 * n) (ct_enabled t) (ct_data t))) as [Hi2 Hk2]; try done.
      * eapply inv_obj; [done|exact Ht|]. by split.
      * split; cbn; [|done]. intros m a Hm Ha. split; [done|]. apply lookup_insert_ne. intros <-.
        by apply (word_not_table i id m Hm), (v_inj _ _ Hi _ _ p).
      * cbn. by rewrite lookup_insert_eq.
      * eexists _, (Some p). split; [done|]. split; [exact Hi2|]. split; [exact Hk2|]. split; [|by split_and!].
        intros m z Hz. left. by apply (no_new_size_obj s p (OTable t) (OTable (mk_crc (4 * n) (ct_enabled t) (ct_data t)))) in Hz.
    + eexists _, None. split; [done|]. split_and!; try done; cbn; [apply inv_put_ns; done|by left].
Qed.

(** Clearing the whole table. *)
Lemma clear_all t l : ct_size t = 4 * Z.of_nat (length (ct_data t)) -> ct_size t < 2 ^ 64 ->
  crc32_clear (mk_nstab (ct_size t) (Some t) l) 0 (ct_size t) false =
    Ok (mk_nstab (ct_size t)
          (Some (mk_crc (ct_size t) (ct_enabled t) (replicate (length (ct_data t)) unmapped))) l).
Proof.
  intros Hs Hb. rewrite Hs at 2. rewrite Z.mul_comm.
  rewrite crc32_clear_run; [|by split; cbn; unfold tracked, words; cbn; rewrite ?Hs in *|by split; cbn; lia].
  unfold with_data, words. cbn [nt_crc nt_size nt_lba_size ct_size ct_enabled ct_data].
  assert (E : map_range 0 (Z.of_nat (length (ct_data t))) (fun _ => unmapped) (ct_data t)
              = replicate (length (ct_data t)) unmapped); [|by rewrite E].
  apply list_eq. intros j. rewrite map_range_lookup.
  destruct (decide (j < length (ct_data t))%nat) as [Hj|Hj].
  - destruct (lookup_lt_is_Some_2 _ _ Hj) as [w Hw]. rewrite Hw, lookup_replicate_2 by done. cbn.
    unfold in_range. by zbool.
  - rewrite (lookup_ge_None_2 (ct_data t)) by lia. cbn. symmetry. apply lookup_ge_None. rewrite length_replicate. lia.
Qed.

(** What SPDK's identification does to the driver's part of a namespace. *)
Context (construct_ok : forall id i, ns_ok i -> ns_ok (construct id i)
  /\ ns_eui64 (construct id i) = ns_eui64 i /\ ns_table_size (construct id i) = ns_table_size i
  /\ ns_crc (construct id i) = ns_crc i).

Lemma construct_name id i : ns_ok i -> name_of (construct id i) id = name_of i id.
Proof. intros Hi. destruct (construct_ok id i Hi) as (_ & H1 & _). unfold uname. by rewrite H1. Qed.

(** Room for a table of the given size once the old one was freed. *)
Definition room (s : sys Mz) (i : nsinfo) (id size : Z) : Prop :=
  fst (mz_reserve (name_of i id) (wrap 64 (size + 16)) (mz_free (name_of i id) (s_zones s))) <> None.

Lemma get_ns_run (s : sys Mz) id i : s_nss s !! id = Some i -> get_ns id s = (Ok i, s).
Proof. intros E. unfold get_ns, mbind, M_bind, get. by rewrite E. Qed.

Lemma get_table_run (s : sys Mz) p t : s_objs s !! p = Some (OTable t) -> get_table p s = (Ok t, s).
Proof. intros E. unfold get_table, mbind, M_bind, get. by rewrite E. Qed.

(** The last part of [ns_refresh]: the flag is restored, the table cleared. *)
Lemma restore_table_run (s : sys Mz) id i p t enabled : inv s -> s_nss s !! id = Some i -> ns_crc i = Some p ->
  s_objs s !! p = Some (OTable t) -> ct_size t = ns_table_size i ->
  let t' := mk_crc (ct_size t) enabled (replicate (length (ct_data t)) unmapped) in
  restore_table id enabled s = (Ok tt, set_obj p (OTable t') s)
  /\ inv (set_obj p (OTable t') s) /\ keeps s (set_obj p (OTable t') s) /\ no_new_size s (set_obj p (OTable t') s).
Proof.
  intros Hi Hid Hp Ht Hs t'. destruct (v_nss _ _ Hi _ _ Hid) as (H1 & H2 & H3).
  destruct (H3 p Hp) as (H4 & _). destruct (uname_fresh traddr id (ns_eui64 i)) as [Hf1 Hf2].
  destruct (table_at traddr s _ p Hi Hf1 Hf2 H4) as (t0 & Ht0 & Hw1 & Hw2). rewrite Ht in Ht0. injection Ht0 as <-.
  split; [|split; [|split]].
  - unfold restore_table. rewrite (run_bind_ok _ _ _ _ _ (get_ns_run s id i Hid)), Hp.
    rewrite (run_bind_ok _ _ _ _ _ (get_table_run s p t Ht)). unfold nstab_of. rewrite <- Hs.
    pose proof (clear_all (mk_crc (ct_size t) enabled (ct_data t)) (ns_lba_size i) Hw1 Hw2) as Hc.
    cbn [ct_size ct_data ct_enabled] in Hc.
    unfold mbind, M_bind, lift, put_obj, modify, mret, M_ret. rewrite Hc. cbn. unfold set_obj. cbn. by rewrite insert_insert_eq.
  - eapply inv_obj; [done|exact Ht|]. cbn. by rewrite length_replicate.
  - split; [|done]. intros n a Hn Ha. split; [done|]. apply lookup_insert_ne. intros <-.
    by apply (word_not_table i id n Hn), (v_inj _ _ Hi _ _ p).
  - apply (no_new_size_obj s p (OTable t)); [done|]. cbn. by rewrite length_replicate.
Qed.

Lemma reidentify_run (s : sys Mz) pid id i : inv s -> s_nss s !! id = Some i ->
  let i2 := construct id (if primary pid then with_table (ns_table_size i) None i else i) in
  exists s2, reidentify traddr construct pid id s = (Ok i2, s2) /\ inv s2 /\ keeps s s2 /\ no_new_size s s2
    /\ s_nss s2 !! id = Some i2 /\ (forall k, k <> id -> s_nss s2 !! k = s_nss s !! k)
    /\ name_of i2 id = name_of i id /\ ns_table_size i2 = ns_table_size i
    /\ (pid = O -> ns_crc i2 = None
          /\ (mz_lookup (s_zones s) (name_of i id) <> None -> s_zones s2 = mz_free (name_of i id) (s_zones s)))
    /\ (pid <> O -> s_zones s2 = s_zones s /\ s_objs s2 = s_objs s).
Proof.
  intros Hi Hid. destruct (ns_table_fini_run s pid id i Hi Hid) as (s1 & Hf & Hi1 & Hk1 & Hz1 & Hsec & Hprim).
  set (i1 := if primary pid then with_table (ns_table_size i) None i else i).
  assert (Hid1 : s_nss s1 !! id = Some i1).
  { unfold i1, primary. destruct (Nat.eqb_spec pid 0) as [->|Hp]; [|by rewrite Hsec].
    destruct (Hprim eq_refl) as (E & _). by rewrite E, lookup_insert_eq. }
  destruct (v_nss _ _ Hi1 _ _ Hid1) as (Hok & Hok1 & H4). destruct (construct_ok id i1 Hok1) as (Hok2 & He2 & Hs2 & Hc2).
  intros i2. subst i2. set (i2 := construct id i1) in *. exists (set_ns id i2 s1).
  assert (Hid2 : s_nss (set_ns id i2 s1) !! id = Some i2) by (cbn; by rewrite lookup_insert_eq).
  split; [|split; [|split; [|split]]].
  - unfold reidentify. rewrite (run_bind_ok _ _ _ _ _ Hf), (run_bind_ok _ _ _ _ _ (get_ns_run s1 id i1 Hid1)).
    rewrite (run_bind_ok (put_ns id _) _ s1 tt (set_ns id i2 s1)) by done. by apply get_ns_run.
  - apply inv_put_ns; [done..|]. intros a Ha. rewrite Hc2 in Ha. destruct (H4 a Ha) as (H5 & t1 & H6 & H7).
    unfold uname. rewrite He2, Hs2. split; [done|]. by exists t1.
  - etrans; [exact Hk1|]. by split.
  - intros n z Hz. by apply (Hz1 n z).
  - split; [done|]. split_and!.
    + intros k Hk. cbn. rewrite lookup_insert_ne by done. destruct (decide (pid = O)) as [Hp|Hp]; [|by rewrite Hsec].
      destruct (Hprim Hp) as (-> & _). by rewrite lookup_insert_ne.
    + unfold uname. rewrite He2. unfold i1. by destruct (primary pid).
    + rewrite Hs2. unfold i1. by destruct (primary pid).
    + intros Hp. destruct (Hprim Hp) as (_ & _ & Hz). split; [|exact Hz]. rewrite Hc2. unfold i1. by rewrite Hp.
    + intros Hp. by rewrite Hsec.
Qed.

Lemma ns_refresh_run (s : sys Mz) pid id i p t : inv s -> s_nss s !! id = Some i -> ns_crc i = Some p ->
  s_objs s !! p = Some (OTable t) -> 0 < ns_table_size i -> ns_table_size i + 16 < 2 ^ 64 ->
  (pid = O -> room s i id (ns_table_size i)) ->
  exists s' p', ns_refresh traddr fresh_table construct pid id s = (Ok 0, s') /\ inv s' /\ keeps s s' /\ no_new_size s s'
    /\ s_nss s' !! id = Some (with_table (ns_table_size i) (Some p')
         (construct id (if primary pid then with_table (ns_table_size i) None i else i)))
    /\ (forall k, k <> id -> s_nss s' !! k = s_nss s !! k)
    /\ s_objs s' !! p' = Some (OTable (mk_crc (ns_table_size i) (ct_enabled t)
                                         (replicate (Z.to_nat (ns_table_size i / 4)) unmapped))).
Proof.
  intros Hi Hid Hcrc Ht Hpos Hb Hroom. destruct (v_nss _ _ Hi _ _ Hid) as (H1 & H2 & H3).
  destruct (H3 p Hcrc) as (Hz & t0 & Ht0 & Hs). rewrite Ht in Ht0. injection Ht0 as <-.
  destruct (uname_fresh traddr id (ns_eui64 i)) as [Hf1 Hf2].
  destruct (table_at traddr s _ p Hi Hf1 Hf2 Hz) as (t0 & Ht0 & Hw1 & Hw2). rewrite Ht in Ht0. injection Ht0 as <-.
  set (n := Z.of_nat (length (ct_data t))) in *.
  destruct (reidentify_run s pid id i Hi Hid) as (s2 & Hr2 & Hi2 & Hk2 & Hz2 & Hid2 & Hother & Hn & Hsize & Hprim & Hsec).
  set (i2 := construct id _) in *. rewrite <- Hs, Hw1 in *.
  destruct (ns_table_init_run s2 pid id i2 n Hi2 Hid2) as (s3 & q & Hr & Hi3 & Hk3 & Hz3' & Hnss & Hq2 & Hq1); [lia|lia| | |].
  { intros Hp. by apply Hprim. }
  { intros Hp a u. destruct (Hsec Hp) as [-> ->]. rewrite Hn, Hz. intros [= <-]. rewrite Ht. by intros [= <-]. }
  assert (Hq : q <> None).
  { destruct (decide (pid = O)) as [Hp|Hp].
    - apply (Hq1 Hp). destruct (Hprim Hp) as (_ & ->); [|by rewrite Hz]. rewrite Hn. by apply Hroom.
    - rewrite (Hq2 Hp). destruct (Hsec Hp) as [-> _]. by rewrite Hn, Hz. }
  destruct q as [q|]; [|done].
  assert (Hid3 : s_nss s3 !! id = Some (with_table (4 * n) (Some q) i2)) by (by rewrite Hnss, lookup_insert_eq).
  destruct (v_nss _ _ Hi3 _ _ Hid3) as (_ & _ & H4). destruct (H4 q eq_refl) as (Hz3 & t3 & Ht3 & Hs3).
  destruct (uname_fresh traddr id (ns_eui64 i2)) as [Hf3 Hf4].
  destruct (table_at traddr s3 _ q Hi3 Hf3 Hf4 Hz3) as (t4 & Ht4 & Hw3 & _). rewrite Ht3 in Ht4. injection Ht4 as <-.
  destruct (restore_table_run s3 id _ q t3 (ct_enabled t) Hi3 Hid3 eq_refl Ht3 Hs3) as (Hrun & Hi4 & Hk4 & Hz4).
  eexists _, q. split; [|split; [exact Hi4|split; [by etrans; [|etrans]|split; [|split; [exact Hid3|split]]]]].
  - unfold ns_refresh. rewrite (run_bind_ok _ _ _ _ _ (get_ns_run s id i Hid)), Hcrc, <- Hs.
    unfold c_assert. zbool. rewrite bind_ret_l, (run_bind_ok _ _ _ _ _ (get_table_run s p t Ht)).
    rewrite (run_bind_ok _ _ _ _ _ Hr2), Hsize, (run_bind_ok _ _ _ _ _ Hr). cbn [Z.eqb].
    by rewrite (run_bind_ok _ _ _ _ _ Hrun).
  - intros m z Hm. apply Hz4, Hz3' in Hm as [Hm|(_ & -> & ->)]; [by apply Hz2|].
    unfold size_of. by rewrite Hn, Hz, Ht, Hw1.
  - intros k Hk. cbn. rewrite Hnss, lookup_insert_ne by done. by apply Hother.
  - cbn. rewrite lookup_insert_eq. cbn in Hs3. rewrite Hs3. do 4 f_equal.
    rewrite Z.mul_comm, Z.div_mul by lia. lia.
Qed.


(** ** Every operation *)
Variable construct_namespaces : gmap Z nsinfo -> Z * gmap Z nsinfo.

(** A controller's namespaces are kept or allocated afresh; when they were
    constructed there are [nn] of them. *)
Definition constructed (nn : Z) (m : gmap Z nsinfo) : Prop :=
  let '(rc, m') := construct_namespaces m in
  (forall id i, m' !! id = Some i -> m !! id = Some i \/ (id_ok id /\ ns_ok i /\ ns_crc i = None))
  /\ (rc = 0 -> forall id, 1 <= id <= nn -> is_Some (m' !! id)).

Definition nsze (i : nsinfo) (nlba_verify : Z) : Z :=
  if 0 <? nlba_verify then Z.min (ns_sectors i) nlba_verify else ns_sectors i.

(** What the code relies on: a process uses what it initialised, a worker starts
    after the main process, a namespace is created once, a worker asks for the
    same number of blocks, and there is memory to refresh a table. *)
Definition allowed (o : op) (s : sys Mz) : Prop :=
  match o with
  | OpInit pid => pid <> O /\ mz_lookup (s_zones s) DRIVER_IO_TOKEN_NAME <> None
      /\ mz_lookup (s_zones s) DRIVER_GLOBAL_CONFIG_NAME <> None
  | OpExit pid => pid <> O
  | OpConfig pid _ | OpRead pid => p_config (proc_of s pid) <> None
  | OpToken pid n => p_token (proc_of s pid) <> None /\ 0 <= n
  | OpNsInit pid id nlba_verify => exists i, 0 < id /\ s_nss s !! id = Some i
      /\ (pid = O -> ns_crc i = None)
      /\ (pid <> O -> forall a t, mz_lookup (s_zones s) (name_of i id) = Some a ->
            s_objs s !! a = Some (OTable t) -> ct_size t = 4 * nsze i nlba_verify)
  | OpNsFini _ id | OpVerify id _ => is_Some (s_nss s !! id)
  | OpRefresh pid id => exists i, s_nss s !! id = Some i /\ (ns_crc i <> None ->
      0 < ns_table_size i < 2 ^ 64 - 16 /\ (pid = O -> room s i id (ns_table_size i)))
  | OpSetNs nn => 0 <= nn < 2 ^ 32 /\ constructed nn (s_nss s)
  end.

(** The word of the token. *)
Definition token_is (s : sys Mz) (w : Z) : Prop :=
  exists a, mz_lookup (s_zones s) DRIVER_IO_TOKEN_NAME = Some a /\ s_objs s !! a = Some (OWord w).

Lemma keeps_token s s' w : keeps s s' -> token_is s w -> token_is s' w.
Proof. intros [Hk _] (a & Ha & Hw). destruct (Hk _ a (or_introl eq_refl) Ha) as [H1 H2]. exists a. by rewrite H2. Qed.

Lemma get_word_run (s : sys Mz) a w : s_objs s !! a = Some (OWord w) -> get_word (Some a) s = (Ok w, s).
Proof. intros E. unfold get_word, mbind, M_bind, get. by rewrite E. Qed.

Lemma put_word_run (s : sys Mz) a w w' : s_objs s !! a = Some (OWord w) ->
  put_word (Some a) w' s = (Ok tt, set_obj a (OWord w') s).
Proof. intros E. unfold put_word. by rewrite (run_bind_ok _ _ _ _ _ (get_word_run s a w E)). Qed.

Lemma token_config_distinct (s : sys Mz) a b : inv s -> mz_lookup (s_zones s) DRIVER_IO_TOKEN_NAME = Some a ->
  mz_lookup (s_zones s) DRIVER_GLOBAL_CONFIG_NAME = Some b -> a <> b.
Proof. intros Hi Ha Hb ->. by pose proof (v_inj _ _ Hi _ _ _ Ha Hb). Qed.

Lemma set_ns_loop_run n : forall id (s : sys Mz), inv s ->
  (forall k, id <= k < id + Z.of_nat n -> is_Some (s_nss s !! k)) ->
  exists s', set_ns_loop traddr construct n id s = (Ok tt, s') /\ inv s' /\ keeps s s' /\ no_new_size s s'.
Proof.
  induction n as [|n IH]; intros id s Hi Hn; [exists s; by split_and!|].
  destruct (Hn id ltac:(lia)) as [i Hid]. destruct (v_nss _ _ Hi _ _ Hid) as (Hok & Hok1 & H3).
  destruct (construct_ok id i Hok1) as (Hok2 & He & Hs & Hc). pose proof (construct_name id i Hok1) as Hname.
  assert (exists i', inv (set_ns id i' s) /\ forall (k : unit -> M (sys Mz) unit),
    (i ← get_ns id; let i := construct id i in p ← lookup_zone (name_of i id);
     (match p with
      | Some a => t ← get_table a; put_ns id (with_table (ct_size t) (Some a) i)
      | None => put_ns id i
      end) ≫= k) s = k tt (set_ns id i' s)) as (i' & Hi' & Hrun).
  { destruct (mz_lookup (s_zones s) (name_of i id)) as [a|] eqn:Ea.
    - destruct (uname_fresh traddr id (ns_eui64 i)) as [Hf1 Hf2].
      destruct (table_at traddr s _ a Hi Hf1 Hf2 Ea) as (t & Ht & _).
      exists (with_table (ct_size t) (Some a) (construct id i)). split.
      + apply inv_put_ns; [done..|]. intros b [= <-]. cbn. split; [|by exists t].
        change (mz_lookup (s_zones s) (name_of (construct id i) id) = Some a). by rewrite Hname.
      + intros k. rewrite (run_bind_ok _ _ _ _ _ (get_ns_run s id i Hid)). cbn zeta.
        rewrite (run_bind_ok (lookup_zone _) _ s (Some a) s) by (unfold lookup_zone, gets; by rewrite Hname, Ea).
        rewrite bind_assoc. by rewrite (run_bind_ok _ _ _ _ _ (get_table_run s a t Ht)).
    - exists (construct id i). split.
      + apply inv_put_ns; [done..|]. intros b Hb. rewrite Hc in Hb. destruct (H3 b Hb) as [H4 _]. congruence.
      + intros k. rewrite (run_bind_ok _ _ _ _ _ (get_ns_run s id i Hid)). cbn zeta.
        by rewrite (run_bind_ok (lookup_zone _) _ s None s) by (unfold lookup_zone, gets; by rewrite Hname, Ea). }
  destruct (IH (id + 1) (set_ns id i' s)) as (s' & Hr & Hi2 & Hk & Hz); [done| |].
  { intros k Hk. cbn. destruct (decide (k = id)) as [->|Hne]; [by rewrite lookup_insert_eq|].
    rewrite lookup_insert_ne by done. apply Hn. lia. }
  exists s'. cbn [set_ns_loop]. rewrite (Hrun (fun _ => set_ns_loop traddr construct n (id + 1))).
  split; [done|]. split; [done|]. split; [|exact Hz]. etrans; [|exact Hk]. by split.
Qed.

Lemma nvme_set_ns_run (s : sys Mz) nn : inv s -> 0 <= nn < 2 ^ 32 -> constructed nn (s_nss s) ->
  exists s' rc, nvme_set_ns traddr construct construct_namespaces nn s = (Ok rc, s') /\ inv s' /\ keeps s s'
    /\ no_new_size s s'.
Proof.
  intros Hi Hnn Hc. unfold nvme_set_ns. destruct (nn =? 0); [exists s, (-1); by split_and!|].
  unfold constructed in Hc. rewrite (run_bind_ok get _ s s s) by done.
  destruct (construct_namespaces (s_nss s)) as [rc m]. destruct Hc as [H1 H2].
  set (s1 := mk_sys (s_zones s) (s_objs s) m (s_procs s)). rewrite (run_bind_ok (put s1) _ s tt s1) by done.
  assert (Hi1 : inv s1).
  { split; cbn; [apply (v_objs _ _ Hi)|apply (v_inj _ _ Hi)| |apply (v_procs _ _ Hi)]. intros id i Hid.
    destruct (H1 id i Hid) as [E|(E1 & E2 & E3)]; [by apply (v_nss _ _ Hi)|]. rewrite E3. by split_and!. }
  destruct (Z.eqb_spec rc 0) as [->|Hrc]; [|exists s1, rc; split; [done|]; split; [done|]; split; [by split|by intros n z]].
  destruct (set_ns_loop_run (Z.to_nat nn) 1 s1 Hi1) as (s' & Hr & Hi' & Hk & Hz).
  { intros k Hk. apply H2; [done|]. lia. }
  exists s', 0. rewrite (run_bind_ok _ _ _ _ _ Hr). split; [done|]. split; [done|]. split; [|exact Hz].
  etrans; [|exact Hk]. by split.
Qed.

Lemma ns_verify_enable_run (s : sys Mz) id i enable : inv s -> s_nss s !! id = Some i ->
  exists s' b, ns_verify_enable id enable s = (Ok b, s') /\ inv s' /\ keeps s s' /\ no_new_size s s'.
Proof.
  intros Hi Hid. unfold ns_verify_enable. rewrite (run_bind_ok _ _ _ _ _ (get_ns_run s id i Hid)).
  destruct (ns_crc i) as [p|] eqn:Hp; [|exists s, false; by split_and!].
  destruct (v_nss _ _ Hi _ _ Hid) as (_ & _ & H3). destruct (H3 p Hp) as (Hz & t & Ht & _).
  rewrite (run_bind_ok _ _ _ _ _ (get_table_run s p t Ht)). eexists _, true. split; [done|].
  split; [|split; [|by apply (no_new_size_obj s p (OTable t))]].
  - eapply inv_obj; [done|exact Ht|]. by split.
  - split; [|done]. intros n a Hn Ha. split; [done|]. apply lookup_insert_ne. intros <-.
    by apply (word_not_table i id n Hn), (v_inj _ _ Hi _ _ p).
Qed.

Lemma ns_init_run (s : sys Mz) pid id nlba i : inv s -> 0 < id -> s_nss s !! id = Some i ->
  (pid = O -> ns_crc i = None) ->
  (pid <> O -> forall a t, mz_lookup (s_zones s) (name_of i id) = Some a ->
     s_objs s !! a = Some (OTable t) -> ct_size t = 4 * nsze i nlba) ->
  exists s', ns_init traddr fresh_table pid id nlba s = (Ok tt, s') /\ inv s' /\ keeps s s'
    /\ forall m z, size_of s' m = Some z -> size_of s m = Some z \/ (pid = O /\ m = name_of i id /\ z = 4 * nsze i nlba).
Proof.
  intros Hi Hpos Hid Hprim Hsec. destruct (v_nss _ _ Hi _ _ Hid) as (_ & [Hn1 Hn2] & _).
  assert (Hn : 0 <= nsze i nlba /\ nsze i nlba <= ns_sectors i) by (unfold nsze; destruct (Z.ltb_spec 0 nlba); lia).
  destruct (ns_table_init_run s pid id i (nsze i nlba) Hi Hid) as (s' & q & Hr & Hi' & Hk & Hz & _); [lia|lia|done|done|].
  exists s'. split; [|done]. unfold ns_init, c_assert. zbool.
  rewrite bind_ret_l, (run_bind_ok _ _ _ _ _ (get_ns_run s id i Hid)). cbn zeta.
  fold (nsze i nlba). rewrite wrap_small by lia. by rewrite (run_bind_ok _ _ _ _ _ Hr).
Qed.

(** The words, seen from a process. *)
Definition same_token (s s' : sys Mz) : Prop := forall w, token_is s w -> token_is s' w.

(** A process has the pointers to both words. *)
Definition ready (s : sys Mz) (pid : nat) : Prop :=
  p_token (proc_of s pid) <> None /\ p_config (proc_of s pid) <> None.

(** Operations on the words: the zones stay, and so do the other processes. *)
Record word_step (pid : nat) (s s' : sys Mz) : Prop := {
  ws_zones : s_zones s' = s_zones s;
  ws_sizes : no_new_size s s';
  ws_procs : forall k, k <> pid -> proc_of s' k = proc_of s k
}.

Lemma proc_of_ne (s : sys Mz) pid pr k : k <> pid -> proc_of (set_proc pid pr s) k = proc_of s k.
Proof. intros Hk. unfold proc_of. cbn. by rewrite lookup_insert_ne. Qed.

Lemma proc_of_eq (s : sys Mz) pid pr : proc_of (set_proc pid pr s) pid = pr.
Proof. unfold proc_of. cbn. by rewrite lookup_insert_eq. Qed.

Lemma driver_init_worker (s : sys Mz) pid : inv s -> allowed (OpInit pid) s ->
  exists s', driver_init fresh_word pid 0 s = (Ok 0, s') /\ inv s' /\ same_token s s'
    /\ word_step pid s s' /\ ready s' pid.
Proof.
  intros Hi (Hp & Ht & Hc). destruct (mz_lookup (s_zones s) DRIVER_IO_TOKEN_NAME) as [a|] eqn:Ea; [|done].
  destruct (mz_lookup (s_zones s) DRIVER_GLOBAL_CONFIG_NAME) as [b|] eqn:Eb; [|done].
  set (s1 := set_proc pid (mk_proc (p_token (proc_of s pid)) (Some b) (p_enough (proc_of s pid))) s).
  set (s2 := set_proc pid (mk_proc (Some a) (p_config (proc_of s1 pid)) (p_enough (proc_of s1 pid))) s1).
  assert (Hi1 : inv s1).
  { apply inv_put_proc; [done|apply (inv_proc traddr s pid Hi)|]. by intros x [= <-]. }
  exists s2. split; [|split; [|split; [intros w Hw; exact Hw|split]]].
  3: { split; [done|by intros n z|]. intros k Hk. unfold s2. rewrite proc_of_ne by done. by apply proc_of_ne. }
  3: { unfold ready, s2, s1. rewrite !proc_of_eq. done. }
  - unfold driver_init, driver_init_config, driver_init_token, primary. destruct (Nat.eqb_spec pid 0); [done|].
    cbn [Z.ltb Z.compare]. unfold get_proc, lookup_zone, put_proc, c_assert, gets, modify, mbind, M_bind, mret, M_ret.
    cbn. rewrite Eb. cbn. fold s1. change (s_zones s1) with (s_zones s). by rewrite Ea.
  - apply inv_put_proc; [done| |apply (inv_proc traddr s1 pid Hi1)]. by intros x [= <-].
Qed.

Lemma driver_fini_worker (s : sys Mz) pid : inv s -> pid <> O ->
  exists s', driver_fini pid s = (Ok tt, s') /\ inv s' /\ same_token s s' /\ word_step pid s s'.
Proof.
  intros Hi Hp. exists (set_proc pid new_proc s).
  split; [|split; [by apply inv_put_proc|split; [intros w Hw; exact Hw|]]].
  2: { split; [done|by intros n z|]. intros k Hk. by apply proc_of_ne. }
  unfold driver_fini, primary. by destruct (Nat.eqb_spec pid 0).
Qed.

Lemma driver_config_run (s : sys Mz) pid w : inv s -> p_config (proc_of s pid) <> None ->
  let v := driver_config (p_enough (proc_of s pid)) w in
  exists s', driver_config_write pid w s = (Ok v, s') /\ inv s' /\ same_token s s'
    /\ (word_step pid s s' /\ s_procs s' = s_procs s)
    /\ forall k, p_config (proc_of s k) <> None -> driver_config_read k s' = (Ok v, s').
Proof.
  intros Hi Hc v. destruct (p_config (proc_of s pid)) as [b|] eqn:Eb; [|done].
  destruct (inv_proc traddr s pid Hi) as [_ Hb]. specialize (Hb b Eb).
  destruct (word_at traddr s _ b Hi (or_intror eq_refl) Hb) as [w0 Hw0].
  exists (set_obj b (OWord v) s). split_and!.
  - unfold driver_config_write. rewrite (run_bind_ok (get_proc pid) _ s (proc_of s pid) s), Eb by done.
    unfold c_assert. rewrite bool_decide_eq_true_2, bind_ret_l by done. cbn zeta.
    by rewrite (run_bind_ok _ _ _ _ _ (put_word_run s b w0 _ Hw0)).
  - by eapply inv_obj.
  - intros u (a & Ha & Hu). exists a. split; [done|]. cbn. rewrite lookup_insert_ne; [done|].
    intros ->. by apply (token_config_distinct s a a Hi Ha Hb).
  - split; [done| |done]. by apply (no_new_size_obj s b (OWord w0)).
  - done.
  - intros k Hk. unfold driver_config_read, get_proc, gets. unfold mbind, M_bind.
    change (proc_of (set_obj b (OWord v) s) k) with (proc_of s k).
    destruct (inv_proc traddr s k Hi) as [_ Hkb]. destruct (p_config (proc_of s k)) as [b'|]; [|done].
    specialize (Hkb b' eq_refl). rewrite Hb in Hkb. injection Hkb as <-. apply get_word_run.
    cbn. by rewrite lookup_insert_eq.
Qed.

Lemma driver_config_read_run (s : sys Mz) pid : inv s -> p_config (proc_of s pid) <> None ->
  exists w, driver_config_read pid s = (Ok w, s).
Proof.
  intros Hi Hc. destruct (inv_proc traddr s pid Hi) as [_ Hb]. unfold driver_config_read, get_proc, gets, mbind, M_bind.
  destruct (p_config (proc_of s pid)) as [b|]; [|done].
  destruct (word_at traddr s _ b Hi (or_intror eq_refl) (Hb b eq_refl)) as [w Hw]. exists w. by apply get_word_run.
Qed.

Lemma take_token_run (s : sys Mz) pid n : inv s -> p_token (proc_of s pid) <> None ->
  exists w s', take_token pid n s = (Ok w, s') /\ inv s' /\ token_is s w /\ token_is s' (wrap 64 (w + n))
    /\ (word_step pid s s' /\ s_procs s' = s_procs s).
Proof.
  intros Hi Hc. destruct (inv_proc traddr s pid Hi) as [Ha _]. unfold take_token, get_proc, gets.
  unfold mbind at 1, M_bind at 1. destruct (p_token (proc_of s pid)) as [a|]; [|done]. specialize (Ha a eq_refl).
  destruct (word_at traddr s _ a Hi (or_introl eq_refl) Ha) as [w Hw].
  exists w, (set_obj a (OWord (wrap 64 (w + n))) s). split_and!.
  - rewrite (run_bind_ok _ _ _ _ _ (get_word_run s a w Hw)).
    by rewrite (run_bind_ok _ _ _ _ _ (put_word_run s a w _ Hw)).
  - by eapply inv_obj.
  - by exists a.
  - exists a. split; [done|]. cbn. by rewrite lookup_insert_eq.
  - split; [done| |done]. by apply (no_new_size_obj s a (OWord w)).
  - done.
Qed.

Abbreviation run_op := (run_op traddr fresh_word fresh_table construct construct_namespaces).
Abbreviation run_ops := (run_ops traddr fresh_word fresh_table construct construct_namespaces).

(** What an operation does to the zones and to the processes: the words stay; a
    table is new only when the main process creates a namespace, and gone when
    the main process closes one; a process is ready from its start to its exit. *)
Record effect (o : op) (s s' : sys Mz) : Prop := {
  ef_words : forall n, n = DRIVER_IO_TOKEN_NAME \/ n = DRIVER_GLOBAL_CONFIG_NAME ->
    mz_lookup (s_zones s) n <> None -> mz_lookup (s_zones s') n <> None;
  ef_sizes : forall n z, size_of s' n = Some z -> size_of s n = Some z
    \/ exists id nlba i, o = OpNsInit 0 id nlba /\ s_nss s !! id = Some i /\ n = name_of i id /\ z = 4 * nsze i nlba;
  ef_closed : forall id i, o = OpNsFini 0 id -> s_nss s !! id = Some i -> size_of s' (name_of i id) = None;
  ef_ready : forall pid, ready s pid -> o <> OpExit pid -> ready s' pid;
  ef_init : forall pid, o = OpInit pid -> ready s' pid
}.

Lemma effect_keeps o s s' : keeps s s' -> (forall n z, size_of s' n = Some z -> size_of s n = Some z
    \/ exists id nlba i, o = OpNsInit 0 id nlba /\ s_nss s !! id = Some i /\ n = name_of i id /\ z = 4 * nsze i nlba) ->
  (forall id i, o = OpNsFini 0 id -> s_nss s !! id = Some i -> size_of s' (name_of i id) = None) ->
  (forall pid, o <> OpInit pid) -> effect o s s'.
Proof.
  intros [Hw Hp] Hz Hc Ho. split; [|done|done| |intros pid ->; by destruct (Ho pid)].
  - intros n Hn. destruct (mz_lookup (s_zones s) n) as [a|] eqn:E; [|done]. intros _.
    by rewrite (proj1 (Hw n a Hn E)).
  - intros pid [H1 H2] _. unfold ready. by rewrite (proj1 (Hp pid)), (proj2 (Hp pid)).
Qed.

Lemma effect_word o pid s s' : word_step pid s s' -> (forall k, o = OpNsFini 0 k -> False) ->
  (ready s pid -> o <> OpExit pid -> ready s' pid) -> (forall k, o = OpInit k -> ready s' k) -> effect o s s'.
Proof.
  intros [Hz Hs Hp] Hf Hr Hi. split; [by rewrite Hz|intros n z Hn; left; by apply Hs|by intros id i E; destruct (Hf id)| |done].
  intros k Hk Ho. destruct (decide (k = pid)) as [->|Hne]; [by apply Hr|]. unfold ready in *. by rewrite Hp.
Qed.

(** Every allowed operation returns and keeps the invariant; only the one that
    takes a token changes it. *)
Lemma run_op_ok (s : sys Mz) o : inv s -> allowed o s ->
  exists ds s', run_op o s = (Ok ds, s') /\ inv s' /\ effect o s s' /\ forall w, token_is s w ->
    match o with
    | OpToken _ n => ds = [(w, n)] /\ token_is s' (wrap 64 (w + n))
    | _ => ds = [] /\ token_is s' w
    end.
Proof.
  intros Hi Ha. destruct o as [pid|pid|pid w|pid|pid n|pid id nlba|pid id|pid id|id b|nn]; cbn [allowed] in Ha.
  - destruct (driver_init_worker s pid Hi Ha) as (s' & Hr & Hi' & Hk & Hs & Hy). exists [], s'.
    split; [exact (run_bind_ok _ (fun _ => mret []) _ _ _ Hr)|]. split; [done|]. split; [|by auto].
    apply (effect_word _ pid); [done|done|done|]. by intros k [= <-].
  - destruct (driver_fini_worker s pid Hi Ha) as (s' & Hr & Hi' & Hk & Hs). exists [], s'.
    split; [exact (run_bind_ok _ (fun _ => mret []) _ _ _ Hr)|]. split; [done|]. split; [|by auto].
    by apply (effect_word _ pid).
  - destruct (driver_config_run s pid w Hi Ha) as (s' & Hr & Hi' & Hk & [Hs Hp] & _). exists [], s'.
    split; [exact (run_bind_ok _ (fun _ => mret []) _ _ _ Hr)|]. split; [done|]. split; [|by auto].
    apply (effect_word _ pid); [done|done| |done]. intros Hy _. unfold ready, proc_of in *. by rewrite Hp.
  - destruct (driver_config_read_run s pid Hi Ha) as (w & Hr). exists [], s.
    split; [exact (run_bind_ok _ (fun _ => mret []) _ _ _ Hr)|]. split; [done|]. split; [|by auto].
    by apply (effect_word _ pid).
  - destruct (take_token_run s pid n Hi (proj1 Ha)) as (w & s' & Hr & Hi' & Hw & Hw' & Hs & Hp). exists [(w, n)], s'.
    split; [exact (run_bind_ok _ (fun t => mret [(t, n)]) _ _ _ Hr)|]. split; [done|]. split.
    + apply (effect_word _ pid); [done|done| |done]. intros Hy _. unfold ready, proc_of in *. by rewrite Hp.
    + intros u (a & Ha1 & Ha2). destruct Hw as (a' & Hb1 & Hb2). rewrite Ha1 in Hb1. injection Hb1 as <-.
      rewrite Ha2 in Hb2. by injection Hb2 as <-.
  - destruct Ha as (i & Hpos & Hid & Hprim & Hsec).
    destruct (ns_init_run s pid id nlba i Hi Hpos Hid Hprim Hsec) as (s' & Hr & Hi' & Hk & Hz). exists [], s'.
    split; [exact (run_bind_ok _ (fun _ => mret []) _ _ _ Hr)|]. split; [done|]. split; [|by eauto using keeps_token].
    apply effect_keeps; [done| |done|done]. intros m z [H1|(-> & -> & ->)]%Hz; [by left|]. right. by exists id, nlba, i.
  - destruct Ha as [i Hid]. destruct (ns_table_fini_run s pid id i Hi Hid) as (s' & Hr & Hi' & Hk & Hz & _). exists [], s'.
    pose proof (run_bind_ok _ (fun _ => mret 0) _ _ _ Hr) as Hr'.
    split; [exact (run_bind_ok _ (fun _ => mret []) _ _ _ Hr')|]. split; [done|]. split; [|by eauto using keeps_token].
    apply effect_keeps; [done|intros m z Hm; left; by apply Hz| |done]. intros id' i' [= -> <-] Hid'.
    rewrite Hid in Hid'. injection Hid' as <-. destruct (size_of s' _) as [z|] eqn:E; [|done]. by destruct (Hz _ _ E) as [_ []].
  - destruct Ha as (i & Hid & Hroom). destruct (ns_crc i) as [p|] eqn:Hp.
    + destruct (v_nss _ _ Hi _ _ Hid) as (_ & _ & H3). destruct (H3 p Hp) as (_ & t & Ht & _).
      destruct Hroom as [Hsize Hroom]; [done|].
      destruct (ns_refresh_run s pid id i p t Hi Hid Hp Ht) as (s' & p' & Hr & Hi' & Hk & Hz & _); [lia|lia|done|].
      exists [], s'. split; [exact (run_bind_ok _ (fun _ => mret []) _ _ _ Hr)|]. split; [done|].
      split; [|by eauto using keeps_token]. apply effect_keeps; [done|intros m z Hm; left; by apply Hz|done|done].
    + exists [], s. split; [|split; [done|split; [by apply effect_keeps; [done|left| |]|by auto]]].
      refine (run_bind_ok _ (fun _ => mret []) _ 0 _ _).
      unfold ns_refresh. by rewrite (run_bind_ok _ _ _ _ _ (get_ns_run s id i Hid)), Hp.
  - destruct Ha as [i Hid]. destruct (ns_verify_enable_run s id i b Hi Hid) as (s' & c & Hr & Hi' & Hk & Hz). exists [], s'.
    split; [exact (run_bind_ok _ (fun _ => mret []) _ _ _ Hr)|]. split; [done|]. split; [|by eauto using keeps_token].
    apply effect_keeps; [done|intros m z Hm; left; by apply Hz|done|done].
  - destruct Ha as [Hnn Hc]. destruct (nvme_set_ns_run s nn Hi Hnn Hc) as (s' & rc & Hr & Hi' & Hk & Hz). exists [], s'.
    split; [exact (run_bind_ok _ (fun _ => mret []) _ _ _ Hr)|]. split; [done|]. split; [|by eauto using keeps_token].
    apply effect_keeps; [done|intros m z Hm; left; by apply Hz|done|done].
Qed.

(** The main process starts: nothing is reserved, no namespace has a table. *)
Definition started (s0 : sys Mz) : Prop := exists z nss,
  (forall n, mz_lookup z n = None) /\ (forall id i, nss !! id = Some i -> id_ok id /\ ns_ok i /\ ns_crc i = None)
  /\ driver_init fresh_word 0 0 (mk_sys z ∅ nss ∅) = (Ok 0, s0).

(** Reserving a word and storing into it, as the main process does. *)
Lemma reserve_word (s : sys Mz) name w p s' : inv s ->
  name = DRIVER_IO_TOKEN_NAME \/ name = DRIVER_GLOBAL_CONFIG_NAME ->
  (p ← reserve name 8 (OWord fresh_word); put_word p w ;; mret p) s = (Ok p, s') ->
  exists a, p = Some a /\ inv s' /\ s_procs s' = s_procs s /\ s_nss s' = s_nss s
    /\ mz_lookup (s_zones s') name = Some a /\ s_objs s' !! a = Some (OWord w)
    /\ forall n, n <> name -> mz_lookup (s_zones s') n = mz_lookup (s_zones s) n.
Proof.
  intros Hi Hn Hrun. unfold reserve in Hrun. rewrite bind_assoc in Hrun.
  rewrite (run_bind_ok get _ s s s) in Hrun by done.
  destruct (mz_reserve name 8 (s_zones s)) as [[a|] z] eqn:Er; [|done].
  destruct (inv_reserve traddr s name 8 a z (OWord fresh_word) Hi Er Hn) as (Hi1 & Ha & Hother).
  rewrite bind_assoc in Hrun. set (s1 := mk_sys z _ _ _) in *. rewrite (run_bind_ok (put s1) _ s tt s1), bind_ret_l in Hrun by done.
  assert (Hw : s_objs s1 !! a = Some (OWord fresh_word)) by (cbn; by rewrite lookup_insert_eq).
  rewrite (run_bind_ok _ _ _ _ _ (put_word_run s1 a _ w Hw)) in Hrun. injection Hrun as <- <-.
  exists a. split; [done|]. split; [by eapply inv_obj|]. split_and!; try done. cbn. by rewrite lookup_insert_eq.
Qed.

(** The main process has both words, and there are no other zones. *)
Lemma started_state s0 : started s0 -> inv s0 /\ token_is s0 1 /\ ready s0 0
  /\ mz_lookup (s_zones s0) DRIVER_GLOBAL_CONFIG_NAME <> None
  /\ forall n, n <> DRIVER_IO_TOKEN_NAME -> n <> DRIVER_GLOBAL_CONFIG_NAME -> mz_lookup (s_zones s0) n = None.
Proof.
  intros (z & nss & Hz & Hnss & Hrun). set (s := mk_sys z ∅ nss ∅) in *.
  assert (Hi : inv s).
  { split; cbn; [intros n a|intros n m a|intros id i Hid|]; rewrite ?Hz; try done.
    destruct (Hnss id i Hid) as (H1 & H2 & H3). by rewrite H3. }
  unfold driver_init in Hrun. cbn [Z.ltb Z.compare] in Hrun.
  apply run_bind_inv in Hrun as ([] & s1 & Hc & Hrun). apply run_bind_inv in Hrun as ([] & s2 & Ht & [= <-]).
  unfold driver_init_config in Hc. rewrite (run_bind_ok (get_proc 0) _ s new_proc s) in Hc by done. cbn [primary Nat.eqb] in Hc.
  apply run_bind_inv in Hc as (b & s3 & Hb & Hc). unfold c_assert at 1 in Hb. cbn [bool_decide] in Hb.
  rewrite bool_decide_eq_true_2, bind_ret_l in Hb by done.
  apply reserve_word in Hb as (b' & -> & Hi3 & Hp3 & _ & Hb & _ & Hz3); [|done|by right].
  injection Hc as <-. set (pr := mk_proc _ _ _) in *. set (s1 := set_proc 0 pr s3) in *.
  assert (Hi1 : inv s1) by (apply inv_put_proc; [done..|by intros a [= <-]]).
  unfold driver_init_token in Ht. rewrite (run_bind_ok (get_proc 0) _ s1 pr s1) in Ht
    by (unfold get_proc, gets, proc_of; cbn; by rewrite lookup_insert_eq). cbn [primary Nat.eqb] in Ht.
  apply run_bind_inv in Ht as (a & s4 & Ha & Ht). unfold c_assert at 1 in Ha.
  rewrite bool_decide_eq_true_2, bind_ret_l in Ha by done.
  apply reserve_word in Ha as (a' & -> & Hi4 & Hp4 & _ & Ha & Hw & Hz4); [|done|by left]. injection Ht as <-.
  assert (Hb4 : mz_lookup (s_zones s4) DRIVER_GLOBAL_CONFIG_NAME = Some b') by (by rewrite Hz4).
  split; [|split; [by exists a'|split; [unfold ready; by rewrite proc_of_eq|split; [cbn; by rewrite Hb4|]]]].
  - apply inv_put_proc; [done|by intros x [= <-]|]. by intros x [= <-].
  - intros n Hn1 Hn2. cbn. rewrite Hz4 by done. change (mz_lookup (s_zones s3) n = None). by rewrite Hz3.
Qed.

Lemma started_inv s0 : started s0 -> inv s0 /\ token_is s0 1.
Proof. intros Hs. by destruct (started_state s0 Hs) as (? & ? & _). Qed.
(** A run all of whose operations are allowed where they happen. *)
Fixpoint allowed_all (l : list op) (s : sys Mz) : Prop :=
  match l with
  | [] => True
  | o :: l' => allowed o s /\ match run_op o s with
                               | (Ok _, s') => allowed_all l' s'
                               | (Err _, _) => True
                               end
  end.

Lemma allowed_cons o l (s : sys Mz) ds s' : allowed o s -> run_op o s = (Ok ds, s') -> allowed_all l s' ->
  allowed_all (o :: l) s.
Proof. intros Ha Hr Hl. split; [done|]. by rewrite Hr. Qed.

(** The blocks a run takes tokens for. *)
Fixpoint taken (l : list op) : Z :=
  match l with
  | [] => 0
  | OpToken _ n :: l' => Z.max 0 n + taken l'
  | _ :: l' => taken l'
  end.

Lemma taken_nonneg l : 0 <= taken l.
Proof. induction l as [|[] l IH]; cbn [taken]; lia. Qed.

(** Ranges one behind the other, the first from [w] on. *)
Fixpoint ascending (w : Z) (ds : list (Z * Z)) : Prop :=
  match ds with
  | [] => True
  | (t, n) :: ds' => w <= t /\ 0 <= n /\ ascending (t + n) ds'
  end.

Lemma ascending_from ds : forall w i t n, ascending w ds -> ds !! i = Some (t, n) -> w <= t.
Proof.
  induction ds as [|[t0 n0] ds IH]; intros w i t n Ha Hi; [done|]. destruct Ha as (H1 & H2 & H3).
  destruct i as [|i]; cbn in Hi; [by injection Hi as <- <-|]. specialize (IH _ _ _ _ H3 Hi). lia.
Qed.

Lemma ascending_apart ds : forall w i j t n t' n', ascending w ds -> (i < j)%nat ->
  ds !! i = Some (t, n) -> ds !! j = Some (t', n') -> t + n <= t'.
Proof.
  induction ds as [|[t0 n0] ds IH]; intros w i j t n t' n' Ha Hij Hi Hj; [done|]. destruct Ha as (H1 & H2 & H3).
  destruct j as [|j]; [lia|]. cbn in Hj. destruct i as [|i]; cbn in Hi.
  - injection Hi as <- <-. by eapply ascending_from.
  - eapply (IH _ i j); [done|lia|done|done].
Qed.

Lemma run_ops_ok l : forall (s : sys Mz) w, inv s -> token_is s w -> 0 <= w -> w + taken l < 2 ^ 64 ->
  allowed_all l s -> exists ds s', run_ops l s = (Ok ds, s') /\ inv s' /\ ascending w ds.
Proof.
  induction l as [|o l IH]; intros s w Hi Hw Hw0 Hb Ha; [by exists [], s|]. destruct Ha as [Ha Hrest].
  destruct (run_op_ok s o Hi Ha) as (ds & s1 & Hr & Hi1 & _ & Hd). rewrite Hr in Hrest. specialize (Hd w Hw).
  pose proof (taken_nonneg l) as Hl.
  assert (exists w', token_is s1 w' /\ 0 <= w' /\ w' + taken l < 2 ^ 64
            /\ forall ds', ascending w' ds' -> ascending w (ds ++ ds')) as (w' & Hw' & H1 & H2 & H3).
  { destruct o; cbn [taken] in Hb; try (destruct Hd as [-> Hd]; exists w; split_and!; by auto).
    destruct Hd as [-> Hd]. destruct Ha as [_ Hn]. rewrite wrap_small in Hd by lia. exists (w + n).
    split; [done|]. split; [lia|]. split; [lia|]. intros ds' Hds. cbn. split; [lia|]. by split. }
  destruct (IH s1 w' Hi1 Hw' H1 H2 Hrest) as (ds' & s' & Hr' & Hi' & Hasc).
  exists (ds ++ ds'), s'. split; [|by auto]. cbn [Shared.run_ops]. rewrite (run_bind_ok _ _ _ _ _ Hr).
  by rewrite (run_bind_ok _ _ _ _ _ Hr').
Qed.

(** C12. Every block that is written gets its own token: however the main
    process and the workers interleave, the ranges of tokens they take never
    overlap, and token 0 is not used, until 2^64 blocks have been written. *)
Theorem tokens_unique s0 l : started s0 -> allowed_all l s0 -> taken l < 2 ^ 64 - 1 ->
  exists ds s, run_ops l s0 = (Ok ds, s) /\ forall i j t n t' n', (i < j)%nat ->
    ds !! i = Some (t, n) -> ds !! j = Some (t', n') -> 0 < t /\ t + n <= t'.
Proof.
  intros Hs Ha Ht. destruct (started_inv s0 Hs) as [Hi Hw].
  destruct (run_ops_ok l s0 1 Hi Hw) as (ds & s & Hr & Hi' & Hasc); [lia|lia|done|].
  exists ds, s. split; [done|]. intros i j t n t' n' Hij H1 H2. split.
  - apply (ascending_from _ _ _ _ _ Hasc) in H1. lia.
  - by eapply ascending_apart.
Qed.

(** [ns_refresh] after a format: a namespace with a table is identified
    again and gets a table of the same size, with verification as it was and
    every block unmapped, in the main process as in a worker; a namespace
    without a table is not identified again: nothing changes. *)
Theorem refresh_clears s0 l pid id : started s0 -> allowed_all (l ++ [OpRefresh pid id]) s0 -> taken l < 2 ^ 64 - 1 ->
  exists ds s i, run_ops l s0 = (Ok ds, s) /\ s_nss s !! id = Some i
    /\ match ns_crc i with
        | None => ns_refresh traddr fresh_table construct pid id s = (Ok 0, s)
        | Some p => exists t s' p', s_objs s !! p = Some (OTable t)
            /\ ns_refresh traddr fresh_table construct pid id s = (Ok 0, s')
            /\ s_nss s' !! id = Some (with_table (ns_table_size i) (Some p')
                 (construct id (if primary pid then with_table (ns_table_size i) None i else i)))
            /\ s_objs s' !! p' = Some (OTable (mk_crc (ns_table_size i) (ct_enabled t)
                                                (replicate (Z.to_nat (ns_table_size i / 4)) unmapped)))
        end.
Proof.
  intros Hs Ha Ht. destruct (started_inv s0 Hs) as [Hi Hw].
  assert (Hsplit : allowed_all l s0 /\ forall ds s, run_ops l s0 = (Ok ds, s) -> allowed (OpRefresh pid id) s).
  { clear Hs Ht Hi Hw. revert s0 Ha. induction l as [|o l IH]; intros s0 Ha.
    - split; [done|]. intros ds s [= <- <-]. apply Ha.
    - destruct Ha as [Ha Hrest]. cbn [allowed_all Shared.run_ops]. destruct (run_op o s0) as [[ds1|e] s1] eqn:Er.
      + destruct (IH s1 Hrest) as [H1 H2]. split; [done|]. intros ds s Hr.
        rewrite (run_bind_ok _ _ _ _ _ Er) in Hr. apply run_bind_inv in Hr as (ds2 & s2 & Hr & [= <- <-]). by eapply H2.
      + split; [done|]. intros ds s Hr. by rewrite (run_bind_err _ _ _ _ _ Er) in Hr. }
  destruct Hsplit as [Hal Hlast]. destruct (run_ops_ok l s0 1 Hi Hw) as (ds & s & Hr & Hi' & _); [lia|lia|done|].
  destruct (Hlast ds s Hr) as (i & Hid & Hroom). exists ds, s, i. split; [done|]. split; [done|].
  destruct (ns_crc i) as [p|] eqn:Hp.
  - destruct (v_nss _ _ Hi' _ _ Hid) as (_ & _ & H3). destruct (H3 p Hp) as (_ & t & Ht' & _).
    destruct Hroom as [Hsize Hroom]; [done|].
    destruct (ns_refresh_run s pid id i p t Hi' Hid Hp Ht') as (s' & p' & H4 & _ & _ & _ & H5 & _ & H6); [lia|lia|done|].
    exists t, s', p'. split; [done|]. split; [done|]. by split.
  - unfold ns_refresh. by rewrite (run_bind_ok _ _ _ _ _ (get_ns_run s id i Hid)), Hp.
Qed.
End Runs.

(** ** Witnesses *)

(** Zones as a list of names and addresses, with 64 KiB of room for each. *)
Fixpoint zl_lookup (l : list (string * positive)) (name : string) : option positive :=
  match l with
  | [] => None
  | (n, p) :: l' => if decide (name = n) then Some p else zl_lookup l' name
  end.
Definition zl_next (l : list (string * positive)) : positive := Pos.succ (foldr Pos.max 1%positive (snd <$> l)).
Fixpoint zl_free (name : string) (l : list (string * positive)) : list (string * positive) :=
  match l with
  | [] => []
  | (n, p) :: l' => if decide (name = n) then zl_free name l' else (n, p) :: zl_free name l'
  end.

#[local] Instance zone_list : Memzone (list (string * positive)) := {
  mz_reserve name size l :=
    if bool_decide (zl_lookup l name = None) && (size <=? 65536) then (Some (zl_next l), (name, zl_next l) :: l)
    else (None, l);
  mz_lookup := zl_lookup;
  mz_free := zl_free
}.

Lemma zl_below l n p : zl_lookup l n = Some p -> (p < zl_next l)%positive.
Proof.
  unfold zl_next. induction l as [|[m q] l IH]; [done|]. cbn. case_decide.
  - intros [= ->]. lia.
  - intros Hp. specialize (IH Hp). lia.
Qed.

#[local] Instance zone_list_ok : MemzoneOk (list (string * positive)).
Proof.
  split; cbn.
  - intros name size l p l'. case_bool_decide as Hl; [|done]. destruct (size <=? 65536); [|done]. intros [= <- <-].
    split; [done|]. split; [|done]. intros n Hn. apply zl_below in Hn. lia.
  - intros name size l l'. by destruct (_ && _); intros [= <-].
  - intros name l n. induction l as [|[m p] l IH]; cbn; [by case_decide|].
    destruct (decide (name = m)) as [->|Hm]; cbn; rewrite IH; repeat case_decide; congruence.
Qed.

(** A controller with one namespace of eight blocks. *)
Definition one_ns : gmap Z nsinfo := {[ 1 := mk_ns 0x1234 8 512 0 None ]}.
Definition zero_table (n : Z) : crc_table := mk_crc 0 false (replicate (Z.to_nat (n / 4)) 0).
Definition same_ns (id : Z) (i : nsinfo) : nsinfo := i.
Definition same_nss (m : gmap Z nsinfo) : Z * gmap Z nsinfo := (0, m).

Lemma zero_table_length n : 0 <= n -> Z.of_nat (length (ct_data (zero_table n))) = n / 4.
Proof. intros Hn. cbn. rewrite length_replicate. pose proof (Z.div_pos n 4). lia. Qed.

Lemma same_ns_ok id i : ns_ok i -> ns_ok (same_ns id i) /\ ns_eui64 (same_ns id i) = ns_eui64 i
  /\ ns_table_size (same_ns id i) = ns_table_size i /\ ns_crc (same_ns id i) = ns_crc i.
Proof. done. Qed.

Definition main_start : sys (list (string * positive)) :=
  snd (driver_init 7 0 0 (mk_sys [] ∅ one_ns ∅)).

(** The main process creates the namespace, a worker joins, both write, the
    main process reads the configuration the worker could have set. *)
Definition both_write : list op :=
  [OpNsInit 0 1 0; OpInit 1; OpNsInit 1 1 0; OpVerify 1 true; OpToken 0 8; OpToken 1 4; OpConfig 0 16;
   OpRead 1; OpToken 0 1].

Lemma main_started : started 7 main_start.
Proof.
  exists [], one_ns. split; [done|]. split; [|by vm_compute].
  unfold one_ns. intros id i [<- <-]%lookup_singleton_Some. by split_and!.
Qed.

Lemma both_write_allowed :
  allowed_all "0000:01:00.0" 7 zero_table same_ns same_nss (both_write ++ [OpRefresh 0 1]) main_start.
Proof.
  cbn [both_write app].
  eapply allowed_cons; [|by vm_compute|].
  { eexists. split; [done|]. split; [by vm_compute|]. by split. }
  eapply allowed_cons; [by vm_compute|by vm_compute|].
  eapply allowed_cons; [|by vm_compute|].
  { eexists. split; [done|]. split; [by vm_compute|]. split; [done|]. intros _ a t Ha Ht.
    vm_compute in Ha. injection Ha as <-. vm_compute in Ht. by injection Ht as <-. }
  eapply allowed_cons; [by eexists; vm_compute|by vm_compute|].
  do 5 (eapply allowed_cons; [by vm_compute|by vm_compute|]).
  split; [|by vm_compute].
  eexists. split; [by vm_compute|]. intros _. split; [by vm_compute|]. by vm_compute.
Qed.

Abbreviation run_one := (run_ops "0000:01:00.0" 7 zero_table same_ns same_nss).

Lemma both_write_only : allowed_all "0000:01:00.0" 7 zero_table same_ns same_nss both_write main_start.
Proof.
  assert (H : forall l l' s, allowed_all "0000:01:00.0" 7 zero_table same_ns same_nss (l ++ l') s ->
    allowed_all "0000:01:00.0" 7 zero_table same_ns same_nss l s).
  { induction l as [|o l IH]; intros l' s Ha; [done|]. destruct Ha as [H1 H2]. split; [done|].
    destruct (run_op _ _ _ _ _ o s) as [[ds|e] s']; [by eapply IH|done]. }
  exact (H _ _ _ both_write_allowed).
Qed.

Lemma tokens_unique_witness : started 7 main_start /\ exists ds s,
  run_one both_write main_start = (Ok ds, s) /\ ds = [(1, 8); (9, 4); (13, 1)].
Proof.
  split; [apply main_started|].
  destruct (tokens_unique "0000:01:00.0" ltac:(vm_compute; lia) 7 zero_table zero_table_length same_ns same_ns_ok
              same_nss main_start both_write main_started both_write_only ltac:(by vm_compute)) as (ds & s & Hr & _).
  exists ds, s. split; [exact Hr|]. vm_compute in Hr. by injection Hr as <- _.
Defined.

Lemma refresh_clears_witness : started 7 main_start /\ exists ds s i,
  run_one both_write main_start = (Ok ds, s) /\ s_nss s !! 1 = Some i /\ ns_crc i <> None.
Proof.
  split; [apply main_started|].
  destruct (refresh_clears "0000:01:00.0" ltac:(vm_compute; lia) 7 zero_table zero_table_length same_ns same_ns_ok
              same_nss main_start both_write 0 1 main_started both_write_allowed ltac:(by vm_compute))
    as (ds & s & i & Hr & Hi & _).
  exists ds, s, i. split; [exact Hr|]. split; [exact Hi|]. vm_compute in Hr. injection Hr as <- <-.
  vm_compute in Hi. by injection Hi as <-.
Defined.
