(* ===== verification/Ledger.v ===== *)
(** * Ledger: what the callers of the shared memory keep to

    The functions of Shared.v assert that pointers are set and follow them, so
    they rely on their callers (src/src/driver_wrap.pyx).  What the callers keep to
    is said here without the zones and the pointers: a ledger holds the
    processes that have started and, for the tables that the main process has
    created and not closed, the size it asked for.  An operation is permitted by
    the ledger and by what SPDK knows of the namespaces (the EUI64 and the
    number of blocks).  Keeping to it is enough for every assertion and every
    pointer. *)
From Stdlib Require Import ZArith Lia ZifyBool Ascii String.
From stdpp Require Import base list numbers option gmap strings.
From S2P Require Import Prelude PyInt Text Pcie Crc Shared.
Local Open Scope Z_scope.

Record ledger := mk_ledger {
  l_running : gset nat;            (* processes between driver_init and driver_fini *)
  l_sizes : gmap string Z          (* name and size of the tables of the main process *)
}.

(** The main process has started. *)
Definition main_only : ledger := mk_ledger {[ 0%nat ]} ∅.

Section Discipline.
(** The controller's address and its number of namespaces; how large a zone may
    be that is reserved anew under the name of one just freed. *)
Variable traddr : string.
Variable count memory : Z.

(** A started worker, or the main process; the main process creates a namespace
    that it has not got, and a worker joins with the number of blocks that the
    main process asked for. *)
Definition permitted (g : ledger) (nss : gmap Z nsinfo) (o : op) : Prop :=
  match o with
  | OpInit pid | OpExit pid => pid <> O
  | OpConfig pid _ | OpRead pid => pid ∈ l_running g
  | OpToken pid n => pid ∈ l_running g /\ 0 <= n
  | OpNsInit pid id nlba_verify => exists i, 0 < id /\ nss !! id = Some i
      /\ forall size, l_sizes g !! uname traddr i id = Some size -> pid <> O /\ size = 4 * nsze i nlba_verify
  | OpNsFini _ id | OpVerify id _ => is_Some (nss !! id)
  | OpRefresh pid id => exists i, nss !! id = Some i
      /\ (pid = O -> forall size, l_sizes g !! uname traddr i id = Some size -> size + 16 <= memory)
  | OpSetNs nn => nn = count
  end.

Definition book (g : ledger) (nss : gmap Z nsinfo) (o : op) : ledger :=
  match o with
  | OpInit pid => mk_ledger ({[ pid ]} ∪ l_running g) (l_sizes g)
  | OpExit pid => mk_ledger (l_running g ∖ {[ pid ]}) (l_sizes g)
  | OpNsInit O id nlba_verify =>
      match nss !! id with
      | Some i => mk_ledger (l_running g) (<[uname traddr i id := 4 * nsze i nlba_verify]> (l_sizes g))
      | None => g
      end
  | OpNsFini O id =>
      match nss !! id with
      | Some i => mk_ledger (l_running g) (delete (uname traddr i id) (l_sizes g))
      | None => g
      end
  | _ => g
  end.

Context {Mz : Type} `{MemzoneOk Mz}.
Context (traddr_short : (String.length traddr <= 19)%nat).
Variable fresh_word : Z.
Variable fresh_table : Z -> crc_table.
Context (fresh_length : forall n, 0 <= n -> Z.of_nat (length (ct_data (fresh_table n))) = n / 4).
Variable construct : Z -> nsinfo -> nsinfo.
Context (construct_ok : forall id i, ns_ok i -> ns_ok (construct id i)
  /\ ns_eui64 (construct id i) = ns_eui64 i /\ ns_table_size (construct id i) = ns_table_size i
  /\ ns_crc (construct id i) = ns_crc i).
Variable construct_namespaces : gmap Z nsinfo -> Z * gmap Z nsinfo.
Context (counted : 0 <= count < 2 ^ 32).
Context (namespaces_ok : forall m, constructed construct_namespaces count m).
Context (reserve_again : forall (z : Mz) name size, size <= memory -> mz_lookup z name <> None ->
  fst (mz_reserve name size (mz_free name z)) <> None).

Abbreviation run_op := (run_op traddr fresh_word fresh_table construct construct_namespaces).
Abbreviation run_ops := (run_ops traddr fresh_word fresh_table construct construct_namespaces).
Abbreviation allowed := (allowed traddr construct_namespaces).
Abbreviation allowed_all := (allowed_all traddr fresh_word fresh_table construct construct_namespaces).
Abbreviation inv := (inv traddr).

(** Callers that keep to the ledger, operation by operation. *)
Fixpoint follows (g : ledger) (l : list op) (s : sys Mz) : Prop :=
  match l with
  | [] => True
  | o :: l' => permitted g (s_nss s) o /\ match run_op o s with
                                           | (Ok _, s') => follows (book g (s_nss s) o) l' s'
                                           | (Err _, _) => True
                                           end
  end.

Lemma follows_cons g o l s ds s' : permitted g (s_nss s) o -> run_op o s = (Ok ds, s') ->
  follows (book g (s_nss s) o) l s' -> follows g (o :: l) s.
Proof. intros Hp Hr Hl. split; [done|]. by rewrite Hr. Qed.

(** The ledger at the end. *)
Fixpoint balance (g : ledger) (l : list op) (s : sys Mz) : ledger :=
  match l with
  | [] => g
  | o :: l' => balance (book g (s_nss s) o) l' (snd (run_op o s))
  end.

(** The ledger is true of the zones. *)
Record linked (g : ledger) (s : sys Mz) : Prop := {
  lk_running : forall pid, pid ∈ l_running g -> ready s pid;
  lk_words : mz_lookup (s_zones s) DRIVER_IO_TOKEN_NAME <> None
             /\ mz_lookup (s_zones s) DRIVER_GLOBAL_CONFIG_NAME <> None;
  lk_sizes : forall n z, size_of s n = Some z -> l_sizes g !! n = Some z;
  lk_range : forall n z, l_sizes g !! n = Some z -> 0 < z < 2 ^ 64 - 16
}.

Lemma size_of_table (s : sys Mz) n a t : mz_lookup (s_zones s) n = Some a -> s_objs s !! a = Some (OTable t) ->
  size_of s n = Some (ct_size t).
Proof. intros Ha Ht. unfold size_of. by rewrite Ha, Ht. Qed.

(** A namespace that points to a table is in the ledger. *)
Lemma linked_table g s id i a : inv s -> linked g s -> s_nss s !! id = Some i -> ns_crc i = Some a ->
  mz_lookup (s_zones s) (uname traddr i id) = Some a /\ l_sizes g !! uname traddr i id = Some (ns_table_size i).
Proof.
  intros Hi Hl Hid Ha. destruct (v_nss _ _ Hi _ _ Hid) as (_ & _ & H3). destruct (H3 a Ha) as (Hz & t & Ht & <-).
  split; [done|]. apply (lk_sizes _ _ Hl). by eapply size_of_table.
Qed.

Lemma permitted_allowed g s o : inv s -> linked g s -> permitted g (s_nss s) o -> allowed o s.
Proof.
  intros Hi Hl Hp. destruct o as [pid|pid|pid w|pid|pid n|pid id nlba|pid id|pid id|id b|nn]; cbn in *; try done.
  - split; [done|]. apply Hl.
  - by apply (lk_running _ _ Hl).
  - by apply (lk_running _ _ Hl).
  - destruct Hp as [Hp Hn]. split; [by apply (lk_running _ _ Hl)|done].
  - destruct Hp as (i & Hpos & Hid & Hs). exists i. split; [done|]. split; [done|]. split.
    + intros ->. destruct (ns_crc i) as [a|] eqn:Ea; [|done].
      destruct (linked_table g s id i a Hi Hl Hid Ea) as [_ E]. by destruct (Hs _ E).
    + intros _ a t Ha Ht. apply (Hs (ct_size t)). apply (lk_sizes _ _ Hl). by eapply size_of_table.
  - destruct Hp as (i & Hid & Hm). exists i. split; [done|]. intros Hc.
    destruct (ns_crc i) as [a|] eqn:Ea; [|done]. destruct (linked_table g s id i a Hi Hl Hid Ea) as [Hz E].
    pose proof (lk_range _ _ Hl _ _ E). split; [done|]. intros Hpid. specialize (Hm Hpid _ E).
    unfold room. rewrite wrap_small by lia. apply reserve_again; [done|congruence].
  - by subst nn.
Qed.

Lemma nsze_range i nlba : ns_ok i -> 0 < 4 * nsze i nlba < 2 ^ 64 - 16.
Proof. intros [H1 H2]. unfold nsze. destruct (Z.ltb_spec 0 nlba); lia. Qed.

(** The ledger stays true. *)
Lemma book_linked g s o s' : inv s -> linked g s -> permitted g (s_nss s) o -> effect traddr o s s' ->
  linked (book g (s_nss s) o) s'.
Proof.
  intros Hi Hl Hp [Hw Hz Hc Hr Hn].
  assert (Hold : forall n z, size_of s n = Some z -> l_sizes g !! n = Some z) by apply Hl.
  assert (Hwords : mz_lookup (s_zones s') DRIVER_IO_TOKEN_NAME <> None
             /\ mz_lookup (s_zones s') DRIVER_GLOBAL_CONFIG_NAME <> None).
  { destruct (lk_words _ _ Hl) as [H1 H2]. split; apply Hw; auto. }
  assert (Hsame : (forall pid, pid ∈ l_running g -> o <> OpExit pid) -> (forall id nlba, o <> OpNsInit 0 id nlba) -> linked g s').
  { intros He Ho. split; [|done| |apply Hl].
    - intros pid Hpid. apply Hr; [by apply (lk_running _ _ Hl)|by apply He].
    - intros n z [E|(id & nlba & i & E & _)]%Hz; [by apply Hold|by destruct (Ho id nlba)]. }
  destruct o as [pid|pid|pid w|pid|pid n|[|pid] id nlba|[|pid] id|pid id|id b|nn]; cbn [book] in *; try by apply Hsame.
  - split; [|done|intros n z [E|(? & ? & ? & ? & _)]%Hz; [by apply Hold|done]|apply Hl]. cbn. intros k Hk.
    apply elem_of_union in Hk as [->%elem_of_singleton|Hk]; [by apply Hn|]. apply Hr; [by apply (lk_running _ _ Hl)|done].
  - split; [|done|intros n z [E|(? & ? & ? & ? & _)]%Hz; [by apply Hold|done]|apply Hl]. cbn. intros k Hk.
    apply elem_of_difference in Hk as [Hk Hne]. apply Hr; [by apply (lk_running _ _ Hl)|].
    intros [= ->]. by apply Hne, elem_of_singleton.
  - destruct Hp as (i & Hpos & Hid & Hs). rewrite Hid.
    split; [intros pid Hpid; apply Hr; [by apply (lk_running _ _ Hl)|done]|done| |]; cbn; intros n z.
    + intros [E|(id' & nlba' & i' & [= <- <-] & Hid' & -> & ->)]%Hz.
      * apply Hold in E. rewrite lookup_insert_ne; [done|]. intros <-. by destruct (Hs _ E).
      * rewrite Hid in Hid'. injection Hid' as <-. by rewrite lookup_insert_eq.
    + intros [[<- <-]|[_ E]]%lookup_insert_Some; [|by eapply (lk_range _ _ Hl)].
      destruct (v_nss _ _ Hi _ _ Hid) as (_ & Hok & _). by apply nsze_range.
  - destruct Hp as [i Hid]. rewrite Hid.
    split; [intros pid Hpid; apply Hr; [by apply (lk_running _ _ Hl)|done]|done| |]; cbn; intros n z.
    + intros E. destruct (decide (n = uname traddr i id)) as [->|Hne]; [by rewrite (Hc _ _ eq_refl Hid) in E|].
      rewrite lookup_delete_ne by done. apply Hz in E as [E|(? & ? & ? & ? & _)]; [by apply Hold|done].
    + intros [_ E]%lookup_delete_Some. by eapply (lk_range _ _ Hl).
Qed.

Lemma follows_linked l : forall g s, inv s -> linked g s -> follows g l s ->
  allowed_all l s /\ forall ds s', run_ops l s = (Ok ds, s') -> linked (balance g l s) s'.
Proof.
  induction l as [|o l IH]; intros g s Hi Hl Hf; [split; [done|]; by intros ds s' [= _ <-]|].
  destruct Hf as [Hp Hf]. pose proof (permitted_allowed g s o Hi Hl Hp) as Ha.
  destruct (run_op_ok traddr traddr_short fresh_word fresh_table fresh_length construct construct_ok construct_namespaces s o Hi Ha)
    as (ds1 & s1 & Hr & Hi1 & He & _). rewrite Hr in Hf.
  destruct (IH _ s1 Hi1 (book_linked g s o s1 Hi Hl Hp He) Hf) as [H1 H2]. split; [by eapply allowed_cons|].
  intros ds s' Hrun. cbn [Shared.run_ops balance] in *. rewrite Hr. rewrite (run_bind_ok _ _ _ _ _ Hr) in Hrun.
  apply run_bind_inv in Hrun as (ds2 & s2 & Hrun & [= _ <-]). by eapply H2.
Qed.

Lemma started_linked s0 : started fresh_word s0 -> linked main_only s0.
Proof.
  intros Hs. destruct (started_state traddr fresh_word s0 Hs) as (Hi & (a & Ha & _) & Hr & Hc & Hz). split; cbn.
  - by intros pid ->%elem_of_singleton.
  - split; [by rewrite Ha|done].
  - intros n z Hn. unfold size_of in Hn. destruct (decide (n = DRIVER_IO_TOKEN_NAME \/ n = DRIVER_GLOBAL_CONFIG_NAME)) as [E|E].
    + destruct (mz_lookup (s_zones s0) n) as [b|] eqn:Eb; [|done].
      destruct (word_at traddr s0 n b Hi E Eb) as [w Hw]. by rewrite Hw in Hn.
    + rewrite Hz in Hn by tauto. done.
  - done.
Qed.

(** C11. The memory the processes share is used safely: after the main process
    has started, let it and any workers interleave as they like, with callers
    that use a process between its start and its end, create a namespace in the
    main process only while the table of that name is not open there, join it
    in a worker with the number of blocks the main process asked for, and
    refresh a table that fits the memory again.  Then every operation returns:
    no pointer that is NULL or freed is followed and no assertion fails; and at
    the end every table a namespace points to is there, with the size that the
    main process asked for, and no two namespaces share one. *)
Theorem shared_memory_safe s0 l : started fresh_word s0 -> follows main_only l s0 -> taken l < 2 ^ 64 - 1 ->
  exists ds s, run_ops l s0 = (Ok ds, s)
    /\ forall id i a, s_nss s !! id = Some i -> ns_crc i = Some a ->
         (exists t, s_objs s !! a = Some (OTable t) /\ ct_size t = ns_table_size i
            /\ ct_size t = 4 * Z.of_nat (length (ct_data t))
            /\ l_sizes (balance main_only l s0) !! uname traddr i id = Some (ct_size t))
         /\ forall id' i', s_nss s !! id' = Some i' -> ns_crc i' = Some a -> id' = id.
Proof.
  intros Hs Hf Ht. destruct (started_inv traddr fresh_word s0 Hs) as [Hi Hw].
  destruct (follows_linked l main_only s0 Hi (started_linked s0 Hs) Hf) as [Ha Hlast].
  destruct (run_ops_ok traddr traddr_short fresh_word fresh_table fresh_length construct construct_ok construct_namespaces l s0 1 Hi Hw)
    as (ds & s & Hr & Hi' & _); [lia|lia|done|].
  exists ds, s. split; [done|]. intros id i a Hid Ha'. destruct (v_nss _ _ Hi' _ _ Hid) as (Hok & _ & H3).
  destruct (H3 a Ha') as (Hz & t & H4 & H5). destruct (uname_fresh traddr id (ns_eui64 i)) as [Hf1 Hf2].
  destruct (table_at traddr s _ a Hi' Hf1 Hf2 Hz) as (t' & H6 & H7 & _). rewrite H4 in H6. injection H6 as <-.
  split.
  - exists t. split_and!; try done. rewrite H5. by apply (linked_table _ s id i a Hi' (Hlast _ _ Hr)).
  - intros id' i' Hid' Ha''. destruct (v_nss _ _ Hi' _ _ Hid') as (Hok' & _ & H8).
    destruct (H8 a Ha'') as (Hz' & _). pose proof (v_inj _ _ Hi' _ _ _ Hz' Hz) as E. by eapply uname_inj.
Qed.
End Discipline.

(** ** Witnesses *)
#[local] Existing Instance zone_list.
#[local] Existing Instance zone_list_ok.

(** The controller's one namespace is allocated when it is missing. *)
Definition one_ns_again (m : gmap Z nsinfo) : Z * gmap Z nsinfo :=
  (0, match m !! 1 with Some _ => m | None => <[1 := mk_ns 0x1234 8 512 0 None]> m end).

Lemma one_ns_again_ok m : constructed one_ns_again 1 m.
Proof.
  unfold constructed, one_ns_again. destruct (m !! 1) as [i|] eqn:E; split.
  - intros id j Hj. by left.
  - intros _ id Hid. replace id with 1 by lia. by exists i.
  - intros id j [[<- <-]|[_ Hj]]%lookup_insert_Some; [|by left]. right. by split_and!.
  - intros _ id Hid. replace id with 1 by lia. rewrite lookup_insert_eq. by eexists.
Qed.

Lemma zone_again (z : list (string * positive)) name size : size <= 65536 -> mz_lookup z name <> None ->
  fst (mz_reserve name size (mz_free name z)) <> None.
Proof.
  intros Hs _. cbn. pose proof (mz_free_lookup name z name) as Hf. cbn in Hf. rewrite Hf, decide_True by done.
  rewrite bool_decide_eq_true_2 by done. cbn. by destruct (Z.leb_spec size 65536); [|lia].
Qed.

Definition refreshed : list op :=
  [OpNsInit 0 1 0; OpInit 1; OpNsInit 1 1 0; OpVerify 1 true; OpToken 1 4; OpRefresh 0 1; OpSetNs 1; OpExit 1].

Abbreviation run_all := (run_ops "0000:01:00.0" 7 zero_table same_ns one_ns_again).

Lemma refreshed_follows : follows "0000:01:00.0" 1 65536 7 zero_table same_ns one_ns_again main_only refreshed main_start.
Proof.
  unfold refreshed. eapply follows_cons; [|by vm_compute|].
  { eexists. split; [done|]. split; [by vm_compute|]. intros size Hs. by vm_compute in Hs. }
  eapply follows_cons; [done|by vm_compute|].
  eapply follows_cons; [|by vm_compute|].
  { eexists. split; [done|]. split; [by vm_compute|]. intros size Hs. vm_compute in Hs. injection Hs as <-. by vm_compute. }
  eapply follows_cons; [by eexists; vm_compute|by vm_compute|].
  eapply follows_cons; [split; [apply (bool_decide_eq_true_1 _); by vm_compute|done]|by vm_compute|].
  eapply follows_cons; [|by vm_compute|].
  { eexists. split; [by vm_compute|]. intros _ size Hs. vm_compute in Hs. injection Hs as <-. by vm_compute. }
  eapply follows_cons; [done|by vm_compute|]. eapply follows_cons; [done|by vm_compute|]. done.
Qed.

Lemma shared_memory_safe_witness : started 7 main_start /\ exists ds s,
  run_all refreshed main_start = (Ok ds, s) /\ (exists i, s_nss s !! 1 = Some i /\ ns_crc i <> None).
Proof.
  split; [apply main_started|].
  destruct (shared_memory_safe "0000:01:00.0" 1 65536 ltac:(vm_compute; lia) 7 zero_table zero_table_length same_ns same_ns_ok
              one_ns_again ltac:(lia) one_ns_again_ok zone_again main_start refreshed main_started refreshed_follows
              ltac:(by vm_compute)) as (ds & s & Hr & _).
  exists ds, s. split; [exact Hr|]. vm_compute in Hr. injection Hr as <- <-. eexists. split; [by vm_compute|done].
Defined.

(** ** A format to more blocks *)

(** The namespace has 16 blocks after it is identified again. *)
Definition more_blocks (id : Z) (i : nsinfo) : nsinfo := mk_ns (ns_eui64 i) 16 512 (ns_table_size i) (ns_crc i).

(** The main process refreshes the namespace and keeps the table of 8 words.  A
    worker that then opens it, with no number of blocks to verify as the main
    process did, gives the table the size of 16 words: both processes read and
    write behind it from then on. *)
Example worker_after_format : exists ds s t,
  run_ops "0000:01:00.0" 7 zero_table more_blocks same_nss [OpNsInit 0 1 0; OpRefresh 0 1; OpInit 1; OpNsInit 1 1 0] main_start
    = (Ok ds, s)
  /\ (exists i a, s_nss s !! 1 = Some i /\ ns_crc i = Some a /\ s_objs s !! a = Some (OTable t) /\ ns_table_size i = ct_size t)
  /\ ct_size t = 4 * 16 /\ length (ct_data t) = 8%nat.
Proof.
  do 3 eexists. split; [vm_compute; reflexivity|]. split.
  - do 2 eexists. split; [vm_compute; reflexivity|]. split; [reflexivity|]. split; [vm_compute; reflexivity|reflexivity].
  - by vm_compute.
Qed.
