(* ===== verification/Lifecycle.v ===== *)
(** * Lifecycle: the objects of a script and the handles behind them

    [Pcie], [Controller], [Qpair] and [Namespace] objects of
    src/src/driver_wrap.pyx hold pointers of SPDK: [Pcie] the controller,
    [Qpair] an I/O queue pair, [Namespace] a namespace.  This file models how
    they are made, reset and given back, with [nvme_init], [nvme_fini],
    [qpair_create] and [qpair_free] of src/src/driver.c.  The objects are kept
    in lists, so that several of them can share a [Pcie], as scripts make them;
    a use of a handle that SPDK has given back is an access out of bounds.

    SPDK is the class [Spdk], with what its documentation promises about its
    handles in [SpdkOk]. *)
From Stdlib Require Import ZArith Lia ZifyBool.
From stdpp Require Import base list numbers option strings gmap.
From S2P Require Import Prelude PyInt Text Pcie Shared.
Local Open Scope Z_scope.

(** [spdk_nvme_io_qpair_opts], the fields that are set. *)
Record qpair_opts := mk_opts {
  o_qprio : Z; o_queue_size : Z; o_queue_requests : Z; o_intr_enable : bool; o_intr_vector : Z
}.

(** The handles that are valid: controllers, queue pairs with their controller
    and namespaces with theirs; [active] is [active_io_qpairs], in order, and
    [timeouts] has the controllers with a timeout callback.  What detaching does
    to the queue pairs of the controller is not promised. *)
Class Spdk (T : Type) := {
  ctrlrs : T -> gset positive;
  qps : T -> gmap positive positive;
  nss : T -> gmap positive positive;
  active : positive -> T -> list positive;
  timeouts : T -> gmap positive Z;
  spdk_nvme_probe : string -> Z -> T -> option positive * T;
  spdk_nvme_detach : positive -> T -> Z * T;
  spdk_alloc_io_qpair : positive -> qpair_opts -> T -> option positive * T;
  spdk_free_io_qpair : positive -> T -> Z * T;
  spdk_register_timeout : positive -> Z -> T -> T;
  c_ns_init : positive -> Z -> Z -> T -> option positive * T;
  spdk_get_ns : positive -> Z -> T -> option positive;
  c_ns_fini : positive -> T -> Z * T
}.

(** Handles that did not change. *)
Definition same_handles {T} `{Spdk T} (s s' : T) : Prop :=
  ctrlrs s' = ctrlrs s /\ qps s' = qps s /\ nss s' = nss s /\ timeouts s' = timeouts s.

Class SpdkOk (T : Type) `{Spdk T} : Prop := {
  probe_none a p s s' : spdk_nvme_probe a p s = (None, s') -> same_handles s s';
  probe_some a p s s' c : spdk_nvme_probe a p s = (Some c, s') ->
    (c ∉ ctrlrs s) /\ ctrlrs s' = ({[c]} ∪ ctrlrs s) /\ qps s' = qps s /\ timeouts s' = delete c (timeouts s)
    /\ (forall n d, nss s !! n = Some d -> nss s' !! n = Some d);
  detach_fail c s r s' : spdk_nvme_detach c s = (r, s') -> r <> 0 -> same_handles s s';
  detach_ok c s s' : spdk_nvme_detach c s = (0, s') ->
    ctrlrs s' = (ctrlrs s ∖ {[c]}) /\ (forall q, qps s !! q <> Some c -> qps s' !! q = qps s !! q)
    /\ (forall n, nss s' !! n <> Some c)
    /\ (forall d, d <> c -> timeouts s' !! d = timeouts s !! d);
  alloc_none c o s s' : spdk_alloc_io_qpair c o s = (None, s') -> same_handles s s';
  alloc_some c o s s' q : spdk_alloc_io_qpair c o s = (Some q, s') ->
    qps s !! q = None /\ qps s' = <[q:=c]> (qps s) /\ ctrlrs s' = ctrlrs s /\ nss s' = nss s /\ timeouts s' = timeouts s;
  free_fail q s r s' : spdk_free_io_qpair q s = (r, s') -> r <> 0 -> same_handles s s';
  free_ok q s s' : spdk_free_io_qpair q s = (0, s') ->
    qps s' = delete q (qps s) /\ ctrlrs s' = ctrlrs s /\ nss s' = nss s /\ timeouts s' = timeouts s;
  active_spec c s q : q ∈ active c s <-> qps s !! q = Some c;
  register_spec c t s :
    let s' := spdk_register_timeout c t s in
    ctrlrs s' = ctrlrs s /\ qps s' = qps s /\ nss s' = nss s /\ timeouts s' = <[c:=t]> (timeouts s);
  ns_init_spec c n l s r s' : c_ns_init c n l s = (r, s') -> same_handles s s' /\ (forall h, r = Some h -> nss s !! h = Some c);
  get_ns_spec c n s h : spdk_get_ns c n s = Some h -> nss s !! h = Some c;
  ns_fini_spec h s r s' : c_ns_fini h s = (r, s') -> same_handles s s'
}.

(** ** Objects *)
Definition MAGIC : Z := 0x1243568790bacdfe.

Record pcie := mk_pcie {
  p_ctrlr : option positive; p_bdf : string; p_vdid : string; p_backup : bool; p_magic : Z; p_port : Z
}.
(** [c_skip_init]: [nvme_init_func] is [True]. *)
Record controller := mk_controller { c_pcie : nat; c_timeout : Z; c_skip_init : bool }.
Record qpair := mk_qpair { q_ptr : option positive; q_nvme : nat }.
Record nspace := mk_nspace { n_ns : option positive; n_nvme : nat; n_nsid : Z }.

Record script (T : Type) := mk_script {
  sp : T; g_controllers : list positive;
  pcies : list pcie; ctrls : list controller; qpairs : list qpair; nspaces : list nspace
}.
Arguments mk_script {T} _ _ _ _ _ _.
Arguments sp {T} _.
Arguments g_controllers {T} _.
Arguments pcies {T} _.
Arguments ctrls {T} _.
Arguments qpairs {T} _.
Arguments nspaces {T} _.

Section Lifecycle.
Context {T : Type} `{Spdk T} {D : Type} `{PciConfig D}.
(** Whether this is the main process, and in another one whether the interrupt
    table of the controller is found. *)
Variable primary intc_found : bool.
(** Configuration space behind a controller, its CAP register, and the paths of
    the PCI devices there are. *)
Variable pci_of : positive -> T -> D.
Variable cap_of : positive -> T -> Z.
Variable device_exists : string -> bool.
(** [_driver_cleanup] (Pcie.v) and the start-up of a controller, [None] for the
    default process (Controller.v) or the user's. *)
Variable driver_cleanup : T -> res unit * T.
Variable run_init : positive -> T -> res unit * T.

Abbreviation P := (M (script T)).

(** ** State *)
Definition set_sp (t : T) (s : script T) : script T :=
  mk_script t (g_controllers s) (pcies s) (ctrls s) (qpairs s) (nspaces s).
Definition set_list (l : list positive) (s : script T) : script T :=
  mk_script (sp s) l (pcies s) (ctrls s) (qpairs s) (nspaces s).
Definition set_pcies (l : list pcie) (s : script T) : script T :=
  mk_script (sp s) (g_controllers s) l (ctrls s) (qpairs s) (nspaces s).
Definition set_ctrls (l : list controller) (s : script T) : script T :=
  mk_script (sp s) (g_controllers s) (pcies s) l (qpairs s) (nspaces s).
Definition set_qpairs (l : list qpair) (s : script T) : script T :=
  mk_script (sp s) (g_controllers s) (pcies s) (ctrls s) l (nspaces s).
Definition set_nspaces (l : list nspace) (s : script T) : script T :=
  mk_script (sp s) (g_controllers s) (pcies s) (ctrls s) (qpairs s) l.

(** An object of the script, given by its position: there is no other way to
    name one, so the lookup does not fail. *)
Definition the {A} (f : script T -> list A) (i : nat) : P A :=
  s ← get; match f s !! i with Some a => mret a | None => raise UnboundLocalError end.

(** A call of SPDK. *)
Definition spdk {A} (f : T -> A * T) : P A :=
  s ← get; let '(a, t) := f (sp s) in put (set_sp t s) ;; mret a.

Definition c_assert (b : bool) : P unit := if b then mret tt else raise CAbort.

(** The C code follows a pointer. *)
Definition use_ctrlr (p : option positive) : P positive :=
  s ← get;
  match p with
  | Some c => if decide (c ∈ ctrlrs (sp s)) then mret c else raise COutOfBounds
  | None => raise COutOfBounds
  end.

Definition use_qpair (p : option positive) : P positive :=
  s ← get;
  match p with
  | Some q => if decide (is_Some (qps (sp s) !! q)) then mret q else raise COutOfBounds
  | None => raise COutOfBounds
  end.

(** ** src/src/driver.c *)
Definition nvme_init (addr : string) (port : Z) : P (option positive) :=
  c ← spdk (spdk_nvme_probe addr port);
  match c with
  | None => mret None
  | Some c =>
      (if primary then modify (fun s => set_list (g_controllers s ++ [c]) s)
       else if port =? 0 then c_assert intc_found else mret tt) ;;
      mret (Some c)
  end.

Definition qpair_free (q : option positive) : P Z :=
  q ← use_qpair q; spdk (spdk_free_io_qpair q).

(** [TAILQ_FOREACH] reads the link in a queue pair after the body, which frees
    it. *)
Definition free_active (c : positive) : P unit :=
  s ← get;
  foreach (fun q => qpair_free (Some q) ;; use_qpair (Some q) ;; mret tt) (active c (sp s)).

Definition remove_entry (c : positive) (l : list positive) : list positive :=
  match list_find (fun x => x = c) l with Some (i, _) => delete i l | None => l end.

Definition nvme_fini (c : positive) : P Z :=
  use_ctrlr (Some c) ;;
  (if primary then
     free_active c ;; modify (fun s => set_list (remove_entry c (g_controllers s)) s)
   else mret tt) ;;
  spdk (spdk_nvme_detach c).

Definition qpair_create (c : option positive) (prio depth : Z) (ien : bool) (iv : Z) : P (option positive) :=
  c ← use_ctrlr c; spdk (spdk_alloc_io_qpair c (mk_opts prio depth depth ien iv)).

Definition nvme_register_timeout_cb (c : option positive) (msec : Z) : P unit :=
  c ← use_ctrlr c; spdk (fun t => (tt, spdk_register_timeout c (msec * 1000) t)).

(** ** class Pcie *)
Definition hex4 (v : Z) : string :=
  String (digit (v / 4096 mod 16)) (String (digit (v / 256 mod 16))
    (String (digit (v / 16 mod 16)) (String (digit (v mod 16)) ""))).

Definition vdid_of (d : D) : res string :=
  v ← register 0 2 d; w ← register 2 2 d; Ok (hex4 v +:+ " " +:+ hex4 w)%string.

(** The address with its domain, and the port of a TCP target. *)
Definition resolve (addr : string) (port : Z) : string * Z :=
  if negb (device_exists addr) && negb (String.prefix "0000:" addr) then
    if device_exists ("0000:" +:+ addr)%string then (("0000:" +:+ addr)%string, port)
    else if port =? 0 then (addr, 4420) else (addr, port)
  else (addr, port).

(** [char _bdf[64]], copied with the terminator. *)
Definition fits64 (s : string) : bool := (String.length s <? 64)%nat.

Definition pcie_new (addr : string) (port : Z) : P nat :=
  let '(addr, port) := resolve addr port in
  (if fits64 addr then mret tt else raise COutOfBounds) ;;
  c ← nvme_init addr port;
  match c with
  | None => raise NvmeEnumerateError
  | Some c =>
      s ← get;
      vdid ← (if port =? 0 then lift (vdid_of (pci_of c (sp s))) else mret ""%string);
      modify (fun s => set_pcies (pcies s ++ [mk_pcie (Some c) addr vdid false MAGIC port]) s) ;;
      mret (length (pcies s))
  end.

Definition set_ctrlr (p : nat) (c : option positive) (magic : Z) : P unit :=
  x ← the pcies p;
  modify (fun s => set_pcies (<[p := mk_pcie c (p_bdf x) (p_vdid x) (p_backup x) magic (p_port x)]> (pcies s)) s).

Definition pcie_close (p : nat) : P unit :=
  x ← the pcies p;
  (match p_ctrlr x with
   | Some c =>
       if p_backup x then mret tt
       else ret ← nvme_fini c; if negb (ret =? 0) then raise NvmeDeletionError else mret tt
   | None => mret tt
   end) ;;
  set_ctrlr p None 0.

(** The new controller is always looked for at port 0. *)
Definition _ctrlr_reinit (p : nat) : P unit :=
  x ← the pcies p;
  match p_ctrlr x with
  | None => raise AssertionError
  | Some c =>
      py_assert (negb (p_backup x)) ;;
      ret ← nvme_fini c;
      (if negb (ret =? 0) then raise NvmeDeletionError else mret tt) ;;
      c' ← nvme_init (p_bdf x) 0;
      set_ctrlr p c' (p_magic x) ;;
      match c' with None => raise NvmeEnumerateError | Some _ => mret tt end
  end.

(** ** class Controller *)
Definition controller_new (p : nat) (skip_init : bool) : P nat :=
  x ← the pcies p;
  nvme_register_timeout_cb (p_ctrlr x) 10000 ;;
  (if (p_port x =? 0) && negb skip_init then
     c ← use_ctrlr (p_ctrlr x);
     r ← spdk (run_init c);
     lift r
   else mret tt) ;;
  s ← get;
  modify (fun s => set_ctrls (ctrls s ++ [mk_controller p 10000 skip_init]) s) ;;
  mret (length (ctrls s)).

Definition timeout_set (i : nat) (msec : Z) : P unit :=
  x ← the ctrls i;
  msec ← lift (to_uint 32 msec);
  modify (fun s => set_ctrls (<[i := mk_controller (c_pcie x) msec (c_skip_init x)]> (ctrls s)) s) ;;
  y ← the pcies (c_pcie x);
  nvme_register_timeout_cb (p_ctrlr y) msec.

(** Anything that uses the controller: a register, an admin command. *)
Definition controller_use (i : nat) : P unit :=
  x ← the ctrls i; y ← the pcies (c_pcie x); use_ctrlr (p_ctrlr y) ;; mret tt.

Definition _nvme_init (i : nat) : P unit :=
  x ← the ctrls i;
  py_assert (negb (c_skip_init x)) ;;
  y ← the pcies (c_pcie x);
  c ← use_ctrlr (p_ctrlr y);
  r ← spdk (run_init c);
  lift r.

Definition reset (i : nat) : P unit :=
  x ← the ctrls i;
  r ← spdk driver_cleanup;
  lift r ;;
  _ctrlr_reinit (c_pcie x) ;;
  _nvme_init i.

(** ** class Qpair *)
Definition qpair_new (i : nat) (depth prio : Z) (ien : bool) (iv : Z) : P nat :=
  depth ← lift (to_uint 32 depth);
  prio ← lift (to_uint 32 prio);
  iv ← lift (to_uint 16 iv);
  py_assert ((2 <=? depth) && (depth <=? 1024)) ;;
  x ← the ctrls i;
  y ← the pcies (c_pcie x);
  c ← use_ctrlr (p_ctrlr y);
  s ← get;
  py_assert (depth <=? Z.land (cap_of c (sp s)) 0xffff + 1) ;;
  let iv := if negb ien && (iv =? 0xffff) then 0 else iv in
  q ← qpair_create (p_ctrlr y) prio depth ien iv;
  match q with
  | None => raise QpairCreationError
  | Some _ =>
      s ← get;
      modify (fun s => set_qpairs (qpairs s ++ [mk_qpair q i]) s) ;;
      mret (length (qpairs s))
  end.

Definition qpair_close : P unit := raise AssertionError.

Definition qpair_delete (k : nat) : P unit :=
  q ← the qpairs k;
  x ← the ctrls (q_nvme q);
  y ← the pcies (c_pcie x);
  (if p_magic y =? MAGIC then
     match p_ctrlr y, q_ptr q with
     | Some _, Some _ =>
         ret ← qpair_free (q_ptr q);
         if negb (ret =? 0) then raise QpairDeletionError else mret tt
     | _, _ => mret tt
     end
   else mret tt) ;;
  modify (fun s => set_qpairs (<[k := mk_qpair None (q_nvme q)]> (qpairs s)) s).

(** Anything that uses the queue pair: commands, [waitdone], its interrupt. *)
Definition qpair_use (k : nat) : P unit := q ← the qpairs k; use_qpair (q_ptr q) ;; mret tt.

(** ** class Namespace *)
Definition namespace_new (i : nat) (nsid nlba_verify : Z) : P nat :=
  nsid ← lift (to_uint 32 nsid);
  nlba_verify ← lift (to_uint 64 nlba_verify);
  x ← the ctrls i;
  y ← the pcies (c_pcie x);
  c ← use_ctrlr (p_ctrlr y);
  n ← spdk (c_ns_init c nsid nlba_verify);
  match n with
  | None => raise NamespaceCreationError
  | Some _ =>
      s ← get;
      modify (fun s => set_nspaces (nspaces s ++ [mk_nspace n i nsid]) s) ;;
      mret (length (nspaces s))
  end.

(** [self._ns = d.nvme_get_ns(self._nvme.pcie._ctrlr, self._nsid)]: the pointer
    is asked for again before each use. *)
Definition nvme_get_ns (j : nat) : P (option positive) :=
  n ← the nspaces j;
  x ← the ctrls (n_nvme n);
  y ← the pcies (c_pcie x);
  c ← use_ctrlr (p_ctrlr y);
  s ← get;
  let h := spdk_get_ns c (n_nsid n) (sp s) in
  modify (fun s => set_nspaces (<[j := mk_nspace h (n_nvme n) (n_nsid n)]> (nspaces s)) s) ;;
  mret h.

Definition namespace_close (j : nat) : P unit :=
  n ← the nspaces j;
  x ← the ctrls (n_nvme n);
  y ← the pcies (c_pcie x);
  (if p_magic y =? MAGIC then
     match p_ctrlr y with
     | Some _ =>
         h ← nvme_get_ns j;
         match h with
         | Some h => ret ← spdk (c_ns_fini h); if negb (ret =? 0) then raise NamespaceDeletionError else mret tt
         | None => mret tt
         end
     | None => mret tt
     end
   else mret tt) ;;
  modify (fun s => set_nspaces (<[j := mk_nspace None (n_nvme n) (n_nsid n)]> (nspaces s)) s).

(** A C function follows the pointer of a namespace. *)
Definition use_ns (p : option positive) : P positive :=
  s ← get;
  match p with
  | Some h => if decide (is_Some (nss (sp s) !! h)) then mret h else raise COutOfBounds
  | None => raise COutOfBounds
  end.

(** [verify_enable], [format]: what uses the namespace alone. *)
Definition namespace_use (j : nat) : P unit := h ← nvme_get_ns j; use_ns h ;; mret tt.

(** [send_read_write], with a queue pair. *)
Definition namespace_io (j k : nat) : P unit :=
  h ← nvme_get_ns j; q ← the qpairs k; use_ns h ;; use_qpair (q_ptr q) ;; mret tt.

(** ** Scripts *)
Inductive op :=
  | OPcie (addr : string) (port : Z) | OClose (p : nat)
  | OController (p : nat) (skip_init : bool) | OTimeout (i : nat) (msec : Z) | OUse (i : nat) | OReset (i : nat)
  | OQpair (i : nat) (depth prio : Z) (ien : bool) (iv : Z) | OQuse (k : nat) | ODelete (k : nat)
  | ONs (i : nat) (nsid nlba_verify : Z) | ONsUse (j : nat) | OIo (j k : nat) | ONsClose (j : nat).

Definition run_op (o : op) : P unit :=
  match o with
  | OPcie addr port => _ ← pcie_new addr port; mret tt
  | OClose p => pcie_close p
  | OController p b => _ ← controller_new p b; mret tt
  | OTimeout i ms => timeout_set i ms
  | OUse i => controller_use i
  | OReset i => reset i
  | OQpair i depth prio ien iv => _ ← qpair_new i depth prio ien iv; mret tt
  | OQuse k => qpair_use k
  | ODelete k => qpair_delete k
  | ONs i nsid n => _ ← namespace_new i nsid n; mret tt
  | ONsUse j => namespace_use j
  | OIo j k => namespace_io j k
  | ONsClose j => namespace_close j
  end.

(** A script goes on after an exception, as tests do that expect one. *)
Fixpoint run_ops (l : list op) (s : script T) : list (res unit) * script T :=
  match l with
  | [] => ([], s)
  | o :: l' => let '(r, s1) := run_op o s in let '(rs, s2) := run_ops l' s1 in (r :: rs, s2)
  end.

(** What the documentation asks of a script: the queue pairs are deleted before
    their controller is reset or closed, and nothing is used once it is closed
    or deleted; and addresses fit the array [_bdf], and a namespace that is used
    is one that its controller, reset or not, still has. *)
Definition is_open (s : script T) (p : nat) : Prop := exists x c, pcies s !! p = Some x /\ p_ctrlr x = Some c.
Definition ctrl_open (s : script T) (i : nat) : Prop := exists x, ctrls s !! i = Some x /\ is_open s (c_pcie x).
Definition no_queues (s : script T) (p : nat) : Prop :=
  forall k q x, qpairs s !! k = Some q -> ctrls s !! q_nvme q = Some x -> c_pcie x = p -> q_ptr q = None.

Definition has_queue (s : script T) (k : nat) : Prop := exists q h, qpairs s !! k = Some q /\ q_ptr q = Some h.
(** The controller is open and has the namespace the object was made for. *)
Definition has_ns (s : script T) (j : nat) : Prop :=
  exists n x y c, nspaces s !! j = Some n /\ ctrls s !! n_nvme n = Some x /\ pcies s !! c_pcie x = Some y
    /\ p_ctrlr y = Some c /\ spdk_get_ns c (n_nsid n) (sp s) <> None.

Definition allowed (s : script T) (o : op) : Prop :=
  match o with
  | OPcie addr _ => (String.length addr < 59)%nat
  | OClose p => (p < length (pcies s))%nat /\ no_queues s p
  | OController p _ => is_open s p
  | OTimeout i _ | OUse i | OQpair i _ _ _ _ | ONs i _ _ => ctrl_open s i
  | OReset i => exists x, ctrls s !! i = Some x /\ is_open s (c_pcie x) /\ no_queues s (c_pcie x)
  | OQuse k => has_queue s k
  | ONsUse j => has_ns s j
  | OIo j k => has_ns s j /\ has_queue s k
  | ODelete k => (k < length (qpairs s))%nat
  | ONsClose j => (j < length (nspaces s))%nat
  end.

Fixpoint disciplined (l : list op) (s : script T) : Prop :=
  match l with
  | [] => True
  | o :: l' => allowed s o /\ disciplined l' (snd (run_op o s))
  end.

Lemma disciplined_cons o l s s1 : allowed s o -> snd (run_op o s) = s1 -> disciplined l s1 -> disciplined (o :: l) s.
Proof. by intros Ha <-. Qed.

(** The failures of C: an assertion or an access out of bounds. *)
Definition fine {A} (r : res A) : Prop :=
  match r with Err CAbort | Err COutOfBounds | Err OutOfFuel => False | _ => True end.

(** ** The invariant *)

(** [e] is a [Pcie] whose controller was given back and is not replaced yet. *)
Record inv (e : option nat) (s : script T) : Prop := {
  v_pcie p x c : pcies s !! p = Some x -> p_ctrlr x = Some c -> e <> Some p ->
    (c ∈ ctrlrs (sp s)) /\ p_magic x = MAGIC /\ p_backup x = false;
  v_distinct p1 p2 x1 x2 c : pcies s !! p1 = Some x1 -> pcies s !! p2 = Some x2 ->
    p_ctrlr x1 = Some c -> p_ctrlr x2 = Some c -> e <> Some p1 -> e <> Some p2 -> p1 = p2;
  v_ctrl i x : ctrls s !! i = Some x -> is_Some (pcies s !! c_pcie x);
  v_queue k q : qpairs s !! k = Some q -> exists x y, ctrls s !! q_nvme q = Some x /\ pcies s !! c_pcie x = Some y
    /\ forall h, q_ptr q = Some h -> exists c, p_ctrlr y = Some c /\ qps (sp s) !! h = Some c /\ e <> Some (c_pcie x);
  v_owner k1 k2 q1 q2 h : qpairs s !! k1 = Some q1 -> qpairs s !! k2 = Some q2 ->
    q_ptr q1 = Some h -> q_ptr q2 = Some h -> k1 = k2;
  v_all h c : qps (sp s) !! h = Some c -> exists k q, qpairs s !! k = Some q /\ q_ptr q = Some h;
  v_ns j n : nspaces s !! j = Some n -> is_Some (ctrls s !! n_nvme n);
  v_list : NoDup (g_controllers s) /\ (forall c, c ∈ g_controllers s -> c ∈ ctrlrs (sp s))
    /\ (primary = false -> g_controllers s = [])
}.

(** SPDK changed, the objects did not. *)
Definition same_objects (s s' : script T) : Prop :=
  pcies s' = pcies s /\ ctrls s' = ctrls s /\ qpairs s' = qpairs s /\ nspaces s' = nspaces s.

Lemma inv_same e s s' : inv e s -> same_objects s s' -> g_controllers s' = g_controllers s ->
  ctrlrs (sp s') = ctrlrs (sp s) -> qps (sp s') = qps (sp s) -> inv e s'.
Proof.
  intros [V1 V2 V3 V4 V5 V6 V7 V8] (O1 & O2 & O3 & O4) Hg Hc Hq.
  split; rewrite ?O1, ?O2, ?O3, ?O4, ?Hg, ?Hc, ?Hq; done.
Qed.

Lemma inv_spdk e s t : inv e s -> ctrlrs t = ctrlrs (sp s) -> qps t = qps (sp s) -> inv e (set_sp t s).
Proof. intros Hi Hc Hq. by apply inv_same with s. Qed.

(** ** Rules of the C calls *)
Lemma wp_spdk {A} (f : T -> A * T) Q s : Q (Ok (fst (f (sp s)))) (set_sp (snd (f (sp s))) s) -> wp (spdk f) Q s.
Proof. intros HQ. unfold wp, spdk, mbind, M_bind, get. by destruct (f (sp s)) as [a t]. Qed.

Lemma wp_the {A} (f : script T -> list A) i a Q s : f s !! i = Some a -> Q (Ok a) s -> wp (the f i) Q s.
Proof. intros Hf HQ. unfold wp, the, mbind, M_bind, get. by rewrite Hf. Qed.

Lemma wp_use_ctrlr c Q s : (c ∈ ctrlrs (sp s)) -> Q (Ok c) s -> wp (use_ctrlr (Some c)) Q s.
Proof. intros Hc HQ. unfold wp, use_ctrlr, mbind, M_bind, get. by rewrite decide_True. Qed.

Lemma wp_use_qpair h c Q s : qps (sp s) !! h = Some c -> Q (Ok h) s -> wp (use_qpair (Some h)) Q s.
Proof. intros Hc HQ. unfold wp, use_qpair, mbind, M_bind, get. rewrite decide_True by (by exists c). done. Qed.

Hypothesis intc_ok : primary || intc_found = true.
Hypothesis cleanup_ok : forall t r t', driver_cleanup t = (r, t') -> same_handles t t' /\ fine r.
Hypothesis init_ok : forall c t r t', run_init c t = (r, t') ->
  ctrlrs t' = ctrlrs t /\ qps t' = qps t /\ timeouts t' = timeouts t /\ fine r.
Context `{!SpdkOk T}.

(** No queue pair is left where every [Qpair] of the controller is deleted. *)
Lemma active_nil s p x c : inv None s -> pcies s !! p = Some x -> p_ctrlr x = Some c -> no_queues s p ->
  active c (sp s) = [].
Proof.
  intros Hi Hp Hc Hn. destruct (active c (sp s)) as [|h l] eqn:E; [done|]. exfalso.
  assert (Hh : qps (sp s) !! h = Some c) by (apply active_spec; rewrite E; left).
  destruct (v_all _ _ Hi _ _ Hh) as (k & q & Hk & Hq).
  destruct (v_queue _ _ Hi _ _ Hk) as (x' & y & Hx & Hy & Hp'). destruct (Hp' h Hq) as (c' & Hc' & Hh' & _).
  rewrite Hh in Hh'. injection Hh' as <-. assert (c_pcie x' = p) as Hcp.
  { by apply (v_distinct _ _ Hi _ _ y x c). }
  specialize (Hn k q x' Hk Hx Hcp). congruence.
Qed.

Lemma remove_entry_spec c l : NoDup l -> NoDup (remove_entry c l) /\ forall d, d ∈ remove_entry c l <-> d ∈ l /\ d <> c.
Proof.
  intros Hl. unfold remove_entry. destruct (list_find (fun x => x = c) l) as [[i d]|] eqn:E.
  - apply list_find_Some in E as (Hi & -> & _). pose proof Hl as Hl'.
    rewrite <- (take_drop_middle l i c Hi) in Hl'. apply NoDup_app in Hl' as (H1 & H2 & H3).
    apply list.NoDup_cons in H3 as [H3 H4]. rewrite delete_take_drop. split.
    + apply NoDup_app. split; [done|]. split; [|done]. intros d Hd Hd'. apply (H2 d Hd). by right.
    + intros d. rewrite <- (take_drop_middle l i c Hi) at 3. rewrite !elem_of_app, elem_of_cons. split.
      * intros [Hd|Hd]; (split; [tauto|]); intros ->; [apply (H2 c Hd); left|done].
      * tauto.
  - apply list_find_None in E. split; [done|]. intros d. split; [|tauto]. intros Hd. split; [done|].
    rewrite Forall_forall in E. by apply E.
Qed.

Lemma no_queues_same s s' p : no_queues s p -> same_objects s s' -> no_queues s' p.
Proof. intros Hn (_ & O2 & O3 & _) k q x. rewrite O2, O3. apply Hn. Qed.

(** A controller found by SPDK enters the list of the main process. *)
Lemma inv_probe e s c t : inv e s -> (c ∉ ctrlrs (sp s)) -> ctrlrs t = ({[c]} ∪ ctrlrs (sp s)) -> qps t = qps (sp s) ->
  inv e (if primary then set_list (g_controllers s ++ [c]) (set_sp t s) else set_sp t s).
Proof.
  intros [V1 V2 V3 V4 V5 V6 V7 (V8 & V9 & V10)] Hc Ht Hq.
  assert (Hi : inv e (set_sp t s)).
  { split; cbn; rewrite ?Hq; try done.
    - intros p x d Hp Hx He. rewrite Ht. destruct (V1 p x d Hp Hx He) as (? & ? & ?). split; [by apply elem_of_union_r|done].
    - rewrite Ht. split; [done|]. split; [|done]. intros d Hd. by apply elem_of_union_r, V9. }
  destruct primary eqn:Ep; [|done]. destruct Hi as [W1 W2 W3 W4 W5 W6 W7 _]. split; try done. cbn. split_and!; [| |by rewrite ?Ep].
  - apply NoDup_app. split; [done|]. split; [|apply NoDup_singleton]. intros d Hd ->%list_elem_of_singleton. by apply Hc, V9.
  - intros d [Hd| ->%list_elem_of_singleton]%elem_of_app; rewrite Ht;
      [by apply elem_of_union_r, V9|by apply elem_of_union_l, elem_of_singleton].
Qed.

Lemma wp_nvme_init e a port s Q : inv e s ->
  (forall s', inv e s' -> same_objects s s' -> Q (Ok None) s') ->
  (forall c s', inv e s' -> same_objects s s' -> (c ∈ ctrlrs (sp s')) -> timeouts (sp s') !! c = None ->
     (forall p x, pcies s !! p = Some x -> e <> Some p -> p_ctrlr x <> Some c) ->
     (exists t, fst (spdk_nvme_probe a port t) = Some c) -> Q (Ok (Some c)) s') ->
  wp (nvme_init a port) Q s.
Proof.
  intros Hi Hn Hs. unfold nvme_init. apply wp_bind, wp_spdk.
  destruct (spdk_nvme_probe a port (sp s)) as [[c|] t] eqn:E; cbn [fst snd].
  2: { destruct (probe_none _ _ _ _ E) as (Hc & Hq & _). apply wp_ret, Hn; [by apply inv_spdk|done]. }
  destruct (probe_some _ _ _ _ _ E) as (Hf & Hc & Hq & Ht & _). pose proof (inv_probe e s c t Hi Hf Hc Hq) as Hi'.
  assert (Hno : forall p x, pcies s !! p = Some x -> e <> Some p -> p_ctrlr x <> Some c).
  { intros p x Hp He Hx. by destruct (v_pcie _ _ Hi _ _ _ Hp Hx He) as [? _]. }
  assert (Hto : timeouts t !! c = None) by (by rewrite Ht, lookup_delete_eq).
  assert (Hpr : exists t, fst (spdk_nvme_probe a port t) = Some c) by (exists (sp s); by rewrite E).
  apply wp_bind. destruct primary eqn:Ep.
  - apply wp_modify, wp_ret, Hs; try done. cbn. rewrite Hc. by apply elem_of_union_l, elem_of_singleton.
  - pose proof intc_ok as Hk. cbn in Hk. rewrite Hk. destruct (port =? 0); apply wp_ret, wp_ret, Hs; try done; cbn; rewrite Hc; by apply elem_of_union_l, elem_of_singleton.
Qed.

(** After [spdk_nvme_detach] of a controller without queue pairs. *)
Lemma inv_detach s p x c t l : inv None s -> pcies s !! p = Some x -> p_ctrlr x = Some c -> no_queues s p ->
  ctrlrs t = (ctrlrs (sp s) ∖ {[c]}) -> qps t = qps (sp s) ->
  NoDup l -> (forall d, d ∈ l -> d ∈ g_controllers s /\ d <> c) -> (primary = false -> l = []) ->
  inv (Some p) (set_list l (set_sp t s)).
Proof.
  intros [V1 V2 V3 V4 V5 V6 V7 (V8 & V9 & V10)] Hp Hx Hn Hc Hq Hl1 Hl2 Hl3.
  split; cbn; rewrite ?Hq, ?Hc; try done.
  - intros p' x' d Hp' Hx' He. destruct (V1 p' x' d Hp' Hx' ltac:(done)) as (? & ? & ?). split_and!; try done.
    apply elem_of_difference. split; [done|]. intros ->%elem_of_singleton. apply He. f_equal. by apply (V2 p p' x x' c).
  - intros p1 p2 x1 x2 d H1 H2 H3 H4 _ _. by apply (V2 p1 p2 x1 x2 d).
  - intros k q Hk. destruct (V4 k q Hk) as (x' & y & Hx' & Hy & Hh). exists x', y. split; [done|]. split; [done|].
    intros h Hqh. destruct (Hh h Hqh) as (d & Hd & Hd' & _). exists d. split; [done|]. split; [done|].
    intros [= ->]. specialize (Hn k q x' Hk Hx' eq_refl). congruence.
  - split; [done|]. split; [|done]. intros d Hd. destruct (Hl2 d Hd) as [Hd1 Hd2]. apply elem_of_difference. split; [by apply V9|]. by intros ->%elem_of_singleton.
Qed.

Lemma detach_qps s c t : (forall h, qps s !! h <> Some c) -> spdk_nvme_detach c s = (0, t) -> qps t = qps s.
Proof. intros Hn E. destruct (detach_ok _ _ _ E) as (_ & Hq & _). apply map_eq. intros h. by apply Hq. Qed.

Lemma wp_nvme_fini p x c s Q : inv None s -> pcies s !! p = Some x -> p_ctrlr x = Some c -> no_queues s p ->
  (forall r s', r <> 0 -> inv None s' -> same_objects s s' -> Q (Ok r) s') ->
  (forall s', inv (Some p) s' -> same_objects s s' -> (c ∉ ctrlrs (sp s')) -> Q (Ok 0) s') ->
  wp (nvme_fini c) Q s.
Proof.
  intros Hi Hp Hx Hn Hfail Hok. pose proof (active_nil s p x c Hi Hp Hx Hn) as Ha.
  destruct (v_list _ _ Hi) as (Hl1 & Hl2 & Hl3). destruct (remove_entry_spec c _ Hl1) as [Hr1 Hr2].
  assert (Hq : forall h, qps (sp s) !! h <> Some c) by (intros h Hh%active_spec; rewrite Ha in Hh; by apply not_elem_of_nil in Hh).
  destruct (v_pcie _ _ Hi _ _ _ Hp Hx ltac:(done)) as (Hc & _ & _).
  set (l := if primary then remove_entry c (g_controllers s) else g_controllers s).
  assert (Hl : NoDup l /\ (forall d, d ∈ l -> d ∈ g_controllers s /\ d <> c) /\ (primary = false -> l = [])).
  { unfold l. destruct primary eqn:Ep; [split; [done|]; split; [|by rewrite ?Ep]; intros d; by apply Hr2|].
    rewrite Hl3 by done. split; [constructor|]. split; [|done]. intros d Hd. by apply not_elem_of_nil in Hd. }
  destruct Hl as (L1 & L2 & L3).
  assert (Hwp : wp (spdk (spdk_nvme_detach c)) Q (set_list l s)).
  { apply wp_spdk. cbn [sp set_list]. destruct (spdk_nvme_detach c (sp s)) as [r t] eqn:E; cbn [fst snd].
    destruct (decide (r = 0)) as [->|Hr].
    - destruct (detach_ok _ _ _ E) as (Ht & _ & _). apply Hok; [|done|cbn; rewrite Ht; by intros [_ []%not_elem_of_singleton]%elem_of_difference].
      change (set_sp t (set_list l s)) with (set_list l (set_sp t s)). apply inv_detach with x c; try done.
      by apply detach_qps with c.
    - apply Hfail; [done| |done]. destruct (detach_fail _ _ _ _ E Hr) as (Hc' & Hq' & _). apply inv_spdk; [|done|done].
      destruct Hi as [V1 V2 V3 V4 V5 V6 V7 _]. split; try done. cbn. split; [done|]. split; [|done].
      intros d Hd. apply Hl2. by apply L2. }
  unfold nvme_fini. apply wp_bind, wp_use_ctrlr; [done|]. apply wp_bind. unfold l in Hwp. destruct primary eqn:Ep.
  - apply wp_bind. unfold free_active. apply wp_bind, wp_get. rewrite Ha. cbn [foreach]. apply wp_ret. by apply wp_modify.
  - apply wp_ret. by destruct s.
Qed.

(** A [Pcie] gets a controller of its own, or none. *)
Lemma inv_set_ctrlr e p x o m s : inv e s -> (e = None \/ e = Some p) -> pcies s !! p = Some x -> no_queues s p ->
  (forall c, o = Some c -> (c ∈ ctrlrs (sp s)) /\ m = MAGIC /\ p_backup x = false
     /\ forall p' x', pcies s !! p' = Some x' -> p' <> p -> p_ctrlr x' <> Some c) ->
  inv None (set_pcies (<[p := mk_pcie o (p_bdf x) (p_vdid x) (p_backup x) m (p_port x)]> (pcies s)) s).
Proof.
  intros [V1 V2 V3 V4 V5 V6 V7 V8] He Hp Hn Ho.
  assert (Hlt : (p < length (pcies s))%nat) by (by apply lookup_lt_Some in Hp).
  assert (Hne : forall p', p' <> p -> e <> Some p') by (intros p' Hp' ->; destruct He as [He|He]; congruence).
  split; cbn; try done.
  - intros p' x' c Hp' Hx' _. destruct (decide (p' = p)) as [->|Hd].
    + rewrite list_lookup_insert_eq in Hp' by done. injection Hp' as <-. cbn in *. by destruct (Ho c Hx') as (? & ? & ? & _).
    + rewrite list_lookup_insert_ne in Hp' by done. apply (V1 p' x' c Hp' Hx'). by apply Hne.
  - intros p1 p2 x1 x2 c H1 H2 H3 H4 _ _.
    destruct (decide (p1 = p)) as [->|D1], (decide (p2 = p)) as [->|D2]; [done| | |].
    + rewrite list_lookup_insert_eq in H1 by done. injection H1 as <-. rewrite list_lookup_insert_ne in H2 by done.
      destruct (Ho c H3) as (_ & _ & _ & Hno). by destruct (Hno p2 x2 H2 D2).
    + rewrite list_lookup_insert_eq in H2 by done. injection H2 as <-. rewrite list_lookup_insert_ne in H1 by done.
      destruct (Ho c H4) as (_ & _ & _ & Hno). by destruct (Hno p1 x1 H1 D1).
    + rewrite list_lookup_insert_ne in H1, H2 by done. apply (V2 p1 p2 x1 x2 c); try done; by apply Hne.
  - intros i y Hi. destruct (V3 i y Hi) as [z Hz]. apply lookup_lt_is_Some. rewrite length_insert. by apply lookup_lt_Some in Hz.
  - intros k q Hk. destruct (V4 k q Hk) as (y & z & Hy & Hz & Hh). destruct (decide (c_pcie y = p)) as [Hd|Hd].
    + exists y. eexists. split; [done|]. split; [rewrite Hd; by apply list_lookup_insert_eq|]. intros h Hqh.
      specialize (Hn k q y Hk Hy Hd). congruence.
    + exists y, z. split; [done|]. rewrite list_lookup_insert_ne by done. split; [done|]. intros h Hqh.
      destruct (Hh h Hqh) as (c & ? & ? & _). by exists c.
Qed.

(** ** New objects *)
Lemma lookup_snoc {A} (l : list A) x i y : (l ++ [x]) !! i = Some y -> l !! i = Some y \/ i = length l /\ y = x.
Proof.
  intros Hi. destruct (decide (i < length l)%nat) as [Hl|Hl]; [left; by rewrite lookup_app_l in Hi|].
  rewrite lookup_app_r in Hi by lia. apply list_lookup_singleton_Some in Hi as [Hi <-]. right. split; [lia|done].
Qed.

Lemma lookup_is_Some_snoc {A} (l : list A) x i : is_Some (l !! i) -> is_Some ((l ++ [x]) !! i).
Proof. intros [y Hy]. exists y. by apply lookup_app_l_Some. Qed.

Lemma inv_push_pcie s y c : inv None s -> p_ctrlr y = Some c -> (c ∈ ctrlrs (sp s)) -> p_magic y = MAGIC -> p_backup y = false ->
  (forall p x, pcies s !! p = Some x -> p_ctrlr x <> Some c) -> inv None (set_pcies (pcies s ++ [y]) s).
Proof.
  intros [V1 V2 V3 V4 V5 V6 V7 V8] Hy Hc Hm Hb Hno. split; cbn; try done.
  - intros p x d [Hp|[-> ->]]%lookup_snoc Hx _; [by apply (V1 p x d)|]. rewrite Hy in Hx. by injection Hx as <-.
  - intros p1 p2 x1 x2 d [H1|[-> ->]]%lookup_snoc [H2|[-> ->]]%lookup_snoc H3 H4 _ _; [by apply (V2 p1 p2 x1 x2 d)| | |done].
    + rewrite Hy in H4. injection H4 as <-. by apply Hno in H1.
    + rewrite Hy in H3. injection H3 as <-. by apply Hno in H2.
  - intros i x Hi. by apply lookup_is_Some_snoc, (V3 i).
  - intros k q Hk. destruct (V4 k q Hk) as (x & z & Hx & Hz & Hh). exists x, z. split; [done|]. split; [|done].
    by apply lookup_app_l_Some.
Qed.

Lemma inv_ctrls s l : inv None s ->
  (forall i x, ctrls s !! i = Some x -> exists x', l !! i = Some x' /\ c_pcie x' = c_pcie x) ->
  (forall i x, l !! i = Some x -> is_Some (pcies s !! c_pcie x)) -> inv None (set_ctrls l s).
Proof.
  intros [V1 V2 V3 V4 V5 V6 V7 V8] Hold Hnew. split; cbn; try done.
  - intros k q Hk. destruct (V4 k q Hk) as (x & z & Hx & Hz & Hh). destruct (Hold _ _ Hx) as (x' & Hx' & Hp).
    exists x', z. by rewrite Hp.
  - intros j n Hj. destruct (V7 j n Hj) as [x Hx]. destruct (Hold _ _ Hx) as (x' & Hx' & _). by exists x'.
Qed.

Lemma inv_push_queue s i x y c h t : inv None s -> ctrls s !! i = Some x -> pcies s !! c_pcie x = Some y -> p_ctrlr y = Some c ->
  qps (sp s) !! h = None -> qps t = <[h:=c]> (qps (sp s)) -> ctrlrs t = ctrlrs (sp s) ->
  inv None (set_qpairs (qpairs s ++ [mk_qpair (Some h) i]) (set_sp t s)).
Proof.
  intros [V1 V2 V3 V4 V5 V6 V7 V8] Hx Hy Hc Hf Hq Ht.
  assert (Hnew : forall k q, qpairs s !! k = Some q -> q_ptr q <> Some h).
  { intros k q Hk Hh. destruct (V4 k q Hk) as (x' & y' & _ & _ & Hp). destruct (Hp h Hh) as (d & _ & Hd & _). congruence. }
  split; cbn; rewrite ?Ht, ?Hq; try done.
  - intros k q [Hk|[-> ->]]%lookup_snoc.
    + destruct (V4 k q Hk) as (x' & y' & Hx' & Hy' & Hp). exists x', y'. split; [done|]. split; [done|].
      intros h' Hh'. destruct (Hp h' Hh') as (d & ? & ? & ?). exists d. rewrite lookup_insert_ne by congruence. done.
    + exists x, y. split; [done|]. split; [done|]. intros h' [= <-]. exists c. by rewrite lookup_insert_eq.
  - intros k1 k2 q1 q2 h' [H1|[-> ->]]%lookup_snoc [H2|[-> ->]]%lookup_snoc H3 H4; [by apply (V5 k1 k2 q1 q2 h')| | |done].
    + injection H4 as <-. by apply Hnew in H1.
    + injection H3 as <-. by apply Hnew in H2.
  - intros h' d Hh'. destruct (decide (h = h')) as [<-|Hne].
    + exists (length (qpairs s)). eexists. split; [by apply list_lookup_middle|done].
    + rewrite lookup_insert_ne in Hh' by done. destruct (V6 h' d Hh') as (k & q & Hk & Hp). exists k, q. split; [|done].
      by apply lookup_app_l_Some.
Qed.

(** A [Qpair] lets go of its queue pair, which was given back if it is still
    known. *)
Lemma inv_drop_queue s k q t : inv None s -> qpairs s !! k = Some q -> ctrlrs t = ctrlrs (sp s) ->
  qps t = match q_ptr q with Some h => delete h (qps (sp s)) | None => qps (sp s) end ->
  inv None (set_qpairs (<[k := mk_qpair None (q_nvme q)]> (qpairs s)) (set_sp t s)).
Proof.
  intros [V1 V2 V3 V4 V5 V6 V7 V8] Hk Ht Hq. assert (Hlt : (k < length (qpairs s))%nat) by (by apply lookup_lt_Some in Hk).
  split; cbn; rewrite ?Ht; try done.
  - intros k' q' Hk'. destruct (decide (k' = k)) as [->|Hne].
    + rewrite list_lookup_insert_eq in Hk' by done. injection Hk' as <-. destruct (V4 k q Hk) as (x & y & Hx & Hy & _).
      by exists x, y.
    + rewrite list_lookup_insert_ne in Hk' by done. destruct (V4 k' q' Hk') as (x & y & Hx & Hy & Hh).
      exists x, y. split; [done|]. split; [done|]. intros h Hh'. destruct (Hh h Hh') as (c & Hc & Hqc & ?). exists c.
      split; [done|]. split; [|done]. rewrite Hq. destruct (q_ptr q) as [h0|] eqn:E; [|done].
      rewrite lookup_delete_ne; [done|]. intros ->. apply Hne. by apply (V5 k' k q' q h).
  - intros k1 k2 q1 q2 h H1 H2 H3 H4. destruct (decide (k1 = k)) as [->|D1], (decide (k2 = k)) as [->|D2]; [done| | |].
    + rewrite list_lookup_insert_eq in H1 by done. by injection H1 as <-.
    + rewrite list_lookup_insert_eq in H2 by done. by injection H2 as <-.
    + rewrite list_lookup_insert_ne in H1, H2 by done. by apply (V5 k1 k2 q1 q2 h).
  - intros h c Hh. rewrite Hq in Hh. assert (q_ptr q <> Some h /\ qps (sp s) !! h = Some c) as [Hn Hh'].
    { destruct (q_ptr q) as [h0|]; [|done]. destruct (decide (h0 = h)) as [->|Hne].
      - by rewrite lookup_delete_eq in Hh. - rewrite lookup_delete_ne in Hh by done. split; [congruence|done]. }
    destruct (V6 h c Hh') as (k' & q' & Hk' & Hp). exists k', q'. split; [|done].
    rewrite list_lookup_insert_ne; [done|]. intros ->. congruence.
Qed.

Lemma inv_nspaces s l : inv None s -> (forall j n, l !! j = Some n -> is_Some (ctrls s !! n_nvme n)) -> inv None (set_nspaces l s).
Proof. intros [V1 V2 V3 V4 V5 V6 V7 V8] Hl. by split. Qed.

(** ** The operations *)
Definition safe {A} (r : res A) (s : script T) : Prop := inv None s /\ fine r.
Context `{!PciConfigOk D}.

Lemma fits_resolve addr port : (String.length addr < 59)%nat -> fits64 (fst (resolve addr port)) = true.
Proof.
  intros Ha. assert (Hl : (String.length (fst (resolve addr port)) < 64)%nat); [|by apply Nat.ltb_lt].
  unfold resolve. destruct (negb _ && _); [|cbn [fst]; lia].
  destruct (device_exists _); [|destruct (port =? 0); cbn [fst]; lia]. cbn [fst].
  rewrite string_length_app. change (String.length "0000:") with 5%nat. lia.
Qed.

Lemma pcie_new_safe addr port s : inv None s -> (String.length addr < 59)%nat -> wp (pcie_new addr port) safe s.
Proof.
  intros Hi Ha. unfold pcie_new. pose proof (fits_resolve addr port Ha) as Hf. destruct (resolve addr port) as [addr' port'].
  cbn [fst] in Hf. rewrite Hf. apply wp_bind, wp_ret, wp_bind, (wp_nvme_init None); [done|by split|].
  intros c s1 Hi1 Ho Hc Ht Hno _. apply wp_bind, wp_get, wp_bind.
  assert (Hv : exists v, vdid_of (pci_of c (sp s1)) = Ok v).
  { unfold vdid_of. rewrite !register_2 by lia. by eexists. }
  destruct Hv as [v Hv].
  assert (Hfin : forall vdid, wp (modify (fun s => set_pcies (pcies s ++ [mk_pcie (Some c) addr' vdid false MAGIC port']) s) ;;
      mret (length (pcies s1))) safe s1).
  { intros vdid. apply wp_bind, wp_modify, wp_ret. split; [|done]. apply inv_push_pcie with c; try done.
    destruct Ho as (O1 & _). rewrite O1. intros p x Hp. by apply (Hno p x). }
  destruct (port' =? 0); [apply wp_lift; rewrite Hv|apply wp_ret]; apply Hfin.
Qed.

Lemma wp_set_ctrlr e p x o m s Q : inv e s -> (e = None \/ e = Some p) -> pcies s !! p = Some x -> no_queues s p ->
  (forall c, o = Some c -> (c ∈ ctrlrs (sp s)) /\ m = MAGIC /\ p_backup x = false
     /\ forall p' x', pcies s !! p' = Some x' -> p' <> p -> p_ctrlr x' <> Some c) ->
  (forall s', inv None s' -> ctrls s' = ctrls s -> sp s' = sp s ->
     pcies s' = <[p := mk_pcie o (p_bdf x) (p_vdid x) (p_backup x) m (p_port x)]> (pcies s) -> Q (Ok tt) s') ->
  wp (set_ctrlr p o m) Q s.
Proof.
  intros Hi He Hp Hn Ho HQ. unfold set_ctrlr. apply wp_bind, (wp_the _ _ x); [done|]. apply wp_modify, HQ; [|done..].
  by apply inv_set_ctrlr with e.
Qed.

Lemma pcie_close_safe p s : inv None s -> (p < length (pcies s))%nat -> no_queues s p -> wp (pcie_close p) safe s.
Proof.
  intros Hi Hp Hn. apply lookup_lt_is_Some in Hp as [x Hx]. unfold pcie_close.
  apply wp_bind, (wp_the _ _ x); [done|]. apply wp_bind.
  assert (Hend : forall e s', inv e s' -> (e = None \/ e = Some p) -> same_objects s s' -> wp (set_ctrlr p None 0) safe s').
  { intros e s' Hi' He Ho. apply (wp_set_ctrlr e p x); [done|done| |by apply (no_queues_same s)|done|by split].
    destruct Ho as (-> & _). done. }
  destruct (p_ctrlr x) as [c|] eqn:Hc; [|by apply wp_ret, (Hend None); [|left|]].
  destruct (v_pcie _ _ Hi _ _ _ Hx Hc ltac:(done)) as (_ & _ & Hb). rewrite Hb.
  apply wp_bind, (wp_nvme_fini p x); [done..| |].
  - intros r s' Hr Hi' Ho. rewrite (proj2 (Z.eqb_neq r 0) Hr). apply wp_raise. by split.
  - intros s' Hi' Ho _. apply wp_ret, (Hend (Some p)); [done|by right|done].
Qed.

Lemma wp_ctrlr_reinit p x c s Q : inv None s -> pcies s !! p = Some x -> p_ctrlr x = Some c -> no_queues s p ->
  (forall e s', inv None s' -> e = NvmeDeletionError \/ e = NvmeEnumerateError -> Q (Err e) s') ->
  (forall c' s', inv None s' -> ctrls s' = ctrls s -> pcies s' = <[p := mk_pcie (Some c') (p_bdf x) (p_vdid x) (p_backup x) (p_magic x) (p_port x)]> (pcies s) ->
     (c' ∈ ctrlrs (sp s')) -> timeouts (sp s') !! c' = None ->
     (exists t, fst (spdk_nvme_probe (p_bdf x) 0 t) = Some c') -> Q (Ok tt) s') ->
  wp (_ctrlr_reinit p) Q s.
Proof.
  intros Hi Hp Hc Hn Herr Hok. destruct (v_pcie _ _ Hi _ _ _ Hp Hc ltac:(done)) as (_ & Hm & Hb).
  unfold _ctrlr_reinit. apply wp_bind, (wp_the _ _ x); [done|]. rewrite Hc. apply wp_bind, wp_assert; [|by rewrite Hb].
  intros _. apply wp_bind, (wp_nvme_fini p x); [done..| |].
  - intros r s1 Hr Hi1 Ho. apply wp_bind. rewrite (proj2 (Z.eqb_neq r 0) Hr). apply wp_raise, Herr; [done|by left].
  - intros s1 Hi1 Ho _. apply wp_bind, wp_ret. pose proof (no_queues_same _ _ p Hn Ho) as Hn1.
    destruct Ho as (O1 & O2 & O3 & O4). assert (Hp1 : pcies s1 !! p = Some x) by (by rewrite O1).
    apply wp_bind, (wp_nvme_init (Some p)); [done| |].
    + intros s2 Hi2 Ho2. pose proof (no_queues_same _ _ p Hn1 Ho2) as Hn2. destruct Ho2 as (P1 & P2 & P3 & P4).
      apply wp_bind, (wp_set_ctrlr (Some p) p x); [done|by right|by rewrite P1|done|done|].
      intros s3 Hi3 _ _ _. apply wp_raise, Herr; [done|by right].
    + intros c' s2 Hi2 Ho2 Hc' Ht' Hno Hpr. pose proof (no_queues_same _ _ p Hn1 Ho2) as Hn2. destruct Ho2 as (P1 & P2 & P3 & P4).
      apply wp_bind, (wp_set_ctrlr (Some p) p x); [done|by right|by rewrite P1|done| |].
      * intros d [= <-]. split_and!; try done. intros p' x' Hp' Hne. apply (Hno p' x'); [by rewrite P1 in Hp'|congruence].
      * intros s3 Hi3 Hs3 Hsp3 Hpc3. apply wp_ret, (Hok c'); [done|by rewrite Hs3, P2, O2|by rewrite Hpc3, P1, O1|by rewrite Hsp3|by rewrite Hsp3|done].
Qed.

Lemma wp_register c ms s Q : inv None s -> (c ∈ ctrlrs (sp s)) ->
  (forall t, inv None (set_sp t s) -> ctrlrs t = ctrlrs (sp s) -> Q (Ok tt) (set_sp t s)) ->
  wp (nvme_register_timeout_cb (Some c) ms) Q s.
Proof.
  intros Hi Hc HQ. unfold nvme_register_timeout_cb. apply wp_bind, wp_use_ctrlr; [done|]. apply wp_spdk. cbn [fst snd].
  destruct (register_spec c (ms * 1000) (sp s)) as (H1 & H2 & _). apply HQ; [by apply inv_spdk|done].
Qed.

(** The start-up changes no handle of a controller or a queue pair. *)
Lemma wp_run_init c s Q : inv None s ->
  (forall r t, inv None (set_sp t s) -> fine r -> ctrlrs t = ctrlrs (sp s) -> timeouts t = timeouts (sp s) -> Q r (set_sp t s)) ->
  wp (r ← spdk (run_init c); lift r) Q s.
Proof.
  intros Hi HQ. apply wp_bind, wp_spdk. destruct (run_init c (sp s)) as [r t] eqn:E. cbn [fst snd].
  destruct (init_ok _ _ _ _ E) as (H1 & H2 & H3 & H4). apply wp_lift, HQ; try done. by apply inv_spdk.
Qed.

Lemma open_live s p : inv None s -> is_open s p ->
  exists x c, pcies s !! p = Some x /\ p_ctrlr x = Some c /\ (c ∈ ctrlrs (sp s)) /\ p_magic x = MAGIC.
Proof.
  intros Hi (x & c & Hx & Hc). destruct (v_pcie _ _ Hi _ _ _ Hx Hc ltac:(done)) as (? & ? & _). by exists x, c.
Qed.

Lemma controller_new_safe p b s : inv None s -> is_open s p -> wp (controller_new p b) safe s.
Proof.
  intros Hi Ho. destruct (open_live s p Hi Ho) as (x & c & Hx & Hc & Hl & _).
  unfold controller_new. apply wp_bind, (wp_the _ _ x); [done|]. rewrite Hc.
  apply wp_bind, wp_register; [done|done|]. intros t Hi1 Ht.
  assert (Hend : forall t, inv None (set_sp t s) -> wp (s0 ← get;
     modify (fun s0 => set_ctrls (ctrls s0 ++ [mk_controller p 10000 b]) s0) ;; mret (length (ctrls s0))) safe (set_sp t s)).
  { intros t' Hi'. apply wp_bind, wp_get, wp_bind, wp_modify, wp_ret. split; [|done]. apply inv_ctrls; [done| |]; cbn.
    - intros i y Hy. exists y. split; [by apply lookup_app_l_Some|done].
    - intros i y [Hy|[_ ->]]%lookup_snoc; [by apply (v_ctrl _ _ Hi' i)|by exists x]. }
  apply wp_bind. destruct (_ && _); [|by apply wp_ret, Hend].
  apply wp_bind, wp_use_ctrlr; [by cbn; rewrite Ht|]. apply wp_run_init; [done|].
  intros [[]|e] t2 Hi2 Hf _ _; [by apply Hend|by split].
Qed.

Lemma wp_uint {A} w v (k : Z -> script T -> Prop) s : inv None s -> (forall v', k v' s) ->
  wp (lift (to_uint w v)) (fun r s' => match r with Ok a => k a s' | Err e => safe (Err e : res A) s' end) s.
Proof. intros Hi Hk. apply wp_lift. unfold to_uint. by destruct (_ && _). Qed.

Lemma timeout_set_safe i ms s : inv None s -> ctrl_open s i -> wp (timeout_set i ms) safe s.
Proof.
  intros Hi (x & Hx & Ho). destruct (open_live s _ Hi Ho) as (y & c & Hy & Hc & Hl & _).
  unfold timeout_set. apply wp_bind, (wp_the _ _ x); [done|]. apply wp_bind, wp_uint; [done|]. intros ms'.
  apply wp_bind, wp_modify, wp_bind, (wp_the _ _ y); [done|]. rewrite Hc.
  apply wp_register; [|done|by intros; split]. apply inv_ctrls; [done| |].
  - intros j z Hz. destruct (decide (j = i)) as [->|Hne].
    + eexists. split; [apply list_lookup_insert_eq; by apply lookup_lt_Some in Hx|]. cbn. congruence.
    + exists z. by rewrite list_lookup_insert_ne.
  - intros j z Hz. destruct (decide (j = i)) as [->|Hne].
    + rewrite list_lookup_insert_eq in Hz by (by apply lookup_lt_Some in Hx). injection Hz as <-. by exists y.
    + rewrite list_lookup_insert_ne in Hz by done. by apply (v_ctrl _ _ Hi j).
Qed.

Lemma controller_use_safe i s : inv None s -> ctrl_open s i -> wp (controller_use i) safe s.
Proof.
  intros Hi (x & Hx & Ho). destruct (open_live s _ Hi Ho) as (y & c & Hy & Hc & Hl & _).
  unfold controller_use. apply wp_bind, (wp_the _ _ x); [done|]. apply wp_bind, (wp_the _ _ y); [done|]. rewrite Hc.
  apply wp_bind, wp_use_ctrlr; [done|]. by apply wp_ret.
Qed.

(** [Controller.reset]: what it leaves. *)
Lemma wp_reset i x s Q : inv None s -> ctrls s !! i = Some x -> is_open s (c_pcie x) -> no_queues s (c_pcie x) ->
  (forall e s', inv None s' -> fine (Err e : res unit) -> Q (Err e) s') ->
  (forall c s', inv None s' -> (exists y, pcies s' !! c_pcie x = Some y /\ p_ctrlr y = Some c) -> timeouts (sp s') !! c = None ->
     (c ∈ ctrlrs (sp s')) -> c_skip_init x = false ->
     (forall y, pcies s !! c_pcie x = Some y -> exists t, fst (spdk_nvme_probe (p_bdf y) 0 t) = Some c) -> Q (Ok tt) s') ->
  wp (reset i) Q s.
Proof.
  intros Hi Hx (y & c & Hy & Hc) Hn Herr Hok. unfold reset. apply wp_bind, (wp_the _ _ x); [done|].
  apply wp_bind, wp_spdk. destruct (driver_cleanup (sp s)) as [r t] eqn:E. cbn [fst snd].
  destruct (cleanup_ok _ _ _ E) as [(H1 & H2 & _) Hf]. assert (Hi1 : inv None (set_sp t s)) by (by apply inv_spdk).
  apply wp_bind, wp_lift. destruct r as [[]|e]; [|by apply Herr].
  apply wp_bind, (wp_ctrlr_reinit (c_pcie x) y c); [done|done|done|done| |].
  { intros e s' Hi' [-> | ->]; by apply Herr. }
  intros c' s2 Hi2 Hcs Hps Hl Ht Hpr. unfold _nvme_init. apply wp_bind, (wp_the _ _ x); [by rewrite Hcs|].
  apply wp_bind, wp_assert; [intros Hs|intros _; by apply Herr].
  assert (Hy2 : pcies s2 !! c_pcie x = Some (mk_pcie (Some c') (p_bdf y) (p_vdid y) (p_backup y) (p_magic y) (p_port y))).
  { rewrite Hps. apply list_lookup_insert_eq. by apply lookup_lt_Some in Hy. }
  apply wp_bind, (wp_the _ _ _ _ _ Hy2). apply wp_bind, wp_use_ctrlr; [done|]. apply wp_run_init; [done|].
  intros [[]|e] t3 Hi3 Hf3 Hc3 Ht3; [|by apply Herr]. apply (Hok c'); [done|by eexists|by cbn; rewrite Ht3|by cbn; rewrite Hc3| |].
  - by destruct (c_skip_init x).
  - intros y'. rewrite Hy. by intros [= <-].
Qed.

Lemma qpair_new_safe i depth prio ien iv s : inv None s -> ctrl_open s i -> wp (qpair_new i depth prio ien iv) safe s.
Proof.
  intros Hi (x & Hx & Ho). destruct (open_live s _ Hi Ho) as (y & c & Hy & Hc & Hl & _). unfold qpair_new.
  do 3 (apply wp_bind, wp_uint; [done|]; intros ?). apply wp_bind, wp_assert; intros _; [|by split].
  apply wp_bind, (wp_the _ _ x); [done|]. apply wp_bind, (wp_the _ _ y); [done|]. rewrite Hc.
  apply wp_bind, wp_use_ctrlr; [done|]. apply wp_bind, wp_get, wp_bind, wp_assert; intros _; [|by split].
  unfold qpair_create. apply wp_bind, wp_bind, wp_use_ctrlr; [done|]. apply wp_spdk.
  destruct (spdk_alloc_io_qpair _ _ (sp s)) as [[h|] t] eqn:E; cbn [fst snd].
  - destruct (alloc_some _ _ _ _ _ E) as (Hf & Hq & Ht & _). apply wp_bind, wp_get, wp_bind, wp_modify, wp_ret.
    split; [|done]. by apply (inv_push_queue s i x y c h t).
  - destruct (alloc_none _ _ _ _ E) as (Ht & Hq & _). apply wp_raise. split; [by apply inv_spdk|done].
Qed.

Lemma qpair_use_safe k q h s : inv None s -> qpairs s !! k = Some q -> q_ptr q = Some h -> wp (qpair_use k) safe s.
Proof.
  intros Hi Hk Hh. destruct (v_queue _ _ Hi _ _ Hk) as (x & y & _ & _ & Hq). destruct (Hq h Hh) as (c & _ & Hc & _).
  unfold qpair_use. apply wp_bind, (wp_the _ _ q); [done|]. rewrite Hh. apply wp_bind, (wp_use_qpair h c); [done|]. by apply wp_ret.
Qed.

Lemma qpair_delete_safe k s : inv None s -> (k < length (qpairs s))%nat -> wp (qpair_delete k) safe s.
Proof.
  intros Hi Hk. apply lookup_lt_is_Some in Hk as [q Hk]. destruct (v_queue _ _ Hi _ _ Hk) as (x & y & Hx & Hy & Hq).
  unfold qpair_delete. apply wp_bind, (wp_the _ _ q); [done|]. apply wp_bind, (wp_the _ _ x); [done|].
  apply wp_bind, (wp_the _ _ y); [done|].
  assert (Hend : forall t, ctrlrs t = ctrlrs (sp s) ->
    qps t = match q_ptr q with Some h => delete h (qps (sp s)) | None => qps (sp s) end ->
    wp (modify (fun s => set_qpairs (<[k := mk_qpair None (q_nvme q)]> (qpairs s)) s)) safe (set_sp t s)).
  { intros t Ht Hqt. apply wp_modify. split; [|done]. by apply (inv_drop_queue s k q t). }
  destruct (q_ptr q) as [h|] eqn:Eh.
  2: { replace s with (set_sp (sp s) s) at 1 by (by destruct s). apply wp_bind.
       destruct (p_magic y =? MAGIC), (p_ctrlr y); apply wp_ret, Hend; done. }
  destruct (Hq h eq_refl) as (c & Hc & Hqh & _). destruct (v_pcie _ _ Hi _ _ _ Hy Hc ltac:(done)) as (_ & Hm & _).
  rewrite Hm, Z.eqb_refl, Hc. apply wp_bind, wp_bind. unfold qpair_free. apply wp_bind, (wp_use_qpair h c); [done|].
  apply wp_spdk. destruct (spdk_free_io_qpair h (sp s)) as [r t] eqn:E; cbn [fst snd]. destruct (Z.eqb_spec r 0) as [->|Hr].
  - destruct (free_ok _ _ _ E) as (H1 & H2 & _). by apply wp_ret, Hend.
  - destruct (free_fail _ _ _ _ E Hr) as (H1 & H2 & _). apply wp_raise. split; [by apply inv_spdk|done].
Qed.

Lemma namespace_new_safe i nsid n s : inv None s -> ctrl_open s i -> wp (namespace_new i nsid n) safe s.
Proof.
  intros Hi (x & Hx & Ho). destruct (open_live s _ Hi Ho) as (y & c & Hy & Hc & Hl & _). unfold namespace_new.
  do 2 (apply wp_bind, wp_uint; [done|]; intros ?).
  apply wp_bind, (wp_the _ _ x); [done|]. apply wp_bind, (wp_the _ _ y); [done|]. rewrite Hc.
  apply wp_bind, wp_use_ctrlr; [done|]. apply wp_bind, wp_spdk.
  destruct (c_ns_init _ _ _ (sp s)) as [h t] eqn:E; cbn [fst snd]. destruct (ns_init_spec _ _ _ _ _ _ E) as ((H1 & H2 & _) & _).
  assert (Hi1 : inv None (set_sp t s)) by (by apply inv_spdk). destruct h as [h|]; [|by apply wp_raise; split].
  apply wp_bind, wp_get, wp_bind, wp_modify, wp_ret. split; [|done]. apply inv_nspaces; [done|]. cbn.
  intros j m [Hj|[_ ->]]%lookup_snoc; [by apply (v_ns _ _ Hi j)|by exists x].
Qed.

(** A namespace object with another pointer. *)
Lemma inv_ns_ptr s j n h : inv None s -> nspaces s !! j = Some n ->
  inv None (set_nspaces (<[j := mk_nspace h (n_nvme n) (n_nsid n)]> (nspaces s)) s).
Proof.
  intros Hi Hj. apply inv_nspaces; [done|]. intros j' m Hm. destruct (decide (j' = j)) as [->|Hne].
  - rewrite list_lookup_insert_eq in Hm by (by apply lookup_lt_Some in Hj). injection Hm as <-. by apply (v_ns _ _ Hi j n).
  - rewrite list_lookup_insert_ne in Hm by done. by apply (v_ns _ _ Hi j').
Qed.

(** The pointer that is fetched is one of the controller as it is now. *)
Lemma wp_nvme_get_ns s j n x y c Q : inv None s -> nspaces s !! j = Some n -> ctrls s !! n_nvme n = Some x ->
  pcies s !! c_pcie x = Some y -> p_ctrlr y = Some c ->
  (forall s', inv None s' -> sp s' = sp s -> qpairs s' = qpairs s -> is_Some (nspaces s' !! j) ->
     ctrls s' = ctrls s -> (forall h, spdk_get_ns c (n_nsid n) (sp s) = Some h -> nss (sp s) !! h = Some c) ->
     Q (Ok (spdk_get_ns c (n_nsid n) (sp s))) s') ->
  wp (nvme_get_ns j) Q s.
Proof.
  intros Hi Hj Hx Hy Hc HQ. destruct (v_pcie _ _ Hi _ _ _ Hy Hc ltac:(done)) as (Hl & _). unfold nvme_get_ns.
  apply wp_bind, (wp_the _ _ n); [done|]. apply wp_bind, (wp_the _ _ x); [done|]. apply wp_bind, (wp_the _ _ y); [done|].
  rewrite Hc. apply wp_bind, wp_use_ctrlr; [done|]. apply wp_bind, wp_get, wp_bind, wp_modify, wp_ret, HQ; [|done|done| |done|].
  - by apply inv_ns_ptr.
  - cbn. eexists. apply list_lookup_insert_eq. by apply lookup_lt_Some in Hj.
  - intros h. apply get_ns_spec.
Qed.

Lemma wp_use_ns h c Q s : nss (sp s) !! h = Some c -> Q (Ok h) s -> wp (use_ns (Some h)) Q s.
Proof. intros Hc HQ. unfold wp, use_ns, mbind, M_bind, get. rewrite decide_True by (by exists c). done. Qed.

Lemma namespace_use_safe j s : inv None s -> has_ns s j -> wp (namespace_use j) safe s.
Proof.
  intros Hi (n & x & y & c & Hj & Hx & Hy & Hc & Hn). unfold namespace_use.
  apply wp_bind, (wp_nvme_get_ns s j n x y c); [done..|]. intros s' Hi' Hs _ _ _ Hh.
  destruct (spdk_get_ns c (n_nsid n) (sp s)) as [h|]; [|done].
  apply wp_bind, (wp_use_ns h c); [by rewrite Hs, (Hh h)|]. by apply wp_ret.
Qed.

Lemma namespace_io_safe j k s : inv None s -> has_ns s j -> has_queue s k -> wp (namespace_io j k) safe s.
Proof.
  intros Hi (n & x & y & c & Hj & Hx & Hy & Hc & Hn) (q & p & Hk & Hp). unfold namespace_io.
  apply wp_bind, (wp_nvme_get_ns s j n x y c); [done..|]. intros s' Hi' Hs Hqs _ _ Hh.
  destruct (spdk_get_ns c (n_nsid n) (sp s)) as [h|]; [|done]. rewrite <- Hqs in Hk.
  destruct (v_queue _ _ Hi' _ _ Hk) as (x' & y' & _ & _ & Hq). destruct (Hq p Hp) as (d & _ & Hd & _).
  apply wp_bind, (wp_the _ _ q); [done|]. apply wp_bind, (wp_use_ns h c); [by rewrite Hs, (Hh h)|].
  rewrite Hp. apply wp_bind, (wp_use_qpair p d); [done|]. by apply wp_ret.
Qed.

Lemma namespace_close_safe j s : inv None s -> (j < length (nspaces s))%nat -> wp (namespace_close j) safe s.
Proof.
  intros Hi Hj. apply lookup_lt_is_Some in Hj as [n Hj]. destruct (v_ns _ _ Hi _ _ Hj) as [x Hx].
  destruct (v_ctrl _ _ Hi _ _ Hx) as [y Hy]. unfold namespace_close.
  apply wp_bind, (wp_the _ _ n); [done|]. apply wp_bind, (wp_the _ _ x); [done|]. apply wp_bind, (wp_the _ _ y); [done|].
  assert (Hend : forall s', inv None s' -> is_Some (nspaces s' !! j) -> ctrls s' = ctrls s ->
    wp (modify (fun s => set_nspaces (<[j := mk_nspace None (n_nvme n) (n_nsid n)]> (nspaces s)) s)) safe s').
  { intros s' Hi' [m Hm] Hcs. apply wp_modify. split; [|done]. apply inv_nspaces; [done|]. intros j' m' Hm'.
    destruct (decide (j' = j)) as [->|Hne].
    - rewrite list_lookup_insert_eq in Hm' by (by apply lookup_lt_Some in Hm). injection Hm' as <-.
      cbn. exists x. by rewrite Hcs.
    - rewrite list_lookup_insert_ne in Hm' by done. by apply (v_ns _ _ Hi' j'). }
  apply wp_bind. destruct (p_magic y =? MAGIC); [|by apply wp_ret, Hend]. destruct (p_ctrlr y) as [c|] eqn:Hc; [|by apply wp_ret, Hend].
  apply wp_bind, (wp_nvme_get_ns s j n x y c); [done..|]. intros s' Hi' Hs _ Hj' Hcs _.
  destruct (spdk_get_ns c (n_nsid n) (sp s)) as [h|]; [|by apply wp_ret, Hend]. apply wp_bind, wp_spdk.
  destruct (c_ns_fini h (sp s')) as [r t] eqn:E; cbn [fst snd]. destruct (ns_fini_spec _ _ _ _ E) as (H1 & H2 & _).
  assert (Hi1 : inv None (set_sp t s')) by (by apply inv_spdk). destruct (r =? 0); [by apply wp_ret, Hend|by apply wp_raise].
Qed.

(** Every operation a script may do. *)
Lemma run_op_safe o s : inv None s -> allowed s o -> wp (run_op o) safe s.
Proof.
  assert (Hn : forall A (m : P A), wp m safe s -> wp (_ ← m; mret tt) safe s).
  { intros A m Hm. apply wp_bind. eapply wp_mono; [exact Hm|]. by intros [a|e] s' [? ?]. }
  intros Hi Ha. destruct o as [addr port|p|p b|i ms|i|i|i depth prio ien iv|k|k|i nsid n|j|j k|j]; cbn [run_op allowed] in *.
  - by apply Hn, pcie_new_safe.
  - destruct Ha. by apply pcie_close_safe.
  - by apply Hn, controller_new_safe.
  - by apply timeout_set_safe.
  - by apply controller_use_safe.
  - destruct Ha as (x & Hx & Ho & Hq). apply (wp_reset i x); try done.
  - by apply Hn, qpair_new_safe.
  - destruct Ha as (q & h & Hk & Hh). by apply (qpair_use_safe k q h).
  - by apply qpair_delete_safe.
  - by apply Hn, namespace_new_safe.
  - by apply namespace_use_safe.
  - destruct Ha. by apply namespace_io_safe.
  - by apply namespace_close_safe.
Qed.

Lemma run_ops_safe l s : inv None s -> disciplined l s -> Forall fine (fst (run_ops l s)) /\ inv None (snd (run_ops l s)).
Proof.
  revert s. induction l as [|o l IH]; intros s Hi Hd; [by split; [constructor|]|]. destruct Hd as [Ha Hd].
  pose proof (run_op_safe o s Hi Ha) as Hw. unfold wp in Hw. cbn [run_ops].
  destruct (run_op o s) as [r s1]. cbn [fst snd] in *. destruct Hw as [Hi1 Hf]. destruct (IH s1 Hi1 Hd) as [H1 H2].
  destruct (run_ops l s1) as [rs s2]. split; [by constructor|done].
Qed.

(** A script just started. *)
Definition start (t : T) : script T := mk_script t [] [] [] [] [].

Lemma inv_start t : qps t = ∅ -> inv None (start t).
Proof. intros Hq. split; cbn; try done; [by rewrite Hq|]. split; [constructor|]. split; [|done]. intros c Hc. by apply not_elem_of_nil in Hc. Qed.


(** C14. What [Controller.reset] leaves, at any point of such a script with the
    queue pairs deleted: when it returns, the [Pcie] has a live controller that
    was attached again, on which no timeout is registered any more, whatever
    [Controller.timeout] says; a controller made with [nvme_init_func=True] is
    never reset without an exception, and neither is a [Tcp] target, whose
    address is looked for among the PCI devices. *)
Theorem reset_effect t l i x y c : qps t = ∅ -> disciplined l (start t) ->
  let s := snd (run_ops l (start t)) in
  ctrls s !! i = Some x -> pcies s !! c_pcie x = Some y -> p_ctrlr y = Some c -> no_queues s (c_pcie x) ->
  let '(r, s') := reset i s in
  fine r
  /\ (r = Ok tt -> exists y' c', pcies s' !! c_pcie x = Some y' /\ p_ctrlr y' = Some c' /\ (c' ∈ ctrlrs (sp s'))
        /\ timeouts (sp s') !! c' = None)
  /\ (c_skip_init x = true -> exists e, r = Err e)
  /\ ((forall t, fst (spdk_nvme_probe (p_bdf y) 0 t) = None) -> exists e, r = Err e).
Proof.
  intros Hq Hd s Hx Hy Hc Hn. destruct (run_ops_safe l _ (inv_start t Hq) Hd) as [_ Hi]. fold s in Hi.
  pose proof (wp_reset i x s (fun r s' => fine r
    /\ (r = Ok tt -> exists y' c', pcies s' !! c_pcie x = Some y' /\ p_ctrlr y' = Some c' /\ (c' ∈ ctrlrs (sp s'))
        /\ timeouts (sp s') !! c' = None)
    /\ (c_skip_init x = true -> exists e, r = Err e)
    /\ ((forall t, fst (spdk_nvme_probe (p_bdf y) 0 t) = None) -> exists e, r = Err e))) as Hw.
  unfold wp in Hw. destruct (reset i s) as [r s']. apply Hw; [done|done|by exists y, c|done| |].
  - intros e s1 _ Hf. split; [done|]. split; [done|]. split; intros _; by exists e.
  - intros c' s1 _ (y' & Hy' & Hc') Ht Hl Hs Hpr. split; [done|]. split; [by intros _; exists y', c'|]. split; [by rewrite Hs|].
    intros Hno. destruct (Hpr y Hy) as [t0 Ht0]. by rewrite Hno in Ht0.
Qed.
End Lifecycle.

(** ** An SPDK for examples *)

(** One PCI device and one target; handles are numbered. *)
Record toy := mk_toy {
  t_next : positive; t_ctrlrs : gset positive; t_qps : gmap positive positive; t_nss : gmap positive positive;
  t_timeouts : gmap positive Z
}.

Definition toy_probe (a : string) (port : Z) (t : toy) : option positive * toy :=
  let c := t_next t in
  if ((a =? "0000:01:00.0")%string && (port =? 0)) || ((a =? "10.0.0.1")%string && negb (port =? 0)) then
    if decide (c ∈ t_ctrlrs t \/ is_Some (t_nss t !! c)) then (None, t)
    else (Some c, mk_toy (c + 1) ({[c]} ∪ t_ctrlrs t) (t_qps t) (<[c := c]> (t_nss t)) (delete c (t_timeouts t)))
  else (None, t).

Definition toy_detach (c : positive) (t : toy) : Z * toy :=
  (0, mk_toy (t_next t) (t_ctrlrs t ∖ {[c]}) (t_qps t) (filter (fun kv => kv.2 <> c) (t_nss t))
        (t_timeouts t)).

Definition toy_alloc (c : positive) (_ : qpair_opts) (t : toy) : option positive * toy :=
  let q := t_next t in
  match t_qps t !! q with
  | Some _ => (None, t)
  | None => (Some q, mk_toy (q + 1) (t_ctrlrs t) (<[q := c]> (t_qps t)) (t_nss t) (t_timeouts t))
  end.

Definition toy_free (q : positive) (t : toy) : Z * toy :=
  (0, mk_toy (t_next t) (t_ctrlrs t) (delete q (t_qps t)) (t_nss t) (t_timeouts t)).

Definition toy_get_ns (c : positive) (n : Z) (t : toy) : option positive :=
  if decide (t_nss t !! c = Some c) then Some c else None.

#[export] Instance toy_spdk : Spdk toy := {
  ctrlrs := t_ctrlrs; qps := t_qps; nss := t_nss; timeouts := t_timeouts;
  active c t := (map_to_list (filter (fun kv => kv.2 = c) (t_qps t))).*1;
  spdk_nvme_probe := toy_probe; spdk_nvme_detach := toy_detach;
  spdk_alloc_io_qpair := toy_alloc; spdk_free_io_qpair := toy_free;
  spdk_register_timeout c ms t := mk_toy (t_next t) (t_ctrlrs t) (t_qps t) (t_nss t) (<[c := ms]> (t_timeouts t));
  c_ns_init c n l t := (toy_get_ns c n t, t); spdk_get_ns := toy_get_ns; c_ns_fini h t := (0, t)
}.

Lemma toy_get_ns_spec c n t h : toy_get_ns c n t = Some h -> t_nss t !! h = Some c.
Proof. unfold toy_get_ns. case_decide; [|done]. by intros [= <-]. Qed.

#[export] Instance toy_spdk_ok : SpdkOk toy.
Proof.
  split; cbn.
  - intros a p s s'. unfold toy_probe. destruct (_ || _); [|by intros [= <-]]. case_decide; [by intros [= <-]|done].
  - intros a p s s' c. unfold toy_probe. destruct (_ || _); [|done]. case_decide as Hd; [done|]. intros [= <- <-]. cbn.
    split; [tauto|]. split_and!; try done. intros n d Hn. rewrite lookup_insert_ne; [done|].
    intros <-. apply Hd. right. by exists d.
  - intros c s r s' [= <- <-]. done.
  - intros c s s' [= <-]. cbn. split; [done|]. split; [done|]. split; [|done]. by intros q [_ Hq]%map_lookup_filter_Some.
  - intros c o s s'. unfold toy_alloc. by destruct (t_qps s !! t_next s); [intros [= <-]|].
  - intros c o s s' q. unfold toy_alloc. destruct (t_qps s !! t_next s) eqn:E; [done|]. by intros [= <- <-].
  - intros q s r s' [= <- <-]. done.
  - intros q s s' [= <-]. done.
  - intros c s q. rewrite list_elem_of_fmap. split.
    + intros ([k d] & -> & Hk%elem_of_map_to_list%map_lookup_filter_Some). cbn in *. destruct Hk as [Hk <-]. done.
    + intros Hq. exists (q, c). split; [done|]. apply elem_of_map_to_list, map_lookup_filter_Some. done.
  - done.
  - intros c n l s r s' [= <- <-]. split; [done|]. intros h. apply toy_get_ns_spec.
  - intros c n s h. apply toy_get_ns_spec.
  - intros h s r s' [= <- <-]. done.
Qed.

(** ** Witnesses *)
Definition toy_start : toy := mk_toy 1 ∅ ∅ ∅ ∅.
Definition toy_exists (a : string) : bool := (a =? "0000:01:00.0")%string.
Definition toy_clean (t : toy) : res unit * toy := (Ok tt, t).
Definition toy_init (_ : positive) (t : toy) : res unit * toy := (Ok tt, t).
Definition toy_pci (_ : positive) (_ : toy) : mem_device := example_device.
Definition toy_cap (_ : positive) (_ : toy) : Z := 1023.

Abbreviation toy_run := (run_ops true false toy_pci toy_cap toy_exists toy_clean toy_init).
Abbreviation toy_op := (run_op true false toy_pci toy_cap toy_exists toy_clean toy_init).
Abbreviation toy_disciplined := (disciplined true false toy_pci toy_cap toy_exists toy_clean toy_init).

Definition setup : list op := [OPcie "01:00.0" 0; OController 0 false; OQpair 0 16 0 true 1].

(** Two ways to go wrong: the queue pair is left when the controller is closed,
    or is used after it was deleted. *)
Example close_with_queue : fst (toy_run (setup ++ [OClose 0]) (start toy_start)) = [Ok tt; Ok tt; Ok tt; Err COutOfBounds].
Proof. by vm_compute. Qed.

Example use_deleted : fst (toy_run (setup ++ [ODelete 0; OQuse 0]) (start toy_start))
  = [Ok tt; Ok tt; Ok tt; Ok tt; Err COutOfBounds].
Proof. by vm_compute. Qed.

(** A namespace made before a reset works after it: its pointer is stale, and
    is replaced before it is used. *)
Example namespace_after_reset :
  let '(rs, s) := toy_run (setup ++ [ODelete 0; ONs 0 1 0; OReset 0]) (start toy_start) in
  Forall (fun r => r = Ok tt) rs /\ fst (the nspaces 0 s) = Ok (mk_nspace (Some 1%positive) 0 1)
  /\ nss (sp s) !! 1%positive = None
  /\ fst (toy_op (ONsUse 0) s) = Ok tt /\ fst (the nspaces 0 (snd (toy_op (ONsUse 0) s))) = Ok (mk_nspace (Some 3%positive) 0 1).
Proof. vm_compute. split; [repeat constructor|done]. Qed.

(** Deleting after closing does nothing; a [Tcp] target cannot be reset. *)
Example delete_after_close : fst (toy_run (setup ++ [ODelete 0; OClose 0; ODelete 0; OClose 0]) (start toy_start))
  = replicate 7 (Ok tt).
Proof. by vm_compute. Qed.

Example reset_tcp : fst (toy_run [OPcie "10.0.0.1" 0; OController 0 false; OReset 0] (start toy_start))
  = [Ok tt; Ok tt; Err NvmeEnumerateError].
Proof. by vm_compute. Qed.

(** One step of a script, its state computed. *)
Ltac step := eapply disciplined_cons; [|vm_compute; reflexivity|].

Definition session : list op := setup ++ [OQuse 0; ONs 0 1 0; OIo 0 0; ODelete 0; OReset 0; ONsUse 0].

Lemma session_disciplined : toy_disciplined session (start toy_start).
Proof.
  unfold session, setup. cbn [app].
  step; [cbn; lia|]. step; [by do 2 eexists|]. step; [eexists; split; [reflexivity|by do 2 eexists]|].
  step; [by do 2 eexists|]. step; [eexists; split; [reflexivity|by do 2 eexists]|].
  step; [split; [by do 4 eexists|by do 2 eexists]|]. step; [cbn; lia|]. step.
  { eexists. split; [reflexivity|]. split; [by do 2 eexists|]. intros [|k] q x Hk; [by injection Hk as <-|done]. }
  step; [by do 4 eexists|]. done.
Qed.


Lemma reset_effect_witness :
  let '(r, s') := reset true false toy_clean toy_init 0 (snd (toy_run session (start toy_start))) in
  r = Ok tt /\ exists c', timeouts (sp s') !! c' = None /\ c' ∈ ctrlrs (sp s').
Proof.
  assert (Hc : ctrls (snd (toy_run session (start toy_start))) !! 0%nat = Some (mk_controller 0 10000 false)) by (vm_compute; reflexivity).
  assert (Hp : pcies (snd (toy_run session (start toy_start))) !! 0%nat
    = Some (mk_pcie (Some 3%positive) "0000:01:00.0" "0000 0000" false MAGIC 0)) by (vm_compute; reflexivity).
  assert (Hq : qpairs (snd (toy_run session (start toy_start))) = [mk_qpair None 0]) by (vm_compute; reflexivity).
  assert (Hr : fst (reset true false toy_clean toy_init 0 (snd (toy_run session (start toy_start)))) = Ok tt) by (vm_compute; reflexivity).
  assert (Hn : no_queues (snd (toy_run session (start toy_start))) 0).
  { intros [|k] q x Hk; rewrite Hq in Hk; [by injection Hk as <-|discriminate Hk]. }
  assert (H1 : forall (t : toy) r t', toy_clean t = (r, t') -> same_handles t t' /\ fine r) by (intros t r t' [= <- <-]; repeat split).
  assert (H2 : forall c (t : toy) r t', toy_init c t = (r, t') ->
    ctrlrs t' = ctrlrs t /\ qps t' = qps t /\ timeouts t' = timeouts t /\ fine r) by (intros c t r t' [= <- <-]; repeat split).
  pose proof (reset_effect true false toy_pci toy_cap toy_exists toy_clean toy_init eq_refl H1 H2
    toy_start session 0 _ _ 3%positive eq_refl session_disciplined Hc Hp eq_refl Hn) as H.
  destruct (reset true false toy_clean toy_init 0 _) as [r s']. cbn [fst] in Hr. subst r.
  destruct H as (_ & H & _). split; [reflexivity|].
  destruct (H eq_refl) as (y' & c' & _ & _ & H3 & H4). exists c'. split; [exact H4|exact H3].
Defined.
