(* ===== verification/Intr.v ===== *)
(** * Intr: the interrupts of a controller

    src/src/intr_mgt.c: MSI-X or MSI is set up so that each vector writes a
    word in shared memory, which the test then reads, clears and masks for each
    queue pair.  Configuration space is the class of Pcie.v for bytes, with
    functions for wider accesses; the zone that keeps the words, the mapping of
    the BAR and the limits [MAX_VECTOR_NUM] and [MAX_VECTOR_NUM_SHIFT] come from
    SPDK and are arguments. *)
From Stdlib Require Import ZArith Lia ZifyBool.
From stdpp Require Import base list numbers option relations.
From S2P Require Import Prelude PyInt Pcie.
Local Open Scope Z_scope.

(** An entry of the MSI-X table. *)
Record msix_entry := mk_entry { msg_addr : Z; msg_word : Z; mask : Z; rsvd : Z }.

(** [intr_ctrl_t]: the words, and what was set up. *)
Record intr_ctrl := mk_intc {
  msg_data : list Z; max_vec_num : Z; msi_en : bool; msix_en : bool; pvm_support : bool
}.

(** A queue pair: its number, the vector it was created with and whether its
    [trtype] is PCIe. *)
Record queue := mk_queue { q_id : Z; intr_vector : Z; q_pcie : bool }.

(** The device and the shared memory.  [h_zone] is the zone of the controller,
    when reserved; [h_ready] says that [pynvme_intc_ctrl] points to it. *)
Record hw (D : Type) := mk_hw {
  h_cfg : D; h_table : list msix_entry; h_mask : Z; h_zone : option intr_ctrl; h_ready : bool
}.
Arguments mk_hw {D} _ _ _ _ _.
Arguments h_cfg {D} _.
Arguments h_table {D} _.
Arguments h_mask {D} _.
Arguments h_zone {D} _.
Arguments h_ready {D} _.

Section Handlers.
Context {D : Type} `{PciConfig D}.
Variable cfg_read16 cfg_read32 : D -> Z -> Z.
Variable cfg_write16 cfg_write32 : D -> Z -> Z -> D.
Variable MAX_VECTOR_NUM MAX_VECTOR_NUM_SHIFT : Z.
(** A zone just reserved, the physical address of a word of it, and whether
    there is memory for it and the BAR can be mapped. *)
Variable fresh_intc : intr_ctrl.
Variable vtophys : Z -> Z.
Variable zone_ok bar_ok : bool.

(** ** Capabilities *)
Fixpoint find_cap_loop (fuel : nat) (next_offset cid : Z) (d : D) : res Z :=
  match fuel with
  | O => Err OutOfFuel
  | S fuel' =>
      if next_offset =? 0 then Ok next_offset
      else if cfg_read8 d next_offset =? cid then Ok next_offset
      else find_cap_loop fuel' (cfg_read8 d (next_offset + 1)) cid d
  end.

Definition pcie_find_cap_base_addr (cid : Z) (d : D) : res Z :=
  find_cap_loop cap_fuel (cfg_read8 d 0x34) cid d.

(** ** Set-up *)
Definition c_assert (b : bool) : M (hw D) unit := if b then mret tt else raise CAbort.

Definition set_zone (z : option intr_ctrl) (h : hw D) : hw D :=
  mk_hw (h_cfg h) (h_table h) (h_mask h) z (h_ready h).
Definition set_cfg (d : D) (h : hw D) : hw D :=
  mk_hw d (h_table h) (h_mask h) (h_zone h) (h_ready h).
Definition set_table (t : list msix_entry) (h : hw D) : hw D :=
  mk_hw (h_cfg h) t (h_mask h) (h_zone h) (h_ready h).
Definition set_mask (m : Z) (h : hw D) : hw D :=
  mk_hw (h_cfg h) (h_table h) m (h_zone h) (h_ready h).
Definition set_ready (b : bool) (h : hw D) : hw D :=
  mk_hw (h_cfg h) (h_table h) (h_mask h) (h_zone h) b.

(** A name is reserved once: the second reservation gives NULL. *)
Definition reserve_zone : M (hw D) unit :=
  h ← get;
  c_assert (zone_ok && bool_decide (h_zone h = None)) ;;
  modify (set_zone (Some fresh_intc)).

Definition get_zone : M (hw D) intr_ctrl :=
  h ← get; match h_zone h with Some z => mret z | None => raise COutOfBounds end.

Definition with_word (i w : Z) (z : intr_ctrl) : res intr_ctrl :=
  match msg_data z !! Z.to_nat i with
  | Some _ => Ok (mk_intc (<[Z.to_nat i := w]> (msg_data z)) (max_vec_num z) (msi_en z) (msix_en z) (pvm_support z))
  | None => Err COutOfBounds
  end.

Definition put_word (i w : Z) : M (hw D) unit :=
  z ← get_zone; z ← lift (with_word i w z); modify (set_zone (Some z)).

Definition put_entry (i : Z) (e : msix_entry) : M (hw D) unit :=
  h ← get;
  match h_table h !! Z.to_nat i with
  | Some _ => put (set_table (<[Z.to_nat i := e]> (h_table h)) h)
  | None => raise COutOfBounds
  end.

(** The loop over the vectors from [i], [n] of them. *)
Fixpoint fill_vectors (n : nat) (i : Z) : M (hw D) unit :=
  match n with
  | O => mret tt
  | S n' => put_word i 0 ;; put_entry i (mk_entry (vtophys i) 1 0 0) ;; fill_vectors n' (i + 1)
  end.

Definition set_max_vec (n : Z) : M (hw D) unit :=
  z ← get_zone;
  modify (set_zone (Some (mk_intc (msg_data z) n (msi_en z) (msix_en z) (pvm_support z)))).

(** The number of vectors that are set up. *)
Definition vector_count (control : Z) : Z := Z.min (Z.land control 0x7fff + 1) MAX_VECTOR_NUM.

Definition msix_intc_init : M (hw D) bool :=
  h ← get;
  msix_base ← lift (pcie_find_cap_base_addr 0x11 (h_cfg h));
  if msix_base =? 0 then mret false
  else
    reserve_zone ;;
    let bir_val := cfg_read32 (h_cfg h) (msix_base + 4) in
    let bir := Z.land bir_val 0x7 in
    if negb (bir =? 0) && negb (bir =? 4) then mret false
    else
      let control := cfg_read16 (h_cfg h) (msix_base + 2) in
      let vector_num := vector_count control in
      set_max_vec vector_num ;;
      c_assert bar_ok ;;
      fill_vectors (Z.to_nat vector_num) 0 ;;
      modify (fun h => set_cfg (cfg_write16 (h_cfg h) (msix_base + 2) (Z.lor control 0x8000)) h) ;;
      z ← get_zone;
      modify (set_zone (Some (mk_intc (msg_data z) (max_vec_num z) (msi_en z) true (pvm_support z)))) ;;
      modify (set_ready true) ;;
      mret true.

(** The shift of the number of MSI vectors: Multiple Message Capable is bits 3:1
    of the control word. *)
Definition msi_shift (control : Z) : Z :=
  Z.min (MAX_VECTOR_NUM_SHIFT - 1) (wrap 8 (Z.land (Z.shiftr control 1) 0xe)).

Definition msi_intc_init : M (hw D) bool :=
  h ← get;
  msi_cap_base ← lift (pcie_find_cap_base_addr 0x05 (h_cfg h));
  if msi_cap_base =? 0 then mret false
  else
    reserve_zone ;;
    let control := cfg_read16 (h_cfg h) (msi_cap_base + 2) in
    let msg_addr := vtophys 0 in
    let shift := msi_shift control in
    modify (fun h => set_cfg (cfg_write32 (h_cfg h) (msi_cap_base + 4) (wrap 32 msg_addr)) h) ;;
    modify (fun h => set_cfg (cfg_write32 (h_cfg h) (msi_cap_base + 8) (wrap 32 (Z.shiftr msg_addr 32))) h) ;;
    modify (fun h => set_cfg (cfg_write16 (h_cfg h) (msi_cap_base + 0xc) 1) h) ;;
    modify (fun h => set_cfg (cfg_write16 (h_cfg h) (msi_cap_base + 2)
                                (wrap 16 (Z.lor control (Z.lor (Z.shiftl shift 4) 1)))) h) ;;
    z ← get_zone;
    modify (set_zone (Some (mk_intc (msg_data z) (Z.shiftl 1 shift) true (msix_en z) (Z.testbit control 8)))) ;;
    modify (set_ready true) ;;
    mret true.

Definition intc_init : M (hw D) unit :=
  ret ← msix_intc_init;
  ret ← (if (ret : bool) then mret true else msi_intc_init);
  c_assert ret.

Definition intc_fini : M (hw D) unit :=
  h ← get;
  c_assert (h_ready h) ;;
  z ← get_zone;
  (if msix_en z then
     cap_base ← lift (pcie_find_cap_base_addr 0x11 (h_cfg h));
     let control := cfg_read16 (h_cfg h) (cap_base + 2) in
     modify (fun h => set_cfg (cfg_write16 (h_cfg h) (cap_base + 2) (Z.land control 0x7fff)) h)
   else if msi_en z then
     cap_base ← lift (pcie_find_cap_base_addr 0x05 (h_cfg h));
     let control := cfg_read16 (h_cfg h) (cap_base + 2) in
     modify (fun h => set_cfg (cfg_write16 (h_cfg h) (cap_base + 2) (Z.land control 0xfffe)) h)
   else mret tt) ;;
  modify (set_zone None) ;;
  modify (set_ready false).

(** ** The queues *)
Definition intc_zone : M (hw D) intr_ctrl := h ← get; c_assert (h_ready h) ;; get_zone.

Definition intc_get_vec (q : queue) : M (hw D) Z :=
  c_assert (q_pcie q) ;;
  z ← intc_zone;
  c_assert (negb (max_vec_num z =? 0)) ;;
  mret (wrap 16 (intr_vector q mod max_vec_num z)).

Definition intc_clear (q : queue) : M (hw D) unit :=
  c_assert (q_pcie q) ;;
  z ← intc_zone;
  if msix_en z then put_word (q_id q) 0
  else if msi_en z then put_word 0 0
  else mret tt.

Definition get_msg (i : Z) (z : intr_ctrl) : res Z :=
  match msg_data z !! Z.to_nat i with Some w => Ok w | None => Err COutOfBounds end.

(** The vector is kept in a [uint8_t]. *)
Definition intc_isset (q : queue) : M (hw D) bool :=
  c_assert (q_pcie q) ;;
  v ← intc_get_vec q;
  let vector_id := wrap 8 v in
  z ← intc_zone;
  if msix_en z then w ← lift (get_msg vector_id z); mret (negb (w =? 0))
  else if msi_en z then w ← lift (get_msg 0 z); mret (vector_id =? Z.land w 0xff)
  else mret true.

(** The bit of an entry's vector control. *)
Definition put_entry_mask (v b : Z) : M (hw D) unit :=
  h ← get;
  match h_table h !! Z.to_nat v with
  | Some e => put_entry v (mk_entry (msg_addr e) (msg_word e) b (rsvd e))
  | None => raise COutOfBounds
  end.

(** In MSI mode the registers INTMS and INTMC of the controller set and clear
    bits of its mask; [nvme_get_reg32] of INTMS gives the mask. *)
Definition intc_mask (q : queue) : M (hw D) unit :=
  if q_pcie q then
    v ← intc_get_vec q;
    z ← intc_zone;
    if msix_en z then put_entry_mask v 1
    else if msi_en z then
      modify (fun h => set_mask (Z.lor (h_mask h) (wrap 32 (Z.lor (h_mask h) (Z.shiftl 1 v)))) h)
    else mret tt
  else mret tt.

(** What is written to INTMC is the return code of the read, 0, and the bit. *)
Definition intc_unmask (q : queue) : M (hw D) unit :=
  if q_pcie q then
    v ← intc_get_vec q;
    z ← intc_zone;
    if msix_en z then put_entry_mask v 0
    else if msi_en z then
      modify (fun h => set_mask (Z.land (h_mask h) (Z.lnot (wrap 32 (Z.lor 0 (Z.shiftl 1 v))))) h)
    else mret tt
  else mret tt.

Definition intc_get_cmd_vec_info (q : queue) : M (hw D) Z :=
  z ← intc_zone; if msi_en z || msix_en z then intc_get_vec q else mret 0.
End Handlers.

(** ** The walk of the capabilities *)
Section Walk.
Context {D : Type} `{PciConfigOk D}.

Lemma find_cap_chain fuel d o l cid : cap_chain d o l -> 0 <= o < 256 -> (length l < fuel)%nat ->
  find_cap_loop fuel o cid d = Ok (default 0 (snd <$> list_find (fun x => cap_id_at d x = cid) l)).
Proof.
  intros Hc. revert fuel. induction Hc as [|o l Ho Hc IH]; intros fuel Hr Hf.
  - by destruct fuel; [cbn in Hf; lia|].
  - destruct fuel as [|fuel]; [cbn in Hf; lia|]. cbn [find_cap_loop]. zbool. cbn [list_find]. unfold cap_id_at at 2.
    case_decide as Hd.
    + by rewrite (proj2 (Z.eqb_eq _ _)).
    + rewrite (proj2 (Z.eqb_neq _ _)) by done. fold (cap_next_at d o).
      rewrite IH; [|apply cfg_read8_byte|cbn in Hf; lia]. by destruct (list_find _ l) as [[? ?]|].
Qed.

(** The C driver and the Python class find the same capability: on a
    well-formed list [pcie_find_cap_base_addr] gives the offset [cap_offset]
    gives, and 0 exactly where that gives [None]. *)
Theorem cap_walks_agree d l cid : cap_chain d (cfg_read8 d 0x34) l ->
  exists r, cap_offset cid d = Ok r /\ pcie_find_cap_base_addr cid d = Ok (default 0 r) /\ r <> Some 0.
Proof.
  intros Hc. pose proof (cfg_read8_byte d 0x34) as Hb. unfold is_byte in Hb.
  pose proof (cap_chain_bound _ _ _ Hc Hb) as Hl. pose proof (cap_chain_length _ _ _ Hc Hb) as Hp.
  exists (snd <$> list_find (fun x => cap_id_at d x = cid) l). split; [|split].
  - unfold cap_offset. rewrite register_1 by lia. cbn [mbind res_bind]. apply cap_loop_chain; [done|lia|].
    unfold cap_fuel. lia.
  - apply find_cap_chain; [done|lia|]. unfold cap_fuel. lia.
  - destruct (list_find _ l) as [[k x]|] eqn:E; [|done]. apply list_find_Some in E as (E & _).
    apply list_elem_of_lookup_2 in E. rewrite Forall_forall in Hp. specialize (Hp x E). cbn. intros [= ->]. lia.
Qed.
End Walk.

(** ** Set-up *)
Section Setup.
Context {D : Type} `{PciConfig D}.
Variable cfg_read16 cfg_read32 : D -> Z -> Z.
Variable cfg_write16 cfg_write32 : D -> Z -> Z -> D.
Variable MAX_VECTOR_NUM MAX_VECTOR_NUM_SHIFT : Z.
Variable fresh_intc : intr_ctrl.
Variable vtophys : Z -> Z.

Abbreviation init := (intc_init cfg_read16 cfg_read32 cfg_write16 cfg_write32 MAX_VECTOR_NUM MAX_VECTOR_NUM_SHIFT
                        fresh_intc vtophys).
Abbreviation count := (vector_count MAX_VECTOR_NUM).

(** A vector that is set up: its word is clear and its entry writes it. *)
Definition vector_ready (h : hw D) (z : intr_ctrl) (v : Z) : Prop :=
  msg_data z !! Z.to_nat v = Some 0 /\ h_table h !! Z.to_nat v = Some (mk_entry (vtophys v) 1 0 0).

Lemma set_word_run (h : hw D) z i w : h_zone h = Some z -> (Z.to_nat i < length (msg_data z))%nat ->
  put_word i w h = (Ok tt, set_zone (Some (mk_intc (<[Z.to_nat i := w]> (msg_data z)) (max_vec_num z)
                                             (msi_en z) (msix_en z) (pvm_support z))) h).
Proof.
  intros Hz Hi. unfold put_word, get_zone, with_word, mbind, M_bind, get. rewrite Hz. cbn.
  destruct (lookup_lt_is_Some_2 _ _ Hi) as [x ->]. done.
Qed.

Lemma put_entry_run (h : hw D) i e : (Z.to_nat i < length (h_table h))%nat ->
  put_entry i e h = (Ok tt, set_table (<[Z.to_nat i := e]> (h_table h)) h).
Proof.
  intros Hi. unfold put_entry, mbind, M_bind, get. destruct (lookup_lt_is_Some_2 _ _ Hi) as [x ->]. done.
Qed.

Lemma fill_vectors_run n : forall i (h : hw D) z, 0 <= i -> h_zone h = Some z ->
  (Z.to_nat i + n <= length (msg_data z))%nat -> (Z.to_nat i + n <= length (h_table h))%nat ->
  exists h' z', fill_vectors vtophys n i h = (Ok tt, h') /\ h_zone h' = Some z' /\ h_cfg h' = h_cfg h
    /\ h_mask h' = h_mask h /\ length (h_table h') = length (h_table h)
    /\ length (msg_data z') = length (msg_data z) /\ max_vec_num z' = max_vec_num z
    /\ (forall v, i <= v < i + Z.of_nat n -> vector_ready h' z' v)
    /\ (forall v, 0 <= v < i -> msg_data z' !! Z.to_nat v = msg_data z !! Z.to_nat v
                     /\ h_table h' !! Z.to_nat v = h_table h !! Z.to_nat v).
Proof.
  induction n as [|n IH]; intros i h z Hi Hz H1 H2.
  { exists h, z. split_and!; try done. intros. lia. }
  cbn [fill_vectors]. rewrite (run_bind_ok _ _ _ _ _ (set_word_run h z i 0 Hz ltac:(lia))).
  set (z1 := mk_intc _ _ _ _ _). set (h1 := set_zone (Some z1) h).
  rewrite (run_bind_ok _ _ _ _ _ (put_entry_run h1 i (mk_entry (vtophys i) 1 0 0) ltac:(cbn; lia))).
  set (h2 := set_table _ h1).
  destruct (IH (i + 1) h2 z1) as (h' & z' & Hr & Hz' & Hc & Hm & Hlt & Hld & Hmax & Hnew & Hold);
    [lia|done|cbn; rewrite length_insert; lia|cbn; rewrite length_insert; lia|].
  exists h', z'. split; [done|]. split; [done|]. split; [by rewrite Hc|]. split; [by rewrite Hm|].
  split; [rewrite Hlt; cbn; by rewrite length_insert|]. split; [rewrite Hld; cbn; by rewrite length_insert|].
  split; [by rewrite Hmax|]. split.
  - intros v Hv. destruct (decide (v = i)) as [->|Hne]; [|apply Hnew; lia]. unfold vector_ready.
    destruct (Hold i ltac:(lia)) as [-> ->]. cbn. by rewrite !list_lookup_insert_eq by lia.
  - intros v Hv. destruct (Hold v ltac:(lia)) as [-> ->]. cbn. by rewrite !list_lookup_insert_ne by lia.
Qed.

Lemma reserve_zone_run (h : hw D) (zone_ok : bool) : h_zone h = None -> reserve_zone fresh_intc zone_ok h =
  if zone_ok then (Ok tt, set_zone (Some fresh_intc) h) else (Err CAbort, h).
Proof. intros Hz. unfold reserve_zone, c_assert, mbind, M_bind, get. rewrite Hz. by destruct zone_ok. Qed.

Lemma vector_count_bound c : 0 < MAX_VECTOR_NUM -> 0 < count c <= 0x8000.
Proof.
  intros HM. unfold vector_count. change 0x7fff with (Z.ones 15). rewrite Z.land_ones by lia.
  pose proof (Z.mod_pos_bound c (2 ^ 15)). change (2 ^ 15) with 0x8000 in *. lia.
Qed.

(** The first attempt, with the table in BAR 0 or 4. *)
Lemma msix_intc_init_run (h : hw D) base :
  h_zone h = None -> pcie_find_cap_base_addr 0x11 (h_cfg h) = Ok base -> base <> 0 -> 0 < MAX_VECTOR_NUM ->
  let bir := Z.land (cfg_read32 (h_cfg h) (base + 4)) 0x7 in
  let n := count (cfg_read16 (h_cfg h) (base + 2)) in
  (bir =? 0) || (bir =? 4) = true -> n <= Z.of_nat (length (h_table h)) ->
  n <= Z.of_nat (length (msg_data fresh_intc)) ->
  exists h' z, msix_intc_init cfg_read16 cfg_read32 cfg_write16 MAX_VECTOR_NUM fresh_intc vtophys true true h = (Ok true, h')
    /\ h_zone h' = Some z /\ h_ready h' = true /\ msix_en z = true /\ max_vec_num z = n
    /\ (forall v, 0 <= v < n -> vector_ready h' z v)
    /\ h_cfg h' = cfg_write16 (h_cfg h) (base + 2) (Z.lor (cfg_read16 (h_cfg h) (base + 2)) 0x8000).
Proof.
  intros Hz Hb Hb0 HM bir n Hbir H1 H2. pose proof (vector_count_bound (cfg_read16 (h_cfg h) (base + 2)) HM) as Hn. fold n in Hn.
  set (z1 := mk_intc (msg_data fresh_intc) n (msi_en fresh_intc) (msix_en fresh_intc) (pvm_support fresh_intc)).
  set (h1 := set_zone (Some z1) (set_zone (Some fresh_intc) h)).
  destruct (fill_vectors_run (Z.to_nat n) 0 h1 z1) as (h2 & z2 & Hr & Hz2 & Hc & Hm & _ & _ & Hmax & Hnew & _);
    [lia|done|cbn; lia|cbn; lia|].
  set (z3 := mk_intc (msg_data z2) (max_vec_num z2) (msi_en z2) true (pvm_support z2)).
  set (d' := cfg_write16 (h_cfg h2) (base + 2) (Z.lor (cfg_read16 (h_cfg h) (base + 2)) 0x8000)).
  exists (set_ready true (set_zone (Some z3) (set_cfg d' h2))), z3. split; [|split_and!; try done].
  - unfold msix_intc_init. rewrite (run_bind_ok get _ h h h) by done.
    rewrite (run_bind_ok (lift _) _ h base h) by (unfold lift; by rewrite Hb). zbool.
    rewrite (run_bind_ok _ _ _ _ _ (reserve_zone_run h true Hz)). cbn zeta. fold bir.
    replace (negb (bir =? 0) && negb (bir =? 4)) with false by (symmetry; by rewrite <- negb_orb, Hbir).
    fold n. rewrite (run_bind_ok (set_max_vec n) _ (set_zone (Some fresh_intc) h) tt h1) by done.
    unfold c_assert. rewrite bind_ret_l, (run_bind_ok _ _ _ _ _ Hr).
    rewrite (run_bind_ok (modify _) _ h2 tt (set_cfg d' h2)) by done.
    rewrite (run_bind_ok get_zone _ (set_cfg d' h2) z2 (set_cfg d' h2))
      by (unfold get_zone, mbind, M_bind, get; cbn; by rewrite Hz2). done.
  - intros v Hv. apply Hnew. lia.
  - cbn. unfold d'. by rewrite Hc.
Qed.

(** C18. Setting up MSI-X: with a table in BAR 0 or 4 that has the entries its
    control word announces, [intc_init] succeeds: each vector below the number
    it keeps has an unmasked entry that writes its own clear word, MSI-X is
    enabled with the other bits of the control word kept, and every queue's
    vector is one of them.  With the table in another BAR the driver aborts,
    whether the device has MSI or not: the zone of the first attempt keeps its
    name. *)
Theorem msix_init h base msi_base zone_ok :
  h_zone h = None -> pcie_find_cap_base_addr 0x11 (h_cfg h) = Ok base -> base <> 0 ->
  pcie_find_cap_base_addr 0x05 (h_cfg h) = Ok msi_base -> 0 < MAX_VECTOR_NUM ->
  let bir := Z.land (cfg_read32 (h_cfg h) (base + 4)) 0x7 in
  let n := count (cfg_read16 (h_cfg h) (base + 2)) in
  if (bir =? 0) || (bir =? 4) then
    zone_ok = true -> n <= Z.of_nat (length (h_table h)) -> n <= Z.of_nat (length (msg_data fresh_intc)) ->
    exists h' z, init zone_ok true h = (Ok tt, h') /\ h_zone h' = Some z /\ h_ready h' = true
      /\ msix_en z = true /\ max_vec_num z = n /\ (forall v, 0 <= v < n -> vector_ready h' z v)
      /\ h_cfg h' = cfg_write16 (h_cfg h) (base + 2) (Z.lor (cfg_read16 (h_cfg h) (base + 2)) 0x8000)
      /\ forall q, q_pcie q = true -> exists v, intc_get_vec q h' = (Ok v, h') /\ 0 <= v < n
  else fst (init zone_ok true h) = Err CAbort.
Proof.
  intros Hz Hb Hb0 Hm HM bir n. pose proof (vector_count_bound (cfg_read16 (h_cfg h) (base + 2)) HM) as Hn. fold n in Hn.
  destruct ((bir =? 0) || (bir =? 4)) eqn:Hbir.
  - intros -> H1 H2. destruct (msix_intc_init_run h base Hz Hb Hb0 HM Hbir H1 H2) as (h' & z & Hr & Hz' & Hrd & He & Hmax & Hv & Hc).
    exists h', z. split; [unfold intc_init; by rewrite (run_bind_ok _ _ _ _ _ Hr)|]. split_and!; try done.
    intros q Hp. exists (intr_vector q mod n). pose proof (Z.mod_pos_bound (intr_vector q) n ltac:(lia)) as Hq.
    split; [|done]. unfold intc_get_vec, intc_zone, get_zone, c_assert, mbind, M_bind, get. rewrite Hp. cbn. rewrite Hrd. cbn.
    rewrite Hz'. cbn. rewrite Hmax. fold n. rewrite (proj2 (Z.eqb_neq n 0)) by lia. cbn.
    by rewrite wrap_small by (change (2 ^ 16) with 65536; lia).
  - unfold intc_init, msix_intc_init. rewrite bind_assoc. rewrite (run_bind_ok get _ h h h) by done.
    rewrite bind_assoc, (run_bind_ok (lift _) _ h base h) by (unfold lift; by rewrite Hb). zbool.
    rewrite bind_assoc. destruct zone_ok;
      [|by rewrite (run_bind_err _ _ _ CAbort h) by (by rewrite reserve_zone_run)].
    rewrite (run_bind_ok _ _ _ _ _ (reserve_zone_run h true Hz)). cbn zeta. fold bir.
    replace (negb (bir =? 0) && negb (bir =? 4)) with true by (symmetry; by rewrite <- negb_orb, Hbir).
    rewrite bind_ret_l. unfold msi_intc_init. rewrite bind_assoc.
    set (h1 := set_zone (Some fresh_intc) h). rewrite (run_bind_ok get _ h1 h1 h1) by done.
    rewrite bind_assoc, (run_bind_ok (lift _) _ h1 msi_base h1) by (unfold lift; change (h_cfg h1) with (h_cfg h); by rewrite Hm).
    destruct (msi_base =? 0); [by rewrite bind_ret_l|].
    rewrite bind_assoc. rewrite (run_bind_err _ _ _ CAbort h1); [done|].
    done.
Qed.
End Setup.

(** In MSI mode the lowest bit of Multiple Message Capable is dropped: a device
    that offers 2^m vectors gets 2^(m-1) of them when m is odd. *)
Lemma msi_shift_even max_shift m : 0 <= m < 8 -> 8 <= max_shift -> msi_shift max_shift (2 * m) = 2 * (m / 2).
Proof.
  intros Hm Hs. unfold msi_shift.
  assert (E : forallb (fun k => wrap 8 (Z.land (Z.shiftr (2 * Z.of_nat k) 1) 0xe) =? 2 * (Z.of_nat k / 2)) (seq 0 8) = true)
    by (by vm_compute).
  rewrite forallb_forall in E. specialize (E (Z.to_nat m) ltac:(apply in_seq; lia)). apply Z.eqb_eq in E.
  rewrite Z2Nat.id in E by lia. rewrite E. pose proof (Z.div_lt_upper_bound m 2 4). lia.
Qed.

(** ** Interrupts *)

(** What the test and the device do.  A device sends the message of a vector
    when its entry is not masked, and keeps it pending otherwise, until the
    mask is cleared. *)
Inductive act := AClear (q : queue) | AMask (q : queue) | AUnmask (q : queue) | ARaise (v : Z).

(** One vector as the test sees it: raised since it was cleared, masked, and
    held back by the mask. *)
Record vec := mk_vec { v_set : bool; v_masked : bool; v_pending : bool }.

Definition vec_step (a : act) (x : vec) : vec :=
  match a with
  | AClear _ => mk_vec false (v_masked x) (v_pending x)
  | AMask _ => mk_vec (v_set x) true (v_pending x)
  | AUnmask _ => mk_vec (v_set x || v_pending x) false false
  | ARaise _ => if v_masked x then mk_vec (v_set x) true true else mk_vec true false (v_pending x)
  end.

Definition act_vec (a : act) : Z :=
  match a with AClear q | AMask q | AUnmask q => q_id q | ARaise v => v end.

(** The specification: each vector by itself. *)
Definition spec_step (a : act) (m : Z -> vec) : Z -> vec :=
  fun v => if v =? act_vec a then vec_step a (m v) else m v.

Section Protocol.
Context {D : Type} `{PciConfig D}.
Variable vtophys : Z -> Z.

(** The message of vector [v], to the address in its entry: [msg_data[v]]. *)
Definition send_message (v : Z) : M (hw D) unit :=
  h ← get;
  match h_table h !! Z.to_nat v with
  | Some e => if msg_addr e =? vtophys v then put_word v (msg_word e) else mret tt
  | None => mret tt
  end.

Definition masked (v : Z) (h : hw D) : bool :=
  match h_table h !! Z.to_nat v with Some e => Z.testbit (mask e) 0 | None => true end.

(** [p] holds the vectors that are pending in the device. *)
Definition act_run (a : act) (p : Z -> bool) : M (hw D) (Z -> bool) :=
  match a with
  | AClear q => intc_clear q ;; mret p
  | AMask q => intc_mask q ;; mret p
  | AUnmask q =>
      intc_unmask q ;;
      v ← intc_get_vec q;
      if p v then send_message v ;; mret (fun u => if u =? v then false else p u) else mret p
  | ARaise v =>
      h ← get;
      if masked v h then mret (fun u => if u =? v then true else p u) else send_message v ;; mret p
  end.

Fixpoint acts_run (l : list act) (p : Z -> bool) : M (hw D) (Z -> bool) :=
  match l with
  | [] => mret p
  | a :: l' => p ← act_run a p; acts_run l' p
  end.

(** A queue of a PCIe controller that has the vector of its own number, as SPDK
    numbers them by default. *)
Definition own_vector (n : Z) (q : queue) : Prop := 0 <= q_id q < n /\ intr_vector q mod n = q_id q /\ q_pcie q = true.

Definition act_ok (n : Z) (a : act) : Prop :=
  match a with AClear q | AMask q | AUnmask q => own_vector n q | ARaise v => 0 <= v < n end.

(** The state of the driver and the device implements the vectors [m]. *)
Record implements (n : Z) (h : hw D) (p : Z -> bool) (m : Z -> vec) : Prop := {
  i_vec : 0 < n <= 256;
  i_zone : exists z, h_zone h = Some z /\ h_ready h = true /\ msix_en z = true /\ max_vec_num z = n
    /\ forall v, 0 <= v < n -> exists w, msg_data z !! Z.to_nat v = Some w /\ negb (w =? 0) = v_set (m v);
  i_table : forall v, 0 <= v < n -> h_table h !! Z.to_nat v =
    Some (mk_entry (vtophys v) 1 (if v_masked (m v) then 1 else 0) 0);
  i_pending : forall v, 0 <= v < n -> p v = v_pending (m v)
}.

Lemma get_vec_run n (h : hw D) p m q : implements n h p m -> own_vector n q ->
  exists z, h_zone h = Some z /\ msix_en z = true /\ intc_get_vec q h = (Ok (q_id q), h)
    /\ intc_zone h = (Ok z, h).
Proof.
  intros [Hn (z & Hz & Hr & He & Hmax & _) _ _] (Hq & Hv & Ht). exists z. split; [done|]. split; [done|].
  assert (Hzone : intc_zone h = (Ok z, h)).
  { unfold intc_zone, get_zone, c_assert, mbind, M_bind, get. rewrite Hr. cbn. by rewrite Hz. }
  split; [|done]. unfold intc_get_vec. rewrite Ht. cbn [c_assert]. rewrite bind_ret_l, (run_bind_ok _ _ _ _ _ Hzone). rewrite Hmax.
  unfold c_assert. rewrite (proj2 (Z.eqb_neq n 0)) by lia. cbn [negb]. rewrite bind_ret_l.
  rewrite Hv. by rewrite wrap_small by (change (2 ^ 16) with 65536; lia).
Qed.

(** Storing a word of the specification's flag. *)
Lemma implements_word n (h : hw D) p m v w b m' p' : implements n h p m -> 0 <= v < n -> negb (w =? 0) = b ->
  (forall u, 0 <= u < n -> v_set (m' u) = (if u =? v then b else v_set (m u)) /\ v_masked (m' u) = v_masked (m u)
     /\ p' u = v_pending (m' u)) ->
  exists h', put_word v w h = (Ok tt, h') /\ implements n h' p' m' /\ h_table h' = h_table h.
Proof.
  intros [Hn (z & Hz & Hr & He & Hmax & Hw) Ht Hp] Hv Hb Hm'.
  assert (Hlen : (Z.to_nat v < length (msg_data z))%nat).
  { destruct (Hw v Hv) as (x & Hx & _). by apply lookup_lt_Some in Hx. }
  eexists. split; [by apply set_word_run|]. split; [|done]. split; [done| | |].
  - eexists. split; [done|]. split; [done|]. split; [done|]. split; [done|]. intros u Hu. cbn.
    destruct (Hm' u Hu) as (-> & _ & _). destruct (Z.eqb_spec u v) as [->|Hne].
    + exists w. by rewrite list_lookup_insert_eq.
    + rewrite list_lookup_insert_ne by lia. by apply Hw.
  - intros u Hu. cbn. destruct (Hm' u Hu) as (_ & -> & _). by apply Ht.
  - intros u Hu. by destruct (Hm' u Hu) as (_ & _ & ->).
Qed.

(** Changing the mask of an entry. *)
Lemma implements_mask n (h : hw D) p m v (b : bool) m' : implements n h p m -> 0 <= v < n ->
  (forall u, 0 <= u < n -> v_set (m' u) = v_set (m u) /\ v_masked (m' u) = (if u =? v then b else v_masked (m u))
     /\ v_pending (m' u) = v_pending (m u)) ->
  exists h', put_entry_mask v (if b then 1 else 0) h = (Ok tt, h') /\ implements n h' p m'.
Proof.
  intros [Hn (z & Hz & Hr & He & Hmax & Hw) Ht Hp] Hv Hm'. pose proof (Ht v Hv) as Hv'.
  unfold put_entry_mask. rewrite (run_bind_ok get _ h h h), Hv' by done. cbn [msg_addr msg_word rsvd].
  eexists. split; [apply put_entry_run; by apply lookup_lt_Some in Hv'|]. split; [done| | |].
  - exists z. split; [done|]. split; [done|]. split; [done|]. split; [done|]. intros u Hu.
    destruct (Hm' u Hu) as (-> & _ & _). by apply Hw.
  - intros u Hu. cbn. destruct (Hm' u Hu) as (_ & -> & _). destruct (Z.eqb_spec u v) as [->|Hne].
    + rewrite list_lookup_insert_eq; [done|]. by apply lookup_lt_Some in Hv'.
    + rewrite list_lookup_insert_ne by lia. by apply Ht.
  - intros u Hu. destruct (Hm' u Hu) as (_ & _ & ->). by apply Hp.
Qed.

(** A message sets the flag. *)
Lemma implements_message n (h : hw D) p m v m' p' : implements n h p m -> 0 <= v < n ->
  (forall u, 0 <= u < n -> v_set (m' u) = (if u =? v then true else v_set (m u)) /\ v_masked (m' u) = v_masked (m u)
     /\ p' u = v_pending (m' u)) ->
  exists h', send_message v h = (Ok tt, h') /\ implements n h' p' m'.
Proof.
  intros Hi Hv Hm'. destruct (implements_word n h p m v 1 true m' p' Hi Hv eq_refl Hm') as (h' & Hr & Hi' & _).
  exists h'. split; [|done]. unfold send_message. rewrite (run_bind_ok get _ h h h), (i_table _ _ _ _ Hi v Hv) by done.
  cbn [msg_addr msg_word]. by rewrite Z.eqb_refl.
Qed.

(** One lemma per action. *)
Lemma clear_refines n (h : hw D) p m q : implements n h p m -> own_vector n q ->
  exists h', intc_clear q h = (Ok tt, h') /\ implements n h' p (spec_step (AClear q) m).
Proof.
  intros Hi Ha. destruct (get_vec_run n h p m q Hi Ha) as (z & _ & He & _ & Hzone). destruct Ha as (Hq & _ & Hpc).
  destruct (implements_word n h p m (q_id q) 0 false (spec_step (AClear q) m) p Hi Hq eq_refl) as (h' & Hr & Hi' & _).
  { intros u Hu. unfold spec_step. cbn [act_vec]. rewrite (i_pending _ _ _ _ Hi u Hu). by destruct (u =? q_id q). }
  exists h'. split; [|done]. unfold intc_clear. rewrite Hpc. cbn [c_assert]. rewrite bind_ret_l, (run_bind_ok _ _ _ _ _ Hzone). by rewrite He.
Qed.

Lemma mask_refines n (h : hw D) p m q : implements n h p m -> own_vector n q ->
  exists h', intc_mask q h = (Ok tt, h') /\ implements n h' p (spec_step (AMask q) m).
Proof.
  intros Hi Ha. destruct (get_vec_run n h p m q Hi Ha) as (z & _ & He & Hv & Hzone). destruct Ha as (Hq & _ & Hpc).
  destruct (implements_mask n h p m (q_id q) true (spec_step (AMask q) m) Hi Hq) as (h' & Hr & Hi').
  { intros u Hu. unfold spec_step. cbn [act_vec]. by destruct (u =? q_id q). }
  exists h'. split; [|done].
  unfold intc_mask. rewrite Hpc, (run_bind_ok _ _ _ _ _ Hv), (run_bind_ok _ _ _ _ _ Hzone). by rewrite He.
Qed.

(** The register write of [intc_unmask], before the device delivers. *)
Lemma unmask_run n (h : hw D) p m q m' : implements n h p m -> own_vector n q ->
  (forall u, 0 <= u < n -> v_set (m' u) = v_set (m u)
     /\ v_masked (m' u) = (if u =? q_id q then false else v_masked (m u)) /\ v_pending (m' u) = v_pending (m u)) ->
  exists h', intc_unmask q h = (Ok tt, h') /\ implements n h' p m' /\ intc_get_vec q h' = (Ok (q_id q), h').
Proof.
  intros Hi Ha Hm'. destruct (get_vec_run n h p m q Hi Ha) as (z & _ & He & Hv & Hzone).
  destruct (implements_mask n h p m (q_id q) false m' Hi (proj1 Ha) Hm') as (h' & Hr & Hi').
  exists h'. split.
  - unfold intc_unmask. rewrite (proj2 (proj2 Ha)), (run_bind_ok _ _ _ _ _ Hv), (run_bind_ok _ _ _ _ _ Hzone). by rewrite He.
  - split; [done|]. by destruct (get_vec_run n h' p m' q Hi' Ha) as (_ & _ & _ & ? & _).
Qed.

Lemma unmask_refines n (h : hw D) p m q : implements n h p m -> own_vector n q ->
  exists h' p', act_run (AUnmask q) p h = (Ok p', h') /\ implements n h' p' (spec_step (AUnmask q) m).
Proof.
  intros Hi Ha. pose proof (i_pending _ _ _ _ Hi _ (proj1 Ha)) as Hp. cbn [act_run].
  destruct (p (q_id q)) eqn:Ep.
  - set (m1 := fun u => if u =? q_id q then mk_vec (v_set (m u)) false (v_pending (m u)) else m u).
    destruct (unmask_run n h p m q m1 Hi Ha) as (h1 & Hr & Hi1 & Hv).
    { intros u Hu. unfold m1. by destruct (u =? q_id q). }
    destruct (implements_message n h1 p m1 (q_id q) (spec_step (AUnmask q) m)
                (fun u => if u =? q_id q then false else p u) Hi1 (proj1 Ha)) as (h2 & Hr2 & Hi2).
    { intros u Hu. unfold m1, spec_step. cbn [act_vec]. destruct (Z.eqb_spec u (q_id q)) as [->|Hne].
      - cbn. by rewrite <- Hp, orb_true_r.
      - by rewrite (i_pending _ _ _ _ Hi u Hu). }
    do 2 eexists. split; [|exact Hi2]. rewrite (run_bind_ok _ _ _ _ _ Hr), (run_bind_ok _ _ _ _ _ Hv), Ep.
    by rewrite (run_bind_ok _ _ _ _ _ Hr2).
  - destruct (unmask_run n h p m q (spec_step (AUnmask q) m) Hi Ha) as (h1 & Hr & Hi1 & Hv).
    { intros u Hu. unfold spec_step. cbn [act_vec]. destruct (Z.eqb_spec u (q_id q)) as [->|]; [|done].
      cbn. by rewrite <- Hp, orb_false_r. }
    exists h1, p. split; [|done]. by rewrite (run_bind_ok _ _ _ _ _ Hr), (run_bind_ok _ _ _ _ _ Hv), Ep.
Qed.

Lemma raise_refines n (h : hw D) p m v : implements n h p m -> 0 <= v < n ->
  exists h' p', act_run (ARaise v) p h = (Ok p', h') /\ implements n h' p' (spec_step (ARaise v) m).
Proof.
  intros Hi Hv. cbn [act_run]. rewrite (run_bind_ok get _ h h h) by done.
  assert (Hm : masked v h = v_masked (m v)).
  { unfold masked. rewrite (i_table _ _ _ _ Hi v Hv). cbn. by destruct (v_masked (m v)). }
  destruct (masked v h) eqn:Em.
  - exists h, (fun u => if u =? v then true else p u). split; [done|].
    destruct Hi as [Hn (z & Hz & Hr & He & Hmax & Hw) Ht Hp]. split; [done| | |].
    + exists z. split_and!; try done. intros u Hu. unfold spec_step. cbn [act_vec].
      destruct (Z.eqb_spec u v) as [->|]; [|by apply Hw]. cbn. rewrite <- Hm. by apply Hw.
    + intros u Hu. unfold spec_step. cbn [act_vec]. destruct (Z.eqb_spec u v) as [->|]; [|by apply Ht].
      cbn. rewrite <- Hm. cbn. rewrite (Ht v Hv), <- Hm. done.
    + intros u Hu. unfold spec_step. cbn [act_vec]. destruct (Z.eqb_spec u v) as [->|]; [|by apply Hp].
      cbn. by rewrite <- Hm.
  - destruct (implements_message n h p m v (spec_step (ARaise v) m) p Hi Hv) as (h' & Hr & Hi').
    { intros u Hu. unfold spec_step. cbn [act_vec]. rewrite (i_pending _ _ _ _ Hi u Hu).
      destruct (Z.eqb_spec u v) as [->|]; [|done]. cbn. by rewrite <- Hm. }
    exists h', p. split; [|done]. by rewrite (run_bind_ok _ _ _ _ _ Hr).
Qed.

Lemma act_run_refines n (h : hw D) p m a : implements n h p m -> act_ok n a ->
  exists h' p', act_run a p h = (Ok p', h') /\ implements n h' p' (spec_step a m).
Proof.
  intros Hi Ha. destruct a as [q|q|q|v].
  - destruct (clear_refines n h p m q Hi Ha) as (h' & Hr & Hi'). exists h', p. split; [|done].
    cbn [act_run]. by rewrite (run_bind_ok _ _ _ _ _ Hr).
  - destruct (mask_refines n h p m q Hi Ha) as (h' & Hr & Hi'). exists h', p. split; [|done].
    cbn [act_run]. by rewrite (run_bind_ok _ _ _ _ _ Hr).
  - by apply unmask_refines.
  - by apply raise_refines.
Qed.

(** What [intc_isset] sees. *)
Lemma isset_run n (h : hw D) p m q : implements n h p m -> own_vector n q ->
  intc_isset q h = (Ok (v_set (m (q_id q))), h).
Proof.
  intros Hi Ha. destruct (get_vec_run n h p m q Hi Ha) as (z & Hz & He & Hv & Hzone).
  pose proof (i_vec _ _ _ _ Hi) as Hn. destruct Ha as (Hq & _ & Hpc). unfold intc_isset.
  rewrite Hpc. cbn [c_assert]. rewrite bind_ret_l, (run_bind_ok _ _ _ _ _ Hv), (run_bind_ok _ _ _ _ _ Hzone), He.
  rewrite wrap_small by (change (2 ^ 8) with 256; lia).
  destruct (i_zone _ _ _ _ Hi) as (z' & Hz' & _ & _ & _ & Hw). rewrite Hz in Hz'. injection Hz' as <-.
  destruct (Hw _ Hq) as (w & Hw1 & Hw2). rewrite (run_bind_ok (lift _) _ h w h) by (unfold lift, get_msg; by rewrite Hw1).
  by rewrite Hw2.
Qed.

(** The vectors just after the set-up. *)
Definition vec_init : vec := mk_vec false false false.

Lemma ready_implements n (h : hw D) z : 0 < n <= 256 -> h_zone h = Some z -> h_ready h = true -> msix_en z = true ->
  max_vec_num z = n -> (forall v, 0 <= v < n -> vector_ready vtophys h z v) ->
  implements n h (fun _ => false) (fun _ => vec_init).
Proof.
  intros Hn Hz Hr He Hmax Hv. split; [done| |by intros v Hv'; apply Hv|done].
  exists z. split_and!; try done. intros v Hv'. exists 0. split; [by apply Hv|done].
Qed.

(** C17. The interrupts of the queues refine a specification with one cell per
    vector: after MSI-X is set up with at most 256 vectors (as [intc_isset]
    keeps the number in a byte), any sequence of clears, masks, unmasks and
    interrupts of the device, with queues that have the vector of their own
    number, runs to the end, and [intc_isset] of a queue then gives the cell of
    that queue alone: set by an interrupt since its last clear, where an
    interrupt that came while it was masked counts from the unmask. *)
Theorem interrupts_refine n h z l q : 0 < n <= 256 ->
  h_zone h = Some z -> h_ready h = true -> msix_en z = true -> max_vec_num z = n ->
  (forall v, 0 <= v < n -> vector_ready vtophys h z v) -> Forall (act_ok n) l -> own_vector n q ->
  exists h' p', acts_run l (fun _ => false) h = (Ok p', h')
    /\ intc_isset q h' = (Ok (v_set (foldl (fun m a => spec_step a m) (fun _ => vec_init) l (q_id q))), h').
Proof.
  intros Hn Hz Hr He Hmax Hv Hl Hq. pose proof (ready_implements n h z Hn Hz Hr He Hmax Hv) as Hi. clear Hz Hr He Hmax Hv.
  revert h Hi. generalize (fun _ : Z => false). generalize (fun _ : Z => vec_init).
  induction Hl as [|a l Ha Hl IH]; intros m p h Hi; cbn [acts_run foldl].
  - exists h, p. split; [done|]. by apply isset_run with n p.
  - destruct (act_run_refines n h p m a Hi Ha) as (h1 & p1 & Hr & Hi1).
    destruct (IH _ _ _ Hi1) as (h2 & p2 & Hr2 & Hs). exists h2, p2. split; [|done].
    by rewrite (run_bind_ok _ _ _ _ _ Hr).
Qed.
End Protocol.

(** ** Examples *)

(** A device with MSI at 0x40 and MSI-X at 0x50, four entries in BAR 0. *)
Definition intr_device : mem_device :=
  mk_mem (list_inserts 0x34 [0x40]
    (list_inserts 0x40 [5; 0x50]
      (list_inserts 0x50 [0x11; 0; 3; 0; 0; 0x20; 0; 0] (replicate 256 0)))).

Definition mem_read16 (d : mem_device) (a : Z) : Z := cfg_read8 d a + Z.shiftl (cfg_read8 d (a + 1)) 8.
Definition mem_read32 (d : mem_device) (a : Z) : Z := mem_read16 d a + Z.shiftl (mem_read16 d (a + 2)) 16.
Definition mem_write16 (d : mem_device) (a v : Z) : mem_device :=
  cfg_write8 (cfg_write8 d a (Z.land v 0xff)) (a + 1) (Z.shiftr v 8).
Definition mem_write32 (d : mem_device) (a v : Z) : mem_device :=
  mem_write16 (mem_write16 d a (Z.land v 0xffff)) (a + 2) (Z.shiftr v 16).

Definition blank_intc : intr_ctrl := mk_intc (replicate 64 7) 0 false false false.
Definition intr_vtophys (i : Z) : Z := 0x10000 + 4 * i.
Definition intr_hw : hw mem_device :=
  mk_hw intr_device (replicate 4 (mk_entry 0 0 1 0)) 0 None false.

Abbreviation example_init := (intc_init mem_read16 mem_read32 mem_write16 mem_write32 64 6 blank_intc intr_vtophys true true).
Definition intr_ready : hw mem_device := snd (example_init intr_hw).

Lemma intr_chain : cap_chain intr_device (cfg_read8 intr_device 0x34) [0x40; 0x50].
Proof. constructor; [by vm_compute|]. constructor; [by vm_compute|]. constructor. Qed.

(** A queue whose vector is not its number: its interrupt stays set when it is
    cleared, as [intc_clear] writes the word of the number. *)
Example clear_of_other_vector :
  fst ((send_message intr_vtophys 2 ;; intc_clear (mk_queue 1 2 true) ;; intc_isset (mk_queue 1 2 true)) intr_ready) = Ok true.
Proof. by vm_compute. Qed.

(** With the Function Mask bit set in the control word, the number of vectors
    is taken from more than the Table Size field, and the entries past the
    table are written. *)
Example function_mask_overruns :
  vector_count 64 (Z.lor 0x4000 3) = 64
  /\ fst (example_init (set_cfg (mem_write16 intr_device 0x52 0x4003) intr_hw)) = Err COutOfBounds.
Proof. by vm_compute. Qed.

(** Set up and taken down: MSI-X is off again, the rest of the configuration
    as it was. *)
Example init_fini :
  fst ((example_init ;; intc_fini mem_read16 mem_write16) intr_hw) = Ok tt
  /\ h_cfg (snd ((example_init ;; intc_fini mem_read16 mem_write16) intr_hw)) = intr_device.
Proof. by vm_compute. Qed.

Lemma cap_walks_agree_witness :
  exists r, cap_offset 0x11 intr_device = Ok r /\ pcie_find_cap_base_addr 0x11 intr_device = Ok (default 0 r).
Proof.
  destruct (cap_walks_agree intr_device [0x40; 0x50] 0x11 intr_chain) as (r & H1 & H2 & _).
  exists r. split; [exact H1|exact H2].
Defined.

Lemma msix_init_witness : exists h' z, example_init intr_hw = (Ok tt, h') /\ h_zone h' = Some z /\ max_vec_num z = 4.
Proof.
  assert (Hx : pcie_find_cap_base_addr 0x11 (h_cfg intr_hw) = Ok 0x50) by (vm_compute; reflexivity).
  assert (Hm : pcie_find_cap_base_addr 0x05 (h_cfg intr_hw) = Ok 0x40) by (vm_compute; reflexivity).
  pose proof (msix_init mem_read16 mem_read32 mem_write16 mem_write32 64 6 blank_intc intr_vtophys intr_hw 0x50 0x40 true
    eq_refl Hx ltac:(lia) Hm ltac:(lia)) as Hi. cbv zeta in Hi.
  match type of Hi with (if ?b then _ else _) => replace b with true in Hi by (vm_compute; reflexivity) end.
  destruct Hi as (h' & z & H1 & H2 & _ & _ & H3 & _); [reflexivity|vm_compute; discriminate|vm_compute; discriminate|].
  exists h', z. split; [exact H1|]. split; [exact H2|]. rewrite H3. vm_compute. reflexivity.
Defined.

Lemma interrupts_refine_witness :
  exists h' p', acts_run intr_vtophys [AMask (mk_queue 1 1 true); ARaise 1; ARaise 2; AUnmask (mk_queue 1 1 true)] (fun _ => false) intr_ready
      = (Ok p', h')
    /\ intc_isset (mk_queue 1 1 true) h' = (Ok true, h').
Proof.
  destruct (h_zone intr_ready) as [z|] eqn:Ez; [|vm_compute in Ez; discriminate Ez].
  assert (Hz : z = mk_intc (replicate 4 0 ++ replicate 60 7) 4 false true false)
    by (vm_compute in Ez; injection Ez as <-; reflexivity).
  destruct (interrupts_refine intr_vtophys 4 intr_ready z
    [AMask (mk_queue 1 1 true); ARaise 1; ARaise 2; AUnmask (mk_queue 1 1 true)] (mk_queue 1 1 true)) as (h' & p' & H1 & H2);
    [lia|exact Ez|vm_compute; reflexivity|rewrite Hz; reflexivity|rewrite Hz; reflexivity| | | |].
  - intros v Hv. rewrite Hz. assert (v = 0 \/ v = 1 \/ v = 2 \/ v = 3) as [-> | [-> | [-> | ->]]] by lia;
      split; vm_compute; reflexivity.
  - repeat constructor; cbn; try lia; vm_compute; reflexivity.
  - split; [cbn; lia|split; vm_compute; reflexivity].
  - exists h', p'. split; [exact H1|]. rewrite H2. vm_compute. reflexivity.
Defined.
