(* ===== verification/Poll.v ===== *)
(** * Poll: how the driver collects completions

    [nvme_wait_completion_admin] and [qpair_wait_completion] of
    src/src/driver.c, which the waits of src/src/driver_wrap.pyx call: the first
    looks at the interrupt of the admin queue before it reaps (over Intr.v), the
    second tries again one request that the lock bits of Crc.v held back. *)
From Stdlib Require Import ZArith Lia ZifyBool.
From stdpp Require Import base list numbers option gmap relations.
From S2P Require Import Prelude PyInt Pcie Command Crc Intr.
Local Open Scope Z_scope.

(** ** The admin queue *)
Section Admin.
Context {D : Type} `{PciConfig D}.
Variable vtophys : Z -> Z.

(** The driver and the device of Intr.v, the vectors it holds back, the
    completions in the admin queue, and how many it has posted ever. *)
Record world := mk_world { w_hw : hw D; w_pending : Z -> bool; w_cq : Z; w_posted : Z }.

(** The driver alone, and an action the device sees. *)
Definition on_hw {A} (m : M (hw D) A) : M world A := fun w =>
  let r := m (w_hw w) in (fst r, mk_world (snd r) (w_pending w) (w_cq w) (w_posted w)).
Definition act (a : Intr.act) : M world unit := fun w =>
  match act_run vtophys a (w_pending w) (w_hw w) with
  | (Ok p, h) => (Ok tt, mk_world h p (w_cq w) (w_posted w))
  | (Err e, h) => (Err e, mk_world h (w_pending w) (w_cq w) (w_posted w))
  end.

(** The device posts a completion, then raises vector 0. *)
Definition post : M world unit :=
  modify (fun w => mk_world (w_hw w) (w_pending w) (w_cq w + 1) (w_posted w + 1)) ;; act (ARaise 0).
Fixpoint posts (n : nat) : M world unit := match n with O => mret tt | S n' => post ;; posts n' end.

(** [intr_ctrl], a pointer kept in the controller. *)
Definition intr_ctrl_zone : M (hw D) intr_ctrl :=
  h ← get; if h_ready h then get_zone else raise COutOfBounds.

(** [process] is [spdk_nvme_ctrlr_process_admin_completions]; [env i] is what the
    device does before the [i]-th part. *)
Definition nvme_wait_completion_admin (process : M world Z) (env : nat -> M world unit) (intr_enabled : bool)
    (adminq : queue) : M world Z :=
  env 0%nat ;;
  if intr_enabled then
    z ← on_hw intr_ctrl_zone;
    word ← lift (get_msg 0 z);
    if word =? 0 then mret 0
    else
      env 1%nat ;;
      act (AMask adminq) ;;
      env 2%nat ;;
      rc ← process;
      env 3%nat ;;
      on_hw (put_word 0 0) ;;
      env 4%nat ;;
      act (AUnmask adminq) ;;
      mret rc
  else process.

(** Polls, one after the other. *)
Fixpoint polls (process : M world Z) (adminq : queue) (ks : list (nat -> nat)) : M world (list Z) :=
  match ks with
  | [] => mret []
  | k :: ks' =>
      rc ← nvme_wait_completion_admin process (fun i => posts (k i)) true adminq;
      l ← polls process adminq ks';
      mret (rc :: l)
  end.

(** ** What a poll keeps *)

(** The vectors are [m], with vector 0 not masked. *)
Record seen (n : Z) (w : world) (m : Z -> vec) : Prop := {
  sn_impl : implements vtophys n (w_hw w) (w_pending w) m;
  sn_open : v_masked (m 0) = false /\ v_pending (m 0) = false;
  sn_cq : 0 <= w_cq w;
  sn_set : 0 < w_cq w -> v_set (m 0) = true
}.

Lemma act_ok_run n w m a : implements vtophys n (w_hw w) (w_pending w) m -> act_ok n a ->
  exists w', act a w = (Ok tt, w') /\ implements vtophys n (w_hw w') (w_pending w') (spec_step a m)
    /\ w_cq w' = w_cq w /\ w_posted w' = w_posted w.
Proof.
  intros Hi Ha. destruct (act_run_refines vtophys n _ _ m a Hi Ha) as (h & p & Hr & Hi').
  exists (mk_world h p (w_cq w) (w_posted w)). unfold act. by rewrite Hr.
Qed.

(** Vector 0 after [k] completions were posted. *)
Definition raised (k : nat) (x : vec) : vec :=
  match k with O => x | S _ => if v_masked x then mk_vec (v_set x) true true else mk_vec true false (v_pending x) end.

Lemma posts_run n k : forall w m, 0 < n -> implements vtophys n (w_hw w) (w_pending w) m ->
  exists w' m', posts k w = (Ok tt, w') /\ implements vtophys n (w_hw w') (w_pending w') m' /\ m' 0 = raised k (m 0)
    /\ w_cq w' = w_cq w + Z.of_nat k /\ w_posted w' = w_posted w + Z.of_nat k.
Proof.
  induction k as [|k IH]; intros w m Hn Hi; cbn [posts].
  - exists w, m. split_and!; try done; lia.
  - set (w1 := mk_world (w_hw w) (w_pending w) (w_cq w + 1) (w_posted w + 1)).
    destruct (act_ok_run n w1 m (ARaise 0) Hi) as (w2 & Ha & Hi2 & Hc & Hp); [cbn; lia|].
    destruct (IH w2 _ Hn Hi2) as (w3 & m3 & Hr & Hi3 & Hm & Hc3 & Hp3). exists w3, m3. split_and!; try done; try lia.
    + unfold post. rewrite bind_assoc. rewrite (run_bind_ok (modify _) _ w tt w1) by done.
      by rewrite (run_bind_ok _ _ _ _ _ Ha).
    + rewrite Hm. cbn [raised]. unfold spec_step. cbn. destruct k; [done|]. cbn. by destruct (v_masked (m 0)) eqn:E; cbn; rewrite ?E.
    + cbn in *. lia.
    + cbn in *. lia.
Qed.
Lemma zone_word n w m : 0 < n -> implements vtophys n (w_hw w) (w_pending w) m ->
  exists z x, on_hw intr_ctrl_zone w = (Ok z, w) /\ get_msg 0 z = Ok x /\ (x =? 0) = negb (v_set (m 0)).
Proof.
  intros Hn [_ (z & Hz & Hr & _ & _ & Hw) _ _]. destruct (Hw 0) as (x & Hx & Hs); [lia|]. exists z, x. split.
  - unfold on_hw, intr_ctrl_zone, get_zone, mbind, M_bind, get. rewrite Hr. cbn. rewrite Hz. by destruct w.
  - split; [unfold get_msg; by rewrite Hx|]. rewrite <- Hs. by rewrite negb_involutive.
Qed.

Lemma clear_word n w m : 0 < n -> implements vtophys n (w_hw w) (w_pending w) m ->
  exists w' m', on_hw (put_word 0 0) w = (Ok tt, w') /\ implements vtophys n (w_hw w') (w_pending w') m'
    /\ m' 0 = mk_vec false (v_masked (m 0)) (v_pending (m 0)) /\ w_cq w' = w_cq w /\ w_posted w' = w_posted w.
Proof.
  intros Hn Hi. set (m' := spec_step (AClear (mk_queue 0 0 true)) m).
  destruct (implements_word vtophys n _ _ m 0 0 false m' (w_pending w) Hi ltac:(lia) eq_refl) as (h & Hr & Hi' & _).
  { intros u Hu. unfold m', spec_step. cbn [act_vec q_id]. rewrite (i_pending _ _ _ _ _ Hi u Hu). by destruct (u =? 0). }
  exists (mk_world h (w_pending w) (w_cq w) (w_posted w)), m'. unfold on_hw. by rewrite Hr.
Qed.

(** [process] takes all completions the queue has. *)
Variable process : M world Z.
Hypothesis process_all : forall w, process w = (Ok (w_cq w), mk_world (w_hw w) (w_pending w) 0 (w_posted w)).

Lemma poll_run n w m q k : 0 < n -> seen n w m -> own_vector n q -> q_id q = 0 ->
  exists rc w' m', nvme_wait_completion_admin process (fun i => posts (k i)) true q w = (Ok rc, w')
    /\ seen n w' m' /\ w_cq w + Z.of_nat (k 0%nat) <= rc
    /\ rc + w_cq w' = w_cq w + (w_posted w' - w_posted w).
Proof.
  intros Hn [Hi [Hmk Hpd] Hcq Hset] Hq Hq0. unfold nvme_wait_completion_admin.
  destruct (posts_run n (k 0%nat) w m Hn Hi) as (w0 & m0 & R0 & I0 & E0 & C0 & P0). rewrite (run_bind_ok _ _ _ _ _ R0).
  destruct (zone_word n w0 m0 Hn I0) as (z & x & Rz & Gx & Hx). rewrite (run_bind_ok _ _ _ _ _ Rz).
  rewrite (run_bind_ok (lift _) _ w0 x w0) by (unfold lift; by rewrite Gx). rewrite Hx, E0.
  destruct (v_set (raised (k 0%nat) (m 0))) eqn:Es; cbn [negb].
  2: { exists 0, w0, m0. assert (k 0%nat = O /\ w_cq w = 0) as [Hk Hc].
       { destruct (k 0%nat) eqn:Ek; cbn in Es; [split; [done|]|rewrite Hmk in Es; done].
         destruct (Z.eq_dec (w_cq w) 0); [done|]. rewrite Hset in Es by lia. done. }
       rewrite Hk in *. split; [done|]. split; [|lia]. split; rewrite ?E0; cbn [raised]; try done; lia. }
  destruct (posts_run n (k 1%nat) w0 m0 Hn I0) as (w1 & m1 & R1 & I1 & E1 & C1 & P1). rewrite (run_bind_ok _ _ _ _ _ R1).
  destruct (act_ok_run n w1 m1 (AMask q) I1 Hq) as (w2 & R2 & I2 & C2 & P2). rewrite (run_bind_ok _ _ _ _ _ R2).
  destruct (posts_run n (k 2%nat) w2 _ Hn I2) as (w3 & m3 & R3 & I3 & E3 & C3 & P3). rewrite (run_bind_ok _ _ _ _ _ R3).
  rewrite (run_bind_ok _ _ _ _ _ (process_all w3)). set (w4 := mk_world _ _ 0 _).
  destruct (posts_run n (k 3%nat) w4 m3 Hn I3) as (w5 & m5 & R5 & I5 & E5 & C5 & P5). rewrite (run_bind_ok _ _ _ _ _ R5).
  destruct (clear_word n w5 m5 Hn I5) as (w6 & m6 & R6 & I6 & E6 & C6 & P6). rewrite (run_bind_ok _ _ _ _ _ R6).
  destruct (posts_run n (k 4%nat) w6 m6 Hn I6) as (w7 & m7 & R7 & I7 & E7 & C7 & P7). rewrite (run_bind_ok _ _ _ _ _ R7).
  destruct (act_ok_run n w7 m7 (AUnmask q) I7 Hq) as (w8 & R8 & I8 & C8 & P8). rewrite (run_bind_ok _ _ _ _ _ R8).
  exists (w_cq w3), w8, (spec_step (AUnmask q) m7). cbn [w4 w_cq w_posted] in *. split; [done|]. split; [|lia].
  (* vector 0 is masked from [AMask] on: what was posted since is pending *)
  unfold spec_step in *. cbn [act_vec] in *. rewrite Hq0 in *. cbn [Z.eqb vec_step] in *.
  split; cbn [act_vec]; rewrite ?Hq0; cbn [Z.eqb vec_step v_masked v_pending v_set]; [done|done|lia|].
  intros Hc. rewrite E7, E6, E5, E3. cbn [raised v_set v_masked v_pending].
  destruct (k 3%nat) eqn:E3k, (k 4%nat) eqn:E4k, (k 2%nat); cbn; try done; lia.
Qed.
Lemma polls_run n q ks : forall w m, 0 < n -> seen n w m -> own_vector n q -> q_id q = 0 ->
  exists rcs w' m', polls process q ks w = (Ok rcs, w') /\ seen n w' m'
    /\ foldr Z.add 0 rcs + w_cq w' = w_cq w + (w_posted w' - w_posted w).
Proof.
  induction ks as [|k ks IH]; intros w m Hn Hs Hq Hq0; cbn [polls].
  - exists [], w, m. split_and!; try done. cbn. lia.
  - destruct (poll_run n w m q k Hn Hs Hq Hq0) as (rc & w1 & m1 & R1 & S1 & _ & E1).
    destruct (IH w1 m1 Hn S1 Hq Hq0) as (rcs & w2 & m2 & R2 & S2 & E2). exists (rc :: rcs), w2, m2.
    split; [|split; [done|cbn [foldr]; lia]].
    rewrite (run_bind_ok _ _ _ _ _ R1). by rewrite (run_bind_ok _ _ _ _ _ R2).
Qed.

(** C5. No completion of the admin queue is lost by looking at its interrupt
    first: after MSI-X was set up, whatever completions the device posts before,
    between and after the parts of any number of polls, every poll returns, what
    the polls reaped and what is still in the queue is exactly what was posted,
    and the next poll reaps all that was in the queue when it began - although
    each clears the word the interrupt was written to, since it masks the vector
    before it reaps and unmasks it only after it cleared the word. *)
Theorem admin_completions_seen n h z q ks : 0 < n <= 256 ->
  h_zone h = Some z -> h_ready h = true -> msix_en z = true -> max_vec_num z = n ->
  (forall v, 0 <= v < n -> vector_ready vtophys h z v) -> own_vector n q -> q_id q = 0 ->
  exists rcs w, polls process q ks (mk_world h (fun _ => false) 0 0) = (Ok rcs, w)
    /\ foldr Z.add 0 rcs + w_cq w = w_posted w
    /\ forall k, exists rc w', nvme_wait_completion_admin process (fun i => posts (k i)) true q w = (Ok rc, w')
         /\ w_cq w <= rc /\ rc + w_cq w' = w_cq w + (w_posted w' - w_posted w).
Proof.
  intros Hn Hz Hr He Hmax Hv Hq Hq0. set (w0 := mk_world h (fun _ => false) 0 0).
  assert (Hs : seen n w0 (fun _ => vec_init)) by (split; [by apply (ready_implements _ n h z)|done..]).
  destruct (polls_run n q ks w0 _ ltac:(lia) Hs Hq Hq0) as (rcs & w & m & Hrun & Hsw & E). exists rcs, w.
  split; [done|]. split; [cbn in E; lia|]. intros k.
  destruct (poll_run n w m q k ltac:(lia) Hsw Hq Hq0) as (rc & w' & m' & R & _ & Hle & E'). exists rc, w'.
  split; [done|]. split; [lia|done].
Qed.
End Admin.

(** ** Requests that were held back *)
Section Queue.
Variable crc32c : list Z -> Z.

(** A queue pair over the namespaces and the requests outstanding, with
    [queued_req]: requests by number, the next one first. *)
Record qstate := mk_q { qs : sys; held : list (Z * request) }.

(** [nvme_qpair_submit_request] of SPDK calls [crc32_lock_lba]. *)
Variable submit : Z -> request -> qstate -> res qstate.

(** [process] is [spdk_nvme_qpair_process_completions]. *)
Definition qpair_wait_completion (process : Z -> M qstate Z) (max_completions : Z) : M qstate Z :=
  rc ← process max_completions;
  s ← get;
  match held s with
  | [] => mret rc
  | (id, req) :: rest => s ← lift (submit id req (mk_q (qs s) rest)); put s ;; mret rc
  end.

(** A request that gets its locks is sent, another is put at the end. *)
Hypothesis submit_sends : forall id r s ns, crc32_lock_lba (ns_of (qs s) r) r = Ok (true, ns) ->
  submit id r s = Ok (mk_q (mk_sys (put_ns r ns (s_nss (qs s))) (<[id := r]> (s_out (qs s)))) (held s)).
Hypothesis submit_holds : forall id r s ns, crc32_lock_lba (ns_of (qs s) r) r = Ok (false, ns) ->
  submit id r s = Ok (mk_q (mk_sys (put_ns r ns (s_nss (qs s))) (s_out (qs s))) (held s ++ [(id, r)])).

(** Completions: steps of Crc.v that take a request from the device. *)
Definition completes (s s' : sys) : Prop :=
  step crc32c s s' /\ exists id r, s_out s !! id = Some r /\ s_out s' = delete id (s_out s).

(** [process] completes requests of [s], at least one if the device has any. *)
Definition reaps (process : Z -> M qstate Z) (max : Z) (s : qstate) : Prop := exists rc s1,
  process max s = (Ok rc, mk_q s1 (held s)) /\ rtc completes (qs s) s1 /\ (s_out (qs s) <> ∅ -> s1 <> qs s).

(** A poll of the queue pair. *)
Definition polled (s s' : qstate) : Prop := exists process max rc,
  reaps process max s /\ qpair_wait_completion process max s = (Ok rc, s').

(** What holds between polls. *)
Record queue_inv (s : qstate) : Prop := {
  qi_inv : inv (qs s);
  qi_ok : Forall (fun e => request_ok e.2) (held s);
  qi_ids : NoDup (held s).*1;
  qi_new : forall id, id ∈ (held s).*1 -> s_out (qs s) !! id = None
}.

(** What is still to do: two steps for a request held back, one for one at the
    device. *)
Definition to_do (s : qstate) : nat := 2 * length (held s) + size (s_out (qs s)).

Lemma completes_rtc s s' : rtc completes s s' -> inv s ->
  inv s' /\ rtc (step crc32c) s s' /\ (size (s_out s') <= size (s_out s))%nat /\ (s' <> s -> (size (s_out s') < size (s_out s))%nat)
  /\ (forall id, s_out s !! id = None -> s_out s' !! id = None).
Proof.
  induction 1 as [s|s1 s2 s3 [Hs (id & r & Hid & Hout)] _ IH]; intros Hi; [split_and!; try done; constructor|].
  destruct (IH ltac:(by eapply inv_step)) as (Hi3 & Hr & Hle & _ & Hn).
  assert (Hsz : S (size (s_out s2)) = size (s_out s1)).
  { rewrite Hout. rewrite <- (insert_delete_id (s_out s1) id r Hid) at 2. rewrite map_size_insert_None; [done|].
    apply lookup_delete_eq. }
  split_and!; [done|by eapply rtc_l|lia|lia|].
  intros id' Hid'. apply Hn. rewrite Hout. destruct (decide (id' = id)) as [->|]; [congruence|].
  by rewrite lookup_delete_ne.
Qed.

(** Trying a request again never fails; with nothing outstanding it is sent. *)
Lemma lock_again s r : inv s -> request_ok r ->
  exists b ns, crc32_lock_lba (ns_of s r) r = Ok (b, ns) /\ (s_out s = ∅ -> b = true).
Proof.
  intros Hi Hok. destruct (ns_of s r) as [ns|] eqn:Ens; [|by exists true, None].
  destruct (rq_admin r) eqn:Ha; [exists true, (Some ns); cbn; by rewrite Ha|].
  destruct Hok as [|[l Hl]]; [congruence|]. destruct (hold_iff s r l ns Hi Ha Hl Ens) as (b & ns' & Hr & Hb).
  exists b, ns'. split; [done|]. intros He. destruct b; [done|].
  destruct (proj1 Hb eq_refl) as (j & id & r' & _ & Hid & _). by rewrite He, lookup_empty in Hid.
Qed.
(** One poll: it returns, is steps of Crc.v, and leaves less to do. *)
Lemma poll_queue process max s : queue_inv s -> reaps process max s ->
  exists rc s', qpair_wait_completion process max s = (Ok rc, s') /\ queue_inv s'
    /\ rtc (step crc32c) (qs s) (qs s') /\ (to_do s' <= to_do s - 1)%nat.
Proof.
  intros [Hi Hok Hids Hnew] (rc & s1 & Hp & Hc & Hne). unfold qpair_wait_completion.
  rewrite (run_bind_ok _ _ _ _ _ Hp). rewrite (run_bind_ok get _ _ (mk_q s1 (held s)) (mk_q s1 (held s))) by done.
  destruct (completes_rtc _ _ Hc Hi) as (Hi1 & Hr1 & Hle & Hlt & Hn1). unfold to_do. cbn [held qs].
  assert (Hstuck : s_out (qs s) = ∅ \/ (size (s_out s1) < size (s_out (qs s)))%nat).
  { destruct (decide (s_out (qs s) = ∅)) as [E|E]; [by left|right]. by apply Hlt, Hne. }
  destruct (held s) as [|[id r] rest] eqn:Eh.
  - exists rc, (mk_q s1 []). split; [done|]. split; [split; cbn; try done; by intros id []%not_elem_of_nil|].
    split; [done|]. cbn [held qs length].
    destruct Hstuck as [E|]; [|lia]. rewrite E, map_size_empty in *. lia.
  - apply Forall_cons in Hok as [Hok Hoks]. cbn in Hids. apply list.NoDup_cons in Hids as [Hid Hids]. cbn [snd] in Hok.
    assert (Hid1 : s_out s1 !! id = None) by (apply Hn1, Hnew; left).
    destruct (lock_again s1 r Hi1 Hok) as (b & ns & Hl & Hb). destruct b.
    + rewrite (run_bind_ok (lift _) _ _ _ _) by (unfold lift; rewrite (submit_sends id r _ ns); [done|exact Hl]).
      cbn [qs held]. do 2 eexists. split; [done|]. cbn [qs held s_out length]. split; [|split].
      * split; cbn [qs held s_out]; [by apply inv_send|done|done|]. intros id' Hid'. rewrite lookup_insert_ne.
        { apply Hn1, Hnew. by right. } { intros <-. done. }
      * eapply rtc_r; [exact Hr1|]. by apply step_send.
      * rewrite map_size_insert_None by done. lia.
    + assert (Hlt1 : (size (s_out s1) < size (s_out (qs s)))%nat).
      { destruct Hstuck as [E|]; [|done]. exfalso. assert (s_out s1 = ∅); [|by specialize (Hb H)].
        apply map_size_empty_iff. rewrite E, map_size_empty in Hle. lia. }
      rewrite (run_bind_ok (lift _) _ _ _ _) by (unfold lift; rewrite (submit_holds id r _ ns); [done|exact Hl]).
      cbn [qs held]. do 2 eexists. split; [done|]. cbn [qs held s_out].
      pose proof (inv_hold s1 r ns Hi1 Hok Hl) as Hsame. rewrite Hsame. split; [|split].
      * split; cbn [qs held s_out]; [by destruct s1|by apply Forall_app; split; [|constructor]| |].
        { rewrite fmap_app. apply NoDup_app. split; [done|]. split; [|apply NoDup_singleton].
          intros x Hx ->%list_elem_of_singleton. done. }
        intros id' Hid'. rewrite fmap_app in Hid'. apply elem_of_app in Hid' as [Hx| ->%list_elem_of_singleton]; [|done].
        apply Hn1, Hnew. by right.
      * destruct s1; exact Hr1.
      * rewrite length_app. cbn [length]. lia.
Qed.

(** C4. No request starves: from a state where the locks are those of the
    requests outstanding, however the polls complete requests - at least one
    each while the device has any - the polls are steps of Crc.v, so that no two
    requests on one block are ever outstanding; each poll returns; and after two
    polls for each request held back and one for each at the device, all have
    been sent and completed. *)
Theorem held_requests_sent s n s' : queue_inv s -> nsteps polled n s s' ->
  rtc (step crc32c) (qs s) (qs s')
  /\ ((to_do s <= n)%nat -> held s' = [] /\ s_out (qs s') = ∅)
  /\ forall process max, reaps process max s' -> exists rc s'', qpair_wait_completion process max s' = (Ok rc, s'').
Proof.
  intros Hi Hs. assert (H : queue_inv s' /\ rtc (step crc32c) (qs s) (qs s') /\ (to_do s' <= to_do s - n)%nat).
  { induction Hs as [s|n s1 s2 s3 (process & max & rc & Hr & Hp) _ IH]; [split_and!; [done|constructor|lia]|].
    destruct (poll_queue process max s1 Hi Hr) as (rc' & s2' & Hp' & Hi2 & Hst & Hlt).
    rewrite Hp in Hp'. injection Hp' as -> ->. destruct (IH Hi2) as (Hi3 & Hst3 & Hlt3).
    split; [done|]. split; [by etrans|lia]. }
  destruct H as (Hi' & Hst & Hle). split; [done|]. split.
  - intros Hn. unfold to_do in *. assert (length (held s') = O /\ size (s_out (qs s')) = O) as [H1 H2] by lia.
    split; [by apply length_zero_iff_nil|by apply map_size_empty_iff].
  - intros process max Hr. destruct (poll_queue process max s' Hi' Hr) as (rc & s'' & H & _). by exists rc, s''.
Qed.
End Queue.

(** ** Witnesses *)

(** The device reaps all it has; in each poll it posts a completion before the
    word is read, one while the queue is being read and one before the unmask. *)
Definition reap_all (w : world (D := mem_device)) : res Z * world :=
  (Ok (w_cq w), mk_world (w_hw w) (w_pending w) 0 (w_posted w)).
Definition busy (i : nat) : nat := (if decide (i = 0 \/ i = 3 \/ i = 4) then 1 else 0)%nat.

Lemma admin_completions_seen_witness :
  exists w, polls intr_vtophys reap_all (mk_queue 0 0 true) [busy; busy] (mk_world intr_ready (fun _ => false) 0 0) = (Ok [1; 3], w)
    /\ w_posted w = 6 /\ w_cq w = 2.
Proof.
  destruct (h_zone intr_ready) as [z|] eqn:Ez; [|vm_compute in Ez; discriminate Ez].
  assert (Hz : z = mk_intc (replicate 4 0 ++ replicate 60 7) 4 false true false)
    by (vm_compute in Ez; injection Ez as <-; reflexivity).
  assert (Hv : forall v, 0 <= v < 4 -> vector_ready intr_vtophys intr_ready z v).
  { intros v Hv. rewrite Hz. assert (v = 0 \/ v = 1 \/ v = 2 \/ v = 3) as [-> | [-> | [-> | ->]]] by lia;
      split; vm_compute; reflexivity. }
  destruct (admin_completions_seen intr_vtophys reap_all (fun _ => eq_refl) 4 intr_ready z (mk_queue 0 0 true) [busy; busy])
    as (rcs & w & H1 & H2 & _);
    [lia|exact Ez|vm_compute; reflexivity|rewrite Hz; reflexivity|rewrite Hz; reflexivity|exact Hv|split; [cbn; lia|split; reflexivity]
    |reflexivity|].
  assert (E : rcs = [1; 3] /\ w_posted w = 6) by (clear -H1; vm_compute in H1; injection H1 as <- <-; split; reflexivity).
  destruct E as [-> E2]. exists w. split; [exact H1|]. split; [exact E2|]. cbn in H2. lia.
Defined.

(** SPDK's submission, and a device that ends request [id] with an error. *)
Definition spdk_submit (id : Z) (r : request) (s : qstate) : res qstate :=
  l ← crc32_lock_lba (ns_of (qs s) r) r;
  Ok (if (fst l : bool) then mk_q (mk_sys (put_ns r (snd l) (s_nss (qs s))) (<[id := r]> (s_out (qs s)))) (held s)
      else mk_q (mk_sys (put_ns r (snd l) (s_nss (qs s))) (s_out (qs s))) (held s ++ [(id, r)])).
Definition fail_request (id : Z) (s : sys) : sys :=
  match (r ← s_out s !! id; ns ← ns_of s r; Some (r, ns)) with
  | Some (r, ns) =>
      match crc32_unlock_lba (Some ns) r with
      | Ok ns2 => mk_sys (put_ns r ns2 (s_nss s)) (delete id (s_out s))
      | Err _ => s
      end
  | None => s
  end.
Definition device (id max : Z) (s : qstate) : res Z * qstate := (Ok 1, mk_q (fail_request id (qs s)) (held s)).
Definition poll_step (id : Z) (s : qstate) : qstate := snd (qpair_wait_completion spdk_submit (device id) 0 s).

(** A write of blocks 0 to 3 is outstanding, a read of block 3 held back. *)
Definition held_start : qstate :=
  match spdk_submit 7 (example_request 1 0 4) (mk_q example_sys []) with
  | Ok s => match spdk_submit 8 (example_request 2 3 1) s with Ok s => s | Err _ => s end
  | Err _ => mk_q example_sys []
  end.

Definition can_fail (id : Z) (s : sys) : bool :=
  match (r ← s_out s !! id; ns ← ns_of s r; Some (r, ns)) with
  | Some (r, ns) =>
      negb (rq_admin r) && negb (opc (rq_cmd r) =? 4) && negb (opc (rq_cmd r) =? 9)
      && match crc32_unlock_lba (Some ns) r with Ok _ => true | Err _ => false end
  | None => false
  end.

Lemma fail_polled id s : can_fail id (qs s) = true ->
  fst (qpair_wait_completion spdk_submit (device id) 0 s) = Ok 1 ->
  polled (fun _ => 0) spdk_submit s (poll_step id s).
Proof.
  unfold can_fail. destruct (s_out (qs s) !! id) as [r|] eqn:Hid; [|done]. cbn [mbind option_bind].
  destruct (ns_of (qs s) r) as [ns|] eqn:Hns; [|done]. cbn [mbind option_bind].
  destruct (crc32_unlock_lba (Some ns) r) as [ns2|] eqn:Hu; [|by rewrite andb_false_r].
  intros Hc Hrun. assert (Ha : rq_admin r = false) by (destruct (rq_admin r); done).
  assert (H4 : opc (rq_cmd r) <> 4) by lia. assert (H9 : opc (rq_cmd r) <> 9) by lia.
  exists (device id), 0, 1. split.
  - exists 1, (fail_request id (qs s)). split; [done|]. unfold fail_request. rewrite Hid. cbn [mbind option_bind].
    rewrite Hns. cbn [mbind option_bind]. rewrite Hu. split.
    + apply rtc_once. split; [|by exists id, r].
      apply (step_complete (fun _ => 0) (qs s) id r [] 0 1 ns ns (0, 1) ns2); try done.
      unfold complete_io. rewrite (proj2 (Z.eqb_neq _ _) H4). done.
    + intros _ E. apply (f_equal s_out) in E. cbn [s_out] in E. rewrite <- E, lookup_delete_eq in Hid. done.
  - unfold poll_step. destruct (qpair_wait_completion spdk_submit (device id) 0 s) as [r' s']. cbn in *. by rewrite Hrun.
Qed.

Lemma idle_polled s : s_out (qs s) = ∅ -> held s = [] -> polled (fun _ => 0) spdk_submit s s.
Proof.
  intros Ho Hh. exists (fun _ s => (Ok 0, s)), 0, 0. split.
  - exists 0, (qs s). split; [by destruct s|]. split; [constructor|done].
  - unfold qpair_wait_completion. rewrite (run_bind_ok _ _ s 0 s), (run_bind_ok get _ s s s), Hh by done. done.
Qed.

Lemma held_inv : queue_inv held_start.
Proof.
  destruct (crc32_lock_lba (Some example_tab) (example_request 1 0 4)) as [[b ns]|] eqn:E; [|by vm_compute in E].
  assert (b = true) as -> by (vm_compute in E; by injection E).
  assert (Hok : forall op lba n, is_lba_cmd (Z.land op 0xff) = true -> 0 <= lba < 2 ^ 32 -> 1 <= n < 65536 ->
    request_ok (example_request op lba n)) by (intros op lba n H1 H2 H3; right; eexists; by apply example_request_ok).
  assert (Hq : qs held_start = mk_sys (put_ns (example_request 1 0 4) ns (s_nss example_sys)) (<[7 := example_request 1 0 4]> ∅)
             /\ held held_start = [(8, example_request 2 3 1)]).
  { vm_compute in E. injection E as <-. by vm_compute. }
  destruct Hq as [Hq Hh]. split; rewrite ?Hq, ?Hh.
  - apply (inv_send example_sys 7 (example_request 1 0 4) ns); [apply inv_idle, example_idle|done|by apply Hok|exact E].
  - constructor; [|constructor]. cbn [snd]. by apply (Hok 2 3 1).
  - apply NoDup_singleton.
  - intros id ->%list_elem_of_singleton. done.
Qed.

Lemma held_requests_sent_witness : exists s', nsteps (polled (fun _ => 0) spdk_submit) 3 held_start s'
  /\ length (held held_start) = 1%nat /\ held s' = [] /\ s_out (qs s') = ∅.
Proof.
  set (s1 := poll_step 7 held_start). set (s2 := poll_step 8 s1).
  assert (P1 : polled (fun _ => 0) spdk_submit held_start s1).
  { apply (fail_polled 7 held_start); vm_compute; reflexivity. }
  assert (P2 : polled (fun _ => 0) spdk_submit s1 s2).
  { apply (fail_polled 8 s1); vm_compute; reflexivity. }
  assert (P3 : polled (fun _ => 0) spdk_submit s2 s2) by (apply idle_polled; vm_compute; reflexivity).
  assert (Hs : nsteps (polled (fun _ => 0) spdk_submit) 3 held_start s2)
    by (eapply nsteps_l; [exact P1|]; eapply nsteps_l; [exact P2|]; eapply nsteps_l; [exact P3|]; constructor).
  exists s2. split; [exact Hs|]. split; [vm_compute; reflexivity|].
  assert (Hsend : forall id r s ns, crc32_lock_lba (ns_of (qs s) r) r = Ok (true, ns) ->
    spdk_submit id r s = Ok (mk_q (mk_sys (put_ns r ns (s_nss (qs s))) (<[id := r]> (s_out (qs s)))) (held s)))
    by (intros id r s ns E; unfold spdk_submit; rewrite E; reflexivity).
  assert (Hhold : forall id r s ns, crc32_lock_lba (ns_of (qs s) r) r = Ok (false, ns) ->
    spdk_submit id r s = Ok (mk_q (mk_sys (put_ns r ns (s_nss (qs s))) (s_out (qs s))) (held s ++ [(id, r)])))
    by (intros id r s ns E; unfold spdk_submit; rewrite E; reflexivity).
  refine (proj1 (proj2 (held_requests_sent (fun _ => 0) spdk_submit Hsend Hhold held_start 3 s2 held_inv Hs)) _).
  vm_compute. lia.
Defined.
