(* ===== verification/Cmdlog.v ===== *)
(** * Cmdlog: the command log of a queue pair

    The clock (module timeval) and the command log of src/src/driver.c: SPDK
    calls [cmdlog_add_cmd] when it sends a request and [cmdlog_cmd_cpl] when the
    request completes.  The log is a ring of CMD_LOG_DEPTH entries; an entry
    that is overwritten while its request is outstanding moves to memory of its
    own.  The completion side of Crc.v runs on the command the entry holds.
    Requests and entries are objects of a heap: a request points to its entry
    and the entry points back. *)
From Stdlib Require Import ZArith Lia ZifyBool.
From stdpp Require Import base list numbers option gmap relations.
From S2P Require Import Prelude PyInt Buffer Command Crc.
Local Open Scope Z_scope.

(** ** The clock *)
Record timeval := mk_tv { tv_sec : Z; tv_usec : Z }.
Record timespec := mk_ts { ts_sec : Z; ts_nsec : Z }.

Definition US_PER_S : Z := 1000 * 1000.

(** [tv_diff], from the two clocks read at start-up. *)
Definition timeval_init (tv : timeval) (ts : timespec) : timespec :=
  mk_ts (tv_sec tv - ts_sec ts - 1) (Z.shiftl 1 30 + tv_usec tv * 1000 - ts_nsec ts).

(** A [uint32_t]. *)
Definition timeval_to_us (t : timeval) : Z := wrap 32 (tv_sec t * US_PER_S + tv_usec t).

(** [ts] is the monotonic clock. *)
Definition timeval_gettimeofday (tv_diff ts : timespec) : timeval :=
  let sec := ts_sec ts + ts_sec tv_diff in
  let usec := Z.shiftr (ts_nsec ts + ts_nsec tv_diff) 10 in
  if US_PER_S <? usec then mk_tv (sec + Z.quot usec US_PER_S) (Z.rem usec US_PER_S)
  else mk_tv sec usec.

(** The macros of <sys/time.h>. *)
Definition timersub (a b : timeval) : timeval :=
  let sec := tv_sec a - tv_sec b in
  let usec := tv_usec a - tv_usec b in
  if usec <? 0 then mk_tv (sec - 1) (usec + 1000000) else mk_tv sec usec.

Definition timeradd (a b : timeval) : timeval :=
  let sec := tv_sec a + tv_sec b in
  let usec := tv_usec a + tv_usec b in
  if 1000000 <=? usec then mk_tv (sec + 1) (usec - 1000000) else mk_tv sec usec.

Definition timercmp_gt (a b : timeval) : bool :=
  if tv_sec a =? tv_sec b then tv_usec b <? tv_usec a else tv_sec b <? tv_sec a.

(** ** Entries, log and requests *)
Definition CMD_LOG_DEPTH : Z := 2050.

(** What SPDK received: the status, and the rest of the entry as one number. *)
Record cpl := mk_cpl { cpl_sct : Z; cpl_sc : Z; cpl_rest : Z }.

(** [cmd_log_entry_t]; a request is the number of its object. *)
Record log_entry := mk_entry {
  e_cmd : spdk_cmd;
  e_time_cmd : timeval;
  e_cpl : cpl;
  e_latency_us : Z;
  e_overlap_allocated : bool;
  e_buf : option Z;                (* an address, or NULL *)
  e_req : option Z
}.

(** [cmd_log_table_t] *)
Record log_table := mk_log {
  lg_table : list log_entry;
  lg_head : Z;
  lg_tail : Z;
  lg_latest_latency : Z;
  lg_latest_cid : Z
}.

(** An entry of the ring, or one with memory of its own. *)
Inductive eptr := Slot (i : nat) | Heap (l : positive).

#[export] Instance eptr_eq_dec : EqDecision eptr.
Proof. solve_decision. Defined.

(** The fields of [nvme_request] the log uses. *)
Record rqst := mk_rqst {
  r_admin : bool;                  (* its queue pair is the admin queue *)
  r_cmd : spdk_cmd;
  r_buf : option Z;                (* payload.contig_or_cb_arg *)
  r_entry : option eptr            (* cmdlog_entry *)
}.

(** A queue pair's log, the entries with memory of their own, the requests. *)
Record mem := mk_mem { m_log : log_table; m_heap : gmap positive log_entry; m_reqs : gmap Z rqst }.

Definition read_entry (p : eptr) (m : mem) : res log_entry :=
  match (match p with Slot i => lg_table (m_log m) !! i | Heap l => m_heap m !! l end) with
  | Some e => Ok e
  | None => Err COutOfBounds
  end.

Definition set_table (t : list log_entry) (g : log_table) : log_table :=
  mk_log t (lg_head g) (lg_tail g) (lg_latest_latency g) (lg_latest_cid g).

Definition write_entry (p : eptr) (e : log_entry) (m : mem) : mem :=
  match p with
  | Slot i => mk_mem (set_table (<[i := e]> (lg_table (m_log m))) (m_log m)) (m_heap m) (m_reqs m)
  | Heap l => mk_mem (m_log m) (<[l := e]> (m_heap m)) (m_reqs m)
  end.

Definition set_r_entry (p : option eptr) (q : rqst) : rqst :=
  mk_rqst (r_admin q) (r_cmd q) (r_buf q) p.

(** [req->cmdlog_entry = p] *)
Definition link (id : Z) (p : option eptr) (m : mem) : res mem :=
  match m_reqs m !! id with
  | Some q => Ok (mk_mem (m_log m) (m_heap m) (<[id := set_r_entry p q]> (m_reqs m)))
  | None => Err COutOfBounds
  end.

(** [spdk_dma_free(log_entry)] *)
Definition free_entry (p : eptr) (m : mem) : res mem :=
  match p with
  | Slot _ => Err COutOfBounds
  | Heap l => Ok (mk_mem (m_log m) (delete l (m_heap m)) (m_reqs m))
  end.

(** ** Creation *)

(** [spdk_memzone_reserve] gives the memory, or NULL. *)
Definition cmdlog_init (old reserve : option log_table) : res log_table :=
  check (match old with None => true | Some _ => false end) CAbort ;;
  match reserve with Some g => Ok g | None => Err CAbort end.

(** ** A command is sent *)
Definition with_overlap (b : bool) (e : log_entry) : log_entry :=
  mk_entry (e_cmd e) (e_time_cmd e) (e_cpl e) (e_latency_us e) b (e_buf e) (e_req e).

(** The command identifier, in the upper half of dword 0. *)
Definition cid (c : spdk_cmd) : Z := Z.land (Z.shiftr (dword 0 c) 16) 0xffff.

(** [alloc] is what [spdk_dma_zmalloc] gives, when it is called: new memory, or
    NULL, which the code does not test. *)
Definition move_overlapped (alloc : option positive) (e : log_entry) (m : mem) : res mem :=
  match e_req e with
  | None => Ok m
  | Some old =>
      match alloc with
      | None => Err COutOfBounds
      | Some l => link old (Some (Heap l)) (write_entry (Heap l) (with_overlap true e) m)
      end
  end.

Definition set_tail (tail head : Z) (g : log_table) : log_table :=
  mk_log (lg_table g) head tail (lg_latest_latency g) (lg_latest_cid g).
Definition set_cid (c : Z) (g : log_table) : log_table :=
  mk_log (lg_table g) (lg_head g) (lg_tail g) (lg_latest_latency g) c.
Definition on_log (f : log_table -> log_table) (m : mem) : mem :=
  mk_mem (f (m_log m)) (m_heap m) (m_reqs m).

Definition cmdlog_add_cmd (id : Z) (alloc : option positive) (now : timeval) (m : mem) : res mem :=
  let head_index := lg_head (m_log m) in
  let tail_index := lg_tail (m_log m) in
  let p := Slot (Z.to_nat tail_index) in
  check (tail_index <? CMD_LOG_DEPTH) CAbort ;;
  match m_reqs m !! id with
  | None => Err COutOfBounds
  | Some q =>
      let m := on_log (set_cid (cid (r_cmd q))) m in
      e ← read_entry p m;
      m ← move_overlapped alloc e m;
      let e := mk_entry (r_cmd q) now (e_cpl e) 0 false (r_buf q) (Some id) in
      m ← link id (Some p) (write_entry p e m);
      let tail_index := if tail_index + 1 =? CMD_LOG_DEPTH then 0 else tail_index + 1 in
      (* a head that moves by one is not stored back *)
      let head := if head_index =? tail_index
                  then if head_index + 1 =? CMD_LOG_DEPTH then 0 else lg_head (m_log m)
                  else lg_head (m_log m) in
      Ok (on_log (set_tail tail_index head) m)
  end.

(** ** A command completes *)

(** [spdk_nvme_ctrlr_get_ns], over the namespaces 1, 2, ... *)
Definition get_ns (nss : list nstab) (n : Z) : option nstab :=
  if 1 <=? n then nss !! Z.to_nat (n - 1) else None.

(** The assertions on [log_entry->buf]. *)
Definition needs_buf (c : spdk_cmd) (ns : nstab) : bool :=
  (opc c =? 2)
  || (match nt_crc ns with Some _ => true | None => false end && ((opc c =? 1) || (opc c =? 9))).

Section Cpl.
Variable crc32c : list Z -> Z.

(** The update and the verification, and the status the caller sees then. *)
Definition complete_cmd (admin : bool) (c : spdk_cmd) (buf : option (list Z)) (nss : list nstab)
    (sct sc : Z) : res (list nstab * (Z * Z)) :=
  if ((sc =? 0) && (sct =? 0)) || (opc c =? 4) then
    if admin then
      nss ← cmdlog_update_crc_admin c nss;
      Ok (nss, (sct, sc))
    else
      match get_ns nss (nsid c) with
      | None => Err CAbort
      | Some ns =>
          check (negb (needs_buf c ns) || match buf with Some _ => true | None => false end) CAbort ;;
          r ← complete_io crc32c (mk_request false c []) (default [] buf) ns sct sc;
          Ok (<[Z.to_nat (nsid c - 1) := fst r]> nss, snd r)
      end
  else Ok (nss, (sct, sc)).

Definition set_latency (l : Z) (g : log_table) : log_table :=
  mk_log (lg_table g) (lg_head g) (lg_tail g) l (lg_latest_cid g).

(** [dma] is the memory the device has written to. *)
Definition cmdlog_cmd_cpl (id : Z) (c : cpl) (now : timeval) (dma : Z -> list Z) (m : mem)
    (nss : list nstab) : res (mem * list nstab * (Z * Z)) :=
  match m_reqs m !! id with
  | None => Err COutOfBounds
  | Some q =>
      match r_entry q with
      | None => Ok (m, nss, (cpl_sct c, cpl_sc c))
      | Some p =>
          e ← read_entry p m;
          check (bool_decide (e_req e = Some id)) CAbort ;;
          let latency := timeval_to_us (timersub now (e_time_cmd e)) in
          let m := on_log (set_latency latency) m in
          r ← complete_cmd (r_admin q) (e_cmd e) (dma <$> e_buf e) nss (cpl_sct c) (cpl_sc c);
          let e := mk_entry (e_cmd e) (e_time_cmd e) c latency (e_overlap_allocated e) (e_buf e) None in
          m ← link id None (write_entry p e m);
          m ← (if e_overlap_allocated e then free_entry p m else Ok m);
          Ok (m, fst r, snd r)
      end
  end.
End Cpl.

(** ** Printing the log *)

(** What is printed of an entry: its place in the ring, the command with its
    time, and the completion with its time when there is one. *)
Record shown := mk_shown { sh_index : Z; sh_time : timeval; sh_cmd : spdk_cmd; sh_cpl : option (timeval * cpl) }.

(** The latency is in the microseconds of a [timeval] with no seconds. *)
Definition show_entry (index : Z) (e : log_entry) : shown :=
  mk_shown index (e_time_cmd e) (e_cmd e)
    (if negb (e_latency_us e =? 0) then Some (timeradd (e_time_cmd e) (mk_tv 0 (e_latency_us e)), e_cpl e) else None).

(** [index] before the next entry is read. *)
Definition step_back (index : Z) : Z := (if index =? 0 then CMD_LOG_DEPTH else index) - 1.

(** The commands from the most recent one back, [n] entries of the ring. *)
Fixpoint dump_loop (n : nat) (index : Z) (t : list log_entry) : res (list shown) :=
  match n with
  | O => Ok []
  | S n' =>
      let index := step_back index in
      match t !! Z.to_nat index with
      | None => Err COutOfBounds
      | Some e =>
          l ← dump_loop n' index t;
          Ok (if timercmp_gt (e_time_cmd e) (mk_tv 0 0) then show_entry index e :: l else l)
      end
  end.

Definition log_cmd_dump (g : log_table) (count : Z) : res (list shown) :=
  let dump_count := if (count =? 0) || (CMD_LOG_DEPTH <? count) then CMD_LOG_DEPTH
                    else wrap 32 count in
  dump_loop (Z.to_nat dump_count) (lg_tail g) (lg_table g).

(** ** What the clock measures *)
Definition timespec_wf (ts : timespec) : Prop := 0 <= ts_nsec ts < 10 ^ 9.

(** The time between two instants of the monotonic clock, in nanoseconds. *)
Definition elapsed_ns (t1 t2 : timespec) : Z :=
  (ts_sec t2 - ts_sec t1) * 10 ^ 9 + (ts_nsec t2 - ts_nsec t1).

Lemma gettimeofday_us d ts :
  0 <= ts_nsec ts + ts_nsec d ->
  tv_sec (timeval_gettimeofday d ts) * US_PER_S + tv_usec (timeval_gettimeofday d ts)
  = (ts_sec ts + ts_sec d) * US_PER_S + (ts_nsec ts + ts_nsec d) / 1024.
Proof.
  intros H. unfold timeval_gettimeofday. rewrite shiftr_div by lia. change (2 ^ 10) with 1024.
  assert (0 <= (ts_nsec ts + ts_nsec d) / 1024) by divmod.
  revert H0. generalize ((ts_nsec ts + ts_nsec d) / 1024). intros u Hu.
  destruct (US_PER_S <? u); cbn [tv_sec tv_usec]; [|done].
  pose proof (Z.quot_rem u US_PER_S ltac:(done)). lia.
Qed.

Lemma timersub_us a b :
  timeval_to_us (timersub a b)
  = wrap 32 ((tv_sec a * US_PER_S + tv_usec a) - (tv_sec b * US_PER_S + tv_usec b)).
Proof.
  unfold timersub, timeval_to_us, US_PER_S. destruct (_ <? 0); cbn [tv_sec tv_usec]; f_equal; lia.
Qed.

(** C7. What a latency is: the clock never runs backwards, but its microsecond
    is 1024 ns, and it jumps by 24000000/1024 = 23437.5 of them at every full
    second of the monotonic clock; a latency below 2^32 is the time that passed
    by this measure, to within one unit. *)
Theorem latency_measured tv ts0 t1 t2 :
  0 <= tv_usec tv < US_PER_S -> timespec_wf ts0 -> timespec_wf t1 -> timespec_wf t2 ->
  0 <= elapsed_ns t1 t2 < 4 * 10 ^ 12 ->
  let d := timeval_init tv ts0 in
  let us := timeval_to_us (timersub (timeval_gettimeofday d t2) (timeval_gettimeofday d t1)) in
  0 <= us
  /\ Z.abs (1024 * us - (elapsed_ns t1 t2 + 24000000 * (ts_sec t2 - ts_sec t1))) < 1024
  /\ (ts_nsec t1 = ts_nsec t2 -> 1000 * us = elapsed_ns t1 t2).
Proof.
  intros Htv H0 H1 H2 He. cbv zeta. unfold timespec_wf, elapsed_ns in *.
  rewrite timersub_us, !gettimeofday_us
    by (unfold timeval_init, US_PER_S in *; cbn [ts_nsec]; change (Z.shiftl 1 30) with 1073741824; lia).
  assert (HD : 0 <= ts_nsec (timeval_init tv ts0))
    by (unfold timeval_init, US_PER_S in *; cbn [ts_nsec]; change (Z.shiftl 1 30) with 1073741824; lia).
  revert HD. generalize (ts_nsec (timeval_init tv ts0)) (ts_sec (timeval_init tv ts0)). intros D S HD.
  set (u1 := (ts_nsec t1 + D) / 1024). set (u2 := (ts_nsec t2 + D) / 1024).
  assert (Hu1 : 1024 * u1 <= ts_nsec t1 + D < 1024 * u1 + 1024) by (unfold u1; divmod).
  assert (Hu2 : 1024 * u2 <= ts_nsec t2 + D < 1024 * u2 + 1024) by (unfold u2; divmod).
  assert (Hmono : ts_sec t1 = ts_sec t2 -> u1 <= u2) by (intros; lia).
  assert (Heq : ts_nsec t1 = ts_nsec t2 -> u1 = u2) by (intros E; unfold u1, u2; by rewrite E).
  clearbody u1 u2. unfold wrap, US_PER_S. rewrite Z.mod_small by (eval_pow; lia). lia.
Qed.

(** ** The invariant of the log *)
Definition is_heap (p : eptr) : bool := match p with Heap _ => true | Slot _ => false end.

(** What was submitted. *)
Record submission := mk_sub { sb_cmd : spdk_cmd; sb_time : timeval; sb_buf : option Z }.

Definition entry_sub (e : log_entry) : submission := mk_sub (e_cmd e) (e_time_cmd e) (e_buf e).

(** The ring entry used [n] submissions before the next one. *)
Definition back (tail : Z) (n : nat) : nat := Z.to_nat ((tail - 1 - Z.of_nat n) mod CMD_LOG_DEPTH).

(** [h] is what was submitted, the latest first.  While a command is being added,
    the entry [x] of the ring is not pointed to by the request it names. *)
Record log_inv (x : option nat) (h : list submission) (m : mem) : Prop := {
  li_len : Z.of_nat (length (lg_table (m_log m))) = CMD_LOG_DEPTH;
  li_tail : 0 <= lg_tail (m_log m) < CMD_LOG_DEPTH;
  (* a request and its entry point to each other *)
  li_req : forall id q p, m_reqs m !! id = Some q -> r_entry q = Some p ->
    exists e, read_entry p m = Ok e /\ e_req e = Some id
      /\ e_cmd e = r_cmd q /\ e_buf e = r_buf q /\ e_overlap_allocated e = is_heap p;
  li_slot : forall i e id, Some i <> x -> lg_table (m_log m) !! i = Some e -> e_req e = Some id ->
    exists q, m_reqs m !! id = Some q /\ r_entry q = Some (Slot i);
  li_free : forall i id q, x = Some i -> m_reqs m !! id = Some q -> r_entry q <> Some (Slot i);
  li_heap : forall l e, m_heap m !! l = Some e -> exists id q,
    e_req e = Some id /\ m_reqs m !! id = Some q /\ r_entry q = Some (Heap l);
  li_ring : forall n s, Z.of_nat n < CMD_LOG_DEPTH -> h !! n = Some s ->
    exists e, lg_table (m_log m) !! back (lg_tail (m_log m)) n = Some e /\ entry_sub e = s;
  (* and beyond what was submitted, the ring is as new *)
  li_empty : forall n e, Z.of_nat n < CMD_LOG_DEPTH -> h !! n = None ->
    lg_table (m_log m) !! back (lg_tail (m_log m)) n = Some e -> e_time_cmd e = mk_tv 0 0
}.

(** The commands that are outstanding, with what is known of their submission. *)
Definition sub_of (m : mem) (q : rqst) : option submission :=
  p ← r_entry q;
  match read_entry p m with Ok e => Some (entry_sub e) | Err _ => None end.
Definition outstanding (m : mem) : gmap Z submission := omap (sub_of m) (m_reqs m).

Lemma outstanding_lookup m id : outstanding m !! id = m_reqs m !! id ≫= sub_of m.
Proof. apply lookup_omap. Qed.

Lemma outstanding_some h m id s :
  log_inv None h m -> outstanding m !! id = Some s ->
  exists q p e, m_reqs m !! id = Some q /\ r_entry q = Some p /\ read_entry p m = Ok e
    /\ e_req e = Some id /\ e_overlap_allocated e = is_heap p /\ entry_sub e = s.
Proof.
  intros Hi. rewrite outstanding_lookup. destruct (m_reqs m !! id) as [q|] eqn:Hq; [|done].
  cbn. unfold sub_of. destruct (r_entry q) as [p|] eqn:Hp; [|done]. cbn.
  destruct (li_req _ _ _ Hi id q p Hq Hp) as (e & He & Hr & _ & _ & Ho). rewrite He. intros [= <-].
  by exists q, p, e.
Qed.

Lemma outstanding_none h m id q :
  log_inv None h m -> outstanding m !! id = None -> m_reqs m !! id = Some q -> r_entry q = None.
Proof.
  intros Hi. rewrite outstanding_lookup. intros H Hq. rewrite Hq in H. cbn in H. unfold sub_of in H.
  destruct (r_entry q) as [p|] eqn:Hp; [|done].
  destruct (li_req _ _ _ Hi id q p Hq Hp) as (e & He & _).
  cbn in H. by rewrite He in H.
Qed.

(** A new log in zeroed memory. *)
Definition zeroed (g : log_table) : Prop :=
  Z.of_nat (length (lg_table g)) = CMD_LOG_DEPTH /\ lg_tail g = 0
  /\ Forall (fun e => e_req e = None /\ e_time_cmd e = mk_tv 0 0 /\ e_overlap_allocated e = false
       /\ e_latency_us e = 0) (lg_table g).

Lemma inv_zeroed g : zeroed g -> log_inv None [] (mk_mem g ∅ ∅).
Proof.
  intros (Hl & Ht & Hz). split; cbn [m_log m_heap m_reqs]; try done.
  - rewrite Ht. done.
  - intros i e id _ He Hr. by apply (Forall_lookup_1 _ _ _ _ Hz) in He as [? _]; congruence.
  - intros n e _ _ He. by apply (Forall_lookup_1 _ _ _ _ Hz) in He as (_ & ? & _).
Qed.

(** *** Reading after writing *)
Lemma read_write_same p e e0 m :
  read_entry p m = Ok e0 -> read_entry p (write_entry p e m) = Ok e.
Proof.
  unfold read_entry. destruct p as [i|l]; cbn.
  - destruct (_ !! i) eqn:E; [|done]. intros _. rewrite list_lookup_insert_eq; [done|].
    by apply lookup_lt_Some in E.
  - by rewrite lookup_insert_eq.
Qed.

Lemma read_write_other p p' e m : p <> p' -> read_entry p' (write_entry p e m) = read_entry p' m.
Proof.
  unfold read_entry. destruct p as [i|l], p' as [i'|l']; cbn; intros H; try done.
  - rewrite list_lookup_insert_ne; [done|congruence].
  - rewrite lookup_insert_ne; [done|congruence].
Qed.

(** Only the reads of entries matter for what is outstanding. *)
Lemma sub_of_read m m' q :
  (forall p, r_entry q = Some p -> read_entry p m = read_entry p m') -> sub_of m q = sub_of m' q.
Proof.
  intros H. unfold sub_of. destruct (r_entry q) as [p|]; [|done]. cbn. by rewrite (H p).
Qed.

Lemma next_tail tail : 0 <= tail < CMD_LOG_DEPTH ->
  0 <= (if tail + 1 =? CMD_LOG_DEPTH then 0 else tail + 1) < CMD_LOG_DEPTH.
Proof. unfold CMD_LOG_DEPTH. intros H. destruct (Z.eqb_spec (tail + 1) 2050); lia. Qed.

Lemma back_0 tail : 0 <= tail < CMD_LOG_DEPTH ->
  back (if tail + 1 =? CMD_LOG_DEPTH then 0 else tail + 1) 0 = Z.to_nat tail.
Proof.
  intros H. unfold back, CMD_LOG_DEPTH in *. f_equal. destruct (Z.eqb_spec (tail + 1) 2050); divmod.
Qed.

Lemma back_S tail n : 0 <= tail < CMD_LOG_DEPTH ->
  back (if tail + 1 =? CMD_LOG_DEPTH then 0 else tail + 1) (S n) = back tail n.
Proof.
  intros H. unfold back. f_equal. unfold CMD_LOG_DEPTH in *.
  destruct (Z.eqb_spec (tail + 1) 2050); [|f_equal; lia].
  replace (0 - 1 - Z.of_nat (S n)) with (tail - 1 - Z.of_nat n + (-1) * 2050) by lia.
  apply Z_mod_plus_full.
Qed.

Lemma back_tail tail n : 0 <= tail < CMD_LOG_DEPTH -> Z.of_nat n < CMD_LOG_DEPTH ->
  back tail n = Z.to_nat tail -> Z.of_nat n = CMD_LOG_DEPTH - 1.
Proof.
  unfold back, CMD_LOG_DEPTH. intros Ht Hn H. apply Z2Nat.inj in H; [divmod|divmod|lia].
Qed.

(** *** Adding *)
Lemma inv_on_log f x h m :
  lg_table (f (m_log m)) = lg_table (m_log m) -> lg_tail (f (m_log m)) = lg_tail (m_log m) ->
  log_inv x h m -> log_inv x h (on_log f m) /\ outstanding (on_log f m) = outstanding m.
Proof.
  intros Et El Hi.
  assert (Hrd : forall p, read_entry p (on_log f m) = read_entry p m)
    by (intros [i|l]; unfold read_entry; cbn; by rewrite ?Et).
  split.
  - destruct Hi as [? ? Hreq ? ? ? ? ?]. split; cbn [on_log m_log m_heap m_reqs]; rewrite ?Et, ?El; try done.
    intros id q p Hq Hp. rewrite Hrd. by apply Hreq.
  - apply map_eq. intros id. rewrite !outstanding_lookup. cbn [on_log m_reqs].
    destruct (m_reqs m !! id) as [q|]; [|done]. cbn. apply sub_of_read. intros p _. apply Hrd.
Qed.

(** The entry at the tail makes room: its request, if it is outstanding, gets a
    copy of the entry. *)
Lemma move_run h m e l :
  log_inv None h m -> read_entry (Slot (Z.to_nat (lg_tail (m_log m)))) m = Ok e ->
  m_heap m !! l = None ->
  exists m1, move_overlapped (Some l) e m = Ok m1
    /\ log_inv (Some (Z.to_nat (lg_tail (m_log m)))) h m1
    /\ m_log m1 = m_log m /\ outstanding m1 = outstanding m
    /\ (forall id q, m_reqs m !! id = Some q -> r_entry q = None -> m_reqs m1 !! id = Some q).
Proof.
  intros Hi He Hl. set (t := Z.to_nat (lg_tail (m_log m))) in *. unfold move_overlapped.
  assert (Ht : lg_table (m_log m) !! t = Some e).
  { unfold read_entry in He. by destruct (_ !! t); [injection He as ->|]. }
  destruct (e_req e) as [old|] eqn:Er.
  2: { exists m. split; [done|]. split; [|done]. destruct Hi as [? ? Hreq Hslot _ ? ? ?]. split; try done.
       - intros i e' id _. apply Hslot. done.
       - intros i id q [= <-] Hq Hp. destruct (Hreq id q _ Hq Hp) as (e' & He' & ? & _). congruence. }
  destruct (li_slot _ _ _ Hi t e old) as (q & Hq & Hp); [done..|].
  unfold link. cbn [write_entry m_reqs]. rewrite Hq. eexists. split; [reflexivity|].
  cbn [m_log m_heap m_reqs].
  destruct (li_req _ _ _ Hi old q _ Hq Hp) as (e' & He' & _ & Hcmd & Hbuf & _).
  assert (e' = e) as -> by congruence.
  set (m1 := mk_mem _ _ _).
  assert (Hrd : forall id q' p, m_reqs m !! id = Some q' -> r_entry q' = Some p -> id <> old ->
            read_entry p m1 = read_entry p m).
  { intros id q' [i|l'] Hq' Hp' Hne; [done|]. unfold read_entry, m1. cbn.
    rewrite lookup_insert_ne; [done|]. intros <-.
    destruct (li_req _ _ _ Hi id q' _ Hq' Hp') as (? & Hr & _). unfold read_entry in Hr. by rewrite Hl in Hr. }
  split_and!; try done.
  - destruct Hi as [Hlen Htl Hreq Hslot _ Hheap Hring Hempty]. split; cbn [m1 m_log m_heap m_reqs]; try done.
    + intros id q' p. destruct (decide (id = old)) as [->|Hne].
      * rewrite lookup_insert_eq. intros [= <-] [= <-]. exists (with_overlap true e).
        unfold read_entry, m1. cbn. rewrite lookup_insert_eq. done.
      * rewrite lookup_insert_ne by done. intros Hq' Hp'. rewrite (Hrd id q' p Hq' Hp' Hne). by apply Hreq.
    + intros i e1 id Hne He1 Hr1. destruct (Hslot i e1 id) as (q1 & Hq1 & Hp1); [done..|].
      exists q1. split; [|done]. rewrite lookup_insert_ne; [done|]. intros <-. congruence.
    + intros i id q' [= <-]. destruct (decide (id = old)) as [->|Hne].
      * rewrite lookup_insert_eq. by intros [= <-].
      * rewrite lookup_insert_ne by done. intros Hq' Hp'.
        destruct (Hreq id q' _ Hq' Hp') as (e1 & He1 & Hr1 & _). congruence.
    + intros l' e1. destruct (decide (l' = l)) as [->|Hne].
      * rewrite lookup_insert_eq. intros [= <-]. exists old, (set_r_entry (Some (Heap l)) q).
        by rewrite lookup_insert_eq.
      * rewrite lookup_insert_ne by done. intros He1. destruct (Hheap l' e1 He1) as (id & q1 & Hr1 & Hq1 & Hp1).
        exists id, q1. split_and!; try done. rewrite lookup_insert_ne; [done|]. intros <-. congruence.
  - apply map_eq. intros id. rewrite !outstanding_lookup. cbn [m1 m_reqs].
    destruct (decide (id = old)) as [->|Hne].
    + rewrite lookup_insert_eq, Hq. cbn. unfold sub_of. rewrite Hp. cbn. rewrite He.
      unfold read_entry, m1. cbn. by rewrite lookup_insert_eq.
    + rewrite lookup_insert_ne by done. destruct (m_reqs m !! id) as [q'|] eqn:Hq'; [|done]. cbn.
      apply sub_of_read. intros p Hp'. by apply (Hrd id q').
  - intros id q' Hq' Hn. cbn [m1 m_reqs]. rewrite lookup_insert_ne; [done|]. intros <-. congruence.
Qed.

(** The new command takes the entry at the tail. *)
Lemma place_run h m id q e :
  log_inv (Some (Z.to_nat (lg_tail (m_log m)))) h m -> m_reqs m !! id = Some q -> r_entry q = None ->
  e_cmd e = r_cmd q -> e_buf e = r_buf q -> e_overlap_allocated e = false -> e_req e = Some id ->
  let p := Slot (Z.to_nat (lg_tail (m_log m))) in
  let tail := if lg_tail (m_log m) + 1 =? CMD_LOG_DEPTH then 0 else lg_tail (m_log m) + 1 in
  exists m', link id (Some p) (write_entry p e m) = Ok m'
    /\ lg_tail (m_log m') = lg_tail (m_log m)
    /\ forall head, log_inv None (entry_sub e :: h) (on_log (set_tail tail head) m')
         /\ outstanding (on_log (set_tail tail head) m') = <[id := entry_sub e]> (outstanding m).
Proof.
  intros [Hlen Ht Hreq Hslot Hfree Hheap Hring Hempty] Hq Hn Hc Hb Ho Hr p tail.
  assert (Hlt : (Z.to_nat (lg_tail (m_log m)) < length (lg_table (m_log m)))%nat) by lia.
  assert (Hrd : forall id' q' p', m_reqs m !! id' = Some q' -> r_entry q' = Some p' ->
            read_entry p' (write_entry p e m) = read_entry p' m).
  { intros id' q' p' Hq' Hp'. apply read_write_other. unfold p. intros <-. by apply (Hfree _ id' q' eq_refl Hq'). }
  pose proof (next_tail _ Ht) as Htail. fold tail in Htail.
  unfold link. cbn [write_entry p m_reqs]. rewrite Hq. eexists. split; [reflexivity|]. split; [done|].
  intros head. set (m' := on_log _ _).
  assert (Hrd' : forall p', read_entry p' m' = read_entry p' (write_entry p e m)) by (by intros [i|l]).
  assert (Hnew : read_entry p m' = Ok e).
  { rewrite Hrd'. unfold read_entry, p. cbn. by rewrite list_lookup_insert_eq. }
  split.
  - split; cbn [m' on_log m_log m_heap m_reqs set_tail lg_table lg_tail set_table]; fold p.
    + by rewrite length_insert.
    + exact Htail.
    + intros id' q' p'. destruct (decide (id' = id)) as [->|Hne].
      * rewrite lookup_insert_eq. intros [= <-] [= <-]. exists e. by rewrite Ho.
      * rewrite lookup_insert_ne by done. intros Hq' Hp'. rewrite Hrd', (Hrd id' q') by done. by apply Hreq.
    + intros i e' id' _. destruct (decide (i = Z.to_nat (lg_tail (m_log m)))) as [->|Hne].
      * rewrite list_lookup_insert_eq by done. intros [= <-] Hr'. assert (id' = id) as -> by congruence.
        rewrite lookup_insert_eq. by eexists.
      * rewrite list_lookup_insert_ne by done. intros He' Hr'.
        destruct (Hslot i e' id') as (q' & Hq' & Hp'); [congruence|done..|]. exists q'. split; [|done].
        rewrite lookup_insert_ne; [done|]. intros <-. congruence.
    + done.
    + intros l e' He'. destruct (Hheap l e' He') as (id' & q' & Hr' & Hq' & Hp'). exists id', q'.
      split_and!; try done. rewrite lookup_insert_ne; [done|]. intros <-. congruence.
    + intros [|n] s Hn' Hh; cbn in Hh.
      * injection Hh as <-. exists e. unfold tail. by rewrite back_0, list_lookup_insert_eq.
      * destruct (Hring n s) as (e' & He' & Hs'); [lia|done|]. exists e'. unfold tail.
        rewrite back_S by done. rewrite list_lookup_insert_ne; [done|]. intros E. symmetry in E.
        apply back_tail in E; lia.
    + intros [|n] e' Hn' Hh; cbn in Hh; [done|]. unfold tail. rewrite back_S by done.
      rewrite list_lookup_insert_ne; [intros He'; by apply (Hempty n e'); [lia|..]|]. intros E. symmetry in E.
      apply back_tail in E; lia.
  - apply map_eq. intros id'. rewrite outstanding_lookup. cbn [m' on_log m_reqs].
    destruct (decide (id' = id)) as [->|Hne].
    + rewrite !lookup_insert_eq. cbn. unfold sub_of. cbn. fold p. by rewrite Hnew.
    + rewrite !lookup_insert_ne by done. rewrite outstanding_lookup.
      destruct (m_reqs m !! id') as [q'|] eqn:Hq'; [|done]. cbn. apply sub_of_read. intros p' Hp'.
      rewrite Hrd'. by apply (Hrd id' q').
Qed.

Lemma add_run h m id q l now :
  log_inv None h m -> m_reqs m !! id = Some q -> r_entry q = None -> m_heap m !! l = None ->
  exists m', cmdlog_add_cmd id (Some l) now m = Ok m'
    /\ log_inv None (mk_sub (r_cmd q) now (r_buf q) :: h) m'
    /\ outstanding m' = <[id := mk_sub (r_cmd q) now (r_buf q)]> (outstanding m).
Proof.
  intros Hi Hq Hn Hl. unfold cmdlog_add_cmd. pose proof (li_tail _ _ _ Hi) as Ht. zbool.
  rewrite Hq. set (m0 := on_log _ m).
  destruct (inv_on_log (set_cid (cid (r_cmd q))) None h m) as [Hi0 Ho0]; [done..|]. fold m0 in Hi0, Ho0.
  assert (exists e, read_entry (Slot (Z.to_nat (lg_tail (m_log m)))) m0 = Ok e) as [e He].
  { unfold read_entry. pose proof (li_len _ _ _ Hi0). change (lg_tail (m_log m)) with (lg_tail (m_log m0)) in *.
    destruct (lg_table _ !! _) eqn:E; [by eexists|]. apply lookup_ge_None in E. lia. }
  rewrite He. cbn [mbind res_bind].
  destruct (move_run h m0 e l) as (m1 & Hm1 & Hi1 & Hlog & Hout & Hkeep); [done..|].
  rewrite Hm1. cbn [mbind res_bind].
  pose proof (place_run h m1 id q (mk_entry (r_cmd q) now (e_cpl e) 0 false (r_buf q) (Some id))) as Hp.
  rewrite Hlog in Hp. change (lg_tail (m_log m0)) with (lg_tail (m_log m)) in Hp.
  destruct Hp as (m2 & Hm2 & Ht2 & Hinv); [done|by apply (Hkeep id q)|done..|].
  rewrite Hm2. cbn [mbind res_bind]. eexists. split; [reflexivity|].
  edestruct Hinv as [H1 H2]. split; [exact H1|]. rewrite H2, Hout, Ho0. done.
Qed.

(** *** Completing *)

(** Other requests do not see the entry of a completed one. *)
Lemma other_entry h m id q p id' q' p' :
  log_inv None h m -> m_reqs m !! id = Some q -> r_entry q = Some p ->
  m_reqs m !! id' = Some q' -> r_entry q' = Some p' -> id' <> id -> p' <> p.
Proof.
  intros Hi Hq Hp Hq' Hp' Hne ->.
  destruct (li_req _ _ _ Hi id q p Hq Hp) as (e & He & Hr & _).
  destruct (li_req _ _ _ Hi id' q' p Hq' Hp') as (e' & He' & Hr' & _). congruence.
Qed.

(** What the end of [cmdlog_cmd_cpl] does: request [id] loses its entry [p], which
    is given back if it had memory of its own and keeps its record otherwise. *)
Record retired (id : Z) (q : rqst) (p : eptr) (m m2 : mem) : Prop := {
  rt_len : length (lg_table (m_log m2)) = length (lg_table (m_log m));
  rt_tail : lg_tail (m_log m2) = lg_tail (m_log m);
  rt_reqs : m_reqs m2 = <[id := set_r_entry None q]> (m_reqs m);
  rt_read : forall p', p' <> p -> read_entry p' m2 = read_entry p' m;
  rt_heap : forall l e1, m_heap m2 !! l = Some e1 -> m_heap m !! l = Some e1 /\ Heap l <> p;
  rt_table : forall i e1, lg_table (m_log m2) !! i = Some e1 ->
    exists e0, lg_table (m_log m) !! i = Some e0 /\ entry_sub e1 = entry_sub e0
      /\ (e_req e1 = None \/ (e1 = e0 /\ Slot i <> p));
  rt_ring : forall i e0, lg_table (m_log m) !! i = Some e0 ->
    exists e1, lg_table (m_log m2) !! i = Some e1 /\ entry_sub e1 = entry_sub e0
}.

Lemma retire_effect id q p e e' m :
  m_reqs m !! id = Some q -> read_entry p m = Ok e ->
  e_req e' = None -> entry_sub e' = entry_sub e -> e_overlap_allocated e' = is_heap p ->
  exists m1 m2, link id None (write_entry p e' m) = Ok m1
    /\ (if e_overlap_allocated e' then free_entry p m1 else Ok m1) = Ok m2
    /\ lg_latest_latency (m_log m2) = lg_latest_latency (m_log m) /\ retired id q p m m2.
Proof.
  intros Hq He Hr' Hs' Ho'. rewrite Ho'. unfold link.
  destruct p as [i|l]; cbn [write_entry m_reqs is_heap free_entry]; rewrite Hq;
    (do 2 eexists; split; [reflexivity|split; [reflexivity|split; [reflexivity|]]]);
    cbn [m_log m_heap m_reqs]; split; cbn [m_log m_heap m_reqs set_table lg_table lg_tail]; try done.
  - apply length_insert.
  - intros [i'|l'] Hne; [|done]. unfold read_entry. cbn. rewrite list_lookup_insert_ne; [done|congruence].
  - unfold read_entry in He. destruct (lg_table (m_log m) !! i) as [e0|] eqn:E; [|done].
    injection He as ->. intros i' e1. destruct (decide (i' = i)) as [->|Hne].
    + rewrite list_lookup_insert_eq by (by apply lookup_lt_Some in E). intros [= <-]. exists e. auto.
    + rewrite list_lookup_insert_ne by done. intros He1. exists e1. split_and!; try done. right.
      split; congruence.
  - unfold read_entry in He. destruct (lg_table (m_log m) !! i) as [e0|] eqn:E; [|done].
    injection He as ->. intros i' e1 He1. destruct (decide (i' = i)) as [->|Hne].
    + exists e'. rewrite list_lookup_insert_eq by (by apply lookup_lt_Some in E). split; [done|congruence].
    + exists e1. by rewrite list_lookup_insert_ne.
  - intros [i'|l'] Hne; [done|]. unfold read_entry. cbn.
    rewrite lookup_delete_ne, lookup_insert_ne; [done|congruence..].
  - intros l' e1. rewrite lookup_delete_Some, lookup_insert_Some. intros [Hne [[]|[_ H]]]; [done|].
    split; [done|congruence].
  - intros i' e1 He1. exists e1. split_and!; try done. by right.
  - intros i' e0 He0. by exists e0.
Qed.

Lemma retired_keeps h id q p m m2 :
  log_inv None h m -> m_reqs m !! id = Some q -> r_entry q = Some p -> retired id q p m m2 ->
  log_inv None h m2 /\ outstanding m2 = delete id (outstanding m).
Proof.
  intros Hi Hq Hp [Rlen Rtail Rreqs Rread Rheap Rtab Rring].
  assert (Hother : forall id' q' p', id' <> id -> m_reqs m !! id' = Some q' -> r_entry q' = Some p' ->
            read_entry p' m2 = read_entry p' m).
  { intros id' q' p' Hne Hq' Hp'. apply Rread. by eapply (other_entry h m id q p id' q' p'). }
  split.
  2: { apply map_eq. intros id'. rewrite outstanding_lookup, Rreqs. destruct (decide (id' = id)) as [->|Hne].
       - by rewrite lookup_insert_eq, lookup_delete_eq.
       - rewrite lookup_insert_ne, lookup_delete_ne, outstanding_lookup by done.
         destruct (m_reqs m !! id') as [q'|] eqn:Hq'; [|done]. cbn. apply sub_of_read. intros p' Hp'.
         by apply (Hother id' q'). }
  destruct Hi as [Hlen Ht Hreq Hslot _ Hheap Hring Hempty].
  split; rewrite ?Rlen, ?Rtail, ?Rreqs; try done.
  - intros id' q' p'. rewrite lookup_insert_Some. intros [[<- <-]|[Hne Hq']] Hp'; [done|].
    rewrite (Hother id' q' p') by done. by apply Hreq.
  - intros i e1 id' _ He1 Hr1. destruct (Rtab i e1 He1) as (e0 & He0 & _ & [?|[-> Hne]]); [congruence|].
    destruct (Hslot i e0 id') as (q' & Hq' & Hp'); [done..|]. exists q'. split; [|done].
    rewrite lookup_insert_ne; [done|]. intros <-. congruence.
  - intros l e1 He1. apply Rheap in He1 as [He1 Hne].
    destruct (Hheap l e1 He1) as (id' & q' & Hr' & Hq' & Hp'). exists id', q'. split_and!; try done.
    rewrite lookup_insert_ne; [done|]. intros <-. congruence.
  - intros n s Hn Hs. destruct (Hring n s Hn Hs) as (e0 & He0 & <-).
    destruct (Rring _ _ He0) as (e1 & He1 & ?). by exists e1.
  - intros n e1 Hn Hs He1. destruct (Rtab _ _ He1) as (e0 & He0 & Heq & _).
    rewrite <- (Hempty n e0 Hn Hs He0). by injection Heq.
Qed.

(** Completing runs the completion side of the driver on the command as it was
    sent, whatever has been sent since. *)
Lemma cpl_run crc32c h m id q s c now dma nss :
  log_inv None h m -> m_reqs m !! id = Some q -> outstanding m !! id = Some s ->
  exists m', cmdlog_cmd_cpl crc32c id c now dma m nss
      = (r ← complete_cmd crc32c (r_admin q) (sb_cmd s) (dma <$> sb_buf s) nss (cpl_sct c) (cpl_sc c);
         Ok (m', fst r, snd r))
    /\ log_inv None h m' /\ outstanding m' = delete id (outstanding m)
    /\ lg_latest_latency (m_log m') = timeval_to_us (timersub now (sb_time s)).
Proof.
  intros Hi Hq Hs. destruct (outstanding_some _ _ _ _ Hi Hs) as (q' & p & e & Hq' & Hp & He & Hr & Ho & <-).
  assert (q' = q) as -> by congruence.
  set (lat := timeval_to_us (timersub now (e_time_cmd e))).
  destruct (inv_on_log (set_latency lat) None h m) as [Hi0 Ho0]; [done..|].
  set (m0 := on_log (set_latency lat) m) in *.
  assert (He0 : read_entry p m0 = Ok e) by (rewrite <- He; by destruct p).
  destruct (retire_effect id q p e (mk_entry (e_cmd e) (e_time_cmd e) c lat (e_overlap_allocated e) (e_buf e) None) m0)
    as (m1 & m2 & Hm1 & Hm2 & Hl & Hret); [done..|].
  destruct (retired_keeps h id q p m0 m2) as [Hi2 Hout2]; [done..|].
  exists m2. split; [|rewrite Hout2, Ho0; by rewrite Hl].
  unfold cmdlog_cmd_cpl. rewrite Hq, Hp, He. cbn [mbind res_bind]. rewrite bool_decide_eq_true_2 by done.
  cbn [mbind res_bind check]. fold lat. fold m0.
  destruct (complete_cmd _ _ _ _ _ _ _) as [r|]; [|done]. cbn [mbind res_bind].
  rewrite Hm1. cbn [mbind res_bind]. rewrite Hm2. done.
Qed.

(** ** Sequences of commands *)

(** SPDK fills a request, which has no entry yet, and sends it. *)
Definition submit (id : Z) (admin : bool) (c : spdk_cmd) (buf : option Z) (alloc : option positive)
    (now : timeval) (m : mem) : res mem :=
  cmdlog_add_cmd id alloc now
    (mk_mem (m_log m) (m_heap m) (<[id := mk_rqst admin c buf None]> (m_reqs m))).

(** A request is not sent again before it has completed; the allocator gives
    memory that is not in use. *)
Inductive reach (crc32c : list Z -> Z) : list submission -> mem -> list nstab -> Prop :=
  | reach_new g nss : zeroed g -> reach crc32c [] (mk_mem g ∅ ∅) nss
  | reach_add h m nss id admin c buf l now m' :
      reach crc32c h m nss -> outstanding m !! id = None -> m_heap m !! l = None ->
      submit id admin c buf (Some l) now m = Ok m' ->
      reach crc32c (mk_sub c now buf :: h) m' nss
  | reach_cpl h m nss id c now dma m' nss' st :
      reach crc32c h m nss -> cmdlog_cmd_cpl crc32c id c now dma m nss = Ok (m', nss', st) ->
      reach crc32c h m' nss'.

Lemma inv_new_request h m id admin c buf :
  log_inv None h m -> outstanding m !! id = None ->
  let m' := mk_mem (m_log m) (m_heap m) (<[id := mk_rqst admin c buf None]> (m_reqs m)) in
  log_inv None h m' /\ outstanding m' = outstanding m.
Proof.
  intros Hi Hn m'.
  assert (Hno : forall q, m_reqs m !! id = Some q -> r_entry q = None)
    by (intros q; by apply (outstanding_none h m id q)).
  split.
  - destruct Hi as [Hlen Ht Hreq Hslot _ Hheap Hring Hempty]. split; try done; cbn [m' m_log m_heap m_reqs].
    + intros id' q p. rewrite lookup_insert_Some. intros [[<- <-]|[Hne Hq]] Hp; [done|]. by apply (Hreq id' q p).
    + intros i e id' _ He Hr. destruct (Hslot i e id') as (q & Hq & Hp); [done..|]. exists q.
      split; [|done]. rewrite lookup_insert_ne; [done|]. intros <-. rewrite (Hno q Hq) in Hp. done.
    + intros l e He. destruct (Hheap l e He) as (id' & q & Hr & Hq & Hp). exists id', q. split_and!; try done.
      rewrite lookup_insert_ne; [done|]. intros <-. rewrite (Hno q Hq) in Hp. done.
  - apply map_eq. intros id'. rewrite outstanding_lookup. cbn [m' m_reqs]. destruct (decide (id' = id)) as [->|Hne].
    + by rewrite lookup_insert_eq, Hn.
    + rewrite lookup_insert_ne by done. by rewrite outstanding_lookup.
Qed.

Lemma submit_run h m id admin c buf l now :
  log_inv None h m -> outstanding m !! id = None -> m_heap m !! l = None ->
  exists m', submit id admin c buf (Some l) now m = Ok m'
    /\ log_inv None (mk_sub c now buf :: h) m'
    /\ outstanding m' = <[id := mk_sub c now buf]> (outstanding m).
Proof.
  intros Hi Hn Hl. destruct (inv_new_request h m id admin c buf Hi Hn) as [Hi' Ho].
  unfold submit. set (m1 := mk_mem _ _ _) in *.
  destruct (add_run h m1 id (mk_rqst admin c buf None) l now) as (m' & Hm' & Hinv & Hout); [done| |done..|].
  { cbn. by rewrite lookup_insert_eq. }
  exists m'. by rewrite Hout, Ho.
Qed.

Lemma cpl_not_outstanding crc32c h m id q c now dma nss :
  log_inv None h m -> m_reqs m !! id = Some q -> outstanding m !! id = None ->
  cmdlog_cmd_cpl crc32c id c now dma m nss = Ok (m, nss, (cpl_sct c, cpl_sc c)).
Proof.
  intros Hi Hq Hn. unfold cmdlog_cmd_cpl. by rewrite Hq, (outstanding_none h m id q).
Qed.

Lemma inv_reach crc32c h m nss : reach crc32c h m nss -> log_inv None h m.
Proof.
  induction 1 as [g nss Hz|h m nss id admin c buf l now m' _ IH Hn Hl Hs
                 |h m nss id c now dma m' nss' st _ IH Hc].
  - by apply inv_zeroed.
  - destruct (submit_run h m id admin c buf l now) as (m1 & Hm1 & Hi & _); [done..|]. congruence.
  - destruct (m_reqs m !! id) as [q|] eqn:Hq; [|unfold cmdlog_cmd_cpl in Hc; by rewrite Hq in Hc].
    destruct (outstanding m !! id) as [s|] eqn:Hs.
    + destruct (cpl_run crc32c h m id q s c now dma nss) as (m1 & Hm1 & Hi & _); [done..|].
      rewrite Hm1 in Hc. destruct (complete_cmd _ _ _ _ _ _ _); [|done]. injection Hc as -> _ _. done.
    + erewrite cpl_not_outstanding in Hc by done. by injection Hc as -> _ _.
Qed.

(** C6. The log refines a map from the outstanding requests to what was
    submitted: after any sequence of submissions and completions, a request
    that is not outstanding can be submitted, which adds it to the map; the
    completion of an outstanding request updates and verifies with exactly the
    command, buffer and time of its own submission, however often the ring has
    wrapped since, and removes it from the map; the completion of any other
    request changes nothing.  Except in the update and verification themselves
    no assertion fails and no memory is accessed that is not there. *)
Theorem cmdlog_refines crc32c h m nss :
  reach crc32c h m nss ->
  (forall id admin c buf l now, outstanding m !! id = None -> m_heap m !! l = None ->
     exists m', submit id admin c buf (Some l) now m = Ok m'
       /\ outstanding m' = <[id := mk_sub c now buf]> (outstanding m))
  /\ (forall id q s c now dma, m_reqs m !! id = Some q -> outstanding m !! id = Some s ->
     exists m', cmdlog_cmd_cpl crc32c id c now dma m nss
         = (r ← complete_cmd crc32c (r_admin q) (sb_cmd s) (dma <$> sb_buf s) nss (cpl_sct c) (cpl_sc c);
            Ok (m', fst r, snd r))
       /\ outstanding m' = delete id (outstanding m)
       /\ lg_latest_latency (m_log m') = timeval_to_us (timersub now (sb_time s)))
  /\ (forall id q c now dma, m_reqs m !! id = Some q -> outstanding m !! id = None ->
     cmdlog_cmd_cpl crc32c id c now dma m nss = Ok (m, nss, (cpl_sct c, cpl_sc c))).
Proof.
  intros Hr. apply inv_reach in Hr. split_and!.
  - intros id admin c buf l now Hn Hl. destruct (submit_run h m id admin c buf l now) as (m' & ? & _ & ?); eauto.
  - intros id q s c now dma Hq Hs.
    destruct (cpl_run crc32c h m id q s c now dma nss) as (m' & ? & _ & ? & ?); eauto.
  - intros id q c now dma Hq Hn. by eapply cpl_not_outstanding.
Qed.

(** The memory of overwritten entries is not lost: after any sequence of
    submissions and completions, every entry with memory of its own belongs to
    one outstanding request, which no entry of the ring names and no other
    such entry; so when no request is outstanding there is no such entry. *)
Theorem cmdlog_no_leak crc32c h m nss :
  reach crc32c h m nss ->
  (forall l e, m_heap m !! l = Some e -> exists id, e_req e = Some id
     /\ outstanding m !! id = Some (entry_sub e)
     /\ (forall l' e', m_heap m !! l' = Some e' -> e_req e' = Some id -> l' = l)
     /\ (forall i e', lg_table (m_log m) !! i = Some e' -> e_req e' <> Some id))
  /\ (outstanding m = ∅ -> m_heap m = ∅).
Proof.
  intros Hr. apply inv_reach in Hr.
  assert (H1 : forall l e, m_heap m !! l = Some e -> exists id, e_req e = Some id
     /\ outstanding m !! id = Some (entry_sub e)
     /\ (forall l' e', m_heap m !! l' = Some e' -> e_req e' = Some id -> l' = l)
     /\ (forall i e', lg_table (m_log m) !! i = Some e' -> e_req e' <> Some id)).
  { intros l e He. destruct (li_heap _ _ _ Hr l e He) as (id & q & Hreq & Hq & Hp). exists id. split_and!.
    - done.
    - rewrite outstanding_lookup, Hq. cbn. unfold sub_of. rewrite Hp. cbn. unfold read_entry. by rewrite He.
    - intros l' e' He' Hr'. destruct (li_heap _ _ _ Hr l' e' He') as (id' & q' & Hr'' & Hq' & Hp').
      congruence.
    - intros i e' He' Hr'. destruct (li_slot _ _ _ Hr i e' id) as (q' & Hq' & Hp'); [done..|]. congruence. }
  split; [exact H1|]. intros Ho. apply map_empty. intros l. destruct (m_heap m !! l) as [e|] eqn:E; [|done].
  destruct (H1 l e E) as (id & _ & Hin & _). rewrite Ho in Hin. by rewrite lookup_empty in Hin.
Qed.

(** *** The dump *)
Lemma dump_loop_run h m : log_inv None h m -> Forall (fun s => timercmp_gt (sb_time s) (mk_tv 0 0) = true) h ->
  forall n k index, Z.of_nat (k + n) <= CMD_LOG_DEPTH ->
  step_back index = (lg_tail (m_log m) - 1 - Z.of_nat k) mod CMD_LOG_DEPTH ->
  exists l, dump_loop n index (lg_table (m_log m)) = Ok l /\ sh_cmd <$> l = sb_cmd <$> take n (drop k h)
    /\ (forall i s, l !! i = Some s -> let b := back (lg_tail (m_log m)) (k + i) in
          exists e, lg_table (m_log m) !! b = Some e /\ s = show_entry (Z.of_nat b) e).
Proof.
  intros Hi Hh. induction n as [|n IH]; intros k index Hk Hx; cbn [dump_loop]; [by exists []|].
  rewrite Hx. change (Z.to_nat (_ mod CMD_LOG_DEPTH)) with (back (lg_tail (m_log m)) k).
  assert (exists e, lg_table (m_log m) !! back (lg_tail (m_log m)) k = Some e) as [e He].
  { destruct (lg_table _ !! _) eqn:E; [by eexists|]. apply lookup_ge_None in E.
    pose proof (li_len _ _ _ Hi). unfold back, CMD_LOG_DEPTH in *. divmod. }
  rewrite He. destruct (IH (S k) ((lg_tail (m_log m) - 1 - Z.of_nat k) mod CMD_LOG_DEPTH)) as (l & Hl & Hf & Hp); [lia| |].
  { pose proof (li_tail _ _ _ Hi). unfold CMD_LOG_DEPTH in *. unfold step_back, CMD_LOG_DEPTH.
    destruct (Z.eqb_spec ((lg_tail (m_log m) - 1 - Z.of_nat k) mod 2050) 0); divmod. }
  rewrite Hl. cbn [mbind res_bind]. destruct (h !! k) as [s|] eqn:Hs.
  - destruct (li_ring _ _ _ Hi k s) as (e' & He' & <-); [lia|done|]. assert (e' = e) as -> by congruence.
    assert (Ht : timercmp_gt (e_time_cmd e) (mk_tv 0 0) = true) by apply (Forall_lookup_1 _ _ _ _ Hh Hs).
    rewrite Ht. eexists. split; [reflexivity|]. split; [cbn; by rewrite Hf, (drop_S h _ k Hs)|].
    intros [|i] s'; cbn [lookup list_lookup].
    + intros [= <-]. rewrite Nat.add_0_r. exists e. split; [done|]. f_equal. unfold back, CMD_LOG_DEPTH. divmod.
    + intros Hs'. rewrite <- Nat.add_succ_comm. by apply Hp.
  - rewrite (li_empty _ _ _ Hi k e) by (done || lia). cbn. exists l. split; [done|].
    apply lookup_ge_None in Hs. rewrite !drop_ge in * by lia. rewrite !take_nil in *. split; [done|].
    destruct l; [intros i s'; by rewrite lookup_nil|done].
Qed.

(** Latencies are unsigned. *)
Lemma reach_latencies crc32c h m nss : reach crc32c h m nss -> Forall (fun e => 0 <= e_latency_us e) (lg_table (m_log m)).
Proof.
  induction 1 as [g nss (_ & _ & Hz)|h m nss id admin c buf l now m' _ IH _ _ Hs|h m nss id c now dma m' nss' st _ IH Hc].
  - apply (Forall_impl _ _ _ Hz). intros e (_ & _ & _ & ->). done.
  - unfold submit, cmdlog_add_cmd in Hs. cbn [m_log m_reqs] in Hs. destruct (_ <? CMD_LOG_DEPTH); [cbn [check mbind res_bind] in Hs|done].
    rewrite lookup_insert_eq in Hs. destruct (read_entry _ _) as [e|]; [cbn [mbind res_bind] in Hs|done].
    destruct (move_overlapped _ _ _) as [m1|] eqn:Em; [cbn [mbind res_bind] in Hs|done].
    assert (Ht : lg_table (m_log m1) = lg_table (m_log m)).
    { unfold move_overlapped, link in Em. destruct (e_req e); [|by injection Em as <-]. cbn in Em. destruct (_ !! _); [|done]. by injection Em as <-. }
    unfold link in Hs. cbn in Hs. destruct (_ !! id); [|done]. injection Hs as <-. cbn. rewrite Ht.
    by apply Forall_insert.
  - unfold cmdlog_cmd_cpl in Hc. destruct (_ !! id) as [q|]; [|done]. destruct (r_entry q) as [p|]; [|by injection Hc as -> _ _].
    destruct (read_entry p m) as [e|]; [cbn [mbind res_bind] in Hc|done]. destruct (bool_decide _); [cbn [check mbind res_bind] in Hc|done].
    destruct (complete_cmd _ _ _ _ _ _ _) as [r|]; [cbn [mbind res_bind] in Hc|done].
    set (e1 := mk_entry _ _ _ _ _ _ _) in Hc. assert (He1 : 0 <= e_latency_us e1) by (cbn; by apply Z.mod_pos_bound).
    unfold link in Hc. destruct (_ !! id); [cbn [mbind res_bind] in Hc|done].
    assert (Hm1 : lg_table (m_log m') = lg_table (m_log (write_entry p e1 (on_log (set_latency (e_latency_us e1)) m)))).
    { destruct (e_overlap_allocated e1); [destruct p; [done|]|]; cbn in Hc; by injection Hc as <- _ _. }
    rewrite Hm1. destruct p as [i|l]; cbn; [by apply Forall_insert|done].
Qed.

(** The log keeps the latest commands: [log_cmd_dump] prints the last
    [count] commands that were submitted, the latest first, or fewer when
    there have not been so many; with 0, or more than 2050, it prints the last
    2050. *)
Theorem dump_latest crc32c h m nss count :
  reach crc32c h m nss -> Forall (fun s => timercmp_gt (sb_time s) (mk_tv 0 0) = true) h -> 0 <= count ->
  exists l, log_cmd_dump (m_log m) count = Ok l
    /\ sh_cmd <$> l = sb_cmd <$> take (Z.to_nat (if (count =? 0) || (2050 <? count) then 2050 else count)) h.
Proof.
  intros Hr Hh Hc. apply inv_reach in Hr. unfold log_cmd_dump.
  assert (Hw : (if (count =? 0) || (CMD_LOG_DEPTH <? count) then CMD_LOG_DEPTH else wrap 32 count)
    = (if (count =? 0) || (2050 <? count) then 2050 else count)).
  { unfold CMD_LOG_DEPTH. destruct (_ || _) eqn:E; [done|]. unfold wrap. apply Z.mod_small. eval_pow. lia. }
  rewrite Hw. set (n := if _ : bool then 2050 else count).
  assert (Hn : 0 <= n <= 2050) by (unfold n; destruct (Z.eqb_spec count 0), (Z.ltb_spec 2050 count); cbn; lia).
  clearbody n.
  destruct (dump_loop_run h m Hr Hh (Z.to_nat n) 0 (lg_tail (m_log m))) as (l & Hl & Hf & _).
  - unfold CMD_LOG_DEPTH. lia.
  - pose proof (li_tail _ _ _ Hr). unfold step_back, CMD_LOG_DEPTH in *. destruct (Z.eqb_spec (lg_tail (m_log m)) 0); divmod.
  - exists l. split; [done|]. by rewrite Hf, drop_0.
Qed.

(** ** Witnesses *)
Definition zero_entry : log_entry :=
  mk_entry (mk_cmd false [] None) (mk_tv 0 0) (mk_cpl 0 0 0) 0 false None None.
Definition example_log : log_table :=
  mk_log (replicate (Z.to_nat CMD_LOG_DEPTH) zero_entry) 0 0 0 0.
Definition example_mem : mem := mk_mem example_log ∅ ∅.
Definition example_sum (l : list Z) : Z := wrap 32 (fold_right Z.add 0 l).

Lemma example_reach : reach example_sum [] example_mem [example_tab].
Proof. apply reach_new. split_and!; try done. by apply Forall_replicate. Qed.

(** A write of block 3 has been sent. *)
Definition example_cmd : spdk_cmd := rq_cmd (example_request 1 3 1).
Definition example_sent : mem :=
  match submit 7 false example_cmd (Some 0x1000) (Some 1%positive) (mk_tv 5 10) example_mem with
  | Ok m => m | Err _ => example_mem
  end.

Lemma example_sent_reach :
  reach example_sum [mk_sub example_cmd (mk_tv 5 10) (Some 0x1000)] example_sent [example_tab].
Proof.
  apply (reach_add _ _ example_mem _ 7 false example_cmd (Some 0x1000) 1 (mk_tv 5 10));
    [apply example_reach|done|done|]. by vm_compute.
Qed.

(** 1 ns across a second of the monotonic clock counts as 23437 or 23438 us. *)
Lemma latency_measured_witness :
  let d := timeval_init (mk_tv 1700000000 123456) (mk_ts 1000 500000000) in
  let us := timeval_to_us (timersub (timeval_gettimeofday d (mk_ts 2001 0))
                                    (timeval_gettimeofday d (mk_ts 2000 999999999))) in
  elapsed_ns (mk_ts 2000 999999999) (mk_ts 2001 0) = 1 /\ 23437 <= us <= 23438.
Proof.
  cbv zeta. split; [done|].
  pose proof (latency_measured (mk_tv 1700000000 123456) (mk_ts 1000 500000000)
    (mk_ts 2000 999999999) (mk_ts 2001 0) ltac:(done) ltac:(done) ltac:(done) ltac:(done) ltac:(done))
    as (_ & H & _).
  cbv zeta in H. revert H. generalize (timeval_to_us
    (timersub (timeval_gettimeofday (timeval_init (mk_tv 1700000000 123456) (mk_ts 1000 500000000)) (mk_ts 2001 0))
       (timeval_gettimeofday (timeval_init (mk_tv 1700000000 123456) (mk_ts 1000 500000000)) (mk_ts 2000 999999999)))).
  intros us. unfold elapsed_ns. cbn [ts_sec ts_nsec]. eval_pow. lia.
Defined.

Lemma cmdlog_refines_witness :
  exists m' nss', cmdlog_cmd_cpl example_sum 7 (mk_cpl 0 0 0) (mk_tv 5 25) (fun _ => replicate 512 1)
      example_sent [example_tab] = Ok (m', nss', (0, 0))
    /\ outstanding m' = ∅ /\ lg_latest_latency (m_log m') = 15.
Proof.
  destruct (cmdlog_refines example_sum _ _ _ example_sent_reach) as (_ & Hc & _).
  destruct (Hc 7 (mk_rqst false example_cmd (Some 0x1000) (Some (Slot 0)))
    (mk_sub example_cmd (mk_tv 5 10) (Some 0x1000)) (mk_cpl 0 0 0) (mk_tv 5 25) (fun _ => replicate 512 1))
    as (m' & Hm & Ho & Hl); [by vm_compute|by vm_compute|].
  exists m'. rewrite Hm. destruct (complete_cmd _ _ _ _ _ _ _) as [[nss' st]|] eqn:E; vm_compute in E; [|done].
  exists nss'. injection E as <- <-. split; [done|]. split; [|exact Hl].
  rewrite Ho. by vm_compute.
Defined.

Lemma cmdlog_no_leak_witness : outstanding example_mem = ∅ /\ m_heap example_mem = ∅.
Proof.
  assert (H : outstanding example_mem = ∅) by done. split; [exact H|].
  apply (cmdlog_no_leak _ _ _ _ example_reach), H.
Defined.

Lemma dump_latest_witness :
  exists l, log_cmd_dump (m_log example_sent) 10 = Ok l /\ sh_cmd <$> l = [example_cmd].
Proof.
  destruct (dump_latest _ _ _ _ 10 example_sent_reach) as (l & Hl & Hf);
    [by repeat constructor|done|]. by exists l.
Defined.
