(* ===== verification/Service.v ===== *)
(** * Service: probing, names and the RPC server of the driver

    The parts of src/src/driver.c that serve the other processes and the user:
    [nvme_probe] with its callbacks, the names of the commands, the latest
    command of a queue pair, and the methods of the RPC server: the list of the
    queue pairs, their traffic, and their command logs as text (Cmdlog.v is the
    log itself, with its printing on the console).  The numbers of the opcodes,
    the enumeration of devices, [localtime] and the texts of statuses are SPDK's
    and the C library's, so they are arguments. *)
From Stdlib Require Import ZArith Lia ZifyBool Ascii String.
From stdpp Require Import base list numbers option gmap strings.
From S2P Require Import Prelude PyInt Text Command Crc Shared Cmdlog.
Local Open Scope Z_scope.

(** ** Command names *)
Inductive admin_opc :=
  | DELETE_IO_SQ | CREATE_IO_SQ | GET_LOG_PAGE | DELETE_IO_CQ | CREATE_IO_CQ | IDENTIFY | ABORT | SET_FEATURES
  | GET_FEATURES | ASYNC_EVENT_REQUEST | NS_MANAGEMENT | FIRMWARE_COMMIT | FIRMWARE_IMAGE_DOWNLOAD
  | DEVICE_SELF_TEST | NS_ATTACHMENT | KEEP_ALIVE | DIRECTIVE_SEND | DIRECTIVE_RECEIVE
  | VIRTUALIZATION_MANAGEMENT | NVME_MI_SEND | NVME_MI_RECEIVE | DOORBELL_BUFFER_CONFIG | FORMAT_NVM
  | SECURITY_SEND | SECURITY_RECEIVE | SANITIZE | ADMIN_FABRIC.

Inductive io_opc :=
  | FLUSH | WRITE | READ | WRITE_UNCORRECTABLE | COMPARE | WRITE_ZEROES | DATASET_MANAGEMENT
  | RESERVATION_REGISTER | RESERVATION_REPORT | RESERVATION_ACQUIRE | RESERVATION_RELEASE | IO_FABRIC
  | ZONE_MANAGEMENT_SEND | ZONE_MANAGEMENT_RECEIVE | ZONE_APPEND.

#[export] Instance admin_opc_eq_dec : EqDecision admin_opc.
Proof. solve_decision. Defined.
#[export] Instance io_opc_eq_dec : EqDecision io_opc.
Proof. solve_decision. Defined.

(** The cases of the two switches, in their order. *)
Definition admin_cases : list (admin_opc * string) :=
  [(DELETE_IO_SQ, "Delete I/O Submission Queue"); (CREATE_IO_SQ, "Create I/O Submission Queue");
   (GET_LOG_PAGE, "Get Log Page"); (DELETE_IO_CQ, "Delete I/O Completion Queue");
   (CREATE_IO_CQ, "Create I/O Completion Queue"); (IDENTIFY, "Identify"); (ABORT, "Abort");
   (SET_FEATURES, "Set Features"); (GET_FEATURES, "Get Features");
   (ASYNC_EVENT_REQUEST, "Asynchronous Event Request"); (NS_MANAGEMENT, "Namespace Management");
   (FIRMWARE_COMMIT, "Firmware Commit"); (FIRMWARE_IMAGE_DOWNLOAD, "Firmware Image Download");
   (DEVICE_SELF_TEST, "Device Self-test"); (NS_ATTACHMENT, "Namespace Attachment");
   (KEEP_ALIVE, "Keep Alive"); (DIRECTIVE_SEND, "Directive Send"); (DIRECTIVE_RECEIVE, "Directive Receive");
   (VIRTUALIZATION_MANAGEMENT, "Virtualization Management"); (NVME_MI_SEND, "NVMe-MI Send");
   (NVME_MI_RECEIVE, "NVMe-MI Receive"); (DOORBELL_BUFFER_CONFIG, "Doorbell Buffer Config");
   (FORMAT_NVM, "Format NVM"); (SECURITY_SEND, "Security Send"); (SECURITY_RECEIVE, "Security Receive");
   (SANITIZE, "Sanitize"); (ADMIN_FABRIC, "Fabrics Command")]%string.

Definition io_cases : list (io_opc * string) :=
  [(FLUSH, "Flush"); (WRITE, "Write"); (READ, "Read"); (WRITE_UNCORRECTABLE, "Write Uncorrectable");
   (COMPARE, "Compare"); (WRITE_ZEROES, "Write Zeroes"); (DATASET_MANAGEMENT, "Dataset Management");
   (RESERVATION_REGISTER, "Reservation Register"); (RESERVATION_REPORT, "Reservation Report");
   (RESERVATION_ACQUIRE, "Reservation Acquire"); (RESERVATION_RELEASE, "Reservation Release");
   (IO_FABRIC, "Fabrics Connect"); (ZONE_MANAGEMENT_SEND, "Zone Management Send");
   (ZONE_MANAGEMENT_RECEIVE, "Zone Management Receive"); (ZONE_APPEND, "Zone Management Append")]%string.

(** A switch over cases with their numbers: the compiler sees to it that they differ. *)
Definition switch {O} (code : O -> Z) (cases : list (O * string)) (v : Z) (other : string) : string :=
  match list_find (fun c => code (fst c) = v) cases with Some (_, (_, t)) => t | None => other end.

Section Names.
(** The numbers of SPDK's header. *)
Variable admin_code : admin_opc -> Z.
Variable io_code : io_opc -> Z.

Definition admin_opc_name (opc : Z) : string :=
  switch admin_code admin_cases opc (if 0xC0 <=? opc then "Vendor specific"%string else "Unknown"%string).

Definition io_opc_name (opc : Z) : string :=
  switch io_code io_cases opc (if 0x80 <=? opc then "Vendor specific"%string else "Unknown command"%string).

Definition cmd_name (opc set : Z) : string :=
  if set =? 0 then admin_opc_name opc else if set =? 1 then io_opc_name opc else "Unknown command set"%string.

(** [Controller.cmdname] and [Namespace.cmdname]; the opcode becomes an
    [unsigned char]. *)
Definition cmdname (set opcode : Z) : res string :=
  check (opcode <? 256) AssertionError ;;
  opc ← to_uint 8 opcode; Ok (cmd_name opc set).
Definition controller_cmdname : Z -> res string := cmdname 0.
Definition namespace_cmdname : Z -> res string := cmdname 1.
End Names.

(** ** Queue pairs and controllers *)

(** A queue pair, with the fields the driver adds; addresses are numbers. *)
Record qp := mk_qp {
  qp_id : Z; qp_ctrlr : Z; qp_log : option log_table; qp_outstanding : Z;
  qp_io_in_second : Z; qp_lba_in_second : Z
}.
Record ctrlr := mk_ctrlr { ct_traddr : string; ct_mn : string; ct_adminq : Z; ct_active_io_qpairs : list Z }.

(** [g_controllers] is the list of the controllers of this process. *)
Record driver := mk_driver { d_controllers : list Z; d_ctrlrs : gmap Z ctrlr; d_qps : gmap Z qp }.

Definition NULL : Z := 0.
Definition get_qp (d : driver) (q : Z) : res qp :=
  match d_qps d !! q with Some x => Ok x | None => Err COutOfBounds end.
Definition get_ctrlr (d : driver) (c : Z) : res ctrlr :=
  match d_ctrlrs d !! c with Some x => Ok x | None => Err COutOfBounds end.
Definition get_log (x : qp) : res log_table :=
  match qp_log x with Some g => Ok g | None => Err COutOfBounds end.

Definition qpair_get_id (d : driver) (q : Z) : res Z :=
  if q =? NULL then Ok 0 else x ← get_qp d q; Ok (qp_id x).

Definition latest_log (d : driver) (q c : Z) : res log_table :=
  q ← (if q =? NULL then x ← get_ctrlr d c; Ok (ct_adminq x) else Ok q);
  check (negb (q =? NULL)) CAbort ;;
  x ← get_qp d q;
  check (qp_ctrlr x =? c) CAbort ;;
  get_log x.
Definition qpair_get_latest_cid (d : driver) (q c : Z) : res Z := g ← latest_log d q c; Ok (lg_latest_cid g).
Definition qpair_get_latest_latency (d : driver) (q c : Z) : res Z := g ← latest_log d q c; Ok (lg_latest_latency g).

(** The properties [latest_cid] and [latest_latency] of a controller (a [ctrlr*]
    of its Pcie) and of a queue pair. *)
Definition controller_latest_cid (d : driver) (c : Z) : res Z := qpair_get_latest_cid d NULL c.
Definition controller_latest_latency (d : driver) (c : Z) : res Z := qpair_get_latest_latency d NULL c.
Definition qpair_latest_cid (d : driver) (q c : Z) : res Z := qpair_get_latest_cid d q c.
Definition qpair_latest_latency (d : driver) (q c : Z) : res Z := qpair_get_latest_latency d q c.
Definition sqid (d : driver) (q : Z) : res Z := qpair_get_id d q.

(** [Qpair.cmdlog] and [Controller.cmdlog]; the count is a [size_t], and without
    a log the assertions of [log_cmd_dump] fail. *)
Definition qpair_cmdlog (d : driver) (q count : Z) : res (list shown) :=
  count ← to_uint 64 count; x ← get_qp d q;
  match qp_log x with Some g => log_cmd_dump g count | None => Err CAbort end.
Definition controller_cmdlog (d : driver) (c count : Z) : res (list shown) :=
  x ← get_ctrlr d c; qpair_cmdlog d (ct_adminq x) count.

(** [_cmdlog_uname]: [snprintf] of 64 bytes. *)
Definition _cmdlog_uname (traddr : string) (id pid : Z) (subnqn : string) : string :=
  String.substring 0 63
    ("cmdlog_table_" +:+ traddr +:+ "_" +:+ print_d id +:+ "_" +:+ print_d pid +:+ "_" +:+ subnqn)%string.

(** ** The RPC server *)

(** The object written for a queue pair. *)
Record qpair_info := mk_info { i_ctrlr : string; i_qid : Z; i_outstanding : Z; i_qpair : Z; i_model : string }.

(** What a method answers; a request without an id gets no response. *)
Inductive response :=
  | NoResponse | InvalidParams
  | QpairList (l : list qpair_info) | Numbers (l : list Z) | Strings (l : list string).

Section List.
Variable MN_LEN : nat.                   (* SPDK_NVME_CTRLR_MN_LEN *)

(** The model is a field of [MN_LEN] bytes. *)
Definition rpc_list_qpair_content (d : driver) (q : Z) : res qpair_info :=
  x ← get_qp d q; c ← get_ctrlr d (qp_ctrlr x);
  Ok (mk_info (ct_traddr c) (wrap 32 (qp_id x + 1)) (Z.min (qp_outstanding x) 100) q (String.substring 0 MN_LEN (ct_mn c))).

Definition rpc_list_ctrlr (d : driver) (c : Z) : res (list qpair_info) :=
  x ← get_ctrlr d c;
  a ← rpc_list_qpair_content d (ct_adminq x);
  l ← mapM (rpc_list_qpair_content d) (ct_active_io_qpairs x);
  Ok (a :: l).
Definition rpc_list_all_qpair (wants : bool) (d : driver) : res response :=
  if negb wants then Ok NoResponse
  else l ← mapM (rpc_list_ctrlr d) (d_controllers d); Ok (QpairList (concat l)).

End List.

(** The traffic of the queue pairs since the last request. *)
Definition clear_traffic (x : qp) : qp := mk_qp (qp_id x) (qp_ctrlr x) (qp_log x) (qp_outstanding x) 0 0.
Definition put_qp (q : Z) (x : qp) (d : driver) : driver :=
  mk_driver (d_controllers d) (d_ctrlrs d) (<[q := x]> (d_qps d)).

Definition add_traffic (a : (Z * Z) * driver) (q : Z) : res ((Z * Z) * driver) :=
  let '((iops, bw), d) := a in
  x ← get_qp d q;
  Ok ((wrap 64 (iops + qp_io_in_second x), wrap 64 (bw + qp_lba_in_second x)), put_qp q (clear_traffic x) d).
Fixpoint fold_res {A B} (f : A -> B -> res A) (a : A) (l : list B) : res A :=
  match l with [] => Ok a | b :: l' => a ← f a b; fold_res f a l' end.
Definition ctrlr_traffic (a : (Z * Z) * driver) (c : Z) : res ((Z * Z) * driver) :=
  x ← get_ctrlr (snd a) c; fold_res add_traffic a (ct_active_io_qpairs x).
Definition rpc_get_iostat (wants : bool) (d : driver) : res (response * driver) :=
  if negb wants then Ok (NoResponse, d)
  else r ← fold_res ctrlr_traffic ((0, 0), d) (d_controllers d);
       let '((iops, bw), d) := r in
       Ok (Numbers [bw; iops], d).

(** *** The command log as text *)
Definition nl : string := String "010" "".
Definition hex8 (v : Z) : string := ("0x" +:+ pad 8 (digits 16 16 v))%string.
Definition row (l : list Z) (i : nat) : string := String.concat ", " (hex8 <$> [nth i l 0; nth (i + 1) l 0; nth (i + 2) l 0; nth (i + 3) l 0]).

Section Cmdlog.
Variable admin_code : admin_opc -> Z.
Variable io_code : io_opc -> Z.
Variable date : Z -> string.             (* localtime and strftime *)
Variable status_string : cpl -> string.
Variable cpl_dwords : cpl -> list Z.     (* the entry as SPDK received it *)

Definition time_text (t : timeval) : string := (date (tv_sec t) +:+ "." +:+ pad 6 (digits 20 10 (tv_usec t)))%string.

Definition cmd_text (seq : Z) (t : timeval) (name : string) (c : spdk_cmd) : string :=
  (time_text t +:+ " [cmd" +:+ pad 3 (digits 10 10 seq) +:+ ": " +:+ name +:+ "]" +:+ nl +:+
   String.concat nl (row (cmd_dwords c) <$> [0; 4; 8; 12]%nat))%string.

Definition cpl_text (t : timeval) (c : cpl) : string :=
  (time_text t +:+ ": [cpl: " +:+ status_string c +:+ "] " +:+ nl +:+ row (cpl_dwords c) 0 +:+ nl)%string.

Definition pending_text : string := ("not completed" +:+ nl +:+ "..." +:+ nl)%string.

(** The time of a completion: the latency in seconds and microseconds. *)
Definition rpc_time_cpl (time_cmd : timeval) (latency : Z) : timeval :=
  timeradd time_cmd (mk_tv (latency / US_PER_S) (latency mod US_PER_S)).

Definition entry_texts (set seq : Z) (e : log_entry) : list string :=
  if timercmp_gt (e_time_cmd e) (mk_tv 0 0) then
    [cmd_text seq (e_time_cmd e) (cmd_name admin_code io_code (opc (e_cmd e)) set) (e_cmd e);
     if negb (e_latency_us e =? 0) then cpl_text (rpc_time_cpl (e_time_cmd e) (e_latency_us e)) (e_cpl e)
     else pending_text]
  else [].

(** [do ... while (seq++ < 128)] *)
Fixpoint rpc_loop (fuel : nat) (set seq index : Z) (t : list log_entry) : res (list string) :=
  match fuel with
  | O => Err OutOfFuel
  | S fuel' =>
      let index := step_back index in
      match t !! Z.to_nat index with
      | None => Err COutOfBounds
      | Some e =>
          let texts := entry_texts set seq e in
          if seq <? 128 then l ← rpc_loop fuel' set (seq + 1) index t; Ok (texts ++ l) else Ok texts
      end
  end.

(** The parameters: none, what is no array of at most one number, or the numbers. *)
Inductive rpc_params := NoParams | Undecodable | Decoded (l : list Z).

Definition rpc_get_cmdlog (wants : bool) (params : rpc_params) (d : driver) : res response :=
  match params with
  | Decoded [q] =>
      check (negb (q =? NULL)) CAbort ;;
      x ← get_qp d q;
      check (negb (qp_ctrlr x =? NULL)) CAbort ;;
      match qp_log x with
      | None => Err CAbort
      | Some g =>
          if negb wants then Ok NoResponse
          else l ← rpc_loop 128 (if qp_id x =? 0 then 0 else 1) 1 (lg_tail g) (lg_table g);
               Ok (Strings l)
      end
  | _ => Ok InvalidParams
  end.
End Cmdlog.

(** ** Probing *)
Inductive trtype := PCIE | TCP.
Record trid := mk_trid { tr_type : trtype; tr_addr : string; tr_svcid : string; tr_subnqn : string }.

(** The options of SPDK that [probe_cb] sets. *)
Record opts := mk_opts {
  o_use_cmb_sqs : bool; o_io_queue_size : Z; o_header_digest : bool; o_data_digest : bool;
  o_keep_alive_timeout_ms : Z; o_no_shn_notification : bool
}.

Section Probe.
Variable compare : trid -> trid -> Z.    (* spdk_nvme_transport_id_compare *)
Variable DISCOVERY_NQN : string.
Variable TRADDR_MAX_LEN : nat.

(** [probe_cb]: whether to attach, and the options. *)
Definition probe_cb (target t : trid) (o : opts) : bool * opts :=
  match tr_type t with
  | PCIE =>
      if negb (compare target t =? 0) then (false, o)
      else (true, mk_opts false 65535 false false 0 true)
  | TCP => (true, mk_opts (o_use_cmb_sqs o) 65535 false false 0 true)
  end.

(** The zeroed [trid], filled. *)
Definition target_of (traddr : string) (port : Z) : trid :=
  if negb (port =? 0) then mk_trid TCP (String.substring 0 TRADDR_MAX_LEN traddr) (print_d (to_int32 port)) DISCOVERY_NQN
  else mk_trid PCIE (String.substring 0 TRADDR_MAX_LEN traddr) "" "".

(** SPDK calls [probe_cb] for each device it finds and [attach_cb] when it has
    attached it, with the handle. *)
Fixpoint callbacks (target : trid) (o : opts) (found : list (trid * option Z)) (ctrlr : option Z) : option Z :=
  match found with
  | [] => ctrlr
  | (t, h) :: found' =>
      callbacks target o found'
        (if fst (probe_cb target t o) then match h with Some c => Some c | None => ctrlr end else ctrlr)
  end.

(** [spdk_probe]: the return code, and the devices with the handle each gets. *)
Definition nvme_probe (spdk_probe : trid -> Z * list (trid * option Z)) (o : opts) (traddr : string) (port : Z) : option Z :=
  let target := target_of traddr port in
  let '(rc, found) := spdk_probe target in
  let ctrlr := callbacks target o found None in
  if negb (rc =? 0) then None else ctrlr.
End Probe.

(** ** The core of a process *)

(** [1ULL<<((getpid()%(get_nprocs()-1))+1)]: the core of the mask; there are at least 4. *)
Definition core_of (pid nprocs : Z) : res Z :=
  check (4 <=? nprocs) CAbort ;; Ok (Z.rem pid (nprocs - 1) + 1).

(** ** Lemmas on the names *)
Lemma switch_case {O} (code : O -> Z) cases o t other : NoDup (code ∘ fst <$> cases) -> (o, t) ∈ cases ->
  switch code cases (code o) other = t.
Proof.
  intros Hn Hin. unfold switch. destruct (list_find _ cases) as [[i [o' t']]|] eqn:E.
  - apply list_find_Some in E as (Hi & Hc & _). cbn in Hc. apply list_elem_of_lookup in Hin as [j Hj].
    assert (i = j) as <-.
    { apply (NoDup_lookup _ _ _ (code o) Hn); rewrite list_lookup_fmap; [by rewrite Hi; cbn; rewrite Hc|by rewrite Hj]. }
    congruence.
  - apply list_find_None in E. rewrite Forall_forall in E. by destruct (E _ Hin).
Qed.

(** The name before the last underscore tells the queue pairs of all processes
    apart, and it is never cut off. *)
Lemma substring_app n a b : (String.length a <= n)%nat -> exists c, String.substring 0 n (a +:+ b)%string = (a +:+ c)%string.
Proof.
  revert n. induction a as [|x a IH]; intros n Hl; [by eexists|]. destruct n as [|n]; [cbn in Hl; lia|].
  cbn in Hl. destruct (IH n ltac:(lia)) as [c Hc]. exists c. rewrite !cons_app. cbn. by rewrite Hc.
Qed.

Lemma cmdlog_uname_inj a id pid nqn a' id' pid' nqn' :
  (String.length a <= 24)%nat -> (String.length a' <= 24)%nat ->
  occurs_in "_" a = false -> occurs_in "_" a' = false ->
  0 <= id < 65536 -> 0 <= id' < 65536 -> 0 <= pid < 2 ^ 31 -> 0 <= pid' < 2 ^ 31 ->
  _cmdlog_uname a id pid nqn = _cmdlog_uname a' id' pid' nqn' -> a = a' /\ id = id' /\ pid = pid'.
Proof.
  intros Hl Hl' Ha Ha' Hi Hi' Hp Hp'.
  assert (Hcut : forall a i p n, (String.length a <= 24)%nat -> exists c, _cmdlog_uname a i p n =
    ("cmdlog_table_" +:+ a +:+ "_" +:+ print_d i +:+ "_" +:+ print_d p +:+ "_" +:+ c)%string).
  { intros b i p n Hb. unfold _cmdlog_uname.
    destruct (substring_app 63 ("cmdlog_table_" +:+ b +:+ "_" +:+ print_d i +:+ "_" +:+ print_d p +:+ "_")%string n) as [c Hc].
    - pose proof (print_d_length i). pose proof (print_d_length p). rewrite !string_length_app. cbn [String.length]. lia.
    - exists c. rewrite !app_app in Hc. exact Hc. }
  destruct (Hcut a id pid nqn Hl) as [c ->], (Hcut a' id' pid' nqn' Hl') as [c' ->].
  intros E%(inj (String.append _)). apply (split_first "_") in E as [-> E]; [|done..]. rewrite ?nil_app in E.
  apply (split_first "_") in E as [E1 E]; [|apply print_d_chars..]. rewrite ?nil_app in E.
  apply (split_first "_") in E as [E2 _]; [|apply print_d_chars..].
  apply print_d_inj in E1; [|lia..]. apply print_d_inj in E2; [|lia..]. done.
Qed.

(** ** Traffic *)

(** What the active queue pairs have counted. *)
Definition active (d : driver) : list Z := concat ((fun c => default [] (ct_active_io_qpairs <$> d_ctrlrs d !! c)) <$> d_controllers d).
Definition counted (f : qp -> Z) (d : driver) (l : list Z) : Z := foldr Z.add 0 ((fun q => default 0 (f <$> d_qps d !! q)) <$> l).

Lemma fold_res_app {A B} (f : A -> B -> res A) a l1 l2 : fold_res f a (l1 ++ l2) = (a' ← fold_res f a l1; fold_res f a' l2).
Proof. revert a. induction l1 as [|b l1 IH]; intros a; [done|]. cbn [app fold_res]. destruct (f a b); [apply IH|done]. Qed.

(** [d'] is [d] with the counters of [l] cleared. *)
Record cleared (l : list Z) (d d' : driver) : Prop := {
  cl_controllers : d_controllers d' = d_controllers d;
  cl_ctrlrs : d_ctrlrs d' = d_ctrlrs d;
  cl_in : forall q, q ∈ l -> d_qps d' !! q = clear_traffic <$> d_qps d !! q;
  cl_out : forall q, q ∉ l -> d_qps d' !! q = d_qps d !! q
}.

Lemma add_traffic_run l : NoDup l -> forall d iops bw, (forall q, q ∈ l -> is_Some (d_qps d !! q)) ->
  exists d', fold_res add_traffic ((wrap 64 iops, wrap 64 bw), d) l
    = Ok ((wrap 64 (iops + counted qp_io_in_second d l), wrap 64 (bw + counted qp_lba_in_second d l)), d')
  /\ cleared l d d'.
Proof.
  induction 1 as [|q l Hq _ IH]; intros d iops bw Hl.
  - exists d. split; [cbn; by rewrite !Z.add_0_r|]. split; try done. by intros q ?%not_elem_of_nil.
  - destruct (Hl q ltac:(left)) as [x Hx]. cbn [fold_res]. unfold add_traffic at 2, get_qp. rewrite Hx. cbn [mbind res_bind].
    set (d1 := put_qp q (clear_traffic x) d).
    assert (Hd1 : forall k, k <> q -> d_qps d1 !! k = d_qps d !! k) by (intros k Hk; cbn; by rewrite lookup_insert_ne).
    assert (Hw : forall a b, wrap 64 (wrap 64 a + b) = wrap 64 (a + b)) by (intros; apply Z.add_mod_idemp_l; done).
    rewrite !Hw. destruct (IH d1 (iops + qp_io_in_second x) (bw + qp_lba_in_second x)) as (d' & R & [H1 H2 H3 H4]).
    { intros k Hk. rewrite Hd1 by (by intros ->). apply Hl. by right. }
    exists d'. assert (Hc : forall f, counted f d1 l = counted f d l).
    { intros f. unfold counted. f_equal. apply list_fmap_ext. intros i k Hk. cbn.
      rewrite lookup_insert_ne; [done|]. intros ->. apply Hq. by apply list_elem_of_lookup_2 in Hk. }
    split.
    + rewrite R, !Hc. unfold counted at 3 4. cbn. rewrite Hx. cbn. fold (counted qp_io_in_second d l) (counted qp_lba_in_second d l).
      by rewrite !Z.add_assoc.
    + split; [done..| |].
      * intros k [->|Hk]%elem_of_cons; [rewrite H4 by done; cbn; by rewrite lookup_insert_eq, Hx|].
        rewrite H3 by done. by rewrite Hd1 by (by intros ->).
      * intros k [Hk Hkl]%not_elem_of_cons. rewrite H4 by done. by apply Hd1.
Qed.

Lemma add_traffic_ctrlrs l : forall a a', fold_res add_traffic a l = Ok a' -> d_ctrlrs (snd a') = d_ctrlrs (snd a).
Proof.
  induction l as [|q l IH]; intros a a'; [by intros [= <-]|]. cbn [fold_res].
  destruct (add_traffic a q) as [a1|] eqn:E; [cbn|done]. intros ->%IH.
  destruct a as [[? ?] d1]. unfold add_traffic in E. destruct (get_qp d1 q); [|done]. by injection E as <-.
Qed.

(** The loop over controllers is one over their active queue pairs. *)
Lemma ctrlr_traffic_run l : forall a, (forall c, c ∈ l -> is_Some (d_ctrlrs (snd a) !! c)) ->
  fold_res ctrlr_traffic a l
  = fold_res add_traffic a (concat ((fun c => default [] (ct_active_io_qpairs <$> d_ctrlrs (snd a) !! c)) <$> l)).
Proof.
  induction l as [|c l IH]; intros a Hl; [done|]. cbn [fold_res]. rewrite fmap_cons. cbn [concat].
  rewrite fold_res_app. unfold ctrlr_traffic at 2, get_ctrlr. destruct (Hl c ltac:(left)) as [x Hx]. rewrite Hx.
  cbn [mbind res_bind]. change (default [] (ct_active_io_qpairs <$> Some x)) with (ct_active_io_qpairs x).
  destruct (fold_res add_traffic a (ct_active_io_qpairs x)) as [a'|] eqn:E; [|done]. cbn [mbind res_bind].
  rewrite <- (add_traffic_ctrlrs _ _ _ E) in *. apply IH. intros k Hk. apply Hl. by right.
Qed.

(** A request for the traffic answers the sums over all active queue pairs,
    clears exactly their counters and changes nothing else. *)
Lemma iostat_reports d : NoDup (active d) -> (forall q, q ∈ active d -> is_Some (d_qps d !! q)) ->
  (forall c, c ∈ d_controllers d -> is_Some (d_ctrlrs d !! c)) ->
  exists d', rpc_get_iostat true d = Ok (Numbers [wrap 64 (counted qp_lba_in_second d (active d));
      wrap 64 (counted qp_io_in_second d (active d))], d')
    /\ cleared (active d) d d'.
Proof.
  intros Hn Hq Hc. destruct (add_traffic_run (active d) Hn d 0 0 Hq) as (d' & R & Hd). exists d'. split; [|done].
  unfold rpc_get_iostat. cbn [negb]. rewrite ctrlr_traffic_run by done. change (wrap 64 0) with 0 in R.
  cbn [snd]. fold (active d). by rewrite R.
Qed.

(** ** The two views of the log *)

(** The time on the clock of [t], with microseconds below a second. *)
Definition carry (t : timeval) : timeval := mk_tv (tv_sec t + tv_usec t / US_PER_S) (tv_usec t mod US_PER_S).

Lemma rpc_time_carry t latency : 0 <= tv_usec t <= US_PER_S -> 0 <= latency ->
  rpc_time_cpl t latency = carry (timeradd t (mk_tv 0 latency)).
Proof.
  unfold rpc_time_cpl, carry, timeradd, US_PER_S. cbn [tv_sec tv_usec]. change (1000 * 1000) with 1000000. intros Ht Hl.
  destruct (Z.leb_spec 1000000 (tv_usec t + latency mod 1000000)), (Z.leb_spec 1000000 (tv_usec t + latency));
    cbn [tv_sec tv_usec]; f_equal; divmod.
Qed.

Section Views.
Variable admin_code : admin_opc -> Z.
Variable io_code : io_opc -> Z.
Variable date : Z -> string.
Variable status_string : cpl -> string.
Variable cpl_dwords : cpl -> list Z.

(** The texts of an entry that the console shows as [s]. *)
Definition shown_texts (set seq : Z) (s : shown) : list string :=
  [cmd_text date seq (sh_time s) (cmd_name admin_code io_code (opc (sh_cmd s)) set) (sh_cmd s);
   match sh_cpl s with
   | Some (t, c) => cpl_text date status_string cpl_dwords (carry t) c
   | None => pending_text
   end].

Lemma entry_texts_shown set seq e i : timercmp_gt (e_time_cmd e) (mk_tv 0 0) = true ->
  0 <= tv_usec (e_time_cmd e) <= US_PER_S -> 0 <= e_latency_us e ->
  entry_texts admin_code io_code date status_string cpl_dwords set seq e = shown_texts set seq (show_entry i e).
Proof.
  intros Ht Hu Hl. unfold entry_texts, shown_texts, show_entry. rewrite Ht. cbn [sh_time sh_cmd sh_cpl].
  destruct (negb _); [by rewrite rpc_time_carry|done].
Qed.

(** [seq] commands have been shown when the loop turns. *)
Lemma rpc_loop_run h m set : log_inv None h m ->
  Forall (fun s => timercmp_gt (sb_time s) (mk_tv 0 0) = true /\ 0 <= tv_usec (sb_time s) <= US_PER_S) h ->
  Forall (fun e => 0 <= e_latency_us e) (lg_table (m_log m)) ->
  forall fuel k index l, (k + fuel = 128)%nat -> (0 < fuel)%nat ->
  step_back index = (lg_tail (m_log m) - 1 - Z.of_nat k) mod CMD_LOG_DEPTH ->
  dump_loop fuel index (lg_table (m_log m)) = Ok l -> sh_cmd <$> l = sb_cmd <$> take fuel (drop k h) ->
  rpc_loop admin_code io_code date status_string cpl_dwords fuel set (Z.of_nat k + 1) index (lg_table (m_log m))
  = Ok (concat (imap (fun i s => shown_texts set (Z.of_nat (k + i) + 1) s) l)).
Proof.
  intros Hi Hh Hlat. induction fuel as [|fuel IH]; intros k index l Hk Hf Hx Hd Hc; [lia|].
  cbn [rpc_loop dump_loop] in *. rewrite Hx in *. destruct (lg_table (m_log m) !! _) as [e|] eqn:He; [|done].
  destruct (dump_loop fuel _ _) as [l'|] eqn:Hl'; [cbn [mbind res_bind] in Hd; injection Hd as <-|done].
  change (Z.to_nat _) with (back (lg_tail (m_log m)) k) in He.
  assert (Hrest : sh_cmd <$> l' = sb_cmd <$> take fuel (drop (S k) h) ->
    (if Z.of_nat k + 1 <? 128 then rpc_loop admin_code io_code date status_string cpl_dwords fuel set (Z.of_nat k + 1 + 1)
        ((lg_tail (m_log m) - 1 - Z.of_nat k) mod CMD_LOG_DEPTH) (lg_table (m_log m)) else Ok [])
    = Ok (concat (imap (fun i s => shown_texts set (Z.of_nat (S k + i) + 1) s) l'))).
  { intros Hc'. destruct (Z.ltb_spec (Z.of_nat k + 1) 128).
    - replace (Z.of_nat k + 1 + 1) with (Z.of_nat (S k) + 1) by lia. apply IH; [lia|lia| |done|done].
      pose proof (li_tail _ _ _ Hi). unfold step_back, CMD_LOG_DEPTH in *.
      destruct (Z.eqb_spec ((lg_tail (m_log m) - 1 - Z.of_nat k) mod 2050) 0); divmod.
    - assert (fuel = 0%nat) as -> by lia. cbn in Hl'. by injection Hl' as <-. }
  assert (Hgo : forall t r, (if Z.of_nat k + 1 <? 128 then r else Ok []) = Ok (A := list string) t ->
    forall x, (if Z.of_nat k + 1 <? 128 then l ← r; Ok (x ++ l) else Ok x) = Ok (x ++ t)).
  { intros t r Hr x. destruct (_ <? 128); [by rewrite Hr|]. injection Hr as <-. by rewrite app_nil_r. }
  destruct (h !! k) as [s|] eqn:Hs.
  - destruct (li_ring _ _ _ Hi k s) as (e' & He' & <-); [unfold CMD_LOG_DEPTH; lia|done|]. assert (e' = e) as -> by congruence.
    destruct (Forall_lookup_1 _ _ _ _ Hh Hs) as [Ht Hu]. cbn in Ht, Hu. rewrite Ht in *.
    rewrite (drop_S h _ k Hs) in Hc. cbn in Hc. injection Hc as Hc.
    rewrite (Hgo _ _ (Hrest Hc)), imap_cons. cbn [concat]. do 2 f_equal.
    + rewrite Nat.add_0_r. apply entry_texts_shown; [done..|]. by apply (Forall_lookup_1 _ _ _ _ Hlat He).
    + f_equal. apply imap_ext. intros i x _. unfold compose. do 2 f_equal. lia.
  - apply lookup_ge_None in Hs as Hlen. assert (Hz := li_empty _ _ _ Hi k e ltac:(unfold CMD_LOG_DEPTH; lia) Hs He).
    unfold entry_texts. rewrite Hz in *. cbn [timercmp_gt tv_sec tv_usec] in *. change (timercmp_gt (mk_tv 0 0) (mk_tv 0 0)) with false in *.
    rewrite !drop_ge in * by lia. rewrite take_nil in *. destruct l'; [|done].
    rewrite (Hgo _ _ (Hrest eq_refl)). done.
Qed.

(** C8. The two views of the command log agree.  Whatever was submitted and
    completed, the RPC method shows the commands that [log_cmd_dump] prints for
    a count of 128, which are the latest 128, in the same order and numbered from
    1, each with its time, its name and its dwords, and with its completion or as
    pending.  They differ in the time of a completion: the RPC method carries
    the latency into the seconds, and the console prints a number of
    microseconds of seven digits or more exactly when the latency carries over more
    than one second. *)
Theorem rpc_shows_dump crc32c h m nss d q x :
  reach crc32c h m nss ->
  Forall (fun s => timercmp_gt (sb_time s) (mk_tv 0 0) = true /\ 0 <= tv_usec (sb_time s) <= US_PER_S) h ->
  q <> NULL -> d_qps d !! q = Some x -> qp_log x = Some (m_log m) -> qp_ctrlr x <> NULL ->
  exists l, qpair_cmdlog d q 128 = Ok l
    /\ sh_cmd <$> l = sb_cmd <$> take 128 h
    /\ rpc_get_cmdlog admin_code io_code date status_string cpl_dwords true (Decoded [q]) d
       = Ok (Strings (concat (imap (fun i s => shown_texts (if qp_id x =? 0 then 0 else 1) (Z.of_nat i + 1) s) l)))
    /\ forall i s t c, l !! i = Some s -> sh_cpl s = Some (t, c) -> exists e, e ∈ lg_table (m_log m)
         /\ sh_cmd s = e_cmd e /\ e_cpl e = c
         /\ (US_PER_S <= tv_usec t <-> 2 * US_PER_S <= tv_usec (e_time_cmd e) + e_latency_us e)
         /\ 0 <= tv_usec (carry t) < US_PER_S
         /\ tv_sec (carry t) * US_PER_S + tv_usec (carry t)
            = tv_sec (e_time_cmd e) * US_PER_S + tv_usec (e_time_cmd e) + e_latency_us e.
Proof.
  intros Hr Hh Hq Hx Hg Hc. pose proof (inv_reach _ _ _ _ Hr) as Hi. pose proof (reach_latencies _ _ _ _ Hr) as Hlat.
  assert (Hstep : step_back (lg_tail (m_log m)) = (lg_tail (m_log m) - 1 - Z.of_nat 0) mod CMD_LOG_DEPTH).
  { pose proof (li_tail _ _ _ Hi). unfold step_back, CMD_LOG_DEPTH in *. destruct (Z.eqb_spec (lg_tail (m_log m)) 0); divmod. }
  destruct (dump_loop_run h m Hi (Forall_impl _ _ _ Hh (fun s H => proj1 H)) 128 0 _ ltac:(done) Hstep) as (l & Hl & Hf & Hp).
  exists l. split_and!; [|done| |].
  - unfold qpair_cmdlog, get_qp, log_cmd_dump. rewrite Hx. cbn [mbind res_bind]. by rewrite Hg.
  - unfold rpc_get_cmdlog, get_qp. unfold NULL in *. zbool. cbn [negb check mbind res_bind].
    rewrite Hx. cbn [mbind res_bind]. zbool. cbn [negb check mbind res_bind]. rewrite Hg.
    pose proof (rpc_loop_run h m (if qp_id x =? 0 then 0 else 1) Hi Hh Hlat 128 0 _ l eq_refl ltac:(lia) Hstep Hl Hf) as Hrun.
    change (Z.of_nat 0 + 1) with 1 in Hrun. by rewrite Hrun.
  - intros i s t c Hs Ht. destruct (Hp i s Hs) as (e & He & ->). exists e.
    pose proof (Forall_lookup_1 _ _ _ _ Hlat He) as H0. split; [by apply list_elem_of_lookup_2 in He|].
    unfold show_entry in *. cbn [sh_cpl sh_cmd] in *. destruct (negb _); [|done]. injection Ht as <- <-. split; [done|]. split; [done|].
    unfold timeradd, carry. change US_PER_S with 1000000. cbn [tv_sec tv_usec].
    destruct (Z.leb_spec 1000000 (tv_usec (e_time_cmd e) + e_latency_us e)); cbn [tv_sec tv_usec]; split_and!; divmod.
Qed.
End Views.

(** ** Probing *)
Section Probed.
Variable compare : trid -> trid -> Z.
Variable DISCOVERY_NQN : string.
Variable TRADDR_MAX_LEN : nat.

Lemma callbacks_last target o found c0 c : callbacks compare target o found c0 = Some c ->
  c0 = Some c \/ exists t, (t, Some c) ∈ found /\ (tr_type t = PCIE -> compare target t = 0).
Proof.
  revert c0. induction found as [|[t h] found IH]; intros c0; [by left|]. cbn [callbacks]. intros H.
  apply IH in H as [H|(t' & Ht & Hc)]; [|right; exists t'; split; [by right|done]].
  unfold probe_cb in H. destruct (tr_type t) eqn:Et.
  - destruct (Z.eqb_spec (compare target t) 0); cbn in H; [|by left].
    destruct h; [|by left]. injection H as ->. right. exists t. split; [left|done].
  - cbn in H. destruct h; [|by left]. injection H as ->. right. exists t. split; [left|congruence].
Qed.

(** The controller of a PCIe address is a device that was found there; other
    devices are not attached. *)
Lemma probe_finds spdk_probe o traddr c :
  nvme_probe compare DISCOVERY_NQN TRADDR_MAX_LEN spdk_probe o traddr 0 = Some c ->
  let target := target_of DISCOVERY_NQN TRADDR_MAX_LEN traddr 0 in
  fst (spdk_probe target) = 0
  /\ exists t, (t, Some c) ∈ snd (spdk_probe target) /\ (tr_type t = PCIE -> compare target t = 0).
Proof.
  cbv zeta. unfold nvme_probe. set (target := target_of _ _ _ _). destruct (spdk_probe target) as [rc found].
  destruct (Z.eqb_spec rc 0); [|done]. cbn. intros [?|H]%callbacks_last; done.
Qed.
End Probed.

(** Both subsystems of a target are attached, and the handle of the first is lost. *)
Example tcp_loses_controller :
  let found := [(mk_trid TCP "10.0.0.1" "4420" "nqn.a", Some 1); (mk_trid TCP "10.0.0.1" "4420" "nqn.b", Some 2)]%string in
  nvme_probe (fun _ _ => 1) "discovery" 256 (fun _ => (0, found)) (mk_opts true 0 true true 0 false) "10.0.0.1" 4420 = Some 2.
Proof. reflexivity. Qed.

(** A latency of 1.5 s as the console shows it and as the RPC method does. *)
Example console_time :
  timeradd (mk_tv 100 700000) (mk_tv 0 1500000) = mk_tv 101 1200000
  /\ rpc_time_cpl (mk_tv 100 700000) 1500000 = mk_tv 102 200000.
Proof. done. Qed.

Definition example_driver : driver :=
  mk_driver [3] {[3 := mk_ctrlr "01:00.0" "model" 5 [7]]} {[7 := mk_qp 1 3 (Some (m_log example_sent)) 1 0 0]}.

Lemma rpc_shows_dump_witness :
  exists l, qpair_cmdlog example_driver 7 128 = Ok l /\ sh_cmd <$> l = [example_cmd].
Proof.
  assert (H : Forall (fun s => timercmp_gt (sb_time s) (mk_tv 0 0) = true /\ 0 <= tv_usec (sb_time s) <= US_PER_S)
    [mk_sub example_cmd (mk_tv 5 10) (Some 0x1000)]) by (repeat constructor; vm_compute; discriminate).
  destruct (rpc_shows_dump (fun _ => 0) (fun _ => 1) (fun _ => "5"%string) (fun _ => ""%string) (fun _ => [])
    _ _ _ _ example_driver 7 (mk_qp 1 3 (Some (m_log example_sent)) 1 0 0) example_sent_reach H
    ltac:(done) eq_refl eq_refl ltac:(done)) as (l & Hl & Hf & _).
  exists l. split; [exact Hl|exact Hf].
Defined.
