(* ===== verification/Traffic.v ===== *)
(** * Traffic: the thread of the RPC server beside the threads that send

    [rpc_get_iostat] of src/src/driver.c runs in the thread that [driver_init]
    starts; it walks the list of controllers, and for each the list of its active
    queue pairs, and reads and clears the counters that [ns_cmd_io] increases in
    the thread, or the worker process, that uses the queue pair.  No lock and no
    atomic operation orders the two: each reads and writes memory in steps of its
    own.  The model is the
    sequences of these steps, as actions that a scheduler chooses; Service.v
    has the same request with nothing in between. *)
From Stdlib Require Import ZArith Lia ZifyBool.
From stdpp Require Import base list numbers option gmap.
From S2P Require Import Prelude PyInt.
Local Open Scope Z_scope.

(** ** State *)

(** The counters of a queue pair: commands and bytes. *)
Inductive which := Io | Lba.
#[export] Instance which_eq_dec : EqDecision which.
Proof. solve_decision. Defined.
#[export, refine] Instance which_countable : Countable which := {
  encode w := match w with Io => 1 | Lba => 2 end%positive;
  decode n := Some (if (n =? 1)%positive then Io else Lba)
}.
Proof. by intros []. Defined.
Abbreviation cell := (Z * which)%type.

(** A thread in [ns_cmd_io]: the additions to come, and the value that the
    first of them has read. *)
Record sender := mk_sender { todo : list (which * Z); reg : option Z }.

(** The server in its loops.  At a controller's entry: before it reads
    [e->ctrlr], before it reads the first queue pair of that controller, and
    before it reads the entry's link.  At a queue pair of a controller, before
    one of its five accesses. *)
Inductive phase := ReadIo | ReadLba | ClearIo | ClearLba | Next.
Inductive server := Idle | Enter (e : Z) | First (e : Z) | At (e q : Z) (p : phase) | Leave (e : Z).

(** [r_io] and [r_lba] are what the visit of the queue pair has read; the reads
    and the additions of each counter are kept in the order they were made.
    Numbers of queue pairs are not used again.  A controller's number is also
    that of its entry in [g_controllers]: [listed] is that list, [attached] the
    controllers SPDK has, and [live] the queue pairs, each with its controller. *)
Record traffic := mk_traffic {
  listed : list Z; attached : list Z; live : list (Z * Z); cells : gmap cell Z; senders : gmap Z sender;
  rpc : server; r_io : Z; r_lba : Z; iops : Z; bw : Z;
  responses : list (Z * Z); reads : list (cell * Z); adds : list (cell * Z); fault : bool
}.

Definition start : traffic := mk_traffic [] [] [] ∅ ∅ Idle 0 0 0 0 [] [] [] false.

Definition value (s : traffic) (c : cell) : Z := default 0 (cells s !! c).

Definition set_sender (q : Z) (o : option sender) (s : traffic) : traffic :=
  mk_traffic (listed s) (attached s) (live s) (cells s) (partial_alter (fun _ => o) q (senders s)) (rpc s) (r_io s) (r_lba s) (iops s) (bw s)
    (responses s) (reads s) (adds s) (fault s).
Definition set_cell (c : cell) (v : Z) (s : traffic) : traffic :=
  mk_traffic (listed s) (attached s) (live s) (<[c := v]> (cells s)) (senders s) (rpc s) (r_io s) (r_lba s) (iops s) (bw s)
    (responses s) (reads s) (adds s) (fault s).
Definition log_add (c : cell) (n : Z) (s : traffic) : traffic :=
  mk_traffic (listed s) (attached s) (live s) (cells s) (senders s) (rpc s) (r_io s) (r_lba s) (iops s) (bw s)
    (responses s) (reads s) (adds s ++ [(c, n)]) (fault s).
Definition set_rpc (p : server) (s : traffic) : traffic :=
  mk_traffic (listed s) (attached s) (live s) (cells s) (senders s) p (r_io s) (r_lba s) (iops s) (bw s)
    (responses s) (reads s) (adds s) (fault s).
Definition set_sums (a b : Z) (s : traffic) : traffic :=
  mk_traffic (listed s) (attached s) (live s) (cells s) (senders s) (rpc s) (r_io s) (r_lba s) a b
    (responses s) (reads s) (adds s) (fault s).
Definition set_read (a b : Z) (c : cell) (v : Z) (s : traffic) : traffic :=
  mk_traffic (listed s) (attached s) (live s) (cells s) (senders s) (rpc s) a b (iops s) (bw s)
    (responses s) (reads s ++ [(c, v)]) (adds s) (fault s).
Definition set_live (l : list (Z * Z)) (s : traffic) : traffic :=
  mk_traffic (listed s) (attached s) l (cells s) (senders s) (rpc s) (r_io s) (r_lba s) (iops s) (bw s)
    (responses s) (reads s) (adds s) (fault s).
Definition respond (s : traffic) : traffic :=
  mk_traffic (listed s) (attached s) (live s) (cells s) (senders s) Idle (r_io s) (r_lba s) (iops s) (bw s)
    (responses s ++ [(bw s, iops s)]) (reads s) (adds s) (fault s).
Definition set_fault (s : traffic) : traffic :=
  mk_traffic (listed s) (attached s) (live s) (cells s) (senders s) (rpc s) (r_io s) (r_lba s) (iops s) (bw s)
    (responses s) (reads s) (adds s) true.

Definition set_ctrls (l a : list Z) (s : traffic) : traffic :=
  mk_traffic l a (live s) (cells s) (senders s) (rpc s) (r_io s) (r_lba s) (iops s) (bw s)
    (responses s) (reads s) (adds s) (fault s).

(** [active_io_qpairs] of a controller, and whether a queue pair exists. *)
Definition queues (e : Z) (s : traffic) : list Z := (filter (fun x => x.1 = e) (live s)).*2.
Definition is_live (q : Z) (s : traffic) : bool := bool_decide (q ∈ (live s).*2).

(** ** Steps *)

(** [ns_cmd_io]: the command is counted, then its bytes. *)
Definition send (q bytes : Z) (s : traffic) : option traffic :=
  match senders s !! q with
  | None => if is_live q s then Some (set_sender q (Some (mk_sender [(Io, 1); (Lba, bytes)] None)) s) else None
  | Some _ => None
  end.

(** The next access of the sender of [q]. *)
Definition send_step (q : Z) (s : traffic) : option traffic :=
  match senders s !! q with
  | Some (mk_sender [] _) => Some (set_sender q None s)
  | Some (mk_sender ((w, n) :: l) None) => Some (set_sender q (Some (mk_sender ((w, n) :: l) (Some (value s (q, w))))) s)
  | Some (mk_sender ((w, n) :: l) (Some v)) =>
      Some (log_add (q, w) n (set_cell (q, w) (wrap 64 (v + n)) (set_sender q (Some (mk_sender l None)) s)))
  | None => None
  end.

(** [nvme_init] ends with the entry at the end of the list. *)
Definition attach (e : Z) (s : traffic) : option traffic :=
  if decide (e ∈ attached s) then None
  else if decide (e ∈ listed s) then None
  else Some (set_ctrls (listed s ++ [e]) (attached s ++ [e]) s).

(** A new queue pair, at the end of its controller's list; its memory is zero. *)
Definition create (e q : Z) (s : traffic) : option traffic :=
  if decide (e ∈ attached s /\ cells s !! (q, Io) = None /\ cells s !! (q, Lba) = None)
  then Some (set_live (live s ++ [(e, q)]) (set_cell (q, Io) 0 (set_cell (q, Lba) 0 s))) else None.

(** A queue pair is deleted by the thread that uses it. *)
Definition delete_qp (q : Z) (s : traffic) : option traffic :=
  match senders s !! q with
  | None => Some (set_live (filter (fun x => x.2 <> q) (live s)) s)
  | Some _ => None
  end.

(** [nvme_fini], which deletes the queue pairs that are left: then it removes the
    entry and frees it, and at last SPDK frees the controller. *)
Definition unlist (e : Z) (s : traffic) : option traffic :=
  match queues e s with
  | [] => if decide (e ∈ listed s)
          then Some (set_ctrls (filter (fun x => x <> e) (listed s)) (attached s) s) else None
  | _ :: _ => None
  end.
Definition detach (e : Z) (s : traffic) : option traffic :=
  match queues e s with
  | [] => if decide (e ∈ listed s) then None
          else Some (set_ctrls (listed s) (filter (fun x => x <> e) (attached s)) s)
  | _ :: _ => None
  end.

(** The outer loop goes to the first of [l], or the server answers. *)
Definition next_entry (l : list Z) (s : traffic) : traffic :=
  match l with [] => respond s | e :: _ => set_rpc (Enter e) s end.
(** The inner loop goes to the first of [l], or ends. *)
Definition next_queue (e : Z) (l : list Z) (s : traffic) : traffic :=
  set_rpc (match l with [] => Leave e | q :: _ => At e q ReadIo end) s.

(** What is behind [x] in a list. *)
Fixpoint behind (x : Z) (l : list Z) : list Z :=
  match l with [] => [] | y :: l' => if decide (y = x) then l' else behind x l' end.

Definition request (s : traffic) : option traffic :=
  match rpc s with Idle => Some (next_entry (listed s) (set_sums 0 0 s)) | _ => None end.

(** An access to memory that must not have been freed. *)
Definition access (alive : bool) (s' s : traffic) : option traffic :=
  Some (if alive then s' else set_fault s).

(** The next access of the server. *)
Definition rpc_step (s : traffic) : option traffic :=
  match rpc s with
  | Idle => None
  | Enter e => access (bool_decide (e ∈ listed s)) (set_rpc (First e) s) s
  | First e => access (bool_decide (e ∈ attached s)) (next_queue e (queues e s) s) s
  | Leave e => access (bool_decide (e ∈ listed s)) (next_entry (behind e (listed s)) s) s
  | At e q p =>
      access (is_live q s)
        match p with
        | ReadIo => let v := value s (q, Io) in
            set_rpc (At e q ReadLba) (set_sums (wrap 64 (iops s + v)) (bw s) (set_read v (r_lba s) (q, Io) v s))
        | ReadLba => let v := value s (q, Lba) in
            set_rpc (At e q ClearIo) (set_sums (iops s) (wrap 64 (bw s + v)) (set_read (r_io s) v (q, Lba) v s))
        | ClearIo => set_rpc (At e q ClearLba) (set_cell (q, Io) 0 s)
        | ClearLba => set_rpc (At e q Next) (set_cell (q, Lba) 0 s)
        | Next => next_queue e (behind q (queues e s)) s
        end s
  end.

(** ** Schedules *)
Inductive action :=
  | Send (q bytes : Z) | SendStep (q : Z) | Create (e q : Z) | Delete (q : Z)
  | Attach (e : Z) | Unlist (e : Z) | Detach (e : Z) | Request | RpcStep.

Definition step (a : action) : traffic -> option traffic :=
  match a with
  | Send q n => send q n | SendStep q => send_step q | Create e q => create e q | Delete q => delete_qp q
  | Attach e => attach e | Unlist e => unlist e | Detach e => detach e
  | Request => request | RpcStep => rpc_step
  end.

(** Every state of a run, the first included; [None] when an action cannot be
    done. *)
Fixpoint run (l : list action) (s : traffic) : option (list traffic * traffic) :=
  match l with
  | [] => Some ([s], s)
  | a :: l' => s1 ← step a s; r ← run l' s1; Some (s :: r.1, r.2)
  end.

(** ** What the two hold *)

(** The server has read [c] and not cleared it yet. *)
Definition server_holds (s : traffic) (c : cell) : bool :=
  match rpc s, c with
  | At _ q p, (q', w) => (q =? q') && match p, w with
                                    | ReadLba, Io | ClearIo, Io | ClearIo, Lba | ClearLba, Lba => true
                                    | _, _ => false
                                    end
  | _, _ => false
  end.
Definition held (s : traffic) (c : cell) : Z :=
  if server_holds s c then match c.2 with Io => r_io s | Lba => r_lba s end else 0.

(** A sender has read [c] and not written it yet. *)
Definition sender_holds (s : traffic) (c : cell) : option Z :=
  match senders s !! c.1 with
  | Some (mk_sender ((w, _) :: _) (Some v)) => if decide (w = c.2) then Some v else None
  | _ => None
  end.

(** Both do. *)
Definition overlap (s : traffic) : bool :=
  match rpc s with
  | At _ q _ => existsb (fun w => server_holds s (q, w) && bool_decide (is_Some (sender_holds s (q, w)))) [Io; Lba]
  | _ => false
  end.

Lemma overlap_false s c v : overlap s = false -> server_holds s c = true -> sender_holds s c = Some v -> False.
Proof.
  unfold overlap. destruct c as [q w]. intros Ho Hs Hv. unfold server_holds in Hs. destruct (rpc s) as [|?|?|e q' p|?] eqn:E; try done.
  apply andb_prop in Hs as [->%Z.eqb_eq Hp]. assert (existsb (fun w => server_holds s (q, w) && bool_decide (is_Some (sender_holds s (q, w)))) [Io; Lba] = true) as Ht.
  { apply existsb_exists. exists w. split; [destruct w; cbn; auto|]. apply andb_true_intro. split; [|by apply bool_decide_eq_true_2; eexists].
    unfold server_holds. rewrite E, Z.eqb_refl. done. }
  congruence.
Qed.

Definition total (l : list (cell * Z)) (P : cell -> bool) : Z := foldr (fun e n => if P e.1 then e.2 + n else n) 0 l.
Definition at_cell (c : cell) (c' : cell) : bool := bool_decide (c' = c).
Definition of_kind (w : which) (c : cell) : bool := bool_decide (c.2 = w).

Lemma total_snoc l c v P : total (l ++ [(c, v)]) P = total l P + (if P c then v else 0).
Proof. unfold total. induction l as [|e l IH]; cbn; [destruct (P c); lia|]. rewrite IH. destruct (P e.1); lia. Qed.

Definition answered (w : which) (s : traffic) : Z :=
  foldr (fun r n => match w with Io => r.2 | Lba => r.1 end + n) 0 (responses s).
Definition pending (w : which) (s : traffic) : Z :=
  match rpc s with Idle => 0 | _ => match w with Io => iops s | Lba => bw s end end.

(** What holds in a run without an overlap. *)
Record exact (s : traffic) : Prop := {
  ex_cells : forall c, wrap 64 (value s c - held s c + total (reads s) (at_cell c)) = wrap 64 (total (adds s) (at_cell c));
  ex_held : forall c, server_holds s c = true -> value s c = held s c;
  ex_reg : forall c v, sender_holds s c = Some v -> value s c = v;
  ex_sums : forall w, wrap 64 (answered w s + pending w s) = wrap 64 (total (reads s) (of_kind w))
}.

Lemma kept_start : exact start.
Proof. by split. Qed.

(** Two states that agree on what [exact] looks at but the senders. *)
Lemma kept_senders s s' : exact s -> (forall c, value s' c = value s c) -> rpc s' = rpc s -> r_io s' = r_io s -> r_lba s' = r_lba s ->
  iops s' = iops s -> bw s' = bw s -> responses s' = responses s -> reads s' = reads s -> adds s' = adds s ->
  (forall c v, sender_holds s' c = Some v -> value s c = v) -> exact s'.
Proof.
  intros [E1 E2 E3 E4] Hv H2 H3 H4 H5 H6 H7 H8 H9 H10.
  assert (Hh : forall c, server_holds s' c = server_holds s c) by (intros c; unfold server_holds; by rewrite H2).
  assert (Hd : forall c, held s' c = held s c) by (intros c; unfold held; by rewrite Hh, H3, H4).
  split.
  - intros c. by rewrite Hv, Hd, H8, H9.
  - intros c. rewrite Hh, Hv, Hd. apply E2.
  - intros c v Hc. rewrite Hv. by apply H10.
  - intros w. unfold answered, pending. rewrite H2, H5, H6, H7, H8. apply E4.
Qed.

Lemma sender_holds_set q o s c : sender_holds (set_sender q o s) c =
  if decide (c.1 = q) then match o with Some (mk_sender ((w, _) :: _) (Some v)) => if decide (w = c.2) then Some v else None | _ => None end
  else sender_holds s c.
Proof.
  unfold sender_holds. cbn. destruct (decide (c.1 = q)) as [->|Hne]; [by rewrite lookup_partial_alter_eq|by rewrite lookup_partial_alter_ne].
Qed.

Lemma wrap_add_l a b : wrap 64 (wrap 64 a + b) = wrap 64 (a + b).
Proof. unfold wrap. apply Zplus_mod_idemp_l. Qed.
Lemma wrap_add_r a b : wrap 64 (a + wrap 64 b) = wrap 64 (a + b).
Proof. unfold wrap. apply Zplus_mod_idemp_r. Qed.

Lemma wrap_eq_add a b n : wrap 64 a = wrap 64 b -> wrap 64 (a + n) = wrap 64 (b + n).
Proof. intros H. rewrite <- wrap_add_l, H. apply wrap_add_l. Qed.

Lemma kept_send q n s s' : exact s -> send q n s = Some s' -> exact s'.
Proof.
  intros He H. unfold send in H. destruct (senders s !! q) as [?|]; [done|]. destruct (is_live q s); [|done]. injection H as <-.
  apply kept_senders with s; try done. intros c v. rewrite sender_holds_set. case_decide; [done|]. apply (ex_reg _ He).
Qed.

Lemma value_set_cell c c' v s : value (set_cell c v s) c' = if decide (c' = c) then v else value s c'.
Proof. unfold value. cbn. destruct (decide (c' = c)) as [->|Hne]; [by rewrite lookup_insert_eq|by rewrite lookup_insert_ne]. Qed.

Lemma kept_send_step q s s' : exact s -> overlap s = false -> send_step q s = Some s' -> exact s'.
Proof.
  intros He Ho H. unfold send_step in H. destruct (senders s !! q) as [[l r]|] eqn:Es; [|done]. destruct l as [|[w n] l].
  { injection H as <-. apply kept_senders with s; try done. intros c v. rewrite sender_holds_set. case_decide; [done|]. apply (ex_reg _ He). }
  destruct r as [v|]; injection H as <-.
  2: { apply kept_senders with s; try done. intros c v. rewrite sender_holds_set. case_decide as Hc; [|apply (ex_reg _ He)].
    case_decide; [|done]. intros [= <-]. destruct c. cbn in *. by subst. }
  assert (Hh : sender_holds s (q, w) = Some v) by (unfold sender_holds; cbn; rewrite Es; by rewrite decide_True).
  assert (Hv : value s (q, w) = v) by (by apply (ex_reg _ He)).
  assert (Hn : server_holds s (q, w) = false) by (destruct (server_holds s (q, w)) eqn:E; [|done]; by destruct (overlap_false s _ v Ho E)).
  set (s' := log_add _ _ _). assert (Hval : forall c, value s' c = if decide (c = (q, w)) then wrap 64 (v + n) else value s c) by (intros c; exact (value_set_cell (q, w) c _ s)).
  assert (Hd : forall c, held s' c = held s c) by done. destruct He as [E1 E2 E3 E4]. split.
  - intros c. rewrite Hval, Hd. change (reads s') with (reads s). change (adds s') with (adds s ++ [((q, w), n)]). rewrite total_snoc.
    unfold at_cell at 3. destruct (decide (c = (q, w))) as [->|Hne].
    + rewrite bool_decide_true by done. unfold held. rewrite Hn. specialize (E1 (q, w)). unfold held in E1. rewrite Hn, Hv in E1.
      apply (wrap_eq_add _ _ n) in E1. rewrite <- E1.
      replace (wrap 64 (v + n) - 0 + total (reads s) (at_cell (q, w))) with (wrap 64 (v + n) + total (reads s) (at_cell (q, w))) by lia.
      rewrite wrap_add_l. f_equal. lia.
    + rewrite bool_decide_false by congruence. rewrite Z.add_0_r. apply E1.
  - intros c Hc. rewrite Hval, Hd. destruct (decide (c = (q, w))) as [->|]; [|by apply E2]. by change (server_holds s (q, w) = true) in Hc; rewrite Hn in Hc.
  - intros c v' Hc. change (sender_holds (set_sender q (Some (mk_sender l None)) s) c = Some v') in Hc. rewrite sender_holds_set in Hc.
    destruct (decide (c.1 = q)) as [|Hne]; [by destruct l as [|[? ?] ?]|]. rewrite Hval, decide_False by (intros ->; done). by apply E3.
  - apply E4.
Qed.

Lemma kept_create e q s s' : exact s -> create e q s = Some s' -> exact s'.
Proof.
  intros He H. unfold create in H. case_decide as Hf; [|done]. injection H as <-. destruct Hf as (_ & H1 & H2).
  apply kept_senders with s; try done; [|apply (ex_reg _ He)]. intros c. change (value (set_cell (q, Io) 0 (set_cell (q, Lba) 0 s)) c = value s c).
  rewrite !value_set_cell. unfold value. destruct (decide (c = (q, Io))) as [->|]; [by rewrite H1|]. destruct (decide (c = (q, Lba))) as [->|]; [by rewrite H2|done].
Qed.

Lemma kept_delete q s s' : exact s -> delete_qp q s = Some s' -> exact s'.
Proof.
  intros He H. unfold delete_qp in H. destruct (senders s !! q); [done|]. injection H as <-. apply kept_senders with s; try done. apply (ex_reg _ He).
Qed.

(** The server where it holds nothing: it moves on, or answers. *)
Section BetweenQueues.
Variables s s1 : traffic.
Hypotheses (Hs : exact s) (Hn : forall c, server_holds s c = false) (Hc : cells s1 = cells s) (Hsd : senders s1 = senders s)
  (Hr : responses s1 = responses s) (Hrd : reads s1 = reads s) (Ha : adds s1 = adds s)
  (Hp : iops s1 = pending Io s /\ bw s1 = pending Lba s).

Lemma kept_moved p : p <> Idle -> (forall c, server_holds (set_rpc p s1) c = false) -> exact (set_rpc p s1).
Proof.
  intros Hi Hh. destruct Hs as [E1 E2 E3 E4]. destruct Hp as [Hp1 Hp2].
  assert (Hv : forall c, value (set_rpc p s1) c = value s c) by (intros c; unfold value; by rewrite <- Hc).
  split.
  - intros c. unfold held. rewrite Hv, Hh. specialize (E1 c). unfold held in E1. rewrite Hn in E1. cbn. by rewrite Hrd, Ha.
  - intros c. by rewrite Hh.
  - intros c v H. rewrite Hv. apply E3. rewrite <- H. unfold sender_holds. by rewrite <- Hsd.
  - intros w. change (reads (set_rpc p s1)) with (reads s1). rewrite Hrd, <- E4. f_equal.
    unfold answered, pending at 1. cbn [responses rpc iops bw set_rpc]. rewrite Hr.
    destruct p; [done|..]; by destruct w; rewrite ?Hp1, ?Hp2.
Qed.

Lemma kept_respond : exact (respond s1).
Proof.
  destruct Hs as [E1 E2 E3 E4]. destruct Hp as [Hp1 Hp2].
  assert (Hv : forall c, value (respond s1) c = value s c) by (intros c; unfold value; by rewrite <- Hc).
  split.
  - intros c. unfold held. rewrite Hv. specialize (E1 c). unfold held in E1. rewrite Hn in E1. cbn. by rewrite Hrd, Ha.
  - done.
  - intros c v H. rewrite Hv. apply E3. rewrite <- H. unfold sender_holds. by rewrite <- Hsd.
  - intros w. change (reads (respond s1)) with (reads s1). rewrite Hrd, <- E4. f_equal. unfold answered. rewrite <- Hr.
    unfold respond, pending at 1. cbn [responses rpc]. rewrite foldr_app. cbn [foldr].
    rewrite Z.add_0_r. assert (Hx : forall (f : Z * Z -> Z) a l, foldr (fun r n => f r + n) a l = foldr (fun r n => f r + n) 0 l + a)
      by (intros f a l; induction l; cbn; lia).
    destruct w; rewrite (Hx (fun r => _)); cbn; lia.
Qed.

Lemma kept_next_entry l : exact (next_entry l s1).
Proof. destruct l as [|e l]; [apply kept_respond|by apply kept_moved]. Qed.

Lemma kept_next_queue e l : exact (next_queue e l s1).
Proof.
  destruct l as [|q l]; apply kept_moved; try done.
  intros [q' w]. unfold server_holds. cbn. destruct w; by rewrite andb_false_r.
Qed.
End BetweenQueues.

Lemma kept_request s s' : exact s -> request s = Some s' -> exact s'.
Proof.
  intros He H. unfold request in H. destruct (rpc s) eqn:E; try done. injection H as <-.
  apply kept_next_entry with s; try done; [intros c; unfold server_holds; by rewrite E|unfold pending; by rewrite E].
Qed.

(** A read of the server: the counter it reads is held from then on. *)
Lemma kept_read s e q w p' a b x y : exact s -> server_holds s (q, w) = false ->
  let v := value s (q, w) in
  let s' := set_rpc (At e q p') (set_sums x y (set_read a b (q, w) v s)) in
  (forall c, held s' c = if decide (c = (q, w)) then v else held s c) ->
  (forall c, server_holds s' c = bool_decide (c = (q, w)) || server_holds s c) ->
  (x = match w with Io => wrap 64 (pending Io s + v) | Lba => pending Io s end) ->
  (y = match w with Lba => wrap 64 (pending Lba s + v) | Io => pending Lba s end) -> exact s'.
Proof.
  intros [E1 E2 E3 E4] Hn v s' Hd Hs Hx Hy. assert (Hv : forall c, value s' c = value s c) by done. split.
  - intros c. rewrite Hv, Hd. change (reads s') with (reads s ++ [((q, w), v)]). rewrite total_snoc. change (adds s') with (adds s).
    rewrite <- E1. unfold at_cell at 2. destruct (decide (c = (q, w))) as [->|Hne].
    + rewrite bool_decide_true by done. unfold held. rewrite Hn. f_equal. lia.
    + rewrite bool_decide_false by congruence. f_equal. lia.
  - intros c. rewrite Hs, Hv, Hd. destruct (decide (c = (q, w))) as [->|Hne]; [done|]. rewrite bool_decide_false by done. apply E2.
  - intros c u Hc. rewrite Hv. by apply E3.
  - intros w'. change (reads s') with (reads s ++ [((q, w), v)]). rewrite total_snoc. change (answered w' s') with (answered w' s).
    change (pending w' s') with (match w' with Io => x | Lba => y end). specialize (E4 w'). unfold of_kind at 2. cbn [snd].
    destruct w, w'; cbn [bool_decide]; rewrite Hx || rewrite Hy; cbn; rewrite ?Z.add_0_r; try done.
    all: rewrite wrap_add_r, Z.add_assoc; by apply wrap_eq_add.
Qed.

(** A write of the server: the counter is no longer held, and zero. *)
Lemma kept_clear s e q w p' : exact s -> overlap s = false -> server_holds s (q, w) = true ->
  let s' := set_rpc (At e q p') (set_cell (q, w) 0 s) in
  (forall c, held s' c = if decide (c = (q, w)) then 0 else held s c) ->
  (forall c, server_holds s' c = negb (bool_decide (c = (q, w))) && server_holds s c) ->
  (forall w, pending w s' = pending w s) -> exact s'.
Proof.
  intros [E1 E2 E3 E4] Ho Hh s' Hd Hs Hp. assert (Hv : forall c, value s' c = if decide (c = (q, w)) then 0 else value s c)
    by (intros c; exact (value_set_cell (q, w) c 0 s)). split.
  - intros c. rewrite Hv, Hd. change (reads s') with (reads s). change (adds s') with (adds s). specialize (E1 c).
    destruct (decide (c = (q, w))) as [->|Hne]; [|done]. rewrite <- E1, (E2 _ Hh). f_equal. lia.
  - intros c Hc. rewrite Hv, Hd. rewrite Hs in Hc. apply andb_prop in Hc as [Hc1 Hc2]. destruct (decide (c = (q, w))); [done|]. by apply E2.
  - intros c u Hc. rewrite Hv. change (sender_holds s c = Some u) in Hc. destruct (decide (c = (q, w))) as [->|]; [|by apply E3].
    by destruct (overlap_false s _ u Ho Hh).
  - intros w'. rewrite Hp. apply E4.
Qed.

Lemma cell_decide (c : cell) q w : bool_decide (c = (q, w)) = (q =? c.1) && bool_decide (c.2 = w).
Proof.
  destruct c as [q' w']. cbn. destruct (Z.eqb_spec q q') as [<-|]; cbn; [|apply bool_decide_false; congruence].
  apply bool_decide_ext. split; congruence.
Qed.

(** What the server holds in a phase, by cases on the counter. *)
Ltac holds_at E :=
  intros [?q' ?w']; rewrite ?cell_decide; unfold held, server_holds; rewrite E; cbn;
  match goal with |- context [?q =? ?q'] => destruct (Z.eqb_spec q q') as [<-|] end; cbn;
  match goal with w' : which |- _ => destruct w' end; cbn;
  repeat first [rewrite decide_True by done|rewrite decide_False by congruence]; done.

Lemma kept_access alive s s1 s' : exact s -> exact s1 -> access alive s1 s = Some s' -> exact s'.
Proof.
  intros He H1 [= <-]. destruct alive; [done|]. apply kept_senders with s; try done. apply (ex_reg _ He).
Qed.

Lemma kept_rpc_step s s' : exact s -> overlap s = false -> rpc_step s = Some s' -> exact s'.
Proof.
  intros He Ho H. unfold rpc_step in H. destruct (rpc s) as [|e|e|e q p|e] eqn:E; [done|..];
    refine (kept_access _ _ _ _ He _ H); clear H.
  1-2, 4: assert (Hn : forall c, server_holds s c = false) by (intros c; unfold server_holds; by rewrite E).
  1-3: assert (Hp : iops s = pending Io s /\ bw s = pending Lba s) by (unfold pending; by rewrite E).
  - by apply kept_moved with s.
  - by apply kept_next_queue with s.
  - by apply kept_next_entry with s.
  - assert (Hp : pending Io s = iops s /\ pending Lba s = bw s) by (unfold pending; by rewrite E). destruct Hp as [Hp1 Hp2].
    destruct p; cbv zeta.
    + apply kept_read; [done|unfold server_holds; rewrite E; by rewrite Z.eqb_refl|holds_at E|holds_at E|by rewrite Hp1|by rewrite Hp2].
    + apply kept_read; [done|unfold server_holds; rewrite E; by rewrite Z.eqb_refl|holds_at E|holds_at E|by rewrite Hp1|by rewrite Hp2].
    + apply kept_clear; [done|done|unfold server_holds; rewrite E; by rewrite Z.eqb_refl|holds_at E|holds_at E|intros w; unfold pending; by rewrite E].
    + apply kept_clear; [done|done|unfold server_holds; rewrite E; by rewrite Z.eqb_refl|holds_at E|holds_at E|intros w; unfold pending; by rewrite E].
    + apply kept_next_queue with s; try done; intros [q' w]; unfold server_holds; rewrite E; by rewrite andb_false_r.
Qed.

(** Controllers come and go, which the counters do not see. *)
Lemma kept_ctrls l a s : exact s -> exact (set_ctrls l a s).
Proof. intros He. apply kept_senders with s; try done. apply (ex_reg _ He). Qed.

Lemma kept_step a s s' : exact s -> overlap s = false -> step a s = Some s' -> exact s'.
Proof.
  intros He Ho. destruct a; cbn; [by apply kept_send|by apply kept_send_step|by apply kept_create|by apply kept_delete|
    |  |  |by apply kept_request|by apply kept_rpc_step]; intros H.
  - unfold attach in H. do 2 (case_decide; [done|]). injection H as <-. by apply kept_ctrls.
  - unfold unlist in H. destruct (queues e s); [|done]. case_decide; [|done]. injection H as <-. by apply kept_ctrls.
  - unfold detach in H. destruct (queues e s); [|done]. case_decide; [done|]. injection H as <-. by apply kept_ctrls.
Qed.

Lemma kept_run l : forall s ss s', run l s = Some (ss, s') -> exact s -> Forall (fun x => overlap x = false) ss -> exact s'.
Proof.
  induction l as [|a l IH]; intros s ss s' H He Ho; cbn in H; [by injection H as <- <-|].
  destruct (step a s) as [s1|] eqn:E; [cbn in H|done]. destruct (run l s1) as [[ss1 s2]|] eqn:R; [cbn in H|done].
  injection H as <- <-. apply Forall_cons_1 in Ho as [Ho Hs]. apply (IH s1 ss1 s2); [done| |done]. by apply (kept_step a s).
Qed.

(** C9. The traffic that is reported is the traffic that was sent, as long as
    the server and a sender are never both between reading and writing the same
    counter: then, whatever the order of their accesses and whichever queue
    pairs come and go, what a counter holds and what was read from it add up to
    what was added to it, and the answers add up to what was read (all modulo
    the 64 bits of the counters). *)
Theorem traffic_exact l ss s : run l start = Some (ss, s) -> Forall (fun x => overlap x = false) ss -> rpc s = Idle ->
  (forall c, wrap 64 (value s c + total (reads s) (at_cell c)) = wrap 64 (total (adds s) (at_cell c)))
  /\ (forall w, wrap 64 (answered w s) = wrap 64 (total (reads s) (of_kind w))).
Proof.
  intros H Ho Hi. destruct (kept_run l start ss s H kept_start Ho) as [E1 _ _ E4]. split.
  - intros c. rewrite <- E1. f_equal. unfold held, server_holds. rewrite Hi. lia.
  - intros w. rewrite <- E4. f_equal. unfold pending. rewrite Hi. lia.
Qed.

(** *** The memory of the controllers and their queue pairs *)
Definition in_entry (s : traffic) : option Z :=
  match rpc s with Enter e | First e | Leave e => Some e | At e _ _ => Some e | Idle => None end.
Definition visited (s : traffic) : option Z := match rpc s with At _ q _ => Some q | _ => None end.

(** No queue pair is deleted while the server is at it, and no controller is
    closed while the server is at its entry or its queue pairs. *)
Definition spares (a : action) (s : traffic) : bool :=
  match a with
  | Delete q => negb (bool_decide (visited s = Some q))
  | Unlist e => negb (bool_decide (in_entry s = Some e))
  | _ => true
  end.
Fixpoint polite (l : list action) (s : traffic) : bool :=
  match l with
  | [] => true
  | a :: l' => spares a s && match step a s with Some s' => polite l' s' | None => true end
  end.

Record at_live (s : traffic) : Prop := {
  al_fault : fault s = false;
  al_entry : forall e, in_entry s = Some e -> e ∈ listed s;
  al_queue : forall q, visited s = Some q -> is_live q s = true;
  al_listed : forall e, e ∈ listed s -> e ∈ attached s
}.

Lemma elem_behind x q l : x ∈ behind q l -> x ∈ l.
Proof. induction l as [|y l IH]; [done|]. cbn. case_decide; [by right|]. intros H1. right. by apply IH. Qed.

Lemma elem_queues q e s : q ∈ queues e s -> is_live q s = true.
Proof.
  intros ([e' q'] & -> & [_ Hx]%list_elem_of_filter)%list_elem_of_fmap. apply bool_decide_eq_true_2.
  apply list_elem_of_fmap. by exists (e', q').
Qed.

Lemma at_live_next_entry l s : at_live s -> (forall e, e ∈ l -> e ∈ listed s) -> at_live (next_entry l s).
Proof.
  intros [H1 _ _ H4] Hl. destruct l as [|e l]; split; try done. cbn. intros e' [= <-]. apply Hl. left.
Qed.
Lemma at_live_next_queue e l s : at_live s -> e ∈ listed s -> (forall q, q ∈ l -> is_live q s = true) -> at_live (next_queue e l s).
Proof.
  intros [H1 _ _ H4] He Hl. destruct l as [|q l]; split; try done; cbn; intros x [= <-]; try done. apply Hl. left.
Qed.

Lemma at_live_rpc s s' : at_live s -> rpc_step s = Some s' -> at_live s'.
Proof.
  intros Hs H. pose proof Hs as [Hf He Hq Hl]. unfold rpc_step, in_entry, visited in *.
  destruct (rpc s) as [|e|e|e q p|e]; [done|..]; injection H as <-; specialize (He e eq_refl).
  - rewrite bool_decide_true by done. split; try done. by intros ? [= <-].
  - rewrite bool_decide_true by by apply Hl. apply at_live_next_queue; [done|done|]. intros q. apply elem_queues.
  - rewrite (Hq q eq_refl). destruct p; cbv zeta;
      try (split; [done|by intros ? [= <-]|intros ? [= <-]; exact (Hq _ eq_refl)|done]).
    apply at_live_next_queue; [done|done|]. intros x Hx. by eapply elem_queues, elem_behind.
  - rewrite bool_decide_true by done. apply at_live_next_entry; [done|]. intros x. apply elem_behind.
Qed.

Lemma is_live_delete q q' s : is_live q' s = true -> q' <> q -> is_live q' (set_live (filter (fun x => x.2 <> q) (live s)) s) = true.
Proof.
  unfold is_live. rewrite !bool_decide_eq_true. cbn. rewrite !list_elem_of_fmap. intros (x & -> & Hx) Hne.
  exists x. split; [done|]. by apply list_elem_of_filter.
Qed.

Lemma at_live_step a s s' : at_live s -> spares a s = true -> step a s = Some s' -> at_live s'.
Proof.
  intros Hs Hd H. pose proof Hs as [Hf He Hq Hl]. destruct a as [q n|q|e q|q|e|e|e| |]; cbn [step] in H.
  - unfold send in H. destruct (senders s !! q); [done|]. destruct (is_live q s); [|done]. by injection H as <-.
  - unfold send_step in H. destruct (senders s !! q) as [[[|[w n] l] [v|]]|]; try done; by injection H as <-.
  - unfold create in H. case_decide; [|done]. injection H as <-. split; try done. intros q' Hq'. specialize (Hq q' Hq').
    unfold is_live in *. rewrite bool_decide_eq_true in Hq |- *. cbn. rewrite fmap_app. apply elem_of_app. by left.
  - unfold delete_qp in H. destruct (senders s !! q); [done|]. injection H as <-. split; try done. intros q' Hq'.
    change (visited s = Some q') in Hq'. apply is_live_delete; [by apply Hq|]. intros ->. cbn in Hd. by rewrite bool_decide_true in Hd.
  - unfold attach in H. do 2 (case_decide; [done|]). injection H as <-. split; try done; cbn; intros x Hx; rewrite elem_of_app.
    + left. by apply He.
    + apply elem_of_app in Hx as [Hx|Hx]; [left; by apply Hl|by right].
  - unfold unlist in H. destruct (queues e s); [|done]. case_decide; [|done]. injection H as <-. split; try done; cbn; intros x Hx.
    + apply list_elem_of_filter. split; [|by apply He]. intros ->. cbn in Hd. by rewrite bool_decide_true in Hd.
    + apply list_elem_of_filter in Hx as [_ Hx]. by apply Hl.
  - unfold detach in H. destruct (queues e s); [|done]. case_decide as Hn; [done|]. injection H as <-. split; try done; cbn; intros x Hx.
    apply list_elem_of_filter. split; [by intros ->|by apply Hl].
  - unfold request in H. destruct (rpc s) eqn:E; try done. injection H as <-. by apply at_live_next_entry.
  - by apply (at_live_rpc s).
Qed.

Lemma at_live_run l : forall s ss s', run l s = Some (ss, s') -> polite l s = true -> at_live s -> at_live s'.
Proof.
  induction l as [|a l IH]; intros s ss s' H Hp Hs; cbn in H; [by injection H as _ <-|].
  apply andb_prop in Hp as [Hd Hp]. destruct (step a s) as [s1|] eqn:E; [cbn in H|done].
  destruct (run l s1) as [[ss1 s2]|] eqn:R; [cbn in H|done].
  injection H as _ <-. apply (IH s1 ss1); [done|done|]. by apply (at_live_step a s).
Qed.

(** [nvme_fini] as the actions it takes on a controller. *)
Definition fini (e : Z) (s : traffic) : list action := (Delete <$> queues e s) ++ [Unlist e; Detach e].

Lemma run_app l1 l2 s ss1 s1 ss2 s2 : run l1 s = Some (ss1, s1) -> run l2 s1 = Some (ss2, s2) ->
  exists ss, run (l1 ++ l2) s = Some (ss, s2).
Proof.
  revert s ss1. induction l1 as [|a l1 IH]; intros s ss1 H1 H2; cbn in H1; [injection H1 as _ <-; by exists ss2|].
  destruct (step a s) as [s'|] eqn:E; [cbn in H1|done]. destruct (run l1 s') as [[ss' s'']|] eqn:R; [cbn in H1|done].
  injection H1 as _ <-. destruct (IH s' ss' R H2) as [ss Hr]. cbn. rewrite E. cbn. rewrite Hr. cbn. by eexists.
Qed.

Lemma filter_all {A} (P : A -> Prop) `{!forall x, Decision (P x)} (l : list A) : (forall x, x ∈ l -> P x) -> filter P l = l.
Proof.
  induction l as [|x l IH]; intros Hp; [done|]. rewrite filter_cons_True by (apply Hp; left).
  f_equal. apply IH. intros y Hy. apply Hp. by right.
Qed.
Lemma filter_none {A} (P : A -> Prop) `{!forall x, Decision (P x)} (l : list A) : (forall x, x ∈ l -> ~ P x) -> filter P l = [].
Proof.
  induction l as [|x l IH]; intros Hp; [done|]. rewrite filter_cons_False by (apply Hp; left).
  apply IH. intros y Hy. apply Hp. by right.
Qed.

Lemma run_deletes l : forall s, (forall q, q ∈ l -> senders s !! q = None) -> exists ss,
  run (Delete <$> l) s = Some (ss, set_live (filter (fun x => x.2 ∉ l) (live s)) s).
Proof.
  induction l as [|q l IH]; intros s Hl.
  - exists [s]. cbn. do 2 f_equal. unfold set_live. rewrite filter_all; [by destruct s|]. intros x _. apply not_elem_of_nil.
  - cbn. unfold delete_qp at 1. rewrite (Hl q) by left. cbn.
    destruct (IH (set_live (filter (fun x => x.2 <> q) (live s)) s)) as [ss Hr]; [intros q' Hq'; apply Hl; by right|].
    rewrite Hr. cbn. eexists. do 2 f_equal. unfold set_live. cbn. f_equal. rewrite list_filter_filter.
    apply list_filter_iff. intros x. rewrite not_elem_of_cons. tauto.
Qed.

(** What is left when all queue pairs of a controller are deleted. *)
Lemma queues_deleted e s : queues e (set_live (filter (fun x => x.2 ∉ queues e s) (live s)) s) = [].
Proof.
  unfold queues at 1. cbn. rewrite list_filter_filter. rewrite filter_none; [done|].
  intros x Hx [He Hn]. apply Hn. apply list_elem_of_fmap. exists x. split; [done|]. by apply list_elem_of_filter.
Qed.

Lemma fini_runs e s : e ∈ listed s -> (forall q, q ∈ queues e s -> senders s !! q = None) ->
  exists ss s1, run (fini e s) s = Some (ss, s1) /\ rpc s1 = rpc s /\ (e ∉ listed s1) /\ (e ∉ attached s1).
Proof.
  intros He Hs. destruct (run_deletes (queues e s) s Hs) as [ss1 H1].
  set (s1 := set_live _ s) in H1. set (s2 := set_ctrls (filter (fun x => x <> e) (listed s)) (attached s) s1).
  assert (Hn : e ∉ listed s2) by (cbn; by intros [? _]%list_elem_of_filter).
  assert (H2 : run [Unlist e; Detach e] s1
    = Some ([s1; s2; set_ctrls (listed s2) (filter (fun x => x <> e) (attached s2)) s2], set_ctrls (listed s2) (filter (fun x => x <> e) (attached s2)) s2)).
  { assert (Hq : queues e s1 = []) by apply queues_deleted.
    assert (Hu : unlist e s1 = Some s2) by (unfold unlist; rewrite Hq; by rewrite decide_True).
    assert (Hd : detach e s2 = Some (set_ctrls (listed s2) (filter (fun x => x <> e) (attached s2)) s2)).
    { unfold detach. change (queues e s2) with (queues e s1). rewrite Hq. by rewrite decide_False. }
    cbn [run step]. rewrite Hu. cbn [mbind option_bind]. by rewrite Hd. }
  destruct (run_app _ _ _ _ _ _ _ H1 H2) as [ss Hr]. do 2 eexists. split; [exact Hr|]. split; [done|]. split; [done|].
  cbn. by intros [? _]%list_elem_of_filter.
Qed.

(** C10. The server reads freed memory just when what it is at is taken away.
    If no queue pair is deleted while the server is at it, and no controller is
    closed while the server is at its entry or at its queue pairs, no access of
    the server goes to freed memory (an entry of [g_controllers], a controller or
    a queue pair), whatever else happens in between.  Nothing orders the two:
    in every state in which the server is at a queue pair that no thread is
    sending to, the queue pair can be deleted, and then the next access of the
    server is to freed memory; and in every state in which it is at the entry of
    a controller that no thread is sending to, [nvme_fini] can close the
    controller, and then its next access is to freed memory too. *)
Theorem server_memory_safe :
  (forall l ss s, run l start = Some (ss, s) -> polite l start = true -> fault s = false)
  /\ (forall s q, visited s = Some q -> senders s !! q = None ->
       exists s1 s2, step (Delete q) s = Some s1 /\ step RpcStep s1 = Some s2 /\ fault s2 = true)
  /\ (forall s e, in_entry s = Some e -> visited s = None -> e ∈ listed s ->
       (forall q, q ∈ queues e s -> senders s !! q = None) ->
       exists ss s1 s2, run (fini e s) s = Some (ss, s1) /\ step RpcStep s1 = Some s2 /\ fault s2 = true).
Proof.
  split; [|split].
  - intros l ss s H Hp. by eapply al_fault, (at_live_run l start ss).
  - intros s q Hv Hn. set (s1 := set_live (filter (fun x => x.2 <> q) (live s)) s). exists s1, (set_fault s1).
    split; [cbn; unfold delete_qp; by rewrite Hn|]. split; [|done]. unfold visited in Hv.
    destruct (rpc s) as [|?|?|e q' p|?] eqn:E; try done.
    injection Hv as ->. cbn [step]. unfold rpc_step. change (rpc s1) with (rpc s). rewrite E.
    assert (Hl : is_live q s1 = false); [|by rewrite Hl].
    apply bool_decide_eq_false_2. intros (x & -> & [Hx _]%list_elem_of_filter)%list_elem_of_fmap. done.
  - intros s e He Hv Hl Hs. destruct (fini_runs e s Hl Hs) as (ss & s1 & Hr & Hp & Hn1 & Hn2).
    exists ss, s1, (set_fault s1). split; [done|]. split; [|done]. cbn [step]. unfold rpc_step. rewrite Hp.
    unfold in_entry, visited in *.
    destruct (rpc s) as [|?|?|? ? ?|?]; try done; injection He as ->; by rewrite bool_decide_false.
Qed.

(** *** A request ends *)
Definition phase_left (p : phase) : nat := match p with ReadIo => 5 | ReadLba => 4 | ClearIo => 3 | ClearLba => 2 | Next => 1 end.
Definition entry_steps (s : traffic) (e : Z) : nat := 3 + 5 * length (queues e s).
Definition entries_steps (s : traffic) (l : list Z) : nat := sum_list_with (entry_steps s) l.
Definition steps_left (s : traffic) : nat :=
  match rpc s with
  | Idle => 0
  | Enter e => entry_steps s e + entries_steps s (behind e (listed s))
  | First e => entry_steps s e - 1 + entries_steps s (behind e (listed s))
  | At e q p => phase_left p + 5 * length (behind q (queues e s)) + 1 + entries_steps s (behind e (listed s))
  | Leave e => 1 + entries_steps s (behind e (listed s))
  end.

Lemma behind_next x y l l' : NoDup l -> behind x l = y :: l' -> behind y l = l'.
Proof.
  intros Hn Eb. induction l as [|z xs IH]; [done|]. apply list.NoDup_cons in Hn as [Hx Hn]. cbn in Eb |- *.
  destruct (decide (z = x)).
  - subst xs. rewrite decide_False by (intros ->; apply Hx; left). cbn. by rewrite decide_True.
  - rewrite decide_False; [by apply IH|]. intros ->. apply Hx. apply (elem_behind y x). rewrite Eb. left.
Qed.

(** What the server walks through has no repetition. *)
Record walkable (s : traffic) : Prop := {
  wk_listed : NoDup (listed s); wk_queues : forall e, NoDup (queues e s); wk_live : at_live s
}.

Lemma steps_next_queue e l s : (l = queues e s \/ exists q, l = behind q (queues e s)) -> NoDup (queues e s) ->
  steps_left (next_queue e l s) = (5 * length l + 1 + entries_steps s (behind e (listed s)))%nat.
Proof.
  intros Hl Hn. unfold next_queue, steps_left. destruct l as [|q l]; cbn [set_rpc rpc phase_left]; [done|].
  assert (Hb : behind q (queues e s) = l).
  { destruct Hl as [Hl|[q' Hl]]; [rewrite <- Hl; cbn; by rewrite decide_True|by eapply behind_next]. }
  change (queues e (set_rpc _ s)) with (queues e s). rewrite Hb. cbn [length].
  change (entries_steps (set_rpc _ s)) with (entries_steps s). change (listed (set_rpc _ s)) with (listed s). lia.
Qed.

Lemma steps_next_entry l s : (l = listed s \/ exists e, l = behind e (listed s)) -> NoDup (listed s) ->
  steps_left (next_entry l s) = entries_steps s l.
Proof.
  intros Hl Hn. unfold next_entry, steps_left. destruct l as [|e l]; [done|]. cbn [set_rpc rpc].
  assert (Hb : behind e (listed s) = l).
  { destruct Hl as [Hl|[e' Hl]]; [rewrite <- Hl; cbn; by rewrite decide_True|by eapply behind_next]. }
  change (listed (set_rpc _ s)) with (listed s). by rewrite Hb.
Qed.

Lemma steps_left_rpc s s' : walkable s -> rpc_step s = Some s' -> steps_left s = S (steps_left s').
Proof.
  intros [Hn Hq [Hf He Hv Hl]] H. unfold rpc_step, in_entry, visited in *.
  destruct (rpc s) as [|e|e|e q p|e] eqn:E; [done|..]; injection H as <-; specialize (He e eq_refl);
    unfold steps_left at 1; rewrite E.
  - rewrite bool_decide_true by done. unfold steps_left. cbn [set_rpc rpc].
    change (entry_steps (set_rpc _ s)) with (entry_steps s). change (entries_steps (set_rpc _ s)) with (entries_steps s).
    change (listed (set_rpc _ s)) with (listed s). unfold entry_steps. lia.
  - rewrite bool_decide_true by by apply Hl. rewrite steps_next_queue by (auto; by left). unfold entry_steps. lia.
  - rewrite (Hv q eq_refl). destruct p; cbv zeta; try done.
    rewrite steps_next_queue by (auto; right; by eexists). cbn [phase_left]. lia.
  - rewrite bool_decide_true by done. rewrite steps_next_entry by (auto; right; by eexists). done.
Qed.

Lemma request_steps s s' : NoDup (listed s) -> request s = Some s' -> steps_left s' = entries_steps s (listed s).
Proof.
  unfold request. intros Hn. destruct (rpc s); try done. intros [= <-]. apply (steps_next_entry (listed s) (set_sums 0 0 s)); [by left|done].
Qed.

Definition is_rpc (a : action) : bool := match a with RpcStep => true | _ => false end.
Definition sends_or_rpc (a : action) : bool := match a with Send _ _ | SendStep _ | RpcStep => true | _ => false end.

Lemma sender_frame a s s' : sends_or_rpc a = true -> is_rpc a = false -> step a s = Some s' ->
  listed s' = listed s /\ live s' = live s /\ rpc s' = rpc s.
Proof.
  intros Ha Hr H. destruct a as [q n|q|? q|q|?|?|?| |]; try done; cbn in H.
  - unfold send in H. destruct (senders s !! q); [done|]. destruct (is_live q s); [|done]. by injection H as <-.
  - unfold send_step in H. destruct (senders s !! q) as [[[|[w n] l] [v|]]|]; try done; by injection H as <-.
Qed.

Lemma live_rpc s s' : rpc_step s = Some s' -> listed s' = listed s /\ live s' = live s.
Proof.
  unfold rpc_step. destruct (rpc s) as [|e|e|e q p|e]; [done|..]; intros [= <-].
  - by destruct (bool_decide _).
  - by destruct (bool_decide _).
  - destruct (is_live q s); [|done]. by destruct p.
  - destruct (bool_decide _); [|done]. by destruct (behind e (listed s)).
Qed.

Lemma walkable_same s s' : walkable s -> at_live s' -> listed s' = listed s -> live s' = live s -> walkable s'.
Proof. intros [H1 H2 _] Ha E1 E2. split; [by rewrite E1| |done]. intros e. unfold queues. rewrite E2. apply H2. Qed.

(** While controllers and queue pairs are neither made nor deleted, a request is
    answered after three accesses of the server for each controller and five for
    each queue pair at the latest. *)
Lemma request_ends l : forall s ss s', run l s = Some (ss, s') -> forallb sends_or_rpc l = true ->
  walkable s -> steps_left s = (length (List.filter is_rpc l) + steps_left s')%nat.
Proof.
  induction l as [|a l IH]; intros s ss s' H Hl Hw; cbn in H; [by injection H as _ <-|].
  cbn in Hl. apply andb_prop in Hl as [Ha Hl]. destruct (step a s) as [s1|] eqn:E; [cbn in H|done].
  destruct (run l s1) as [[ss1 s2]|] eqn:R; [cbn in H|done]. injection H as _ <-.
  assert (Hs1 : at_live s1) by (apply (at_live_step a s); [apply Hw|by destruct a|done]).
  destruct (is_rpc a) eqn:Er; cbn [List.filter]; rewrite Er.
  - destruct a; try done. cbn in E. rewrite (steps_left_rpc s s1 Hw E). cbn [length].
    destruct (live_rpc _ _ E) as [H1 H2]. rewrite (IH s1 ss1 s2 R Hl); [done|by apply (walkable_same s)].
  - destruct (sender_frame a s s1 Ha Er E) as (H1 & H2 & H3). rewrite <- (IH s1 ss1 s2 R Hl); [|by apply (walkable_same s)].
    unfold steps_left, entry_steps, entries_steps, entry_steps, queues. by rewrite H1, H2, H3.
Qed.

(** ** Schedules with and without a race *)
Definition cmd (q bytes : Z) : list action := Send q bytes :: replicate 5 (SendStep q).
(** A request with one controller and [n] queue pairs. *)
Definition poll (n : nat) : list action := Request :: replicate (3 + 5 * n) RpcStep.

Definition outcome (l : list action) : option (list (Z * Z) * Z * Z) :=
  r ← run l start; Some (responses r.2, value r.2 (1, Io), total (adds r.2) (at_cell (1, Io))).

(** A send around a poll: what was reported is counted again.  Ten commands
    with a poll in each are reported as 45. *)
Example double_count :
  outcome ([Attach 1; Create 1 1] ++ concat (replicate 10 ([Send 1 512; SendStep 1] ++ poll 1 ++ replicate 4 (SendStep 1))))
  = Some ((0, 0) :: ((fun k => (512, k)) <$> [1; 2; 3; 4; 5; 6; 7; 8; 9]), 10, 10).
Proof. vm_compute. reflexivity. Qed.

(** Commands sent between a read and its clear are never reported. *)
Example lost_count : outcome ([Attach 1; Create 1 1; Request] ++ replicate 4 RpcStep ++ concat (replicate 3 (cmd 1 512)) ++ replicate 4 RpcStep)
  = Some ([(0, 0)], 0, 3).
Proof. vm_compute. reflexivity. Qed.

Example reads_freed : exists ss s, run ([Attach 1; Create 1 1] ++ cmd 1 512 ++ [Request; RpcStep; RpcStep; Delete 1; RpcStep]) start = Some (ss, s) /\ fault s = true.
Proof. do 2 eexists. split; [vm_compute; reflexivity|done]. Qed.

(** The controller without queue pairs is closed while the server is at it. *)
Example reads_freed_controller : exists ss s,
  run [Attach 1; Request; RpcStep; RpcStep; Unlist 1; Detach 1; RpcStep] start = Some (ss, s) /\ fault s = true.
Proof. do 2 eexists. split; [vm_compute; reflexivity|done]. Qed.

Definition calm (l : list action) : bool :=
  match run l start with
  | Some (ss, s) => forallb (fun x => negb (overlap x)) ss && match rpc s with Idle => true | _ => false end
  | None => false
  end.

Lemma calm_run l : calm l = true -> exists ss s, run l start = Some (ss, s) /\ Forall (fun x => overlap x = false) ss /\ rpc s = Idle.
Proof.
  unfold calm. destruct (run l start) as [[ss s]|]; [|done]. intros [H1 H2]%andb_prop. exists ss, s. split; [done|]. split.
  - apply Forall_forall. intros x Hx. rewrite forallb_forall in H1. apply list_elem_of_In in Hx. specialize (H1 x Hx). by apply negb_true_iff in H1.
  - by destruct (rpc s).
Qed.

(** Two queue pairs, one of which sends while the server is at the other; then a
    second controller, which is closed again. *)
Definition two_queues : list action :=
  [Attach 1; Create 1 1; Create 1 2; Request; RpcStep; RpcStep; RpcStep] ++ cmd 2 512 ++ replicate 10 RpcStep
  ++ cmd 1 512 ++ [Delete 2; Attach 2; Create 2 3] ++ cmd 3 512 ++ Request :: replicate 16 RpcStep
  ++ [Delete 3; Unlist 2; Detach 2] ++ poll 1.

Example two_queues_answers : outcome two_queues = Some ([(512, 1); (1024, 2); (0, 0)], 0, 1).
Proof. vm_compute. reflexivity. Qed.

Lemma traffic_exact_witness : exists ss s, run two_queues start = Some (ss, s)
  /\ (forall c, wrap 64 (value s c + total (reads s) (at_cell c)) = wrap 64 (total (adds s) (at_cell c))).
Proof.
  assert (Hc : calm two_queues = true) by (vm_compute; reflexivity).
  destruct (calm_run two_queues Hc) as (ss & s & H1 & H2 & H3). exists ss, s. split; [exact H1|].
  exact (proj1 (traffic_exact two_queues ss s H1 H2 H3)).
Defined.

Lemma server_memory_safe_witness : exists ss s, run two_queues start = Some (ss, s) /\ polite two_queues start = true /\ fault s = false.
Proof.
  assert (Hc : calm two_queues = true) by (vm_compute; reflexivity).
  destruct (calm_run two_queues Hc) as (ss & s & H1 & _). exists ss, s. split; [exact H1|].
  assert (Hp : polite two_queues start = true) by (vm_compute; reflexivity).
  split; [exact Hp|]. exact (proj1 server_memory_safe two_queues ss s H1 Hp).
Defined.
