(* ===== verification/Psd.v ===== *)
(** * Psd: queues built by the test itself (src/scripts/psd.py)

    The PRP lists, submission and completion entries, and I/O queues a test
    creates in its own memory.  These Python objects are shared and mutated
    (a PRP list holds the buffers it points to, a queue holds the commands
    written into it), so they live in a heap: [heap] maps a location to a
    buffer object, [sqes] maps a location to an [SQE], which is a Python list.
    [buf_refs] is the list [SQE._buf_list], an attribute of the class that all
    commands share. *)
From Stdlib Require Import ZArith Lia.
From stdpp Require Import base list numbers gmap option.
From S2P Require Import Prelude PyInt Buffer Command.
Local Open Scope Z_scope.

(** ** The heap *)
Abbreviation loc := positive.

(** The classes [Buffer], [PRP] and [PRPList], with the list of the latter. *)
Inductive kind := KBuffer | KPRP | KPRPList (buf_list : list (option loc)).
Record obj := mk_obj { o_buf : buffer; o_kind : kind }.

Definition is_prp (k : kind) : bool := match k with KBuffer => false | _ => true end.
Definition is_prplist (k : kind) : bool := match k with KPRPList _ => true | _ => false end.

Record psd := mk_psd {
  heap : gmap loc obj;
  sqes : gmap loc (list Z);
  buf_refs : list loc
}.

Definition with_heap (f : gmap loc obj -> gmap loc obj) (s : psd) : psd :=
  mk_psd (f (heap s)) (sqes s) (buf_refs s).

(** Dereference; Python has no dangling reference. *)
Definition deref {A} (o : option A) : res A :=
  match o with Some a => Ok a | None => Err UnboundLocalError end.

(** Run a method of [Buffer] on the object at [l]. *)
Definition on_buffer {A} (l : loc) (m : M buffer A) : M psd A := fun s =>
  match heap s !! l with
  | None => (Err UnboundLocalError, s)
  | Some o => let '(r, b) := m (o_buf o) in
              (r, with_heap <[l := mk_obj b (o_kind o)]> s)
  end.

(** [l[i] = v] of a Python list: a negative index counts from the end. *)
Definition list_index {A} (l : list A) (i : Z) : res nat :=
  let n := Z.of_nat (length l) in
  if (0 <=? i) && (i <? n) then Ok (Z.to_nat i)
  else if (- n <=? i) && (i <? 0) then Ok (Z.to_nat (i + n))
  else Err IndexError.

Definition list_get {A} (l : list A) (i : Z) : res A :=
  k ← list_index l i; match l !! k with Some x => Ok x | None => Err IndexError end.
Definition list_set {A} (l : list A) (i : Z) (v : A) : res (list A) :=
  k ← list_index l i; Ok (<[k := v]> l).

(** ** class PRPList *)
Definition prp_per_list : Z := 4096 / 8.

(** The attributes [PRPList.__init__] sets, on the object [__cinit__] made. *)
Definition prplist_init (b : buffer) : obj :=
  mk_obj b (KPRPList (replicate (Z.to_nat prp_per_list) None)).

Definition load (l : loc) : M psd obj := s ← get; lift (deref (heap s !! l)).
Definition buf_list_of (o : obj) : res (list (option loc)) :=
  match o_kind o with KPRPList bl => Ok bl | _ => Err AttributeError end.

(** [for i, b in enumerate(addr.to_bytes(8, 'little')): super().__setitem__(index*8 + i, b)] *)
Definition prp_store (self : loc) (index addr : Z) : M psd unit :=
  bytes ← lift (to_bytes 8 addr);
  foreach (fun '(i, b) => on_buffer self (setitem (IInt (index * 8 + i)) (AInt b)))
    (enumerate bytes).

Definition prplist_setitem (self : loc) (index : Z) (buf : loc) : M psd unit :=
  b ← load buf;
  let addr := phys_addr (o_buf b) in
  py_assert (index <? prp_per_list) ;;
  o ← load self;
  bl ← lift (buf_list_of o);
  bl ← lift (list_set bl index (Some buf));
  modify (with_heap <[self := mk_obj (o_buf o) (KPRPList bl)]>) ;;
  prp_store self index addr.

Definition prplist_getitem (self : loc) (index : Z) : M psd (option loc) :=
  py_assert (index <? prp_per_list) ;;
  o ← load self;
  bl ← lift (buf_list_of o);
  lift (list_get bl index).

(** The loop of [find_buffer_by_offset] over the rest of the list; [rec] is
    the recursive call.  The result [None] is Python's implicit one. *)
Fixpoint find_loop (rec : loc -> Z -> Z -> res (option (loc * Z))) (h : gmap loc obj)
    (last : option loc) (offset start : Z) (l : list (option loc)) : res (option (loc * Z)) :=
  match l with
  | [] => Ok None
  | None :: _ => Err AssertionError
  | Some p :: l' =>
      o ← deref (h !! p);
      if is_prplist (o_kind o) then
        check (bool_decide (last = Some p)) AssertionError ;;
        rec p offset start
      else
        let orig_start := start in
        let start := start + (buffer_len (o_buf o) - b_offset (o_buf o)) in
        if offset <? start then Ok (Some (p, b_offset (o_buf o) + offset - orig_start))
        else find_loop rec h last offset start l'
  end.

(** The recursion follows the references between lists, so it needs fuel: on a
    cycle Python raises [RecursionError]. *)
Fixpoint find_buffer_by_offset (fuel : nat) (h : gmap loc obj) (self : loc) (offset start : Z)
    : res (option (loc * Z)) :=
  match fuel with
  | O => Err RecursionError
  | S fuel' =>
      o ← deref (h !! self);
      bl ← buf_list_of o;
      let first_index := b_offset (o_buf o) / 8 in
      last ← list_get bl (prp_per_list - 1);
      find_loop (find_buffer_by_offset fuel' h) h last offset start
        (drop (Z.to_nat first_index) bl)
  end.

(** ** class SQE *)
Definition sqe_init (arg : list Z) : res (list Z) :=
  check (Z.of_nat (length arg) <=? 16) AssertionError ;;
  Ok (list_inserts 0 arg (replicate 16 0)).

Definition sqe_opc (e : list Z) : res Z := d ← list_get e 0; Ok (Z.land d 0xff).
Definition sqe_set_opc (opc : Z) (e : list Z) : res (list Z) :=
  d ← list_get e 0; list_set e 0 (Z.lor (Z.land d 0xffffff00) opc).
Definition sqe_cid (e : list Z) : res Z := d ← list_get e 0; Ok (Z.shiftr d 16).
Definition sqe_set_cid (cid : Z) (e : list Z) : res (list Z) :=
  d ← list_get e 0; list_set e 0 (Z.lor (Z.land d 0xffff) (Z.shiftl cid 16)).
Definition sqe_nsid (e : list Z) : res Z := list_get e 1.
Definition sqe_set_nsid (nsid : Z) (e : list Z) : res (list Z) := list_set e 1 nsid.

(** [(self[i+1] << 32) | self[i]] and its setter: [prp1] is at 6, [prp2] at 8. *)
Definition sqe_prp (i : Z) (e : list Z) : res Z :=
  hi ← list_get e (i + 1); lo ← list_get e i; Ok (Z.lor (Z.shiftl hi 32) lo).
Definition sqe_prp1 := sqe_prp 6.
Definition sqe_prp2 := sqe_prp 8.

Definition load_sqe (l : loc) : M psd (list Z) := s ← get; lift (deref (sqes s !! l)).
Definition store_sqe (l : loc) (e : list Z) : M psd unit :=
  modify (fun s => mk_psd (heap s) (<[l := e]> (sqes s)) (buf_refs s)).

(** The buffer is kept alive by a list that all commands share. *)
Definition sqe_set_prp (i : Z) (self buf : loc) : M psd unit :=
  b ← load buf;
  let prp := phys_addr (o_buf b) in
  e ← load_sqe self;
  e ← lift (list_set e i (Z.land prp 0xffffffff));
  e ← lift (list_set e (i + 1) (Z.land (Z.shiftr prp 32) 0xffffffff));
  store_sqe self e ;;
  modify (fun s => mk_psd (heap s) (sqes s) (buf_refs s ++ [buf])).
Definition sqe_set_prp1 := sqe_set_prp 6.
Definition sqe_set_prp2 := sqe_set_prp 8.

(** ** class CQE *)
Definition cqe_init (arg : list Z) : res (list Z) :=
  check (Z.of_nat (length arg) =? 4) AssertionError ;; Ok arg.
Definition cqe_cdw0 (e : list Z) : res Z := list_get e 0.
Definition cqe_sqhd (e : list Z) : res Z := d ← list_get e 2; Ok (Z.land d 0xffff).
Definition cqe_sqid (e : list Z) : res Z := d ← list_get e 2; Ok (Z.land (Z.shiftr d 16) 0xffff).
Definition cqe_cid (e : list Z) : res Z := d ← list_get e 3; Ok (Z.land d 0xffff).
Definition cqe_p (e : list Z) : res Z := d ← list_get e 3; Ok (Z.land (Z.shiftr d 16) 0x1).
Definition cqe_status (e : list Z) : res Z := d ← list_get e 3; Ok (Z.land (Z.shiftr d 17) 0x8fff).
Definition cqe_sc (e : list Z) : res Z := d ← list_get e 3; Ok (Z.land (Z.shiftr d 17) 0xff).
Definition cqe_sct (e : list Z) : res Z := d ← list_get e 3; Ok (Z.land (Z.shiftr d 25) 0x7).
Definition cqe_crd (e : list Z) : res Z := d ← list_get e 3; Ok (Z.land (Z.shiftr d 28) 0x3).
Definition cqe_m (e : list Z) : res Z := d ← list_get e 3; Ok (Z.land (Z.shiftr d 30) 0x1).
Definition cqe_dnr (e : list Z) : res Z := d ← list_get e 3; Ok (Z.land (Z.shiftr d 31) 0x1).

(** ** class IOSQ and class IOCQ *)
Record iosq := mk_iosq {
  sq_id : Z;
  sq_queue : option loc;
  sq_list : option (list (option loc))
}.
Record iocq := mk_iocq { cq_id : Z; cq_queue : option loc; cq_qsize : Z }.

(** The class attributes of an object whose creation command failed. *)
Definition iosq_default : iosq := mk_iosq 0 None None.
Definition iocq_default : iocq := mk_iocq 0 None 0.

Section Queues.
(** SPDK's return code, and the [status1] word of a command's completion. *)
Variable submit : spdk_cmd -> Z.
Variable status1 : spdk_cmd -> Z.

(** [ctrlr.send_cmd(...).waitdone()] with a callback that keeps [status1>>1]. *)
Definition admin_status (c : spdk_cmd) : Z := Z.shiftr (status1 c) 1.

(** The buffer argument of a command: the object, or [None]. *)
Definition buffer_arg (prp1 : option loc) : M psd (option buffer) :=
  match prp1 with None => mret None | Some l => o ← load l; mret (Some (o_buf o)) end.

Definition iosq_init (qid qsize : Z) (prp1 : option loc) (pc : bool) (cqid : option Z)
    (qprio nvmsetid : Z) : M psd iosq :=
  let cqid := default qid cqid in
  py_assert ((qid <? 64 * 1024) && (0 <=? qid)) ;;
  py_assert ((cqid <? 64 * 1024) && (0 <=? cqid)) ;;
  py_assert ((qsize <=? 64 * 1024) && (0 <? qsize)) ;;
  py_assert ((qprio <? 4) && (0 <=? qprio)) ;;
  buf ← buffer_arg prp1;
  c ← lift (send_cmd submit 0x01 buf 0
              (Z.lor qid (Z.shiftl (qsize - 1) 16))
              (Z.lor (Z.lor (Z.b2z pc) (Z.shiftl qprio 1)) (Z.shiftl cqid 16))
              nvmsetid 0 0 0);
  mret (if admin_status c =? 0
        then mk_iosq qid prp1 (Some (replicate (Z.to_nat qsize) None))
        else iosq_default).

Definition iocq_init (qid qsize : Z) (prp1 : option loc) (pc : bool) (iv : Z) (ien : bool)
    : M psd iocq :=
  py_assert ((qid <? 64 * 1024) && (0 <=? qid)) ;;
  py_assert ((qsize <=? 64 * 1024) && (0 <? qsize)) ;;
  buf ← buffer_arg prp1;
  c ← lift (send_cmd submit 0x05 buf 0
              (Z.lor qid (Z.shiftl (qsize - 1) 16))
              (Z.lor (Z.lor (Z.b2z pc) (Z.shiftl (Z.b2z ien) 1)) (Z.shiftl iv 16))
              0 0 0 0);
  mret (if admin_status c =? 0 then mk_iocq qid prp1 qsize else iocq_default).

(** [delete(qid)]: no command for queue 0. *)
Definition queue_delete (opcode id : Z) (qid : option Z) : res (option spdk_cmd) :=
  let qid := default id qid in
  if negb (qid =? 0) then
    c ← send_cmd submit opcode None 0 qid 0 0 0 0 0; Ok (Some c)
  else Ok None.
Definition iosq_delete (q : iosq) := queue_delete 0x00 (sq_id q).
Definition iocq_delete (q : iocq) := queue_delete 0x04 (cq_id q).
End Queues.

(** ** Doorbells *)
Section Doorbells.
Context {C : Type} `{Mmio C}.

Definition tail_doorbell (id : Z) : Z := 0x1000 + 2 * id * 4.
Definition head_doorbell (id : Z) : Z := 0x1000 + (2 * id + 1) * 4.

Definition iosq_tail (q : iosq) : M C Z := mmio_get (tail_doorbell (sq_id q)).
Definition iosq_set_tail (q : iosq) (tail : Z) : M C unit := mmio_set (tail_doorbell (sq_id q)) tail.
Definition iocq_head (q : iocq) : M C Z := mmio_get (head_doorbell (cq_id q)).
Definition iocq_set_head (q : iocq) (head : Z) : M C unit := mmio_set (head_doorbell (cq_id q)) head.

(** Every queue has a doorbell of its own, at an address the controller
    accepts. *)
Lemma doorbells_disjoint i j :
  tail_doorbell i mod 4 = 0 /\ head_doorbell i mod 4 = 0
  /\ tail_doorbell i <> head_doorbell j
  /\ (i <> j -> tail_doorbell i <> tail_doorbell j /\ head_doorbell i <> head_doorbell j).
Proof. unfold tail_doorbell, head_doorbell. split_and!; try divmod; lia. Qed.
End Doorbells.

(** [len(self.sqe_list)] *)
Definition sq_len (q : iosq) : res (list (option loc)) :=
  match sq_list q with Some l => Ok l | None => Err TypeError end.

Definition iosq_getitem (q : iosq) (index : Z) : res (option loc) :=
  l ← sq_len q;
  check (index <? Z.of_nat (length l)) AssertionError ;;
  list_get l index.

(** Where in the queue memory an entry goes: [offset/64] of Python is a float,
    so with a PRP list every subscript computed from it is one. *)
Inductive entry_index := EInt (i : Z) | EFloat.

Definition subscript (size : Z) (index : entry_index) (k : Z) : pyindex :=
  match index with EInt i => IInt (i * size + k) | EFloat => IOther end.

Section Access.
(** Python's recursion limit. *)
Variable fuel : nat.

Definition locate (queue : option loc) (offset index : Z) : M psd (loc * entry_index) :=
  match queue with
  | None => raise AssertionError
  | Some q =>
      o ← load q;
      if is_prplist (o_kind o) then
        s ← get;
        r ← lift (find_buffer_by_offset fuel (heap s) q offset 0);
        match r with
        | None => raise TypeError                      (* unpacking None *)
        | Some (buf, _) => mret (buf, EFloat)
        end
      else mret (q, EInt index)
  end.

(** The two nested loops that write the 16 dwords. *)
Definition write_dword (buf : loc) (index : entry_index) (i dword : Z) : M psd unit :=
  bytes ← lift (to_bytes 4 dword);
  foreach (fun '(j, b) => on_buffer buf (setitem (subscript 64 index (i * 4 + j)) (AInt b)))
    (enumerate bytes).

(** The queue object is part of the state: its list is updated before the
    memory is located. *)
Definition on_psd {A} (m : M psd A) : M (psd * iosq) A := fun '(s, q) =>
  let '(r, s') := m s in (r, (s', q)).

Definition iosq_setitem (index : Z) (cmd : loc) : M (psd * iosq) unit :=
  e ← on_psd (load_sqe cmd);
  q ← gets snd;
  py_assert (Z.of_nat (length e) =? 16) ;;
  l ← lift (sq_len q);
  py_assert (index <? Z.of_nat (length l)) ;;
  l ← lift (list_set l index (Some cmd));
  modify (fun '(s, q) => (s, mk_iosq (sq_id q) (sq_queue q) (Some l))) ;;
  on_psd (at_ ← locate (sq_queue q) (index * 64) index;
          o ← load (fst at_);
          py_assert (is_prp (o_kind o)) ;;
          foreach (fun '(i, dword) => write_dword (fst at_) (snd at_) i dword) (enumerate e)).

Definition read_dword (buf : loc) (index : entry_index) (i : Z) : M psd Z :=
  match index with
  | EInt n => on_buffer buf (data_int (n * 16 + i * 4 + 3) (Some (n * 16 + i * 4)))
  | EFloat => raise TypeError                          (* a slice of floats *)
  end.

Definition iocq_getitem (q : iocq) (index : Z) : M psd (list Z) :=
  py_assert (index <? cq_qsize q) ;;
  at_ ← locate (cq_queue q) (index * 16) index;
  o ← load (fst at_);
  py_assert (is_prp (o_kind o)) ;;
  cpl ← mapM (read_dword (fst at_) (snd at_)) [0; 1; 2; 3];
  lift (cqe_init cpl).
End Access.

(** ** The memory a PRP list describes *)

(** A run of bytes: the buffer, the first byte in it, the number of bytes. *)
Definition segment : Type := loc * Z * Z.
Inductive ending := AllUsed | Hole.

Definition segment_of (p : loc) (o : obj) : segment :=
  (p, b_offset (o_buf o), buffer_len (o_buf o) - b_offset (o_buf o)).

(** The specification: [entries h last l segs fin] says that the list entries
    [l] describe the bytes of [segs] in order, following the last entry of a
    list to the next one, up to its end or the first unused entry. *)
Inductive entries (h : gmap loc obj) :
    option loc -> list (option loc) -> list segment -> ending -> Prop :=
  | entries_end last : entries h last [] [] AllUsed
  | entries_hole last l : entries h last (None :: l) [] Hole
  | entries_buf last p o l segs fin :
      h !! p = Some o -> is_prplist (o_kind o) = false ->
      b_offset (o_buf o) <= buffer_len (o_buf o) ->
      entries h last l segs fin -> entries h last (Some p :: l) (segment_of p o :: segs) fin
  | entries_list last p l segs fin :
      last = Some p -> describes h p segs fin -> entries h last (Some p :: l) segs fin
with describes (h : gmap loc obj) : loc -> list segment -> ending -> Prop :=
  | describes_list p o bl last segs fin :
      h !! p = Some o -> o_kind o = KPRPList bl -> list_get bl (prp_per_list - 1) = Ok last ->
      entries h last (drop (Z.to_nat (b_offset (o_buf o) / 8)) bl) segs fin ->
      describes h p segs fin.

Scheme entries_mind := Minimality for entries Sort Prop
  with describes_mind := Minimality for describes Sort Prop.
Combined Scheme entries_describes_ind from entries_mind, describes_mind.

(** The bytes of the segments, each as its buffer and its place in it. *)
Definition flatten (segs : list segment) : list (loc * Z) :=
  segs ≫= fun '(p, o, n) => (fun i => (p, o + Z.of_nat i)) <$> seq 0 (Z.to_nat n).

Definition found (segs : list segment) (fin : ending) (k : nat) : res (option (loc * Z)) :=
  match flatten segs !! k with
  | Some x => Ok (Some x)
  | None => match fin with AllUsed => Ok None | Hole => Err AssertionError end
  end.

Lemma found_cons_hit p o n segs fin k :
  (k < Z.to_nat n)%nat -> found ((p, o, n) :: segs) fin k = Ok (Some (p, o + Z.of_nat k)).
Proof.
  intros Hk. unfold found, flatten. cbn [mbind list_bind].
  rewrite lookup_app_l by (rewrite length_fmap, length_seq; lia).
  rewrite list_lookup_fmap, lookup_seq_lt by lia. done.
Qed.

Lemma found_cons_skip p o n segs fin k :
  (Z.to_nat n <= k)%nat -> found ((p, o, n) :: segs) fin k = found segs fin (k - Z.to_nat n).
Proof.
  intros Hk. unfold found, flatten. cbn [mbind list_bind].
  rewrite lookup_app_r by (rewrite length_fmap, length_seq; lia).
  by rewrite length_fmap, length_seq.
Qed.

Lemma find_loop_describes h :
  (forall last l segs fin, entries h last l segs fin ->
     exists n, forall fuel offset start, (n <= fuel)%nat -> start <= offset ->
       find_loop (find_buffer_by_offset fuel h) h last offset start l
       = found segs fin (Z.to_nat (offset - start)))
  /\ (forall p segs fin, describes h p segs fin ->
     exists n, forall fuel offset start, (n <= fuel)%nat -> start <= offset ->
       find_buffer_by_offset fuel h p offset start = found segs fin (Z.to_nat (offset - start))).
Proof.
  apply entries_describes_ind.
  - intros last. exists O. done.
  - intros last l. exists O. done.
  - intros last p o l segs fin Hp Hk Hlen _ [n IH]. exists n. intros fuel offset start Hn Hs.
    cbn [find_loop]. rewrite Hp. mrun. cbn [deref]. rewrite Hk.
    unfold segment_of. set (len := buffer_len (o_buf o) - b_offset (o_buf o)).
    destruct (Z.ltb_spec offset (start + len)).
    + rewrite found_cons_hit by lia. do 3 f_equal. lia.
    + rewrite found_cons_skip by lia. rewrite IH by lia. f_equal. lia.
  - intros last p l segs fin -> Hd [n IH]. exists n. intros fuel offset start Hn Hs.
    cbn [find_loop]. destruct Hd as [p o bl last segs fin Hp Hk _ _].
    rewrite Hp. mrun. cbn [deref]. rewrite Hk. cbn [is_prplist].
    rewrite bool_decide_true by done. by apply IH.
  - intros p o bl last segs fin Hp Hk Hl _ [n IH]. exists (S n).
    intros [|fuel] offset start Hn Hs; [lia|].
    cbn [find_buffer_by_offset]. rewrite Hp. mrun. cbn [deref].
    unfold buf_list_of. rewrite Hk, Hl. apply IH; lia.
Qed.

(** C34. A PRP list is read as the bytes it describes: for a list whose entries
    and chained lists are well-formed and without a cycle, with enough stack
    [find_buffer_by_offset] gives exactly the buffer and position of the byte
    number [offset] of the concatenated buffers (each from its own offset on);
    past the described bytes it returns None when the list is full, and raises
    [AssertionError] at the first unused entry. *)
Theorem find_buffer_by_offset_refines h p segs fin :
  describes h p segs fin ->
  exists n, forall fuel offset, (n <= fuel)%nat -> 0 <= offset ->
    find_buffer_by_offset fuel h p offset 0 = found segs fin (Z.to_nat offset).
Proof.
  intros Hd. destruct (proj2 (find_loop_describes h) _ _ _ Hd) as [n H].
  exists n. intros fuel offset Hf Ho. rewrite H by lia. f_equal. lia.
Qed.

(** A list that is its own last entry: every fuel runs out. *)
Lemma find_buffer_cycle h p o bl offset start fuel :
  h !! p = Some o -> o_kind o = KPRPList bl ->
  list_get bl (prp_per_list - 1) = Ok (Some p) ->
  drop (Z.to_nat (b_offset (o_buf o) / 8)) bl = [Some p] ->
  find_buffer_by_offset fuel h p offset start = Err RecursionError.
Proof.
  intros Hp Hk Hl Hd. induction fuel as [|fuel IH]; [done|].
  cbn [find_buffer_by_offset]. rewrite Hp. mrun. cbn [deref]. unfold buf_list_of.
  rewrite Hk, Hl, Hd. cbn [find_loop]. rewrite Hp. mrun. cbn [deref]. rewrite Hk.
  cbn [is_prplist]. by rewrite bool_decide_true.
Qed.

(** ** Writing into a buffer of the heap *)
Definition write_bytes (l : loc) (pos : Z) (bytes : list Z) (o : obj) (s : psd) : psd :=
  with_heap <[l := mk_obj (with_ptr (list_inserts (Z.to_nat pos) bytes (b_ptr (o_buf o))) (o_buf o))
                         (o_kind o)]> s.

Lemma on_buffer_run {A} (m : M buffer A) l s o :
  heap s !! l = Some o ->
  on_buffer l m s =
    (fst (m (o_buf o)), with_heap <[l := mk_obj (snd (m (o_buf o))) (o_kind o)]> s).
Proof. intros H. unfold on_buffer. rewrite H. by destruct (m (o_buf o)). Qed.

Lemma with_heap_lookup l o s : heap (with_heap <[l := o]> s) !! l = Some o.
Proof. apply lookup_insert_eq. Qed.

Lemma with_heap_twice l o o' s :
  with_heap <[l := o]> (with_heap <[l := o']> s) = with_heap <[l := o]> s.
Proof. unfold with_heap. simpl. by rewrite insert_insert_eq. Qed.

Lemma with_heap_id l o s : heap s !! l = Some o -> with_heap <[l := o]> s = s.
Proof. intros H. unfold with_heap. rewrite insert_id by done. by destruct s. Qed.

(** A loop of byte stores is a loop of [Buffer.__setitem__] on the object. *)
Lemma foreach_on_buffer (f : Z -> Z -> M buffer unit) l k bytes s o :
  heap s !! l = Some o ->
  foreach (fun '(j, b) => on_buffer l (f j b)) (enumerate_from k bytes) s =
    (fst (foreach (fun '(j, b) => f j b) (enumerate_from k bytes) (o_buf o)),
     with_heap <[l := mk_obj (snd (foreach (fun '(j, b) => f j b) (enumerate_from k bytes) (o_buf o)))
                             (o_kind o)]> s).
Proof.
  revert k s o. induction bytes as [|b bytes IH]; intros k s o Ho.
  - cbn [enumerate_from foreach mret M_ret fst snd].
    rewrite with_heap_id; [done|]. rewrite Ho. by destruct o.
  - cbn [enumerate_from foreach]. unfold mbind, M_bind.
    rewrite (on_buffer_run _ _ _ _ Ho). destruct (f k b (o_buf o)) as [[[]|e] b'] eqn:E.
    + cbn [fst snd]. rewrite (IH _ _ (mk_obj b' (o_kind o))) by apply with_heap_lookup.
      cbn [o_buf o_kind]. by rewrite with_heap_twice.
    + done.
Qed.

Lemma store_on_buffer l s o pos bytes :
  heap s !! l = Some o -> buffer_wf (o_buf o) -> 0 <= pos ->
  pos + Z.of_nat (length bytes) <= b_size (o_buf o) -> Forall is_byte bytes ->
  foreach (fun '(j, b) => on_buffer l (setitem (IInt (pos + j)) (AInt b))) (enumerate bytes) s
  = (Ok tt, write_bytes l pos bytes o s).
Proof.
  intros Ho Hwf Hp Hfit Hb.
  rewrite (foreach_on_buffer (fun j b => setitem (IInt (pos + j)) (AInt b)) l 0 bytes s o Ho).
  assert (Hrun : foreach (fun '(j, b) => setitem (IInt (pos + j)) (AInt b)) (enumerate bytes)
    (o_buf o) = (Ok tt, with_ptr (list_inserts (Z.to_nat pos) bytes (b_ptr (o_buf o))) (o_buf o))).
  { assert (Hs : store_result (b_size (o_buf o)) pos bytes = Ok tt).
    { unfold store_result. destruct bytes; [done|]. by zbool. }
    rewrite <- Hs, <- store_run by done.
    etrans; [|apply (foreach_enumerate_shift (fun i d => setitem_int i d) pos 0 bytes)].
    clear. generalize 0 as k, (o_buf o) as b. induction bytes as [|v bytes IH]; intros k b; [done|].
    cbn [enumerate_from foreach setitem]. unfold mbind, M_bind.
    rewrite (Z.add_comm pos k). destruct (setitem_int (k + pos) v b) as [[?|?] ?]; [|done].
    apply IH. }
  by rewrite Hrun.
Qed.

Lemma list_inserts_app (l k1 k2 : list Z) i :
  list_inserts i (k1 ++ k2) l = list_inserts (i + length k1) k2 (list_inserts i k1 l).
Proof.
  revert i. induction k1 as [|x k1 IH]; intros i; [by rewrite Nat.add_0_r|].
  cbn [app list_inserts length]. rewrite IH.
  replace (i + S (length k1))%nat with (S i + length k1)%nat by lia.
  symmetry. generalize (list_inserts (S i) k1 l). intros m.
  symmetry. apply list_insert_inserts_lt. lia.
Qed.

Lemma write_bytes_app l pos b1 b2 o s :
  0 <= pos ->
  write_bytes l (pos + Z.of_nat (length b1)) b2
    (mk_obj (with_ptr (list_inserts (Z.to_nat pos) b1 (b_ptr (o_buf o))) (o_buf o)) (o_kind o))
    (write_bytes l pos b1 o s)
  = write_bytes l pos (b1 ++ b2) o s.
Proof.
  intros Hp. unfold write_bytes. rewrite with_heap_twice. cbn [o_buf o_kind with_ptr b_ptr].
  rewrite list_inserts_app.
  by replace (Z.to_nat (pos + Z.of_nat (length b1))) with (Z.to_nat pos + length b1)%nat by lia.
Qed.

(** The 64 bytes of a command, as the code lays them out. *)
Definition encode (e : list Z) : list Z := e ≫= le_bytes 4.

Lemma length_encode e : length (encode e) = (4 * length e)%nat.
Proof.
  induction e as [|d e IH]; [done|]. cbn [encode mbind list_bind length].
  change (e ≫= le_bytes 4) with (encode e). rewrite length_app, length_le_bytes, IH. lia.
Qed.

Lemma encode_are_bytes e : Forall is_byte (encode e).
Proof.
  induction e as [|d e IH]; [constructor|]. apply Forall_app. split; [|done].
  apply le_bytes_are_bytes.
Qed.

Lemma write_dwords_run buf n e : forall i s o,
  heap s !! buf = Some o -> buffer_wf (o_buf o) -> 0 <= n * 64 + i * 4 ->
  n * 64 + i * 4 + 4 * Z.of_nat (length e) <= b_size (o_buf o) ->
  Forall (fun d => 0 <= d < 2 ^ 32) e ->
  foreach (fun '(i, d) => write_dword buf (EInt n) i d) (enumerate_from i e) s =
  (Ok tt, write_bytes buf (n * 64 + i * 4) (encode e) o s).
Proof.
  induction e as [|d e IH]; intros i s o Ho Hwf Hi Hfit He.
  { cbn [enumerate_from foreach encode mbind list_bind]. unfold write_bytes.
    cbn [list_inserts]. rewrite with_heap_id; [done|]. rewrite Ho. by destruct o as [[] ?]. }
  apply Forall_cons_1 in He as [Hd He]. cbn [length] in Hfit.
  set (o' := mk_obj (with_ptr (list_inserts (Z.to_nat (n * 64 + i * 4)) (le_bytes 4 d)
    (b_ptr (o_buf o))) (o_buf o)) (o_kind o)).
  assert (Hw : write_dword buf (EInt n) i d s =
    (Ok tt, write_bytes buf (n * 64 + i * 4) (le_bytes 4 d) o s)).
  { unfold write_dword. rewrite to_bytes_ok by (eval_pow; eval_pow; lia).
    unfold lift. etrans; [apply run_bind_ok; reflexivity|]. cbn [subscript].
    rewrite <- store_on_buffer; try done; [|rewrite length_le_bytes; lia|apply le_bytes_are_bytes].
    apply foreach_ext. intros [j b]. by rewrite Z.add_assoc. }
  cbn [enumerate_from foreach]. rewrite (run_bind_ok _ _ _ _ _ Hw).
  rewrite (IH (i + 1) _ o'); try done.
  - f_equal. unfold o'. change (encode (d :: e)) with (le_bytes 4 d ++ encode e).
    rewrite <- write_bytes_app by lia. rewrite length_le_bytes.
    f_equal. lia.
  - apply with_heap_lookup.
  - apply with_ptr_wf_inserts; [done|apply le_bytes_are_bytes].
  - lia.
  - cbn. lia.
Qed.

Lemma sub_list_sub_list {A} (l : list A) a n i m :
  0 <= a -> 0 <= i -> i + m <= n -> sub_list i m (sub_list a n l) = sub_list (a + i) m l.
Proof.
  intros Ha Hi Hm. unfold sub_list. apply list_eq. intros j.
  destruct (decide (j < Z.to_nat m)%nat).
  - rewrite !lookup_take_lt, !lookup_drop, lookup_take_lt, lookup_drop by lia. f_equal. lia.
  - by rewrite !lookup_take_ge by lia.
Qed.

Lemma sub_list_encode e k d :
  e !! k = Some d -> sub_list (4 * Z.of_nat k) 4 (encode e) = le_bytes 4 d.
Proof.
  revert k. induction e as [|d' e IH]; intros [|k] Hk; [done..| |].
  - injection Hk as ->. unfold sub_list. change (encode (d :: e)) with (le_bytes 4 d ++ encode e).
    rewrite drop_0. by rewrite take_app_length' by (rewrite length_le_bytes; lia).
  - cbn in Hk. rewrite <- (IH _ Hk). unfold sub_list.
    change (encode (d' :: e)) with (le_bytes 4 d' ++ encode e).
    rewrite drop_app_ge by (rewrite length_le_bytes; lia). rewrite length_le_bytes. do 2 f_equal. lia.
Qed.

Lemma dword_of_encode e k d :
  e !! k = Some d -> 0 <= d < 2 ^ 32 ->
  from_le (sub_list (4 * Z.of_nat k) 4 (encode e)) = d.
Proof. intros Hk Hd. rewrite (sub_list_encode _ _ _ Hk). by apply from_le_le_bytes_small. Qed.

Lemma list_index_ok {A} (l : list A) i :
  0 <= i < Z.of_nat (length l) -> list_index l i = Ok (Z.to_nat i).
Proof. intros H. unfold list_index. by zbool. Qed.

Lemma list_get_ok {A} (l : list A) i x :
  0 <= i -> l !! Z.to_nat i = Some x -> list_get l i = Ok x.
Proof.
  intros Hi Hx. unfold list_get. pose proof (lookup_lt_Some _ _ _ Hx).
  rewrite list_index_ok by lia. mrun. by rewrite Hx.
Qed.

Lemma list_set_ok {A} (l : list A) i x :
  0 <= i < Z.of_nat (length l) -> list_set l i x = Ok (<[Z.to_nat i := x]> l).
Proof. intros H. unfold list_set. by rewrite list_index_ok. Qed.

Lemma iosq_setitem_run fuel s q index cmd e l buf o :
  sqes s !! cmd = Some e -> length e = 16%nat -> Forall (fun d => 0 <= d < 2 ^ 32) e ->
  sq_list q = Some l -> sq_queue q = Some buf -> heap s !! buf = Some o ->
  o_kind o = KPRP -> buffer_wf (o_buf o) ->
  0 <= index < Z.of_nat (length l) -> (index + 1) * 64 <= b_size (o_buf o) ->
  iosq_setitem fuel index cmd (s, q) =
    (Ok tt, (write_bytes buf (index * 64) (encode e) o s,
             mk_iosq (sq_id q) (sq_queue q) (Some (<[Z.to_nat index := Some cmd]> l)))).
Proof.
  intros Hc Hlen He Hl Hq Ho Hk Hwf Hi Hfit.
  assert (Hloc : locate fuel (Some buf) (index * 64) index s = (Ok (buf, EInt index), s)).
  { unfold locate, load. mrun. by rewrite Ho; cbn [deref]; rewrite Hk. }
  unfold iosq_setitem.
  erewrite run_bind_ok; [|unfold on_psd, load_sqe; mrun; rewrite Hc; reflexivity].
  erewrite run_bind_ok by reflexivity.
  erewrite run_bind_ok; [|rewrite Hlen; reflexivity].
  erewrite run_bind_ok; [|unfold sq_len; cbn [snd]; rewrite Hl; reflexivity].
  erewrite run_bind_ok; [|unfold py_assert; zbool; reflexivity].
  erewrite run_bind_ok; [|unfold lift; rewrite list_set_ok by done; reflexivity].
  erewrite run_bind_ok by reflexivity.
  unfold on_psd. cbn [snd]. rewrite Hq.
  rewrite (run_bind_ok _ _ _ _ _ Hloc). cbn [fst snd].
  erewrite run_bind_ok; [|unfold load; mrun; rewrite Ho; reflexivity].
  erewrite run_bind_ok; [|rewrite Hk; reflexivity].
  rewrite (write_dwords_run buf index e 0 s o); try done;
    [by rewrite Z.mul_0_l, Z.add_0_r|lia|rewrite Hlen; lia].
Qed.

(** Writing a command into a contiguous submission queue: for 16 dwords of
    32 bits and an entry inside the queue and its buffer, the call succeeds,
    each dword is in memory at its place in little-endian order, the queue
    remembers the command object at that index, every other 64-byte slot of
    the buffer and every other object is unchanged. *)
Theorem iosq_setitem_contiguous fuel s q index cmd e l buf o :
  sqes s !! cmd = Some e -> length e = 16%nat -> Forall (fun d => 0 <= d < 2 ^ 32) e ->
  sq_list q = Some l -> sq_queue q = Some buf -> heap s !! buf = Some o ->
  o_kind o = KPRP -> buffer_wf (o_buf o) ->
  0 <= index < Z.of_nat (length l) -> (index + 1) * 64 <= b_size (o_buf o) ->
  exists s' q' o', iosq_setitem fuel index cmd (s, q) = (Ok tt, (s', q'))
    /\ iosq_getitem q' index = Ok (Some cmd)
    /\ heap s' !! buf = Some o' /\ sqes s' = sqes s
    /\ (forall k d, e !! k = Some d ->
          from_le (sub_list (index * 64 + 4 * Z.of_nat k) 4 (b_ptr (o_buf o'))) = d)
    /\ (forall i, 0 <= i -> i <> index ->
          sub_list (i * 64) 64 (b_ptr (o_buf o')) = sub_list (i * 64) 64 (b_ptr (o_buf o)))
    /\ (forall p, p <> buf -> heap s' !! p = heap s !! p).
Proof.
  intros Hc Hlen He Hl Hq Ho Hk Hwf Hi Hfit.
  assert (Henc : Z.of_nat (length (encode e)) = 64) by (rewrite length_encode; lia).
  pose proof (wf_len _ Hwf) as Hsz.
  do 3 eexists. split; [by eapply iosq_setitem_run|]. split; [|split; [apply with_heap_lookup|]].
  - unfold iosq_getitem, sq_len. cbn [sq_list]. mrun. rewrite length_insert. zbool.
    apply list_get_ok; [lia|]. apply list_lookup_insert_eq. lia.
  - split; [done|]. split; [|split].
    + intros k d Hd. pose proof (lookup_lt_Some _ _ _ Hd). cbn [o_buf b_ptr with_ptr].
      rewrite sub_list_inserts_part by lia. apply dword_of_encode; [done|].
      by eapply (Forall_lookup_1 _ _ _ _ He).
    + intros i Hi0 Hne. cbn [o_buf b_ptr with_ptr]. apply sub_list_inserts_other; lia.
    + intros p Hp. cbn. by apply lookup_insert_ne.
Qed.

Lemma iocq_getitem_run fuel q index s e buf o :
  cq_queue q = Some buf -> heap s !! buf = Some o -> o_kind o = KPRP -> buffer_wf (o_buf o) ->
  0 <= index < cq_qsize q -> (index + 1) * 16 <= b_size (o_buf o) ->
  sub_list (index * 16) 16 (b_ptr (o_buf o)) = encode e -> length e = 4%nat ->
  Forall (fun d => 0 <= d < 2 ^ 32) e ->
  iocq_getitem fuel q index s = (Ok e, s).
Proof.
  intros Hq Ho Hk Hwf Hi Hfit Hmem Hlen He.
  assert (Hdw : forall k d, e !! k = Some d ->
    read_dword buf (EInt index) (Z.of_nat k) s = (Ok d, s)).
  { intros k d Hd. pose proof (lookup_lt_Some _ _ _ Hd).
    unfold read_dword. rewrite (on_buffer_run _ _ _ _ Ho).
    rewrite data_int_run by (try done; cbn [from_option]; unfold id; lia).
    cbn [fst snd from_option id]. rewrite with_heap_id by (rewrite Ho; by destruct o).
    replace (index * 16 + Z.of_nat k * 4 + 3 + 1 - (index * 16 + Z.of_nat k * 4)) with 4 by lia.
    replace (index * 16 + Z.of_nat k * 4) with (index * 16 + 4 * Z.of_nat k) by lia.
    rewrite <- (sub_list_sub_list _ (index * 16) 16) by lia. rewrite Hmem.
    rewrite (dword_of_encode _ _ _ Hd); [done|]. by eapply (Forall_lookup_1 _ _ _ _ He). }
  unfold iocq_getitem, py_assert. zbool. rewrite bind_ret_l. rewrite Hq.
  erewrite run_bind_ok; [|unfold locate, load; mrun; rewrite Ho; cbn [deref]; rewrite Hk; reflexivity].
  erewrite run_bind_ok; [|unfold load; mrun; cbn [fst]; rewrite Ho; reflexivity].
  rewrite Hk. cbn [is_prp fst snd]. rewrite bind_ret_l.
  destruct e as [|d0 [|d1 [|d2 [|d3 [|]]]]]; try done.
  pose proof (Hdw 0%nat d0 eq_refl) as H0. pose proof (Hdw 1%nat d1 eq_refl) as H1.
  pose proof (Hdw 2%nat d2 eq_refl) as H2. pose proof (Hdw 3%nat d3 eq_refl) as H3.
  change (Z.of_nat 0) with 0 in H0. change (Z.of_nat 1) with 1 in H1.
  change (Z.of_nat 2) with 2 in H2. change (Z.of_nat 3) with 3 in H3.
  assert (Hm : mapM (read_dword buf (EInt index)) [0; 1; 2; 3] s = (Ok [d0; d1; d2; d3], s)).
  { cbn [mapM]. unfold mbind, M_bind. rewrite H0, H1, H2, H3. done. }
  by rewrite (run_bind_ok _ _ _ _ _ Hm).
Qed.

(** ** Completion entries *)

(** Dwords 2 and 3 of a completion entry, from its fields. *)
Definition cqe_dw2 (sqhd sqid : Z) : Z := sqhd + 2 ^ 16 * sqid.
Definition cqe_dw3 (cid p sc sct crd m dnr : Z) : Z :=
  cid + 2 ^ 16 * p + 2 ^ 17 * sc + 2 ^ 25 * sct + 2 ^ 28 * crd + 2 ^ 30 * m + 2 ^ 31 * dnr.

Lemma land_0x8fff x : 0 <= x < 2 ^ 15 -> Z.land x 0x8fff = x mod 4096.
Proof.
  intros H. rewrite <- (Z.mod_small x (2 ^ 15)) at 1 by done.
  rewrite <- Z.land_ones, <- Z.land_assoc by lia.
  change (Z.land (Z.ones 15) 0x8fff) with (2 ^ 12 - 1). by apply land_mask.
Qed.

(** Reading a completion queue: the entry at an index inside a contiguous
    queue is the four little-endian dwords of its 16-byte slot, the memory is
    not changed, and each property of the entry is the field of the
    completion at its bit position.  [status] is not the whole 15-bit status
    field: its mask 0x8fff drops bits 12 to 14, which are the high bit of CRD,
    More and Do Not Retry. *)
Theorem iocq_getitem_decodes fuel q index s buf o d0 d1 sqhd sqid cid p sc sct crd m dnr :
  cq_queue q = Some buf -> heap s !! buf = Some o -> o_kind o = KPRP -> buffer_wf (o_buf o) ->
  0 <= index < cq_qsize q -> (index + 1) * 16 <= b_size (o_buf o) ->
  0 <= d0 < 2 ^ 32 -> 0 <= d1 < 2 ^ 32 -> 0 <= sqhd < 2 ^ 16 -> 0 <= sqid < 2 ^ 16 ->
  0 <= cid < 2 ^ 16 -> 0 <= p < 2 -> 0 <= sc < 2 ^ 8 -> 0 <= sct < 2 ^ 3 ->
  0 <= crd < 2 ^ 2 -> 0 <= m < 2 -> 0 <= dnr < 2 ->
  let e := [d0; d1; cqe_dw2 sqhd sqid; cqe_dw3 cid p sc sct crd m dnr] in
  sub_list (index * 16) 16 (b_ptr (o_buf o)) = encode e ->
  iocq_getitem fuel q index s = (Ok e, s)
  /\ cqe_cdw0 e = Ok d0 /\ cqe_sqhd e = Ok sqhd /\ cqe_sqid e = Ok sqid /\ cqe_cid e = Ok cid
  /\ cqe_p e = Ok p /\ cqe_sc e = Ok sc /\ cqe_sct e = Ok sct /\ cqe_crd e = Ok crd
  /\ cqe_m e = Ok m /\ cqe_dnr e = Ok dnr
  /\ cqe_status e = Ok (sc + 2 ^ 8 * sct + 2 ^ 11 * (crd mod 2)).
Proof.
  intros Hq Ho Hk Hwf Hi Hfit H0 H1 Hhd Hid Hcid Hp Hsc Hsct Hcrd Hm Hdnr e Hmem.
  split.
  { eapply iocq_getitem_run; try done. unfold e, cqe_dw2, cqe_dw3.
    each (eval_pow; lia). }
  unfold e, cqe_cdw0, cqe_sqhd, cqe_sqid, cqe_cid, cqe_p, cqe_sc, cqe_sct, cqe_crd, cqe_m,
    cqe_dnr, cqe_status, cqe_dw2, cqe_dw3.
  set (e' := [_; _; _; _]).
  change (list_get e' 0) with (Ok d0). change (list_get e' 2) with (Ok (sqhd + 2 ^ 16 * sqid)).
  change (list_get e' 3) with (Ok (cid + 2 ^ 16 * p + 2 ^ 17 * sc + 2 ^ 25 * sct
    + 2 ^ 28 * crd + 2 ^ 30 * m + 2 ^ 31 * dnr)).
  mrun. eval_pow.
  rewrite land_0x8fff by (rewrite shiftr_div by lia; eval_pow; divmod).
  autorewrite with bits. eval_pow.
  repeat split; f_equal; divmod.
Qed.

(** ** Queue creation *)
Lemma b2z_bound b : 0 <= Z.b2z b < 2.
Proof. destruct b; cbn; lia. Qed.

Lemma queue_dword lo hi :
  0 <= lo < 2 ^ 16 -> 0 <= hi < 2 ^ 16 ->
  let w := Z.lor lo (Z.shiftl hi 16) in 0 <= w < 2 ^ 32 /\ w mod 2 ^ 16 = lo /\ w / 2 ^ 16 = hi.
Proof.
  intros Hl Hh. cbv zeta. rewrite shiftl_mul, lor_add by lia. eval_pow.
  split; [lia|]. split; divmod.
Qed.

(** The low half of dword 11: the PC bit and a field above it. *)
Lemma pc_dword pc v n :
  0 <= v < 2 ^ n -> 0 <= n ->
  let w := Z.lor (Z.b2z pc) (Z.shiftl v 1) in 0 <= w < 2 ^ (n + 1) /\ w mod 2 = Z.b2z pc /\ w / 2 = v.
Proof.
  intros Hv Hn. cbv zeta. pose proof (b2z_bound pc).
  rewrite shiftl_mul, lor_add by lia. rewrite Z.pow_add_r by lia. eval_pow.
  split; [lia|]. split; divmod.
Qed.

Lemma buffer_arg_run s p o : heap s !! p = Some o -> buffer_arg (Some p) s = (Ok (Some (o_buf o)), s).
Proof. intros H. unfold buffer_arg, load. mrun. by rewrite H. Qed.

(** Creating queues: with arguments in range, [IOSQ] sends Create I/O
    Submission Queue and [IOCQ] Create I/O Completion Queue with the queue
    memory as data, from whose dwords the queue id, the one-based size, PC,
    priority, completion queue id, interrupt enable and vector are read back;
    the object gets its id, memory and [qsize] free entries exactly when the
    completion's status is zero, and otherwise keeps the class attributes.
    A submission queue argument out of range is refused. *)
Theorem queue_creation submit status1 s p o qid qsize pc cqid qprio nvmsetid iv ien :
  (forall c, submit c = 0) -> heap s !! p = Some o ->
  (0 <= qid < 65536 -> 1 <= qsize <= 65536 -> 0 <= default qid cqid < 65536 ->
   0 <= qprio < 4 -> 0 <= nvmsetid < 2 ^ 32 -> 0 <= iv < 65536 ->
   (exists c, opc c = 1 /\ cmd_data c = buf_data (Some (o_buf o))
      /\ cdw10 c mod 2 ^ 16 = qid /\ cdw10 c / 2 ^ 16 + 1 = qsize
      /\ cdw11 c mod 2 ^ 16 mod 2 = Z.b2z pc /\ cdw11 c mod 2 ^ 16 / 2 = qprio
      /\ cdw11 c / 2 ^ 16 = default qid cqid /\ cdw12 c = nvmsetid
      /\ iosq_init submit status1 qid qsize (Some p) pc cqid qprio nvmsetid s =
           (Ok (if admin_status status1 c =? 0
                then mk_iosq qid (Some p) (Some (replicate (Z.to_nat qsize) None))
                else iosq_default), s))
   /\ (exists c, opc c = 5 /\ cmd_data c = buf_data (Some (o_buf o))
      /\ cdw10 c mod 2 ^ 16 = qid /\ cdw10 c / 2 ^ 16 + 1 = qsize
      /\ cdw11 c mod 2 ^ 16 mod 2 = Z.b2z pc /\ cdw11 c mod 2 ^ 16 / 2 = Z.b2z ien
      /\ cdw11 c / 2 ^ 16 = iv
      /\ iocq_init submit status1 qid qsize (Some p) pc iv ien s =
           (Ok (if admin_status status1 c =? 0 then mk_iocq qid (Some p) qsize
                else iocq_default), s)))
  /\ (~ (0 <= qid < 65536 /\ 1 <= qsize <= 65536 /\ 0 <= default qid cqid < 65536
         /\ 0 <= qprio < 4) ->
      iosq_init submit status1 qid qsize (Some p) pc cqid qprio nvmsetid s
      = (Err AssertionError, s)).
Proof.
  intros Hs Ho. split.
  - intros Hq Hsz Hcq Hpr Hset Hiv.
    destruct (queue_dword qid (qsize - 1)) as (Hw & Hw1 & Hw2); [lia..|].
    destruct (pc_dword pc qprio 2) as (Hv & Hv1 & Hv2); [lia..|].
    destruct (pc_dword pc (Z.b2z ien) 1) as (Hu & Hu1 & Hu2); [apply b2z_bound|lia|].
    destruct (queue_dword (Z.lor (Z.b2z pc) (Z.shiftl qprio 1)) (default qid cqid))
      as (Hx & Hx1 & Hx2); [eval_pow; lia..|].
    destruct (queue_dword (Z.lor (Z.b2z pc) (Z.shiftl (Z.b2z ien) 1)) iv)
      as (Hy & Hy1 & Hy2); [eval_pow; lia..|].
    split.
    + exists (nvme_send_cmd_raw false 1 0 (buf_data (Some (o_buf o)))
      (Z.lor qid (Z.shiftl (qsize - 1) 16)) 
      (Z.lor (Z.lor (Z.b2z pc) (Z.shiftl qprio 1)) (Z.shiftl (default qid cqid) 16)) nvmsetid 0 0 0).
      unfold opc, cdw10, cdw11, cdw12, dword; cbn [nth cmd_dwords nvme_send_cmd_raw cmd_data].
      do 2 (split; [reflexivity|]). split; [done|]. split; [rewrite Hw2; lia|].
      rewrite Hx1. do 4 (split; [eassumption || reflexivity|]).
      unfold iosq_init, py_assert. zbool. rewrite !bind_ret_l.
      rewrite (run_bind_ok _ _ _ _ _ (buffer_arg_run _ _ _ Ho)).
      unfold send_cmd, send_admin_raw. rewrite send_raw_ok; [reflexivity|apply Hs|u32_all].
    + exists (nvme_send_cmd_raw false 5 0 (buf_data (Some (o_buf o)))
      (Z.lor qid (Z.shiftl (qsize - 1) 16)) 
      (Z.lor (Z.lor (Z.b2z pc) (Z.shiftl (Z.b2z ien) 1)) (Z.shiftl iv 16)) 0 0 0 0).
      unfold opc, cdw10, cdw11, cdw12, dword; cbn [nth cmd_dwords nvme_send_cmd_raw cmd_data].
      do 2 (split; [reflexivity|]). split; [done|]. split; [rewrite Hw2; lia|].
      rewrite Hy1. do 3 (split; [eassumption || reflexivity|]).
      unfold iocq_init, py_assert. zbool. rewrite !bind_ret_l.
      rewrite (run_bind_ok _ _ _ _ _ (buffer_arg_run _ _ _ Ho)).
      unfold send_cmd, send_admin_raw. rewrite send_raw_ok; [reflexivity|apply Hs|u32_all].
  - intros Hbad. unfold iosq_init, py_assert.
    repeat match goal with |- context [if ?b then mret tt else _] =>
      let E := fresh "E" in destruct b eqn:E; [rewrite bind_ret_l|done] end.
    zbool_hyps. exfalso. apply Hbad. lia.
Qed.

(** ** Queues over a PRP list *)
Lemma locate_prplist fuel s p o offset index a s' :
  heap s !! p = Some o -> is_prplist (o_kind o) = true ->
  locate fuel (Some p) offset index s = (Ok a, s') -> snd a = EFloat /\ s' = s.
Proof.
  intros Ho Hk. unfold locate, load. mrun. rewrite Ho. cbn [deref]. rewrite Hk.
  destruct (find_buffer_by_offset _ _ _ _ _) as [[[??]|]|]; [|done..]. by intros [= <- <-].
Qed.

Lemma locate_heap fuel s q offset index : snd (locate fuel q offset index s) = s.
Proof.
  unfold locate, load. destruct q as [p|]; [|done]. mrun.
  destruct (deref (heap s !! p)); [|done]. destruct (is_prplist _); [|done].
  by destruct (find_buffer_by_offset _ _ _ _ _) as [[[??]|]|].
Qed.

Lemma load_run s p o : heap s !! p = Some o -> load p s = (Ok o, s).
Proof. intros H. unfold load. mrun. by rewrite H. Qed.

Lemma write_dword_float buf i d s o :
  heap s !! buf = Some o ->
  write_dword buf EFloat i d s = (Err (if is_ok (to_bytes 4 d) then TypeError else OverflowError), s).
Proof.
  intros Ho. unfold write_dword, to_bytes. mrun.
  destruct (_ && _); [|done]. cbn [is_ok].
  assert (Hl : length (le_bytes 4 d) = 4%nat) by apply length_le_bytes.
  destruct (le_bytes 4 d) as [|b l]; [done|]. cbn [enumerate_from foreach subscript].
  unfold mbind, M_bind. rewrite (on_buffer_run _ _ _ _ Ho). cbn [setitem raise fst snd].
  rewrite with_heap_id; [done|]. rewrite Ho. by destruct o.
Qed.

(** What follows [locate] in [IOSQ.__setitem__]. *)
Lemma float_store_fails fuel s p o index e r s' :
  heap s !! p = Some o -> is_prplist (o_kind o) = true -> e <> [] ->
  (at_ ← locate fuel (Some p) (index * 64) index;
   o ← load (fst at_);
   py_assert (is_prp (o_kind o)) ;;
   foreach (fun '(i, dword) => write_dword (fst at_) (snd at_) i dword) (enumerate e)) s = (r, s') ->
  is_ok r = false /\ s' = s.
Proof.
  intros Ho Hk He. unfold mbind at 1, M_bind at 1.
  destruct (locate fuel (Some p) (index * 64) index s) as [[a|x] s1] eqn:El.
  2:{ intros [= <- <-]. split; [done|]. pose proof (locate_heap fuel s (Some p) (index * 64) index) as H.
      by rewrite El in H. }
  destruct (locate_prplist _ _ _ _ _ _ _ _ Ho Hk El) as [Hf ->].
  unfold load at 1. mrun. destruct (heap s !! fst a) as [o'|] eqn:Eo; cbn [deref];
    [|by intros [= <- <-]].
  destruct (is_prp _); [|by intros [= <- <-]].
  rewrite Hf. destruct e as [|d e]; [done|]. cbn [enumerate_from foreach]. unfold mbind, M_bind.
  mrun. mred. rewrite (write_dword_float _ _ _ _ _ Eo). by intros [= <- <-].
Qed.

Lemma iocq_getitem_float fuel q index s p o :
  cq_queue q = Some p -> heap s !! p = Some o -> is_prplist (o_kind o) = true ->
  is_ok (fst (iocq_getitem fuel q index s)) = false /\ snd (iocq_getitem fuel q index s) = s.
Proof.
  intros Hq Ho Hk. unfold iocq_getitem. rewrite Hq.
  rewrite py_assert_bind. destruct (index <? cq_qsize q); [|done].
  unfold mbind, M_bind.
  destruct (locate fuel (Some p) (index * 16) index s) as [[a|x] s1] eqn:El.
  2:{ pose proof (locate_heap fuel s (Some p) (index * 16) index) as H. by rewrite El in H. }
  destruct (locate_prplist _ _ _ _ _ _ _ _ Ho Hk El) as [Hf ->].
  unfold load. mrun. destruct (heap s !! fst a) as [o'|]; cbn [deref]; [|done].
  destruct (is_prp _); [|done]. cbn [mapM]. unfold mbind, M_bind. by rewrite Hf.
Qed.

(** Queues over a PRP list cannot be used: [offset/64] and [offset/16] are
    floating point in Python 3, so with a [PRPList] as the queue memory no
    write of a command and no read of a completion succeeds, whatever the list
    holds, and no byte of memory is written; yet a write whose index is in
    range has already recorded the command in the queue's own list. *)
Theorem noncontiguous_queue_unusable fuel s q cq p o index cmd e l :
  heap s !! p = Some o -> is_prplist (o_kind o) = true ->
  sq_queue q = Some p -> cq_queue cq = Some p ->
  sqes s !! cmd = Some e -> sq_list q = Some l ->
  is_ok (fst (iosq_setitem fuel index cmd (s, q))) = false
  /\ fst (snd (iosq_setitem fuel index cmd (s, q))) = s
  /\ (length e = 16%nat -> 0 <= index < Z.of_nat (length l) ->
      iosq_getitem (snd (snd (iosq_setitem fuel index cmd (s, q)))) index = Ok (Some cmd))
  /\ is_ok (fst (iocq_getitem fuel cq index s)) = false
  /\ snd (iocq_getitem fuel cq index s) = s.
Proof.
  intros Ho Hk Hq Hcq Hc Hl.
  pose proof (iocq_getitem_float fuel cq index s p o Hcq Ho Hk) as Hget.
  destruct (iosq_setitem fuel index cmd (s, q)) as [r [s' q']] eqn:E. cbn [fst snd].
  unfold iosq_setitem in E.
  erewrite run_bind_ok in E; [|unfold on_psd, load_sqe; mrun; rewrite Hc; reflexivity].
  erewrite run_bind_ok in E by reflexivity. cbn [snd] in E.
  rewrite py_assert_bind in E. unfold sq_len in E. rewrite Hl in E.
  destruct (Z.of_nat (length e) =? 16) eqn:El;
    [|injection E as <- <- <-; split_and!; try done || apply Hget; lia].
  rewrite (run_bind_ok _ _ _ l (s, q)) in E by done.
  rewrite py_assert_bind in E. destruct (index <? Z.of_nat (length l)) eqn:Ei;
    [|injection E as <- <- <-; split_and!; try done || apply Hget; lia].
  destruct (list_set l index (Some cmd)) as [l'|x] eqn:Es.
  2:{ injection E as <- <- <-. split_and!; try done || apply Hget. intros _ Hi.
      by rewrite list_set_ok in Es. }
  rewrite (run_bind_ok _ _ _ l' (s, q)) in E by done.
  erewrite run_bind_ok in E by reflexivity.
  unfold on_psd in E. rewrite Hq in E.
  match type of E with context [let '(_, _) := ?m in _] => destruct m as [r1 s1] eqn:Em end.
  injection E as <- <- <-.
  destruct (float_store_fails fuel s p o index e r1 s1) as [Hr ->]; try done.
  { intros ->. done. }
  split_and!; try done || apply Hget. intros _ Hi. rewrite list_set_ok in Es by done.
  injection Es as <-. unfold iosq_getitem, sq_len. cbn [sq_list]. mrun. rewrite length_insert.
  zbool. apply list_get_ok; [lia|]. apply list_lookup_insert_eq. lia.
Qed.

(** ** Command entries *)
Lemma land_0xffffff00 x : 0 <= x < 2 ^ 32 -> Z.land x 0xffffff00 = x / 2 ^ 8 * 2 ^ 8.
Proof.
  intros H. change 0xffffff00 with (Z.shiftl (Z.ones 24) 8). rewrite land_field by lia.
  rewrite Z.mod_small; [done|]. eval_pow. divmod.
Qed.

Lemma list_get_nth (e : list Z) i :
  0 <= i < Z.of_nat (length e) -> list_get e i = Ok (nth (Z.to_nat i) e 0).
Proof.
  intros H. destruct (lookup_lt_is_Some_2 e (Z.to_nat i)) as [x Hx]; [lia|].
  rewrite (list_get_ok _ _ _ (proj1 H) Hx). f_equal. symmetry. by apply nth_lookup_Some.
Qed.

Lemma nth_insert_same (e : list Z) i x d : (i < length e)%nat -> nth i (<[i := x]> e) d = x.
Proof. intros H. rewrite nth_lookup. by rewrite list_lookup_insert_eq. Qed.

Lemma nth_u32 e i :
  Forall (fun d => 0 <= d < 2 ^ 32) e -> 0 <= nth i e 0 < 2 ^ 32.
Proof.
  intros H. destruct (decide (i < length e)%nat).
  - destruct (lookup_lt_is_Some_2 e i) as [x Hx]; [lia|].
    rewrite (nth_lookup_Some _ _ _ _ Hx). by eapply (Forall_lookup_1 _ _ _ _ H).
  - rewrite nth_overflow by lia. lia.
Qed.

Lemma sqe_set_prp_run i self buf s o e :
  sqes s !! self = Some e -> heap s !! buf = Some o -> 0 <= i -> i + 1 < Z.of_nat (length e) ->
  let a := phys_addr (o_buf o) in
  sqe_set_prp i self buf s =
    (Ok tt, mk_psd (heap s)
      (<[self := <[Z.to_nat (i + 1) := Z.land (Z.shiftr a 32) 0xffffffff]>
                  (<[Z.to_nat i := Z.land a 0xffffffff]> e)]> (sqes s))
      (buf_refs s ++ [buf])).
Proof.
  intros He Ho Hi Hl. cbv zeta. unfold sqe_set_prp, load, load_sqe, store_sqe. mrun.
  rewrite Ho. cbn [deref]. rewrite He. cbn [deref].
  rewrite list_set_ok by lia. rewrite list_set_ok by (rewrite length_insert; lia). done.
Qed.

Lemma sqe_prp_after i e a :
  0 <= a < 2 ^ 64 -> 0 <= i -> i + 1 < Z.of_nat (length e) ->
  sqe_prp i (<[Z.to_nat (i + 1) := Z.land (Z.shiftr a 32) 0xffffffff]>
               (<[Z.to_nat i := Z.land a 0xffffffff]> e)) = Ok a.
Proof.
  intros Ha Hi Hl. unfold sqe_prp.
  rewrite !list_get_nth by (rewrite !length_insert; lia). mrun.
  rewrite nth_insert_same by (rewrite length_insert; lia).
  rewrite nth_insert_other by lia. rewrite nth_insert_same by lia.
  f_equal. rewrite (land_u32 a). rewrite shiftl_mul, lor_add_r by (eval_pow; divmod).
  bits.
Qed.

(** Fields of a command entry: on 16 dwords of 32 bits, the opcode and the
    command id set to values in range are read back and leave each other and
    the other 15 dwords alone, and [prp1] and [prp2] read back the physical
    address of the buffer they were set to, which the list shared by all
    commands then keeps alive. *)
Theorem sqe_fields_roundtrip s self buf o e op cid :
  sqes s !! self = Some e -> heap s !! buf = Some o ->
  length e = 16%nat -> Forall (fun d => 0 <= d < 2 ^ 32) e ->
  0 <= op < 2 ^ 8 -> 0 <= cid < 2 ^ 16 ->
  (exists e', sqe_set_opc op e = Ok e' /\ sqe_opc e' = Ok op /\ sqe_cid e' = sqe_cid e
     /\ forall k, k <> O -> nth k e' 0 = nth k e 0)
  /\ (exists e', sqe_set_cid cid e = Ok e' /\ sqe_cid e' = Ok cid /\ sqe_opc e' = sqe_opc e
     /\ forall k, k <> O -> nth k e' 0 = nth k e 0)
  /\ (exists s' e', sqe_set_prp1 self buf s = (Ok tt, s') /\ sqes s' !! self = Some e'
     /\ sqe_prp1 e' = Ok (phys_addr (o_buf o)) /\ sqe_prp2 e' = sqe_prp2 e
     /\ sqe_opc e' = sqe_opc e /\ buf ∈ buf_refs s')
  /\ (exists s' e', sqe_set_prp2 self buf s = (Ok tt, s') /\ sqes s' !! self = Some e'
     /\ sqe_prp2 e' = Ok (phys_addr (o_buf o)) /\ sqe_prp1 e' = sqe_prp1 e
     /\ sqe_opc e' = sqe_opc e /\ buf ∈ buf_refs s').
Proof.
  intros Hs Ho Hlen He Hop Hcid.
  pose proof (nth_u32 e 0 He) as H0.
  assert (Ha : 0 <= phys_addr (o_buf o) < 2 ^ 64).
  { unfold phys_addr, wrap. apply Z.mod_pos_bound. lia. }
  split; [|split; [|split]].
  - unfold sqe_set_opc. rewrite list_get_nth by lia. mrun. rewrite list_set_ok by lia.
    eexists. split; [done|]. split_and!; [..|intros k Hk; by apply nth_insert_other].
    + unfold sqe_opc. rewrite list_get_nth by (rewrite length_insert; lia). mrun.
      rewrite nth_insert_same by lia. f_equal.
      rewrite land_0xffffff00, lor_add_r, land_255 by done. eval_pow. divmod.
    + unfold sqe_cid. rewrite !list_get_nth by (rewrite ?length_insert; lia). mrun.
      rewrite nth_insert_same by lia. f_equal. change (Z.to_nat 0) with O.
      rewrite land_0xffffff00, lor_add_r, !shiftr_div by done. eval_pow. divmod.
  - unfold sqe_set_cid. rewrite list_get_nth by lia. mrun. rewrite list_set_ok by lia.
    eexists. split; [done|]. split_and!; [..|intros k Hk; by apply nth_insert_other].
    + unfold sqe_cid. rewrite list_get_nth by (rewrite length_insert; lia). mrun.
      rewrite nth_insert_same by lia. f_equal.
      rewrite land_65535, shiftl_mul, lor_add, shiftr_div by (eval_pow; divmod). eval_pow. divmod.
    + unfold sqe_opc. rewrite !list_get_nth by (rewrite ?length_insert; lia). mrun.
      rewrite nth_insert_same by lia. f_equal. change (Z.to_nat 0) with O.
      rewrite land_65535, shiftl_mul, lor_add, !land_255 by (eval_pow; divmod). eval_pow. divmod.
  - unfold sqe_set_prp1. rewrite (sqe_set_prp_run _ _ _ _ _ _ Hs Ho) by lia.
    do 2 eexists. split; [done|]. split; [apply lookup_insert_eq|].
    split; [apply sqe_prp_after; lia|].
    unfold sqe_prp2, sqe_prp, sqe_opc. rewrite !list_get_nth by (rewrite ?length_insert; lia).
    rewrite !nth_insert_other by lia. split_and!; try done. apply elem_of_app. right. constructor.
  - unfold sqe_set_prp2. rewrite (sqe_set_prp_run _ _ _ _ _ _ Hs Ho) by lia.
    do 2 eexists. split; [done|]. split; [apply lookup_insert_eq|].
    split; [apply sqe_prp_after; lia|].
    unfold sqe_prp1, sqe_prp, sqe_opc. rewrite !list_get_nth by (rewrite ?length_insert; lia).
    rewrite !nth_insert_other by lia. split_and!; try done. apply elem_of_app. right. constructor.
Qed.

(** ** Witnesses *)
Definition example_prp : obj := mk_obj (example_buffer 256) KPRP.
Definition example_list : obj :=
  mk_obj (example_buffer 4096) (KPRPList (Some 1%positive :: replicate 511 None)).
Definition example_sqe : list Z := [0x00070002; 1; 0; 0; 0; 0; 0; 0; 0; 0; 8; 0; 7; 0; 0; 0].
Definition example_psd : psd :=
  mk_psd (<[2%positive := example_list]> {[1%positive := example_prp]})
    {[3%positive := example_sqe]} [].
Definition example_sq (p : loc) : iosq := mk_iosq 1 (Some p) (Some (replicate 4 None)).
Definition example_cq (p : loc) : iocq := mk_iocq 1 (Some p) 4.

Lemma example_describes :
  describes (heap example_psd) 2%positive [(1%positive, 0, 256)] Hole.
Proof.
  eapply describes_list; [reflexivity|reflexivity|reflexivity|].
  change (Z.to_nat (b_offset (o_buf example_list) / 8)) with O. rewrite drop_0.
  apply (entries_buf _ _ 1%positive example_prp); [reflexivity|done|vm_compute; discriminate|].
  constructor.
Qed.

Lemma find_buffer_by_offset_refines_witness :
  exists n, forall fuel offset, (n <= fuel)%nat -> 0 <= offset ->
    find_buffer_by_offset fuel (heap example_psd) 2%positive offset 0
    = found [(1%positive, 0, 256)] Hole (Z.to_nat offset).
Proof. apply find_buffer_by_offset_refines. apply example_describes. Defined.

Lemma example_sqe_u32 : Forall (fun d => 0 <= d < 2 ^ 32) example_sqe.
Proof. each (eval_pow; lia). Qed.

Lemma iosq_setitem_contiguous_witness :
  exists s' q' o', iosq_setitem 9 1 3%positive (example_psd, example_sq 1) = (Ok tt, (s', q'))
    /\ iosq_getitem q' 1 = Ok (Some 3%positive)
    /\ heap s' !! 1%positive = Some o' /\ sqes s' = sqes example_psd
    /\ (forall k d, example_sqe !! k = Some d ->
          from_le (sub_list (1 * 64 + 4 * Z.of_nat k) 4 (b_ptr (o_buf o'))) = d)
    /\ (forall i, 0 <= i -> i <> 1 ->
          sub_list (i * 64) 64 (b_ptr (o_buf o'))
          = sub_list (i * 64) 64 (b_ptr (o_buf example_prp)))
    /\ (forall p, p <> 1%positive -> heap s' !! p = heap example_psd !! p).
Proof.
  refine (iosq_setitem_contiguous 9 example_psd (example_sq 1) 1 3 example_sqe
    (replicate 4 None) 1 example_prp eq_refl eq_refl example_sqe_u32 eq_refl eq_refl eq_refl
    eq_refl (example_buffer_wf 256 _) _ _).
  - split; reflexivity.
  - split; [lia|reflexivity].
  - vm_compute. discriminate.
Defined.

(** A completion of command 7 with Do Not Retry set. *)
Definition example_cqe : list Z := [0; 0; cqe_dw2 3 1; cqe_dw3 7 1 2 0 0 0 1].
Definition example_cq_psd : psd :=
  mk_psd {[1%positive := mk_obj (with_ptr (encode example_cqe ++ replicate 240 0)
                                   (example_buffer 256)) KPRP]} ∅ [].

Lemma iocq_getitem_decodes_witness :
  iocq_getitem 9 (example_cq 1) 0 example_cq_psd = (Ok example_cqe, example_cq_psd)
  /\ cqe_dnr example_cqe = Ok 1 /\ cqe_status example_cqe = Ok 2.
Proof.
  pose proof (iocq_getitem_decodes 9 (example_cq 1) 0 example_cq_psd 1
    (mk_obj (with_ptr (encode example_cqe ++ replicate 240 0) (example_buffer 256)) KPRP)
    0 0 3 1 7 1 2 0 0 0 1 eq_refl eq_refl eq_refl) as H.
  assert (Hwf : buffer_wf (with_ptr (encode example_cqe ++ replicate 240 0) (example_buffer 256))).
  { apply buffer_wf_with_ptr; [apply example_buffer_wf; lia|reflexivity|].
    apply Forall_app. split; [apply encode_are_bytes|apply zeros_are_bytes]. }
  specialize (H Hwf). cbn zeta in H.
  destruct H as (H1 & _ & _ & _ & _ & _ & _ & _ & _ & _ & H2 & H3);
    try (cbn; lia); [reflexivity|]. split; [exact H1|]. split; [exact H2|exact H3].
Defined.

Lemma queue_creation_witness :
  exists c, opc c = 1 /\ cmd_data c = buf_data (Some (o_buf example_prp))
    /\ cdw10 c mod 2 ^ 16 = 4 /\ cdw10 c / 2 ^ 16 + 1 = 5
    /\ cdw11 c mod 2 ^ 16 mod 2 = 1 /\ cdw11 c mod 2 ^ 16 / 2 = 0
    /\ cdw11 c / 2 ^ 16 = 4 /\ cdw12 c = 0
    /\ iosq_init accept (fun _ => 0) 4 5 (Some 1%positive) true None 0 0 example_psd
       = (Ok (mk_iosq 4 (Some 1%positive) (Some (replicate 5 None))), example_psd).
Proof.
  refine (proj1 (proj1 (queue_creation accept (fun _ => 0) example_psd 1 example_prp 4 5 true
    None 0 0 0 false (fun _ => eq_refl) eq_refl) _ _ _ _ _ _)); cbn; lia.
Defined.

Lemma noncontiguous_queue_unusable_witness :
  is_ok (fst (iosq_setitem 9 1 3%positive (example_psd, example_sq 2))) = false
  /\ is_ok (fst (iocq_getitem 9 (example_cq 2) 1 example_psd)) = false.
Proof.
  destruct (noncontiguous_queue_unusable 9 example_psd (example_sq 2) (example_cq 2) 2
    example_list 1 3 example_sqe (replicate 4 None) eq_refl eq_refl eq_refl eq_refl eq_refl eq_refl)
    as (H1 & _ & _ & H2 & _).
  split; [exact H1|exact H2].
Defined.

Lemma sqe_fields_roundtrip_witness :
  exists e', sqe_set_cid 9 example_sqe = Ok e' /\ sqe_cid e' = Ok 9
    /\ sqe_opc e' = sqe_opc example_sqe /\ forall k, k <> O -> nth k e' 0 = nth k example_sqe 0.
Proof.
  apply (sqe_fields_roundtrip example_psd 3 1 example_prp example_sqe 2 9 eq_refl eq_refl eq_refl
    example_sqe_u32); lia.
Defined.
