(* ===== verification/PsdTest.v ===== *)
(** * PsdTest: tests on queues of their own (src/scripts/psd.py)

    The test functions of psd.py that drive the queues of Psd.v themselves:
    the objects they allocate, the bursts of commands made from one command
    object, the rounds over a whole queue, and the chained PRP list.  The
    allocator is asked for each object separately, so that every buffer can
    have an address of its own; what the device does while a test sleeps is an
    argument. *)
From Stdlib Require Import ZArith Lia.
From stdpp Require Import base list numbers gmap fin_maps infinite option.
From S2P Require Import Prelude PyInt Buffer Psd.
Local Open Scope Z_scope.

(** ** New objects *)
Section Objects.
(** [spdk_dma_zmalloc] for the object that will be at a location, and
    /dev/urandom. *)
Variable dma_zmalloc : loc -> Z -> option Z.
Variable urandom : Z -> list Z.

(** The default [name="buffer"]. *)
Definition buffer_name : list Z := [98; 117; 102; 102; 101; 114].

Definition new_buffer (size pvalue ptype : Z) (init : buffer -> obj) : M psd loc :=
  s ← get;
  let l := fresh (dom (heap s)) in
  b ← lift (buffer_cinit (dma_zmalloc l) urandom size buffer_name pvalue ptype);
  modify (with_heap <[l := init b]>) ;;
  mret l.

(** [PRP(size, ptype=ptype, pvalue=pvalue)] and [PRPList()]. *)
Definition new_prp (size pvalue ptype : Z) : M psd loc :=
  new_buffer size pvalue ptype (fun b => mk_obj b KPRP).
Definition new_prplist : M psd loc := new_buffer 4096 0 0 prplist_init.

(** A new list object: a display [[...]], or [SQE( *arg)]. *)
Definition new_list (e : list Z) : M psd loc :=
  s ← get;
  let l := fresh (dom (sqes s)) in
  modify (fun s => mk_psd (heap s) (<[l := e]> (sqes s)) (buf_refs s)) ;;
  mret l.
Definition new_sqe (arg : list Z) : M psd loc :=
  e ← lift (sqe_init arg); new_list e.

(** An assignment to an item or a property of a command. *)
Definition sqe_update (f : list Z -> res (list Z)) (cmd : loc) : M psd unit :=
  e ← load_sqe cmd; e ← lift (f e); store_sqe cmd e.
Definition sqe_set_item (i v : Z) : loc -> M psd unit := sqe_update (fun e => list_set e i v).

(** ** test_write_read_verify: ten commands from one command object *)
Section Burst.
Variable fuel : nat.

(** The body of both loops: [buf = mk_buf(i)], then the command is changed and
    written into the queue. *)
Definition post_one (mk_buf : Z -> M psd loc) (cmd : loc) (i : Z) : M (psd * iosq) loc :=
  buf ← on_psd (mk_buf i);
  on_psd (sqe_set_prp1 cmd buf) ;;
  on_psd (sqe_update (sqe_set_cid i) cmd) ;;
  on_psd (sqe_set_item 10 i cmd) ;;
  iosq_setitem fuel i cmd ;;
  mret buf.

(** The command, and [buf_list]. *)
Definition post_all (opcode : Z) (mk_buf : Z -> M psd loc) (n : Z)
    : M (psd * iosq) (loc * list loc) :=
  cmd ← on_psd (new_sqe [opcode; 1]);
  on_psd (sqe_set_item 12 7 cmd) ;;
  buf_list ← mapM (post_one mk_buf cmd) (py_range 0 n 1);
  mret (cmd, buf_list).

Definition write_buf (i : Z) : M psd loc := new_prp 4096 (0x01010101 * i) 32.
Definition read_buf (i : Z) : M psd loc := new_prp 4096 0 0.

(** The loops of the test, which has [n = 10]. *)
Definition post_writes (n : Z) := post_all 1 write_buf n.
Definition post_reads (n : Z) := post_all 2 read_buf n.
End Burst.

(** ** The tests of PRP lists *)

(** [Buffer()] *)
Definition new_plain_buffer : M psd loc := new_buffer 4096 0 0 (fun b => mk_obj b KBuffer).
Definition set_offset (l : loc) (v : Z) : M psd unit := on_buffer l (offset_set v).

(** test_prp_and_prp_list, with [count] up to 512 *)
Definition prp_and_prp_list (count : Z) : M psd loc :=
  l ← new_prplist;
  foreach (fun i => b ← new_plain_buffer; prplist_setitem l i b) (py_range 0 count 1) ;;
  mret l.

(** test_prp_and_prp_list_invalid: what [l[512] = Buffer()] raises. *)
Definition prp_and_prp_list_invalid : M psd unit :=
  l ← new_prplist; b ← new_plain_buffer; prplist_setitem l 512 b.

(** test_iocq_prplist, up to its assertions: the lists and buffers, and the
    three results of [find_buffer_by_offset]. *)
Definition iocq_prplist (fuel : nat) : M psd (loc * list loc * list (option (loc * Z))) :=
  prp_list ← new_prplist;
  p ← new_prp 4096 0 0;
  set_offset p (4096 - 64) ;;
  prplist_setitem prp_list 510 p ;;
  set_offset prp_list (4096 - 16) ;;
  prp_list2 ← new_prplist;
  prplist_setitem prp_list 511 prp_list2 ;;
  pages ← mapM (fun i => page ← new_prp 4096 0 0; prplist_setitem prp_list2 i page ;; mret page)
            [0; 1; 2; 3];
  s ← get;
  found ← mapM (fun offset => lift (find_buffer_by_offset fuel (heap s) prp_list offset 0))
            [0; 5 * 16; 1000 * 16];
  mret (p, pages, found).
End Objects.

(** ** The commands of a burst *)

(** A one-page command: opcode, command id, data address and LBA; namespace 1
    and eight blocks are fixed. *)
Definition page_command (opcode cid addr lba : Z) : list Z :=
  [opcode + 2 ^ 16 * cid; 1; 0; 0; 0; 0;
   Z.land addr 0xffffffff; Z.land (Z.shiftr addr 32) 0xffffffff; 0; 0;
   lba; 0; 7; 0; 0; 0].

Lemma page_command_u32 opcode cid addr lba :
  0 <= opcode < 2 ^ 8 -> 0 <= cid < 2 ^ 16 -> 0 <= lba < 2 ^ 32 ->
  Forall (fun d => 0 <= d < 2 ^ 32) (page_command opcode cid addr lba).
Proof.
  intros. unfold page_command. each (rewrite ?land_u32; eval_pow; divmod).
Qed.

Lemma load_sqe_run s cmd e : sqes s !! cmd = Some e -> load_sqe cmd s = (Ok e, s).
Proof. intros H. unfold load_sqe. mrun. by rewrite H. Qed.

Definition with_sqe (cmd : loc) (e : list Z) (s : psd) : psd :=
  mk_psd (heap s) (<[cmd := e]> (sqes s)) (buf_refs s).

Lemma sqe_update_run s cmd f e e' :
  sqes s !! cmd = Some e -> f e = Ok e' ->
  sqe_update f cmd s = (Ok tt, with_sqe cmd e' s).
Proof.
  intros He Hf. unfold sqe_update. rewrite (run_bind_ok _ _ _ _ _ (load_sqe_run _ _ _ He)).
  unfold lift. mrun. by rewrite Hf.
Qed.

Lemma set_cid_page opcode c addr lba i :
  0 <= opcode < 2 ^ 8 -> 0 <= c < 2 ^ 16 -> 0 <= i ->
  sqe_set_cid i (page_command opcode c addr lba) = Ok (page_command opcode i addr lba).
Proof.
  intros Ho Hc Hi. unfold sqe_set_cid.
  change (list_get (page_command opcode c addr lba) 0) with (Ok (opcode + 2 ^ 16 * c)).
  mrun. rewrite list_set_ok by (cbn; lia). unfold page_command.
  change (Z.to_nat 0) with O. cbn [insert list_insert]. do 2 f_equal.
  rewrite land_65535, shiftl_mul, lor_add by (eval_pow; divmod). eval_pow. divmod.
Qed.

Lemma set_prp1_page s cmd buf o opcode c addr lba :
  sqes s !! cmd = Some (page_command opcode c addr lba) -> heap s !! buf = Some o ->
  sqe_set_prp1 cmd buf s =
    (Ok tt, mk_psd (heap s) (<[cmd := page_command opcode c (phys_addr (o_buf o)) lba]> (sqes s))
                   (buf_refs s ++ [buf])).
Proof.
  intros He Ho. unfold sqe_set_prp1. rewrite (sqe_set_prp_run 6 cmd buf s o _ He Ho).
  - reflexivity.
  - lia.
  - cbn. lia.
Qed.

Lemma on_psd_ok {A} (m : M psd A) s q a s' :
  m s = (Ok a, s') -> on_psd m (s, q) = (Ok a, (s', q)).
Proof. intros H. unfold on_psd. by rewrite H. Qed.

Lemma py_range_nat n : 0 <= n -> py_range 0 n 1 = Z.of_nat <$> seq 0 (Z.to_nat n).
Proof. intros H. rewrite <- (Z2Nat.id n) at 1 by done. apply (py_range_step1 0). Qed.

(** A loop that collects its results in a list. *)
Lemma mapM_grow {S A} (P : list A -> S -> Prop) (f : Z -> M S A) n :
  (forall l s, P l s -> (length l < n)%nat ->
     exists a s', f (Z.of_nat (length l)) s = (Ok a, s') /\ P (l ++ [a]) s') ->
  forall s, P [] s -> exists l s', mapM f (Z.of_nat <$> seq 0 n) s = (Ok l, s')
    /\ P l s' /\ length l = n.
Proof.
  intros Hstep.
  assert (Hg : forall m l s, (length l + m)%nat = n -> P l s ->
    exists k s', mapM f (Z.of_nat <$> seq (length l) m) s = (Ok k, s') /\ P (l ++ k) s'
      /\ length k = m).
  { induction m as [|m IH]; intros l s Hm HP.
    - exists [], s. by rewrite app_nil_r.
    - destruct (Hstep l s HP) as (a & s1 & Ha & HP1); [lia|].
      destruct (IH (l ++ [a]) s1) as (k & s2 & Hk & HP2 & Hlen);
        [rewrite length_app; cbn; lia|done|].
      exists (a :: k), s2. rewrite <- app_assoc in HP2. split; [|split; [done|cbn; lia]].
      cbn [seq fmap list_fmap mapM]. rewrite (run_bind_ok _ _ _ _ _ Ha).
      rewrite length_app, Nat.add_1_r in Hk. by rewrite (run_bind_ok _ _ _ _ _ Hk). }
  intros s HP. apply (Hg n [] s); done.
Qed.

Section Posting.
Variables (fuel : nat) (opcode : Z) (mk_buf : Z -> M psd loc) (good : Z -> buffer -> Prop) (n : Z).
Hypothesis opcode_range : 0 <= opcode < 2 ^ 8.
Hypothesis n_range : 0 <= n <= 2 ^ 16.
Hypothesis mk_buf_spec : forall i s, 0 <= i < n ->
  exists b, good i b
    /\ mk_buf i s = (Ok (fresh (dom (heap s))),
                     with_heap <[fresh (dom (heap s)) := mk_obj b KPRP]> s).

(** What one round of the loop does. *)
Lemma post_one_run cmd i s q c addr lba l qb qo :
  0 <= i < n -> sqes s !! cmd = Some (page_command opcode c addr lba) -> 0 <= c < 2 ^ 16 ->
  sq_list q = Some l -> sq_queue q = Some qb -> heap s !! qb = Some qo ->
  o_kind qo = KPRP -> buffer_wf (o_buf qo) ->
  i < Z.of_nat (length l) -> (i + 1) * 64 <= b_size (o_buf qo) ->
  exists b, good i b
    /\ post_one fuel mk_buf cmd i (s, q) =
      let buf := fresh (dom (heap s)) in
      let e := page_command opcode i (phys_addr b) i in
      (Ok buf,
       (mk_psd (<[qb := mk_obj (with_ptr (list_inserts (Z.to_nat (i * 64)) (encode e)
                                            (b_ptr (o_buf qo))) (o_buf qo)) KPRP]>
                  (<[buf := mk_obj b KPRP]> (heap s)))
               (<[cmd := e]> (sqes s)) (buf_refs s ++ [buf]),
        mk_iosq (sq_id q) (Some qb) (Some (<[Z.to_nat i := Some cmd]> l)))).
Proof.
  intros Hi He Hc Hl Hq Ho Hk Hwf Hil Hfit.
  destruct (mk_buf_spec i s Hi) as (b & Hg & Hm). exists b. split; [done|]. cbv zeta.
  set (buf := fresh (dom (heap s))) in *.
  assert (Hne : qb <> buf).
  { intros ->. apply elem_of_dom_2 in Ho. by apply is_fresh in Ho. }
  unfold post_one. rewrite (run_bind_ok _ _ _ _ _ (on_psd_ok _ _ q _ _ Hm)).
  erewrite run_bind_ok.
  2:{ apply on_psd_ok. eapply set_prp1_page; [exact He|apply with_heap_lookup]. }
  erewrite run_bind_ok.
  2:{ apply on_psd_ok. eapply sqe_update_run; [apply lookup_insert_eq|].
      apply (set_cid_page opcode c (phys_addr b) lba i); [done|done|lia]. }
  erewrite run_bind_ok.
  2:{ apply on_psd_ok. eapply sqe_update_run; [apply lookup_insert_eq|]. reflexivity. }
  erewrite run_bind_ok.
  2:{ eapply (iosq_setitem_run fuel _ q i cmd (page_command opcode i (phys_addr b) i) l qb qo);
        try done; [apply lookup_insert_eq|apply page_command_u32; eval_pow; lia| |lia].
      cbn. by rewrite lookup_insert_ne. }
  unfold mret, M_ret, write_bytes, with_sqe, with_heap. cbn [heap sqes buf_refs].
  by rewrite !insert_insert_eq, Hk, Hq.
Qed.


(** The queue memory after the rounds whose buffers are [bufs]: the commands,
    each with a good buffer, and the rest as it was. *)
Record slots (bufs : list loc) (h : gmap loc obj) (mem0 mem : list Z) : Prop := {
  sl_len : length mem = length mem0;
  sl_bytes : Forall is_byte mem;
  sl_rest : drop (64 * length bufs) mem = drop (64 * length bufs) mem0;
  sl_slot : forall i b, bufs !! i = Some b ->
    exists o, h !! b = Some o /\ good (Z.of_nat i) (o_buf o)
      /\ sub_list (Z.of_nat i * 64) 64 mem
         = encode (page_command opcode (Z.of_nat i) (phys_addr (o_buf o)) (Z.of_nat i))
}.

Lemma drop_list_inserts (k l : list Z) i m :
  (i + length k <= m)%nat -> drop m (list_inserts i k l) = drop m l.
Proof.
  revert i. induction k as [|x k IH]; intros i H; [done|]. cbn [list_inserts length] in *.
  rewrite drop_insert_lt by lia. apply IH. lia.
Qed.

Lemma length_page_bytes c addr lba : length (encode (page_command opcode c addr lba)) = 64%nat.
Proof. by rewrite length_encode. Qed.

Lemma slots_step bufs h mem0 mem buf qb x b :
  slots bufs h mem0 mem -> h !! buf = None -> qb <> buf -> qb ∉ bufs ->
  good (Z.of_nat (length bufs)) b -> (64 * length bufs + 64 <= length mem0)%nat ->
  slots (bufs ++ [buf]) (<[qb := x]> (<[buf := mk_obj b KPRP]> h)) mem0
    (list_inserts (Z.to_nat (Z.of_nat (length bufs) * 64))
       (encode (page_command opcode (Z.of_nat (length bufs)) (phys_addr b)
                  (Z.of_nat (length bufs)))) mem).
Proof.
  intros [Hl Hb Hr Hs] Hf Hq Hin Hg Hfit. set (k := length bufs) in *. split.
  - by rewrite length_inserts.
  - apply Forall_inserts_byte; [done|apply encode_are_bytes].
  - rewrite length_app. cbn [length]. rewrite drop_list_inserts by (rewrite length_page_bytes; lia).
    fold k. replace (64 * (k + 1))%nat with (64 * k + 64)%nat by lia. by rewrite <- !drop_drop, Hr.
  - intros i b' Hi. apply lookup_snoc_Some in Hi as [[Hi Hb']|[-> <-]].
    + destruct (Hs i b' Hb') as (o & Ho & Hgo & Hsl). exists o.
      rewrite !lookup_insert_ne; [|congruence|by intros ->; eapply Hin, list_elem_of_lookup_2].
      split; [done|]. split; [done|]. rewrite <- Hsl.
      apply sub_list_inserts_other; rewrite ?length_page_bytes; lia.
    + exists (mk_obj b KPRP). rewrite lookup_insert_ne, lookup_insert_eq by done.
      split; [done|]. split; [done|]. cbn [o_buf].
      apply sub_list_inserts; rewrite ?length_page_bytes; lia.
Qed.

(** The state after these rounds. *)
Record posted (cmd qb : loc) (b0 : buffer) (len : nat) (bufs : list loc) (st : psd * iosq) : Prop := {
  pp_cmd : exists c addr lba, sqes (fst st) !! cmd = Some (page_command opcode c addr lba)
    /\ 0 <= c < 2 ^ 16
    /\ forall b, bufs !! pred (length bufs) = Some b -> exists o, heap (fst st) !! b = Some o
         /\ addr = phys_addr (o_buf o) /\ c = Z.of_nat (length bufs) - 1 /\ lba = c;
  pp_queue : sq_queue (snd st) = Some qb;
  pp_mem : exists mem, heap (fst st) !! qb = Some (mk_obj (with_ptr mem b0) KPRP)
    /\ slots bufs (heap (fst st)) (b_ptr b0) mem;
  pp_tracked : exists l, sq_list (snd st) = Some l /\ length l = len
    /\ forall i, (i < length bufs)%nat -> l !! i = Some (Some cmd);
  pp_bufs : NoDup (qb :: bufs);
  pp_heap : forall b, b ∈ bufs -> is_Some (heap (fst st) !! b) /\ b ∈ buf_refs (fst st)
}.

(** One more round. *)
Lemma posted_step cmd qb b0 len bufs st :
  posted cmd qb b0 len bufs st -> buffer_wf b0 ->
  Z.of_nat (length bufs) < n -> n <= Z.of_nat len -> n * 64 <= b_size b0 ->
  exists buf st', post_one fuel mk_buf cmd (Z.of_nat (length bufs)) st = (Ok buf, st')
    /\ posted cmd qb b0 len (bufs ++ [buf]) st'.
Proof.
  intros [(c & addr & lba & Hc & Hcr & _) Hq (mem & Hm & Hsl)
          (l & Hl & Hll & Htr) Hnd Href] Hwf Hk Hn Hsz.
  destruct st as [s q]. cbn [fst snd] in *. pose proof (wf_len _ Hwf).
  destruct (post_one_run cmd (Z.of_nat (length bufs)) s q c addr lba l qb
    (mk_obj (with_ptr mem b0) KPRP)) as (b & Hg & Hrun);
    try done; try lia; [|cbn; lia|].
  { apply buffer_wf_with_ptr; [done|apply Hsl|apply Hsl]. }
  set (buf := fresh (dom (heap s))) in *.
  assert (Hf : heap s !! buf = None) by (apply not_elem_of_dom, is_fresh).
  assert (Hnq : qb <> buf) by congruence.
  apply list.NoDup_cons in Hnd as [Hqn Hnd].
  assert (Hbn : buf ∉ bufs) by (intros Hin; destruct (Href _ Hin) as [[? ?] _]; congruence).
  do 2 eexists. split; [exact Hrun|]. cbn [o_buf with_ptr b_ptr].
  split; cbn [fst snd heap sqes buf_refs sq_queue sq_list].
  - do 3 eexists. split; [apply lookup_insert_eq|]. split; [eval_pow; lia|].
    rewrite length_app, Nat.add_1_r. cbn [pred]. rewrite lookup_app_r, Nat.sub_diag by done.
    intros b' [= <-]. eexists. rewrite lookup_insert_ne, lookup_insert_eq by done.
    split; [done|]. cbn [o_buf]. lia.
  - done.
  - eexists. split; [by rewrite lookup_insert_eq|]. apply slots_step; try done. lia.
  - eexists. split; [done|]. rewrite length_insert, length_app. split; [done|]. cbn [length].
    intros i Hi. destruct (decide (i = length bufs)) as [->|].
    + rewrite Nat2Z.id. apply list_lookup_insert_eq. lia.
    + rewrite list_lookup_insert_ne by lia. apply Htr. lia.
  - apply list.NoDup_cons. rewrite elem_of_app, list_elem_of_singleton. split; [by intros [?|?]|].
    apply list.NoDup_app. split; [done|]. split; [|apply list.NoDup_singleton].
    intros p Hp ->%list_elem_of_singleton. done.
  - intros b' [Hb'|Hb'%list_elem_of_singleton]%elem_of_app.
    + destruct (Href _ Hb') as [? ?]. split; [|by apply elem_of_app; left].
      by do 2 (apply lookup_insert_is_Some'; right).
    + subst b'. split; [|apply elem_of_app; right; constructor].
      apply lookup_insert_is_Some'. right. apply lookup_insert_is_Some'. by left.
Qed.

(** The whole burst, on a new command object. *)
Lemma post_all_run qb qo l s q :
  sq_list q = Some l -> sq_queue q = Some qb -> heap s !! qb = Some qo ->
  o_kind qo = KPRP -> buffer_wf (o_buf qo) ->
  n <= Z.of_nat (length l) -> n * 64 <= b_size (o_buf qo) ->
  exists cmd bufs st', post_all fuel opcode mk_buf n (s, q) = (Ok (cmd, bufs), st')
    /\ sqes s !! cmd = None /\ Z.of_nat (length bufs) = n
    /\ posted cmd qb (o_buf qo) (length l) bufs st'.
Proof.
  intros Hl Hq Ho Hk Hwf Hn Hsz. set (cmd := fresh (dom (sqes s))).
  exists cmd. unfold post_all.
  erewrite run_bind_ok by reflexivity. fold cmd.
  erewrite run_bind_ok.
  2:{ apply on_psd_ok. apply sqe_update_run with (e' := page_command opcode 0 0 0) (1 := lookup_insert_eq _ _ _).
      unfold page_command. by rewrite Z.mul_0_r, Z.add_0_r. }
  rewrite py_range_nat by lia. unfold with_sqe. cbn [heap sqes buf_refs].
  edestruct (mapM_grow (posted cmd qb (o_buf qo) (length l)) (post_one fuel mk_buf cmd)
    (Z.to_nat n)) with (s := (mk_psd (heap s)
      (<[cmd := page_command opcode 0 0 0]> (<[cmd := [opcode; 1; 0; 0; 0; 0; 0; 0; 0; 0; 0; 0; 0; 0; 0; 0]]> (sqes s)))
      (buf_refs s), q)) as (bufs & st' & Hrun & Hp & Hlen).
  - intros bufs st Hp Hlt. apply posted_step; try done; lia.
  - split; cbn [fst snd heap sqes].
    + exists 0, 0, 0. rewrite lookup_insert_eq. split; [done|]. split; [eval_pow; lia|]. done.
    + done.
    + exists (b_ptr (o_buf qo)). split; [rewrite Ho; by destruct qo as [[] ?]; cbn in *; subst|].
      split; try done. apply Hwf.
    + exists l. split; [done|]. split; [done|]. cbn. lia.
    + apply list.NoDup_singleton.
    + intros b Hb. by apply not_elem_of_nil in Hb.
  - exists bufs, st'. rewrite (run_bind_ok _ _ _ _ _ Hrun). split; [done|].
    split; [apply not_elem_of_dom, is_fresh|]. split; [lia|done].
Qed.
End Posting.

Section Bursts.
Variables (dma_zmalloc : loc -> Z -> option Z) (urandom : Z -> list Z).
(** Every allocation succeeds. *)
Hypothesis allocates : forall l size, is_Some (dma_zmalloc l size).

Lemma new_prp_run size pvalue ptype s b :
  buffer_cinit (dma_zmalloc (fresh (dom (heap s)))) urandom size buffer_name pvalue ptype = Ok b ->
  new_prp dma_zmalloc urandom size pvalue ptype s =
    (Ok (fresh (dom (heap s))), with_heap <[fresh (dom (heap s)) := mk_obj b KPRP]> s).
Proof. intros H. unfold new_prp, new_buffer. mrun. by rewrite H. Qed.

(** The contents a buffer starts with. *)
Definition filled (v : Z) (b : buffer) : Prop :=
  b_ptr b = replicate 4096 v /\ b_size b = 4096 /\ b_offset b = 0.

Lemma write_buf_spec i s :
  0 <= i < 256 -> exists b, filled i b
    /\ write_buf dma_zmalloc urandom i s = (Ok (fresh (dom (heap s))),
         with_heap <[fresh (dom (heap s)) := mk_obj b KPRP]> s).
Proof.
  intros Hi. destruct (allocates (fresh (dom (heap s))) 4096) as [phys Hd].
  eexists. split; [|apply new_prp_run, buffer_cinit_pattern; try done; eval_pow; lia].
  unfold filled. cbn [b_ptr b_size b_offset].
  by rewrite pattern_memory_byte by (try done; lia).
Qed.

Lemma read_buf_spec i s :
  exists b, filled 0 b
    /\ read_buf dma_zmalloc urandom i s = (Ok (fresh (dom (heap s))),
         with_heap <[fresh (dom (heap s)) := mk_obj b KPRP]> s).
Proof.
  destruct (allocates (fresh (dom (heap s))) 4096) as [phys Hd].
  exists (mk_buffer (replicate 4096 0) 4096 4096 (c_string buffer_name) phys 0 []).
  split; [done|]. apply new_prp_run. unfold buffer_cinit, buffer_init.
  change (to_uint 64 4096) with (Ok 4096). change (to_uint 32 0) with (Ok 0). mrun.
  rewrite Hd. done.
Qed.

(** The byte that fills the buffer of round [i], and the loop. *)
Definition burst_fill (writes : bool) (i : Z) : Z := if writes then i else 0.
Definition burst_opcode (writes : bool) : Z := if writes then 1 else 2.
Definition run_burst (writes : bool) (fuel : nat) (n : Z) : M (psd * iosq) (loc * list loc) :=
  if writes then post_writes dma_zmalloc urandom fuel n
  else post_reads dma_zmalloc urandom fuel n.

Lemma run_burst_posted writes fuel n qb qo l s q :
  0 <= n <= 256 ->
  sq_list q = Some l -> sq_queue q = Some qb -> heap s !! qb = Some qo ->
  o_kind qo = KPRP -> buffer_wf (o_buf qo) ->
  n <= Z.of_nat (length l) -> n * 64 <= b_size (o_buf qo) ->
  exists cmd bufs st', run_burst writes fuel n (s, q) = (Ok (cmd, bufs), st')
    /\ sqes s !! cmd = None /\ Z.of_nat (length bufs) = n
    /\ posted (burst_opcode writes) (fun i => filled (burst_fill writes i)) cmd qb (o_buf qo)
         (length l) bufs st'.
Proof.
  intros Hn Hl Hq Ho Hk Hwf Hlen Hsz.
  destruct writes; cbn [run_burst]; unfold post_writes, post_reads; eapply post_all_run;
    try done; try (eval_pow; lia); cbn [burst_fill]; intros i st Hi.
  - apply write_buf_spec. lia.
  - apply read_buf_spec.
Qed.
End Bursts.

(** C35. A burst of commands from one command object, as test_write_read_verify
    writes and reads: with allocations that succeed and a contiguous queue of
    at least [n] entries, the loop ends normally.  Slot [i] of the queue memory
    holds the command of round [i], with its own command id, LBA and data
    address, though every entry the queue object remembers is the same object,
    which in the end reads as the last command.  The buffers are distinct from
    each other and from the queue's memory, hold the byte [i] in a write burst,
    are kept alive by the list all commands share, and the queue memory after
    the [n] slots is unchanged. *)
Theorem burst_commands dma_zmalloc urandom writes fuel n qb qo l s q :
  (forall p size, is_Some (dma_zmalloc p size)) -> 0 <= n <= 256 ->
  sq_list q = Some l -> sq_queue q = Some qb -> heap s !! qb = Some qo ->
  o_kind qo = KPRP -> buffer_wf (o_buf qo) ->
  n <= Z.of_nat (length l) -> n * 64 <= b_size (o_buf qo) ->
  exists cmd bufs s' q' mem,
    run_burst dma_zmalloc urandom writes fuel n (s, q) = (Ok (cmd, bufs), (s', q'))
    /\ Z.of_nat (length bufs) = n /\ NoDup (qb :: bufs)
    /\ heap s' !! qb = Some (mk_obj (with_ptr mem (o_buf qo)) KPRP)
    /\ drop (64 * length bufs) mem = drop (64 * length bufs) (b_ptr (o_buf qo))
    /\ (forall i buf, bufs !! i = Some buf -> exists o e,
          heap s' !! buf = Some o /\ buf ∈ buf_refs s'
          /\ b_ptr (o_buf o) = replicate 4096 (burst_fill writes (Z.of_nat i))
          /\ e = page_command (burst_opcode writes) (Z.of_nat i) (phys_addr (o_buf o)) (Z.of_nat i)
          /\ sub_list (Z.of_nat i * 64) 64 mem = encode e
          /\ iosq_getitem q' (Z.of_nat i) = Ok (Some cmd)
          /\ (S i = length bufs -> sqes s' !! cmd = Some e)).
Proof.
  intros Hd Hn Hl Hq Ho Hk Hwf Hlen Hsz.
  destruct (run_burst_posted dma_zmalloc urandom Hd writes fuel n qb qo l s q)
    as (cmd & bufs & [s' q'] & Hrun & _ & Hbl & [Hcmd _ (mem & Hm & Hsl) Htr Hnd Href]); try done.
  destruct Hcmd as (c & addr & lba & Hc & _ & Hlast). destruct Htr as (l' & Hl' & Hll & Htr).
  cbn [fst snd] in *. exists cmd, bufs, s', q', mem.
  do 4 (split; [done|]). split; [apply Hsl|]. intros i buf Hi.
  destruct (sl_slot _ _ _ _ _ _ Hsl i buf Hi) as (o & Hbo & [Hp _] & Hmem).
  pose proof (lookup_lt_Some _ _ _ Hi).
  exists o. eexists. split; [done|]. split; [by eapply Href, list_elem_of_lookup_2|].
  split; [done|]. split; [done|]. split; [done|]. split.
  - unfold iosq_getitem, sq_len. rewrite Hl'. mrun. zbool.
    apply list_get_ok; [lia|]. rewrite Nat2Z.id. by apply Htr.
  - intros Hlen'. destruct (Hlast buf) as (o' & Hbo' & -> & -> & ->); [by rewrite <- Hlen'|].
    replace (Z.of_nat (length bufs) - 1) with (Z.of_nat i) in Hc by lia. congruence.
Qed.

(** ** test_send_cmd_different_qdepth: rounds over a whole queue *)
Section Rounds.
Context {C : Type} `{Mmio C}.
(** What the device does to the memory while the test sleeps: it knows the
    registers, and the objects' bytes may change. *)
Variable device : C -> psd -> psd.
Variable fuel : nat.

Abbreviation world := (C * (psd * iosq))%type.

Definition on_regs {A} (m : M C A) : M world A := fun '(c, st) =>
  let '(r, c') := m c in (r, (c', st)).
Definition on_queue {A} (m : M (psd * iosq) A) : M world A := fun '(c, st) =>
  let '(r, st') := m st in (r, (c, st')).

Definition sleep : M world unit := modify (fun '(c, (s, q)) => (c, (device c s, q))).

(** One round, with [index-1] as the test writes it: at [index = 0] it is -1. *)
Definition qdepth_round (cq : iocq) (qdepth i : Z) : M world unit :=
  let index := (i + 1) mod qdepth in
  cmd ← on_queue (on_psd (new_list ([0; 1] ++ replicate 14 0)));
  on_queue (iosq_setitem fuel (index - 1) cmd) ;;
  q ← gets (fun w => snd (snd w));
  on_regs (iosq_set_tail q index) ;;
  sleep ;;
  e ← on_queue (on_psd (iocq_getitem fuel cq (index - 1)));
  d ← lift (list_get e 3);
  py_assert (Z.shiftr d 17 =? 0) ;;
  e ← on_queue (on_psd (iocq_getitem fuel cq (index - 1)));
  d ← lift (list_get e 2);
  py_assert (Z.land d 0xffff =? index) ;;
  on_regs (iocq_set_head cq index).

Definition qdepth_rounds (cq : iocq) (qdepth : Z) : M world unit :=
  foreach (qdepth_round cq qdepth) (py_range 0 (qdepth * 3 + 3) 1).
End Rounds.

(** ** Indexes below zero *)
Definition queue_memory (qb : loc) (size : Z) (s : psd) : Prop :=
  exists o, heap s !! qb = Some o /\ o_kind o = KPRP /\ buffer_wf (o_buf o)
    /\ b_size (o_buf o) = size.

Lemma list_set_negative {A} (l : list A) i v :
  - Z.of_nat (length l) <= i < 0 ->
  list_set l i v = Ok (<[Z.to_nat (i + Z.of_nat (length l)) := v]> l).
Proof. intros H. unfold list_set, list_index. zbool. done. Qed.

(** Bytes stored before the memory of a buffer. *)
Definition stray_bytes (l : loc) (pos : Z) (bytes : list Z) (o : obj) (s : psd) : psd :=
  with_heap <[l := mk_obj (with_stray (b_stray (o_buf o) ++ enumerate_from pos bytes) (o_buf o)) (o_kind o)]> s.

Lemma with_stray_wf l b : buffer_wf b -> buffer_wf (with_stray l b).
Proof. by intros []; split. Qed.

Lemma enumerate_from_app k (l1 l2 : list Z) :
  enumerate_from k (l1 ++ l2) = enumerate_from k l1 ++ enumerate_from (k + Z.of_nat (length l1)) l2.
Proof.
  revert k. induction l1 as [|x l1 IH]; intros k; cbn [app enumerate_from length]; [by rewrite Z.add_0_r|].
  rewrite IH. do 3 f_equal. lia.
Qed.

Lemma stray_run pos bytes : forall k b, buffer_wf b -> pos + k + Z.of_nat (length bytes) <= 0 -> Forall is_byte bytes ->
  foreach (fun '(j, v) => setitem (IInt (pos + j)) (AInt v)) (enumerate_from k bytes) b
  = (Ok tt, with_stray (b_stray b ++ enumerate_from (pos + k) bytes) b).
Proof.
  induction bytes as [|v bytes IH]; intros k b Hwf Hp Hb; cbn [enumerate_from foreach].
  - rewrite app_nil_r. by destruct b.
  - apply Forall_cons_1 in Hb as [Hv Hb]. cbn [length] in Hp.
    rewrite (run_bind_ok _ _ _ _ _ (setitem_negative b (pos + k) v Hwf ltac:(lia) Hv)).
    rewrite (IH _ (with_stray (b_stray b ++ [(pos + k, v)]) b)) by (try apply with_stray_wf; try done; lia).
    cbn. rewrite <- app_assoc. by rewrite Z.add_assoc.
Qed.

Lemma stray_on_buffer l s o pos bytes :
  heap s !! l = Some o -> buffer_wf (o_buf o) -> pos + Z.of_nat (length bytes) <= 0 -> Forall is_byte bytes ->
  foreach (fun '(j, b) => on_buffer l (setitem (IInt (pos + j)) (AInt b))) (enumerate bytes) s
  = (Ok tt, stray_bytes l pos bytes o s).
Proof.
  intros Ho Hwf Hp Hb. rewrite (foreach_on_buffer (fun j b => setitem (IInt (pos + j)) (AInt b)) l 0 bytes s o Ho).
  rewrite stray_run by (done || lia). by rewrite Z.add_0_r.
Qed.

(** The writes of [write_dwords_run] (Psd.v) at a negative entry. *)
Lemma write_dwords_stray buf n e : forall i s o,
  heap s !! buf = Some o -> buffer_wf (o_buf o) -> n * 64 + i * 4 + 4 * Z.of_nat (length e) <= 0 ->
  Forall (fun d => 0 <= d < 2 ^ 32) e ->
  foreach (fun '(i, d) => write_dword buf (EInt n) i d) (enumerate_from i e) s =
  (Ok tt, stray_bytes buf (n * 64 + i * 4) (encode e) o s).
Proof.
  induction e as [|d e IH]; intros i s o Ho Hwf Hp He.
  { cbn [enumerate_from foreach encode mbind list_bind]. unfold stray_bytes. cbn [enumerate_from].
    rewrite app_nil_r, with_heap_id; [done|]. rewrite Ho. by destruct o as [[] ?]. }
  apply Forall_cons_1 in He as [Hd He]. cbn [length] in Hp.
  assert (Hw : write_dword buf (EInt n) i d s = (Ok tt, stray_bytes buf (n * 64 + i * 4) (le_bytes 4 d) o s)).
  { unfold write_dword. rewrite to_bytes_ok by (eval_pow; eval_pow; lia).
    unfold lift. etrans; [apply run_bind_ok; reflexivity|]. cbn [subscript].
    rewrite <- stray_on_buffer; try done; [|rewrite length_le_bytes; lia|apply le_bytes_are_bytes].
    apply foreach_ext. intros [j b]. by rewrite Z.add_assoc. }
  cbn [enumerate_from foreach]. rewrite (run_bind_ok _ _ _ _ _ Hw).
  rewrite (IH (i + 1) _ (mk_obj (with_stray (b_stray (o_buf o) ++ enumerate_from (n * 64 + i * 4) (le_bytes 4 d)) (o_buf o)) (o_kind o)));
    [|apply with_heap_lookup|by apply with_stray_wf|lia|done].
  f_equal. unfold stray_bytes. rewrite with_heap_twice. cbn [o_buf o_kind with_stray b_stray].
  change (encode (d :: e)) with (le_bytes 4 d ++ encode e). rewrite enumerate_from_app, length_le_bytes, app_assoc.
  by replace (n * 64 + (i + 1) * 4) with (n * 64 + i * 4 + Z.of_nat 4) by lia.
Qed.

(** The queue remembers the command as Python counts; its memory stays as it
    is, and the command goes before its first byte. *)
Lemma iosq_setitem_negative fuel s q index cmd e l qb o :
  sqes s !! cmd = Some e -> length e = 16%nat -> Forall (fun d => 0 <= d < 2 ^ 32) e ->
  sq_list q = Some l -> sq_queue q = Some qb -> heap s !! qb = Some o -> o_kind o = KPRP -> buffer_wf (o_buf o) ->
  - Z.of_nat (length l) <= index < 0 ->
  iosq_setitem fuel index cmd (s, q) =
    (Ok tt, (stray_bytes qb (index * 64) (encode e) o s,
             mk_iosq (sq_id q) (sq_queue q) (Some (<[Z.to_nat (index + Z.of_nat (length l)) := Some cmd]> l)))).
Proof.
  intros Hc Hlen He Hl Hq Ho Hk Hwf Hi. unfold iosq_setitem.
  erewrite run_bind_ok; [|apply on_psd_ok, load_sqe_run, Hc].
  erewrite run_bind_ok by reflexivity.
  erewrite run_bind_ok; [|rewrite Hlen; reflexivity].
  erewrite run_bind_ok; [|unfold sq_len; cbn [snd]; rewrite Hl; reflexivity].
  erewrite run_bind_ok; [|unfold py_assert; zbool; reflexivity].
  erewrite run_bind_ok; [|unfold lift; rewrite list_set_negative by done; reflexivity].
  erewrite run_bind_ok by reflexivity.
  unfold on_psd. cbn [snd]. rewrite Hq.
  erewrite run_bind_ok; [|unfold locate; erewrite run_bind_ok; [|by apply load_run];
                          rewrite Hk; reflexivity].
  cbn [fst snd]. erewrite run_bind_ok; [|by apply load_run].
  rewrite Hk. cbn [is_prp]. rewrite py_assert_bind.
  rewrite (write_dwords_stray qb index e 0 s o) by (try done; rewrite Hlen; lia).
  by rewrite Z.mul_0_l, Z.add_0_r.
Qed.

(** Reads change nothing. *)
Lemma getitem_int_state b0 i : preserves (eq b0) (getitem_int i).
Proof.
  intros b <-. unfold getitem_int. mrun. destruct (b_size b0 <=? i); [done|].
  destruct (i <? 0); [done|]. by destruct (b_ptr b0 !! Z.to_nat i).
Qed.

Lemma data_int_state b byte_end byte_begin : snd (data_int byte_end byte_begin b) = b.
Proof.
  symmetry. revert b. intros b0.
  assert (H : preserves (eq b0) (data_int byte_end byte_begin)); [|by apply H].
  unfold data_int, data, getitem_slice.
  apply preserves_bind; [|intros []; auto with py_inv].
  apply preserves_bind; [|auto with py_inv].
  apply preserves_bind; [auto with py_inv|intros b].
  apply preserves_bind; [auto with py_inv|intros [[start stop] step]].
  apply preserves_mapM, getitem_int_state.
Qed.

Lemma read_dword_state s buf index i : snd (read_dword buf index i s) = s.
Proof.
  destruct index as [n|]; [|done]. unfold read_dword, on_buffer.
  destruct (heap s !! buf) as [o|] eqn:Ho; [|done].
  pose proof (data_int_state (o_buf o) (n * 16 + i * 4 + 3) (Some (n * 16 + i * 4))) as Hs.
  destruct (data_int _ _ (o_buf o)) as [r b]. cbn [snd] in *. subst b.
  apply with_heap_id. rewrite Ho. by destruct o.
Qed.

Lemma iocq_getitem_state fuel cq index s : snd (iocq_getitem fuel cq index s) = s.
Proof.
  symmetry. assert (H : preserves (eq s) (iocq_getitem fuel cq index)); [|by apply H].
  unfold iocq_getitem. apply preserves_bind; [auto with py_inv|intros _].
  apply preserves_bind; [intros s' <-; symmetry; apply locate_heap|intros at_].
  apply preserves_bind; [|intros o].
  { unfold load. apply preserves_bind; auto with py_inv. }
  apply preserves_bind; [auto with py_inv|intros _].
  apply preserves_bind; [|auto with py_inv].
  apply preserves_mapM. intros i s' <-. symmetry. apply read_dword_state.
Qed.

(** [buf.data(e, b)] with both below zero counts from the end of the buffer,
    and the slice that would end at its end is empty. *)
Lemma data_int_from_end b a :
  buffer_wf b -> 4 <= a <= b_size b ->
  data_int (- a + 3) (Some (- a)) b =
    (Ok (if a =? 4 then 0 else from_le (sub_list (b_size b - a) 4 (b_ptr b))), b).
Proof.
  intros Hwf Ha. unfold data_int, data. cbn [from_option]. unfold id.
  replace (- a + 3 + 1) with (- a + 4) by lia.
  set (r := if a =? 4 then [] else sub_list (b_size b - a) 4 (b_ptr b)).
  assert (Hr : getitem_slice (mk_slice (Some (- a)) (Some (- a + 4)) None) b = (Ok r, b)).
  { subst r. destruct (Z.eqb_spec a 4) as [->|Hne].
    - rewrite (getitem_slice_run b Hwf _ (b_size b - 4) 0 1).
      + unfold py_range, range_len. zbool. rewrite Z.div_1_r.
        by replace (Z.to_nat _) with O by lia.
      + unfold slice_indices. cbn [s_start s_stop s_step from_option]. unfold id. zbool. do 3 f_equal; lia.
    - rewrite <- (getitem_sub_list b (b_size b - a) 4) by (try done; lia).
      unfold getitem_slice, buffer_len. unfold mbind, M_bind, get, lift.
      replace (slice_indices (mk_slice (Some (- a)) (Some (- a + 4)) None) (b_size b))
        with (slice_indices (mk_slice (Some (b_size b - a)) (Some (b_size b - a + 4)) None) (b_size b));
        [done|].
      unfold slice_indices. cbn [s_start s_stop s_step from_option]. unfold id. zbool. do 3 f_equal; lia. }
  erewrite run_bind_ok; [|rewrite (run_bind_ok _ _ _ _ _ Hr); reflexivity].
  subst r. by destruct (a =? 4).
Qed.

(** The completion a test reads at index -1: the last bytes of the memory, and
    always zero in its last dword, where the status is. *)
Lemma iocq_getitem_last fuel cq s cb o :
  cq_queue cq = Some cb -> heap s !! cb = Some o -> o_kind o = KPRP -> buffer_wf (o_buf o) ->
  16 <= b_size (o_buf o) -> 0 <= cq_qsize cq ->
  let dword k := from_le (sub_list (b_size (o_buf o) - k) 4 (b_ptr (o_buf o))) in
  iocq_getitem fuel cq (-1) s = (Ok [dword 16; dword 12; dword 8; 0], s).
Proof.
  intros Hq Ho Hk Hwf Hs Hqs. cbv zeta.
  unfold iocq_getitem. rewrite py_assert_bind. zbool. rewrite Hq.
  erewrite run_bind_ok; [|unfold locate; erewrite run_bind_ok; [|by apply load_run];
                          rewrite Hk; reflexivity].
  cbn [fst snd]. erewrite run_bind_ok; [|by apply load_run].
  rewrite Hk. cbn [is_prp]. rewrite py_assert_bind.
  assert (Hd : forall i a v, (-1) * 16 + i * 4 = - a -> 4 <= a <= 16 ->
    v = (if a =? 4 then 0 else from_le (sub_list (b_size (o_buf o) - a) 4 (b_ptr (o_buf o)))) ->
    read_dword cb (EInt (-1)) i s = (Ok v, s)).
  { intros i a v Hi Ha ->. unfold read_dword. rewrite Hi, (on_buffer_run _ _ _ _ Ho).
    rewrite data_int_from_end by (try done; lia). cbn [fst snd].
    by rewrite with_heap_id by (rewrite Ho; by destruct o). }
  cbn [mapM]. rewrite !bind_assoc.
  rewrite (run_bind_ok _ _ _ _ _ (Hd 0 16 _ eq_refl ltac:(lia) eq_refl)).
  unfold mbind, M_bind.
  rewrite (Hd 1 12 _ eq_refl ltac:(lia) eq_refl), (Hd 2 8 _ eq_refl ltac:(lia) eq_refl),
    (Hd 3 4 _ eq_refl ltac:(lia) eq_refl). done.
Qed.

(** The buffer of a completion queue of [qdepth] entries: its last 16 bytes, past
    the entries, are still zero. *)
Definition zero_tail (b : buffer) : Prop := sub_list (b_size b - 16) 16 (b_ptr b) = replicate 16 0.
Definition completion_memory (cb : loc) (qdepth : Z) (s : psd) : Prop :=
  exists o, heap s !! cb = Some o /\ o_kind o = KPRP /\ buffer_wf (o_buf o) /\ (qdepth + 1) * 16 <= b_size (o_buf o)
    /\ zero_tail (o_buf o).
Definition memories (qb cb : loc) (size qdepth : Z) (s : psd) : Prop :=
  queue_memory qb size s /\ completion_memory cb qdepth s.

(** The test's command: a flush of namespace 1. *)
Definition flush_sqe : list Z := [0; 1] ++ replicate 14 0.

Section RoundLemmas.
Context {C : Type} `{Mmio C}.
Variables (device : C -> psd -> psd) (fuel : nat) (qb cb : loc) (size qdepth : Z) (cq : iocq).
(** The device changes bytes, not objects, and none past the entries. *)
Hypothesis device_keeps : forall c s, memories qb cb size qdepth s -> memories qb cb size qdepth (device c s).
Hypothesis cq_at : cq_queue cq = Some cb.
Hypothesis cq_size : 0 <= cq_qsize cq.
Hypothesis apart : qb <> cb.
Hypothesis qdepth_pos : 0 < qdepth.
Hypothesis fits : qdepth * 64 <= size.

Definition ready (w : C * (psd * iosq)) : Prop :=
  sq_queue (snd (snd w)) = Some qb /\ memories qb cb size qdepth (fst (snd w))
  /\ exists l, sq_list (snd (snd w)) = Some l /\ Z.of_nat (length l) = qdepth.

Lemma flush_sqe_u32 : Forall (fun d => 0 <= d < 2 ^ 32) flush_sqe.
Proof. each (eval_pow; lia). Qed.

(** What follows the write of the command in a round. *)
Lemma ready_regs {A} (m : M C A) : preserves (ready) (on_regs m).
Proof. intros [c st] Hr. unfold on_regs. by destruct (m c). Qed.

Lemma ready_read {A} (m : M psd A) :
  (forall s, snd (m s) = s) -> preserves (ready) (on_queue (on_psd m)).
Proof.
  intros Hm [c [s q]] Hr. unfold on_queue, on_psd. specialize (Hm s).
  destruct (m s) as [r s']. cbn [snd] in *. by subst.
Qed.

Lemma ready_sleep : preserves (ready) (sleep device).
Proof. intros [c [s q]] (Hq & Hm & Hl). split; [done|]. split; [by apply device_keeps|done]. Qed.

Lemma new_list_run s q e :
  let cmd := fresh (dom (sqes s)) in
  on_psd (new_list e) (s, q) = (Ok cmd, (with_sqe cmd e s, q)).
Proof. done. Qed.

Lemma on_queue_run {A} (m : M (psd * iosq) A) (c : C) st r st' :
  m st = (r, st') -> on_queue m (c, st) = (r, (c, st')).
Proof. intros Hm. unfold on_queue. by rewrite Hm. Qed.

(** The memory of the submission queue changes, the rest stays. *)
Lemma memories_write o s : memories qb cb size qdepth s -> buffer_wf (o_buf o) -> o_kind o = KPRP -> b_size (o_buf o) = size ->
  memories qb cb size qdepth (with_heap <[qb := o]> s).
Proof.
  intros [_ (oc & Hc & Hrest)] Hwf Hk Hs. split.
  - exists o. split; [apply with_heap_lookup|done].
  - exists oc. split; [|done]. cbn. by rewrite lookup_insert_ne.
Qed.

(** The write of the command at [index-1], whatever the index. *)
Lemma round_write index cmd c s q : ready (c, (s, q)) -> sqes s !! cmd = Some flush_sqe ->
  0 <= index < qdepth ->
  exists st, iosq_setitem fuel (index - 1) cmd (s, q) = (Ok tt, st) /\ ready (c, st).
Proof.
  intros (Hq & Hm & l & Hl & Hlen) Hc Hi. pose proof Hm as ((o & Ho & Hk & Hwf & Hsz) & _). cbn [fst snd] in *.
  destruct (decide (index = 0)) as [->|Hne].
  - eexists. split; [by apply (iosq_setitem_negative fuel s q (0 - 1) cmd flush_sqe l qb o Hc eq_refl flush_sqe_u32); try done; lia|].
    split; [done|]. cbn [fst snd sq_list]. split; [by apply memories_write; [| apply with_stray_wf| |]|].
    eexists. split; [done|]. by rewrite length_insert.
  - eexists. split; [by apply (iosq_setitem_run fuel s q (index - 1) cmd flush_sqe l qb o Hc eq_refl flush_sqe_u32); try done; lia|].
    split; [done|]. cbn [fst snd sq_list]. split.
    + apply memories_write; [done|by apply with_ptr_wf_inserts; [|apply encode_are_bytes]|done|done].
    + eexists. split; [done|]. by rewrite length_insert.
Qed.

(** Every round leaves the queue usable. *)
Lemma round_ready i : preserves (ready) (qdepth_round device fuel cq qdepth i).
Proof.
  intros [c [s q]] Hr. unfold qdepth_round. cbv zeta. set (index := (i + 1) mod qdepth) in *.
  assert (Hb : 0 <= index < qdepth) by (apply Z.mod_pos_bound; lia).
  erewrite run_bind_ok by apply on_queue_run, new_list_run.
  destruct (round_write index (fresh (dom (sqes s))) c (with_sqe (fresh (dom (sqes s))) flush_sqe s) q)
    as (st & Hst & Hr1); [done|apply lookup_insert_eq|done|].
  rewrite (run_bind_ok _ _ _ _ _ (on_queue_run _ c _ _ _ Hst)).
  revert Hr1. match goal with |- ready ?w -> ready (snd (?m ?w)) =>
    enough (Hm : preserves (ready) m) by apply Hm end.
  assert (Hget : forall n, preserves (ready) (on_queue (on_psd (iocq_getitem fuel cq n))))
    by (intros n; apply ready_read, iocq_getitem_state).
  pose proof ready_sleep. pose proof (@ready_regs).
  auto 20 with py_inv.
Qed.

(** What the test reads at -1 passes both of its checks. *)
Lemma completion_zero s : completion_memory cb qdepth s ->
  exists d0 d1, iocq_getitem fuel cq (0 - 1) s = (Ok [d0; d1; 0; 0], s).
Proof.
  intros (o & Ho & Hk & Hwf & Hs & Hz). do 2 eexists. change (0 - 1) with (-1).
  rewrite (iocq_getitem_last fuel cq s cb o) by (done || lia). do 5 f_equal.
  replace (sub_list (b_size (o_buf o) - 8) 4 (b_ptr (o_buf o))) with (sub_list 8 4 (sub_list (b_size (o_buf o) - 16) 16 (b_ptr (o_buf o)))).
  - rewrite Hz. by vm_compute.
  - rewrite sub_list_sub_list by lia. f_equal. lia.
Qed.

(** The round at index zero. *)
Lemma wrap_round i c s q : ready (c, (s, q)) -> (i + 1) mod qdepth = 0 ->
  exists o cmd s1 q1, heap s !! qb = Some o /\ sqes s1 !! cmd = Some flush_sqe
    /\ heap s1 = <[qb := mk_obj (with_stray (b_stray (o_buf o) ++ enumerate_from (-64) (encode flush_sqe)) (o_buf o)) KPRP]> (heap s)
    /\ iosq_getitem q1 (qdepth - 1) = Ok (Some cmd)
    /\ qdepth_round device fuel cq qdepth i (c, (s, q))
       = (on_regs (iosq_set_tail q1 0) ;; sleep device ;; on_regs (iocq_set_head cq 0)) (c, (s1, q1)).
Proof.
  intros (Hq & Hm & l & Hl & Hlen) Hi. pose proof Hm as ((o & Ho & Hk & Hwf & Hsz) & _). cbn [fst snd] in *.
  set (cmd := fresh (dom (sqes s))). set (s0 := with_sqe cmd flush_sqe s).
  pose proof (iosq_setitem_negative fuel s0 q (0 - 1) cmd flush_sqe l qb o (lookup_insert_eq _ _ _) eq_refl flush_sqe_u32
    Hl Hq Ho Hk Hwf ltac:(lia)) as Hset.
  exists o, cmd, (stray_bytes qb (-64) (encode flush_sqe) o s0), (mk_iosq (sq_id q) (sq_queue q) (Some (<[Z.to_nat (0 - 1 + Z.of_nat (length l)) := Some cmd]> l))).
  split; [done|]. split; [apply lookup_insert_eq|]. split; [by rewrite <- Hk|]. split.
  { unfold iosq_getitem, sq_len. cbn [sq_list]. mrun. rewrite length_insert. zbool. apply list_get_ok; [lia|].
    replace (0 - 1 + Z.of_nat (length l)) with (qdepth - 1) by lia. apply list_lookup_insert_eq. lia. }
  unfold qdepth_round. rewrite Hi. cbv zeta.
  erewrite run_bind_ok by apply on_queue_run, new_list_run.
  rewrite (run_bind_ok _ _ _ _ _ (on_queue_run _ c _ _ _ Hset)).
  set (q1 := mk_iosq _ _ _). set (s1 := stray_bytes _ _ _ _ _).
  assert (Hm1 : memories qb cb size qdepth s1) by (apply memories_write; [done|by apply with_stray_wf|done|done]).
  erewrite run_bind_ok by reflexivity. cbn [snd].
  destruct (on_regs (iosq_set_tail q1 0) (c, (s1, q1))) as [[[]|e] w1] eqn:E1; [|by rewrite !(run_bind_err _ _ _ _ _ E1)].
  assert (Hw1 : exists c1, w1 = (c1, (s1, q1))).
  { revert E1. unfold on_regs. destruct (iosq_set_tail q1 0 c) as [r c1]. intros [= _ <-]. by eexists. }
  destruct Hw1 as [c1 ->]. rewrite !(run_bind_ok _ _ _ _ _ E1), !(run_bind_ok (sleep device) _ _ tt (c1, (device c1 s1, q1))) by reflexivity.
  destruct (completion_zero (device c1 s1)) as (d0 & d1 & Hcpl); [by apply device_keeps|].
  assert (Hget : on_queue (on_psd (iocq_getitem fuel cq (0 - 1))) (c1, (device c1 s1, q1)) = (Ok [d0; d1; 0; 0], (c1, (device c1 s1, q1))))
    by by apply on_queue_run, on_psd_ok.
  rewrite (run_bind_ok _ _ _ _ _ Hget). erewrite run_bind_ok by reflexivity. erewrite run_bind_ok by reflexivity.
  rewrite (run_bind_ok _ _ _ _ _ Hget). by do 2 erewrite run_bind_ok by reflexivity.
Qed.
End RoundLemmas.

(** C36. The test over several queue depths leaves its queue's memory, and does
    not notice: at every wrap of the queue, in a round that comes after rounds
    that all passed, the index is 0 and the test writes its command to
    [sq[-1]].  The 64 bytes of the command go before the first byte of the
    queue's memory, in which nothing changes, while the queue's list remembers
    the command as its last entry.  The round then is only the two register
    writes and the sleep: the completion it reads at [cq[-1]] is taken from the
    last bytes of the buffer, whose last dword is read as zero and which are
    past the queue, so both assertions hold whatever completion the device posts
    or does not post.  The registers and the device do anything but replace the
    buffers or write past the entries of the completion queue. *)
Theorem qdepth_test_leaves_queue {C} `{Mmio C} device fuel qb cb size cq qdepth (w : C * (psd * iosq)) i c s q :
  (forall c s, memories qb cb size qdepth s -> memories qb cb size qdepth (device c s)) ->
  cq_queue cq = Some cb -> 0 <= cq_qsize cq -> qb <> cb ->
  ready qb cb size qdepth w -> 2 <= qdepth -> qdepth * 64 <= size ->
  0 <= i < qdepth * 3 + 3 -> (i + 1) mod qdepth = 0 ->
  foreach (qdepth_round device fuel cq qdepth) (py_range 0 i 1) w = (Ok tt, (c, (s, q))) ->
  exists o cmd s1 q1, heap s !! qb = Some o /\ sqes s1 !! cmd = Some flush_sqe
    /\ heap s1 = <[qb := mk_obj (with_stray (b_stray (o_buf o) ++ enumerate_from (-64) (encode flush_sqe)) (o_buf o)) KPRP]> (heap s)
    /\ iosq_getitem q1 (qdepth - 1) = Ok (Some cmd)
    /\ qdepth_round device fuel cq qdepth i (c, (s, q))
       = (on_regs (iosq_set_tail q1 0) ;; sleep device ;; on_regs (iocq_set_head cq 0)) (c, (s1, q1)).
Proof.
  intros Hdev Hcq Hcs Hne Hw Hq Hfit Hi Hz Hrun. apply (wrap_round device fuel qb cb size qdepth cq); [done|done|done|done|lia| |done].
  assert (Hp : preserves (ready qb cb size qdepth) (foreach (qdepth_round device fuel cq qdepth) (py_range 0 i 1))).
  { apply preserves_foreach. intros j. by apply round_ready; try lia. }
  specialize (Hp w Hw). by rewrite Hrun in Hp.
Qed.

Section ListLemmas.
Variables (dma_zmalloc : loc -> Z -> option Z) (urandom : Z -> list Z).
Hypothesis allocates : forall l size, is_Some (dma_zmalloc l size).

Lemma new_zero_run init s :
  exists b, filled 0 b /\ buffer_wf b
    /\ new_buffer dma_zmalloc urandom 4096 0 0 init s =
       (Ok (fresh (dom (heap s))), with_heap <[fresh (dom (heap s)) := init b]> s).
Proof.
  destruct (allocates (fresh (dom (heap s))) 4096) as [phys Hd].
  exists (mk_buffer (replicate (Z.to_nat 4096) 0) 4096 4096 (c_string buffer_name) phys 0 []).
  split; [done|]. split.
  { split; cbn [b_ptr b_size b_prp_size b_offset]; try (eval_pow; lia).
    - rewrite length_replicate. lia.
    - apply zeros_are_bytes. }
  unfold new_buffer, buffer_cinit, buffer_init.
  change (to_uint 64 4096) with (Ok 4096). change (to_uint 32 0) with (Ok 0). mrun.
  rewrite Hd. done.
Qed.

(** Storing a buffer in a list: its object in the Python list, its physical
    address in the memory. *)
Lemma prplist_setitem_run s self index buf o bl bo :
  heap s !! self = Some o -> o_kind o = KPRPList bl -> length bl = 512%nat ->
  buffer_wf (o_buf o) -> b_size (o_buf o) = 4096 -> heap s !! buf = Some bo ->
  0 <= index < 512 ->
  prplist_setitem self index buf s =
    (Ok tt, write_bytes self (index * 8) (le_bytes 8 (phys_addr (o_buf bo)))
       (mk_obj (o_buf o) (KPRPList (<[Z.to_nat index := Some buf]> bl))) s).
Proof.
  intros Ho Hk Hlen Hwf Hsz Hb Hi. unfold prplist_setitem.
  rewrite (run_bind_ok _ _ _ _ _ (load_run _ _ _ Hb)). rewrite py_assert_bind.
  change prp_per_list with 512. zbool.
  rewrite (run_bind_ok _ _ _ _ _ (load_run _ _ _ Ho)).
  erewrite run_bind_ok; [|unfold buf_list_of; rewrite Hk; reflexivity].
  erewrite run_bind_ok; [|unfold lift; rewrite list_set_ok by lia; reflexivity].
  erewrite run_bind_ok by reflexivity.
  assert (Ha : 0 <= phys_addr (o_buf bo) < 2 ^ 64) by (apply Z.mod_pos_bound; lia).
  unfold prp_store. rewrite to_bytes_ok by (eval_pow; eval_pow; lia).
  erewrite run_bind_ok by reflexivity.
  rewrite (store_on_buffer _ _ (mk_obj (o_buf o) (KPRPList (<[Z.to_nat index := Some buf]> bl))));
    cbn [o_buf]; try done; try lia; [|apply with_heap_lookup|..|apply le_bytes_are_bytes].
  - unfold write_bytes. by rewrite with_heap_twice.
  - rewrite length_le_bytes. lia.
Qed.

(** The index of one past the end is refused before anything changes. *)
Lemma prplist_setitem_past_end s self buf bo :
  heap s !! buf = Some bo -> prplist_setitem self 512 buf s = (Err AssertionError, s).
Proof. intros Hb. unfold prplist_setitem. by rewrite (run_bind_ok _ _ _ _ _ (load_run _ _ _ Hb)). Qed.
End ListLemmas.

(** A page of a list: a buffer of 4096 bytes used from its start. *)
Definition page (h : gmap loc obj) (b : loc) (bo : obj) : Prop :=
  h !! b = Some bo /\ o_kind bo = KBuffer /\ b_size (o_buf bo) = 4096 /\ b_offset (o_buf bo) = 0.

(** The loop of [find_buffer_by_offset] over the pages from entry [m] on. *)
Lemma find_pages rec h last (k : nat) (bl : list (option loc)) offset : forall d m,
  (forall i, (m <= i < k)%nat -> exists b bo, bl !! i = Some (Some b) /\ page h b bo) ->
  (m + d)%nat = Z.to_nat (offset / 4096) -> (m + d < k)%nat -> 0 <= offset ->
  exists b bo, find_loop rec h last offset (4096 * Z.of_nat m) (drop m bl)
    = Ok (Some (b, offset mod 4096)) /\ bl !! (m + d)%nat = Some (Some b) /\ page h b bo.
Proof.
  induction d as [|d IH]; intros m Hp Hm Hk Ho;
    destruct (Hp m ltac:(lia)) as (b & bo & Hb & Hbo & Hkd & Hsz & Hoff);
    rewrite (drop_S _ _ _ Hb); cbn [find_loop]; rewrite Hbo; mrun; cbn [deref];
    rewrite Hkd; cbn [is_prplist]; unfold buffer_len; rewrite Hsz, Hoff.
  - exists b, bo. rewrite Nat.add_0_r in *. zbool_hyps.
    assert (Hlt : (offset <? 4096 * Z.of_nat m + (4096 - 0)) = true) by (zbool; divmod).
    rewrite Hlt. split; [do 3 f_equal; divmod|done].
  - assert (Hge : (offset <? 4096 * Z.of_nat m + (4096 - 0)) = false) by (zbool; divmod).
    rewrite Hge. destruct (IH (S m)) as (b' & bo' & Hf & Hb' & Hpg); try lia.
    { intros i Hi. apply Hp. lia. }
    exists b', bo'. rewrite <- Hf. split; [f_equal; lia|].
    by replace (m + S d)%nat with (S m + d)%nat by lia.
Qed.

(** The pages after [k], the first unused entry. *)
Lemma find_past_pages rec h last (k : nat) (bl : list (option loc)) offset : forall d m,
  (m + d)%nat = k -> length bl = 512%nat -> (k <= 512)%nat ->
  (forall i, (m <= i < k)%nat -> exists b bo, bl !! i = Some (Some b) /\ page h b bo) ->
  (forall i, (k <= i < 512)%nat -> bl !! i = Some None) -> 4096 * Z.of_nat k <= offset ->
  find_loop rec h last offset (4096 * Z.of_nat m) (drop m bl)
  = if decide (k = 512%nat) then Ok None else Err AssertionError.
Proof.
  induction d as [|d IH]; intros m Hm Hlen Hk Hp Hn Ho.
  - replace m with k by lia. case_decide as Hd.
    + by rewrite drop_ge by lia.
    + by rewrite (drop_S bl None k) by (apply Hn; lia).
  - destruct (Hp m ltac:(lia)) as (b & bo & Hb & Hbo & Hkd & Hsz & Hoff).
    rewrite (drop_S _ _ _ Hb). cbn [find_loop]. rewrite Hbo. mrun. cbn [deref].
    rewrite Hkd. cbn [is_prplist]. unfold buffer_len. rewrite Hsz, Hoff.
    assert (Hge : (offset <? 4096 * Z.of_nat m + (4096 - 0)) = false) by (zbool; lia).
    rewrite Hge, <- (IH (S m)); try done; try lia; [f_equal; lia|].
    intros i Hi. apply Hp. lia.
Qed.

(** The list object after [k] rounds of test_prp_and_prp_list. *)
Record built (k : nat) (self : loc) (s : psd) : Prop := {
  bu_obj : exists b bl, heap s !! self = Some (mk_obj b (KPRPList bl)) /\ buffer_wf b
    /\ b_size b = 4096 /\ b_offset b = 0 /\ length bl = 512%nat
    /\ (forall i, (k <= i < 512)%nat -> bl !! i = Some None)
    /\ forall i, (i < k)%nat -> exists p po, bl !! i = Some (Some p) /\ page (heap s) p po
         /\ sub_list (8 * Z.of_nat i) 8 (b_ptr b) = le_bytes 8 (phys_addr (o_buf po))
}.

Section Building.
Variables (dma_zmalloc : loc -> Z -> option Z) (urandom : Z -> list Z).
Hypothesis allocates : forall l size, is_Some (dma_zmalloc l size).

Lemma built_start s : exists l s', new_prplist dma_zmalloc urandom s = (Ok l, s') /\ built 0 l s'.
Proof.
  destruct (new_zero_run dma_zmalloc urandom allocates prplist_init s)
    as (b & (_ & Hs & Ho) & Hwf & Hrun).
  do 2 eexists. split; [exact Hrun|]. split. do 2 eexists. split; [apply with_heap_lookup|].
  do 4 (split; [done|]). split; [|lia]. intros i Hi. apply lookup_replicate. split; [done|].
  change (Z.to_nat prp_per_list) with 512%nat. lia.
Qed.

Lemma built_step k l s :
  built k l s -> (k < 512)%nat ->
  exists s', (b ← new_plain_buffer dma_zmalloc urandom; prplist_setitem l (Z.of_nat k) b) s = (Ok tt, s')
    /\ built (S k) l s'.
Proof.
  intros [(b & bl & Hl & Hwf & Hsz & Hoff & Hlen & Hnone & Hpg)] Hk.
  destruct (new_zero_run dma_zmalloc urandom allocates (fun b => mk_obj b KBuffer) s)
    as (nb & (_ & Hns & Hno) & _ & Hrun).
  set (p := fresh (dom (heap s))) in *.
  assert (Hf : heap s !! p = None) by (apply not_elem_of_dom, is_fresh).
  assert (Hlp : l <> p) by congruence. pose proof (wf_len _ Hwf).
  eexists. split.
  { rewrite (run_bind_ok _ _ _ _ _ Hrun).
    apply (prplist_setitem_run _ l (Z.of_nat k) p (mk_obj b (KPRPList bl)) bl (mk_obj nb KBuffer));
      try done; [|apply with_heap_lookup|lia].
    cbn. by rewrite lookup_insert_ne. }
  split. do 2 eexists. split; [apply with_heap_lookup|]. cbn [o_buf with_ptr b_ptr].
  split; [apply with_ptr_wf_inserts; [done|apply le_bytes_are_bytes]|].
  do 2 (split; [done|]). rewrite length_insert, Nat2Z.id. split; [done|]. split.
  { intros i Hi. rewrite list_lookup_insert_ne by lia. apply Hnone. lia. }
  intros i Hi. destruct (decide (i = k)) as [->|Hne].
  - exists p, (mk_obj nb KBuffer). rewrite list_lookup_insert_eq by lia. split; [done|].
    split; [split; [|done]; cbn; by rewrite lookup_insert_ne, lookup_insert_eq|].
    replace (8 * Z.of_nat k) with (Z.of_nat k * 8) by lia.
    apply sub_list_inserts; rewrite ?length_le_bytes; lia.
  - destruct (Hpg i ltac:(lia)) as (q & qo & Hq & (Hqo & Hqp) & Hmem). exists q, qo.
    rewrite list_lookup_insert_ne by done. split; [done|].
    split; [split; [|done]|].
    + cbn. rewrite !lookup_insert_ne; [done|congruence|]. intros <-.
      rewrite Hl in Hqo. injection Hqo as <-. by destruct Hqp.
    + rewrite <- Hmem. apply sub_list_inserts_other; rewrite ?length_le_bytes; lia.
Qed.

Lemma built_list count s :
  0 <= count <= 512 ->
  exists l s', prp_and_prp_list dma_zmalloc urandom count s = (Ok l, s')
    /\ built (Z.to_nat count) l s'.
Proof.
  intros Hc. destruct (built_start s) as (l & s1 & Hrun & Hb).
  unfold prp_and_prp_list. rewrite (run_bind_ok _ _ _ _ _ Hrun). rewrite py_range_nat by lia.
  assert (Hg : forall m k s, built k l s -> (k + m <= 512)%nat -> exists s',
    foreach (fun i => b ← new_plain_buffer dma_zmalloc urandom; prplist_setitem l i b)
      (Z.of_nat <$> seq k m) s = (Ok tt, s') /\ built (k + m) l s').
  { induction m as [|m IH]; intros k s2 Hk Hm; [exists s2; by rewrite Nat.add_0_r|].
    destruct (built_step k l s2 Hk) as (s3 & Hr & Hb3); [lia|].
    destruct (IH (S k) s3 Hb3) as (s4 & Hr4 & Hb4); [lia|].
    exists s4. cbn [seq fmap list_fmap foreach]. rewrite (run_bind_ok _ _ _ _ _ Hr).
    split; [done|]. by replace (k + S m)%nat with (S k + m)%nat by lia. }
  destruct (Hg (Z.to_nat count) O s1 Hb) as (s2 & Hr & Hb2); [lia|].
  exists l, s2. by rewrite (run_bind_ok _ _ _ _ _ Hr).
Qed.
End Building.

(** A list that test_prp_and_prp_list fills with [count] buffers.  Byte number
    [offset] of it is in the buffer at entry [offset / 4096], both for
    [find_buffer_by_offset] and for a device that reads the list's memory: the
    address there is the physical address of that buffer.  Past the last buffer
    [find_buffer_by_offset] asserts, or finds nothing in a full list; entry 512
    is refused. *)
Theorem prp_list_read_back dma_zmalloc urandom count s fuel offset :
  (forall l size, is_Some (dma_zmalloc l size)) -> 0 <= count <= 512 -> 0 <= offset ->
  exists l s' o, prp_and_prp_list dma_zmalloc urandom count s = (Ok l, s') /\ heap s' !! l = Some o
    /\ (if offset <? count * 4096
        then exists b bo,
          find_buffer_by_offset (S fuel) (heap s') l offset 0 = Ok (Some (b, offset mod 4096))
          /\ heap s' !! b = Some bo
          /\ from_le (sub_list (8 * (offset / 4096)) 8 (b_ptr (o_buf o))) = phys_addr (o_buf bo)
        else find_buffer_by_offset (S fuel) (heap s') l offset 0
             = if decide (Z.to_nat count = 512%nat) then Ok None else Err AssertionError)
    /\ fst (prp_and_prp_list_invalid dma_zmalloc urandom s) = Err AssertionError.
Proof.
  intros Hal Hc Ho.
  destruct (built_list dma_zmalloc urandom Hal count s Hc)
    as (l & s' & Hrun & [(b & bl & Hl & Hwf & Hsz & Hoff & Hlen & Hnone & Hpg)]).
  exists l, s', (mk_obj b (KPRPList bl)). do 2 (split; [done|]).
  destruct (lookup_lt_is_Some_2 bl 511) as [last Hlast]; [lia|].
  assert (Hfind : find_buffer_by_offset (S fuel) (heap s') l offset 0
    = find_loop (find_buffer_by_offset fuel (heap s')) (heap s') last offset (4096 * Z.of_nat 0) (drop 0 bl)).
  { cbn [find_buffer_by_offset]. rewrite Hl. mrun. cbn [deref o_kind buf_list_of o_buf].
    rewrite (list_get_ok bl (prp_per_list - 1) last) by done. by rewrite Hoff. }
  rewrite Hfind. split.
  - destruct (Z.ltb_spec offset (count * 4096)) as [Hlt|Hge].
    + destruct (find_pages (find_buffer_by_offset fuel (heap s')) (heap s') last (Z.to_nat count)
        bl offset (Z.to_nat (offset / 4096)) 0) as (p & po & Hf & Hb & Hpo & _);
        [intros i Hi; destruct (Hpg i ltac:(lia)) as (p & po & ? & ? & _); eauto|lia|divmod|done|].
      exists p, po. split; [done|]. split; [done|].
      destruct (Hpg (Z.to_nat (offset / 4096))) as (p' & po' & Hb' & [Hpo' _] & Hmem); [divmod|].
      assert (p' = p) as -> by (cbn in Hb; congruence). assert (po' = po) as -> by congruence.
      rewrite Z2Nat.id in Hmem by divmod. cbn [o_buf]. rewrite Hmem.
      apply from_le_le_bytes_small, Z.mod_pos_bound. lia.
    + apply (find_past_pages _ _ _ (Z.to_nat count) bl offset (Z.to_nat count) 0);
        try done; try lia.
      intros i Hi; destruct (Hpg i ltac:(lia)) as (p & po & ? & ? & _); eauto.
  - destruct (new_zero_run dma_zmalloc urandom Hal prplist_init s) as (b1 & _ & _ & H1).
    unfold prp_and_prp_list_invalid, new_prplist, new_plain_buffer.
    rewrite (run_bind_ok _ _ _ _ _ H1).
    edestruct (new_zero_run dma_zmalloc urandom Hal (fun b => mk_obj b KBuffer)) as (b2 & _ & _ & H2).
    rewrite (run_bind_ok _ _ _ _ _ H2).
    by erewrite prplist_setitem_past_end by apply with_heap_lookup.
Qed.

(** ** Examples and witnesses *)
Definition example_zmalloc (l : loc) (size : Z) : option Z := Some (4096 * Zpos l).
Definition empty_psd : psd := mk_psd ∅ ∅ [].

(** The assertions of test_iocq_prplist. *)
Example iocq_prplist_passes :
  match fst (iocq_prplist example_zmalloc zero_urandom 3 empty_psd) with
  | Ok (p, [page0; _; _; page3], found) =>
      found = [Some (p, 4096 - 64); Some (page0, 16); Some (page3, 3648)]
  | _ => False
  end.
Proof. vm_compute. reflexivity. Qed.

Definition burst_psd : psd := mk_psd {[1%positive := mk_obj (example_buffer 4096) KPRP]} ∅ [].
Definition burst_sq : iosq := mk_iosq 1 (Some 1%positive) (Some (replicate 64 None)).

Lemma burst_commands_witness :
  exists cmd bufs s' q',
    run_burst example_zmalloc zero_urandom true 9 10 (burst_psd, burst_sq) = (Ok (cmd, bufs), (s', q'))
    /\ Z.of_nat (length bufs) = 10 /\ NoDup (1%positive :: bufs).
Proof.
  destruct (burst_commands example_zmalloc zero_urandom true 9 10 1
    (mk_obj (example_buffer 4096) KPRP) (replicate 64 None) burst_psd burst_sq)
    as (cmd & bufs & s' & q' & mem & Hrun & Hlen & Hnd & _);
    [by eexists|lia|reflexivity|reflexivity|reflexivity|reflexivity|apply example_buffer_wf; lia
    |vm_compute; discriminate|vm_compute; discriminate|].
  exists cmd, bufs, s', q'. by split_and!.
Defined.

(** One register, whatever the address, and a device that posts a success completion
    for each new command, in a queue of seven: its queue head is the tail. *)
Definition example_get (a : Z) : M Z Z :=
  if a mod 4 =? 0 then get else raise AssertionError.
Definition example_set (a v : Z) : M Z unit :=
  if a mod 4 =? 0 then put v else raise AssertionError.
#[local] Instance example_mmio : Mmio Z.
Proof.
  refine {| mmio_get := example_get; mmio_set := example_set |}.
  - intros a s Ha. unfold example_get. by rewrite (proj2 (Z.eqb_neq _ _) Ha).
  - intros a v s Ha. unfold example_set. by rewrite (proj2 (Z.eqb_neq _ _) Ha).
Defined.

Definition example_device (tail : Z) (s : psd) : psd :=
  snd (on_buffer 2 (setitem (ISlice (mk_slice (Some ((tail - 1) mod 7 * 16 + 8)) None None))
                            (ASeq (le_bytes 2 tail))) s).
Definition rounds_psd : psd :=
  mk_psd {[1%positive := mk_obj (example_buffer 4096) KPRP;
           2%positive := mk_obj (example_buffer 4096) KPRP]} ∅ [].
Definition rounds_world : Z * (psd * iosq) :=
  (0, (rounds_psd, mk_iosq 4 (Some 1%positive) (Some (replicate 7 None)))).

Lemma example_device_keeps c s : memories 1 2 4096 7 s -> memories 1 2 4096 7 (example_device c s).
Proof.
  intros [(o1 & H1 & Hm1) (o & Ho & Hk & Hwf & Hs & Hz)].
  pose proof (Z.mod_pos_bound (c - 1) 7 ltac:(lia)) as Hc. unfold example_device. rewrite (on_buffer_run _ _ _ _ Ho).
  cbn [snd setitem]. set (pos := (c - 1) mod 7 * 16 + 8).
  rewrite (setitem_slice_run (mk_slice (Some pos) None None)); [|exact Hwf|unfold pos; cbn; lia|apply le_bytes_are_bytes].
  cbn [snd s_start default]. unfold pos. clear pos. split; [exists o1; by cbn; rewrite lookup_insert_ne|].
  eexists. split; [apply with_heap_lookup|].
  cbn [o_buf o_kind]. split; [done|]. split; [apply with_ptr_wf_inserts; [done|apply le_bytes_are_bytes]|].
  split; [done|]. unfold zero_tail. cbn [with_ptr b_size b_ptr]. rewrite sub_list_inserts_other; [done|cbn; lia|lia|].
  right. rewrite length_le_bytes. cbn. lia.
Qed.

Lemma qdepth_test_leaves_queue_witness :
  exists c s q s1 q1 cmd, foreach (qdepth_round example_device 9 (mk_iocq 4 (Some 2%positive) 7) 7) (py_range 0 6 1) rounds_world
      = (Ok tt, (c, (s, q)))
    /\ iosq_getitem q1 6 = Ok (Some cmd)
    /\ qdepth_round example_device 9 (mk_iocq 4 (Some 2%positive) 7) 7 6 (c, (s, q))
       = (on_regs (iosq_set_tail q1 0) ;; sleep example_device ;; on_regs (iocq_set_head (mk_iocq 4 (Some 2%positive) 7) 0)) (c, (s1, q1)).
Proof.
  assert (Hok : is_ok (fst (foreach (qdepth_round example_device 9 (mk_iocq 4 (Some 2%positive) 7) 7)
    (py_range 0 6 1) rounds_world)) = true) by (vm_compute; reflexivity).
  destruct (foreach _ _ rounds_world) as [[[]|e] [c [s q]]] eqn:E; [|discriminate Hok].
  destruct (qdepth_test_leaves_queue example_device 9 1 2 4096 (mk_iocq 4 (Some 2%positive) 7) 7 rounds_world 6 c s q)
    as (o & cmd & s1 & q1 & _ & _ & _ & H1 & H2).
  - exact example_device_keeps.
  - reflexivity.
  - cbn. lia.
  - discriminate.
  - split; [done|]. split; [|eexists; split; [reflexivity|reflexivity]]. split.
    + exists (mk_obj (example_buffer 4096) KPRP). do 2 (split; [done|]). split; [|done]. apply example_buffer_wf. lia.
    + exists (mk_obj (example_buffer 4096) KPRP). do 2 (split; [done|]). split; [apply example_buffer_wf; lia|].
      split; [cbn; lia|vm_compute; reflexivity].
  - lia.
  - lia.
  - lia.
  - reflexivity.
  - exact E.
  - exists c, s, q, s1, q1, cmd. split; [reflexivity|]. split; [exact H1|exact H2].
Defined.

Lemma prp_list_read_back_witness :
  exists l s', prp_and_prp_list example_zmalloc zero_urandom 3 empty_psd = (Ok l, s')
    /\ exists b, find_buffer_by_offset 1 (heap s') l 5000 0 = Ok (Some (b, 904)).
Proof.
  destruct (prp_list_read_back example_zmalloc zero_urandom 3 empty_psd 0 5000)
    as (l & s' & o & Hrun & _ & (b & bo & Hf & _) & _); [by eexists|lia|lia|].
  exists l, s'. split; [done|]. by exists b.
Defined.
