(* ===== verification/Recorder.v ===== *)
(** * Recorder: recording a trace and replaying it

    src/scripts/trace/recorder.py turns the lines of the kernel's trace pipe
    into four files per period of 300 seconds, one per queue, and the points of
    a diagram; [replay_logfile] of src/scripts/trace/test_replayer.py turns each
    file into the [io_sequence] of a worker.  Files are a map from names to
    contents; Archive.v has the archive that holds them in between.  A point of
    the diagram has its kind and length in place of its colour. *)
From Stdlib Require Import ZArith QArith Lia ZifyBool Ascii String List.
From stdpp Require Import base list numbers option gmap strings pretty sorting.
From S2P Require Import Prelude PyInt Text Psd.
Local Open Scope Z_scope.

(** ** Text *)
Definition is_space (c : ascii) : bool :=
  let n := N_of_ascii c in ((9 <=? n) && (n <=? 13) || (28 <=? n) && (n <=? 32))%N.
Definition newline : ascii := "010"%char.
Definition linesep : string := String newline "".

(** [s.split()]; [cur] is the word being read. *)
Fixpoint words (s cur : string) : list string :=
  match s with
  | "" => if decide (cur = "") then [] else [cur]
  | String c s' =>
      if is_space c then if decide (cur = "") then words s' "" else cur :: words s' ""
      else words s' (cur +:+ String c "")
  end%string.
Definition split (s : string) : list string := words s "".

(** The lines of a file, each with its end. *)
Fixpoint lines_from (s cur : string) : list string :=
  match s with
  | "" => if decide (cur = "") then [] else [cur]
  | String c s' =>
      let cur := cur +:+ String c "" in
      if decide (c = newline) then cur :: lines_from s' "" else lines_from s' cur
  end%string.
Definition lines (s : string) : list string := lines_from s "".

Definition contains (p s : string) : bool := match String.index 0 p s with Some _ => true | None => false end.

(** [int(s)] of a word: a sign, then digits with single underscores between. *)
Definition digit_value (c : ascii) : option Z :=
  let n := Z.of_N (N_of_ascii c) in if (48 <=? n) && (n <=? 57) then Some (n - 48) else None.
Fixpoint read_digits (s : string) (after_digit : bool) (acc : Z) : option Z :=
  match s with
  | "" => if after_digit then Some acc else None
  | String c s' =>
      match digit_value c with
      | Some d => read_digits s' true (10 * acc + d)
      | None => if after_digit && bool_decide (c = "_"%char) then read_digits s' false acc else None
      end
  end%string.
Definition sign (s : string) : Z * string :=
  match s with
  | String c s' => if decide (c = "-"%char) then (-1, s') else if decide (c = "+"%char) then (1, s') else (1, s)
  | EmptyString => (1, s)
  end.
Definition py_int (s : string) : res Z :=
  match read_digits (snd (sign s)) false 0 with Some n => Ok (fst (sign s) * n) | None => Err ValueError end.

(** ** The recorder *)
Inductive kind := KTrims | KWrite | KRead.
(** The directories and files, and the lists [X] (here in microseconds), [Y] and
    [C] of the diagram. *)
Record recorder := mk_rec {
  dirs : list string; openfiles : gmap string string; current_dir : option string; counter : Z;
  xs : list Z; ys : list Z; cs : list (kind * Z)
}.

Definition add_dir (d : string) (s : recorder) : recorder :=
  mk_rec (d :: dirs s) (openfiles s) (current_dir s) (counter s) (xs s) (ys s) (cs s).
Definition set_file (f text : string) (s : recorder) : recorder :=
  mk_rec (dirs s) (<[f := text]> (openfiles s)) (current_dir s) (counter s) (xs s) (ys s) (cs s).
Definition set_current (d : string) (s : recorder) : recorder :=
  mk_rec (dirs s) (openfiles s) (Some d) (counter s) (xs s) (ys s) (cs s).
Definition count_line (s : recorder) : recorder :=
  mk_rec (dirs s) (openfiles s) (current_dir s) (counter s + 1) (xs s) (ys s) (cs s).
Definition add_x (x : Z) (s : recorder) : recorder :=
  mk_rec (dirs s) (openfiles s) (current_dir s) (counter s) (xs s ++ [x]) (ys s) (cs s).
Definition add_y (y : Z) (s : recorder) : recorder :=
  mk_rec (dirs s) (openfiles s) (current_dir s) (counter s) (xs s) (ys s ++ [y]) (cs s).
Definition add_c (c : kind * Z) (s : recorder) : recorder :=
  mk_rec (dirs s) (openfiles s) (current_dir s) (counter s) (xs s) (ys s) (cs s ++ [c]).

Definition file_name (dirname_full : string) (qid : Z) : string := (dirname_full +:+ "/" +:+ pretty qid)%string.

(** [os.makedirs] refuses a directory that exists; opening truncates. *)
Definition create_trace_file (dirname_full dirname : string) : M recorder unit :=
  s ← get;
  if decide (current_dir s = Some dirname) then mret tt
  else
    (if decide (dirname_full ∈ dirs s) then raise FileExistsError else modify (add_dir dirname_full)) ;;
    foreach (fun i => modify (set_file (file_name dirname_full (i + 1)) "")) (py_range 0 4 1) ;;
    modify (set_current dirname).

Definition write (f text : string) : M recorder unit :=
  s ← get; modify (set_file f (default "" (openfiles s !! f) +:+ text))%string.

(** [line[i]] *)
Definition word (line : list string) (i : Z) : M recorder string := lift (list_get line i).

Definition trace_io_file (usec : Z) (line : list string) (f : string) : M recorder unit :=
  let usec := pretty usec in
  first ← word line 0;
  if decide (first = "trims"%string) then
    n ← word line 1; nrange ← lift (py_int n);
    let line := drop 2 line in
    foreach (fun i =>
      lba ← word line (2 * i); count ← word line (2 * i + 1);
      write f (String.concat " " [usec; "trims"; lba; count] +:+ linesep)%string) (py_range 0 nrange 1) ;;
    n ← word line (nrange * 2); last ← lift (py_int n);
    py_assert (last =? nrange)
  else if decide (first = "write"%string) then write f (String.concat " " (usec :: line) +:+ linesep)%string
  else if decide (first = "read"%string) then write f (String.concat " " (usec :: line) +:+ linesep)%string
  else if decide (first = "flush"%string) then write f (String.concat " " [usec; "flush"; "0"; "0"] +:+ linesep)%string
  else mret tt.

(** One point, by its kind and length instead of its colour; [math.log(1+n, 2)]
    needs [n > -1]. *)
Definition draw (usec : Z) (lba : M recorder string) (k : kind) (count : M recorder string) : M recorder unit :=
  modify (add_x usec) ;;
  lba ← lba; lba ← lift (py_int lba); modify (add_y lba) ;;
  count ← count; n ← lift (py_int count);
  (if n <=? -1 then raise ValueError else mret tt) ;;
  modify (add_c (k, n)).

Definition trace_io_diagram (line : list string) (usec : Z) : M recorder unit :=
  first ← word line 0;
  if decide (first = "trims"%string) then
    n ← word line 1; nrange ← lift (py_int n);
    let line := drop 2 line in
    foreach (fun i => draw usec (word line (2 * i)) KTrims (word line (2 * i + 1))) (py_range 0 nrange 1)
  else if decide (first = "write"%string) then
    draw usec (word line 1) KWrite (word line 2)
  else if decide (first = "read"%string) then
    draw usec (word line 1) KRead (word line 2)
  else mret tt.

Definition PERIOD : Z := 300000000.

(** One line of the pipe. *)
Definition record_line (base_dir : string) (time_base : Z) (l : string) : M recorder unit :=
  if negb (contains "pynvme" l) then mret tt
  else match split l with
       | _ :: usec :: qid :: line =>
           u ← lift (py_int usec);
           let global_usec := u - time_base in
           let dirname := pretty (global_usec / PERIOD) in
           let usec := global_usec mod PERIOD in
           let dirname_full := (base_dir +:+ "/" +:+ dirname)%string in
           create_trace_file dirname_full dirname ;;
           q ← lift (py_int qid);
           let f := file_name dirname_full q in
           s ← get;
           (if openfiles s !! f is Some _ then mret tt else raise KeyError) ;;
           trace_io_file usec line f ;;
           modify count_line ;;
           s ← get;
           if (counter s <? 1000 * 1000 * 10) && (counter s mod 100 =? 0) then trace_io_diagram line global_usec
           else mret tt
       | _ => raise ValueError
       end.

(** The lines, each with what the window has put into the queue before it; the
    lines that are left over are returned too. *)
Fixpoint record_lines (base_dir : string) (time_base : Z) (ls : list (option (option Z) * string))
    : M recorder (option Z * list (option (option Z) * string)) :=
  match ls with
  | [] => mret (None, [])
  | (Some state, _) :: ls' => mret (state, ls')
  | (None, l) :: ls' => record_line base_dir time_base l ;; record_lines base_dir time_base ls'
  end.

(** [recorder_run], after the old files were removed. *)
Definition recorder_run (base_dir first : string) (ls : list (option (option Z) * string))
    : M recorder (option Z * list (option (option Z) * string)) :=
  n ← word (split first) 1; time_base ← lift (py_int n);
  put (mk_rec [base_dir] ∅ None 0 [] [] []) ;;
  record_lines base_dir time_base ls.

(** ** The replayer *)

(** An entry of an [io_sequence]. *)
Record seq_io := mk_seq { sq_time : Q; sq_op : Z; sq_lba : Z; sq_count : Z }.

Definition opcode (name : string) : res Z :=
  match list_find (fun e => fst e = name)
          [("flush", 0); ("write", 1); ("read", 2); ("write_zeroes", 8); ("trims", 9)]%string with
  | Some (_, (_, v)) => Ok v
  | None => Err KeyError
  end.

(** [int(float(s)/accelerator)]; the recorder writes integers, and the quotient
    is the exact one, without the rounding of floats. *)
Definition scaled (time : Z) (accelerator : Q) : res Z :=
  if Qeq_bool accelerator 0 then Err ZeroDivisionError
  else let q := (inject_Z time / accelerator)%Q in Ok (Z.quot (Qnum q) (Zpos (Qden q))).

(** [while nlba: ...] *)
Fixpoint split_io (fuel : nat) (time : Q) (op slba nlba max_lba : Z) : res (list seq_io) :=
  if nlba =? 0 then Ok []
  else match fuel with
       | O => Err OutOfFuel
       | S fuel' =>
           let n := Z.min nlba max_lba in
           l ← split_io fuel' time op (slba + n) (nlba - n) max_lba;
           Ok (mk_seq time op slba n :: l)
       end.

Definition replay_line (max_lba : Z) (accelerator : Q) (l : string) : res (list seq_io) :=
  let line := split l in
  t ← list_get line 0; time ← py_int t; time ← scaled time accelerator;
  name ← list_get line 1; op ← opcode name;
  s ← list_get line 2; slba ← py_int s;
  n ← list_get line 3; nlba ← py_int n;
  let time := inject_Z time in
  if bool_decide ("write"%string ∈ line) || bool_decide ("read"%string ∈ line)
  then split_io (S (Z.to_nat nlba)) time op slba nlba max_lba
  else Ok [mk_seq time op slba nlba].

(** The sequence of a file, without the command that ends it. *)
Definition replay_file (max_lba : Z) (accelerator : Q) (text : string) : res (list seq_io) :=
  l ← mapM (replay_line max_lba accelerator) (lines text); Ok (concat l).

(** The files in the order they are replayed. *)
Definition replay_order (names : list string) : list string := merge_sort (fun a b => Is_true (String.leb a b)) names.

(** [mdts] in bytes, and the two words of the format in use. *)
Definition replay_max_lba (mdts format_support : Z) : Z :=
  mdts / Z.shiftl 1 (Z.land (Z.shiftr format_support 16) 255).

(** The sequence of a worker: the file, then a command at the end of the period. *)
Definition sequence (max_lba : Z) (accelerator : Q) (text : string) : res (list seq_io) :=
  l ← replay_file max_lba accelerator text;
  if Qeq_bool accelerator 0 then Err ZeroDivisionError
  else Ok (l ++ [mk_seq (inject_Z (300 * 1000000) / accelerator) 0 0 1]).

(** The sequences of the workers that run together, four files at a time. *)
Definition replay_group (zip : gmap string string) (files : list string) (max_lba : Z) (accelerator : Q) (start : Z)
    : res (list (list seq_io)) :=
  mapM (fun i => filepath ← list_get files (start + i); sequence max_lba accelerator (default "" (zip !! filepath))%string)
    (py_range 0 4 1).
Definition replay_sequences (zip : gmap string string) (max_lba : Z) (accelerator : Q) : res (list (list (list seq_io))) :=
  let files := replay_order (fst <$> map_to_list zip) in
  mapM (replay_group zip files max_lba accelerator) (py_range 0 (Z.of_nat (length files)) 4).

(** ** Text lemmas *)
Fixpoint all_chars (p : ascii -> bool) (s : string) : bool :=
  match s with EmptyString => true | String c s' => p c && all_chars p s' end.

Definition is_digit (c : ascii) : bool := match digit_value c with Some _ => true | None => false end.
Definition no_space (c : ascii) : bool := negb (is_space c).

(** A word of a line: what [split] can give. *)
Definition is_word (s : string) : Prop := s <> ""%string /\ all_chars no_space s = true.

Lemma all_chars_impl (p q : ascii -> bool) s : (forall c, p c = true -> q c = true) -> all_chars p s = true -> all_chars q s = true.
Proof. intros Hpq. induction s as [|c s IH]; [done|]. cbn. intros [H1 H2]%andb_prop. by rewrite (Hpq c H1), (IH H2). Qed.

Lemma all_chars_occurs p c s : p c = false -> all_chars p s = true -> occurs_in c s = false.
Proof.
  intros Hc. induction s as [|d s IH]; [done|]. cbn. intros [Hd Hs]%andb_prop. rewrite (IH Hs), orb_false_r.
  apply Ascii.eqb_neq. intros ->. congruence.
Qed.

Lemma digit_no_space c : is_digit c = true -> no_space c = true.
Proof. unfold is_digit, digit_value, no_space, is_space. destruct (_ && _) eqn:E; [|done]. intros _. lia. Qed.

Lemma digit_char d : (d < 10)%N -> digit_value (pretty_N_char d) = Some (Z.of_N d).
Proof. intros Hd. assert (d = 0 \/ d = 1 \/ d = 2 \/ d = 3 \/ d = 4 \/ d = 5 \/ d = 6 \/ d = 7 \/ d = 8 \/ d = 9)%N by lia.
  by destruct_or!; subst d. Qed.

Lemma pretty_N_go_digits x : forall s, all_chars is_digit s = true -> all_chars is_digit (pretty_N_go x s) = true.
Proof.
  induction (N.lt_wf_0 x) as [x _ IH]; intros s Hs. destruct (decide (0 < x)%N) as [Hx|Hx].
  - rewrite pretty_N_go_step by done. apply IH; [by apply N.div_lt|]. cbn.
    unfold is_digit at 1. rewrite digit_char by (apply N.mod_lt; lia). done.
  - replace x with 0%N by lia. by rewrite pretty_N_go_0.
Qed.

Lemma read_pretty_N_go x : forall s b, read_digits (pretty_N_go x s) b 0 =
  if decide (x = 0)%N then read_digits s b 0 else read_digits s true (Z.of_N x).
Proof.
  induction (N.lt_wf_0 x) as [x _ IH]; intros s b. destruct (decide (x = 0)%N) as [->|Hx]; [by rewrite pretty_N_go_0|].
  rewrite pretty_N_go_step by lia. rewrite IH by (apply N.div_lt; lia).
  pose proof (N.div_mod' x 10) as Hdm. pose proof (N.mod_lt x 10 ltac:(lia)) as Hm.
  cbn [read_digits]. rewrite !digit_char by done. destruct (decide (x `div` 10 = 0)%N); f_equal; lia.
Qed.

Lemma pretty_nonneg z : 0 <= z -> pretty z = pretty (Z.to_N z).
Proof. by destruct z. Qed.

Lemma pretty_digits z : 0 <= z -> all_chars is_digit (pretty z) = true /\ pretty z <> ""%string.
Proof.
  intros Hz. rewrite pretty_nonneg by done. unfold pretty, pretty_N. destruct (decide _); [done|].
  split; [by apply pretty_N_go_digits|]. intros E. assert (H := read_pretty_N_go (Z.to_N z) "" false). rewrite E in H.
  by rewrite decide_False in H by done.
Qed.

Lemma pretty_word z : 0 <= z -> is_word (pretty z).
Proof. intros Hz. destruct (pretty_digits z Hz) as [H1 H2]. split; [done|]. by apply (all_chars_impl is_digit); [apply digit_no_space|]. Qed.

(** [int(str(z))] *)
Lemma py_int_pretty z : 0 <= z -> py_int (pretty z) = Ok z.
Proof.
  intros Hz. destruct (pretty_digits z Hz) as [Hd Hne]. unfold py_int.
  assert (Hs : sign (pretty z) = (1, pretty z)).
  { destruct (pretty z) as [|c s]; [done|]. cbn in Hd. apply andb_prop in Hd as [Hc _]. unfold sign.
    rewrite !decide_False; [done| |]; by intros ->. }
  rewrite Hs. cbn [fst snd]. rewrite pretty_nonneg by done. unfold pretty, pretty_N.
  destruct (decide (Z.to_N z = 0)%N) as [E|E]; [assert (z = 0) as -> by lia; done|]. rewrite read_pretty_N_go, decide_False by done.
  cbn [read_digits]. f_equal. lia.
Qed.

(** *** Splitting *)
Lemma words_word t : forall cur c rest, all_chars no_space t = true -> is_space c = true -> (cur +:+ t <> "")%string ->
  words (t +:+ String c rest) cur = (cur +:+ t)%string :: words rest "".
Proof.
  induction t as [|d t IH]; intros cur c rest Ht Hc Hne; rewrite ?cons_app, ?nil_app; cbn [words].
  - rewrite Hc. rewrite app_empty in *. by rewrite decide_False.
  - cbn in Ht. apply andb_prop in Ht as [Hd Ht]. unfold no_space in Hd. apply negb_true_iff in Hd. rewrite Hd.
    rewrite IH by (done || by rewrite app_snoc). by rewrite app_snoc.
Qed.

Lemma split_join l : Forall is_word l -> l <> [] -> split (String.concat " " l +:+ linesep) = l.
Proof.
  intros Hl Hne. unfold split. induction Hl as [|t l [Ht1 Ht2] Hl IH]; [done|]. destruct l as [|u l].
  - change (String.concat " " [t]) with t. unfold linesep. by rewrite words_word.
  - change (String.concat " " (t :: u :: l)) with (t +:+ " " +:+ String.concat " " (u :: l))%string.
    rewrite !app_app, cons_app, nil_app, words_word by done. f_equal. by apply IH.
Qed.

Definition no_newline (c : ascii) : bool := bool_decide (c <> newline).

Lemma lines_line t : forall cur rest, all_chars no_newline t = true ->
  lines_from (t +:+ String newline rest) cur = (cur +:+ t +:+ linesep)%string :: lines_from rest "".
Proof.
  induction t as [|d t IH]; intros cur rest Ht; rewrite ?cons_app, ?nil_app; cbn [lines_from].
  - by rewrite decide_True.
  - cbn in Ht. apply andb_prop in Ht as [Hd%bool_decide_eq_true_1 Ht]. rewrite decide_False by done.
    rewrite IH by done. by rewrite app_snoc.
Qed.

Lemma lines_concat ls : Forall (fun t => all_chars no_newline t = true) ls ->
  lines (String.concat "" ((fun t => t +:+ linesep)%string <$> ls)) = (fun t => t +:+ linesep)%string <$> ls.
Proof.
  unfold lines. induction 1 as [|t ls Ht _ IH]; [done|]. rewrite fmap_cons, concat_cons, app_app. unfold linesep at 1.
  rewrite cons_app, nil_app, lines_line by done.
  by rewrite nil_app, IH.
Qed.

(** ** What is recorded *)
Inductive cmd := CWrite (lba n : Z) | CRead (lba n : Z) | CFlush | CTrims (l : list (Z * Z)).
Record event := mk_event { ev_usec : Z; ev_qid : Z; ev_cmd : cmd }.

Definition flat (l : list (Z * Z)) : list string := concat ((fun e => [pretty e.1; pretty e.2]) <$> l).

(** The words of a command in the trace. *)
Definition tokens (c : cmd) : list string :=
  match c with
  | CWrite lba n => ["write"; pretty lba; pretty n]
  | CRead lba n => ["read"; pretty lba; pretty n]
  | CFlush => ["flush"; "0"; "0"]
  | CTrims l => "trims" :: pretty (Z.of_nat (length l)) :: flat l ++ [pretty (Z.of_nat (length l))]
  end%string.

Definition cmd_ok (c : cmd) : Prop :=
  match c with
  | CWrite lba n | CRead lba n => 0 <= lba /\ 0 <= n
  | CFlush => True
  | CTrims l => Forall (fun e => 0 <= e.1 /\ 0 <= e.2) l
  end.

(** The words of its lines in a file. *)
Definition records (usec : Z) (c : cmd) : list (list string) :=
  match c with
  | CWrite lba n => [[pretty usec; "write"; pretty lba; pretty n]]
  | CRead lba n => [[pretty usec; "read"; pretty lba; pretty n]]
  | CFlush => [[pretty usec; "flush"; "0"; "0"]]
  | CTrims l => (fun e => [pretty usec; "trims"; pretty e.1; pretty e.2]) <$> l
  end%string.

Definition text (rs : list (list string)) : string :=
  String.concat "" ((fun r => String.concat " " r +:+ linesep)%string <$> rs).

Lemma text_app rs rs' : text (rs ++ rs') = (text rs +:+ text rs')%string.
Proof.
  unfold text. induction rs as [|r rs IH]; [done|]. rewrite <- app_comm_cons, !fmap_cons, !concat_cons, IH. by rewrite !app_app.
Qed.

Lemma set_file_twice f a b s : set_file f b (set_file f a s) = set_file f b s.
Proof. unfold set_file. cbn. by rewrite insert_insert_eq. Qed.

Lemma set_file_same f a s : openfiles s !! f = Some a -> set_file f a s = s.
Proof. intros H. unfold set_file. rewrite insert_id by done. by destruct s. Qed.

Lemma append_run f old t s : openfiles s !! f = Some old -> write f t s = (Ok tt, set_file f (old +:+ t) s)%string.
Proof. intros H. unfold write. rewrite (run_bind_ok get _ s s s) by done. by rewrite H. Qed.

Lemma flat_lookup l1 a b l2 x : let l := flat (l1 ++ (a, b) :: l2) ++ x in
  list_get l (2 * Z.of_nat (length l1)) = Ok (pretty a) /\ list_get l (2 * Z.of_nat (length l1) + 1) = Ok (pretty b).
Proof.
  intros l. assert (Hl : length (flat l1) = (2 * length l1)%nat).
  { unfold flat. induction l1 as [|e l1 IH]; [done|]. rewrite fmap_cons. cbn [concat length app]. rewrite IH. lia. }
  assert (E : l = flat l1 ++ pretty a :: pretty b :: (flat l2 ++ x)).
  { unfold l, flat. rewrite fmap_app, fmap_cons, concat_app, <- app_assoc. done. }
  assert (Hlen : (length l = 2 * length l1 + 2 + length (flat l2 ++ x))%nat) by (rewrite E, length_app, Hl; cbn; lia).
  unfold list_get, list_index. zbool. cbn [mbind res_bind]. rewrite E.
  split; rewrite lookup_app_r by lia; rewrite Hl;
    [replace (Z.to_nat _ - 2 * length l1)%nat with 0%nat by lia|replace (Z.to_nat _ - 2 * length l1)%nat with 1%nat by lia]; done.
Qed.

(** A loop over the pairs of a trims line. *)
Lemma foreach_pairs (g : M recorder string -> M recorder string -> M recorder unit) (h : recorder -> Z * Z -> recorder) (P : recorder -> Prop)
    line x l2 : forall l1 s, line = flat (l1 ++ l2) ++ x ->
  (forall e i j s, e ∈ l2 -> list_get line i = Ok (pretty e.1) -> list_get line j = Ok (pretty e.2) -> P s ->
    g (word line i) (word line j) s = (Ok tt, h s e) /\ P (h s e)) -> P s ->
  foreach (fun i => g (word line (2 * i)) (word line (2 * i + 1)))
    ((fun i => Z.of_nat (length l1) + Z.of_nat i) <$> seq 0 (length l2)) s
  = (Ok tt, foldl h s l2).
Proof.
  induction l2 as [|[a b] l2 IH]; intros l1 s Hl Hg HP; [done|]. cbn [length seq]. rewrite fmap_cons. cbn [foreach foldl].
  destruct (flat_lookup l1 a b l2 x) as [H1 H2]. rewrite <- Hl in H1, H2.
  destruct (Hg (a, b) _ _ s ltac:(left) H1 H2 HP) as [Hr HP'].
  rewrite Z.add_0_r, (run_bind_ok _ _ s tt (h s (a, b))) by done.
  rewrite <- (IH (l1 ++ [(a, b)]) (h s (a, b))); [|by rewrite <- app_assoc|intros e i j s' He; apply Hg; by right|done].
  f_equal. rewrite length_app. cbn [length]. rewrite <- seq_shift, <- list_fmap_compose. apply list_fmap_ext. intros ? ? _. cbn. lia.
Qed.

Lemma word_run line i t s : list_get line i = Ok t -> word line i s = (Ok t, s).
Proof. intros H. unfold word, lift. by rewrite H. Qed.

Lemma list_get_nat {A} (l : list A) i x : l !! i = Some x -> list_get l (Z.of_nat i) = Ok x.
Proof.
  intros H. pose proof (lookup_lt_Some _ _ _ H). unfold list_get, list_index. zbool. cbn. by rewrite Nat2Z.id, H.
Qed.

Lemma flat_length l : length (flat l) = (2 * length l)%nat.
Proof. unfold flat. induction l as [|e l IH]; [done|]. rewrite fmap_cons. cbn [concat length app]. rewrite IH. lia. Qed.

Lemma range_from_0 n : py_range 0 (Z.of_nat n) 1 = (fun i => Z.of_nat 0 + Z.of_nat i) <$> seq 0 n.
Proof. apply (py_range_step1 0 n). Qed.

(** *** One line in a file *)
Lemma trims_text usec f l : forall old s, openfiles s !! f = Some old ->
  foldl (fun s e => set_file f (default "" (openfiles s !! f)
     +:+ (String.concat " " [pretty usec; "trims"; pretty e.1; pretty e.2] +:+ linesep))%string s) s l
  = set_file f (old +:+ text (records usec (CTrims l)))%string s.
Proof.
  induction l as [|e l IH]; intros old s Ho; cbn [foldl].
  - unfold text. cbn. by rewrite app_empty, set_file_same.
  - rewrite Ho. cbn [default from_option id]. erewrite IH by (cbn; apply lookup_insert_eq). rewrite set_file_twice. f_equal.
    unfold text. cbn [records]. rewrite !fmap_cons, concat_cons. by rewrite app_app.
Qed.

Lemma trace_io_file_run usec c f old s : cmd_ok c -> openfiles s !! f = Some old ->
  trace_io_file usec (tokens c) f s = (Ok tt, set_file f (old +:+ text (records usec c))%string s).
Proof.
  intros Hc Ho. destruct c as [lba n|lba n| |l]; cbn [tokens].
  1-3: (unfold trace_io_file; rewrite (run_bind_ok _ _ s _ s) by (by apply word_run);
        repeat (first [rewrite decide_True by done|rewrite decide_False by done]); by apply append_run).
  unfold trace_io_file. rewrite (run_bind_ok _ _ s "trims"%string s) by (by apply word_run, (list_get_nat _ 0)). rewrite decide_True by done.
  set (n := Z.of_nat (length l)). rewrite (run_bind_ok _ _ s (pretty n) s) by (by apply word_run, (list_get_nat _ 1)).
  rewrite (run_bind_ok (lift _) _ s n s) by (unfold lift; by rewrite py_int_pretty by lia).
  change (drop 2 _) with (flat l ++ [pretty n]). cbv zeta. set (line := flat l ++ [pretty n]).
  replace (py_range 0 n 1) with ((fun i => Z.of_nat 0 + Z.of_nat i) <$> seq 0 (length l)) by (symmetry; apply range_from_0).
  assert (Hloop := foreach_pairs (fun lba count => lba ← lba; count ← count;
      write f (String.concat " " [pretty usec; "trims"; lba; count] +:+ linesep)%string)
    (fun s e => set_file f (default "" (openfiles s !! f)
     +:+ (String.concat " " [pretty usec; "trims"; pretty e.1; pretty e.2] +:+ linesep))%string s)
    (fun s => is_Some (openfiles s !! f)) line [pretty n] l [] s eq_refl).
  rewrite (trims_text usec f l old s Ho) in Hloop. erewrite run_bind_ok; [|apply Hloop; [|by eexists]].
  - assert (Hlast : list_get line (n * 2) = Ok (pretty n)).
    { replace (n * 2) with (Z.of_nat (2 * length l)) by lia. apply list_get_nat. unfold line.
      rewrite lookup_app_r by (rewrite flat_length; lia). by rewrite flat_length, Nat.sub_diag. }
    erewrite run_bind_ok by (by apply word_run). erewrite run_bind_ok by (unfold lift; by rewrite py_int_pretty by lia).
    by rewrite Z.eqb_refl.
  - intros e i j s' _ H1 H2 [x Hx]. erewrite run_bind_ok by (by apply word_run). erewrite run_bind_ok by (by apply word_run).
    split; [by rewrite (append_run f x) by done; rewrite Hx|]. cbn. rewrite lookup_insert_eq. by eexists.
Qed.

(** *** One line in the diagram *)
Definition add_point (u : Z) (k : kind) (a b : Z) (s : recorder) : recorder := add_c (k, b) (add_y a (add_x u s)).

Lemma draw_run line i j u k a b s : list_get line i = Ok (pretty a) -> list_get line j = Ok (pretty b) -> 0 <= a -> 0 <= b ->
  draw u (word line i) k (word line j) s = (Ok tt, add_point u k a b s).
Proof.
  intros Hi Hj Ha Hb. unfold draw. erewrite run_bind_ok by done. erewrite run_bind_ok by (by apply word_run).
  erewrite run_bind_ok by (unfold lift; by rewrite py_int_pretty). erewrite run_bind_ok by done.
  erewrite run_bind_ok by (by apply word_run). erewrite run_bind_ok by (unfold lift; by rewrite py_int_pretty).
  by zbool.
Qed.

(** Only the points change. *)
Definition same_files (s s' : recorder) : Prop :=
  dirs s' = dirs s /\ openfiles s' = openfiles s /\ current_dir s' = current_dir s.

Lemma trace_io_diagram_run u c s : cmd_ok c -> exists s', trace_io_diagram (tokens c) u s = (Ok tt, s') /\ same_files s s'.
Proof.
  intros Hc. unfold trace_io_diagram. destruct c as [lba n|lba n| |l]; cbn [tokens cmd_ok] in *.
  1,2: (destruct Hc; eexists; rewrite (run_bind_ok _ _ s _ s) by (by apply word_run, (list_get_nat _ 0));
        repeat (first [rewrite decide_True by done|rewrite decide_False by done]);
        split; [apply draw_run; [by apply (list_get_nat _ 1)|by apply (list_get_nat _ 2)|done|done]|done]).
  { exists s. rewrite (run_bind_ok _ _ s _ s) by (by apply word_run, (list_get_nat _ 0)). by rewrite !decide_False. }
  rewrite (run_bind_ok _ _ s "trims"%string s) by (by apply word_run, (list_get_nat _ 0)). rewrite decide_True by done.
  set (n := Z.of_nat (length l)). rewrite (run_bind_ok _ _ s (pretty n) s) by (by apply word_run, (list_get_nat _ 1)).
  rewrite (run_bind_ok (lift _) _ s n s) by (unfold lift; by rewrite py_int_pretty by lia).
  change (drop 2 _) with (flat l ++ [pretty n]). cbv zeta. set (line := flat l ++ [pretty n]).
  replace (py_range 0 n 1) with ((fun i => Z.of_nat 0 + Z.of_nat i) <$> seq 0 (length l)) by (symmetry; apply range_from_0).
  eexists. split.
  - apply (foreach_pairs (fun lba count => draw u lba KTrims count) (fun s e => add_point u KTrims e.1 e.2 s)
      (fun _ => True) line [pretty n] l [] s eq_refl); [|done].
    intros e i j s' He H1 H2 _. rewrite Forall_forall in Hc. destruct (Hc e He). split; [by apply draw_run|done].
  - clear. revert s. induction l as [|e l IH]; intros s; [done|]. cbn [foldl]. destruct (IH (add_point u KTrims e.1 e.2 s)) as (H1 & H2 & H3).
    by split_and!; rewrite ?H1, ?H2, ?H3.
Qed.

(** *** The files *)
Lemma pretty_no_slash z : 0 <= z -> occurs_in "/" (pretty z) = false.
Proof. intros Hz. destruct (pretty_digits z Hz) as [H _]. by apply (all_chars_occurs is_digit). Qed.

Definition dir_name (base_dir : string) (d : Z) : string := (base_dir +:+ "/" +:+ pretty d)%string.

Lemma dir_name_inj base_dir d d' : dir_name base_dir d = dir_name base_dir d' -> d = d'.
Proof. intros H. do 2 apply app_cancel in H. by apply (inj pretty). Qed.

Lemma file_name_inj base_dir d d' q q' : 0 <= d -> 0 <= d' ->
  file_name (dir_name base_dir d) q = file_name (dir_name base_dir d') q' -> d = d' /\ q = q'.
Proof.
  unfold file_name, dir_name. rewrite !app_app. intros Hd Hd' H. apply app_cancel, (app_cancel "/") in H.
  apply (split_first "/") in H as [H1 H2]; [|by apply pretty_no_slash..]. split; by apply (inj pretty).
Qed.

Definition period (e : event) : Z := ev_usec e / PERIOD.

(** The events of a file, and what they put there. *)
Definition in_file (d q : Z) (e : event) : bool := (period e =? d) && (ev_qid e =? q).
Definition file_events (d q : Z) (evs : list event) : list event := filter (fun e => Is_true (in_file d q e)) evs.
Definition file_records (evs : list event) : list (list string) :=
  concat ((fun e => records (ev_usec e mod PERIOD) (ev_cmd e)) <$> evs).

Definition event_ok (e : event) : Prop := 0 <= ev_usec e /\ 1 <= ev_qid e <= 4 /\ cmd_ok (ev_cmd e).

(** What the recorder has after the events [evs]. *)
Record rec_inv (base_dir : string) (evs : list event) (s : recorder) : Prop := {
  ri_dirs : forall d, 0 <= d -> dir_name base_dir d ∈ dirs s -> d ∈ period <$> evs;
  ri_current : current_dir s = (pretty ∘ period) <$> last evs;
  ri_files : forall d q, 0 <= d -> 1 <= q <= 4 -> openfiles s !! file_name (dir_name base_dir d) q =
    if decide (d ∈ period <$> evs) then Some (text (file_records (file_events d q evs))) else None;
  ri_names : forall f, is_Some (openfiles s !! f) -> exists d q, 0 <= d /\ 1 <= q <= 4 /\ f = file_name (dir_name base_dir d) q
}.

Lemma rec_inv_files base_dir evs s s' : rec_inv base_dir evs s -> same_files s s' -> rec_inv base_dir evs s'.
Proof. intros [] (H1 & H2 & H3). split; by rewrite ?H1, ?H2, ?H3. Qed.

Lemma period_nonneg e : event_ok e -> 0 <= period e.
Proof. intros [H _]. apply Z.div_pos; [done|]. unfold PERIOD. lia. Qed.

Lemma elem_period_snoc d evs e : d ∈ period <$> (evs ++ [e]) <-> d ∈ period <$> evs \/ d = period e.
Proof.
  rewrite fmap_app, elem_of_app. cbn [fmap list_fmap]. split; intros [H|H]; try by left.
  - right. by apply list_elem_of_singleton in H.
  - right. by apply list_elem_of_singleton.
Qed.

(** Opening the files of a period. *)
Definition opened (f : Z -> string) (s : recorder) : recorder :=
  set_file (f 4) "" (set_file (f 3) "" (set_file (f 2) "" (set_file (f 1) "" s))).

Lemma opened_names base_dir d s : 0 <= d ->
  (forall f, is_Some (openfiles s !! f) -> exists d q, 0 <= d /\ 1 <= q <= 4 /\ f = file_name (dir_name base_dir d) q) ->
  forall f, is_Some (openfiles (opened (fun q => file_name (dir_name base_dir d) q) s) !! f) ->
    exists d q, 0 <= d /\ 1 <= q <= 4 /\ f = file_name (dir_name base_dir d) q.
Proof.
  intros Hd Hs f. cbn. rewrite !lookup_insert_is_Some'. intros [<-|[<-|[<-|[<-|Hf]]]]; [exists d; eexists; split_and!; [done| | |done]; lia..|by apply Hs].
Qed.

Lemma create_run base_dir evs s e : rec_inv base_dir evs s -> Forall event_ok evs -> event_ok e ->
  (forall e', last evs = Some e' -> period e' <= period e) ->
  (forall e', e' ∈ evs -> exists e'', last evs = Some e'' /\ period e' <= period e'') ->
  exists s', create_trace_file (dir_name base_dir (period e)) (pretty (period e)) s = (Ok tt, s')
    /\ (forall d, 0 <= d -> dir_name base_dir d ∈ dirs s' -> d ∈ period <$> (evs ++ [e]))
    /\ current_dir s' = Some (pretty (period e))
    /\ (forall d q, 0 <= d -> 1 <= q <= 4 -> openfiles s' !! file_name (dir_name base_dir d) q =
         if decide (d ∈ period <$> (evs ++ [e])) then Some (text (file_records (file_events d q evs))) else None)
    /\ (forall f, is_Some (openfiles s' !! f) -> exists d q, 0 <= d /\ 1 <= q <= 4 /\ f = file_name (dir_name base_dir d) q).
Proof.
  intros [Hd Hcur Hf Hn] Hok He Hle Hmax. pose proof (period_nonneg e He) as H0. unfold create_trace_file.
  rewrite (run_bind_ok get _ s s s) by done. destruct (decide (current_dir s = Some (pretty (period e)))) as [E|E].
  - exists s. split; [done|]. rewrite Hcur in E. destruct (last evs) as [e'|] eqn:El; [|done]. injection E as E.
    apply (inj pretty) in E. assert (Hin : period e ∈ period <$> evs).
    { apply list_elem_of_fmap. exists e'. split; [done|]. rewrite last_lookup in El. by apply list_elem_of_lookup_2 in El. }
    assert (Hsame : forall d, d ∈ period <$> (evs ++ [e]) <-> d ∈ period <$> evs).
    { intros d. rewrite elem_period_snoc. split; [intros [?| ->]; done|by left]. }
    split; [intros d H1 H2; apply Hsame; by apply Hd|]. split; [rewrite Hcur; cbn; by rewrite E|]. split; [|done].
    intros d q H1 H2. rewrite (Hf d q H1 H2). destruct (decide (d ∈ period <$> evs)) as [Hx|Hx], (decide (d ∈ period <$> (evs ++ [e]))) as [Hy|Hy];
      try done; by apply Hsame in Hy || by rewrite Hsame in Hy.
  - assert (Hnew : period e ∉ period <$> evs).
    { intros (e' & Ee & Hin)%list_elem_of_fmap. destruct (Hmax e' Hin) as (e'' & Hl & Hp). specialize (Hle e'' Hl).
      apply E. rewrite Hcur, Hl. cbn. do 2 f_equal. lia. }
    rewrite decide_False by (intros Hin; apply Hnew, Hd; done).
    rewrite (run_bind_ok (modify _) _ s tt (add_dir (dir_name base_dir (period e)) s)) by done.
    set (f := fun q => file_name (dir_name base_dir (period e)) q).
    rewrite (run_bind_ok (foreach _ _) _ _ tt (opened f (add_dir (dir_name base_dir (period e)) s))) by done.
    eexists. split; [done|]. cbn [set_current dirs current_dir openfiles]. split; [|split; [done|split; [|by apply opened_names]]].
    + intros d H1 H2. cbn in H2. rewrite elem_period_snoc. apply elem_of_cons in H2 as [H2|H2].
      * apply dir_name_inj in H2 as ->. by right.
      * left. by apply Hd.
    + intros d q H1 H2. cbn [opened set_file openfiles add_dir]. destruct (decide (d = period e)) as [->|Hne].
      * rewrite decide_True by (apply elem_period_snoc; by right).
        assert (Hnone : file_events (period e) q evs = []).
        { destruct (file_events (period e) q evs) as [|x l] eqn:Ex; [done|]. destruct Hnew.
          assert (Hx : x ∈ file_events (period e) q evs) by (rewrite Ex; left).
          unfold file_events in Hx. apply list_elem_of_filter in Hx as [Ht Hx]. apply list_elem_of_fmap. exists x. split; [|done].
          unfold in_file in Ht. apply Is_true_eq_true, andb_prop in Ht as [Ht _]. lia. }
        rewrite Hnone. change (text (file_records [])) with ""%string. fold (f q).
        assert (q = 1 \/ q = 2 \/ q = 3 \/ q = 4) as [-> | [-> | [-> | ->]]] by lia;
          repeat (first [by apply lookup_insert_eq|rewrite lookup_insert_ne
            by (intros Hx; apply file_name_inj in Hx as [_ Hx]; [discriminate Hx|done|done])]).
      * rewrite !lookup_insert_ne by (intros Hx; apply file_name_inj in Hx as [Hx _]; done). rewrite (Hf d q H1 H2).
        destruct (decide (d ∈ period <$> evs)) as [Hx|Hx], (decide (d ∈ period <$> (evs ++ [e]))) as [Hy|Hy]; try done.
        { destruct Hy. apply elem_period_snoc. by left. }
        { by apply elem_period_snoc in Hy as [Hy|Hy]. }
Qed.

(** A line of the pipe that records [e]; the trace's clock started at [time_base]. *)
Definition line_of (time_base : Z) (l : string) (e : event) : Prop :=
  contains "pynvme" l = true
  /\ exists t, split l = t :: pretty (time_base + ev_usec e) :: pretty (ev_qid e) :: tokens (ev_cmd e).

Lemma file_events_snoc d q evs e : file_events d q (evs ++ [e]) = file_events d q evs ++ (if in_file d q e then [e] else []).
Proof. unfold file_events. rewrite filter_app. f_equal. rewrite filter_cons, filter_nil. by destruct (in_file d q e). Qed.

Lemma file_records_app evs evs' : file_records (evs ++ evs') = file_records evs ++ file_records evs'.
Proof. unfold file_records. by rewrite fmap_app, concat_app. Qed.

Lemma record_line_run base_dir tb l evs s e : rec_inv base_dir evs s -> Forall event_ok evs -> event_ok e -> 0 <= tb ->
  (forall e', last evs = Some e' -> period e' <= period e) ->
  (forall e', e' ∈ evs -> exists e'', last evs = Some e'' /\ period e' <= period e'') ->
  line_of tb l e -> exists s', record_line base_dir tb l s = (Ok tt, s') /\ rec_inv base_dir (evs ++ [e]) s'.
Proof.
  intros Hi Hok He Htb Hle Hmax (Hc & t & Hl). destruct (create_run base_dir evs s e Hi Hok He Hle Hmax) as (s1 & R1 & D1 & C1 & F1 & N1).
  pose proof (period_nonneg e He) as H0. destruct He as (Hu & Hq & Hcmd). unfold record_line. rewrite Hc, Hl. cbn [negb].
  rewrite (run_bind_ok (lift _) _ s (tb + ev_usec e) s) by (unfold lift; by rewrite py_int_pretty by lia).
  replace (tb + ev_usec e - tb) with (ev_usec e) by lia. cbv zeta. fold (period e). fold (dir_name base_dir (period e)).
  rewrite (run_bind_ok _ _ _ _ _ R1).
  rewrite (run_bind_ok (lift _) _ s1 (ev_qid e) s1) by (unfold lift; by rewrite py_int_pretty by lia).
  set (f := file_name _ _). rewrite (run_bind_ok get _ s1 s1 s1) by done.
  pose proof (F1 (period e) (ev_qid e) H0 Hq) as Hf. rewrite decide_True in Hf by (apply elem_period_snoc; by right).
  fold f in Hf. rewrite Hf. rewrite (run_bind_ok (mret tt) _ s1 tt s1) by done.
  pose proof (trace_io_file_run (ev_usec e mod PERIOD) (ev_cmd e) f _ s1 Hcmd Hf) as R2. set (s2 := set_file f _ s1) in R2.
  rewrite (run_bind_ok _ _ _ _ _ R2). rewrite (run_bind_ok (modify _) _ s2 tt (count_line s2)) by done.
  rewrite (run_bind_ok get _ _ (count_line s2) (count_line s2)) by done.
  assert (Hi2 : rec_inv base_dir (evs ++ [e]) (count_line s2)).
  { split; [exact D1|by rewrite last_snoc| |]; cycle 1.
    { intros f' Hf'. cbn in Hf'. apply lookup_insert_is_Some' in Hf' as [<-|Hf']; [by do 2 eexists|by apply N1]. }
    intros d q Hd Hq'. cbn [count_line s2 set_file openfiles].
    destruct (decide (f = file_name (dir_name base_dir d) q)) as [E|E].
    - rewrite E, lookup_insert_eq. apply file_name_inj in E as [<- <-]; [|done|done].
      rewrite decide_True by (apply elem_period_snoc; by right). do 2 f_equal.
      rewrite file_events_snoc, file_records_app, text_app. unfold in_file. rewrite !Z.eqb_refl. cbn [andb].
      unfold file_records at 3. cbn. by rewrite app_nil_r.
    - rewrite lookup_insert_ne, (F1 d q Hd Hq') by done. rewrite file_events_snoc. unfold in_file.
      destruct (Z.eqb_spec (period e) d) as [<-|], (Z.eqb_spec (ev_qid e) q) as [<-|]; cbn [andb]; rewrite ?app_nil_r; done. }
  destruct (_ && _); [|by exists (count_line s2)].
  destruct (trace_io_diagram_run (ev_usec e) (ev_cmd e) (count_line s2) Hcmd) as (s3 & R3 & Hs).
  exists s3. split; [done|]. by eapply rec_inv_files.
Qed.

(** Periods never go back. *)
Definition in_order (evs : list event) : Prop := StronglySorted (fun e e' => period e <= period e') evs.

Lemma in_order_last evs e evs' : in_order (evs ++ e :: evs') ->
  (forall e', last evs = Some e' -> period e' <= period e)
  /\ (forall e', e' ∈ evs -> exists e'', last evs = Some e'' /\ period e' <= period e'').
Proof.
  unfold in_order. revert e evs'. induction evs as [|x evs IH] using rev_ind; intros e evs' Ho.
  { split; [done|]. by intros e' ?%not_elem_of_nil. }
  rewrite <- app_assoc in Ho. cbn [app] in Ho. destruct (IH x (e :: evs') Ho) as [H1 H2]. rewrite last_snoc. split.
  - intros e' [= <-]. clear -Ho. induction evs as [|y evs IH]; cbn [app] in Ho; apply StronglySorted_inv in Ho as [Ho Hx]; [|by apply IH].
    by apply Forall_cons_1 in Hx as [Hx _].
  - intros e' [Hin| ->%list_elem_of_singleton]%elem_of_app; [|by exists x]. exists x. split; [done|].
    destruct (H2 e' Hin) as (e'' & Hl & Hp). specialize (H1 e'' Hl). lia.
Qed.

Lemma record_lines_run base_dir tb ls evs2 rest : Forall2 (line_of tb) ls evs2 -> 0 <= tb -> forall evs1 s,
  rec_inv base_dir evs1 s -> Forall event_ok (evs1 ++ evs2) -> in_order (evs1 ++ evs2) ->
  exists s', record_lines base_dir tb (((fun l => (None, l)) <$> ls) ++ rest) s = record_lines base_dir tb rest s' /\ rec_inv base_dir (evs1 ++ evs2) s'.
Proof.
  intros H2 Htb. induction H2 as [|l e ls evs2 Hl _ IH]; intros evs1 s Hi Hok Ho.
  - exists s. rewrite app_nil_r. done.
  - rewrite fmap_cons. cbn [record_lines app]. destruct (in_order_last _ _ _ Ho) as [Hle Hmax].
    pose proof Hok as [Hok1 [He _]%Forall_cons]%Forall_app.
    destruct (record_line_run base_dir tb l evs1 s e Hi Hok1 He Htb Hle Hmax Hl) as (s1 & R1 & I1).
    rewrite (run_bind_ok _ _ _ _ _ R1). destruct (IH (evs1 ++ [e]) s1 I1) as (s2 & R2 & I2); [by rewrite <- app_assoc..|].
    exists s2. split; [exact R2|]. by rewrite <- app_assoc in I2.
Qed.

(** ** What is replayed *)

(** A transfer of [n] blocks in pieces of at most [max]. *)
Definition pieces (usec op slba n max : Z) : list seq_io :=
  (fun k => mk_seq (inject_Z usec) op (slba + k * max) (Z.min max (n - k * max))) <$> seqZ 0 ((n + max - 1) / max).

Definition replayed (max usec : Z) (c : cmd) : list seq_io :=
  match c with
  | CWrite lba n => pieces usec 1 lba n max
  | CRead lba n => pieces usec 2 lba n max
  | CFlush => [mk_seq (inject_Z usec) 0 0 0]
  | CTrims l => (fun e => mk_seq (inject_Z usec) 9 e.1 e.2) <$> l
  end.

Lemma scaled_1 usec : scaled usec 1 = Ok usec.
Proof. unfold scaled. cbn. by rewrite Z.mul_1_r, Z.quot_1_r. Qed.

Lemma split_io_run max usec op fuel : 0 < max -> forall slba n, 0 <= n < Z.of_nat fuel ->
  split_io fuel (inject_Z usec) op slba n max = Ok (pieces usec op slba n max).
Proof.
  intros Hm. unfold pieces. induction fuel as [|fuel IH]; intros slba n Hn; [lia|]. cbn [split_io].
  destruct (Z.eqb_spec n 0) as [->|Hne].
  { replace ((0 + max - 1) / max) with 0 by (symmetry; apply Z.div_small; lia). done. }
  rewrite IH by lia. cbn [mbind res_bind]. f_equal.
  set (m := (n + max - 1) / max).
  assert (Hmp : 0 < m) by (apply Z.div_str_pos; lia).
  rewrite (seqZ_cons 0 m) by done. rewrite fmap_cons. f_equal; [f_equal; lia|].
  destruct (Z.min_spec n max) as [[Hlt ->]|[Hge ->]].
  - assert (m = 1) as -> by (unfold m; symmetry; apply Z.div_unique with (n - 1); lia).
    replace ((n - n + max - 1) / max) with 0 by (symmetry; apply Z.div_small; lia). done.
  - assert (Hm1 : (n - max + max - 1) / max = Z.pred m).
    { unfold m. replace (n + max - 1) with ((n - max + max - 1) + 1 * max) by lia. rewrite Z.div_add by lia. lia. }
    rewrite Hm1. change (Z.succ 0) with (1 + 0). rewrite <- fmap_add_seqZ, <- list_fmap_compose. apply list_fmap_ext.
    intros ? k _. cbn. f_equal; lia.
Qed.

Lemma records_words usec c r : 0 <= usec -> cmd_ok c -> r ∈ records usec c -> Forall is_word r /\ r <> [].
Proof.
  intros Hu Hc Hr. assert (Hlit : is_word "write" /\ is_word "read" /\ is_word "flush" /\ is_word "trims" /\ is_word "0")
    by (by repeat split). destruct Hlit as (L1 & L2 & L3 & L4 & L5).
  destruct c as [lba n|lba n| |l]; cbn in Hr, Hc.
  1-3: (apply list_elem_of_singleton in Hr as ->; try destruct Hc; split; [|done];
        repeat (apply Forall_cons_2; [first [done|by apply pretty_word]|]); apply Forall_nil_2).
  apply list_elem_of_fmap in Hr as (e & -> & He). rewrite Forall_forall in Hc. destruct (Hc e He).
  split; [|done]. repeat (apply Forall_cons_2; [first [done|by apply pretty_word]|]). apply Forall_nil_2.
Qed.

Lemma pretty_is_no_name z x : 0 <= z -> all_chars is_digit x = false -> x <> pretty z.
Proof. intros Hz Hx ->. destruct (pretty_digits z Hz). congruence. Qed.

(** A line of a file. *)
Lemma replay_line_run max op t name a b : 0 < max -> 0 <= t -> 0 <= a -> 0 <= b -> opcode name = Ok op -> is_word name ->
  replay_line max 1 (String.concat " " [pretty t; name; pretty a; pretty b] +:+ linesep) =
    Ok (if bool_decide (name = "write"%string) || bool_decide (name = "read"%string) then pieces t op a b max
        else [mk_seq (inject_Z t) op a b]).
Proof.
  intros Hm Ht Ha Hb Hop Hw. unfold replay_line. rewrite split_join; [|by repeat (apply Forall_cons_2; [first [done|by apply pretty_word]|])|done].
  set (l := [pretty t; name; pretty a; pretty b]).
  assert (L0 : list_get l 0 = Ok (pretty t)) by (by apply (list_get_nat l 0)).
  assert (L1 : list_get l 1 = Ok name) by (by apply (list_get_nat l 1)).
  assert (L2 : list_get l 2 = Ok (pretty a)) by (by apply (list_get_nat l 2)).
  assert (L3 : list_get l 3 = Ok (pretty b)) by (by apply (list_get_nat l 3)).
  rewrite L0, L1, L2, L3. cbn [mbind res_bind]. rewrite !py_int_pretty by done. cbn [mbind res_bind].
  rewrite scaled_1. cbn [mbind res_bind]. rewrite Hop. cbn [mbind res_bind]. rewrite split_io_run by lia.
  assert (Hin : forall x, all_chars is_digit x = false -> bool_decide (x ∈ l) = bool_decide (name = x)).
  { intros x Hx. apply bool_decide_ext. unfold l. rewrite !elem_of_cons.
    pose proof (pretty_is_no_name t x Ht Hx). pose proof (pretty_is_no_name a x Ha Hx). pose proof (pretty_is_no_name b x Hb Hx).
    split; [intros [?|[?|[?|[?|?%not_elem_of_nil]]]]; by subst|by right; left]. }
  rewrite !Hin by done. by destruct (_ || _).
Qed.


(** The lines of a command replay it. *)
Lemma replay_records max usec c : 0 < max -> 0 <= usec -> cmd_ok c -> exists ls,
  mapM (replay_line max 1) ((fun r => String.concat " " r +:+ linesep)%string <$> records usec c) = Ok ls
  /\ concat ls = replayed max usec c.
Proof.
  intros Hm Hu Hc. destruct c as [lba n|lba n| |l]; cbn [records fmap list_fmap mapM replayed cmd_ok] in *.
  1-2: (destruct Hc; eexists; erewrite replay_line_run by done; split; [done|apply app_nil_r]).
  - change "0"%string with (pretty 0). eexists. erewrite replay_line_run by done. done.
  - induction Hc as [|e l [He1 He2] _ IH]; [by exists []|]. destruct IH as (ls & Hls & Hcat).
    rewrite !fmap_cons. cbn [mapM]. erewrite replay_line_run by done. cbn [mbind res_bind].
    eexists. rewrite Hls. split; [done|]. cbn. by rewrite Hcat.
Qed.

Lemma res_mapM_app {A B} (f : A -> res B) l1 l2 r1 r2 : mapM f l1 = Ok r1 -> mapM f l2 = Ok r2 -> mapM f (l1 ++ l2) = Ok (r1 ++ r2).
Proof.
  revert r1. induction l1 as [|x l1 IH]; intros r1; cbn [mapM app].
  - by intros [= <-] ->.
  - destruct (f x) as [y|]; [cbn [mbind res_bind]|done]. destruct (mapM f l1) as [r|]; [|done]. cbn [mbind res_bind].
    intros [= <-] H2. by rewrite (IH r eq_refl H2).
Qed.

Lemma all_chars_app p s t : all_chars p (s +:+ t) = all_chars p s && all_chars p t.
Proof. induction s as [|c s IH]; [done|]. rewrite cons_app. cbn. by rewrite IH, andb_assoc. Qed.

Lemma word_no_newline w : is_word w -> all_chars no_newline w = true.
Proof.
  intros [_ Hw]. apply (all_chars_impl no_space); [|done]. intros c Hc. apply bool_decide_eq_true_2. by intros ->.
Qed.

Lemma join_no_newline r : Forall is_word r -> all_chars no_newline (String.concat " " r) = true.
Proof.
  induction 1 as [|w r Hw Hr IH]; [done|]. destruct r as [|v r]; [by apply word_no_newline|].
  change (String.concat " " (w :: v :: r)) with (w +:+ " " +:+ String.concat " " (v :: r))%string.
  by rewrite !all_chars_app, word_no_newline, IH.
Qed.

Lemma usec_nonneg e : 0 <= ev_usec e mod PERIOD.
Proof. by apply Z.mod_pos_bound. Qed.

(** A file, read back. *)
Lemma replay_text max evs : 0 < max -> Forall event_ok evs ->
  replay_file max 1 (text (file_records evs)) = Ok (concat ((fun e => replayed max (ev_usec e mod PERIOD) (ev_cmd e)) <$> evs)).
Proof.
  intros Hm Hok. unfold replay_file, text.
  replace ((fun r => String.concat " " r +:+ linesep)%string <$> file_records evs)
    with ((fun t => t +:+ linesep)%string <$> (String.concat " " <$> file_records evs)) by (by rewrite <- list_fmap_compose).
  rewrite lines_concat.
  2: { apply Forall_fmap, Forall_forall. intros r Hr. apply join_no_newline. unfold file_records in Hr.
    apply list_elem_of_In, in_concat in Hr as (rs & Hrs & Hr). apply list_elem_of_In in Hr, Hrs.
    apply list_elem_of_fmap in Hrs as (e & -> & He).
    rewrite Forall_forall in Hok. destruct (Hok e He) as (_ & _ & Hc). by apply (records_words _ _ _ (usec_nonneg e) Hc) in Hr as [Hr _]. }
  rewrite <- list_fmap_compose.
  assert (exists ls, mapM (replay_line max 1) ((fun r => String.concat " " r +:+ linesep)%string <$> file_records evs) = Ok ls
    /\ concat ls = concat ((fun e => replayed max (ev_usec e mod PERIOD) (ev_cmd e)) <$> evs)) as (ls & H1 & H2).
  { induction Hok as [|e evs (_ & _ & Hc) _ (ls & H1 & H2)]; [by exists []|].
    destruct (replay_records max _ _ Hm (usec_nonneg e) Hc) as (l1 & R1 & C1). exists (l1 ++ ls).
    change (e :: evs) with ([e] ++ evs). rewrite file_records_app, fmap_app. split.
    - apply res_mapM_app; [|done]. unfold file_records. cbn. by rewrite app_nil_r.
    - rewrite concat_app, C1, H2. done. }
  unfold compose. rewrite H1. cbn [mbind res_bind]. by rewrite H2.
Qed.

Lemma dir_is_new base_dir d : dir_name base_dir d <> base_dir.
Proof. intros H. unfold dir_name in H. rewrite <- (app_empty base_dir) in H at 2. by apply app_cancel in H. Qed.

Lemma rec_inv_start base_dir : rec_inv base_dir [] (mk_rec [base_dir] ∅ None 0 [] [] []).
Proof.
  split; cbn; [|done| |].
  - intros d _ H%list_elem_of_singleton. by apply dir_is_new in H.
  - intros d q _ _. by rewrite lookup_empty.
  - intros f. by rewrite lookup_empty; intros [? ?].
Qed.

(** Recording [evs], up to the end of the pipe or an entry in the queue. *)
Lemma recorder_run_inv base_dir first ls evs time_base rest s0 :
  (n ← list_get (split first) 1; py_int n) = Ok time_base -> 0 <= time_base ->
  Forall2 (line_of time_base) ls evs -> Forall event_ok evs -> in_order evs ->
  exists s, recorder_run base_dir first (((fun l => (None, l)) <$> ls) ++ rest) s0 = record_lines base_dir time_base rest s
    /\ rec_inv base_dir evs s.
Proof.
  intros Hfirst Htb Hls Hok Ho. unfold recorder_run.
  destruct (list_get (split first) 1) as [n|] eqn:En; [cbn [mbind res_bind] in Hfirst|done].
  rewrite (run_bind_ok (word _ _) _ s0 n s0) by (by apply word_run).
  rewrite (run_bind_ok (lift _) _ s0 time_base s0) by (unfold lift; by rewrite Hfirst).
  erewrite run_bind_ok by done.
  exact (record_lines_run base_dir time_base ls evs rest Hls Htb [] _ (rec_inv_start base_dir) Hok Ho).
Qed.

(** A file of the recorder, read back. *)
Lemma rec_inv_replays base_dir evs s max_lba d q : rec_inv base_dir evs s -> Forall event_ok evs -> 0 < max_lba ->
  0 <= d -> 1 <= q <= 4 -> d ∈ period <$> evs ->
  exists text, openfiles s !! file_name (dir_name base_dir d) q = Some text
    /\ replay_file max_lba 1 text
       = Ok (concat ((fun e => replayed max_lba (ev_usec e mod PERIOD) (ev_cmd e)) <$> file_events d q evs)).
Proof.
  intros Hi Hok Hm Hd Hq Hin. rewrite (ri_files _ _ _ Hi d q Hd Hq), decide_True by done. eexists. split; [done|].
  apply replay_text; [done|]. apply Forall_forall. intros e [_ He]%list_elem_of_filter. rewrite Forall_forall in Hok. by apply Hok.
Qed.

(** A recorded trace replays the commands of the drive.  Let the first line of the
    pipe give the time the trace starts and the lines after it record [evs]:
    reads, writes, flushes and trims of the queues 1 to 4, in the order of
    their periods.  Then the recorder takes them all without an error, it has
    the four files of exactly the periods in which something was recorded, and
    the file of a period and a queue is read back by the replayer as the
    commands of that queue in that period: in order, at their time in the period,
    with the opcode, the address and the length they had, a transfer longer than
    the drive takes at once in consecutive pieces that fit. *)
Theorem recorded_replays base_dir first ls evs time_base max_lba s0 :
  (n ← list_get (split first) 1; py_int n) = Ok time_base -> 0 <= time_base -> 0 < max_lba ->
  Forall2 (line_of time_base) ls evs -> Forall event_ok evs -> in_order evs ->
  exists s, recorder_run base_dir first ((fun l => (None, l)) <$> ls) s0 = (Ok (None, []), s) /\
  forall d q, 0 <= d -> 1 <= q <= 4 ->
    (d ∉ period <$> evs -> openfiles s !! file_name (dir_name base_dir d) q = None)
    /\ (d ∈ period <$> evs -> exists text, openfiles s !! file_name (dir_name base_dir d) q = Some text
        /\ replay_file max_lba 1 text
           = Ok (concat ((fun e => replayed max_lba (ev_usec e mod PERIOD) (ev_cmd e)) <$> file_events d q evs))).
Proof.
  intros Hfirst Htb Hm Hls Hok Ho. destruct (recorder_run_inv base_dir first ls evs time_base [] s0 Hfirst Htb Hls Hok Ho) as (s & R & Hi).
  rewrite app_nil_r in R. exists s. split; [exact R|]. intros d q Hd Hq. split; intros Hin.
  - by rewrite (ri_files _ _ _ Hi d q Hd Hq), decide_False.
  - by apply (rec_inv_replays base_dir).
Qed.

Lemma recorded_replays_witness :
  let evs := [mk_event 5 1 (CWrite 100 40); mk_event 7 2 (CTrims [(8, 4); (64, 0)]); mk_event 300000009 1 CFlush] in
  exists s, recorder_run "/tmp/t" "boot 1000" [(None, " pynvme 1005 1 write 100 40"); (None, "pynvme  1007 2 trims 2 8 4 64 0 2");
      (None, "pynvme 300001009 1 flush 0 0")]%string (mk_rec [] ∅ None 0 [] [] []) = (Ok (None, []), s)
  /\ forall d q, 0 <= d -> 1 <= q <= 4 ->
    (d ∉ period <$> evs -> openfiles s !! file_name (dir_name "/tmp/t" d) q = None)
    /\ (d ∈ period <$> evs -> exists text, openfiles s !! file_name (dir_name "/tmp/t" d) q = Some text
        /\ replay_file 16 1 text
           = Ok (concat ((fun e => replayed 16 (ev_usec e mod PERIOD) (ev_cmd e)) <$> file_events d q evs))).
Proof.
  intros evs.
  assert (H2 : Forall2 (line_of 1000)
    [" pynvme 1005 1 write 100 40"; "pynvme  1007 2 trims 2 8 4 64 0 2"; "pynvme 300001009 1 flush 0 0"]%string evs).
  { assert (Hl : forall t l e, (contains "pynvme" l = true /\
        split l = t :: pretty (1000 + ev_usec e) :: pretty (ev_qid e) :: tokens (ev_cmd e)) -> line_of 1000 l e)
      by (intros t l e [H1 H2]; split; [|exists t]; done).
    constructor; [|constructor; [|constructor; [|constructor]]]; apply (Hl "pynvme"%string);
      (split; [vm_compute; reflexivity|vm_compute; reflexivity]). }
  assert (H3 : Forall event_ok evs) by (repeat constructor; cbn; lia).
  assert (H4 : in_order evs) by (repeat constructor; vm_compute; discriminate).
  exact (recorded_replays "/tmp/t" "boot 1000" _ evs 1000 16 (mk_rec [] ∅ None 0 [] [] []) eq_refl ltac:(lia) ltac:(lia) H2 H3 H4).
Defined.

(** The transfer of 40 blocks in its pieces. *)
Example replayed_pieces : replayed 16 5 (CWrite 100 40) =
  [mk_seq 5 1 100 16; mk_seq 5 1 116 16; mk_seq 5 1 132 8].
Proof. vm_compute. reflexivity. Qed.

(** From the eleventh period on the order of the names is not that of the
    periods: the one that starts 50 minutes into the trace is replayed before
    the one that starts after 10. *)
Example order_of_names : replay_order ["t/2/1"; "t/10/1"; "t/1/1"]%string = ["t/1/1"; "t/10/1"; "t/2/1"]%string.
Proof. vm_compute. reflexivity. Qed.
