(* ===== verification/Archive.v ===== *)
(** * Archive: the recorder's sessions and the archive between it and the replayer

    The main program of src/scripts/trace/recorder.py over Recorder.v: it records
    until its window asks it to stop, writes the trace file, and waits for the
    window to ask for the next recording.  A trace file is a picture with a zip
    archive of the recorded files behind it; [replay_sequences] of Recorder.v is
    what src/scripts/trace/test_replayer.py makes of the archive.  The picture
    ([plot]: matplotlib and PIL) is an argument; its points are not. *)
From Stdlib Require Import ZArith QArith Lia ZifyBool Ascii String List.
From stdpp Require Import base list numbers option gmap strings pretty sorting.
From S2P Require Import Prelude PyInt Text Psd Recorder.
Local Open Scope Z_scope.

Definition base_dir : string := "/tmp/pynvme_trace".

(** The name of a member of an archive: [ZipFile.write] strips the leading
    separators. *)
Fixpoint arcname (name : string) : string :=
  match name with
  | String c s => if decide (c = "/"%char) then arcname s else name
  | EmptyString => name
  end.

(** [os.walk] finds the files the recorder has written. *)
Definition generate_trace_file (files : gmap string string) : gmap string string :=
  list_to_map ((fun e => (arcname e.1, e.2)) <$> map_to_list files).

(** A line of the pipe, with what [get_nowait] finds in the queue at that line. *)
Abbreviation item := (option (option Z) * string)%type.

(** The window: it counts the clicks on OK and puts the count; Cancel puts
    [None] and ends it. *)
Definition msg (state : Z) : string := if state mod 2 =? 0 then "stop and save the trace" else "start the trace".
Fixpoint subprocess_gui (state : Z) (clicks : list bool) : list (option Z) :=
  match clicks with
  | [] => []
  | true :: clicks' => Some (state + 1) :: subprocess_gui (state + 1) clicks'
  | false :: _ => [None]
  end.

Section Program.
Context {Picture : Type}.
Variable plot : list Z -> list Z -> list (kind * Z) -> Picture.

Record trace_file := mk_trace { t_picture : Picture; t_zip : gmap string string }.

Record world := mk_world { w_rec : recorder; w_input : list item; w_traces : list trace_file }.
Definition set_rec (s : recorder) (w : world) : world := mk_world s (w_input w) (w_traces w).
Definition set_input (l : list item) (w : world) : world := mk_world (w_rec w) l (w_traces w).
Definition add_trace (t : trace_file) (w : world) : world := mk_world (w_rec w) (w_input w) (w_traces w ++ [t]).

(** [plt.scatter] wants as many colours as points. *)
Definition generate_trace_diagram (s : recorder) : res Picture :=
  if Nat.eqb (length (xs s)) (length (ys s)) && Nat.eqb (length (xs s)) (length (cs s))
  then Ok (plot (xs s) (ys s) (cs s)) else Err ValueError.

(** [sys.stdin.readline()] *)
Definition readline : M world string :=
  w ← get;
  match w_input w with
  | [] => mret ""%string
  | (_, l) :: ls => modify (set_input ls) ;; mret l
  end.

Definition run : M world (option Z) :=
  first ← readline;
  w ← get;
  let '(r, s) := recorder_run base_dir first (w_input w) (w_rec w) in
  modify (set_rec s) ;;
  v ← lift r;
  modify (set_input (snd v)) ;; mret (fst v).

(** The lines until the window asks for something. *)
Fixpoint wait_lines (ls : list item) : option Z * list item :=
  match ls with
  | [] => (None, [])
  | (Some state, _) :: ls' => (state, ls')
  | (None, _) :: ls' => wait_lines ls'
  end.

(** The removal of the files is the reset in [recorder_run]. *)
Definition recorder_stop_save : M world (option Z) :=
  w ← get;
  let zip := generate_trace_file (openfiles (w_rec w)) in
  p ← lift (generate_trace_diagram (w_rec w));
  modify (add_trace (mk_trace p zip)) ;;
  let '(state, rest) := wait_lines (w_input w) in
  modify (set_input rest) ;; mret state.

(** The loop of the program; each turn but the last reads a line or more. *)
Fixpoint main (fuel : nat) : M world unit :=
  match fuel with
  | O => raise OutOfFuel
  | S fuel' =>
      state ← run;
      match state with
      | None => mret tt
      | Some _ =>
          state ← recorder_stop_save;
          match state with None => mret tt | Some _ => main fuel' end
      end
  end.

(** [X], [Y] and [C] are new in each turn, as [recorder_run] makes them; the
    wait for the process of the window at the end is left out. *)
Definition program (ls : list item) : res unit * world :=
  main (S (length ls)) (mk_world (mk_rec [] ∅ None 0 [] [] []) ls []).

End Program.

(** [responce_time[j] += rs[i].latency_distribution[j]] *)
Definition add_distribution (dist : list Z) : M (list Z) unit :=
  responce_time ← get;
  let n := Z.to_nat 1000000 in
  if (1000000 <=? Z.of_nat (length responce_time)) && (1000000 <=? Z.of_nat (length dist))
  then modify (fun _ => zip_with Z.add (take n responce_time) (take n dist) ++ drop n responce_time)
  else raise IndexError.

(** The replay of an archive; [worker] gives the latency distribution a worker
    reports for its sequence (Report.v). *)
Definition replay_logfile (worker : list seq_io -> list Z) (zip : gmap string string) (mdts format_support : Z) (accelerator : Q)
    : M (list Z) unit :=
  let files := replay_order (map_to_list zip).*1 in
  let max_lba := replay_max_lba mdts format_support in
  foreach (fun start =>
    io_sequences ← lift (replay_group zip files max_lba accelerator start);
    foreach add_distribution (worker <$> io_sequences)) (py_range 0 (Z.of_nat (length files)) 4).

Arguments trace_file Picture : clear implicits.
Arguments world Picture : clear implicits.

(** ** The points of the diagram *)
Definition balanced (s : recorder) : Prop := length (xs s) = length (ys s) /\ length (xs s) = length (cs s).

(** A computation that ends stays_balanced the lists of equal length. *)
Definition stays_balanced {A} (m : M recorder A) : Prop := forall s a s', m s = (Ok a, s') -> balanced s -> balanced s'.

Lemma balanced_bind {A B} (m : M recorder A) (k : A -> M recorder B) : stays_balanced m -> (forall a, stays_balanced (k a)) -> stays_balanced (m ≫= k).
Proof. intros Hm Hk s b s'' (a & s' & H1 & H2)%run_bind_inv Hs. eapply Hk; [done|]. by eapply Hm. Qed.
Lemma balanced_pure {A} (m : M recorder A) : (forall s, snd (m s) = s) -> stays_balanced m.
Proof. intros Hm s a s' E. specialize (Hm s). rewrite E in Hm. cbn in Hm. by subst. Qed.
Lemma balanced_ret {A} (a : A) : stays_balanced (mret a).
Proof. by apply balanced_pure. Qed.
Lemma balanced_lift {A} (r : res A) : stays_balanced (lift r).
Proof. by apply balanced_pure. Qed.
Lemma balanced_get : stays_balanced get.
Proof. by apply balanced_pure. Qed.
Lemma balanced_raise {A} e : stays_balanced (raise e : M recorder A).
Proof. by apply balanced_pure. Qed.
Lemma balanced_assert b : stays_balanced (py_assert b).
Proof. apply balanced_pure. by destruct b. Qed.
Lemma balanced_if {A} (b : bool) (m1 m2 : M recorder A) : stays_balanced m1 -> stays_balanced m2 -> stays_balanced (if b then m1 else m2).
Proof. by destruct b. Qed.
Lemma balanced_decide {A} (P : Prop) `{Decision P} (m1 m2 : M recorder A) : stays_balanced m1 -> stays_balanced m2 -> stays_balanced (if decide P then m1 else m2).
Proof. by case_decide. Qed.
Lemma balanced_modify f : (forall s, xs (f s) = xs s /\ ys (f s) = ys s /\ cs (f s) = cs s) -> stays_balanced (modify f).
Proof. intros Hf s a s' [= <- <-]. destruct (Hf s) as (H1 & H2 & H3). unfold balanced. by rewrite H1, H2, H3. Qed.
Lemma balanced_foreach {A} (f : A -> M recorder unit) l : (forall x, stays_balanced (f x)) -> stays_balanced (foreach f l).
Proof. intros Hf. induction l as [|x l IH]; [apply balanced_ret|]. by apply balanced_bind. Qed.

Lemma balanced_draw u lba k count : (forall s, snd (lba s) = s) -> (forall s, snd (count s) = s) -> stays_balanced (draw u lba k count).
Proof.
  intros Hl Hc s a s' H Hs. unfold draw in H. apply run_bind_inv in H as ([] & s1 & [= <-] & H).
  apply run_bind_inv in H as (t & s2 & E & H). pose proof (Hl (add_x u s)) as E2. rewrite E in E2. cbn in E2. subst s2.
  apply run_bind_inv in H as (z & s2 & [= E1 <-] & H). apply run_bind_inv in H as ([] & s3 & [= <-] & H).
  apply run_bind_inv in H as (t' & s4 & E4 & H). pose proof (Hc (add_y z (add_x u s))) as E2. rewrite E4 in E2. cbn in E2. subst s4.
  apply run_bind_inv in H as (n & s5 & [= E5 <-] & H). apply run_bind_inv in H as ([] & s6 & E6 & H).
  destruct (n <=? -1); [done|]. injection E6 as <-. injection H as <- <-. destruct Hs. unfold balanced. cbn. rewrite !length_app. cbn. lia.
Qed.

Create HintDb stays_balanced.
#[local] Hint Resolve balanced_ret balanced_lift balanced_get balanced_raise balanced_assert balanced_if balanced_decide balanced_foreach : stays_balanced.
#[local] Hint Extern 1 (stays_balanced (_ ≫= _)) => apply balanced_bind; [|intros ?] : stays_balanced.
#[local] Hint Extern 1 (stays_balanced (modify _)) => by apply balanced_modify : stays_balanced.
#[local] Hint Extern 1 (stays_balanced (draw _ _ _ _)) => by apply balanced_draw : stays_balanced.

Lemma balanced_word line i : stays_balanced (word line i).
Proof. apply balanced_lift. Qed.
#[local] Hint Resolve balanced_word : stays_balanced.
Lemma balanced_write f t : stays_balanced (write f t).
Proof. unfold write. auto with stays_balanced. Qed.
#[local] Hint Resolve balanced_write : stays_balanced.
Lemma balanced_create d1 d2 : stays_balanced (create_trace_file d1 d2).
Proof. unfold create_trace_file. auto 10 with stays_balanced. Qed.
Lemma balanced_trace_io_file u l f : stays_balanced (trace_io_file u l f).
Proof. unfold trace_io_file. cbv zeta. auto 15 with stays_balanced. Qed.
Lemma balanced_trace_io_diagram l u : stays_balanced (trace_io_diagram l u).
Proof. unfold trace_io_diagram. cbv zeta. auto 15 with stays_balanced. Qed.
#[local] Hint Resolve balanced_create balanced_trace_io_file balanced_trace_io_diagram : stays_balanced.

Lemma balanced_record_line b t l : stays_balanced (record_line b t l).
Proof.
  unfold record_line. apply balanced_if; [apply balanced_ret|]. destruct (split l) as [|? [|? [|? ?]]]; try apply balanced_raise.
  cbv zeta. do 4 (apply balanced_bind; [by auto with stays_balanced|intros ?]). apply balanced_bind; [destruct (openfiles _ !! _); auto with stays_balanced|intros ?].
  auto 10 with stays_balanced.
Qed.

Lemma balanced_record_lines b t ls : stays_balanced (record_lines b t ls).
Proof. induction ls as [|[[o|] l] ls IH]; cbn [record_lines]; try apply balanced_ret. apply balanced_bind; [apply balanced_record_line|done]. Qed.

(** Whatever was recorded, the lists can be plotted. *)
Lemma recorder_run_balanced b first ls s a s' : recorder_run b first ls s = (Ok a, s') -> balanced s'.
Proof.
  intros H. unfold recorder_run in H. apply run_bind_inv in H as (n & s1 & _ & H). apply run_bind_inv in H as (z & s2 & _ & H).
  apply run_bind_inv in H as ([] & s3 & [= <-] & H). by eapply balanced_record_lines.
Qed.

(** ** The archive *)
Abbreviation member d q := (file_name (dir_name "tmp/pynvme_trace" d) q).

Lemma arcname_file d q : arcname (file_name (dir_name base_dir d) q) = member d q.
Proof. done. Qed.

Lemma archive_lookup files f : (forall f1 f2, is_Some (files !! f1) -> is_Some (files !! f2) -> arcname f1 = arcname f2 -> f1 = f2) ->
  is_Some (files !! f) -> generate_trace_file files !! arcname f = files !! f.
Proof.
  intros Hinj [t Hf]. rewrite Hf. unfold generate_trace_file. apply elem_of_list_to_map.
  - rewrite <- list_fmap_compose.
    apply (NoDup_fmap_2_strong (fst ∘ (fun e => (arcname e.1, e.2)))); [|apply NoDup_map_to_list].
    intros [f1 t1] [f2 t2] H1%elem_of_map_to_list H2%elem_of_map_to_list E. cbn in E.
    assert (f1 = f2) as -> by (by apply Hinj). congruence.
  - apply list_elem_of_fmap. exists (f, t). split; [done|]. by apply elem_of_map_to_list.
Qed.

Lemma archive_names files n : n ∈ (map_to_list (generate_trace_file files)).*1 <-> exists f, n = arcname f /\ is_Some (files !! f).
Proof.
  unfold generate_trace_file. split.
  - intros ([n' t] & -> & H%elem_of_map_to_list%elem_of_list_to_map_2)%list_elem_of_fmap.
    apply list_elem_of_fmap in H as ([f t'] & [= -> ->] & H%elem_of_map_to_list). by eauto.
  - intros (f & -> & [t Hf]). destruct ((list_to_map ((fun e => (arcname e.1, e.2)) <$> map_to_list files) : gmap string string) !! arcname f) as [t'|] eqn:E.
    + apply list_elem_of_fmap. exists (arcname f, t'). split; [done|]. by apply elem_of_map_to_list.
    + apply not_elem_of_list_to_map_2 in E. destruct E. apply list_elem_of_fmap. exists (arcname f, t). split; [done|].
      apply list_elem_of_fmap. exists (f, t). split; [done|]. by apply elem_of_map_to_list.
Qed.

(** The periods in which something was recorded, of a trace of less than 50
    minutes, and their files in the order of the names. *)
Definition periods (evs : list event) : list Z := filter (fun d => d ∈ period <$> evs) (seqZ 0 10).
Definition members (d : Z) : list string := (fun q => member d q) <$> seqZ 1 4.

Lemma sublist_groups {A B} (f : A -> list B) P `{!forall x, Decision (P x)} l : concat (f <$> filter P l) `sublist_of` concat (f <$> l).
Proof.
  induction l as [|x l IH]; [done|]. rewrite filter_cons. destruct (decide (P x)); cbn; [by apply sublist_app|by apply sublist_inserts_l].
Qed.

Lemma sorted_sublist {A} (R : relation A) l1 l2 : l1 `sublist_of` l2 -> StronglySorted R l2 -> StronglySorted R l1.
Proof.
  induction 1 as [|x l1 l2 Hs IH|x l1 l2 Hs IH]; intros H; [done| |]; apply StronglySorted_inv in H as [H1 H2]; [|by apply IH].
  constructor; [by apply IH|]. rewrite !Forall_forall in *. intros y Hy. apply H2. by eapply sublist_subseteq.
Qed.

Abbreviation name_le := (fun a b : string => Is_true (String.leb a b)).

Lemma all_members : StronglySorted name_le (concat (members <$> seqZ 0 10)) /\ NoDup (concat (members <$> seqZ 0 10)).
Proof.
  assert (E : exists l, concat (members <$> seqZ 0 10) = l /\ bool_decide (StronglySorted name_le l) = true /\ bool_decide (NoDup l) = true)
    by (eexists; split; [vm_compute; reflexivity|split; vm_compute; reflexivity]).
  destruct E as (l & -> & H1%bool_decide_eq_true_1 & H2%bool_decide_eq_true_1). done.
Qed.

Lemma elem_of_members n ds : n ∈ concat (members <$> ds) <-> exists d q, d ∈ ds /\ 1 <= q <= 4 /\ n = member d q.
Proof.
  induction ds as [|d ds IH]; [split; [by intros ?%not_elem_of_nil|by intros (? & ? & ?%not_elem_of_nil & _)]|].
  rewrite fmap_cons. cbn [concat]. rewrite elem_of_app, IH. unfold members at 1. rewrite list_elem_of_fmap. setoid_rewrite elem_of_seqZ. setoid_rewrite elem_of_cons.
  split.
  - intros [(q & -> & Hq)|(d' & q & Hd & Hq & ->)]; [exists d, q|exists d', q]; split_and!; auto; lia.
  - intros (d' & q & [->|Hd] & Hq & ->); [left; exists q; split; [done|lia]|right; by eauto].
Qed.

Lemma archive_order evs s : rec_inv base_dir evs s -> Forall event_ok evs -> Forall (fun e => period e < 10) evs ->
  replay_order (map_to_list (generate_trace_file (openfiles s))).*1 = concat (members <$> periods evs).
Proof.
  intros Hi Hok Hp. destruct all_members as [Hs Hn].
  pose proof (sublist_groups members (fun d => d ∈ period <$> evs) (seqZ 0 10)) as Hsub. fold (periods evs) in Hsub.
  apply (Sorted_unique String.le).
  - apply (Sorted_merge_sort String.le).
  - apply StronglySorted_Sorted. by eapply sorted_sublist.
  - unfold replay_order. rewrite merge_sort_Permutation. apply NoDup_Permutation; [apply NoDup_fst_map_to_list|by eapply sublist_NoDup|].
    intros n. rewrite archive_names, elem_of_members. split.
    + intros (f & -> & Hf). destruct (ri_names _ _ _ Hi f Hf) as (d & q & Hd & Hq & ->). exists d, q. split; [|done].
      rewrite (ri_files _ _ _ Hi d q Hd Hq) in Hf. case_decide as Hin; [|by destruct Hf]. apply list_elem_of_filter. split; [done|].
      apply elem_of_seqZ. apply list_elem_of_fmap in Hin as (e & -> & He). rewrite Forall_forall in Hp. specialize (Hp e He). lia.
    + intros (d & q & [Hd1 Hd2%elem_of_seqZ]%list_elem_of_filter & Hq & ->). exists (file_name (dir_name base_dir d) q). split; [done|].
      rewrite (ri_files _ _ _ Hi d q) by lia. rewrite decide_True by done. by eexists.
Qed.

(** ** What is replayed *)
(** The sequence of a worker: its commands, then the one at the end. *)
Definition worker_sequence (max_lba : Z) (evs : list event) (d q : Z) : list seq_io :=
  concat ((fun e => replayed max_lba (ev_usec e mod PERIOD) (ev_cmd e)) <$> file_events d q evs)
  ++ [mk_seq (inject_Z (300 * 1000000) / 1) 0 0 1].
Definition replayed_groups (max_lba : Z) (evs : list event) : list (list (list seq_io)) :=
  (fun d => worker_sequence max_lba evs d <$> seqZ 1 4) <$> periods evs.

Lemma lookup_groups {A B} (f : A -> list B) n l k i x : (forall y, length (f y) = n) -> l !! k = Some x -> (i < n)%nat ->
  concat (f <$> l) !! (k * n + i)%nat = f x !! i.
Proof.
  intros Hf. revert k. induction l as [|y l IH]; intros k Hk Hi; [done|]. rewrite fmap_cons. cbn [concat]. destruct k as [|k].
  - injection Hk as ->. apply lookup_app_l. by rewrite Hf.
  - rewrite lookup_app_r by (rewrite Hf; lia). rewrite Hf. replace (S k * n + i - n)%nat with (k * n + i)%nat by lia. by apply IH.
Qed.

Lemma length_groups {A B} (f : A -> list B) n l : (forall y, length (f y) = n) -> length (concat (f <$> l)) = (length l * n)%nat.
Proof. intros Hf. induction l as [|y l IH]; [done|]. rewrite fmap_cons. cbn [concat]. rewrite length_app, Hf, IH. cbn. lia. Qed.

Lemma sequence_run evs s max_lba d q : rec_inv base_dir evs s -> Forall event_ok evs -> 0 < max_lba -> d ∈ periods evs -> 1 <= q <= 4 ->
  sequence max_lba 1 (default "" (generate_trace_file (openfiles s) !! member d q))%string = Ok (worker_sequence max_lba evs d q).
Proof.
  intros Hi Hok Hm [Hin Hd%elem_of_seqZ]%list_elem_of_filter Hq. destruct (rec_inv_replays _ _ _ _ d q Hi Hok Hm ltac:(lia) Hq Hin) as (t & Ht & Hr).
  rewrite <- arcname_file, archive_lookup, Ht; [|intros f1 f2 H1 H2 E|by eexists].
  - unfold sequence. cbn [default from_option id]. by rewrite Hr.
  - destruct (ri_names _ _ _ Hi f1 H1) as (d1 & q1 & Hd1 & _ & ->), (ri_names _ _ _ Hi f2 H2) as (d2 & q2 & Hd2 & _ & ->).
    rewrite !arcname_file in E. by apply file_name_inj in E as [-> ->].
Qed.

Lemma archive_replays evs s max_lba : rec_inv base_dir evs s -> Forall event_ok evs -> Forall (fun e => period e < 10) evs ->
  0 < max_lba -> replay_sequences (generate_trace_file (openfiles s)) max_lba 1 = Ok (replayed_groups max_lba evs).
Proof.
  intros Hi Hok Hp Hm. unfold replay_sequences. rewrite (archive_order evs s Hi Hok Hp). set (ds := periods evs).
  assert (Hl : forall d, length (members d) = 4%nat) by done. cbv zeta. rewrite (length_groups members 4 ds Hl).
  apply res_mapM_Forall2. unfold py_range. replace (Z.to_nat _) with (length ds).
  2: { unfold range_len. cbn [Z.ltb Z.compare]. replace (Z.of_nat (length ds * 4) - 0 + 4 - 1) with (3 + Z.of_nat (length ds) * 4) by lia.
    rewrite Z.div_add by lia. change (3 / 4) with 0. lia. }
  apply Forall2_same_length_lookup_2; [unfold replayed_groups; by rewrite !length_fmap, length_seq|].
  intros k x y Hx Hy. unfold replayed_groups in Hy. rewrite list_lookup_fmap in Hx. rewrite list_lookup_fmap in Hy.
  apply fmap_Some in Hx as (k' & Hk & ->). apply fmap_Some in Hy as (d & Hd & ->).
  apply lookup_seq in Hk as [-> _]. fold ds in Hd. assert (Hin : d ∈ ds) by (by apply list_elem_of_lookup_2 in Hd). unfold replay_group.
  change (seqZ 1 4) with [1; 2; 3; 4]. apply res_mapM_Forall2. change (py_range 0 4 1) with [0; 1; 2; 3].
  assert (Hget : forall i, 0 <= i < 4 -> (filepath ← list_get (concat (members <$> ds)) (0 + Z.of_nat (0 + k) * 4 + i);
    sequence max_lba 1 (default "" (generate_trace_file (openfiles s) !! filepath))%string) = Ok (worker_sequence max_lba evs d (i + 1))).
  { intros i Hi'. replace (0 + Z.of_nat (0 + k) * 4 + i) with (Z.of_nat (k * 4 + Z.to_nat i)) by lia.
    rewrite (list_get_nat _ _ (member d (i + 1))); [apply sequence_run; try done; lia|].
    rewrite (lookup_groups members 4 ds k (Z.to_nat i) d Hl Hd) by lia. unfold members. rewrite list_lookup_fmap, lookup_seqZ_lt by lia.
    cbn. do 2 f_equal. lia. }
  rewrite fmap_cons. repeat (constructor; [apply Hget; lia|]). constructor.
Qed.

(** ** The program *)
Section Sessions.
Context {Picture : Type}.
Variable plot : list Z -> list Z -> list (kind * Z) -> Picture.

Abbreviation main := (main plot).

(** *** The fuel is enough *)
Lemma record_lines_rest b t ls s v s' : record_lines b t ls s = (Ok v, s') ->
  (length (snd v) <= length ls)%nat /\ (fst v <> None -> (length (snd v) < length ls)%nat).
Proof.
  revert s. induction ls as [|[[o|] l] ls IH]; intros s; cbn [record_lines].
  - intros [= <- <-]. done.
  - intros [= <- <-]. cbn. lia.
  - intros ([] & s1 & _ & H)%run_bind_inv. apply IH in H as [H1 H2]. cbn [length]. split; [lia|]. intros Hn. specialize (H2 Hn). lia.
Qed.

Lemma recorder_run_rest b first ls s v s' : recorder_run b first ls s = (Ok v, s') ->
  (length (snd v) <= length ls)%nat /\ (fst v <> None -> (length (snd v) < length ls)%nat).
Proof.
  intros H. unfold recorder_run in H. apply run_bind_inv in H as (n & s1 & _ & H). apply run_bind_inv in H as (z & s2 & _ & H).
  apply run_bind_inv in H as ([] & s3 & _ & H). by eapply record_lines_rest.
Qed.

(** One turn of the loop up to the trace file. *)
Lemma run_eq (w : world Picture) : run w =
  let '(first, ls) := match w_input w with [] => ("", [])%string | (_, l) :: ls => (l, ls) end in
  match recorder_run base_dir first ls (w_rec w) with
  | (Ok v, s) => (Ok (fst v), mk_world s (snd v) (w_traces w))
  | (Err e, s) => (Err e, mk_world s ls (w_traces w))
  end.
Proof.
  unfold run, readline. destruct w as [s0 ls ts]. cbn [w_input w_rec w_traces]. destruct ls as [|[o l] ls].
  all: erewrite run_bind_ok by done; erewrite run_bind_ok by done; cbn [w_input w_rec set_input].
  all: destruct (recorder_run _ _ _ _) as [[[st rest]|e] s]; erewrite run_bind_ok by done; done.
Qed.

Lemma run_rest (w w' : world Picture) st : run w = (Ok st, w') ->
  (length (w_input w') <= length (w_input w))%nat /\ (st <> None -> (length (w_input w') < length (w_input w))%nat).
Proof.
  rewrite run_eq. destruct (w_input w) as [|[o l] ls] eqn:Ei; destruct (recorder_run _ _ _ _) as [[v|e] s] eqn:E; intros [= <- <-];
    apply recorder_run_rest in E as [H1 H2]; cbn [w_input length] in *; split; try lia; intros Hn; specialize (H2 Hn); lia.
Qed.

Lemma wait_lines_rest ls : (length (snd (wait_lines ls)) <= length ls)%nat.
Proof. induction ls as [|[[o|] l] ls IH]; cbn; lia. Qed.

Lemma stop_save_eq (w : world Picture) : recorder_stop_save plot w =
  match generate_trace_diagram plot (w_rec w) with
  | Ok p => (Ok (fst (wait_lines (w_input w))), mk_world (w_rec w) (snd (wait_lines (w_input w)))
              (w_traces w ++ [mk_trace p (generate_trace_file (openfiles (w_rec w)))]))
  | Err e => (Err e, w)
  end.
Proof.
  unfold recorder_stop_save. erewrite run_bind_ok by done. cbv zeta. destruct (generate_trace_diagram _ _) as [p|e].
  - erewrite run_bind_ok by done. erewrite run_bind_ok by done. by destruct (wait_lines (w_input w)) as [st rest].
  - by erewrite run_bind_err by done.
Qed.

(** More fuel than there are lines changes nothing. *)
Lemma main_fuel n : forall m (w : world Picture), (length (w_input w) < n)%nat -> (length (w_input w) < m)%nat -> main n w = main m w.
Proof.
  induction n as [|n IH]; intros m w Hn Hm; [lia|]. destruct m as [|m]; [lia|]. cbn [Archive.main].
  destruct (run w) as [[st|e] w1] eqn:E; [|by rewrite !(run_bind_err _ _ _ _ _ E)].
  rewrite !(run_bind_ok _ _ _ _ _ E). destruct (run_rest _ _ _ E) as [_ Hlt]. destruct st as [z|]; [|done]. specialize (Hlt ltac:(done)).
  destruct (recorder_stop_save plot w1) as [[st|e] w2] eqn:E2; [|by rewrite !(run_bind_err _ _ _ _ _ E2)].
  rewrite !(run_bind_ok _ _ _ _ _ E2). destruct st as [z'|]; [|done]. rewrite stop_save_eq in E2.
  destruct (generate_trace_diagram _ _) as [p|]; [|done]. injection E2 as _ <-. pose proof (wait_lines_rest (w_input w1)).
  apply IH; cbn [w_input]; lia.
Qed.

(** *** Recordings *)
(** A recording: its first line, which gives the time [x_base], the lines of
    [x_events], the line at which OK was clicked, the lines until the next OK,
    and the line at which it was. *)
Record session := mk_session {
  x_first : string; x_base : Z; x_lines : list string; x_events : list event; x_stop : Z * string;
  x_idle : list string; x_start : Z * string
}.

Definition quiet_lines (ls : list string) : list item := (fun l => (None, l)) <$> ls.
Definition clicked (e : Z * string) : item := (Some (Some (fst e)), snd e).

Definition session_ok (x : session) : Prop :=
  (n ← list_get (split (x_first x)) 1; py_int n) = Ok (x_base x) /\ 0 <= x_base x
  /\ Forall2 (line_of (x_base x)) (x_lines x) (x_events x) /\ Forall event_ok (x_events x) /\ in_order (x_events x)
  /\ Forall (fun e => period e < 10) (x_events x).

(** The pipe and the queue of a series of recordings; [rest] follows the last. *)
Fixpoint session_input (l : list session) (rest : list item) : list item :=
  match l with
  | [] => []
  | x :: l' => (None, x_first x) :: quiet_lines (x_lines x) ++ clicked (x_stop x) :: quiet_lines (x_idle x)
      ++ match l' with [] => rest | _ :: _ => clicked (x_start x) :: session_input l' rest end
  end.

(** The click on Cancel, or the end of the pipe. *)
Definition ends (rest : list item) : Prop := rest = [] \/ exists l rest', rest = (Some None, l) :: rest'.

(** The trace file of a recording. *)
Definition trace_of (x : session) (t : trace_file Picture) : Prop :=
  forall max_lba, 0 < max_lba -> replay_sequences (t_zip t) max_lba 1 = Ok (replayed_groups max_lba (x_events x)).

Lemma wait_quiet ls rest : wait_lines (quiet_lines ls ++ rest) = wait_lines rest.
Proof. by induction ls. Qed.

Lemma session_turn x rest (w : world Picture) : session_ok x ->
  w_input w = (None, x_first x) :: quiet_lines (x_lines x) ++ clicked (x_stop x) :: rest ->
  exists w' t, run w = (Ok (Some (fst (x_stop x))), w') /\ trace_of x t
    /\ recorder_stop_save plot w' = (Ok (fst (wait_lines rest)), mk_world (w_rec w') (snd (wait_lines rest)) (w_traces w ++ [t])).
Proof.
  intros (H1 & H2 & H3 & H4 & H5 & H6) Hi. rewrite run_eq, Hi.
  destruct (recorder_run_inv base_dir _ _ _ _ (clicked (x_stop x) :: rest) (w_rec w) H1 H2 H3 H4 H5) as (s & R & Hr).
  unfold quiet_lines. rewrite R. cbn [record_lines clicked]. assert (R' := R). cbn [record_lines clicked] in R'.
  apply recorder_run_balanced in R' as [B1 B2]. eexists. eexists. split; [done|]. rewrite stop_save_eq. cbn [w_rec w_input w_traces fst snd].
  unfold generate_trace_diagram. rewrite <- B1, <- B2, Nat.eqb_refl. cbn [andb]. split; [|done].
  intros max_lba Hm. by apply archive_replays.
Qed.

Lemma main_sessions l rest : ends rest -> l <> [] -> Forall session_ok l -> forall fuel (w : world Picture),
  w_input w = session_input l rest -> (length (w_input w) < fuel)%nat ->
  exists w' ts, main fuel w = (Ok tt, w') /\ w_traces w' = w_traces w ++ ts /\ Forall2 trace_of l ts.
Proof.
  intros He Hne Hok. induction Hok as [|x l Hx Hok IH]; [done|]. intros fuel w Hi Hf. destruct fuel as [|fuel]; [lia|].
  destruct (session_turn x _ w Hx Hi) as (w1 & t & R1 & Ht & R2). cbn [Archive.main]. rewrite (run_bind_ok _ _ _ _ _ R1).
  rewrite (run_bind_ok _ _ _ _ _ R2). rewrite wait_quiet. destruct l as [|y l].
  - assert (fst (wait_lines rest) = None) as -> by (by destruct He as [->|(k & r & ->)]).
    eexists. exists [t]. split; [done|]. split; [done|]. by constructor.
  - cbn [wait_lines clicked fst snd]. edestruct (IH ltac:(done) fuel) as (w' & ts & R & Hw & Hts); [| |exists w', (t :: ts); split; [exact R|]].
    + done.
    + change (length (session_input (y :: l) rest) < fuel)%nat. rewrite Hi in Hf. assert (Hlen : length (session_input (x :: y :: l) rest) = length ((None, x_first x) :: quiet_lines (x_lines x)
        ++ clicked (x_stop x) :: quiet_lines (x_idle x) ++ clicked (x_start x) :: session_input (y :: l) rest)) by done.
      rewrite Hlen in Hf. revert Hf. generalize (session_input (y :: l) rest). intros i Hf. cbn [length] in Hf.
      rewrite length_app in Hf. cbn [length] in Hf. rewrite length_app in Hf. cbn [length] in Hf. lia.
    + rewrite Hw. cbn [w_traces]. rewrite <- app_assoc. split; [done|]. by constructor.
Qed.

(** The entries of the queue, in the order they are taken. *)
Definition taken (l : list item) : list (option Z) := omap fst l.

Lemma taken_quiet ls rest : taken (quiet_lines ls ++ rest) = taken rest.
Proof. unfold taken, quiet_lines. rewrite omap_app. by induction ls. Qed.

Lemma taken_session x l rest : taken (session_input (x :: l) rest) = Some (fst (x_stop x))
  :: match l with [] => taken rest | _ :: _ => Some (fst (x_start x)) :: taken (session_input l rest) end.
Proof.
  cbn [session_input]. unfold taken at 1. cbn [omap list_omap fst]. fold taken. change (omap fst ?l) with (taken l).
  rewrite taken_quiet. unfold taken at 1. cbn [omap list_omap clicked fst]. change (omap fst ?l) with (taken l). rewrite taken_quiet. by destruct l.
Qed.

Lemma gui_cons state clicks n q : subprocess_gui state clicks = Some n :: q ->
  n = state + 1 /\ exists clicks', q = subprocess_gui (state + 1) clicks'.
Proof. destruct clicks as [|[] clicks]; [done| |done]. cbn. intros [= <- <-]. eauto. Qed.

(** What the window says when it is clicked. *)
Lemma clicks_in_step l rest : forall state clicks, state mod 2 = 0 -> taken (session_input l rest) = subprocess_gui state clicks ->
  forall k x, l !! k = Some x -> msg (fst (x_stop x) - 1) = "stop and save the trace"%string
    /\ ((S k < length l)%nat -> msg (fst (x_start x) - 1) = "start the trace"%string).
Proof.
  induction l as [|x l IH]; intros state clicks Hs Ht k x' Hk; [done|]. rewrite taken_session in Ht. symmetry in Ht.
  apply gui_cons in Ht as [H1 [clicks1 Ht]]. assert (Hodd : (state + 1) mod 2 = 1) by (rewrite Z.add_mod, Hs by lia; done).
  assert (H3 : l <> [] -> fst (x_start x) = state + 2 /\ exists clicks2, taken (session_input l rest) = subprocess_gui (state + 2) clicks2).
  { intros Hl. destruct l as [|y l]; [done|]. symmetry in Ht. apply gui_cons in Ht as [H2 [clicks2 Ht]].
    replace (state + 1 + 1) with (state + 2) in * by lia. eauto. }
  destruct k as [|k].
  - injection Hk as <-. unfold msg. rewrite H1. replace (state + 1 - 1) with state by lia. rewrite Hs. split; [done|].
    intros Hl. destruct (H3 ltac:(by destruct l; cbn in Hl; [lia|])) as [H2 _]. rewrite H2. replace (state + 2 - 1) with (state + 1) by lia. by rewrite Hodd.
  - assert (Hl : l <> []) by (by destruct l). destruct (H3 Hl) as [_ [clicks2 H2]].
    destruct (IH (state + 2) clicks2 ltac:(rewrite Z.add_mod, Hs by lia; done) H2 k x' Hk) as [R1 R2]. split; [done|]. cbn. intros Hlt. apply R2. lia.
Qed.

(** C38. What the drive was asked to do comes back from the trace files.  Let
    the pipe and the clicks be those of a series of recordings of less than 50
    minutes each, with lines of reads and writes in the order of their times,
    ended by Cancel or the end of the pipe.  Then the recorder
    ends without an error and has written one trace file for each recording;
    the replayer reads each file as groups of four sequences, one group for
    each period of five minutes in which something was recorded, in their
    order, and in it one sequence for each queue: its commands of that period,
    then the command that makes the worker last until the end of the period.
    Each click that ended a recording was at a window that offered to stop, and
    each that started one at a window that offered to start. *)
Theorem recordings_replayed l rest clicks : ends rest -> l <> [] -> Forall session_ok l ->
  taken (session_input l rest) = subprocess_gui 0 clicks ->
  exists w, program plot (session_input l rest) = (Ok tt, w)
  /\ Forall2 (fun x t => forall max_lba, 0 < max_lba ->
       replay_sequences (t_zip t) max_lba 1 = Ok ((fun d => worker_sequence max_lba (x_events x) d <$> seqZ 1 4) <$> periods (x_events x)))
      l (w_traces w)
  /\ forall k x, l !! k = Some x -> msg (fst (x_stop x) - 1) = "stop and save the trace"%string
       /\ ((S k < length l)%nat -> msg (fst (x_start x) - 1) = "start the trace"%string).
Proof.
  intros He Hne Hok Hc. destruct (main_sessions l rest He Hne Hok (S (length (session_input l rest)))
    (mk_world (mk_rec [] ∅ None 0 [] [] []) (session_input l rest) [])) as (w & ts & R & Hw & Hts); [done|cbn [w_input]; lia|].
  exists w. split; [exact R|]. split; [by rewrite Hw|]. by apply (clicks_in_step l rest 0 clicks).
Qed.

(** The fuel of the program is enough for any input. *)
Lemma program_total ls n : (length ls < n)%nat -> main n (mk_world (mk_rec [] ∅ None 0 [] [] []) ls []) = program plot ls.
Proof. intros Hn. apply main_fuel; cbn; lia. Qed.
End Sessions.

(** ** The replay *)
Abbreviation total := (foldr Z.add 0).

Lemma total_app l1 l2 : total (l1 ++ l2) = total l1 + total l2.
Proof. induction l1; cbn [foldr app]; lia. Qed.
Lemma total_zip l1 l2 : length l1 = length l2 -> total (zip_with Z.add l1 l2) = total l1 + total l2.
Proof. revert l2. induction l1 as [|x l1 IH]; intros [|y l2]; try done. cbn. intros [= H]. rewrite IH by done. lia. Qed.

Definition million (l : list Z) : Prop := Z.of_nat (length l) = 1000000.

Lemma add_distribution_run dist rt : million dist -> million rt ->
  exists rt', add_distribution dist rt = (Ok tt, rt') /\ million rt' /\ total rt' = total rt + total dist.
Proof.
  intros Hd Hr. unfold million in *. eexists. split.
  - unfold add_distribution. erewrite run_bind_ok by done. cbv zeta. rewrite Hd, Hr. cbn [Z.leb Z.compare andb]. done.
  - rewrite !take_ge, drop_ge, app_nil_r by lia. rewrite length_zip_with, total_zip by lia. split; lia.
Qed.

Lemma add_distributions_run ds rt : Forall million ds -> million rt ->
  exists rt', foreach add_distribution ds rt = (Ok tt, rt') /\ million rt' /\ total rt' = total rt + total (total <$> ds).
Proof.
  intros Hd. revert rt. induction Hd as [|d ds Hd _ IH]; intros rt Hr; [exists rt; cbn; split; [done|]; split; [done|lia]|].
  destruct (add_distribution_run d rt Hd Hr) as (r1 & E1 & M1 & T1). destruct (IH r1 M1) as (r2 & E2 & M2 & T2).
  exists r2. cbn [foreach]. rewrite (run_bind_ok _ _ _ _ _ E1). split; [done|]. split; [done|]. cbn. lia.
Qed.

(** The diagram of the response times counts the commands of every worker. *)
Lemma replay_counts worker zip mdts format_support accelerator groups rt : million rt -> (forall q, million (worker q)) ->
  replay_sequences zip (replay_max_lba mdts format_support) accelerator = Ok groups ->
  exists rt', replay_logfile worker zip mdts format_support accelerator rt = (Ok tt, rt') /\ million rt'
    /\ total rt' = total rt + total ((fun g => total (total ∘ worker <$> g)) <$> groups).
Proof.
  intros Hr Hw Hg. apply res_mapM_inv in Hg. unfold replay_logfile. cbv zeta. revert rt Hr.
  induction Hg as [|start g starts groups Hg _ IH]; intros rt Hr; [exists rt; cbn; split; [done|]; split; [done|lia]|]. cbn [foreach].
  destruct (add_distributions_run (worker <$> g) rt) as (r1 & E1 & M1 & T1); [by apply Forall_fmap, Forall_true|done|].
  destruct (IH r1 M1) as (r2 & E2 & M2 & T2). exists r2. split; [|split; [done|]].
  - erewrite run_bind_ok; [exact E2|]. erewrite run_bind_ok; [exact E1|]. unfold lift. by rewrite Hg.
  - rewrite fmap_cons. cbn [foldr]. rewrite <- list_fmap_compose in T1. lia.
Qed.

(** ** Witness *)
Definition two_recordings : list session := [
  mk_session "boot 1000" 1000 [" pynvme 1005 1 write 100 40"; "pynvme 600001009 2 read 8 8"]
    [mk_event 5 1 (CWrite 100 40); mk_event 600000009 2 (CRead 8 8)] (1, "pynvme 600002000 1 flush 0 0") ["pynvme 600003000 1 flush 0 0"] (2, "-");
  mk_session "pynvme 700000000 1 write 0 8" 700000000 ["pynvme 700000020 4 flush 0 0"] [mk_event 20 4 CFlush] (3, "-") [] (0, "")]%string.

Lemma two_recordings_ok : Forall session_ok two_recordings.
Proof.
  assert (Hl : forall tb t l e, (contains "pynvme" l = true /\
      split l = t :: pretty (tb + ev_usec e) :: pretty (ev_qid e) :: tokens (ev_cmd e)) -> line_of tb l e)
    by (intros tb t l e [H1 H2]; split; [|exists t]; done).
  constructor; [|constructor; [|constructor]].
  all: split; [vm_compute; reflexivity|]; split; [cbn; lia|]; split;
    [repeat (constructor; [apply (Hl _ "pynvme"%string); split; vm_compute; reflexivity|]); constructor|].
  all: split; [repeat constructor; cbn; lia|]; split; [repeat constructor; vm_compute; discriminate|].
  all: repeat (constructor; [vm_compute; reflexivity|]); constructor.
Qed.

(** The period between the two commands of the first recording is left out:
    the replayer goes on with the third at once. *)
Lemma recordings_replayed_witness : exists w t1 t2,
  program (fun _ _ _ => tt) (session_input two_recordings [(Some None, ""%string)]) = (Ok tt, w) /\ w_traces w = [t1; t2]
  /\ replay_sequences (t_zip t1) 16 1 = Ok
       [[[mk_seq 5 1 100 16; mk_seq 5 1 116 16; mk_seq 5 1 132 8; mk_seq 300000000 0 0 1]; [mk_seq 300000000 0 0 1];
         [mk_seq 300000000 0 0 1]; [mk_seq 300000000 0 0 1]];
        [[mk_seq 300000000 0 0 1]; [mk_seq 9 2 8 8; mk_seq 300000000 0 0 1]; [mk_seq 300000000 0 0 1]; [mk_seq 300000000 0 0 1]]].
Proof.
  destruct (recordings_replayed (fun _ _ _ => tt) two_recordings [(Some None, ""%string)] [true; true; true; false]
    (or_intror (ex_intro _ _ (ex_intro _ _ eq_refl))) ltac:(done) two_recordings_ok) as (w & R & Ht & _); [vm_compute; reflexivity|].
  pose proof (Forall2_length _ _ _ Ht) as Hlen. destruct (w_traces w) as [|t1 [|t2 [|t3 ts]]] eqn:E; try discriminate Hlen.
  exists w, t1, t2. split; [exact R|]. split; [done|].
  rewrite (Forall2_lookup_lr _ _ _ 0%nat _ t1 Ht eq_refl eq_refl 16) by lia. vm_compute. reflexivity.
Defined.

(** A recording that Cancel ends is not saved. *)
Example cancelled : let '(r, w) := program (fun _ _ _ => tt) [(None, "boot 1000"); (None, "pynvme 1005 1 flush 0 0"); (Some None, "-")]%string in
  r = Ok tt /\ w_traces w = [].
Proof. vm_compute. done. Qed.
