(* ===== verification/Signature.v ===== *)
(** * Signature: Python call binding

    What the language does with the arguments of a call: positional arguments
    fill the parameters from the left, keyword arguments fill the parameter of
    their name, defaults fill the rest, and every other case raises
    [TypeError].  Signatures are data, so that the interface file
    [src/nvme.py] and the classes of [src/src/driver_wrap.pyx] can be compared. *)
From Stdlib Require Import ZArith Lia String.
From stdpp Require Import base list numbers option strings.
From S2P Require Import Prelude.
Local Open Scope string_scope.

(** ** Signatures *)

(** The default values that occur, as written in the source. *)
Inductive pydefault :=
  | DefNone | DefInt (z : Z) | DefBool (b : bool) | DefStr (s : string) | DefName (s : string).
Record param := mk_param { p_name : string; p_default : option pydefault }.

(** A plain method, a read-only property, or a property with a setter. *)
Inductive mkind := Method | Property | PropertySetter.
Record method := mk_method {
  m_name : string;
  m_kind : mkind;
  m_params : list param;          (* [self] included, as in the [def] line *)
  m_vararg : option string;       (* [*names] *)
  m_docs : list string            (* the parameters its doc string describes *)
}.
Record pyclass := mk_class { c_name : string; c_methods : list method }.

Definition names (m : method) : list string := p_name <$> m_params m.

(** ** Binding *)
Section Bind.
Context {V : Type}.
(** The value of a default expression. *)
Variable dflt : pydefault -> V.

Fixpoint zip_args (ps : list param) (args : list V) : list (param * option V) :=
  match ps, args with
  | [], _ => []
  | p :: ps', [] => (p, None) :: zip_args ps' []
  | p :: ps', a :: args' => (p, Some a) :: zip_args ps' args'
  end.

Fixpoint set_kw (k : string) (v : V) (sl : list (param * option V)) : res (list (param * option V)) :=
  match sl with
  | [] => Err TypeError                                    (* unexpected keyword *)
  | (p, o) :: sl' =>
      if String.eqb (p_name p) k then
        match o with
        | Some _ => Err TypeError                          (* multiple values *)
        | None => Ok ((p, Some v) :: sl')
        end
      else sl' ← set_kw k v sl'; Ok ((p, o) :: sl')
  end.

Fixpoint set_kws (kws : list (string * V)) (sl : list (param * option V))
    : res (list (param * option V)) :=
  match kws with
  | [] => Ok sl
  | (k, v) :: kws' => sl ← set_kw k v sl; set_kws kws' sl
  end.

Definition fill (s : param * option V) : res V :=
  match snd s with
  | Some v => Ok v
  | None => match p_default (fst s) with
            | Some d => Ok (dflt d)
            | None => Err TypeError                        (* missing argument *)
            end
  end.

(** The values of the parameters, and those collected by [*names]. *)
Definition bind (m : method) (args : list V) (kws : list (string * V)) : res (list V * list V) :=
  let n := length (m_params m) in
  check ((length args <=? n)%nat || match m_vararg m with Some _ => true | None => false end)
    TypeError ;;
  sl ← set_kws kws (zip_args (m_params m) args);
  vals ← mapM fill sl;
  Ok (vals, drop n args).

(** ** The declarative meaning of a call *)
Fixpoint assoc (k : string) (kws : list (string * V)) : option V :=
  match kws with
  | [] => None
  | (k', v) :: kws' => if String.eqb k' k then Some v else assoc k kws'
  end.

(** The value given to the parameter at a position, if any. *)
Definition given (args : list V) (kws : list (string * V)) (i : nat) (p : param) : option V :=
  match args !! i with Some a => Some a | None => assoc (p_name p) kws end.

Definition value (args : list V) (kws : list (string * V)) (i : nat) (p : param) : option V :=
  match given args kws i p with Some v => Some v | None => dflt <$> p_default p end.

(** The calls a signature accepts. *)
Record accepts (m : method) (args : list V) (kws : list (string * V)) : Prop := {
  acc_count : (length args <= length (m_params m))%nat \/ m_vararg m <> None;
  acc_nodup : NoDup (fst <$> kws);
  acc_names : forall k, k ∈ fst <$> kws ->
    exists i p, (length args <= i)%nat /\ m_params m !! i = Some p /\ p_name p = k;
  acc_values : forall i p, m_params m !! i = Some p -> is_Some (value args kws i p)
}.

Lemma zip_args_lookup ps args i :
  zip_args ps args !! i = (fun p => (p, args !! i)) <$> ps !! i.
Proof.
  revert args i. induction ps as [|p ps IH]; intros [|a args] [|i]; try done; cbn.
  - rewrite IH. done.
  - apply IH.
Qed.

Lemma zip_args_params ps args : fst <$> zip_args ps args = ps.
Proof.
  apply list_eq. intros i. rewrite list_lookup_fmap, zip_args_lookup. by destruct (ps !! i).
Qed.

(** Storing one keyword: the slot of that name, which must be free. *)
Lemma set_kw_ok k v sl sl' :
  set_kw k v sl = Ok sl' ->
  exists i p, sl !! i = Some (p, None) /\ p_name p = k /\ sl' = <[i := (p, Some v)]> sl.
Proof.
  revert sl'. induction sl as [|[p o] sl IH]; intros sl' H; [done|]. cbn [set_kw] in H.
  destruct (String.eqb_spec (p_name p) k) as [Hk|Hk].
  - destruct o; [done|]. injection H as <-. by exists 0%nat, p.
  - unfold mbind, res_bind in H. destruct (set_kw k v sl) as [sl1|] eqn:E; [|done].
    injection H as <-. destruct (IH _ eq_refl) as (i & p' & Hi & Hp & ->).
    by exists (S i), p'.
Qed.

Lemma set_kw_find k v sl i p :
  NoDup ((p_name ∘ fst) <$> sl) -> sl !! i = Some (p, None) -> p_name p = k ->
  set_kw k v sl = Ok (<[i := (p, Some v)]> sl).
Proof.
  revert i. induction sl as [|[p' o] sl IH]; intros i Hnd Hi Hp; [done|].
  apply NoDup_cons in Hnd as [Hnin Hnd]. cbn [set_kw].
  destruct i as [|i].
  - injection Hi as -> ->. by rewrite Hp, String.eqb_refl.
  - cbn in Hi. destruct (String.eqb_spec (p_name p') k) as [Hk|Hk].
    + exfalso. apply Hnin. cbn. rewrite Hk, <- Hp. apply list_elem_of_fmap.
      exists (p, None). split; [done|]. by eapply list_elem_of_lookup_2.
    + rewrite (IH i Hnd Hi Hp). done.
Qed.

(** Two slots of the same name are the same slot. *)
Lemma slot_unique (sl : list (param * option V)) i j p q o o' :
  NoDup ((p_name ∘ fst) <$> sl) -> sl !! i = Some (p, o) -> sl !! j = Some (q, o') ->
  p_name p = p_name q -> i = j.
Proof.
  intros Hnd Hi Hj Hpq. eapply NoDup_lookup; [done|..].
  - rewrite list_lookup_fmap, Hi. done.
  - rewrite list_lookup_fmap, Hj. cbn. by rewrite Hpq.
Qed.

Lemma insert_slot_names (sl : list (param * option V)) i p o o' :
  sl !! i = Some (p, o) -> (p_name ∘ fst) <$> <[i := (p, o')]> sl = (p_name ∘ fst) <$> sl.
Proof.
  intros Hi. rewrite list_fmap_insert. apply list_insert_id. by rewrite list_lookup_fmap, Hi.
Qed.

Definition merge (kws : list (string * V)) (s : param * option V) : param * option V :=
  (fst s, match snd s with Some v => Some v | None => assoc (p_name (fst s)) kws end).

Definition free_slots (sl : list (param * option V)) (kws : list (string * V)) : Prop :=
  forall k, k ∈ fst <$> kws -> exists i p, sl !! i = Some (p, None) /\ p_name p = k.

Lemma set_kws_ok kws : forall sl,
  NoDup ((p_name ∘ fst) <$> sl) -> NoDup (fst <$> kws) -> free_slots sl kws ->
  set_kws kws sl = Ok (merge kws <$> sl).
Proof.
  induction kws as [|[k v] kws IH]; intros sl Hnd Hk Hfree.
  { cbn. f_equal. rewrite <- (list_fmap_id sl) at 1. apply list_fmap_ext.
    intros ? [p [v|]] _; done. }
  apply NoDup_cons in Hk as [Hnin Hk]. cbn [set_kws].
  destruct (Hfree k) as (i & p & Hi & Hp); [left|].
  rewrite (set_kw_find k v sl i p) by done. unfold mbind, res_bind.
  rewrite IH; [| by rewrite (insert_slot_names _ _ _ _ _ Hi) | done |].
  - f_equal. apply list_eq. intros j. rewrite !list_lookup_fmap.
    destruct (decide (i = j)) as [<-|Hne].
    + rewrite list_lookup_insert_eq by (by eapply lookup_lt_Some). rewrite Hi. cbn.
      unfold merge. cbn. by rewrite Hp, String.eqb_refl.
    + rewrite list_lookup_insert_ne by done.
      destruct (sl !! j) as [[q o]|] eqn:Hj; [|done]. cbn. unfold merge. cbn.
      destruct o; [done|]. destruct (String.eqb_spec k (p_name q)) as [Hq|]; [|done].
      exfalso. apply Hne. eapply slot_unique; [done..|]. by rewrite Hp.
  - intros k' Hk'. destruct (Hfree k') as (j & q & Hj & Hq); [by right|].
    exists j, q. split; [|done]. rewrite list_lookup_insert_ne; [done|].
    intros <-. apply Hnin. replace k with k'; [done|]. congruence.
Qed.

Lemma set_kws_inv kws : forall sl sl',
  NoDup ((p_name ∘ fst) <$> sl) -> set_kws kws sl = Ok sl' ->
  NoDup (fst <$> kws) /\ free_slots sl kws.
Proof.
  induction kws as [|[k v] kws IH]; intros sl sl' Hnd H.
  { split; [constructor|]. intros k Hk. by apply elem_of_nil in Hk. }
  cbn [set_kws] in H. unfold mbind, res_bind in H.
  destruct (set_kw k v sl) as [sl1|] eqn:E; [|done].
  destruct (set_kw_ok _ _ _ _ E) as (i & p & Hi & Hp & ->).
  destruct (IH (<[i := (p, Some v)]> sl) sl') as [Hk Hfree];
    [by rewrite (insert_slot_names _ _ _ _ _ Hi)|done|].
  assert (Hback : forall k', k' ∈ fst <$> kws ->
    exists j q, sl !! j = Some (q, None) /\ p_name q = k' /\ j <> i).
  { intros k' Hk'. destruct (Hfree k' Hk') as (j & q & Hj & Hq).
    assert (Hne : i <> j).
    { intros <-. by rewrite list_lookup_insert_eq in Hj by (by eapply lookup_lt_Some). }
    rewrite list_lookup_insert_ne in Hj by done. by exists j, q. }
  split.
  - apply NoDup_cons. split; [|done]. intros Hin. destruct (Hback k Hin) as (j & q & Hj & Hq & Hne).
    apply Hne. eapply slot_unique; [done..|]. congruence.
  - intros k' [->|Hk']%elem_of_cons; [by exists i, p|].
    destruct (Hback k' Hk') as (j & q & Hj & Hq & _). by exists j, q.
Qed.

Lemma mapM_fill_ok (sl : list (param * option V)) vals :
  mapM fill sl = Ok vals <->
  length vals = length sl
  /\ (forall i s, sl !! i = Some s -> exists v, vals !! i = Some v /\ fill s = Ok v).
Proof.
  revert vals. induction sl as [|s sl IH]; intros vals.
  - cbn. split; [intros [= <-]; split; done|]. intros [Hl _]. by destruct vals.
  - cbn [mapM]. split.
    + destruct (fill s) as [v|] eqn:E; simpl; [|done].
      destruct (mapM fill sl) as [vs|]; simpl; [|done]. intros [= <-]. destruct (proj1 (IH vs) eq_refl) as [Hl H]. split; [by cbn; f_equal|].
      intros [|i] s' Hs'; [injection Hs' as <-; by exists v|]. by apply H.
    + intros [Hl H]. destruct vals as [|v vals]; [done|].
      destruct (H 0%nat s eq_refl) as (v' & [= <-] & ->). simpl.
      rewrite (proj2 (IH vals)); [done|]. split; [by injection Hl|].
      intros i s' Hs'. by apply (H (S i) s').
Qed.

(** What a call gives: a value for every parameter, by its position, and the
    positional arguments left over. *)
Definition binds (m : method) (args : list V) (kws : list (string * V)) (r : list V * list V) : Prop :=
  length (fst r) = length (m_params m)
  /\ (forall i p, m_params m !! i = Some p -> fst r !! i = value args kws i p)
  /\ snd r = drop (length (m_params m)) args.

Lemma zip_args_names ps args : (p_name ∘ fst) <$> zip_args ps args = p_name <$> ps.
Proof. rewrite list_fmap_compose. by rewrite zip_args_params. Qed.

Lemma zip_args_length ps args : length (zip_args ps args) = length ps.
Proof. rewrite <- (zip_args_params ps args) at 2. by rewrite length_fmap. Qed.

Lemma free_slots_zip ps args kws :
  free_slots (zip_args ps args) kws <->
  forall k, k ∈ fst <$> kws ->
    exists i p, (length args <= i)%nat /\ ps !! i = Some p /\ p_name p = k.
Proof.
  split; intros H k Hk; destruct (H k Hk) as (i & p & Hi).
  - exists i, p. rewrite zip_args_lookup in Hi. destruct Hi as [Hi Hp].
    destruct (ps !! i) as [q|]; [|done]. injection Hi as -> Ha.
    split; [|done]. by apply lookup_ge_None.
  - destruct Hi as (Hl & Hi & Hp). exists i, p. split; [|done].
    rewrite zip_args_lookup, Hi. cbn. by rewrite lookup_ge_None_2.
Qed.

Lemma fill_merge args kws i p :
  fill (merge kws (p, args !! i)) = match value args kws i p with
                                    | Some v => Ok v | None => Err TypeError end.
Proof.
  unfold fill, merge, value, given. cbn. destruct (args !! i); [done|].
  destruct (assoc _ kws); [done|]. by destruct (p_default p).
Qed.

Lemma bind_sound m args kws r :
  NoDup (names m) -> bind m args kws = Ok r -> accepts m args kws /\ binds m args kws r.
Proof.
  intros Hnd H. unfold bind, check in H.
  destruct ((length args <=? length (m_params m))%nat || _) eqn:Ec; simpl in H; [|done].
  destruct (set_kws kws _) as [sl|] eqn:Es; simpl in H; [|done].
  destruct (mapM fill sl) as [vals|] eqn:Ef; simpl in H; [|done]. injection H as <-.
  assert (Hsn : NoDup ((p_name ∘ fst) <$> zip_args (m_params m) args)) by by rewrite zip_args_names.
  destruct (set_kws_inv _ _ _ Hsn Es) as [Hk Hfree].
  rewrite (set_kws_ok _ _ Hsn Hk Hfree) in Es. injection Es as <-.
  apply mapM_fill_ok in Ef as [Hl Hv]. rewrite length_fmap, zip_args_length in Hl.
  assert (Hval : forall i p, m_params m !! i = Some p ->
    exists v, vals !! i = Some v /\ value args kws i p = Some v).
  { intros i p Hp. destruct (Hv i (merge kws (p, args !! i))) as (v & Hi & Hf).
    - by rewrite list_lookup_fmap, zip_args_lookup, Hp.
    - exists v. split; [done|]. rewrite fill_merge in Hf.
      destruct (value args kws i p); [by injection Hf as ->|done]. }
  split; split.
  - destruct (m_vararg m); [by right|left]. rewrite orb_false_r in Ec. by apply Nat.leb_le.
  - done.
  - by apply free_slots_zip.
  - intros i p Hp. destruct (Hval i p Hp) as (v & _ & ->). done.
  - done.
  - split; [|done]. intros i p Hp. cbn [fst]. destruct (Hval i p Hp) as (v & -> & ->). done.
Qed.

Lemma bind_complete m args kws :
  NoDup (names m) -> accepts m args kws -> exists r, bind m args kws = Ok r.
Proof.
  intros Hnd [Hc Hk Hn Hv]. unfold bind, check.
  assert (Ec : (length args <=? length (m_params m))%nat
    || match m_vararg m with Some _ => true | None => false end = true).
  { destruct Hc as [Hc|Hc]; [by rewrite (proj2 (Nat.leb_le _ _) Hc)|].
    destruct (m_vararg m); [apply orb_true_r|done]. }
  rewrite Ec. simpl. rewrite set_kws_ok; [|by rewrite zip_args_names|done|by apply free_slots_zip].
  simpl. set (sl := merge kws <$> zip_args (m_params m) args).
  assert (exists vals, mapM fill sl = Ok vals) as [vals ->]; [|by eexists].
  assert (Hall : Forall (fun s => exists v, fill s = Ok v) sl).
  { apply Forall_lookup. intros i s Hs. unfold sl in Hs.
    rewrite list_lookup_fmap, zip_args_lookup in Hs.
    destruct (m_params m !! i) as [p|] eqn:Hp; [|done]. injection Hs as <-.
    pose proof (fill_merge args kws i p) as Hf. destruct (Hv i p Hp) as [v Hval].
    rewrite Hval in Hf. by exists v. }
  clearbody sl. induction Hall as [|s sl [v Hs] _ [vals IH]]; [by eexists|].
  exists (v :: vals). simpl. by rewrite Hs, IH.
Qed.

(** A refused call raises [TypeError], and nothing else. *)
Lemma bind_error m args kws e : bind m args kws = Err e -> e = TypeError.
Proof.
  unfold bind, check. destruct (_ || _); simpl; [|by intros [= <-]].
  assert (Hkw : forall k v sl e', set_kw k v sl = Err e' -> e' = TypeError).
  { intros k v sl. induction sl as [|[p o] sl IH]; intros e' H; [by injection H as <-|].
    cbn [set_kw] in H. destruct (String.eqb _ _); [destruct o; [by injection H as <-|done]|].
    destruct (set_kw k v sl); [done|]. injection H as <-. by apply IH. }
  assert (Hkws : forall ks sl e', set_kws ks sl = Err e' -> e' = TypeError).
  { intros ks. induction ks as [|[k v] ks IH]; intros sl e' H; [done|]. cbn [set_kws] in H.
    destruct (set_kw k v sl) eqn:E; [by eapply IH|]. injection H as <-. by eapply Hkw. }
  destruct (set_kws kws _) as [sl|] eqn:Es; simpl; [|intros [= <-]; by eapply Hkws].
  destruct (mapM fill sl) eqn:Ef; simpl; [done|]. intros [= <-].
  revert Ef. clear. induction sl as [|s sl IH]; [done|]. cbn [mapM].
  destruct (fill s) eqn:E; simpl.
  - destruct (mapM fill sl) eqn:E2; simpl; [done|]. intros [= <-]. by apply IH.
  - intros [= <-]. unfold fill in E. destruct (snd s); [done|].
    destruct (p_default (fst s)); [done|]. by injection E.
Qed.
End Bind.

(** ** Comparing two signatures *)
Definition has_default (p : param) : bool :=
  match p_default p with Some _ => true | None => false end.

(** Every call of the first is a call of the second, with the same meaning. *)
Fixpoint compat_params (ps qs : list param) : bool :=
  match ps, qs with
  | [], _ => forallb has_default qs
  | p :: ps', q :: qs' =>
      String.eqb (p_name p) (p_name q) && implb (has_default p) (has_default q)
      && compat_params ps' qs'
  | _ :: _, [] => false
  end.

Definition compat (m1 m2 : method) : bool :=
  compat_params (m_params m1) (m_params m2)
  && match m_vararg m1 with
     | None => true
     | Some _ => match m_vararg m2 with Some _ => true | None => false end
                 && Nat.eqb (length (m_params m1)) (length (m_params m2))
     end.

Lemma compat_params_lookup ps qs i q :
  compat_params ps qs = true -> qs !! i = Some q ->
  match ps !! i with
  | Some p => p_name p = p_name q /\ (has_default p = true -> has_default q = true)
  | None => has_default q = true
  end.
Proof.
  revert qs i. induction ps as [|p ps IH]; intros qs i H Hq.
  - cbn in *. revert i Hq. induction qs as [|q' qs IH]; intros i Hq; [done|].
    cbn in H. apply andb_true_iff in H as [Hd H].
    destruct i as [|i]; [by injection Hq as <-|by apply (IH H i)].
  - destruct qs as [|q' qs]; [done|]. cbn [compat_params] in H.
    apply andb_true_iff in H as [H Hr]. apply andb_true_iff in H as [Hn Hd].
    destruct i as [|i]; [|by apply (IH qs)]. injection Hq as ->. cbn.
    apply String.eqb_eq in Hn. split; [done|]. intros Hp. by rewrite Hp in Hd.
Qed.

Lemma compat_params_prefix ps qs i p :
  compat_params ps qs = true -> ps !! i = Some p -> exists q, qs !! i = Some q /\ p_name q = p_name p.
Proof.
  revert qs i. induction ps as [|p' ps IH]; intros qs i H Hp; [done|].
  destruct qs as [|q qs]; [done|]. cbn [compat_params] in H.
  apply andb_true_iff in H as [H Hr]. apply andb_true_iff in H as [Hn _].
  destruct i as [|i]; [|by apply (IH qs)]. injection Hp as ->.
  exists q. apply String.eqb_eq in Hn. by cbn.
Qed.

Lemma compat_params_length ps qs :
  compat_params ps qs = true -> (length ps <= length qs)%nat.
Proof.
  revert qs. induction ps as [|p ps IH]; intros [|q qs] H; cbn; try done; try lia.
  cbn [compat_params] in H. apply andb_true_iff in H as [_ H]. specialize (IH qs H). lia.
Qed.

(** The values given in the call reach the same positions; only defaults may
    differ. *)
Lemma compat_bind {V} (dflt : pydefault -> V) m1 m2 args kws r1 :
  NoDup (names m1) -> NoDup (names m2) -> compat m1 m2 = true ->
  bind dflt m1 args kws = Ok r1 ->
  exists r2, bind dflt m2 args kws = Ok r2
    /\ forall i p v, m_params m1 !! i = Some p -> given args kws i p = Some v ->
         fst r1 !! i = Some v /\ fst r2 !! i = Some v.
Proof.
  intros H1 H2 Hc Hb. apply andb_true_iff in Hc as [Hc Hva].
  destruct (bind_sound _ _ _ _ _ H1 Hb) as [[Hcnt Hnd Hnames Hvals] (_ & Hv1 & _)].
  destruct (bind_complete dflt m2 args kws H2) as [r2 Hr2].
  - split; [..|intros i q Hq].
    + destruct Hcnt as [Hcnt|Hcnt].
      * left. pose proof (compat_params_length _ _ Hc). lia.
      * destruct (m_vararg m1); [|done]. right.
        apply andb_true_iff in Hva as [Hva _]. by destruct (m_vararg m2).
    + done.
    + intros k Hk. destruct (Hnames k Hk) as (i & p & Hi & Hp & <-).
      destruct (compat_params_prefix _ _ _ _ Hc Hp) as (q & Hq & Hn). by exists i, q.
    + pose proof (compat_params_lookup _ _ _ _ Hc Hq) as Hl.
      destruct (m_params m1 !! i) as [p|] eqn:Hp.
      * destruct Hl as [Hn Hd]. specialize (Hvals i p Hp). unfold value, given in *.
        rewrite <- Hn. destruct (args !! i); [done|]. destruct (assoc _ kws); [done|].
        unfold has_default in Hd. destruct (p_default p); [|by destruct Hvals].
        destruct (p_default q); [by eexists|by specialize (Hd eq_refl)].
      * unfold value, has_default in *. destruct (given _ _ _ _); [done|].
        destruct (p_default q); [by eexists|done].
  - exists r2. split; [done|]. intros i p v Hp Hg.
    destruct (bind_sound _ _ _ _ _ H2 Hr2) as [_ (_ & Hv2 & _)].
    destruct (compat_params_prefix _ _ _ _ Hc Hp) as (q & Hq & Hn).
    rewrite (Hv1 i p Hp), (Hv2 i q Hq). unfold value. rewrite Hg. split; [done|].
    unfold given in *. rewrite Hn. by rewrite Hg.
Qed.

(** Notation of the tables: a required and an optional parameter. *)
Definition req (n : string) : param := mk_param n None.
Definition opt (n : string) (d : pydefault) : param := mk_param n (Some d).
