(* ===== verification/StubApi.v ===== *)
(** * StubApi: the interface file [src/nvme.py]

    The file declares the classes a test script sees, each method with its
    signature, its doc string and the body [pass].  A method is a definition
    of its own, in the order of the file, with the names its doc string
    describes as parameters; the classes that repeat the interface of [Buffer],
    and the exceptions, are one table each. *)
From Stdlib Require Import ZArith String.
From stdpp Require Import base list strings.
From S2P Require Import Prelude Signature.
Local Open Scope string_scope.

(** ** class Buffer *)
Definition Buffer___init__ : method :=
  mk_method "__init__" Method
    []
    None ["length"; "name"; "pvalue"; "ptype"; "offset"; "nvme"; "fake_phys_addr"; "align";
          "prp2"].
Definition Buffer_crc8 : method :=
  mk_method "crc8" Method
    [req "self"]
    None [].
Definition Buffer_data : method :=
  mk_method "data" Method
    [req "self"; req "byte_end"; opt "byte_begin" DefNone; opt "type" (DefName "int");
     opt "endian" (DefStr "little")]
    None ["byte_end"; "byte_begin"; "type"; "endian"].
Definition Buffer_data_head : method :=
  mk_method "data_head" Property
    [req "self"]
    None [].
Definition Buffer_data_tail : method :=
  mk_method "data_tail" Property
    [req "self"]
    None [].
Definition Buffer_diff : method :=
  mk_method "diff" Method
    [req "self"; req "buf2"]
    None [].
Definition Buffer_distance : method :=
  mk_method "distance" Method
    [req "self"; req "buf2"]
    None [].
Definition Buffer_dump : method :=
  mk_method "dump" Method
    [req "self"; opt "size" DefNone]
    None ["size"].
Definition Buffer_fill_pattern : method :=
  mk_method "fill_pattern" Method
    [req "self"; opt "pvalue" (DefInt 0); opt "ptype" (DefInt 0)]
    None [].
Definition Buffer_match : method :=
  mk_method "match" Method
    [req "self"; opt "file_ptn" DefNone]
    None [].
Definition Buffer_name : method :=
  mk_method "name" Property
    [req "self"]
    None [].
Definition Buffer_offset : method :=
  mk_method "offset" Property
    [req "self"]
    None [].
Definition Buffer_phys_addr : method :=
  mk_method "phys_addr" Property
    [req "self"]
    None [].
Definition Buffer_read_16byte : method :=
  mk_method "read_16byte" Method
    [req "self"; req "offset"]
    None ["offset"].
Definition Buffer_set_controller_list : method :=
  mk_method "set_controller_list" Method
    [req "self"]
    (Some "cntlid_list") ["cntlid_list"].
Definition Buffer_set_copy_range : method :=
  mk_method "set_copy_range" Method
    [req "self"; req "index"; req "lba"; req "lba_count"; opt "format" (DefInt 0);
     opt "storage_reference_tag" (DefInt 0); opt "app_tag" (DefInt 0);
     opt "app_tag_mask" (DefInt 0)]
    None ["index"; "lba"; "lba_count"; "format"].
Definition Buffer_set_dsm_range : method :=
  mk_method "set_dsm_range" Method
    [req "self"; req "index"; req "lba"; req "lba_count"; opt "attr" (DefInt 0)]
    None ["index"; "lba"; "lba_count"; "attr"].
Definition Buffer_sgl : method :=
  mk_method "sgl" Property
    [req "self"]
    None [].
Definition Buffer_size : method :=
  mk_method "size" Property
    [req "self"]
    None [].
Definition Buffer_write_16byte : method :=
  mk_method "write_16byte" Method
    [req "self"; req "offset"; req "dword0"; req "dword1"; req "dword2"; req "dword3"]
    None ["offset"].
Definition class_Buffer : pyclass := mk_class "Buffer"
  [Buffer___init__; Buffer_crc8; Buffer_data; Buffer_data_head; Buffer_data_tail;
   Buffer_diff; Buffer_distance; Buffer_dump; Buffer_fill_pattern; Buffer_match;
   Buffer_name; Buffer_offset; Buffer_phys_addr; Buffer_read_16byte;
   Buffer_set_controller_list; Buffer_set_copy_range; Buffer_set_dsm_range; Buffer_sgl;
   Buffer_size; Buffer_write_16byte].

(** ** class Pcie *)
Definition Pcie___init__ : method :=
  mk_method "__init__" Method
    []
    None ["addr"; "vf"; "port"; "logdir"; "msi_only"; "core_id"; "slot_id"].
Definition Pcie_addr : method :=
  mk_method "addr" Property
    [req "self"]
    None [].
Definition Pcie_aspm : method :=
  mk_method "aspm" Property
    [req "self"]
    None [].
Definition Pcie_bme : method :=
  mk_method "bme" Property
    [req "self"]
    None [].
Definition Pcie_cap_offset : method :=
  mk_method "cap_offset" Method
    [req "self"; req "cap_id"; opt "extend" (DefBool false)]
    None ["cap_id"; "extend"].
Definition Pcie_cfg_byte_read : method :=
  mk_method "cfg_byte_read" Method
    [req "self"; req "addr"]
    None ["addr"].
Definition Pcie_cfg_byte_write : method :=
  mk_method "cfg_byte_write" Method
    [req "self"; req "addr"; req "value"]
    None ["addr"; "value"].
Definition Pcie_cfg_dword_read : method :=
  mk_method "cfg_dword_read" Method
    [req "self"; req "addr"]
    None ["addr"].
Definition Pcie_cfg_dword_write : method :=
  mk_method "cfg_dword_write" Method
    [req "self"; req "addr"; req "value"]
    None ["addr"; "value"].
Definition Pcie_cfg_word_read : method :=
  mk_method "cfg_word_read" Method
    [req "self"; req "addr"]
    None ["addr"].
Definition Pcie_cfg_word_write : method :=
  mk_method "cfg_word_write" Method
    [req "self"; req "addr"; req "value"]
    None ["addr"; "value"].
Definition Pcie_close : method :=
  mk_method "close" Method
    [req "self"]
    None [].
Definition Pcie_flr : method :=
  mk_method "flr" Method
    [req "self"; opt "c" (DefInt 0)]
    None ["c"].
Definition Pcie_link_disable_enable : method :=
  mk_method "link_disable_enable" Method
    [req "self"]
    None [].
Definition Pcie_mem_byte_read : method :=
  mk_method "mem_byte_read" Method
    [req "self"; req "addr"]
    None ["addr"].
Definition Pcie_mem_byte_write : method :=
  mk_method "mem_byte_write" Method
    [req "self"; req "addr"; req "value"]
    None ["addr"; "value"].
Definition Pcie_mem_dword_read : method :=
  mk_method "mem_dword_read" Method
    [req "self"; req "addr"]
    None ["addr"].
Definition Pcie_mem_dword_write : method :=
  mk_method "mem_dword_write" Method
    [req "self"; req "addr"; req "value"]
    None ["addr"; "value"].
Definition Pcie_mem_qword_read : method :=
  mk_method "mem_qword_read" Method
    [req "self"; req "addr"]
    None ["addr"].
Definition Pcie_mem_qword_write : method :=
  mk_method "mem_qword_write" Method
    [req "self"; req "addr"; req "value"]
    None ["addr"; "value"].
Definition Pcie_mem_word_read : method :=
  mk_method "mem_word_read" Method
    [req "self"; req "addr"]
    None ["addr"].
Definition Pcie_mem_word_write : method :=
  mk_method "mem_word_write" Method
    [req "self"; req "addr"; req "value"]
    None ["addr"; "value"].
Definition Pcie_pcie_rescan_func : method :=
  mk_method "pcie_rescan_func" Property
    [req "self"]
    None [].
Definition Pcie_power_state : method :=
  mk_method "power_state" Property
    [req "self"]
    None [].
Definition Pcie_register : method :=
  mk_method "register" Method
    [req "self"; req "offset"; opt "byte_count" (DefInt 4)]
    None ["offset"; "byte_count"].
Definition Pcie_rescan : method :=
  mk_method "rescan" Method
    [req "self"]
    None [].
Definition Pcie_reset : method :=
  mk_method "reset" Method
    [req "self"]
    None [].
Definition Pcie_speed : method :=
  mk_method "speed" Property
    [req "self"]
    None [].
Definition class_Pcie : pyclass := mk_class "Pcie"
  [Pcie___init__; Pcie_addr; Pcie_aspm; Pcie_bme; Pcie_cap_offset; Pcie_cfg_byte_read;
   Pcie_cfg_byte_write; Pcie_cfg_dword_read; Pcie_cfg_dword_write; Pcie_cfg_word_read;
   Pcie_cfg_word_write; Pcie_close; Pcie_flr; Pcie_link_disable_enable; Pcie_mem_byte_read;
   Pcie_mem_byte_write; Pcie_mem_dword_read; Pcie_mem_dword_write; Pcie_mem_qword_read;
   Pcie_mem_qword_write; Pcie_mem_word_read; Pcie_mem_word_write; Pcie_pcie_rescan_func;
   Pcie_power_state; Pcie_register; Pcie_rescan; Pcie_reset; Pcie_speed].

(** ** class Controller *)
Definition Controller___init__ : method :=
  mk_method "__init__" Method
    []
    None ["pcie"; "nvme_init_func"].
Definition Controller_abort : method :=
  mk_method "abort" Method
    [req "self"; req "cid"; opt "sqid" (DefInt 0); opt "cb" DefNone]
    None ["cid"; "sqid"; "cb"].
Definition Controller_add_monitor : method :=
  mk_method "add_monitor" Method
    [req "self"; req "name"; req "func"; opt "interval" (DefInt 1)]
    None ["name"; "func"; "interval"].
Definition Controller_addr : method :=
  mk_method "addr" Property
    [req "self"]
    None [].
Definition Controller_aer : method :=
  mk_method "aer" Method
    [req "self"; opt "refill" (DefBool true); opt "cb" DefNone]
    None ["refill"; "cb"].
Definition Controller_cap : method :=
  mk_method "cap" Property
    [req "self"]
    None [].
Definition Controller_cmdlog : method :=
  mk_method "cmdlog" Method
    [req "self"; opt "count" (DefInt 1000); opt "offset" (DefInt 0); opt "sqid" (DefInt 0)]
    None ["count"; "offset"; "sqid"].
Definition Controller_cmdlog_merged : method :=
  mk_method "cmdlog_merged" Method
    [req "self"; req "count"]
    (Some "qlist") ["count"; "qlist"].
Definition Controller_cmdname : method :=
  mk_method "cmdname" Method
    [req "self"; req "opcode"]
    None ["opcode"].
Definition Controller_directive_receive : method :=
  mk_method "directive_receive" Method
    [req "self"; req "buf"; req "doper"; req "dtype"; opt "dspec" (DefInt 0);
     opt "length" DefNone; opt "cdw12" (DefInt 0); opt "cdw13" (DefInt 0);
     opt "nsid" (DefInt 0); opt "cdw02" (DefInt 0); opt "cdw03" (DefInt 0); opt "cb" DefNone]
    None ["buf"; "doper"; "dtype"; "dspec"; "length"; "cdw12"; "cdw13"; "nsid"; "cdw02";
          "cdw03"; "cb"].
Definition Controller_directive_send : method :=
  mk_method "directive_send" Method
    [req "self"; req "buf"; req "doper"; req "dtype"; opt "dspec" (DefInt 0);
     opt "length" DefNone; opt "cdw12" (DefInt 0); opt "cdw13" (DefInt 0);
     opt "nsid" (DefInt 0); opt "cdw02" (DefInt 0); opt "cdw03" (DefInt 0); opt "cb" DefNone]
    None ["buf"; "doper"; "dtype"; "dspec"; "cdw12"; "cdw13"; "nsid"; "cdw02"; "cdw03"; "cb"].
Definition Controller_downfw : method :=
  mk_method "downfw" Method
    [req "self"; req "filename"; opt "slot" (DefInt 0); opt "action" (DefInt 1)]
    None ["filename"; "slot"; "cb"].
Definition Controller_dst : method :=
  mk_method "dst" Method
    [req "self"; opt "stc" (DefInt 1); opt "nsid" (DefInt 4294967295); opt "cb" DefNone]
    None ["stc"; "nsid"; "cb"].
Definition Controller_fio : method :=
  mk_method "fio" Method
    [req "self"; req "nsid"]
    (Some "args") ["nsid"; "args"].
Definition Controller_format : method :=
  mk_method "format" Method
    [req "self"; opt "lbaf" (DefInt 0); opt "ses" (DefInt 0); opt "nsid" (DefInt 1);
     opt "pil" (DefInt 0); opt "pi" (DefInt 0); opt "mset" (DefInt 0); opt "cb" DefNone]
    None ["lbaf"; "ses"; "nsid"; "pil"; "pi"; "mset"; "cb"].
Definition Controller_fw_commit : method :=
  mk_method "fw_commit" Method
    [req "self"; req "slot"; req "action"; opt "bpid" (DefInt 0); opt "cb" DefNone]
    None ["slot"; "action"; "bpid"; "cb"].
Definition Controller_fw_download : method :=
  mk_method "fw_download" Method
    [req "self"; req "buf"; req "offset"; opt "size" DefNone; opt "cb" DefNone]
    None ["buf"; "offset"; "size"; "cb"].
Definition Controller_get_adminq_setting : method :=
  mk_method "get_adminq_setting" Method
    [req "self"]
    None [].
Definition Controller_get_cmd : method :=
  mk_method "get_cmd" Method
    [req "self"; req "cpl"]
    None ["cpl"].
Definition Controller_get_lba_format : method :=
  mk_method "get_lba_format" Method
    [req "self"; opt "data_size" (DefInt 512); opt "meta_size" (DefInt 0);
     opt "pif" (DefInt 0); opt "sts" (DefInt 0); opt "nsid" (DefInt 4294967295)]
    None ["data_size"; "meta_size"; "pif"; "sts"; "nsid"].
Definition Controller_get_timeout_ms : method :=
  mk_method "get_timeout_ms" Method
    [req "self"; req "opcode"]
    None ["opcode"].
Definition Controller_getfeatures : method :=
  mk_method "getfeatures" Method
    [req "self"; req "fid"; opt "sel" (DefInt 0); opt "buf" DefNone; opt "nsid" (DefInt 0);
     opt "cdw11" (DefInt 0); opt "cdw12" (DefInt 0); opt "cdw13" (DefInt 0);
     opt "cdw14" (DefInt 0); opt "cdw15" (DefInt 0); opt "cb" DefNone]
    None ["fid"; "sel"; "buf"; "nsid"; "cdwxx"; "cb"].
Definition Controller_getlogpage : method :=
  mk_method "getlogpage" Method
    [req "self"; req "lid"; req "buf"; opt "size" DefNone; opt "offset" (DefInt 0);
     opt "nsid" (DefInt 4294967295); opt "log_specific_id" (DefInt 0); opt "cb" DefNone]
    None ["lid"; "buf"; "size"; "offset"; "nsid"; "log_specific_id"; "cb"].
Definition Controller_id_data : method :=
  mk_method "id_data" Method
    [req "self"; req "byte_end"; opt "byte_begin" DefNone; opt "type" (DefName "int");
     opt "nsid" (DefInt 0); opt "cns" (DefInt 1); opt "cntid" (DefInt 0);
     opt "csi" (DefInt 0); opt "nvmsetid" (DefInt 0)]
    None ["byte_end"; "byte_begin"; "type"; "cns"; "cntid"; "csi"; "nvmsetid"].
Definition Controller_identify : method :=
  mk_method "identify" Method
    [req "self"; req "buf"; opt "nsid" (DefInt 0); opt "cns" (DefInt 1);
     opt "cntid" (DefInt 0); opt "csi" (DefInt 0); opt "nvmsetid" (DefInt 0);
     opt "cns_specific_id" (DefInt 0); opt "cdw14" (DefInt 0); opt "cb" DefNone]
    None ["buf"; "nsid"; "cns"; "cntid"; "csi"; "nvmsetid"; "cns_specific_id"; "cdw14"; "cb"].
Definition Controller_init_adminq : method :=
  mk_method "init_adminq" Method
    [req "self"; opt "depth" (DefInt 127); opt "skip_register" (DefBool false);
     opt "lazy_doorbell" (DefBool false); opt "reuse_adminq" (DefBool false)]
    None ["depth"; "skip_register"; "lazy_doorbell"; "reuse_adminq"].
Definition Controller_init_ns : method :=
  mk_method "init_ns" Method
    [req "self"]
    None [].
Definition Controller_init_queues : method :=
  mk_method "init_queues" Method
    [req "self"; req "cdw0"]
    None [].
Definition Controller_iosq_list : method :=
  mk_method "iosq_list" Property
    [req "self"]
    None [].
Definition Controller_iostat : method :=
  mk_method "iostat" Method
    [req "self"]
    None [].
Definition Controller_latest_cid : method :=
  mk_method "latest_cid" Property
    [req "self"]
    None [].
Definition Controller_latest_latency : method :=
  mk_method "latest_latency" Property
    [req "self"]
    None [].
Definition Controller_latest_status : method :=
  mk_method "latest_status" Property
    [req "self"]
    None [].
Definition Controller_logdir_filepath : method :=
  mk_method "logdir_filepath" Method
    [req "self"; req "filename"]
    None [].
Definition Controller_logdir_savefile : method :=
  mk_method "logdir_savefile" Method
    [req "self"; req "name"; req "data"]
    None [].
Definition Controller_mdts : method :=
  mk_method "mdts" Property
    [req "self"]
    None [].
Definition Controller_mi_receive : method :=
  mk_method "mi_receive" Method
    [req "self"; req "opcode"; opt "dword0" (DefInt 0); opt "dword1" (DefInt 0);
     opt "buf" DefNone; opt "mtype" (DefInt 1); opt "header" (DefInt 0);
     opt "nsid" (DefInt 0); opt "cb" DefNone]
    None ["opcode"; "dword0"; "dword1"; "buf"; "mtype"; "header"; "nsid"; "cb"].
Definition Controller_mi_send : method :=
  mk_method "mi_send" Method
    [req "self"; req "opcode"; opt "dword0" (DefInt 0); opt "dword1" (DefInt 0);
     opt "buf" DefNone; opt "mtype" (DefInt 1); opt "header" (DefInt 0);
     opt "nsid" (DefInt 0); opt "cb" DefNone]
    None ["opcode"; "dword0"; "dword1"; "buf"; "mtype"; "header"; "nsid"; "cb"].
Definition Controller_ns_attach : method :=
  mk_method "ns_attach" Method
    [req "self"; req "nsid"]
    (Some "cntlid_list") ["nsid"; "cntlid_list"].
Definition Controller_ns_attachment : method :=
  mk_method "ns_attachment" Method
    [req "self"; req "buf"; req "select"; req "nsid"; opt "cb" DefNone]
    None ["buf"; "select"; "nsid"; "cb"].
Definition Controller_ns_clear : method :=
  mk_method "ns_clear" Method
    [req "self"; opt "nsid" (DefInt 4294967295)]
    None ["nsid"].
Definition Controller_ns_create : method :=
  mk_method "ns_create" Method
    [req "self"; req "buf"]
    None ["buf"].
Definition Controller_ns_delete : method :=
  mk_method "ns_delete" Method
    [req "self"; opt "nsid" (DefInt 4294967295)]
    None ["nsid"].
Definition Controller_ns_detach : method :=
  mk_method "ns_detach" Method
    [req "self"; req "nsid"]
    (Some "cntlid_list") ["nsid"; "cntlid_list"].
Definition Controller_ns_management : method :=
  mk_method "ns_management" Method
    [req "self"; req "buf"; req "select"; req "nsid"; opt "cb" DefNone]
    None ["buf"; "select"; "nsid"; "cb"].
Definition Controller_nvme_init_func : method :=
  mk_method "nvme_init_func" Property
    [req "self"]
    None [].
Definition Controller_reset : method :=
  mk_method "reset" Method
    [req "self"; opt "create_qpair" (DefBool true)]
    None ["create_qpair"].
Definition Controller_ring_doorbell : method :=
  mk_method "ring_doorbell" Method
    [req "self"]
    None [].
Definition Controller_sanitize : method :=
  mk_method "sanitize" Method
    [req "self"; opt "option" (DefInt 2); opt "pattern" (DefInt 0); opt "cb" DefNone]
    None ["option"; "pattern"; "cb"].
Definition Controller_security_receive : method :=
  mk_method "security_receive" Method
    [req "self"; req "buf"; req "spsp"; opt "secp" (DefInt 1); opt "nssf" (DefInt 0);
     opt "length" DefNone; opt "nsid" (DefInt 0); opt "cb" DefNone]
    None ["buf"; "cb"].
Definition Controller_security_send : method :=
  mk_method "security_send" Method
    [req "self"; req "buf"; req "spsp"; opt "secp" (DefInt 1); opt "nssf" (DefInt 0);
     opt "length" DefNone; opt "nsid" (DefInt 0); opt "cb" DefNone]
    None ["buf"; "cb"].
Definition Controller_send_cmd : method :=
  mk_method "send_cmd" Method
    [req "self"; req "opcode"; opt "buf" DefNone; opt "nsid" (DefInt 0);
     opt "cdw10" (DefInt 0); opt "cdw11" (DefInt 0); opt "cdw12" (DefInt 0);
     opt "cdw13" (DefInt 0); opt "cdw14" (DefInt 0); opt "cdw15" (DefInt 0);
     opt "cdw02" (DefInt 0); opt "cdw03" (DefInt 0); opt "cb" DefNone]
    None ["opcode"; "buf"; "nsid"; "cdwxx"; "cb"].
Definition Controller_set_timeout_ms : method :=
  mk_method "set_timeout_ms" Method
    [req "self"; req "opcode"; req "msec"]
    None ["opcode"; "msec"].
Definition Controller_setfeatures : method :=
  mk_method "setfeatures" Method
    [req "self"; req "fid"; opt "sv" (DefInt 0); opt "buf" DefNone; opt "nsid" (DefInt 0);
     opt "cdw11" (DefInt 0); opt "cdw12" (DefInt 0); opt "cdw13" (DefInt 0);
     opt "cdw14" (DefInt 0); opt "cdw15" (DefInt 0); opt "cb" DefNone]
    None ["fid"; "sv"; "buf"; "nsid"; "cdwxx"; "cb"].
Definition Controller_supports : method :=
  mk_method "supports" Method
    [req "self"; req "opcode"]
    None ["opcode"].
Definition Controller_tcg_feature_data : method :=
  mk_method "tcg_feature_data" Property
    [req "self"]
    None [].
Definition Controller_tcg_feature_list : method :=
  mk_method "tcg_feature_list" Property
    [req "self"]
    None [].
Definition Controller_timeout : method :=
  mk_method "timeout" Property
    [req "self"]
    None [].
Definition Controller_timeout_pynvme : method :=
  mk_method "timeout_pynvme" Property
    [req "self"]
    None [].
Definition Controller_timestamp : method :=
  mk_method "timestamp" Method
    [req "self"]
    None [].
Definition Controller_virt_mgmt : method :=
  mk_method "virt_mgmt" Method
    [req "self"; req "vf"; req "action"; opt "resource" (DefInt 0); opt "number" (DefInt 0);
     opt "cb" DefNone]
    None ["vf"; "action"; "resource"; "number"; "cb"].
Definition Controller_wait_csts : method :=
  mk_method "wait_csts" Method
    [req "self"; opt "rdy" DefNone]
    None ["rdy"].
Definition Controller_waitdone : method :=
  mk_method "waitdone" Method
    [req "self"; opt "expected" (DefInt 1); opt "interrupt_enabled" (DefBool true)]
    None ["expected"; "interrupt_enabled"].
Definition class_Controller : pyclass := mk_class "Controller"
  [Controller___init__; Controller_abort; Controller_add_monitor; Controller_addr;
   Controller_aer; Controller_cap; Controller_cmdlog; Controller_cmdlog_merged;
   Controller_cmdname; Controller_directive_receive; Controller_directive_send;
   Controller_downfw; Controller_dst; Controller_fio; Controller_format;
   Controller_fw_commit; Controller_fw_download; Controller_get_adminq_setting;
   Controller_get_cmd; Controller_get_lba_format; Controller_get_timeout_ms;
   Controller_getfeatures; Controller_getlogpage; Controller_id_data; Controller_identify;
   Controller_init_adminq; Controller_init_ns; Controller_init_queues; Controller_iosq_list;
   Controller_iostat; Controller_latest_cid; Controller_latest_latency;
   Controller_latest_status; Controller_logdir_filepath; Controller_logdir_savefile;
   Controller_mdts; Controller_mi_receive; Controller_mi_send; Controller_ns_attach;
   Controller_ns_attachment; Controller_ns_clear; Controller_ns_create;
   Controller_ns_delete; Controller_ns_detach; Controller_ns_management;
   Controller_nvme_init_func; Controller_reset; Controller_ring_doorbell;
   Controller_sanitize; Controller_security_receive; Controller_security_send;
   Controller_send_cmd; Controller_set_timeout_ms; Controller_setfeatures;
   Controller_supports; Controller_tcg_feature_data; Controller_tcg_feature_list;
   Controller_timeout; Controller_timeout_pynvme; Controller_timestamp;
   Controller_virt_mgmt; Controller_wait_csts; Controller_waitdone].

(** ** class Qpair *)
Definition Qpair___init__ : method :=
  mk_method "__init__" Method
    []
    None ["nvme"; "depth"; "prio"; "ien"; "iv"; "sqid"; "lazy_doorbell"; "sq_buf"; "cq_buf"].
Definition Qpair_cmdlog : method :=
  mk_method "cmdlog" Method
    [req "self"; opt "count" (DefInt 1000); opt "offset" (DefInt 0)]
    None ["count"; "offset"].
Definition Qpair_delete : method :=
  mk_method "delete" Method
    [req "self"]
    None [].
Definition Qpair_depth : method :=
  mk_method "depth" Property
    [req "self"]
    None [].
Definition Qpair_get_cmd : method :=
  mk_method "get_cmd" Method
    [req "self"; req "cpl"]
    None ["cpl"].
Definition Qpair_int_clear : method :=
  mk_method "int_clear" Method
    [req "self"]
    None [].
Definition Qpair_int_isset : method :=
  mk_method "int_isset" Method
    [req "self"]
    None [].
Definition Qpair_int_mask : method :=
  mk_method "int_mask" Method
    [req "self"]
    None [].
Definition Qpair_int_unmask : method :=
  mk_method "int_unmask" Method
    [req "self"]
    None [].
Definition Qpair_latest_cid : method :=
  mk_method "latest_cid" Property
    [req "self"]
    None [].
Definition Qpair_latest_latency : method :=
  mk_method "latest_latency" Property
    [req "self"]
    None [].
Definition Qpair_msix_clear : method :=
  mk_method "msix_clear" Method
    [req "self"]
    None [].
Definition Qpair_msix_isset : method :=
  mk_method "msix_isset" Method
    [req "self"]
    None [].
Definition Qpair_msix_mask : method :=
  mk_method "msix_mask" Method
    [req "self"]
    None [].
Definition Qpair_msix_unmask : method :=
  mk_method "msix_unmask" Method
    [req "self"]
    None [].
Definition Qpair_prio : method :=
  mk_method "prio" Property
    [req "self"]
    None [].
Definition Qpair_sqid : method :=
  mk_method "sqid" Property
    [req "self"]
    None [].
Definition Qpair_wait_int : method :=
  mk_method "wait_int" Method
    [req "self"]
    None [].
Definition Qpair_wait_msix : method :=
  mk_method "wait_msix" Method
    [req "self"; opt "timeout" (DefName "_cTIMEOUT")]
    None [].
Definition Qpair_waitdone : method :=
  mk_method "waitdone" Method
    [req "self"; opt "expected" (DefInt 1)]
    None ["expected"].
Definition class_Qpair : pyclass := mk_class "Qpair"
  [Qpair___init__; Qpair_cmdlog; Qpair_delete; Qpair_depth; Qpair_get_cmd; Qpair_int_clear;
   Qpair_int_isset; Qpair_int_mask; Qpair_int_unmask; Qpair_latest_cid;
   Qpair_latest_latency; Qpair_msix_clear; Qpair_msix_isset; Qpair_msix_mask;
   Qpair_msix_unmask; Qpair_prio; Qpair_sqid; Qpair_wait_int; Qpair_wait_msix; Qpair_waitdone].

(** ** class Namespace *)
Definition Namespace___init__ : method :=
  mk_method "__init__" Method
    []
    None ["nvme"; "nsid"; "nlba_verify"; "crc_snapshot"].
Definition Namespace_capacity : method :=
  mk_method "capacity" Property
    [req "self"]
    None [].
Definition Namespace_close : method :=
  mk_method "close" Method
    [req "self"; opt "crc_snapshot" DefNone]
    None ["crc_snapshot"].
Definition Namespace_cmdname : method :=
  mk_method "cmdname" Method
    [req "self"; req "opcode"]
    None ["opcode"].
Definition Namespace_compare : method :=
  mk_method "compare" Method
    [req "self"; req "qpair"; req "buf"; req "lba"; opt "lba_count" (DefInt 1);
     opt "io_flags" (DefInt 0); opt "cdw13" (DefInt 0); opt "cdw14" (DefInt 0);
     opt "cdw15" (DefInt 0); opt "cdw02" (DefInt 0); opt "cdw03" (DefInt 0);
     opt "meta" DefNone; opt "cb" DefNone]
    None ["qpair"; "buf"; "lba"; "lba_count"; "io_flags"; "cdw13"; "cdw14"; "cdw15";
          "cdw02"; "cdw03"; "meta"; "cb"].
Definition Namespace_copy : method :=
  mk_method "copy" Method
    [req "self"; req "qpair"; req "buf"; req "range_count"; req "sdlba";
     opt "io_flags" (DefInt 0); opt "prinfor" (DefInt 0); opt "format" (DefInt 0);
     opt "cdw13" (DefInt 0); opt "cdw14" (DefInt 0); opt "cdw15" (DefInt 0);
     opt "cdw02" (DefInt 0); opt "cdw03" (DefInt 0); opt "cb" DefNone]
    None ["qpair"; "buf"; "range_count"; "sdlba"; "io_flags"; "prinfor"; "format"; "cdw13";
          "cdw14"; "cdw15"; "cdw02"; "cdw03"; "cb"].
Definition Namespace_dsm : method :=
  mk_method "dsm" Method
    [req "self"; req "qpair"; req "buf"; req "range_count"; opt "attribute" (DefInt 4);
     opt "cb" DefNone]
    None ["qpair"; "buf"; "range_count"; "attribute"; "cb"].
Definition Namespace_dump_miscompare_lba_disable : method :=
  mk_method "dump_miscompare_lba_disable" Method
    [req "self"; opt "disable" (DefBool true)]
    None ["enable"].
Definition Namespace_dump_miscompare_lba_enable : method :=
  mk_method "dump_miscompare_lba_enable" Method
    [req "self"]
    None [].
Definition Namespace_flush : method :=
  mk_method "flush" Method
    [req "self"; req "qpair"; opt "cb" DefNone]
    None ["qpair"; "cb"].
Definition Namespace_format : method :=
  mk_method "format" Method
    [req "self"; opt "data_size" DefNone; opt "meta_size" (DefInt 0); opt "ses" (DefInt 0);
     opt "pil" (DefInt 0); opt "pi" (DefInt 0); opt "mset" (DefInt 0); opt "pif" (DefInt 0);
     opt "sts" (DefInt 0)]
    None ["data_size"; "meta_size"; "ses"; "pil"; "pi"; "mset"; "pif"; "sts"].
Definition Namespace_get_lba_format : method :=
  mk_method "get_lba_format" Method
    [req "self"; opt "data_size" (DefInt 512); opt "meta_size" (DefInt 0);
     opt "pif" (DefInt 0); opt "sts" (DefInt 0)]
    None ["data_size"; "meta_size"].
Definition Namespace_get_sector_size : method :=
  mk_method "get_sector_size" Method
    [req "self"; opt "extended" (DefBool false); opt "io_flags" (DefInt 0)]
    None ["extended"].
Definition Namespace_get_timeout_ms : method :=
  mk_method "get_timeout_ms" Method
    [req "self"; req "opcode"]
    None ["opcode"].
Definition Namespace_id_data : method :=
  mk_method "id_data" Method
    [req "self"; req "byte_end"; opt "byte_begin" DefNone; opt "type" (DefName "int");
     opt "cns" (DefInt 0); opt "cntid" (DefInt 0); opt "csi" (DefInt 0)]
    None ["byte_end"; "byte_begin"; "type"; "cns"; "cntid"; "csi"].
Definition Namespace_inject_write_buffer_disable : method :=
  mk_method "inject_write_buffer_disable" Method
    [req "self"; opt "disable" (DefBool true)]
    None ["enable"].
Definition Namespace_inject_write_buffer_enable : method :=
  mk_method "inject_write_buffer_enable" Method
    [req "self"]
    None [].
Definition Namespace_inject_write_token_disable : method :=
  mk_method "inject_write_token_disable" Method
    [req "self"; opt "disable" (DefBool true)]
    None ["enable"].
Definition Namespace_inject_write_token_enable : method :=
  mk_method "inject_write_token_enable" Method
    [req "self"]
    None [].
Definition Namespace_ioworker : method :=
  mk_method "ioworker" Method
    [req "self"; opt "qpair" DefNone; opt "io_size" (DefInt 8); opt "lba_step" DefNone;
     opt "lba_align" DefNone; opt "lba_random" (DefBool true);
     opt "read_percentage" (DefInt 100); opt "op_percentage" DefNone;
     opt "sgl_percentage" (DefInt 0); opt "time" (DefInt 0); opt "qdepth" (DefInt 63);
     opt "region_start" (DefInt 0); opt "region_end" (DefInt 18446744073709551615);
     opt "region_end_truncate" (DefBool true); opt "iops" (DefInt 0);
     opt "io_count" (DefInt 0); opt "lba_count" (DefInt 0); opt "io_flags" (DefInt 0);
     opt "lba_start" (DefInt 0); opt "qprio" (DefInt 0); opt "distribution" DefNone;
     opt "ptype" (DefInt 48879); opt "pvalue" (DefInt 100); opt "cdw13" (DefInt 0);
     opt "io_sequence" DefNone; opt "slow_latency" (DefInt 1000000);
     opt "fw_debug" (DefBool false); opt "exit_on_error" (DefBool true);
     opt "retry_max" (DefInt 0); opt "verify_disable" (DefBool false);
     opt "zns" (DefBool false); opt "zns_zigzag" (DefBool false);
     opt "zns_syncwrite" (DefBool false); opt "cpu_id" (DefInt 1);
     opt "cmdlog_error_only" (DefBool false); opt "output_io_per_second" DefNone;
     opt "output_percentile_latency" DefNone;
     opt "output_percentile_latency_opcode" DefNone; opt "output_cmdlog_list" DefNone]
    None ["qpair"; "io_size"; "lba_step"; "lba_align"; "lba_random"; "read_percentage";
          "op_percentage"; "sgl_percentage"; "time"; "qdepth"; "region_start"; "region_end";
          "region_end_truncate"; "iops"; "io_count"; "lba_count"; "io_flags"; "lba_start";
          "qprio"; "ptype"; "pvalue"; "cdw13"; "io_sequence"; "slow_latency"; "fw_debug";
          "exit_on_error"; "retry_max"; "verify_disable"; "zns"; "zns_zigzag";
          "zns_syncwrite"; "cpu_id"; "cmdlog_error_only"; "output_io_per_second";
          "output_percentile_latency"; "output_percentile_latency_opcode";
          "output_cmdlog_list"].
Definition Namespace_load_crc : method :=
  mk_method "load_crc" Method
    [req "self"; req "crc_snapshot"]
    None ["crc_snapshot"].
Definition Namespace_mark_nomapping : method :=
  mk_method "mark_nomapping" Method
    [req "self"; req "lba"; req "lba_count"; opt "uncorr" (DefBool false)]
    None [].
Definition Namespace_meta_size : method :=
  mk_method "meta_size" Property
    [req "self"]
    None [].
Definition Namespace_nsid : method :=
  mk_method "nsid" Property
    [req "self"]
    None [].
Definition Namespace_pi_engine_disable : method :=
  mk_method "pi_engine_disable" Method
    [req "self"]
    None [].
Definition Namespace_pi_engine_enable : method :=
  mk_method "pi_engine_enable" Method
    [req "self"; opt "enable" (DefBool true)]
    None ["enable"].
Definition Namespace_print_miscompare_log_disable : method :=
  mk_method "print_miscompare_log_disable" Method
    [req "self"; opt "disable" (DefBool true)]
    None ["enable"].
Definition Namespace_print_miscompare_log_enable : method :=
  mk_method "print_miscompare_log_enable" Method
    [req "self"]
    None [].
Definition Namespace_read : method :=
  mk_method "read" Method
    [req "self"; req "qpair"; req "buf"; req "lba"; opt "lba_count" (DefInt 1);
     opt "io_flags" (DefInt 0); opt "cdw13" (DefInt 0); opt "cdw14" (DefInt 0);
     opt "cdw15" (DefInt 0); opt "cdw02" (DefInt 0); opt "cdw03" (DefInt 0);
     opt "meta" DefNone; opt "verify_disable" (DefBool false); opt "cb" DefNone]
    None ["qpair"; "buf"; "lba"; "lba_count"; "io_flags"; "cdw13"; "cdw14"; "cdw15";
          "cdw02"; "cdw03"; "meta"; "verify_disable"; "cb"].
Definition Namespace_reservation_acquire : method :=
  mk_method "reservation_acquire" Method
    [req "self"; req "qpair"; req "buf"; opt "rtype" (DefInt 0); opt "iekey" (DefInt 0);
     opt "racqa" (DefInt 0); opt "crkey" (DefInt 0); opt "prkey" (DefInt 0); opt "cb" DefNone]
    None ["qpair"; "buf"; "rtype"; "iekey"; "racqa"; "crkey"; "prkey"; "cb"].
Definition Namespace_reservation_register : method :=
  mk_method "reservation_register" Method
    [req "self"; req "qpair"; req "buf"; opt "cptpl" (DefInt 0); opt "iekey" (DefInt 0);
     opt "rrega" (DefInt 0); opt "crkey" (DefInt 0); opt "nrkey" (DefInt 0); opt "cb" DefNone]
    None ["qpair"; "buf"; "cptpl"; "iekey"; "rrega"; "crkey"; "nrkey"; "cb"].
Definition Namespace_reservation_release : method :=
  mk_method "reservation_release" Method
    [req "self"; req "qpair"; req "buf"; opt "rtype" (DefInt 0); opt "iekey" (DefInt 0);
     opt "rrela" (DefInt 0); opt "crkey" (DefInt 0); opt "cb" DefNone]
    None ["qpair"; "buf"; "rtype"; "iekey"; "rrela"; "crkey"; "cb"].
Definition Namespace_reservation_report : method :=
  mk_method "reservation_report" Method
    [req "self"; req "qpair"; req "buf"; opt "numd" DefNone; opt "eds" (DefInt 0);
     opt "cb" DefNone]
    None ["qpair"; "buf"; "numd"; "eds"; "cb"].
Definition Namespace_save_crc : method :=
  mk_method "save_crc" Method
    [req "self"; req "crc_snapshot"]
    None ["crc_snapshot"].
Definition Namespace_sector_size : method :=
  mk_method "sector_size" Property
    [req "self"]
    None [].
Definition Namespace_send_cmd : method :=
  mk_method "send_cmd" Method
    [req "self"; req "opcode"; req "qpair"; opt "buf" DefNone; opt "nsid" DefNone;
     opt "cdw10" (DefInt 0); opt "cdw11" (DefInt 0); opt "cdw12" (DefInt 0);
     opt "cdw13" (DefInt 0); opt "cdw14" (DefInt 0); opt "cdw15" (DefInt 0);
     opt "cdw02" (DefInt 0); opt "cdw03" (DefInt 0); opt "meta" DefNone; opt "cb" DefNone]
    None ["opcode"; "qpair"; "buf"; "nsid"; "cdwxx"; "meta"; "cb"].
Definition Namespace_set_timeout_ms : method :=
  mk_method "set_timeout_ms" Method
    [req "self"; req "opcode"; req "msec"]
    None ["opcode"; "msec"].
Definition Namespace_supports : method :=
  mk_method "supports" Method
    [req "self"; req "opcode"]
    None ["opcode"].
Definition Namespace_verify : method :=
  mk_method "verify" Method
    [req "self"; req "qpair"; req "lba"; opt "lba_count" (DefInt 1);
     opt "io_flags" (DefInt 0); opt "cdw13" (DefInt 0); opt "cdw14" (DefInt 0);
     opt "cdw15" (DefInt 0); opt "cdw02" (DefInt 0); opt "cdw03" (DefInt 0); opt "cb" DefNone]
    None ["qpair"; "lba"; "lba_count"; "io_flags"; "cdw13"; "cdw14"; "cdw15"; "cdw02";
          "cdw03"; "cb"].
Definition Namespace_verify_enable : method :=
  mk_method "verify_enable" Method
    [req "self"; opt "enable" (DefBool true)]
    None ["enable"].
Definition Namespace_write : method :=
  mk_method "write" Method
    [req "self"; req "qpair"; req "buf"; req "lba"; opt "lba_count" (DefInt 1);
     opt "io_flags" (DefInt 0); opt "cdw13" (DefInt 0); opt "cdw14" (DefInt 0);
     opt "cdw15" (DefInt 0); opt "cdw02" (DefInt 0); opt "cdw03" (DefInt 0);
     opt "meta" DefNone; opt "cb" DefNone]
    None ["qpair"; "buf"; "lba"; "lba_count"; "io_flags"; "cdw13"; "cdw14"; "cdw15";
          "cdw02"; "cdw03"; "meta"; "cb"].
Definition Namespace_write_uncorrectable : method :=
  mk_method "write_uncorrectable" Method
    [req "self"; req "qpair"; req "lba"; opt "lba_count" (DefInt 1); opt "cb" DefNone]
    None ["qpair"; "lba"; "lba_count"; "cb"].
Definition Namespace_write_zeroes : method :=
  mk_method "write_zeroes" Method
    [req "self"; req "qpair"; req "lba"; opt "lba_count" (DefInt 1);
     opt "io_flags" (DefInt 0); opt "cdw13" (DefInt 0); opt "cdw14" (DefInt 0);
     opt "cdw15" (DefInt 0); opt "cdw02" (DefInt 0); opt "cdw03" (DefInt 0); opt "cb" DefNone]
    None ["qpair"; "lba"; "lba_count"; "io_flags"; "cdw13"; "cdw14"; "cdw15"; "cdw02";
          "cdw03"; "cb"].
Definition Namespace_zns_mgmt_receive : method :=
  mk_method "zns_mgmt_receive" Method
    [req "self"; req "qpair"; req "buf"; req "slba"; opt "dwords" DefNone;
     opt "extended" (DefBool false); opt "state" (DefInt 0); opt "partial" (DefBool false);
     opt "cb" DefNone]
    None ["qpair"; "buf"; "slba"; "dwords"; "extended"; "state"; "partial"; "cb"].
Definition Namespace_zns_mgmt_send : method :=
  mk_method "zns_mgmt_send" Method
    [req "self"; req "qpair"; req "buf"; req "slba"; req "action";
     opt "select_all" (DefBool false); opt "cb" DefNone]
    None ["qpair"; "buf"; "slba"; "action"; "select_all"; "cb"].
Definition class_Namespace : pyclass := mk_class "Namespace"
  [Namespace___init__; Namespace_capacity; Namespace_close; Namespace_cmdname;
   Namespace_compare; Namespace_copy; Namespace_dsm; Namespace_dump_miscompare_lba_disable;
   Namespace_dump_miscompare_lba_enable; Namespace_flush; Namespace_format;
   Namespace_get_lba_format; Namespace_get_sector_size; Namespace_get_timeout_ms;
   Namespace_id_data; Namespace_inject_write_buffer_disable;
   Namespace_inject_write_buffer_enable; Namespace_inject_write_token_disable;
   Namespace_inject_write_token_enable; Namespace_ioworker; Namespace_load_crc;
   Namespace_mark_nomapping; Namespace_meta_size; Namespace_nsid;
   Namespace_pi_engine_disable; Namespace_pi_engine_enable;
   Namespace_print_miscompare_log_disable; Namespace_print_miscompare_log_enable;
   Namespace_read; Namespace_reservation_acquire; Namespace_reservation_register;
   Namespace_reservation_release; Namespace_reservation_report; Namespace_save_crc;
   Namespace_sector_size; Namespace_send_cmd; Namespace_set_timeout_ms; Namespace_supports;
   Namespace_verify; Namespace_verify_enable; Namespace_write;
   Namespace_write_uncorrectable; Namespace_write_zeroes; Namespace_zns_mgmt_receive;
   Namespace_zns_mgmt_send].

(** ** class Subsystem *)
Definition Subsystem___init__ : method :=
  mk_method "__init__" Method
    []
    None ["nvme"; "poweron_cb"; "poweroff_cb"].
Definition Subsystem_power_cycle : method :=
  mk_method "power_cycle" Method
    [req "self"; opt "sec" (DefInt 15)]
    None ["sec"].
Definition Subsystem_poweroff : method :=
  mk_method "poweroff" Method
    [req "self"]
    None [].
Definition Subsystem_poweron : method :=
  mk_method "poweron" Method
    [req "self"; opt "quick" (DefBool true)]
    None ["quick"].
Definition Subsystem_reset : method :=
  mk_method "reset" Method
    [req "self"]
    None [].
Definition Subsystem_shutdown_notify : method :=
  mk_method "shutdown_notify" Method
    [req "self"; opt "abrupt" (DefBool false); opt "timeout" (DefName "_cTIMEOUT")]
    None ["abrupt"; "timeout"].
Definition class_Subsystem : pyclass := mk_class "Subsystem"
  [Subsystem___init__; Subsystem_power_cycle; Subsystem_poweroff; Subsystem_poweron;
   Subsystem_reset; Subsystem_shutdown_notify].

(** ** class CQE *)
Definition CQE___init__ : method :=
  mk_method "__init__" Method
    []
    None [].
Definition CQE_append : method :=
  mk_method "append" Property
    [req "self"]
    None [].
Definition CQE_cdw0 : method :=
  mk_method "cdw0" Method
    [req "self"]
    None [].
Definition CQE_cid : method :=
  mk_method "cid" Method
    [req "self"]
    None [].
Definition CQE_clear : method :=
  mk_method "clear" Property
    [req "self"]
    None [].
Definition CQE_copy : method :=
  mk_method "copy" Property
    [req "self"]
    None [].
Definition CQE_count : method :=
  mk_method "count" Property
    [req "self"]
    None [].
Definition CQE_crd : method :=
  mk_method "crd" Method
    [req "self"]
    None [].
Definition CQE_dnr : method :=
  mk_method "dnr" Method
    [req "self"]
    None [].
Definition CQE_extend : method :=
  mk_method "extend" Property
    [req "self"]
    None [].
Definition CQE_index : method :=
  mk_method "index" Property
    [req "self"]
    None [].
Definition CQE_insert : method :=
  mk_method "insert" Property
    [req "self"]
    None [].
Definition CQE_m : method :=
  mk_method "m" Method
    [req "self"]
    None [].
Definition CQE_p : method :=
  mk_method "p" Method
    [req "self"]
    None [].
Definition CQE_remove : method :=
  mk_method "remove" Property
    [req "self"]
    None [].
Definition CQE_reverse : method :=
  mk_method "reverse" Property
    [req "self"]
    None [].
Definition CQE_sc : method :=
  mk_method "sc" Method
    [req "self"]
    None [].
Definition CQE_sct : method :=
  mk_method "sct" Method
    [req "self"]
    None [].
Definition CQE_sort : method :=
  mk_method "sort" Property
    [req "self"]
    None [].
Definition CQE_sqhd : method :=
  mk_method "sqhd" Method
    [req "self"]
    None [].
Definition CQE_sqid : method :=
  mk_method "sqid" Method
    [req "self"]
    None [].
Definition CQE_status : method :=
  mk_method "status" Method
    [req "self"]
    None [].
Definition class_CQE : pyclass := mk_class "CQE"
  [CQE___init__; CQE_append; CQE_cdw0; CQE_cid; CQE_clear; CQE_copy; CQE_count; CQE_crd;
   CQE_dnr; CQE_extend; CQE_index; CQE_insert; CQE_m; CQE_p; CQE_remove; CQE_reverse;
   CQE_sc; CQE_sct; CQE_sort; CQE_sqhd; CQE_sqid; CQE_status].

(** ** class SQE *)
Definition SQE___init__ : method :=
  mk_method "__init__" Method
    []
    None [].
Definition SQE_append : method :=
  mk_method "append" Property
    [req "self"]
    None [].
Definition SQE_cid : method :=
  mk_method "cid" Method
    [req "self"]
    None [].
Definition SQE_clear : method :=
  mk_method "clear" Property
    [req "self"]
    None [].
Definition SQE_copy : method :=
  mk_method "copy" Property
    [req "self"]
    None [].
Definition SQE_count : method :=
  mk_method "count" Property
    [req "self"]
    None [].
Definition SQE_extend : method :=
  mk_method "extend" Property
    [req "self"]
    None [].
Definition SQE_index : method :=
  mk_method "index" Property
    [req "self"]
    None [].
Definition SQE_insert : method :=
  mk_method "insert" Property
    [req "self"]
    None [].
Definition SQE_mptr : method :=
  mk_method "mptr" Method
    [req "self"]
    None [].
Definition SQE_nlb : method :=
  mk_method "nlb" Method
    [req "self"]
    None [].
Definition SQE_nsid : method :=
  mk_method "nsid" Method
    [req "self"]
    None [].
Definition SQE_opc : method :=
  mk_method "opc" Method
    [req "self"]
    None [].
Definition SQE_opcode : method :=
  mk_method "opcode" Method
    [req "self"]
    None [].
Definition SQE_prp1 : method :=
  mk_method "prp1" Method
    [req "self"]
    None [].
Definition SQE_prp2 : method :=
  mk_method "prp2" Method
    [req "self"]
    None [].
Definition SQE_remove : method :=
  mk_method "remove" Property
    [req "self"]
    None [].
Definition SQE_reverse : method :=
  mk_method "reverse" Property
    [req "self"]
    None [].
Definition SQE_sgl : method :=
  mk_method "sgl" Method
    [req "self"]
    None [].
Definition SQE_slba : method :=
  mk_method "slba" Method
    [req "self"]
    None [].
Definition SQE_sort : method :=
  mk_method "sort" Property
    [req "self"]
    None [].
Definition class_SQE : pyclass := mk_class "SQE"
  [SQE___init__; SQE_append; SQE_cid; SQE_clear; SQE_copy; SQE_count; SQE_extend; SQE_index;
   SQE_insert; SQE_mptr; SQE_nlb; SQE_nsid; SQE_opc; SQE_opcode; SQE_prp1; SQE_prp2;
   SQE_remove; SQE_reverse; SQE_sgl; SQE_slba; SQE_sort].

(** ** class IOCQ *)
Definition IOCQ___init__ : method :=
  mk_method "__init__" Method
    []
    None ["ctrlr"; "qid"; "qsize"; "prp1"; "iv"; "ien"].
Definition IOCQ_delete : method :=
  mk_method "delete" Method
    [req "self"; opt "qid" DefNone]
    None [].
Definition IOCQ_head : method :=
  mk_method "head" Method
    [req "self"]
    None [].
Definition IOCQ_wait_pbit : method :=
  mk_method "wait_pbit" Method
    [req "self"; req "index"; req "expected"; opt "timeout" (DefName "_cTIMEOUT")]
    None ["expected"; "timeout"].
Definition IOCQ_waitdone : method :=
  mk_method "waitdone" Method
    [req "self"; opt "expected" (DefInt 1); opt "timeout" (DefName "_cTIMEOUT")]
    None ["expected"; "timeout"].
Definition class_IOCQ : pyclass := mk_class "IOCQ"
  [IOCQ___init__; IOCQ_delete; IOCQ_head; IOCQ_wait_pbit; IOCQ_waitdone].

(** ** class IOSQ *)
Definition IOSQ___init__ : method :=
  mk_method "__init__" Method
    []
    None ["ctrlr"; "qid"; "qsize"; "prp1"; "cqid"; "pc"; "qprio"; "nvmsetid"; "cq"].
Definition IOSQ_cmdlog : method :=
  mk_method "cmdlog" Method
    [req "self"; opt "count" (DefInt 1000); opt "offset" (DefInt 0)]
    None ["count"; "offset"].
Definition IOSQ_delete : method :=
  mk_method "delete" Method
    [req "self"; opt "qid" DefNone]
    None [].
Definition IOSQ_flush : method :=
  mk_method "flush" Method
    [req "self"; req "cid"; req "nsid"; opt "cb" DefNone]
    None [].
Definition IOSQ_read : method :=
  mk_method "read" Method
    [req "self"; req "cid"; req "nsid"; req "lba"; opt "lba_count" (DefInt 1);
     opt "mptr" DefNone; opt "prp1" DefNone; opt "prp2" DefNone; opt "sgl" DefNone;
     opt "cb" DefNone]
    None [].
Definition IOSQ_send_cmd : method :=
  mk_method "send_cmd" Method
    [req "self"; req "opcode"; req "cid"; req "nsid"; opt "mptr" DefNone;
     opt "prp1" DefNone; opt "prp2" DefNone; opt "sgl" DefNone; opt "psdt" (DefInt 0);
     opt "cdw10" (DefInt 0); opt "cdw11" (DefInt 0); opt "cdw12" (DefInt 0);
     opt "cdw13" (DefInt 0); opt "cdw14" (DefInt 0); opt "cdw15" (DefInt 0);
     opt "cdw02" (DefInt 0); opt "cdw03" (DefInt 0); opt "cb" DefNone]
    None [].
Definition IOSQ_tail : method :=
  mk_method "tail" Method
    [req "self"]
    None [].
Definition IOSQ_write : method :=
  mk_method "write" Method
    [req "self"; req "cid"; req "nsid"; req "lba"; opt "lba_count" (DefInt 1);
     opt "mptr" DefNone; opt "prp1" DefNone; opt "prp2" DefNone; opt "sgl" DefNone;
     opt "cb" DefNone]
    None [].
Definition IOSQ_zns_mgmt_receive : method :=
  mk_method "zns_mgmt_receive" Method
    [req "self"; req "cid"; req "nsid"; req "slba"; opt "prp1" DefNone; opt "prp2" DefNone;
     opt "sgl" DefNone; opt "dwords" DefNone; opt "extended" (DefBool false);
     opt "state" (DefInt 0); opt "partial" (DefBool false); opt "cb" DefNone]
    None [].
Definition IOSQ_zns_mgmt_send : method :=
  mk_method "zns_mgmt_send" Method
    [req "self"; req "cid"; req "nsid"; req "slba"; req "action"; opt "prp1" DefNone;
     opt "prp2" DefNone; opt "sgl" DefNone; opt "select_all" (DefBool false);
     opt "cb" DefNone]
    None [].
Definition class_IOSQ : pyclass := mk_class "IOSQ"
  [IOSQ___init__; IOSQ_cmdlog; IOSQ_delete; IOSQ_flush; IOSQ_read; IOSQ_send_cmd; IOSQ_tail;
   IOSQ_write; IOSQ_zns_mgmt_receive; IOSQ_zns_mgmt_send].

(** ** class SGL *)
Definition class_SGL : pyclass := mk_class "SGL"
  [ mk_method "__init__" Method
      []
      None [];
    mk_method "crc8" Method
      [req "self"]
      None [];
    mk_method "data" Method
      [req "self"; req "byte_end"; opt "byte_begin" DefNone; opt "type" (DefName "int");
       opt "endian" (DefStr "little")]
      None ["byte_end"; "byte_begin"; "type"; "endian"];
    mk_method "data_head" Property
      [req "self"]
      None [];
    mk_method "data_tail" Property
      [req "self"]
      None [];
    mk_method "diff" Method
      [req "self"; req "buf2"]
      None [];
    mk_method "distance" Method
      [req "self"; req "buf2"]
      None [];
    mk_method "dump" Method
      [req "self"; opt "size" DefNone]
      None ["size"];
    mk_method "fill_pattern" Method
      [req "self"; opt "pvalue" (DefInt 0); opt "ptype" (DefInt 0)]
      None [];
    mk_method "match" Method
      [req "self"; opt "file_ptn" DefNone]
      None [];
    mk_method "name" Property
      [req "self"]
      None [];
    mk_method "offset" Property
      [req "self"]
      None [];
    mk_method "phys_addr" Property
      [req "self"]
      None [];
    mk_method "read_16byte" Method
      [req "self"; req "offset"]
      None ["offset"];
    mk_method "set_controller_list" Method
      [req "self"]
      (Some "cntlid_list") ["cntlid_list"];
    mk_method "set_copy_range" Method
      [req "self"; req "index"; req "lba"; req "lba_count"; opt "format" (DefInt 0);
       opt "storage_reference_tag" (DefInt 0); opt "app_tag" (DefInt 0);
       opt "app_tag_mask" (DefInt 0)]
      None ["index"; "lba"; "lba_count"; "format"];
    mk_method "set_dsm_range" Method
      [req "self"; req "index"; req "lba"; req "lba_count"; opt "attr" (DefInt 0)]
      None ["index"; "lba"; "lba_count"; "attr"];
    mk_method "sgl" Property
      [req "self"]
      None [];
    mk_method "size" Property
      [req "self"]
      None [];
    mk_method "write_16byte" Method
      [req "self"; req "offset"; req "dword0"; req "dword1"; req "dword2"; req "dword3"]
      None ["offset"] ].

(** ** class SegmentSGL *)
Definition class_SegmentSGL : pyclass := mk_class "SegmentSGL"
  [ mk_method "__init__" Method
      []
      None [];
    mk_method "crc8" Method
      [req "self"]
      None [];
    mk_method "data" Method
      [req "self"; req "byte_end"; opt "byte_begin" DefNone; opt "type" (DefName "int");
       opt "endian" (DefStr "little")]
      None ["byte_end"; "byte_begin"; "type"; "endian"];
    mk_method "data_head" Property
      [req "self"]
      None [];
    mk_method "data_tail" Property
      [req "self"]
      None [];
    mk_method "diff" Method
      [req "self"; req "buf2"]
      None [];
    mk_method "distance" Method
      [req "self"; req "buf2"]
      None [];
    mk_method "dump" Method
      [req "self"; opt "size" DefNone]
      None ["size"];
    mk_method "fill_pattern" Method
      [req "self"; opt "pvalue" (DefInt 0); opt "ptype" (DefInt 0)]
      None [];
    mk_method "match" Method
      [req "self"; opt "file_ptn" DefNone]
      None [];
    mk_method "name" Property
      [req "self"]
      None [];
    mk_method "offset" Property
      [req "self"]
      None [];
    mk_method "phys_addr" Property
      [req "self"]
      None [];
    mk_method "read_16byte" Method
      [req "self"; req "offset"]
      None ["offset"];
    mk_method "set_controller_list" Method
      [req "self"]
      (Some "cntlid_list") ["cntlid_list"];
    mk_method "set_copy_range" Method
      [req "self"; req "index"; req "lba"; req "lba_count"; opt "format" (DefInt 0);
       opt "storage_reference_tag" (DefInt 0); opt "app_tag" (DefInt 0);
       opt "app_tag_mask" (DefInt 0)]
      None ["index"; "lba"; "lba_count"; "format"];
    mk_method "set_dsm_range" Method
      [req "self"; req "index"; req "lba"; req "lba_count"; opt "attr" (DefInt 0)]
      None ["index"; "lba"; "lba_count"; "attr"];
    mk_method "sgl" Property
      [req "self"]
      None [];
    mk_method "size" Property
      [req "self"]
      None [];
    mk_method "write_16byte" Method
      [req "self"; req "offset"; req "dword0"; req "dword1"; req "dword2"; req "dword3"]
      None ["offset"] ].

(** ** class LastSegmentSGL *)
Definition class_LastSegmentSGL : pyclass := mk_class "LastSegmentSGL"
  [ mk_method "__init__" Method
      []
      None [];
    mk_method "crc8" Method
      [req "self"]
      None [];
    mk_method "data" Method
      [req "self"; req "byte_end"; opt "byte_begin" DefNone; opt "type" (DefName "int");
       opt "endian" (DefStr "little")]
      None ["byte_end"; "byte_begin"; "type"; "endian"];
    mk_method "data_head" Property
      [req "self"]
      None [];
    mk_method "data_tail" Property
      [req "self"]
      None [];
    mk_method "diff" Method
      [req "self"; req "buf2"]
      None [];
    mk_method "distance" Method
      [req "self"; req "buf2"]
      None [];
    mk_method "dump" Method
      [req "self"; opt "size" DefNone]
      None ["size"];
    mk_method "fill_pattern" Method
      [req "self"; opt "pvalue" (DefInt 0); opt "ptype" (DefInt 0)]
      None [];
    mk_method "match" Method
      [req "self"; opt "file_ptn" DefNone]
      None [];
    mk_method "name" Property
      [req "self"]
      None [];
    mk_method "offset" Property
      [req "self"]
      None [];
    mk_method "phys_addr" Property
      [req "self"]
      None [];
    mk_method "read_16byte" Method
      [req "self"; req "offset"]
      None ["offset"];
    mk_method "set_controller_list" Method
      [req "self"]
      (Some "cntlid_list") ["cntlid_list"];
    mk_method "set_copy_range" Method
      [req "self"; req "index"; req "lba"; req "lba_count"; opt "format" (DefInt 0);
       opt "storage_reference_tag" (DefInt 0); opt "app_tag" (DefInt 0);
       opt "app_tag_mask" (DefInt 0)]
      None ["index"; "lba"; "lba_count"; "format"];
    mk_method "set_dsm_range" Method
      [req "self"; req "index"; req "lba"; req "lba_count"; opt "attr" (DefInt 0)]
      None ["index"; "lba"; "lba_count"; "attr"];
    mk_method "sgl" Property
      [req "self"]
      None [];
    mk_method "size" Property
      [req "self"]
      None [];
    mk_method "write_16byte" Method
      [req "self"; req "offset"; req "dword0"; req "dword1"; req "dword2"; req "dword3"]
      None ["offset"] ].

(** ** class DataBlockSGL *)
Definition class_DataBlockSGL : pyclass := mk_class "DataBlockSGL"
  [ mk_method "__init__" Method
      []
      None [];
    mk_method "crc8" Method
      [req "self"]
      None [];
    mk_method "data" Method
      [req "self"; req "byte_end"; opt "byte_begin" DefNone; opt "type" (DefName "int");
       opt "endian" (DefStr "little")]
      None ["byte_end"; "byte_begin"; "type"; "endian"];
    mk_method "data_head" Property
      [req "self"]
      None [];
    mk_method "data_tail" Property
      [req "self"]
      None [];
    mk_method "diff" Method
      [req "self"; req "buf2"]
      None [];
    mk_method "distance" Method
      [req "self"; req "buf2"]
      None [];
    mk_method "dump" Method
      [req "self"; opt "size" DefNone]
      None ["size"];
    mk_method "fill_pattern" Method
      [req "self"; opt "pvalue" (DefInt 0); opt "ptype" (DefInt 0)]
      None [];
    mk_method "match" Method
      [req "self"; opt "file_ptn" DefNone]
      None [];
    mk_method "name" Property
      [req "self"]
      None [];
    mk_method "offset" Property
      [req "self"]
      None [];
    mk_method "phys_addr" Property
      [req "self"]
      None [];
    mk_method "read_16byte" Method
      [req "self"; req "offset"]
      None ["offset"];
    mk_method "set_controller_list" Method
      [req "self"]
      (Some "cntlid_list") ["cntlid_list"];
    mk_method "set_copy_range" Method
      [req "self"; req "index"; req "lba"; req "lba_count"; opt "format" (DefInt 0);
       opt "storage_reference_tag" (DefInt 0); opt "app_tag" (DefInt 0);
       opt "app_tag_mask" (DefInt 0)]
      None ["index"; "lba"; "lba_count"; "format"];
    mk_method "set_dsm_range" Method
      [req "self"; req "index"; req "lba"; req "lba_count"; opt "attr" (DefInt 0)]
      None ["index"; "lba"; "lba_count"; "attr"];
    mk_method "sgl" Property
      [req "self"]
      None [];
    mk_method "size" Property
      [req "self"]
      None [];
    mk_method "write_16byte" Method
      [req "self"; req "offset"; req "dword0"; req "dword1"; req "dword2"; req "dword3"]
      None ["offset"] ].

(** ** class BitBucketSGL *)
Definition class_BitBucketSGL : pyclass := mk_class "BitBucketSGL"
  [ mk_method "__init__" Method
      []
      None [];
    mk_method "crc8" Method
      [req "self"]
      None [];
    mk_method "data" Method
      [req "self"; req "byte_end"; opt "byte_begin" DefNone; opt "type" (DefName "int");
       opt "endian" (DefStr "little")]
      None ["byte_end"; "byte_begin"; "type"; "endian"];
    mk_method "data_head" Property
      [req "self"]
      None [];
    mk_method "data_tail" Property
      [req "self"]
      None [];
    mk_method "diff" Method
      [req "self"; req "buf2"]
      None [];
    mk_method "distance" Method
      [req "self"; req "buf2"]
      None [];
    mk_method "dump" Method
      [req "self"; opt "size" DefNone]
      None ["size"];
    mk_method "fill_pattern" Method
      [req "self"; opt "pvalue" (DefInt 0); opt "ptype" (DefInt 0)]
      None [];
    mk_method "match" Method
      [req "self"; opt "file_ptn" DefNone]
      None [];
    mk_method "name" Property
      [req "self"]
      None [];
    mk_method "offset" Property
      [req "self"]
      None [];
    mk_method "phys_addr" Property
      [req "self"]
      None [];
    mk_method "read_16byte" Method
      [req "self"; req "offset"]
      None ["offset"];
    mk_method "set_controller_list" Method
      [req "self"]
      (Some "cntlid_list") ["cntlid_list"];
    mk_method "set_copy_range" Method
      [req "self"; req "index"; req "lba"; req "lba_count"; opt "format" (DefInt 0);
       opt "storage_reference_tag" (DefInt 0); opt "app_tag" (DefInt 0);
       opt "app_tag_mask" (DefInt 0)]
      None ["index"; "lba"; "lba_count"; "format"];
    mk_method "set_dsm_range" Method
      [req "self"; req "index"; req "lba"; req "lba_count"; opt "attr" (DefInt 0)]
      None ["index"; "lba"; "lba_count"; "attr"];
    mk_method "sgl" Property
      [req "self"]
      None [];
    mk_method "size" Property
      [req "self"]
      None [];
    mk_method "write_16byte" Method
      [req "self"; req "offset"; req "dword0"; req "dword1"; req "dword2"; req "dword3"]
      None ["offset"] ].

(** ** class PRP *)
Definition class_PRP : pyclass := mk_class "PRP"
  [ mk_method "__init__" Method
      []
      None [];
    mk_method "crc8" Method
      [req "self"]
      None [];
    mk_method "data" Method
      [req "self"; req "byte_end"; opt "byte_begin" DefNone; opt "type" (DefName "int");
       opt "endian" (DefStr "little")]
      None ["byte_end"; "byte_begin"; "type"; "endian"];
    mk_method "data_head" Property
      [req "self"]
      None [];
    mk_method "data_tail" Property
      [req "self"]
      None [];
    mk_method "diff" Method
      [req "self"; req "buf2"]
      None [];
    mk_method "distance" Method
      [req "self"; req "buf2"]
      None [];
    mk_method "dump" Method
      [req "self"; opt "size" DefNone]
      None ["size"];
    mk_method "fill_pattern" Method
      [req "self"; opt "pvalue" (DefInt 0); opt "ptype" (DefInt 0)]
      None [];
    mk_method "match" Method
      [req "self"; opt "file_ptn" DefNone]
      None [];
    mk_method "name" Property
      [req "self"]
      None [];
    mk_method "offset" Property
      [req "self"]
      None [];
    mk_method "phys_addr" Property
      [req "self"]
      None [];
    mk_method "read_16byte" Method
      [req "self"; req "offset"]
      None ["offset"];
    mk_method "set_controller_list" Method
      [req "self"]
      (Some "cntlid_list") ["cntlid_list"];
    mk_method "set_copy_range" Method
      [req "self"; req "index"; req "lba"; req "lba_count"; opt "format" (DefInt 0);
       opt "storage_reference_tag" (DefInt 0); opt "app_tag" (DefInt 0);
       opt "app_tag_mask" (DefInt 0)]
      None ["index"; "lba"; "lba_count"; "format"];
    mk_method "set_dsm_range" Method
      [req "self"; req "index"; req "lba"; req "lba_count"; opt "attr" (DefInt 0)]
      None ["index"; "lba"; "lba_count"; "attr"];
    mk_method "sgl" Property
      [req "self"]
      None [];
    mk_method "size" Property
      [req "self"]
      None [];
    mk_method "write_16byte" Method
      [req "self"; req "offset"; req "dword0"; req "dword1"; req "dword2"; req "dword3"]
      None ["offset"] ].

(** ** class PRPList *)
Definition class_PRPList : pyclass := mk_class "PRPList"
  [ mk_method "__init__" Method
      []
      None [];
    mk_method "crc8" Method
      [req "self"]
      None [];
    mk_method "data" Method
      [req "self"; req "byte_end"; opt "byte_begin" DefNone; opt "type" (DefName "int");
       opt "endian" (DefStr "little")]
      None ["byte_end"; "byte_begin"; "type"; "endian"];
    mk_method "data_head" Property
      [req "self"]
      None [];
    mk_method "data_tail" Property
      [req "self"]
      None [];
    mk_method "diff" Method
      [req "self"; req "buf2"]
      None [];
    mk_method "distance" Method
      [req "self"; req "buf2"]
      None [];
    mk_method "dump" Method
      [req "self"; opt "size" DefNone]
      None ["size"];
    mk_method "fill_pattern" Method
      [req "self"; opt "pvalue" (DefInt 0); opt "ptype" (DefInt 0)]
      None [];
    mk_method "find_buffer_by_offset" Method
      [req "self"; req "offset"; req "start"]
      None [];
    mk_method "match" Method
      [req "self"; opt "file_ptn" DefNone]
      None [];
    mk_method "name" Property
      [req "self"]
      None [];
    mk_method "offset" Property
      [req "self"]
      None [];
    mk_method "phys_addr" Property
      [req "self"]
      None [];
    mk_method "read_16byte" Method
      [req "self"; req "offset"]
      None ["offset"];
    mk_method "set_controller_list" Method
      [req "self"]
      (Some "cntlid_list") ["cntlid_list"];
    mk_method "set_copy_range" Method
      [req "self"; req "index"; req "lba"; req "lba_count"; opt "format" (DefInt 0);
       opt "storage_reference_tag" (DefInt 0); opt "app_tag" (DefInt 0);
       opt "app_tag_mask" (DefInt 0)]
      None ["index"; "lba"; "lba_count"; "format"];
    mk_method "set_dsm_range" Method
      [req "self"; req "index"; req "lba"; req "lba_count"; opt "attr" (DefInt 0)]
      None ["index"; "lba"; "lba_count"; "attr"];
    mk_method "sgl" Property
      [req "self"]
      None [];
    mk_method "size" Property
      [req "self"]
      None [];
    mk_method "write_16byte" Method
      [req "self"; req "offset"; req "dword0"; req "dword1"; req "dword2"; req "dword3"]
      None ["offset"] ].

(** ** class NvmeShutdownStatusTimeoutError *)
Definition class_NvmeShutdownStatusTimeoutError : pyclass := mk_class "NvmeShutdownStatusTimeoutError"
  [ mk_method "__init__" Method
      []
      None [] ].

(** ** class NvmeEnumerateError *)
Definition class_NvmeEnumerateError : pyclass := mk_class "NvmeEnumerateError"
  [ mk_method "__init__" Method
      []
      None [] ].

(** ** class NvmeDeletionError *)
Definition class_NvmeDeletionError : pyclass := mk_class "NvmeDeletionError"
  [ mk_method "__init__" Method
      []
      None [] ].

(** ** class QpairCreationError *)
Definition class_QpairCreationError : pyclass := mk_class "QpairCreationError"
  [ mk_method "__init__" Method
      []
      None [] ].

(** ** class QpairDeletionError *)
Definition class_QpairDeletionError : pyclass := mk_class "QpairDeletionError"
  [ mk_method "__init__" Method
      []
      None [] ].

(** ** class NamespaceCreationError *)
Definition class_NamespaceCreationError : pyclass := mk_class "NamespaceCreationError"
  [ mk_method "__init__" Method
      []
      None [] ].

(** ** class NamespaceDeletionError *)
Definition class_NamespaceDeletionError : pyclass := mk_class "NamespaceDeletionError"
  [ mk_method "__init__" Method
      []
      None [] ].

(** ** The file *)
Definition stub_classes : list pyclass :=
  [class_Buffer; class_Pcie; class_Controller; class_Qpair; class_Namespace;
   class_Subsystem; class_CQE; class_SQE; class_IOCQ; class_IOSQ; class_SGL;
   class_SegmentSGL; class_LastSegmentSGL; class_DataBlockSGL; class_BitBucketSGL;
   class_PRP; class_PRPList; class_NvmeShutdownStatusTimeoutError; class_NvmeEnumerateError;
   class_NvmeDeletionError; class_QpairCreationError; class_QpairDeletionError;
   class_NamespaceCreationError; class_NamespaceDeletionError].
