(* ===== verification/DriverApi.v ===== *)
(** * DriverApi: the classes of [src/src/driver_wrap.pyx], as signatures

    The methods each class of the driver defines, in the order of the file:
    the [def] lines, the decorators, and the names the doc strings describe. *)
From Stdlib Require Import ZArith String.
From stdpp Require Import base list strings.
From S2P Require Import Prelude Signature.
Local Open Scope string_scope.

(** ** class Buffer *)
Definition driver_Buffer : pyclass := mk_class "Buffer"
  [ mk_method "__cinit__" Method
      [req "self"; opt "size" (DefInt 4096); opt "name" (DefStr "buffer");
       opt "pvalue" (DefInt 0); opt "ptype" (DefInt 0)]
      None [];
    mk_method "__dealloc__" Method
      [req "self"]
      None [];
    mk_method "data_head" Property
      [req "self"]
      None [];
    mk_method "data_tail" Property
      [req "self"]
      None [];
    mk_method "offset" PropertySetter
      [req "self"]
      None [];
    mk_method "size" PropertySetter
      [req "self"]
      None [];
    mk_method "phys_addr" Property
      [req "self"]
      None [];
    mk_method "dump" Method
      [req "self"; opt "size" DefNone]
      None ["size"];
    mk_method "data" Method
      [req "self"; req "byte_end"; opt "byte_begin" DefNone; opt "type" (DefName "int")]
      None ["byte_end"; "byte_begin"; "type"];
    mk_method "__len__" Method
      [req "self"]
      None [];
    mk_method "__repr__" Method
      [req "self"]
      None [];
    mk_method "__getitem__" Method
      [req "self"; req "index"]
      None [];
    mk_method "__setitem__" Method
      [req "self"; req "index"; req "value"]
      None [];
    mk_method "set_dsm_range" Method
      [req "self"; req "index"; req "lba"; req "lba_count"; opt "attr" (DefInt 0)]
      None ["index"; "lba"; "lba_count"; "attr"] ].

(** ** class Subsystem *)
Definition driver_Subsystem : pyclass := mk_class "Subsystem"
  [ mk_method "__cinit__" Method
      [req "self"; req "nvme"; opt "poweron_cb" DefNone; opt "poweroff_cb" DefNone]
      None [];
    mk_method "poweroff" Method
      [req "self"]
      None [];
    mk_method "poweron" Method
      [req "self"]
      None [];
    mk_method "power_cycle" Method
      [req "self"; opt "sec" (DefInt 10)]
      None ["sec"];
    mk_method "shutdown_notify" Method
      [req "self"; opt "abrupt" (DefBool false)]
      None ["abrupt"];
    mk_method "reset" Method
      [req "self"]
      None [] ].

(** ** class Pcie *)
Definition driver_Pcie : pyclass := mk_class "Pcie"
  [ mk_method "__cinit__" Method
      [req "self"; req "addr"; opt "port" (DefInt 0)]
      None [];
    mk_method "close" Method
      [req "self"]
      None [];
    mk_method "_ctrlr_reinit" Method
      [req "self"]
      None [];
    mk_method "_config" Method
      [req "self"; opt "verify" DefNone; opt "ioworker_terminate" DefNone]
      None ["ioworker_terminate"];
    mk_method "_driver_cleanup" Method
      [req "self"]
      None [];
    mk_method "__getitem__" Method
      [req "self"; req "index"]
      None [];
    mk_method "__setitem__" Method
      [req "self"; req "index"; req "value"]
      None [];
    mk_method "register" Method
      [req "self"; req "offset"; opt "byte_count" (DefInt 4)]
      None ["offset"; "byte_count"];
    mk_method "cap_offset" Method
      [req "self"; req "cap_id"]
      None ["cap_id"];
    mk_method "_exist" Method
      [req "self"; req "filename"; opt "rescan" (DefBool false); opt "retry" (DefInt 1000)]
      None [];
    mk_method "_rescan" Method
      [req "self"]
      None [];
    mk_method "_bind_driver" Method
      [req "self"; req "driver"]
      None [];
    mk_method "flr" Method
      [req "self"]
      None [];
    mk_method "reset" Method
      [req "self"; opt "rst_fn" DefNone]
      None [];
    mk_method "aspm" PropertySetter
      [req "self"]
      None [];
    mk_method "power_state" PropertySetter
      [req "self"]
      None [] ].

(** ** class Tcp *)
Definition driver_Tcp : pyclass := mk_class "Tcp"
  [ mk_method "__cinit__" Method
      [req "self"; req "addr"; opt "port" (DefInt 4420)]
      None [] ].

(** ** class Controller *)
Definition driver_Controller : pyclass := mk_class "Controller"
  [ mk_method "__cinit__" Method
      [req "self"; req "pcie"; opt "nvme_init_func" DefNone]
      None [];
    mk_method "_nvme_init" Method
      [req "self"]
      None [];
    mk_method "latest_cid" Property
      [req "self"]
      None [];
    mk_method "latest_latency" Property
      [req "self"]
      None [];
    mk_method "addr" Property
      [req "self"]
      None [];
    mk_method "mdts" Property
      [req "self"]
      None [];
    mk_method "cap" Property
      [req "self"]
      None [];
    mk_method "_timeout_pynvme" Property
      [req "self"]
      None [];
    mk_method "timeout" PropertySetter
      [req "self"]
      None [];
    mk_method "__getitem__" Method
      [req "self"; req "index"]
      None [];
    mk_method "__setitem__" Method
      [req "self"; req "index"; req "value"]
      None [];
    mk_method "init_adminq" Method
      [req "self"]
      None [];
    mk_method "init_ns" Method
      [req "self"]
      None [];
    mk_method "init_queues" Method
      [req "self"; req "cdw0"]
      None [];
    mk_method "cmdlog" Method
      [req "self"; opt "count" (DefInt 0)]
      None ["count"];
    mk_method "reset" Method
      [req "self"]
      None [];
    mk_method "cmdname" Method
      [req "self"; req "opcode"]
      None ["opcode"];
    mk_method "supports" Method
      [req "self"; req "opcode"]
      None ["opcode"];
    mk_method "waitdone" Method
      [req "self"; opt "expected" (DefInt 1)]
      None ["expected"];
    mk_method "abort" Method
      [req "self"; req "cid"; opt "sqid" (DefInt 0); opt "cb" DefNone]
      None ["cid"; "sqid"; "cb"];
    mk_method "identify" Method
      [req "self"; req "buf"; opt "nsid" (DefInt 0); opt "cns" (DefInt 1);
       opt "cntid" (DefInt 0); opt "csi" (DefInt 0); opt "nvmsetid" (DefInt 0);
       opt "cb" DefNone]
      None ["buf"; "nsid"; "cns"; "cb"];
    mk_method "id_data" Method
      [req "self"; req "byte_end"; opt "byte_begin" DefNone; opt "type" (DefName "int");
       opt "nsid" (DefInt 0); opt "cns" (DefInt 1); opt "cntid" (DefInt 0);
       opt "csi" (DefInt 0); opt "nvmsetid" (DefInt 0)]
      None ["byte_end"; "byte_begin"; "type"];
    mk_method "getfeatures" Method
      [req "self"; req "fid"; opt "sel" (DefInt 0); opt "buf" DefNone;
       opt "cdw11" (DefInt 0); opt "cdw12" (DefInt 0); opt "cdw13" (DefInt 0);
       opt "cdw14" (DefInt 0); opt "cdw15" (DefInt 0); opt "cb" DefNone]
      None ["fid"; "cdw11"; "sel"; "buf"; "cb"];
    mk_method "setfeatures" Method
      [req "self"; req "fid"; opt "sv" (DefInt 0); opt "buf" DefNone;
       opt "cdw11" (DefInt 0); opt "cdw12" (DefInt 0); opt "cdw13" (DefInt 0);
       opt "cdw14" (DefInt 0); opt "cdw15" (DefInt 0); opt "cb" DefNone]
      None ["fid"; "cdw11"; "sv"; "buf"; "cb"];
    mk_method "getlogpage" Method
      [req "self"; req "lid"; req "buf"; opt "size" DefNone; opt "offset" (DefInt 0);
       opt "nsid" (DefInt 4294967295); opt "cb" DefNone]
      None ["lid"; "buf"; "size"; "offset"; "nsid"; "cb"];
    mk_method "mi_send" Method
      [req "self"; req "opcode"; opt "dword0" (DefInt 0); opt "dword1" (DefInt 0);
       opt "buf" DefNone; opt "mtype" (DefInt 1); opt "cb" DefNone]
      None ["opcode"; "dword0"; "dword1"; "buf"; "mtype"; "cb"];
    mk_method "mi_receive" Method
      [req "self"; req "opcode"; opt "dword0" (DefInt 0); opt "dword1" (DefInt 0);
       opt "buf" DefNone; opt "mtype" (DefInt 1); opt "cb" DefNone]
      None ["opcode"; "dword0"; "dword1"; "buf"; "mtype"; "cb"];
    mk_method "format" Method
      [req "self"; opt "lbaf" (DefInt 0); opt "ses" (DefInt 0); opt "nsid" (DefInt 1);
       opt "cb" DefNone]
      None ["lbaf"; "ses"; "nsid"; "cb"];
    mk_method "sanitize" Method
      [req "self"; opt "option" (DefInt 2); opt "pattern" (DefInt 0); opt "cb" DefNone]
      None ["option"; "pattern"; "cb"];
    mk_method "dst" Method
      [req "self"; opt "stc" (DefInt 1); opt "nsid" (DefInt 4294967295); opt "cb" DefNone]
      None ["stc"; "nsid"; "cb"];
    mk_method "fw_download" Method
      [req "self"; req "buf"; req "offset"; opt "size" DefNone; opt "cb" DefNone]
      None ["buf"; "offset"; "size"; "cb"];
    mk_method "fw_commit" Method
      [req "self"; req "slot"; req "action"; opt "cb" DefNone]
      None ["slot"; "action"; "cb"];
    mk_method "downfw" Method
      [req "self"; req "filename"; opt "slot" (DefInt 0); opt "action" (DefInt 1)]
      None ["filename"; "slot"; "cb"];
    mk_method "aer" Method
      [req "self"; opt "cb" DefNone]
      None ["cb"];
    mk_method "security_receive" Method
      [req "self"; req "buf"; req "spsp"; opt "secp" (DefInt 1); opt "nssf" (DefInt 0);
       opt "size" DefNone; opt "cb" DefNone]
      None ["buf"; "cb"];
    mk_method "security_send" Method
      [req "self"; req "buf"; req "spsp"; opt "secp" (DefInt 1); opt "nssf" (DefInt 0);
       opt "size" DefNone; opt "cb" DefNone]
      None ["buf"; "cb"];
    mk_method "send_cmd" Method
      [req "self"; req "opcode"; opt "buf" DefNone; opt "nsid" (DefInt 0);
       opt "cdw10" (DefInt 0); opt "cdw11" (DefInt 0); opt "cdw12" (DefInt 0);
       opt "cdw13" (DefInt 0); opt "cdw14" (DefInt 0); opt "cdw15" (DefInt 0);
       opt "cb" DefNone]
      None ["opcode"; "buf"; "nsid"; "cb"] ].

(** ** class Qpair *)
Definition driver_Qpair : pyclass := mk_class "Qpair"
  [ mk_method "__cinit__" Method
      [req "self"; req "nvme"; req "depth"; opt "prio" (DefInt 0); opt "ien" (DefBool true);
       opt "iv" (DefInt 65535)]
      None [];
    mk_method "close" Method
      [req "self"]
      None [];
    mk_method "delete" Method
      [req "self"]
      None [];
    mk_method "__repr__" Method
      [req "self"]
      None [];
    mk_method "sqid" Property
      [req "self"]
      None [];
    mk_method "latest_cid" Property
      [req "self"]
      None [];
    mk_method "latest_latency" Property
      [req "self"]
      None [];
    mk_method "cmdlog" Method
      [req "self"; opt "count" (DefInt 0)]
      None ["count"];
    mk_method "msix_clear" Method
      [req "self"]
      None [];
    mk_method "msix_isset" Method
      [req "self"]
      None [];
    mk_method "msix_mask" Method
      [req "self"]
      None [];
    mk_method "msix_unmask" Method
      [req "self"]
      None [];
    mk_method "waitdone" Method
      [req "self"; opt "expected" (DefInt 1)]
      None ["expected"] ].

(** ** class Namespace *)
Definition driver_Namespace : pyclass := mk_class "Namespace"
  [ mk_method "__cinit__" Method
      [req "self"; req "nvme"; opt "nsid" (DefInt 1); opt "nlba_verify" (DefInt 0)]
      None [];
    mk_method "close" Method
      [req "self"]
      None [];
    mk_method "nsid" Property
      [req "self"]
      None [];
    mk_method "capacity" Property
      [req "self"]
      None [];
    mk_method "cmdname" Method
      [req "self"; req "opcode"]
      None ["opcode"];
    mk_method "supports" Method
      [req "self"; req "opcode"]
      None ["opcode"];
    mk_method "id_data" Method
      [req "self"; req "byte_end"; opt "byte_begin" DefNone; opt "type" (DefName "int");
       opt "cns" (DefInt 0); opt "csi" (DefInt 0); opt "cntid" (DefInt 0)]
      None ["byte_end"; "byte_begin"; "type"];
    mk_method "verify_enable" Method
      [req "self"; opt "enable" (DefBool true)]
      None ["enable"];
    mk_method "format" Method
      [req "self"; opt "data_size" (DefInt 512); opt "meta_size" (DefInt 0);
       opt "ses" (DefInt 0)]
      None ["data_size"; "meta_size"; "ses"];
    mk_method "get_lba_format" Method
      [req "self"; opt "data_size" (DefInt 512); opt "meta_size" (DefInt 0)]
      None ["data_size"; "meta_size"];
    mk_method "ioworker" Method
      [req "self"; opt "io_size" (DefInt 8); opt "lba_step" DefNone;
       opt "lba_align" DefNone; opt "lba_random" (DefBool true);
       opt "read_percentage" (DefInt 100); opt "op_percentage" DefNone;
       opt "time" (DefInt 0); opt "qdepth" (DefInt 64); opt "region_start" (DefInt 0);
       opt "region_end" (DefInt 18446744073709551615); opt "iops" (DefInt 0);
       opt "io_count" (DefInt 0); opt "lba_start" (DefInt 0); opt "qprio" (DefInt 0);
       opt "distribution" DefNone; opt "ptype" (DefInt 48879); opt "pvalue" (DefInt 100);
       opt "io_sequence" DefNone; opt "fw_debug" (DefBool false);
       opt "output_io_per_second" DefNone; opt "output_percentile_latency" DefNone;
       opt "output_cmdlog_list" DefNone]
      None ["io_size"; "lba_step"; "lba_align"; "lba_random"; "read_percentage";
            "op_percentage"; "time"; "qdepth"; "region_start"; "region_end"; "iops";
            "io_count"; "lba_start"; "qprio"; "pvalue"; "ptype"; "io_sequence";
            "output_io_per_second"; "output_percentile_latency"; "output_cmdlog_list"];
    mk_method "read" Method
      [req "self"; req "qpair"; req "buf"; req "lba"; opt "lba_count" (DefInt 1);
       opt "io_flags" (DefInt 0); opt "dword13" (DefInt 0); opt "dword14" (DefInt 0);
       opt "dword15" (DefInt 0); opt "cb" DefNone]
      None ["qpair"; "buf"; "lba"; "lba_count"; "io_flags"; "dword13"; "dword14"; "dword15";
            "cb"];
    mk_method "write" Method
      [req "self"; req "qpair"; req "buf"; req "lba"; opt "lba_count" (DefInt 1);
       opt "io_flags" (DefInt 0); opt "dword13" (DefInt 0); opt "dword14" (DefInt 0);
       opt "dword15" (DefInt 0); opt "cb" DefNone]
      None ["qpair"; "buf"; "lba"; "lba_count"; "io_flags"; "dword13"; "dword14"; "dword15";
            "cb"];
    mk_method "dsm" Method
      [req "self"; req "qpair"; req "buf"; req "range_count"; opt "attribute" (DefInt 4);
       opt "cb" DefNone]
      None ["qpair"; "buf"; "range_count"; "attribute"; "cb"];
    mk_method "verify" Method
      [req "self"; req "qpair"; req "lba"; opt "lba_count" (DefInt 1);
       opt "io_flags" (DefInt 0); opt "cb" DefNone]
      None ["qpair"; "lba"; "lba_count"; "io_flags"; "cb"];
    mk_method "compare" Method
      [req "self"; req "qpair"; req "buf"; req "lba"; opt "lba_count" (DefInt 1);
       opt "io_flags" (DefInt 0); opt "cb" DefNone]
      None ["qpair"; "buf"; "lba"; "lba_count"; "io_flags"; "cb"];
    mk_method "flush" Method
      [req "self"; req "qpair"; opt "cb" DefNone]
      None ["qpair"; "cb"];
    mk_method "write_uncorrectable" Method
      [req "self"; req "qpair"; req "lba"; opt "lba_count" (DefInt 1); opt "cb" DefNone]
      None ["qpair"; "lba"; "lba_count"; "cb"];
    mk_method "write_zeroes" Method
      [req "self"; req "qpair"; req "lba"; opt "lba_count" (DefInt 1);
       opt "io_flags" (DefInt 0); opt "cb" DefNone]
      None ["qpair"; "lba"; "lba_count"; "io_flags"; "cb"];
    mk_method "zns_mgmt_receive" Method
      [req "self"; req "qpair"; req "buf"; opt "slba" (DefInt 0); opt "dwords" DefNone;
       opt "extended" (DefBool true); opt "state" (DefInt 0); opt "partial" (DefBool true);
       opt "cb" DefNone]
      None [];
    mk_method "zns_mgmt_send" Method
      [req "self"; req "qpair"; req "buf"; opt "slba" (DefInt 0); opt "action" (DefInt 0);
       opt "all" (DefBool false); opt "cb" DefNone]
      None [];
    mk_method "send_cmd" Method
      [req "self"; req "opcode"; req "qpair"; opt "buf" DefNone; opt "nsid" (DefInt 1);
       opt "cdw10" (DefInt 0); opt "cdw11" (DefInt 0); opt "cdw12" (DefInt 0);
       opt "cdw13" (DefInt 0); opt "cdw14" (DefInt 0); opt "cdw15" (DefInt 0);
       opt "cb" DefNone]
      None ["opcode"; "qpair"; "buf"; "nsid"; "cdw1x"; "cb"] ].

(** ** The module *)
Definition driver_classes : list pyclass :=
  [driver_Buffer; driver_Subsystem; driver_Pcie; driver_Tcp; driver_Controller;
   driver_Qpair; driver_Namespace].
