(* ===== verification/Api.v ===== *)
(** * Api: the interface file against the driver and the scripts

    [src/nvme.py] is what an editor and a script see of the driver;
    [src/src/driver_wrap.pyx] is what runs.  This file gives the interface file its
    meaning as Python (its classes and methods, when that module is the one
    imported), compares every method the two share, and checks the calls the
    scripts make. *)
From Stdlib Require Import ZArith Lia String.
From stdpp Require Import base list numbers option strings.
From S2P Require Import Prelude Signature StubApi DriverApi.
Local Open Scope string_scope.

Definition find_method (n : string) (c : pyclass) : option method :=
  snd <$> list_find (fun m => m_name m = n) (c_methods c).
Definition find_class (n : string) (cs : list pyclass) : option pyclass :=
  snd <$> list_find (fun c => c_name c = n) cs.

(** ** The interface file as a module *)
Section Stub.
Context {V : Type}.
Variable dflt : pydefault -> V.

(** [C(args, kws)]: [__init__] gets the new object as its first argument. *)
Definition instantiate (self : V) (c : pyclass) (args : list V) (kws : list (string * V)) : res unit :=
  match find_method "__init__" c with
  | Some m => _ ← bind dflt m (self :: args) kws; Ok tt
  | None => check (Nat.eqb (length args) 0 && Nat.eqb (length kws) 0) TypeError
  end.
End Stub.

(** ** The methods the two have in common *)
Definition shared_of (d : pyclass) : list (string * method * method) :=
  match find_class (c_name d) stub_classes with
  | None => []
  | Some s => omap (fun m => (fun m' => (c_name d, m, m')) <$> find_method (m_name m) s) (c_methods d)
  end.
Definition shared : list (string * method * method) := driver_classes ≫= shared_of.

(** Those whose driver calls are not all calls of the interface file. *)
Definition incompatible : list (string * string) :=
  omap (fun '(c, m, m') => if compat m m' then None else Some (c, m_name m)) shared.

(** Shared properties a script can assign in the driver only. *)
Definition setter_lost : list (string * string) :=
  omap (fun '(c, m, m') => match m_kind m, m_kind m' with
                           | PropertySetter, Property => Some (c, m_name m)
                           | _, _ => None end) shared.

Definition wf_names (m : method) : bool := bool_decide (NoDup (names m)).

Lemma shared_names : forallb (fun '(_, m, m') => wf_names m && wf_names m') shared = true.
Proof. vm_compute. reflexivity. Qed.

Lemma shared_nodup c m m' : (c, m, m') ∈ shared -> NoDup (names m) /\ NoDup (names m').
Proof.
  intros Hin. pose proof shared_names as H. revert Hin H. generalize shared. intros l Hin H.
  induction l as [|x l IH]; [by apply elem_of_nil in Hin|].
  cbn [forallb] in H. apply andb_true_iff in H as [H1 H2].
  apply elem_of_cons in Hin as [<-|Hin].
  - apply andb_true_iff in H1 as [H1 H3]. unfold wf_names in *.
    by apply bool_decide_eq_true in H1, H3.
  - by apply IH.
Qed.

Lemma compatible_shared c m m' :
  (c, m, m') ∈ shared -> (c, m_name m) ∉ incompatible -> compat m m' = true.
Proof.
  intros Hin Hn. destruct (compat m m') eqn:E; [done|]. exfalso. apply Hn.
  unfold incompatible. apply list_elem_of_omap. exists (c, m, m'). by rewrite E.
Qed.

(** C40. Scripts for the driver and the interface file: of the methods the two
    share, exactly the listed ones are not upward compatible; for every other
    one, whatever call the driver accepts the interface file accepts too, and
    each argument given reaches the parameter at the same position. *)
Theorem driver_calls_accepted :
  incompatible =
    [("Pcie", "reset"); ("Controller", "identify"); ("Controller", "getfeatures");
     ("Controller", "setfeatures"); ("Controller", "getlogpage"); ("Controller", "mi_send");
     ("Controller", "mi_receive"); ("Controller", "format"); ("Controller", "fw_commit");
     ("Controller", "aer"); ("Controller", "security_receive"); ("Controller", "security_send");
     ("Controller", "send_cmd"); ("Namespace", "id_data"); ("Namespace", "ioworker");
     ("Namespace", "read"); ("Namespace", "write"); ("Namespace", "verify");
     ("Namespace", "compare"); ("Namespace", "write_zeroes"); ("Namespace", "zns_mgmt_receive");
     ("Namespace", "zns_mgmt_send"); ("Namespace", "send_cmd")]
  /\ forall (V : Type) (dflt : pydefault -> V) c m m' args kws r,
       (c, m, m') ∈ shared -> (c, m_name m) ∉ incompatible ->
       bind dflt m args kws = Ok r ->
       exists r', bind dflt m' args kws = Ok r'
         /\ forall i p v, m_params m !! i = Some p -> given args kws i p = Some v ->
              fst r !! i = Some v /\ fst r' !! i = Some v.
Proof.
  split; [vm_compute; reflexivity|]. intros V dflt c m m' args kws r Hin Hn Hb.
  destruct (shared_nodup _ _ _ Hin) as [H1 H2].
  eapply compat_bind; [done..| |done]. by eapply compatible_shared.
Qed.

(** ** Calls that tell two signatures apart *)

(** Calls whose argument values are the names of the parameters they are meant
    for: all positional, all by keyword, only the required ones. *)
Definition no_default (_ : pydefault) : string := "".
Definition canonical_calls (m : method) : list (list string * list (string * string)) :=
  [ (names m, []);
    ([], (fun n => (n, n)) <$> names m);
    (omap (fun p => if has_default p then None else Some (p_name p)) (m_params m), []) ].

(** A value that was meant for another parameter. *)
Definition stray (m : method) (vals : list string) : bool :=
  existsb (fun '(p, v) => negb (String.eqb v "") && negb (String.eqb v (p_name p)))
    (zip (m_params m) vals).

Definition tells_apart (m m' : method) (call : list string * list (string * string)) : bool :=
  match bind no_default m (fst call) (snd call) with
  | Err _ => false
  | Ok _ => match bind no_default m' (fst call) (snd call) with
            | Err _ => true
            | Ok r' => stray m' (fst r')
            end
  end.

Lemma stray_spec m vals :
  stray m vals = true ->
  exists i p v, m_params m !! i = Some p /\ vals !! i = Some v /\ v <> "" /\ v <> p_name p.
Proof.
  unfold stray. generalize (m_params m). intros ps. revert vals.
  induction ps as [|p ps IH]; intros [|v vals] H; try done. cbn in H.
  apply orb_true_iff in H as [H|H].
  - apply andb_true_iff in H as [H1 H2]. exists 0%nat, p, v. split_and!; try done.
    + intros ->. done.
    + intros ->. by rewrite String.eqb_refl in H2.
  - destruct (IH _ H) as (i & q & w & Hi). by exists (S i), q, w.
Qed.

Lemma incompatible_told_apart :
  forallb (fun '(c, m, m') => implb (bool_decide ((c, m_name m) ∈ incompatible))
             (existsb (tells_apart m m') (canonical_calls m))) shared = true.
Proof. vm_compute. reflexivity. Qed.

Lemma existsb_elem {A} (f : A -> bool) l : existsb f l = true -> exists x, x ∈ l /\ f x = true.
Proof.
  induction l as [|x l IH]; [done|]. cbn. intros [H|H]%orb_true_iff.
  - exists x. split; [left|done].
  - destruct (IH H) as (y & Hy & Hf). exists y. split; [by right|done].
Qed.

Lemma forallb_elem {A} (f : A -> bool) l x : forallb f l = true -> x ∈ l -> f x = true.
Proof.
  induction l as [|y l IH]; [intros _ Hx; by apply elem_of_nil in Hx|]. cbn.
  intros [H1 H2]%andb_true_iff [->|Hx]%elem_of_cons; [done|by apply IH].
Qed.

(** The list is exact: for every listed method there is a call the driver
    accepts, each of its values being the name of the driver's parameter it is
    meant for, that the interface file refuses with [TypeError] or gives to a
    parameter of another name (a callback passed by position, for example,
    lands in a new parameter before [cb]). *)
Theorem incompatible_calls_exist c m m' :
  (c, m, m') ∈ shared -> (c, m_name m) ∈ incompatible ->
  exists args kws r, bind no_default m args kws = Ok r
    /\ (bind no_default m' args kws = Err TypeError
        \/ exists r' i p v, bind no_default m' args kws = Ok r'
             /\ m_params m' !! i = Some p /\ fst r' !! i = Some v /\ v <> "" /\ v <> p_name p).
Proof.
  intros Hin Hc. pose proof (forallb_elem _ _ _ incompatible_told_apart Hin) as H. cbv beta iota in H.
  rewrite bool_decide_eq_true_2 in H by done. cbn [implb] in H.
  apply existsb_elem in H as ([args kws] & _ & H). unfold tells_apart in H. cbn [fst snd] in H.
  destruct (bind no_default m args kws) as [r|] eqn:E; [|done].
  exists args, kws, r. split; [done|].
  destruct (bind no_default m' args kws) as [r'|e] eqn:E'.
  - right. destruct (stray_spec _ _ H) as (i & p & v & Hi & Hv & Hne & Hn).
    by exists r', i, p, v.
  - left. f_equal. by eapply bind_error.
Qed.

(** ** Using the interface file as the module *)
Lemma stub_init_no_self :
  forallb (fun c => match find_method "__init__" c with
                    | Some m => Nat.eqb (length (m_params m)) 0
                                && match m_vararg m with None => true | Some _ => false end
                    | None => false
                    end) stub_classes = true.
Proof. vm_compute. reflexivity. Qed.

(** No object of the interface file can be made: [def __init__()] has no
    [self], so with the file as the module every construction, with whatever
    arguments, raises [TypeError]; so does creating the exceptions the driver
    raises. *)
Theorem stub_instantiation_fails {V} (dflt : pydefault -> V) self c args kws :
  c ∈ stub_classes -> instantiate dflt self c args kws = Err TypeError.
Proof.
  intros Hin. pose proof (forallb_elem _ _ _ stub_init_no_self Hin) as H. cbv beta in H.
  unfold instantiate. destruct (find_method "__init__" c) as [m|]; [|done].
  apply andb_true_iff in H as [H1 H2]. apply Nat.eqb_eq in H1.
  unfold bind, check. rewrite H1. by destruct (m_vararg m).
Qed.

(** ** Parameters the doc strings describe *)
Definition doc_mismatch : list (string * string * string) :=
  stub_classes ≫= fun c => c_methods c ≫= fun m =>
    if String.eqb (m_name m) "__init__" then []
    else omap (fun k => if bool_decide (k ∈ names m \/ m_vararg m = Some k) then None
                       else Some (c_name c, m_name m, k))
           (m_docs m).

(** Keywords the documentation promises: except for the listed ones, every
    parameter the doc string of a method describes is in its signature; a call that passes a listed one by keyword, as documented,
    always raises [TypeError]. *)
Theorem documented_keywords :
  doc_mismatch =
    [("Controller", "downfw", "cb"); ("Controller", "getfeatures", "cdwxx");
     ("Controller", "send_cmd", "cdwxx"); ("Controller", "setfeatures", "cdwxx");
     ("Namespace", "dump_miscompare_lba_disable", "enable");
     ("Namespace", "inject_write_buffer_disable", "enable");
     ("Namespace", "inject_write_token_disable", "enable");
     ("Namespace", "print_miscompare_log_disable", "enable"); ("Namespace", "send_cmd", "cdwxx")]
  /\ (forall c m k, c ∈ stub_classes -> m ∈ c_methods c -> m_name m <> "__init__" -> k ∈ m_docs m ->
      k ∈ names m \/ m_vararg m = Some k \/ (c_name c, m_name m, k) ∈ doc_mismatch)
  /\ (forall (V : Type) (dflt : pydefault -> V) m k args kws,
      NoDup (names m) -> k ∉ names m -> k ∈ fst <$> kws -> bind dflt m args kws = Err TypeError).
Proof.
  split; [vm_compute; reflexivity|]. split.
  - intros c m k Hc Hm Hn Hk.
    destruct (decide (k ∈ names m \/ m_vararg m = Some k)) as [[|]|Hnk]; [by left|by right; left|].
    right. right.
    unfold doc_mismatch. apply list_elem_of_bind. exists c. split; [|done].
    apply list_elem_of_bind. exists m. split; [|done].
    destruct (String.eqb_spec (m_name m) "__init__"); [done|].
    apply list_elem_of_omap. exists k. split; [done|]. by rewrite bool_decide_eq_false_2.
  - intros V dflt m k args kws Hnd Hk Hin. destruct (bind dflt m args kws) as [r|e] eqn:E.
    + exfalso. destruct (bind_sound _ _ _ _ _ Hnd E) as [[_ _ Hnames _] _].
      destruct (Hnames k Hin) as (i & p & _ & Hp & <-). apply Hk.
      apply list_elem_of_fmap. exists p. split; [done|]. by eapply list_elem_of_lookup_2.
    + f_equal. by eapply bind_error.
Qed.

(** ** The calls of the scripts *)

(** A call site: class, method, the driver's names of the parameters the
    positional arguments are meant for, and the keywords. *)
Record site := mk_site {
  s_class : string; s_method : string; s_args : list string; s_kws : list string
}.

(** IOSQ.__init__, IOCQ.__init__ and the two delete methods of psd.py. *)
Definition psd_sites : list site :=
  [ mk_site "Controller" "send_cmd" ["self"; "opcode"; "buf"] ["cdw10"; "cdw11"; "cdw12"; "cb"];
    mk_site "Controller" "send_cmd" ["self"; "opcode"; "buf"] ["cdw10"; "cdw11"; "cb"];
    mk_site "Controller" "send_cmd" ["self"; "opcode"] ["cdw10"];
    mk_site "Controller" "waitdone" ["self"] [];
    mk_site "Buffer" "data" ["self"; "byte_end"; "byte_begin"] [] ].

(** The methods of Zone in zns.py. *)
Definition zns_sites : list site :=
  [ mk_site "Buffer" "data" ["self"; "byte_end"; "byte_begin"] [];
    mk_site "Buffer" "data" ["self"; "byte_end"] [];
    mk_site "Namespace" "id_data" ["self"; "byte_end"; "byte_begin"] ["cns"; "csi"];
    mk_site "Namespace" "write_uncorrectable" ["self"; "qpair"; "lba"; "lba_count"] [];
    mk_site "Namespace" "zns_mgmt_receive" ["self"; "qpair"; "buf"; "slba"] [];
    mk_site "Namespace" "zns_mgmt_send" ["self"; "qpair"; "buf"; "slba"; "action"] [];
    mk_site "Qpair" "waitdone" ["self"] [];
    mk_site "Namespace" "write" ["self"; "qpair"; "buf"; "lba"; "lba_count"; "io_flags";
                                 "dword13"; "dword14"; "dword15"; "cb"] [];
    mk_site "Namespace" "read" ["self"; "qpair"; "buf"; "lba"; "lba_count"; "io_flags";
                                "dword13"; "dword14"; "dword15"; "cb"] [];
    mk_site "Namespace" "send_cmd" ["self"]
      ["opcode"; "qpair"; "buf"; "nsid"; "cdw10"; "cdw11"; "cdw12"; "cdw13"; "cdw14"; "cdw15"; "cb"];
    mk_site "Namespace" "ioworker" ["self"]
      ["io_size"; "lba_step"; "lba_align"; "lba_random"; "read_percentage"; "op_percentage";
       "time"; "qdepth"; "region_start"; "region_end"; "iops"; "io_count"; "lba_start"; "qprio";
       "distribution"; "ptype"; "pvalue"; "io_sequence"; "output_io_per_second";
       "output_percentile_latency"; "output_cmdlog_list"] ].

(** The call binds in a module, and every value reaches the parameter it is
    meant for. *)
Definition site_ok (cs : list pyclass) (s : site) : bool :=
  match m ← find_class (s_class s) cs; find_method (s_method s) m with
  | None => false
  | Some m => match bind no_default m (s_args s) ((fun n => (n, n)) <$> s_kws s) with
              | Err _ => false
              | Ok r => negb (stray m (fst r))
              end
  end.

(** The calls psd.py and zns.py make: against the driver every one binds
    and every argument reaches the parameter it is meant for.  Against the
    interface file all do but [Zone.write] and [Zone.read], whose positional
    arguments reach parameters of other names: the callback becomes dword 2. *)
Theorem script_calls_bind :
  Forall (fun s => site_ok driver_classes s = true) (psd_sites ++ zns_sites)%list
  /\ filter (fun s => site_ok stub_classes s = false) (psd_sites ++ zns_sites)%list =
     filter (fun s => s_method s = "write" \/ s_method s = "read") zns_sites
  /\ (exists r, bind no_default Namespace_write
        ["self"; "qpair"; "buf"; "lba"; "lba_count"; "io_flags"; "dword13"; "dword14"; "dword15"; "cb"]
        [] = Ok r /\ fst r !! 9%nat = Some "cb" /\ m_params Namespace_write !! 9%nat = Some (opt "cdw02" (DefInt 0))).
Proof.
  split; [|split].
  - each (vm_compute; reflexivity).
  - vm_compute. reflexivity.
  - eexists. split; [vm_compute; reflexivity|]. split; vm_compute; reflexivity.
Qed.

(** ** Witnesses *)
Definition driver_method (i : nat) : method := nth i (c_methods driver_Controller) Controller_abort.

Lemma abort_shared : ("Controller", driver_method 19, Controller_abort) ∈ shared.
Proof. apply (list_elem_of_lookup_2 _ 34). vm_compute. reflexivity. Qed.

Lemma identify_shared : ("Controller", driver_method 20, Controller_identify) ∈ shared.
Proof. apply (list_elem_of_lookup_2 _ 35). vm_compute. reflexivity. Qed.

Lemma driver_calls_accepted_witness :
  exists r', bind no_default Controller_abort ["self"; "cid"] [("cb", "cb")] = Ok r'
    /\ forall i p v, m_params (driver_method 19) !! i = Some p ->
         given ["self"; "cid"] [("cb", "cb")] i p = Some v ->
         ["self"; "cid"; ""; "cb"] !! i = Some v /\ fst r' !! i = Some v.
Proof.
  apply (proj2 driver_calls_accepted string no_default "Controller" (driver_method 19)
    Controller_abort ["self"; "cid"] [("cb", "cb")] (["self"; "cid"; ""; "cb"], []) abort_shared).
  - rewrite (proj1 driver_calls_accepted). apply (bool_decide_unpack _). by vm_compute.
  - vm_compute. reflexivity.
Defined.

Lemma incompatible_calls_exist_witness :
  exists args kws r, bind no_default (driver_method 20) args kws = Ok r
    /\ (bind no_default Controller_identify args kws = Err TypeError
        \/ exists r' i p v, bind no_default Controller_identify args kws = Ok r'
             /\ m_params Controller_identify !! i = Some p /\ fst r' !! i = Some v
             /\ v <> "" /\ v <> p_name p).
Proof.
  apply (incompatible_calls_exist "Controller"); [apply identify_shared|].
  apply (bool_decide_unpack _). by vm_compute.
Defined.

Lemma stub_instantiation_fails_witness :
  instantiate no_default "self" class_Buffer ["4096"] [] = Err TypeError.
Proof.
  apply stub_instantiation_fails. apply (list_elem_of_lookup_2 _ 0). reflexivity.
Defined.

Lemma documented_keywords_witness :
  bind no_default Namespace_inject_write_token_disable ["self"] [("enable", "True")] = Err TypeError.
Proof.
  apply (proj2 (proj2 documented_keywords) string no_default _ "enable").
  - apply (bool_decide_unpack _). by vm_compute.
  - apply (bool_decide_unpack _). by vm_compute.
  - left.
Defined.
