(* ===== verification/Completion.v ===== *)
(** * Completion: callbacks and waitdone

    How completions come back (src/src/driver_wrap.pyx): the C library calls
    [cmd_cb] or [aer_cmd_cb] for each completion it reaps, and
    [Controller.waitdone] and [Qpair.waitdone] poll it until enough have been
    reaped, under an alarm.  The module's global variables, the polls still to
    come and the state of the test script are one state, [world].

    The environment decides what each poll reaps: a [poll] holds the
    completions the C library processes in it, its return code, and how many
    milliseconds its turn of the loop takes.  When no poll is left nothing more
    completes: the loop goes on, a millisecond a turn, until the alarm fires,
    which it only does when [signal.alarm] armed it.  The handler of the alarm
    runs where [waitdone] checks for signals; a handler that Python runs inside
    a callback is not modelled. *)
From Stdlib Require Import ZArith Lia.
From stdpp Require Import base list numbers option.
From S2P Require Import Prelude PyInt Buffer Command.
Local Open Scope Z_scope.

(** [struct _cpl], with the callback argument of the command it completes. *)
Record completion := mk_completion {
  c_cdw0 : Z; c_rsvd1 : Z; c_sqhead : Z; c_sqid : Z; c_cid : Z; c_status1 : Z;
  c_func : option nat;            (* [None], or a Python object *)
  c_aer : bool                    (* its C callback is [aer_cmd_cb] *)
}.

Record poll := mk_poll { p_cpls : list completion; p_rc : Z; p_ms : nat }.

(** What the code warns of. *)
Inductive warning :=
  | WAssert                        (* a failed assertion in a callback *)
  | WCallback                      (* both calling conventions raise TypeError *)
  | WStatus (sct sc : Z)           (* ERROR status *)
  | WAer (cdw0 : Z).               (* AER notification *)

Section Completion.
(** The state of the test script. *)
Context {U : Type}.

Record world := mk_world {
  latest_cdw0 : Z;                 (* _latest_cqe_cdw0 *)
  reentry : bool;                  (* _reentry_flag *)
  alarm : Z;                       (* milliseconds until SIGALRM; 0: not armed *)
  aer_resend : Z;                  (* _aer_resend *)
  aer_waitdone : Z;                (* _aer_waitdone *)
  admin_polls : list poll;
  io_polls : list poll;
  warned : list warning;
  sent : list spdk_cmd;
  user : U
}.

Definition set_latest v (w : world) := mk_world v (reentry w) (alarm w) (aer_resend w) (aer_waitdone w)
  (admin_polls w) (io_polls w) (warned w) (sent w) (user w).
Definition set_reentry v (w : world) := mk_world (latest_cdw0 w) v (alarm w) (aer_resend w) (aer_waitdone w)
  (admin_polls w) (io_polls w) (warned w) (sent w) (user w).
Definition set_alarm v (w : world) := mk_world (latest_cdw0 w) (reentry w) v (aer_resend w) (aer_waitdone w)
  (admin_polls w) (io_polls w) (warned w) (sent w) (user w).
Definition set_aer r n (w : world) := mk_world (latest_cdw0 w) (reentry w) (alarm w) r n
  (admin_polls w) (io_polls w) (warned w) (sent w) (user w).
Definition set_admin p (w : world) := mk_world (latest_cdw0 w) (reentry w) (alarm w) (aer_resend w) (aer_waitdone w)
  p (io_polls w) (warned w) (sent w) (user w).
Definition set_io p (w : world) := mk_world (latest_cdw0 w) (reentry w) (alarm w) (aer_resend w) (aer_waitdone w)
  (admin_polls w) p (warned w) (sent w) (user w).
Definition warn x (w : world) := mk_world (latest_cdw0 w) (reentry w) (alarm w) (aer_resend w) (aer_waitdone w)
  (admin_polls w) (io_polls w) (warned w ++ [x]) (sent w) (user w).
Definition send x (w : world) := mk_world (latest_cdw0 w) (reentry w) (alarm w) (aer_resend w) (aer_waitdone w)
  (admin_polls w) (io_polls w) (warned w) (sent w ++ [x]) (user w).

(** A callable: how it behaves with one tuple, and with two arguments. *)
Record pyfunc := mk_pyfunc { call1 : list Z -> M world unit; call2 : Z -> Z -> M world unit }.

(** The Python objects given as callbacks; [None] is not callable. *)
Variable funcs : nat -> option pyfunc.
(** SPDK's [spdk_nvme_cpl_is_error], on the status word. *)
Variable cpl_is_error : Z -> bool.
(** SPDK's return code for a command. *)
Variable submit : spdk_cmd -> Z.
(** [Controller._timeout], the time-out of a command in milliseconds. *)
Variable timeout : Z.

(** ** cmd_cb *)

(** The tuple of the four dwords of the completion. *)
Definition cpl_tuple (c : completion) : list Z :=
  [ c_cdw0 c; c_rsvd1 c;
    wrap 32 (wrap 32 (Z.shiftl (c_sqid c) 16) + c_sqhead c);
    wrap 32 (wrap 32 (Z.shiftl (c_status1 c) 16) + c_cid c) ].

(** [try: f(tuple) except TypeError: f(cdw0, status1)], inside the handlers of
    [AssertionError] and [TypeError]. *)
Definition run_callback (f : pyfunc) (c : completion) : M world unit := fun w =>
  let '(r, w1) :=
    match call1 f (cpl_tuple c) w with
    | (Err TypeError, w') => call2 f (c_cdw0 c) (c_status1 c) w'
    | rw => rw
    end in
  match r with
  | Err AssertionError => (Ok tt, warn WAssert w1)
  | Err TypeError => (Ok tt, warn WCallback w1)
  | _ => (r, w1)
  end.

Definition status_sc (status1 : Z) : Z := Z.land (Z.shiftr status1 1) 0xff.
Definition status_sct (status1 : Z) : Z := Z.land (Z.shiftr status1 9) 0x7.

Definition check_status (c : completion) : M world unit :=
  if cpl_is_error (c_status1 c)
  then modify (warn (WStatus (status_sct (c_status1 c)) (status_sc (c_status1 c))))
  else mret tt.

(** A C callback cannot raise: what escapes it is printed and dropped. *)
Definition unraisable (m : M world unit) : world -> world := fun w => snd (m w).

Definition cmd_cb (c : completion) : world -> world :=
  unraisable
    (modify (set_latest (c_cdw0 c)) ;;
     match c_func c with
     | None => check_status c
     | Some n => match funcs n with
                 | None => raise AssertionError            (* assert callable(func) *)
                 | Some f => run_callback f c ;; check_status c
                 end
     end).

Definition aer_cmd_cb (c : completion) : world -> world := fun w =>
  let w := set_aer (aer_resend w) (aer_waitdone w + 1) w in
  let sct_sc := Z.land (Z.shiftr (c_status1 c) 1) 0x7ff in
  let w := if sct_sc =? 0
           then warn (WAer (c_cdw0 c)) (set_aer (aer_resend w + 1) (aer_waitdone w) w) else w in
  if negb (sct_sc =? 8) then cmd_cb c w else w.

Definition complete (w : world) (c : completion) : world :=
  if c_aer c then aer_cmd_cb c w else cmd_cb c w.

(** ** waitdone *)

(** [_timeout_signal_handler] *)
Definition timeout_handler {A} : M world A := modify (set_reentry false) ;; raise TimeoutError.

(** [Controller._timeout_pynvme], of the [unsigned int] [_timeout]: seconds. *)
Definition timeout_pynvme : Z := wrap 32 timeout / 1000 + 20.

(** [signal.alarm(seconds)]: an alarm set before is cancelled, and 0 sets none. *)
Definition signal_alarm (seconds : Z) : M world unit := modify (set_alarm (seconds * 1000)).

(** [PyErr_CheckSignals] after [ms] milliseconds: the handler runs when the
    alarm is over. *)
Definition check_signals (ms : Z) : M world unit := fun w =>
  if (0 <? alarm w) && (alarm w <=? ms) then timeout_handler (set_alarm 0 w)
  else (Ok tt, set_alarm (Z.max 0 (alarm w - ms)) w).

(** One turn of the loop: the C library processes the completions of a poll,
    or finds none, and the signals are checked. *)
Definition reap (take : world -> list poll) (put : list poll -> world -> world) : M world Z := fun w =>
  match take w with
  | [] => (check_signals 1 ;; mret 0) w
  | p :: ps =>
      (check_signals (Z.of_nat (p_ms p)) ;; mret (p_rc p)) (foldl complete (put ps w) (p_cpls p))
  end.

(** [while reaped < expected: reaped += ...]: a turn uses up a poll or, when
    none is left, a millisecond of the alarm; with the alarm off a loop that has
    nothing more to reap never ends, which is to run out of fuel. *)
Fixpoint reap_loop (fuel : nat) (take : world -> list poll) (put : list poll -> world -> world)
    (expected reaped : Z) : M world Z :=
  if reaped <? expected then
    match fuel with
    | O => raise OutOfFuel
    | S fuel' => n ← reap take put; reap_loop fuel' take put expected (reaped + n)
    end
  else mret reaped.

Definition loop_fuel (ps : list poll) (w : world) : nat := (length ps + Z.to_nat (alarm w))%nat.

Definition reap_admin (expected : Z) : M world Z := fun w =>
  reap_loop (loop_fuel (admin_polls w) w) admin_polls set_admin expected 0 w.
Definition reap_io (expected : Z) : M world Z := fun w =>
  reap_loop (loop_fuel (io_polls w) w) io_polls set_io expected 0 w.

(** The guard and its flag. *)
Definition enter_waitdone : M world unit :=
  w ← get; py_assert (negb (reentry w)) ;; modify (set_reentry true).

(** [self.aer(cb=self.aer_cb_func)] *)
Definition send_aer : M world unit := c ← lift (aer_cmd submit); modify (send c).

(** [for i in range(n): m] *)
Fixpoint times (n : nat) (m : M world unit) : M world unit :=
  match n with O => mret tt | S n' => m ;; times n' m end.

(** [Controller.waitdone]; the fuel bounds the depth of its calls of itself. *)
Fixpoint waitdone (fuel : nat) (expected : Z) : M world Z :=
  match fuel with
  | O => raise RecursionError
  | S fuel' =>
      enter_waitdone ;;
      modify (set_aer 0 0) ;;
      signal_alarm timeout_pynvme ;;
      reaped ← reap_admin expected;
      signal_alarm 0 ;;
      py_assert (expected <=? reaped) ;;
      modify (set_reentry false) ;;
      w ← get;
      times (Z.to_nat (aer_resend w)) send_aer ;;
      w ← get;
      (if reaped - expected <? aer_waitdone w then
         times (Z.to_nat (aer_waitdone w - (reaped - expected)))
           (_ ← waitdone fuel' 1; mret tt)
       else mret tt) ;;
      w ← get;
      mret (latest_cdw0 w)
  end.

(** [Qpair.waitdone] *)
Definition qpair_waitdone (expected : Z) : M world Z :=
  enter_waitdone ;;
  signal_alarm timeout_pynvme ;;
  reaped ← reap_io expected;
  signal_alarm 0 ;;
  py_assert (reaped =? expected) ;;
  modify (set_reentry false) ;;
  w ← get;
  mret (latest_cdw0 w).

(** ** What callbacks leave alone *)

(** The driver's own variables, which a script has no access to, and the alarm. *)
Record same_globals (w w' : world) : Prop := {
  sg_latest : latest_cdw0 w' = latest_cdw0 w;
  sg_reentry : reentry w' = reentry w;
  sg_alarm : alarm w' = alarm w;
  sg_resend : aer_resend w' = aer_resend w;
  sg_aer : aer_waitdone w' = aer_waitdone w;
  sg_admin : admin_polls w' = admin_polls w;
  sg_io : io_polls w' = io_polls w
}.

Definition keeps_globals (m : M world unit) : Prop :=
  forall w, reentry w = true -> same_globals w (snd (m w)).

(** Callbacks change the script's state, warn and send commands only; calling
    [waitdone] is allowed, and fails (see [waitdone_guarded]). *)
Definition callbacks_ok : Prop :=
  forall n f, funcs n = Some f ->
    (forall l, keeps_globals (call1 f l)) /\ (forall a b, keeps_globals (call2 f a b)).

Lemma same_globals_refl w : same_globals w w.
Proof. by split. Qed.

Lemma same_globals_trans w1 w2 w3 :
  same_globals w1 w2 -> same_globals w2 w3 -> same_globals w1 w3.
Proof. intros [] []. split; congruence. Qed.

Lemma same_globals_warn x w : same_globals w (warn x w).
Proof. by split. Qed.

#[local] Hint Resolve same_globals_refl same_globals_warn : core.

Lemma run_callback_globals f c w :
  (forall l, keeps_globals (call1 f l)) -> (forall a b, keeps_globals (call2 f a b)) ->
  reentry w = true -> same_globals w (snd (run_callback f c w)).
Proof.
  intros H1 H2 Hr. unfold run_callback.
  assert (Hw : forall rw : res unit * world, same_globals w (snd rw) ->
    same_globals w (snd (let '(r, w1) := rw in
      match r with
      | Err AssertionError => (Ok tt, warn WAssert w1)
      | Err TypeError => (Ok tt, warn WCallback w1)
      | _ => (r, w1)
      end))).
  { intros [[[]|e] w1] H; [done|]. destruct e; try done;
      (eapply same_globals_trans; [exact H|apply same_globals_warn]). }
  apply Hw. pose proof (H1 (cpl_tuple c) w Hr) as Hc1.
  destruct (call1 f (cpl_tuple c) w) as [[[]|e] w1] eqn:E; cbn [snd] in *; [done|].
  destruct e; try done.
  eapply same_globals_trans; [exact Hc1|]. apply H2. rewrite (sg_reentry _ _ Hc1). done.
Qed.

Lemma check_status_globals c w : same_globals w (snd (check_status c w)).
Proof. unfold check_status. by destruct (cpl_is_error _). Qed.

(** A completion records its dword 0 and nothing else of the driver's own. *)
Lemma cmd_cb_globals c w :
  callbacks_ok -> reentry w = true -> same_globals (set_latest (c_cdw0 c) w) (cmd_cb c w).
Proof.
  intros Hok Hr. unfold cmd_cb, unraisable.
  rewrite (run_bind_ok _ _ _ tt (set_latest (c_cdw0 c) w)) by done.
  destruct (c_func c) as [n|]; [|apply check_status_globals].
  destruct (funcs n) as [f|] eqn:Ef; [|done].
  destruct (Hok n f Ef) as [H1 H2].
  pose proof (run_callback_globals f c (set_latest (c_cdw0 c) w) H1 H2 Hr) as Hg.
  unfold mbind, M_bind.
  destruct (run_callback f c (set_latest (c_cdw0 c) w)) as [[[]|e] w1]; cbn [snd] in *; [|done].
  eapply same_globals_trans; [exact Hg|apply check_status_globals].
Qed.

Definition is_aer (c : completion) : bool := c_aer c.
Definition count (f : completion -> bool) (l : list completion) : Z :=
  Z.of_nat (length (List.filter f l)).
Definition is_cmd (c : completion) : bool := negb (c_aer c).

Lemma count_app f l1 l2 : count f (l1 ++ l2) = count f l1 + count f l2.
Proof. unfold count. rewrite List.filter_app, length_app. lia. Qed.

Lemma count_split l : count is_aer l + count is_cmd l = Z.of_nat (length l).
Proof.
  unfold count, is_aer, is_cmd. induction l as [|c l IH]; [done|].
  cbn [List.filter length]. destruct (c_aer c); cbn [negb length]; lia.
Qed.

(** What a batch of completions does to the driver's variables. *)
Lemma complete_globals c w :
  callbacks_ok -> reentry w = true ->
  reentry (complete w c) = true /\ alarm (complete w c) = alarm w
  /\ aer_waitdone (complete w c) = aer_waitdone w + count is_aer [c]
  /\ admin_polls (complete w c) = admin_polls w /\ io_polls (complete w c) = io_polls w
  /\ (c_aer c = false -> latest_cdw0 (complete w c) = c_cdw0 c /\ aer_resend (complete w c) = aer_resend w).
Proof.
  intros Hok Hr. unfold complete, count, is_aer. cbn [List.filter].
  destruct (c_aer c); cbn [length].
  - unfold aer_cmd_cb. set (w0 := set_aer (aer_resend w) (aer_waitdone w + 1) w).
    set (w1 := if _ =? 0 then _ else w0).
    assert (H1 : reentry w1 = true /\ alarm w1 = alarm w /\ aer_waitdone w1 = aer_waitdone w + 1
      /\ admin_polls w1 = admin_polls w /\ io_polls w1 = io_polls w)
      by (unfold w1; by destruct (_ =? 0)).
    destruct H1 as (Hr1 & Hal & Ha & Hp & Hi).
    destruct (negb _); [|split_and!; solve [done | lia]].
    destruct (cmd_cb_globals c w1 Hok Hr1). cbn in *. split_and!; solve [congruence | done | lia].
  - destruct (cmd_cb_globals c w Hok Hr). cbn in *. split_and!; try congruence; [lia|].
    intros _. split; congruence.
Qed.

Lemma batch_globals l : forall w,
  callbacks_ok -> reentry w = true ->
  reentry (foldl complete w l) = true /\ alarm (foldl complete w l) = alarm w
  /\ aer_waitdone (foldl complete w l) = aer_waitdone w + count is_aer l
  /\ admin_polls (foldl complete w l) = admin_polls w /\ io_polls (foldl complete w l) = io_polls w.
Proof.
  induction l as [|c l IH]; intros w Hok Hr; cbn [foldl].
  { split_and!; try done. unfold count. cbn. lia. }
  destruct (complete_globals c w Hok Hr) as (H1 & H0 & H2 & H3 & H4 & _).
  destruct (IH (complete w c) Hok H1) as (G1 & G0 & G2 & G3 & G4).
  split_and!; try congruence. rewrite G2, H2. change (c :: l) with ([c] ++ l).
  rewrite count_app. lia.
Qed.

(** ** The polling loop *)
Definition cpls_of (ps : list poll) : list completion := ps ≫= p_cpls.
Definition rc_sum (ps : list poll) : Z := foldr (fun p s => p_rc p + s) 0 ps.

(** What a run of polls did: [ps] were consumed from the queue [take] looks at. *)
Record consumed (take : world -> list poll) (w : world) (ps : list poll) (w' : world) : Prop := {
  co_polls : take w = ps ++ take w';
  co_reentry : reentry w' = reentry w;
  co_aer : aer_waitdone w' = aer_waitdone w + count is_aer (cpls_of ps)
}.

Lemma cpls_of_app ps qs : cpls_of (ps ++ qs) = cpls_of ps ++ cpls_of qs.
Proof. apply bind_app. Qed.

Lemma rc_sum_app ps qs : rc_sum (ps ++ qs) = rc_sum ps + rc_sum qs.
Proof. unfold rc_sum. induction ps as [|p ps IH]; cbn in *; [done|]. rewrite IH. lia. Qed.

Lemma consumed_nil take w : consumed take w [] w.
Proof. split; try done. change (count is_aer (cpls_of [])) with 0. lia. Qed.

(** [take] and [put] are the accessors of one of the two queues of polls. *)
Record poll_queue (take : world -> list poll) (put : list poll -> world -> world) : Prop := {
  pq_get : forall ps w, take (put ps w) = ps;
  pq_alarm_take : forall v w, take (set_alarm v w) = take w;
  pq_alarm : forall ps w, alarm (put ps w) = alarm w;
  pq_reentry : forall ps w, reentry (put ps w) = reentry w;
  pq_aer : forall ps w, aer_waitdone (put ps w) = aer_waitdone w;
  pq_latest : forall ps w, latest_cdw0 (put ps w) = latest_cdw0 w;
  pq_resend : forall ps w, aer_resend (put ps w) = aer_resend w;
  pq_batch : forall l w, callbacks_ok -> reentry w = true -> take (foldl complete w l) = take w
}.

Lemma admin_queue : poll_queue admin_polls set_admin.
Proof. split; try done. intros l w Hok Hr. apply batch_globals; done. Qed.

Lemma io_queue : poll_queue io_polls set_io.
Proof. split; try done. intros l w Hok Hr. apply batch_globals; done. Qed.

(** The alarm is no part of what a run consumes. *)
Lemma consumed_alarm take put v w ps w' :
  poll_queue take put -> consumed take w ps w' -> consumed take w ps (set_alarm v w').
Proof. intros Hq []. split; try done. by rewrite (pq_alarm_take _ _ Hq). Qed.

(** A turn with the alarm on: [rc] reaped in [ms] milliseconds, from a poll or
    from none. *)
Lemma reap_turn take put w :
  poll_queue take put -> callbacks_ok -> reentry w = true -> 0 < alarm w ->
  exists ps rc ms w1,
    reap take put w = (if alarm w <=? Z.of_nat ms then (Err TimeoutError, set_reentry false (set_alarm 0 w1))
                       else (Ok rc, set_alarm (alarm w - Z.of_nat ms) w1))
    /\ consumed take w ps w1 /\ rc = rc_sum ps
    /\ match take w with
       | [] => ps = [] /\ ms = 1%nat
       | p :: qs => ps = [p] /\ rc = p_rc p /\ ms = p_ms p /\ w1 = foldl complete (put qs w) (p_cpls p)
       end.
Proof.
  intros Hq Hok Hr Ha. unfold reap. destruct (take w) as [|p ps] eqn:Hp.
  { exists [], 0, 1%nat, w. split_and!; try done; [|apply consumed_nil].
    unfold check_signals, mbind, M_bind. rewrite (proj2 (Z.ltb_lt _ _)) by done. cbn [andb].
    change (Z.of_nat 1) with 1. destruct (Z.leb_spec (alarm w) 1); [done|]. by rewrite Z.max_r by lia. }
  assert (Hr' : reentry (put ps w) = true) by (by rewrite (pq_reentry _ _ Hq)).
  destruct (batch_globals (p_cpls p) (put ps w) Hok Hr') as (H1 & H0 & H2 & _).
  set (w1 := foldl complete (put ps w) (p_cpls p)) in *. rewrite (pq_alarm _ _ Hq) in H0.
  exists [p], (p_rc p), (p_ms p), w1. split_and!; try done; [| |unfold rc_sum; cbn; lia].
  - unfold check_signals, mbind, M_bind. rewrite H0, (proj2 (Z.ltb_lt _ _)) by done. cbn [andb].
    destruct (Z.leb_spec (alarm w) (Z.of_nat (p_ms p))); [done|]. by rewrite Z.max_r by lia.
  - split.
    + rewrite Hp. unfold w1. by rewrite (pq_batch _ _ Hq), (pq_get _ _ Hq).
    + congruence.
    + rewrite H2, (pq_aer _ _ Hq). cbn. by rewrite app_nil_r.
Qed.

Lemma consumed_trans take w1 ps1 w2 ps2 w3 :
  consumed take w1 ps1 w2 -> consumed take w2 ps2 w3 -> consumed take w1 (ps1 ++ ps2) w3.
Proof.
  intros [] []. split; [|congruence|].
  - rewrite <- app_assoc. congruence.
  - rewrite cpls_of_app, count_app. lia.
Qed.

(** The loop stops as soon as enough is reaped, or with the alarm, whose handler
    clears the flag: it does not run for ever. *)
Lemma reap_loop_spec fuel take put expected : forall reaped w r w',
  poll_queue take put -> callbacks_ok -> reentry w = true -> 0 < alarm w ->
  (loop_fuel (take w) w <= fuel)%nat ->
  reap_loop fuel take put expected reaped w = (r, w') ->
  match r with
  | Ok n => exists ps, consumed take w ps w' /\ n = reaped + rc_sum ps /\ expected <= n
  | Err e => e = TimeoutError /\ reentry w' = false /\ alarm w' = 0
  end.
Proof.
  unfold loop_fuel. induction fuel as [|fuel IH]; intros reaped w r w' Hq Hok Hr Ha Hf; cbn [reap_loop];
    destruct (Z.ltb_spec reaped expected) as [Hlt|Hge]; [lia| | |];
    try (intros [= <- <-]; exists []; split; [apply consumed_nil|]; cbn; lia).
  destruct (reap_turn take put w Hq Hok Hr Ha) as (ps & rc & ms & w1 & Hrun & Hc & Hrc & Hturn).
  destruct (Z.leb_spec (alarm w) (Z.of_nat ms)) as [Hle|Hgt].
  { rewrite (run_bind_err _ _ _ _ _ Hrun). by intros [= <- <-]. }
  rewrite (run_bind_ok _ _ _ _ _ Hrun). intros H. set (w2 := set_alarm (alarm w - Z.of_nat ms) w1) in *.
  assert (Hc2 : consumed take w ps w2) by (by apply (consumed_alarm take put)).
  assert (Hlen : (length (take w2) + Z.to_nat (alarm w2) <= fuel)%nat).
  { change (alarm w2) with (alarm w - Z.of_nat ms). pose proof (co_polls _ _ _ _ Hc2) as E.
    destruct (take w) as [|p qs]; [destruct Hturn as [-> ->]|destruct Hturn as (-> & _)].
    - cbn in E. rewrite <- E. cbn in *. lia.
    - injection E as <-. cbn in Hf. lia. }
  pose proof (IH _ w2 r w' Hq Hok ltac:(by rewrite (co_reentry _ _ _ _ Hc2)) ltac:(cbn; lia) Hlen H) as H'.
  destruct r as [n|e]; [|done]. destruct H' as (qs & Hc' & Hn & He).
  exists (ps ++ qs). split; [by eapply consumed_trans|]. rewrite rc_sum_app. lia.
Qed.

(** The C library returns the number of completions it has processed. *)
Definition honest (ps : list poll) : Prop :=
  Forall (fun p => p_rc p = Z.of_nat (length (p_cpls p))) ps.

Lemma honest_sum ps : honest ps -> rc_sum ps = Z.of_nat (length (cpls_of ps)).
Proof.
  induction 1 as [|p ps Hp _ IH]; [done|]. unfold rc_sum in *. cbn. rewrite IH, Hp.
  rewrite length_app. unfold cpls_of. lia.
Qed.

Lemma times_preserves (I : world -> Prop) n m : preserves I m -> preserves I (times n m).
Proof.
  intros Hm. induction n as [|n IH]; cbn [times]; auto with py_inv.
Qed.

Lemma enter_waitdone_run w :
  enter_waitdone w = if reentry w then (Err AssertionError, w) else (Ok tt, set_reentry true w).
Proof. unfold enter_waitdone, get, mbind, M_bind. by destruct (reentry w). Qed.

(** Sending more AER commands touches the list of sent commands only. *)
Definition aer_frame (w0 w : world) : Prop :=
  reentry w = reentry w0 /\ admin_polls w = admin_polls w0 /\ io_polls w = io_polls w0
  /\ aer_waitdone w = aer_waitdone w0 /\ latest_cdw0 w = latest_cdw0 w0.

Lemma send_aer_frame n w0 : preserves (aer_frame w0) (times n send_aer).
Proof.
  apply times_preserves. unfold send_aer. apply preserves_bind; [apply preserves_lift|].
  intros c. apply preserves_modify. by intros w [].
Qed.

Lemma send_aer_frame_run n w r w' :
  times n send_aer w = (r, w') -> aer_frame w w'.
Proof.
  intros H. pose proof (send_aer_frame n w w) as Hf. rewrite H in Hf. by apply Hf.
Qed.

(** The outcome of [Controller.waitdone]: the flag is released whatever
    happens, and success means that enough commands have completed. *)
Definition waitdone_post (expected : Z) (w : world) (r : res Z) (w' : world) : Prop :=
  reentry w' = false
  /\ match r with
     | Ok _ => exists ps, admin_polls w = ps ++ admin_polls w' /\ expected <= count is_cmd (cpls_of ps)
     | Err _ => True
     end.

Lemma times_waitdone fuel :
  callbacks_ok ->
  (forall e w r w', reentry w = false -> honest (admin_polls w) ->
     waitdone fuel e w = (r, w') -> waitdone_post e w r w') ->
  forall n w r w', reentry w = false -> honest (admin_polls w) ->
    times n (_ ← waitdone fuel 1; mret tt) w = (r, w') ->
    waitdone_post (Z.of_nat n) w (match r with Ok _ => Ok 0 | Err e => Err e end) w'.
Proof.
  intros Hok IH n. induction n as [|n IHn]; intros w r w' Hr Hh; cbn [times].
  { intros [= <- <-]. split; [done|]. exists []. split; [done|]. cbn. unfold count. cbn. lia. }
  destruct (waitdone fuel 1 w) as [[v|e] w1] eqn:E.
  - rewrite (run_bind_ok _ _ _ tt w1) by (unfold mbind, M_bind; by rewrite E).
    destruct (IH _ _ _ _ Hr Hh E) as (Hr1 & ps & Hps & Hc).
    assert (Hh1 : honest (admin_polls w1)).
    { unfold honest in *. rewrite Hps in Hh. by apply Forall_app in Hh as [_ Hh]. }
    intros H. destruct (IHn _ _ _ Hr1 Hh1 H) as (Hr2 & H2). split; [done|].
    destruct r as [[]|e]; [|done]. destruct H2 as (qs & Hqs & Hcq).
    exists (ps ++ qs). split; [by rewrite Hps, Hqs, app_assoc|].
    rewrite cpls_of_app, count_app. lia.
  - rewrite (run_bind_err _ _ _ e w1) by (unfold mbind, M_bind; by rewrite E).
    intros [= <- <-]. split; [|done]. by destruct (IH _ _ _ _ Hr Hh E).
Qed.

Lemma alarm_positive : 0 < timeout_pynvme * 1000.
Proof. unfold timeout_pynvme, wrap. pose proof (Z.mod_pos_bound timeout (2 ^ 32) ltac:(lia)). divmod. Qed.

Lemma reap_admin_spec expected w r w' :
  callbacks_ok -> reentry w = true -> 0 < alarm w -> reap_admin expected w = (r, w') ->
  match r with
  | Ok n => exists ps, consumed admin_polls w ps w' /\ n = rc_sum ps /\ expected <= n
  | Err e => e = TimeoutError /\ reentry w' = false /\ alarm w' = 0
  end.
Proof.
  intros Hok Hr Ha H. unfold reap_admin in H.
  exact (reap_loop_spec _ _ _ _ _ _ _ _ admin_queue Hok Hr Ha (le_n _) H).
Qed.

Lemma waitdone_spec fuel :
  callbacks_ok -> forall e w r w', reentry w = false -> honest (admin_polls w) ->
  waitdone fuel e w = (r, w') -> waitdone_post e w r w'.
Proof.
  intros Hok. induction fuel as [|fuel IH]; intros e w r w' Hr Hh; cbn [waitdone].
  { intros [= <- <-]. by split. }
  rewrite (run_bind_ok _ _ _ tt (set_reentry true w)) by (rewrite enter_waitdone_run; by rewrite Hr).
  rewrite (run_bind_ok _ _ _ tt (set_aer 0 0 (set_reentry true w))) by done.
  set (w1 := set_alarm (timeout_pynvme * 1000) (set_aer 0 0 (set_reentry true w))).
  rewrite (run_bind_ok _ _ _ tt w1) by done.
  destruct (reap_admin e w1) as [rr w2] eqn:E.
  pose proof (reap_admin_spec e w1 rr w2 Hok eq_refl alarm_positive E) as Hspec.
  destruct rr as [n|x]; [|rewrite (run_bind_err _ _ _ _ _ E); intros [= <- <-]; by destruct Hspec as (_ & H & _)].
  rewrite (run_bind_ok _ _ _ _ _ E). destruct Hspec as (ps & Hc & Hn & Hge).
  rewrite (run_bind_ok _ _ _ tt (set_alarm 0 w2)) by done.
  rewrite py_assert_bind, (proj2 (Z.leb_le _ _)) by lia.
  set (w3 := set_reentry false (set_alarm 0 w2)). rewrite (run_bind_ok _ _ _ tt w3) by done. rewrite (run_bind_ok _ _ _ w3 w3) by done.
  destruct (times (Z.to_nat (aer_resend w3)) send_aer w3) as [[[]|x] w4] eqn:Es;
    destruct (send_aer_frame_run _ _ _ _ Es) as (F1 & F2 & F3 & F4 & F5).
  2:{ rewrite (run_bind_err _ _ _ _ _ Es). intros [= <- <-]. split; [|done]. by rewrite F1. }
  rewrite (run_bind_ok _ _ _ _ _ Es), (run_bind_ok _ _ _ w4 w4) by done.
  assert (Hpolls : admin_polls w = ps ++ admin_polls w4).
  { rewrite F2. exact (co_polls _ _ _ _ Hc). }
  assert (Haer : aer_waitdone w4 = count is_aer (cpls_of ps)).
  { rewrite F4. exact (co_aer _ _ _ _ Hc). }
  assert (Hh4 : honest (admin_polls w4) /\ honest ps).
  { unfold honest in *. rewrite Hpolls in Hh. by apply Forall_app in Hh as [??]. }
  destruct Hh4 as [Hh4 Hhps]. rewrite (honest_sum _ Hhps) in Hn.
  pose proof (count_split (cpls_of ps)) as Hsplit.
  destruct (Z.ltb_spec (n - e) (aer_waitdone w4)) as [Hlt|Hle].
  - set (k := Z.to_nat (aer_waitdone w4 - (n - e))).
    destruct (times k (_ ← waitdone fuel 1; mret tt) w4) as [rk w5] eqn:Ek.
    assert (Hr4 : reentry w4 = false) by (by rewrite F1).
    destruct (times_waitdone fuel Hok IH k w4 rk w5 Hr4 Hh4 Ek) as (Hr5 & H5).
    destruct rk as [[]|x]; [|rewrite (run_bind_err _ _ _ _ _ Ek); by intros [= <- <-]].
    rewrite (run_bind_ok _ _ _ _ _ Ek), (run_bind_ok _ _ _ w5 w5) by done.
    intros [= <- <-]. split; [done|]. destruct H5 as (qs & Hqs & Hcq).
    exists (ps ++ qs). split; [by rewrite Hpolls, Hqs, app_assoc|].
    rewrite cpls_of_app, count_app. lia.
  - rewrite bind_ret_l, (run_bind_ok _ _ _ w4 w4) by done. intros [= <- <-].
    split; [by rewrite F1|]. exists ps. split; [done|]. lia.
Qed.

(** Polls of at most one completion never give more than asked for. *)
Lemma reap_loop_exact fuel take put expected : forall reaped w n w',
  poll_queue take put -> callbacks_ok -> reentry w = true -> 0 < alarm w ->
  Forall (fun p => p_rc p <= 1) (take w) -> reaped <= expected ->
  reap_loop fuel take put expected reaped w = (Ok n, w') -> n = expected.
Proof.
  induction fuel as [|fuel IH]; intros reaped w n w' Hq Hok Hr Ha Hrc Hle; cbn [reap_loop];
    destruct (Z.ltb_spec reaped expected) as [Hlt|Hge]; try done; try (intros [= <- <-]; lia).
  destruct (reap_turn take put w Hq Hok Hr Ha) as (ps & rc & ms & w1 & Hrun & Hc & Hrc1 & Hturn).
  destruct (Z.leb_spec (alarm w) (Z.of_nat ms)) as [|Hgt]; [by rewrite (run_bind_err _ _ _ _ _ Hrun)|].
  rewrite (run_bind_ok _ _ _ _ _ Hrun). pose proof (co_polls _ _ _ _ Hc) as E.
  assert (rc <= 1 /\ Forall (fun p => p_rc p <= 1) (take w1)) as [H1 H2].
  { rewrite E in Hrc. apply Forall_app in Hrc as [Hp Hrc]. split; [|done]. rewrite Hrc1. clear -Hturn Hp.
    destruct (take w); [destruct Hturn as [-> _]; cbn; lia|destruct Hturn as (-> & _)].
    apply Forall_cons_1 in Hp as [Hp _]. unfold rc_sum. cbn. lia. }
  apply IH; [done|done|by rewrite <- Hr, <- (co_reentry _ _ _ _ Hc)|cbn; lia|by rewrite (pq_alarm_take _ _ Hq)|lia].
Qed.

(** Commands only: the last completion leaves its dword 0. *)
Definition last_cdw0 (w : world) (l : list completion) : Z :=
  default (latest_cdw0 w) (c_cdw0 <$> list.last l).

Lemma batch_latest l : forall w,
  callbacks_ok -> reentry w = true -> Forall (fun c => c_aer c = false) l ->
  latest_cdw0 (foldl complete w l) = last_cdw0 w l /\ aer_resend (foldl complete w l) = aer_resend w.
Proof.
  induction l as [|c l IH]; intros w Hok Hr Hl; [done|].
  apply Forall_cons_1 in Hl as [Hc Hl]. cbn [foldl].
  destruct (complete_globals c w Hok Hr) as (H1 & _ & _ & _ & _ & H5). destruct (H5 Hc) as [H6 H7].
  destruct (IH (complete w c) Hok H1 Hl) as [-> ->]. split; [|done].
  unfold last_cdw0. destruct l as [|c' l]; [done|].
  change (list.last (c :: c' :: l)) with (list.last (c' :: l)).
  destruct (list.last (c' :: l)) eqn:E; [done|]. by apply last_None in E.
Qed.

(** The milliseconds that polls take. *)
Definition ms_sum (ps : list poll) : Z := foldr (fun p s => Z.of_nat (p_ms p) + s) 0 ps.

Lemma ms_sum_nonneg ps : 0 <= ms_sum ps.
Proof. unfold ms_sum. induction ps; cbn; lia. Qed.

(** Just enough polls: before the alarm the loop uses exactly [ps]. *)
Record enough (reaped expected : Z) (ps : list poll) : Prop := {
  en_honest : honest ps;
  en_cmds : Forall (fun c => c_aer c = false) (cpls_of ps);
  en_total : expected <= reaped + rc_sum ps;
  en_minimal : forall qs p rs, ps = qs ++ p :: rs -> reaped + rc_sum qs < expected
}.

Lemma count_no_aer l : Forall (fun c => c_aer c = false) l -> count is_aer l = 0.
Proof.
  unfold count. induction 1 as [|c l Hc _ IH]; [done|]. cbn [List.filter]. unfold is_aer at 1. by rewrite Hc.
Qed.

Lemma enough_cons reaped expected p ps : enough reaped expected (p :: ps) ->
  reaped < expected /\ Forall (fun c => c_aer c = false) (p_cpls p) /\ enough (reaped + p_rc p) expected ps.
Proof.
  intros [Hh Hcm Htot Hmin]. pose proof (Hmin [] p ps eq_refl) as H0. change (rc_sum []) with 0 in H0.
  apply Forall_cons_1 in Hh as [_ Hh]. apply Forall_app in Hcm as [Hc1 Hcm]. split; [lia|]. split; [done|].
  split; try done; [unfold rc_sum in *; cbn in Htot; lia|]. intros qs q rs ->.
  pose proof (Hmin (p :: qs) q rs eq_refl). unfold rc_sum in *. cbn in *. lia.
Qed.

Lemma reap_loop_enough take put expected ps : forall fuel reaped w rest,
  poll_queue take put -> callbacks_ok -> reentry w = true -> ms_sum ps < alarm w ->
  take w = ps ++ rest -> (length ps <= fuel)%nat -> enough reaped expected ps ->
  exists w', reap_loop fuel take put expected reaped w = (Ok (reaped + rc_sum ps), w')
    /\ take w' = rest /\ latest_cdw0 w' = last_cdw0 w (cpls_of ps)
    /\ aer_resend w' = aer_resend w /\ aer_waitdone w' = aer_waitdone w.
Proof.
  induction ps as [|p ps IH]; intros fuel reaped w rest Hq Hok Hr Hal Hp Hf Hen.
  { exists w. pose proof (en_total _ _ _ Hen) as Htot. change (rc_sum []) with 0 in *.
    destruct fuel; cbn [reap_loop]; rewrite (proj2 (Z.ltb_ge _ _)), Z.add_0_r by lia; done. }
  destruct fuel as [|fuel]; [cbn in Hf; lia|]. cbn [reap_loop].
  destruct (enough_cons _ _ _ _ Hen) as (H0 & Hc1 & Hen'). rewrite (proj2 (Z.ltb_lt _ _)) by lia.
  pose proof (ms_sum_nonneg ps) as Hms. change (ms_sum (p :: ps)) with (Z.of_nat (p_ms p) + ms_sum ps) in Hal.
  destruct (reap_turn take put w Hq Hok Hr ltac:(lia)) as (ps' & rc & ms & w1 & Hrun & Hc & _ & Hturn).
  rewrite Hp in Hturn. destruct Hturn as (-> & -> & -> & Hw1).
  rewrite (proj2 (Z.leb_gt _ _)) in Hrun by lia. rewrite (run_bind_ok _ _ _ _ _ Hrun).
  assert (Hr0 : reentry (put (ps ++ rest) w) = true) by (by rewrite (pq_reentry _ _ Hq)).
  destruct (batch_latest _ _ Hok Hr0 Hc1) as [Hl1 Hs1]. rewrite <- Hw1 in Hl1, Hs1. clear Hw1.
  set (w2 := set_alarm (alarm w - Z.of_nat (p_ms p)) w1) in *.
  destruct (IH fuel (reaped + p_rc p) w2 rest) as (w' & Hw' & Ht & Hl & Hs & Ha); try done.
  - change (reentry w2) with (reentry w1). by rewrite (co_reentry _ _ _ _ Hc).
  - change (alarm w2) with (alarm w - Z.of_nat (p_ms p)). lia.
  - unfold w2. rewrite (pq_alarm_take _ _ Hq). pose proof (co_polls _ _ _ _ Hc) as E. rewrite Hp in E. by injection E.
  - cbn in Hf. lia.
  - exists w'. split_and!; [|done|..].
    + rewrite Hw'. unfold rc_sum. cbn. by rewrite Z.add_assoc.
    + rewrite Hl. unfold last_cdw0.
      change (cpls_of (p :: ps)) with (p_cpls p ++ cpls_of ps). rewrite last_app.
      destruct (list.last (cpls_of ps)); [done|]. cbn. rewrite Hl1. unfold last_cdw0.
      by rewrite (pq_latest _ _ Hq).
    + rewrite Hs. change (aer_resend w2) with (aer_resend w1). by rewrite Hs1, (pq_resend _ _ Hq).
    + rewrite Ha. change (aer_waitdone w2) with (aer_waitdone w1). rewrite (co_aer _ _ _ _ Hc). cbn.
      rewrite app_nil_r, count_no_aer by done. lia.
Qed.

(** No re-entry: while one [waitdone] is running, [Controller.waitdone] and
    [Qpair.waitdone] raise [AssertionError] and change nothing, so nothing is
    polled or sent; and a callback that calls [Controller.waitdone] ends in a
    warning, after which the completion is processed as if it had returned. *)
Theorem waitdone_guarded fuel expected w :
  reentry w = true ->
  waitdone (S fuel) expected w = (Err AssertionError, w)
  /\ qpair_waitdone expected w = (Err AssertionError, w)
  /\ forall c n f, c_func c = Some n -> funcs n = Some f ->
       (forall v, reentry v = true ->
          call1 f (cpl_tuple c) v = (_ ← waitdone (S fuel) expected; mret tt) v) ->
       cmd_cb c w = snd (check_status c (warn WAssert (set_latest (c_cdw0 c) w))).
Proof.
  intros Hr.
  assert (Hg : forall v, reentry v = true -> waitdone (S fuel) expected v = (Err AssertionError, v)).
  { intros v Hv. cbn [waitdone]. apply run_bind_err. rewrite enter_waitdone_run. by rewrite Hv. }
  split; [by apply Hg|]. split.
  - apply run_bind_err. rewrite enter_waitdone_run. by rewrite Hr.
  - intros c n f Hf Hn Hcall. unfold cmd_cb, unraisable.
    rewrite (run_bind_ok _ _ _ tt (set_latest (c_cdw0 c) w)) by done. rewrite Hf, Hn.
    assert (Hrun : run_callback f c (set_latest (c_cdw0 c) w)
      = (Ok tt, warn WAssert (set_latest (c_cdw0 c) w))).
    { unfold run_callback. rewrite Hcall by done. unfold mbind, M_bind. by rewrite Hg. }
    by rewrite (run_bind_ok _ _ _ _ _ Hrun).
Qed.

(** C27. What [Controller.waitdone] waits for: whatever completions come, AER
    notifications among them, when it returns at least [expected] completions
    of other commands have been processed, since it polls on for every command
    an AER completion stood in for; and however it ends, the re-entry flag is
    released, so that the next call can run. *)
Theorem waitdone_waits_for_commands fuel expected w r w' :
  callbacks_ok -> reentry w = false -> honest (admin_polls w) ->
  waitdone fuel expected w = (r, w') ->
  reentry w' = false
  /\ forall v, r = Ok v ->
       exists ps, admin_polls w = ps ++ admin_polls w' /\ expected <= count is_cmd (cpls_of ps).
Proof.
  intros Hok Hr Hh H. destruct (waitdone_spec fuel Hok expected w r w' Hr Hh H) as [H1 H2].
  split; [done|]. by intros v ->.
Qed.

(** C28. [Controller.waitdone] returns: if polls without AER completions reap
    the expected number before the alarm that it arms, it returns the dword 0 of
    the last completion processed, having used exactly those polls, with the
    alarm off; and if all that is left to complete is less than expected, it
    does not wait for ever: the alarm fires and it raises [TimeoutError]. *)
Theorem waitdone_returns fuel expected w ps rest :
  callbacks_ok -> reentry w = false -> admin_polls w = ps ++ rest -> enough 0 expected ps ->
  ms_sum ps < timeout_pynvme * 1000 ->
  (exists w', waitdone (S fuel) expected w = (Ok (last_cdw0 w (cpls_of ps)), w')
     /\ admin_polls w' = rest /\ reentry w' = false /\ alarm w' = 0)
  /\ (forall few, honest few -> rc_sum few < expected ->
        exists w', waitdone (S fuel) expected (set_admin few w) = (Err TimeoutError, w')
          /\ reentry w' = false /\ alarm w' = 0).
Proof.
  intros Hok Hr Hp Hen Hms. split; cbn [waitdone].
  - rewrite (run_bind_ok _ _ _ tt (set_reentry true w)) by (rewrite enter_waitdone_run; by rewrite Hr).
    rewrite (run_bind_ok _ _ _ tt (set_aer 0 0 (set_reentry true w))) by done.
    set (w1 := set_alarm (timeout_pynvme * 1000) (set_aer 0 0 (set_reentry true w))).
    rewrite (run_bind_ok _ _ _ tt w1) by done.
    destruct (reap_loop_enough admin_polls set_admin expected ps (loop_fuel (ps ++ rest) w1) 0 w1 rest
      admin_queue Hok eq_refl Hms Hp) as (w2 & Hl & Ht & Hlat & Hs & Ha);
      [unfold loop_fuel; rewrite length_app; lia|done|].
    assert (Hreap : reap_admin expected w1 = (Ok (0 + rc_sum ps), w2)).
    { unfold reap_admin. change (admin_polls w1) with (admin_polls w). by rewrite Hp. }
    rewrite (run_bind_ok _ _ _ _ _ Hreap). pose proof (en_total _ _ _ Hen) as Htot.
    rewrite (run_bind_ok _ _ _ tt (set_alarm 0 w2)) by done.
    rewrite py_assert_bind, (proj2 (Z.leb_le _ _)) by lia.
    set (w3 := set_reentry false (set_alarm 0 w2)).
    rewrite (run_bind_ok _ _ _ tt w3), (run_bind_ok _ _ _ w3 w3) by done.
    change (aer_resend w3) with (aer_resend w2). rewrite Hs.
    change (Z.to_nat (aer_resend w1)) with O. cbn [times]. rewrite bind_ret_l.
    rewrite (run_bind_ok _ _ _ w3 w3) by done.
    change (aer_waitdone w3) with (aer_waitdone w2). rewrite Ha. change (aer_waitdone w1) with 0.
    rewrite (proj2 (Z.ltb_ge _ _)) by lia. rewrite bind_ret_l.
    exists w3. rewrite (run_bind_ok _ _ _ w3 w3) by done. split_and!; [|done..].
    unfold mret, M_ret. change (latest_cdw0 w3) with (latest_cdw0 w2). by rewrite Hlat.
  - intros few Hf Hlt. set (w0 := set_admin few w).
    rewrite (run_bind_ok _ _ _ tt (set_reentry true w0)) by (rewrite enter_waitdone_run; cbn; by rewrite Hr).
    rewrite (run_bind_ok _ _ _ tt (set_aer 0 0 (set_reentry true w0))) by done.
    set (w1 := set_alarm (timeout_pynvme * 1000) (set_aer 0 0 (set_reentry true w0))).
    rewrite (run_bind_ok _ _ _ tt w1) by done. destruct (reap_admin expected w1) as [r w2] eqn:E.
    destruct r as [n|x]; pose proof (reap_admin_spec expected w1 _ w2 Hok eq_refl alarm_positive E) as H; cbn in H.
    + destruct H as (qs & Hc & -> & Hge). pose proof (co_polls _ _ _ _ Hc) as Hq.
      change (admin_polls w1) with few in Hq. rewrite Hq in Hf, Hlt. apply Forall_app in Hf as [_ Hf].
      rewrite rc_sum_app, (honest_sum (admin_polls w2)) in Hlt by done. lia.
    + destruct H as (-> & H1 & H2). rewrite (run_bind_err _ _ _ _ _ E). by exists w2.
Qed.

(** [Qpair.waitdone] is exact: as long as the C library reaps at most one
    completion per poll (it is called with that maximum), the call returns
    only when exactly [expected] commands have completed, the only other
    outcome is [TimeoutError], and both release the flag.  Should a poll ever
    overshoot, the call raises [AssertionError] with the flag still set, after
    which every [waitdone] fails. *)
Theorem qpair_waitdone_exact expected w r w' :
  callbacks_ok -> reentry w = false -> 0 <= expected -> honest (io_polls w) ->
  qpair_waitdone expected w = (r, w') ->
  (Forall (fun p => p_rc p <= 1) (io_polls w) ->
     reentry w' = false
     /\ match r with
        | Ok _ => exists ps, io_polls w = ps ++ io_polls w'
                    /\ Z.of_nat (length (cpls_of ps)) = expected
        | Err e => e = TimeoutError
        end)
  /\ (r = Err AssertionError ->
      reentry w' = true /\ forall n, qpair_waitdone n w' = (Err AssertionError, w')).
Proof.
  intros Hok Hr He Hh. unfold qpair_waitdone.
  rewrite (run_bind_ok _ _ _ tt (set_reentry true w)) by (rewrite enter_waitdone_run; by rewrite Hr).
  set (w1 := set_alarm (timeout_pynvme * 1000) (set_reentry true w)). rewrite (run_bind_ok _ _ _ tt w1) by done.
  destruct (reap_io expected w1) as [rr w2] eqn:E.
  pose proof (reap_loop_spec _ _ _ _ _ _ _ _ io_queue Hok (eq_refl : reentry w1 = true) alarm_positive (le_n _) E) as Hspec.
  destruct rr as [n|x].
  2:{ rewrite (run_bind_err _ _ _ _ _ E). intros [= <- <-]. by destruct Hspec as (-> & -> & _). }
  rewrite (run_bind_ok _ _ _ _ _ E), (run_bind_ok _ _ _ tt (set_alarm 0 w2)), py_assert_bind by done. destruct Hspec as (ps & Hc & Hn & Hge).
  assert (Hps : honest ps).
  { unfold honest in *. pose proof (co_polls _ _ _ _ Hc) as Hp. change (io_polls w1) with (io_polls w) in Hp.
    rewrite Hp in Hh. by apply Forall_app in Hh as [??]. }
  destruct (Z.eqb_spec n expected) as [->|Hne].
  - intros [= <- <-]. split; [|done]. intros _. split; [done|]. exists ps.
    split; [exact (co_polls _ _ _ _ Hc)|]. rewrite <- (honest_sum _ Hps). lia.
  - intros [= <- <-]. split.
    + intros Hrc. exfalso. apply Hne.
      exact (reap_loop_exact _ _ _ _ _ _ _ _ io_queue Hok (eq_refl : reentry w1 = true) alarm_positive Hrc He E).
    + intros _. assert (Hr2 : reentry (set_alarm 0 w2) = true) by (cbn; rewrite (co_reentry _ _ _ _ Hc); done).
      split; [done|]. intros m. apply run_bind_err. rewrite enter_waitdone_run. by rewrite Hr2.
Qed.

(** The status word decoded as the specification lays it out: a phase bit, 8
    bits of status code, 3 bits of status code type. *)
Definition checked (c : completion) (w : world) : world :=
  if cpl_is_error (c_status1 c)
  then warn (WStatus (c_status1 c / 2 ^ 9 mod 8) (c_status1 c / 2 mod 256)) w else w.

Lemma check_status_run c w : check_status c w = (Ok tt, checked c w).
Proof.
  unfold check_status, checked, status_sc, status_sct.
  rewrite land_7, land_255, !shiftr_div by lia. by destruct (cpl_is_error _).
Qed.

(** A completion as its four dwords. *)
Definition dwords (c : completion) : list Z :=
  [c_cdw0 c; c_rsvd1 c; c_sqid c * 2 ^ 16 + c_sqhead c; c_status1 c * 2 ^ 16 + c_cid c].

Lemma cpl_tuple_dwords c :
  0 <= c_sqid c < 2 ^ 16 -> 0 <= c_sqhead c < 2 ^ 16 -> 0 <= c_status1 c < 2 ^ 16 ->
  0 <= c_cid c < 2 ^ 16 -> cpl_tuple c = dwords c.
Proof.
  intros H1 H2 H3 H4. unfold cpl_tuple, dwords, wrap. rewrite !shiftl_mul by lia.
  revert H1 H2 H3 H4. eval_pow. intros. rewrite !(Z.mod_small (_ * 65536)) by lia.
  by rewrite !Z.mod_small by lia.
Qed.

(** Callback conventions: a callback that accepts the tuple gets the four
    dwords of the completion and nothing more; one that raises [TypeError] on
    it is called again with dword 0 and the status word; an assertion that
    fails in either form is reported as a warning; then an error status of the
    command is reported with its status code type and status code; any other
    exception is dropped together with that report. *)
Theorem callback_conventions c n f w :
  c_func c = Some n -> funcs n = Some f ->
  0 <= c_sqid c < 2 ^ 16 -> 0 <= c_sqhead c < 2 ^ 16 -> 0 <= c_status1 c < 2 ^ 16 ->
  0 <= c_cid c < 2 ^ 16 ->
  let w0 := set_latest (c_cdw0 c) w in
  cmd_cb c w =
    match call1 f (dwords c) w0 with
    | (Ok _, w1) => checked c w1
    | (Err AssertionError, w1) => checked c (warn WAssert w1)
    | (Err TypeError, w1) =>
        match call2 f (c_cdw0 c) (c_status1 c) w1 with
        | (Ok _, w2) => checked c w2
        | (Err AssertionError, w2) => checked c (warn WAssert w2)
        | (Err TypeError, w2) => checked c (warn WCallback w2)
        | (Err _, w2) => w2
        end
    | (Err _, w1) => w1
    end.
Proof.
  intros Hf Hn H1 H2 H3 H4 w0. rewrite <- (cpl_tuple_dwords c H1 H2 H3 H4).
  unfold cmd_cb, unraisable. rewrite (run_bind_ok _ _ _ tt w0) by done. rewrite Hf, Hn.
  unfold mbind, M_bind, run_callback.
  destruct (call1 f (cpl_tuple c) w0) as [[[]|e] w1]; [by rewrite check_status_run|].
  destruct e; rewrite ?check_status_run; try done.
  destruct (call2 f (c_cdw0 c) (c_status1 c) w1) as [[[]|e] w2]; [by rewrite check_status_run|].
  destruct e; by rewrite ?check_status_run.
Qed.
End Completion.

(** ** Witnesses *)
Definition log_cdw0 (v : Z) : M (world (U := list Z)) unit :=
  modify (fun w => mk_world (latest_cdw0 w) (reentry w) (alarm w) (aer_resend w) (aer_waitdone w)
    (admin_polls w) (io_polls w) (warned w) (sent w) (user w ++ [v])).

(** A new-style callback, and an old-style one. *)
Definition example_new : pyfunc := mk_pyfunc
  (fun l => log_cdw0 (nth 0 l 0)) (fun _ _ => raise TypeError).
Definition example_old : pyfunc := mk_pyfunc (fun _ => raise TypeError) (fun cdw0 _ => log_cdw0 cdw0).

Definition never_error (_ : Z) : bool := false.

(** Callback 0 calls [waitdone] itself. *)
Definition example_funcs (n : nat) : option (pyfunc (U := list Z)) :=
  match n with
  | 0%nat => Some (mk_pyfunc
      (fun _ => _ ← waitdone (fun _ => None) never_error accept 10000 5 1; mret tt) (fun _ _ => mret tt))
  | 1%nat => Some example_new
  | 2%nat => Some example_old
  | _ => None
  end.

Definition example_world (flag : bool) (admin io : list poll) : world (U := list Z) :=
  mk_world 0 flag 0 0 0 admin io [] [] [].

Definition cmd_done (cdw0 : Z) (f : option nat) : completion := mk_completion cdw0 0 1 0 5 0 f false.
Definition aer_done : completion := mk_completion 0x10002 0 1 0 9 0 None true.

Lemma reentrant_call funcs (w : world (U := list Z)) :
  reentry w = true ->
  (_ ← waitdone funcs never_error accept 10000 5 1; mret tt) w = (Err AssertionError, w).
Proof.
  intros Hr. unfold mbind, M_bind. cbn [waitdone].
  rewrite (run_bind_err _ _ _ AssertionError w)
    by (rewrite enter_waitdone_run; by rewrite Hr). done.
Qed.

Lemma example_callbacks_ok : callbacks_ok example_funcs.
Proof.
  intros [|[|[|n]]] f [= <-]; split; intros; intros w Hr; try (by split).
  pose proof (reentrant_call (fun _ => None) w Hr) as E. 
  exact (eq_ind_r (fun x => same_globals w (snd x))
    (same_globals_refl w : same_globals w (snd (Err AssertionError : res unit, w))) E).
Qed.

(** The callback that calls [waitdone] inside a completion. *)
Lemma waitdone_guarded_witness :
  cmd_cb example_funcs never_error (cmd_done 7 (Some 0%nat)) (example_world true [] [])
  = warn WAssert (set_latest 7 (example_world true [] [])).
Proof.
  refine (proj2 (proj2 (waitdone_guarded example_funcs never_error accept 10000 4 1
    (example_world true [] []) eq_refl)) (cmd_done 7 (Some 0%nat)) 0%nat _ eq_refl eq_refl _).
  intros v Hv. etrans; [exact (reentrant_call (fun _ => None) v Hv)|].
  symmetry. exact (reentrant_call example_funcs v Hv).
Defined.

(** An AER notification arrives before the command: two polls are used. *)
Definition aer_polls : list poll :=
  [mk_poll [aer_done] 1 3; mk_poll [cmd_done 7 (Some 1%nat)] 1 3].

Lemma waitdone_waits_for_commands_witness :
  exists ps, aer_polls = ps ++ [] /\ 1 <= count is_cmd (cpls_of ps).
Proof.
  refine (proj2 (waitdone_waits_for_commands example_funcs never_error accept 10000 9 1
    (example_world false aer_polls []) _
    (snd (waitdone example_funcs never_error accept 10000 9 1 (example_world false aer_polls [])))
    example_callbacks_ok eq_refl _ (surjective_pairing _)) 7 _).
  - each (reflexivity).
  - vm_compute. reflexivity.
Defined.

Definition cmd_polls : list poll :=
  [mk_poll [] 0 2; mk_poll [cmd_done 7 (Some 1%nat); cmd_done 8 (Some 2%nat)] 2 3].

Lemma cmd_polls_enough : enough 0 2 cmd_polls.
Proof.
  split.
  - each (reflexivity).
  - each (reflexivity).
  - done.
  - intros [|q [|q' [|q'' qs]]] p rs H; try done; cbv in H; injection H; intros; subst; done.
Qed.

Lemma waitdone_returns_witness :
  (exists w', waitdone example_funcs never_error accept 10000 1 2 (example_world false (cmd_polls ++ aer_polls) [])
              = (Ok 8, w') /\ admin_polls w' = aer_polls /\ reentry w' = false /\ alarm w' = 0)
  /\ exists w', waitdone example_funcs never_error accept 10000 1 2 (example_world false [mk_poll [] 0 2] [])
                = (Err TimeoutError, w') /\ reentry w' = false /\ alarm w' = 0.
Proof.
  destruct (waitdone_returns example_funcs never_error accept 10000 0 2
    (example_world false (cmd_polls ++ aer_polls) []) cmd_polls aer_polls
    example_callbacks_ok eq_refl eq_refl cmd_polls_enough eq_refl) as [H1 H2].
  split; [exact H1|]. apply (H2 [mk_poll [] 0 2]); [each (reflexivity)|reflexivity].
Defined.

Definition io_example : list poll := [mk_poll [] 0 2; mk_poll [cmd_done 3 None] 1 3].

Lemma qpair_waitdone_exact_witness :
  exists ps, io_example = ps ++ [] /\ Z.of_nat (length (cpls_of ps)) = 1.
Proof.
  refine (proj2 (proj1 (qpair_waitdone_exact example_funcs never_error 10000 1
    (example_world false [] io_example) (Ok 3)
    (snd (qpair_waitdone example_funcs never_error 10000 1 (example_world false [] io_example)))
    example_callbacks_ok eq_refl _ _ _) _)).
  - lia.
  - each (reflexivity).
  - vm_compute. reflexivity.
  - each (done).
Defined.

Lemma callback_conventions_witness :
  user (cmd_cb example_funcs never_error (cmd_done 8 (Some 2%nat)) (example_world true [] [])) = [8].
Proof.
  rewrite (callback_conventions example_funcs never_error (cmd_done 8 (Some 2%nat)) 2 example_old
    (example_world true [] []) eq_refl eq_refl); [reflexivity|cbn; lia..].
Defined.
