(* ===== verification/Controller.v ===== *)
(** * Controller: registers, initialisation and firmware download

    [class Controller] of src/src/driver_wrap.pyx without the command methods
    (Command.v) and [waitdone] (Completion.v): register access, [_nvme_init],
    [id_data], [mdts], [supports], [downfw] and the timeout setting.  The
    device and the C driver behind it are a state [H] with arguments for the
    register transport, the clock, the admin queue set-up and the execution of
    a command, which includes waiting for it.  Every action on the device is
    recorded in a trace, so that theorems can speak of their order. *)
From Stdlib Require Import ZArith Lia.
From stdpp Require Import base list numbers option.
From S2P Require Import Prelude PyInt Buffer Command.
Local Open Scope Z_scope.

(** What the device sees, and the notes the code makes. *)
Inductive event :=
  | EvRead (a v : Z) | EvWrite (a v : Z)
  | EvAdminq (rc : Z) | EvNs (rc : Z) | EvQueues (cdw0 : Z)
  | EvCmd (c : spdk_cmd) (data : list Z)
  | EvSleep | EvWarn.

(** ** Buffers and firmware chunks *)
Definition cmd_bytes (c : spdk_cmd) (buf : option buffer) : list Z :=
  match cmd_data c, buf with Some (o, n), Some b => sub_list o n (b_ptr b) | _, _ => [] end.

(** The chunk size; a name of its own keeps the number out of proofs. *)
Definition page : nat := Z.to_nat 4096.

Lemma page_eq : Z.of_nat page = 4096.
Proof. reflexivity. Qed.
#[local] Opaque page.

Definition fw_cmd (i : Z) : spdk_cmd :=
  nvme_send_cmd_raw false 0x11 0 (Some (0, 4096)) 1023 (1024 * i) 0 0 0 0.


Lemma list_inserts_front (c l : list Z) :
  (length c <= length l)%nat -> list_inserts 0 c l = c ++ drop (length c) l.
Proof.
  intros Hl. apply list_eq. intros j. destruct (decide (j < length c)%nat).
  - rewrite lookup_app_l by lia. rewrite list_lookup_inserts by lia. f_equal. lia.
  - rewrite lookup_app_r, lookup_drop, list_lookup_inserts_ge by lia. f_equal. lia.
Qed.

(** A 4 KiB buffer at offset 0, all of it given to commands. *)
Record page_buffer (b : buffer) : Prop := {
  pb_wf : buffer_wf b; pb_size : b_size b = 4096; pb_prp : b_prp_size b = 4096;
  pb_offset : b_offset b = 0
}.

Lemma page_store b chunk :
  page_buffer b -> (length chunk <= page)%nat -> Forall is_byte chunk ->
  let b' := with_ptr (chunk ++ drop (length chunk) (b_ptr b)) b in
  setitem (ISlice (mk_slice None None None)) (ASeq chunk) b = (Ok tt, b') /\ page_buffer b'.
Proof.
  pose proof page_eq as Hpage.
  intros [Hwf Hs Hp Ho] Hl Hb. cbv zeta. pose proof (wf_len _ Hwf) as Hlen.
  rewrite <- list_inserts_front by lia. split.
  - cbn [setitem]. rewrite setitem_slice_run by done. cbn [s_start from_option id].
    f_equal. unfold store_result. rewrite Hs. destruct chunk; [done|]. by zbool.
  - split; [by apply with_ptr_wf_inserts|exact Hs|exact Hp|exact Ho].
Qed.

Lemma fw_download_page submit b i :
  (forall c, submit c = 0) ->
  page_buffer b -> 0 <= i -> 1024 * i < 2 ^ 32 ->
  fw_download submit (Some b) (4096 * i) None = Ok (fw_cmd i)
  /\ cmd_bytes (fw_cmd i) (Some b) = b_ptr b.
Proof.
  pose proof page_eq as Hpage.
  intros submit_ok [Hwf Hs Hp Ho] Hi Hlt. split.
  - unfold fw_download, size_or_len, py_len, buffer_len. rewrite Hs. mrun.
    change (Z.shiftr 4096 2 - 1) with 1023.
    replace (Z.shiftr (4096 * i) 2) with (1024 * i)
      by (rewrite shiftr_div by lia; eval_pow; divmod).
    unfold send_admin_raw. rewrite send_raw_ok; [|apply submit_ok|u32_all].
    unfold buf_data. by rewrite Ho, Hp.
  - unfold cmd_bytes. cbn [cmd_data fw_cmd nvme_send_cmd_raw]. unfold sub_list.
    rewrite drop_0. apply take_ge. pose proof (wf_len _ Hwf). lia.
Qed.

Lemma Forall_concat_inv (P : Z -> Prop) (ls : list (list Z)) :
  Forall P (concat ls) -> Forall (Forall P) ls.
Proof.
  induction ls as [|l ls IH]; intros Hl; [constructor|].
  cbn [concat] in Hl. apply Forall_app in Hl as [H1 H2]. constructor; [done|by apply IH].
Qed.

Section Controller.
Context {H : Type}.
Variable reg_read : Z -> H -> Z * H.          (* nvme_get_reg32 *)
Variable reg_read64 : Z -> H -> Z * H.        (* nvme_get_reg64 *)
Variable reg_write : Z -> Z -> H -> H.        (* nvme_set_reg32 *)
Variable clock : H -> Z * H.                  (* time.time(), in milliseconds *)
Variable sleep : H -> H.                      (* time.sleep(1) *)
Variable set_adminq : H -> Z * H.             (* nvme_set_adminq *)
Variable set_ns : H -> Z * H.                 (* nvme_set_ns *)
Variable set_queues : Z -> H -> H.            (* driver_init_num_queues *)
Variable submit : spdk_cmd -> Z.              (* SPDK's return code *)
(** Sending a command with its data and waiting for it: dword 0 of its
    completion and the bytes it puts into the buffer. *)
Variable exec : spdk_cmd -> list Z -> H -> res (Z * option (list Z)) * H.
(** A buffer of the given size, zeroed. *)
Variable new_buffer : Z -> buffer.

Record ctrl := mk_ctrl { hw : H; c_timeout : Z; trace : list event }.

Definition on_hw {A} (f : H -> A * H) (ev : A -> list event) : M ctrl A := fun s =>
  let '(a, h) := f (hw s) in
  (Ok a, mk_ctrl h (c_timeout s) (trace s ++ ev a)).

(** ** Registers *)
Definition reg_get (index : Z) : M ctrl Z :=
  py_assert (index mod 4 =? 0) ;;
  index ← lift (to_uint 32 index);
  value ← on_hw (reg_read index) (fun v => [EvRead index v]);
  if value =? 0xffffffff then raise SystemError else mret value.

Definition reg_set (index value : Z) : M ctrl unit :=
  py_assert (index mod 4 =? 0) ;;
  index ← lift (to_uint 32 index);
  value ← lift (to_uint 32 value);
  on_hw (fun h => (tt, reg_write index value h)) (fun _ => [EvWrite index value]).

#[export] Instance controller_mmio : Mmio ctrl.
Proof.
  refine {| mmio_get := reg_get; mmio_set := reg_set |}.
  - intros a s Ha. unfold reg_get. by rewrite py_assert_bind, (proj2 (Z.eqb_neq _ _) Ha).
  - intros a v s Ha. unfold reg_set. by rewrite py_assert_bind, (proj2 (Z.eqb_neq _ _) Ha).
Defined.

Definition cap : M ctrl Z := on_hw (reg_read64 0) (fun _ => []).

(** ** Commands and their completion *)
(** [self.cmd(buf, ...).waitdone()]: dword 0, and the buffer afterwards. *)
Definition sync (c : res spdk_cmd) (buf : option buffer) : M ctrl (Z * option buffer) :=
  c ← lift c;
  r ← on_hw (exec c (cmd_bytes c buf)) (fun _ => [EvCmd c (cmd_bytes c buf)]);
  r ← lift r;
  mret (fst r, match buf, snd r with
               | Some b, Some l => Some (with_ptr (list_inserts (Z.to_nat (b_offset b)) l (b_ptr b)) b)
               | b, _ => b
               end).

Definition send (c : res spdk_cmd) : M ctrl unit :=
  c ← lift c; on_hw (fun h => (tt, h)) (fun _ => [EvCmd c []]).

(** ** _nvme_init *)

(** [while not (nvme0[0x1c] & mask) == want: if time.time()-t > timeout: raise e] *)
Fixpoint wait_csts (mask want : Z) (e : pyexc) (fuel : nat) (t timeout : Z) : M ctrl unit :=
  match fuel with
  | O => raise OutOfFuel
  | S fuel' =>
      v ← reg_get 0x1c;
      if Z.land v mask =? want then mret tt
      else
        now ← on_hw clock (fun _ => []);
        if timeout <? now - t then raise e
        else wait_csts mask want e fuel' t timeout
  end.

Definition wait_rdy (fuel : nat) (want t timeout : Z) : M ctrl unit :=
  wait_csts 1 want NvmeEnumerateError fuel t timeout.

Definition init_identify : M ctrl unit :=
  let b := Some (new_buffer 4096) in
  _ ← sync (identify submit b 0 1 0 0 0) b; mret tt.

Definition init_ns : M ctrl Z := on_hw set_ns (fun rc => [EvNs rc]).

(** Steps 7 to 9: the namespaces with one retry, the queues, the first AER. *)
Definition init_namespaces : M ctrl unit :=
  init_identify ;;
  rc ← init_ns;
  if rc <? 0 then
    on_hw (fun h => (tt, h)) (fun _ => [EvWarn]) ;;
    on_hw (fun h => (tt, sleep h)) (fun _ => [EvSleep]) ;;
    init_identify ;;
    rc ← init_ns;
    if rc <? 0 then raise NvmeEnumerateError else mret tt
  else mret tt.

Definition init_num_queues : M ctrl unit :=
  _ ← sync (setfeatures submit 0x7 0 None 0xfffefffe 0 0 0 0) None;
  r ← sync (getfeatures submit 0x7 0 None 0 0 0 0 0) None;
  cdw0 ← lift (to_uint 32 (fst r));
  on_hw (fun h => (tt, set_queues cdw0 h)) (fun _ => [EvQueues cdw0]).

(** The default process.  Times are in milliseconds: CAP.TO counts half
    seconds. *)
Definition default_init (fuel : nat) : M ctrl unit :=
  cap ← cap;
  let timeout := Z.land (Z.shiftr cap 24) 0xff * 500 in
  reg_set 0x14 0 ;;
  t ← on_hw clock (fun _ => []);
  wait_rdy fuel 0 t timeout ;;
  rc ← on_hw set_adminq (fun rc => [EvAdminq rc]);
  (if negb (rc =? 0) then raise NvmeEnumerateError else mret tt) ;;
  reg_set 0x14 0x00460000 ;;
  reg_set 0x14 0x00460001 ;;
  t ← on_hw clock (fun _ => []);
  wait_rdy fuel 1 t timeout ;;
  init_namespaces ;;
  init_num_queues ;;
  send (aer_cmd submit).

(** [nvme_init_func]: [True], [None] or a callable. *)
Inductive init_func := InitSkip | InitDefault | InitUser (f : M ctrl unit).

Definition nvme_init (fuel : nat) (f : init_func) : M ctrl unit :=
  match f with
  | InitSkip => raise AssertionError
  | InitUser f => f
  | InitDefault => default_init fuel
  end.

(** [Controller.__cinit__], past the type checks: [port] is 0 for PCIe. *)
Definition controller_cinit (fuel : nat) (port : Z) (f : init_func) : M ctrl unit :=
  modify (fun s => mk_ctrl (hw s) 10000 (trace s)) ;;
  if port =? 0 then match f with InitSkip => mret tt | _ => nvme_init fuel f end else mret tt.

(** ** Identify data *)
Definition id_data (byte_end : Z) (byte_begin : option Z) (nsid cns cntid csi nvmsetid : Z)
    : M ctrl Z :=
  let b := Some (new_buffer 4096) in
  r ← sync (identify submit b nsid cns cntid csi nvmsetid) b;
  match snd r with
  | Some b => lift (fst (data_int byte_end byte_begin b))
  | None => raise TypeError
  end.

(** Maximum data transfer size in bytes. *)
Definition mdts : M ctrl Z :=
  let max_size := 1 * 1024 * 1024 in
  v ← reg_get 4;
  let page_size := Z.shiftl 1 (12 + Z.land (Z.shiftr v 16) 0xf) in
  mdts_shift ← id_data 77 None 0 1 0 0 0;
  if negb (mdts_shift =? 0) then mret (Z.min (page_size * Z.shiftl 1 mdts_shift) max_size)
  else mret max_size.

Definition supports (opcode : Z) : M ctrl bool :=
  py_assert (opcode <? 256 * 2) ;;
  let b := Some (new_buffer 4096) in
  r ← sync (getlogpage submit 5 b None 0 0xffffffff) b;
  match snd r with
  | Some b => v ← lift (fst (data_int (opcode * 4) None b)); mret (negb (Z.land v 1 =? 0))
  | None => raise TypeError
  end.

(** ** The timeout of commands *)
Definition timeout_get : M ctrl Z := gets c_timeout.
Definition timeout_set (msec : Z) : M ctrl unit :=
  msec ← lift (to_uint 32 msec);
  modify (fun s => mk_ctrl (hw s) msec (trace s)).

(** The seconds the driver waits for a command: more than the drive's own. *)
Definition timeout_pynvme (s : ctrl) : Z := c_timeout s / 1000 + 20.

(** ** Firmware download *)

(** [iter(lambda: f.read(4096), b'')] *)
Fixpoint read_chunks (fuel : nat) (content : list Z) : list (list Z) :=
  match fuel, content with
  | O, _ | _, [] => []
  | S fuel', _ => take page content :: read_chunks fuel' (drop page content)
  end.

(** The loop: [buf[:] = chunk] and one download command, the buffer reused. *)
Fixpoint downfw_loop (chunks : list (Z * list Z)) (buf : buffer) : M ctrl unit :=
  match chunks with
  | [] => mret tt
  | (i, chunk) :: chunks' =>
      let '(r, buf) := setitem (ISlice (mk_slice None None None)) (ASeq chunk) buf in
      lift r ;;
      r ← sync (fw_download submit (Some buf) (4096 * i) None) (Some buf);
      downfw_loop chunks' (default buf (snd r))
  end.

Definition downfw (content : list Z) (slot action : Z) : M ctrl unit :=
  downfw_loop (enumerate (read_chunks (S (length content)) content)) (new_buffer 4096) ;;
  _ ← sync (fw_commit submit slot action) None;
  mret tt.

(** ** What an action adds to the trace *)
Definition extends {A} (P : event -> Prop) (m : M ctrl A) : Prop :=
  forall s r s', m s = (r, s') -> exists evs, trace s' = trace s ++ evs /\ Forall P evs.

Lemma extends_ret {A} P (a : A) : extends P (mret a).
Proof. intros s r s' [= <- <-]. exists []. by rewrite app_nil_r. Qed.
Lemma extends_raise {A} P e : extends P (raise e : M ctrl A).
Proof. intros s r s' [= <- <-]. exists []. by rewrite app_nil_r. Qed.
Lemma extends_lift {A} P (x : res A) : extends P (lift x).
Proof. intros s r s' [= <- <-]. exists []. by rewrite app_nil_r. Qed.
Lemma extends_assert P b : extends P (py_assert b).
Proof. destruct b; [apply extends_ret|apply extends_raise]. Qed.
Lemma extends_bind {A B} P (m : M ctrl A) (k : A -> M ctrl B) :
  extends P m -> (forall a, extends P (k a)) -> extends P (m ≫= k).
Proof.
  intros Hm Hk s r s' E. unfold mbind, M_bind in E. destruct (m s) as [[a|e] s1] eqn:E1.
  - destruct (Hm _ _ _ E1) as (e1 & H1 & P1). destruct (Hk a _ _ _ E) as (e2 & H2 & P2).
    exists (e1 ++ e2). rewrite H2, H1, app_assoc. split; [done|]. by apply Forall_app.
  - injection E as <- <-. by apply (Hm _ _ _ E1).
Qed.
Lemma extends_if {A} P (b : bool) (m1 m2 : M ctrl A) :
  extends P m1 -> extends P m2 -> extends P (if b then m1 else m2).
Proof. by destruct b. Qed.
Lemma extends_on_hw {A} P (f : H -> A * H) (ev : A -> list event) :
  (forall a, Forall P (ev a)) -> extends P (on_hw f ev).
Proof.
  intros Hp s r s' E. unfold on_hw in E. destruct (f (hw s)) as [a h]. injection E as <- <-.
  by exists (ev a).
Qed.

Definition is_read (e : event) : Prop := match e with EvRead _ _ => True | _ => False end.
(** Commands and driver calls: neither a register access nor the admin queue. *)
Definition is_action (e : event) : Prop :=
  match e with EvRead _ _ | EvWrite _ _ | EvAdminq _ => False | _ => True end.

Lemma extends_send c : extends is_action (send c).
Proof.
  apply extends_bind; [apply extends_lift|]. intros a. apply extends_on_hw. intros _.
  each done.
Qed.

Lemma extends_sync c buf : extends is_action (sync c buf).
Proof.
  apply extends_bind; [apply extends_lift|]. intros a.
  apply extends_bind; [|intros r; apply extends_bind; [apply extends_lift|intros; apply extends_ret]].
  apply extends_on_hw. intros _. each done.
Qed.

Lemma extends_init_identify : extends is_action init_identify.
Proof. apply extends_bind; [apply extends_sync|]. intros. apply extends_ret. Qed.

Lemma extends_init_ns : extends is_action init_ns.
Proof. apply extends_on_hw. intros rc. each done. Qed.

Lemma extends_init_namespaces : extends is_action init_namespaces.
Proof.
  apply extends_bind; [apply extends_init_identify|intros _].
  apply extends_bind; [apply extends_init_ns|intros rc].
  apply extends_if; [|apply extends_ret].
  apply extends_bind; [apply extends_on_hw; intros _; each done|intros _].
  apply extends_bind; [apply extends_on_hw; intros _; each done|intros _].
  apply extends_bind; [apply extends_init_identify|intros _].
  apply extends_bind; [apply extends_init_ns|intros rc2].
  apply extends_if; [apply extends_raise|apply extends_ret].
Qed.

Lemma extends_init_num_queues : extends is_action init_num_queues.
Proof.
  apply extends_bind; [apply extends_sync|intros _].
  apply extends_bind; [apply extends_sync|intros r].
  apply extends_bind; [apply extends_lift|intros cdw0].
  apply extends_on_hw. intros _. each done.
Qed.

(** ** Register accesses *)
Lemma reg_get_run index s :
  index mod 4 = 0 -> 0 <= index < 2 ^ 32 ->
  reg_get index s =
    let '(v, h) := reg_read index (hw s) in
    (if v =? 0xffffffff then Err SystemError else Ok v,
     mk_ctrl h (c_timeout s) (trace s ++ [EvRead index v])).
Proof.
  intros Hm Hi. unfold reg_get. rewrite py_assert_bind, Hm. cbn [Z.eqb].
  rewrite to_uint_ok by done. rewrite (run_bind_ok _ _ _ index s) by done.
  unfold mbind, M_bind, on_hw. destruct (reg_read index (hw s)) as [v h].
  by destruct (v =? 0xffffffff).
Qed.

Lemma reg_set_run index v s :
  index mod 4 = 0 -> 0 <= index < 2 ^ 32 -> 0 <= v < 2 ^ 32 ->
  reg_set index v s =
    (Ok tt, mk_ctrl (reg_write index v (hw s)) (c_timeout s) (trace s ++ [EvWrite index v])).
Proof.
  intros Hm Hi Hv. unfold reg_set. rewrite py_assert_bind, Hm. cbn [Z.eqb].
  rewrite (to_uint_ok 32 index), (to_uint_ok 32 v) by done. reflexivity.
Qed.

(** A run of CSTS reads that ends with the wanted bits. *)
Definition csts_polls (mask want : Z) (evs : list event) : Prop :=
  exists vs v, evs = (EvRead 0x1c <$> vs) ++ [EvRead 0x1c v]
    /\ Forall (fun u => Z.land u mask <> want) vs /\ Z.land v mask = want.

Definition rdy_polls : Z -> list event -> Prop := csts_polls 1.

Lemma wait_csts_ok mask want e fuel t timeout : forall s s',
  wait_csts mask want e fuel t timeout s = (Ok tt, s') ->
  exists evs, trace s' = trace s ++ evs /\ csts_polls mask want evs.
Proof.
  induction fuel as [|fuel IH]; intros s s' E; [done|]. cbn [wait_csts] in E.
  unfold mbind at 1, M_bind at 1 in E. rewrite reg_get_run in E by done.
  destruct (reg_read 28 (hw s)) as [v h]. destruct (v =? 0xffffffff); [done|].
  destruct (Z.eqb_spec (Z.land v mask) want) as [Hw|Hw].
  - injection E as <-. exists [EvRead 0x1c v]. split; [done|]. by exists [], v.
  - unfold mbind, M_bind, on_hw in E. cbn [hw] in E. destruct (clock h) as [now h'].
    cbn [c_timeout trace] in E. destruct (timeout <? now - t); [done|].
    destruct (IH _ _ E) as (evs & Ht & vs & u & -> & Hvs & Hu). cbn [trace] in Ht.
    rewrite app_nil_r in Ht. exists (EvRead 0x1c v :: (EvRead 0x1c <$> vs) ++ [EvRead 0x1c u]).
    split; [by rewrite Ht, <- app_assoc|]. exists (v :: vs), u. split; [done|].
    split; [by apply List.Forall_cons|done].
Qed.

Lemma wait_csts_reads mask want e fuel t timeout : extends is_read (wait_csts mask want e fuel t timeout).
Proof.
  induction fuel as [|fuel IH]; cbn [wait_csts]; [apply extends_raise|].
  apply extends_bind.
  - apply extends_bind; [apply extends_assert|intros _].
    apply extends_bind; [apply extends_lift|intros i].
    apply extends_bind; [apply extends_on_hw; intros v; each done|intros v].
    apply extends_if; [apply extends_raise|apply extends_ret].
  - intros v. apply extends_if; [apply extends_ret|].
    apply extends_bind; [apply extends_on_hw; intros; each done|intros now].
    apply extends_if; [apply extends_raise|apply IH].
Qed.

Lemma bind_inv {A B} (m : M ctrl A) (k : A -> M ctrl B) s r s' :
  (m ≫= k) s = (Ok r, s') -> exists a s1, m s = (Ok a, s1) /\ k a s1 = (Ok r, s').
Proof. apply run_bind_inv. Qed.

(** ** Initialisation *)

(** C31. The order of the NVMe start-up: when the default process succeeds, the
    device has seen exactly this.  CC is cleared; CSTS is read until RDY is 0;
    only then are the admin queue registers set, CC configured and EN set;
    CSTS is read until RDY is 1; and only after that come commands and
    namespace set-up, the last being an Asynchronous Event Request. *)
Theorem init_order fuel s s' :
  default_init fuel s = (Ok tt, s') ->
  exists polls0 polls1 actions c,
    trace s' = trace s ++ [EvWrite 0x14 0] ++ polls0
               ++ [EvAdminq 0; EvWrite 0x14 0x00460000; EvWrite 0x14 0x00460001] ++ polls1
               ++ actions ++ [EvCmd c []]
    /\ rdy_polls 0 polls0 /\ rdy_polls 1 polls1 /\ Forall is_action actions /\ opc c = 0xc.
Proof.
  intros E. unfold default_init in E.
  apply bind_inv in E as (vcap & s1 & E1 & E). unfold cap, on_hw in E1.
  destruct (reg_read64 0 (hw s)) as [w h1]. injection E1 as <- <-.
  apply bind_inv in E as ([] & s2 & E2 & E). rewrite reg_set_run in E2 by done. injection E2 as <-.
  apply bind_inv in E as (t0 & s3 & E3 & E). unfold on_hw in E3. destruct (clock _) as [now h3].
  injection E3 as <- <-.
  apply bind_inv in E as ([] & s4 & E4 & E).
  destruct (wait_csts_ok _ _ _ _ _ _ _ _ E4) as (polls0 & T4 & P0).
  apply bind_inv in E as (rc & s5 & E5 & E). unfold on_hw in E5. destruct (set_adminq _) as [rc' h5].
  injection E5 as <- <-.
  apply bind_inv in E as ([] & s6 & E6 & E).
  destruct (Z.eqb_spec rc' 0) as [->|]; [|done]. injection E6 as <-.
  apply bind_inv in E as ([] & s7 & E7 & E). rewrite reg_set_run in E7 by done. injection E7 as <-.
  apply bind_inv in E as ([] & s8 & E8 & E). rewrite reg_set_run in E8 by done. injection E8 as <-.
  apply bind_inv in E as (t1 & s9 & E9 & E). unfold on_hw in E9. destruct (clock _) as [now1 h9].
  injection E9 as <- <-.
  apply bind_inv in E as ([] & s10 & E10 & E).
  destruct (wait_csts_ok _ _ _ _ _ _ _ _ E10) as (polls1 & T10 & P1).
  apply bind_inv in E as ([] & s11 & E11 & E).
  destruct (extends_init_namespaces _ _ _ E11) as (a1 & T11 & A1).
  apply bind_inv in E as ([] & s12 & E12 & E).
  destruct (extends_init_num_queues _ _ _ E12) as (a2 & T12 & A2).
  unfold send in E. apply bind_inv in E as (c & s13 & E13 & E).
  unfold lift in E13. injection E13 as Hc <-. injection E as <-.
  exists polls0, polls1, (a1 ++ a2), c. split_and!; try done.
  - cbn [trace] in *. rewrite T12, T11, T10, T4. rewrite !app_nil_r, <- !app_assoc. done.
  - by apply Forall_app.
  - unfold aer_cmd, send_admin_raw in Hc. apply send_raw_fields in Hc as (_ & Hd & _).
    unfold opc. by rewrite Hd.
Qed.

(** ** The waits are bounded *)
Section Clock.
(** A turn of the loop reads CSTS and then the clock; [reading n h] is what the
    clock gives in turn [n] from [h] on. *)
Definition turn (h : H) : H := snd (clock (snd (reg_read 0x1c h))).
Definition reading (n : nat) (h : H) : Z := fst (clock (snd (reg_read 0x1c (Nat.iter n turn h)))).

(** Time goes on: the clock passes every point, however many readings of it are
    alike before. *)
Hypothesis clock_passes : forall h d, exists n, d < reading n h.

Lemma iter_turn n h : Nat.iter n turn (turn h) = turn (Nat.iter n turn h).
Proof. induction n as [|n IH]; [done|]. exact (f_equal turn IH). Qed.

Lemma reading_0 h : reading 0 h = fst (clock (snd (reg_read 0x1c h))).
Proof. done. Qed.

Lemma reading_S n h : reading (S n) h = reading n (turn h).
Proof. unfold reading. by rewrite iter_turn. Qed.

(** The first turn in which the clock is past [d]. *)
Definition first_past (d : Z) (h : H) (n : nat) : Prop :=
  d < reading n h /\ forall k, (k < n)%nat -> reading k h <= d.

Lemma clock_first_past h d : exists n, first_past d h n.
Proof.
  destruct (clock_passes h d) as [n Hn]. revert h Hn. induction n as [|n IH]; intros h Hn.
  - exists 0%nat. split; [done|lia].
  - destruct (Z.ltb_spec d (reading 0 h)) as [H0|H0]; [exists 0%nat; split; [done|lia]|].
    rewrite reading_S in Hn. destruct (IH _ Hn) as (m & Hm & Hk). exists (S m). split; [by rewrite reading_S|].
    intros [|k] Hlt; [done|]. rewrite reading_S. apply Hk. lia.
Qed.

Lemma wait_csts_step mask want e fuel t timeout s :
  exists h v, reg_read 0x1c (hw s) = (v, h) /\
  let s1 := mk_ctrl h (c_timeout s) (trace s ++ [EvRead 0x1c v]) in
  wait_csts mask want e (S fuel) t timeout s =
    if v =? 0xffffffff then (Err SystemError, s1)
    else if Z.land v mask =? want then (Ok tt, s1)
    else
      let s2 := mk_ctrl (snd (clock h)) (c_timeout s) (trace s ++ [EvRead 0x1c v]) in
      if timeout <? fst (clock h) - t then (Err e, s2)
      else wait_csts mask want e fuel t timeout s2.
Proof.
  cbn [wait_csts]. destruct (reg_read 28 (hw s)) as [v h] eqn:Er. exists h, v. split; [done|].
  unfold mbind at 1, M_bind at 1. rewrite reg_get_run by done. rewrite Er.
  destruct (v =? 0xffffffff); [done|]. destruct (Z.land v mask =? want); [done|].
  unfold mbind, M_bind, on_hw. cbn [hw c_timeout trace].
  destruct (clock h) as [n h'] eqn:Ec. cbn [fst snd]. rewrite app_nil_r.
  by destruct (timeout <? n - t).
Qed.

Lemma wait_csts_bounded mask want e t timeout n : e <> OutOfFuel -> forall fuel s,
  timeout + t < reading n (hw s) -> (n < fuel)%nat ->
  fst (wait_csts mask want e fuel t timeout s) <> Err OutOfFuel.
Proof.
  intros He. induction n as [|n IH]; intros [|fuel] s Hn Hf; try lia;
    destruct (wait_csts_step mask want e fuel t timeout s) as (h & v & Hr & ->); cbv zeta;
    (destruct (v =? 0xffffffff); [done|]); (destruct (Z.land v mask =? want); [done|]).
  - rewrite reading_0, Hr in Hn. cbn [snd] in Hn.
    rewrite (proj2 (Z.ltb_lt _ _)) by lia. by intros [= ?].
  - destruct (timeout <? _); [by intros [= ?]|]. apply IH; [|lia]. rewrite reading_S in Hn.
    unfold turn in Hn. by rewrite Hr in Hn.
Qed.

(** The wanted bits never come: the wait ends with its error at the first
    reading of the clock past the deadline. *)
Lemma wait_csts_stuck mask want e t timeout n : forall fuel s,
  (forall h, fst (reg_read 0x1c h) <> 0xffffffff /\ Z.land (fst (reg_read 0x1c h)) mask <> want) ->
  first_past (timeout + t) (hw s) n -> (n < fuel)%nat ->
  exists s' evs, wait_csts mask want e fuel t timeout s = (Err e, s')
    /\ trace s' = trace s ++ evs /\ Forall is_read evs /\ length evs = S n.
Proof.
  induction n as [|n IH]; intros [|fuel] s Hs [Hn Hk] Hf; try lia;
    destruct (wait_csts_step mask want e fuel t timeout s) as (h & v & Hr & ->); cbv zeta;
    pose proof (Hs (hw s)) as [H1 H2]; rewrite Hr in H1, H2; cbn [fst] in H1, H2;
    rewrite (proj2 (Z.eqb_neq _ _) H1), (proj2 (Z.eqb_neq _ _) H2).
  - rewrite reading_0, Hr in Hn. cbn [snd] in Hn.
    rewrite (proj2 (Z.ltb_lt _ _)) by lia. do 2 eexists. split; [reflexivity|]. split; [reflexivity|].
    split; [repeat constructor|done].
  - pose proof (Hk 0%nat ltac:(lia)) as H0. rewrite reading_0, Hr in H0. cbn [snd] in H0.
    rewrite (proj2 (Z.ltb_ge _ _)) by lia.
    destruct (IH fuel (mk_ctrl (snd (clock h)) (c_timeout s) (trace s ++ [EvRead 28 v])) Hs) as (s' & evs & -> & Ht & He & Hl); [|lia|].
    { cbn [hw]. assert (Et : turn (hw s) = snd (clock h)) by (unfold turn; by rewrite Hr). rewrite <- Et.
      split; [by rewrite <- reading_S|]. intros k Hlt. rewrite <- reading_S. apply Hk. lia. }
    exists s', (EvRead 28 v :: evs). split; [done|]. cbn [trace] in Ht. split; [by rewrite Ht, <- app_assoc|].
    split; [by constructor|]. cbn. by rewrite Hl.
Qed.

(** C32. A controller that does not come out of reset, on a clock that gets
    past every point in time, however fast the loop reads it: each wait for RDY
    ends, in the first turn in which the clock is past its deadline if not
    before, so the loop never runs on; and if RDY stays set after CC is
    cleared, the start-up raises [NvmeEnumerateError] in the first turn more
    than CAP.TO half seconds after the wait began, and not before, having only
    read CSTS since then: the admin queue is not touched and EN is not set. *)
Theorem init_wait_bounded s :
  (forall want t v s1, exists n, first_past (Z.land v 0xff * 500 + t) (hw s1) n
     /\ forall fuel, (n < fuel)%nat -> fst (wait_rdy fuel want t (Z.land v 0xff * 500) s1) <> Err OutOfFuel)
  /\ ((forall h, fst (reg_read 0x1c h) <> 0xffffffff /\ Z.land (fst (reg_read 0x1c h)) 1 = 1) ->
      let '(v, h1) := reg_read64 0 (hw s) in
      let '(t, h2) := clock (reg_write 0x14 0 h1) in
      exists n, first_past (Z.land (Z.shiftr v 24) 0xff * 500 + t) h2 n
        /\ forall fuel, (n < fuel)%nat -> exists s' evs, default_init fuel s = (Err NvmeEnumerateError, s')
             /\ trace s' = trace s ++ [EvWrite 0x14 0] ++ evs /\ Forall is_read evs /\ length evs = S n).
Proof.
  split.
  - intros want t v s1. destruct (clock_first_past (hw s1) (Z.land v 0xff * 500 + t)) as [n Hn].
    exists n. split; [done|]. intros fuel Hf. apply (wait_csts_bounded _ _ _ _ _ n); [done|by destruct Hn|done].
  - intros Hs. destruct (reg_read64 0 (hw s)) as [v h1] eqn:E1. destruct (clock (reg_write 20 0 h1)) as [t h2] eqn:E2.
    destruct (clock_first_past h2 (Z.land (Z.shiftr v 24) 0xff * 500 + t)) as [n Hn].
    exists n. split; [done|]. intros fuel Hf. unfold default_init. unfold cap.
    erewrite run_bind_ok by (unfold on_hw; rewrite E1; reflexivity).
    erewrite run_bind_ok by (apply reg_set_run; done). cbn [hw c_timeout trace].
    erewrite run_bind_ok by (unfold on_hw; cbn [hw]; rewrite E2; reflexivity).
    cbn [c_timeout trace]. set (s3 := mk_ctrl _ _ _).
    destruct (wait_csts_stuck 1 0 NvmeEnumerateError t (Z.land (Z.shiftr v 24) 0xff * 500) n fuel s3)
      as (s4 & evs & E4 & Ht & Hr & Hl); [|done|done|].
    { intros h. destruct (Hs h) as [H1 ->]. done. }
    rewrite (run_bind_err _ _ _ _ _ E4). exists s4, evs. split; [done|]. split; [|done].
    rewrite Ht. unfold s3. cbn [trace]. by rewrite !app_nil_r, <- app_assoc.
Qed.
End Clock.

(** ** Firmware download *)

(** What the device gets: each chunk over the contents of the one before. *)
Fixpoint images (prev : list Z) (chunks : list (list Z)) : list (list Z) :=
  match chunks with
  | [] => []
  | c :: cs => let d := c ++ drop (length c) prev in d :: images d cs
  end.

Fixpoint fw_events (i : Z) (datas : list (list Z)) : list event :=
  match datas with [] => [] | d :: ds => EvCmd (fw_cmd i) d :: fw_events (i + 1) ds end.

Section Download.
Hypothesis submit_ok : forall c, submit c = 0.
Hypothesis exec_ok : forall c d h, exists v h', exec c d h = (Ok (v, None), h').

Lemma sync_ok c buf s :
  exists v s', sync (Ok c) buf s = (Ok (v, buf), s')
    /\ trace s' = trace s ++ [EvCmd c (cmd_bytes c buf)].
Proof.
  destruct (exec_ok c (cmd_bytes c buf) (hw s)) as (v & h' & E).
  exists v. eexists. unfold sync, lift, on_hw, mbind, M_bind. rewrite E. split; [by destruct buf|done].
Qed.

Lemma downfw_loop_run chunks : forall i b s,
  page_buffer b -> 0 <= i -> 1024 * (i + Z.of_nat (length chunks)) < 2 ^ 32 ->
  Forall (fun c => (length c <= page)%nat /\ Forall is_byte c) chunks ->
  exists s', downfw_loop (enumerate_from i chunks) b s = (Ok tt, s')
    /\ trace s' = trace s ++ fw_events i (images (b_ptr b) chunks).
Proof.
  induction chunks as [|c cs IH]; intros i b s Hb Hi Hlt Hall.
  { exists s. by rewrite app_nil_r. }
  apply Forall_cons_1 in Hall as [[Hc Hby] Hall]. cbn [length] in Hlt.
  destruct (page_store b c Hb Hc Hby) as [Hst Hb'].
  set (b' := with_ptr (c ++ drop (length c) (b_ptr b)) b) in *.
  destruct (fw_download_page submit b' i submit_ok Hb' Hi ltac:(lia)) as [Hcmd Hdat].
  destruct (sync_ok (fw_cmd i) (Some b') s) as (v & s1 & Hs1 & Ht1).
  destruct (IH (i + 1) b' s1 Hb' ltac:(lia) ltac:(lia) Hall) as (s2 & Hs2 & Ht2).
  exists s2. split.
  - cbn [enumerate_from downfw_loop]. rewrite Hst.
    rewrite (run_bind_ok _ _ _ tt s) by done. rewrite Hcmd, (run_bind_ok _ _ _ _ _ Hs1). done.
  - rewrite Ht2, Ht1, Hdat, <- app_assoc. done.
Qed.

Lemma read_chunks_spec fuel content :
  (length content < fuel)%nat ->
  concat (read_chunks fuel content) = content
  /\ Forall (fun c => (length c <= page)%nat) (read_chunks fuel content)
  /\ (length (read_chunks fuel content) <= length content)%nat.
Proof.
  pose proof page_eq as Hpage.
  revert content. induction fuel as [|fuel IH]; intros content Hf; [lia|].
  cbn [read_chunks]. destruct content as [|x content]; [done|].
  assert (Hd : (length (drop page (x :: content)) < fuel)%nat)
    by (rewrite length_drop; cbn [length] in *; lia).
  destruct (IH _ Hd) as (H1 & H2 & H3). split_and!.
  - cbn [concat]. rewrite H1. apply take_drop.
  - apply List.Forall_cons; [rewrite length_take; lia|done].
  - rewrite length_drop in H3. cbn [length] in *. lia.
Qed.

Lemma images_content fuel : forall content prev,
  (length content < fuel)%nat -> length prev = page ->
  take (length content) (concat (images prev (read_chunks fuel content))) = content
  /\ Forall (fun d => length d = page) (images prev (read_chunks fuel content)).
Proof.
  pose proof page_eq as Hpage.
  induction fuel as [|fuel IH]; intros content prev Hf Hp; [lia|].
  destruct content as [|x content']; [done|].
  set (content := x :: content') in *. change (read_chunks (S fuel) content)
    with (take page content :: read_chunks fuel (drop page content)).
  cbn [images concat]. set (d := take page content ++ drop (length (take page content)) prev).
  assert (Hd : length d = page).
  { unfold d. rewrite length_app, length_drop, length_take. lia. }
  assert (Hfd : (length (drop page content) < fuel)%nat)
    by (rewrite length_drop; unfold content in *; cbn [length] in *; lia).
  destruct (IH (drop page content) d Hfd Hd) as [H1 H2].
  split; [|by apply List.Forall_cons].
  destruct (decide (page <= length content)%nat) as [Hge|Hlt].
  - assert (E : d = take page content).
    { unfold d. rewrite length_take_le by lia. rewrite drop_ge by lia. apply app_nil_r. }
    rewrite take_app. rewrite Hd, (take_ge d) by lia. rewrite E at 1.
    rewrite length_drop in H1. rewrite H1. apply take_drop.
  - rewrite (drop_ge content) by lia. replace (read_chunks fuel []) with (@nil (list Z)) by by destruct fuel.
    cbn [images concat]. rewrite app_nil_r. unfold d. rewrite (take_ge content) by lia.
    by rewrite take_app_length.
Qed.

(** What [downfw] sends: for an image of bytes below 4 GiB and a device
    that takes every command, the device gets Firmware Image Download commands
    for 4 KiB each at consecutive offsets, whose data put together starts with
    exactly the image, and then one Firmware Commit with the given slot and
    action.  The last command is always 4 KiB too: the bytes past the image
    are those of the chunk before, not zeros. *)
Theorem downfw_sends_image content slot action s :
  page_buffer (new_buffer 4096) -> Forall is_byte content ->
  1024 * Z.of_nat (length content) < 2 ^ 32 -> 0 <= slot < 8 -> 0 <= action < 8 ->
  let datas := images (b_ptr (new_buffer 4096)) (read_chunks (S (length content)) content) in
  (exists s' c, downfw content slot action s = (Ok tt, s')
     /\ trace s' = trace s ++ fw_events 0 datas ++ [EvCmd c []]
     /\ opc c = 0x10 /\ cdw10 c = 8 * action + slot)
  /\ Forall (fun d => length d = page) datas
  /\ take (length content) (concat datas) = content
  /\ (4096 < Z.of_nat (length content) <= 8192 ->
      nth 1 datas [] = drop page content ++ drop (length content - 4096) (take page content)).
Proof using submit_ok exec_ok.
  pose proof page_eq as Hpage.
  intros Hb Hby Hlen Hslot Hact datas.
  pose proof (wf_len _ (pb_wf _ Hb)) as Hpl. rewrite (pb_size _ Hb) in Hpl.
  destruct (images_content (S (length content)) content (b_ptr (new_buffer 4096)))
    as [Hc1 Hc2]; [lia..|].
  destruct (read_chunks_spec (S (length content)) content) as (Hr1 & Hr2 & Hr3); [lia|].
  split; [|split; [done|split; [done|]]].
  - assert (Hall : Forall (fun c => (length c <= page)%nat /\ Forall is_byte c)
      (read_chunks (S (length content)) content)).
    { apply Forall_and; [done|]. apply Forall_concat_inv. by rewrite Hr1. }
    destruct (downfw_loop_run (read_chunks (S (length content)) content) 0 (new_buffer 4096) s Hb)
      as (s1 & Hs1 & Ht1); [lia|lia|done|].
    assert (Hcommit : exists c, fw_commit submit slot action = Ok c /\ opc c = 0x10
      /\ cdw10 c = 8 * action + slot /\ cmd_data c = None).
    { exists (nvme_send_cmd_raw false 0x10 0 None (Z.shiftl action 3 + slot) 0 0 0 0 0).
      assert (Hsh : Z.shiftl action 3 = action * 8) by (rewrite shiftl_mul by lia; lia).
      split.
      - unfold fw_commit, check. zbool. mrun. unfold send_admin_raw.
        apply send_raw_ok; [apply submit_ok|]. rewrite Hsh. each (eval_pow; lia).
      - unfold cdw10, dword. cbn [nth cmd_dwords nvme_send_cmd_raw]. rewrite Hsh.
        split_and!; try done. lia. }
    destruct Hcommit as (c & Hc & Hopc & Hcdw & Hdata).
    destruct (sync_ok c None s1) as (v & s2 & Hs2 & Ht2).
    exists s2, c. unfold downfw. rewrite Hc.
    rewrite (run_bind_ok _ _ _ _ _ Hs1), (run_bind_ok _ _ _ _ _ Hs2).
    split; [done|]. split; [|done]. rewrite Ht2, Ht1, <- app_assoc.
    unfold cmd_bytes. by rewrite Hdata.
  - intros Hl. unfold datas. destruct (length content) as [|n] eqn:En; [lia|].
    destruct content as [|x content']; [done|]. set (content := x :: content') in *.
    change (read_chunks (S (S n)) content)
      with (take page content :: read_chunks (S n) (drop page content)).
    destruct (drop page content) as [|y ys] eqn:Ed.
    { apply (f_equal length) in Ed. rewrite length_drop, En in Ed. cbn [length] in Ed. lia. }
    change (read_chunks (S n) (y :: ys)) with (take page (y :: ys) :: read_chunks n (drop page (y :: ys))).
    rewrite <- Ed. cbn [images nth].
    rewrite (take_ge (drop page content)) by (rewrite length_drop, En; lia).
    rewrite (length_take_le content) by lia. rewrite (drop_ge (b_ptr _)) by lia.
    rewrite app_nil_r, length_drop, En. done.
Qed.
End Download.
End Controller.

(** ** Witnesses *)

(** A device whose RDY follows CC.EN: the time and the value of CC. *)
Definition ex_read (a : Z) (h : Z * Z) : Z * (Z * Z) :=
  (if a =? 0x1c then snd h mod 2 else 0x28030fff, h).
Definition ex_read64 (a : Z) (h : Z * Z) : Z * (Z * Z) := (0x28030fff, h).
Definition ex_write (a v : Z) (h : Z * Z) : Z * Z := if a =? 0x14 then (fst h, v) else h.
Definition ex_clock (h : Z * Z) : Z * (Z * Z) := (fst h, (fst h + 1, snd h)).
Definition ex_zero (h : Z * Z) : Z * (Z * Z) := (0, h).
Definition ex_exec (c : spdk_cmd) (d : list Z) (h : Z * Z) : res (Z * option (list Z)) * (Z * Z) :=
  (Ok (0, None), h).
Definition ex_ctrl : ctrl (H := Z * Z) := mk_ctrl (0, 1) 10000 [].
Definition ex_init (fuel : nat) : res unit * ctrl :=
  default_init ex_read ex_read64 ex_write ex_clock (fun h => h) ex_zero ex_zero (fun _ h => h)
    accept ex_exec example_buffer fuel ex_ctrl.

Lemma init_order_witness :
  exists polls0 polls1 actions c,
    trace (snd (ex_init 3)) = [] ++ [EvWrite 0x14 0] ++ polls0
               ++ [EvAdminq 0; EvWrite 0x14 0x00460000; EvWrite 0x14 0x00460001] ++ polls1
               ++ actions ++ [EvCmd c []]
    /\ rdy_polls 0 polls0 /\ rdy_polls 1 polls1 /\ Forall is_action actions /\ opc c = 0xc.
Proof.
  apply (init_order ex_read ex_read64 ex_write ex_clock (fun h => h) ex_zero ex_zero
    (fun _ h => h) accept ex_exec example_buffer 3 ex_ctrl).
  vm_compute. reflexivity.
Defined.

(** RDY never clears. *)
Definition ex_stuck (a : Z) (h : Z * Z) : Z * (Z * Z) := (1, h).

Lemma ex_clock_passes rd : (forall a h, fst (snd (rd a h)) = fst h) -> forall h d, exists n, d < reading rd ex_clock n h.
Proof.
  intros Hrd h d. assert (Hn : forall n h, reading rd ex_clock n h = fst h + Z.of_nat n).
  { induction n as [|n IH]; intros h'; [unfold reading; cbn; rewrite Hrd; lia|].
    rewrite reading_S, IH. unfold turn. cbn. rewrite Hrd. lia. }
  exists (Z.to_nat (d - fst h + 1)). rewrite Hn. lia.
Qed.

Lemma init_wait_bounded_witness :
  exists n s' evs, first_past ex_stuck ex_clock 20000 (1, 0) n
    /\ default_init ex_stuck ex_read64 ex_write ex_clock (fun h => h) ex_zero ex_zero (fun _ h => h)
         accept ex_exec example_buffer (S n) ex_ctrl = (Err NvmeEnumerateError, s')
    /\ trace s' = [] ++ [EvWrite 0x14 0] ++ evs /\ Forall is_read evs /\ length evs = S n.
Proof.
  assert (Hs : forall h, fst (ex_stuck 0x1c h) <> 0xffffffff /\ Z.land (fst (ex_stuck 0x1c h)) 1 = 1) by (intros h; done).
  destruct (proj2 (init_wait_bounded ex_stuck ex_read64 ex_write ex_clock (fun h => h) ex_zero
    ex_zero (fun _ h => h) accept ex_exec example_buffer (ex_clock_passes ex_stuck (fun a h => eq_refl)) ex_ctrl) Hs) as (n & Hn & Hrun).
  destruct (Hrun (S n)) as (s' & evs & H1 & H2 & H3); [lia|]. by exists n, s', evs.
Defined.

Lemma example_page : page_buffer (example_buffer 4096).
Proof. split; [apply example_buffer_wf; lia|done..]. Qed.

Lemma downfw_sends_image_witness :
  exists s' c, downfw (H := Z * Z) accept ex_exec example_buffer [1; 2; 3] 2 1 ex_ctrl = (Ok tt, s')
    /\ trace s' = trace ex_ctrl
         ++ fw_events 0 (images (b_ptr (example_buffer 4096)) (read_chunks 4 [1; 2; 3]))
         ++ [EvCmd c []]
    /\ opc c = 0x10 /\ cdw10 c = 8 * 1 + 2.
Proof.
  refine (proj1 (downfw_sends_image accept ex_exec example_buffer (fun _ => eq_refl) _
    [1; 2; 3] 2 1 ex_ctrl example_page _ _ _ _)).
  - intros c d h. by exists 0, h.
  - each (unfold is_byte; lia).
  - cbn; lia.
  - lia.
  - lia.
Defined.
