(* ===== verification/Subsystem.v ===== *)
(** * Subsystem: power control, shutdown and reset of the subsystem

    [class Subsystem] of src/src/driver_wrap.pyx: it drives the registers of
    its controller (Controller.v) and the flows of the PCIe function in the host
    (Pcie.v).  One trace holds what both do, in order, with the sleeps and the
    suspension of the host.  The callbacks of the user and the output of
    /sys/power/mem_sleep are arguments. *)
From Stdlib Require Import ZArith Lia ZifyBool.
From stdpp Require Import base list numbers option strings.
From S2P Require Import Prelude PyInt Buffer Command Pcie Controller.
Local Open Scope Z_scope.

Inductive sevent :=
  | SCtrl (e : Controller.event)      (* registers and commands *)
  | SHost (e : Pcie.event)            (* the host's files and the driver *)
  | SSleepUs (us : Z)                 (* time.sleep *)
  | SSuspend (sec : Z)                (* rtcwake -m mem -s sec *)
  | SWarn.

Section Power.
Context {H : Type}.
Variable reg_read : Z -> H -> Z * H.
Variable reg_read64 : Z -> H -> Z * H.
Variable reg_write : Z -> Z -> H -> H.
Variable clock : H -> Z * H.
Variable sleep_us : Z -> H -> H.
Variable submit : spdk_cmd -> Z.
Variable exec : spdk_cmd -> list Z -> H -> res (Z * option (list Z)) * H.
Variable new_buffer : Z -> buffer.
Variable no_secondary exists_file : nat -> bool.
Variable memory_enough : bool.
Variables bdf vdid : string.
(** Whether "deep" is among the states the kernel offers; an exception when the
    command that reads them fails. *)
Variable mem_sleep : res bool.

Record sub := mk_sub { s_ctrl : ctrl (H := H); s_host : host; s_trace : list sevent }.

(** An action of the controller or of the host; what it adds to its own trace
    goes into the common one. *)
Definition on_ctrl {A} (m : M (ctrl (H := H)) A) : M sub A := fun s =>
  let '(r, c) := m (mk_ctrl (hw (s_ctrl s)) (c_timeout (s_ctrl s)) []) in
  (r, mk_sub c (s_host s) (s_trace s ++ (SCtrl <$> trace c))).

Definition on_host {A} (m : M host A) : M sub A := fun s =>
  let h := s_host s in
  let '(r, h') := m (mk_host (h_config h) (h_polls h) (h_stats h) []) in
  (r, mk_sub (s_ctrl s) h' (s_trace s ++ (SHost <$> rev (h_trace h')))).

Definition note (e : sevent) : M sub unit :=
  modify (fun s => mk_sub (s_ctrl s) (s_host s) (s_trace s ++ [e])).

Definition detach : M host unit :=
  driver_cleanup no_secondary memory_enough ;;
  bind_driver exists_file bdf vdid None ;;
  remove_device bdf ;;
  mret tt.

Definition attach : M host unit :=
  rescan exists_file ;;
  bind_driver exists_file bdf vdid (Some "uio_pci_generic"%string).

(** ** Power *)

(** The result is [None] where the code returns nothing. *)
Definition power_cycle (sec : Z) : M sub (option bool) :=
  deep ← lift mem_sleep;
  if negb deep then note SWarn ;; mret None
  else
    on_host (driver_cleanup no_secondary memory_enough) ;;
    note (SSuspend sec) ;;
    mret (Some true).

Definition run_cb (cb : option (M sub unit)) : M sub unit :=
  match cb with Some f => f | None => mret tt end.

Definition poweroff (poweroff_cb : option (M sub unit)) : M sub bool :=
  run_cb poweroff_cb ;;
  on_host detach ;;
  (match poweroff_cb with Some _ => mret tt | None => _ ← power_cycle 15; mret tt end) ;;
  mret true.

Definition poweron (poweron_cb : option (M sub unit)) : M sub bool :=
  run_cb poweron_cb ;;
  on_host attach ;;
  mret true.

(** ** Shutdown notification *)

(** CC with its SHN field set; RTD3E of the identify data is in
    microseconds. *)
Definition shn_cc (abrupt : bool) (cc : Z) : Z := if abrupt then Z.lor cc 0x8000 else Z.lor cc 0x4000.

Definition shutdown_notify (fuel : nat) (abrupt : bool) : M sub unit :=
  rtd3e ← on_ctrl (id_data submit exec new_buffer 91 (Some 88) 0 1 0 0 0);
  let rtd3e := if rtd3e =? 0 then 1000000 else rtd3e in
  cc ← on_ctrl (reg_get reg_read 0x14);
  on_ctrl (reg_set reg_write 0x14 (shn_cc abrupt cc)) ;;
  note (SSleepUs rtd3e) ;;
  on_ctrl (on_hw (fun h => (tt, sleep_us rtd3e h)) (fun _ => [])) ;;
  t ← on_ctrl (on_hw clock (fun _ => []));
  on_ctrl (wait_csts reg_read clock 0xc 0x8 NvmeShutdownStatusTimeoutError fuel t 10000).

(** ** Subsystem reset *)
Definition reset : M sub bool :=
  cap ← on_ctrl (cap reg_read64);
  if 0 =? Z.land cap (Z.shiftl 1 36) then note SWarn ;; mret false
  else
    on_ctrl (reg_set reg_write 0x20 0x4e564d65) ;;
    on_host detach ;;
    on_host attach ;;
    mret true.

(** ** Lemmas *)
Lemma nssrs_bit c : (0 =? Z.land c (Z.shiftl 1 36)) = negb (Z.testbit c 36).
Proof.
  rewrite Z.shiftl_1_l. assert (E : Z.land c (2 ^ 36) = if Z.testbit c 36 then 2 ^ 36 else 0).
  { apply Z.bits_inj'. intros i Hi. rewrite Z.land_spec, Z.pow2_bits_eqb by lia.
    destruct (Z.eqb_spec 36 i) as [<-|Hne].
    - destruct (Z.testbit c 36) eqn:Ec; [by rewrite Z.pow2_bits_true by lia|by rewrite Z.bits_0].
    - rewrite andb_false_r. destruct (Z.testbit c 36); [by rewrite Z.pow2_bits_false by lia|by rewrite Z.bits_0]. }
  rewrite E. by destruct (Z.testbit c 36).
Qed.

Definition ctrl0 (s : sub) : ctrl (H := H) := mk_ctrl (hw (s_ctrl s)) (c_timeout (s_ctrl s)) [].

Lemma on_ctrl_inv {A} (m : M ctrl A) s r s' : on_ctrl m s = (r, s') ->
  exists c, m (ctrl0 s) = (r, c) /\ s' = mk_sub c (s_host s) (s_trace s ++ (SCtrl <$> trace c)).
Proof.
  unfold on_ctrl. fold (ctrl0 s). destruct (m (ctrl0 s)) as [r1 c]. intros [= -> <-]. by exists c.
Qed.

Lemma on_host_traces {A} P Q (m : M host A) s r s' : traces P Q m -> on_host m s = (r, s') ->
  exists es, s_trace s' = s_trace s ++ (SHost <$> es) /\ Forall P es /\ Q r /\ s_ctrl s' = s_ctrl s.
Proof.
  intros Hm E. unfold on_host in E. destruct (m _) as [r1 h1] eqn:E1. injection E as -> <-.
  destruct (Hm _ _ _ E1) as (es & Ht & HP & HQ). cbn [h_trace] in Ht. rewrite app_nil_r in Ht. subst es.
  exists (rev (h_trace h1)). split_and!; try done. by apply Forall_rev.
Qed.

Lemma driver_cleanup_host s r s' : on_host (driver_cleanup no_secondary memory_enough) s = (r, s') ->
  exists waits, s_trace s' = s_trace s ++ (SHost <$> waits) /\ Forall is_wait waits
    /\ told (rev waits) /\ match r with Ok _ => stopped (rev waits) | Err e => e = TimeoutError /\ never_stopped 101 (rev waits) end.
Proof.
  intros E. unfold on_host in E. destruct (driver_cleanup _ _ _) as [r1 h1] eqn:E1. injection E as -> <-.
  destruct (driver_cleanup_run _ _ _ _ _ E1) as (waits & Ht & Hw & Htold & Hr). cbn [h_trace] in Ht. rewrite app_nil_r in Ht.
  exists (rev waits). cbn [s_trace]. rewrite Ht, rev_involutive. split; [done|]. split; [by apply Forall_rev|by split].
Qed.

Definition removal : Pcie.event := EEcho ["1"%string] (dev_path bdf "remove"%string).

Lemma detach_run s r s' : on_host detach s = (r, s') ->
  exists waits rest, s_trace s' = s_trace s ++ (SHost <$> waits ++ rest) /\ Forall is_wait waits /\ told (rev waits)
    /\ s_ctrl s' = s_ctrl s
    /\ match r with
       | Ok _ => stopped (rev waits) /\ removal ∈ rest
       | Err e => e = TimeoutError /\ never_stopped 101 (rev waits) /\ rest = []
       end.
Proof.
  intros E. unfold on_host in E. destruct (detach _) as [r1 h1] eqn:E1. injection E as -> <-.
  destruct (quiesce_traces _ _ _ _ _ _ is_Ok _ _ _ (traces_ret any_event tt) ltac:(done) E1) as (waits & rest & Ht & Hw & Htold & Hr).
  cbn [h_trace] in Ht. rewrite app_nil_r in Ht.
  exists (rev waits), (rev rest). cbn [s_trace s_ctrl]. rewrite Ht, rev_app_distr. split; [done|].
  split; [by apply Forall_rev|]. rewrite rev_involutive. split; [done|]. split; [done|]. destruct r as [[]|e].
  - destruct Hr as (_ & Hs & Hr). split; [done|]. apply list_elem_of_In, in_rev. by rewrite rev_involutive, <- list_elem_of_In.
  - by destruct Hr as (-> & ? & ->).
Qed.

Lemma attach_traces : traces any_event is_Ok attach.
Proof. apply traces_bind; [apply rescan_traces|]. intros _. apply bind_driver_traces. Qed.

(** C33. A subsystem reset: a controller without NSSR is left alone, and nothing
    is done to the host either.  With it, the first action is the write of
    "NVMe" to NSSR; then, unless none is there, the workers are told to
    terminate and their locks are released, and the driver is asked for them
    until none is left.  When some worker is left each of the 101 times, the
    reset raises [TimeoutError] with the device still bound; when it returns it
    returns [True], and the device was removed after the driver had answered
    that no worker is left. *)
Theorem reset_ordering s r s' :
  reset s = (r, s') ->
  if Z.testbit (fst (reg_read64 0 (hw (s_ctrl s)))) 36 then
    exists waits rest, s_trace s' = s_trace s ++ SCtrl (EvWrite 0x20 0x4e564d65) :: (SHost <$> waits ++ rest)
      /\ Forall is_wait waits /\ told (rev waits)
      /\ match r with
         | Ok b => b = true /\ stopped (rev waits) /\ removal ∈ rest
         | Err e => e = TimeoutError /\ never_stopped 101 (rev waits) /\ rest = []
         end
  else r = Ok false /\ s_trace s' = s_trace s ++ [SWarn] /\ s_host s' = s_host s.
Proof.
  intros E. unfold reset in E.
  destruct (on_ctrl (cap reg_read64) s) as [r1 s1] eqn:E1. destruct (on_ctrl_inv _ _ _ _ E1) as (c & Hc & ->).
  unfold cap, on_hw in Hc. cbn [hw ctrl0] in Hc. destruct (reg_read64 0 (hw (s_ctrl s))) as [w h] eqn:Er.
  injection Hc as <- <-. cbn [fst]. rewrite (run_bind_ok _ _ _ _ _ E1), nssrs_bit in E.
  cbn [trace fmap list_fmap] in E. rewrite app_nil_r in E. destruct (Z.testbit w 36); cbn [negb] in E.
  2: { injection E as <- <-. split_and!; try done. }
  set (s2 := mk_sub _ _ _) in E.
  destruct (on_ctrl (reg_set reg_write 0x20 0x4e564d65) s2) as [r3 s3] eqn:E3.
  destruct (on_ctrl_inv _ _ _ _ E3) as (c3 & Hc3 & Hs3). rewrite reg_set_run in Hc3 by done. injection Hc3 as <- <-.
  rewrite (run_bind_ok _ _ _ _ _ E3) in E.
  assert (Ht3 : s_trace s3 = s_trace s ++ [SCtrl (EvWrite 0x20 0x4e564d65)]) by by subst s3.
  destruct (on_host detach s3) as [r4 s4] eqn:E4. destruct (detach_run _ _ _ E4) as (waits & rest & Ht & Hw & Htold & _ & Hr).
  destruct r4 as [[]|e].
  - rewrite (run_bind_ok _ _ _ _ _ E4) in E. destruct (on_host attach s4) as [r5 s5] eqn:E5.
    destruct (on_host_traces _ _ _ _ _ _ attach_traces E5) as (es & Ht5 & _ & [[] ->] & _).
    rewrite (run_bind_ok _ _ _ _ _ E5) in E. injection E as <- <-. exists waits, (rest ++ es).
    split; [|split; [done|split; [done|split; [done|split; [by destruct Hr|apply elem_of_app; left; by destruct Hr]]]]].
    rewrite Ht5, Ht, Ht3, app_assoc, !fmap_app, <- !app_assoc. done.
  - rewrite (run_bind_err _ _ _ _ _ E4) in E. injection E as <- <-. exists waits, rest.
    split; [|split; [done|done]]. rewrite Ht, Ht3, <- app_assoc. done.
Qed.

(** The host suspended, where it can be; [poweroff] takes no notice where it
    cannot. *)
Definition suspended (power : list sevent) : Prop :=
  match mem_sleep with
  | Ok true => exists waits, power = (SHost <$> waits) ++ [SSuspend 15] /\ Forall is_wait waits /\ stopped (rev waits)
  | Ok false => power = [SWarn]
  | Err _ => False
  end.

Lemma power_cycle_run s r s' : power_cycle 15 s = (r, s') ->
  exists power, s_trace s' = s_trace s ++ power /\
    match r with
    | Ok _ => suspended power
    | Err e => (e = TimeoutError \/ mem_sleep = Err e) /\ Forall (fun x => x <> SSuspend 15) power
    end.
Proof.
  unfold power_cycle, suspended. intros E. destruct mem_sleep as [[]|e].
  - rewrite (run_bind_ok (lift _) _ s true s) in E by done. cbn [negb] in E.
    destruct (on_host (driver_cleanup no_secondary memory_enough) s) as [r1 s1] eqn:E1.
    destruct (driver_cleanup_host _ _ _ E1) as (es & Ht & Hw & _ & Hr).
    destruct r1 as [[]|e].
    + rewrite (run_bind_ok _ _ _ _ _ E1) in E. injection E as <- <-. cbn [s_trace].
      exists ((SHost <$> es) ++ [SSuspend 15]). split; [by rewrite Ht, <- app_assoc|]. by exists es.
    + rewrite (run_bind_err _ _ _ _ _ E1) in E. injection E as <- <-. exists (SHost <$> es).
      split; [done|]. split; [left; by destruct Hr|]. by apply Forall_fmap, Forall_true.
  - injection E as <- <-. by exists [SWarn].
  - injection E as <- <-. exists []. rewrite app_nil_r. split; [done|]. split; [by right|done].
Qed.

(** [poweroff], with a callback that adds [evs] or without one.  The callback
    comes first, while commands are still running; then the workers are
    stopped, and the device is removed from the host only when they are: when
    they are not, [TimeoutError] is raised with the device still bound.
    Without a callback the host is then suspended for 15 seconds where it can
    be; where it cannot, [poweroff] returns [True] all the same, with the power
    never cut. *)
Theorem poweroff_outcome cb evs s r s' :
  (forall f, cb = Some f -> forall s1, exists s2, f s1 = (Ok tt, s2) /\ s_trace s2 = s_trace s1 ++ evs) ->
  poweroff cb s = (r, s') ->
  exists waits rest power,
    s_trace s' = s_trace s ++ (if cb is Some _ then evs else []) ++ (SHost <$> waits ++ rest) ++ power /\ Forall is_wait waits
    /\ match r with
       | Ok b => b = true /\ stopped (rev waits) /\ removal ∈ rest /\ (if cb is Some _ then power = [] else suspended power)
       | Err e =>
           e = TimeoutError /\ never_stopped 101 (rev waits) /\ rest = [] /\ power = []
           \/ removal ∈ rest /\ cb = None /\ (e = TimeoutError \/ mem_sleep = Err e)
              /\ Forall (fun x => x <> SSuspend 15) power
       end.
Proof.
  intros Hcb E. unfold poweroff in E.
  assert (exists s1, run_cb cb s = (Ok tt, s1) /\ s_trace s1 = s_trace s ++ if cb is Some _ then evs else []) as (s1 & H1 & Ht1).
  { destruct cb as [f|]; [by apply Hcb|]. exists s. by rewrite app_nil_r. }
  rewrite (run_bind_ok _ _ _ _ _ H1) in E. destruct (on_host detach s1) as [r2 s2] eqn:E2.
  destruct (detach_run _ _ _ E2) as (waits & rest & Ht2 & Hw & Htold & _ & Hr). exists waits, rest.
  destruct r2 as [[]|e].
  2: { rewrite (run_bind_err _ _ _ _ _ E2) in E. injection E as <- <-. exists []. destruct Hr as (-> & ? & ->).
       rewrite Ht2, Ht1, (app_nil_r (SHost <$> _)), <- app_assoc. split; [done|]. split; [done|]. by left. }
  rewrite (run_bind_ok _ _ _ _ _ E2) in E. destruct cb as [f|].
  { rewrite bind_ret_l in E. injection E as <- <-. exists []. rewrite Ht2, Ht1, (app_nil_r (SHost <$> _)), <- app_assoc. destruct Hr. by split_and!. }
  rewrite bind_assoc in E. destruct (power_cycle 15 s2) as [r3 s3] eqn:E3.
  destruct (power_cycle_run _ _ _ E3) as (power & Ht3 & Hr3). exists power.
  destruct r3 as [o|e].
  - rewrite (run_bind_ok _ _ _ _ _ E3), bind_ret_l in E. injection E as <- <-.
    rewrite Ht3, Ht2, Ht1, <- !app_assoc. destruct Hr. by split_and!.
  - rewrite (run_bind_err _ _ _ _ _ E3) in E. injection E as <- <-.
    rewrite Ht3, Ht2, Ht1, <- !app_assoc. split; [done|]. split; [done|]. right. destruct Hr, Hr3. by split_and!.
Qed.

(** ** Shutdown *)
Abbreviation get_id := (id_data submit exec new_buffer).

Lemma extends_id_data e b n c i g m : extends is_action (get_id e b n c i g m).
Proof.
  unfold id_data. apply extends_bind; [apply extends_sync|]. intros [x [buf|]]; [apply extends_lift|apply extends_raise].
Qed.

Lemma shn_cc_bits abrupt cc i : 0 <= i ->
  Z.testbit (shn_cc abrupt cc) i = Z.testbit cc i || (i =? if abrupt then 15 else 14).
Proof.
  intros Hi. unfold shn_cc. destruct abrupt; rewrite Z.lor_spec; f_equal;
    [change 0x8000 with (2 ^ 15)|change 0x4000 with (2 ^ 14)]; rewrite Z.pow2_bits_eqb by lia; apply Z.eqb_sym.
Qed.

Lemma shn_cc_range abrupt cc : 0 <= cc < 2 ^ 32 -> 0 <= shn_cc abrupt cc < 2 ^ 32.
Proof.
  intros Hc. assert (E : wrap 32 (shn_cc abrupt cc) = shn_cc abrupt cc).
  { unfold wrap. apply Z.bits_inj'. intros i Hi. rewrite Z.testbit_mod_pow2 by lia.
    destruct (Z.ltb_spec i 32); [done|]. cbn [andb]. rewrite shn_cc_bits by lia.
    rewrite <- (Z.mod_small cc (2 ^ 32)) by lia. rewrite Z.testbit_mod_pow2 by lia.
    rewrite (proj2 (Z.ltb_ge i 32)) by lia. destruct abrupt; symmetry; apply orb_false_intro; [done|lia|done|lia]. }
  rewrite <- E. unfold wrap. apply Z.mod_pos_bound. lia.
Qed.

Lemma on_ctrl_extends {A} P (m : M (ctrl (H := H)) A) s r s' : extends P m -> on_ctrl m s = (r, s') ->
  exists evs, s_trace s' = s_trace s ++ (SCtrl <$> evs) /\ Forall P evs /\ exists c, m (ctrl0 s) = (r, c) /\ s_ctrl s' = c.
Proof.
  intros Hm E. destruct (on_ctrl_inv _ _ _ _ E) as (c & Hc & ->). destruct (Hm _ _ _ Hc) as (evs & Ht & HP).
  exists evs. cbn [s_trace]. rewrite Ht. split; [done|]. split; [done|]. by exists c.
Qed.

Lemma reg_set_inv index v s s' : reg_set reg_write index v s = (Ok tt, s') ->
  trace s' = trace s ++ [EvWrite index v] /\ c_timeout s' = c_timeout s.
Proof.
  unfold reg_set. rewrite py_assert_bind. destruct (index mod 4 =? 0); [|done].
  intros E. apply run_bind_inv in E as (i & s1 & [= Ei <-] & E). apply run_bind_inv in E as (w & s2 & [= Ew <-] & E).
  apply to_uint_inv in Ei as [-> _]. apply to_uint_inv in Ew as [-> _]. injection E as <-. done.
Qed.

(** A shutdown that [shutdown_notify] reports, abrupt or not: after the
    identify command CC is read and written back with one bit of SHN set and
    every other bit as it was; then the host sleeps the device's RTD3 entry
    time, never zero; then CSTS is read until SHST says that the shutdown is
    complete, and nothing is sent after that. *)
Theorem shutdown_order fuel abrupt s s' :
  shutdown_notify fuel abrupt s = (Ok tt, s') ->
  exists cmds cc us polls, s_trace s' = s_trace s ++ (SCtrl <$> cmds ++ [EvRead 0x14 cc; EvWrite 0x14 (shn_cc abrupt cc)])
      ++ SSleepUs us :: (SCtrl <$> polls)
    /\ Forall is_action cmds /\ us <> 0 /\ csts_polls 0xc 0x8 polls
    /\ (forall i, 0 <= i -> Z.testbit (shn_cc abrupt cc) i = Z.testbit cc i || (i =? if abrupt then 15 else 14)).
Proof.
  intros E. unfold shutdown_notify in E.
  apply run_bind_inv in E as (rtd & s1 & E1 & E).
  destruct (on_ctrl_extends _ _ _ _ _ (extends_id_data _ _ _ _ _ _ _) E1) as (cmds & T1 & A1 & _).
  cbn zeta in E. set (us := if rtd =? 0 then 1000000 else rtd) in E.
  apply run_bind_inv in E as (cc & s2 & E2 & E). destruct (on_ctrl_inv _ _ _ _ E2) as (c2 & H2 & ->).
  rewrite reg_get_run in H2 by done. destruct (reg_read 0x14 _) as [v h]. 
  destruct (v =? 0xffffffff); [done|]. injection H2 as -> <-.
  apply run_bind_inv in E as ([] & s3 & E3 & E). destruct (on_ctrl_inv _ _ _ _ E3) as (c3 & H3 & ->).
  apply reg_set_inv in H3 as [T3 _]. cbn [ctrl0 trace app] in T3.
  apply run_bind_inv in E as ([] & s4 & E4 & E). injection E4 as <-.
  apply run_bind_inv in E as ([] & s5 & E5 & E). destruct (on_ctrl_inv _ _ _ _ E5) as (c5 & H5 & ->). injection H5 as <-.
  apply run_bind_inv in E as (t & s6 & E6 & E). destruct (on_ctrl_inv _ _ _ _ E6) as (c6 & H6 & ->).
  unfold on_hw in H6. destruct (clock _) as [now h6]. injection H6 as <- <-.
  destruct (on_ctrl_inv _ _ _ _ E) as (c7 & H7 & ->). destruct (wait_csts_ok _ _ _ _ _ _ _ _ _ _ H7) as (polls & T7 & P7).
  exists cmds, cc, us, polls. split_and!; [|done| |done|by apply shn_cc_bits].
  - cbn [s_trace trace ctrl0] in *. rewrite T7, T3, T1. cbn [app fmap list_fmap].
    rewrite !app_nil_r, fmap_app, <- !app_assoc. done.
  - unfold us. destruct (Z.eqb_spec rtd 0); [done|done].
Qed.

(** The steps before the wait, on a device that can be identified and read. *)
Lemma shutdown_start abrupt s rtd s1 : on_ctrl (get_id 91 (Some 88) 0 1 0 0 0) s = (Ok rtd, s1) ->
  0 <= fst (reg_read 0x14 (hw (s_ctrl s1))) < 0xffffffff ->
  exists s2 h, (forall fuel, shutdown_notify fuel abrupt s =
    on_ctrl (wait_csts reg_read clock 0xc 0x8 NvmeShutdownStatusTimeoutError fuel (fst (clock h)) 10000) s2)
    /\ hw (s_ctrl s2) = snd (clock h).
Proof.
  intros E1 Hcc. set (us := if rtd =? 0 then 1000000 else rtd).
  destruct (reg_read 0x14 (hw (s_ctrl s1))) as [cc h2] eqn:Er. cbn [fst] in Hcc.
  set (s2 := mk_sub (mk_ctrl h2 (c_timeout (s_ctrl s1)) [EvRead 0x14 cc]) (s_host s1) (s_trace s1 ++ [SCtrl (EvRead 0x14 cc)])).
  assert (E2 : on_ctrl (reg_get reg_read 0x14) s1 = (Ok cc, s2)).
  { unfold on_ctrl. rewrite reg_get_run by done. cbn [hw]. rewrite Er. by rewrite (proj2 (Z.eqb_neq cc _)) by lia. }
  destruct (on_ctrl (reg_set reg_write 0x14 (shn_cc abrupt cc)) s2) as [r3 s3] eqn:E3.
  destruct (on_ctrl_inv _ _ _ _ E3) as (c3 & H3 & Hs3). rewrite reg_set_run in H3; [|done|done|by apply shn_cc_range; lia].
  injection H3 as <- <-. set (h4 := sleep_us us (hw (s_ctrl s3))). destruct (clock h4) as [t h5] eqn:E5.
  eexists (mk_sub (mk_ctrl h5 (c_timeout (s_ctrl s3)) []) (s_host s3) (((s_trace s3 ++ [SSleepUs us]) ++ []) ++ [])), h4.
  rewrite E5. split; [|done]. intros fuel. unfold shutdown_notify. rewrite (run_bind_ok _ _ _ _ _ E1). cbv zeta. fold us.
  rewrite (run_bind_ok _ _ _ _ _ E2), (run_bind_ok _ _ _ _ _ E3).
  rewrite (run_bind_ok (note _) _ s3 tt (mk_sub (s_ctrl s3) (s_host s3) (s_trace s3 ++ [SSleepUs us]))) by done.
  match goal with |- context [(on_ctrl ?m ≫= ?k) ?x] =>
    rewrite (run_bind_ok (on_ctrl m) k x tt (mk_sub (mk_ctrl h4 (c_timeout (s_ctrl s3)) []) (s_host s3) (s_trace x ++ []))) by done end.
  match goal with |- context [(on_ctrl ?m ≫= ?k) ?x] =>
    rewrite (run_bind_ok (on_ctrl m) k x t (mk_sub (mk_ctrl h5 (c_timeout (s_ctrl s3)) []) (s_host s3) (s_trace x ++ [])))
      by (unfold on_ctrl, on_hw; cbn [hw s_ctrl c_timeout]; by rewrite E5) end.
  done.
Qed.

Section Clock.
Hypothesis clock_passes : forall h d, exists n, d < reading reg_read clock n h.

(** On a clock that gets past every point in time [shutdown_notify] ends: once
    CC is read, the shutdown completes, or a register read fails, or the ten
    seconds are over; and a device whose SHST never gets to "complete" makes it
    raise [NvmeShutdownStatusTimeoutError]. *)
Theorem shutdown_ends abrupt s rtd s1 :
  on_ctrl (get_id 91 (Some 88) 0 1 0 0 0) s = (Ok rtd, s1) ->
  0 <= fst (reg_read 0x14 (hw (s_ctrl s1))) < 0xffffffff ->
  exists n, forall fuel, (n < fuel)%nat ->
    (fst (shutdown_notify fuel abrupt s) <> Err OutOfFuel)
    /\ ((forall h, fst (reg_read 0x1c h) <> 0xffffffff /\ Z.land (fst (reg_read 0x1c h)) 0xc <> 0x8) ->
        fst (shutdown_notify fuel abrupt s) = Err NvmeShutdownStatusTimeoutError).
Proof.
  intros E1 Hcc. destruct (shutdown_start abrupt s rtd s1 E1 Hcc) as (s2 & h & Hrun & Hh).
  destruct (clock_first_past _ _ clock_passes (hw (s_ctrl s2)) (10000 + fst (clock h))) as [n Hn].
  exists n. intros fuel Hf. rewrite Hrun.
  assert (Hfst : forall A (m : M (ctrl (H := H)) A), fst (on_ctrl m s2) = fst (m (ctrl0 s2))).
  { intros A m. unfold on_ctrl. fold (ctrl0 s2). by destruct (m (ctrl0 s2)). }
  rewrite Hfst. split.
  - apply (wait_csts_bounded _ _ _ _ _ _ _ n); [done|by destruct Hn|done].
  - intros Hs. destruct (wait_csts_stuck _ _ 0xc 8 NvmeShutdownStatusTimeoutError (fst (clock h)) 10000 n fuel (ctrl0 s2) Hs Hn Hf)
      as (s' & evs & -> & _). done.
Qed.
End Clock.
End Power.

(** ** Witnesses *)

(** A device that completes a shutdown at once: the time and CC. *)
Definition sub_read (a : Z) (h : Z * Z) : Z * (Z * Z) :=
  (if a =? 0x1c then (if Z.land (snd h) 0xc000 =? 0 then 1 else 9) else snd h, h).
(** One that never does. *)
Definition sub_stuck (a : Z) (h : Z * Z) : Z * (Z * Z) := (if a =? 0x1c then 5 else snd h, h).
Definition sub_cap (a : Z) (h : Z * Z) : Z * (Z * Z) := (0x1000000fff, h).
Definition sub_start : sub (H := Z * Z) := mk_sub (mk_ctrl (0, 0x460001) 10000 []) (mk_host 0 0 0 []) [].
Definition sub_sleep (us : Z) (h : Z * Z) : Z * Z := (fst h + us / 1000, snd h).

Abbreviation ex_shutdown rd := (shutdown_notify rd ex_write ex_clock sub_sleep accept ex_exec example_buffer).

(** A normal notification after an abrupt one: SHN gets the reserved value 3. *)
Example shn_twice : shn_cc false (shn_cc true 0x460001) = 0x46c001.
Proof. reflexivity. Qed.

Lemma reset_ordering_witness :
  exists waits rest, s_trace (snd (reset sub_cap ex_write (fun _ => true) (fun _ => true) true "01:00.0" "144d a80a" sub_start))
    = s_trace sub_start ++ SCtrl (EvWrite 0x20 0x4e564d65) :: (SHost <$> waits ++ rest)
    /\ Forall is_wait waits /\ stopped (rev waits) /\ removal "01:00.0" ∈ rest.
Proof.
  destruct (reset_ordering sub_cap ex_write (fun _ => true) (fun _ => true) true "01:00.0" "144d a80a" sub_start _ _
    ltac:(vm_compute; reflexivity)) as (waits & rest & H1 & H2 & _ & _ & H3).
  exists waits, rest. split; [|split; [exact H2|exact H3]]. rewrite <- H1. vm_compute. reflexivity.
Defined.

Lemma poweroff_outcome_witness :
  exists waits rest,
    s_trace (snd (poweroff (H := Z * Z) (fun _ => true) (fun _ => true) true "01:00.0" "144d a80a" (Ok false) None sub_start))
    = (SHost <$> waits ++ rest) ++ [SWarn] /\ removal "01:00.0" ∈ rest.
Proof.
  destruct (poweroff_outcome (H := Z * Z) (fun _ => true) (fun _ => true) true "01:00.0" "144d a80a" (Ok false) None [] sub_start _ _
    ltac:(intros f Hf; discriminate Hf) ltac:(vm_compute; reflexivity)) as (waits & rest & power & H1 & _ & _ & _ & H2 & H3).
  cbn in H3. exists waits, rest. split; [|exact H2]. rewrite <- H3. etransitivity; [|exact H1]. vm_compute. reflexivity.
Defined.

Lemma shutdown_order_witness :
  exists cmds cc us polls, s_trace (snd (ex_shutdown sub_read 3 true sub_start))
      = s_trace sub_start ++ (SCtrl <$> cmds ++ [EvRead 0x14 cc; EvWrite 0x14 (shn_cc true cc)]) ++ SSleepUs us :: (SCtrl <$> polls)
    /\ us <> 0 /\ csts_polls 0xc 0x8 polls.
Proof.
  destruct (shutdown_order sub_read ex_write ex_clock sub_sleep accept ex_exec example_buffer 3 true sub_start
    (snd (ex_shutdown sub_read 3 true sub_start)) ltac:(vm_compute; reflexivity)) as (cmds & cc & us & polls & H1 & _ & H2 & H3 & _).
  exists cmds, cc, us, polls. split; [exact H1|split; [exact H2|exact H3]].
Defined.

Lemma shutdown_ends_witness :
  exists fuel, fst (ex_shutdown sub_stuck fuel false sub_start) = Err NvmeShutdownStatusTimeoutError.
Proof.
  destruct (shutdown_ends sub_stuck ex_write ex_clock sub_sleep accept ex_exec example_buffer
    (ex_clock_passes sub_stuck (fun a h => eq_refl)) false sub_start _ _ ltac:(vm_compute; reflexivity) ltac:(cbn; lia)) as [n Hn].
  exists (S n). apply (Hn (S n)); [lia|]. intros h. cbn. split; [discriminate|discriminate].
Defined.
