(* ===== verification/Namespace.v ===== *)
(** * Namespace: LBA formats and formatting

    [Namespace.id_data], [get_lba_format] and [format] of
    src/src/driver_wrap.pyx, over the controller's state (Controller.v).  The C
    driver's refresh of its namespace data ([ns_refresh]) is an argument. *)
From Stdlib Require Import ZArith Lia.
From stdpp Require Import base list numbers option.
From S2P Require Import Prelude PyInt Buffer Command Controller.
Local Open Scope Z_scope.

Section Namespace.
Context {H : Type}.
Variable submit : spdk_cmd -> Z.
Variable exec : spdk_cmd -> list Z -> H -> res (Z * option (list Z)) * H.
Variable new_buffer : Z -> buffer.
Variable ns_refresh : H -> Z * H.             (* ns_refresh, after nvme_get_ns *)
Variable nsid : Z.

Definition ns_id_data (byte_end : Z) (byte_begin : option Z) (cns csi cntid : Z) : M ctrl Z :=
  id_data (H := H) submit exec new_buffer byte_end byte_begin nsid cns cntid csi 0.

Definition capacity : M ctrl Z := ns_id_data 63 (Some 48) 0 0 0.

Definition ns_supports (opcode : Z) : M ctrl bool :=
  py_assert (opcode <? 256) ;; supports (H := H) submit exec new_buffer (256 + opcode).

(** The loop over the 16 LBA formats of the identify data. *)
Fixpoint find_format (data_size meta_size : Z) (fids : list Z) : M ctrl (option Z) :=
  match fids with
  | [] => mret None
  | fid :: fids' =>
      format_support ← ns_id_data (128 + fid * 4 + 3) (Some (128 + fid * 4)) 0 0 0;
      if (data_size =? Z.shiftl 1 (Z.land (Z.shiftr format_support 16) 0xff))
         && (meta_size =? Z.land format_support 0xffff)
      then mret (Some fid) else find_format data_size meta_size fids'
  end.

Definition get_lba_format (data_size meta_size : Z) : M ctrl (option Z) :=
  find_format data_size meta_size (py_range 0 16 1).

(** [self._nvme.format(lbaf, ses, nsid)]: comparing None with 16 is a TypeError. *)
Definition format_cmd (lbaf : option Z) (ses : Z) : res spdk_cmd :=
  match lbaf with
  | Some lbaf => Command.format submit lbaf ses nsid
  | None => check (ses <? 8) AssertionError ;; Err TypeError
  end.

Definition format (data_size meta_size ses : Z) : M ctrl Z :=
  orig_timeout ← timeout_get;
  timeout_set (Z.max orig_timeout (100 * 1000)) ;;
  lbaf ← get_lba_format data_size meta_size;
  r ← sync exec (format_cmd lbaf ses) None;
  rc ← on_hw ns_refresh (fun _ => []);
  (if negb (rc =? 0) then raise NamespaceCreationError else mret tt) ;;
  timeout_set orig_timeout ;;
  mret (fst r).

(** ** The timeout is touched by its setter only *)
Definition keeps_timeout {A} (m : M (ctrl (H := H)) A) : Prop :=
  forall s, c_timeout (snd (m s)) = c_timeout s.

Lemma keeps_ret {A} (a : A) : keeps_timeout (mret a).
Proof. done. Qed.
Lemma keeps_lift {A} (r : res A) : keeps_timeout (lift r).
Proof. done. Qed.
Lemma keeps_raise {A} e : keeps_timeout (raise e : M ctrl A).
Proof. done. Qed.
Lemma keeps_on_hw {A} (f : H -> A * H) ev : keeps_timeout (on_hw f ev).
Proof. intros s. unfold on_hw. by destruct (f (hw s)). Qed.
Lemma keeps_bind {A B} (m : M ctrl A) (k : A -> M ctrl B) :
  keeps_timeout m -> (forall a, keeps_timeout (k a)) -> keeps_timeout (m ≫= k).
Proof.
  intros Hm Hk s. unfold mbind, M_bind. specialize (Hm s).
  destruct (m s) as [[a|e] s1]; [|done]. cbn [snd] in Hm. by rewrite Hk, Hm.
Qed.
Lemma keeps_sync c buf : keeps_timeout (sync exec c buf).
Proof.
  apply keeps_bind; [apply keeps_lift|intros c0]. apply keeps_bind; [apply keeps_on_hw|intros r].
  apply keeps_bind; [apply keeps_lift|intros r0; apply keeps_ret].
Qed.
Lemma keeps_id_data e b cns csi cntid : keeps_timeout (ns_id_data e b cns csi cntid).
Proof.
  apply keeps_bind; [apply keeps_sync|]. intros [v [b'|]]; [apply keeps_lift|apply keeps_raise].
Qed.
Lemma keeps_find d m fids : keeps_timeout (find_format d m fids).
Proof.
  induction fids as [|fid fids IH]; cbn [find_format]; [apply keeps_ret|].
  apply keeps_bind; [apply keeps_id_data|]. intros fs. destruct (_ && _); [apply keeps_ret|done].
Qed.

(** ** What the device says of its formats *)
Section Formats.
(** The device answers identify with this page, without an error. *)
Variable page_data : list Z.
Hypothesis submit_ok : forall c, submit c = 0.
Hypothesis page_ok : page_buffer (new_buffer 4096).
Hypothesis page_bytes : length page_data = page /\ Forall is_byte page_data.
Hypothesis nsid_ok : 0 <= nsid < 2 ^ 32.
Hypothesis exec_identify : forall c d h, opc c = 0x6 ->
  exists v h', exec c d h = (Ok (v, Some page_data), h').

(** The 32-bit format descriptor of the page. *)
Definition lba_format (fid : Z) : Z := from_le (sub_list (128 + fid * 4) 4 page_data).
Definition format_matches (data_size meta_size fid : Z) : bool :=
  (data_size =? 2 ^ (lba_format fid / 2 ^ 16 mod 2 ^ 8)) && (meta_size =? lba_format fid mod 2 ^ 16).

Lemma identify_page : exists c, identify submit (Some (new_buffer 4096)) nsid 0 0 0 0 = Ok c /\ opc c = 6.
Proof.
  destruct page_ok as [Hwf Hs Hp Ho].
  exists (nvme_send_cmd_raw false 0x6 nsid (buf_data (Some (new_buffer 4096))) 0 0 0 0 0 0).
  split; [|done]. unfold identify, py_len, buffer_len, check. rewrite Hs. cbn [mbind res_bind].
  unfold send_admin_raw. mrun. apply send_raw_ok; [apply submit_ok|]. u32_all.
Qed.

Lemma ns_id_data_page fid s :
  0 <= fid < 16 ->
  exists s', ns_id_data (128 + fid * 4 + 3) (Some (128 + fid * 4)) 0 0 0 s = (Ok (lba_format fid), s')
    /\ exists c d, trace s' = trace s ++ [EvCmd c d] /\ opc c = 6.
Proof.
  intros Hf. destruct identify_page as (c & Hc & Ho).
  destruct page_bytes as [Hpl Hpb]. pose proof page_eq as Hpe.
  destruct page_ok as [Hwf Hs Hp Hoff].
  destruct (exec_identify c (cmd_bytes c (Some (new_buffer 4096))) (hw s) Ho) as (v & h' & He).
  eexists. split.
  - unfold ns_id_data, id_data. rewrite Hc. unfold sync, lift, on_hw, mbind, M_bind.
    rewrite He. cbn [fst snd mret M_ret]. rewrite Hoff. change (Z.to_nat 0) with O.
    rewrite list_inserts_front by (pose proof (wf_len _ Hwf); lia).
    rewrite drop_ge by (pose proof (wf_len _ Hwf); lia). rewrite app_nil_r.
    rewrite data_int_run.
    + cbn [fst from_option id]. do 2 f_equal. unfold lba_format. do 2 f_equal. lia.
    + apply buffer_wf_with_ptr; [done| |done]. pose proof (wf_len _ Hwf). lia.
    + cbn [from_option]. unfold id. lia.
    + cbn [with_ptr b_size]. lia.
  - exists c. eexists. split; [reflexivity|done].
Qed.

(** Identify commands only. *)
Definition identifies (evs : list event) : Prop :=
  Forall (fun e => match e with EvCmd c _ => opc c = 6 | _ => False end) evs.

Lemma format_check d m fs :
  ((d =? Z.shiftl 1 (Z.land (Z.shiftr fs 16) 0xff)) && (m =? Z.land fs 0xffff))
  = (d =? 2 ^ (fs / 2 ^ 16 mod 2 ^ 8)) && (m =? fs mod 2 ^ 16).
Proof.
  rewrite land_255, land_65535, shiftr_div by lia.
  rewrite shiftl_mul by (apply Z.mod_pos_bound; lia). by rewrite Z.mul_1_l.
Qed.

Lemma find_format_spec d m fids : forall s,
  Forall (fun f => 0 <= f < 16) fids ->
  exists s', find_format d m fids s = (Ok (head (List.filter (format_matches d m) fids)), s')
    /\ exists evs, trace s' = trace s ++ evs /\ identifies evs.
Proof.
  induction fids as [|fid fids IH]; intros s Hf.
  { exists s. split; [done|]. exists []. split; [by rewrite app_nil_r|each done]. }
  apply Forall_cons_1 in Hf as [Hf Hfs].
  destruct (ns_id_data_page fid s Hf) as (s1 & Hs1 & c & dat & Ht1 & Ho).
  cbn [find_format List.filter]. rewrite (run_bind_ok _ _ _ _ _ Hs1), format_check.
  fold (format_matches d m fid). destruct (format_matches d m fid).
  - exists s1. split; [done|]. exists [EvCmd c dat]. split; [done|]. each done.
  - destruct (IH s1 Hfs) as (s2 & -> & evs & Ht2 & He). exists s2. split; [done|].
    exists (EvCmd c dat :: evs). split; [by rewrite Ht2, Ht1, <- app_assoc|].
    by apply List.Forall_cons.
Qed.

(** The first matching format of the 16. *)
Definition lbaf_of (d m : Z) : option Z := head (List.filter (format_matches d m) (py_range 0 16 1)).

(** [Namespace.format]: against a device whose identify data describes its
    formats, [get_lba_format] finds the first of the 16 formats with the given
    data and metadata size.  When there is one and the command and the refresh
    succeed, exactly one Format command is sent after the identify commands,
    for that format and this namespace, and the timeout is what it was before.
    When there is none, the call raises [TypeError] without sending Format,
    and the timeout stays raised to at least 100 seconds. *)
Theorem format_by_sizes data_size meta_size ses s :
  0 <= ses < 8 -> 0 <= c_timeout s < 2 ^ 32 ->
  (forall lbaf s' v, lbaf_of data_size meta_size = Some lbaf ->
     format data_size meta_size ses s = (Ok v, s') ->
     c_timeout s' = c_timeout s
     /\ exists evs c, trace s' = trace s ++ evs ++ [EvCmd c []] /\ identifies evs
        /\ opc c = 0x80 /\ Command.nsid c = nsid /\ cdw10 c = 512 * ses + lbaf)
  /\ (lbaf_of data_size meta_size = None ->
      exists s', format data_size meta_size ses s = (Err TypeError, s')
        /\ c_timeout s' = Z.max (c_timeout s) 100000
        /\ exists evs, trace s' = trace s ++ evs /\ identifies evs).
Proof.
  intros Hses Ht.
  assert (Hfids : Forall (fun f => 0 <= f < 16) (py_range 0 16 1)) by (cbn; each lia).
  set (s1 := mk_ctrl (hw s) (Z.max (c_timeout s) 100000) (trace s)).
  assert (Hset : timeout_set (Z.max (c_timeout s) (100 * 1000)) s = (Ok tt, s1)).
  { unfold timeout_set. rewrite to_uint_ok by (eval_pow; lia). done. }
  destruct (find_format_spec data_size meta_size _ s1 Hfids) as (s2 & Hfind & evs & Ht2 & Hids).
  change (head _) with (lbaf_of data_size meta_size) in Hfind.
  assert (Hto2 : c_timeout s2 = c_timeout s1).
  { pose proof (keeps_find data_size meta_size (py_range 0 16 1) s1) as Hk. by rewrite Hfind in Hk. }
  split.
  - intros lbaf s' v Hl Hrun. unfold format in Hrun.
    rewrite (run_bind_ok _ _ _ (c_timeout s) s) in Hrun by done.
    rewrite (run_bind_ok _ _ _ _ _ Hset) in Hrun.
    unfold get_lba_format in Hrun. rewrite (run_bind_ok _ _ _ _ _ Hfind), Hl in Hrun.
    apply run_bind_inv in Hrun as (r & s3 & Hsync & Hrun).
    apply run_bind_inv in Hrun as (rc & s4 & Hrc & Hrun).
    apply run_bind_inv in Hrun as ([] & s5 & Hchk & Hrun).
    unfold on_hw in Hrc. destruct (ns_refresh (hw s3)) as [rc' h4]. injection Hrc as <- <-.
    destruct (negb (rc' =? 0)); [done|]. injection Hchk as <-.
    unfold timeout_set in Hrun. rewrite to_uint_ok in Hrun by done. injection Hrun as <- <-.
    split; [done|].
    apply run_bind_inv in Hsync as (c & s6 & Hc & Hsync). injection Hc as Hc <-.
    apply run_bind_inv in Hsync as (x & s7 & Hx & Hsync). unfold on_hw in Hx.
    destruct (exec c (cmd_bytes c None) (hw s2)) as [y h7]. injection Hx as <- <-.
    apply run_bind_inv in Hsync as (z & s8 & Hz & Hsync). injection Hz as -> <-.
    injection Hsync as _ <-. exists evs, c. cbn [trace]. rewrite app_nil_r.
    cbn [format_cmd] in Hc. unfold Command.format, check in Hc.
    destruct (ses <? 8); [|done]. destruct (lbaf <? 16); [|done]. mrun.
    unfold send_admin_raw in Hc. apply send_raw_fields in Hc as (_ & Ho & Hn & H10 & _).
    split; [rewrite Ht2, <- app_assoc; unfold cmd_bytes; by destruct (cmd_data c) as [[]|]|].
    split; [done|]. unfold opc. rewrite Ho, Hn, H10, shiftl_mul by lia. split_and!; try done. lia.
  - intros Hnone. exists s2. unfold format.
    rewrite (run_bind_ok _ _ _ (c_timeout s) s) by done. rewrite (run_bind_ok _ _ _ _ _ Hset).
    unfold get_lba_format. rewrite (run_bind_ok _ _ _ _ _ Hfind), Hnone.
    split; [|split; [done|by exists evs]].
    unfold sync, format_cmd, check. zbool. done.
Qed.
End Formats.
End Namespace.

(** ** Witness *)

(** One format: 512 bytes, no metadata. *)
Definition example_page_data : list Z := replicate 128 0 ++ [0; 0; 9; 0] ++ replicate 3964 0.
Definition example_exec (c : spdk_cmd) (d : list Z) (h : Z) : res (Z * option (list Z)) * Z :=
  (Ok (0, if opc c =? 6 then Some example_page_data else None), h).

Lemma example_page_bytes : length example_page_data = page /\ Forall is_byte example_page_data.
Proof.
  split; [vm_compute; reflexivity|]. unfold example_page_data.
  apply Forall_app. split; [apply zeros_are_bytes|].
  apply Forall_app. split; [each (unfold is_byte; lia)|apply zeros_are_bytes].
Qed.

Lemma format_by_sizes_witness :
  exists s', format (H := Z) accept example_exec example_buffer (fun h => (0, h)) 1 4096 0 0
               (mk_ctrl 0 10000 []) = (Err TypeError, s')
    /\ c_timeout s' = 100000 /\ exists evs, trace s' = evs /\ identifies evs.
Proof.
  refine (proj2 (format_by_sizes accept example_exec example_buffer (fun h => (0, h)) 1
    example_page_data (fun _ => eq_refl) example_page example_page_bytes _ _ 4096 0 0
    (mk_ctrl 0 10000 []) _ _) _).
  - lia.
  - intros c d h Hc. exists 0, h. unfold example_exec. by rewrite Hc.
  - lia.
  - cbn. lia.
  - vm_compute. reflexivity.
Defined.
