(* ===== verification/IOWorker.v ===== *)
(** * IOWorker: the parameters and the report of an I/O worker

    [Namespace.ioworker] checks and normalises its parameters and hands them
    to the worker process, whose [_ioworker] packs them into the C structure
    [ioworker_args] (src/src/driver_wrap.pyx); here too are the error the process
    ends with and the percentile search of [close].  What the process runs is in
    Generator.v and Loop.v, the queue it shares with the script and [close] in
    Report.v. *)
From Stdlib Require Import ZArith Lia String.
From stdpp Require Import base list numbers option.
From S2P Require Import Prelude PyInt Psd.
Local Open Scope Z_scope.

(** ** Namespace.ioworker *)

(** The types [io_size], [lba_align] and [lba_random] may have. *)
Inductive io_size := SizeInt (z : Z) | SizeRange (start stop step : Z) | SizeList (l : list Z)
  | SizeDict (d : list (Z * Z)).
Inductive lba_align := AlignNone | AlignInt (z : Z) | AlignList (l : list Z).
Inductive lba_random := RandomBool (b : bool) | RandomInt (z : Z).

(** A line of an io_sequence: timestamp, opcode, LBA and count. *)
Record ioseq := mk_ioseq { q_timestamp : Z; q_op : Z; q_slba : Z; q_nlba : Z }.

Record params := mk_params {
  p_io_size : io_size; p_lba_step : option Z; p_lba_align : lba_align; p_lba_random : lba_random;
  p_read_percentage : Z; p_op_percentage : option (list (Z * Z)); p_time : Z; p_qdepth : Z;
  p_region_start : Z; p_region_end : Z; p_iops : Z; p_io_count : Z; p_lba_start : Z;
  p_distribution : option (list Z); p_pvalue : Z; p_ptype : Z;
  p_sequence : option (list ioseq)
}.

(** What the worker is created with. *)
Record config := mk_config {
  g_sizes : list (Z * Z);         (* the io_size dict, in insertion order *)
  g_align : list Z; g_random : Z; g_ops : list (Z * Z); g_step : option Z;
  g_start : Z; g_end : Z; g_iops : Z; g_io_count : Z; g_time : Z; g_qdepth : Z; g_lba_start : Z;
  g_distribution : option (list Z); g_pvalue : Z; g_ptype : Z; g_sequence : option (list ioseq)
}.

(** [list(io_size)] of an iterable one; an int is not iterable. *)
Definition size_values (s : io_size) : list Z :=
  match s with
  | SizeInt z => [z]
  | SizeRange a b c => py_range a b c
  | SizeList l => l
  | SizeDict d => fst <$> d
  end.

(** [max(l)]: ValueError when empty. *)
Definition py_max (l : list Z) : res Z :=
  match l with [] => Err ValueError | x :: l' => Ok (foldl Z.max x l') end.

(** [{i : 1 for i in l}]: the first occurrence of a key keeps its place. *)
Fixpoint dict_of_keys (seen : list Z) (l : list Z) : list (Z * Z) :=
  match l with
  | [] => []
  | x :: l' => if existsb (Z.eqb x) seen then dict_of_keys seen l'
               else (x, 1) :: dict_of_keys (x :: seen) l'
  end.

Definition size_dict (s : io_size) : list (Z * Z) :=
  match s with SizeDict d => d | _ => dict_of_keys [] (size_values s) end.

Definition random_percentage (r : lba_random) : Z :=
  match r with RandomBool true => 100 | RandomBool false => 0 | RandomInt z => z end.

Definition is_size_int (s : io_size) : bool := match s with SizeInt _ => true | _ => false end.
Definition no_region_end : Z := 0xffffffffffffffff.

(** [(region_end-region_start+io_size-1)//io_size] *)
Definition fill_count (region size : Z) : res Z :=
  if size =? 0 then Err ZeroDivisionError else Ok ((region + size - 1) / size).

(** The number of commands: a sequential worker without a limit fills its
    region once, and any other one needs a limit. *)
Definition io_count_of (p : params) (random : Z) : res Z :=
  if (random =? 0) && is_size_int (p_io_size p) && negb (p_region_end p =? no_region_end) then
    if (p_time p =? 0) && (p_io_count p =? 0) then
      match p_io_size p with
      | SizeInt z => fill_count (p_region_end p - p_region_start p) z
      | _ => Ok (p_io_count p)
      end
    else Ok (p_io_count p)
  else
    check (negb (match p_sequence p with None => true | Some _ => false end && (p_time p =? 0) && (p_io_count p =? 0))) AssertionError ;;
    Ok (p_io_count p).

(** The sizes must fit the region. *)
Definition clamp_size (region : Z) (s : io_size) : res io_size :=
  match s with
  | SizeInt z => Ok (SizeInt (Z.min z region))
  | _ => m ← py_max (size_values s); check (m <? region) AssertionError ;; Ok s
  end.

Definition align_list (a : lba_align) (sizes : list (Z * Z)) : list Z :=
  match a with
  | AlignNone => (fun _ => 1) <$> sizes
  | AlignInt z => [z]
  | AlignList l => l
  end.

Definition ioworker (cap : Z) (p : params) : res config :=
  check ((2 <=? p_qdepth p) && (p_qdepth p <=? 1024)) AssertionError ;;
  check (p_qdepth p <=? Z.land cap 0xffff + 1) AssertionError ;;
  check (p_region_start p <? p_region_end p) AssertionError ;;
  check (p_time p <=? 1000 * 3600) AssertionError ;;
  check (p_read_percentage p <=? 100) AssertionError ;;
  check ((p_iops p =? 0) || (p_qdepth p <=? p_iops p)) AssertionError ;;
  let ops := default [(2, p_read_percentage p); (1, 100 - p_read_percentage p)] (p_op_percentage p) in
  check (foldr Z.add 0 (snd <$> ops) =? 100) AssertionError ;;
  let random := random_percentage (p_lba_random p) in
  check ((0 <=? random) && (random <=? 100)) AssertionError ;;
  io_count ← io_count_of p random;
  s ← clamp_size (p_region_end p - p_region_start p) (p_io_size p);
  check (match p_lba_step p with None => true | Some z => (-0x8000 <? z) && (z <? 0x8000) end)
    AssertionError ;;
  let sizes := size_dict s in
  check (negb (existsb (Z.eqb 0) (fst <$> sizes))) AssertionError ;;
  let align := align_list (p_lba_align p) sizes in
  check (negb (existsb (Z.eqb 0) align)) AssertionError ;;
  Ok (mk_config sizes align random ops (p_lba_step p) (p_region_start p) (p_region_end p)
        (p_iops p) io_count (p_time p) (p_qdepth p) (p_lba_start p)
        (p_distribution p) (p_pvalue p) (p_ptype p) (p_sequence p)).

(** ** _IOWorker._ioworker: packing the arguments *)
Record c_args := mk_c_args {
  a_size_max : Z; a_align_max : Z; a_ratio_sum : Z;
  a_sizes : list (Z * Z * Z);     (* size, ratio and alignment of each entry *)
  a_ops : list (Z * Z);           (* opcode and initial counter *)
  a_step : Z; a_step_valid : bool; a_random : Z; a_start : Z; a_end : Z;
  a_iops : Z; a_io_count : Z; a_seconds : Z; a_qdepth : Z; a_lba_start : Z;
  a_pvalue : Z; a_ptype : Z;
  a_distribution : list Z;        (* empty: NULL *)
  a_sequence : list ioseq
}.

(** The body of the loop over the sizes. *)
Definition pack_size (e : Z * Z * Z) : res (Z * Z * Z) :=
  let '(size, ratio, align) := e in
  size' ← to_uint 32 size; ratio' ← to_uint 32 ratio; align' ← to_uint 32 align;
  check (size <? 0x10000) AssertionError ;;
  check (align <? 0x10000) AssertionError ;;
  Ok (size', ratio', align').

Definition pack_op (e : Z * Z) : res (Z * Z) :=
  k ← to_uint 32 (fst e); v ← to_uint 64 (snd e); Ok (k, v).

(** The distribution over 100 sections of the whole region. *)
Definition pack_distribution (g : config) : res (list Z) :=
  match g_distribution g with
  | None => Ok []
  | Some l =>
      check (g_start g =? 0) AssertionError ;;
      check (g_end g =? no_region_end) AssertionError ;;
      check (Nat.eqb (length l) 100) AssertionError ;;
      check (foldr Z.add 0 l =? 10000) AssertionError ;;
      check (g_random g =? 100) AssertionError ;;
      mapM (to_uint 32) l
  end.

Definition pack_line (q : ioseq) : res ioseq :=
  slba ← to_uint 64 (q_slba q); timestamp ← to_uint 32 (q_timestamp q);
  op ← to_uint 32 (q_op q); nlba ← to_uint 32 (q_nlba q);
  Ok (mk_ioseq timestamp op slba nlba).

(** An empty sequence counts as none. *)
Definition pack_sequence (g : config) : res (list ioseq) :=
  match g_sequence g with
  | None | Some [] => Ok []
  | Some l => check (g_iops g =? 0) AssertionError ;; mapM pack_line l
  end.

(** Conversion to a [signed short]. *)
Definition to_short (z : Z) : res Z :=
  if (-0x8000 <=? z) && (z <? 0x8000) then Ok z else Err OverflowError.

Definition pack_args (g : config) : res c_args :=
  check (Nat.eqb (length (g_sizes g)) (length (g_align g))) AssertionError ;;
  m ← py_max (fst <$> g_sizes g); size_max ← to_uint 32 m;
  m ← py_max (g_align g); align_max ← to_uint 32 m;
  ratio_sum ← to_uint 32 (foldr Z.add 0 (snd <$> g_sizes g));
  check (ratio_sum <=? 10000) AssertionError ;;
  sizes ← mapM pack_size (zip (g_sizes g) (g_align g));
  distribution ← pack_distribution g;
  let seconds := if g_time g =? 0 then 1000 * 3600 else g_time g in
  sequence ← pack_sequence g;
  ops ← mapM pack_op (g_ops g);
  lba_start ← to_uint 64 (g_lba_start g);
  step ← to_short (default 0 (g_step g));
  random ← to_uint 16 (g_random g);
  start ← to_uint 64 (g_start g);
  stop ← to_uint 64 (g_end g);
  iops ← to_uint 32 (g_iops g);
  io_count ← to_uint 64 (g_io_count g);
  seconds ← to_uint 32 seconds;
  qdepth ← to_uint 32 (Z.max 2 (g_qdepth g));
  pvalue ← to_uint 32 (g_pvalue g);
  ptype ← to_uint 32 (g_ptype g);
  Ok (mk_c_args size_max align_max ratio_sum sizes ops
        step (match g_step g with Some _ => true | None => false end)
        random start stop iops io_count seconds qdepth lba_start pvalue ptype distribution sequence).

(** ** The end of the worker process *)

(** [timeout_driver_cb] assigns [_timeout_happened] without a [global]
    declaration: the module's variable keeps its value. *)
Definition timeout_driver_cb (timeout_happened : bool) : bool := timeout_happened.

(** The error the worker reports: [c_error] is the C entry's result, [status]
    the device's error field, [exc] whether an exception ended it, [timeouts]
    how often the drive timed out. *)
Definition worker_error (c_error status : Z) (exc : bool) (timeouts : nat) : Z :=
  let happened := Nat.iter timeouts timeout_driver_cb false in
  let error := if exc then -1
               else if (c_error =? 0) && negb (status =? 0) then -6 else c_error in
  let error := if happened then -3 else error in
  if error =? -7 then 0 else error.

(** ** _IOWorker.close *)
Definition error_strings : list string :=
  [ "no error"; "init fail in pyx"; "io_size is larger than MDTS"; "io timeout";
    "ioworker timeout"; "buffer pool alloc fail"; "io cmd error"; "sudden terminated";
    "illegal error code" ]%string.

Definition error_string (error : Z) : res string :=
  list_get error_strings (Z.min (Z.of_nat (length error_strings) - 1) (- error)).

(** [find_percentile_latency], for an integer percentage. *)
Fixpoint percentile_loop (target total l : Z) (counts : list Z) : res Z :=
  match counts with
  | [] => Err AssertionError
  | c :: counts' =>
      let total := total + c in
      if target <=? total then Ok l else percentile_loop target total (l + 1) counts'
  end.

Definition sum (l : list Z) : Z := foldr Z.add 0 l.

Definition find_percentile_latency (k : Z) (counts : list Z) : res Z :=
  percentile_loop (sum counts * k / 100) 0 0 counts.

Definition lookup_key (k : Z) (d : list (Z * Z)) : res Z :=
  match list_find (fun e => fst e = k) d with
  | Some (_, (_, v)) => Ok v
  | None => Err KeyError
  end.

(** ** Lemmas *)
Lemma check_bind {A} b e (k : res A) x : (check b e ;; k) = Ok x -> b = true /\ k = Ok x.
Proof. by destruct b. Qed.

Lemma res_bind_inv {A B} (m : res A) (k : A -> res B) y :
  (m ≫= k) = Ok y -> exists x, m = Ok x /\ k x = Ok y.
Proof. destruct m as [x|]; [by exists x|done]. Qed.

Lemma py_max_ge l m x : py_max l = Ok m -> x ∈ l -> x <= m.
Proof.
  destruct l as [|y l]; [done|]. intros [= <-].
  assert (Hm : forall l a, a <= foldl Z.max a l /\ forall z, z ∈ l -> z <= foldl Z.max a l).
  { clear. induction l as [|b l IH]; intros a; cbn [foldl].
    - split; [lia|]. intros z Hz. by apply elem_of_nil in Hz.
    - destruct (IH (Z.max a b)) as [H1 H2]. split; [lia|].
      intros z [->|Hz]%elem_of_cons; [lia|by apply H2]. }
  destruct (Hm l y) as [H1 H2]. intros [->|Hx]%elem_of_cons; [done|by apply H2].
Qed.

Lemma existsb_zero_false l : existsb (Z.eqb 0) l = false -> Forall (fun x => x <> 0) l.
Proof.
  induction l as [|x l IH]; [constructor|]. cbn [existsb].
  intros [H1 H2]%orb_false_iff. constructor; [|by apply IH].
  apply Z.eqb_neq in H1. lia.
Qed.

Lemma dict_of_keys_subset l : forall seen x, x ∈ fst <$> dict_of_keys seen l -> x ∈ l.
Proof.
  induction l as [|y l IH]; intros seen x Hx; cbn [dict_of_keys] in Hx; [done|].
  destruct (existsb (Z.eqb y) seen); [right; by eapply IH|].
  cbn in Hx. apply elem_of_cons in Hx as [->|Hx]; [left|right; by eapply IH].
Qed.

Lemma size_dict_values s x : x ∈ fst <$> size_dict s -> x ∈ size_values s.
Proof. destruct s; cbn [size_dict size_values]; try done; by apply dict_of_keys_subset. Qed.

Lemma clamp_size_fits region s s' x :
  clamp_size region s = Ok s' -> x ∈ fst <$> size_dict s' -> x <= region.
Proof.
  intros Hc Hx. destruct s as [z|a b c|l|d]; cbn [clamp_size] in Hc.
  - injection Hc as <-. apply size_dict_values in Hx. cbn in Hx.
    apply list_elem_of_singleton in Hx. lia.
  - apply res_bind_inv in Hc as (m & Hm & Hc). apply check_bind in Hc as [Hlt [= <-]].
    apply size_dict_values in Hx. pose proof (py_max_ge _ _ _ Hm Hx). lia.
  - apply res_bind_inv in Hc as (m & Hm & Hc). apply check_bind in Hc as [Hlt [= <-]].
    apply size_dict_values in Hx. pose proof (py_max_ge _ _ _ Hm Hx). lia.
  - apply res_bind_inv in Hc as (m & Hm & Hc). apply check_bind in Hc as [Hlt [= <-]].
    pose proof (py_max_ge _ _ _ Hm Hx). lia.
Qed.

Lemma io_count_stops p random n :
  io_count_of p random = Ok n -> p_region_start p < p_region_end p ->
  (forall z, p_io_size p = SizeInt z -> 0 < z) ->
  p_time p <> 0 \/ n <> 0 \/ p_sequence p <> None.
Proof.
  intros Hn Hr Hpos. unfold io_count_of in Hn.
  destruct ((random =? 0) && is_size_int (p_io_size p) && negb (p_region_end p =? no_region_end)) eqn:E.
  - destruct ((p_time p =? 0) && (p_io_count p =? 0)) eqn:E2.
    + destruct (p_io_size p) as [z| | |] eqn:Es; try (by cbn in E; rewrite andb_false_r in E).
      unfold fill_count in Hn. specialize (Hpos z eq_refl). right. left.
      rewrite (proj2 (Z.eqb_neq _ _)) in Hn by lia. injection Hn as <-.
      assert (1 <= (p_region_end p - p_region_start p + z - 1) / z); [|lia].
      apply Z.div_le_lower_bound; lia.
    + injection Hn as <-. apply andb_false_iff in E2 as [E2|E2]; apply Z.eqb_neq in E2; tauto.
  - apply check_bind in Hn as [Hc [= <-]]. apply negb_true_iff in Hc.
    apply andb_false_iff in Hc as [Hc|Hc]; [apply andb_false_iff in Hc as [Hc|Hc]|].
    + right. right. by destruct (p_sequence p).
    + apply Z.eqb_neq in Hc. tauto.
    + apply Z.eqb_neq in Hc. tauto.
Qed.

(** A worker that is created has sane parameters: the queue depth is in
    [2, 1024] and within CAP.MQES, the region is not empty, the percentages
    sum to 100, the random percentage is a percentage, no I/O size or
    alignment is 0 and no size exceeds the region; and when the sizes are
    positive the worker has a limit: a time, a command count, or a recorded
    sequence. *)
Theorem ioworker_config_valid cap p g :
  ioworker cap p = Ok g ->
  2 <= g_qdepth g <= 1024 /\ g_qdepth g <= cap mod 65536 + 1
  /\ g_start g < g_end g
  /\ sum (snd <$> g_ops g) = 100
  /\ 0 <= g_random g <= 100
  /\ Forall (fun x => x <> 0 /\ x <= g_end g - g_start g) (fst <$> g_sizes g)
  /\ Forall (fun x => x <> 0) (g_align g)
  /\ ((forall z, p_io_size p = SizeInt z -> 0 < z) ->
      g_time g <> 0 \/ g_io_count g <> 0 \/ p_sequence p <> None).
Proof.
  unfold ioworker. rewrite land_65535. cbv zeta.
  intros [H1 H]%check_bind. apply check_bind in H as [H2 H]. apply check_bind in H as [H3 H].
  apply check_bind in H as [H4 H]. apply check_bind in H as [H5 H]. apply check_bind in H as [H6 H].
  apply check_bind in H as [H7 H]. apply check_bind in H as [H8 H].
  apply res_bind_inv in H as (n & Hn & H). apply res_bind_inv in H as (s & Hs & H).
  apply check_bind in H as [H9 H]. apply check_bind in H as [H10 H].
  apply check_bind in H as [H11 H]. injection H as <-. cbn [g_qdepth g_start g_end g_ops g_random
    g_sizes g_align g_time g_io_count].
  zbool_hyps. split_and!; try lia; try done.
  - apply Forall_lookup. intros i x Hx. split.
    + apply existsb_zero_false in H10. exact (Forall_lookup_1 _ _ _ _ H10 Hx).
    + eapply clamp_size_fits; [exact Hs|]. by eapply list_elem_of_lookup_2.
  - by apply existsb_zero_false.
  - intros Hpos. eapply io_count_stops; [exact Hn|lia|done].
Qed.

Lemma ioworker_config_valid_witness :
  exists g, ioworker 0xff (mk_params (SizeList [8; 16; 8]) None AlignNone (RandomBool true) 50 None 10 64
      0 0x1000 0 0 0 None 100 0xbeef None) = Ok g
    /\ g_sizes g = [(8, 1); (16, 1)]
    /\ Forall (fun x => x <> 0 /\ x <= g_end g - g_start g) (fst <$> g_sizes g).
Proof.
  eexists. split; [vm_compute; reflexivity|]. split; [reflexivity|].
  eapply (ioworker_config_valid 0xff (mk_params (SizeList [8; 16; 8]) None AlignNone (RandomBool true)
      50 None 10 64 0 0x1000 0 0 0 None 100 0xbeef None)). vm_compute. reflexivity.
Defined.

(** ** One pass over the region, and packing *)
Lemma mapM_pack_size l :
  Forall (fun '(s, r, a) => 0 < s < 0x10000 /\ 0 <= r < 2 ^ 32 /\ 0 < a < 0x10000) l ->
  mapM pack_size l = Ok l.
Proof.
  induction 1 as [|[[s r] a] l (Hs & Hr & Ha) _ IH]; [done|]. cbn [mapM].
  assert (E : pack_size (s, r, a) = Ok (s, r, a)).
  { unfold pack_size, check. rewrite !to_uint_ok by (eval_pow; lia). mrun. by zbool. }
  by rewrite E, IH.
Qed.

Lemma mapM_pack_op l :
  Forall (fun '(k, v) => 0 <= k < 2 ^ 32 /\ 0 <= v < 2 ^ 64) l -> mapM pack_op l = Ok l.
Proof.
  induction 1 as [|[k v] l (Hk & Hv) _ IH]; [done|]. cbn [mapM].
  assert (E : pack_op (k, v) = Ok (k, v)).
  { unfold pack_op. cbn [fst snd]. by rewrite !to_uint_ok by done. }
  by rewrite E, IH.
Qed.

(** The parameters of a plain sequential worker: every optional argument at
    its default. *)
Definition sequential (size start stop qdepth read : Z) : params :=
  mk_params (SizeInt size) None AlignNone (RandomBool false) read None 0 qdepth start stop 0 0 0 None 100 0xbeef None.

(** A sequential worker without a limit: for a positive 16-bit size and a
    region given by its end, the worker is created with the smallest number of
    commands that covers the region (the last one may pass its end), its size
    clamped to the region, and the worker process packs these parameters. *)
Lemma sequential_args cap size start stop qdepth read :
  0 < size < 0x10000 -> 0 <= start < stop -> stop < no_region_end -> 2 <= qdepth <= 1024 ->
  qdepth <= cap mod 65536 + 1 -> 0 <= read <= 100 ->
  exists g n, ioworker cap (sequential size start stop qdepth read) = Ok g
    /\ pack_args g = Ok (mk_c_args (Z.min size (stop - start)) 1 1 [(Z.min size (stop - start), 1, 1)]
         [(2, read); (1, 100 - read)] 0 false 0 start stop 0 n 3600000 qdepth 0 100 0xbeef [] [])
    /\ (n - 1) * size < stop - start <= n * size /\ 1 <= n < 2 ^ 64
    /\ g_align g = [1] /\ g_step g = None /\ g_ops g = [(2, read); (1, 100 - read)].
Proof.
  intros Hsz Hr Hend Hq Hcap Hrd. unfold no_region_end in Hend.
  set (n := (stop - start + size - 1) / size).
  assert (Hn : (n - 1) * size < stop - start <= n * size).
  { unfold n. pose proof (Z.mul_div_le (stop - start + size - 1) size ltac:(lia)).
    pose proof (Z.mul_succ_div_gt (stop - start + size - 1) size ltac:(lia)). nia. }
  assert (Hn64 : 1 <= n < 2 ^ 64) by (eval_pow; nia).
  set (g := mk_config [(Z.min size (stop - start), 1)] [1] 0 [(2, read); (1, 100 - read)] None
    start stop 0 n 0 qdepth 0 None 100 0xbeef None).
  exists g, n. split; [|split].
  - unfold ioworker, sequential. rewrite land_65535. cbn [p_qdepth p_region_start p_region_end p_time
      p_read_percentage p_iops p_op_percentage p_lba_random p_io_size p_lba_step p_lba_align
      random_percentage from_option]. unfold id.
    unfold check. mrun. zbool. cbn [foldr fmap list_fmap snd].
    replace (read + (100 - read + 0) =? 100) with true by (symmetry; apply Z.eqb_eq; lia).
    unfold io_count_of. cbn [p_io_size p_region_end p_time p_io_count p_region_start is_size_int].
    unfold no_region_end. zbool. unfold fill_count. zbool. fold n.
    cbn [clamp_size]. mred. unfold size_dict, size_values. cbn [dict_of_keys existsb fmap list_fmap fst].
    rewrite orb_false_r. zbool. cbn [align_list fmap list_fmap existsb]. zbool. done.
  - unfold pack_args, g. cbn [g_sizes g_align g_ops g_step g_start g_end g_iops g_io_count g_time
      g_qdepth g_random g_lba_start g_distribution g_pvalue g_ptype g_sequence pack_distribution
      pack_sequence from_option length Nat.eqb check fmap list_fmap fst snd py_max foldl foldr].
    unfold check. mrun. rewrite !to_uint_ok by (eval_pow; lia). mred.
    change (1 + 0 <=? 10000) with true. mred. cbn [zip zip_with].
    rewrite mapM_pack_size by (each lia). rewrite mapM_pack_op by (each (eval_pow; lia)). mred.
    change (0 =? 0) with true. rewrite Z.max_r by lia.
    rewrite !to_uint_ok by (eval_pow; lia). reflexivity.
  - cbn. split_and!; try done; apply Hn || apply Hn64.
Qed.

(** A single alignment for several sizes passes [Namespace.ioworker], but the
    worker process refuses it. *)
Lemma align_length_mismatch g :
  length (g_sizes g) <> length (g_align g) -> pack_args g = Err AssertionError.
Proof.
  intros Hl. unfold pack_args. by rewrite (proj2 (Nat.eqb_neq _ _) Hl).
Qed.

(** ** Percentiles *)
Definition prefix (n : nat) (counts : list Z) : Z := sum (take n counts).

Lemma sum_cons c counts : sum (c :: counts) = c + sum counts.
Proof. done. Qed.

Lemma prefix_S i c counts : prefix (S i) (c :: counts) = c + prefix i counts.
Proof. done. Qed.

Lemma prefix_0 counts : prefix 0 counts = 0.
Proof. done. Qed.

Lemma percentile_loop_spec counts : forall target total l,
  Forall (fun c => 0 <= c) counts -> counts <> [] -> target <= total + sum counts ->
  exists i, (i < length counts)%nat
    /\ percentile_loop target total l counts = Ok (l + Z.of_nat i)
    /\ target <= total + prefix (S i) counts
    /\ forall j, (j < i)%nat -> total + prefix (S j) counts < target.
Proof.
  induction counts as [|c counts IH]; intros target total l Hc Hne Ht; [done|].
  apply Forall_cons_1 in Hc as [Hc Hcs]. cbn [percentile_loop]. rewrite sum_cons in Ht.
  destruct (Z.leb_spec target (total + c)) as [Hle|Hgt].
  - exists 0%nat. rewrite prefix_S, prefix_0. cbn [length].
    split_and!; [lia|f_equal; lia|lia|intros j Hj; lia].
  - destruct (decide (counts = [])) as [->|Hne'].
    { unfold sum in Ht. cbn in Ht. lia. }
    destruct (IH target (total + c) (l + 1)) as (i & Hi & Hr & Hp & Hj); [done..|lia|].
    exists (S i). rewrite prefix_S. cbn [length]. split_and!; [lia|rewrite Hr; f_equal; lia|lia|].
    intros [|j] Hlt; rewrite prefix_S, ?prefix_0; [lia|]. specialize (Hj j ltac:(lia)). lia.
Qed.

(** Percentile latencies: for non-negative counters and a percentage
    between 0 and 100, [find_percentile_latency] never fails, and gives the
    least latency up to which at least the floor of that percentage of all
    commands completed. *)
Theorem percentile_latency_least k counts :
  Forall (fun c => 0 <= c) counts -> counts <> [] -> 0 <= k <= 100 ->
  exists i, find_percentile_latency k counts = Ok (Z.of_nat i) /\ (i < length counts)%nat
    /\ sum counts * k / 100 <= prefix (S i) counts
    /\ forall j, (j < i)%nat -> prefix (S j) counts < sum counts * k / 100.
Proof.
  intros Hc Hne Hk.
  assert (Hs : 0 <= sum counts).
  { clear -Hc. unfold sum. induction Hc; cbn; lia. }
  assert (Ht : sum counts * k / 100 <= 0 + sum counts).
  { apply Z.div_le_upper_bound; nia. }
  destruct (percentile_loop_spec counts _ 0 0 Hc Hne Ht) as (i & Hi & Hr & Hp & Hj).
  exists i. by split_and!.
Qed.

Lemma percentile_latency_least_witness :
  exists i, find_percentile_latency 50 [0; 3; 0; 5; 2] = Ok (Z.of_nat i) /\ i = 3%nat.
Proof.
  destruct (percentile_latency_least 50 [0; 3; 0; 5; 2]) as (i & Hi & _);
    [repeat constructor; lia|discriminate|lia|].
  exists i. split; [exact Hi|].
  assert (E : find_percentile_latency 50 [0; 3; 0; 5; 2] = Ok 3) by (vm_compute; reflexivity).
  rewrite E in Hi. injection Hi as Hi. lia.
Defined.

(** The error report: every error code the worker's C entry documents
    (0 to -7) is shown with its own text, and any lower one as illegal.  The
    text of a drive time-out is never caused by one: the time-out callback
    sets a variable of its own, so however often the drive times out, the
    worker reports -3 only if the C entry did; and a worker that was told to
    terminate (-7) reports no error. *)
Theorem worker_error_report :
  (error_string <$> [0; -1; -2; -3; -4; -5; -6; -7; -8; -100]) =
    (@Ok string <$> [ "no error"; "init fail in pyx"; "io_size is larger than MDTS"; "io timeout";
      "ioworker timeout"; "buffer pool alloc fail"; "io cmd error"; "sudden terminated";
      "illegal error code"; "illegal error code" ]%string)
  /\ (forall c_error status exc timeouts,
        worker_error c_error status exc timeouts = -3 -> c_error = -3)
  /\ (forall status timeouts, worker_error (-7) status false timeouts = 0).
Proof.
  assert (Hno : forall n, Nat.iter n timeout_driver_cb false = false).
  { intros n. induction n as [|n IH]; [done|exact IH]. }
  split; [vm_compute; reflexivity|]. split.
  - intros c st exc n. unfold worker_error. cbv zeta. rewrite Hno. destruct exc; [done|].
    destruct ((c =? 0) && negb (st =? 0)); [done|]. destruct (Z.eqb_spec c (-7)); [done|]. done.
  - intros st n. unfold worker_error. cbv zeta. by rewrite Hno.
Qed.

Lemma worker_error_report_witness :
  worker_error (-3) 0 false 0 = -3 /\ -3 = -3 /\ error_string (worker_error (-4) 0 false 5) = Ok "ioworker timeout"%string.
Proof.
  split; [vm_compute; reflexivity|]. split.
  - apply (proj1 (proj2 worker_error_report) (-3) 0 false 0%nat). vm_compute. reflexivity.
  - vm_compute. reflexivity.
Defined.
