(* ===== verification/Generator.v ===== *)
(** * Generator: which command an I/O worker sends next

    The start of [ioworker_entry] and [ioworker_send_one] with its helpers
    (src/src/ioworker.c): the arguments are adjusted to the namespace, lookup
    tables turn the ratios of sizes, opcodes and sections into one random
    number each, and every command gets a size, a starting LBA in the region
    and its data.  The random numbers are arguments.  The arguments of the
    worker are those IOWorker.v packs; the loop that sends and completes the
    commands is in Loop.v. *)
From Stdlib Require Import ZArith Lia ZifyBool.
From stdpp Require Import base list numbers option.
From S2P Require Import Prelude PyInt Buffer Command Crc IOWorker.
Local Open Scope Z_scope.

(** A division by zero kills the process, as a failed assertion does. *)
Definition ALIGN_UP (n a : Z) : res Z :=
  check (negb (a =? 0)) CAbort ;;
  Ok (if n mod a =? 0 then n else wrap 64 (n + a - n mod a)).

Definition ALIGN_DOWN (n a : Z) : res Z :=
  check (negb (a =? 0)) CAbort ;; Ok (n - n mod a).

(** ** The arguments, adjusted to the namespace *)

Definition CMD_LOG_HALF : Z := 1025.

(** [inl] is a return value of [ioworker_entry] that ends it. *)
Definition adjust_args (nsze sector_size max_xfer_size cmdlog_list_len : Z) (a : c_args) : res (Z + c_args) :=
  check (negb (a_size_max a =? 0)) CAbort ;;
  check (a_start a <? a_end a) CAbort ;;
  check (a_qdepth a <=? CMD_LOG_HALF) CAbort ;;
  check (cmdlog_list_len <? 1024 * 1024) CAbort ;;
  size_max ← (match a_sequence a with
              | [] => Ok (a_size_max a)
              | _ => check (negb (sector_size =? 0)) CAbort ;; Ok (max_xfer_size / sector_size)
              end);
  if max_xfer_size <? wrap 32 (size_max * sector_size) then Ok (inl (-2))
  else
    let io_count := if a_io_count a =? 0 then 2 ^ 64 - 1 else a_io_count a in
    let seconds := if (a_seconds a =? 0) || (1000 * 3600 <? a_seconds a) then 1000 * 3600
                   else a_seconds a in
    region_start ← ALIGN_UP (a_start a) (a_align_max a);
    let region_end := Z.min nsze (a_end a) in
    let lba_start := if a_lba_start a <? region_start then region_start else a_lba_start a in
    let qdepth := if io_count <? a_qdepth a then wrap 32 (io_count + 1) else a_qdepth a in
    let qdepth := wrap 32 (qdepth - 1) in
    Ok (inr (mk_c_args size_max (a_align_max a) (a_ratio_sum a) (a_sizes a) (a_ops a)
      (a_step a) (a_step_valid a) (a_random a) region_start region_end (a_iops a) io_count seconds
      qdepth lba_start (a_pvalue a) (a_ptype a) (a_distribution a) (a_sequence a))).

(** ** Lookup tables *)

(** [for (i ...) for (j=0; j<ratio[i]; j++) table[index++] = f(i)], in a table of
    [cap] entries. *)
Fixpoint fill_table {A} (cap : Z) (f : Z -> A) (i : Z) (ratios : list Z) (t : list A) : res (list A) :=
  match ratios with
  | [] => Ok t
  | n :: ratios' =>
      let t' := t ++ replicate (Z.to_nat n) (f i) in
      check (Z.of_nat (length t') <=? cap) COutOfBounds ;;
      fill_table cap f (i + 1) ratios' t'
  end.

Definition ratios (a : c_args) : list Z := (fun e => snd (fst e)) <$> a_sizes a.

Definition ioworker_iosize_init (a : c_args) : res (list Z) :=
  check (a_ratio_sum a <=? 10000) CAbort ;;
  t ← fill_table 10000 id 0 (ratios a) [];
  check (Z.of_nat (length t) =? a_ratio_sum a) CAbort ;;
  Ok t.

(** Section [i] of 100; the last one ends with the region. *)
Definition section (nsze region_end i : Z) : Z * Z :=
  let lba_section := nsze / 100 in
  let section_start := lba_section * i in
  (section_start, if i =? 99 then region_end else section_start + lba_section).

Definition ioworker_distribution_init (nsze : Z) (a : c_args) : res (list (Z * Z)) :=
  t ← fill_table 10000 (section nsze (a_end a)) 0 (take 100 (a_distribution a)) [];
  check (Z.of_nat (length t) =? 10000) CAbort ;;
  Ok t.

(** The opcodes are numbered by bytes. *)
Definition op_table_init (a : c_args) : res (list Z) :=
  t ← fill_table 100 (wrap 8) 0 (snd <$> a_ops a) [];
  check (Z.of_nat (length t) =? 100) CAbort ;;
  Ok t.

(** [ioworker_global_ctx]'s tables; [dl] is empty without a distribution. *)
Record tables := mk_tables { t_sl : list Z; t_dl : list (Z * Z); t_op : list Z }.

Definition build_tables (nsze : Z) (a : c_args) : res tables :=
  dl ← (match a_distribution a with [] => Ok [] | _ => ioworker_distribution_init nsze a end);
  sl ← ioworker_iosize_init a;
  op ← op_table_init a;
  Ok (mk_tables sl dl op).

(** ** The next command *)

(** What [random()] gives, in the order of the calls: for the opcode, the size,
    the choice between sequential and random, the section, and the LBA. *)
Record rnd := mk_rnd { r_op : Z; r_size : Z; r_percent : Z; r_section : Z; r_lba : Z }.

Definition entry {A} (l : list A) (i : Z) : res A :=
  match l !! Z.to_nat i with Some x => Ok x | None => Err COutOfBounds end.

Definition c_mod (n m : Z) : res Z := check (negb (m =? 0)) CAbort ;; Ok (n mod m).

Definition ioworker_send_one_lba_sequential (a : c_args) (sequential_lba : Z) : Z :=
  if a_end a <=? sequential_lba then a_start a else sequential_lba.

Definition ioworker_send_one_lba_random (a : c_args) (t : tables) (r : rnd) : res Z :=
  bounds ← (match a_distribution a with
            | [] => Ok (a_start a, a_end a)
            | _ => entry (t_dl t) (r_section r mod 10000)
            end);
  let '(start, end_) := (bounds : Z * Z) in
  if end_ =? start then Ok start
  else
    check (start <? end_) CAbort ;;
    Ok (r_lba r mod (end_ - start) + start).

(** Size and alignment; the alignment is a [uint16_t]. *)
Definition ioworker_send_one_size (a : c_args) (t : tables) (r : rnd) : res (Z * Z) :=
  i ← c_mod (r_size r) (a_ratio_sum a);
  si ← entry (t_sl t) i;
  e ← entry (a_sizes a) si;
  let '(size, _, align) := e in
  Ok (size, wrap 16 align).

(** The LBA, and [sequential_lba] afterwards; [lba_count] is a [uint16_t]. *)
Definition ioworker_send_one_lba (ns : nstab) (a : c_args) (t : tables) (sequential_lba : Z)
    (r : rnd) (lba_align lba_count : Z) : res (Z * Z) :=
  let lba_count := wrap 16 lba_count in
  let is_random := r_percent r mod 100 <? a_random a in
  ret ← (if is_random then ioworker_send_one_lba_random a t r
         else crc32_skip_uncorr ns (ioworker_send_one_lba_sequential a sequential_lba));
  ret ← ALIGN_UP ret lba_align;
  ret ← (if a_end a <=? ret then
           ret ← ALIGN_DOWN (wrap 64 (ret - 1)) lba_align;
           check (ret <? a_end a) CAbort ;;
           Ok ret
         else Ok ret);
  Ok (ret, if is_random then sequential_lba
           else if a_step_valid a then wrap 64 (ret + a_step a)
           else wrap 64 (ret + lba_count)).

(** What is sent: [ioworker_cmdlog] and the index of the opcode. *)
Record io := mk_io { io_opcode : Z; io_op_index : Z; io_lba : Z; io_count : Z }.

(** The first part of [ioworker_send_one], up to the command log; [ios] is the
    line of the sequence to replay. *)
Definition next_io (ns : nstab) (a : c_args) (t : tables) (sequential_lba : Z) (r : rnd)
    (ios : option ioseq) : res (io * Z) :=
  op_list_index ← entry (t_op t) (r_op r mod 100);
  size ← ioworker_send_one_size a t r;
  let '(lba_count, lba_align) := (size : Z * Z) in
  op ← entry (a_ops a) op_list_index;
  let opcode := wrap 8 (fst op) in
  lba ← ioworker_send_one_lba ns a t sequential_lba r lba_align lba_count;
  let '(lba_starting, sequential_lba) := (lba : Z * Z) in
  let '(op_list_index, opcode, lba_count, lba_starting) :=
    match ios with
    | Some q => (0, wrap 8 (q_op q), q_nlba q, q_slba q)
    | None => (op_list_index, opcode, lba_count, lba_starting)
    end in
  let lba_count := wrap 32 (Z.min lba_count (wrap 64 (a_end a - lba_starting))) in
  check (lba_starting <=? a_end a) CAbort ;;
  Ok (mk_io opcode op_list_index lba_starting lba_count, sequential_lba).

(** The rest: the command, on the part of the buffer pool at [ptr]. *)
Definition send_io (ns : namespace) (o : io) (ptr token : Z) (mem : list Z)
    : res (spdk_cmd * list Z * Z) :=
  ns_cmd_io (io_opcode o) ns (Some (ptr, wrap 32 (io_count o * ns_sector_size ns))) mem token
    (io_lba o) (io_count o) 0 0 0 0.

(** The buffers of the I/O contexts in the pool: sizes and offsets are
    [uint32_t]. *)
Definition pool_size (buffer_size qdepth : Z) : Z := wrap 32 (buffer_size * qdepth * 2).
Definition data_buf (buffer_size i : Z) : Z := wrap 32 (buffer_size * 2 * i).
Definition write_buf (buffer_size i : Z) : Z := wrap 32 (buffer_size * 2 * i) + buffer_size.

(** ** The lookup tables *)
Section Fill.
Context {A : Type} (f : Z -> A).

(** The table: [ratios !! k] times [f (i + k)], for each [k]. *)
Fixpoint spread (i : Z) (ratios : list Z) : list A :=
  match ratios with
  | [] => []
  | n :: ratios' => replicate (Z.to_nat n) (f i) ++ spread (i + 1) ratios'
  end.

Lemma length_spread i l : Forall (fun n => 0 <= n) l -> Z.of_nat (length (spread i l)) = foldr Z.add 0 l.
Proof.
  intros H. revert i. induction H as [|n l Hn H IH]; intros i; cbn; [done|].
  rewrite length_app, length_replicate, Nat2Z.inj_add, IH. lia.
Qed.

Lemma fill_table_run cap i l t :
  Forall (fun n => 0 <= n) l -> Z.of_nat (length t) + foldr Z.add 0 l <= cap ->
  fill_table cap f i l t = Ok (t ++ spread i l).
Proof.
  intros H. revert i t. induction H as [|n l Hn H IH]; intros i t Hc; cbn [fill_table spread foldr] in *.
  { by rewrite app_nil_r. }
  assert (0 <= foldr Z.add 0 l) by (clear -H; induction H; cbn; lia).
  rewrite length_app, length_replicate. zbool. mrun. rewrite IH.
  - by rewrite <- app_assoc.
  - rewrite length_app, length_replicate. lia.
Qed.

Lemma fill_table_inv cap i l t t' :
  fill_table cap f i l t = Ok t' -> Forall (fun n => 0 <= n) l -> t' = t ++ spread i l.
Proof.
  revert i t. induction l as [|n l IH]; intros i t H Hl; cbn [fill_table spread] in *.
  { injection H as <-. by rewrite app_nil_r. }
  apply check_bind in H as [_ H]. apply Forall_cons_1 in Hl as [_ Hl].
  rewrite (IH _ _ H Hl). by rewrite <- app_assoc.
Qed.

(** Without room for the ratios the table is overrun. *)
Lemma fill_table_overrun cap i l t :
  Forall (fun n => 0 <= n) l -> cap < Z.of_nat (length t) + foldr Z.add 0 l -> l <> [] ->
  fill_table cap f i l t = Err COutOfBounds.
Proof.
  intros H. revert i t. induction H as [|n l Hn H IH]; intros i t Hc Hne; cbn [fill_table foldr] in *; [done|].
  rewrite length_app, length_replicate. destruct (Z.leb_spec (Z.of_nat (length t + Z.to_nat n)) cap); [|done].
  mrun. destruct l as [|n' l']; [cbn in *; lia|]. apply IH; [|done]. rewrite length_app, length_replicate. lia.
Qed.
End Fill.

Lemma spread_ext {A} (f g : Z -> A) l : forall i,
  (forall j, i <= j < i + Z.of_nat (length l) -> f j = g j) -> spread f i l = spread g i l.
Proof.
  induction l as [|n l IH]; intros i H; [done|]. cbn [spread length] in *.
  rewrite H by lia. f_equal. apply IH. intros j Hj. apply H. lia.
Qed.

(** How often [k] is in a table. *)
Definition occurs (k : Z) (l : list Z) : Z := Z.of_nat (count_occ Z.eq_dec l k).

Lemma occurs_app k l1 l2 : occurs k (l1 ++ l2) = occurs k l1 + occurs k l2.
Proof. unfold occurs. rewrite count_occ_app. lia. Qed.

Lemma occurs_replicate k n x : occurs k (replicate n x) = if decide (x = k) then Z.of_nat n else 0.
Proof.
  unfold occurs. induction n as [|n IH]; cbn; [by destruct (decide _)|].
  destruct (Z.eq_dec x k), (decide (x = k)); try done; lia.
Qed.

(** A ratio is how often its index is in the table. *)
Lemma occurs_spread l : forall i k, Forall (fun n => 0 <= n) l ->
  occurs k (spread id i l) = if k <? i then 0 else default 0 (l !! Z.to_nat (k - i)).
Proof.
  induction l as [|n l IH]; intros i k H; [by destruct (k <? i)|]. apply Forall_cons_1 in H as [Hn H].
  cbn [spread]. rewrite occurs_app, occurs_replicate, IH by done. unfold id.
  destruct (decide (i = k)) as [->|Hne].
  - destruct (Z.ltb_spec k (k + 1)), (Z.ltb_spec k k); [lia| |lia..].
    rewrite Z.sub_diag. rewrite Z2Nat.id by done. apply Z.add_0_r.
  - destruct (Z.ltb_spec k i), (Z.ltb_spec k (i + 1)); [lia..|].
    replace (Z.to_nat (k - i)) with (S (Z.to_nat (k - (i + 1)))) by lia. done.
Qed.

(** ** From the parameters to the tables *)

(** What packing does to the lists the tables are made of. *)
Record packed (g : config) (a : c_args) : Prop := {
  pk_sum : a_ratio_sum a = foldr Z.add 0 (snd <$> g_sizes g);
  pk_small : a_ratio_sum a <= 10000;
  pk_len : length (g_sizes g) = length (g_align g);
  pk_sizes : mapM pack_size (zip (g_sizes g) (g_align g)) = Ok (a_sizes a);
  pk_ops : mapM pack_op (g_ops g) = Ok (a_ops a);
  pk_dist : pack_distribution g = Ok (a_distribution a);
  pk_step : a_step a = default 0 (g_step g) /\ -2 ^ 15 <= a_step a < 2 ^ 15
            /\ a_step_valid a = (match g_step g with Some _ => true | None => false end);
  pk_start : a_start a = g_start g /\ 0 <= g_start g < 2 ^ 64;
  pk_end : a_end a = g_end g /\ 0 <= g_end g < 2 ^ 64;
  pk_lba : 0 <= a_lba_start a < 2 ^ 64;
  pk_random : a_random a = g_random g;
  pk_sequence : pack_sequence g = Ok (a_sequence a)
}.

Lemma pack_args_inv g a : pack_args g = Ok a -> packed g a.
Proof.
  unfold pack_args. intros [Hl H]%check_bind.
  apply res_bind_inv in H as (m1 & _ & H). apply res_bind_inv in H as (x1 & _ & H).
  apply res_bind_inv in H as (m2 & _ & H). apply res_bind_inv in H as (x2 & _ & H).
  apply res_bind_inv in H as (sm & Hsum & H). apply check_bind in H as [Hs H].
  apply res_bind_inv in H as (sizes & Hsz & H). apply res_bind_inv in H as (d & Hd & H).
  apply res_bind_inv in H as (q & Hq & H). apply res_bind_inv in H as (ops & Ho & H).
  apply res_bind_inv in H as (ls & Hls & H). apply res_bind_inv in H as (step & Hst & H).
  apply res_bind_inv in H as (rd & Hrd & H). apply res_bind_inv in H as (start & Hstart & H).
  apply res_bind_inv in H as (stop & Hstop & H).
  do 6 (apply res_bind_inv in H as (? & _ & H)). injection H as <-.
  apply to_uint_inv in Hsum as [-> _], Hls as [-> ?], Hrd as [-> _], Hstart as [-> ?], Hstop as [-> ?].
  unfold to_short in Hst. destruct (_ && _) eqn:E in Hst; [|done]. injection Hst as <-.
  apply Nat.eqb_eq in Hl. split; cbn; try done; [lia|]. split; [done|]. split; [eval_pow; lia|done].
Qed.

Lemma pack_size_inv e e' : pack_size e = Ok e' ->
  e' = e /\ 0 <= fst (fst e) < 65536 /\ 0 <= snd (fst e) /\ 0 <= snd e < 65536.
Proof.
  destruct e as [[s r] al]. unfold pack_size. intros H.
  apply res_bind_inv in H as (s' & Hs & H). apply res_bind_inv in H as (r' & Hr & H).
  apply res_bind_inv in H as (al' & Hal & H). apply check_bind in H as [H1 H]. apply check_bind in H as [H2 H].
  injection H as <-. apply to_uint_inv in Hs as [-> ?], Hr as [-> ?], Hal as [-> ?]. zbool_hyps.
  split; [done|cbn; lia].
Qed.

Lemma packed_ratios g a : packed g a ->
  ratios a = snd <$> g_sizes g /\ Forall (fun n => 0 <= n) (ratios a).
Proof.
  intros [_ _ Hl Hsz _ _ _ _ _ _ _ _]. apply res_mapM_inv in Hsz. unfold ratios.
  revert Hsz Hl. generalize (g_align g) (a_sizes a). induction (g_sizes g) as [|[s r] sz IH];
    intros [|al als] k Hk Hl; try done; cbn in Hk.
  - inversion Hk. cbn. done.
  - inversion Hk as [|? e ? k' He Hk']. subst. apply pack_size_inv in He as (-> & _ & Hr & _).
    destruct (IH als k' Hk') as [E Hall]; [cbn in Hl; lia|]. rewrite !fmap_cons, E in *. split; [done|].
    by constructor.
Qed.

Lemma packed_ops g a : packed g a -> a_ops a = g_ops g /\ Forall (fun n => 0 <= n) (snd <$> a_ops a).
Proof.
  intros [_ _ _ _ Ho _ _ _ _ _ _ _]. apply res_mapM_inv in Ho.
  induction Ho as [|[k v] e ops' k' He Ho [-> Hall]]; [done|].
  unfold pack_op in He. apply res_bind_inv in He as (k1 & Hk & He). apply res_bind_inv in He as (v1 & Hv & He).
  injection He as <-. cbn in Hk, Hv. apply to_uint_inv in Hk as [-> _], Hv as [-> ?].
  split; [done|]. constructor; [cbn; lia|done].
Qed.

Lemma packed_distribution g a : packed g a ->
  (g_distribution g = None /\ a_distribution a = []) \/ (length (a_distribution a) = 100%nat
    /\ foldr Z.add 0 (a_distribution a) = 10000 /\ Forall (fun n => 0 <= n) (a_distribution a)
    /\ g_distribution g = Some (a_distribution a) /\ g_start g = 0 /\ g_end g = no_region_end).
Proof.
  intros [_ _ _ _ _ Hd _ _ _ _ _ _]. unfold pack_distribution in Hd. destruct (g_distribution g) as [l|].
  2: { left. split; [done|]. by injection Hd as <-. }
  apply check_bind in Hd as [Hst Hd]. apply check_bind in Hd as [Hen Hd].
  apply check_bind in Hd as [Hlen Hd]. apply check_bind in Hd as [Hsum Hd].
  apply check_bind in Hd as [_ Hd]. apply res_mapM_inv in Hd. right.
  apply Nat.eqb_eq in Hlen. apply Z.eqb_eq in Hsum, Hst, Hen.
  assert (a_distribution a = l /\ Forall (fun n => 0 <= n) (a_distribution a)) as [-> ?]; [|by split_and!].
  clear Hlen Hsum Hst Hen. induction Hd as [|x y l k Hx Hd [-> Hall]]; [done|].
  apply to_uint_inv in Hx as [-> ?]. split; [done|]. constructor; [lia|done].
Qed.

Lemma ioworker_ops_sum cap p g : ioworker cap p = Ok g -> foldr Z.add 0 (snd <$> g_ops g) = 100.
Proof.
  unfold ioworker. cbv zeta. intros H. do 6 apply check_bind in H as [_ H].
  apply check_bind in H as [H7 H]. apply check_bind in H as [_ H].
  apply res_bind_inv in H as (n & _ & H). apply res_bind_inv in H as (s & _ & H).
  do 3 apply check_bind in H as [_ H]. injection H as <-. cbn. by apply Z.eqb_eq.
Qed.

Lemma ioworker_nonzero cap p g : ioworker cap p = Ok g ->
  Forall (fun x => x <> 0) (fst <$> g_sizes g) /\ Forall (fun x => x <> 0) (g_align g).
Proof.
  unfold ioworker. cbv zeta. intros H. do 8 apply check_bind in H as [_ H].
  apply res_bind_inv in H as (n & _ & H). apply res_bind_inv in H as (s & _ & H).
  apply check_bind in H as [_ H]. apply check_bind in H as [H1 H]. apply check_bind in H as [H2 H].
  injection H as <-. cbn. apply negb_true_iff in H1, H2. split; by apply existsb_zero_false.
Qed.

(** What adjusting does: the lists are kept, the region ends with the namespace,
    and the first LBA is not before the region. *)
Record adjusted (nsze : Z) (a a' : c_args) : Prop := {
  ad_ratio_sum : a_ratio_sum a' = a_ratio_sum a;
  ad_sizes : a_sizes a' = a_sizes a;
  ad_ops : a_ops a' = a_ops a;
  ad_dist : a_distribution a' = a_distribution a;
  ad_step : a_step a' = a_step a /\ a_step_valid a' = a_step_valid a;
  ad_random : a_random a' = a_random a;
  ad_sequence : a_sequence a' = a_sequence a;
  ad_start : ALIGN_UP (a_start a) (a_align_max a) = Ok (a_start a') /\ a_start a < a_end a;
  ad_end : a_end a' = Z.min nsze (a_end a);
  ad_count : a_io_count a' = (if a_io_count a =? 0 then 2 ^ 64 - 1 else a_io_count a);
  ad_qdepth : a_qdepth a' = wrap 32 ((if a_io_count a' <? a_qdepth a then wrap 32 (a_io_count a' + 1)
                                      else a_qdepth a) - 1);
  ad_lba : a_lba_start a' = (if a_lba_start a <? a_start a' then a_start a' else a_lba_start a)
}.

Lemma adjust_args_inv nsze sector max loglen a a' :
  adjust_args nsze sector max loglen a = Ok (inr a') -> adjusted nsze a a'.
Proof.
  unfold adjust_args. intros H. apply check_bind in H as [_ H]. apply check_bind in H as [Hlt H].
  do 2 apply check_bind in H as [_ H]. apply res_bind_inv in H as (sm & _ & H).
  destruct (max <? _); [done|]. cbv zeta in H.
  apply res_bind_inv in H as (rs & Hrs & H). injection H as <-. zbool_hyps. by split.
Qed.

(** Tables in which a random index finds every entry with its ratio: size [k]
    with its ratio of the sum, opcode [k] with its percentage and section [k]
    with its part of 10000. *)
Record tables_right (nsze : Z) (g : config) (a' : c_args) (t : tables) : Prop := {
  tr_sl_length : Z.of_nat (length (t_sl t)) = a_ratio_sum a';
  tr_sl : forall k, 0 <= k -> occurs k (t_sl t) = default 0 ((snd <$> g_sizes g) !! Z.to_nat k);
  tr_op_length : length (t_op t) = 100%nat;
  tr_op : Z.of_nat (length (g_ops g)) <= 256 -> forall k, 0 <= k ->
    occurs k (t_op t) = default 0 ((snd <$> g_ops g) !! Z.to_nat k);
  tr_no_dl : g_distribution g = None -> t_dl t = [];
  tr_dl : forall d, g_distribution g = Some d ->
    exists numbers, t_dl t = section nsze (a_end a') <$> numbers
      /\ Z.of_nat (length numbers) = 10000
      /\ forall k, 0 <= k -> occurs k numbers = default 0 (d !! Z.to_nat k)
}.

Lemma spread_fmap {A} (f : Z -> A) l : forall i, spread f i l = f <$> spread id i l.
Proof.
  induction l as [|n l IH]; intros i; [done|]. cbn [spread]. by rewrite fmap_app, fmap_replicate, IH.
Qed.

Lemma occurs_table l k : Forall (fun n => 0 <= n) l -> 0 <= k ->
  occurs k (spread id 0 l) = default 0 (l !! Z.to_nat k).
Proof. intros Hl Hk. rewrite occurs_spread, Z.sub_0_r by done. by destruct (Z.ltb_spec k 0); [lia|]. Qed.

Lemma iosize_table g a a' : packed g a -> a_ratio_sum a' = a_ratio_sum a -> a_sizes a' = a_sizes a ->
  ioworker_iosize_init a' = Ok (spread id 0 (snd <$> g_sizes g))
  /\ Z.of_nat (length (spread id 0 (snd <$> g_sizes g))) = a_ratio_sum a'.
Proof.
  intros Hp Hrs Hsz. pose proof (packed_ratios _ _ Hp) as [Hr Hr0]. rewrite Hr in Hr0.
  assert (Hr' : ratios a' = snd <$> g_sizes g) by (unfold ratios in *; by rewrite Hsz).
  pose proof (pk_small _ _ Hp) as Hsm. pose proof (pk_sum _ _ Hp) as Hsum.
  unfold ioworker_iosize_init. rewrite Hr', Hrs, Hsum in *. zbool. mrun.
  rewrite fill_table_run by (done || cbn; lia). cbn [app mbind res_bind]. rewrite length_spread by done. by zbool.
Qed.

Lemma op_table cap p g a a' : ioworker cap p = Ok g -> packed g a -> a_ops a' = a_ops a ->
  op_table_init a' = Ok (spread (wrap 8) 0 (snd <$> g_ops g))
  /\ length (spread (wrap 8) 0 (snd <$> g_ops g)) = 100%nat.
Proof.
  intros Hw Hp Hops. pose proof (packed_ops _ _ Hp) as [Ho Ho0]. pose proof (ioworker_ops_sum _ _ _ Hw) as Hsum.
  unfold op_table_init. rewrite Hops, Ho in *.
  rewrite fill_table_run by (done || cbn; lia). cbn [app mbind res_bind]. rewrite length_spread, Hsum by done.
  split; [done|]. apply Nat2Z.inj. by rewrite length_spread.
Qed.

Lemma distribution_table nsze g a a' : packed g a -> a_distribution a' = a_distribution a ->
  exists dl, match a_distribution a' with [] => Ok [] | _ => ioworker_distribution_init nsze a' end = Ok dl
    /\ (g_distribution g = None -> dl = [])
    /\ (forall d, g_distribution g = Some d -> exists numbers, dl = section nsze (a_end a') <$> numbers
          /\ Z.of_nat (length numbers) = 10000
          /\ forall k, 0 <= k -> occurs k numbers = default 0 (d !! Z.to_nat k)).
Proof.
  intros Hp Hdist. destruct (packed_distribution _ _ Hp) as [[Hg Hd]|(Hd1 & Hd2 & Hd3 & Hd4 & _)].
  { rewrite Hdist, Hd, Hg. by exists []. }
  exists (spread (section nsze (a_end a')) 0 (a_distribution a)). rewrite Hd4. split_and!; [|done|].
  - rewrite Hdist. destruct (a_distribution a) eqn:E; [done|]. rewrite <- E in *.
    unfold ioworker_distribution_init. rewrite Hdist, take_ge by lia.
    rewrite fill_table_run by (done || cbn; lia). cbn [app mbind res_bind]. by rewrite length_spread, Hd2 by done.
  - intros d [= <-]. exists (spread id 0 (a_distribution a)). split_and!.
    + apply spread_fmap.
    + by rewrite length_spread.
    + intros k Hk. by apply occurs_table.
Qed.

Lemma worker_tables_run cap p g a nsze sector max loglen a' :
  ioworker cap p = Ok g -> pack_args g = Ok a -> adjust_args nsze sector max loglen a = Ok (inr a') ->
  exists t, build_tables nsze a' = Ok t /\ tables_right nsze g a' t.
Proof.
  intros Hw Hp Had. apply pack_args_inv in Hp.
  apply adjust_args_inv in Had as [Hrs Hsz Hops Hdist _ _ _ _ _ _ _ _].
  destruct (distribution_table nsze _ _ a' Hp Hdist) as (dl & Hdl & Hdn & Hds).
  destruct (iosize_table _ _ a' Hp Hrs Hsz) as [Hsl Lsl]. destruct (op_table _ _ _ _ a' Hw Hp Hops) as [Hop Lop].
  unfold build_tables. rewrite Hdl, Hsl, Hop. eexists. split; [reflexivity|].
  assert (Hr0 : Forall (fun n => 0 <= n) (snd <$> g_sizes g)) by (pose proof (packed_ratios _ _ Hp) as [<- ?]; done).
  assert (Ho0 : Forall (fun n => 0 <= n) (snd <$> g_ops g)) by (pose proof (packed_ops _ _ Hp) as [<- ?]; done).
  split; cbn [t_sl t_op t_dl]; try done.
  - intros k Hk. by apply occurs_table.
  - intros Hlen k Hk. rewrite (spread_ext _ id); [by apply occurs_table|].
    intros j Hj. rewrite length_fmap in Hj. unfold wrap, id. apply Z.mod_small. eval_pow. lia.
Qed.

(** *** Adjusting does not fail *)

Lemma foldl_max_in l : forall x, foldl Z.max x l ∈ x :: l.
Proof.
  induction l as [|y l IH]; intros x; cbn [foldl]; [apply list_elem_of_here|].
  specialize (IH (Z.max x y)). apply list_elem_of_In in IH. apply list_elem_of_In.
  cbn in *. destruct IH as [E|E]; [|by auto]. destruct (Z.max_spec x y) as [[_ H]|[_ H]]; rewrite H in *; auto.
Qed.

Lemma py_max_in l m : py_max l = Ok m -> m ∈ l.
Proof. destruct l as [|x l]; [done|]. intros [= <-]. apply foldl_max_in. Qed.

(** The numbers whose zero would stop the worker. *)
Lemma packed_limits cap p g a : ioworker cap p = Ok g -> pack_args g = Ok a ->
  a_size_max a <> 0 /\ a_align_max a <> 0 /\ a_start a < a_end a /\ a_qdepth a <= CMD_LOG_HALF.
Proof.
  intros Hw Hp. pose proof (pack_args_inv _ _ Hp) as Hpk. destruct (ioworker_nonzero _ _ _ Hw) as [Hz1 Hz2].
  destruct (pk_start _ _ Hpk) as [-> _], (pk_end _ _ Hpk) as [-> _].
  assert (g_start g < g_end g /\ g_qdepth g <= 1024) as [Hreg Hq].
  { revert Hw. unfold ioworker. cbv zeta. intros [H1 H]%check_bind. apply check_bind in H as [_ H].
    apply check_bind in H as [H2 H]. do 5 apply check_bind in H as [_ H].
    apply res_bind_inv in H as (n & _ & H). apply res_bind_inv in H as (s & _ & H).
    do 3 apply check_bind in H as [_ H]. injection H as <-. cbn. lia. }
  revert Hp. unfold pack_args. intros [_ H]%check_bind.
  apply res_bind_inv in H as (m1 & M1 & H). apply res_bind_inv in H as (x1 & X1 & H).
  apply res_bind_inv in H as (m2 & M2 & H). apply res_bind_inv in H as (x2 & X2 & H).
  do 3 (apply res_bind_inv in H as (? & _ & H) || apply check_bind in H as [_ H]).
  do 11 apply res_bind_inv in H as (? & _ & H). apply res_bind_inv in H as (q & Hqd & H).
  do 2 apply res_bind_inv in H as (? & _ & H). injection H as <-. cbn [a_size_max a_align_max a_qdepth].
  apply to_uint_inv in X1 as [-> _], X2 as [-> _], Hqd as [-> _]. apply py_max_in in M1, M2.
  unfold CMD_LOG_HALF. split_and!; [exact (proj1 (list.Forall_forall _ _) Hz1 _ M1)|exact (proj1 (list.Forall_forall _ _) Hz2 _ M2)|done|lia].
Qed.

(** The largest command that the worker plans for, in blocks. *)
Definition largest (sector max : Z) (a : c_args) : Z :=
  match a_sequence a with [] => a_size_max a | _ => max / sector end.

Lemma adjust_args_runs cap p g a nsze sector max loglen :
  ioworker cap p = Ok g -> pack_args g = Ok a -> 0 < sector -> loglen < 1024 * 1024 ->
  if max <? wrap 32 (largest sector max a * sector) then adjust_args nsze sector max loglen a = Ok (inl (-2))
  else exists a', adjust_args nsze sector max loglen a = Ok (inr a').
Proof.
  intros Hw Hp Hs Hll. destruct (packed_limits _ _ _ _ Hw Hp) as (H1 & H2 & H3 & H4).
  unfold adjust_args, ALIGN_UP, largest. zbool. mrun.
  destruct (a_sequence a); zbool; mrun; (destruct (max <? _); [done|by eexists]).
Qed.

(** C24. A worker that [Namespace.ioworker] creates and whose arguments pack
    gets its tables, without an assertion failing or a table being overrun, if
    its [output_cmdlog_list] has less than 2^20 entries.  Its start is refused
    with -2 exactly when the bytes of its largest command, as a 32-bit number,
    are more than the largest transfer; otherwise the tables are built, in which
    a random index finds every size, opcode (there are at most 256) and section
    with its ratio. *)
Theorem worker_tables cap p g a nsze sector max loglen :
  ioworker cap p = Ok g -> pack_args g = Ok a -> 0 < sector -> loglen < 1024 * 1024 ->
  if max <? wrap 32 (largest sector max a * sector) then adjust_args nsze sector max loglen a = Ok (inl (-2))
  else exists a' t, adjust_args nsze sector max loglen a = Ok (inr a') /\ build_tables nsze a' = Ok t
    /\ tables_right nsze g a' t.
Proof.
  intros Hw Hp Hs Hll. pose proof (adjust_args_runs cap p g a nsze sector max loglen Hw Hp Hs Hll) as H.
  destruct (max <? _); [done|]. destruct H as [a' Had].
  destruct (worker_tables_run _ _ _ _ _ _ _ _ _ Hw Hp Had) as (t & Ht & Hr). by exists a', t.
Qed.

(** ** Every command stays in its region *)

(** Adjusted arguments and tables that are consistent: every alignment divides
    the start of the region, and a step does not go backwards. *)
Record worker_ok (a : c_args) (t : tables) : Prop := {
  wo_region : 0 <= a_start a < a_end a;
  wo_end : a_end a < 2 ^ 63;
  wo_sizes : Forall (fun e => 1 <= fst (fst e) < 65536 /\ 1 <= snd e < 65536 /\ a_start a mod snd e = 0)
               (a_sizes a);
  wo_sum : 0 < a_ratio_sum a;
  wo_sl : Z.of_nat (length (t_sl t)) = a_ratio_sum a
          /\ Forall (fun i => 0 <= i < Z.of_nat (length (a_sizes a))) (t_sl t);
  wo_op : Z.of_nat (length (t_op t)) = 100
          /\ Forall (fun i => 0 <= i < Z.of_nat (length (a_ops a))) (t_op t);
  wo_step : a_step_valid a = true -> 0 <= a_step a < 2 ^ 15;
  wo_dl : a_distribution a <> [] -> Z.of_nat (length (t_dl t)) = 10000
          /\ Forall (fun e => a_start a <= fst e <= snd e /\ fst e < a_end a /\ snd e <= a_end a) (t_dl t)
}.

Definition rnd_ok (r : rnd) : Prop :=
  0 <= r_op r /\ 0 <= r_size r /\ 0 <= r_percent r /\ 0 <= r_section r /\ 0 <= r_lba r.

(** Skipping uncorrectable blocks does not leave the region. *)
Definition skips_inside (ns : nstab) (a : c_args) : Prop :=
  forall l, a_start a <= l < a_end a ->
    exists l', crc32_skip_uncorr ns l = Ok l' /\ l <= l' < a_end a.

Lemma skips_inside_no_table ns a : nt_crc ns = None -> skips_inside ns a.
Proof. intros H l Hl. exists l. unfold crc32_skip_uncorr. rewrite H. split; [done|lia]. Qed.

Lemma entry_run {A} (l : list A) (P : A -> Prop) i :
  Forall P l -> 0 <= i < Z.of_nat (length l) -> exists x, entry l i = Ok x /\ P x /\ x ∈ l.
Proof.
  intros H Hi. unfold entry. destruct (l !! Z.to_nat i) as [x|] eqn:E; [|apply lookup_ge_None in E; lia].
  exists x. split; [done|]. split; [exact (Forall_lookup_1 _ _ _ _ H E)|]. by apply list_elem_of_lookup_2 in E.
Qed.

(** Rounding up, or down again when that leaves the region. *)
Lemma align_in_region start end_ al ret :
  0 <= start < end_ -> end_ < 2 ^ 63 -> 1 <= al < 65536 -> start mod al = 0 -> start <= ret < end_ ->
  exists lba, (ret ← ALIGN_UP ret al;
               if end_ <=? ret then ret ← ALIGN_DOWN (wrap 64 (ret - 1)) al;
                                    check (ret <? end_) CAbort ;; Ok ret
               else Ok ret) = Ok lba
    /\ start <= lba < end_ /\ lba mod al = 0.
Proof.
  intros Hs He Hal Hm Hr. unfold ALIGN_UP, ALIGN_DOWN. zbool. mrun.
  pose proof (Z.div_mod start al ltac:(lia)) as Ds. pose proof (Z.div_mod ret al ltac:(lia)) as Dr.
  pose proof (Z.mod_pos_bound ret al ltac:(lia)) as Br.
  set (q := start / al) in *. set (p := ret / al) in *. set (m := ret mod al) in *. rewrite Hm in Ds.
  assert (Hqp : q <= p) by (apply Z.div_le_mono; lia).
  destruct (Z.eqb_spec m 0) as [E|E].
  { zbool. exists ret. split; [done|]. split; [lia|]. exact E. }
  assert (Hup : wrap 64 (ret + al - m) = al * (p + 1)).
  { unfold wrap. rewrite Z.mod_small by (revert He; eval_pow; lia). lia. }
  rewrite Hup. destruct (Z.leb_spec end_ (al * (p + 1))) as [Hge|Hlt].
  - assert (Hdown : wrap 64 (al * (p + 1) - 1) - wrap 64 (al * (p + 1) - 1) mod al = al * p).
    { unfold wrap. rewrite (Z.mod_small (al * (p + 1) - 1)) by (revert He; eval_pow; nia).
      rewrite <- (Z.mod_unique (al * (p + 1) - 1) al p (al - 1)) by lia. lia. }
    rewrite Hdown. zbool. exists (al * p). split; [done|]. split; [nia|].
    rewrite Z.mul_comm. apply Z_mod_mult.
  - exists (al * (p + 1)). split; [done|]. split; [nia|]. rewrite Z.mul_comm. apply Z_mod_mult.
Qed.

Lemma random_in_region a t r : worker_ok a t -> rnd_ok r ->
  exists lba, ioworker_send_one_lba_random a t r = Ok lba /\ a_start a <= lba < a_end a.
Proof.
  intros [Hreg _ _ _ _ _ _ Hdl] (_ & _ & _ & Hsec & Hlba). unfold ioworker_send_one_lba_random.
  assert (exists s e, (match a_distribution a with [] => Ok (a_start a, a_end a)
      | _ => entry (t_dl t) (r_section r mod 10000) end) = Ok (s, e)
      /\ a_start a <= s <= e /\ s < a_end a /\ e <= a_end a) as (s & e & Hb & Hse & Hs & He).
  { destruct (a_distribution a) as [|d l] eqn:Ed; [exists (a_start a), (a_end a); split; [done|lia]|].
    destruct Hdl as [Hlen Hall]; [done|].
    destruct (entry_run _ _ (r_section r mod 10000) Hall) as ([s e] & Hr & Hb & _); [rewrite Hlen; divmod|].
    exists s, e. split; [done|]. cbn in Hb. lia. }
  rewrite Hb. cbn [mbind res_bind]. destruct (Z.eqb_spec e s); [exists s; split; [done|lia]|]. zbool. mrun.
  eexists. split; [reflexivity|]. pose proof (Z.mod_pos_bound (r_lba r) (e - s) ltac:(lia)). lia.
Qed.

Lemma send_one_lba_in_region ns a t seq r al n :
  worker_ok a t -> skips_inside ns a -> rnd_ok r -> a_start a <= seq < 2 ^ 64 ->
  1 <= al < 65536 -> a_start a mod al = 0 -> 1 <= n < 65536 ->
  exists lba seq', ioworker_send_one_lba ns a t seq r al n = Ok (lba, seq')
    /\ a_start a <= lba < a_end a /\ lba mod al = 0 /\ a_start a <= seq' < 2 ^ 64.
Proof.
  intros Hok Hskip Hr Hseq Hal Hm Hn. destruct (random_in_region a t r Hok Hr) as (rl & Hrl & Hrr).
  destruct Hok as [Hreg Hend _ _ _ _ Hstep _]. unfold ioworker_send_one_lba.
  assert (Hw : wrap 16 n = n) by (unfold wrap; apply Z.mod_small; eval_pow; lia). rewrite Hw.
  set (rd := r_percent r mod 100 <? a_random a).
  assert (exists ret, (if rd then ioworker_send_one_lba_random a t r
      else crc32_skip_uncorr ns (ioworker_send_one_lba_sequential a seq)) = Ok ret
      /\ a_start a <= ret < a_end a) as (ret & Hret & Hin).
  { destruct rd; [by exists rl|]. unfold ioworker_send_one_lba_sequential.
    destruct (Z.leb_spec (a_end a) seq).
    - destruct (Hskip (a_start a)) as (l & ? & ?); [lia|]. exists l. split; [done|lia].
    - destruct (Hskip seq) as (l & ? & ?); [lia|]. exists l. split; [done|lia]. }
  rewrite Hret. cbn [mbind res_bind].
  destruct (align_in_region (a_start a) (a_end a) al ret) as (lba & Hl & Hlr & Hlm); [lia..|].
  unfold mbind, res_bind in Hl |- *. destruct (ALIGN_UP ret al) as [u|]; [|done]. rewrite Hl.
  do 2 eexists. split; [reflexivity|]. split; [done|]. split; [done|].
  unfold wrap. revert Hend. destruct rd; [lia|]. destruct (a_step_valid a).
  - specialize (Hstep eq_refl). revert Hstep. eval_pow. intros. rewrite Z.mod_small; lia.
  - eval_pow. intros. rewrite Z.mod_small; lia.
Qed.

Lemma next_io_run ns a t seq r :
  worker_ok a t -> skips_inside ns a -> rnd_ok r -> a_start a <= seq < 2 ^ 64 ->
  exists o seq', next_io ns a t seq r None = Ok (o, seq') /\ a_start a <= seq' < 2 ^ 64
    /\ a_start a <= io_lba o < a_end a /\ 1 <= io_count o /\ io_lba o + io_count o <= a_end a
    /\ exists s ratio al, (s, ratio, al) ∈ a_sizes a /\ io_count o = Z.min s (a_end a - io_lba o)
         /\ io_lba o mod al = 0.
Proof.
  intros Hok Hskip Hr Hseq. pose proof Hok as [Hreg Hend Hsz Hsum [Hsl1 Hsl2] [Hop1 Hop2] _ _].
  pose proof Hr as (Hr1 & Hr2 & _). unfold next_io, ioworker_send_one_size, c_mod.
  destruct (entry_run _ _ (r_op r mod 100) Hop2) as (oi & Ho & Hoi & _); [rewrite Hop1; divmod|].
  rewrite Ho. zbool. mrun.
  destruct (entry_run _ _ (r_size r mod a_ratio_sum a) Hsl2) as (si & Hs & Hsi & _);
    [rewrite Hsl1; apply Z.mod_pos_bound; lia|]. rewrite Hs.
  destruct (entry_run _ _ si Hsz Hsi) as ([[s ratio] al] & He & (Hs1 & Ha1 & Hm) & Hin). rewrite He.
  cbn [fst snd] in Hs1, Ha1, Hm.
  assert (exists op, entry (a_ops a) oi = Ok op) as [op Hop].
  { unfold entry. destruct (a_ops a !! Z.to_nat oi) eqn:E; [by eexists|]. apply lookup_ge_None in E. lia. }
  rewrite Hop. assert (Hwa : wrap 16 al = al) by (unfold wrap; apply Z.mod_small; eval_pow; lia). rewrite Hwa.
  destruct (send_one_lba_in_region ns a t seq r al s) as (lba & seq' & Hl & Hlr & Hlm & Hs'); [done..|].
  rewrite Hl. assert (Hw64 : wrap 64 (a_end a - lba) = a_end a - lba).
  { unfold wrap. apply Z.mod_small. revert Hend. eval_pow. lia. }
  rewrite Hw64. assert (Hw32 : wrap 32 (Z.min s (a_end a - lba)) = Z.min s (a_end a - lba)).
  { unfold wrap. apply Z.mod_small. eval_pow. lia. }
  rewrite Hw32. zbool. do 2 eexists. split; [reflexivity|]. cbn [io_lba io_count].
  split_and!; try lia. by exists s, ratio, al.
Qed.

(** ** Workers created from Python *)

(** A number of commands in a row, without a sequence to replay. *)
Fixpoint next_ios (ns : nstab) (a : c_args) (t : tables) (sequential_lba : Z) (rs : list rnd)
    : res (list io * Z) :=
  match rs with
  | [] => Ok ([], sequential_lba)
  | r :: rs' =>
      o ← next_io ns a t sequential_lba r None;
      l ← next_ios ns a t (snd o) rs';
      Ok (fst o :: fst l, snd l)
  end.

(** Indices of a spread table. *)
Lemma spread_range l : forall i, Forall (fun x => i <= x < i + Z.of_nat (length l)) (spread id i l).
Proof.
  induction l as [|n l IH]; intros i; cbn [spread length]; [constructor|].
  apply Forall_app. split; [apply Forall_replicate; unfold id; lia|].
  eapply Forall_impl; [|exact (IH (i + 1))]. cbn. lia.
Qed.

Lemma spread_ops_range l : Z.of_nat (length l) <= 256 ->
  Forall (fun x => 0 <= x < Z.of_nat (length l)) (spread (wrap 8) 0 l).
Proof.
  intros H. rewrite (spread_ext _ id); [apply (spread_range l 0)|].
  intros j Hj. unfold wrap, id. apply Z.mod_small. eval_pow. lia.
Qed.

(** The sections of a namespace lie in it. *)
Lemma spread_sections nsze l : 0 < nsze -> Forall (fun n => 0 <= n) l -> forall i, 0 <= i ->
  i + Z.of_nat (length l) <= 100 ->
  Forall (fun e => 0 <= fst e <= snd e /\ fst e < nsze /\ snd e <= nsze) (spread (section nsze nsze) i l).
Proof.
  intros Hn Hl. induction Hl as [|n l _ _ IH]; intros i Hi Hlen; cbn [spread length] in *; [constructor|].
  apply Forall_app. split; [|apply IH; lia]. apply Forall_replicate. unfold section. cbn [fst snd].
  assert (0 <= nsze / 100 /\ 100 * (nsze / 100) <= nsze) by divmod.
  assert (nsze / 100 * i < nsze) by (destruct (Z.eq_dec (nsze / 100) 0) as [->|]; nia).
  destruct (Z.eqb_spec i 99); [nia|]. split_and!; nia.
Qed.

Lemma build_tables_inv nsze a t : build_tables nsze a = Ok t ->
  Forall (fun n => 0 <= n) (ratios a) -> Forall (fun n => 0 <= n) (snd <$> a_ops a) ->
  Forall (fun n => 0 <= n) (a_distribution a) ->
  t_sl t = spread id 0 (ratios a) /\ Z.of_nat (length (t_sl t)) = a_ratio_sum a
  /\ t_op t = spread (wrap 8) 0 (snd <$> a_ops a) /\ Z.of_nat (length (t_op t)) = 100
  /\ (a_distribution a <> [] -> t_dl t = spread (section nsze (a_end a)) 0 (take 100 (a_distribution a))
        /\ Z.of_nat (length (t_dl t)) = 10000).
Proof.
  intros H Hr Ho Hd. unfold build_tables in H. apply res_bind_inv in H as (dl & Hdl & H).
  apply res_bind_inv in H as (sl & Hsl & H). apply res_bind_inv in H as (op & Hop & H). injection H as <-.
  cbn [t_sl t_op t_dl]. unfold ioworker_iosize_init in Hsl. apply check_bind in Hsl as [_ Hsl].
  apply res_bind_inv in Hsl as (x & Hx & Hsl). apply check_bind in Hsl as [Hlen [= <-]].
  unfold op_table_init in Hop. apply res_bind_inv in Hop as (y & Hy & Hop). apply check_bind in Hop as [Hlen2 [= <-]].
  apply fill_table_inv in Hx; [|done]. apply fill_table_inv in Hy; [|done]. cbn [app] in Hx, Hy. zbool_hyps.
  split_and!; try done. intros Hne. destruct (a_distribution a) as [|d l] eqn:Ed; [done|].
  unfold ioworker_distribution_init in Hdl. rewrite Ed in Hdl.
  apply res_bind_inv in Hdl as (z & Hz & Hdl). apply check_bind in Hdl as [Hlen3 [= <-]]. zbool_hyps.
  apply fill_table_inv in Hz; [|by apply Forall_take]. done.
Qed.

Lemma ALIGN_UP_range n a m : ALIGN_UP n a = Ok m -> 0 <= n < 2 ^ 64 -> 0 <= m < 2 ^ 64.
Proof.
  unfold ALIGN_UP. intros [_ H]%check_bind Hn. injection H as <-. destruct (n mod a =? 0); [done|].
  unfold wrap. apply Z.mod_pos_bound. lia.
Qed.

Lemma packed_sizes g a (P : Z -> Prop) : packed g a ->
  Forall (fun x => x <> 0) (fst <$> g_sizes g) -> Forall (fun x => x <> 0) (g_align g) -> Forall P (g_align g) ->
  Forall (fun e => 1 <= fst (fst e) < 65536 /\ 1 <= snd e < 65536 /\ P (snd e)) (a_sizes a).
Proof.
  intros Hp. pose proof (pk_sizes _ _ Hp) as Hsz. pose proof (pk_len _ _ Hp) as Hl.
  apply res_mapM_inv in Hsz. revert Hsz Hl. clear Hp. generalize (g_align g) (a_sizes a).
  induction (g_sizes g) as [|[s r] sz IH]; intros als k Hk Hl H1 H2 H3.
  { destruct als; inversion Hk; constructor. }
  destruct als as [|al als]; [done|]. cbn in Hk. inversion Hk as [|? e ? k' He Hk']. subst.
  rewrite fmap_cons in H1. apply Forall_cons_1 in H1 as [H1 H1'], H2 as [H2 H2'], H3 as [H3 H3'].
  apply pack_size_inv in He as (-> & Hs & _ & Hal). cbn [fst snd] in *. constructor; [cbn; split_and!; (lia || done)|].
  apply (IH als k'); try done. cbn in Hl. lia.
Qed.

(** What is left to the caller: the alignments divide the start of the adjusted
    region, which is not empty, and the step does not go backwards. *)
Record region_ok (nsze : Z) (g : config) (a' : c_args) : Prop := {
  ro_nsze : 0 < nsze < 2 ^ 63;
  ro_region : a_start a' < a_end a';
  ro_align : Forall (fun al => a_start a' mod al = 0) (g_align g);
  ro_step : forall z, g_step g = Some z -> 0 <= z;
  ro_sum : 0 < a_ratio_sum a';
  ro_ops : Z.of_nat (length (g_ops g)) <= 256
}.

Lemma worker_ok_python cap p g a nsze sector max loglen a' t :
  ioworker cap p = Ok g -> pack_args g = Ok a -> adjust_args nsze sector max loglen a = Ok (inr a') ->
  build_tables nsze a' = Ok t -> region_ok nsze g a' ->
  worker_ok a' t /\ a_start a' <= a_lba_start a' < 2 ^ 64.
Proof.
  intros Hw Hp Had Hb [Hn Hreg Hal Hst Hsum Hops]. apply pack_args_inv in Hp. apply adjust_args_inv in Had.
  pose proof (packed_ratios _ _ Hp) as [Hr Hr0]. pose proof (packed_ops _ _ Hp) as [Ho Ho0].
  destruct (ioworker_nonzero _ _ _ Hw) as [Hnz1 Hnz2].
  destruct Had as [_ Hsz Hops' Hdist [Hs1 Hs2] _ _ [Hup Hlt] Hend _ _ Hlba].
  assert (Hr' : ratios a' = ratios a) by (unfold ratios; by rewrite Hsz).
  pose proof (pk_start _ _ Hp) as [Hps Hps0]. rewrite Hps in *.
  pose proof (ALIGN_UP_range _ _ _ Hup Hps0) as Hstart. pose proof (pk_lba _ _ Hp) as Hl64.
  assert (Hd0 : Forall (fun n => 0 <= n) (a_distribution a)).
  { destruct (packed_distribution _ _ Hp) as [[_ ->]|(_ & _ & ? & _ & _)]; [constructor|done]. }
  destruct (build_tables_inv _ _ _ Hb) as (Tsl & Lsl & Top & Lop & Tdl);
    [by rewrite Hr'|by rewrite Hops'|by rewrite Hdist|].
  split; [|rewrite Hlba; destruct (_ <? _) eqn:E; lia]. split; try done; try lia.
  - rewrite Hsz. by apply (packed_sizes g a (fun al => a_start a' mod al = 0)).
  - split; [done|]. rewrite Tsl, Hr', Hsz. unfold ratios.
    pose proof (spread_range ((fun e : Z * Z * Z => snd (fst e)) <$> a_sizes a) 0) as H. by rewrite length_fmap in H.
  - split; [done|]. rewrite Top, Hops', Ho.
    pose proof (spread_ops_range (snd <$> g_ops g)) as H. rewrite length_fmap in H. by apply H.
  - pose proof (pk_step _ _ Hp) as (E1 & Hb1 & E2). rewrite Hs1, Hs2, E2, E1 in *.
    destruct (g_step g) as [z|]; [|done]. intros _. cbn in *. specialize (Hst z eq_refl). lia.
  - intros Hne. destruct (Tdl Hne) as [Tdl' Ldl]. split; [done|]. rewrite Tdl', Hdist.
    destruct (packed_distribution _ _ Hp) as [[_ E]|(Hl100 & _ & _ & _ & Hg0 & Hge)]; [by rewrite Hdist, E in Hne|].
    pose proof (pk_end _ _ Hp) as [Hpe _]. assert (Ee : a_end a' = nsze) by (rewrite Hend, Hpe, Hge; unfold no_region_end; lia).
    assert (Es : a_start a' = 0).
    { unfold ALIGN_UP in Hup. apply check_bind in Hup as [_ Hup]. rewrite Hg0, Zmod_0_l in Hup. by injection Hup. }
    rewrite Ee, Es, take_ge by lia. apply spread_sections; [lia|done|lia|lia].
Qed.

Lemma next_ios_run ns a t rs : worker_ok a t -> skips_inside ns a -> Forall rnd_ok rs ->
  forall seq, a_start a <= seq < 2 ^ 64 ->
  exists l seq', next_ios ns a t seq rs = Ok (l, seq') /\ length l = length rs
    /\ Forall (fun o => a_start a <= io_lba o < a_end a /\ 1 <= io_count o /\ io_lba o + io_count o <= a_end a
         /\ exists s ratio al, (s, ratio, al) ∈ a_sizes a /\ io_count o = Z.min s (a_end a - io_lba o)
              /\ io_lba o mod al = 0) l.
Proof.
  intros Hok Hskip Hrs. induction Hrs as [|r rs Hr _ IH]; intros seq Hseq; cbn [next_ios];
    [exists [], seq; split_and!; [done..|constructor]|].
  destruct (next_io_run ns a t seq r) as (o & seq1 & Ho & Hs1 & H1 & H2 & H3 & H4); [done..|].
  rewrite Ho. destruct (IH seq1 Hs1) as (l & seq' & Hl & Hlen & Hall).
  cbn [mbind res_bind fst snd]. rewrite Hl. exists (o :: l), seq'. split; [done|]. split; [cbn; lia|].
  constructor; [|done]. exact (conj H1 (conj H2 (conj H3 H4))).
Qed.

(** C25. An I/O worker stays in its region: for a worker that
    [Namespace.ioworker] creates and whose region, adjusted to the namespace,
    is not empty and starts at a multiple of every alignment, whatever the
    random numbers are, every command starts at a multiple of the alignment of
    its size, has at least one block and no more than its size, and lies
    between the start and the end of the region; no assertion fails.  Skipping
    uncorrectable blocks must not pass the end of the region, and a step must
    not be negative. *)
Theorem worker_stays_in_region cap p g a nsze sector max loglen a' t ns rs :
  ioworker cap p = Ok g -> pack_args g = Ok a -> adjust_args nsze sector max loglen a = Ok (inr a') ->
  build_tables nsze a' = Ok t -> region_ok nsze g a' -> skips_inside ns a' -> Forall rnd_ok rs ->
  exists l seq', next_ios ns a' t (a_lba_start a') rs = Ok (l, seq') /\ length l = length rs
    /\ Forall (fun o => a_start a' <= io_lba o /\ 1 <= io_count o /\ io_lba o + io_count o <= a_end a'
         /\ exists s ratio al, (s, ratio, al) ∈ a_sizes a' /\ io_count o = Z.min s (a_end a' - io_lba o)
              /\ io_lba o mod al = 0) l.
Proof.
  intros Hw Hp Had Hb Hro Hskip Hrs.
  destruct (worker_ok_python _ _ _ _ _ _ _ _ _ _ Hw Hp Had Hb Hro) as [Hok Hl].
  destruct (next_ios_run ns a' t rs Hok Hskip Hrs (a_lba_start a') Hl) as (l & seq' & Hr & Hlen & Hall).
  exists l, seq'. split; [done|]. split; [done|]. eapply Forall_impl; [|exact Hall]. cbn. tauto.
Qed.

(** ** One pass over the region *)

(** The commands of one pass with [size] blocks each. *)
Definition pass_io (start stop size k : Z) : Z * Z :=
  (start + k * size, Z.min size (stop - (start + k * size))).

Lemma ALIGN_UP_1 n : ALIGN_UP n 1 = Ok n.
Proof. unfold ALIGN_UP. rewrite Z.mod_1_r. done. Qed.

Lemma sequential_step ns a t r s k :
  worker_ok a t -> (forall l, a_start a <= l < a_end a -> crc32_skip_uncorr ns l = Ok l) ->
  rnd_ok r -> a_random a = 0 -> a_step_valid a = false -> a_sizes a = [(s, 1, 1)] -> 0 <= k ->
  a_start a + k * s < a_end a ->
  exists o, next_io ns a t (a_start a + k * s) r None = Ok (o, a_start a + (k + 1) * s)
    /\ (io_lba o, io_count o) = pass_io (a_start a) (a_end a) s k.
Proof.
  intros Hok Hskip Hr Hrd Hstep Hsz Hk Hlt.
  assert (Hs : 1 <= s < 65536).
  { pose proof (wo_sizes _ _ Hok) as H. rewrite Hsz in H. apply Forall_cons_1 in H as [(H & _) _]. exact H. }
  pose proof (wo_region _ _ Hok) as Hreg. pose proof (wo_end _ _ Hok) as Hend.
  assert (Hin : a_start a <= a_start a + k * s < a_end a) by nia.
  destruct (next_io_run ns a t (a_start a + k * s) r) as (o & seq' & Ho & _ & _ & Hc1 & _ & s' & ra & al & Hmem & Hc & _);
    [done|intros l Hl; exists l; split; [by apply Hskip|lia]|done|revert Hend; eval_pow; lia|].
  rewrite Hsz in Hmem. apply list_elem_of_singleton in Hmem as [= -> -> ->].
  assert (Hlba : io_lba o = a_start a + k * s /\ seq' = a_start a + (k + 1) * s).
  { revert Ho. unfold next_io. intros Ho. apply res_bind_inv in Ho as (oi & _ & Ho).
    apply res_bind_inv in Ho as ([n al] & Hsize & Ho). apply res_bind_inv in Ho as (op & _ & Ho).
    apply res_bind_inv in Ho as ([lba sq] & Hl & Ho). apply check_bind in Ho as [_ [= <- <-]]. cbn [io_lba].
    assert (n = s /\ al = 1) as [-> ->].
    { unfold ioworker_send_one_size in Hsize. apply res_bind_inv in Hsize as (i & _ & Hsize).
      apply res_bind_inv in Hsize as (si & _ & Hsize). apply res_bind_inv in Hsize as ([[n' ra] al'] & He & Hsize).
      injection Hsize as -> <-. rewrite Hsz in He. unfold entry in He.
      destruct (Z.to_nat si) as [|j]; cbn in He; [by injection He as <- <- <-|]. by destruct j. }
    revert Hl. unfold ioworker_send_one_lba, ioworker_send_one_lba_sequential. rewrite Hrd, Hstep.
    destruct (Z.ltb_spec (r_percent r mod 100) 0); [destruct Hr as (_ & _ & ? & _); divmod|].
    zbool. rewrite Hskip by done. mrun. rewrite ALIGN_UP_1. zbool.
    intros [= <- <-]. split; [done|]. rewrite !wrap_small; [lia|eval_pow; lia|]. 
    rewrite wrap_small by (eval_pow; lia). revert Hend. eval_pow. lia. }
  destruct Hlba as [Hl ->]. exists o. split; [done|]. unfold pass_io. by rewrite Hc, Hl.
Qed.

Lemma sequential_run ns a t s rs :
  worker_ok a t -> (forall l, a_start a <= l < a_end a -> crc32_skip_uncorr ns l = Ok l) ->
  a_random a = 0 -> a_step_valid a = false -> a_sizes a = [(s, 1, 1)] -> Forall rnd_ok rs ->
  forall k, 0 <= k -> (k + Z.of_nat (length rs) - 1) * s < a_end a - a_start a ->
  exists l, next_ios ns a t (a_start a + k * s) rs = Ok (l, a_start a + (k + Z.of_nat (length rs)) * s)
    /\ (fun o => (io_lba o, io_count o)) <$> l
       = pass_io (a_start a) (a_end a) s <$> seqZ k (Z.of_nat (length rs)).
Proof.
  intros Hok Hskip Hrd Hstep Hsz Hrs. induction Hrs as [|r rs Hr _ IH]; intros k Hk Hlt; cbn [next_ios length].
  { exists []. rewrite Z.add_0_r. done. }
  assert (Hs : 1 <= s < 65536).
  { pose proof (wo_sizes _ _ Hok) as H. rewrite Hsz in H. apply Forall_cons_1 in H as [(H & _) _]. exact H. }
  destruct (sequential_step ns a t r s k) as (o & Ho & Hio); [done..|cbn [length] in Hlt; nia|].
  rewrite Ho. cbn [mbind res_bind fst snd]. destruct (IH (k + 1)) as (l & Hl & Hmap); [lia|cbn [length] in Hlt; nia|].
  rewrite Hl. cbn [mbind res_bind fst snd]. exists (o :: l). split.
  - do 3 f_equal. lia.
  - rewrite fmap_cons, Hio, Hmap. rewrite (seqZ_cons k) by lia. rewrite fmap_cons. do 3 f_equal; lia.
Qed.

(** The commands of a pass are disjoint and cover the region. *)
Lemma pass_covers start stop size n b :
  1 <= size -> (n - 1) * size < stop - start <= n * size -> start <= b < stop ->
  exists k, 0 <= k < n /\ (forall j, 0 <= j < n ->
    (fst (pass_io start stop size j) <= b < fst (pass_io start stop size j) + snd (pass_io start stop size j)
     <-> j = k)).
Proof.
  intros Hs Hn Hb. exists ((b - start) / size).
  pose proof (Z.div_mod (b - start) size ltac:(lia)) as Hd.
  pose proof (Z.mod_pos_bound (b - start) size ltac:(lia)) as Hm.
  set (q := (b - start) / size) in *. set (m := (b - start) mod size) in *.
  split; [split; [unfold q; apply Z.div_pos; lia|nia]|]. intros j Hj. unfold pass_io. cbn [fst snd]. split.
  - intros Hin. assert (j * size <= b - start < (j + 1) * size) by lia. nia.
  - intros ->. split; [lia|]. destruct (Z.min_spec size (stop - (start + q * size))) as [[_ ->]|[_ ->]]; lia.
Qed.

(** The commands follow each other from [from] to [to] without a gap. *)
Fixpoint in_order (from to : Z) (l : list io) : Prop :=
  match l with
  | [] => from = to
  | o :: l' => io_lba o = from /\ 1 <= io_count o /\ in_order (from + io_count o) to l'
  end.

Lemma pass_in_order start stop size l : forall k,
  1 <= size -> 0 <= k ->
  (fun o => (io_lba o, io_count o)) <$> l = pass_io start stop size <$> seqZ k (Z.of_nat (length l)) ->
  (k + Z.of_nat (length l) - 1) * size < stop - start <= (k + Z.of_nat (length l)) * size ->
  in_order (Z.min stop (start + k * size)) stop l.
Proof.
  induction l as [|o l IH]; intros k Hs Hk Hm Hr; cbn [length in_order] in *; [lia|].
  rewrite (seqZ_cons k), !fmap_cons in Hm by lia.
  replace (Z.pred (Z.of_nat (S (length l)))) with (Z.of_nat (length l)) in Hm by lia.
  injection Hm as Hl Hc Hm. assert (Hin : k * size < stop - start) by nia.
  rewrite Hl, Hc. split_and!; [lia|lia|].
  replace (_ + _) with (Z.min stop (start + (k + 1) * size)) by lia. apply IH; [lia|lia|exact Hm|nia].
Qed.

(** What adjusting does to the arguments of a plain sequential worker. *)
Lemma sequential_adjusted nsze sector max loglen size start stop qdepth read n :
  0 < size < 0x10000 -> 0 <= start < stop -> 2 <= qdepth <= 1024 -> stop <= nsze < 2 ^ 63 ->
  size * sector <= max < 2 ^ 32 -> 0 <= sector -> loglen < 1024 * 1024 -> 1 <= n < 2 ^ 64 ->
  exists a', adjust_args nsze sector max loglen
      (mk_c_args (Z.min size (stop - start)) 1 1 [(Z.min size (stop - start), 1, 1)]
         [(2, read); (1, 100 - read)] 0 false 0 start stop 0 n 3600000 qdepth 0 100 0xbeef [] []) = Ok (inr a')
    /\ a_start a' = start /\ a_end a' = stop /\ a_io_count a' = n /\ a_lba_start a' = start
    /\ a_sizes a' = [(Z.min size (stop - start), 1, 1)] /\ a_ratio_sum a' = 1
    /\ a_random a' = 0 /\ a_step_valid a' = false.
Proof.
  intros Hsz Hreg Hq Hns Hmax Hsec Hll Hn. unfold adjust_args, CMD_LOG_HALF.
  cbn [a_size_max a_start a_end a_qdepth a_sequence a_align_max a_io_count a_seconds a_lba_start a_ratio_sum
       a_sizes a_ops a_step a_step_valid a_random a_iops a_pvalue a_ptype a_distribution].
  unfold check. zbool. mrun.
  assert (Hms : 0 <= Z.min size (stop - start) * sector <= max) by nia.
  rewrite (wrap_small 32) by (revert Hmax; eval_pow; lia). zbool. rewrite ALIGN_UP_1.
  eexists. split; [reflexivity|]. cbn.
  rewrite Z.min_r by lia. zbool. split_and!; try done. destruct (Z.ltb_spec 0 start); lia.
Qed.

(** C26. A sequential worker covers its region once and in order: for a
    positive 16-bit size, a region of the namespace given by its end and no
    limit, the worker is created with a number of commands, and the generator's
    first that many commands, whatever the random numbers are, follow each
    other: the first starts at the start of the region, each one where the one
    before it ends, and the last one ends with the region.  So every block of
    the region is in exactly one of them.  The region has no uncorrectable
    blocks, and the size fits the largest transfer. *)
Theorem sequential_worker_covers cap size start stop qdepth read nsze sector max loglen ns rs :
  0 < size < 0x10000 -> 0 <= start < stop -> stop < no_region_end -> 2 <= qdepth <= 1024 ->
  qdepth <= cap mod 65536 + 1 -> 0 <= read <= 100 ->
  stop <= nsze < 2 ^ 63 -> size * sector <= max < 2 ^ 32 -> 0 <= sector -> loglen < 1024 * 1024 ->
  (forall l, start <= l < stop -> crc32_skip_uncorr ns l = Ok l) ->
  exists g a a' t,
    ioworker cap (sequential size start stop qdepth read) = Ok g /\ pack_args g = Ok a
    /\ adjust_args nsze sector max loglen a = Ok (inr a') /\ build_tables nsze a' = Ok t
    /\ (Forall rnd_ok rs -> Z.of_nat (length rs) = a_io_count a' ->
        exists l seq', next_ios ns a' t (a_lba_start a') rs = Ok (l, seq')
          /\ in_order start stop l
          /\ forall b, start <= b < stop ->
               exists k, (k < length l)%nat /\ forall j o, l !! j = Some o ->
                 (io_lba o <= b < io_lba o + io_count o <-> j = k)).
Proof.
  intros Hsz Hreg Hend Hq Hcap Hrd Hns Hmax Hsec Hll Hskip. set (s := Z.min size (stop - start)).
  destruct (sequential_args cap size start stop qdepth read) as
    (g & n & Hg & Ha & Hn & Hn64 & Hal & Hst & Hops); [done..|].
  destruct (sequential_adjusted nsze sector max loglen size start stop qdepth read n) as (a' & Had & E1 & E2 & E3 & E4 & E5 & E6 & E7 & E8); [done..|].
  destruct (worker_tables_run cap _ g _ nsze sector max loglen a' Hg Ha Had) as (t & Ht & _).
  assert (Hro : region_ok nsze g a').
  { split; rewrite ?E1, ?E2, ?E6, ?Hal, ?Hst, ?Hops; try done; try lia.
    constructor; [apply Z.mod_1_r|constructor]. }
  destruct (worker_ok_python _ _ _ _ _ _ _ _ _ _ Hg Ha Had Ht Hro) as [Hok _].
  exists g. do 3 eexists. do 4 (split; [done|]). intros Hrs Hlen. rewrite E3 in Hlen.
  assert (Hcov : (n - 1) * s < stop - start <= n * s).
  { unfold s. destruct (Z.min_spec size (stop - start)) as [[_ ->]|[Hle ->]]; [done|]. nia. }
  destruct (sequential_run ns a' t s rs Hok) with (k := 0) as (l & Hl & Hmap);
    [by rewrite E1, E2|done..|lia|rewrite E1, E2, Hlen; lia|].
  rewrite E1, E2, Hlen, Z.mul_0_l, Z.add_0_r in *. rewrite E4. eexists l, _. split; [exact Hl|].
  assert (Hio : forall j o, l !! j = Some o -> 0 <= Z.of_nat j < n
    /\ (io_lba o, io_count o) = pass_io start stop s (Z.of_nat j)).
  { intros j o Hj. assert (H : ((fun o => (io_lba o, io_count o)) <$> l) !! j = Some (io_lba o, io_count o))
      by (by rewrite list_lookup_fmap, Hj).
    rewrite Hmap, list_lookup_fmap in H. destruct (seqZ 0 n !! j) as [z|] eqn:Ez; [|done].
    apply lookup_seqZ in Ez as [-> Hz]. rewrite Z.add_0_l in H.
    change (Some (pass_io start stop s (Z.of_nat j)) = Some (io_lba o, io_count o)) in H.
    split; [lia|congruence]. }
  assert (Hs : 1 <= s) by (unfold s; lia). split.
  - assert (Hll' : Z.of_nat (length l) = n) by (apply (f_equal length) in Hmap; rewrite !length_fmap, length_seqZ in Hmap; lia).
    replace start with (Z.min stop (start + 0 * s)) at 1 by lia. apply (pass_in_order start stop s); [done|lia|by rewrite Hll'|lia].
  - intros b Hb. destruct (pass_covers start stop s n b) as (k & Hk & Hin); [done..|]. exists (Z.to_nat k).
    split; [apply (f_equal length) in Hmap; rewrite !length_fmap, length_seqZ in Hmap; lia|].
    intros j o Hj. destruct (Hio j o Hj) as [Hz E]. specialize (Hin _ Hz). rewrite <- E in Hin. cbn [fst snd] in Hin.
    rewrite Hin. lia.
Qed.

(** ** Outside the region *)

(** The first command of a worker on [nsze] blocks of 512 bytes. *)
Definition first_io (p : params) (nsze : Z) (rs : list rnd) : res (list io * Z) :=
  g ← ioworker 0xff p;
  a ← pack_args g;
  a' ← adjust_args nsze 512 0x20000 0 a;
  match a' with
  | inl _ => Err CAbort
  | inr a' => t ← build_tables nsze a'; next_ios (mk_nstab 0 None 512) a' t (a_lba_start a') rs
  end.

Definition zeros : rnd := mk_rnd 0 0 0 0 0.

(** A region of blocks 10 to 11 with an alignment of 8: the start is rounded up
    behind the region's end, and the worker reads block 8. *)
Example small_region_escapes :
  first_io (mk_params (SizeInt 2) None (AlignInt 8) (RandomBool false) 100 None 1 8 10 12 0 0 0 None 100 0xbeef None)
    4096 [zeros] = Ok ([mk_io 2 0 8 2], 10).
Proof. by vm_compute. Qed.

(** With random LBAs the same worker is aborted. *)
Example small_region_aborts :
  first_io (mk_params (SizeInt 2) None (AlignInt 8) (RandomBool true) 100 None 1 8 10 12 0 0 0 None 100 0xbeef None)
    4096 [zeros] = Err CAbort.
Proof. by vm_compute. Qed.

(** A step of -8 from block 100 leaves the region with the second command. *)
Example negative_step_escapes :
  first_io (mk_params (SizeInt 8) (Some (-8)) AlignNone (RandomBool false) 100 None 1 8 100 200 0 0 0 None 100 0xbeef None)
    4096 [zeros; zeros] = Ok ([mk_io 2 0 100 8; mk_io 2 0 92 8], 84).
Proof. by vm_compute. Qed.

(** ** Witnesses *)
Definition mixed : params :=
  mk_params (SizeDict [(8, 3); (16, 1)]) None (AlignList [4; 8]) (RandomInt 50) 30 None 1 8 64 1000 0 0 0 None 100 0xbeef None.
Definition mixed_config : config :=
  match ioworker 0xff mixed with Ok g => g | Err _ => mk_config [] [] 0 [] None 0 0 0 0 0 0 0 None 0 0 None end.
Definition no_args : c_args := mk_c_args 0 0 0 [] [] 0 false 0 0 0 0 0 0 0 0 0 0 [] [].
Definition mixed_args : c_args := match pack_args mixed_config with Ok a => a | Err _ => no_args end.
Definition mixed_adjusted : c_args :=
  match adjust_args 4096 512 0x20000 0 mixed_args with Ok (inr a) => a | _ => no_args end.
Definition mixed_tables : tables :=
  match build_tables 4096 mixed_adjusted with Ok t => t | Err _ => mk_tables [] [] [] end.

Lemma worker_tables_witness :
  exists a' t, adjust_args 4096 512 0x20000 0 mixed_args = Ok (inr a') /\ build_tables 4096 a' = Ok t
    /\ occurs 0 (t_sl t) = 3 /\ occurs 1 (t_op t) = 70 /\ t_dl t = [].
Proof.
  destruct (worker_tables 0xff mixed mixed_config mixed_args 4096 512 0x20000 0)
    as (a' & t & Ha & Ht & Hr); [by vm_compute..|].
  exists a', t. split; [exact Ha|]. split; [exact Ht|]. rewrite (tr_sl _ _ _ _ Hr), (tr_op _ _ _ _ Hr) by done.
  split; [by vm_compute|]. split; [by vm_compute|]. by apply (tr_no_dl _ _ _ _ Hr).
Defined.

Lemma worker_stays_in_region_witness :
  exists l seq', next_ios (mk_nstab 0 None 512) mixed_adjusted mixed_tables (a_lba_start mixed_adjusted)
      [zeros; mk_rnd 50 3 99 7 935] = Ok (l, seq')
    /\ Forall (fun o => 64 <= io_lba o /\ 1 <= io_count o /\ io_lba o + io_count o <= 1000
         /\ exists s ratio al, (s, ratio, al) ∈ a_sizes mixed_adjusted
              /\ io_count o = Z.min s (1000 - io_lba o) /\ io_lba o mod al = 0) l.
Proof.
  destruct (worker_stays_in_region 0xff mixed mixed_config mixed_args 4096 512 0x20000 0 mixed_adjusted
    mixed_tables (mk_nstab 0 None 512) [zeros; mk_rnd 50 3 99 7 935]) as (l & seq' & Hl & _ & Hall);
    [by vm_compute..| |by apply skips_inside_no_table|repeat constructor; cbn; lia|].
  - split; [by vm_compute|by vm_compute|repeat constructor|by vm_compute..].
  - exists l, seq'. split; [exact Hl|exact Hall].
Defined.

Lemma sequential_worker_covers_witness :
  exists g a a' t l seq',
    ioworker 0x3ff (sequential 8 100 119 64 0) = Ok g /\ pack_args g = Ok a
    /\ adjust_args 4096 512 0x20000 0 a = Ok (inr a') /\ build_tables 4096 a' = Ok t
    /\ next_ios (mk_nstab 0 None 512) a' t (a_lba_start a') [zeros; zeros; zeros] = Ok (l, seq')
    /\ in_order 100 119 l.
Proof.
  destruct (sequential_worker_covers 0x3ff 8 100 119 64 0 4096 512 0x20000 0 (mk_nstab 0 None 512)
    [zeros; zeros; zeros]) as (g & a & a' & t & Hg & Ha & Had & Ht & Hl);
    [lia|lia|by vm_compute|lia|by vm_compute|lia|lia|lia|lia|lia|by intros|].
  assert (Hn : a_io_count a' = 3).
  { vm_compute in Hg. injection Hg as <-. vm_compute in Ha. injection Ha as <-.
    vm_compute in Had. by injection Had as <-. }
  destruct Hl as (l & seq' & Hl & Hall & _); [repeat constructor; cbn; lia|by rewrite Hn|].
  by exists g, a, a', t, l, seq'.
Defined.
