(* ===== verification/Loop.v ===== *)
(** * Loop: the event loop of an I/O worker

    [ioworker_entry] of src/src/ioworker.c from the first batch of commands to
    the report: the contexts of the queue, the list of those that wait to be
    sent, the completion callback [ioworker_one_cb] with all its statistics,
    the conditions that end the loop, and the final values.  What is sent is
    Generator.v's; SPDK calls the callback for a command it was given. *)
From Stdlib Require Import ZArith Lia ZifyBool.
From stdpp Require Import base list numbers option relations.
From S2P Require Import Prelude PyInt Buffer Command Crc Cmdlog IOWorker Generator.
Local Open Scope Z_scope.

(** ** Times *)
Definition timeradd (a b : timeval) : timeval :=
  let sec := tv_sec a + tv_sec b in
  let usec := tv_usec a + tv_usec b in
  if 1000000 <=? usec then mk_tv (sec + 1) (usec - 1000000) else mk_tv sec usec.

Definition timeradd_usecond (now : timeval) (useconds : Z) : timeval :=
  timeradd now (mk_tv (useconds / 1000000) (useconds mod 1000000)).

(** In milliseconds, as [uint32_t]. *)
Definition ioworker_get_duration (start now : timeval) : res Z :=
  if timercmp_gt now start then
    let diff := timersub now start in
    let msec := wrap 32 (tv_sec diff * 1000) in
    Ok (wrap 32 (msec + (tv_usec diff + 500) / 1000))
  else Err CAbort.

(** ** State *)

(** [ioworker_cmdlog]: LBA, count and opcode. *)
Definition cmdlog : Type := Z * Z * Z.

(** [ioworker_io_ctx], without its buffers. *)
Record ctx := mk_ctx {
  x_opcode : Z; x_op_index : Z; x_time_sent : timeval; x_cmd : cmdlog; x_sequence_index : Z
}.

(** [ioworker_rets] *)
Record rets := mk_rets {
  rt_read : Z; rt_nonread : Z; rt_mseconds : Z; rt_latency_max : Z; rt_error : Z;
  rt_cpu_usage : Z; rt_latency_average : Z
}.

(** What does not change during the run. *)
Record job := mk_job {
  j_args : c_args; j_tables : tables; j_ns : nstab;
  j_due_time : timeval; j_delay : Z; j_sequence_start : timeval; j_log_len : Z
}.

(** What the worker counts: [io_counter_per_second] and
    [io_counter_per_latency] may be NULL. *)
Record stats := mk_stats {
  st_rets : rets; st_total_latency : Z; st_op_counter : list Z;
  st_per_latency : option (list Z); st_per_second : option (list Z);
  st_last_sec : Z; st_till_last_sec : Z; st_time_next_sec : timeval
}.

(** The rest of [ioworker_global_ctx], with the contexts and the list of the
    latest commands. *)
Record gctx := mk_gctx {
  c_stats : stats;
  c_io_due_time : timeval;
  c_sequential_lba : Z;
  c_sent : Z; c_cplt : Z; c_finish : bool;
  c_sequence_index : Z;
  c_log : list cmdlog; c_log_index : Z;
  c_ctxs : list ctx;
  c_pending : list nat              (* pending_io_list *)
}.

Definition has_sequence (j : job) : bool :=
  match a_sequence (j_args j) with [] => false | _ => true end.
Definition sequence_count (j : job) : Z := Z.of_nat (length (a_sequence (j_args j))).

Definition set_ctx (i : nat) (x : ctx) (g : gctx) : gctx :=
  mk_gctx (c_stats g) (c_io_due_time g) (c_sequential_lba g) (c_sent g) (c_cplt g) (c_finish g)
    (c_sequence_index g) (c_log g) (c_log_index g) (<[i := x]> (c_ctxs g)) (c_pending g).
Definition set_finish (b : bool) (g : gctx) : gctx :=
  mk_gctx (c_stats g) (c_io_due_time g) (c_sequential_lba g) (c_sent g) (c_cplt g) b
    (c_sequence_index g) (c_log g) (c_log_index g) (c_ctxs g) (c_pending g).
Definition set_stats (s : stats) (g : gctx) : gctx :=
  mk_gctx s (c_io_due_time g) (c_sequential_lba g) (c_sent g) (c_cplt g) (c_finish g)
    (c_sequence_index g) (c_log g) (c_log_index g) (c_ctxs g) (c_pending g).
Definition set_next (due : timeval) (index : Z) (g : gctx) : gctx :=
  mk_gctx (c_stats g) due (c_sequential_lba g) (c_sent g) (c_cplt g) (c_finish g)
    index (c_log g) (c_log_index g) (c_ctxs g) (c_pending g).
Definition set_sequential_lba (lba : Z) (g : gctx) : gctx :=
  mk_gctx (c_stats g) (c_io_due_time g) lba (c_sent g) (c_cplt g) (c_finish g)
    (c_sequence_index g) (c_log g) (c_log_index g) (c_ctxs g) (c_pending g).
Definition set_pending (l : list nat) (sent : Z) (g : gctx) : gctx :=
  mk_gctx (c_stats g) (c_io_due_time g) (c_sequential_lba g) sent (c_cplt g) (c_finish g)
    (c_sequence_index g) (c_log g) (c_log_index g) (c_ctxs g) l.
Definition set_cplt (n : Z) (g : gctx) : gctx :=
  mk_gctx (c_stats g) (c_io_due_time g) (c_sequential_lba g) (c_sent g) n (c_finish g)
    (c_sequence_index g) (c_log g) (c_log_index g) (c_ctxs g) (c_pending g).
Definition set_log (l : list cmdlog) (index : Z) (g : gctx) : gctx :=
  mk_gctx (c_stats g) (c_io_due_time g) (c_sequential_lba g) (c_sent g) (c_cplt g) (c_finish g)
    (c_sequence_index g) l index (c_ctxs g) (c_pending g).

Definition get_ctx (i : nat) (g : gctx) : res ctx :=
  match c_ctxs g !! i with Some x => Ok x | None => Err COutOfBounds end.

Definition with_time (t : timeval) (x : ctx) : ctx :=
  mk_ctx (x_opcode x) (x_op_index x) t (x_cmd x) (x_sequence_index x).

(** Insert at the tail, and count. *)
Definition insert_pending (i : nat) (g : gctx) : gctx :=
  set_pending (c_pending g ++ [i]) (wrap 64 (c_sent g + 1)) g.

(** ** When and what a context sends next *)

(** The next line of the sequence, if there is one, for context [i]. *)
Definition next_line (j : job) (i : nat) (g : gctx) : res gctx :=
  match a_sequence (j_args j) !! Z.to_nat (c_sequence_index g) with
  | None => Err COutOfBounds
  | Some q =>
      x ← get_ctx i g;
      let t := timeradd_usecond (j_sequence_start j) (q_timestamp q) in
      Ok (set_next (c_io_due_time g) (c_sequence_index g + 1)
            (set_ctx i (mk_ctx (x_opcode x) (x_op_index x) t (x_cmd x) (c_sequence_index g)) g))
  end.

(** The next slot at a fixed number of commands per second. *)
Definition next_slot (j : job) (i : nat) (g : gctx) : res gctx :=
  let due := timeradd (c_io_due_time g) (mk_tv 0 (j_delay j)) in
  x ← get_ctx i g;
  Ok (set_next due (c_sequence_index g) (set_ctx i (with_time due x) g)).

(** The first batch: contexts [i], [i+1], ..., [n] of them; [clock i] is the time
    of context [i] when it runs freely. *)
Fixpoint first_batch (j : job) (clock : nat -> timeval) (n i : nat) (g : gctx) : res gctx :=
  match n with
  | O => Ok g
  | S n' =>
      if has_sequence j then
        if sequence_count j <=? c_sequence_index g then first_batch j clock n' (S i) g
        else g ← next_line j i g; first_batch j clock n' (S i) (insert_pending i g)
      else if negb (j_delay j =? 0) then
        g ← next_slot j i g; first_batch j clock n' (S i) (insert_pending i g)
      else
        x ← get_ctx i g;
        first_batch j clock n' (S i) (insert_pending i (set_ctx i (with_time (clock i) x) g))
  end.

(** [ioworker_send_one]: [rc] is what [ns_cmd_io] returns, [now] the clock after
    that. *)
Definition ioworker_send_one (j : job) (i : nat) (r : rnd) (rc : Z) (now : timeval) (g : gctx) : res gctx :=
  x ← get_ctx i g;
  ios ← (if has_sequence j then
           match a_sequence (j_args j) !! Z.to_nat (x_sequence_index x) with
           | Some q => Ok (Some q)
           | None => Err COutOfBounds
           end
         else Ok None);
  o ← next_io (j_ns j) (j_args j) (j_tables j) (c_sequential_lba g) r ios;
  let '(o, sequential_lba) := (o : io * Z) in
  let g := set_sequential_lba sequential_lba g in
  let cmd := (io_lba o, io_count o, io_opcode o) in
  if negb (rc =? 0) then
    Ok (set_finish true (set_ctx i (mk_ctx (x_opcode x) (x_op_index x) (x_time_sent x) cmd (x_sequence_index x)) g))
  else
    Ok (set_ctx i (mk_ctx (io_opcode o) (io_op_index o) now cmd (x_sequence_index x)) g).

(** The head of the pending list is sent and removed. *)
Definition send_head (j : job) (r : rnd) (rc : Z) (now : timeval) (g : gctx) : res gctx :=
  match c_pending g with
  | [] => Ok g
  | i :: rest =>
      g ← ioworker_send_one j i r rc now g;
      Ok (set_pending rest (c_sent g) g)
  end.

(** ** A command completes *)

(** The end of the worker: of the sequence, by count, or by time. *)
Definition ioworker_send_one_is_finish (j : job) (now : timeval) (g : gctx) : res bool :=
  if has_sequence j && (sequence_count j <=? c_sequence_index g) then Ok true
  else if c_sent g =? a_io_count (j_args j) then Ok true
  else
    check (c_sent g <? a_io_count (j_args j)) CAbort ;;
    Ok (timercmp_gt now (j_due_time j)).

(** The latency, and the counters in [rets]. *)
Definition ioworker_update_rets (x : ctx) (now : timeval) (t : rets) : Z * rets :=
  let latency := timeval_to_us (timersub now (x_time_sent x)) in
  let is_read := x_opcode x =? 2 in
  (latency, mk_rets (if is_read then wrap 64 (rt_read t + 1) else rt_read t)
              (if is_read then rt_nonread t else wrap 64 (rt_nonread t + 1))
              (rt_mseconds t) (Z.max (rt_latency_max t) latency) (rt_error t)
              (rt_cpu_usage t) (rt_latency_average t)).

(** [l[i]++] of an array of [unsigned long]. *)
Definition count_at (i : Z) (l : list Z) : res (list Z) :=
  match l !! Z.to_nat i with
  | Some v => Ok (<[Z.to_nat i := wrap 64 (v + 1)]> l)
  | None => Err COutOfBounds
  end.

(** The first part of the callback. *)
Definition update_stats (x : ctx) (now : timeval) (s : stats) : res stats :=
  let '(latency_us, t) := ioworker_update_rets x now (st_rets s) in
  op_counter ← count_at (x_op_index x) (st_op_counter s);
  per_latency ← (match st_per_latency s with
                 | None => Ok None
                 | Some l => l ← count_at (Z.min (US_PER_S - 1) latency_us) l; Ok (Some l)
                 end);
  Ok (mk_stats t (wrap 64 (st_total_latency s + latency_us)) op_counter per_latency
        (st_per_second s) (st_last_sec s) (st_till_last_sec s) (st_time_next_sec s)).

Definition set_error (e : Z) (s : stats) : stats :=
  let t := st_rets s in
  mk_stats (mk_rets (rt_read t) (rt_nonread t) (rt_mseconds t) (rt_latency_max t) e
              (rt_cpu_usage t) (rt_latency_average t))
    (st_total_latency s) (st_op_counter s) (st_per_latency s) (st_per_second s)
    (st_last_sec s) (st_till_last_sec s) (st_time_next_sec s).

(** An error ends the worker; only the first one is kept. *)
Definition check_error (error : option Z) (g : gctx) : gctx :=
  match error with
  | None => g
  | Some status =>
      let e := Z.land (Z.shiftr status 1) 0x7ff in
      let g := set_finish true g in
      if rt_error (st_rets (c_stats g)) =? 0 then set_stats (set_error e (c_stats g)) g else g
  end.

(** The array of counts per second is not bounded by its length. *)
Definition ioworker_update_io_count_per_second (s : stats) : res stats :=
  match st_per_second s with
  | None => Ok s
  | Some l =>
      let current := wrap 64 (rt_read (st_rets s) + rt_nonread (st_rets s)) in
      match l !! Z.to_nat (st_last_sec s) with
      | None => Err COutOfBounds
      | Some _ =>
          Ok (mk_stats (st_rets s) (st_total_latency s) (st_op_counter s) (st_per_latency s)
                (Some (<[Z.to_nat (st_last_sec s) := wrap 32 (current - st_till_last_sec s)]> l))
                (wrap 32 (st_last_sec s + 1)) current
                (timeradd_usecond (st_time_next_sec s) 1000000))
      end
  end.

Definition update_second (now : timeval) (s : stats) : res stats :=
  match st_per_second s with
  | None => Ok s
  | Some _ => if timercmp_gt now (st_time_next_sec s) then ioworker_update_io_count_per_second s else Ok s
  end.

(** The latest commands, in a ring. *)
Definition update_log (log_len : Z) (cmd : cmdlog) (g : gctx) : res gctx :=
  if log_len =? 0 then Ok g
  else
    let '(cmdlog_index, current) := if c_log_index g =? log_len then (0, 1)
                                    else (c_log_index g, c_log_index g + 1) in
    match c_log g !! Z.to_nat cmdlog_index with
    | None => Err COutOfBounds
    | Some _ => Ok (set_log (<[Z.to_nat cmdlog_index := cmd]> (c_log g)) current g)
    end.

(** The next command of the context, planned before it is known to be sent. *)
Definition plan_next (j : job) (i : nat) (g : gctx) : res gctx :=
  if has_sequence j then
    if c_sequence_index g <? sequence_count j then next_line j i g else Ok g
  else if negb (j_delay j =? 0) then next_slot j i g
  else Ok g.

(** [ioworker_one_cb]: [now] and [now'] are the two readings of the clock,
    [error] is the status word of a completion with an error. *)
Definition ioworker_one_cb (j : job) (i : nat) (error : option Z) (now now' : timeval) (g : gctx) : res gctx :=
  x ← get_ctx i g;
  let g := set_cplt (wrap 64 (c_cplt g + 1)) g in
  s ← update_stats x now (c_stats g);
  g ← plan_next j i (set_stats s g);
  let g := check_error error g in
  s ← update_second now (c_stats g);
  let g := set_stats s g in
  g ← (if c_finish g then Ok g
       else finish ← ioworker_send_one_is_finish j now' g; Ok (set_finish finish g));
  let g := if c_finish g then g else insert_pending i g in
  update_log (j_log_len j) (x_cmd x) g.

(** ** The loop *)

(** [while (sent != cplt || !flag_finish || head_io != NULL)] *)
Definition loop_done (g : gctx) : bool :=
  (c_sent g =? c_cplt g) && c_finish g && match c_pending g with [] => true | _ => false end.

(** What one turn meets: the clock, the random numbers and the result when the
    head is sent, the terminate bit, and the completions SPDK reports, with the
    readings of the clock in the callback. *)
Record turn := mk_turn {
  u_now : timeval; u_rnd : rnd; u_rc : Z; u_sent : timeval; u_terminate : bool;
  u_cpls : list (nat * option Z * timeval * timeval)
}.

Fixpoint complete_all (j : job) (l : list (nat * option Z * timeval * timeval)) (g : gctx) : res gctx :=
  match l with
  | [] => Ok g
  | (i, error, now, now') :: l' => g ← ioworker_one_cb j i error now now' g; complete_all j l' g
  end.

(** One turn; a value is what the loop is left with. *)
Definition loop_body (j : job) (start : timeval) (u : turn) (g : gctx) : res (gctx * option Z) :=
  g ← (match c_pending g with
       | [] => Ok g
       | i :: _ =>
           x ← get_ctx i g;
           if timercmp_gt (u_now u) (x_time_sent x) then send_head j (u_rnd u) (u_rc u) (u_sent u) g
           else Ok g
       end);
  msec ← ioworker_get_duration start (u_now u);
  if (a_seconds (j_args j) + 30) * 1000 <? msec then Ok (g, Some (-4))
  else if u_terminate u then Ok (g, Some (-7))
  else g ← complete_all j (u_cpls u) g; Ok (g, None).

(** The result is [None] when the turns do not reach the end of the loop. *)
Fixpoint loop (j : job) (start : timeval) (us : list turn) (g : gctx) : res (option (gctx * Z)) :=
  if loop_done g then Ok (Some (g, 0))
  else match us with
       | [] => Ok None
       | u :: us' =>
           r ← loop_body j start u g;
           match snd r with
           | Some ret => Ok (Some (fst r, ret))
           | None => loop j start us' (fst r)
           end
       end.

(** ** The report *)

(** [cpu_time] is the time spent in calls; the average divides by the number of
    completed commands. *)
Definition final_rets (start now cpu_time : timeval) (s : stats) : res rets :=
  msec ← ioworker_get_duration start now;
  let t := st_rets s in
  let n := wrap 64 (rt_read t + rt_nonread t) in
  check (negb (n =? 0)) CAbort ;;
  Ok (mk_rets (rt_read t) (rt_nonread t) (wrap 32 (msec + 1)) (rt_latency_max t) (rt_error t)
        (timeval_to_us cpu_time / 1000) (wrap 32 (st_total_latency s / n))).

(** The ring is copied so that the oldest command comes first. *)
Definition final_log (log_len : Z) (g : gctx) : list cmdlog :=
  if log_len =? 0 then c_log g
  else drop (Z.to_nat (c_log_index g)) (c_log g) ++ take (Z.to_nat (c_log_index g)) (c_log g).

(** ** The start *)
Definition start_job (ns : nstab) (a : c_args) (t : tables) (start sequence_start : timeval) (log_len : Z) : job :=
  mk_job a t ns (timeradd_usecond start (1000000 * a_seconds a))
    (if a_iops a =? 0 then 0 else US_PER_S / a_iops a) sequence_start log_len.

Definition start_gctx (a : c_args) (start : timeval) (per_latency per_second : option (list Z))
    (ctxs : list ctx) (log : list cmdlog) : gctx :=
  mk_gctx (mk_stats (mk_rets 0 0 0 0 0 0 0) 0 (snd <$> a_ops a) per_latency per_second 0 0
             (timeradd_usecond start 1000000))
    start (a_lba_start a) 0 0 false 0 log 0 ctxs [].

(** ** What the callback does *)
Record cb_effect (j : job) (i : nat) (error : option Z) (now' : timeval) (g g' : gctx) : Prop := {
  ce_cplt : c_cplt g' = wrap 64 (c_cplt g + 1);
  ce_ctxs : length (c_ctxs g') = length (c_ctxs g);
  ce_other : forall k, k <> i -> c_ctxs g' !! k = c_ctxs g !! k;
  ce_index : c_sequence_index g' = (if has_sequence j && (c_sequence_index g <? sequence_count j)
                                    then c_sequence_index g + 1 else c_sequence_index g);
  ce_line : has_sequence j = true -> c_sequence_index g < sequence_count j ->
    exists x, c_ctxs g' !! i = Some x /\ x_sequence_index x = c_sequence_index g;
  ce_lba : c_sequential_lba g' = c_sequential_lba g;
  ce_ops : length (st_op_counter (c_stats g')) = length (st_op_counter (c_stats g));
  ce_error : rt_error (st_rets (c_stats g')) =
    (match error with
     | Some st => if rt_error (st_rets (c_stats g)) =? 0 then Z.land (Z.shiftr st 1) 0x7ff
                  else rt_error (st_rets (c_stats g))
     | None => rt_error (st_rets (c_stats g))
     end);
  (* the end is reached, or the context is to be sent again *)
  ce_finish :
    (c_finish g' = true /\ c_pending g' = c_pending g /\ c_sent g' = c_sent g
     /\ (c_finish g = true \/ error <> None
         \/ (has_sequence j = true /\ sequence_count j <= c_sequence_index g')
         \/ c_sent g = a_io_count (j_args j) \/ timercmp_gt now' (j_due_time j) = true))
    \/ (c_finish g' = false /\ c_finish g = false /\ error = None
        /\ c_pending g' = c_pending g ++ [i] /\ c_sent g' = wrap 64 (c_sent g + 1)
        /\ (has_sequence j = true -> c_sequence_index g' < sequence_count j)
        /\ c_sent g < a_io_count (j_args j))
}.

Lemma update_stats_inv x now s s' : update_stats x now s = Ok s' ->
  length (st_op_counter s') = length (st_op_counter s) /\ rt_error (st_rets s') = rt_error (st_rets s).
Proof.
  unfold update_stats, ioworker_update_rets. intros H. apply res_bind_inv in H as (oc & Hoc & H).
  apply res_bind_inv in H as (pl & _ & H). injection H as <-. cbn. split; [|done].
  unfold count_at in Hoc. destruct (st_op_counter s !! _); [|done]. injection Hoc as <-. apply length_insert.
Qed.

(** Planning touches the context, the sequence and the due time only. *)
Record planned (j : job) (i : nat) (g g' : gctx) : Prop := {
  pl_eq : g' = mk_gctx (c_stats g) (c_io_due_time g') (c_sequential_lba g) (c_sent g) (c_cplt g) (c_finish g)
            (c_sequence_index g') (c_log g) (c_log_index g) (c_ctxs g') (c_pending g);
  pl_ctxs : length (c_ctxs g') = length (c_ctxs g);
  pl_other : forall k, k <> i -> c_ctxs g' !! k = c_ctxs g !! k;
  pl_index : c_sequence_index g' = (if has_sequence j && (c_sequence_index g <? sequence_count j)
                                    then c_sequence_index g + 1 else c_sequence_index g);
  pl_line : has_sequence j = true -> c_sequence_index g < sequence_count j ->
    exists x, c_ctxs g' !! i = Some x /\ x_sequence_index x = c_sequence_index g
}.

Lemma get_ctx_inv i g x : get_ctx i g = Ok x -> c_ctxs g !! i = Some x.
Proof. unfold get_ctx. destruct (c_ctxs g !! i); [by intros [= ->]|done]. Qed.

Lemma next_line_inv j i g g' : next_line j i g = Ok g' -> has_sequence j = true ->
  c_sequence_index g < sequence_count j -> planned j i g g'.
Proof.
  unfold next_line. intros H Hs Hlt. destruct (a_sequence (j_args j) !! _) as [q|]; [|done].
  apply res_bind_inv in H as (x & Hx & H). apply get_ctx_inv in Hx. injection H as <-.
  split; cbn; try done.
  - apply length_insert.
  - intros k Hk. by rewrite list_lookup_insert_ne.
  - rewrite Hs. zbool. done.
  - intros _ _. rewrite list_lookup_insert_eq by (by apply lookup_lt_Some in Hx). by eexists.
Qed.

Lemma plan_next_inv j i g g' : plan_next j i g = Ok g' -> planned j i g g'.
Proof.
  unfold plan_next. destruct (has_sequence j) eqn:Hs.
  - destruct (Z.ltb_spec (c_sequence_index g) (sequence_count j)) as [Hlt|Hge].
    + intros H. by apply next_line_inv.
    + intros [= <-]. split; rewrite ?Hs; try done; [by destruct g|zbool; done|lia].
  - destruct (negb (j_delay j =? 0)).
    + unfold next_slot. intros H. apply res_bind_inv in H as (x & Hx & H). injection H as <-.
      split; cbn; rewrite ?Hs; try done; [apply length_insert|].
      intros k Hk. by rewrite list_lookup_insert_ne.
    + intros [= <-]. split; rewrite ?Hs; try done. by destruct g.
Qed.

Lemma update_second_inv now s s' : update_second now s = Ok s' ->
  st_rets s' = st_rets s /\ st_op_counter s' = st_op_counter s.
Proof.
  unfold update_second, ioworker_update_io_count_per_second. destruct (st_per_second s) as [l|]; [|by intros [= <-]].
  destruct (timercmp_gt _ _); [|by intros [= <-]]. destruct (l !! _); [|done]. by intros [= <-].
Qed.

Lemma update_log_inv n c g g' : update_log n c g = Ok g' ->
  g' = set_log (c_log g') (c_log_index g') g.
Proof.
  unfold update_log. destruct (n =? 0); [intros [= <-]; by destruct g|].
  destruct (c_log_index g =? n); (destruct (c_log g !! _); [|done]); by intros [= <-].
Qed.

Lemma is_finish_inv j now g b : ioworker_send_one_is_finish j now g = Ok b ->
  if b then (has_sequence j = true /\ sequence_count j <= c_sequence_index g)
            \/ c_sent g = a_io_count (j_args j) \/ timercmp_gt now (j_due_time j) = true
  else (has_sequence j = true -> c_sequence_index g < sequence_count j) /\ c_sent g < a_io_count (j_args j).
Proof.
  unfold ioworker_send_one_is_finish. destruct (has_sequence j) eqn:Hs, (Z.leb_spec (sequence_count j) (c_sequence_index g));
    cbn [andb]; try (intros [= <-]; by left);
    (destruct (Z.eqb_spec (c_sent g) (a_io_count (j_args j))); [intros [= <-]; tauto|]);
    intros [Hlt [= <-]]%check_bind; zbool_hyps; destruct (timercmp_gt now (j_due_time j)); tauto || (split; [done|lia]).
Qed.

Lemma check_error_eq error g : exists s, check_error error g =
    set_stats s (set_finish (match error with Some _ => true | None => c_finish g end) g)
  /\ st_op_counter s = st_op_counter (c_stats g)
  /\ rt_error (st_rets s) =
    (match error with
     | Some st => if rt_error (st_rets (c_stats g)) =? 0 then Z.land (Z.shiftr st 1) 0x7ff
                  else rt_error (st_rets (c_stats g))
     | None => rt_error (st_rets (c_stats g))
     end).
Proof.
  unfold check_error. destruct error as [st|]; [|exists (c_stats g); by destruct g].
  cbn [set_finish c_stats]. destruct (rt_error (st_rets (c_stats g)) =? 0).
  - by exists (set_error (Z.land (Z.shiftr st 1) 0x7ff) (c_stats g)).
  - exists (c_stats g). by destruct g.
Qed.

Lemma cb_inv j i error now now' g g' :
  ioworker_one_cb j i error now now' g = Ok g' -> cb_effect j i error now' g g'.
Proof.
  unfold ioworker_one_cb. intros H. apply res_bind_inv in H as (x & Hx & H).
  apply res_bind_inv in H as (s & Hs & H). apply res_bind_inv in H as (g1 & Hg1 & H).
  apply plan_next_inv in Hg1 as [E1 P1 P2 P3 P4]. apply update_stats_inv in Hs as [S1 S2].
  destruct (check_error_eq error g1) as (s1 & E2 & S3 & S4).
  apply res_bind_inv in H as (s2 & Hs2 & H). apply update_second_inv in Hs2 as [S5 S6].
  apply res_bind_inv in H as (g2 & Hg2 & H). rewrite E2 in Hg2, S5, S6. clear E2.
  apply update_log_inv in H. rewrite H. clear H.
  cbn [set_cplt set_stats set_finish c_stats c_sent c_cplt c_finish c_pending c_sequence_index c_ctxs
       c_sequential_lba c_io_due_time c_log c_log_index] in *.
  destruct g1 as [s1' due1 lba1 sent1 cplt1 fin1 idx1 log1 li1 ctxs1 pend1].
  cbn [c_stats c_io_due_time c_sequential_lba c_sent c_cplt c_finish c_sequence_index c_log c_log_index
       c_ctxs c_pending] in *. injection E1 as -> -> -> -> -> -> -> ->.
  unfold set_stats, set_finish in Hg2. cbn in Hg2.
  destruct (match error with Some _ => true | None => c_finish g end) eqn:Ef.
  - injection Hg2 as <-. cbn [c_finish]. split; cbn; rewrite ?S5, ?S6, ?S3, ?S4, ?S1, ?S2; try done.
    left. split_and!; try done. destruct error; [right; left; done|by left].
  - apply res_bind_inv in Hg2 as (b & Hb & [= <-]). apply is_finish_inv in Hb.
    cbn [c_sent c_sequence_index] in Hb. cbn [c_finish].
    assert (error = None /\ c_finish g = false) as [-> Hf] by (by destruct error).
    destruct b; split; cbn; rewrite ?S5, ?S6, ?S3, ?S4, ?S1, ?S2; try done.
    + left. split_and!; try done. tauto.
    + right. split_and!; try done; tauto.
Qed.

(** ** What sending does *)
Record send_effect (j : job) (i : nat) (rest : list nat) (rc : Z) (g g' : gctx) : Prop := {
  se_sent : c_sent g' = c_sent g;
  se_cplt : c_cplt g' = c_cplt g;
  se_pending : c_pending g' = rest;
  se_finish : c_finish g' = (if rc =? 0 then c_finish g else true);
  se_index : c_sequence_index g' = c_sequence_index g;
  se_stats : c_stats g' = c_stats g;
  se_log : c_log g' = c_log g /\ c_log_index g' = c_log_index g;
  se_ctxs : length (c_ctxs g') = length (c_ctxs g);
  se_other : forall k, k <> i -> c_ctxs g' !! k = c_ctxs g !! k;
  se_ctx : exists x x', c_ctxs g !! i = Some x /\ c_ctxs g' !! i = Some x'
    /\ x_sequence_index x' = x_sequence_index x
    /\ (rc = 0 -> (Z.to_nat (x_op_index x') < length (a_ops (j_args j)))%nat)
}.

Lemma next_io_op ns a t seq r ios o seq' : next_io ns a t seq r ios = Ok (o, seq') ->
  (Z.to_nat (io_op_index o) < length (a_ops a))%nat.
Proof.
  unfold next_io. intros H. apply res_bind_inv in H as (oi & _ & H).
  apply res_bind_inv in H as ([n al] & _ & H). apply res_bind_inv in H as (op & Hop & H).
  apply res_bind_inv in H as ([lba sq] & _ & H). unfold entry in Hop.
  destruct (a_ops a !! Z.to_nat oi) as [op'|] eqn:E; [|done]. apply lookup_lt_Some in E.
  destruct ios as [q|]; apply check_bind in H as [_ [= <- _]]; cbn; lia.
Qed.

Lemma send_inv j i rest r rc now g g' : c_pending g = i :: rest ->
  send_head j r rc now g = Ok g' -> send_effect j i rest rc g g'.
Proof.
  intros Hp. unfold send_head, ioworker_send_one. rewrite Hp. intros H.
  apply res_bind_inv in H as (g1 & H & [= <-]). apply res_bind_inv in H as (x & Hx & H).
  apply res_bind_inv in H as (ios & _ & H). apply res_bind_inv in H as ([o slba] & Ho & H).
  apply get_ctx_inv in Hx. pose proof (lookup_lt_Some _ _ _ Hx) as Hlt. apply next_io_op in Ho.
  destruct (Z.eqb_spec rc 0) as [->|Hrc]; cbn [negb Z.eqb] in H; injection H as <-; split; cbn;
    rewrite ?length_insert; try done.
  - intros k Hk. by rewrite list_lookup_insert_ne.
  - exists x. eexists. rewrite list_lookup_insert_eq by done. split_and!; try done.
  - rewrite (proj2 (Z.eqb_neq _ _) Hrc). done.
  - intros k Hk. by rewrite list_lookup_insert_ne.
  - exists x. eexists. rewrite list_lookup_insert_eq by done. split_and!; try done.
Qed.

(** ** The worker with its outstanding commands *)

(** The contexts whose command SPDK has not completed, and the number of those
    it did not accept. *)
Record world := mk_world { w_g : gctx; w_flight : list nat; w_lost : nat }.

(** What is known of a completion with an error: its status is not zero. *)
Definition error_ok (error : option Z) : Prop :=
  match error with Some st => Z.land (Z.shiftr st 1) 0x7ff <> 0 | None => True end.

(** [late] says whether the worker may run out of time. *)
Inductive lstep (j : job) (late : bool) : world -> world -> Prop :=
  | lstep_send g fl lost i rest r now g' :
      rnd_ok r -> c_pending g = i :: rest -> send_head j r 0 now g = Ok g' ->
      lstep j late (mk_world g fl lost) (mk_world g' (i :: fl) lost)
  | lstep_fail g fl lost i rest r rc now g' :
      rnd_ok r -> c_pending g = i :: rest -> rc <> 0 -> send_head j r rc now g = Ok g' ->
      lstep j late (mk_world g fl lost) (mk_world g' fl (S lost))
  | lstep_complete g fl1 i fl2 lost error now now' g' :
      error_ok error -> (timercmp_gt now' (j_due_time j) = true -> late = true) ->
      ioworker_one_cb j i error now now' g = Ok g' ->
      lstep j late (mk_world g (fl1 ++ i :: fl2) lost) (mk_world g' (fl1 ++ fl2) lost).

Record linv (j : job) (w : world) : Prop := {
  v_count : c_sent (w_g w) = c_cplt (w_g w) + Z.of_nat (length (c_pending (w_g w)))
              + Z.of_nat (length (w_flight w)) + Z.of_nat (w_lost w);
  v_cplt : 0 <= c_cplt (w_g w);
  v_sent : c_sent (w_g w) <= a_io_count (j_args j) < 2 ^ 64;
  v_nodup : NoDup (c_pending (w_g w) ++ w_flight w);
  v_ctxs : Forall (fun i => (i < length (c_ctxs (w_g w)))%nat) (c_pending (w_g w) ++ w_flight w);
  v_busy : c_finish (w_g w) = false ->
    w_lost w = O /\ (0 < length (c_pending (w_g w)) + length (w_flight w))%nat;
  v_index : has_sequence j = true -> c_sent (w_g w) <= c_sequence_index (w_g w) <= sequence_count j
    /\ (c_finish (w_g w) = false -> c_sent (w_g w) = c_sequence_index (w_g w));
  v_lines : has_sequence j = true -> forall i x, i ∈ c_pending (w_g w) -> c_ctxs (w_g w) !! i = Some x ->
    0 <= x_sequence_index x < sequence_count j;
  v_ops : length (st_op_counter (c_stats (w_g w))) = length (a_ops (j_args j));
  v_flight : forall i x, i ∈ w_flight w -> c_ctxs (w_g w) !! i = Some x ->
    (Z.to_nat (x_op_index x) < length (a_ops (j_args j)))%nat
}.

Lemma linv_send j g fl lost i rest g' :
  linv j (mk_world g fl lost) -> c_pending g = i :: rest -> send_effect j i rest 0 g g' ->
  linv j (mk_world g' (i :: fl) lost).
Proof.
  intros [] Hp []. cbn [w_g w_flight w_lost] in *. rewrite Hp in *.
  destruct se_ctx0 as (x & x' & Hx & Hx' & Hxi & Hop). cbn [app] in *.
  pose proof v_nodup0 as [Hi Hnd]%list.NoDup_cons. apply Forall_cons_1 in v_ctxs0 as [Hlt Hlts].
  split; cbn [w_g w_flight w_lost]; rewrite ?se_sent0, ?se_cplt0, ?se_pending0, ?se_finish0, ?se_index0, ?se_stats0;
    try done.
  - cbn [length] in *. lia.
  - rewrite <- Permutation_middle. done.
  - rewrite <- Permutation_middle, se_ctxs0. by constructor.
  - intros Hf. destruct (v_busy0 Hf). split; [done|]. cbn [length] in *. lia.
  - intros Hs k y Hk Hy. apply (v_lines0 Hs k y); [by right|]. rewrite <- se_other0; [done|].
    intros ->. apply Hi. apply elem_of_app. by left.
  - intros k y Hk Hy. destruct (decide (k = i)) as [->|Hne].
    + rewrite Hx' in Hy. injection Hy as <-. by apply Hop.
    + apply (v_flight0 k y); [|by rewrite <- se_other0]. apply elem_of_cons in Hk as [?|?]; done.
Qed.

Lemma linv_fail j g fl lost i rest rc g' :
  linv j (mk_world g fl lost) -> c_pending g = i :: rest -> rc <> 0 -> send_effect j i rest rc g g' ->
  linv j (mk_world g' fl (S lost)) /\ c_finish g' = true.
Proof.
  intros [] Hp Hrc []. cbn [w_g w_flight w_lost] in *. rewrite Hp in *. cbn [app] in *.
  rewrite (proj2 (Z.eqb_neq _ _) Hrc) in se_finish0.
  pose proof v_nodup0 as [Hi Hnd]%list.NoDup_cons. apply Forall_cons_1 in v_ctxs0 as [Hlt Hlts].
  split; [|done].
  split; cbn [w_g w_flight w_lost]; rewrite ?se_sent0, ?se_cplt0, ?se_pending0, ?se_finish0, ?se_index0, ?se_stats0;
    try done.
  - cbn [length] in *. lia.
  - by rewrite se_ctxs0.
  - intros Hs. split; [by apply v_index0|done].
  - intros Hs k y Hk Hy. apply (v_lines0 Hs k y); [by right|]. rewrite <- se_other0; [done|].
    intros ->. apply Hi. apply elem_of_app. by left.
  - intros k y Hk Hy. apply (v_flight0 k y); [done|]. rewrite <- se_other0; [done|].
    intros ->. apply Hi. apply elem_of_app. by right.
Qed.

Lemma linv_complete j g fl1 i fl2 lost error now' g' :
  linv j (mk_world g (fl1 ++ i :: fl2) lost) -> cb_effect j i error now' g g' ->
  linv j (mk_world g' (fl1 ++ fl2) lost).
Proof.
  intros [] []. cbn [w_g w_flight w_lost] in *. rewrite length_app in v_count0, v_busy0.
  cbn [length] in v_count0, v_busy0.
  assert (Hperm : c_pending g ++ fl1 ++ i :: fl2 ≡ₚ i :: c_pending g ++ fl1 ++ fl2).
  { rewrite !app_assoc, <- Permutation_middle. done. }
  rewrite Hperm in v_nodup0, v_ctxs0. pose proof v_nodup0 as [Hi Hnd]%list.NoDup_cons.
  apply Forall_cons_1 in v_ctxs0 as [Hlt Hlts].
  assert (Hcw : c_cplt g' = c_cplt g + 1) by (rewrite ce_cplt0; apply wrap_small; lia).
  assert (Hsub : forall k, k ∈ fl1 ++ fl2 -> k ∈ fl1 ++ i :: fl2 /\ k <> i).
  { intros k Hk. split.
    - apply elem_of_app in Hk as [?|?]; apply elem_of_app; [by left|right; by right].
    - intros ->. apply Hi. apply elem_of_app. by right. }
  assert (Hfl : forall k x, k ∈ fl1 ++ fl2 -> c_ctxs g' !! k = Some x ->
            (Z.to_nat (x_op_index x) < length (a_ops (j_args j)))%nat).
  { intros k x Hk Hx. destruct (Hsub k Hk). apply (v_flight0 k x); [done|]. by rewrite <- ce_other0. }
  destruct ce_finish0 as [(Hf & Hpd & Hst & _)|(Hf & Hf0 & He & Hpd & Hst & Hidx & Hcnt)].
  - split; cbn [w_g w_flight w_lost]; rewrite ?Hf, ?Hpd, ?Hst, ?Hcw, ?ce_ops0, ?ce_ctxs0; try done.
    + rewrite length_app. lia.
    + lia.
    + intros Hs. destruct (v_index0 Hs) as [H1 _]. split; [|done]. rewrite ce_index0, Hs.
      destruct (Z.ltb_spec (c_sequence_index g) (sequence_count j)); cbn; lia.
    + intros Hs k x Hk Hx. apply (v_lines0 Hs k x); [done|]. rewrite <- ce_other0; [done|].
      intros ->. apply Hi. apply elem_of_app. by left.
  - assert (Hsw : c_sent g' = c_sent g + 1) by (rewrite Hst; apply wrap_small; lia).
    destruct (v_busy0 Hf0) as [Hl _].
    split; cbn [w_g w_flight w_lost]; rewrite ?Hpd, ?Hsw, ?Hcw, ?ce_ops0, ?ce_ctxs0; try done.
    + rewrite !length_app. cbn. lia.
    + lia.
    + lia.
    + rewrite <- app_assoc. cbn. rewrite <- Permutation_middle. done.
    + rewrite <- app_assoc. cbn. rewrite <- Permutation_middle. by constructor.
    + intros _. split; [done|]. rewrite length_app. cbn. lia.
    + intros Hs. destruct (v_index0 Hs) as [H1 H2]. specialize (H2 Hf0). specialize (Hidx Hs).
      rewrite ce_index0, Hs in *. destruct (Z.ltb_spec (c_sequence_index g) (sequence_count j)); cbn in *; lia.
    + intros Hs k x Hk Hx. apply elem_of_app in Hk as [Hk|Hk].
      * apply (v_lines0 Hs k x); [done|]. rewrite <- ce_other0; [done|].
        intros ->. apply Hi. apply elem_of_app. by left.
      * apply list_elem_of_singleton in Hk as ->. specialize (Hidx Hs). destruct (v_index0 Hs) as [H1 _].
        destruct (ce_line0 Hs) as (y & Hy & Hyi); [|rewrite Hy in Hx; injection Hx as <-; rewrite Hyi];
        rewrite ce_index0, Hs in Hidx; destruct (Z.ltb_spec (c_sequence_index g) (sequence_count j)); cbn in *; lia.
Qed.

Lemma linv_step j late w w' : lstep j late w w' -> linv j w -> linv j w'.
Proof.
  intros [g fl lost i rest r now g' Hr Hp Hs|g fl lost i rest r rc now g' Hr Hp Hrc Hs
         |g fl1 i fl2 lost error now now' g' He Hl Hc] Hi.
  - apply (linv_send j g fl lost i rest); [done..|]. exact (send_inv _ _ _ _ _ _ _ _ Hp Hs).
  - apply (linv_fail j g fl lost i rest rc); [done..|]. exact (send_inv _ _ _ _ _ _ _ _ Hp Hs).
  - apply (linv_complete j g fl1 i fl2 lost error now'); [done|]. by apply cb_inv in Hc.
Qed.

(** ** The first batch *)
Record batch_inv (j : job) (i : nat) (g : gctx) : Prop := {
  ba_cplt : c_cplt g = 0;
  ba_finish : c_finish g = false;
  ba_sent : c_sent g = Z.of_nat (length (c_pending g));
  ba_pending : c_pending g = seq 0 (length (c_pending g));
  ba_count : Z.of_nat (length (c_pending g)) =
    (if has_sequence j then Z.min (Z.of_nat i) (sequence_count j) else Z.of_nat i);
  ba_index : has_sequence j = true -> c_sequence_index g = c_sent g;
  ba_lines : has_sequence j = true -> forall k x, k ∈ c_pending g -> c_ctxs g !! k = Some x ->
    0 <= x_sequence_index x < sequence_count j
}.

(** What a context gets before it is inserted. *)
Record prepared (j : job) (i : nat) (g g' : gctx) : Prop := {
  pr_keep : c_cplt g' = c_cplt g /\ c_finish g' = c_finish g /\ c_sent g' = c_sent g
            /\ c_pending g' = c_pending g /\ c_stats g' = c_stats g
            /\ c_sequential_lba g' = c_sequential_lba g;
  pr_ctxs : length (c_ctxs g') = length (c_ctxs g);
  pr_other : forall k, k <> i -> c_ctxs g' !! k = c_ctxs g !! k;
  pr_line : has_sequence j = true -> c_sequence_index g' = c_sequence_index g + 1
    /\ forall x, c_ctxs g' !! i = Some x -> x_sequence_index x = c_sequence_index g
}.

Lemma batch_insert j i g g' :
  batch_inv j i g -> prepared j i g g' -> Z.of_nat i < 2 ^ 64 - 1 ->
  (has_sequence j = true -> c_sequence_index g < sequence_count j) ->
  batch_inv j (S i) (insert_pending i g').
Proof.
  intros [] [(E1 & E2 & E3 & E4 & E5 & E6) Hlen Hother Hline] Hlt Hseq.
  assert (Hn : length (c_pending g) = i).
  { destruct (has_sequence j); [|lia]. specialize (Hseq eq_refl). rewrite (ba_index0 eq_refl) in Hseq. lia. }
  assert (Hw : wrap 64 (c_sent g + 1) = c_sent g + 1) by (apply wrap_small; revert Hlt; eval_pow; lia).
  split; cbn [insert_pending set_pending c_cplt c_finish c_sent c_pending c_sequence_index c_ctxs];
    rewrite ?E1, ?E2, ?E3, ?E4, ?Hw; try done.
  - rewrite length_app. cbn. lia.
  - rewrite length_app. cbn [length]. rewrite seq_app, <- ba_pending0. cbn. by rewrite Hn.
  - rewrite length_app. cbn [length]. destruct (has_sequence j); [|lia].
    specialize (Hseq eq_refl). rewrite (ba_index0 eq_refl) in Hseq. lia.
  - intros Hs. destruct (Hline Hs) as [-> _]. rewrite (ba_index0 Hs). done.
  - intros Hs k x Hk Hx. apply elem_of_app in Hk as [Hk|Hk].
    + apply (ba_lines0 Hs k x Hk). rewrite <- Hother; [done|]. rewrite ba_pending0, Hn in Hk.
      apply elem_of_seq in Hk. lia.
    + apply list_elem_of_singleton in Hk as ->. destruct (Hline Hs) as [_ Hl]. rewrite (Hl x Hx).
      specialize (Hseq Hs). rewrite (ba_index0 Hs) in *. lia.
Qed.

Lemma first_batch_inv j clock n : forall i g g',
  first_batch j clock n i g = Ok g' -> batch_inv j i g -> Z.of_nat (i + n) < 2 ^ 64 ->
  batch_inv j (i + n) g' /\ c_stats g' = c_stats g /\ length (c_ctxs g') = length (c_ctxs g)
  /\ c_sequential_lba g' = c_sequential_lba g.
Proof.
  induction n as [|n IH]; intros i g g' H Hi Hlt; cbn [first_batch] in H.
  { injection H as <-. by rewrite Nat.add_0_r. }
  replace (i + S n)%nat with (S i + n)%nat in * by lia.
  assert (Hins : forall g1, prepared j i g g1 -> first_batch j clock n (S i) (insert_pending i g1) = Ok g' ->
    (has_sequence j = true -> c_sequence_index g < sequence_count j) ->
    batch_inv j (S i + n) g' /\ c_stats g' = c_stats g /\ length (c_ctxs g') = length (c_ctxs g)
    /\ c_sequential_lba g' = c_sequential_lba g).
  { intros g1 Hp Hg1 Hs. destruct (IH (S i) _ g' Hg1) as (H1 & H2 & H3 & H4);
      [apply (batch_insert j i g); [done..|lia|done]|done|].
    destruct Hp as [(_ & _ & _ & _ & E5 & E6) Hl _ _]. cbn in H2, H3, H4. split; [done|].
    by rewrite H2, H3, H4, E5, Hl, E6. }
  destruct (has_sequence j) eqn:Hs.
  - destruct (Z.leb_spec (sequence_count j) (c_sequence_index g)) as [Hge|Hl].
    + apply (IH (S i) g g' H); [|done]. destruct Hi. split; try done; rewrite Hs in *.
      rewrite (ba_index0 eq_refl) in Hge. lia.
    + apply res_bind_inv in H as (g1 & Hg1 & H). apply (Hins g1); [|done|by intros].
      apply next_line_inv in Hg1; [|done..]. destruct Hg1 as [E P1 P2 P3 P4]. split; try done.
      * by rewrite E.
      * intros _. rewrite Hs, (proj2 (Z.ltb_lt _ _) Hl) in P3. split; [done|].
        intros x Hx. destruct (P4 Hs Hl) as (y & Hy & <-). congruence.
  - destruct (negb (j_delay j =? 0)).
    + apply res_bind_inv in H as (g1 & Hg1 & H). apply (Hins g1); [|done|done].
      unfold next_slot in Hg1. apply res_bind_inv in Hg1 as (x & _ & [= <-]).
      split; cbn; rewrite ?Hs; try done; [apply length_insert|].
      intros k Hk. by rewrite list_lookup_insert_ne.
    + apply res_bind_inv in H as (x & _ & H). apply (Hins (set_ctx i (with_time (clock i) x) g)); [|done|done].
      split; cbn; rewrite ?Hs; try done; [apply length_insert|].
      intros k Hk. by rewrite list_lookup_insert_ne.
Qed.

(** What the worker starts with: room for its queue, and at least one command
    to send. *)
Record start_ok (j : job) (ctxs : list ctx) : Prop := {
  sa_depth : 1 <= a_qdepth (j_args j) <= Z.of_nat (length ctxs);
  sa_count : a_qdepth (j_args j) <= a_io_count (j_args j) < 2 ^ 64
}.

Definition depth (j : job) : Z :=
  if has_sequence j then Z.min (a_qdepth (j_args j)) (sequence_count j) else a_qdepth (j_args j).

Lemma start_inv j ctxs g0 clock g :
  start_ok j ctxs -> c_pending g0 = [] -> c_sent g0 = 0 -> c_cplt g0 = 0 -> c_finish g0 = false ->
  c_sequence_index g0 = 0 -> c_ctxs g0 = ctxs ->
  length (st_op_counter (c_stats g0)) = length (a_ops (j_args j)) ->
  first_batch j clock (Z.to_nat (a_qdepth (j_args j))) 0 g0 = Ok g ->
  linv j (mk_world g [] 0) /\ c_sent g = depth j /\ c_finish g = false
  /\ (has_sequence j = true -> c_sequence_index g = depth j) /\ c_stats g = c_stats g0
  /\ c_sequential_lba g = c_sequential_lba g0.
Proof.
  intros [Hd Hc] E1 E2 E3 E4 E5 E6 E7 Hg.
  assert (Hseqpos : has_sequence j = true -> 1 <= sequence_count j).
  { unfold has_sequence, sequence_count. destruct (a_sequence (j_args j)); [done|cbn; lia]. }
  apply first_batch_inv in Hg as ([] & Hst & Hlen & Hlba).
  2: { split; rewrite ?E1, ?E2, ?E3, ?E4, ?E5; try done.
       - destruct (has_sequence j); cbn; unfold sequence_count; lia.
       - intros _ k x Hk. by apply not_elem_of_nil in Hk. }
  2: { revert Hc. eval_pow. lia. }
  cbn [Nat.add] in *. rewrite Z2Nat.id in ba_count0 by lia. fold (depth j) in ba_count0.
  assert (Hdp : 1 <= depth j <= a_qdepth (j_args j)).
  { unfold depth. destruct (has_sequence j); [specialize (Hseqpos eq_refl)|]; lia. }
  split; [|split_and!; try done; [by rewrite ba_sent0|intros Hs; by rewrite (ba_index0 Hs), ba_sent0]].
  split; cbn [w_g w_flight w_lost length]; rewrite ?app_nil_r; try lia.
  - rewrite ba_pending0. apply NoDup_seq.
  - rewrite ba_pending0. apply Forall_seq. intros k Hk. rewrite Hlen, E6. lia.
  - intros Hs. rewrite (ba_index0 Hs), ba_sent0, ba_count0. unfold depth. rewrite Hs. split; [lia|done].
  - exact ba_lines0.
  - by rewrite Hst.
  - intros k x Hk. by apply not_elem_of_nil in Hk.
Qed.












Lemma update_log_run n c g : Z.of_nat (length (c_log g)) = n -> 0 <= c_log_index g <= n ->
  exists g', update_log n c g = Ok g' /\ Z.of_nat (length (c_log g')) = n /\ 0 <= c_log_index g' <= n.
Proof.
  intros Hl Hi. unfold update_log. destruct (Z.eqb_spec n 0); [by exists g|].
  destruct (Z.eqb_spec (c_log_index g) n) as [E|E].
  - destruct (c_log g !! Z.to_nat 0) eqn:E0; [|apply lookup_ge_None in E0; lia].
    eexists. split; [reflexivity|]. cbn. rewrite length_insert. lia.
  - destruct (c_log g !! Z.to_nat (c_log_index g)) eqn:E0; [|apply lookup_ge_None in E0; lia].
    eexists. split; [reflexivity|]. cbn [set_log c_log c_log_index]. rewrite length_insert. lia.
Qed.


(** How a worker is launched: the first batch on contexts of any contents. *)
Definition launched (j : job) (g : gctx) : Prop :=
  exists start per_latency per_second ctxs log clock,
    start_ok j ctxs
    /\ first_batch j clock (Z.to_nat (a_qdepth (j_args j))) 0
         (start_gctx (j_args j) start per_latency per_second ctxs log) = Ok g.

Lemma launched_inv j g : launched j g ->
  linv j (mk_world g [] 0) /\ c_sent g = depth j /\ c_finish g = false
  /\ (has_sequence j = true -> c_sequence_index g = depth j)
  /\ rt_error (st_rets (c_stats g)) = 0.
Proof.
  intros (start & pl & ps & ctxs & log & clock & Hok & Hg).
  destruct (start_inv j ctxs (start_gctx (j_args j) start pl ps ctxs log) clock g) as (H1 & H2 & H3 & H4 & H5 & _);
    try done.
  { cbn. apply length_fmap. }
  split_and!; try done. by rewrite H5.
Qed.

Lemma linv_steps j late w w' : rtc (lstep j late) w w' -> linv j w -> linv j w'.
Proof. induction 1; [done|]. intros. by eauto using linv_step. Qed.

(** C21. The loop's counters are right: in every state a worker can reach, the
    commands counted as sent are those completed, those waiting to be sent,
    those at the device and those that were not accepted, no context is in two
    of these places, and never more commands are counted than the worker was
    asked for; so the loop ends by itself exactly when an end condition was
    met, no command waits or is outstanding, and none was refused: after a
    refused command it only ends by its time-out or a termination. *)
Theorem loop_counters j late g0 w :
  launched j g0 -> rtc (lstep j late) (mk_world g0 [] 0) w ->
  c_sent (w_g w) = c_cplt (w_g w) + Z.of_nat (length (c_pending (w_g w)))
      + Z.of_nat (length (w_flight w)) + Z.of_nat (w_lost w)
  /\ NoDup (c_pending (w_g w) ++ w_flight w)
  /\ c_sent (w_g w) <= a_io_count (j_args j)
  /\ (loop_done (w_g w) = true <->
        c_finish (w_g w) = true /\ c_pending (w_g w) = [] /\ w_flight w = [] /\ w_lost w = O).
Proof.
  intros Hl Hs. apply launched_inv in Hl as (Hi & _). apply (linv_steps _ _ _ _ Hs) in Hi.
  pose proof (v_count _ _ Hi) as Hc. split_and!; [done|apply (v_nodup _ _ Hi)|apply (v_sent _ _ Hi)|].
  unfold loop_done. rewrite Hc. split.
  - intros [[H1 H2]%andb_prop H3]%andb_prop. destruct (c_pending (w_g w)); [|done]. cbn [length] in H1.
    split_and!; try done; [|lia]. destruct (w_flight w); [done|]. cbn [length] in H1. lia.
  - intros (H1 & H2 & H3 & H4). rewrite H1, H2, H3, H4. cbn. rewrite !Z.add_0_r, Z.eqb_refl. done.
Qed.

(** ** The loop of the code takes these steps *)

(** The contexts at the device after some completions, each of a command that
    was there. *)
Inductive completions (j : job) (late : bool) : list nat -> list (nat * option Z * timeval * timeval) -> list nat -> Prop :=
  | completions_nil fl : completions j late fl [] fl
  | completions_cons fl1 i fl2 error now now' l fl' :
      error_ok error -> (timercmp_gt now' (j_due_time j) = true -> late = true) ->
      completions j late (fl1 ++ fl2) l fl' ->
      completions j late (fl1 ++ i :: fl2) ((i, error, now, now') :: l) fl'.

(** Whether the head is sent in this turn. *)
Definition sends (u : turn) (g : gctx) : option nat :=
  match c_pending g with
  | [] => None
  | i :: _ => match c_ctxs g !! i with
              | Some x => if timercmp_gt (u_now u) (x_time_sent x) then Some i else None
              | None => None
              end
  end.

Definition flight_after (u : turn) (g : gctx) (fl : list nat) : list nat :=
  match sends u g with Some i => if u_rc u =? 0 then i :: fl else fl | None => fl end.

(** SPDK completes only commands it has, in all turns. *)
Fixpoint device (j : job) (late : bool) (start : timeval) (us : list turn) (g : gctx) (fl : list nat) : Prop :=
  match us with
  | [] => True
  | u :: us' =>
      rnd_ok (u_rnd u) /\
      forall g1 r, loop_body j start u g = Ok (g1, r) -> r = None ->
        exists fl', completions j late (flight_after u g fl) (u_cpls u) fl' /\ device j late start us' g1 fl'
  end.

Lemma complete_all_steps j late l : forall g fl fl' lost g',
  complete_all j l g = Ok g' -> completions j late fl l fl' ->
  rtc (lstep j late) (mk_world g fl lost) (mk_world g' fl' lost).
Proof.
  induction l as [|[[[i error] now] now'] l IH]; intros g fl fl' lost g' H Hc; cbn [complete_all] in H.
  - injection H as <-. inversion Hc. constructor.
  - apply res_bind_inv in H as (g1 & Hg1 & H). inversion Hc as [|fl1 ? fl2 ? ? ? ? ? He Hlt Hc']. subst.
    eapply rtc_l; [by eapply lstep_complete|by apply IH].
Qed.

Lemma body_steps j late start u g fl lost g1 r :
  loop_body j start u g = Ok (g1, r) -> rnd_ok (u_rnd u) ->
  (forall fl', completions j late (flight_after u g fl) (u_cpls u) fl' -> r = None ->
     exists lost', rtc (lstep j late) (mk_world g fl lost) (mk_world g1 fl' lost'))
  /\ (r <> None -> exists fl' lost', rtc (lstep j late) (mk_world g fl lost) (mk_world g1 fl' lost')).
Proof.
  unfold loop_body. intros H Hr. apply res_bind_inv in H as (g2 & Hg2 & H).
  assert (exists lost2, rtc (lstep j late) (mk_world g fl lost) (mk_world g2 (flight_after u g fl) lost2)) as [lost2 Hs].
  { unfold flight_after, sends. destruct (c_pending g) as [|i rest] eqn:Hp; [injection Hg2 as <-; by exists lost|].
    apply res_bind_inv in Hg2 as (x & Hx & Hg2). apply get_ctx_inv in Hx. rewrite Hx.
    destruct (timercmp_gt _ _); [|injection Hg2 as <-; by exists lost].
    destruct (Z.eqb_spec (u_rc u) 0) as [E|E].
    - exists lost. rewrite E in Hg2. apply rtc_once. by eapply lstep_send.
    - exists (S lost). apply rtc_once. by eapply lstep_fail. }
  apply res_bind_inv in H as (msec & _ & H). split.
  - intros fl' Hc ->. destruct (_ <? msec); [done|]. destruct (u_terminate u); [done|].
    apply res_bind_inv in H as (g3 & Hg3 & H). injection H as <-. exists lost2.
    etrans; [exact Hs|]. by eapply complete_all_steps.
  - intros Hn. destruct (_ <? msec); [injection H as <- <-; eauto|]. destruct (u_terminate u); [injection H as <- <-; eauto|].
    apply res_bind_inv in H as (g3 & _ & H). by injection H as _ <-.
Qed.

Lemma loop_steps j late start us : forall g fl lost g' ret,
  loop j start us g = Ok (Some (g', ret)) -> device j late start us g fl ->
  exists fl' lost', rtc (lstep j late) (mk_world g fl lost) (mk_world g' fl' lost')
    /\ (ret = 0 -> loop_done g' = true).
Proof.
  induction us as [|u us IH]; intros g fl lost g' ret H Hd; cbn [loop] in H;
    (destruct (loop_done g) eqn:Hdone; [injection H as <- <-; exists fl, lost; split; [constructor|done]|]); [done|].
  apply res_bind_inv in H as ([g1 r] & Hb & H). cbn [fst snd] in H. destruct Hd as [Hr Hd].
  specialize (Hd g1 r Hb).
  destruct (body_steps j late start u g fl lost g1 r Hb Hr) as [Hnone Hsome].
  destruct r as [ret'|].
  - injection H as <- <-. destruct Hsome as (fl' & lost' & Hs); [done|]. exists fl', lost'. split; [done|].
    intros ->. exfalso. revert Hb. unfold loop_body. intros Hb. apply res_bind_inv in Hb as (g2 & _ & Hb).
    apply res_bind_inv in Hb as (msec & _ & Hb). destruct (_ <? msec); [done|]. destruct (u_terminate u); [done|].
    apply res_bind_inv in Hb as (g3 & _ & Hb). done.
  - destruct (Hd eq_refl) as (fl1 & Hc & Hd'). destruct (Hnone fl1 Hc eq_refl) as [lost1 Hs].
    destruct (IH g1 fl1 lost1 g' ret H Hd') as (fl' & lost' & Hs' & Hz). exists fl', lost'.
    split; [by etrans|done].
Qed.

(** *** How many commands *)

(** How far a worker without errors gets; the last line of a sequence longer
    than the queue is planned, but not sent. *)
Definition total (j : job) : Z :=
  if has_sequence j then
    if sequence_count j <=? a_qdepth (j_args j) then sequence_count j else sequence_count j - 1
  else a_io_count (j_args j).

Record exact (j : job) (w : world) : Prop := {
  x_end : rt_error (st_rets (c_stats (w_g w))) = 0 -> w_lost w = O -> c_finish (w_g w) = true ->
          c_sent (w_g w) = total j /\ (has_sequence j = true -> c_sequence_index (w_g w) = sequence_count j);
  x_more : has_sequence j = true -> c_finish (w_g w) = false ->
           c_sequence_index (w_g w) = c_sent (w_g w)
           /\ (a_qdepth (j_args j) < sequence_count j -> c_sequence_index (w_g w) < sequence_count j)
           /\ (sequence_count j <= a_qdepth (j_args j) -> c_sequence_index (w_g w) = sequence_count j)
}.

Lemma exact_complete j g fl1 i fl2 lost error now' g' :
  (has_sequence j = true -> sequence_count j <= a_io_count (j_args j)) ->
  linv j (mk_world g (fl1 ++ i :: fl2) lost) -> exact j (mk_world g (fl1 ++ i :: fl2) lost) ->
  error_ok error -> timercmp_gt now' (j_due_time j) = false -> cb_effect j i error now' g g' ->
  exact j (mk_world g' (fl1 ++ fl2) lost).
Proof.
  intros Hcnt Hi [Hend Hmore] Herr Ht []. cbn [w_g w_flight w_lost] in *.
  pose proof (v_index _ _ Hi) as Hidx. pose proof (v_sent _ _ Hi) as Hsent. cbn [w_g] in Hidx, Hsent.
  assert (Hpos : 0 <= c_sent g) by (pose proof (v_count _ _ Hi); pose proof (v_cplt _ _ Hi); cbn [w_g] in *; lia).
  assert (He0 : rt_error (st_rets (c_stats g')) = 0 -> error = None /\ rt_error (st_rets (c_stats g)) = 0).
  { rewrite ce_error0. destruct error as [st|]; [|done]. cbn in Herr.
    destruct (Z.eqb_spec (rt_error (st_rets (c_stats g))) 0); [|done]. intros H. lia. }
  destruct ce_finish0 as [(Hf & Hpd & Hst & Hwhy)|(Hf & Hf0 & He & Hpd & Hst & Hlt & Hc)].
  - split; cbn [w_g w_flight w_lost]; [|intros _; by rewrite Hf].
    intros Hz Hl _. destruct (He0 Hz) as [-> Hz0]. rewrite Hst.
    destruct (c_finish g) eqn:Eg.
    { destruct (Hend Hz0 Hl eq_refl) as [H1 H2]. split; [done|]. intros Hs. rewrite ce_index0, Hs, (H2 Hs).
      destruct (Z.ltb_spec (sequence_count j) (sequence_count j)); cbn; lia. }
    destruct Hwhy as [?|[?|Hwhy]]; [done|done|]. unfold total. destruct (has_sequence j) eqn:Hs.
    + destruct (Hmore eq_refl eq_refl) as (M1 & M2 & M3). destruct (Hidx eq_refl) as [I1 _]. specialize (Hcnt eq_refl).
      rewrite ce_index0 in *. cbn [andb] in *.
      destruct (Z.ltb_spec (c_sequence_index g) (sequence_count j)), (Z.leb_spec (sequence_count j) (a_qdepth (j_args j)));
        destruct Hwhy as [[_ ?]|[?|?]]; lia || congruence.
    + split; [|done]. destruct Hwhy as [[? _]|[?|?]]; [done|done|congruence].
  - split; cbn [w_g w_flight w_lost]; [by rewrite Hf|]. intros Hs _.
    destruct (Hmore Hs Hf0) as (M1 & M2 & M3). specialize (Hlt Hs).
    rewrite Hst, wrap_small by lia. rewrite ce_index0, Hs in *. cbn [andb] in *.
    destruct (Z.ltb_spec (c_sequence_index g) (sequence_count j)); lia.
Qed.

Lemma exact_send j i rest rc g g' fl fl' lost lost' :
  send_effect j i rest rc g g' -> exact j (mk_world g fl lost) -> (rc = 0 /\ lost' = lost) \/ (lost' = S lost) ->
  exact j (mk_world g' fl' lost').
Proof.
  intros [] [Hend Hmore] Hrc. cbn [w_g w_flight w_lost] in *.
  split; cbn [w_g w_flight w_lost]; rewrite se_finish0, ?se_stats0, ?se_sent0, se_index0.
  - intros Hz Hl Hf. destruct Hrc as [[-> ->]| ->]; [|done]. by apply Hend.
  - intros Hs Hf. destruct (rc =? 0); [by apply Hmore|done].
Qed.

Lemma exact_step j w w' : (has_sequence j = true -> sequence_count j <= a_io_count (j_args j)) ->
  lstep j false w w' -> linv j w -> exact j w -> exact j w'.
Proof.
  intros Hcnt Hstep Hi Hx.
  destruct Hstep as [g fl lost i rest r now g' Hr Hp Hs|g fl lost i rest r rc now g' Hr Hp Hrc Hs
         |g fl1 i fl2 lost error now now' g' He Hl Hc].
  - eapply exact_send; [exact (send_inv _ _ _ _ _ _ _ _ Hp Hs)|exact Hx|by left].
  - eapply exact_send; [exact (send_inv _ _ _ _ _ _ _ _ Hp Hs)|exact Hx|by right].
  - eapply exact_complete; [done|exact Hi|exact Hx|exact He| |by apply cb_inv in Hc].
    destruct (timercmp_gt now' (j_due_time j)); [by specialize (Hl eq_refl)|done].
Qed.

Lemma loop_ends j start us g0 g :
  launched j g0 -> loop j start us g0 = Ok (Some (g, 0)) -> device j false start us g0 [] ->
  (has_sequence j = true -> sequence_count j <= a_io_count (j_args j)) ->
  rt_error (st_rets (c_stats g)) = 0 ->
  c_cplt g = total j.
Proof.
  intros Hl Hrun Hdev Hcnt Hz. apply launched_inv in Hl as (Hi & H1 & H2 & H3 & H4).
  destruct (loop_steps j false start us g0 [] 0 g 0 Hrun Hdev) as (fl & lost & Hs & Hd). specialize (Hd eq_refl).
  assert (Hx : exact j (mk_world g0 [] 0)).
  { split; cbn [w_g w_flight w_lost]; [congruence|]. intros Hsq _. rewrite (H3 Hsq), H1. unfold depth.
    rewrite Hsq. lia. }
  assert (H : linv j (mk_world g fl lost) /\ exact j (mk_world g fl lost)).
  { clear H1 H2 H3 H4 Hd Hz Hrun Hdev. induction Hs as [|w1 w2 w3 Hst _ IH]; [done|].
    apply IH; [by eapply linv_step|by eapply exact_step]. }
  destruct H as [Hw [Hend _]]. pose proof (v_count _ _ Hw) as Hc. unfold loop_done in Hd.
  cbn [w_g w_flight w_lost] in *.
  apply andb_prop in Hd as [[Hsc Hf]%andb_prop Hp]. apply Z.eqb_eq in Hsc.
  assert (lost = O) by lia. destruct (Hend Hz) as [Ht _]; [done..|]. rewrite <- Hsc. exact Ht.
Qed.

(** C22. A worker sends as many commands as it was asked for: when the loop ends
    by itself, no error was recorded and the time did not run out, exactly
    [io_count] commands have completed.  With a sequence, all its lines have
    been sent if they fit the queue; otherwise the last line has not. *)
Theorem loop_exact j start us g0 g :
  launched j g0 -> loop j start us g0 = Ok (Some (g, 0)) -> device j false start us g0 [] ->
  (has_sequence j = true -> sequence_count j <= a_io_count (j_args j)) ->
  rt_error (st_rets (c_stats g)) = 0 ->
  c_cplt g = (if has_sequence j then
                if sequence_count j <=? a_qdepth (j_args j) then sequence_count j
                else sequence_count j - 1
              else a_io_count (j_args j)).
Proof. intros. by apply (loop_ends j start us g0 g). Qed.

(** *** The loop ends *)







(** ** The list of the latest commands *)
Fixpoint update_logs (log_len : Z) (cmds : list cmdlog) (g : gctx) : res gctx :=
  match cmds with
  | [] => Ok g
  | c :: cmds' => g ← update_log log_len c g; update_logs log_len cmds' g
  end.

Lemma update_log_final n c g : 0 < n -> Z.of_nat (length (c_log g)) = n -> 0 <= c_log_index g <= n ->
  exists g', update_log n c g = Ok g' /\ Z.of_nat (length (c_log g')) = n /\ 0 <= c_log_index g' <= n
    /\ final_log n g' = drop 1 (final_log n g) ++ [c].
Proof.
  intros Hn Hl Hi. destruct (update_log_run n c g Hl Hi) as (g' & Hg' & Hl' & Hi'). exists g'.
  split; [done|]. split; [done|]. split; [done|].
  revert Hg'. unfold update_log, final_log. rewrite (proj2 (Z.eqb_neq n 0)) by lia.
  destruct (Z.eqb_spec (c_log_index g) n) as [E|E].
  - rewrite E, (drop_ge (c_log g) (Z.to_nat n)), (take_ge (c_log g) (Z.to_nat n)) by lia.
    destruct (c_log g) as [|x l]; [cbn in Hl; lia|]. cbn. by intros [= <-].
  - destruct (c_log g !! Z.to_nat (c_log_index g)) as [x|] eqn:Ex; [|done]. intros [= <-].
    cbn [set_log c_log c_log_index]. replace (Z.to_nat (c_log_index g + 1)) with (S (Z.to_nat (c_log_index g))) by lia.
    set (k := Z.to_nat (c_log_index g)) in *. rewrite (drop_S (c_log g) x k Ex). cbn [app drop].
    rewrite (take_S_r _ k c) by (apply list_lookup_insert_eq; by apply lookup_lt_Some in Ex).
    rewrite take_insert_ge, drop_insert_lt by lia. by rewrite app_assoc.
Qed.

(** The worker reports its latest commands, the oldest first: after any
    number of completions the list of [n] entries ends with the latest [n]
    commands that completed, in the order of their completion, behind the
    entries it started with. *)
Theorem log_keeps_latest n cmds g : 0 < n -> Z.of_nat (length (c_log g)) = n -> c_log_index g = 0 ->
  exists g', update_logs n cmds g = Ok g' /\ final_log n g' = drop (length cmds) (c_log g ++ cmds).
Proof.
  intros Hn Hl Hi.
  assert (H : forall cmds g, Z.of_nat (length (c_log g)) = n -> 0 <= c_log_index g <= n ->
    exists g', update_logs n cmds g = Ok g' /\ final_log n g' = drop (length cmds) (final_log n g ++ cmds)).
  { clear cmds g Hl Hi. induction cmds as [|c cmds IH]; intros g Hl Hi; cbn [update_logs length].
    - exists g. split; [done|]. by rewrite app_nil_r.
    - destruct (update_log_final n c g Hn Hl Hi) as (g1 & Hg1 & Hl1 & Hi1 & Hf). rewrite Hg1.
      destruct (IH g1 Hl1 Hi1) as (g' & Hg' & Hf'). exists g'. split; [done|]. rewrite Hf', Hf.
      assert (Hfl : (0 < length (final_log n g))%nat).
      { unfold final_log. destruct (n =? 0); [lia|]. rewrite length_app, length_drop, length_take. lia. }
      destruct (final_log n g) as [|x l]; [cbn in Hfl; lia|]. cbn. by rewrite <- app_assoc. }
  destruct (H cmds g Hl) as (g' & Hg' & Hf); [lia|]. exists g'. split; [done|]. rewrite Hf. f_equal. f_equal.
  unfold final_log. destruct (Z.eqb_spec n 0); [lia|]. rewrite Hi. cbn. by rewrite app_nil_r.
Qed.

(** ** Witnesses *)

(** A worker that replays three reads with a queue of one command. *)
Definition replay : params :=
  mk_params (SizeInt 8) None AlignNone (RandomBool true) 100 None 0 2 0 4096 0 0 0 None 100 0xbeef
    (Some [mk_ioseq 0 2 10 1; mk_ioseq 0 2 20 2; mk_ioseq 0 2 30 3]).
Definition replay_args : c_args :=
  match (g ← ioworker 0xff replay; pack_args g) with
  | Ok a => match adjust_args 4096 512 0x20000 0 a with Ok (inr a') => a' | _ => no_args end
  | Err _ => no_args
  end.
Definition replay_tables : tables :=
  match build_tables 4096 replay_args with Ok t => t | Err _ => mk_tables [] [] [] end.
Definition replay_job : job :=
  start_job (mk_nstab 0 None 512) replay_args replay_tables (mk_tv 100 0) (mk_tv 100 0) 2.
Definition blank_ctx : ctx := mk_ctx 0 0 (mk_tv 0 0) (0, 0, 0) 0.
Definition replay_start : gctx :=
  match first_batch replay_job (fun _ => mk_tv 100 0) 1 0
          (start_gctx replay_args (mk_tv 100 0) None None [blank_ctx; blank_ctx] [(0, 0, 0); (0, 0, 0)]) with
  | Ok g => g
  | Err _ => start_gctx replay_args (mk_tv 100 0) None None [] []
  end.

(** Each turn sends the waiting command, which completes at once. *)
Definition replay_turn (n : Z) : turn :=
  mk_turn (mk_tv 100 n) zeros 0 (mk_tv 100 (n + 1)) false
    [(O, None, mk_tv 100 (n + 5), mk_tv 100 (n + 6))].

Lemma replay_launched : launched replay_job replay_start.
Proof.
  exists (mk_tv 100 0), None, None, [blank_ctx; blank_ctx], [(0, 0, 0); (0, 0, 0)], (fun _ => mk_tv 100 0).
  split; [split; vm_compute; by split|by vm_compute].
Qed.


(** The state after the first command was sent, and after the loop. *)
Definition replay_sent : gctx :=
  match send_head replay_job zeros 0 (mk_tv 100 11) replay_start with Ok g => g | Err _ => replay_start end.
Definition replay_end : gctx :=
  match loop replay_job (mk_tv 100 0) [replay_turn 10; replay_turn 20] replay_start with
  | Ok (Some (g, _)) => g
  | _ => replay_start
  end.

Lemma replay_step : rtc (lstep replay_job false) (mk_world replay_start [] 0) (mk_world replay_sent [O] 0).
Proof.
  apply rtc_once.
  apply (lstep_send replay_job false replay_start [] 0 O [] zeros (mk_tv 100 11) replay_sent); by vm_compute.
Qed.

Lemma loop_counters_witness : launched replay_job replay_start
  /\ rtc (lstep replay_job false) (mk_world replay_start [] 0) (mk_world replay_sent [O] 0)
  /\ c_sent replay_sent = c_cplt replay_sent + 0 + 1 + 0.
Proof.
  split; [apply replay_launched|]. split; [apply replay_step|].
  destruct (loop_counters replay_job false replay_start (mk_world replay_sent [O] 0) replay_launched replay_step)
    as (Hc & _). exact Hc.
Defined.

(** Every turn of the replay sends the waiting command and it completes. *)
Lemma replay_device_turn n us g fl : sends (replay_turn n) g = Some O ->
  timercmp_gt (mk_tv 100 (n + 6)) (j_due_time replay_job) = false ->
  (forall g1 r, loop_body replay_job (mk_tv 100 0) (replay_turn n) g = Ok (g1, r) ->
     device replay_job false (mk_tv 100 0) us g1 fl) ->
  device replay_job false (mk_tv 100 0) (replay_turn n :: us) g fl.
Proof.
  intros Hs Ht Hus. cbn [device]. split; [by vm_compute|]. intros g1 r Hb _. exists fl.
  split; [|by eapply Hus]. unfold flight_after. rewrite Hs. cbn.
  apply (completions_cons replay_job false [] O fl); [done|by rewrite Ht|constructor].
Qed.

Lemma replay_device : device replay_job false (mk_tv 100 0) [replay_turn 10; replay_turn 20] replay_start [].
Proof.
  apply replay_device_turn; [by vm_compute..|]. intros g1 r1 H1. vm_compute in H1. injection H1 as <- _.
  apply replay_device_turn; [by vm_compute..|]. intros g2 r2 H2. vm_compute in H2. injection H2 as <- _.
  exact I.
Qed.

Lemma loop_exact_witness : launched replay_job replay_start
  /\ loop replay_job (mk_tv 100 0) [replay_turn 10; replay_turn 20] replay_start = Ok (Some (replay_end, 0))
  /\ c_cplt replay_end = 2.
Proof.
  split; [apply replay_launched|]. split; [by vm_compute|].
  rewrite (loop_exact replay_job (mk_tv 100 0) [replay_turn 10; replay_turn 20] replay_start replay_end replay_launched);
    [by vm_compute|by vm_compute|apply replay_device|by vm_compute|by vm_compute].
Defined.


(** Three commands in a list of two entries: the last two are kept. *)
Lemma log_keeps_latest_witness :
  let g := start_gctx replay_args (mk_tv 100 0) None None [] [(0, 0, 0); (0, 0, 0)] in
  exists g', update_logs 2 [(1, 8, 2); (2, 8, 2); (3, 8, 2)] g = Ok g'
    /\ final_log 2 g' = [(2, 8, 2); (3, 8, 2)].
Proof.
  apply (log_keeps_latest 2 [(1, 8, 2); (2, 8, 2); (3, 8, 2)]
           (start_gctx replay_args (mk_tv 100 0) None None [] [(0, 0, 0); (0, 0, 0)])); done.
Defined.
