(* ===== verification/Tally.v ===== *)
(** * Tally: what the worker's counters add up to

    The counters the callbacks of Loop.v keep - per operation, reads and other
    commands, per latency - against the number of commands completed, in every
    state the worker can reach (src/src/ioworker.c). *)
From Stdlib Require Import ZArith Lia.
From stdpp Require Import base list numbers option relations.
From S2P Require Import Prelude PyInt Psd Cmdlog IOWorker Generator Loop.
Local Open Scope Z_scope.

(** ** Sums *)
Lemma sum_app l1 l2 : sum (l1 ++ l2) = sum l1 + sum l2.
Proof. induction l1 as [|x l1 IH]; [done|]. cbn [app]. rewrite !sum_cons, IH. lia. Qed.

Lemma sum_insert l i v x : l !! i = Some v -> sum (<[i := x]> l) = sum l - v + x.
Proof.
  intros Hi. rewrite (insert_take_drop _ _ _ (lookup_lt_Some _ _ _ Hi)).
  rewrite <- (take_drop_middle l i v Hi) at 3. rewrite !sum_app, !sum_cons. lia.
Qed.

Lemma sum_nonneg l : Forall (fun c => 0 <= c) l -> 0 <= sum l.
Proof. induction 1; rewrite ?sum_cons; [done|lia]. Qed.

Lemma sum_ge l i v : Forall (fun c => 0 <= c) l -> l !! i = Some v -> v <= sum l.
Proof.
  intros Hl Hi. rewrite <- (take_drop_middle l i v Hi) in *. rewrite sum_app, sum_cons.
  apply Forall_app in Hl as [H1 [H2 H3]%Forall_cons]. pose proof (sum_nonneg _ H1). pose proof (sum_nonneg _ H3). lia.
Qed.

Lemma sum_zeros n : sum (replicate n 0) = 0.
Proof. induction n; [done|]. cbn [replicate]. by rewrite sum_cons. Qed.

(** ** What a callback counts *)

(** One command more, in each of the tallies. *)
Record counted (x : ctx) (s s' : stats) : Prop := {
  ct_op : exists v, st_op_counter s !! Z.to_nat (x_op_index x) = Some v
    /\ st_op_counter s' = <[Z.to_nat (x_op_index x) := wrap 64 (v + 1)]> (st_op_counter s);
  ct_read : rt_read (st_rets s') = (if x_opcode x =? 2 then wrap 64 (rt_read (st_rets s) + 1) else rt_read (st_rets s));
  ct_nonread : rt_nonread (st_rets s') =
    (if x_opcode x =? 2 then rt_nonread (st_rets s) else wrap 64 (rt_nonread (st_rets s) + 1));
  ct_latency : match st_per_latency s with
               | None => st_per_latency s' = None
               | Some l => exists k v, l !! k = Some v /\ st_per_latency s' = Some (<[k := wrap 64 (v + 1)]> l)
               end
}.

Lemma count_at_inv i l l' : count_at i l = Ok l' ->
  exists v, l !! Z.to_nat i = Some v /\ l' = <[Z.to_nat i := wrap 64 (v + 1)]> l.
Proof. unfold count_at. destruct (l !! _) as [v|]; [|done]. intros [= <-]. by exists v. Qed.

Lemma update_stats_counted x now s s' : update_stats x now s = Ok s' -> counted x s s'.
Proof.
  unfold update_stats, ioworker_update_rets. intros H. apply res_bind_inv in H as (oc & Hoc & H).
  apply count_at_inv in Hoc. apply res_bind_inv in H as (pl & Hpl & H). injection H as <-.
  split; cbn; try done. destruct (st_per_latency s) as [l|]; [|by injection Hpl as <-].
  apply res_bind_inv in Hpl as (l' & (v & Hv & ->)%count_at_inv & [= <-]). eauto.
Qed.

Lemma update_log_length n c g g' : update_log n c g = Ok g' -> length (c_log g') = length (c_log g).
Proof.
  unfold update_log. destruct (n =? 0); [by intros [= <-]|].
  destruct (c_log_index g =? n); (destruct (c_log g !! _); [|done]); intros [= <-]; apply length_insert.
Qed.

(** The tallies of the state. *)
Definition tallies (g : gctx) : list Z * Z * Z * option (list Z) :=
  let s := c_stats g in (st_op_counter s, rt_read (st_rets s), rt_nonread (st_rets s), st_per_latency s).

Lemma cb_counted j i error now now' g g' : ioworker_one_cb j i error now now' g = Ok g' ->
  exists x s, c_ctxs g !! i = Some x /\ counted x (c_stats g) s
    /\ tallies g' = (st_op_counter s, rt_read (st_rets s), rt_nonread (st_rets s), st_per_latency s)
    /\ length (c_log g') = length (c_log g).
Proof.
  unfold ioworker_one_cb. intros H. apply res_bind_inv in H as (x & Hx & H). apply get_ctx_inv in Hx.
  apply res_bind_inv in H as (s & Hs & H). apply update_stats_counted in Hs.
  exists x, s. split; [done|]. split; [done|]. clear Hs.
  apply res_bind_inv in H as (g1 & Hg1 & H). apply plan_next_inv in Hg1 as [E1 _ _ _ _].
  assert (T1 : tallies g1 = tallies (set_stats s g) /\ c_log g1 = c_log g) by (rewrite E1; done). clear E1.
  assert (T2 : tallies (check_error error g1) = tallies g1 /\ c_log (check_error error g1) = c_log g1).
  { unfold check_error. destruct error; [|done]. cbn [set_finish c_stats]. by destruct (_ =? 0). }
  apply res_bind_inv in H as (s2 & Hs2 & H).
  assert (T3 : tallies (set_stats s2 (check_error error g1)) = tallies (check_error error g1)).
  { unfold update_second, ioworker_update_io_count_per_second in Hs2.
    destruct (st_per_second _) as [l|]; [|injection Hs2 as <-; by destruct (check_error error g1)].
    destruct (timercmp_gt _ _); [|injection Hs2 as <-; by destruct (check_error error g1)].
    destruct (l !! _); [|done]. by injection Hs2 as <-. }
  apply res_bind_inv in H as (g2 & Hg2 & H).
  assert (T4 : tallies g2 = tallies (set_stats s2 (check_error error g1)) /\ c_log g2 = c_log (check_error error g1)).
  { destruct (c_finish _); [by injection Hg2 as <-|]. apply res_bind_inv in Hg2 as (b & _ & [= <-]). done. }
  pose proof (update_log_length _ _ _ _ H) as Hlen. apply update_log_inv in H.
  destruct T1 as [T1 L1], T2 as [T2 L2], T4 as [T4 L4]. rewrite <- L1, <- L2, <- L4. split.
  - rewrite H. transitivity (tallies g2); [by destruct (c_finish g2)|]. by rewrite T4, T3, T2, T1.
  - rewrite Hlen. by destruct (c_finish g2).
Qed.

(** ** The tallies of a run *)
Record tally (j : job) (g : gctx) : Prop := {
  (* each counter goes up from the value of its operation *)
  t_ops : exists ns, length ns = length (a_ops (j_args j)) /\ Forall (fun n => 0 <= n) ns /\ sum ns = c_cplt g
    /\ st_op_counter (c_stats g) = zip_with (fun e n => wrap 64 (e.2 + n)) (a_ops (j_args j)) ns;
  t_io : 0 <= rt_read (st_rets (c_stats g)) /\ 0 <= rt_nonread (st_rets (c_stats g))
    /\ rt_read (st_rets (c_stats g)) + rt_nonread (st_rets (c_stats g)) = c_cplt g;
  t_latency : forall l, st_per_latency (c_stats g) = Some l -> Forall (fun n => 0 <= n) l /\ sum l = c_cplt g
}.

Lemma tally_eq j g g' : tallies g' = tallies g -> c_cplt g' = c_cplt g -> tally j g -> tally j g'.
Proof. intros [= H1 H2 H3 H4] Hc []. by split; rewrite ?H1, ?H2, ?H3, ?H4, ?Hc. Qed.

Lemma tally_counted j x g s g' : 0 <= c_cplt g < 2 ^ 64 - 1 -> tally j g -> counted x (c_stats g) s ->
  tallies g' = (st_op_counter s, rt_read (st_rets s), rt_nonread (st_rets s), st_per_latency s) ->
  c_cplt g' = c_cplt g + 1 -> tally j g'.
Proof.
  intros Hc [(ns & Hln & Hns & Hsum & Hop) (Hr & Hn & Hrn) Hlat] [(v & Hv & Hop') Hr' Hn' Hlat'] [= H1 H2 H3 H4] Hcpl.
  split; rewrite ?H1, ?H2, ?H3, ?H4, ?Hcpl.
  - rewrite Hop in Hv. apply lookup_zip_with_Some in Hv as (e & n & -> & He & Hi).
    exists (<[Z.to_nat (x_op_index x) := n + 1]> ns). rewrite length_insert. split_and!; [done|..].
    + apply Forall_insert; [done|]. rewrite Forall_lookup in Hns. specialize (Hns _ _ Hi). cbn in Hns. lia.
    + rewrite (sum_insert _ _ _ _ Hi). lia.
    + assert (Hw : wrap 64 (wrap 64 (e.2 + n) + 1) = wrap 64 (e.2 + (n + 1))).
      { unfold wrap. rewrite Z.add_mod_idemp_l by lia. f_equal. lia. }
      rewrite Hop', Hop. cbv beta. rewrite Hw.
      rewrite (insert_zip_with (fun (e : Z * Z) n => wrap 64 (e.2 + n)) _ _ _ e (n + 1)). by rewrite (list_insert_id _ _ e).
  - rewrite Hr', Hn'. destruct (x_opcode x =? 2); rewrite wrap_small by lia; lia.
  - intros l Hl. destruct (st_per_latency (c_stats g)) as [l0|]; [|congruence].
    destruct Hlat' as (k & v0 & Hk & E). rewrite E in Hl. injection Hl as <-. destruct (Hlat l0 eq_refl) as [Hf Hs].
    pose proof (sum_ge _ _ _ Hf Hk). rewrite Forall_lookup in Hf. pose proof (Hf _ _ Hk) as H0. cbn in H0.
    rewrite wrap_small by lia. split; [|rewrite (sum_insert _ _ _ _ Hk); lia].
    apply Forall_insert; [by rewrite Forall_lookup|lia].
Qed.

Lemma tally_step j late w w' : lstep j late w w' -> linv j w -> tally j (w_g w) -> tally j (w_g w').
Proof.
  intros [g fl lost i rest r now g' Hr Hp Hs|g fl lost i rest r rc now g' Hr Hp Hrc Hs
         |g fl1 i fl2 lost error now now' g' He Hl Hc] Hi Ht; cbn [w_g] in *.
  - destruct (send_inv _ _ _ _ _ _ _ _ Hp Hs) as [_ Hc _ _ _ Hst _ _ _ _].
    apply (tally_eq j g); [unfold tallies; by rewrite Hst|done|done].
  - destruct (send_inv _ _ _ _ _ _ _ _ Hp Hs) as [_ Hc _ _ _ Hst _ _ _ _].
    apply (tally_eq j g); [unfold tallies; by rewrite Hst|done|done].
  - destruct (cb_counted _ _ _ _ _ _ _ Hc) as (x & s & _ & Hx & Htl & _). apply cb_inv in Hc as [Hc _ _ _ _ _ _ _ _].
    pose proof (v_count _ _ Hi) as Hcnt. pose proof (v_cplt _ _ Hi) as H0. pose proof (v_sent _ _ Hi) as Hsn.
    cbn [w_g w_flight w_lost] in *. rewrite length_app in Hcnt. cbn [length] in Hcnt.
    rewrite wrap_small in Hc by lia. apply (tally_counted j x g s); [lia|done..].
Qed.

(** The arrays stay as they are laid out. *)
Definition same_arrays (g g' : gctx) : Prop :=
  length (c_log g') = length (c_log g) /\ (st_per_latency (c_stats g') = None -> st_per_latency (c_stats g) = None).

Lemma arrays_step j late w w' : lstep j late w w' -> same_arrays (w_g w) (w_g w').
Proof.
  intros [g fl lost i rest r now g' Hr Hp Hs|g fl lost i rest r rc now g' Hr Hp Hrc Hs
         |g fl1 i fl2 lost error now now' g' He Hl Hc]; cbn [w_g] in *; unfold same_arrays.
  - by destruct (send_inv _ _ _ _ _ _ _ _ Hp Hs) as [_ _ _ _ _ -> [-> _] _ _ _].
  - by destruct (send_inv _ _ _ _ _ _ _ _ Hp Hs) as [_ _ _ _ _ -> [-> _] _ _ _].
  - destruct (cb_counted _ _ _ _ _ _ _ Hc) as (x & s & _ & [_ _ _ Hlat] & [= _ _ _ ->] & Hlen). split; [done|].
    intros E. destruct (st_per_latency (c_stats g)); [|done]. destruct Hlat as (k & v & _ & Hk). congruence.
Qed.

Lemma tally_steps j late w w' : rtc (lstep j late) w w' -> linv j w -> tally j (w_g w) ->
  tally j (w_g w') /\ same_arrays (w_g w) (w_g w').
Proof.
  induction 1 as [w1|w1 w2 w3 Hs _ IH]; [intros _ Ht; split; [exact Ht|by split]|]. intros Hi Ht.
  destruct IH as [IH1 [IH2 IH3]]; [by eapply linv_step|by eapply tally_step|]. split; [done|].
  destruct (arrays_step _ _ _ _ Hs) as [H1 H2]. split; [congruence|auto].
Qed.

Lemma first_batch_log j clock n : forall i g g', first_batch j clock n i g = Ok g' -> c_log g' = c_log g.
Proof.
  induction n as [|n IH]; intros i g g' H; cbn [first_batch] in H; [by injection H as <-|].
  destruct (has_sequence j).
  - destruct (_ <=? _); [by apply IH in H|]. apply res_bind_inv in H as (g1 & Hg1 & H). apply IH in H. rewrite H.
    unfold next_line in Hg1. destruct (a_sequence _ !! _); [|done]. apply res_bind_inv in Hg1 as (x & _ & [= <-]). done.
  - destruct (negb _); apply res_bind_inv in H as (x & Hx & H); apply IH in H; rewrite H; [|done].
    unfold next_slot in Hx. apply res_bind_inv in Hx as (y & _ & [= <-]). done.
Qed.

(** How the worker starts: its arrays are cleared. *)
Lemma tally_start j ctxs start pl ps log clock g : start_ok j ctxs ->
  Forall (fun e => 0 <= e.2 < 2 ^ 64) (a_ops (j_args j)) -> (forall l, pl = Some l -> Forall (fun n => n = 0) l) ->
  first_batch j clock (Z.to_nat (a_qdepth (j_args j))) 0 (start_gctx (j_args j) start pl ps ctxs log) = Ok g ->
  linv j (mk_world g [] 0) /\ tally j g /\ c_log g = log /\ st_per_latency (c_stats g) = pl.
Proof.
  intros Hok Hops Hpl Hg. pose proof Hg as Hb.
  apply (start_inv j ctxs (start_gctx (j_args j) start pl ps ctxs log) clock) in Hb
    as (Hi & Hsent & Hf & _ & Hst & _); try done; [|cbn; apply length_fmap].
  assert (Hc : c_cplt g = 0).
  { destruct Hok as [Hd Hn]. pose proof Hg as Hb. apply first_batch_inv in Hb as ([] & _); [done| |revert Hn; eval_pow; lia].
    split; try done; [destruct (has_sequence j); cbn; unfold sequence_count; lia|].
    intros _ k x Hk. by apply not_elem_of_nil in Hk. }
  split; [done|]. split; [|by rewrite (first_batch_log _ _ _ _ _ _ Hg), Hst]. split; rewrite Hst, Hc; cbn [start_gctx c_stats st_op_counter st_rets rt_read rt_nonread st_per_latency].
  - exists (replicate (length (a_ops (j_args j))) 0). rewrite length_replicate, sum_zeros.
    split_and!; [done|by apply Forall_replicate|done|].
    clear -Hops. induction Hops as [|e ops He _ IH]; [done|]. cbn [fmap list_fmap length replicate zip_with].
    rewrite Z.add_0_r, wrap_small by done. f_equal. exact IH.
  - done.
  - intros l Hl. specialize (Hpl l Hl). clear -Hpl. induction Hpl as [|n l -> Hl [IH1 IH2]]; [done|].
    split; [by constructor|]. by rewrite sum_cons.
Qed.

(** The counters of a run that ended by itself. *)
Lemma loop_tally j ctxs start0 pl ps log clock g0 start us g : start_ok j ctxs ->
  Forall (fun e => 0 <= e.2 < 2 ^ 64) (a_ops (j_args j)) -> (forall l, pl = Some l -> Forall (fun n => n = 0) l) ->
  first_batch j clock (Z.to_nat (a_qdepth (j_args j))) 0 (start_gctx (j_args j) start0 pl ps ctxs log) = Ok g0 ->
  loop j start us g0 = Ok (Some (g, 0)) -> device j false start us g0 [] ->
  tally j g /\ length (c_log g) = length log /\ (st_per_latency (c_stats g) = None -> pl = None).
Proof.
  intros Hok Hops Hpl Hg0 Hrun Hdev. destruct (tally_start j ctxs start0 pl ps log clock g0) as (Hi & Ht & Hl & Hp); [done..|].
  destruct (loop_steps j false start us g0 [] 0 g 0 Hrun Hdev) as (fl & lost & Hs & _).
  destruct (tally_steps _ _ _ _ Hs Hi Ht) as [H1 [H2 H3]]. cbn [w_g] in *. rewrite H2, Hl, <- Hp. done.
Qed.
