(* ===== verification/Report.v ===== *)
(** * Report: starting an I/O worker and collecting its report

    [class _IOWorker] of src/src/driver_wrap.pyx around the parameters
    (IOWorker.v) and the generator (Generator.v, Loop.v): the messages that the
    main process and the worker process exchange through one [SimpleQueue], as
    a step relation, and [close], which turns the worker's report into the
    result of the script.  Floating-point quotients are exact rationals. *)
From Stdlib Require Import ZArith QArith Qround Lia ZifyBool.
From stdpp Require Import base list numbers option relations sorting strings.
From S2P Require Import Prelude PyInt Psd Cmdlog IOWorker Generator Loop Tally.
Local Open Scope Z_scope.

(** ** The two processes *)
Section Protocol.
(** What the worker reports. *)
Context {R : Type}.

Inductive message := Started | Report (r : R).

(** [_ioworker]: before the process runs, up to "STARTED", in [ioworker_entry],
    with a report to put into the queue ([fast] when the error is not 0), and
    waiting for the main process to take it; [CDead] is a process that ended
    without getting there, with the report it had put, if any. *)
Inductive child :=
  | CNew | CInit | CEntry | CDone (r : R) (fast : bool) | CWait (r : R) | CExit (r : R) | CDead (o : option R).

(** The main process: [start] waits for a message and puts a report back;
    [close] waits for the report, then for the end of the process. *)
Inductive parent := PNew | PStart | PPut (m : message) | PStarted | PClose | PJoin (r : R) | PClosed (r : R) | PUnpack.

(** [Process.join] returns. *)
Definition gone (c : child) : bool := match c with CExit _ | CDead _ => true | _ => false end.

(** The report the worker has put into the queue. *)
Definition report_put (c : child) : option R := match c with CWait r | CExit r => Some r | CDead o => o | _ => None end.

Record procs := mk_procs { main : parent; worker_proc : child; q : list message }.

Inductive pstep : procs -> procs -> Prop :=
  | step_start l : pstep (mk_procs PNew CNew l) (mk_procs PStart CInit l)
  | step_started c l : pstep (mk_procs PStart c (Started :: l)) (mk_procs PStarted c l)
  | step_early r c l : pstep (mk_procs PStart c (Report r :: l)) (mk_procs (PPut (Report r)) c l)
  | step_put m c l : pstep (mk_procs (PPut m) c l) (mk_procs PStarted c (l ++ [m]))
  | step_close c l : pstep (mk_procs PStarted c l) (mk_procs PClose c l)
  | step_get r c l : pstep (mk_procs PClose c (Report r :: l)) (mk_procs (PJoin r) c l)
  | step_unpack c l : pstep (mk_procs PClose c (Started :: l)) (mk_procs PUnpack c l)
  | step_join r c l : gone c = true -> pstep (mk_procs (PJoin r) c l) (mk_procs (PClosed r) c l)
  | step_entry p l : pstep (mk_procs p CInit l) (mk_procs p CEntry (l ++ [Started]))
  | step_exception p l r : pstep (mk_procs p CInit l) (mk_procs p (CDone r true) l)
  | step_done p l r fast : pstep (mk_procs p CEntry l) (mk_procs p (CDone r fast) l)
  | step_report p l r (fast : bool) :
      pstep (mk_procs p (CDone r fast) l) (mk_procs p (if fast then CExit r else CWait r) (l ++ [Report r]))
  | step_taken p r : pstep (mk_procs p (CWait r) []) (mk_procs p (CExit r) []).

(** The process of the worker dies: an assertion of the C code, a signal, an
    exception of its clean-up. *)
Inductive dies : procs -> procs -> Prop :=
  | dies_now p c l : c <> CNew -> gone c = false -> dies (mk_procs p c l) (mk_procs p (CDead (report_put c)) l).

Definition astep (s s' : procs) : Prop := pstep s s' \/ dies s s'.

(** [self.q.empty()], while there is a queue. *)
Definition running (s : procs) : bool :=
  match main s with PClosed _ => false | _ => match q s with [] => true | _ => false end end.

Definition created : procs := mk_procs PNew CNew [].

(** The main process waits for a message of a worker that is dead. *)
Definition stuck (s : procs) : Prop :=
  worker_proc s = CDead None /\ q s = [] /\ (main s = PStart \/ main s = PClose).
End Protocol.
Arguments message R : clear implicits.
Arguments child R : clear implicits.
Arguments parent R : clear implicits.
Arguments procs R : clear implicits.

(** ** The report *)
Record report := mk_report {
  r_pid : Z; r_error : Z; r_rets : rets; r_per_second : option (list Z); r_latency : option (list Z);
  r_cmdlog : option (list (Z * Z * Z)); r_op : list (Z * Z)
}.

Inductive warning := WHost (error : Z) (text : string) | WDevice (sct sc : Z).

(** The object, with the script's containers that [close] fills: each is the
    argument of [Namespace.ioworker] itself. *)
Record worker := mk_worker {
  w_per_second : option (list Z); w_percentile : option (list (Z * Z)); w_cmdlog : option (list (Z * Z * Z));
  w_op : list (Z * Z); w_fw_debug : bool; w_warnings : list warning
}.

(** The dictionary [close] returns. *)
Record result := mk_result {
  res_rets : rets; res_consistency : option Q; res_latency : option (list Z); res_io_count_write : Z; res_cpu_usage : Q
}.

(** [os._exit] in debug mode ends the main process. *)
Inductive closed := Returned (x : result) | Exited (code : Z).

Definition set_per_second (l : list Z) (w : worker) : worker :=
  mk_worker (Some l) (w_percentile w) (w_cmdlog w) (w_op w) (w_fw_debug w) (w_warnings w).
Definition set_percentile (l : list (Z * Z)) (w : worker) : worker :=
  mk_worker (w_per_second w) (Some l) (w_cmdlog w) (w_op w) (w_fw_debug w) (w_warnings w).
Definition set_cmdlog (l : list (Z * Z * Z)) (w : worker) : worker :=
  mk_worker (w_per_second w) (w_percentile w) (Some l) (w_op w) (w_fw_debug w) (w_warnings w).
Definition set_op (l : list (Z * Z)) (w : worker) : worker :=
  mk_worker (w_per_second w) (w_percentile w) (w_cmdlog w) l (w_fw_debug w) (w_warnings w).
Definition warn (x : warning) (w : worker) : worker :=
  mk_worker (w_per_second w) (w_percentile w) (w_cmdlog w) (w_op w) (w_fw_debug w) (w_warnings w ++ [x]).

(** [sorted(l, reverse=True)] *)
Definition sorted_reverse (l : list Z) : list Z := merge_sort Z.ge l.

Definition iops_consistency (slowest_percentage : Q) (per_second : option (list Z)) : res Q :=
  match per_second with
  | None => Err AssertionError
  | Some l =>
      check (negb (Qle_bool slowest_percentage 0)) AssertionError ;;
      check (negb (Qle_bool 100 slowest_percentage)) AssertionError ;;
      check (negb (bool_decide (l = []))) AssertionError ;;
      let average := (inject_Z (sum l) / inject_Z (Z.of_nat (length l)))%Q in
      let index := Qfloor (inject_Z (Z.of_nat (length l)) * slowest_percentage) / 100 in
      v ← list_get (sorted_reverse l) index;
      if sum l =? 0 then Err ZeroDivisionError else Ok (inject_Z v / average)%Q
  end.

(** The warnings about the host and the device. *)
Definition close_warnings (r : report) : M worker unit :=
  text ← lift (error_string (r_error r));
  (if negb (r_error r =? 0) then modify (warn (WHost (r_error r) text)) else mret tt) ;;
  (if negb (rt_error (r_rets r) =? 0) then
     modify (warn (WDevice (Z.land (Z.shiftr (rt_error (r_rets r)) 8) 0x7) (Z.land (rt_error (r_rets r)) 0xff)))
   else mret tt).

(** [self.output_io_per_second += output_io_per_second[:rets['mseconds']//1000]] *)
Definition close_per_second (r : report) : M worker (option Q) :=
  w ← get;
  match w_per_second w with
  | None => mret None
  | Some l =>
      py_assert (bool_decide (l = [])) ;;
      match r_per_second r with
      | None => raise TypeError
      | Some ps =>
          modify (set_per_second (l ++ take (Z.to_nat (rt_mseconds (r_rets r) / 1000)) ps)) ;;
          w ← get;
          c ← lift (iops_consistency (999 # 10) (w_per_second w));
          mret (Some c)
      end
  end.

(** Assignment to a key the dictionary has. *)
Definition set_key (k v : Z) (d : list (Z * Z)) : list (Z * Z) :=
  (fun e => if e.1 =? k then (k, v) else e) <$> d.

Definition close_percentiles (r : report) : M worker unit :=
  match r_latency r with
  | None => mret tt
  | Some counts =>
      w ← get;
      match w_percentile w with
      | None => raise TypeError
      | Some d =>
          foreach (fun k =>
            py_assert ((0 <? k) && (k <? 100)) ;;
            l ← lift (find_percentile_latency k counts);
            modify (fun w => set_percentile (set_key k l (default [] (w_percentile w))) w)) d.*1
      end
  end.

(** Writing the list by index: more lines than it has places raise
    [IndexError]. *)
Definition close_cmdlog (r : report) : M worker unit :=
  w ← get;
  match w_cmdlog w with
  | Some ((_ :: _) as l) =>
      match r_cmdlog r with
      | None => raise TypeError
      | Some vs =>
          modify (set_cmdlog (take (length l) vs ++ drop (length vs) l)) ;;
          if (length l <? length vs)%nat then raise IndexError else mret tt
      end
  | _ => mret tt
  end.

Definition has_key (k : Z) (d : list (Z * Z)) : bool := existsb (fun e => fst e =? k) d.

(** [self.op_counter[k] = op_counter[k]-self.op_counter[k]] *)
Definition close_counters (r : report) : M worker unit :=
  w ← get;
  foreach (fun k =>
    n ← lift (lookup_key k (r_op r));
    w ← get;
    v ← lift (lookup_key k (w_op w));
    modify (set_op (set_key k (n - v) (w_op w)))) (w_op w).*1.

Definition close (r : report) : M worker closed :=
  close_warnings r ;;
  c ← close_per_second r;
  close_percentiles r ;;
  close_cmdlog r ;;
  close_counters r ;;
  w ← get;
  write ← (if has_key 1 (r_op r) then lift (lookup_key 1 (w_op w)) else mret 0);
  let t := r_rets r in
  let cpu := if rt_mseconds t =? 0 then 0%Q else (inject_Z (rt_cpu_usage t) / inject_Z (rt_mseconds t))%Q in
  if w_fw_debug w && negb (r_error r =? 0) then mret (Exited (r_error r))
  else mret (Returned (mk_result t c (r_latency r) write cpu)).

(** ** What the worker sends back *)

(** The arrays [_ioworker] clears before the run, for what the script asked for. *)
Definition new_per_latency (w : worker) : option (list Z) :=
  match w_percentile w with None => None | Some _ => Some (replicate (Z.to_nat (1000 * 1000)) 0) end.
Definition new_per_second (seconds : Z) (w : worker) : option (list Z) :=
  match w_per_second w with None => None | Some _ => Some (replicate (Z.to_nat seconds) 0) end.
Definition new_cmdlog (w : worker) : list cmdlog :=
  match w_cmdlog w with None => [] | Some l => replicate (length l) (0, 0, 0) end.

(** The report of a run that left the C state [g]; [op_list] are the opcodes.
    The lists are the worker's copies of the script's. *)
Definition finish_report (w : worker) (pid error : Z) (t : rets) (log_len : Z) (op_list : list Z) (g : gctx) : report :=
  mk_report pid error t
    (match w_per_second w, st_per_second (c_stats g) with Some l, Some c => Some (l ++ c) | l, _ => l end)
    (match w_percentile w with Some _ => st_per_latency (c_stats g) | None => None end)
    (match w_cmdlog w with Some (_ :: _) => Some (final_log log_len g) | l => l end)
    (foldl (fun d e => set_key (fst e) (snd e) d) (w_op w) (zip op_list (st_op_counter (c_stats g)))).

(** The report of a worker that an exception ended before the run. *)
Definition failed_report (w : worker) (pid : Z) : report :=
  mk_report pid (worker_error 0 0 true 0) (mk_rets 0 0 0 0 0 0 0) (w_per_second w) None (w_cmdlog w) (w_op w).

(** ** The protocol *)
Section Processes.
Context {R : Type} `{!Inhabited R}.

(** Whether "STARTED" was put, as far as the child's state tells. *)
Definition agrees (st : bool) (c : child R) : Prop :=
  match c with
  | CNew | CInit => st = false
  | CEntry | CWait _ => st = true
  | CDone _ fast => fast = false -> st = true
  | CExit _ | CDead _ => True
  end.

Definition reports (c : child R) : list (message R) := match report_put c with Some r => [Report r] | None => [] end.

(** What the main process has taken and what is left. *)
Definition pinv (s : procs R) : Prop := exists st, agrees st (worker_proc s) /\
  match main s with
  | PNew => worker_proc s = CNew /\ q s = []
  | PStart => worker_proc s <> CNew /\ q s = (if st then [Started] else []) ++ reports (worker_proc s)
  | PPut m => exists r, m = Report r /\ report_put (worker_proc s) = Some r /\ gone (worker_proc s) = true /\ q s = []
  | PStarted | PClose => worker_proc s <> CNew /\ q s = reports (worker_proc s)
      /\ (st = true \/ report_put (worker_proc s) <> None)
  | PJoin r => report_put (worker_proc s) = Some r /\ q s = []
  | PClosed r => report_put (worker_proc s) = Some r /\ gone (worker_proc s) = true /\ q s = []
  | PUnpack => False
  end.

Lemma reports_cons c m l : reports c = m :: l -> exists r, report_put c = Some r /\ m = Report r /\ l = [].
Proof. unfold reports. destruct (report_put c) as [r|]; [|done]. intros [= <- <-]. by exists r. Qed.

Lemma reports_some c r : report_put c = Some r -> reports c = [Report r].
Proof. unfold reports. by intros ->. Qed.

Lemma pinv_parent p c l p' l' : pinv (mk_procs p c l) -> pstep (mk_procs p c l) (mk_procs p' c l') -> p <> p' ->
  p <> PNew -> pinv (mk_procs p' c l').
Proof.
  intros (st & Ha & Hm) Hs Hne Hnew. exists st. split; [done|]. cbn in *.
  inversion Hs; subst; cbn in *; try done.
  - destruct Hm as [Hc Hq]. destruct st; cbn in Hq; [injection Hq as ->; by auto|].
    symmetry in Hq. by apply reports_cons in Hq as (r & _ & ? & _).
  - destruct Hm as [Hc Hq]. destruct st; [done|]. symmetry in Hq. apply reports_cons in Hq as (r' & Hr & [= ->] & ->).
    exists r'. split_and!; try done. by destruct c.
  - destruct Hm as (r & -> & Hr & Hg & ->). rewrite (reports_some _ _ Hr), Hr. split_and!; [by intros ->|done|by right].
  - destruct Hm as (Hc & Hq & _). symmetry in Hq. by apply reports_cons in Hq as (r' & Hr & [= ->] & ->).
  - destruct Hm as (Hc & Hq & _). symmetry in Hq. by apply reports_cons in Hq as (r' & Hr & ? & ->).
  - by destruct Hm as [Hr ->].
Qed.

(** One state of the main process. *)
Ltac by_parts := destruct_and?; destruct_or?; repeat match goal with H : exists _, _ |- _ => destruct H end; destruct_and?;
  simplify_eq/=; try done; split_and?; eauto.

Lemma pinv_step s s' : pinv s -> astep s s' -> pinv s'.
Proof.
  intros Hi [Hs|Hd].
  - pose proof Hs as Hs'. destruct Hs as [l|c l|r c l|m c l|c l|r c l|c l|r c l Hg|p l|p l r|p l r fast|p l r fast|p r];
      try (by apply (pinv_parent _ _ _ _ _ Hi Hs')); destruct Hi as (st & Ha & Hm); cbn in *.
    + exists false. by destruct Hm as [_ ->].
    + exists true. split; [done|]. subst st. by destruct p; cbn in *; by_parts.
    + exists false. split; [done|]. subst st. by destruct p; cbn in *; by_parts.
    + exists true. split; [done|]. subst st. by destruct p; cbn in *; by_parts.
    + exists st. split; [by destruct fast; cbn; auto|].
      by destruct p; destruct fast; cbn in *; by_parts; rewrite ?app_nil_r; auto.
    + exists true. split; [done|]. subst st. by destruct p; cbn in *; by_parts.
  - destruct Hd as [p c l Hc Hg]. destruct Hi as (st & Ha & Hm). exists st. split; [done|]. unfold reports in *. cbn in *.
    by destruct p; cbn in *; by_parts.
Qed.

Lemma pinv_reachable s : rtc astep created s -> pinv s.
Proof.
  intros Hr. assert (H0 : pinv (created (R := R))) by (exists false; done).
  induction Hr as [s|s1 s2 s3 Hs _ IH]; [done|]. apply IH. by apply pinv_step with s1.
Qed.

(** How much the two processes still have to do. *)
Definition rank (s : procs R) : nat :=
  match main s with
  | PNew => 6 | PStart => 5 | PPut _ => 4 | PStarted => 3 | PClose => 2 | PJoin _ => 1 | PClosed _ | PUnpack => 0
  end + match worker_proc s with CNew => 5 | CInit => 4 | CEntry => 3 | CDone _ _ => 2 | CWait _ => 1 | CExit _ | CDead _ => 0 end.

Lemma rank_step s s' : astep s s' -> (rank s' < rank s)%nat.
Proof.
  intros [Hs|Hd].
  - destruct Hs; unfold rank; cbn; try destruct fast; lia.
  - destruct Hd as [p c l Hc Hg]. unfold rank. destruct c; cbn in *; (done || lia).
Qed.

Lemma rank_steps n s s' : nsteps astep n s s' -> (n + rank s' <= rank s)%nat.
Proof. induction 1 as [|n s1 s2 s3 Hs _ IH]; [lia|]. apply rank_step in Hs. lia. Qed.

(** Something is left to do, or [close] has returned, or it never will. *)
Lemma pinv_progress s : pinv s -> (exists s', pstep s s') \/ (exists r, main s = PClosed r /\ gone (worker_proc s) = true) \/ stuck s.
Proof.
  destruct s as [p c l]. intros (st & Ha & Hm). unfold stuck. cbn in *.
  assert (Hchild : p <> PNew -> gone c = false -> (c <> CNew) -> (forall r, c = CWait r -> l = []) -> exists s', pstep (mk_procs p c l) s').
  { intros Hp Hg Hc Hw. destruct c as [| | |r b|r|r|o]; try done; eexists.
    - constructor.
    - by apply (step_done _ _ inhabitant true).
    - constructor.
    - rewrite (Hw r eq_refl). constructor. }
  destruct p as [| |m| | |r|r|]; cbn in *; try done.
  - destruct Hm as [-> ->]. left. eexists. constructor.
  - destruct Hm as [Hc ->]. destruct st; [left; eexists; by constructor|]. cbn in *. unfold reports in *.
    destruct (report_put c) as [r|] eqn:E; [left; eexists; by constructor|].
    destruct (gone c) eqn:Hg; [|left; apply Hchild; try done; by intros r ->].
    destruct c as [| | |r b|r|r|o]; try done. cbn in E. subst o. right. right. by auto.
  - destruct Hm as (r & -> & _). left. eexists. by constructor.
  - left. eexists. by constructor.
  - destruct Hm as (Hc & -> & Hst). unfold reports in *. destruct (report_put c) as [r|] eqn:E; [left; eexists; by constructor|].
    destruct (gone c) eqn:Hg; [|left; apply Hchild; try done; by intros r ->].
    destruct c as [| | |r b|r|r|o]; try done. cbn in E. subst o. right. right. by auto.
  - destruct Hm as [Hr ->]. left. destruct (gone c) eqn:Hg; [eexists; by constructor|]. apply Hchild; try done. by intros ->.
  - destruct Hm as (Hr & Hg & _). right. left. by exists r.
Qed.

Lemma stuck_stays (s : procs R) : stuck s -> forall s', ~ astep s s'.
Proof.
  destruct s as [p c l]. unfold stuck. cbn. intros (-> & -> & Hp) s' [Hs|Hd].
  - destruct Hp as [-> | ->]; inversion Hs.
  - by inversion Hd.
Qed.

(** The report of a dead worker is never put. *)
Lemma dead_stays (s s' : procs R) : rtc astep s s' -> worker_proc s = CDead None -> worker_proc s' = CDead None.
Proof.
  induction 1 as [s|s1 s2 s3 Hs _ IH]; [done|]. intros Hd. apply IH. clear IH. destruct Hs as [Hs|Hs].
  - destruct s1 as [p c l]. cbn in Hd. subst c. by inversion Hs.
  - destruct Hs as [p c l Hc Hg]. cbn in *. by subst c.
Qed.

(** C20. Starting and closing a worker.  The worker may fail before it starts,
    fail later, run to its end, or its process may die at any moment.  In every
    state the two processes reach one of them can go on, or [close] has the
    report and the process has ended, or the worker died before it put a report
    and the main process waits for one in [start] or [close], for ever: nothing
    more happens then, and a worker that dies that way is never closed.  All
    this takes at most 11 steps.  [close] never takes "STARTED" for the report,
    the report it gets is the one the worker put, and [running] tells whether
    the worker has put it. *)
Theorem close_gets_report (s : procs R) : rtc astep created s ->
  main s <> PUnpack
  /\ (main s = PStarted -> running s = bool_decide (report_put (worker_proc s) = None))
  /\ (forall r, main s = PJoin r \/ main s = PClosed r -> report_put (worker_proc s) = Some r)
  /\ ((exists s', pstep s s') \/ (exists r, main s = PClosed r /\ gone (worker_proc s) = true) \/ stuck s)
  /\ (stuck s -> forall s', ~ astep s s')
  /\ (worker_proc s = CDead None -> forall s' r, rtc astep s s' -> main s' <> PClosed r)
  /\ (forall n s', nsteps astep n s s' -> (n <= 11)%nat).
Proof.
  intros Hr. assert (Hk : (rank s <= 11)%nat).
  { apply rtc_nsteps in Hr as [n Hn]. apply rank_steps in Hn. change (rank created) with 11%nat in Hn. lia. }
  pose proof (pinv_reachable s Hr) as Hi. split; [|split; [|split; [|split; [by apply pinv_progress|split; [apply stuck_stays|split]]]]].
  - intros E. destruct Hi as (st & _ & Hm). by rewrite E in Hm.
  - intros E. destruct Hi as (st & _ & Hm). rewrite E in Hm. destruct Hm as (_ & Hq & _). unfold running. rewrite E, Hq.
    unfold reports. by destruct (report_put (worker_proc s)).
  - intros r E. destruct Hi as (st & _ & Hm). by destruct E as [E|E]; rewrite E in Hm; destruct Hm.
  - intros Hd s' r Hs E. pose proof (dead_stays _ _ Hs Hd) as Hd'. destruct (pinv_reachable s' ltac:(by etrans; [exact Hr|])) as (st & _ & Hm).
    rewrite E, Hd' in Hm. by destruct Hm.
  - intros n s' Hn. apply rank_steps in Hn. lia.
Qed.
End Processes.

(** ** Lemmas on dictionaries *)
Lemma lookup_key_middle k v (d1 d2 : list (Z * Z)) : (k ∉ d1.*1) -> lookup_key k (d1 ++ (k, v) :: d2) = Ok v.
Proof.
  intros Hk. unfold lookup_key. induction d1 as [|[k' v'] d1 IH]; cbn.
  - by rewrite decide_True.
  - cbn in Hk. rewrite decide_False by (cbn; intros ->; apply Hk; left).
    specialize (IH ltac:(intros Hi; apply Hk; by right)). by destruct (list_find _ _) as [[? [? ?]]|].
Qed.

Lemma set_key_absent k v (d : list (Z * Z)) : (k ∉ d.*1) -> set_key k v d = d.
Proof.
  intros Hk. unfold set_key. induction d as [|[k' v'] d IH]; [done|]. cbn in *.
  rewrite (proj2 (Z.eqb_neq k' k)) by (intros ->; apply Hk; left). rewrite IH; [done|]. intros Hi. apply Hk. by right.
Qed.

Lemma set_key_middle k v v' (d1 d2 : list (Z * Z)) : (k ∉ d1.*1) -> (k ∉ d2.*1) ->
  set_key k v' (d1 ++ (k, v) :: d2) = d1 ++ (k, v') :: d2.
Proof.
  intros H1 H2. unfold set_key. rewrite fmap_app, fmap_cons. cbn [fst]. rewrite Z.eqb_refl.
  change ((fun e : Z * Z => if e.1 =? k then (k, v') else e) <$> d1) with (set_key k v' d1).
  change ((fun e : Z * Z => if e.1 =? k then (k, v') else e) <$> d2) with (set_key k v' d2).
  by rewrite !set_key_absent.
Qed.

(** A loop over the keys of a dictionary that replaces the value of each. *)
Lemma foreach_keys (put : list (Z * Z) -> worker -> worker) (body : Z -> M worker unit) (g : Z -> Z -> Z) w :
  forall d2 d1,
  (forall k v d, lookup_key k d = Ok v -> k ∈ d2.*1 -> body k (put d w) = (Ok tt, put (set_key k (g k v) d) w)) ->
  NoDup (d1 ++ d2).*1 ->
  foreach body d2.*1 (put (d1 ++ d2) w) = (Ok tt, put (d1 ++ ((fun e => (e.1, g e.1 e.2)) <$> d2)) w).
Proof.
  induction d2 as [|[k v] d2 IH]; intros d1 Hb Hn; [cbn; by rewrite !app_nil_r|]. cbn [fmap list_fmap foreach fst].
  rewrite fmap_app in Hn. apply NoDup_app in Hn as (Hn1 & Hd & Hn2). cbn in Hn2. apply list.NoDup_cons in Hn2 as [Hk2 Hn2].
  assert (Hk1 : k ∉ d1.*1) by (intros Hi; apply (Hd k Hi); left).
  rewrite (run_bind_ok _ _ _ _ _ (Hb k v _ (lookup_key_middle k v d1 d2 Hk1) ltac:(left))).
  rewrite set_key_middle by done. rewrite cons_middle, app_assoc. rewrite IH.
  - rewrite <- app_assoc. done.
  - intros k' v' d Hl Hi. apply Hb; [done|by right].
  - rewrite !fmap_app. cbn [fmap list_fmap fst]. apply NoDup_app. split; [|split; [|done]].
    + apply NoDup_app. split; [done|]. split; [|apply NoDup_singleton]. intros x Hx ->%list_elem_of_singleton. done.
    + intros x [Hx| ->%list_elem_of_singleton]%elem_of_app Hx2; [|done]. apply (Hd x Hx). by right.
Qed.

(** ** The parts of [close] *)
Lemma error_string_ok e : e <= 0 -> exists t, error_string e = Ok t.
Proof.
  intros He. unfold error_string, list_get. change (Z.of_nat (length error_strings)) with 9.
  assert (Hi : 0 <= Z.min (9 - 1) (- e) < 9) by lia. set (i := Z.min _ _) in *.
  destruct (lookup_lt_is_Some_2 error_strings (Z.to_nat i)) as [t Ht]; [change (length error_strings) with 9%nat; lia|].
  exists t. unfold list_index. change (length error_strings) with 9%nat. zbool. cbn. by rewrite Ht.
Qed.

(** The warnings a report gives. *)
Definition warnings_of (r : report) (text : string) : list warning :=
  (if r_error r =? 0 then [] else [WHost (r_error r) text])
  ++ (if rt_error (r_rets r) =? 0 then []
      else [WDevice (Z.land (Z.shiftr (rt_error (r_rets r)) 8) 0x7) (Z.land (rt_error (r_rets r)) 0xff)]).

Definition with_warnings (l : list warning) (w : worker) : worker :=
  mk_worker (w_per_second w) (w_percentile w) (w_cmdlog w) (w_op w) (w_fw_debug w) (w_warnings w ++ l).

Lemma close_warnings_run r w t : error_string (r_error r) = Ok t ->
  close_warnings r w = (Ok tt, with_warnings (warnings_of r t) w).
Proof.
  intros Ht. unfold close_warnings. rewrite (run_bind_ok _ _ w t w) by (unfold lift; by rewrite Ht).
  unfold warnings_of, with_warnings. destruct w. cbn -[Z.shiftr Z.land].
  destruct (r_error r =? 0), (rt_error (r_rets r) =? 0); unfold modify, warn, mret, M_ret, mbind, M_bind;
    cbn -[Z.shiftr Z.land]; rewrite <- ?app_assoc, ?app_nil_r; done.
Qed.

(** The percentile the report gives for [k]. *)
Definition latency_at (counts : list Z) (k : Z) : Z :=
  match find_percentile_latency k counts with Ok l => l | _ => 0 end.

Lemma close_percentiles_run r w counts d : r_latency r = Some counts -> w_percentile w = Some d -> NoDup d.*1 ->
  Forall (fun k => 0 < k < 100) d.*1 -> counts <> [] -> Forall (fun c => 0 <= c) counts ->
  close_percentiles r w = (Ok tt, set_percentile ((fun e => (e.1, latency_at counts e.1)) <$> d) w).
Proof.
  intros Hl Hw Hn Hk Hne Hc. unfold close_percentiles. rewrite Hl. rewrite (run_bind_ok _ _ _ w w) by done. rewrite Hw.
  assert (E : w = set_percentile ([] ++ d) w) by (destruct w; cbn in *; by rewrite Hw). rewrite E at 1.
  rewrite (foreach_keys set_percentile _ (fun k _ => latency_at counts k) w d []); [done| |done].
  intros k v d' Hv Hi. rewrite Forall_forall in Hk. specialize (Hk k Hi).
  destruct (percentile_latency_least k counts Hc Hne ltac:(lia)) as (i & Hf & _).
  unfold latency_at. rewrite Hf. unfold py_assert. replace ((0 <? k) && (k <? 100)) with true by lia.
  by destruct w.
Qed.

Lemma close_counters_run r w : (r_op r).*1 = (w_op w).*1 -> NoDup (w_op w).*1 ->
  close_counters r w = (Ok tt, set_op (zip_with (fun a b => (a.1, a.2 - b.2)) (r_op r) (w_op w)) w).
Proof.
  intros Hk Hn. unfold close_counters. rewrite (run_bind_ok _ _ _ w w) by done.
  set (g := fun k v => match lookup_key k (r_op r) with Ok n => n - v | _ => 0 end).
  assert (E : w = set_op ([] ++ w_op w) w) by (by destruct w). rewrite E at 2.
  rewrite (foreach_keys set_op _ g w (w_op w) []); [|clear E|done].
  - f_equal. f_equal. cbn [app]. revert Hk Hn. unfold g. clear.
    assert (Hsub : forall l1 l2 l0 : list (Z * Z), l1.*1 = l2.*1 -> NoDup (l0 ++ l1).*1 ->
      (fun e : Z * Z => (e.1, match lookup_key e.1 (l0 ++ l1) with Ok n => n - e.2 | _ => 0 end)) <$> l2
      = zip_with (fun a b : Z * Z => (a.1, a.2 - b.2)) l1 l2).
    { induction l1 as [|[k n] l1 IH]; intros [|[k' v] l2] l0 Hk Hn; [done..|]. cbn in Hk. injection Hk as <- Hk.
      cbn [fmap list_fmap zip_with fst snd]. rewrite fmap_app in Hn. apply NoDup_app in Hn as (Hn1 & Hd & Hn2).
      rewrite lookup_key_middle by (intros Hi; apply (Hd k Hi); left). f_equal.
      rewrite <- (IH l2 (l0 ++ [(k, n)])); [|done|rewrite <- app_assoc, fmap_app; apply NoDup_app; done].
      by rewrite <- app_assoc. }
    intros Hk Hn. rewrite <- (Hsub (r_op r) (w_op w) []); [done|done|]. cbn. by rewrite Hk.
  - intros k v d Hv Hi. rewrite <- Hk in Hi. apply list_elem_of_fmap in Hi as ([k' n] & -> & Hi).
    apply list_elem_of_split in Hi as (l1 & l2 & El). rewrite El, fmap_app in Hk.
    assert (Hn' : NoDup (l1 ++ (k', n) :: l2).*1) by (rewrite fmap_app, Hk; done).
    rewrite fmap_app in Hn'. apply NoDup_app in Hn' as (_ & Hd & _).
    assert (Hlk : lookup_key k' (r_op r) = Ok n) by (rewrite El; apply lookup_key_middle; intros Hx; apply (Hd k' Hx); left).
    unfold g. cbn [fst] in *. rewrite Hlk. unfold lift, get, modify, mbind, M_bind; cbn. by rewrite Hv.
Qed.

Lemma sorted_last_least l v : StronglySorted Z.ge l -> l !! pred (length l) = Some v -> Forall (fun x => v <= x) l.
Proof.
  induction 1 as [|x l Hs IH Hx]; intros Hl; [done|]. destruct l as [|y l]; [cbn in Hl; injection Hl as ->; repeat constructor; lia|].
  change (pred (length (x :: y :: l))) with (S (pred (length (y :: l)))) in Hl. cbn [lookup list_lookup] in Hl.
  constructor; [|by apply IH]. rewrite Forall_forall in Hx. specialize (Hx v). apply list_elem_of_lookup_2 in Hl.
  specialize (Hx Hl). lia.
Qed.

(** With the default percentage [iops_consistency] is one of the seconds over
    the average, the slowest of them up to 1000 seconds. *)
Lemma iops_consistency_run l : l <> [] -> 0 < sum l ->
  exists v, v ∈ l /\ ((length l <= 1000)%nat -> Forall (fun x => v <= x) l)
    /\ iops_consistency (999 # 10) (Some l) = Ok (inject_Z v / (inject_Z (sum l) / inject_Z (Z.of_nat (length l))))%Q.
Proof.
  intros Hne Hs. pose proof (merge_sort_Permutation Z.ge l) as Hp.
  assert (Hl : length (sorted_reverse l) = length l) by (by apply Permutation_length).
  assert (Hn : (0 < length l)%nat) by (destruct l; [done|cbn; lia]).
  set (i := Z.of_nat (length l) * 999 / (1 * 10) / 100).
  assert (Hi : 0 <= i < Z.of_nat (length l) /\ (Z.of_nat (length l) <= 1000 -> i = Z.of_nat (length l) - 1)).
  { unfold i. rewrite Z.div_div by lia. Z.to_euclidean_division_equations; lia. }
  destruct (lookup_lt_is_Some_2 (sorted_reverse l) (Z.to_nat i)) as [v Hv]; [lia|].
  exists v. split_and!.
  - rewrite <- Hp. by apply list_elem_of_lookup_2 in Hv.
  - intros H1000. rewrite <- Hp. apply sorted_last_least.
    + apply Sorted_StronglySorted; [intros a b c; lia|]. apply Sorted_merge_sort. intros a b. lia.
    + fold (sorted_reverse l). rewrite Hl. replace (pred (length l)) with (Z.to_nat i) by lia. done.
  - unfold iops_consistency. cbn -[sum Qfloor Z.div sorted_reverse Qdiv inject_Z]. rewrite bool_decide_false by done.
    cbn -[sum Qfloor Z.div sorted_reverse Qdiv inject_Z].
    change (Qfloor (inject_Z (Z.of_nat (length l)) * (999 # 10)) / 100) with i.
    unfold list_get, list_index. rewrite Hl. zbool. cbn -[sum sorted_reverse Qdiv inject_Z].
    rewrite Hv. cbn -[sum Qdiv inject_Z]. zbool. done.
Qed.

(** The seconds a worker that ran [rt_mseconds] has counters of. *)
Definition full_seconds (r : report) (ps : list Z) : list Z := take (Z.to_nat (rt_mseconds (r_rets r) / 1000)) ps.

Lemma close_cmdlog_run r w (l vs : list (Z * Z * Z)) : w_cmdlog w = Some l -> r_cmdlog r = Some vs -> length vs = length l ->
  close_cmdlog r w = (Ok tt, set_cmdlog vs w).
Proof.
  intros Hw Hr Hl. unfold close_cmdlog. rewrite (run_bind_ok _ _ _ w w) by done. rewrite Hw.
  destruct l as [|x l]; [destruct vs; [|done]; destruct w; cbn in *; by rewrite Hw|].
  rewrite Hr, <- Hl, drop_ge, take_ge, app_nil_r by lia.
  rewrite (run_bind_ok _ _ _ tt (set_cmdlog vs w)) by done. by rewrite (proj2 (Nat.ltb_ge _ _)) by lia.
Qed.

Lemma close_per_second_run r w ps : w_per_second w = Some [] -> r_per_second r = Some ps -> 0 < sum (full_seconds r ps) ->
  exists c, close_per_second r w = (Ok (Some c), set_per_second (full_seconds r ps) w)
    /\ exists v, v ∈ full_seconds r ps
      /\ ((length (full_seconds r ps) <= 1000)%nat -> Forall (fun x => v <= x) (full_seconds r ps))
      /\ c = (inject_Z v / (inject_Z (sum (full_seconds r ps)) / inject_Z (Z.of_nat (length (full_seconds r ps)))))%Q.
Proof.
  intros Hw Hr Hs. set (l := full_seconds r ps) in *.
  assert (Hne : l <> []) by (intros E; rewrite E in Hs; done).
  destruct (iops_consistency_run l Hne Hs) as (v & Hv & Hleast & Hc). eexists. split; [|by exists v].
  unfold close_per_second. rewrite (run_bind_ok _ _ _ w w) by done. rewrite Hw.
  rewrite (run_bind_ok _ _ _ tt w) by done. rewrite Hr.
  rewrite (run_bind_ok _ _ _ tt (set_per_second l w)) by done.
  rewrite (run_bind_ok _ _ _ (set_per_second l w) (set_per_second l w)) by done.
  rewrite (run_bind_ok _ _ _ _ (set_per_second l w)) by (unfold lift; cbn [set_per_second w_per_second]; rewrite Hc; done).
  done.
Qed.

(** Less than a second, or a worker that never ran. *)
Lemma close_per_second_short r w ps : w_per_second w = Some [] -> r_per_second r = Some ps -> full_seconds r ps = [] ->
  close_per_second r w = (Err AssertionError, w).
Proof.
  intros Hw Hr Hs. unfold close_per_second. rewrite (run_bind_ok _ _ _ w w) by done. rewrite Hw.
  rewrite (run_bind_ok _ _ _ tt w) by done. rewrite Hr. cbn [app]. fold (full_seconds r ps). rewrite Hs.
  destruct w; cbn in Hw; rewrite Hw. done.
Qed.

(** ** [close] *)

(** A report that fits the containers of the object. *)
Record answers (w : worker) (r : report) : Prop := {
  an_error : r_error r <= 0;
  an_keys : (r_op r).*1 = (w_op w).*1;
  an_nodup : NoDup (w_op w).*1;
  an_seconds : match w_per_second w with
               | None => True
               | Some l => l = [] /\ exists ps, r_per_second r = Some ps /\ 0 < sum (full_seconds r ps)
               end;
  an_latency : match r_latency r with
               | None => True
               | Some counts => counts <> [] /\ Forall (fun c => 0 <= c) counts
                   /\ exists d, w_percentile w = Some d /\ NoDup d.*1 /\ Forall (fun k => 0 < k < 100) d.*1
               end;
  an_cmdlog : match w_cmdlog w with
              | None => True
              | Some l => exists vs, r_cmdlog r = Some vs /\ length vs = length l
              end
}.

(** What the script's containers hold afterwards. *)
Definition seconds_of (r : report) (l : option (list Z)) : option (list Z) :=
  match l, r_per_second r with Some _, Some ps => Some (full_seconds r ps) | _, _ => None end.
Definition percentiles_of (r : report) (d : option (list (Z * Z))) : option (list (Z * Z)) :=
  match d, r_latency r with
  | Some d, Some counts => Some ((fun e => (e.1, latency_at counts e.1)) <$> d)
  | _, _ => d
  end.
Definition cmdlog_of (r : report) (l : option (list (Z * Z * Z))) : option (list (Z * Z * Z)) :=
  match l with Some _ => r_cmdlog r | None => None end.

Record delivered (w : worker) (r : report) (w' : worker) : Prop := {
  de_op : w_op w' = zip_with (fun a b => (a.1, a.2 - b.2)) (r_op r) (w_op w);
  de_seconds : w_per_second w' = seconds_of r (w_per_second w);
  de_percentile : w_percentile w' = percentiles_of r (w_percentile w);
  de_cmdlog : w_cmdlog w' = cmdlog_of r (w_cmdlog w)
}.

Lemma lookup_key_has k d : has_key k d = true -> exists v, lookup_key k d = Ok v.
Proof.
  unfold has_key, lookup_key. induction d as [|[k' v'] d IH]; [done|]. cbn [existsb fst list_find].
  destruct (Z.eqb_spec k' k) as [->|Hne].
  - intros _. rewrite decide_True by done. by eexists.
  - cbn [orb]. intros Hk. rewrite decide_False by done. destruct (IH Hk) as [v Hv]. exists v.
    by destruct (list_find _ d) as [[? [? ?]]|].
Qed.

Lemma has_key_lookup k d v : lookup_key k d = Ok v -> has_key k d = true.
Proof.
  unfold has_key, lookup_key. induction d as [|[k' v'] d IH]; [done|]. cbn [existsb fst list_find].
  destruct (Z.eqb_spec k' k) as [->|Hne]; [done|]. rewrite decide_False by done. intros H. apply IH.
  by destruct (list_find _ d) as [[? [? ?]]|].
Qed.

Lemma has_key_keys k d d' : d.*1 = d'.*1 -> has_key k d = has_key k d'.
Proof.
  unfold has_key. revert d'. induction d as [|[a v] d IH]; intros [|[a' v'] d'] H; try done. cbn in *.
  injection H as -> H. f_equal. by apply IH.
Qed.

Lemma zip_with_keys (f : Z -> Z -> Z) (d d' : list (Z * Z)) : d.*1 = d'.*1 ->
  (zip_with (fun a b => (a.1, f a.2 b.2)) d d').*1 = d'.*1.
Proof. revert d'. induction d as [|[a v] d IH]; intros [|[a' v'] d'] H; try done. cbn in *. injection H as -> H. f_equal. by apply IH. Qed.

(** The consistency is that of the seconds delivered. *)
Definition consistent (seconds : option (list Z)) (c : option Q) : Prop :=
  match seconds, c with
  | Some l, Some c => exists v, v ∈ l /\ ((length l <= 1000)%nat -> Forall (fun x => v <= x) l)
      /\ c = (inject_Z v / (inject_Z (sum l) / inject_Z (Z.of_nat (length l))))%Q
  | None, None => True
  | _, _ => False
  end.

Definition with_lists (s : option (list Z)) (p : option (list (Z * Z))) (l : option (list (Z * Z * Z))) (w : worker) : worker :=
  mk_worker s p l (w_op w) (w_fw_debug w) (w_warnings w).

Section Steps.
Context (w0 w : worker) (r : report) (Ha : answers w0 r).

Lemma seconds_step : w_per_second w = w_per_second w0 ->
  exists c, close_per_second r w = (Ok c, with_lists (seconds_of r (w_per_second w0)) (w_percentile w) (w_cmdlog w) w)
    /\ consistent (seconds_of r (w_per_second w0)) c.
Proof.
  destruct Ha. intros E. destruct (w_per_second w0) as [l|].
  - destruct an_seconds0 as (-> & ps & Hps & Hs). unfold seconds_of. rewrite Hps.
    destruct (close_per_second_run r w ps E Hps Hs) as (c & Hr & Hc). exists (Some c). split; [exact Hr|done].
  - exists None. unfold close_per_second. rewrite (run_bind_ok _ _ _ w w) by done. rewrite E. split; [|done].
    destruct w; cbn in *. by rewrite E.
Qed.

Lemma percentiles_step : w_percentile w = w_percentile w0 ->
  close_percentiles r w = (Ok tt, with_lists (w_per_second w) (percentiles_of r (w_percentile w0)) (w_cmdlog w) w).
Proof.
  destruct Ha. intros E. unfold percentiles_of. destruct (r_latency r) as [counts|] eqn:El.
  - destruct an_latency0 as (Hne & Hc0 & d & Hd & Hn & Hk). rewrite Hd in *. by apply close_percentiles_run.
  - unfold close_percentiles. rewrite El, <- E. by destruct w as [? [?|]].
Qed.

Lemma cmdlog_step : w_cmdlog w = w_cmdlog w0 ->
  close_cmdlog r w = (Ok tt, with_lists (w_per_second w) (w_percentile w) (cmdlog_of r (w_cmdlog w0)) w).
Proof.
  destruct Ha. intros E. unfold cmdlog_of. destruct (w_cmdlog w0) as [l|].
  - destruct an_cmdlog0 as (vs & Hvs & Hl). rewrite Hvs. by apply (close_cmdlog_run r w l vs).
  - unfold close_cmdlog. rewrite (run_bind_ok _ _ _ w w), E by done. destruct w; cbn in *. by rewrite E.
Qed.
End Steps.

(** [close] up to the result. *)
Lemma close_containers r w : answers w r ->
  exists t c w', (forall B (k : option Q -> M worker B),
          (close_warnings r ;; c ← close_per_second r; close_percentiles r ;; close_cmdlog r ;; close_counters r ;; k c) w
          = k c w')
    /\ delivered w r w' /\ w_fw_debug w' = w_fw_debug w /\ w_warnings w' = w_warnings w ++ warnings_of r t
    /\ error_string (r_error r) = Ok t /\ consistent (w_per_second w') c.
Proof.
  intros Ha. destruct (error_string_ok _ (an_error _ _ Ha)) as [t Ht].
  pose proof (close_warnings_run r w t Ht) as R1.
  set (w1 := with_warnings _ w) in R1. destruct (seconds_step w w1 r Ha eq_refl) as (c & R2 & Hc).
  set (w2 := with_lists _ _ _ _) in R2. pose proof (percentiles_step w w2 r Ha eq_refl) as R3.
  set (w3 := with_lists _ _ _ _) in R3. pose proof (cmdlog_step w w3 r Ha eq_refl) as R4.
  set (w4 := with_lists _ _ _ _) in R4. pose proof (close_counters_run r w4 (an_keys _ _ Ha) (an_nodup _ _ Ha)) as R5.
  eexists t, c, _. split; [intros B k|].
  { rewrite (run_bind_ok _ _ _ _ _ R1), (run_bind_ok _ _ _ _ _ R2), (run_bind_ok _ _ _ _ _ R3), (run_bind_ok _ _ _ _ _ R4).
    by rewrite (run_bind_ok _ _ _ _ _ R5). }
  split; [by split|]. by split_and!.
Qed.

Lemma close_run w r : answers w r ->
  exists x w', close r w = (Ok x, w') /\ delivered w r w'
    /\ (exists t, error_string (r_error r) = Ok t /\ w_warnings w' = w_warnings w ++ warnings_of r t)
    /\ match x with
       | Exited code => w_fw_debug w = true /\ code = r_error r /\ code <> 0
       | Returned y => (w_fw_debug w = true -> r_error r = 0) /\ res_rets y = r_rets r /\ res_latency y = r_latency r
           /\ (forall n, lookup_key 1 (w_op w') = Ok n -> res_io_count_write y = n)
           /\ consistent (w_per_second w') (res_consistency y)
       end.
Proof.
  intros Ha. destruct (close_containers r w Ha) as (t & c & w' & Hrun & Hde & Hfw & Hw & Ht & Hc).
  assert (Hkeys : (w_op w').*1 = (w_op w).*1) by (rewrite (de_op _ _ _ Hde); apply (zip_with_keys Z.sub), Ha).
  unfold close. rewrite Hrun. rewrite (run_bind_ok _ _ _ w' w') by done.
  rewrite (has_key_keys 1 (r_op r) (w_op w')) by (rewrite Hkeys; apply Ha).
  assert (exists n, (if has_key 1 (w_op w') then lift (lookup_key 1 (w_op w')) else mret 0) w' = (Ok n, w')
            /\ forall m, lookup_key 1 (w_op w') = Ok m -> n = m) as (n & Hn & Hm).
  { destruct (has_key 1 (w_op w')) eqn:Ek.
    - destruct (lookup_key_has _ _ Ek) as [v Hv]. exists v. unfold lift. rewrite Hv. split; [done|]. by intros m [= ->].
    - exists 0. split; [done|]. intros m Hm. by apply has_key_lookup in Hm; congruence. }
  rewrite (run_bind_ok _ _ _ _ _ Hn). rewrite Hfw.
  destruct (w_fw_debug w && negb (r_error r =? 0)) eqn:Ed.
  - do 2 eexists. split; [done|]. split; [done|]. split; [by eexists|]. split_and!; [lia|done|lia].
  - do 2 eexists. split; [done|]. split; [done|]. split; [by eexists|]. split_and!; done || lia.
Qed.

(** Closing a worker delivers its report: for a report that fits the
    script's containers [close] never fails, the dictionary of operations holds
    how often each was completed, the list of seconds, the percentile dictionary
    and the list of commands hold the worker's, a host error and a device error
    each warn, the result is the worker's with the count of writes, and only a
    host error in debug mode ends the process instead. *)
Theorem close_delivers w r : answers w r ->
  exists x w', close r w = (Ok x, w') /\ delivered w r w'
    /\ (exists t, error_string (r_error r) = Ok t /\ w_warnings w' = w_warnings w ++ warnings_of r t)
    /\ match x with
       | Exited code => w_fw_debug w = true /\ code = r_error r /\ code <> 0
       | Returned y => (w_fw_debug w = true -> r_error r = 0) /\ res_rets y = r_rets r /\ res_latency y = r_latency r
           /\ (forall n, lookup_key 1 (w_op w') = Ok n -> res_io_count_write y = n)
           /\ consistent (w_per_second w') (res_consistency y)
       end.
Proof. apply close_run. Qed.

(** A worker of less than a second, or one that never ran: the script asked for
    the commands per second, and gets an exception instead of the report. *)
Theorem close_short_run w r ps : w_per_second w = Some [] -> r_per_second r = Some ps -> r_error r <= 0 ->
  rt_mseconds (r_rets r) < 1000 \/ ps = [] ->
  exists w', close r w = (Err AssertionError, w') /\ w_op w' = w_op w /\ w_percentile w' = w_percentile w
    /\ w_cmdlog w' = w_cmdlog w.
Proof.
  intros Hw Hps He Hs. destruct (error_string_ok _ He) as [t Ht]. unfold close.
  rewrite (run_bind_ok _ _ _ _ _ (close_warnings_run r w t Ht)).
  assert (Hf : full_seconds r ps = []).
  { unfold full_seconds. destruct Hs as [Hs| ->]; [|by rewrite take_nil].
    replace (Z.to_nat _) with O; [done|]. assert (rt_mseconds (r_rets r) / 1000 < 1) by (apply Z.div_lt_upper_bound; lia). lia. }
  erewrite run_bind_err by (by apply (close_per_second_short r (with_warnings (warnings_of r t) w) ps)).
  by eexists.
Qed.

(** ** From the loop to the script *)
Lemma fold_set_keys d2 : forall d1 vs, NoDup (d1 ++ d2).*1 -> length vs = length d2 ->
  foldl (fun d e => set_key (fst e) (snd e) d) (d1 ++ d2) (zip d2.*1 vs) = d1 ++ zip d2.*1 vs.
Proof.
  induction d2 as [|[k v] d2 IH]; intros d1 [|n vs] Hn Hl; try done. cbn [fmap list_fmap zip zip_with foldl fst snd].
  rewrite fmap_app in Hn. apply NoDup_app in Hn as (Hn1 & Hd & Hn2). cbn in Hn2. apply list.NoDup_cons in Hn2 as [Hk2 Hn2].
  rewrite set_key_middle by (try done; intros Hi; apply (Hd k Hi); left). rewrite cons_middle, app_assoc.
  rewrite IH; [by rewrite <- app_assoc| |by injection Hl].
  rewrite !fmap_app. cbn [fmap list_fmap fst]. apply NoDup_app. split; [|split; [|done]].
  - apply NoDup_app. split; [done|]. split; [|apply NoDup_singleton]. intros x Hx ->%list_elem_of_singleton.
    apply (Hd _ Hx). left.
  - intros x [Hx| ->%list_elem_of_singleton]%elem_of_app Hx2; [|done]. apply (Hd x Hx). by right.
Qed.

(** The counters a worker reports, less those it started with. *)
Lemma counter_differences (ops : list (Z * Z)) ns : length ns = length ops -> Forall (fun n => 0 <= n) ns ->
  Forall (fun e => 0 <= e.2 /\ e.2 + sum ns < 2 ^ 64) ops ->
  zip_with (fun a b => (a.1, a.2 - b.2)) (zip ops.*1 (zip_with (fun e n => wrap 64 (e.2 + n)) ops ns)) ops
  = zip ops.*1 ns.
Proof.
  intros Hl Hn Ho. revert ns Hl Hn Ho. induction ops as [|[k v] ops IH]; intros [|n ns] Hl Hn Ho; try done.
  apply Forall_cons in Hn as [Hn Hns]. apply Forall_cons in Ho as [[Hv Hb] Ho]. rewrite sum_cons in *. cbn [fst snd] in *.
  pose proof (sum_nonneg _ Hns). cbn [fmap list_fmap zip zip_with fst snd]. rewrite wrap_small by lia. f_equal; [f_equal; lia|].
  apply IH; [by injection Hl|done|]. eapply Forall_impl; [exact Ho|]. cbn. intros e [? ?]. lia.
Qed.

Lemma final_log_length n g : length (final_log n g) = length (c_log g).
Proof. unfold final_log. destruct (n =? 0); [done|]. rewrite length_app, length_drop, length_take. lia. Qed.

Lemma final_rets_inv start now cpu s t : final_rets start now cpu s = Ok t ->
  rt_read t = rt_read (st_rets s) /\ rt_nonread t = rt_nonread (st_rets s) /\ rt_error t = rt_error (st_rets s)
  /\ wrap 64 (rt_read (st_rets s) + rt_nonread (st_rets s)) <> 0.
Proof.
  unfold final_rets. intros H. apply res_bind_inv in H as (msec & _ & H). apply check_bind in H as [Hn H].
  injection H as <-. split_and!; try done. lia.
Qed.

(** A script that asked for the commands per second gave an empty list, and in
    the full seconds of the run some command completed. *)
Definition seconds_ok (w : worker) (t : rets) (g : gctx) : Prop :=
  match w_per_second w with
  | None => True
  | Some l => l = [] /\ exists c, st_per_second (c_stats g) = Some c /\ 0 < sum (take (Z.to_nat (rt_mseconds t / 1000)) c)
  end.

Lemma finish_answers j g w pid t : a_ops (j_args j) = w_op w -> NoDup (w_op w).*1 -> seconds_ok w t g ->
  (forall d, w_percentile w = Some d -> NoDup d.*1 /\ Forall (fun k => 0 < k < 100) d.*1) ->
  tally j g -> 0 < c_cplt g -> length (c_log g) = length (new_cmdlog w) ->
  let r := finish_report w pid (worker_error 0 0 false 0) t (j_log_len j) (w_op w).*1 g in
  answers w r /\ r_op r = zip (w_op w).*1 (st_op_counter (c_stats g)).
Proof.
  intros Ho Hn Hs Hp [(ns & Hln & _ & _ & Hop) _ Hlat] Hc Hl r.
  assert (Hlen : length (st_op_counter (c_stats g)) = length (w_op w)).
  { rewrite Hop, length_zip_with, Hln, Ho. lia. }
  assert (Er : r_op r = zip (w_op w).*1 (st_op_counter (c_stats g))) by (apply (fold_set_keys _ []); done).
  split; [|done]. split.
  - done.
  - rewrite Er. apply fst_zip. rewrite length_fmap. lia.
  - done.
  - unfold seconds_ok in Hs. cbn [r finish_report r_per_second]. destruct (w_per_second w) as [l|]; [|done].
    destruct Hs as (-> & c & -> & Hc0). split; [done|]. by exists c.
  - cbn [r finish_report r_latency]. destruct (w_percentile w) as [d|] eqn:Ed; [|done].
    destruct (st_per_latency (c_stats g)) as [counts|]; [|done]. destruct (Hlat counts eq_refl) as [H1 H2].
    split; [intros ->; cbn in H2; lia|]. split; [done|]. exists d. by destruct (Hp d eq_refl).
  - cbn [r finish_report r_cmdlog]. unfold new_cmdlog in Hl. destruct (w_cmdlog w) as [[|x l]|]; [by exists []| |done].
    rewrite length_replicate in Hl. eexists. split; [done|]. by rewrite final_log_length.
Qed.

(** A worker from the script's parameters [p] to the end of its loop, within
    its time, with what it leaves in [g] and [t]. *)
Inductive worker_run (p : params) (w : worker) (j : job) : gctx -> rets -> Prop :=
  | worker_run_intro cap cfg a nsze sector max ctxs start clock g0 us g now cpu t :
      ioworker cap p = Ok cfg -> pack_args cfg = Ok a -> adjust_args nsze sector max (j_log_len j) a = Ok (inr (j_args j)) ->
      w_op w = g_ops cfg -> start_ok j ctxs ->
      first_batch j clock (Z.to_nat (a_qdepth (j_args j))) 0
        (start_gctx (j_args j) start (new_per_latency w) (new_per_second (a_seconds a) w) ctxs (new_cmdlog w)) = Ok g0 ->
      loop j start us g0 = Ok (Some (g, 0)) -> device j false start us g0 [] ->
      final_rets start now cpu (c_stats g) = Ok t ->
      worker_run p w j g t.

Lemma worker_run_counts p w j g t : worker_run p w j g t -> rt_error t = 0 ->
  (has_sequence j = true -> sequence_count j <= a_io_count (j_args j)) ->
  a_ops (j_args j) = w_op w /\ Forall (fun e => 0 <= e.2 <= 100) (w_op w) /\ c_cplt g = total j /\ 0 < c_cplt g
  /\ tally j g /\ length (c_log g) = length (new_cmdlog w)
  /\ (st_per_latency (c_stats g) = None -> w_percentile w = None)
  /\ rt_read t = rt_read (st_rets (c_stats g)) /\ rt_nonread t = rt_nonread (st_rets (c_stats g)).
Proof.
  intros [cap cfg a nsze sector max ctxs start clock g0 us g' now cpu t' Hw Hp Had Hop Hok Hg0 Hrun Hdev Ht] He Hs.
  destruct (final_rets_inv _ _ _ _ _ Ht) as (R1 & R2 & R3 & R4). rewrite R3 in He.
  assert (Hops : a_ops (j_args j) = w_op w /\ Forall (fun e => 0 <= e.2 <= 100) (w_op w)).
  { apply pack_args_inv in Hp. apply adjust_args_inv in Had. destruct (packed_ops _ _ Hp) as [E Hn].
    rewrite (ad_ops _ _ _ Had), E, Hop. rewrite E in Hn. split; [done|].
    pose proof (ioworker_ops_sum _ _ _ Hw) as Hsum. apply Forall_forall. intros e He'. rewrite <- Hsum. fold (sum (snd <$> g_ops cfg)).
    assert (Hin : e.2 ∈ snd <$> g_ops cfg) by (apply list_elem_of_fmap; by exists e).
    split; [by rewrite Forall_forall in Hn; apply Hn|]. apply list_elem_of_lookup in Hin as [i Hi]. by apply (sum_ge _ i). }
  destruct Hops as [Hops H100]. split; [done|]. split; [done|].
  destruct (loop_tally j ctxs start (new_per_latency w) (new_per_second (a_seconds a) w) (new_cmdlog w) clock g0 start us g')
    as (Htl & Hlen & Hpl); try done.
  { rewrite Hops. eapply Forall_impl; [exact H100|]. cbn. lia. }
  { unfold new_per_latency. generalize (Z.to_nat (1000 * 1000)) as n. intros n. destruct (w_percentile w); [|done]. intros ? [= <-]. by apply Forall_replicate. }
  assert (Hc : c_cplt g' = total j).
  { apply (loop_ends j start us g0); try done. by exists start, (new_per_latency w), (new_per_second (a_seconds a) w), ctxs, (new_cmdlog w), clock. }
  destruct (t_io _ _ Htl) as (H1 & H2 & H3). split_and!; try done.
  2: { intros E. specialize (Hpl E). unfold new_per_latency in Hpl. by destruct (w_percentile w). }
  rewrite H3 in R4. destruct (Z.eq_dec (c_cplt g') 0) as [E|E]; [|lia]. by rewrite E in R4.
Qed.

(** C19. What a script learns of its worker is what happened: for any worker
    Python accepts, whose loop ends by itself without an error and that saw no
    time-out, closing it returns its report.  The dictionary of operations the
    script gave holds counts that add up to the commands the worker ran, as do
    the reads and other commands of the result: those asked for, but for a
    sequence longer than the queue, whose last command is never sent ([total]).
    No warning is given, and the latency of each percentile [k] is one within
    which [k] percent of all commands completed, the least such.  The commands
    per second, if the script asked for them, are those of the full seconds of
    the run, in which some command must have completed: [close] fails an
    assertion or divides by zero otherwise. *)
Theorem worker_report_exact p w j g t pid : worker_run p w j g t -> rt_error t = 0 ->
  (has_sequence j = true -> sequence_count j <= a_io_count (j_args j)) -> total j + 100 < 2 ^ 64 ->
  NoDup (w_op w).*1 -> seconds_ok w t g ->
  (forall d, w_percentile w = Some d -> NoDup d.*1 /\ Forall (fun k => 0 < k < 100) d.*1) ->
  exists x w', close (finish_report w pid (worker_error 0 (rt_error t) false 0) t (j_log_len j) (a_ops (j_args j)).*1 g) w
      = (Ok (Returned x), w')
    /\ (w_op w').*1 = (w_op w).*1 /\ Forall (fun n => 0 <= n) (w_op w').*2 /\ sum (w_op w').*2 = total j
    /\ rt_read (res_rets x) + rt_nonread (res_rets x) = total j /\ w_warnings w' = w_warnings w
    /\ w_per_second w' = match w_per_second w, st_per_second (c_stats g) with
                         | Some _, Some c => Some (take (Z.to_nat (rt_mseconds t / 1000)) c) | _, _ => None end
    /\ forall d k l, w_percentile w' = Some d -> (k, l) ∈ d ->
        exists counts, res_latency x = Some counts /\ sum counts = total j
          /\ total j * k / 100 <= prefix (S (Z.to_nat l)) counts
          /\ forall i, (i < Z.to_nat l)%nat -> prefix (S i) counts < total j * k / 100.
Proof.
  intros Hrun He Hs Hb Hn Hps Hpct. destruct (worker_run_counts _ _ _ _ _ Hrun He Hs) as (Ho & H100 & Hc & Hpos & Ht & Hl & Hsome & R1 & R2).
  destruct (finish_answers j g w pid t Ho Hn Hps Hpct Ht Hpos Hl) as [Ha Er].
  rewrite He, Ho. set (r := finish_report _ _ _ _ _ _ _) in *.
  destruct (close_run w r Ha) as (x & w' & Hclose & [D1 D2 D3 D4] & (txt & _ & Hw) & Hx).
  destruct x as [x|code]; [|by destruct Hx as (_ & -> & Hne)]. destruct Hx as (_ & Hr1 & Hr2 & _).
  destruct Ht as [(ns & Hln & Hns & Hsum & Hop) (T1 & T2 & T3) Hlat].
  assert (Hdiff : w_op w' = zip (w_op w).*1 ns).
  { rewrite D1, Er, Hop, Ho. apply counter_differences; [by rewrite <- Ho|done|].
    eapply Forall_impl; [exact H100|]. cbn. intros e ?. rewrite Hsum, Hc. lia. }
  assert (Hlen : length (w_op w).*1 = length ns) by (rewrite length_fmap, <- Ho; done).
  exists x, w'. split; [done|]. rewrite Hdiff, Hr1. split_and!.
  - apply fst_zip. lia.
  - by rewrite snd_zip by lia.
  - rewrite snd_zip by lia. congruence.
  - cbn. rewrite R1, R2. congruence.
  - rewrite Hw. unfold warnings_of. cbn [r finish_report r_error r_rets]. rewrite He. apply app_nil_r.
  - rewrite D2. unfold seconds_of, full_seconds. cbn [r finish_report r_per_second r_rets]. unfold seconds_ok in Hps.
    destruct (w_per_second w) as [l|]; [|done]. by destruct Hps as (-> & c & -> & _).
  - intros d k l Hd Hkl. rewrite D3 in Hd. unfold percentiles_of in Hd. destruct (w_percentile w) as [d0|] eqn:E0; [|done].
    assert (exists counts, r_latency r = Some counts /\ st_per_latency (c_stats g) = Some counts) as (counts & El & Hst).
    { cbn [r finish_report r_latency]. rewrite E0. destruct (st_per_latency (c_stats g)) as [counts|]; [by exists counts|].
      by specialize (Hsome eq_refl). }
    rewrite El in Hd, Hr2. exists counts. split; [done|].
    destruct (Hlat counts Hst) as [Hnn Hsc]. rewrite Hsc, Hc. split; [done|].
    injection Hd as <-. apply list_elem_of_fmap in Hkl as ([k0 v0] & [= -> ->] & Hin). destruct (Hpct d0 eq_refl) as [_ Hk].
    rewrite Forall_forall in Hk. specialize (Hk k0 ltac:(apply list_elem_of_fmap; by exists (k0, v0))).
    destruct (percentile_latency_least k0 counts Hnn) as (i & Hf & _ & H1 & H2); [intros ->; cbn in Hsc; lia|lia|].
    unfold latency_at. rewrite Hf, Nat2Z.id. rewrite Hsc, Hc in *. done.
Qed.

(** ** Witnesses *)
(** The C entry of a running worker fails an assertion. *)
Example entry_dies : exists s : procs Z, rtc astep created s /\ stuck s /\ main s = PClose.
Proof.
  exists (mk_procs PClose (CDead None) []). split; [|by split; [split_and!; auto|]].
  do 4 (eapply rtc_l; [left; by constructor|]; cbn [app]).
  eapply rtc_l; [right; apply (dies_now PClose CEntry []); done|]. constructor.
Qed.

Lemma close_gets_report_witness : exists s : procs Z, rtc astep created s /\ main s = PPut (Report (-1)) /\ main s <> PUnpack.
Proof.
  exists (mk_procs (PPut (Report (-1))) (CExit (-1)) []).
  assert (Hr : rtc astep (created (R := Z)) (mk_procs (PPut (Report (-1))) (CExit (-1)) [])).
  { eapply rtc_l; [left; constructor|]. eapply rtc_l; [left; apply (step_exception _ _ (-1))|]. eapply rtc_l; [left; apply step_report|].
    eapply rtc_l; [left; apply step_early|]. constructor. }
  split; [exact Hr|]. split; [done|]. exact (proj1 (close_gets_report _ Hr)).
Defined.

(** A worker of 2.5 seconds with both dictionaries, a list and a device error. *)
Definition busy : worker := mk_worker (Some []) (Some [(50, 0); (99, 0)]) (Some [(0, 0, 0)]) [(2, 40); (1, 60)] false [].
Definition busy_report : report :=
  mk_report 77 (-6) (mk_rets 4 6 2500 9 0x281 500 3) (Some [4; 5; 1]) (Some [0; 3; 4; 3]) (Some [(64, 8, 2)]) [(2, 44); (1, 66)].
Definition busy_close : res closed * worker := close busy_report busy.

Lemma close_delivers_witness : exists y, fst busy_close = Ok (Returned y) /\ res_io_count_write y = 6
  /\ w_percentile (snd busy_close) = Some [(50, 2); (99, 3)] /\ w_per_second (snd busy_close) = Some [4; 5]
  /\ delivered busy busy_report (snd busy_close).
Proof.
  assert (Ha : answers busy busy_report).
  { split; try done.
    - by apply (bool_decide_eq_true_1 _).
    - split; [done|]. eexists. split; [done|]. by vm_compute.
    - split; [done|]. split; [repeat constructor; done|]. eexists. split; [done|]. split; [|repeat constructor; done].
      by apply (bool_decide_eq_true_1 _).
    - by eexists. }
  destruct (close_delivers busy busy_report Ha) as (x & w' & Hc & Hd & _).
  assert (E : busy_close = (Ok x, w')) by exact Hc. rewrite E. cbn [fst snd].
  assert (Hx : match x with Returned y => res_io_count_write y = 6 | Exited _ => False end
    /\ w_percentile w' = Some [(50, 2); (99, 3)] /\ w_per_second w' = Some [4; 5]).
  { clear Hd. revert E. vm_compute. intros [= <- <-]. done. }
  destruct Hx as (H1 & H2 & H3). destruct x as [y|c]; [|done]. exists y. split_and!; done.
Defined.

Lemma close_short_run_witness :
  exists w', close (mk_report 77 0 (mk_rets 4 6 999 9 0 500 3) (Some [10; 0]) None (Some [(64, 8, 2)]) [(2, 44); (1, 66)]) busy
    = (Err AssertionError, w') /\ w_op w' = [(2, 40); (1, 60)].
Proof.
  destruct (close_short_run busy (mk_report 77 0 (mk_rets 4 6 999 9 0 500 3) (Some [10; 0]) None (Some [(64, 8, 2)]) [(2, 44); (1, 66)])
    [10; 0]) as (w' & H1 & H2 & _); [done..|by left|]. exists w'. by split.
Defined.

(** The worker of [replay], with room for two commands. *)
Definition replay_worker : worker := mk_worker None None (Some [(1, 1, 1); (1, 1, 1)]) [(2, 100); (1, 0)] true [].
Definition replay_rets : rets :=
  match final_rets (mk_tv 100 0) (mk_tv 100 50) (mk_tv 0 2000) (c_stats replay_end) with Ok t => t | Err _ => mk_rets 0 0 0 0 1 0 0 end.

Lemma replay_run : worker_run replay replay_worker replay_job replay_end replay_rets.
Proof.
  assert (Hro : exists g a, ioworker 0xff replay = Ok g /\ pack_args g = Ok a
    /\ adjust_args 4096 512 0x20000 2 a = Ok (inr replay_args) /\ w_op replay_worker = g_ops g /\ a_seconds a = 3600000).
  { do 2 eexists. split; [by vm_compute|]. split; [by vm_compute|]. by vm_compute. }
  destruct Hro as (g & a & Hg & Ha & Had & Hops & Hsec).
  apply (worker_run_intro replay replay_worker replay_job 0xff g a 4096 512 0x20000 [blank_ctx; blank_ctx] (mk_tv 100 0)
           (fun _ => mk_tv 100 0) replay_start [replay_turn 10; replay_turn 20] replay_end (mk_tv 100 50) (mk_tv 0 2000) replay_rets);
    [done..|split; vm_compute; by split|by vm_compute|by vm_compute|apply replay_device|by vm_compute].
Qed.

Lemma worker_report_exact_witness : exists x w',
  close (finish_report replay_worker 77 (worker_error 0 (rt_error replay_rets) false 0) replay_rets (j_log_len replay_job)
           (a_ops (j_args replay_job)).*1 replay_end) replay_worker = (Ok (Returned x), w')
  /\ sum (w_op w').*2 = 2 /\ rt_read (res_rets x) + rt_nonread (res_rets x) = 2.
Proof.
  assert (H1 : rt_error replay_rets = 0) by (vm_compute; reflexivity).
  assert (H2 : has_sequence replay_job = true -> sequence_count replay_job <= a_io_count (j_args replay_job)) by (by vm_compute).
  assert (H3 : total replay_job + 100 < 2 ^ 64) by (vm_compute; reflexivity).
  assert (H4 : NoDup (w_op replay_worker).*1) by (apply (bool_decide_eq_true_1 _); vm_compute; reflexivity).
  destruct (worker_report_exact replay replay_worker replay_job replay_end replay_rets 77 replay_run H1 H2 H3 H4 I)
    as (x & w' & Hc & _ & _ & Hs & Hr & _); [done|]. exists x, w'. split; [exact Hc|]. split; [rewrite Hs|rewrite Hr]; by vm_compute.
Defined.
