(* ===== verification/Worker.v ===== *)
(** * Worker: the process of an I/O worker

    [_IOWorker._ioworker] of src/src/driver_wrap.pyx: it packs its arguments into
    arrays of its own (IOWorker.v has the values), opens a controller, a
    namespace and a queue pair (Lifecycle.v) while it holds the lock the workers
    share, starts at a time it shares with other workers, runs the C entry
    (Loop.v), puts its report, and in its [finally] clause gives everything
    back, however it ended.  The local variables that have a value are part of
    the state, since the clean-up asks for them.  The contents of the report and
    the wait for the main process are in Report.v; the seeds of the random
    numbers and the signal handlers, set first, cannot fail and are left out. *)
From Stdlib Require Import ZArith Lia ZifyBool String.
From stdpp Require Import base list numbers option gmap gmultiset strings.
From S2P Require Import Prelude PyInt Pcie Lifecycle IOWorker.
Local Open Scope Z_scope.

(** ** State *)

(** The arrays of [ioworker_args]. *)
Inductive field :=
  | FSizes | FRatio | FAlign | FDistribution | FSequence | FOps | FCounter | FPerSecond | FPerLatency | FCmdlog.

#[export] Instance field_eq_dec : EqDecision field.
Proof. solve_decision. Defined.
Definition field_number (f : field) : positive :=
  match f with
  | FSizes => 1 | FRatio => 2 | FAlign => 3 | FDistribution => 4 | FSequence => 5 | FOps => 6 | FCounter => 7
  | FPerSecond => 8 | FPerLatency => 9 | FCmdlog => 10
  end.
#[export, refine] Instance field_countable : Countable field := {
  encode := field_number;
  decode n := list_find (fun f => field_number f = n)
    [FSizes; FRatio; FAlign; FDistribution; FSequence; FOps; FCounter; FPerSecond; FPerLatency; FCmdlog] ≫= (fun e => Some e.2)
}.
Proof. by intros []. Defined.

(** The variables of the function that hold objects. *)
Record locals := mk_locals { l_pcie : option nat; l_nvme0 : option nat; l_nvme0n1 : option nat; l_qpair : option nat }.

Inductive message := MStarted | MReport (error : Z).

(** The objects and SPDK behind them, the arrays that are allocated, whether
    this process holds the lock, and what it has put into the queue. *)
Record proc (T : Type) := mk_proc {
  w_script : script T; w_mem : gset field; w_locals : locals; w_locked : bool; w_queue : list message
}.
Arguments mk_proc {T} _ _ _ _ _.
Arguments w_script {T} _.
Arguments w_mem {T} _.
Arguments w_locals {T} _.
Arguments w_locked {T} _.
Arguments w_queue {T} _.

(** A failure that Python cannot catch: the process is gone. *)
Definition c_failure (e : pyexc) : bool := match e with CAbort | COutOfBounds | OutOfFuel => true | _ => false end.

(** No failure of C comes from packing. *)
Lemma fine_to_uint w v : fine (to_uint w v).
Proof. unfold to_uint. by destruct (_ && _). Qed.
Lemma fine_to_short v : fine (to_short v).
Proof. unfold to_short. by destruct (_ && _). Qed.
Lemma fine_py_max l : fine (py_max l).
Proof. by destruct l. Qed.
Lemma fine_bind {A B} (r : res A) (k : A -> res B) : fine r -> (forall a, fine (k a)) -> fine (r ≫= k).
Proof. intros Hr Hk. destruct r; [apply Hk|done]. Qed.
Lemma fine_mapM {A B} (f : A -> res B) l : (forall x, fine (f x)) -> fine (mapM f l).
Proof. intros Hf. induction l as [|x l IH]; [done|]. cbn [mapM]. apply fine_bind; [done|]. intros y. by apply fine_bind. Qed.
Lemma fine_check b : fine (check b AssertionError).
Proof. by destruct b. Qed.
Lemma fine_pack_size e : fine (pack_size e).
Proof.
  destruct e as [[a b] c]. do 3 (apply fine_bind; [apply fine_to_uint|intros ?]).
  by do 2 (apply fine_bind; [apply fine_check|intros ?]).
Qed.
Lemma fine_pack_op e : fine (pack_op e).
Proof. by do 2 (apply fine_bind; [apply fine_to_uint|intros ?]). Qed.
Lemma fine_pack_line q : fine (pack_line q).
Proof. by do 4 (apply fine_bind; [apply fine_to_uint|intros ?]). Qed.

(** ** The time of the start, in microseconds *)

(** [math.ceil(10*time.time())/10+0.1] *)
Definition start_at (t : Z) : Z := - ((- t) / 100000) * 100000 + 100000.

(** Three readings of the clock; [time.sleep] refuses a negative time.  The
    class attribute is this process's own, 0 at first. *)
Definition sync_start (target_start_time t1 t2 t3 : Z) : res Z :=
  let target := if target_start_time <? t1 then start_at t2 else target_start_time in
  if target - t3 <? 0 then Err ValueError else Ok target.

Section Process.
Context {T : Type} `{Spdk T} {D : Type} `{PciConfig D}.
Variable intc_found : bool.
Variable pci_of : positive -> T -> D.
Variable cap_of : positive -> T -> Z.
Variable device_exists : string -> bool.
(** PyMem_Malloc, the C entry with its result and the device's error, the
    configuration word, and the two functions on the BAR. *)
Variable avail : field -> bool.
Variable ioworker_entry : positive -> positive -> c_args -> T -> (Z * Z) * T.
Variable driver_config_read : T -> Z.
Variable bar_remap : positive -> T -> Z * T.
Variable bar_recover : positive -> T -> T.
(** The arguments of the process. *)
Variable g : config.
Variable pciaddr : string.
Variable nsid nlba_verify qprio : Z.
Variable want_per_second want_per_latency : bool.
Variable log_len : nat.
Variable fw_debug : bool.
Variable clock : Z * Z * Z.
Variable timeouts_seen : nat.

Abbreviation W := (M (proc T)).

Definition set_script (s : script T) (w : proc T) : proc T := mk_proc s (w_mem w) (w_locals w) (w_locked w) (w_queue w).
Definition set_mem (m : gset field) (w : proc T) : proc T := mk_proc (w_script w) m (w_locals w) (w_locked w) (w_queue w).
Definition set_locals (l : locals) (w : proc T) : proc T := mk_proc (w_script w) (w_mem w) l (w_locked w) (w_queue w).
Definition set_locked (b : bool) (w : proc T) : proc T := mk_proc (w_script w) (w_mem w) (w_locals w) b (w_queue w).
Definition rput (m : message) (w : proc T) : proc T := mk_proc (w_script w) (w_mem w) (w_locals w) (w_locked w) (w_queue w ++ [m]).

Definition on_script {A} (m : M (script T) A) : W A := fun w => let '(r, s) := m (w_script w) in (r, set_script s w).

(** [with locker:] the lock is released by an exception, not by the end of the
    process. *)
Definition with_lock {A} (m : W A) : W A := fun w =>
  let '(r, w') := m (set_locked true w) in
  (r, match r with Err e => if c_failure e then w' else set_locked false w' | Ok _ => set_locked false w' end).

(** [try: m except: h] *)
Definition try_except {A} (m : W A) (h : pyexc -> W A) : W A := fun w =>
  match m w with
  | (Err e, w') => if c_failure e then (Err e, w') else h e w'
  | ok => ok
  end.

Definition malloc (f : field) : W bool := if avail f then modify (fun w => set_mem ({[f]} ∪ w_mem w) w) ;; mret true else mret false.
Definition malloc_all (l : list field) : W unit :=
  oks ← mapM malloc l; if forallb id oks then mret tt else raise MemoryError.

(** ** Packing the arguments *)
Definition prepare_distribution : W (list Z) :=
  match g_distribution g with
  | None => mret []
  | Some l =>
      py_assert (g_start g =? 0) ;;
      py_assert (g_end g =? no_region_end) ;;
      py_assert (Nat.eqb (length l) 100) ;;
      py_assert (foldr Z.add 0 l =? 10000) ;;
      py_assert (g_random g =? 100) ;;
      malloc_all [FDistribution] ;;
      lift (mapM (to_uint 32) l)
  end.

Definition prepare_sequence : W (list ioseq) :=
  match g_sequence g with
  | None | Some [] => mret []
  | Some l => py_assert (g_iops g =? 0) ;; malloc_all [FSequence] ;; lift (mapM pack_line l)
  end.

(** The arrays for what the worker sends back. *)
Definition prepare_outputs (seconds : Z) : W unit :=
  (if want_per_second then _ ← lift (to_uint 64 (seconds * 4)); malloc_all [FPerSecond] else mret tt) ;;
  (if want_per_latency then malloc_all [FPerLatency] else mret tt) ;;
  (if (0 <? log_len)%nat then malloc_all [FCmdlog] else mret tt).

Definition prepare : W c_args :=
  py_assert (Nat.eqb (length (g_sizes g)) (length (g_align g))) ;;
  m ← lift (py_max (fst <$> g_sizes g)); size_max ← lift (to_uint 32 m);
  m ← lift (py_max (g_align g)); align_max ← lift (to_uint 32 m);
  ratio_sum ← lift (to_uint 32 (foldr Z.add 0 (snd <$> g_sizes g)));
  py_assert (ratio_sum <=? 10000) ;;
  malloc_all [FSizes; FRatio; FAlign] ;;
  sizes ← lift (mapM pack_size (zip (g_sizes g) (g_align g)));
  distribution ← prepare_distribution;
  let seconds := if g_time g =? 0 then 1000 * 3600 else g_time g in
  sequence ← prepare_sequence;
  malloc_all [FOps; FCounter] ;;
  ops ← lift (mapM pack_op (g_ops g));
  prepare_outputs seconds ;;
  lba_start ← lift (to_uint 64 (g_lba_start g));
  step ← lift (to_short (default 0 (g_step g)));
  random ← lift (to_uint 16 (g_random g));
  start ← lift (to_uint 64 (g_start g));
  stop ← lift (to_uint 64 (g_end g));
  iops ← lift (to_uint 32 (g_iops g));
  io_count ← lift (to_uint 64 (g_io_count g));
  seconds ← lift (to_uint 32 seconds);
  qdepth ← lift (to_uint 32 (Z.max 2 (g_qdepth g)));
  pvalue ← lift (to_uint 32 (g_pvalue g));
  ptype ← lift (to_uint 32 (g_ptype g));
  mret (mk_c_args size_max align_max ratio_sum sizes ops
        step (match g_step g with Some _ => true | None => false end)
        random start stop iops io_count seconds qdepth lba_start pvalue ptype distribution sequence).

(** ** Opening and running *)
Definition open_resources : W unit :=
  with_lock (
    p ← on_script (pcie_new false intc_found pci_of device_exists pciaddr 0);
    modify (set_locals (mk_locals (Some p) None None None)) ;;
    i ← on_script (controller_new (fun _ t => (Ok tt, t)) p true);
    modify (set_locals (mk_locals (Some p) (Some i) None None)) ;;
    j ← on_script (namespace_new i nsid nlba_verify);
    modify (set_locals (mk_locals (Some p) (Some i) (Some j) None)) ;;
    k ← on_script (qpair_new cap_of i (Z.max 2 (g_qdepth g)) qprio true 0xffff);
    modify (set_locals (mk_locals (Some p) (Some i) (Some j) (Some k)))).

(** The C entry gets the pointers of the namespace and of the queue pair. *)
Definition run_entry (j k : nat) (a : c_args) : M (script T) (Z * Z) :=
  n ← the nspaces j; q ← the qpairs k;
  h ← use_ns (n_ns n); p ← use_qpair (q_ptr q); spdk (ioworker_entry h p a).

Definition body : W (Z * Z) :=
  a ← prepare;
  open_resources ;;
  (let '(t1, t2, t3) := clock in lift (sync_start 0 t1 t2 t3)) ;;
  modify (rput MStarted) ;;
  w ← get;
  match l_nvme0n1 (w_locals w), l_qpair (w_locals w) with
  | Some j, Some k => on_script (run_entry j k a)
  | _, _ => raise UnboundLocalError
  end.

(** ** The end *)

(** The controller's pointer and timeout, in the clean-up. *)
Definition nvme0_timeout (i : nat) : M (script T) Z := x ← the ctrls i; mret (c_timeout x).
Definition on_bar {A} (i : nat) (f : positive -> T -> A * T) : M (script T) A :=
  x ← the ctrls i; y ← the pcies (c_pcie x); c ← use_ctrlr (p_ctrlr y); spdk (f c).

Definition remap (i : nat) : M (script T) unit := ret ← on_bar i bar_remap; c_assert (ret =? 0).

Definition delete_qpair (terminated : bool) (i k : nat) : W unit :=
  orig ← on_script (nvme0_timeout i);
  (if terminated then on_script (timeout_set i 10) ;; on_script (remap i) else mret tt) ;;
  try_except (on_script (qpair_delete k)) (fun _ => mret tt) ;;
  (if terminated then
     on_script (timeout_set i orig) ;; on_script (on_bar i (fun c t => (tt, bar_recover c t)))
   else mret tt).

Definition release : W unit :=
  with_lock (
    w ← get;
    let terminated := negb (Z.land (driver_config_read (sp (w_script w))) 0x10 =? 0) in
    (match l_nvme0 (w_locals w), l_qpair (w_locals w) with
     | Some i, Some k => delete_qpair terminated i k
     | None, Some _ => raise UnboundLocalError
     | _, None => mret tt
     end) ;;
    (match l_nvme0n1 (w_locals w) with Some j => on_script (namespace_close j) | None => mret tt end) ;;
    (match l_pcie (w_locals w) with Some p => on_script (pcie_close false p) | None => mret tt end)).

(** Each array by its pointer; the pointer of an array that was not allocated
    is [NULL]. *)
Definition free (f : field) : W unit := modify (fun w => set_mem (w_mem w ∖ {[f]}) w).
Definition free_all : W unit :=
  foreach free [FSequence; FPerSecond; FPerLatency; FCmdlog; FDistribution; FSizes; FRatio; FAlign; FOps; FCounter].

(** The whole process; the report's wait for the main process is in Report.v. *)
Definition _ioworker : W Z :=
  r ← try_except (r ← body; mret (Some r)) (fun _ => mret None);
  let error := match r with
               | Some (c, status) => worker_error c status false timeouts_seen
               | None => worker_error 0 0 true timeouts_seen
               end in
  modify (rput (MReport error)) ;;
  (if negb fw_debug || (error =? 0) then release else mret tt) ;;
  free_all ;;
  mret error.

(** ** Packing touches the arrays only *)
Definition quiet {A} (m : W A) : Prop := forall w, fine (fst (m w)) /\ exists l, snd (m w) = set_mem l w.

Lemma set_mem_mem l l' w : set_mem l (set_mem l' w) = set_mem l w.
Proof. done. Qed.

Lemma quiet_bind {A B} (m : W A) (k : A -> W B) : quiet m -> (forall a, quiet (k a)) -> quiet (m ≫= k).
Proof.
  intros Hm Hk w. destruct (Hm w) as [Hf [l Hl]]. unfold mbind, M_bind. destruct (m w) as [[a|e] w']; cbn in *; [|by eauto].
  destruct (Hk a w') as [Hf' [l' Hl']]. split; [done|]. exists l'. by rewrite Hl', Hl.
Qed.
Lemma quiet_ret {A} (a : A) : quiet (mret a).
Proof. intros w. split; [done|]. exists (w_mem w). by destruct w. Qed.
Lemma quiet_raise {A} e : fine (Err e : res A) -> quiet (raise e : W A).
Proof. intros He w. split; [done|]. exists (w_mem w). by destruct w. Qed.
Lemma quiet_lift {A} (r : res A) : fine r -> quiet (lift r).
Proof. intros Hr w. split; [done|]. exists (w_mem w). by destruct w. Qed.
Lemma quiet_assert b : quiet (py_assert b).
Proof. destruct b; [apply quiet_ret|by apply quiet_raise]. Qed.
Lemma quiet_malloc f : quiet (malloc f).
Proof. unfold malloc. destruct (avail f); [|apply quiet_ret]. intros w. split; [done|]. by eexists. Qed.
Lemma quiet_if {A} (b : bool) (m1 m2 : W A) : quiet m1 -> quiet m2 -> quiet (if b then m1 else m2).
Proof. by destruct b. Qed.
Lemma quiet_mapM {A B} (f : A -> W B) l : (forall x, quiet (f x)) -> quiet (mapM f l).
Proof. intros Hf. induction l as [|x l IH]; cbn [mapM]; [apply quiet_ret|]. apply quiet_bind; [done|]. intros. apply quiet_bind; [done|]. intros. apply quiet_ret. Qed.
Lemma quiet_malloc_all l : quiet (malloc_all l).
Proof.
  apply quiet_bind; [apply quiet_mapM, quiet_malloc|]. intros oks. apply quiet_if; [apply quiet_ret|by apply quiet_raise].
Qed.

Create HintDb quiet.
#[local] Hint Resolve quiet_ret quiet_lift quiet_assert quiet_malloc_all quiet_if : quiet.
#[local] Hint Resolve fine_to_uint fine_to_short fine_py_max fine_mapM fine_pack_size fine_pack_op fine_pack_line : quiet.
#[local] Hint Extern 1 (quiet (_ ≫= _)) => apply quiet_bind; [|intros ?] : quiet.

Lemma quiet_prepare : quiet prepare.
Proof.
  assert (Hd : quiet prepare_distribution) by (unfold prepare_distribution; destruct (g_distribution g); auto 10 with quiet).
  assert (Hs : quiet prepare_sequence) by (unfold prepare_sequence; destruct (g_sequence g) as [[|q l]|]; auto 10 with quiet).
  assert (Ho : forall n, quiet (prepare_outputs n)) by (intros n; unfold prepare_outputs; auto 10 with quiet).
  unfold prepare. cbv zeta. repeat (apply quiet_bind; [by auto with quiet|intros ?]). apply quiet_ret.
Qed.

(** With memory for every array, packing is [pack_args] of IOWorker.v. *)
Definition packs {A} (m : W A) (r : res A) : Prop := forall w, fst (m w) = r.

Lemma packs_bind {A B} (m : W A) (k : A -> W B) r f : packs m r -> (forall a, packs (k a) (f a)) -> packs (m ≫= k) (r ≫= f).
Proof.
  intros Hm Hk w. specialize (Hm w). unfold mbind at 1, M_bind. destruct (m w) as [[a|e] w']; cbn in *; subst r; [apply Hk|done].
Qed.
Lemma packs_skip {B} (m : W unit) (k : W B) r : packs m (Ok tt) -> packs k r -> packs (m ;; k) r.
Proof. intros Hm Hk. by apply (packs_bind m (fun _ => k) (Ok tt) (fun _ => r)). Qed.
Lemma packs_lift {A} (r : res A) : packs (lift r) r.
Proof. by intros w. Qed.
Lemma packs_assert b : packs (py_assert b) (check b AssertionError).
Proof. intros w. by destruct b. Qed.
Lemma packs_malloc l : (forall f, avail f = true) -> packs (malloc_all l) (Ok tt).
Proof.
  intros Ha. assert (Hm : forall f w, malloc f w = (Ok true, set_mem ({[f]} ∪ w_mem w) w)) by (intros f w; unfold malloc; by rewrite Ha).
  assert (Hl : forall w, exists w', mapM malloc l w = (Ok (replicate (length l) true), w')).
  { induction l as [|f l IH]; intros w; [by eexists|]. cbn [mapM length replicate]. rewrite (run_bind_ok _ _ _ _ _ (Hm f w)).
    destruct (IH (set_mem ({[f]} ∪ w_mem w) w)) as [w' E]. eexists. by rewrite (run_bind_ok _ _ _ _ _ E). }
  intros w. destruct (Hl w) as [w' E]. unfold malloc_all. rewrite (run_bind_ok _ _ _ _ _ E).
  assert (Hall : forall n, forallb id (replicate n true) = true) by (by induction n). by rewrite Hall.
Qed.

Lemma prepare_packs : (forall f, avail f = true) -> 0 <= g_time g < 2 ^ 32 -> packs prepare (pack_args g).
Proof.
  intros Ha Ht. assert (Hb : forall l, packs (malloc_all l) (Ok tt)) by (intros l; by apply packs_malloc).
  assert (Hd : packs prepare_distribution (pack_distribution g)).
  { unfold prepare_distribution, pack_distribution. destruct (g_distribution g); [|apply packs_lift].
    do 5 (apply packs_bind; [apply packs_assert|intros ?]). apply packs_skip; [done|apply packs_lift]. }
  assert (Hs : packs prepare_sequence (pack_sequence g)).
  { unfold prepare_sequence, pack_sequence. destruct (g_sequence g) as [[|x l]|]; try apply packs_lift.
    apply packs_bind; [apply packs_assert|intros ?]. apply packs_skip; [done|apply packs_lift]. }
  assert (Ho : packs (prepare_outputs (if g_time g =? 0 then 1000 * 3600 else g_time g)) (Ok tt)).
  { unfold prepare_outputs. apply packs_skip; [|apply packs_skip; [destruct want_per_latency|destruct (_ <? _)%nat]; done].
    destruct want_per_second; [|done]. intros w. set (v := _ * 4). assert (0 <= v < 2 ^ 64) by (unfold v; destruct (g_time g =? 0); lia).
    unfold mbind, M_bind, lift, to_uint. replace ((0 <=? v) && (v <? 2 ^ 64)) with true by lia. apply (Hb [FPerSecond]). }
  unfold prepare, pack_args. cbv zeta. apply packs_bind; [apply packs_assert|intros ?].
  do 5 (apply packs_bind; [apply packs_lift|intros ?]). apply packs_bind; [apply packs_assert|intros ?].
  apply packs_skip; [done|]. apply packs_bind; [apply packs_lift|intros ?]. apply packs_bind; [done|intros ?]. apply packs_bind; [done|intros ?].
  apply packs_skip; [done|]. apply packs_bind; [apply packs_lift|intros ?]. apply packs_skip; [done|].
  do 11 (apply packs_bind; [apply packs_lift|intros ?]). apply packs_lift.
Qed.

(** ** What holds of the parts *)
Hypothesis intc_ok : intc_found = true.
Hypothesis entry_ok : forall h q a t, same_handles t (snd (ioworker_entry h q a t)).
Hypothesis remap_ok : forall c t, fst (bar_remap c t) = 0 /\ same_handles t (snd (bar_remap c t)).
Hypothesis recover_ok : forall c t, same_handles t (bar_recover c t).
Hypothesis addr_ok : (String.length pciaddr < 59)%nat.
Context `{!SpdkOk T} `{!PciConfigOk D}.

(** Rules for the state of the process. *)
Lemma wp_on_script {A} (m : M (script T) A) Q w :
  wp m (fun r s => Q r (set_script s w)) (w_script w) -> wp (on_script m) Q w.
Proof. unfold wp, on_script. by destruct (m (w_script w)). Qed.

Lemma wp_with_lock {A} (m : W A) Q w :
  wp m (fun r w' => fine r /\ Q r (set_locked false w')) (set_locked true w) -> wp (with_lock m) Q w.
Proof.
  unfold wp, with_lock. destruct (m _) as [[a|e] w']; cbn; [by intros [_ H1]|]. intros [Hf H1]. by destruct e.
Qed.

Lemma wp_try {A} (m : W A) h Q w :
  wp m (fun r w' => match r with Ok a => Q (Ok a) w' | Err e => fine r /\ wp (h e) Q w' end) w -> wp (try_except m h) Q w.
Proof. unfold wp, try_except. destruct (m w) as [[a|e] w']; cbn; [done|]. intros [Hf H1]. by destruct e. Qed.

(** ** The objects, step by step *)
Variable C0 : gset positive.

Record owned (x : pcie) (c : positive) (t : T) : Prop := {
  ow_ctrlr : p_ctrlr x = Some c; ow_magic : p_magic x = MAGIC; ow_backup : p_backup x = false;
  ow_new : c ∉ C0; ow_ctrlrs : ctrlrs t = {[c]} ∪ C0
}.

Lemma owned_live x c t : owned x c t -> c ∈ ctrlrs t.
Proof. intros Ho. rewrite (ow_ctrlrs _ _ _ Ho). by apply elem_of_union_l, elem_of_singleton. Qed.
Lemma owned_same x c t t' : owned x c t -> ctrlrs t' = ctrlrs t -> owned x c t'.
Proof. intros [] E. split; congruence. Qed.
#[local] Hint Resolve owned_live : core.

(** The controller as its constructor leaves it. *)
Abbreviation own_ctrl := (mk_controller 0 10000 true).

(** The objects a run has made when its locals are [l]. *)
Inductive stage : locals -> script T -> Prop :=
  | stage_none t : ctrlrs t = C0 -> qps t = ∅ -> stage (mk_locals None None None None) (mk_script t [] [] [] [] [])
  | stage_pcie x c t : owned x c t -> qps t = ∅ ->
      stage (mk_locals (Some 0%nat) None None None) (mk_script t [] [x] [] [] [])
  | stage_ctrl x c t : owned x c t -> qps t = ∅ ->
      stage (mk_locals (Some 0%nat) (Some 0%nat) None None) (mk_script t [] [x] [own_ctrl] [] [])
  | stage_ns x c n h t : owned x c t -> qps t = ∅ ->
      n_nvme n = 0%nat -> n_ns n = Some h -> nss t !! h = Some c ->
      stage (mk_locals (Some 0%nat) (Some 0%nat) (Some 0%nat) None) (mk_script t [] [x] [own_ctrl] [] [n])
  | stage_full x c n h q t : owned x c t -> qps t = {[q := c]} ->
      n_nvme n = 0%nat -> n_ns n = Some h -> nss t !! h = Some c ->
      stage (mk_locals (Some 0%nat) (Some 0%nat) (Some 0%nat) (Some 0%nat)) (mk_script t [] [x] [own_ctrl] [mk_qpair (Some q) 0] [n]).

(** An operation of a stage: the next stage, or a Python exception in this one. *)
Definition advances (l l' : locals) (m : M (script T) nat) : Prop := forall s, stage l s ->
  wp m (fun r s' => match r with Ok i => i = 0%nat /\ stage l' s' | Err _ => fine r /\ stage l s' end) s.

Lemma opens_pcie : advances (mk_locals None None None None) (mk_locals (Some 0%nat) None None None)
  (pcie_new false intc_found pci_of device_exists pciaddr 0).
Proof.
  intros s Hs. inversion Hs as [t HC HQ| | | |]; subst s. unfold pcie_new.
  pose proof (fits_resolve false intc_found device_exists intc_ok pciaddr 0 addr_ok) as Hf. destruct (resolve device_exists pciaddr 0) as [a port]. cbn [fst] in Hf. rewrite Hf.
  apply wp_bind, wp_ret, wp_bind. unfold nvme_init. apply wp_bind, wp_spdk. cbn [sp].
  destruct (spdk_nvme_probe a port t) as [[c|] t'] eqn:E; cbn [fst snd].
  - destruct (probe_some _ _ _ _ _ E) as (H1 & H2 & H3 & _). rewrite intc_ok.
    apply wp_bind. assert (Hend : forall Q : res (option positive) -> script T -> Prop, Q (Ok (Some c)) (set_sp t' (mk_script t [] [] [] [] [])) ->
      wp (if port =? 0 then c_assert true else mret tt) (fun r s' => match r with Ok _ => wp (mret (Some c)) Q s' | Err e => Q (Err e) s' end) (set_sp t' (mk_script t [] [] [] [] [])))
      by (intros Q HQ'; by destruct (port =? 0); apply wp_ret, wp_ret).
    apply Hend. clear Hend. apply wp_bind, wp_get, wp_bind. cbn [set_sp sp pcies].
    assert (Hv : exists v, vdid_of (pci_of c t') = Ok v) by (unfold vdid_of; rewrite !register_2 by lia; by eexists).
    destruct Hv as [v Hv].
    assert (Hok : forall v, stage (mk_locals (Some 0%nat) None None None) (mk_script t' [] [mk_pcie (Some c) a v false MAGIC port] [] [] []))
      by (intros v'; apply (stage_pcie _ c); [|congruence]; by split; try done; congruence).
    destruct (port =? 0); [apply wp_lift; rewrite Hv|apply wp_ret]; apply wp_bind, wp_modify, wp_ret; (split; [done|apply Hok]).
  - destruct (probe_none _ _ _ _ E) as (H1 & H2 & _). apply wp_ret, wp_raise. split; [done|]. apply stage_none; congruence.
Qed.

Lemma opens_controller : advances (mk_locals (Some 0%nat) None None None) (mk_locals (Some 0%nat) (Some 0%nat) None None)
  (controller_new (fun _ t => (Ok tt, t)) 0 true).
Proof.
  intros s Hs. inversion Hs as [|x c t Ho HQ| | |]; subst s. unfold controller_new.
  apply wp_bind, (wp_the _ _ x); [done|]. rewrite (ow_ctrlr _ _ _ Ho). apply wp_bind. unfold nvme_register_timeout_cb.
  apply wp_bind, wp_use_ctrlr; [by eauto|]. apply wp_spdk. cbn [fst snd sp]. destruct (register_spec c (10000 * 1000) t) as (H1 & H2 & _).
  rewrite andb_false_r. apply wp_bind, wp_ret, wp_bind, wp_get, wp_bind, wp_modify, wp_ret. split; [done|].
  apply (stage_ctrl _ c); [by apply owned_same with t|by etrans; [exact H2|]].
Qed.

Lemma opens_namespace : advances (mk_locals (Some 0%nat) (Some 0%nat) None None) (mk_locals (Some 0%nat) (Some 0%nat) (Some 0%nat) None)
  (namespace_new 0 nsid nlba_verify).
Proof.
  intros s Hs. pose proof Hs as Hs'. inversion Hs as [| |x c t Ho HQ| |]; subst s. unfold namespace_new.
  do 2 (apply wp_bind, wp_lift; unfold to_uint; destruct (_ && _); [|by split]).
  apply wp_bind, (wp_the _ _ own_ctrl); [done|]. apply wp_bind, (wp_the _ _ x); [done|]. rewrite (ow_ctrlr _ _ _ Ho).
  apply wp_bind, wp_use_ctrlr; [by eauto|]. apply wp_bind, wp_spdk. cbn [sp].
  destruct (c_ns_init c nsid nlba_verify t) as [o t'] eqn:E. cbn [fst snd]. destruct (ns_init_spec _ _ _ _ _ _ E) as ((H1 & H2 & H3 & _) & H4).
  destruct o as [h|].
  - apply wp_bind, wp_get, wp_bind, wp_modify, wp_ret. split; [done|].
    apply (stage_ns _ c _ h); [by apply owned_same with t|by etrans; [exact H2|]|done|done|]. etrans; [exact (f_equal (lookup h) H3)|by apply H4].
  - apply wp_raise. split; [done|]. apply (stage_ctrl _ c); [by apply owned_same with t|by etrans; [exact H2|]].
Qed.

Lemma opens_qpair depth : advances (mk_locals (Some 0%nat) (Some 0%nat) (Some 0%nat) None)
  (mk_locals (Some 0%nat) (Some 0%nat) (Some 0%nat) (Some 0%nat)) (qpair_new cap_of 0 depth qprio true 0xffff).
Proof.
  intros s Hs. pose proof Hs as Hs'. inversion Hs as [| | |x c n h t Ho HQ Hn Hh Hc|]; subst s. unfold qpair_new.
  do 3 (apply wp_bind, wp_lift; unfold to_uint; destruct (_ && _); [|by split]).
  apply wp_bind, wp_assert; intros _; [|by split].
  apply wp_bind, (wp_the _ _ own_ctrl); [done|]. apply wp_bind, (wp_the _ _ x); [done|]. rewrite (ow_ctrlr _ _ _ Ho).
  apply wp_bind, wp_use_ctrlr; [by eauto|]. apply wp_bind, wp_get, wp_bind, wp_assert; intros _; [|by split].
  apply wp_bind. unfold qpair_create. apply wp_bind, wp_use_ctrlr; [by eauto|]. apply wp_spdk. cbn [sp].
  destruct (spdk_alloc_io_qpair c _ t) as [[q|] t'] eqn:E; cbn [fst snd].
  - destruct (alloc_some _ _ _ _ _ E) as (H1 & H2 & H3 & H4 & _). apply wp_bind, wp_get, wp_bind, wp_modify, wp_ret. split; [done|].
    apply (stage_full _ c _ h); [by apply owned_same with t|by etrans; [exact H2|rewrite HQ]|done|done|by etrans; [exact (f_equal (lookup h) H4)|]].
  - destruct (alloc_none _ _ _ _ E) as (H1 & H2 & H3 & _). apply wp_raise. split; [done|].
    apply (stage_ns _ c _ h); [by apply owned_same with t|by etrans; [exact H2|]|done|done|by etrans; [exact (f_equal (lookup h) H3)|]].
Qed.

Abbreviation none := (mk_locals None None None None).
Abbreviation full := (mk_locals (Some 0%nat) (Some 0%nat) (Some 0%nat) (Some 0%nat)).

Lemma wp_open_step l l' (m : M (script T) nat) (k : nat -> W unit) Q s mem b q : advances l l' m -> stage l s ->
  (forall e s', fine (Err e : res unit) -> stage l s' -> Q (Err e) (mk_proc s' mem l b q)) ->
  (forall s', stage l' s' -> wp (k 0%nat) Q (mk_proc s' mem l b q)) -> wp (on_script m ≫= k) Q (mk_proc s mem l b q).
Proof.
  intros Hm Hs He Hk. apply wp_bind, wp_on_script. cbn [w_script]. eapply wp_mono; [exact (Hm s Hs)|].
  intros [i|e] s'; [intros [-> H1]; by apply Hk|intros [H1 H2]; by apply He].
Qed.

(** The exception leaves the block. *)
Ltac stops := intros ? ? ? ?; split; [done|]; split; [done|]; do 2 eexists; split; [reflexivity|]; by split.

Lemma opens_resources s mem q : stage none s ->
  wp open_resources (fun r w' => fine r /\ exists l s', w' = mk_proc s' mem l false q /\ stage l s' /\ (r = Ok tt -> l = full))
    (mk_proc s mem none false q).
Proof.
  intros Hs. unfold open_resources. apply wp_with_lock. unfold set_locked. cbn [w_script w_mem w_locals w_queue].
  apply wp_open_step with (mk_locals (Some 0%nat) None None None); [apply opens_pcie|done|stops|].
  clear s Hs. intros s Hs. apply wp_bind, wp_modify. unfold set_locals. cbn [w_script w_mem w_locked w_queue].
  eapply wp_open_step; [apply opens_controller|done|stops|].
  clear s Hs. intros s Hs. apply wp_bind, wp_modify. unfold set_locals. cbn [w_script w_mem w_locked w_queue].
  eapply wp_open_step; [apply opens_namespace|done|stops|].
  clear s Hs. intros s Hs. apply wp_bind, wp_modify. unfold set_locals. cbn [w_script w_mem w_locked w_queue].
  eapply wp_open_step; [apply opens_qpair|done|stops|].
  clear s Hs. intros s Hs. apply wp_modify. unfold set_locals. cbn [w_script w_mem w_locked w_queue].
  split; [done|]. split; [done|]. do 2 eexists. split; [reflexivity|]. by split.
Qed.

Lemma runs_entry a s : stage full s -> wp (run_entry 0 0 a) (fun r s' => (exists v, r = Ok v) /\ stage full s') s.
Proof.
  intros Hs. inversion Hs as [| | | |x c n h q t Ho HQ Hn Hh Hc]; subst s. unfold run_entry.
  apply wp_bind, (wp_the _ _ n); [done|]. apply wp_bind, (wp_the _ _ (mk_qpair (Some q) 0)); [done|]. rewrite Hh. cbn [q_ptr].
  apply wp_bind, (wp_use_ns _ c); [done|]. apply wp_bind, (wp_use_qpair _ c); [cbn [sp]; rewrite HQ; apply lookup_singleton_eq|].
  apply wp_spdk. cbn [sp]. destruct (entry_ok h q a t) as (H1 & H2 & H3 & _). split; [by eexists|].
  apply (stage_full _ c _ h); [by apply owned_same with t|by etrans; [exact H2|]|done|done|by etrans; [exact (f_equal (lookup h) H3)|]].
Qed.

Lemma fine_sync_start o t1 t2 t3 : fine (sync_start o t1 t2 t3).
Proof. unfold sync_start. by destruct (_ <? _). Qed.

(** What the [finally] clause finds: the objects of the last step that
    succeeded, the lock free, and "STARTED" in the queue just when the C entry
    has run. *)
Lemma body_spec s mem : stage none s -> wp body (fun r w' => fine r /\ stage (w_locals w') (w_script w') /\ w_locked w' = false
  /\ w_queue w' = match r with Ok _ => [MStarted] | Err _ => [] end) (mk_proc s mem none false []).
Proof.
  intros Hs. unfold body. apply wp_bind. destruct (quiet_prepare (mk_proc s mem none false [])) as [Hf [m' Hm]]. unfold wp.
  destruct (prepare _) as [r w1]; cbn [fst snd] in Hf, Hm; subst w1. destruct r as [a|e]; [|done]. unfold set_mem. cbn [w_script w_locals w_locked w_queue].
  change (wp (open_resources ;; (let '(t1, t2, t3) := clock in lift (sync_start 0 t1 t2 t3)) ;; modify (rput MStarted) ;;
    w ← get; match l_nvme0n1 (w_locals w), l_qpair (w_locals w) with
             | Some j, Some k => on_script (run_entry j k a) | _, _ => raise UnboundLocalError end)
    (fun r w' => fine r /\ stage (w_locals w') (w_script w') /\ w_locked w' = false /\ w_queue w' = match r with Ok _ => [MStarted] | Err _ => [] end)
    (mk_proc s m' none false [])).
  apply wp_bind. eapply wp_mono; [exact (opens_resources s m' [] Hs)|]. intros [[]|e] w1 (Hf1 & l & s' & -> & Hs' & Hl); [|done].
  specialize (Hl eq_refl) as ->. apply wp_bind. destruct clock as [[t1 t2] t3]. apply wp_lift.
  pose proof (fine_sync_start 0 t1 t2 t3) as Hc. destruct (sync_start 0 t1 t2 t3) as [z|e]; [|done].
  apply wp_bind, wp_modify, wp_bind, wp_get. cbn. apply wp_on_script. cbn. eapply wp_mono; [exact (runs_entry a s' Hs')|].
  intros r s'' [[v ->] H1]. done.
Qed.

(** SPDK never refuses to free a queue pair. *)
Definition frees_queues : Prop := forall q t, fst (spdk_free_io_qpair q t) = 0.

(** What the clean-up can find, whatever failed in it so far; [K] is the
    condition on which no queue pair is left. *)
Record held (K : Prop) (l : locals) (s : script T) (c : positive) : Prop := {
  he_pcies : exists x, pcies s = [x] /\ owned x c (sp s);
  he_ctrls : Forall (fun y => c_pcie y = 0%nat /\ 0 <= c_timeout y < 2 ^ 32) (ctrls s);
  he_qpairs : (length (qpairs s) <= 1)%nat /\ Forall (fun q => (q_nvme q < length (ctrls s))%nat) (qpairs s);
  he_all : forall q d, qps (sp s) !! q = Some d -> exists k x, qpairs s !! k = Some x /\ q_ptr x = Some q;
  he_gone : K -> qps (sp s) = ∅;
  he_live : forall k x q, qpairs s !! k = Some x -> q_ptr x = Some q -> qps (sp s) !! q = Some c;
  he_nspaces : Forall (fun n => (n_nvme n < length (ctrls s))%nat) (nspaces s);
  he_nvme0 : forall i, l_nvme0 l = Some i -> (i < length (ctrls s))%nat;
  he_nvme0n1 : forall j, l_nvme0n1 l = Some j -> (j < length (nspaces s))%nat;
  he_qpair : forall k, l_qpair l = Some k -> (k < length (qpairs s))%nat
}.

Lemma held_weaken (K K' : Prop) l s c : (K' -> K) -> held K l s c -> held K' l s c.
Proof. intros Hg []. split; auto. Qed.

Lemma held_spdk K l s c t : held K l s c -> ctrlrs t = ctrlrs (sp s) -> qps t = qps (sp s) -> held K l (set_sp t s) c.
Proof.
  intros [(x & Hp & Ho)] E1 E2. split; cbn; try rewrite E2; try done. exists x. split; [done|]. by apply owned_same with (sp s).
Qed.

Lemma stage_held l s : stage l s -> l = none /\ s = mk_script (sp s) [] [] [] [] [] /\ ctrlrs (sp s) = C0 /\ qps (sp s) = ∅
  \/ exists c, held (l_qpair l = None) l s c /\ l_pcie l = Some 0%nat /\ (l_nvme0 l = None -> l_qpair l = None).
Proof.
  assert (Hc : Forall (fun y => c_pcie y = 0%nat /\ 0 <= c_timeout y < 2 ^ 32) [own_ctrl]) by (constructor; [by split|constructor]).
  destruct 1 as [t|x c t Ho HQ|x c t Ho HQ|x c n h t Ho HQ Hn|x c n h q t Ho HQ Hn]; [by left|right; exists c; (split; [|done])..].
  all: split; cbn; rewrite ?HQ; try done; try (by eexists); try (by intros ? [= <-]; lia); try (by split; [lia|repeat constructor]); try (by repeat constructor); try (by intros ??; rewrite lookup_empty).
  - constructor; [lia|constructor].
  - intros q' d [<- _]%lookup_singleton_Some. by exists 0%nat, (mk_qpair (Some q) 0).
  - intros [|k] y q'; [|done]. intros [= <-] [= <-]. apply lookup_singleton_eq.
  - constructor; [lia|constructor].
Qed.

Lemma closes_pcie K l s c : held K l s c ->
  wp (pcie_close false 0) (fun r s' => fine r /\ match r with
    | Ok _ => ctrlrs (sp s') = C0 /\ (K -> qps (sp s') = ∅) | Err e => e = NvmeDeletionError end) s.
Proof.
  intros Hh. destruct (he_pcies _ _ _ _ Hh) as (x & Hp & Ho). unfold pcie_close. apply wp_bind, (wp_the _ _ x); [by rewrite Hp|].
  rewrite (ow_ctrlr _ _ _ Ho), (ow_backup _ _ _ Ho). apply wp_bind, wp_bind. unfold nvme_fini.
  apply wp_bind, wp_use_ctrlr; [by eauto|]. apply wp_bind, wp_ret, wp_spdk.
  destruct (spdk_nvme_detach c (sp s)) as [r t] eqn:E. cbn [fst snd]. destruct (Z.eqb_spec r 0) as [->|Hr]; [|by split].
  apply wp_ret, wp_bind, (wp_the _ _ x); [by cbn; rewrite Hp|]. apply wp_modify. split; [done|]. cbn.
  destruct (detach_ok _ _ _ E) as (H1 & H2 & _). split.
  - rewrite H1, (ow_ctrlrs _ _ _ Ho). pose proof (ow_new _ _ _ Ho). apply set_eq. intros d.
    rewrite elem_of_difference, elem_of_union, elem_of_singleton. split; [tauto|]. intros Hd. split; [tauto|]. by intros ->.
  - intros Hg. pose proof (he_gone _ _ _ _ Hh Hg) as Hq. apply map_eq. intros h. by rewrite H2, Hq by (by rewrite Hq, lookup_empty).
Qed.

Lemma closes_namespace K l s c j : held K l s c -> l_nvme0n1 l = Some j ->
  wp (namespace_close j) (fun r s' => fine r /\ match r with Ok _ => held K l s' c | Err e => e = NamespaceDeletionError end) s.
Proof.
  intros Hh Hj. destruct (lookup_lt_is_Some_2 _ _ (he_nvme0n1 _ _ _ _ Hh j Hj)) as [n Hn].
  destruct (lookup_lt_is_Some_2 _ _ (Forall_lookup_1 _ _ _ _ (he_nspaces _ _ _ _ Hh) Hn)) as [y Hy].
  destruct (Forall_lookup_1 _ _ _ _ (he_ctrls _ _ _ _ Hh) Hy) as [Hp _]. destruct (he_pcies _ _ _ _ Hh) as (x & Hx & Ho).
  assert (Hend : forall t, ctrlrs t = ctrlrs (sp s) -> qps t = qps (sp s) ->
    held K l (set_nspaces (<[j := mk_nspace None (n_nvme n) (n_nsid n)]> (nspaces s)) (set_sp t s)) c).
  { intros t E1 E2. destruct (held_spdk K l s c t Hh E1 E2) as [H1 H2 H3 H4 H4' H5 H6 H7 H8 H9]. split; cbn; try done.
    - apply Forall_insert; [done|]. cbn. exact (Forall_lookup_1 _ _ _ _ H6 Hn).
    - intros k Hk. rewrite length_insert. by apply H8. }
  unfold namespace_close. apply wp_bind, (wp_the _ _ n); [done|]. apply wp_bind, (wp_the _ _ y); [done|]. rewrite Hp.
  apply wp_bind, (wp_the _ _ x); [by rewrite Hx|]. rewrite (ow_magic _ _ _ Ho), (ow_ctrlr _ _ _ Ho). cbn [MAGIC Z.eqb Pos.eqb].
  apply wp_bind, wp_bind. unfold nvme_get_ns. apply wp_bind, (wp_the _ _ n); [done|]. apply wp_bind, (wp_the _ _ y); [done|].
  rewrite Hp. apply wp_bind, (wp_the _ _ x); [by rewrite Hx|]. rewrite (ow_ctrlr _ _ _ Ho).
  apply wp_bind, wp_use_ctrlr; [by eauto|]. apply wp_bind, wp_get, wp_bind, wp_modify, wp_ret.
  destruct (spdk_get_ns c (n_nsid n) (sp s)) as [h|].
  - apply wp_bind, wp_spdk. cbn [sp set_nspaces]. destruct (c_ns_fini h (sp s)) as [r t] eqn:E. cbn [fst snd].
    destruct (ns_fini_spec _ _ _ _ E) as (E1 & E2 & _). destruct (r =? 0); [|by split]. apply wp_ret, wp_modify.
    split; [done|]. cbn. rewrite list_insert_insert_eq. by apply (Hend t).
  - apply wp_ret, wp_modify. split; [done|]. specialize (Hend (sp s) eq_refl eq_refl). destruct s. cbn in *. by rewrite list_insert_insert_eq.
Qed.

Lemma sets_timeout K l s c i v : held K l s c -> l_nvme0 l = Some i -> 0 <= v < 2 ^ 32 ->
  wp (timeout_set i v) (fun r s' => r = Ok tt /\ held K l s' c) s.
Proof.
  intros Hh Hi Hv. destruct (lookup_lt_is_Some_2 _ _ (he_nvme0 _ _ _ _ Hh i Hi)) as [y Hy].
  destruct (Forall_lookup_1 _ _ _ _ (he_ctrls _ _ _ _ Hh) Hy) as [Hp _]. destruct (he_pcies _ _ _ _ Hh) as (x & Hx & Ho).
  unfold timeout_set. apply wp_bind, (wp_the _ _ y); [done|]. apply wp_bind, wp_lift.
  unfold to_uint. replace ((0 <=? v) && (v <? 2 ^ 32)) with true by lia.
  apply wp_bind, wp_modify, wp_bind, (wp_the _ _ x); [rewrite Hp; cbn; by rewrite Hx|]. rewrite (ow_ctrlr _ _ _ Ho).
  unfold nvme_register_timeout_cb. apply wp_bind, wp_use_ctrlr; [by apply owned_live with x|]. apply wp_spdk. split; [done|].
  destruct (register_spec c (v * 1000) (sp s)) as (E1 & E2 & _). apply held_spdk; [|exact E1|exact E2].
  destruct Hh as [H1 H2 H3 H4 H4' H5 H6 H7 H8 H9]. split; cbn; rewrite ?length_insert; try done. by apply Forall_insert.
Qed.

Lemma uses_bar {A} K l s c i (f : positive -> T -> A * T) : held K l s c -> l_nvme0 l = Some i ->
  (forall t, same_handles t (snd (f c t))) -> wp (on_bar i f) (fun r s' => r = Ok (fst (f c (sp s))) /\ held K l s' c) s.
Proof.
  intros Hh Hi Hf. destruct (lookup_lt_is_Some_2 _ _ (he_nvme0 _ _ _ _ Hh i Hi)) as [y Hy].
  destruct (Forall_lookup_1 _ _ _ _ (he_ctrls _ _ _ _ Hh) Hy) as [Hp _]. destruct (he_pcies _ _ _ _ Hh) as (x & Hx & Ho).
  unfold on_bar. apply wp_bind, (wp_the _ _ y); [done|]. rewrite Hp. apply wp_bind, (wp_the _ _ x); [by rewrite Hx|].
  rewrite (ow_ctrlr _ _ _ Ho). apply wp_bind, wp_use_ctrlr; [by apply owned_live with x|]. apply wp_spdk. split; [done|].
  destruct (Hf (sp s)) as (E1 & E2 & _). by apply held_spdk.
Qed.

Lemma deletes_qpair K l s c k : held K l s c -> l_qpair l = Some k ->
  wp (qpair_delete k) (fun r s' => fine r /\ held frees_queues l s' c) s.
Proof.
  intros Hh Hk. destruct (lookup_lt_is_Some_2 _ _ (he_qpair _ _ _ _ Hh k Hk)) as [q Hq].
  destruct (he_qpairs _ _ _ _ Hh) as [Hone Hqs]. destruct (lookup_lt_is_Some_2 _ _ (Forall_lookup_1 _ _ _ _ Hqs Hq)) as [y Hy].
  destruct (Forall_lookup_1 _ _ _ _ (he_ctrls _ _ _ _ Hh) Hy) as [Hp _]. destruct (he_pcies _ _ _ _ Hh) as (x & Hx & Ho).
  assert (Hend : forall t, ctrlrs t = ctrlrs (sp s) -> qps t = ∅ ->
    held frees_queues l (set_qpairs (<[k := mk_qpair None (q_nvme q)]> (qpairs s)) (set_sp t s)) c).
  { intros t E1 E2. destruct Hh as [_ H2 [H3 H3'] _ _ _ H6 H7 H8 H9]. split; cbn; rewrite ?length_insert, ?E2; try done.
    - exists x. split; [done|]. by apply owned_same with (sp s).
    - split; [done|]. apply Forall_insert; [done|]. exact (Forall_lookup_1 _ _ _ _ H3' Hq).
    - intros k' y' h Hk' Hy'. destruct (decide (k' = k)) as [->|Hne].
      + rewrite list_lookup_insert_eq in Hk' by by apply lookup_lt_Some with q. by injection Hk' as <-.
      + rewrite list_lookup_insert_ne in Hk' by done. apply lookup_lt_Some in Hk'. apply lookup_lt_Some in Hq. lia. }
  assert (Honly : forall h d, qps (sp s) !! h = Some d -> q_ptr q = Some h).
  { intros h d Hd. destruct (he_all _ _ _ _ Hh h d Hd) as (k' & q' & Hk' & Hp'). assert (k' = k) as ->; [|congruence].
    apply lookup_lt_Some in Hk'. apply lookup_lt_Some in Hq. lia. }
  unfold qpair_delete. apply wp_bind, (wp_the _ _ q); [done|]. apply wp_bind, (wp_the _ _ y); [done|]. rewrite Hp.
  apply wp_bind, (wp_the _ _ x); [by rewrite Hx|]. rewrite (ow_magic _ _ _ Ho), (ow_ctrlr _ _ _ Ho). cbn [MAGIC Z.eqb Pos.eqb].
  apply wp_bind. destruct (q_ptr q) as [h|] eqn:Eh.
  - apply wp_bind. unfold qpair_free. pose proof (he_live _ _ _ _ Hh k q h Hq Eh) as Hl. apply wp_bind, (wp_use_qpair _ c); [done|].
    apply wp_spdk. destruct (spdk_free_io_qpair h (sp s)) as [r t] eqn:E. cbn [fst snd]. destruct (Z.eqb_spec r 0) as [->|Hr].
    + apply wp_ret, wp_modify. split; [done|]. destruct (free_ok _ _ _ E) as (E1 & E2 & _). apply (Hend t); [done|].
      rewrite E1. apply map_eq. intros h'. rewrite lookup_empty, lookup_delete_None.
      destruct (qps (sp s) !! h') as [d|] eqn:E'; [left|by right]. specialize (Honly h' d E'). congruence.
    + apply wp_raise. split; [done|]. destruct (free_fail _ _ _ _ E Hr) as (E1 & E2 & _). apply held_spdk; [|done|done].
      apply held_weaken with K; [|done]. intros Hf. specialize (Hf h (sp s)). by rewrite E in Hf.
  - apply wp_ret, wp_modify. split; [done|]. replace s with (set_sp (sp s) s) at 2 by by destruct s. apply Hend; [done|].
    apply map_eq. intros h. rewrite lookup_empty. destruct (qps (sp s) !! h) as [d|] eqn:E'; [by specialize (Honly h d E')|done].
Qed.

Lemma deletes K s mem l b q c i k terminated : held K l s c -> l_nvme0 l = Some i -> l_qpair l = Some k ->
  wp (delete_qpair terminated i k) (fun r w' => r = Ok tt /\ exists s', w' = mk_proc s' mem l b q /\ held frees_queues l s' c) (mk_proc s mem l b q).
Proof.
  intros Hh Hi Hk. unfold delete_qpair. apply wp_bind, wp_on_script. cbn [w_script].
  destruct (lookup_lt_is_Some_2 _ _ (he_nvme0 _ _ _ _ Hh i Hi)) as [y Hy]. destruct (Forall_lookup_1 _ _ _ _ (he_ctrls _ _ _ _ Hh) Hy) as [_ Ht].
  unfold nvme0_timeout. apply wp_bind, (wp_the _ _ y); [done|]. apply wp_ret, wp_bind.
  assert (Hmid : forall s, held K l s c -> wp (try_except (on_script (qpair_delete k)) (fun _ => mret tt))
    (fun r w' => r = Ok tt /\ exists s', w' = mk_proc s' mem l b q /\ held frees_queues l s' c) (mk_proc s mem l b q)).
  { intros s1 H1. apply wp_try, wp_on_script. eapply wp_mono; [exact (deletes_qpair K l s1 c k H1 Hk)|].
    intros [[]|e] s2 [Hf H2]; [by eauto|]. split; [done|]. apply wp_ret. by eauto. }
  destruct terminated.
  - apply wp_bind, wp_on_script. eapply wp_mono; [exact (sets_timeout K l s c i 10 Hh Hi ltac:(lia))|].
    intros r s1 [-> H1]. apply wp_on_script. unfold remap. apply wp_bind.
    eapply wp_mono; [exact (uses_bar K l s1 c i bar_remap H1 Hi (fun t => proj2 (remap_ok c t)))|].
    intros r s2 [-> H2]. rewrite (proj1 (remap_ok c _)). apply wp_ret, wp_bind. eapply wp_mono; [exact (Hmid s2 H2)|].
    intros r w' (-> & s3 & -> & H3). apply wp_bind, wp_on_script. eapply wp_mono; [exact (sets_timeout frees_queues l s3 c i _ H3 Hi Ht)|].
    intros r s4 [-> H4]. apply wp_on_script. eapply wp_mono; [exact (uses_bar frees_queues l s4 c i (fun c t => (tt, bar_recover c t)) H4 Hi (recover_ok c))|].
    intros r s5 [-> H5]. by eauto.
  - apply wp_ret, wp_bind. eapply wp_mono; [exact (Hmid s Hh)|]. intros r w' (-> & s3 & -> & H3). apply wp_ret. by eauto.
Qed.

Lemma releases s mem l q : stage l s -> wp release (fun r w' => fine r /\ exists s', w' = mk_proc s' mem l false q /\ match r with
    | Ok _ => ctrlrs (sp s') = C0 /\ (frees_queues -> qps (sp s') = ∅)
    | Err e => e = NamespaceDeletionError \/ e = NvmeDeletionError end) (mk_proc s mem l false q).
Proof.
  intros Hs. unfold release. apply wp_with_lock. unfold set_locked. cbn [w_script w_mem w_locals w_queue].
  apply wp_bind, wp_get. cbn [w_script w_locals]. set (terminated := negb _). clearbody terminated.
  destruct (stage_held l s Hs) as [(-> & -> & HC & HQ)|(c & Hh & Hp & Hi)].
  { repeat apply wp_bind || apply wp_ret. split; [done|]. split; [done|]. eexists. by split. }
  rewrite Hp. apply wp_bind.
  assert (Hrest : forall s, held frees_queues l s c -> wp ((match l_nvme0n1 l with Some j => on_script (namespace_close j) | None => mret tt end) ;;
      on_script (pcie_close false 0))
    (fun r w' => fine r /\ fine r /\ exists s', set_locked false w' = mk_proc s' mem l false q /\ match r with
      | Ok _ => ctrlrs (sp s') = C0 /\ (frees_queues -> qps (sp s') = ∅)
      | Err e => e = NamespaceDeletionError \/ e = NvmeDeletionError end) (mk_proc s mem l true q)).
  { intros s1 H1. apply wp_bind. assert (Hlast : forall s, held frees_queues l s c -> wp (on_script (pcie_close false 0))
      (fun r w' => fine r /\ fine r /\ exists s', set_locked false w' = mk_proc s' mem l false q /\ match r with
        | Ok _ => ctrlrs (sp s') = C0 /\ (frees_queues -> qps (sp s') = ∅)
        | Err e => e = NamespaceDeletionError \/ e = NvmeDeletionError end) (mk_proc s mem l true q)).
    { intros s2 H2. apply wp_on_script. eapply wp_mono; [exact (closes_pcie frees_queues l s2 c H2)|]. intros r s3 [Hf H3].
      split; [done|]. split; [done|]. exists s3. split; [done|]. destruct r; [done|by right]. }
    destruct (l_nvme0n1 l) as [j|] eqn:Ej; [|by apply wp_ret, Hlast]. apply wp_on_script.
    eapply wp_mono; [exact (closes_namespace frees_queues l s1 c j H1 Ej)|]. intros [[]|e] s2 [Hf H2]; [by apply Hlast|].
    split; [done|]. split; [done|]. exists s2. split; [done|]. by left. }
  destruct (l_qpair l) as [k|] eqn:Ek; [|apply (held_weaken _ frees_queues) in Hh; [|done]; destruct (l_nvme0 l); by apply wp_ret, Hrest].
  destruct (l_nvme0 l) as [i|] eqn:Ei; [|by specialize (Hi eq_refl)].
  eapply wp_mono; [exact (deletes (Some k = None) s mem l true q c i k terminated Hh Ei Ek)|]. intros r w' (-> & s1 & -> & H1). by apply Hrest.
Qed.

Lemma frees l w : foreach free l w = (Ok tt, set_mem (w_mem w ∖ list_to_set l) w).
Proof.
  revert w. induction l as [|f l IH]; intros w; cbn [foreach].
  - unfold set_mem. cbn. rewrite difference_empty_L. by destruct w.
  - rewrite (run_bind_ok _ _ _ tt (set_mem (w_mem w ∖ {[f]}) w)) by done. rewrite IH. unfold set_mem. cbn.
    by rewrite difference_difference_l_L.
Qed.

Lemma frees_all w : free_all w = (Ok tt, set_mem ∅ w).
Proof.
  unfold free_all. rewrite frees. do 2 f_equal. apply set_eq. intros f. rewrite elem_of_difference.
  split; [|by intros ?%not_elem_of_empty]. intros [_ []]. by destruct f; apply (bool_decide_eq_true_1 _).
Qed.

Lemma error_exception : worker_error 0 0 true timeouts_seen < 0.
Proof. unfold worker_error. destruct (Nat.iter _ _ _); cbn; lia. Qed.

(** The [finally] clause, with the error [e] to report. *)
Lemma finishes e w : stage (w_locals w) (w_script w) -> w_locked w = false ->
  wp (modify (rput (MReport e)) ;; (if negb fw_debug || (e =? 0) then release else mret tt) ;; free_all ;; mret e)
    (fun r w' => fine r /\ w_locked w' = false /\ w_queue w' = w_queue w ++ [MReport e] /\ match r with
       | Ok e' => e' = e /\ w_mem w' = ∅
           /\ (fw_debug = false \/ e = 0 -> ctrlrs (sp (w_script w')) = C0 /\ (frees_queues -> qps (sp (w_script w')) = ∅))
       | Err x => x = NamespaceDeletionError \/ x = NvmeDeletionError end) w.
Proof.
  destruct w as [s mem l b q]. cbn. intros Hst ->. apply wp_bind, wp_modify, wp_bind. unfold rput. cbn [w_script w_mem w_locals w_locked w_queue].
  assert (Hfree : forall s' (Q : res Z -> proc T -> Prop), Q (Ok e) (mk_proc s' ∅ l false (q ++ [MReport e])) ->
    wp (free_all ;; mret e) Q (mk_proc s' mem l false (q ++ [MReport e]))).
  { intros s' Q HQ. apply wp_bind. eapply wp_run; [apply frees_all|]. by apply wp_ret. }
  destruct (negb fw_debug || (e =? 0)) eqn:Ed.
  - eapply wp_mono; [exact (releases s mem l _ Hst)|]. intros [[]|x] w' (Hf' & s' & -> & H1); [by apply Hfree|by split].
  - apply wp_ret, Hfree. split_and!; try done. intros [->| ->]; [done|]. by rewrite orb_true_r in Ed.
Qed.

(** C15. A worker gives back what it took, however it ends: for any arguments,
    any failure of an allocation, of opening its objects, of deleting its queue
    pair and of the C entry - which returns, with or without an error - and with
    the drive's power cut or not, the process does not crash, the lock the
    workers share is free again, and exactly one report is put, last, after
    "STARTED" just when the C entry has run (a report without it has a negative
    error).  If the process ends normally, all its arrays are freed and, but for
    a failed worker in debug mode ([fw_debug]), which keeps its objects, its
    controller is detached and its queue pair freed, unless SPDK refuses to free
    it: [Qpair.delete]'s exception is swallowed.  The only exceptions the process
    can end with are those of closing the namespace and the controller, and then
    the arrays are left.  SPDK is any that keeps its laws ([SpdkOk], which do not
    promise that detaching a controller frees queue pairs); the C entry gives
    back what it allocates, and remapping the BAR succeeds. *)
Theorem worker_releases t : ctrlrs t = C0 -> qps t = ∅ ->
  wp _ioworker (fun r w =>
    fine r /\ w_locked w = false
    /\ (exists e, (w_queue w = [MStarted; MReport e] \/ w_queue w = [MReport e] /\ e < 0) /\ (forall e', r = Ok e' -> e' = e))
    /\ match r with
       | Ok e => w_mem w = ∅
           /\ (fw_debug = false \/ e = 0 -> ctrlrs (sp (w_script w)) = C0 /\ (frees_queues -> qps (sp (w_script w)) = ∅))
       | Err e => e = NamespaceDeletionError \/ e = NvmeDeletionError
       end) (mk_proc (start t) ∅ none false []).
Proof.
  intros HC HQ. unfold _ioworker. apply wp_bind, wp_try, wp_bind.
  eapply wp_mono; [exact (body_spec (start t) ∅ (stage_none t HC HQ))|]. intros r w (Hf & Hst & Hl & Hq). pose proof error_exception as Hneg.
  destruct r as [[z st]|x]; [apply wp_ret|split; [done|]; apply wp_ret].
  all: eapply wp_mono; [exact (finishes _ w Hst Hl)|]; rewrite Hq; intros r w' (Hf' & Hl' & Hq' & H1); (split; [done|]); (split; [done|]).
  all: (split; [eexists; split; [first [by left; exact Hq'|by right; split; [exact Hq'|]]|]; intros e' ->; by destruct H1|]); destruct r; [destruct H1 as [-> H1]|]; exact H1.
Qed.
End Process.

(** ** The time of the start *)
Lemma start_at_grid t : start_at t mod 100000 = 0 /\ t + 100000 <= start_at t < t + 200000.
Proof.
  unfold start_at. pose proof (Z.div_mod (- t) 100000 ltac:(lia)). pose proof (Z.mod_pos_bound (- t) 100000 ltac:(lia)). split; [|lia].
  replace (_ * 100000 + 100000) with ((- (- t / 100000) + 1) * 100000) by lia. by apply Z.mod_mul.
Qed.

(** Ready at the same time: within one tenth of a second. *)
Lemma start_at_same t u : start_at t = start_at u <-> (- t) / 100000 = (- u) / 100000.
Proof. unfold start_at. lia. Qed.

(** C16. When a worker starts.  A worker starts at a full tenth of a second,
    0.1 to 0.2 seconds after it was ready; two workers start at the same moment
    just when they became ready in the same tenth of a second, and otherwise
    at least 0.1 seconds apart; and a worker that is held up for longer than it
    would have slept fails with [ValueError] instead. *)
Theorem workers_start_together t1 t2 t3 u1 u2 u3 : 0 < t1 <= t2 -> t2 <= t3 -> 0 < u1 <= u2 -> u2 <= u3 ->
  (sync_start 0 t1 t2 t3 = Err ValueError \/ sync_start 0 t1 t2 t3 = Ok (start_at t2))
  /\ (sync_start 0 t1 t2 t3 = Err ValueError <-> start_at t2 < t3)
  /\ (t3 < t2 + 100000 -> exists s, sync_start 0 t1 t2 t3 = Ok s)
  /\ forall s s', sync_start 0 t1 t2 t3 = Ok s -> sync_start 0 u1 u2 u3 = Ok s' ->
       s mod 100000 = 0 /\ t3 <= s /\ t2 + 100000 <= s < t2 + 200000
       /\ (s = s' <-> (- t2) / 100000 = (- u2) / 100000) /\ (s <> s' -> 100000 <= Z.abs (s - s')).
Proof.
  intros Ht Ht3 Hu Hu3. destruct (start_at_grid t2) as [G1 G2], (start_at_grid u2) as [G3 G4]. unfold sync_start.
  replace (0 <? t1) with true by lia. replace (0 <? u1) with true by lia. split_and!.
  - destruct (_ <? 0); auto.
  - destruct (Z.ltb_spec (start_at t2 - t3) 0); split; (done || lia).
  - intros H. replace (start_at t2 - t3 <? 0) with false by lia. by eexists.
  - intros s s'. destruct (Z.ltb_spec (start_at t2 - t3) 0); [done|]. destruct (_ <? 0); [done|]. intros [= <-] [= <-].
    split_and!; try done; try lia; [apply start_at_same|]. intros Hne.
    apply Z.mod_divide in G1 as [k Hk]; [|lia]. apply Z.mod_divide in G3 as [k' Hk']; [|lia]. nia.
Qed.

(** ** Witnesses *)
Lemma workers_start_together_witness :
  sync_start 0 5030000 5030001 5030050 = Ok 5200000 /\ sync_start 0 5099000 5099001 5200001 = Err ValueError
  /\ sync_start 0 5030000 5030001 5030050 = sync_start 0 5099000 5099001 5099050.
Proof.
  destruct (workers_start_together 5030000 5030001 5030050 5099000 5099001 5099050 ltac:(lia) ltac:(lia) ltac:(lia) ltac:(lia)) as (_ & _ & H1 & H2).
  destruct (workers_start_together 5099000 5099001 5200001 1 1 1 ltac:(lia) ltac:(lia) ltac:(lia) ltac:(lia)) as (_ & H3 & _).
  destruct (H1 ltac:(lia)) as [s Hs]. destruct (H2 s 5200000 Hs ltac:(by vm_compute)) as (_ & _ & _ & H4 & _).
  assert (s = 5200000) as -> by (apply H4; by vm_compute). split; [exact Hs|]. split; [apply H3; by vm_compute|]. rewrite Hs. by vm_compute.
Defined.

(** A worker of 100 reads, on a drive whose power is cut while it runs. *)
Definition reads : config :=
  mk_config [(8, 1)] [8] 0 [(2, 100)] None 0 no_region_end 0 100 10 16 0 None 100 0xbeef None.
Definition toy_entry (_ _ : positive) (_ : c_args) (t : toy) : (Z * Z) * toy := ((0, 0), t).

Abbreviation toy_worker depth avail := (_ioworker (T := toy) true toy_pci (fun _ _ => depth) toy_exists avail toy_entry
  (fun _ => 0x10) (fun _ t => (0, t)) (fun _ t => t) reads "01:00.0" 1 0 0 true true 4 false (5030000, 5030001, 5030050) 0).
Abbreviation fresh := (mk_proc (start toy_start) ∅ (mk_locals None None None None) false []).

Example worker_succeeds : let '(r, w) := toy_worker 1023 (fun _ => true) fresh in
  r = Ok 0 /\ w_queue w = [MStarted; MReport 0] /\ w_mem w = ∅ /\ t_ctrlrs (sp (w_script w)) = ∅.
Proof. by vm_compute. Qed.

(** A queue deeper than the drive allows; an array that cannot be allocated. *)
Example worker_fails : let '(r, w) := toy_worker 7 (fun _ => true) fresh in
  r = Ok (-1) /\ w_queue w = [MReport (-1)] /\ w_mem w = ∅ /\ t_ctrlrs (sp (w_script w)) = ∅.
Proof. by vm_compute. Qed.
Example worker_no_memory : let '(r, w) := toy_worker 1023 (fun f => negb (bool_decide (f = FCmdlog))) fresh in
  r = Ok (-1) /\ w_queue w = [MReport (-1)] /\ w_locals w = mk_locals None None None None.
Proof. by vm_compute. Qed.

Lemma worker_releases_witness : exists w, toy_worker 1023 (fun _ => true) fresh = (Ok 0, w)
  /\ w_locked w = false /\ w_mem w = ∅ /\ t_ctrlrs (sp (w_script w)) = ∅ /\ t_qps (sp (w_script w)) = ∅.
Proof.
  destruct (toy_worker 1023 (fun _ => true) fresh) as [r w] eqn:E. exists w.
  assert (r = Ok 0) as -> by (assert (H : fst (toy_worker 1023 (fun _ => true) fresh) = Ok 0) by (vm_compute; reflexivity); by rewrite E in H).
  assert (H := worker_releases (T := toy) true toy_pci (fun _ _ => 1023) toy_exists (fun _ => true) toy_entry
    (fun _ => 0x10) (fun _ t => (0, t)) (fun _ t => t) reads "01:00.0" 1 0 0 true true 4 false (5030000, 5030001, 5030050) 0
    eq_refl (fun _ _ _ _ => conj eq_refl (conj eq_refl (conj eq_refl eq_refl)))
    (fun _ _ => conj eq_refl (conj eq_refl (conj eq_refl (conj eq_refl eq_refl)))) (fun _ _ => conj eq_refl (conj eq_refl (conj eq_refl eq_refl)))
    ltac:(cbn; lia) ∅ toy_start eq_refl eq_refl).
  unfold wp in H. rewrite E in H. destruct H as (_ & Hl & _ & Hm & Hc). destruct (Hc (or_introl eq_refl)) as [H1 H2].
  by split_and!; [..|exact (H2 (fun _ _ => eq_refl))].
Defined.
