(* ===== verification/Zns.v ===== *)
(** * Zns: zones of a zoned namespace

    [class Zone] of src/scripts/zns.py: a zone, or a super zone of consecutive
    ones, over the commands of Command.v, the identify data of Namespace.v and
    the worker of IOWorker.v.  A [Zone] keeps one buffer that every management
    command reuses, so its methods thread that buffer with the controller's
    state. *)
From Stdlib Require Import ZArith Lia String.
From stdpp Require Import base list numbers option.
From S2P Require Import Prelude PyInt Buffer Command Controller Namespace IOWorker.
Local Open Scope Z_scope.

(** The attributes of a [Zone] that do not change. *)
Record zone := mk_zone {
  z_slba : Z; z_elba : Z; z_capacity : Z; z_nsze : Z; z_ncap : Z; z_zsze : Z;
  z_slba_list : list Z
}.

Definition state_name : list (Z * string) :=
  [ (1, "Empty"); (2, "Implicitly Opened"); (3, "Explicitly Opened"); (4, "Closed");
    (0xd, "Read Only"); (0xe, "Full"); (0xf, "Offline") ]%string.

(** [state_name[s] if s in state_name else 'Reserved'] *)
Definition name_of_state (s : Z) : string :=
  match list_find (fun e => fst e = s) state_name with
  | Some (_, (_, name)) => name
  | None => "Reserved"%string
  end.

Section Zone.
Context {H : Type}.
Variable submit : spdk_cmd -> Z.
Variable exec : spdk_cmd -> list Z -> H -> res (Z * option (list Z)) * H.
Variable new_buffer : Z -> buffer.
Variable ns : namespace.

(** The controller, and [self._buf]. *)
Definition zstate : Type := ctrl (H := H) * buffer.

Definition on_ctrl {A} (m : M ctrl A) : M zstate A := fun '(c, b) =>
  let '(r, c') := m c in (r, (c', b)).
Definition on_buf {A} (m : M buffer A) : M zstate A := fun '(c, b) =>
  let '(r, b') := m b in (r, (c, b')).

(** [self._ns.cmd(self._qpair, self._buf, ...).waitdone()] *)
Definition sync_buf (cmd : buffer -> res spdk_cmd) : M zstate Z := fun '(c, b) =>
  match sync exec (cmd b) (Some b) c with
  | (Ok (v, b'), c') => (Ok v, (c', default b b'))
  | (Err e, c') => (Err e, (c', b))
  end.

Definition mgmt_receive (slba : Z) : M zstate unit :=
  _ ← sync_buf (fun b => zns_mgmt_receive submit ns (Some b) slba None true 0 true);
  v ← on_buf (data_int 64 None);
  py_assert (v =? 2) ;;
  v ← on_buf (data_int 87 (Some 80));
  py_assert (v =? slba).

Definition id_field (byte_end byte_begin cns csi : Z) : M zstate Z :=
  on_ctrl (ns_id_data submit exec new_buffer (ns_id ns) byte_end (Some byte_begin) cns csi 0).

(** [Zone.__init__], with [self._buf] a new buffer. *)
Definition zone_init (slba : Z) (elba : option Z) : M zstate zone :=
  mgmt_receive slba ;;
  capacity ← on_buf (data_int (15 + 64) (Some (8 + 64)));
  let elba := default (slba + capacity) elba in
  nsze ← id_field 7 0 0 0;
  ncap ← id_field 15 8 0 0;
  zsze ← id_field 2831 2816 5 2;
  let zsze := if zsze =? 0 then 0x8000 else zsze in
  let slba_list := py_range slba elba zsze in
  foreach (fun s =>
    if capacity <? zsze then
      _ ← on_ctrl (sync exec (write_uncorrectable submit ns (s + capacity) (zsze - capacity)) None);
      mret tt
    else mret tt) slba_list ;;
  mret (mk_zone slba elba capacity nsze ncap zsze slba_list).

(** The state nibble the ioworker and the [state] property read. *)
Definition read_state (z : zone) : M zstate Z :=
  mgmt_receive (z_slba z) ;;
  v ← on_buf (data_int (1 + 64) None);
  mret (Z.shiftr v 4).

Definition state (z : zone) : M zstate string :=
  s ← read_state z; mret (name_of_state s).

Definition action (z : zone) (action : Z) (slba : option Z) : M zstate unit :=
  _ ← sync_buf (fun b => zns_mgmt_send submit ns (Some b) (default (z_slba z) slba) action false);
  mret tt.

Definition close (z : zone) := action z 1 None.
Definition finish (z : zone) := action z 2 None.
Definition open (z : zone) := action z 3 None.
Definition reset (z : zone) := action z 4 None.
Definition offline (z : zone) := action z 5 None.
Definition set_descriptor_extension (z : zone) := action z 0x10 None.

Definition attributes (z : zone) : M zstate Z :=
  mgmt_receive (z_slba z) ;; on_buf (data_int (2 + 64) None).
Definition wpointer (z : zone) : M zstate Z :=
  mgmt_receive (z_slba z) ;; on_buf (data_int (31 + 64) (Some (24 + 64))).

(** I/O at an offset from the start of the zone. *)
Definition zone_write (z : zone) (buf : option buffer) (token offset lba_count io_flags d13 d14 d15 : Z)
    : res (spdk_cmd * list Z * Z) :=
  write submit ns buf token (z_slba z + offset) lba_count io_flags d13 d14 d15.
Definition zone_read (z : zone) (buf : option buffer) (token offset lba_count io_flags d13 d14 d15 : Z)
    : res (spdk_cmd * list Z * Z) :=
  read submit ns buf token (z_slba z + offset) lba_count io_flags d13 d14 d15.

Definition append (z : zone) (buf : option buffer) (slba : option Z) (lba_count : Z) : res spdk_cmd :=
  let slba := default (z_slba z) slba in
  ns_send_cmd submit 0x7d buf (ns_id ns) (Z.land slba 0xffffffff) (Z.shiftr slba 32)
    (lba_count - 1) 0 0 0.

(** The loop that opens all zones for write. *)
Definition open_zone (z : zone) (s : Z) : M zstate unit :=
  st ← read_state z;
  (if negb (st =? 1) then action z 4 (Some s) else mret tt) ;;
  action z 3 (Some s).

(** The arguments of [Namespace.ioworker], the region and the first LBA
    replaced by the zone's. *)
Definition zone_params (z : zone) (offset_start : Z) (p : params) : params :=
  mk_params (p_io_size p) (p_lba_step p) (p_lba_align p) (p_lba_random p) (p_read_percentage p)
    (p_op_percentage p) (p_time p) (p_qdepth p) (z_slba z) (z_elba z) (p_iops p) (p_io_count p)
    (offset_start + z_slba z)
    (p_distribution p) (p_pvalue p) (p_ptype p) (p_sequence p).

(** [cap] is the controller's CAP register. *)
Definition zone_ioworker (cap : Z) (z : zone) (offset_start : Z) (p : params) : M zstate config :=
  (if negb (p_read_percentage p =? 100) then foreach (open_zone z) (z_slba_list z) else mret tt) ;;
  lift (ioworker cap (zone_params z offset_start p)).
End Zone.

(** ** A zoned device *)
Section Device.
Context {H : Type}.
Variable exec : spdk_cmd -> list Z -> H -> res (Z * option (list Z)) * H.
Variable ns : namespace.

(** What the device keeps of a zone: its state and its write pointer; and how
    many more zones its limits on open and active zones let it open. *)
Variable zone_state : Z -> H -> Z.
Variable write_pointer : Z -> H -> Z.
Variable open_room : H -> Z.

Definition recv_cmd (s : Z) : spdk_cmd :=
  nvme_send_cmd_raw true 0x7a (ns_id ns) (Some (0, 4096)) (lo32 s) (hi32 s) 1023 65537 0 0.
Definition send_cmd (a s : Z) : spdk_cmd :=
  nvme_send_cmd_raw true 0x79 (ns_id ns) (Some (0, 4096)) (lo32 s) (hi32 s) 0 a 0 0.

(** The descriptor of the zone at [s] in a report of the device. *)
Record reports (s st : Z) (pg : list Z) : Prop := {
  r_length : length pg = page;
  r_bytes : Forall is_byte pg;
  r_type : from_le (sub_list 64 1 pg) = 2;
  r_state : from_le (sub_list 65 1 pg) / 16 = st;
  r_slba : from_le (sub_list 80 8 pg) = s
}.

(** Only the zone at [s] changes. *)
Definition only (s : Z) (h h' : H) : Prop :=
  forall t, t <> s -> zone_state t h' = zone_state t h /\ write_pointer t h' = write_pointer t h.

(** Reset and Open of a zone that is read only or offline are refused. *)
Definition usable (s : Z) (h : H) : Prop := zone_state s h <> 0xd /\ zone_state s h <> 0xf.

(** The zone commands of the NVMe ZNS specification, for the zones [zs], as far
    as it has them succeed: Report Zones describes the zone and changes nothing;
    Reset of a zone that is not read only or offline empties it, and takes no
    resources; the write pointer of an empty zone is its start; Open of an empty
    zone, while the limits leave room, makes it explicitly opened. *)
Record zoned (zs : list Z) : Prop := {
  d_report : forall s d h, s ∈ zs ->
    exists v pg, exec (recv_cmd s) d h = (Ok (v, Some pg), h) /\ reports s (zone_state s h) pg;
  d_reset : forall s d h, s ∈ zs -> usable s h ->
    exists v h', exec (send_cmd 4 s) d h = (Ok (v, None), h') /\ zone_state s h' = 1 /\ only s h h'
      /\ open_room h <= open_room h';
  d_open : forall s d h, s ∈ zs -> zone_state s h = 1 -> 0 < open_room h ->
    exists v h', exec (send_cmd 3 s) d h = (Ok (v, None), h') /\ zone_state s h' = 3
      /\ write_pointer s h' = write_pointer s h /\ only s h h' /\ open_room h - 1 <= open_room h';
  d_empty : forall s h, s ∈ zs -> zone_state s h = 1 -> write_pointer s h = s
}.

Lemma only_trans s h1 h2 h3 : only s h1 h2 -> only s h2 h3 -> only s h1 h3.
Proof. intros H12 H23 t Ht. destruct (H12 t Ht), (H23 t Ht). split; congruence. Qed.

(** *** The commands *)
Variable submit : spdk_cmd -> Z.
Hypothesis submit_ok : forall c, submit c = 0.
Hypothesis ns_ok : 0 <= ns_id ns < 2 ^ 32.

Lemma recv_cmd_ok b s :
  page_buffer b -> 0 <= s < 2 ^ 64 ->
  zns_mgmt_receive submit ns (Some b) s None true 0 true = Ok (recv_cmd s).
Proof.
  intros [Hwf Hs Hp Ho] Hr. pose proof (lo32_range s). pose proof (hi32_range s Hr).
  unfold zns_mgmt_receive, py_len, buffer_len, check. rewrite Hs. mrun.
  change (0 <? Z.shiftr 4096 2) with true. change (Z.shiftr 4096 2 - 1) with 1023.
  change (Z.shiftl (Z.b2z true) 16 + Z.shiftl 0 8 + Z.b2z true) with 65537.
  cbn [mbind res_bind]. unfold send_io_raw. rewrite send_raw_ok; [|apply submit_ok|u32_all].
  unfold buf_data. by rewrite Ho, Hp.
Qed.

Lemma send_cmd_ok b a s :
  page_buffer b -> 0 <= s < 2 ^ 64 -> 0 <= a < 256 ->
  zns_mgmt_send submit ns (Some b) s a false = Ok (send_cmd a s).
Proof.
  intros [Hwf Hs Hp Ho] Hr Ha. pose proof (lo32_range s). pose proof (hi32_range s Hr).
  unfold zns_mgmt_send, send_io_raw. change (Z.shiftl (Z.b2z false) 8 + a) with a.
  rewrite send_raw_ok; [|apply submit_ok|u32_all]. unfold buf_data. by rewrite Ho, Hp.
Qed.

(** A report replaces the whole buffer. *)
Lemma report_stored b pg :
  page_buffer b -> length pg = page -> Forall is_byte pg ->
  list_inserts (Z.to_nat (b_offset b)) pg (b_ptr b) = pg /\ page_buffer (with_ptr pg b).
Proof.
  intros [Hwf Hs Hp Ho] Hl Hb. pose proof (wf_len _ Hwf). pose proof page_eq. rewrite Ho. split.
  - change (Z.to_nat 0) with O. rewrite list_inserts_front by lia. rewrite drop_ge by lia.
    by rewrite app_nil_r.
  - split; [|done..]. apply buffer_wf_with_ptr; [done|lia|done].
Qed.

(** A command over the zone's buffer. *)
Lemma sync_buf_run cmd c0 (c : ctrl (H := H)) b v r h' :
  cmd b = Ok c0 -> page_buffer b -> cmd_data c0 = Some (0, 4096) ->
  exec c0 (b_ptr b) (hw c) = (Ok (v, r), h') ->
  sync_buf exec cmd (c, b) =
    (Ok v, (mk_ctrl h' (c_timeout c) (trace c ++ [EvCmd c0 (b_ptr b)]),
      match r with
      | Some l => with_ptr (list_inserts (Z.to_nat (b_offset b)) l (b_ptr b)) b
      | None => b
      end)).
Proof.
  intros Hcmd Hb Hdat He.
  assert (Hd : cmd_bytes c0 (Some b) = b_ptr b).
  { unfold cmd_bytes, sub_list. rewrite Hdat, drop_0.
    apply take_ge. destruct Hb as [Hwf Hs _ _]. pose proof (wf_len _ Hwf). lia. }
  unfold sync_buf, sync. rewrite Hcmd. unfold lift, on_hw, mbind, M_bind. rewrite Hd, He.
  by destruct r.
Qed.

(** A field of the buffer. *)
Lemma field_run (c : ctrl (H := H)) b e begin :
  page_buffer b -> 0 <= default e begin <= e + 1 -> e < 4096 ->
  on_buf (data_int e begin) (c, b) =
    (Ok (from_le (sub_list (default e begin) (e + 1 - default e begin) (b_ptr b))), (c, b)).
Proof.
  intros [Hwf Hs _ _] Hr He. unfold on_buf. by rewrite data_int_run by (rewrite ?Hs; done).
Qed.

Section Loop.
Variable zs : list Z.
Hypothesis dev : zoned zs.
Hypothesis zs_ok : Forall (fun s => 0 <= s < 2 ^ 64) zs.

Lemma zs_range s : s ∈ zs -> 0 <= s < 2 ^ 64.
Proof. intros Hs. apply list_elem_of_lookup in Hs as [i Hi]. exact (Forall_lookup_1 _ _ _ _ zs_ok Hi). Qed.

Lemma read_state_run z c b :
  z_slba z ∈ zs -> page_buffer b ->
  exists c' b', read_state submit exec ns z (c, b) = (Ok (zone_state (z_slba z) (hw c)), (c', b'))
    /\ page_buffer b' /\ hw c' = hw c
    /\ trace c' = trace c ++ [EvCmd (recv_cmd (z_slba z)) (b_ptr b)].
Proof.
  intros Hz Hb.
  destruct (d_report _ dev _ (b_ptr b) (hw c) Hz) as (v & pg & He & [Hl Hby Ht Hst Hsl]).
  destruct (report_stored b pg Hb Hl Hby) as [Hst' Hpb].
  pose proof (sync_buf_run (fun b => zns_mgmt_receive submit ns (Some b) (z_slba z) None true 0 true)
    _ c b _ _ _ (recv_cmd_ok b _ Hb (zs_range _ Hz)) Hb eq_refl He) as Hrun.
  cbn iota in Hrun. rewrite Hst' in Hrun.
  exists (mk_ctrl (hw c) (c_timeout c) (trace c ++ [EvCmd (recv_cmd (z_slba z)) (b_ptr b)])), (with_ptr pg b).
  split; [|split; [exact Hpb|split; reflexivity]].
  unfold read_state, mgmt_receive. rewrite bind_assoc, (run_bind_ok _ _ _ _ _ Hrun).
  rewrite !bind_assoc, (run_bind_ok _ _ _ _ _ (field_run _ _ 64 None Hpb ltac:(cbn; lia) ltac:(lia))).
  change (from_le _ =? 2) with (from_le (sub_list 64 1 pg) =? 2).
  rewrite Ht, !bind_assoc, py_assert_bind. cbn iota. change (2 =? 2) with true. cbn iota.
  rewrite bind_assoc, (run_bind_ok _ _ _ _ _ (field_run _ _ 87 (Some 80) Hpb ltac:(cbn; lia) ltac:(lia))).
  change (from_le _ =? _) with (from_le (sub_list 80 8 pg) =? z_slba z).
  rewrite Hsl, Z.eqb_refl, py_assert_bind.
  rewrite (run_bind_ok _ _ _ _ _ (field_run _ _ (1 + 64) None Hpb ltac:(cbn; lia) ltac:(lia))).
  change (from_le _) with (from_le (sub_list 65 1 pg)).
  rewrite shiftr_div by lia. change (2 ^ 4) with 16. by rewrite Hst.
Qed.

Lemma action_run z a s c b v h' :
  s ∈ zs -> 0 <= a < 256 -> page_buffer b ->
  exec (send_cmd a s) (b_ptr b) (hw c) = (Ok (v, None), h') ->
  exists c', action submit exec ns z a (Some s) (c, b) = (Ok tt, (c', b))
    /\ hw c' = h' /\ trace c' = trace c ++ [EvCmd (send_cmd a s) (b_ptr b)].
Proof.
  intros Hs Ha Hb He.
  pose proof (sync_buf_run (fun b => zns_mgmt_send submit ns (Some b) s a false)
    _ c b _ _ _ (send_cmd_ok b a s Hb (zs_range _ Hs) Ha) Hb eq_refl He) as Hrun.
  eexists. unfold action. cbn [from_option]. unfold id. rewrite (run_bind_ok _ _ _ _ _ Hrun). by split.
Qed.

(** Explicitly opened with nothing written. *)
Definition ready (s : Z) (h : H) : Prop := zone_state s h = 3 /\ write_pointer s h = s.

(** What one pass of the loop may send for the zone at [s]. *)
Definition opens (z : zone) (s : Z) (evs : list event) : Prop :=
  exists d e, evs = [EvCmd (recv_cmd (z_slba z)) d; EvCmd (send_cmd 3 s) e]
           \/ evs = [EvCmd (recv_cmd (z_slba z)) d; EvCmd (send_cmd 4 s) e; EvCmd (send_cmd 3 s) e].

(** One pass: when the state it reads says "not empty", or is the zone's own. *)
Lemma open_zone_run z s c b :
  z_slba z ∈ zs -> s ∈ zs -> page_buffer b ->
  zone_state (z_slba z) (hw c) <> 1 \/ s = z_slba z -> usable s (hw c) -> 0 < open_room (hw c) ->
  exists c' b' evs, open_zone submit exec ns z s (c, b) = (Ok tt, (c', b'))
    /\ page_buffer b' /\ ready s (hw c') /\ only s (hw c) (hw c') /\ open_room (hw c) - 1 <= open_room (hw c')
    /\ trace c' = trace c ++ evs /\ opens z s evs.
Proof.
  intros Hz Hs Hb Hst Hu Hroom. destruct (read_state_run z c b Hz Hb) as (c1 & b1 & Hr & Hb1 & Hh1 & Ht1).
  unfold open_zone. rewrite (run_bind_ok _ _ _ _ _ Hr).
  destruct (Z.eqb_spec (zone_state (z_slba z) (hw c)) 1) as [E|E]; cbn [negb].
  - assert (s = z_slba z) as -> by tauto.
    destruct (d_open _ dev (z_slba z) (b_ptr b1) (hw c1) Hs ltac:(by rewrite Hh1) ltac:(by rewrite Hh1))
      as (v & h2 & He & H3 & Hw & Ho & Hro).
    destruct (action_run z 3 _ c1 b1 _ _ Hs ltac:(lia) Hb1 He) as (c2 & Ha & <- & Ht2).
    exists c2, b1. eexists. rewrite bind_ret_l. split; [exact Ha|]. split; [done|]. split.
    { split; [done|]. rewrite Hw, Hh1. by apply (d_empty _ dev). }
    split; [by rewrite Hh1 in Ho|]. split; [by rewrite Hh1 in Hro|]. rewrite Ht2, Ht1, <- app_assoc. split; [done|]. eexists _, _. by left.
  - destruct (d_reset _ dev s (b_ptr b1) (hw c1) Hs ltac:(by rewrite Hh1)) as (v & h2 & He & H1 & Ho & Hro).
    destruct (action_run z 4 _ c1 b1 _ _ Hs ltac:(lia) Hb1 He) as (c2 & Ha & <- & Ht2).
    destruct (d_open _ dev s (b_ptr b1) (hw c2) Hs H1 ltac:(rewrite Hh1 in Hro; lia)) as (v3 & h3 & He3 & H3 & Hw & Ho3 & Hro3).
    destruct (action_run z 3 _ c2 b1 _ _ Hs ltac:(lia) Hb1 He3) as (c3 & Ha3 & <- & Ht3).
    exists c3, b1. eexists. rewrite (run_bind_ok _ _ _ _ _ Ha). split; [exact Ha3|]. split; [done|]. split.
    { split; [done|]. rewrite Hw. by apply (d_empty _ dev). }
    split; [rewrite Hh1 in Ho; by eapply only_trans|]. split; [rewrite Hh1 in Hro; lia|].
    rewrite Ht3, Ht2, Ht1, <- !app_assoc. split; [done|]. eexists _, _. by right.
Qed.

Lemma usable_only s l h h' : only s h h' -> s ∉ l -> Forall (fun s => usable s h) l -> Forall (fun s => usable s h') l.
Proof.
  intros Ho Hs Hl. apply Forall_lookup. intros i t Ht. pose proof (Forall_lookup_1 _ _ _ _ Hl Ht) as Hu. unfold usable in *.
  destruct (Ho t) as [-> _]; [|done]. intros ->. by apply list_elem_of_lookup_2 in Ht.
Qed.

(** Once the first zone is open, the state that is read says "not empty". *)
Lemma open_rest z l : forall c b,
  z_slba z ∈ zs -> Forall (fun s => s ∈ zs) l -> NoDup l -> z_slba z ∉ l ->
  zone_state (z_slba z) (hw c) = 3 -> page_buffer b ->
  Forall (fun s => usable s (hw c)) l -> Z.of_nat (length l) <= open_room (hw c) ->
  exists c' b' evss, foreach (open_zone submit exec ns z) l (c, b) = (Ok tt, (c', b'))
    /\ Forall (fun s => ready s (hw c')) l
    /\ (forall t, t ∉ l -> zone_state t (hw c') = zone_state t (hw c)
                        /\ write_pointer t (hw c') = write_pointer t (hw c))
    /\ trace c' = trace c ++ concat evss /\ Forall2 (opens z) l evss.
Proof.
  induction l as [|s l IH]; intros c b Hz Hl Hnd Hni H3 Hb Hu Hroom.
  { exists c, b, []. cbn. rewrite app_nil_r. by split_and!. }
  apply Forall_cons_1 in Hl as [Hs Hl]. apply list.NoDup_cons in Hnd as [Hsl Hnd].
  apply not_elem_of_cons in Hni as [Hne Hni].
  destruct (open_zone_run z s c b Hz Hs Hb ltac:(left; lia) (Forall_inv Hu) ltac:(cbn [length] in Hroom; lia))
    as (c1 & b1 & evs & Hr & Hb1 & Hrd & Ho & Hro & Ht & Hop).
  destruct (Ho _ Hne) as [H31 _]. rewrite H3 in H31.
  destruct (IH c1 b1 Hz Hl Hnd Hni H31 Hb1 (usable_only s l _ _ Ho Hsl (Forall_inv_tail Hu)) ltac:(cbn [length] in Hroom; lia)) as (c2 & b2 & evss & Hf & Hall & Hoth & Ht2 & Hops).
  exists c2, b2, (evs :: evss). cbn [foreach]. rewrite (run_bind_ok _ _ _ _ _ Hr). split; [exact Hf|].
  split.
  { constructor; [|exact Hall]. destruct (Hoth _ Hsl) as [E1 E2]. unfold ready. by rewrite E1, E2. }
  split.
  { intros t [Hts Htl]%not_elem_of_cons. destruct (Ho _ Hts), (Hoth _ Htl). split; congruence. }
  split; [cbn [concat]; by rewrite Ht2, Ht, <- app_assoc|by constructor].
Qed.
End Loop.

(** The zones of a [Zone]: the starts its constructor lists. *)
Definition zone_starts (z : zone) : Prop :=
  z_slba_list z = py_range (z_slba z) (z_elba z) (z_zsze z) /\ 0 < z_zsze z
  /\ 0 <= z_slba z < z_elba z /\ z_elba z <= 2 ^ 64.

Lemma zone_starts_cons z :
  zone_starts z -> exists l, z_slba_list z = z_slba z :: l /\ NoDup (z_slba z :: l)
    /\ Forall (fun s => 0 <= s < 2 ^ 64) (z_slba z :: l).
Proof.
  intros (Hl & Hz & Hr & He).
  assert (Hall : Forall (fun s => 0 <= s < 2 ^ 64) (z_slba_list z)).
  { rewrite Hl. apply Forall_lookup. intros i s Hs. apply list_elem_of_lookup_2 in Hs.
    apply elem_of_py_range in Hs; [|lia]. rewrite (proj2 (Z.ltb_lt _ _) Hz) in Hs. lia. }
  assert (Hnd : NoDup (z_slba_list z)).
  { rewrite Hl. unfold py_range. apply NoDup_fmap_2_strong; [|apply NoDup_seq].
    intros i j _ _ E. nia. }
  destruct (z_slba_list z) as [|s l] eqn:E.
  - exfalso. unfold py_range, range_len in Hl. rewrite (proj2 (Z.ltb_lt _ _) Hz) in Hl.
    assert (1 <= (z_elba z - z_slba z + z_zsze z - 1) / z_zsze z) by (apply Z.div_le_lower_bound; lia).
    apply (f_equal length) in Hl. rewrite length_fmap, length_seq in Hl. cbn in Hl. lia.
  - exists l. assert (s = z_slba z) as ->; [|done].
    unfold py_range in Hl. destruct (Z.to_nat _); [done|]. cbn in Hl. injection Hl as -> _. lia.
Qed.

(** C37. [Zone.ioworker] that writes: against a device that follows the zone
    commands' specification, with no zone of the super zone read only or offline
    and room for all of them in its limits on open and active zones, whatever
    else their states were, when the worker is created every zone of the super
    zone is explicitly opened with its write pointer at its start, having been
    reset first where it was not empty.  Only
    Report Zones commands for the first zone and Reset and Open commands for
    the zones themselves, in their order, are sent.  The worker's region is
    exactly the zone, whatever region the arguments name; a worker that only
    reads sends no command. *)
Theorem zone_ioworker_ready z cap offset p c b :
  zone_starts z -> zoned (z_slba_list z) -> page_buffer b ->
  (p_read_percentage p <> 100 ->
    Forall (fun s => usable s (hw c)) (z_slba_list z) -> Z.of_nat (length (z_slba_list z)) <= open_room (hw c) ->
    exists c' b' evss,
    zone_ioworker submit exec ns cap z offset p (c, b)
      = (ioworker cap (zone_params z offset p), (c', b'))
    /\ Forall (fun s => ready s (hw c')) (z_slba_list z)
    /\ trace c' = trace c ++ concat evss /\ Forall2 (opens z) (z_slba_list z) evss)
  /\ (p_read_percentage p = 100 ->
       zone_ioworker submit exec ns cap z offset p (c, b)
         = (ioworker cap (zone_params z offset p), (c, b)))
  /\ (forall g, ioworker cap (zone_params z offset p) = Ok g ->
       g_start g = z_slba z /\ g_end g = z_elba z /\ g_lba_start g = offset + z_slba z).
Proof.
  intros Hzs Hdev Hb. destruct (zone_starts_cons z Hzs) as (l & Hl & Hnd & Hrange).
  rewrite Hl in Hdev. split; [|split].
  - rewrite Hl. intros Hp Hu Hroom. unfold zone_ioworker. rewrite (proj2 (Z.eqb_neq _ _) Hp), Hl. cbn [negb length] in *.
    pose proof (list_elem_of_here (z_slba z) l) as Hz.
    apply list.NoDup_cons in Hnd as [Hni Hnd].
    destruct (open_zone_run _ Hdev Hrange z (z_slba z) c b Hz Hz Hb ltac:(by right) (Forall_inv Hu) ltac:(lia))
      as (c1 & b1 & evs & Hr & Hb1 & Hrd & Ho & Hro & Ht & Hop).
    destruct (open_rest _ Hdev Hrange z l c1 b1 Hz) as (c2 & b2 & evss & Hf & Hall & Hoth & Ht2 & Hops).
    { apply Forall_lookup. intros i s Hs. right. by eapply list_elem_of_lookup_2. }
    1-6: first [exact Hnd|exact Hni|apply Hrd|exact Hb1|lia|exact (usable_only _ _ _ _ Ho Hni (Forall_inv_tail Hu))].
    exists c2, b2, (evs :: evss). cbn [foreach concat].
    rewrite bind_assoc, (run_bind_ok _ _ _ _ _ Hr), (run_bind_ok _ _ _ _ _ Hf). split; [done|].
    split; [|split; [by rewrite Ht2, Ht, <- app_assoc|by constructor]].
    constructor; [|exact Hall]. destruct (Hoth _ Hni) as [E1 E2]. unfold ready. by rewrite E1, E2.
  - intros Hp. unfold zone_ioworker. by rewrite Hp.
  - intros g Hg. unfold ioworker in Hg. cbv zeta in Hg.
    repeat first [apply check_bind in Hg as [_ Hg]|apply res_bind_inv in Hg as (? & _ & Hg)].
    injection Hg as <-. done.
Qed.
End Device.

(** ** Witness: two zones, the second one full *)

(** A zone's state and the blocks written to it, by its start. *)
Definition toy : Type := Z -> Z * Z.
Definition toy_state (s : Z) (h : toy) : Z := fst (h s) mod 16.
Definition toy_pointer (s : Z) (h : toy) : Z := if toy_state s h =? 1 then s else s + snd (h s).
Definition toy_set (s st n : Z) (h : toy) : toy := fun t => if t =? s then (st, n) else h t.
Definition toy_page (st s : Z) : list Z :=
  replicate 64 0 ++ [2; st * 16] ++ replicate 14 0 ++ le_bytes 8 s ++ replicate 4008 0.
Definition toy_exec (c : spdk_cmd) (d : list Z) (h : toy) : res (Z * option (list Z)) * toy :=
  let s := cdw10 c + 2 ^ 32 * cdw11 c in
  if opc c =? 0x7a then (Ok (0, Some (toy_page (toy_state s h) s)), h)
  else if (toy_state s h =? 0xd) || (toy_state s h =? 0xf) then (Ok (0, None), h)
  else if cdw13 c =? 4 then (Ok (0, None), toy_set s 1 0 h)
  else if toy_state s h =? 1 then (Ok (0, None), toy_set s 3 0 h) else (Ok (0, None), h).

(** No limits: both fields of the identify data are FFFFFFFFh. *)
Definition toy_room (h : toy) : Z := 2 ^ 32.

Lemma toy_only s st n h : only toy_state toy_pointer s h (toy_set s st n h).
Proof. intros t Ht. unfold toy_pointer, toy_state, toy_set. by rewrite (proj2 (Z.eqb_neq _ _) Ht). Qed.

Lemma toy_set_state s st n h : 0 <= st < 16 -> toy_state s (toy_set s st n h) = st.
Proof. intros Hst. unfold toy_state, toy_set. rewrite Z.eqb_refl. cbn. by rewrite Z.mod_small. Qed.

Lemma toy_slba s : lo32 s + 2 ^ 32 * hi32 s = s.
Proof. apply lba_split. Qed.

Lemma toy_reports st s : 0 <= st < 16 -> 0 <= s < 2 ^ 64 -> reports s st (toy_page st s).
Proof.
  intros Hst Hs. split.
  - pose proof page_eq. unfold toy_page. rewrite !length_app, !length_replicate, length_le_bytes. cbn [length]. lia.
  - unfold toy_page. repeat apply Forall_app_2; try apply zeros_are_bytes; try apply le_bytes_are_bytes.
    each (unfold is_byte; lia).
  - reflexivity.
  - change (from_le (sub_list 65 1 (toy_page st s))) with (st * 16 + 256 * 0). divmod.
  - change (sub_list 80 8 (toy_page st s)) with (take 8 (le_bytes 8 s ++ replicate 4008 0)).
    rewrite take_app_le by (by rewrite length_le_bytes). rewrite take_ge by (by rewrite length_le_bytes).
    by apply from_le_le_bytes_small.
Qed.

Lemma toy_zoned ns zs : Forall (fun s => 0 <= s < 2 ^ 64) zs -> zoned toy_exec ns toy_state toy_pointer toy_room zs.
Proof.
  intros Hzs. split.
  - intros s d h Hs. exists 0, (toy_page (toy_state s h) s).
    unfold toy_exec. change (cdw10 (recv_cmd ns s) + _) with (lo32 s + 2 ^ 32 * hi32 s).
    rewrite toy_slba. split; [done|]. apply toy_reports; [apply Z.mod_pos_bound; lia|].
    apply list_elem_of_lookup in Hs as [i Hi]. exact (Forall_lookup_1 _ _ _ _ Hzs Hi).
  - intros s d h Hs [Hu1 Hu2]. exists 0, (toy_set s 1 0 h).
    unfold toy_exec. change (cdw10 (send_cmd ns 4 s) + _) with (lo32 s + 2 ^ 32 * hi32 s).
    rewrite toy_slba, (proj2 (Z.eqb_neq _ _) Hu1), (proj2 (Z.eqb_neq _ _) Hu2).
    split; [done|]. split; [by apply toy_set_state|]. split; [apply toy_only|done].
  - intros s d h Hs H1 _. exists 0, (toy_set s 3 0 h).
    unfold toy_exec. change (cdw10 (send_cmd ns 3 s) + _) with (lo32 s + 2 ^ 32 * hi32 s).
    rewrite toy_slba, H1. split; [done|]. split; [by apply toy_set_state|]. split; [|split; [apply toy_only|unfold toy_room; lia]].
    unfold toy_pointer. rewrite H1, toy_set_state by lia. unfold toy_set. rewrite Z.eqb_refl. cbn. lia.
  - intros s h _ H1. unfold toy_pointer. by rewrite H1.
Qed.

Definition example_zone : zone := mk_zone 0 0x8000 0x3000 0x10000 0x10000 0x4000 [0; 0x4000].
Definition example_zones : toy := fun s => if s =? 0 then (1, 0) else (0xe, 0x3000).

Lemma zone_ioworker_ready_witness :
  exists c' b' evss,
    zone_ioworker accept toy_exec example_ns 0xff example_zone 0 (sequential 8 0 1 2 0)
      (mk_ctrl example_zones 10000 [], example_buffer 4096)
    = (ioworker 0xff (zone_params example_zone 0 (sequential 8 0 1 2 0)), (c', b'))
    /\ Forall (fun s => ready toy_state toy_pointer s (hw c')) [0; 0x4000]
    /\ trace c' = [] ++ concat evss /\ Forall2 (opens example_ns example_zone) [0; 0x4000] evss.
Proof.
  apply (zone_ioworker_ready toy_exec example_ns toy_state toy_pointer toy_room accept (fun _ => eq_refl)
    ltac:(split; vm_compute; congruence) example_zone 0xff 0 (sequential 8 0 1 2 0)
    (mk_ctrl example_zones 10000 []) (example_buffer 4096)).
  - unfold zone_starts. split_and!; first [vm_compute; reflexivity|done].
  - apply toy_zoned. repeat constructor; done.
  - apply example_page.
  - done.
  - repeat constructor; done.
  - vm_compute. discriminate.
Defined.
